(* ===== verification/_CoqProject ===== *)
-Q . S2P
Prelude.v
Strings.v
Ulib.v
State.v
Spinlock.v
Code.v
Sched.v
Bio.v
Log.v
Blk.v
Crash.v
LogOps.v
Txn.v
Fs.v
FsDemo.v
FsAlloc.v
FsInode.v
Console.v
ConsoleSpec.v
Dir.v
FsContent.v
FsDir.v
FsLink.v
Mkfs.v
MkfsSpec.v
MkfsImage.v
Printf.v
Grep.v
Umalloc.v
Coroutine.v
CoProg.v
Sh.v
ShSpec.v
Kalloc.v
Vm.v
Smp.v
VmSpec.v
VmUser.v
VmFork.v
Pipe.v
PipeSpec.v
File.v
Proc.v
Exec.v
Sysfile.v
Keep.v
Kinv.v
ShRun.v
Trap.v
KinvOps.v
KinvProc.v
ProcSpec.v
ExecSpec.v
Machine.v
Apic.v
Ide.v
IdeSpec.v
Boot.v
Mp.v
Main.v
MainSpec.v
Asm.v
AsmSpec.v
Co.v
Uprog.v
Urun.v
UprogSpec.v
Utest.v
Usertests.v
UsertestsSpec.v
ShMain.v
