(* ===== verification/Prelude.v ===== *)
(** * xv6 for x86-64: kernel, user programs and coroutine library

    This library models the operating system under [src/] and proves what its parts promise.
    The program is a teaching kernel in C (system calls, processes, virtual memory, pipes, a
    logging file system, device drivers), the host program that builds its disk image, the
    user library, shell and small programs that run on it, and a library of coroutines.

    ** How the code is modelled

    C functions are functions in a state and error monad [M S A] (this file): a call returns
    ([Ok]), gives the CPU away in [sched] and is left waiting ([Blocked]), or ends in an error
    ([Err]: [panic], an access that C leaves undefined, a loop without fuel).  The kernel's
    globals are one record, [State.kst], with a field for every C global or static array; a
    pointer to an element of a static array is its index, other kernel memory is a byte memory
    at its virtual addresses.  Integers are [Z] with the conversions of C written out
    ([u8] to [u64], [i16] to [i64]).  A function in [M] follows one CPU: spin locks are the set of
    locks that the CPU holds.  Where it matters what others do in between, code is a tree with
    its lock operations and switches in sight ([Code.code]), from which the function in [M] is
    made ([Code.run]): [sched], [sleep], [wakeup], [pipewrite] and [piperead] are given that
    way.  [Smp] runs such code on several CPUs, one operation at a time; [PipeSpec] runs it in
    stretches from one switch to the next; [IdeSpec] interleaves the handlers of the disk
    driver, which run with its lock held.  Devices are the operations of a class ([Machine.Device]); what a driver relies
    on of its device is a class of laws with an instance that shows they can be met.  Programs
    that run on the kernel are interaction trees over their system calls ([Uprog], [ShMain]).
    Elsewhere a loop around [sleep] runs one round: [sleep] leaves the run waiting ([Blocked]),
    and the jump back to the loop's head behind it ([Code.again]) is never reached; what the
    process does when it is resumed is not part of that run.

    ** Files

    - [Prelude]: machine integers, the monad and its rules ([wp], [bind_ok]), little-endian
      bytes, lists, byte memory.
    - [Strings], [Ulib]: [string.c] of the kernel, [ulib.c] of the user library.
    - [State]: the data of the kernel ([proc.h], [buf.h], [file.h], [fs.h], [param.h] and the
      statics of the C files).  [Spinlock]: [spinlock.c].  [Code]: code with its lock operations
      and switches.  [Sched]: [sleep], [wakeup], [sched], [kill] of [proc.c] and [sleeplock.c].
      [Smp]: several CPUs.
    - [Bio]: [bio.c] over the memory disk [memide.c].  [Log]: [log.c].  [Blk]: what the cache
      promises to its clients.  [Crash]: recovery.  [LogOps]: [begin_op], [log_write], [end_op].
      [Txn]: rules for code inside a transaction.
    - [Fs], [Dir]: [fs.c] (blocks and inodes; contents, directories, paths).  [FsAlloc],
      [FsInode], [FsContent], [FsDir], [FsLink]: their theorems; [FsDemo]: a disk for the
      examples.
    - [Mkfs]: [mkfs.c].  [MkfsSpec], [MkfsImage]: the image that it builds.
    - [Console], [ConsoleSpec]: [console.c], [kbd.c], [uart.c].  [Printf]: [printf.c].
    - [Kalloc]: [kalloc.c].  [Vm]: [vm.c]; [VmSpec], [VmUser], [VmFork]: page tables as trees,
      user memory, copying and freeing of address spaces.
    - [Pipe]: [pipe.c]; [PipeSpec]: pipes under every interleaving.  [File]: [file.c].  [Proc]: [proc.c].  [Exec]: [exec.c] and argument
      fetching of [syscall.c].  [Sysfile]: [sysfile.c], [sysproc.c], dispatch of [syscall.c].
      [Trap]: [trap.c].
    - [Keep]: the kernel code that leaves the tables of processes and files alone.  [Kinv]: the
      invariant of these tables and rules to run code on them.  [KinvOps], [KinvProc]: that the
      system calls and traps keep it.  [ProcSpec]: [fork] and [wait].  [ExecSpec]: the new image
      of [exec].
    - [Machine]: port and register access of [x86.h].  [Apic]: [ioapic.c], [lapic.c].  [Ide],
      [IdeSpec]: [ide.c].  [Mp]: [mp.c].  [Boot]: the boot loader [bootmain.c].  [Main]: [main.c]
      with the descriptor tables of [vm.c] and [mmu.h]; [MainSpec]: how the processor reads them.
    - [Asm]: the instructions of [swtch.S], [trapasm.S] and [usys.S]; [AsmSpec]: trap frames and
      system calls from the user's side; [Co]: the example [co.c] of a context switch.
    - [Grep]: [grep.c].  [Umalloc]: [umalloc.c].  [Coroutine]: [coroutine.c]; [CoProg]: the
      programs [co_easy.c], [co_normal.c] and [co_hard.c] that use it.
    - [Sh], [ShSpec]: the shell's parser.  [ShRun]: [runcmd].  [ShMain]: the main loop of
      [sh.c].  [Uprog]: the small programs and [initcode.S].  [Urun]: running them over an
      operating system; [UprogSpec]: [cat] and [wc]; [Utest]: [forktest.c], [stressfs.c] and
      [main] of [grep.c]; [Usertests], [UsertestsSpec]: [usertests.c].

    ** What the theorems show

    - Crash safety: a commit is atomic whenever the machine stops, and recovery can itself be
      interrupted ([Crash]); the last [end_op] makes a transaction durable ([LogOps]).
    - The file system: the bitmap as a set of free blocks, the inode cache without duplicates,
      inode encoding, reading and writing as operations on byte sequences, directory lookup and
      linking as inverse operations, path splitting; and that [mkfs] builds an image that this
      code reads back.
    - Memory: free pages are neither lost nor duplicated; growing, copying and freeing an
      address space acts on exactly its pages; [copyout] is seen by the processor.  The user
      allocator keeps blocks disjoint and coalesces them.
    - Processes: every system call and trap that returns or gives up the CPU leaves the tables of
      processes, descriptors and files consistent, with reference counts that are the numbers of
      references (but for the one file that an [exit] has just closed); [fork] copies a process
      and [wait] takes it apart again, page by page; [exec] gives it a new image, with the
      arguments where the new program looks for them, or leaves it as it was.
    - Control: a context switch away and back is a call that returns, and a system call or a
      trap gives the C code a frame with the user's registers and the user what the C code
      leaves in it.
    - Starting: the boot loader puts the kernel where its header says, and the segments, task
      state and system call registers of a processor fit together.
    - Pipes as bounded queues under every interleaving of readers and writers that sleep inside
      their calls; sleeping without lost wake-ups under every order of the steps of several
      CPUs; the IDE queue as an abstract disk under every interleaving of requests and interrupts.
    - The console as a line editor, [grep]'s matcher against a denotation of patterns, the
      shell's parser as inverse of a printer and its descriptors for pipelines, [cat] and [wc]
      against their definitions on whole files, the pipe test that accepts exactly what its
      other side sends.
    - Defects: theorems of kind error and bounds prove what the code does where it does not
      do what it should (the log's reservation, the overlapping [memmove] of the user library,
      short reads in [grep], the coroutine list and the program that shows it, the map of I/O
      ports of user programs); the theorems on [copyuvm],
      [fork] and [exec] say where the kernel follows a null pointer when memory runs out or an
      argument is longer than the memory below the stack.

    ** Fuel

    A loop that is not structural takes fuel, computed from its input where it is called, and
    the theorems prove that it is enough: [bget_fuel] (one round per buffer), [rw_fuel] (one
    per block of a transfer), [dir_fuel] (one per entry), [vm_fuel] (one per page), [kill_fuel]
    (one per byte of the input buffer), [list_fuel] (one per header in the heap), [parse_fuel]
    (a constant times the length of the line), [iappend] (one per byte).  Where the bound is
    the caller's business it is a parameter: the polls of a device ([wait]), the length of a
    string that has no NUL in sight.

    ** Not modelled

    The assembly that starts the processor in its modes ([bootasm.S], [entry.S],
    [entryother.S]) and the generated table [vectors.S].  The instructions of [swtch.S] and
    [trapasm.S] are modelled on their own ([Asm]); in the model of the kernel [Blocked] stands
    for the switch to the scheduler, and the saved context of a process is reduced to where it
    resumes.  Memory ordering between CPUs; what a second processor does while the boot
    processor waits for it is an argument of [Main.startothers].  Header files of declarations
    ([defs.h], [types.h], [user.h] for the most part) have nothing to translate. *)
From Stdlib Require Import ZArith Lia.
From stdpp Require Import base gmap list strings numbers.

Local Open Scope Z_scope.

(** ** Machine integers

    C integers are [Z] with their wrap-around written out: [u8], [u16],
    [u32], [u64] are the unsigned conversions, [i16], [i32], [i64] the
    two's-complement ones. *)
Definition u8 (x : Z) : Z := x mod 2 ^ 8.
Definition u16 (x : Z) : Z := x mod 2 ^ 16.
Definition u32 (x : Z) : Z := x mod 2 ^ 32.
Definition u64 (x : Z) : Z := x mod 2 ^ 64.
Definition i16 (x : Z) : Z := (x + 2 ^ 15) mod 2 ^ 16 - 2 ^ 15.
Definition i32 (x : Z) : Z := (x + 2 ^ 31) mod 2 ^ 32 - 2 ^ 31.
Definition i64 (x : Z) : Z := (x + 2 ^ 63) mod 2 ^ 64 - 2 ^ 63.

(** A value fits in one byte. *)
Definition is_byte (b : Z) : Prop := 0 <= b < 256.

(** ** The state and error monad

    Kernel code threads a state.  A call returns ([Ok]), gives the CPU away in
    [sched()] and is then waiting for another process ([Blocked], with the
    state it leaves behind), or stops: [panic()], an access that C leaves
    undefined, or a loop that was given too little fuel. *)
Inductive error : Type :=
| EPanic (msg : string)
| EFault (what : string)
| EFuel.

Inductive outcome (S A : Type) : Type :=
| Ok (a : A) (s : S)
| Blocked (s : S)
| Err (e : error).
Arguments Ok {S A} a s.
Arguments Blocked {S A} s.
Arguments Err {S A} e.

Definition M (S A : Type) : Type := S -> outcome S A.

#[global] Instance M_ret (S : Type) : MRet (M S) := fun A a s => Ok a s.
#[global] Instance M_bind (S : Type) : MBind (M S) := fun A B f m s =>
  match m s with
  | Ok a s' => f a s'
  | Blocked s' => Blocked s'
  | Err e => Err e
  end.

Definition get {S : Type} : M S S := fun s => Ok s s.
Definition put {S : Type} (s : S) : M S unit := fun _ => Ok tt s.
Definition gets {S A : Type} (f : S -> A) : M S A := fun s => Ok (f s) s.
Definition modify {S : Type} (f : S -> S) : M S unit := fun s => Ok tt (f s).
Definition fail {S A : Type} (e : error) : M S A := fun _ => Err e.
Definition panic {S A : Type} (msg : string) : M S A := fail (EPanic msg).
Definition fault {S A : Type} (what : string) : M S A := fail (EFault what).

(** A pointer or array access: [None] is an access outside the object. *)
Definition deref {S A : Type} (what : string) (o : option A) : M S A :=
  match o with
  | Some a => mret a
  | None => fault what
  end.

(** ** Total-correctness reasoning

    [wp m Q s]: from [s] the code [m] returns, and its result and final
    state satisfy [Q].  A panic, a fault, a sleep or missing fuel makes it
    false. *)
Definition wp {S A : Type} (m : M S A) (Q : A -> S -> Prop) (s : S) : Prop :=
  match m s with
  | Ok a s' => Q a s'
  | _ => False
  end.

Section wp_rules.
Context {S : Type}.
Implicit Types s : S.

Lemma wp_ret {A} (a : A) (Q : A -> S -> Prop) s : Q a s -> wp (mret a) Q s.
Proof. done. Qed.

Lemma wp_bind {A B} (m : M S A) (f : A -> M S B) Q s :
  wp m (fun a => wp (f a) Q) s -> wp (m ≫= f) Q s.
Proof. unfold wp, mbind, M_bind. by destruct (m s). Qed.

Lemma wp_bind_inv {A B} (m : M S A) (f : A -> M S B) Q s :
  wp (m ≫= f) Q s -> wp m (fun a => wp (f a) Q) s.
Proof. unfold wp, mbind, M_bind. by destruct (m s). Qed.

Lemma wp_mono {A} (m : M S A) (P Q : A -> S -> Prop) s :
  wp m P s -> (forall a s', P a s' -> Q a s') -> wp m Q s.
Proof. unfold wp. destruct (m s); naive_solver. Qed.

Lemma wp_get (Q : S -> S -> Prop) s : Q s s -> wp get Q s.
Proof. done. Qed.

Lemma wp_put s' (Q : unit -> S -> Prop) s : Q tt s' -> wp (put s') Q s.
Proof. done. Qed.

Lemma wp_gets {A} (f : S -> A) (Q : A -> S -> Prop) s : Q (f s) s -> wp (gets f) Q s.
Proof. done. Qed.

Lemma wp_modify (f : S -> S) (Q : unit -> S -> Prop) s :
  Q tt (f s) -> wp (modify f) Q s.
Proof. done. Qed.

Lemma wp_deref {A} w (o : option A) a (Q : A -> S -> Prop) s :
  o = Some a -> Q a s -> wp (deref w o) Q s.
Proof. by intros ->. Qed.

Lemma wp_ok {A} (m : M S A) Q s :
  wp m Q s <-> exists a s', m s = Ok a s' /\ Q a s'.
Proof. unfold wp. destruct (m s); naive_solver. Qed.

Lemma wp_conj {A} (m : M S A) P Q s :
  wp m P s -> wp m Q s -> wp m (fun a s' => P a s' /\ Q a s') s.
Proof. unfold wp. by destruct (m s). Qed.
End wp_rules.

(** [wp_step] runs one primitive of the monad; [wp_use H] applies the
    specification [H] of a called function. *)
Ltac wp_step :=
  lazymatch goal with
  | |- wp (mbind _ _) _ _ => apply wp_bind
  | |- wp (mret _) _ _ => apply wp_ret
  | |- wp get _ _ => apply wp_get
  | |- wp (put _) _ _ => apply wp_put
  | |- wp (gets _) _ _ => apply wp_gets
  | |- wp (modify _) _ _ => apply wp_modify
  end.
Ltac wp_steps := repeat (wp_step; cbn beta).
Tactic Notation "wp_use" uconstr(H) := eapply wp_mono; [eapply H|].

(** Run the first half of a bind whose result is known. *)
Lemma bind_ok {S A B} (m : M S A) (f : A -> M S B) s a s' :
  m s = Ok a s' -> (m ≫= f) s = f a s'.
Proof. intros H. unfold mbind, M_bind. by rewrite H. Qed.

Lemma bind_ok_inv {S A B} (m : M S A) (f : A -> M S B) s b s' :
  (m ≫= f) s = Ok b s' -> exists a s1, m s = Ok a s1 /\ f a s1 = Ok b s'.
Proof. unfold mbind, M_bind. destruct (m s) as [a s1| |]; [|discriminate..]. by exists a, s1. Qed.

Lemma bind_blocked {S A B} (m : M S A) (f : A -> M S B) s s' : m s = Blocked s' -> (m ≫= f) s = Blocked s'.
Proof. intros E. unfold mbind, M_bind. by rewrite E. Qed.

Create HintDb kernel.

(** ** Integer lemmas *)
Lemma u8_range x : 0 <= u8 x < 256.
Proof. unfold u8. apply Z.mod_pos_bound. lia. Qed.
Lemma u32_range x : 0 <= u32 x < 2 ^ 32.
Proof. unfold u32. apply Z.mod_pos_bound. lia. Qed.
Lemma u64_range x : 0 <= u64 x < 2 ^ 64.
Proof. unfold u64. apply Z.mod_pos_bound. lia. Qed.
Lemma u8_small x : 0 <= x < 256 -> u8 x = x.
Proof. intros. unfold u8. apply Z.mod_small. lia. Qed.
Lemma u16_small x : 0 <= x < 2 ^ 16 -> u16 x = x.
Proof. intros. unfold u16. apply Z.mod_small. lia. Qed.
Lemma u32_small x : 0 <= x < 2 ^ 32 -> u32 x = x.
Proof. intros. unfold u32. apply Z.mod_small. lia. Qed.
Lemma u64_small x : 0 <= x < 2 ^ 64 -> u64 x = x.
Proof. intros. unfold u64. apply Z.mod_small. lia. Qed.
Lemma i32_small x : - 2 ^ 31 <= x < 2 ^ 31 -> i32 x = x.
Proof. intros. unfold i32. rewrite Z.mod_small; lia. Qed.
Lemma i16_small x : - 2 ^ 15 <= x < 2 ^ 15 -> i16 x = x.
Proof. intros. unfold i16. rewrite Z.mod_small; lia. Qed.
Lemma u32_add_l a b : u32 (u32 a + b) = u32 (a + b).
Proof. unfold u32. apply Zplus_mod_idemp_l. Qed.
Lemma u32_sub_l a b : u32 (u32 a - b) = u32 (a - b).
Proof. unfold u32. apply Zminus_mod_idemp_l. Qed.
Lemma u32_sub_r a b : u32 (a - u32 b) = u32 (a - b).
Proof. unfold u32. apply Zminus_mod_idemp_r. Qed.

#[export] Hint Resolve u8_range u32_range u64_range : kernel.
#[export] Hint Rewrite u8_small u16_small u32_small u64_small using lia : kernel.

(** ** Little-endian values, as the x86 stores them *)
Fixpoint le_bytes (n : nat) (v : Z) : list Z :=
  match n with
  | O => []
  | S n' => v mod 256 :: le_bytes n' (v / 256)
  end.

Fixpoint le_val (l : list Z) : Z :=
  match l with
  | [] => 0
  | b :: l' => b + 256 * le_val l'
  end.

Lemma length_le_bytes n v : length (le_bytes n v) = n.
Proof. revert v. induction n; intros; simpl; auto. Qed.
Lemma length_words n l : length (mjoin (le_bytes n <$> l)) = (n * length l)%nat.
Proof.
  induction l as [|v l IH]; [cbn; lia|].
  change (mjoin (le_bytes n <$> v :: l)) with (le_bytes n v ++ mjoin (le_bytes n <$> l)).
  rewrite length_app, length_le_bytes, IH. cbn [length]. lia.
Qed.

Lemma le_bytes_is_byte n v : Forall is_byte (le_bytes n v).
Proof.
  revert v. induction n; intros v; simpl; constructor; auto.
  unfold is_byte. apply Z.mod_pos_bound. lia.
Qed.

Lemma le_val_bytes n v : le_val (le_bytes n v) = v mod 2 ^ (8 * Z.of_nat n).
Proof.
  revert v. induction n as [|n IH]; intros v.
  - simpl. by rewrite Z.mod_1_r.
  - cbn [le_bytes le_val]. rewrite IH.
    replace (8 * Z.of_nat (S n)) with (8 + 8 * Z.of_nat n) by lia.
    rewrite Z.pow_add_r by lia. change (2 ^ 8) with 256.
    rewrite Z.rem_mul_r; lia.
Qed.

Lemma le_val_bytes_small n v :
  0 <= v < 2 ^ (8 * Z.of_nat n) -> le_val (le_bytes n v) = v.
Proof. intros. rewrite le_val_bytes. by apply Z.mod_small. Qed.

Lemma le_val_range l :
  Forall is_byte l -> 0 <= le_val l < 2 ^ (8 * Z.of_nat (length l)).
Proof.
  induction 1 as [|b l Hb _ IH]; [simpl; lia|].
  cbn [le_val length]. unfold is_byte in Hb.
  replace (8 * Z.of_nat (S (length l))) with (8 + 8 * Z.of_nat (length l)) by lia.
  rewrite Z.pow_add_r by lia. change (2 ^ 8) with 256. lia.
Qed.

Lemma le_bytes_val l : Forall is_byte l -> le_bytes (length l) (le_val l) = l.
Proof.
  induction 1 as [|b l Hb _ IH]; [done|].
  cbn [le_val length le_bytes]. unfold is_byte in Hb. f_equal.
  - rewrite (Z.mul_comm 256), Z.mod_add by lia. apply Z.mod_small. lia.
  - rewrite (Z.mul_comm 256), Z.div_add by lia.
    rewrite Z.div_small by lia. rewrite Z.add_0_l. apply IH.
Qed.

(** ** Overwriting a part of a list

    [splice l off new] is [memmove(l + off, new, length new)] on a list of
    bytes that is long enough. *)
Definition splice {A} (l : list A) (off : nat) (new : list A) : list A :=
  take off l ++ new ++ drop (off + length new) l.

(** [slice l off n] are the [n] elements from position [off]. *)
Definition slice {A} (l : list A) (off n : nat) : list A := take n (drop off l).

Section splice_lemmas.
Context {A : Type}.
Implicit Types l new : list A.

Lemma length_splice l off new :
  (off + length new <= length l)%nat -> length (splice l off new) = length l.
Proof. intros. unfold splice. rewrite !length_app, length_take, length_drop. lia. Qed.

Lemma length_slice l off n :
  (off + n <= length l)%nat -> length (slice l off n) = n.
Proof. intros. unfold slice. rewrite length_take, length_drop. lia. Qed.

Lemma lookup_slice l off n i :
  (i < n)%nat -> slice l off n !! i = l !! (off + i)%nat.
Proof. intros. unfold slice. rewrite lookup_take_lt by lia. apply lookup_drop. Qed.

Lemma lookup_splice_old l off new i :
  (off + length new <= length l)%nat ->
  (i < off \/ off + length new <= i)%nat -> splice l off new !! i = l !! i.
Proof.
  intros Hlen [Hi|Hi]; unfold splice.
  - rewrite lookup_app_l by (rewrite length_take; lia). by apply lookup_take_lt.
  - rewrite lookup_app_r by (rewrite length_take; lia).
    rewrite length_take, Nat.min_l by lia.
    rewrite lookup_app_r by lia. rewrite lookup_drop. f_equal. lia.
Qed.

Lemma lookup_splice_new l off new i :
  (off + length new <= length l)%nat ->
  (off <= i < off + length new)%nat -> splice l off new !! i = new !! (i - off)%nat.
Proof.
  intros Hlen Hi. unfold splice.
  rewrite lookup_app_r by (rewrite length_take; lia).
  rewrite length_take, Nat.min_l by lia. by rewrite lookup_app_l by lia.
Qed.

Lemma slice_splice_same l off new :
  (off + length new <= length l)%nat -> slice (splice l off new) off (length new) = new.
Proof.
  intros. apply list_eq. intros i.
  destruct (decide (i < length new)%nat).
  - rewrite lookup_slice, lookup_splice_new by lia. f_equal. lia.
  - rewrite !lookup_ge_None_2; [done|lia|].
    rewrite length_slice; rewrite ?length_splice; lia.
Qed.

Lemma slice_splice_other l off new off' n :
  (off + length new <= length l)%nat -> (off' + n <= length l)%nat ->
  (off' + n <= off \/ off + length new <= off')%nat ->
  slice (splice l off new) off' n = slice l off' n.
Proof.
  intros. apply list_eq. intros i.
  destruct (decide (i < n)%nat).
  - rewrite !lookup_slice by lia. apply lookup_splice_old; lia.
  - rewrite !lookup_ge_None_2; [done| |];
      rewrite length_slice; rewrite ?length_splice; lia.
Qed.

Lemma splice_slice_id l off n :
  (off + n <= length l)%nat -> splice l off (slice l off n) = l.
Proof.
  intros. unfold splice. rewrite length_slice by lia. unfold slice.
  rewrite <- (drop_drop l n off). by rewrite take_drop, take_drop.
Qed.

Lemma splice_all l new : length new = length l -> splice l 0 new = new.
Proof.
  intros Hlen. unfold splice. simpl.
  rewrite drop_ge by lia. by rewrite app_nil_r.
Qed.

Lemma Forall_splice (P : A -> Prop) l off new :
  Forall P l -> Forall P new -> Forall P (splice l off new).
Proof.
  intros. unfold splice. apply Forall_app; split; [by apply Forall_take|].
  apply Forall_app; split; [done|by apply Forall_drop].
Qed.

Lemma Forall_slice (P : A -> Prop) l off n : Forall P l -> Forall P (slice l off n).
Proof. intros. by apply Forall_take, Forall_drop. Qed.
End splice_lemmas.

Lemma alter_at {A} (f : A -> A) (l : list A) i x :
  l !! i = Some x -> alter f i l = <[i := f x]> l.
Proof.
  intros Hx. apply list_eq. intros j. rewrite list_lookup_alter. destruct (decide (i = j)) as [->|].
  - rewrite Hx, list_lookup_insert_eq; [done|by eapply lookup_lt_Some].
  - by rewrite list_lookup_insert_ne.
Qed.

(** ** Byte-addressed memory *)
Definition mem : Type := Z -> Z.

Definition upd (m : mem) (a v : Z) : mem := fun x => if x =? a then v else m x.

(** [n] consecutive bytes from [a]. *)
Fixpoint read_bytes (m : mem) (a : Z) (n : nat) : list Z :=
  match n with
  | O => []
  | S n' => m a :: read_bytes m (a + 1) n'
  end.

Fixpoint write_bytes (m : mem) (a : Z) (l : list Z) : mem :=
  match l with
  | [] => m
  | b :: l' => write_bytes (upd m a b) (a + 1) l'
  end.

(** Little-endian loads and stores of [n] bytes. *)
Definition load (n : nat) (m : mem) (a : Z) : Z := le_val (read_bytes m a n).
Definition store (n : nat) (m : mem) (a v : Z) : mem := write_bytes m a (le_bytes n v).

Lemma upd_eq m a v : upd m a v a = v.
Proof. unfold upd. by rewrite Z.eqb_refl. Qed.

Lemma upd_ne m a v x : x <> a -> upd m a v x = m x.
Proof. intros. unfold upd. by rewrite (proj2 (Z.eqb_neq x a)). Qed.

Lemma length_read_bytes m a n : length (read_bytes m a n) = n.
Proof. revert a. induction n; intros; simpl; auto. Qed.

Lemma read_bytes_ext m m' a n :
  (forall x, a <= x < a + Z.of_nat n -> m x = m' x) ->
  read_bytes m a n = read_bytes m' a n.
Proof.
  revert a. induction n as [|n IH]; intros a Hx; [done|]. simpl. f_equal.
  - apply Hx. lia.
  - apply IH. intros. apply Hx. lia.
Qed.

Lemma write_bytes_old m a l x :
  ~ (a <= x < a + Z.of_nat (length l)) -> write_bytes m a l x = m x.
Proof.
  revert m a. induction l as [|b l IH]; intros m a Hx; [done|]. simpl in *.
  rewrite IH by lia. apply upd_ne. lia.
Qed.

Lemma write_bytes_new m a l i :
  (i < length l)%nat -> write_bytes m a l (a + Z.of_nat i) = nth i l 0.
Proof.
  revert m a i. induction l as [|b l IH]; intros m a i Hi; [simpl in Hi; lia|].
  cbn [write_bytes]. destruct i as [|i].
  - rewrite write_bytes_old by lia. rewrite Z.add_0_r. apply upd_eq.
  - cbn [length nth] in *. replace (a + Z.of_nat (S i)) with (a + 1 + Z.of_nat i) by lia.
    apply IH. lia.
Qed.

Lemma read_write_bytes m a l : read_bytes (write_bytes m a l) a (length l) = l.
Proof.
  revert m a. induction l as [|b l IH]; intros m a; [done|]. simpl.
  rewrite IH. f_equal. rewrite write_bytes_old by lia. apply upd_eq.
Qed.

Lemma load_store_same n m a v : load n (store n m a v) a = v mod 2 ^ (8 * Z.of_nat n).
Proof.
  unfold load, store. pose proof (read_write_bytes m a (le_bytes n v)) as H.
  rewrite length_le_bytes in H. rewrite H. apply le_val_bytes.
Qed.

Lemma store_old n m a v x : ~ (a <= x < a + Z.of_nat n) -> store n m a v x = m x.
Proof. intros. unfold store. apply write_bytes_old. by rewrite length_le_bytes. Qed.

Lemma load_store_other n n' m a v a' :
  (a' + Z.of_nat n' <= a \/ a + Z.of_nat n <= a') ->
  load n' (store n m a v) a' = load n' m a'.
Proof.
  intros. unfold load. f_equal. apply read_bytes_ext.
  intros. apply store_old. lia.
Qed.

Lemma load_ext n m m' a :
  (forall x, a <= x < a + Z.of_nat n -> m x = m' x) -> load n m a = load n m' a.
Proof. intros. unfold load. f_equal. by apply read_bytes_ext. Qed.
