(* ===== verification/Strings.v ===== *)
(** The kernel's string and memory routines, [src/string.c].

    Routines that write take the memory and return the new one, a byte at a
    time in the order of the C loops, so overlapping arguments behave as in
    the code.  A routine that only reads takes the bytes from its pointer on
    ([from m p]).  A loop that runs to a NUL byte takes fuel and returns
    [None] when it has too little. *)
From Stdlib Require Import ZArith Lia.
From stdpp Require Import base list numbers.
From S2P Require Import Prelude.

Local Open Scope Z_scope.

(** The bytes from pointer [p] on. *)
Definition from (m : mem) (p : Z) : Z -> Z := fun i => m (p + i).

(** [*d++ = *s++], [n] times. *)
Fixpoint copy_fwd (n : nat) (m : mem) (d s : Z) : mem :=
  match n with
  | O => m
  | S n' => copy_fwd n' (upd m d (m s)) (d + 1) (s + 1)
  end.

(** [*--d = *--s], [n] times. *)
Fixpoint copy_bwd (n : nat) (m : mem) (d s : Z) : mem :=
  match n with
  | O => m
  | S n' => copy_bwd n' (upd m (d - 1) (m (s - 1))) (d - 1) (s - 1)
  end.

(** [rep stosb] and [rep stosl] of [src/x86.h]. *)
Fixpoint stosb_loop (cnt : nat) (m : mem) (addr data : Z) : mem :=
  match cnt with
  | O => m
  | S cnt' => stosb_loop cnt' (upd m addr (u8 data)) (addr + 1) data
  end.
Definition stosb (m : mem) (addr data cnt : Z) : mem :=
  stosb_loop (Z.to_nat cnt) m addr data.

Fixpoint stosl_loop (cnt : nat) (m : mem) (addr data : Z) : mem :=
  match cnt with
  | O => m
  | S cnt' => stosl_loop cnt' (store 4 m addr (u32 data)) (addr + 4) data
  end.
Definition stosl (m : mem) (addr data cnt : Z) : mem :=
  stosl_loop (Z.to_nat cnt) m addr data.

(** [memset]: four bytes at a time when the pointer and the length allow. *)
Definition memset (m : mem) (dst c n : Z) : mem :=
  if (dst mod 4 =? 0) && (n mod 4 =? 0) then
    let c := Z.land c 255 in
    stosl m dst
      (Z.lor (Z.lor (Z.lor (Z.shiftl c 24) (Z.shiftl c 16)) (Z.shiftl c 8)) c)
      (i32 (n / 4))
  else stosb m dst c (i32 n).

Fixpoint memcmp_loop (n : nat) (s1 s2 : Z -> Z) (i : Z) : Z :=
  match n with
  | O => 0
  | S n' =>
      if negb (s1 i =? s2 i) then s1 i - s2 i else memcmp_loop n' s1 s2 (i + 1)
  end.
Definition memcmp (s1 s2 : Z -> Z) (n : Z) : Z := memcmp_loop (Z.to_nat n) s1 s2 0.

(** [memmove]: backwards when the destination starts inside the source. *)
Definition memmove (m : mem) (dst src n : Z) : mem :=
  if (src <? dst) && (src + n >? dst) then
    copy_bwd (Z.to_nat n) m (dst + n) (src + n)
  else copy_fwd (Z.to_nat n) m dst src.

Definition memcpy (m : mem) (dst src n : Z) : mem := memmove m dst src n.

Fixpoint strncmp_loop (n : nat) (p q : Z -> Z) (i : Z) : Z :=
  match n with
  | O => 0
  | S n' =>
      if negb (p i =? 0) && (p i =? q i) then strncmp_loop n' p q (i + 1)
      else u8 (p i) - u8 (q i)
  end.
Definition strncmp (p q : Z -> Z) (n : Z) : Z := strncmp_loop (Z.to_nat n) p q 0.

(** First loop of [strncpy]: the memory, the pointer and the count it leaves. *)
Fixpoint strncpy_copy (n : nat) (m : mem) (s t : Z) : mem * Z * nat :=
  match n with
  | O => (m, s, O)
  | S n' =>
      let c := m t in
      let m := upd m s c in
      if c =? 0 then (m, s + 1, n') else strncpy_copy n' m (s + 1) (t + 1)
  end.
Fixpoint strncpy_pad (n : nat) (m : mem) (s : Z) : mem :=
  match n with
  | O => m
  | S n' => strncpy_pad n' (upd m s 0) (s + 1)
  end.
Definition strncpy (m : mem) (s t n : Z) : mem :=
  let '(m, s, n) := strncpy_copy (Z.to_nat n) m s t in strncpy_pad n m s.

Fixpoint safestrcpy_loop (n : nat) (m : mem) (s t : Z) : mem :=
  match n with
  | O => upd m s 0
  | S n' =>
      let c := m t in
      let m := upd m s c in
      if c =? 0 then upd m (s + 1) 0 else safestrcpy_loop n' m (s + 1) (t + 1)
  end.
Definition safestrcpy (m : mem) (s t n : Z) : mem :=
  if n <=? 0 then m else safestrcpy_loop (Z.to_nat (n - 1)) m s t.

Fixpoint strlen_loop (fuel : nat) (s : Z -> Z) (n : Z) : option Z :=
  match fuel with
  | O => None
  | S fuel' => if s n =? 0 then Some n else strlen_loop fuel' s (n + 1)
  end.
Definition strlen (fuel : nat) (s : Z -> Z) : option Z := strlen_loop fuel s 0.

(** ** Abstract specifications *)

(** [dst .. dst+n-1] receive what [src .. src+n-1] held before. *)
Definition moved (m : mem) (dst src n : Z) : mem := fun a =>
  if (dst <=? a) && (a <? dst + n) then m (src + (a - dst)) else m a.

(** [dst .. dst+n-1] all hold the byte [c]. *)
Definition filled (m : mem) (dst c n : Z) : mem := fun a =>
  if (dst <=? a) && (a <? dst + n) then c else m a.

(** Byte [i] of the string [t] when everything after its NUL reads as NUL. *)
Fixpoint padded (t : Z -> Z) (i : nat) : Z :=
  match i with
  | O => t 0
  | S i' => if t 0 =? 0 then 0 else padded (fun j => t (j + 1)) i'
  end.

(** The string at [t], cut after [k] bytes. *)
Fixpoint cprefix (k : nat) (t : Z -> Z) : list Z :=
  match k with
  | O => []
  | S k' => if t 0 =? 0 then [] else t 0 :: cprefix k' (fun j => t (j + 1))
  end.

(** [s] starts with the bytes of [l], which has no NUL, and a NUL. *)
Definition cstring (s : Z -> Z) (l : list Z) : Prop :=
  Forall (fun b => b <> 0) l /\
  (forall i, (i < length l)%nat -> s (Z.of_nat i) = nth i l 0) /\
  s (Z.of_nat (length l)) = 0.

(** ** Lemmas *)
Ltac zbool :=
  repeat match goal with
  | |- context [?a <? ?b] => destruct (Z.ltb_spec a b)
  | |- context [?a <=? ?b] => destruct (Z.leb_spec a b)
  | |- context [?a =? ?b] => destruct (Z.eqb_spec a b)
  end; simpl; try lia.

Lemma copy_fwd_spec n m d s a :
  d <= s \/ s + Z.of_nat n <= d ->
  copy_fwd n m d s a = moved m d s (Z.of_nat n) a.
Proof.
  revert m d s. induction n as [|n IH]; intros m d s Hov.
  - simpl. unfold moved. zbool; done.
  - cbn [copy_fwd]. rewrite IH by lia. unfold moved, upd. zbool; f_equal; lia.
Qed.

Lemma copy_bwd_spec n m d s a :
  s <= d ->
  copy_bwd n m d s a = moved m (d - Z.of_nat n) (s - Z.of_nat n) (Z.of_nat n) a.
Proof.
  revert m d s. induction n as [|n IH]; intros m d s Hov.
  - simpl. unfold moved. zbool; done.
  - cbn [copy_bwd]. rewrite IH by lia. unfold moved, upd. zbool; f_equal; lia.
Qed.

Lemma stosb_loop_spec n m addr data a :
  stosb_loop n m addr data a = filled m addr (u8 data) (Z.of_nat n) a.
Proof.
  revert m addr. induction n as [|n IH]; intros m addr.
  - simpl. unfold filled. zbool; done.
  - cbn [stosb_loop]. rewrite IH. unfold filled, upd. zbool; done.
Qed.

Lemma store4_byte m a c x :
  is_byte c ->
  store 4 m a (c + 256 * (c + 256 * (c + 256 * c))) x = filled m a c 4 x.
Proof.
  intros Hc. unfold is_byte in Hc. unfold store. cbn [le_bytes].
  assert (Hm : forall k, (c + 256 * k) mod 256 = c /\ (c + 256 * k) / 256 = k).
  { intros k. rewrite (Z.mul_comm 256), Z.mod_add, Z.div_add by lia.
    split; [apply Z.mod_small; lia|]. rewrite Z.div_small; lia. }
  assert (Hl : c mod 256 = c) by (apply Z.mod_small; lia).
  rewrite (proj1 (Hm _)), (proj2 (Hm _)), (proj1 (Hm _)), (proj2 (Hm _)),
    (proj1 (Hm _)), (proj2 (Hm _)), Hl.
  simpl. unfold filled, upd. zbool; done.
Qed.

Lemma word_of_byte c :
  is_byte c ->
  Z.lor (Z.lor (Z.lor (Z.shiftl c 24) (Z.shiftl c 16)) (Z.shiftl c 8)) c =
  c + 256 * (c + 256 * (c + 256 * c)).
Proof.
  intros Hc. unfold is_byte in Hc.
  set (f := fun c => Z.lor (Z.lor (Z.lor (Z.shiftl c 24) (Z.shiftl c 16)) (Z.shiftl c 8)) c
                     =? c + 256 * (c + 256 * (c + 256 * c))).
  assert (Hall : forallb f (seqZ 0 256) = true) by (vm_compute; reflexivity).
  rewrite forallb_forall in Hall. apply Z.eqb_eq, (Hall c).
  apply list_elem_of_In, elem_of_seqZ. lia.
Qed.

Lemma stosl_loop_spec n m addr c a :
  is_byte c ->
  stosl_loop n m addr (c + 256 * (c + 256 * (c + 256 * c))) a =
  filled m addr c (4 * Z.of_nat n) a.
Proof.
  intros Hc. revert m addr. induction n as [|n IH]; intros m addr.
  - simpl. unfold filled. zbool; done.
  - cbn [stosl_loop]. rewrite IH.
    unfold is_byte in Hc.
    unfold filled at 1. rewrite u32_small by lia. rewrite store4_byte by done.
    unfold filled. zbool; done.
Qed.

Lemma land_255 c : Z.land c 255 = u8 c.
Proof. change 255 with (Z.ones 8). apply Z.land_ones. lia. Qed.

Lemma padded_ext t t' i :
  (forall j, 0 <= j <= Z.of_nat i -> t j = t' j) -> padded t i = padded t' i.
Proof.
  revert t t'. induction i as [|i IH]; intros t t' Ht; cbn [padded].
  - apply Ht. lia.
  - rewrite (Ht 0) by lia. destruct (t' 0 =? 0); [done|].
    apply IH. intros. apply Ht. lia.
Qed.

Lemma strncmp_loop_shift n p q i :
  strncmp_loop n p q i =
  strncmp_loop n (fun j => p (j + i)) (fun j => q (j + i)) 0.
Proof.
  revert p q i. induction n as [|n IH]; intros p q i; [done|]. cbn [strncmp_loop].
  rewrite (IH (fun j => p (j + i)) (fun j => q (j + i))). rewrite (IH p q).
  rewrite Z.add_0_l.
  assert (Hext : forall n p q p' q',
            (forall j, p j = p' j) -> (forall j, q j = q' j) ->
            forall j, strncmp_loop n p q j = strncmp_loop n p' q' j).
  { clear. induction n as [|n IH]; intros p q p' q' Hp Hq j; [done|]. simpl.
    rewrite !Hp, !Hq. by rewrite (IH p q p' q'). }
  destruct (negb _ && _); [|done]. apply Hext; intros; f_equal; lia.
Qed.

Lemma strncmp_loop_eq n p q :
  (forall j, is_byte (p j)) -> (forall j, is_byte (q j)) ->
  strncmp_loop n p q 0 = 0 <->
  forall i, (i < n)%nat -> padded p i = padded q i.
Proof.
  revert p q. induction n as [|n IH]; intros p q Hp Hq; cbn [strncmp_loop].
  { split; [intros _ i Hi; lia|done]. }
  pose proof (Hp 0) as Hp0. pose proof (Hq 0) as Hq0. unfold is_byte in Hp0, Hq0.
  rewrite !u8_small by done.
  destruct (Z.eqb_spec (p 0) 0) as [Hz|Hz]; simpl.
  { split.
    - intros Hd i Hi. destruct i as [|i]; cbn [padded]; [lia|].
      by rewrite Hz, (proj2 (Z.eqb_eq (q 0) 0)) by lia.
    - intros Hpad. specialize (Hpad O ltac:(lia)). simpl in Hpad. lia. }
  destruct (Z.eqb_spec (p 0) (q 0)) as [He|He]; simpl.
  - rewrite strncmp_loop_shift, IH by auto. split.
    + intros Hpad [|i] Hi; cbn [padded]; [done|].
      rewrite <- He, (proj2 (Z.eqb_neq (p 0) 0) Hz). apply Hpad. lia.
    + intros Hpad i Hi. specialize (Hpad (S i) ltac:(lia)). cbn [padded] in Hpad.
      by rewrite <- He, (proj2 (Z.eqb_neq (p 0) 0) Hz) in Hpad.
  - split; [lia|]. intros Hpad. specialize (Hpad O ltac:(lia)). simpl in Hpad. lia.
Qed.

Lemma strncpy_pad_spec n m s a :
  strncpy_pad n m s a = filled m s 0 (Z.of_nat n) a.
Proof.
  revert m s. induction n as [|n IH]; intros m s.
  - simpl. unfold filled. zbool; done.
  - cbn [strncpy_pad]. rewrite IH. unfold filled, upd. zbool; done.
Qed.

(** The bytes [strncpy] leaves, with source and destination apart. *)
Lemma strncpy_loops n m s t a :
  (s + Z.of_nat n <= t \/ t + Z.of_nat n <= s) ->
  (let '(m', s', k) := strncpy_copy n m s t in strncpy_pad k m' s') a =
  if (s <=? a) && (a <? s + Z.of_nat n) then padded (from m t) (Z.to_nat (a - s)) else m a.
Proof.
  revert m s t. induction n as [|n IH]; intros m s t Hov.
  - simpl. zbool; done.
  - cbn [strncpy_copy].
    destruct (Z.eqb_spec (m t) 0) as [Hz|Hz].
    + rewrite strncpy_pad_spec, Hz. unfold filled, upd.
      assert (Hp : forall i, padded (from m t) i = 0).
      { intros [|i]; cbn [padded]; unfold from; rewrite Z.add_0_r, Hz; done. }
      rewrite Hp. zbool; done.
    + rewrite IH by lia. unfold upd at 2.
      destruct (Z.eqb_spec a s) as [->|Hne].
      * rewrite Z.sub_diag. simpl. unfold from. rewrite Z.add_0_r. zbool; done.
      * destruct (Z.leb_spec (s + 1) a); simpl; [|zbool; done].
        destruct (Z.ltb_spec a (s + 1 + Z.of_nat n)); [|zbool; done].
        replace (Z.to_nat (a - s)) with (S (Z.to_nat (a - (s + 1)))) by lia.
        cbn [padded]. unfold from at 2. rewrite Z.add_0_r, (proj2 (Z.eqb_neq _ _) Hz).
        replace (s <=? a) with true by (symmetry; apply Z.leb_le; lia).
        replace (a <? s + Z.of_nat (S n)) with true by (symmetry; apply Z.ltb_lt; lia).
        simpl. apply padded_ext. intros j Hj. unfold from, upd.
        zbool. f_equal. lia.
Qed.


Lemma cprefix_ext k t t' :
  (forall j, 0 <= j < Z.of_nat k -> t j = t' j) -> cprefix k t = cprefix k t'.
Proof.
  revert t t'. induction k as [|k IH]; intros t t' Ht; [done|]. cbn [cprefix].
  rewrite (Ht 0) by lia. destruct (t' 0 =? 0); [done|].
  f_equal. apply IH. intros. apply Ht. lia.
Qed.

Lemma length_cprefix k t : (length (cprefix k t) <= k)%nat.
Proof.
  revert t. induction k as [|k IH]; intros t; [done|]. cbn [cprefix].
  destruct (t 0 =? 0); simpl; [lia|]. specialize (IH (fun j => t (j + 1))). lia.
Qed.

Lemma cstring_nil s : s 0 = 0 -> cstring s [].
Proof. intros. split; [constructor|]. split; [intros; simpl in *; lia|done]. Qed.

Lemma cstring_cons s b l :
  s 0 = b -> b <> 0 -> cstring (fun j => s (j + 1)) l -> cstring s (b :: l).
Proof.
  intros Hb Hnz (Hall & Hi & Hend). split; [by constructor|]. split.
  - intros [|i] Hlt; [done|]. simpl in Hlt. cbn [nth].
    rewrite <- Hi by lia. f_equal. lia.
  - rewrite <- Hend. f_equal. simpl. lia.
Qed.

(** [safestrcpy] writes inside its [k+1] bytes and leaves the string there,
    cut at [k] bytes and terminated. *)
Lemma safestrcpy_loop_spec k m s t :
  (s + Z.of_nat k < t \/ t + Z.of_nat k <= s) ->
  let m' := safestrcpy_loop k m s t in
  (forall a, ~ (s <= a <= s + Z.of_nat k) -> m' a = m a) /\
  cstring (from m' s) (cprefix k (from m t)).
Proof.
  revert m s t. induction k as [|k IH]; intros m s t Hov;
    cbn [safestrcpy_loop cprefix].
  { split; [intros; apply upd_ne; lia|].
    apply cstring_nil. unfold from. rewrite Z.add_0_r. apply upd_eq. }
  unfold from at 2. rewrite Z.add_0_r.
  destruct (Z.eqb_spec (m t) 0) as [Hz|Hz].
  { split; [intros; rewrite !upd_ne by lia; done|].
    apply cstring_nil. unfold from. by rewrite upd_ne, Z.add_0_r, upd_eq by lia. }
  destruct (IH (upd m s (m t)) (s + 1) (t + 1) ltac:(lia)) as [Hout Hstr].
  split.
  - intros a Ha. rewrite Hout by lia. apply upd_ne. lia.
  - apply cstring_cons.
    + unfold from. rewrite !Z.add_0_r, Hout by lia. apply upd_eq.
    + unfold from. by rewrite Z.add_0_r.
    + replace (cprefix k (fun j => from m t (j + 1)))
        with (cprefix k (from (upd m s (m t)) (t + 1))).
      2:{ apply cprefix_ext. intros j Hj. unfold from. rewrite upd_ne by lia. f_equal. lia. }
      destruct Hstr as (H1 & H2 & H3). split; [done|]. unfold from in *. split.
      * intros i Hi. rewrite <- H2 by done. f_equal. lia.
      * rewrite <- H3. f_equal. lia.
Qed.

Lemma strlen_loop_spec fuel s l n :
  cstring (fun j => s (j + n)) l -> (length l < fuel)%nat ->
  strlen_loop fuel s n = Some (n + Z.of_nat (length l)).
Proof.
  revert s l n. induction fuel as [|fuel IH]; intros s l n (Hall & Hi & Hend) Hf; [lia|].
  cbn [strlen_loop]. destruct l as [|b l].
  - simpl in Hend. rewrite Z.add_0_l in Hend. rewrite Hend. simpl. f_equal. lia.
  - assert (Hb : s n = b).
    { specialize (Hi O). simpl in Hi. rewrite Z.add_0_l in Hi. apply Hi. lia. }
    inversion Hall; subst. rewrite (proj2 (Z.eqb_neq _ _)) by done.
    rewrite (IH s l (n + 1)); [f_equal; simpl; lia| |simpl in Hf; lia].
    split; [done|]. split.
    + intros i Hlt. specialize (Hi (S i) ltac:(simpl; lia)). simpl in Hi.
      rewrite <- Hi. f_equal. lia.
    + rewrite <- Hend. f_equal. simpl. lia.
Qed.

(** ** Properties *)

Lemma memmove_moved (m : mem) (dst src n a : Z) :
  0 <= n -> memmove m dst src n a = moved m dst src n a.
Proof.
  intros Hn. unfold memmove.
  destruct (Z.ltb_spec src dst); destruct (Z.gtb_spec (src + n) dst); simpl;
    try (rewrite copy_fwd_spec by lia; by rewrite Z2Nat.id).
  rewrite copy_bwd_spec by lia. rewrite Z2Nat.id by done.
  by replace (dst + n - n) with dst by lia; replace (src + n - n) with src by lia.
Qed.

(** The kernel's [memmove] is safe for overlapping regions: afterwards the
    destination holds exactly what the source held before the call, every other
    byte is unchanged, whatever the overlap. *)
Theorem memmove_correct (m : mem) (dst src n a : Z) :
  0 <= n -> memmove m dst src n a = moved m dst src n a.
Proof. apply memmove_moved. Qed.
Lemma memmove_correct_witness :
  0 <= 3 /\ memmove (fun a => a) 11 10 3 13 = 12.
Proof. split; [lia|]. rewrite memmove_correct by lia. reflexivity. Defined.

Lemma memset_filled (m : mem) (dst c n a : Z) :
  0 <= n < 2 ^ 31 -> memset m dst c n a = filled m dst (u8 c) n a.
Proof.
  intros Hn. unfold memset. rewrite land_255.
  pose proof (u8_range c) as Hc.
  destruct (Z.eqb_spec (n mod 4) 0) as [Hmod|Hmod]; rewrite ?andb_false_r, ?andb_true_r.
  - pose proof (Z.div_mod n 4 ltac:(lia)).
    destruct (dst mod 4 =? 0).
    + unfold stosl. rewrite word_of_byte, stosl_loop_spec by done.
      rewrite i32_small by lia. f_equal. lia.
    + unfold stosb. rewrite stosb_loop_spec, i32_small by lia. f_equal. lia.
  - unfold stosb. rewrite stosb_loop_spec, i32_small by lia. f_equal. lia.
Qed.

(** [memset] stores four bytes at a time on aligned arguments and one at a
    time otherwise, and both fill exactly the [n] bytes with the low byte of [c]. *)
Theorem memset_correct (m : mem) (dst c n a : Z) :
  0 <= n < 2 ^ 31 -> memset m dst c n a = filled m dst (u8 c) n a.
Proof. apply memset_filled. Qed.
Lemma memset_correct_witness :
  0 <= 8 < 2 ^ 31 /\ memset (fun _ => 7) 4096 257 8 4100 = 1.
Proof. split; [lia|]. rewrite memset_correct by lia. reflexivity. Defined.

(** [safestrcpy] with a positive size always leaves a terminated string (the
    source cut at [n-1] bytes) and never writes outside its [n] bytes. *)
Theorem safestrcpy_terminates (m : mem) (s t n : Z) :
  0 < n -> (s + n <= t \/ t + n <= s + 1) ->
  cstring (from (safestrcpy m s t n) s) (cprefix (Z.to_nat (n - 1)) (from m t)) /\
  forall a, ~ (s <= a < s + n) -> safestrcpy m s t n a = m a.
Proof.
  intros Hn Hov. unfold safestrcpy. rewrite (proj2 (Z.leb_gt n 0)) by lia.
  destruct (safestrcpy_loop_spec (Z.to_nat (n - 1)) m s t ltac:(lia)) as [Hout Hstr].
  split; [done|]. intros a Ha. apply Hout. lia.
Qed.
Lemma safestrcpy_terminates_witness :
  cstring (from (safestrcpy (fun a => 65) 100 0 4) 100) [65; 65; 65].
Proof. apply (safestrcpy_terminates (fun a => 65) 100 0 4); lia. Defined.

(** [strncmp] returns 0 exactly when the first [n] bytes of the two strings
    agree once everything behind a NUL is ignored. *)
Theorem strncmp_zero_iff (p q : Z -> Z) (n : Z) :
  (forall j, is_byte (p j)) -> (forall j, is_byte (q j)) ->
  strncmp p q n = 0 <->
  forall i, (i < Z.to_nat n)%nat -> padded p i = padded q i.
Proof. apply strncmp_loop_eq. Qed.
Lemma strncmp_zero_iff_witness :
  strncmp (fun j => if j =? 2 then 0 else if j <? 2 then 97 else 98)
    (fun j => if j <? 2 then 97 else 0) 14 = 0.
Proof.
  apply strncmp_zero_iff.
  - intros j. unfold is_byte. destruct (j =? 2); [lia|]. destruct (j <? 2); lia.
  - intros j. unfold is_byte. destruct (j <? 2); lia.
  - intros i Hi. destruct i as [|[|[|i]]]; reflexivity.
Defined.

(** [strncpy] fills its whole [n]-byte field: the source up to its NUL, then
    NUL bytes, and touches nothing else. *)
Theorem strncpy_correct (m : mem) (s t n a : Z) :
  0 <= n -> (s + n <= t \/ t + n <= s) ->
  strncpy m s t n a =
  if (s <=? a) && (a <? s + n) then padded (from m t) (Z.to_nat (a - s)) else m a.
Proof.
  intros Hn Hov. unfold strncpy.
  pose proof (strncpy_loops (Z.to_nat n) m s t a) as H.
  rewrite Z2Nat.id in H by done. rewrite <- H by done.
  by destruct (strncpy_copy (Z.to_nat n) m s t) as [[m' s'] k].
Qed.
Lemma strncpy_correct_witness :
  strncpy (fun a => if a =? 2 then 0 else 65) 100 0 14 105 = 0.
Proof. rewrite strncpy_correct by lia. reflexivity. Defined.

