(* ===== verification/Ulib.v ===== *)
(** The user library's string routines, [src/ulib.c].

    Its [memmove] copies forwards only and its [memset] stores bytes only;
    [atoi] accumulates in a 32-bit [int].  Loops that run to a NUL take fuel
    and return [None] when it is too little. *)
From Stdlib Require Import ZArith Lia.
From stdpp Require Import base list numbers.
From S2P Require Import Prelude Strings.

Local Open Scope Z_scope.

Fixpoint strcpy (fuel : nat) (m : mem) (s t : Z) : option mem :=
  match fuel with
  | O => None
  | S fuel' =>
      let c := m t in
      let m := upd m s c in
      if c =? 0 then Some m else strcpy fuel' m (s + 1) (t + 1)
  end.

Fixpoint strcmp (fuel : nat) (p q : Z -> Z) (i : Z) : option Z :=
  match fuel with
  | O => None
  | S fuel' =>
      if negb (p i =? 0) && (p i =? q i) then strcmp fuel' p q (i + 1)
      else Some (u8 (p i) - u8 (q i))
  end.

Fixpoint strlen_loop (fuel : nat) (s : Z -> Z) (n : Z) : option Z :=
  match fuel with
  | O => None
  | S fuel' => if s n =? 0 then Some n else strlen_loop fuel' s (n + 1)
  end.
Definition strlen (fuel : nat) (s : Z -> Z) : option Z := strlen_loop fuel s 0.

Definition memset (m : mem) (dst c n : Z) : mem := stosb m dst c (i32 n).

(** [strchr]: the index of the first [c], [Some None] for a NULL result. *)
Fixpoint strchr (fuel : nat) (s : Z -> Z) (c i : Z) : option (option Z) :=
  match fuel with
  | O => None
  | S fuel' =>
      if s i =? 0 then Some None
      else if s i =? c then Some (Some i) else strchr fuel' s c (i + 1)
  end.

(** [atoi]: [n = n*10 + *s++ - '0'] in 32-bit arithmetic. *)
Fixpoint atoi_loop (fuel : nat) (s : Z -> Z) (i n : Z) : option Z :=
  match fuel with
  | O => None
  | S fuel' =>
      if (48 <=? s i) && (s i <=? 57) then
        atoi_loop fuel' s (i + 1) (i32 (n * 10 + s i - 48))
      else Some n
  end.
Definition atoi (fuel : nat) (s : Z -> Z) : option Z := atoi_loop fuel s 0 0.

(** User-level [memmove]: always forwards. *)
Definition memmove (m : mem) (vdst vsrc n : Z) : mem :=
  copy_fwd (Z.to_nat n) m vdst vsrc.
(** the user library's [memmove] always copies forwards: it is right exactly
    as the kernel's when the destination does not start inside the source. *)
Theorem ulib_memmove_forward (m : mem) (dst src n a : Z) :
  0 <= n -> (dst <= src \/ src + n <= dst) ->
  memmove m dst src n a = moved m dst src n a.
Proof.
  intros Hn Hov. unfold memmove. rewrite copy_fwd_spec by lia. by rewrite Z2Nat.id.
Qed.
Lemma ulib_memmove_forward_witness :
  memmove (fun a => a) 10 11 3 12 = 13.
Proof. rewrite ulib_memmove_forward by lia. reflexivity. Defined.

(** On an overlap with the destination behind the source it is not a memmove:
    the first byte is smeared over the region. *)
Lemma copy_fwd_smear n m d i :
  (i <= n)%nat -> copy_fwd n m (d + 1) d (d + Z.of_nat i) = m d.
Proof.
  revert m d i. induction n as [|n IH]; intros m d i Hi.
  - assert (i = O) as -> by lia. simpl. f_equal. lia.
  - cbn [copy_fwd]. destruct i as [|i].
    + assert (Hkeep : forall n m d s x, x < d -> copy_fwd n m d s x = m x).
      { clear. induction n as [|n IH]; intros m d s x Hx; [done|]. simpl.
        rewrite IH by lia. apply upd_ne. lia. }
      rewrite Z.add_0_r, Hkeep, upd_ne by lia. done.
    + replace (d + Z.of_nat (S i)) with (d + 1 + Z.of_nat i) by lia.
      rewrite IH by lia. apply upd_eq.
Qed.

(** The user library's [memmove] is not a memmove on overlapping regions whose
    destination is the later one: with [dst = src + 1] every byte of the
    destination becomes the first source byte. *)
Theorem ulib_memmove_overlap (m : mem) (src n : Z) (i : nat) :
  Z.of_nat i <= n -> memmove m (src + 1) src n (src + Z.of_nat i) = m src.
Proof. intros. unfold memmove. apply copy_fwd_smear. lia. Qed.
Lemma ulib_memmove_overlap_witness :
  memmove (fun a => a) 11 10 3 13 = 10 /\ moved (fun a => a) 11 10 3 13 = 12.
Proof. split; [apply (ulib_memmove_overlap (fun a => a) 10 3 3); lia|reflexivity]. Defined.
