(* ===== verification/State.v ===== *)
(** The kernel's data model: the C structs of [src/proc.h], [src/buf.h],
    [src/file.h], [src/fs.h], [src/log.c], [src/pipe.c], [src/sleeplock.h],
    [src/spinlock.h], [src/kalloc.c] and [src/console.c], and [kst], the
    record of all kernel globals that the components' operations thread.

    Pointers to elements of a static array ([struct buf *], [struct inode *],
    [struct file *], [struct proc *]) are indices into that array; a sleep
    channel and a lock are named by the object whose address the code passes.
    For each field [f] of a record, [set_f] stores to it. *)
From Stdlib Require Import ZArith Lia.
From stdpp Require Import base gmap list strings numbers.
From S2P Require Import Prelude.

Local Open Scope Z_scope.

(** ** Constants: [src/param.h], [src/fs.h], [src/stat.h], [src/buf.h],
    [src/file.h], [src/fcntl.h], [src/mmu.h], [src/memlayout.h] *)
Definition NPROC : nat := 64.
Definition KSTACKSIZE : Z := 4096.
Definition NOFILE : nat := 16.
Definition NFILE : nat := 100.
Definition NINODE : nat := 50.
Definition NDEV : Z := 10.
Definition ROOTDEV : Z := 1.
Definition MAXARG : Z := 32.
Definition MAXOPBLOCKS : Z := 10.
Definition LOGSIZE : Z := MAXOPBLOCKS * 3.
Definition NBUF : nat := 30.
Definition FSSIZE : Z := 1000.

Definition ROOTINO : Z := 1.
Definition BSIZE : Z := 512.
Definition NDIRECT : Z := 12.
Definition NINDIRECT : Z := BSIZE / 4.
Definition MAXFILE : Z := NDIRECT + NINDIRECT.
Definition IPB : Z := BSIZE / 64.
Definition BPB : Z := BSIZE * 8.
Definition DIRSIZ : Z := 14.

Definition T_DIR : Z := 1.
Definition T_FILE : Z := 2.
Definition T_DEV : Z := 3.

Definition B_VALID : Z := 2.
Definition B_DIRTY : Z := 4.
Definition I_VALID : Z := 2.
Definition CONSOLE : Z := 1.

Definition O_RDONLY : Z := 0.
Definition O_WRONLY : Z := 1.
Definition O_RDWR : Z := 2.
Definition O_CREATE : Z := 512.

Definition PGSIZE : Z := 4096.
Definition PIPESIZE : Z := 512.
Definition INPUT_BUF : Z := 128.
Definition EXTMEM : Z := 1048576.
Definition PHYSTOP : Z := 234881024.
Definition KERNBASE : Z := 18446603336221196288.

(** [f & bit], as a C condition. *)
Definition has (f bit : Z) : bool := negb (Z.land f bit =? 0).

(** A disk block: [BSIZE] bytes. *)
Abbreviation block := (list Z).

(** ** Names of locks and sleep channels *)
Inductive slid : Type :=
| SL_buf (i : nat)
| SL_inode (i : nat).

Inductive lockid : Type :=
| L_ptable | L_bcache | L_log | L_icache | L_ftable | L_kmem | L_ide
| L_cons | L_input | L_ticks
| L_pipe (p : Z)
| L_sleep (l : slid).

Inductive chan : Type :=
| Ch_proc (i : nat)
| Ch_log
| Ch_buf (i : nat)
| Ch_sleep (l : slid)
| Ch_ticks
| Ch_nread (p : Z)
| Ch_nwrite (p : Z)
| Ch_input.

#[global] Instance slid_eq_dec : EqDecision slid.
Proof. solve_decision. Defined.
#[global] Instance lockid_eq_dec : EqDecision lockid.
Proof. solve_decision. Defined.
#[global] Instance chan_eq_dec : EqDecision chan.
Proof. solve_decision. Defined.

(** Where a kernel context resumes: [src/proc.c] stores two code addresses. *)
Inductive kcode : Type :=
| K_forkret
| K_swtch.

(** [enum procstate] *)
Inductive procstate : Type :=
| UNUSED | EMBRYO | SLEEPING | RUNNABLE | RUNNING | ZOMBIE.
#[global] Instance procstate_eq_dec : EqDecision procstate.
Proof. solve_decision. Defined.

(** [enum { FD_NONE, FD_PIPE, FD_INODE }] *)
Inductive fdtype : Type :=
| FD_NONE | FD_PIPE | FD_INODE.
#[global] Instance fdtype_eq_dec : EqDecision fdtype.
Proof. solve_decision. Defined.

(** A registered device of [devsw]. *)
Inductive device : Type :=
| Dev_console.


(** [struct cpu]: the interrupt flag, the [pushcli] nesting and the
    spin locks this CPU holds (those with [locked] set and [cpu] this CPU). *)
Record cpu : Type := mk_cpu {
  ncli : Z;
  intena : bool;
  intr_on : bool;
  held : list lockid
}.
Definition set_ncli (v : Z) (r : cpu) : cpu :=
  mk_cpu v (intena r) (intr_on r) (held r).
Definition set_intena (v : bool) (r : cpu) : cpu :=
  mk_cpu (ncli r) v (intr_on r) (held r).
Definition set_intr_on (v : bool) (r : cpu) : cpu :=
  mk_cpu (ncli r) (intena r) v (held r).
Definition set_held (v : list lockid) (r : cpu) : cpu :=
  mk_cpu (ncli r) (intena r) (intr_on r) v.

(** [struct sleeplock], without its debugging name. *)
Record sleeplock : Type := mk_sleeplock {
  sl_locked : bool;
  sl_pid : Z
}.
Definition set_sl_locked (v : bool) (r : sleeplock) : sleeplock :=
  mk_sleeplock v (sl_pid r).
Definition set_sl_pid (v : Z) (r : sleeplock) : sleeplock :=
  mk_sleeplock (sl_locked r) v.

(** [struct trapframe] *)
Record trapframe : Type := mk_trapframe {
  tf_rax : Z;
  tf_rbx : Z;
  tf_rcx : Z;
  tf_rdx : Z;
  tf_rbp : Z;
  tf_rsi : Z;
  tf_rdi : Z;
  tf_r8 : Z;
  tf_r9 : Z;
  tf_r10 : Z;
  tf_r11 : Z;
  tf_r12 : Z;
  tf_r13 : Z;
  tf_r14 : Z;
  tf_r15 : Z;
  tf_trapno : Z;
  tf_err : Z;
  tf_rip : Z;
  tf_cs : Z;
  tf_rflags : Z;
  tf_rsp : Z;
  tf_ss : Z
}.
Definition set_tf_rax (v : Z) (r : trapframe) : trapframe :=
  mk_trapframe v (tf_rbx r) (tf_rcx r) (tf_rdx r) (tf_rbp r) (tf_rsi r) (tf_rdi r) (tf_r8 r)
    (tf_r9 r) (tf_r10 r) (tf_r11 r) (tf_r12 r) (tf_r13 r) (tf_r14 r) (tf_r15 r) (tf_trapno r)
    (tf_err r) (tf_rip r) (tf_cs r) (tf_rflags r) (tf_rsp r) (tf_ss r).
Definition set_tf_rbx (v : Z) (r : trapframe) : trapframe :=
  mk_trapframe (tf_rax r) v (tf_rcx r) (tf_rdx r) (tf_rbp r) (tf_rsi r) (tf_rdi r) (tf_r8 r)
    (tf_r9 r) (tf_r10 r) (tf_r11 r) (tf_r12 r) (tf_r13 r) (tf_r14 r) (tf_r15 r) (tf_trapno r)
    (tf_err r) (tf_rip r) (tf_cs r) (tf_rflags r) (tf_rsp r) (tf_ss r).
Definition set_tf_rcx (v : Z) (r : trapframe) : trapframe :=
  mk_trapframe (tf_rax r) (tf_rbx r) v (tf_rdx r) (tf_rbp r) (tf_rsi r) (tf_rdi r) (tf_r8 r)
    (tf_r9 r) (tf_r10 r) (tf_r11 r) (tf_r12 r) (tf_r13 r) (tf_r14 r) (tf_r15 r) (tf_trapno r)
    (tf_err r) (tf_rip r) (tf_cs r) (tf_rflags r) (tf_rsp r) (tf_ss r).
Definition set_tf_rdx (v : Z) (r : trapframe) : trapframe :=
  mk_trapframe (tf_rax r) (tf_rbx r) (tf_rcx r) v (tf_rbp r) (tf_rsi r) (tf_rdi r) (tf_r8 r)
    (tf_r9 r) (tf_r10 r) (tf_r11 r) (tf_r12 r) (tf_r13 r) (tf_r14 r) (tf_r15 r) (tf_trapno r)
    (tf_err r) (tf_rip r) (tf_cs r) (tf_rflags r) (tf_rsp r) (tf_ss r).
Definition set_tf_rbp (v : Z) (r : trapframe) : trapframe :=
  mk_trapframe (tf_rax r) (tf_rbx r) (tf_rcx r) (tf_rdx r) v (tf_rsi r) (tf_rdi r) (tf_r8 r)
    (tf_r9 r) (tf_r10 r) (tf_r11 r) (tf_r12 r) (tf_r13 r) (tf_r14 r) (tf_r15 r) (tf_trapno r)
    (tf_err r) (tf_rip r) (tf_cs r) (tf_rflags r) (tf_rsp r) (tf_ss r).
Definition set_tf_rsi (v : Z) (r : trapframe) : trapframe :=
  mk_trapframe (tf_rax r) (tf_rbx r) (tf_rcx r) (tf_rdx r) (tf_rbp r) v (tf_rdi r) (tf_r8 r)
    (tf_r9 r) (tf_r10 r) (tf_r11 r) (tf_r12 r) (tf_r13 r) (tf_r14 r) (tf_r15 r) (tf_trapno r)
    (tf_err r) (tf_rip r) (tf_cs r) (tf_rflags r) (tf_rsp r) (tf_ss r).
Definition set_tf_rdi (v : Z) (r : trapframe) : trapframe :=
  mk_trapframe (tf_rax r) (tf_rbx r) (tf_rcx r) (tf_rdx r) (tf_rbp r) (tf_rsi r) v (tf_r8 r)
    (tf_r9 r) (tf_r10 r) (tf_r11 r) (tf_r12 r) (tf_r13 r) (tf_r14 r) (tf_r15 r) (tf_trapno r)
    (tf_err r) (tf_rip r) (tf_cs r) (tf_rflags r) (tf_rsp r) (tf_ss r).
Definition set_tf_r8 (v : Z) (r : trapframe) : trapframe :=
  mk_trapframe (tf_rax r) (tf_rbx r) (tf_rcx r) (tf_rdx r) (tf_rbp r) (tf_rsi r) (tf_rdi r) v
    (tf_r9 r) (tf_r10 r) (tf_r11 r) (tf_r12 r) (tf_r13 r) (tf_r14 r) (tf_r15 r) (tf_trapno r)
    (tf_err r) (tf_rip r) (tf_cs r) (tf_rflags r) (tf_rsp r) (tf_ss r).
Definition set_tf_r9 (v : Z) (r : trapframe) : trapframe :=
  mk_trapframe (tf_rax r) (tf_rbx r) (tf_rcx r) (tf_rdx r) (tf_rbp r) (tf_rsi r) (tf_rdi r)
    (tf_r8 r) v (tf_r10 r) (tf_r11 r) (tf_r12 r) (tf_r13 r) (tf_r14 r) (tf_r15 r) (tf_trapno
    r) (tf_err r) (tf_rip r) (tf_cs r) (tf_rflags r) (tf_rsp r) (tf_ss r).
Definition set_tf_r10 (v : Z) (r : trapframe) : trapframe :=
  mk_trapframe (tf_rax r) (tf_rbx r) (tf_rcx r) (tf_rdx r) (tf_rbp r) (tf_rsi r) (tf_rdi r)
    (tf_r8 r) (tf_r9 r) v (tf_r11 r) (tf_r12 r) (tf_r13 r) (tf_r14 r) (tf_r15 r) (tf_trapno r)
    (tf_err r) (tf_rip r) (tf_cs r) (tf_rflags r) (tf_rsp r) (tf_ss r).
Definition set_tf_r11 (v : Z) (r : trapframe) : trapframe :=
  mk_trapframe (tf_rax r) (tf_rbx r) (tf_rcx r) (tf_rdx r) (tf_rbp r) (tf_rsi r) (tf_rdi r)
    (tf_r8 r) (tf_r9 r) (tf_r10 r) v (tf_r12 r) (tf_r13 r) (tf_r14 r) (tf_r15 r) (tf_trapno r)
    (tf_err r) (tf_rip r) (tf_cs r) (tf_rflags r) (tf_rsp r) (tf_ss r).
Definition set_tf_r12 (v : Z) (r : trapframe) : trapframe :=
  mk_trapframe (tf_rax r) (tf_rbx r) (tf_rcx r) (tf_rdx r) (tf_rbp r) (tf_rsi r) (tf_rdi r)
    (tf_r8 r) (tf_r9 r) (tf_r10 r) (tf_r11 r) v (tf_r13 r) (tf_r14 r) (tf_r15 r) (tf_trapno r)
    (tf_err r) (tf_rip r) (tf_cs r) (tf_rflags r) (tf_rsp r) (tf_ss r).
Definition set_tf_r13 (v : Z) (r : trapframe) : trapframe :=
  mk_trapframe (tf_rax r) (tf_rbx r) (tf_rcx r) (tf_rdx r) (tf_rbp r) (tf_rsi r) (tf_rdi r)
    (tf_r8 r) (tf_r9 r) (tf_r10 r) (tf_r11 r) (tf_r12 r) v (tf_r14 r) (tf_r15 r) (tf_trapno r)
    (tf_err r) (tf_rip r) (tf_cs r) (tf_rflags r) (tf_rsp r) (tf_ss r).
Definition set_tf_r14 (v : Z) (r : trapframe) : trapframe :=
  mk_trapframe (tf_rax r) (tf_rbx r) (tf_rcx r) (tf_rdx r) (tf_rbp r) (tf_rsi r) (tf_rdi r)
    (tf_r8 r) (tf_r9 r) (tf_r10 r) (tf_r11 r) (tf_r12 r) (tf_r13 r) v (tf_r15 r) (tf_trapno r)
    (tf_err r) (tf_rip r) (tf_cs r) (tf_rflags r) (tf_rsp r) (tf_ss r).
Definition set_tf_r15 (v : Z) (r : trapframe) : trapframe :=
  mk_trapframe (tf_rax r) (tf_rbx r) (tf_rcx r) (tf_rdx r) (tf_rbp r) (tf_rsi r) (tf_rdi r)
    (tf_r8 r) (tf_r9 r) (tf_r10 r) (tf_r11 r) (tf_r12 r) (tf_r13 r) (tf_r14 r) v (tf_trapno r)
    (tf_err r) (tf_rip r) (tf_cs r) (tf_rflags r) (tf_rsp r) (tf_ss r).
Definition set_tf_trapno (v : Z) (r : trapframe) : trapframe :=
  mk_trapframe (tf_rax r) (tf_rbx r) (tf_rcx r) (tf_rdx r) (tf_rbp r) (tf_rsi r) (tf_rdi r)
    (tf_r8 r) (tf_r9 r) (tf_r10 r) (tf_r11 r) (tf_r12 r) (tf_r13 r) (tf_r14 r) (tf_r15 r) v
    (tf_err r) (tf_rip r) (tf_cs r) (tf_rflags r) (tf_rsp r) (tf_ss r).
Definition set_tf_err (v : Z) (r : trapframe) : trapframe :=
  mk_trapframe (tf_rax r) (tf_rbx r) (tf_rcx r) (tf_rdx r) (tf_rbp r) (tf_rsi r) (tf_rdi r)
    (tf_r8 r) (tf_r9 r) (tf_r10 r) (tf_r11 r) (tf_r12 r) (tf_r13 r) (tf_r14 r) (tf_r15 r)
    (tf_trapno r) v (tf_rip r) (tf_cs r) (tf_rflags r) (tf_rsp r) (tf_ss r).
Definition set_tf_rip (v : Z) (r : trapframe) : trapframe :=
  mk_trapframe (tf_rax r) (tf_rbx r) (tf_rcx r) (tf_rdx r) (tf_rbp r) (tf_rsi r) (tf_rdi r)
    (tf_r8 r) (tf_r9 r) (tf_r10 r) (tf_r11 r) (tf_r12 r) (tf_r13 r) (tf_r14 r) (tf_r15 r)
    (tf_trapno r) (tf_err r) v (tf_cs r) (tf_rflags r) (tf_rsp r) (tf_ss r).
Definition set_tf_cs (v : Z) (r : trapframe) : trapframe :=
  mk_trapframe (tf_rax r) (tf_rbx r) (tf_rcx r) (tf_rdx r) (tf_rbp r) (tf_rsi r) (tf_rdi r)
    (tf_r8 r) (tf_r9 r) (tf_r10 r) (tf_r11 r) (tf_r12 r) (tf_r13 r) (tf_r14 r) (tf_r15 r)
    (tf_trapno r) (tf_err r) (tf_rip r) v (tf_rflags r) (tf_rsp r) (tf_ss r).
Definition set_tf_rflags (v : Z) (r : trapframe) : trapframe :=
  mk_trapframe (tf_rax r) (tf_rbx r) (tf_rcx r) (tf_rdx r) (tf_rbp r) (tf_rsi r) (tf_rdi r)
    (tf_r8 r) (tf_r9 r) (tf_r10 r) (tf_r11 r) (tf_r12 r) (tf_r13 r) (tf_r14 r) (tf_r15 r)
    (tf_trapno r) (tf_err r) (tf_rip r) (tf_cs r) v (tf_rsp r) (tf_ss r).
Definition set_tf_rsp (v : Z) (r : trapframe) : trapframe :=
  mk_trapframe (tf_rax r) (tf_rbx r) (tf_rcx r) (tf_rdx r) (tf_rbp r) (tf_rsi r) (tf_rdi r)
    (tf_r8 r) (tf_r9 r) (tf_r10 r) (tf_r11 r) (tf_r12 r) (tf_r13 r) (tf_r14 r) (tf_r15 r)
    (tf_trapno r) (tf_err r) (tf_rip r) (tf_cs r) (tf_rflags r) v (tf_ss r).
Definition set_tf_ss (v : Z) (r : trapframe) : trapframe :=
  mk_trapframe (tf_rax r) (tf_rbx r) (tf_rcx r) (tf_rdx r) (tf_rbp r) (tf_rsi r) (tf_rdi r)
    (tf_r8 r) (tf_r9 r) (tf_r10 r) (tf_r11 r) (tf_r12 r) (tf_r13 r) (tf_r14 r) (tf_r15 r)
    (tf_trapno r) (tf_err r) (tf_rip r) (tf_cs r) (tf_rflags r) (tf_rsp r) v.

(** [struct proc]; [p_context] is where its kernel context resumes. *)
Record proc : Type := mk_proc {
  p_sz : Z;
  p_pgdir : Z;
  p_kstack : Z;
  p_state : procstate;
  p_pid : Z;
  p_parent : option nat;
  p_tf : trapframe;
  p_context : kcode;
  p_chan : option chan;
  p_killed : bool;
  p_ofile : list (option nat);
  p_cwd : option nat;
  p_name : list Z
}.
Definition set_p_sz (v : Z) (r : proc) : proc :=
  mk_proc v (p_pgdir r) (p_kstack r) (p_state r) (p_pid r) (p_parent r) (p_tf r) (p_context r)
    (p_chan r) (p_killed r) (p_ofile r) (p_cwd r) (p_name r).
Definition set_p_pgdir (v : Z) (r : proc) : proc :=
  mk_proc (p_sz r) v (p_kstack r) (p_state r) (p_pid r) (p_parent r) (p_tf r) (p_context r)
    (p_chan r) (p_killed r) (p_ofile r) (p_cwd r) (p_name r).
Definition set_p_kstack (v : Z) (r : proc) : proc :=
  mk_proc (p_sz r) (p_pgdir r) v (p_state r) (p_pid r) (p_parent r) (p_tf r) (p_context r)
    (p_chan r) (p_killed r) (p_ofile r) (p_cwd r) (p_name r).
Definition set_p_state (v : procstate) (r : proc) : proc :=
  mk_proc (p_sz r) (p_pgdir r) (p_kstack r) v (p_pid r) (p_parent r) (p_tf r) (p_context r)
    (p_chan r) (p_killed r) (p_ofile r) (p_cwd r) (p_name r).
Definition set_p_pid (v : Z) (r : proc) : proc :=
  mk_proc (p_sz r) (p_pgdir r) (p_kstack r) (p_state r) v (p_parent r) (p_tf r) (p_context r)
    (p_chan r) (p_killed r) (p_ofile r) (p_cwd r) (p_name r).
Definition set_p_parent (v : option nat) (r : proc) : proc :=
  mk_proc (p_sz r) (p_pgdir r) (p_kstack r) (p_state r) (p_pid r) v (p_tf r) (p_context r)
    (p_chan r) (p_killed r) (p_ofile r) (p_cwd r) (p_name r).
Definition set_p_tf (v : trapframe) (r : proc) : proc :=
  mk_proc (p_sz r) (p_pgdir r) (p_kstack r) (p_state r) (p_pid r) (p_parent r) v (p_context r)
    (p_chan r) (p_killed r) (p_ofile r) (p_cwd r) (p_name r).
Definition set_p_context (v : kcode) (r : proc) : proc :=
  mk_proc (p_sz r) (p_pgdir r) (p_kstack r) (p_state r) (p_pid r) (p_parent r) (p_tf r) v
    (p_chan r) (p_killed r) (p_ofile r) (p_cwd r) (p_name r).
Definition set_p_chan (v : option chan) (r : proc) : proc :=
  mk_proc (p_sz r) (p_pgdir r) (p_kstack r) (p_state r) (p_pid r) (p_parent r) (p_tf r)
    (p_context r) v (p_killed r) (p_ofile r) (p_cwd r) (p_name r).
Definition set_p_killed (v : bool) (r : proc) : proc :=
  mk_proc (p_sz r) (p_pgdir r) (p_kstack r) (p_state r) (p_pid r) (p_parent r) (p_tf r)
    (p_context r) (p_chan r) v (p_ofile r) (p_cwd r) (p_name r).
Definition set_p_ofile (v : list (option nat)) (r : proc) : proc :=
  mk_proc (p_sz r) (p_pgdir r) (p_kstack r) (p_state r) (p_pid r) (p_parent r) (p_tf r)
    (p_context r) (p_chan r) (p_killed r) v (p_cwd r) (p_name r).
Definition set_p_cwd (v : option nat) (r : proc) : proc :=
  mk_proc (p_sz r) (p_pgdir r) (p_kstack r) (p_state r) (p_pid r) (p_parent r) (p_tf r)
    (p_context r) (p_chan r) (p_killed r) (p_ofile r) v (p_name r).
Definition set_p_name (v : list Z) (r : proc) : proc :=
  mk_proc (p_sz r) (p_pgdir r) (p_kstack r) (p_state r) (p_pid r) (p_parent r) (p_tf r)
    (p_context r) (p_chan r) (p_killed r) (p_ofile r) (p_cwd r) v.

(** [struct buf] *)
Record buf : Type := mk_buf {
  b_flags : Z;
  b_dev : Z;
  b_blockno : Z;
  b_lock : sleeplock;
  b_refcnt : Z;
  b_prev : nat;
  b_next : nat;
  b_data : block
}.
Definition set_b_flags (v : Z) (r : buf) : buf :=
  mk_buf v (b_dev r) (b_blockno r) (b_lock r) (b_refcnt r) (b_prev r) (b_next r) (b_data r).
Definition set_b_dev (v : Z) (r : buf) : buf :=
  mk_buf (b_flags r) v (b_blockno r) (b_lock r) (b_refcnt r) (b_prev r) (b_next r) (b_data r).
Definition set_b_blockno (v : Z) (r : buf) : buf :=
  mk_buf (b_flags r) (b_dev r) v (b_lock r) (b_refcnt r) (b_prev r) (b_next r) (b_data r).
Definition set_b_lock (v : sleeplock) (r : buf) : buf :=
  mk_buf (b_flags r) (b_dev r) (b_blockno r) v (b_refcnt r) (b_prev r) (b_next r) (b_data r).
Definition set_b_refcnt (v : Z) (r : buf) : buf :=
  mk_buf (b_flags r) (b_dev r) (b_blockno r) (b_lock r) v (b_prev r) (b_next r) (b_data r).
Definition set_b_prev (v : nat) (r : buf) : buf :=
  mk_buf (b_flags r) (b_dev r) (b_blockno r) (b_lock r) (b_refcnt r) v (b_next r) (b_data r).
Definition set_b_next (v : nat) (r : buf) : buf :=
  mk_buf (b_flags r) (b_dev r) (b_blockno r) (b_lock r) (b_refcnt r) (b_prev r) v (b_data r).
Definition set_b_data (v : block) (r : buf) : buf :=
  mk_buf (b_flags r) (b_dev r) (b_blockno r) (b_lock r) (b_refcnt r) (b_prev r) (b_next r) v.

(** [struct logheader] *)
Record logheader : Type := mk_logheader {
  lh_n : Z;
  lh_block : list Z
}.
Definition set_lh_n (v : Z) (r : logheader) : logheader :=
  mk_logheader v (lh_block r).
Definition set_lh_block (v : list Z) (r : logheader) : logheader :=
  mk_logheader (lh_n r) v.

(** [struct log] *)
Record logst : Type := mk_logst {
  log_start : Z;
  log_size : Z;
  log_outstanding : Z;
  log_committing : bool;
  log_dev : Z;
  log_lh : logheader
}.
Definition set_log_start (v : Z) (r : logst) : logst :=
  mk_logst v (log_size r) (log_outstanding r) (log_committing r) (log_dev r) (log_lh r).
Definition set_log_size (v : Z) (r : logst) : logst :=
  mk_logst (log_start r) v (log_outstanding r) (log_committing r) (log_dev r) (log_lh r).
Definition set_log_outstanding (v : Z) (r : logst) : logst :=
  mk_logst (log_start r) (log_size r) v (log_committing r) (log_dev r) (log_lh r).
Definition set_log_committing (v : bool) (r : logst) : logst :=
  mk_logst (log_start r) (log_size r) (log_outstanding r) v (log_dev r) (log_lh r).
Definition set_log_dev (v : Z) (r : logst) : logst :=
  mk_logst (log_start r) (log_size r) (log_outstanding r) (log_committing r) v (log_lh r).
Definition set_log_lh (v : logheader) (r : logst) : logst :=
  mk_logst (log_start r) (log_size r) (log_outstanding r) (log_committing r) (log_dev r) v.

(** [struct superblock] *)
Record superblock : Type := mk_superblock {
  sb_size : Z;
  sb_nblocks : Z;
  sb_ninodes : Z;
  sb_nlog : Z;
  sb_logstart : Z;
  sb_inodestart : Z;
  sb_bmapstart : Z
}.

(** [struct dinode] *)
Record dinode : Type := mk_dinode {
  di_type : Z;
  di_major : Z;
  di_minor : Z;
  di_nlink : Z;
  di_size : Z;
  di_addrs : list Z
}.
Definition set_di_type (v : Z) (r : dinode) : dinode :=
  mk_dinode v (di_major r) (di_minor r) (di_nlink r) (di_size r) (di_addrs r).
Definition set_di_major (v : Z) (r : dinode) : dinode :=
  mk_dinode (di_type r) v (di_minor r) (di_nlink r) (di_size r) (di_addrs r).
Definition set_di_minor (v : Z) (r : dinode) : dinode :=
  mk_dinode (di_type r) (di_major r) v (di_nlink r) (di_size r) (di_addrs r).
Definition set_di_nlink (v : Z) (r : dinode) : dinode :=
  mk_dinode (di_type r) (di_major r) (di_minor r) v (di_size r) (di_addrs r).
Definition set_di_size (v : Z) (r : dinode) : dinode :=
  mk_dinode (di_type r) (di_major r) (di_minor r) (di_nlink r) v (di_addrs r).
Definition set_di_addrs (v : list Z) (r : dinode) : dinode :=
  mk_dinode (di_type r) (di_major r) (di_minor r) (di_nlink r) (di_size r) v.

(** [struct inode]: the in-memory copy. *)
Record inode : Type := mk_inode {
  i_dev : Z;
  i_inum : Z;
  i_ref : Z;
  i_lock : sleeplock;
  i_flags : Z;
  i_type : Z;
  i_major : Z;
  i_minor : Z;
  i_nlink : Z;
  i_size : Z;
  i_addrs : list Z
}.
Definition set_i_dev (v : Z) (r : inode) : inode :=
  mk_inode v (i_inum r) (i_ref r) (i_lock r) (i_flags r) (i_type r) (i_major r) (i_minor r)
    (i_nlink r) (i_size r) (i_addrs r).
Definition set_i_inum (v : Z) (r : inode) : inode :=
  mk_inode (i_dev r) v (i_ref r) (i_lock r) (i_flags r) (i_type r) (i_major r) (i_minor r)
    (i_nlink r) (i_size r) (i_addrs r).
Definition set_i_ref (v : Z) (r : inode) : inode :=
  mk_inode (i_dev r) (i_inum r) v (i_lock r) (i_flags r) (i_type r) (i_major r) (i_minor r)
    (i_nlink r) (i_size r) (i_addrs r).
Definition set_i_lock (v : sleeplock) (r : inode) : inode :=
  mk_inode (i_dev r) (i_inum r) (i_ref r) v (i_flags r) (i_type r) (i_major r) (i_minor r)
    (i_nlink r) (i_size r) (i_addrs r).
Definition set_i_flags (v : Z) (r : inode) : inode :=
  mk_inode (i_dev r) (i_inum r) (i_ref r) (i_lock r) v (i_type r) (i_major r) (i_minor r)
    (i_nlink r) (i_size r) (i_addrs r).
Definition set_i_type (v : Z) (r : inode) : inode :=
  mk_inode (i_dev r) (i_inum r) (i_ref r) (i_lock r) (i_flags r) v (i_major r) (i_minor r)
    (i_nlink r) (i_size r) (i_addrs r).
Definition set_i_major (v : Z) (r : inode) : inode :=
  mk_inode (i_dev r) (i_inum r) (i_ref r) (i_lock r) (i_flags r) (i_type r) v (i_minor r)
    (i_nlink r) (i_size r) (i_addrs r).
Definition set_i_minor (v : Z) (r : inode) : inode :=
  mk_inode (i_dev r) (i_inum r) (i_ref r) (i_lock r) (i_flags r) (i_type r) (i_major r) v
    (i_nlink r) (i_size r) (i_addrs r).
Definition set_i_nlink (v : Z) (r : inode) : inode :=
  mk_inode (i_dev r) (i_inum r) (i_ref r) (i_lock r) (i_flags r) (i_type r) (i_major r)
    (i_minor r) v (i_size r) (i_addrs r).
Definition set_i_size (v : Z) (r : inode) : inode :=
  mk_inode (i_dev r) (i_inum r) (i_ref r) (i_lock r) (i_flags r) (i_type r) (i_major r)
    (i_minor r) (i_nlink r) v (i_addrs r).
Definition set_i_addrs (v : list Z) (r : inode) : inode :=
  mk_inode (i_dev r) (i_inum r) (i_ref r) (i_lock r) (i_flags r) (i_type r) (i_major r)
    (i_minor r) (i_nlink r) (i_size r) v.

(** [struct file] *)
Record file : Type := mk_file {
  f_type : fdtype;
  f_ref : Z;
  f_readable : bool;
  f_writable : bool;
  f_pipe : Z;
  f_ip : nat;
  f_off : Z
}.
Definition set_f_type (v : fdtype) (r : file) : file :=
  mk_file v (f_ref r) (f_readable r) (f_writable r) (f_pipe r) (f_ip r) (f_off r).
Definition set_f_ref (v : Z) (r : file) : file :=
  mk_file (f_type r) v (f_readable r) (f_writable r) (f_pipe r) (f_ip r) (f_off r).
Definition set_f_readable (v : bool) (r : file) : file :=
  mk_file (f_type r) (f_ref r) v (f_writable r) (f_pipe r) (f_ip r) (f_off r).
Definition set_f_writable (v : bool) (r : file) : file :=
  mk_file (f_type r) (f_ref r) (f_readable r) v (f_pipe r) (f_ip r) (f_off r).
Definition set_f_pipe (v : Z) (r : file) : file :=
  mk_file (f_type r) (f_ref r) (f_readable r) (f_writable r) v (f_ip r) (f_off r).
Definition set_f_ip (v : nat) (r : file) : file :=
  mk_file (f_type r) (f_ref r) (f_readable r) (f_writable r) (f_pipe r) v (f_off r).
Definition set_f_off (v : Z) (r : file) : file :=
  mk_file (f_type r) (f_ref r) (f_readable r) (f_writable r) (f_pipe r) (f_ip r) v.

(** [struct pipe] *)
Record pipe : Type := mk_pipe {
  pi_data : list Z;
  pi_nread : Z;
  pi_nwrite : Z;
  pi_readopen : bool;
  pi_writeopen : bool
}.
Definition set_pi_data (v : list Z) (r : pipe) : pipe :=
  mk_pipe v (pi_nread r) (pi_nwrite r) (pi_readopen r) (pi_writeopen r).
Definition set_pi_nread (v : Z) (r : pipe) : pipe :=
  mk_pipe (pi_data r) v (pi_nwrite r) (pi_readopen r) (pi_writeopen r).
Definition set_pi_nwrite (v : Z) (r : pipe) : pipe :=
  mk_pipe (pi_data r) (pi_nread r) v (pi_readopen r) (pi_writeopen r).
Definition set_pi_readopen (v : bool) (r : pipe) : pipe :=
  mk_pipe (pi_data r) (pi_nread r) (pi_nwrite r) v (pi_writeopen r).
Definition set_pi_writeopen (v : bool) (r : pipe) : pipe :=
  mk_pipe (pi_data r) (pi_nread r) (pi_nwrite r) (pi_readopen r) v.

(** [kmem] of [src/kalloc.c]: the head of the free list; its links are in the
    pages themselves. *)
Record kmemst : Type := mk_kmemst {
  km_use_lock : bool;
  km_freelist : Z
}.
Definition set_km_use_lock (v : bool) (r : kmemst) : kmemst :=
  mk_kmemst v (km_freelist r).
Definition set_km_freelist (v : Z) (r : kmemst) : kmemst :=
  mk_kmemst (km_use_lock r) v.

(** [input] of [src/console.c] *)
Record inputst : Type := mk_inputst {
  in_buf : list Z;
  in_r : Z;
  in_w : Z;
  in_e : Z
}.
Definition set_in_buf (v : list Z) (r : inputst) : inputst :=
  mk_inputst v (in_r r) (in_w r) (in_e r).
Definition set_in_r (v : Z) (r : inputst) : inputst :=
  mk_inputst (in_buf r) v (in_w r) (in_e r).
Definition set_in_w (v : Z) (r : inputst) : inputst :=
  mk_inputst (in_buf r) (in_r r) v (in_e r).
Definition set_in_e (v : Z) (r : inputst) : inputst :=
  mk_inputst (in_buf r) (in_r r) (in_w r) v.

(** The console's output side: [cons.locking], whether there is a UART and what it
    sent (newest first), the cursor and the CGA memory ([crt]). *)
Record consst : Type := mk_consst {
  co_locking : bool;
  co_uart : bool;
  co_sent : list Z;
  co_pos : Z;
  co_crt : list Z
}.
Definition set_co_locking (v : bool) (r : consst) : consst :=
  mk_consst v (co_uart r) (co_sent r) (co_pos r) (co_crt r).
Definition set_co_uart (v : bool) (r : consst) : consst :=
  mk_consst (co_locking r) v (co_sent r) (co_pos r) (co_crt r).
Definition set_co_sent (v : list Z) (r : consst) : consst :=
  mk_consst (co_locking r) (co_uart r) v (co_pos r) (co_crt r).
Definition set_co_pos (v : Z) (r : consst) : consst :=
  mk_consst (co_locking r) (co_uart r) (co_sent r) v (co_crt r).
Definition set_co_crt (v : list Z) (r : consst) : consst :=
  mk_consst (co_locking r) (co_uart r) (co_sent r) (co_pos r) v.

(** All kernel globals.  [k_proc] is the CPU's [proc]; [k_disk] the memory disk of
    [src/memide.c]; [k_writes] is a ghost: the disk writes so far, newest first.
  [k_end] is the linker symbol [end], [k_local] is [cpu->local], [k_kpml4] and [k_kpdpt] are
    the kernel's page
    tables and [k_cr3] the current one, [k_shift]
    and [k_first] the statics of [kbdgetc] and [forkret]. *)
Record kst : Type := mk_kst {
  k_cpu : cpu;
  k_ptable : list proc;
  k_nextpid : Z;
  k_initproc : option nat;
  k_proc : option nat;
  k_bufs : list buf;
  k_disk : list block;
  k_writes : list (Z * block);
  k_log : logst;
  k_sb : superblock;
  k_icache : list inode;
  k_ftable : list file;
  k_devsw : list (option device);
  k_pipes : gmap Z pipe;
  k_mem : mem;
  k_kmem : kmemst;
  k_input : inputst;
  k_cons : consst;
  k_ticks : Z;
  k_end : Z;
  k_local : Z;
  k_kpml4 : Z;
  k_kpdpt : Z;
  k_cr3 : Z;
  k_shift : Z;
  k_first : bool
}.
Definition set_k_cpu (v : cpu) (r : kst) : kst :=
  mk_kst v (k_ptable r) (k_nextpid r) (k_initproc r) (k_proc r) (k_bufs r) (k_disk r)
    (k_writes r) (k_log r) (k_sb r) (k_icache r) (k_ftable r) (k_devsw r) (k_pipes r) (k_mem
    r) (k_kmem r) (k_input r) (k_cons r) (k_ticks r) (k_end r) (k_local r) (k_kpml4 r)
    (k_kpdpt r) (k_cr3 r) (k_shift r) (k_first r).
Definition set_k_ptable (v : list proc) (r : kst) : kst :=
  mk_kst (k_cpu r) v (k_nextpid r) (k_initproc r) (k_proc r) (k_bufs r) (k_disk r) (k_writes
    r) (k_log r) (k_sb r) (k_icache r) (k_ftable r) (k_devsw r) (k_pipes r) (k_mem r) (k_kmem
    r) (k_input r) (k_cons r) (k_ticks r) (k_end r) (k_local r) (k_kpml4 r) (k_kpdpt r) (k_cr3
    r) (k_shift r) (k_first r).
Definition set_k_nextpid (v : Z) (r : kst) : kst :=
  mk_kst (k_cpu r) (k_ptable r) v (k_initproc r) (k_proc r) (k_bufs r) (k_disk r) (k_writes r)
    (k_log r) (k_sb r) (k_icache r) (k_ftable r) (k_devsw r) (k_pipes r) (k_mem r) (k_kmem r)
    (k_input r) (k_cons r) (k_ticks r) (k_end r) (k_local r) (k_kpml4 r) (k_kpdpt r) (k_cr3 r)
    (k_shift r) (k_first r).
Definition set_k_initproc (v : option nat) (r : kst) : kst :=
  mk_kst (k_cpu r) (k_ptable r) (k_nextpid r) v (k_proc r) (k_bufs r) (k_disk r) (k_writes r)
    (k_log r) (k_sb r) (k_icache r) (k_ftable r) (k_devsw r) (k_pipes r) (k_mem r) (k_kmem r)
    (k_input r) (k_cons r) (k_ticks r) (k_end r) (k_local r) (k_kpml4 r) (k_kpdpt r) (k_cr3 r)
    (k_shift r) (k_first r).
Definition set_k_proc (v : option nat) (r : kst) : kst :=
  mk_kst (k_cpu r) (k_ptable r) (k_nextpid r) (k_initproc r) v (k_bufs r) (k_disk r) (k_writes
    r) (k_log r) (k_sb r) (k_icache r) (k_ftable r) (k_devsw r) (k_pipes r) (k_mem r) (k_kmem
    r) (k_input r) (k_cons r) (k_ticks r) (k_end r) (k_local r) (k_kpml4 r) (k_kpdpt r) (k_cr3
    r) (k_shift r) (k_first r).
Definition set_k_bufs (v : list buf) (r : kst) : kst :=
  mk_kst (k_cpu r) (k_ptable r) (k_nextpid r) (k_initproc r) (k_proc r) v (k_disk r) (k_writes
    r) (k_log r) (k_sb r) (k_icache r) (k_ftable r) (k_devsw r) (k_pipes r) (k_mem r) (k_kmem
    r) (k_input r) (k_cons r) (k_ticks r) (k_end r) (k_local r) (k_kpml4 r) (k_kpdpt r) (k_cr3
    r) (k_shift r) (k_first r).
Definition set_k_disk (v : list block) (r : kst) : kst :=
  mk_kst (k_cpu r) (k_ptable r) (k_nextpid r) (k_initproc r) (k_proc r) (k_bufs r) v (k_writes
    r) (k_log r) (k_sb r) (k_icache r) (k_ftable r) (k_devsw r) (k_pipes r) (k_mem r) (k_kmem
    r) (k_input r) (k_cons r) (k_ticks r) (k_end r) (k_local r) (k_kpml4 r) (k_kpdpt r) (k_cr3
    r) (k_shift r) (k_first r).
Definition set_k_writes (v : list (Z * block)) (r : kst) : kst :=
  mk_kst (k_cpu r) (k_ptable r) (k_nextpid r) (k_initproc r) (k_proc r) (k_bufs r) (k_disk r)
    v (k_log r) (k_sb r) (k_icache r) (k_ftable r) (k_devsw r) (k_pipes r) (k_mem r) (k_kmem
    r) (k_input r) (k_cons r) (k_ticks r) (k_end r) (k_local r) (k_kpml4 r) (k_kpdpt r) (k_cr3
    r) (k_shift r) (k_first r).
Definition set_k_log (v : logst) (r : kst) : kst :=
  mk_kst (k_cpu r) (k_ptable r) (k_nextpid r) (k_initproc r) (k_proc r) (k_bufs r) (k_disk r)
    (k_writes r) v (k_sb r) (k_icache r) (k_ftable r) (k_devsw r) (k_pipes r) (k_mem r)
    (k_kmem r) (k_input r) (k_cons r) (k_ticks r) (k_end r) (k_local r) (k_kpml4 r) (k_kpdpt
    r) (k_cr3 r) (k_shift r) (k_first r).
Definition set_k_sb (v : superblock) (r : kst) : kst :=
  mk_kst (k_cpu r) (k_ptable r) (k_nextpid r) (k_initproc r) (k_proc r) (k_bufs r) (k_disk r)
    (k_writes r) (k_log r) v (k_icache r) (k_ftable r) (k_devsw r) (k_pipes r) (k_mem r)
    (k_kmem r) (k_input r) (k_cons r) (k_ticks r) (k_end r) (k_local r) (k_kpml4 r) (k_kpdpt
    r) (k_cr3 r) (k_shift r) (k_first r).
Definition set_k_icache (v : list inode) (r : kst) : kst :=
  mk_kst (k_cpu r) (k_ptable r) (k_nextpid r) (k_initproc r) (k_proc r) (k_bufs r) (k_disk r)
    (k_writes r) (k_log r) (k_sb r) v (k_ftable r) (k_devsw r) (k_pipes r) (k_mem r) (k_kmem
    r) (k_input r) (k_cons r) (k_ticks r) (k_end r) (k_local r) (k_kpml4 r) (k_kpdpt r) (k_cr3
    r) (k_shift r) (k_first r).
Definition set_k_ftable (v : list file) (r : kst) : kst :=
  mk_kst (k_cpu r) (k_ptable r) (k_nextpid r) (k_initproc r) (k_proc r) (k_bufs r) (k_disk r)
    (k_writes r) (k_log r) (k_sb r) (k_icache r) v (k_devsw r) (k_pipes r) (k_mem r) (k_kmem
    r) (k_input r) (k_cons r) (k_ticks r) (k_end r) (k_local r) (k_kpml4 r) (k_kpdpt r) (k_cr3
    r) (k_shift r) (k_first r).
Definition set_k_devsw (v : list (option device)) (r : kst) : kst :=
  mk_kst (k_cpu r) (k_ptable r) (k_nextpid r) (k_initproc r) (k_proc r) (k_bufs r) (k_disk r)
    (k_writes r) (k_log r) (k_sb r) (k_icache r) (k_ftable r) v (k_pipes r) (k_mem r) (k_kmem
    r) (k_input r) (k_cons r) (k_ticks r) (k_end r) (k_local r) (k_kpml4 r) (k_kpdpt r) (k_cr3
    r) (k_shift r) (k_first r).
Definition set_k_pipes (v : gmap Z pipe) (r : kst) : kst :=
  mk_kst (k_cpu r) (k_ptable r) (k_nextpid r) (k_initproc r) (k_proc r) (k_bufs r) (k_disk r)
    (k_writes r) (k_log r) (k_sb r) (k_icache r) (k_ftable r) (k_devsw r) v (k_mem r) (k_kmem
    r) (k_input r) (k_cons r) (k_ticks r) (k_end r) (k_local r) (k_kpml4 r) (k_kpdpt r) (k_cr3
    r) (k_shift r) (k_first r).
Definition set_k_mem (v : mem) (r : kst) : kst :=
  mk_kst (k_cpu r) (k_ptable r) (k_nextpid r) (k_initproc r) (k_proc r) (k_bufs r) (k_disk r)
    (k_writes r) (k_log r) (k_sb r) (k_icache r) (k_ftable r) (k_devsw r) (k_pipes r) v
    (k_kmem r) (k_input r) (k_cons r) (k_ticks r) (k_end r) (k_local r) (k_kpml4 r) (k_kpdpt
    r) (k_cr3 r) (k_shift r) (k_first r).
Definition set_k_kmem (v : kmemst) (r : kst) : kst :=
  mk_kst (k_cpu r) (k_ptable r) (k_nextpid r) (k_initproc r) (k_proc r) (k_bufs r) (k_disk r)
    (k_writes r) (k_log r) (k_sb r) (k_icache r) (k_ftable r) (k_devsw r) (k_pipes r) (k_mem
    r) v (k_input r) (k_cons r) (k_ticks r) (k_end r) (k_local r) (k_kpml4 r) (k_kpdpt r)
    (k_cr3 r) (k_shift r) (k_first r).
Definition set_k_input (v : inputst) (r : kst) : kst :=
  mk_kst (k_cpu r) (k_ptable r) (k_nextpid r) (k_initproc r) (k_proc r) (k_bufs r) (k_disk r)
    (k_writes r) (k_log r) (k_sb r) (k_icache r) (k_ftable r) (k_devsw r) (k_pipes r) (k_mem
    r) (k_kmem r) v (k_cons r) (k_ticks r) (k_end r) (k_local r) (k_kpml4 r) (k_kpdpt r)
    (k_cr3 r) (k_shift r) (k_first r).
Definition set_k_cons (v : consst) (r : kst) : kst :=
  mk_kst (k_cpu r) (k_ptable r) (k_nextpid r) (k_initproc r) (k_proc r) (k_bufs r) (k_disk r)
    (k_writes r) (k_log r) (k_sb r) (k_icache r) (k_ftable r) (k_devsw r) (k_pipes r) (k_mem
    r) (k_kmem r) (k_input r) v (k_ticks r) (k_end r) (k_local r) (k_kpml4 r) (k_kpdpt r)
    (k_cr3 r) (k_shift r) (k_first r).
Definition set_k_ticks (v : Z) (r : kst) : kst :=
  mk_kst (k_cpu r) (k_ptable r) (k_nextpid r) (k_initproc r) (k_proc r) (k_bufs r) (k_disk r)
    (k_writes r) (k_log r) (k_sb r) (k_icache r) (k_ftable r) (k_devsw r) (k_pipes r) (k_mem
    r) (k_kmem r) (k_input r) (k_cons r) v (k_end r) (k_local r) (k_kpml4 r) (k_kpdpt r)
    (k_cr3 r) (k_shift r) (k_first r).
Definition set_k_end (v : Z) (r : kst) : kst :=
  mk_kst (k_cpu r) (k_ptable r) (k_nextpid r) (k_initproc r) (k_proc r) (k_bufs r) (k_disk r)
    (k_writes r) (k_log r) (k_sb r) (k_icache r) (k_ftable r) (k_devsw r) (k_pipes r) (k_mem
    r) (k_kmem r) (k_input r) (k_cons r) (k_ticks r) v (k_local r) (k_kpml4 r) (k_kpdpt r)
    (k_cr3 r) (k_shift r) (k_first r).
Definition set_k_local (v : Z) (r : kst) : kst :=
  mk_kst (k_cpu r) (k_ptable r) (k_nextpid r) (k_initproc r) (k_proc r) (k_bufs r) (k_disk r)
    (k_writes r) (k_log r) (k_sb r) (k_icache r) (k_ftable r) (k_devsw r) (k_pipes r) (k_mem
    r) (k_kmem r) (k_input r) (k_cons r) (k_ticks r) (k_end r) v (k_kpml4 r) (k_kpdpt r)
    (k_cr3 r) (k_shift r) (k_first r).
Definition set_k_kpml4 (v : Z) (r : kst) : kst :=
  mk_kst (k_cpu r) (k_ptable r) (k_nextpid r) (k_initproc r) (k_proc r) (k_bufs r) (k_disk r)
    (k_writes r) (k_log r) (k_sb r) (k_icache r) (k_ftable r) (k_devsw r) (k_pipes r) (k_mem
    r) (k_kmem r) (k_input r) (k_cons r) (k_ticks r) (k_end r) (k_local r) v (k_kpdpt r)
    (k_cr3 r) (k_shift r) (k_first r).
Definition set_k_kpdpt (v : Z) (r : kst) : kst :=
  mk_kst (k_cpu r) (k_ptable r) (k_nextpid r) (k_initproc r) (k_proc r) (k_bufs r) (k_disk r)
    (k_writes r) (k_log r) (k_sb r) (k_icache r) (k_ftable r) (k_devsw r) (k_pipes r) (k_mem
    r) (k_kmem r) (k_input r) (k_cons r) (k_ticks r) (k_end r) (k_local r) (k_kpml4 r) v
    (k_cr3 r) (k_shift r) (k_first r).
Definition set_k_cr3 (v : Z) (r : kst) : kst :=
  mk_kst (k_cpu r) (k_ptable r) (k_nextpid r) (k_initproc r) (k_proc r) (k_bufs r) (k_disk r)
    (k_writes r) (k_log r) (k_sb r) (k_icache r) (k_ftable r) (k_devsw r) (k_pipes r) (k_mem
    r) (k_kmem r) (k_input r) (k_cons r) (k_ticks r) (k_end r) (k_local r) (k_kpml4 r)
    (k_kpdpt r) v (k_shift r) (k_first r).
Definition set_k_shift (v : Z) (r : kst) : kst :=
  mk_kst (k_cpu r) (k_ptable r) (k_nextpid r) (k_initproc r) (k_proc r) (k_bufs r) (k_disk r)
    (k_writes r) (k_log r) (k_sb r) (k_icache r) (k_ftable r) (k_devsw r) (k_pipes r) (k_mem
    r) (k_kmem r) (k_input r) (k_cons r) (k_ticks r) (k_end r) (k_local r) (k_kpml4 r)
    (k_kpdpt r) (k_cr3 r) v (k_first r).
Definition set_k_first (v : bool) (r : kst) : kst :=
  mk_kst (k_cpu r) (k_ptable r) (k_nextpid r) (k_initproc r) (k_proc r) (k_bufs r) (k_disk r)
    (k_writes r) (k_log r) (k_sb r) (k_icache r) (k_ftable r) (k_devsw r) (k_pipes r) (k_mem
    r) (k_kmem r) (k_input r) (k_cons r) (k_ticks r) (k_end r) (k_local r) (k_kpml4 r)
    (k_kpdpt r) (k_cr3 r) (k_shift r) v.

(** ** The zeroed data segment the kernel starts from *)
Definition zero_sleeplock : sleeplock := mk_sleeplock false 0.
Definition zero_tf : trapframe := mk_trapframe 0 0 0 0 0 0 0 0 0 0 0 0 0 0 0 0 0 0 0 0 0 0.
Definition zero_proc : proc :=
  mk_proc 0 0 0 UNUSED 0 None zero_tf K_swtch None false (replicate NOFILE None) None
    (replicate 16 0).
Definition zero_buf : buf :=
  mk_buf 0 0 0 zero_sleeplock 0 0 0 (replicate (Z.to_nat BSIZE) 0).
Definition zero_log : logst :=
  mk_logst 0 0 0 false 0 (mk_logheader 0 (replicate (Z.to_nat LOGSIZE) 0)).
Definition zero_inode : inode :=
  mk_inode 0 0 0 zero_sleeplock 0 0 0 0 0 0 (replicate (Z.to_nat (NDIRECT + 1)) 0).
Definition zero_file : file := mk_file FD_NONE 0 false false 0 0 0.

(** [bcache.buf] followed by [bcache.head], whose index is [NBUF]. *)
Definition bhead : nat := NBUF.

Definition kst_zero : kst :=
  mk_kst (mk_cpu 0 false false []) (replicate NPROC zero_proc) 1 None None
    (replicate (S NBUF) zero_buf) [] [] zero_log (mk_superblock 0 0 0 0 0 0 0)
    (replicate NINODE zero_inode) (replicate NFILE zero_file)
    (replicate (Z.to_nat NDEV) None) ∅ (fun _ => 0) (mk_kmemst false 0)
  (mk_inputst (replicate (Z.to_nat INPUT_BUF) 0) 0 0 0) (mk_consst false false [] 0 (replicate
    2000 0)) 0 0 0 0 0 0 0 true.
