(* ===== verification/Spinlock.v ===== *)
(** Spin locks and interrupt nesting, [src/spinlock.c].

    The model follows one CPU.  [held] lists the spin locks whose [locked]
    word is set and whose [cpu] field is this CPU; a lock that another CPU
    holds is waited for by spinning, so [acquire] is modelled from the
    [xchg] that finds it free. *)
From Stdlib Require Import ZArith Lia.
From stdpp Require Import base list sets strings numbers.
From S2P Require Import Prelude State.

Local Open Scope Z_scope.

Definition upd_cpu (f : cpu -> cpu) : M kst unit :=
  modify (fun k => set_k_cpu (f (k_cpu k)) k).

(** [readeflags() & FL_IF], [cli()] and [sti()]. *)
Definition readeflags_IF : M kst bool := gets (fun k => intr_on (k_cpu k)).
Definition cli : M kst unit := upd_cpu (set_intr_on false).
Definition sti : M kst unit := upd_cpu (set_intr_on true).

Definition pushcli : M kst unit :=
  eflags ← readeflags_IF;
  cli;;
  c ← gets k_cpu;
  (if ncli c =? 0 then upd_cpu (set_intena eflags) else mret tt);;
  upd_cpu (fun c => set_ncli (ncli c + 1) c).

Definition popcli : M kst unit :=
  eflags ← readeflags_IF;
  if (eflags : bool) then panic "popcli - interruptible" else
  upd_cpu (fun c => set_ncli (ncli c - 1) c);;
  c ← gets k_cpu;
  if ncli c <? 0 then panic "popcli" else
  if (ncli c =? 0) && intena c then sti else mret tt.

(** [initlock]: the lock word and the holding CPU are cleared; the name is for debugging. *)
Definition initlock (lk : lockid) : M kst unit :=
  upd_cpu (fun c => set_held (filter (fun l => l <> lk) (held c)) c).

(** Is this CPU holding the lock? *)
Definition holding (lk : lockid) : M kst bool :=
  gets (fun k => bool_decide (lk ∈ held (k_cpu k))).

Definition acquire (lk : lockid) : M kst unit :=
  pushcli;;
  h ← holding lk;
  if (h : bool) then panic "acquire" else
  upd_cpu (fun c => set_held (lk :: held c) c).

Definition release (lk : lockid) : M kst unit :=
  h ← holding lk;
  if negb h then panic "release" else
  upd_cpu (fun c => set_held (filter (fun l => l <> lk) (held c)) c);;
  popcli.

(** [getstackpcs]: follow the saved frame pointers for at most ten frames and
    pad with zeros. *)
Fixpoint getstackpcs_loop (n : nat) (m : mem) (rbp : Z) : list Z :=
  match n with
  | O => []
  | S n' =>
      if (rbp =? 0) || (rbp <? KERNBASE) || (rbp =? 4294967295) then replicate n 0
      else load 8 m (rbp + 8) :: getstackpcs_loop n' m (load 8 m rbp)
  end.
Definition getstackpcs (m : mem) (rbp : Z) : list Z := getstackpcs_loop 10 m rbp.

(** [getcallerpcs]; [rbp] is the frame pointer that the inline assembly reads. *)
Definition getcallerpcs (m : mem) (rbp : Z) : list Z := getstackpcs m rbp.

(** ** Invariant

    Interrupts are off while [ncli] is positive, and [intena] is up to date
    when it is zero. *)
Definition cpu_ok (c : cpu) : Prop :=
  0 <= ncli c /\ (0 < ncli c -> intr_on c = false) /\
  (ncli c = 0 -> intena c = intr_on c) /\ NoDup (held c).

(** The CPU after [acquire lk]. *)
Definition lock_cpu (lk : lockid) (c : cpu) : cpu :=
  mk_cpu (ncli c + 1) (if ncli c =? 0 then intr_on c else intena c) false
    (lk :: held c).

Lemma lock_cpu_ok lk c : cpu_ok c -> lk ∉ held c -> cpu_ok (lock_cpu lk c).
Proof.
  intros (Hn & Hi & He & Hd) Hl. unfold cpu_ok, lock_cpu; simpl.
  repeat split; try done; try lia. by constructor.
Qed.

Lemma acquire_eq lk k :
  lk ∉ held (k_cpu k) ->
  acquire lk k = Ok tt (set_k_cpu (lock_cpu lk (k_cpu k)) k).
Proof.
  intros Hl. unfold acquire, pushcli, holding, readeflags_IF, cli, upd_cpu, gets, modify.
  unfold mbind, M_bind, mret, M_ret, lock_cpu, set_k_cpu. simpl.
  destruct (Z.eqb_spec (ncli (k_cpu k)) 0); simpl;
    rewrite bool_decide_false by done; reflexivity.
Qed.

Lemma release_eq lk c k :
  cpu_ok c -> lk ∉ held c -> k_cpu k = lock_cpu lk c ->
  release lk k = Ok tt (set_k_cpu c k).
Proof.
  intros (Hn & Hi & He & Hd) Hl Hk.
  unfold release, popcli, holding, readeflags_IF, sti, upd_cpu, gets, modify.
  unfold mbind, M_bind, mret, M_ret. rewrite Hk. simpl.
  rewrite bool_decide_true by (by constructor). simpl. rewrite Hk. simpl.
  rewrite filter_cons_False by naive_solver.
  assert (Hf : filter (fun l => l <> lk) (held c) = held c).
  { clear -Hl. induction (held c) as [|l ls IH]; [done|].
    rewrite filter_cons_True by set_solver. f_equal. apply IH. set_solver. }
  replace (ncli c + 1 - 1) with (ncli c) by lia.
  rewrite (proj2 (Z.ltb_ge _ _) Hn).
  destruct c as [n ie on h]; simpl in *.
  destruct (Z.eqb_spec n 0) as [->|Hnz]; simpl.
  - rewrite He by done. rewrite Hf. destruct on; reflexivity.
  - rewrite Hi by lia. rewrite Hf. unfold lock_cpu; simpl.
    rewrite (proj2 (Z.eqb_neq n 0) Hnz). reflexivity.
Qed.

Lemma wp_acquire lk (Q : unit -> kst -> Prop) k :
  lk ∉ held (k_cpu k) -> Q tt (set_k_cpu (lock_cpu lk (k_cpu k)) k) ->
  wp (acquire lk) Q k.
Proof. intros Hl HQ. unfold wp. by rewrite acquire_eq. Qed.

Lemma wp_release lk c (Q : unit -> kst -> Prop) k :
  k_cpu k = lock_cpu lk c -> cpu_ok c -> lk ∉ held c -> Q tt (set_k_cpu c k) ->
  wp (release lk) Q k.
Proof. intros Hk Hc Hl HQ. unfold wp. by rewrite (release_eq lk c). Qed.

Lemma set_k_cpu_id k : set_k_cpu (k_cpu k) k = k.
Proof. by destruct k. Qed.

(** [n] nested [pushcli]s, and [n] [popcli]s. *)
Fixpoint pushes (n : nat) : M kst unit :=
  match n with O => mret tt | S n' => pushcli;; pushes n' end.
Fixpoint pops (n : nat) : M kst unit :=
  match n with O => mret tt | S n' => popcli;; pops n' end.

Definition nested (n : nat) (c : cpu) : cpu :=
  match n with
  | O => c
  | S _ => mk_cpu (ncli c + Z.of_nat n) (if ncli c =? 0 then intr_on c else intena c)
             false (held c)
  end.

Lemma pushcli_nested n c k :
  0 <= ncli c -> k_cpu k = nested n c ->
  pushcli k = Ok tt (set_k_cpu (nested (S n) c) k).
Proof.
  intros Hn Hk. destruct k as [c0]; cbn in Hk; subst c0.
  unfold pushcli, readeflags_IF, cli, upd_cpu, gets, modify.
  unfold mbind, M_bind, mret, M_ret, set_k_cpu.
  destruct n as [|n]; cbn -[Z.of_nat Z.add].
  - destruct (Z.eqb_spec (ncli c) 0); reflexivity.
  - destruct (Z.eqb_spec (ncli c + Z.of_nat (S n)) 0); [lia|].
    unfold set_ncli; cbn -[Z.of_nat Z.add]. do 3 f_equal. lia.
Qed.

Lemma popcli_nested n c k :
  cpu_ok c -> k_cpu k = nested (S n) c ->
  popcli k = Ok tt (set_k_cpu (nested n c) k).
Proof.
  intros (Hn & Hi & He & Hd) Hk. destruct k as [c0]; cbn in Hk; subst c0.
  unfold popcli, readeflags_IF, sti, upd_cpu, gets, modify.
  unfold mbind, M_bind, mret, M_ret, set_k_cpu. cbn -[Z.of_nat Z.add Z.sub].
  replace (ncli c + Z.of_nat (S n) - 1) with (ncli c + Z.of_nat n) by lia.
  destruct (Z.ltb_spec (ncli c + Z.of_nat n) 0); [lia|].
  destruct n as [|n].
  - rewrite Z.add_0_r. destruct c as [m ie on h]; cbn in *.
    destruct (Z.eqb_spec m 0) as [->|Hnz]; cbn.
    + rewrite He by done. destruct on; reflexivity.
    + rewrite Hi by lia. reflexivity.
  - destruct (Z.eqb_spec (ncli c + Z.of_nat (S n)) 0); [lia|]. reflexivity.
Qed.

Lemma pushes_eq n j c k :
  0 <= ncli c -> k_cpu k = nested j c -> pushes n k = Ok tt (set_k_cpu (nested (n + j) c) k).
Proof.
  intros Hn. revert j k. induction n as [|n IH]; intros j k Hk; simpl.
  - rewrite <- Hk, set_k_cpu_id. done.
  - unfold mbind at 1, M_bind at 1. rewrite (pushcli_nested j c) by done.
    rewrite (IH (S j)) by done. by rewrite Nat.add_succ_r.
Qed.

Lemma pops_eq n c k :
  cpu_ok c -> k_cpu k = nested n c -> pops n k = Ok tt (set_k_cpu c k).
Proof.
  intros Hc. revert k. induction n as [|n IH]; intros k Hk; simpl.
  - simpl in Hk. rewrite <- Hk, set_k_cpu_id. done.
  - unfold mbind at 1, M_bind at 1. rewrite (popcli_nested n c) by done.
    by rewrite IH.
Qed.

(** ** Properties *)

(** [acquire] followed by [release] of the same lock succeeds and restores the
    CPU state exactly, the interrupt flag and the nesting depth included; while
    the lock is held interrupts are off and the lock is recorded once. *)
Theorem acquire_release (lk : lockid) (k : kst) :
  cpu_ok (k_cpu k) -> lk ∉ held (k_cpu k) ->
  exists k1, acquire lk k = Ok tt k1 /\ cpu_ok (k_cpu k1) /\
    intr_on (k_cpu k1) = false /\ held (k_cpu k1) = lk :: held (k_cpu k) /\
    release lk k1 = Ok tt k.
Proof.
  intros Hc Hl. exists (set_k_cpu (lock_cpu lk (k_cpu k)) k).
  split; [by apply acquire_eq|]. split; [by apply lock_cpu_ok|].
  split; [done|]. split; [done|].
  rewrite (release_eq lk (k_cpu k)) by done. f_equal. by destruct k.
Qed.

Lemma acquire_release_witness :
  exists k1, acquire L_log kst_zero = Ok tt k1 /\ release L_log k1 = Ok tt kst_zero.
Proof.
  destruct (acquire_release L_log kst_zero) as (k1 & Ha & _ & _ & _ & Hr).
  - unfold cpu_ok; simpl. repeat split; try lia; try done; constructor.
  - apply not_elem_of_nil.
  - by exists k1.
Defined.

(** [pushcli]/[popcli] are matched: [n] pushes leave interrupts off and [n] pops
    afterwards bring the CPU back to where it was, whether interrupts were on or
    off and however deep the nesting already was. *)
Theorem pushcli_popcli_matched (n : nat) (k : kst) :
  cpu_ok (k_cpu k) ->
  exists k1, pushes n k = Ok tt k1 /\ (n <> 0%nat -> intr_on (k_cpu k1) = false) /\
    pops n k1 = Ok tt k.
Proof.
  intros Hc. exists (set_k_cpu (nested n (k_cpu k)) k).
  split; [by rewrite (pushes_eq n 0 (k_cpu k) k (proj1 Hc)), Nat.add_0_r|].
  split; [by destruct n|].
  rewrite (pops_eq n (k_cpu k)) by done. f_equal. by destruct k.
Qed.

Lemma pushcli_popcli_matched_witness :
  exists k1, pushes 3 kst_zero = Ok tt k1 /\ intr_on (k_cpu k1) = false /\
    pops 3 k1 = Ok tt kst_zero.
Proof.
  destruct (pushcli_popcli_matched 3 kst_zero) as (k1 & Ha & Hi & Hr).
  - unfold cpu_ok; simpl. repeat split; try lia; try done; constructor.
  - exists k1. split; [done|]. split; [by apply Hi|done].
Defined.

(** Taking a lock the CPU already holds panics instead of deadlocking, and so
    does releasing one it does not hold. *)
Theorem lock_misuse_panics (lk : lockid) (k : kst) :
  (lk ∈ held (k_cpu k) -> acquire lk k = Err (EPanic "acquire")) /\
  (lk ∉ held (k_cpu k) -> release lk k = Err (EPanic "release")).
Proof.
  split; intros Hl.
  - unfold acquire, pushcli, holding, readeflags_IF, cli, upd_cpu, gets, modify.
    unfold mbind, M_bind, mret, M_ret. simpl.
    destruct (Z.eqb_spec (ncli (k_cpu k)) 0); simpl; by rewrite bool_decide_true.
  - unfold release, holding, gets. unfold mbind, M_bind. by rewrite bool_decide_false.
Qed.
Lemma lock_misuse_panics_witness :
  exists k1, acquire L_log kst_zero = Ok tt k1 /\ acquire L_log k1 = Err (EPanic "acquire").
Proof.
  eexists. split; [reflexivity|]. apply lock_misuse_panics. simpl. constructor.
Defined.
