(* ===== verification/Code.v ===== *)
(** Kernel code with its lock operations and its switches to the scheduler in sight.

    The monad [M] runs a call on one CPU to its end.  Where it matters what others do in
    between, code is a tree: its nodes are the operations on spin locks, the sections of code
    between them, and the [swtch] to the scheduler with what follows it.  [segment] runs such
    code up to its next switch and returns what is left of it; [run] forgets the rest and is
    the function in [M] that other code calls.  A loop around [sleep] jumps back to its head
    with [C_again], which carries the loop's variables; [unloop] puts the code of the head in
    that place. *)
From Stdlib Require Import ZArith Lia.
From stdpp Require Import base list sets strings numbers.
From S2P Require Import Prelude State Spinlock.

Local Open Scope Z_scope.

(** [L]: the variables of the loop around the code; [A]: its result. *)
Inductive code (L A : Type) : Type :=
| C_ret (a : A)
| C_acquire (lk : lockid) (c : code L A)
| C_release (lk : lockid) (c : code L A)
| C_do {B : Type} (m : M kst B) (f : B -> code L A)
| C_swtch (c : code L A)
| C_again (l : L).
Arguments C_ret {L A} a.
Arguments C_acquire {L A} lk c.
Arguments C_release {L A} lk c.
Arguments C_do {L A B} m f.
Arguments C_swtch {L A} c.
Arguments C_again {L A} l.

Fixpoint code_bind {L A B : Type} (g : A -> code L B) (c : code L A) : code L B :=
  match c with
  | C_ret a => g a
  | C_acquire lk c' => C_acquire lk (code_bind g c')
  | C_release lk c' => C_release lk (code_bind g c')
  | C_do m f => C_do m (fun b => code_bind g (f b))
  | C_swtch c' => C_swtch (code_bind g c')
  | C_again l => C_again l
  end.
#[global] Instance code_ret (L : Type) : MRet (code L) := fun A => C_ret.
#[global] Instance code_mbind (L : Type) : MBind (code L) := fun A B g c => code_bind g c.

(** The operations as code. *)
Definition lock {L : Type} (lk : lockid) : code L unit := C_acquire lk (C_ret tt).
Definition unlock {L : Type} (lk : lockid) : code L unit := C_release lk (C_ret tt).
Definition do_ {L A : Type} (m : M kst A) : code L A := C_do m C_ret.
Definition swtch_ {L : Type} : code L unit := C_swtch (C_ret tt).

(** The jump back to the head of a loop whose body has slept, in code that is run as one call.
    The call has stopped by then; when the thread is scheduled again the loop starts over from
    the state of that moment. *)
Definition again {A : Type} : M kst A := fail EFuel.

(** Up to the next switch: the result, or the code behind the switch. *)
Fixpoint segment {L A : Type} (c : code L A) : M kst (A + code L A) :=
  match c with
  | C_ret a => mret (inl a)
  | C_acquire lk c' => acquire lk;; segment c'
  | C_release lk c' => release lk;; segment c'
  | C_do m f => b ← m; segment (f b)
  | C_swtch c' => mret (inr c')
  | C_again _ => again
  end.

(** [swtch(&proc->context, cpu->scheduler)]: this thread stops here. *)
Definition swtch_to_scheduler {A : Type} : M kst A := fun k => Blocked k.

Definition run {L A : Type} (c : code L A) : M kst A :=
  r ← segment c;
  match r with
  | inl a => mret a
  | inr _ => swtch_to_scheduler
  end.

(** What a thread does that is scheduled again: the rest [c] of its code, in a loop with this
    [head]. *)
Fixpoint unloop {L A : Type} (head : L -> code L A) (c : code L A) : code L A :=
  match c with
  | C_ret a => C_ret a
  | C_acquire lk c' => C_acquire lk (unloop head c')
  | C_release lk c' => C_release lk (unloop head c')
  | C_do m f => C_do m (fun b => unloop head (f b))
  | C_swtch c' => C_swtch (unloop head c')
  | C_again l => head l
  end.

(** ** Rules *)
Section rules.
Context {L : Type}.

Lemma segment_bind {A B} (c : code L A) (g : A -> code L B) k :
  segment (c ≫= g) k =
    match segment c k with
    | Ok (inl a) k' => segment (g a) k'
    | Ok (inr c') k' => Ok (inr (c' ≫= g)) k'
    | Blocked k' => Blocked k'
    | Err e => Err e
    end.
Proof.
  revert k. induction c as [a|lk c IH|lk c IH|B' m f IH|c IH|l]; intros k; cbn; try done.
  - unfold mbind, M_bind, code_mbind. destruct (acquire lk k); [apply IH|done..].
  - unfold mbind, M_bind, code_mbind. destruct (release lk k); [apply IH|done..].
  - unfold mbind, M_bind, code_mbind. destruct (m k); [apply IH|done..].
Qed.

Lemma segment_do {A} (m : M kst A) k :
  segment (L := L) (do_ m) k = match m k with Ok a k' => Ok (inl a) k' | Blocked k' => Blocked k' | Err e => Err e end.
Proof. unfold do_. cbn. unfold mbind, M_bind. by destruct (m k). Qed.

Lemma run_segment {A} (c : code L A) k :
  run c k = match segment c k with
            | Ok (inl a) k' => Ok a k' | Ok (inr _) k' => Blocked k' | Blocked k' => Blocked k' | Err e => Err e
            end.
Proof. unfold run, mbind, M_bind. by destruct (segment c k) as [[]| |]. Qed.
Lemma run_code_ret {A} (a : A) k : run (L := L) (mret a) k = Ok a k.
Proof. done. Qed.

Lemma run_code_bind {A B} (c : code L A) (g : A -> code L B) k :
  run (c ≫= g) k = (run c ≫= fun a => run (g a)) k.
Proof.
  rewrite run_segment, segment_bind. unfold mbind, M_bind. rewrite run_segment.
  destruct (segment c k) as [[a|c'] k'| |]; try done. by rewrite run_segment.
Qed.

Lemma run_do {A} (m : M kst A) k : run (L := L) (do_ m) k = m k.
Proof. unfold run, mbind, M_bind. rewrite segment_do. by destruct (m k). Qed.

Lemma run_lock lk k : run (L := L) (lock lk) k = acquire lk k.
Proof. unfold run, lock. cbn. unfold mbind, M_bind. by destruct (acquire lk k) as [[]| |]. Qed.

Lemma run_unlock lk k : run (L := L) (unlock lk) k = release lk k.
Proof. unfold run, unlock. cbn. unfold mbind, M_bind. by destruct (release lk k) as [[]| |]. Qed.

(** Code that is a call, and then the rest. *)
Lemma run_seq {A B} (c : code L A) (g : A -> code L B) (m : M kst A) (f : A -> M kst B) k :
  (forall j, run c j = m j) -> (forall a j, run (g a) j = f a j) -> run (c ≫= g) k = (m ≫= f) k.
Proof. intros Hc Hg. rewrite run_code_bind. unfold mbind, M_bind. rewrite Hc. by destruct (m k). Qed.

(** One operation, and then the rest. *)
Lemma segment_ok {A B} (m : M kst A) (c : code L A) (g : A -> code L B) a k k' :
  (forall j, segment c j = match m j with Ok a j' => Ok (inl a) j' | Blocked j' => Blocked j' | Err e => Err e end) ->
  m k = Ok a k' -> segment (c ≫= g) k = segment (g a) k'.
Proof. intros Hc E. by rewrite segment_bind, Hc, E. Qed.

Lemma segment_do_ok {A B} (m : M kst A) (g : A -> code L B) a k k' :
  m k = Ok a k' -> segment (do_ m ≫= g) k = segment (g a) k'.
Proof. intros E. apply (segment_ok m); [apply segment_do|done]. Qed.
Lemma segment_lock_ok {B} lk (g : unit -> code L B) k k' :
  acquire lk k = Ok tt k' -> segment (lock lk ≫= g) k = segment (g tt) k'.
Proof. intros E. cbn. by rewrite (bind_ok _ _ _ _ _ E). Qed.
Lemma segment_unlock_ok {B} lk (g : unit -> code L B) k k' :
  release lk k = Ok tt k' -> segment (unlock lk ≫= g) k = segment (g tt) k'.
Proof. intros E. cbn. by rewrite (bind_ok _ _ _ _ _ E). Qed.

(** A call that is code without a switch. *)
Lemma segment_run_ok {A B} (c : code L A) (g : A -> code L B) a k k' :
  run c k = Ok a k' -> segment (c ≫= g) k = segment (g a) k'.
Proof.
  unfold run, mbind at 1, M_bind at 1. intros E. rewrite segment_bind.
  destruct (segment c k) as [[b|c'] k1| |]; [|done..]. by injection E as -> ->.
Qed.

End rules.
