(* ===== verification/Sched.v ===== *)
(** Scheduling primitives of [src/proc.c]: [sched], [yield], [sleep],
    [wakeup1], [wakeup] and [kill]; and the sleep locks of
    [src/sleeplock.c] built on them.

    [sched], [sleep] and [wakeup] are given as code with its lock operations in sight
    ([sched_code], [sleep_code], [wakeup_code]) and as the calls that run this code.
    [sched] hands the CPU to the scheduler: the call ends in [Blocked] with the state it
    leaves behind, and the code behind the switch is what the thread goes on with when it is
    scheduled again. *)
From Stdlib Require Import ZArith Lia.
From stdpp Require Import base list sets strings numbers.
From S2P Require Import Prelude State Spinlock Code.

Local Open Scope Z_scope.

Definition upd_ptable (f : list proc -> list proc) : M kst unit :=
  modify (fun k => set_k_ptable (f (k_ptable k)) k).

(** [proc->f = v] for the process at index [i] of [ptable.proc]. *)
Definition upd_proc (i : nat) (f : proc -> proc) : M kst unit :=
  upd_ptable (alter f i).

(** The CPU's [proc], dereferenced. *)
Definition curproc : M kst (nat * proc) :=
  k ← get;
  i ← deref "proc" (k_proc k);
  p ← deref "ptable" (k_ptable k !! i);
  mret (i, p).

(** [sched] up to the switch: the checks, and [intena] as it is saved. *)
Definition sched_enter : M kst bool :=
  h ← holding L_ptable;
  if negb h then panic "sched ptable.lock" else
  c ← gets k_cpu;
  if negb (ncli c =? 1) then panic "sched locks" else
  '(i, p) ← curproc;
  if decide (p_state p = RUNNING) then panic "sched running" else
  iflag ← readeflags_IF;
  if (iflag : bool) then panic "sched interruptible" else
  upd_proc i (set_p_context K_swtch);;
  mret (intena c).

Definition sched_code {L : Type} : code L unit :=
  ie ← do_ sched_enter;
  swtch_;;
  do_ (upd_cpu (set_intena ie)).

Definition sched : M kst unit := run (L := Empty_set) sched_code.

Definition yield : M kst unit :=
  acquire L_ptable;;
  '(i, _) ← curproc;
  upd_proc i (set_p_state RUNNABLE);;
  sched;;
  release L_ptable.

(** [sleep] before and behind [sched]. *)
Definition sleep_mark (ch : chan) : M kst nat :=
  '(i, _) ← curproc;
  upd_proc i (set_p_chan (Some ch));;
  upd_proc i (set_p_state SLEEPING);;
  mret i.

Definition sleep_code {L : Type} (ch : chan) (lk : lockid) : code L unit :=
  do_ (k ← get; match k_proc k with None => panic "sleep" | Some _ => mret tt end);;
  (if decide (lk = L_ptable) then mret tt else lock L_ptable;; unlock lk);;
  i ← do_ (sleep_mark ch);
  sched_code;;
  do_ (upd_proc i (set_p_chan None));;
  (if decide (lk = L_ptable) then mret tt else unlock L_ptable;; lock lk).

Definition sleep (ch : chan) (lk : lockid) : M kst unit := run (L := Empty_set) (sleep_code ch lk).

(** One element of the loop of [wakeup1]. *)
Definition wake (ch : chan) (p : proc) : proc :=
  if decide (p_state p = SLEEPING /\ p_chan p = Some ch) then set_p_state RUNNABLE p else p.

Definition wakeup1 (ch : chan) : M kst unit := upd_ptable (fmap (wake ch)).

Definition wakeup_code {L : Type} (ch : chan) : code L unit :=
  lock L_ptable;;
  do_ (wakeup1 ch);;
  unlock L_ptable.

Definition wakeup (ch : chan) : M kst unit := run (L := Empty_set) (wakeup_code ch).

(** The loop of [kill]: the first process with this pid. *)
Fixpoint kill_loop (pid : Z) (ps : list proc) : option (list proc) :=
  match ps with
  | [] => None
  | p :: ps' =>
      if p_pid p =? pid then
        let p := set_p_killed true p in
        let p := if decide (p_state p = SLEEPING) then set_p_state RUNNABLE p else p in
        Some (p :: ps')
      else cons p <$> kill_loop pid ps'
  end.

Definition kill (pid : Z) : M kst Z :=
  acquire L_ptable;;
  k ← get;
  match kill_loop pid (k_ptable k) with
  | Some ps => put (set_k_ptable ps k);; release L_ptable;; mret 0
  | None => release L_ptable;; mret (-1)
  end.

(** ** Sleep locks *)
Definition get_sl (l : slid) (k : kst) : option sleeplock :=
  match l with
  | SL_buf i => b_lock <$> k_bufs k !! i
  | SL_inode i => i_lock <$> k_icache k !! i
  end.

Definition set_sl (l : slid) (v : sleeplock) (k : kst) : kst :=
  match l with
  | SL_buf i => set_k_bufs (alter (set_b_lock v) i (k_bufs k)) k
  | SL_inode i => set_k_icache (alter (set_i_lock v) i (k_icache k)) k
  end.

Definition sl_of (l : slid) : M kst sleeplock :=
  k ← get; deref "sleeplock" (get_sl l k).

Definition initsleeplock (l : slid) : M kst unit :=
  modify (set_sl l (mk_sleeplock false 0)).

Definition acquiresleep (l : slid) : M kst unit :=
  acquire (L_sleep l);;
  s ← sl_of l;
  (if sl_locked s then sleep (Ch_sleep l) (L_sleep l);; again else mret tt);;
  '(_, p) ← curproc;
  modify (set_sl l (mk_sleeplock true (p_pid p)));;
  release (L_sleep l).

Definition releasesleep (l : slid) : M kst unit :=
  acquire (L_sleep l);;
  modify (set_sl l (mk_sleeplock false 0));;
  wakeup (Ch_sleep l);;
  release (L_sleep l).

Definition holdingsleep (l : slid) : M kst bool :=
  acquire (L_sleep l);;
  s ← sl_of l;
  release (L_sleep l);;
  mret (sl_locked s).

(** ** Specifications *)

(** The calls, step by step. *)
Lemma sched_run L k :
  run (L := L) sched_code k = (sched_enter;; swtch_to_scheduler) k.
Proof. apply run_seq; [intros; apply run_do|done]. Qed.

Lemma sleep_run L ch lk k :
  run (L := L) (sleep_code ch lk) k =
    ((k ← get; match k_proc k with None => panic "sleep" | Some _ => mret tt end);;
     (if decide (lk = L_ptable) then mret tt else acquire L_ptable;; release lk);;
     sleep_mark ch;;
     sched_enter;;
     swtch_to_scheduler) k.
Proof.
  apply run_seq; [intros; apply run_do|]. intros _ k1.
  apply run_seq.
  { intros j. case_decide; [done|]. apply run_seq; intros; [apply run_lock|apply run_unlock]. }
  intros _ k2. apply run_seq; [intros; apply run_do|]. intros i k3.
  rewrite run_code_bind. unfold mbind at 1, M_bind at 1. rewrite sched_run. unfold mbind, M_bind.
  by destruct (sched_enter k3).
Qed.

Lemma wakeup_run L ch k :
  run (L := L) (wakeup_code ch) k = (acquire L_ptable;; wakeup1 ch;; release L_ptable) k.
Proof.
  apply run_seq; [intros; apply run_lock|]. intros _ k1.
  apply run_seq; intros; [apply run_do|apply run_unlock].
Qed.

(** [sched] and [sleep] never return to their caller within a call. *)
Lemma sched_not_ok k u k' : sched k <> Ok u k'.
Proof. unfold sched. rewrite sched_run. unfold mbind, M_bind. by destruct (sched_enter k). Qed.

Lemma sleep_not_ok ch lk k u k' : sleep ch lk k <> Ok u k'.
Proof.
  unfold sleep. rewrite sleep_run. intros E.
  do 4 (apply bind_ok_inv in E as (? & ? & _ & E)). discriminate E.
Qed.

(** The process table after [wakeup ch]. *)
Definition woken (ch : chan) (k : kst) : kst :=
  set_k_ptable (wake ch <$> k_ptable k) k.

Lemma wakeup_eq ch k :
  cpu_ok (k_cpu k) -> L_ptable ∉ held (k_cpu k) -> wakeup ch k = Ok tt (woken ch k).
Proof.
  intros Hc Hl. unfold wakeup. rewrite wakeup_run. unfold wakeup1, upd_ptable.
  unfold mbind, M_bind. rewrite acquire_eq by done. unfold modify.
  rewrite (release_eq L_ptable (k_cpu k)) by done. by destruct k.
Qed.

(** [cur_pid k pid]: the CPU runs a process and its pid is [pid]. *)
Definition cur_pid (k : kst) (pid : Z) : Prop :=
  exists i p, k_proc k = Some i /\ k_ptable k !! i = Some p /\ p_pid p = pid.

Lemma curproc_eq k i p :
  k_proc k = Some i -> k_ptable k !! i = Some p -> curproc k = Ok (i, p) k.
Proof.
  intros Hi Hp. unfold curproc, get, deref, mbind, M_bind. rewrite Hi. simpl.
  rewrite Hp. done.
Qed.

Lemma wake_pid ch p : p_pid (wake ch p) = p_pid p.
Proof. unfold wake. by case_decide. Qed.

Lemma cur_pid_woken ch k pid : cur_pid k pid -> cur_pid (woken ch k) pid.
Proof.
  intros (i & p & Hi & Hp & <-). exists i, (wake ch p). split; [done|]. split.
  - simpl. by rewrite list_lookup_fmap, Hp.
  - apply wake_pid.
Qed.

Lemma set_sl_cpu l v k : k_cpu (set_sl l v k) = k_cpu k.
Proof. by destruct l. Qed.
Lemma set_sl_ptable l v k : k_ptable (set_sl l v k) = k_ptable k.
Proof. by destruct l. Qed.
Lemma set_sl_proc l v k : k_proc (set_sl l v k) = k_proc k.
Proof. by destruct l. Qed.
Lemma set_sl_set_cpu l v c k : set_k_cpu c (set_sl l v k) = set_sl l v (set_k_cpu c k).
Proof. by destruct l. Qed.
Lemma get_sl_set_cpu l c k : get_sl l (set_k_cpu c k) = get_sl l k.
Proof. by destruct l. Qed.

Lemma set_k_cpu_cpu c c' k : set_k_cpu c (set_k_cpu c' k) = set_k_cpu c k.
Proof. by destruct k. Qed.

Lemma acquiresleep_eq l k pid pid' :
  cpu_ok (k_cpu k) -> L_sleep l ∉ held (k_cpu k) -> cur_pid k pid ->
  get_sl l k = Some (mk_sleeplock false pid') ->
  acquiresleep l k = Ok tt (set_sl l (mk_sleeplock true pid) k).
Proof.
  intros Hc Hl (i & p & Hi & Hp & Hpid) Hs. unfold acquiresleep, sl_of.
  unfold mbind, M_bind. rewrite acquire_eq by done. unfold get, deref.
  rewrite get_sl_set_cpu, Hs. simpl.
  rewrite (curproc_eq _ i p) by done. unfold modify. rewrite Hpid.
  rewrite (release_eq (L_sleep l) (k_cpu k)); rewrite ?set_sl_cpu; try done.
  f_equal. rewrite set_sl_set_cpu, set_k_cpu_cpu, set_k_cpu_id. done.
Qed.

Lemma releasesleep_eq l k :
  cpu_ok (k_cpu k) -> L_sleep l ∉ held (k_cpu k) -> L_ptable ∉ held (k_cpu k) ->
  releasesleep l k = Ok tt (woken (Ch_sleep l) (set_sl l (mk_sleeplock false 0) k)).
Proof.
  intros Hc Hl Hp. unfold releasesleep.
  unfold mbind, M_bind. rewrite acquire_eq by done. unfold modify.
  rewrite wakeup_eq.
  - rewrite (release_eq (L_sleep l) (k_cpu k)); try done.
    + by destruct l, k.
    + by destruct l.
  - rewrite set_sl_cpu. by apply lock_cpu_ok.
  - rewrite set_sl_cpu. simpl. apply not_elem_of_cons. done.
Qed.

Lemma holdingsleep_eq l k s :
  cpu_ok (k_cpu k) -> L_sleep l ∉ held (k_cpu k) -> get_sl l k = Some s ->
  holdingsleep l k = Ok (sl_locked s) k.
Proof.
  intros Hc Hl Hs. unfold holdingsleep, sl_of.
  unfold mbind, M_bind. rewrite acquire_eq by done. unfold get, deref.
  rewrite get_sl_set_cpu, Hs. simpl.
  rewrite (release_eq (L_sleep l) (k_cpu k)) by done.
  unfold mret, M_ret. f_equal. by rewrite set_k_cpu_cpu, set_k_cpu_id.
Qed.

Lemma alter_alter {A} (f g : A -> A) i (l : list A) :
  alter f i (alter g i l) = alter (fun x => f (g x)) i l.
Proof.
  apply list_eq. intros j. rewrite !list_lookup_alter.
  destruct (decide (i = j)); [|done]. rewrite decide_True by done. by destruct (l !! i).
Qed.

(** The state [sleep] leaves behind when it gives up the CPU. *)
Definition asleep (ch : chan) (i : nat) (c : cpu) (k : kst) : kst :=
  set_k_ptable (alter (fun p => set_p_context K_swtch (set_p_state SLEEPING
                                  (set_p_chan (Some ch) p))) i (k_ptable k))
    (set_k_cpu (mk_cpu 1 (intr_on c) false [L_ptable]) k).

(** What is left of [sleep] when it has given up the CPU. *)
Definition sleep_back {L : Type} (i : nat) (lk : lockid) (ie : bool) : code L unit :=
  do_ (upd_cpu (set_intena ie));;
  do_ (upd_proc i (set_p_chan None));;
  (if decide (lk = L_ptable) then mret tt else unlock L_ptable;; lock lk).

(** [sleep] with one lock held: the lock is given up only after [ptable.lock] is
    taken, the process is marked sleeping on the channel, and the scheduler is
    entered with exactly [ptable.lock] held and interrupts off. *)
Section sleep.
Context (ch : chan) (lk : lockid) (c : cpu) (k : kst) (i : nat) (p : proc).
Context (Hk : k_cpu k = lock_cpu lk c) (Hc : cpu_ok c) (Hn0 : ncli c = 0) (Hh : held c = [])
  (Hne : lk <> L_ptable) (Hp : k_proc k = Some i) (Hpi : k_ptable k !! i = Some p).

Definition cpu_switching : cpu := mk_cpu 1 (intr_on c) false [L_ptable].

Lemma sleep_locks :
  exists k1, acquire L_ptable k = Ok tt k1 /\ release lk k1 = Ok tt (set_k_cpu cpu_switching k).
Proof using Hk Hn0 Hh Hne.
  clear Hp Hpi. rewrite acquire_eq.
  2:{ rewrite Hk. simpl. rewrite Hh. intros E%list_elem_of_singleton. congruence. }
  eexists. split; [done|]. destruct k as [c0]; cbn in Hk |- *. subst c0.
  unfold lock_cpu. simpl. rewrite Hn0, Hh. simpl.
  unfold release, popcli, holding, readeflags_IF, upd_cpu, gets, modify, mbind, M_bind.
  simpl. rewrite bool_decide_true by (right; left). simpl.
  rewrite filter_cons_True by congruence. rewrite filter_cons_False by naive_solver.
  by rewrite filter_nil.
Qed.

Lemma sleep_mark_eq ptable : ptable !! i = Some p ->
  let k1 := set_k_ptable ptable (set_k_cpu cpu_switching k) in
  sleep_mark ch k1 =
    Ok i (set_k_ptable (alter (fun p => set_p_state SLEEPING (set_p_chan (Some ch) p)) i ptable) k1).
Proof.
  intros Hpt k1. unfold sleep_mark. erewrite bind_ok; [|by apply (curproc_eq _ i p)].
  unfold upd_proc, upd_ptable, modify, mbind, M_bind. simpl. by rewrite alter_alter.
Qed.

Lemma sched_enter_eq ptable q : ptable !! i = Some q -> p_state q <> RUNNING ->
  let k1 := set_k_ptable ptable (set_k_cpu cpu_switching k) in
  sched_enter k1 = Ok (intr_on c) (set_k_ptable (alter (set_p_context K_swtch) i ptable) k1).
Proof.
  intros Hpt Hq k1. unfold sched_enter, holding.
  erewrite bind_ok by reflexivity. rewrite bool_decide_true by left. cbn [negb].
  erewrite bind_ok by reflexivity. cbn [negb ncli k_cpu k1 set_k_ptable set_k_cpu cpu_switching Z.eqb Pos.eqb].
  erewrite bind_ok by (by apply (curproc_eq _ i q)). cbv beta iota. by rewrite decide_False.
Qed.

Lemma segment_sleep {L : Type} :
  segment (L := L) (sleep_code ch lk) k = Ok (inr (sleep_back i lk (intr_on c))) (asleep ch i c k).
Proof.
  unfold sleep_code. destruct sleep_locks as (k1 & E1 & E2).
  erewrite segment_do_ok; [|unfold get, mbind, M_bind; by rewrite Hp]. cbv beta.
  rewrite segment_bind, decide_False by done.
  erewrite segment_lock_ok by exact E1. unfold unlock. cbn [segment].
  unfold mbind at 1, M_bind at 1. rewrite E2. cbn.
  replace (set_k_cpu cpu_switching k) with (set_k_ptable (k_ptable k) (set_k_cpu cpu_switching k))
    by by destruct k.
  rewrite (bind_ok _ _ _ _ _ (sleep_mark_eq _ Hpi)).
  erewrite bind_ok; [|eapply (sched_enter_eq _ _)]; [|by rewrite list_lookup_alter_eq, Hpi|done].
  unfold asleep. rewrite alter_alter. done.
Qed.

Lemma sleep_eq : sleep ch lk k = Blocked (asleep ch i c k).
Proof. unfold sleep. by rewrite run_segment, segment_sleep. Qed.

(** Scheduled again, with [ptable.lock] held from the scheduler: [sleep] returns with its
    lock held and with the channel cleared. *)
Lemma segment_sleep_back {L : Type} ie ie' k' :
  k_cpu k' = mk_cpu 1 ie' false [L_ptable] ->
  segment (L := L) (sleep_back i lk ie) k' =
    Ok (inl tt) (set_k_ptable (alter (set_p_chan None) i (k_ptable k'))
                   (set_k_cpu (lock_cpu lk (mk_cpu 0 ie ie [])) k')).
Proof.
  intros Hk'. destruct k' as [c']; cbn in Hk' |- *. subst c'.
  unfold sleep_back. rewrite decide_False by done. cbn.
  unfold upd_cpu, upd_proc, upd_ptable, modify. do 2 (erewrite bind_ok by reflexivity). cbn.
  assert (Hf : filter (fun l => l <> L_ptable) [L_ptable] = []) by (rewrite filter_cons_False by naive_solver; done).
  assert (Er : forall k2, k_cpu k2 = mk_cpu 1 ie false [L_ptable] -> release L_ptable k2 = Ok tt (set_k_cpu (mk_cpu 0 ie ie []) k2)).
  { intros [c2] Hc2. cbn in Hc2. subst c2.
    unfold release, popcli, holding, readeflags_IF, upd_cpu, gets, sti, modify, mbind, M_bind.
    simpl. rewrite Hf. by destruct ie. }
  erewrite bind_ok by (by apply Er). erewrite bind_ok by (apply acquire_eq; apply not_elem_of_nil). done.
Qed.

(** ... and goes back to the head of the loop around it. *)
Lemma segment_resume {L A B : Type} (head : L -> code L A) l ie ie' k' :
  k_cpu k' = mk_cpu 1 ie' false [L_ptable] ->
  let k2 := set_k_ptable (alter (set_p_chan None) i (k_ptable k'))
              (set_k_cpu (lock_cpu lk (mk_cpu 0 ie ie [])) k') in
  segment (unloop head (sleep_back i lk ie;; C_again l)) k' = segment (head l) k2 /\
  forall g : B -> code L A,
    segment (unloop head ((sleep_back i lk ie;; C_again l) ≫= g)) k' = segment (head l) k2.
Proof.
  intros Hk' k2. pose proof (segment_sleep_back (L := L) ie ie' k' Hk') as E. fold k2 in E.
  unfold sleep_back in *. rewrite decide_False in * by done. cbn in E |- *.
  unfold mbind, M_bind in *. cbn in E |- *.
  destruct (release L_ptable _) as [? k5| |]; [|done..]. destruct (acquire lk k5) as [? k6| |]; [|done..].
  by injection E as ->.
Qed.
End sleep.
