(* ===== verification/Bio.v ===== *)
(** The buffer cache, [src/bio.c], over the memory disk of [src/memide.c].

    A [struct buf *] is an index into [k_bufs]: [0 .. NBUF-1] are
    [bcache.buf], [bhead] is [bcache.head].  The LRU list is the doubly linked
    list through [b_next]/[b_prev] that the code keeps. *)
From Stdlib Require Import ZArith Lia.
From stdpp Require Import base gmap sets strings numbers list.
From S2P Require Import Prelude State Spinlock Sched.

Local Open Scope Z_scope.

#[global] Instance buf_inhabited : Inhabited buf := populate zero_buf.

Definition upd_bufs (f : list buf -> list buf) : M kst unit :=
  modify (fun k => set_k_bufs (f (k_bufs k)) k).
Definition upd_buf (i : nat) (f : buf -> buf) : M kst unit := upd_bufs (alter f i).
Definition buf_at (i : nat) : M kst buf := gets (fun k => k_bufs k !!! i).

(** ** [src/memide.c] *)

(** [iderw]: write the buffer to the disk if it is dirty, else read it. *)
Definition iderw (i : nat) : M kst unit :=
  h ← holdingsleep (SL_buf i);
  if negb h then panic "iderw: buf not locked" else
  b ← buf_at i;
  if Z.land (b_flags b) (Z.lor B_VALID B_DIRTY) =? B_VALID then
    panic "iderw: nothing to do" else
  if negb (b_dev b =? 1) then panic "iderw: request not for disk 1" else
  k ← get;
  if Z.of_nat (length (k_disk k)) <=? b_blockno b then
    panic "iderw: block out of range" else
  (if has (b_flags b) B_DIRTY then
     upd_buf i (fun b => set_b_flags (Z.land (b_flags b) (Z.lnot B_DIRTY)) b);;
     modify (fun k => set_k_disk (<[Z.to_nat (b_blockno b) := b_data b]> (k_disk k)) k);;
     modify (fun k => set_k_writes ((b_blockno b, b_data b) :: k_writes k) k)
   else
     d ← deref "memdisk" (k_disk k !! Z.to_nat (b_blockno b));
     upd_buf i (set_b_data d));;
  upd_buf i (fun b => set_b_flags (Z.lor (b_flags b) B_VALID) b).

(** ** [src/bio.c] *)

(** One iteration of the loop of [binit], on buffer [b]. *)
Definition binit_one (b : nat) (bs : list buf) : list buf :=
  let bs := alter (set_b_next (b_next (bs !!! bhead))) b bs in
  let bs := alter (set_b_prev bhead) b bs in
  let bs := alter (set_b_lock (mk_sleeplock false 0)) b bs in
  let bs := alter (set_b_prev b) (b_next (bs !!! bhead)) bs in
  alter (set_b_next b) bhead bs.

Definition binit_bufs (bs : list buf) : list buf :=
  let bs := alter (set_b_prev bhead) bhead bs in
  let bs := alter (set_b_next bhead) bhead bs in
  foldl (fun bs b => binit_one b bs) bs (seq 0 NBUF).
Definition binit : M kst unit := upd_bufs binit_bufs.

(** Is the block cached?  Walk [next] from [head.next]. *)
Fixpoint bget_find (fuel : nat) (bs : list buf) (dev blockno : Z) (b : nat) : option (option nat) :=
  match fuel with
  | O => None
  | S fuel' =>
      if decide (b = bhead) then Some None
      else if (b_dev (bs !!! b) =? dev) && (b_blockno (bs !!! b) =? blockno) then Some (Some b)
      else bget_find fuel' bs dev blockno (b_next (bs !!! b))
  end.

(** An unused and clean buffer, least recently used first: walk [prev]. *)
Fixpoint bget_recycle (fuel : nat) (bs : list buf) (b : nat) : option (option nat) :=
  match fuel with
  | O => None
  | S fuel' =>
      if decide (b = bhead) then Some None
      else if (b_refcnt (bs !!! b) =? 0) && negb (has (b_flags (bs !!! b)) B_DIRTY) then
        Some (Some b)
      else bget_recycle fuel' bs (b_prev (bs !!! b))
  end.

(** Enough for a list of [NBUF] buffers and the head. *)
Definition bget_fuel : nat := S NBUF.

Definition bget (dev blockno : Z) : M kst nat :=
  acquire L_bcache;;
  bs ← gets k_bufs;
  match bget_find bget_fuel bs dev blockno (b_next (bs !!! bhead)) with
  | None => fail EFuel
  | Some (Some b) =>
      upd_buf b (fun x => set_b_refcnt (u32 (b_refcnt x + 1)) x);;
      release L_bcache;;
      acquiresleep (SL_buf b);;
      mret b
  | Some None =>
      match bget_recycle bget_fuel bs (b_prev (bs !!! bhead)) with
      | None => fail EFuel
      | Some (Some b) =>
          upd_buf b (set_b_dev dev);;
          upd_buf b (set_b_blockno blockno);;
          upd_buf b (set_b_flags 0);;
          upd_buf b (set_b_refcnt 1);;
          release L_bcache;;
          acquiresleep (SL_buf b);;
          mret b
      | Some None => panic "bget: no buffers"
      end
  end.

Definition bread (dev blockno : Z) : M kst nat :=
  b ← bget dev blockno;
  x ← buf_at b;
  (if negb (has (b_flags x) B_VALID) then iderw b else mret tt);;
  mret b.

Definition bwrite (b : nat) : M kst unit :=
  h ← holdingsleep (SL_buf b);
  if negb h then panic "bwrite" else
  upd_buf b (fun x => set_b_flags (Z.lor (b_flags x) B_DIRTY) x);;
  iderw b.

(** Unlink [b] and insert it behind the head, pointer by pointer. *)
Definition lru_front (b : nat) (bs : list buf) : list buf :=
  let bs := alter (set_b_prev (b_prev (bs !!! b))) (b_next (bs !!! b)) bs in
  let bs := alter (set_b_next (b_next (bs !!! b))) (b_prev (bs !!! b)) bs in
  let bs := alter (set_b_next (b_next (bs !!! bhead))) b bs in
  let bs := alter (set_b_prev bhead) b bs in
  let bs := alter (set_b_prev b) (b_next (bs !!! bhead)) bs in
  alter (set_b_next b) bhead bs.

Definition brelse (b : nat) : M kst unit :=
  h ← holdingsleep (SL_buf b);
  if negb h then panic "brelse" else
  releasesleep (SL_buf b);;
  acquire L_bcache;;
  upd_buf b (fun x => set_b_refcnt (u32 (b_refcnt x - 1)) x);;
  x ← buf_at b;
  (if b_refcnt x =? 0 then upd_bufs (lru_front b) else mret tt);;
  release L_bcache.

(** [bp->data] and a store to it. *)
Definition bdata (b : nat) : M kst block := gets (fun k => b_data (k_bufs k !!! b)).
Definition set_bdata (b : nat) (d : block) : M kst unit := upd_buf b (set_b_data d).

(** ** The doubly linked list *)

(** From [a] the [next] pointers visit [l] and then [z], and the [prev] pointers
    lead back. *)
Fixpoint chain (nx pv : nat -> nat) (a : nat) (l : list nat) (z : nat) : Prop :=
  match l with
  | [] => nx a = z /\ pv z = a
  | b :: l' => nx a = b /\ pv b = a /\ chain nx pv b l' z
  end.

Definition nextof (bs : list buf) (i : nat) : nat := b_next (bs !!! i).
Definition prevof (bs : list buf) (i : nat) : nat := b_prev (bs !!! i).

(** [l] is the LRU list: all buffers, most recently used first. *)
Definition lru (bs : list buf) (l : list nat) : Prop :=
  chain (nextof bs) (prevof bs) bhead l bhead /\ l ≡ₚ seq 0 NBUF.

Lemma chain_app nx pv a l1 b l2 z :
  chain nx pv a (l1 ++ b :: l2) z <-> chain nx pv a l1 b /\ chain nx pv b l2 z.
Proof.
  revert a. induction l1 as [|c l1 IH]; intros a; simpl; [tauto|].
  rewrite IH. tauto.
Qed.

Lemma chain_ext nx pv nx' pv' a l z :
  (forall x, x ∈ a :: l -> nx' x = nx x) -> (forall x, x ∈ l ++ [z] -> pv' x = pv x) ->
  chain nx pv a l z -> chain nx' pv' a l z.
Proof.
  revert a. induction l as [|b l IH]; intros a Hn Hp; simpl.
  - intros [Ha Hz]. rewrite Hn, Hp by set_solver. done.
  - intros (Ha & Hb & Hc). rewrite Hn, Hp by set_solver. split_and!; [done..|].
    apply IH; [set_solver..|done].
Qed.

(** The first and the last node of a chain. *)
Lemma chain_ends nx pv a l z :
  chain nx pv a l z -> nx a = default z (head l) /\ pv z = default a (last l).
Proof.
  revert a. induction l as [|b l IH]; intros a; [done|].
  intros (Ha & Hb & Hc). split; [done|]. destruct (IH b Hc) as [_ ->].
  rewrite last_cons. by destruct (last l).
Qed.

(** Pointer stores as function updates. *)
Definition fupd (f : nat -> nat) (i v : nat) : nat -> nat :=
  fun x => if decide (x = i) then v else f x.

Lemma fupd_eq f i v : fupd f i v i = v.
Proof. unfold fupd. by rewrite decide_True. Qed.
Lemma fupd_ne f i v x : x <> i -> fupd f i v x = f x.
Proof. intros. unfold fupd. by rewrite decide_False. Qed.

Lemma default_head_in (l : list nat) z : default z (head l) ∈ l ++ [z].
Proof. destruct l; simpl; set_solver. Qed.
Lemma default_last_in (l : list nat) a : default a (last l) ∈ a :: l.
Proof.
  destruct (last l) as [x|] eqn:E; [|set_solver].
  apply last_Some in E as [l' ->]. simpl. set_solver.
Qed.

Lemma chain_unlink nx pv a l1 b l2 z :
  chain nx pv a (l1 ++ b :: l2) z -> NoDup (l1 ++ b :: l2) ->
  a ∉ l1 ++ b :: l2 -> z ∉ l1 ++ b :: l2 ->
  chain (fupd nx (pv b) (nx b)) (fupd pv (nx b) (pv b)) a (l1 ++ l2) z.
Proof.
  revert a. induction l1 as [|c l1 IH]; intros a Hc Hnd Ha Hz; simpl in *.
  - destruct Hc as (Hnx & Hpv & Hc). rewrite Hpv.
    destruct l2 as [|c l3]; simpl in *.
    + destruct Hc as [-> _]. rewrite !fupd_eq. done.
    + destruct Hc as (-> & _ & Hc). rewrite !fupd_eq. split_and!; [done..|].
      apply NoDup_cons in Hnd as [Hb Hnd]. apply NoDup_cons in Hnd as [Hc3 Hnd].
      eapply chain_ext; [| |exact Hc]; intros x Hx; apply fupd_ne; set_solver.
  - destruct Hc as (Hnx & Hpv & Hc). apply NoDup_cons in Hnd as [Hcn Hnd].
    pose proof (proj1 (chain_app _ _ _ _ _ _ _) Hc) as [Hc1 Hc2].
    destruct (chain_ends _ _ _ _ _ Hc1) as [_ Hpb].
    destruct (chain_ends _ _ _ _ _ Hc2) as [Hnb _].
    pose proof (default_last_in l1 c) as Hin1. rewrite <- Hpb in Hin1.
    pose proof (default_head_in l2 z) as Hin2. rewrite <- Hnb in Hin2.
    split_and!.
    + rewrite fupd_ne; [done|]. intros E. rewrite <- E in Hin1. clear -Ha Hin1. set_solver.
    + rewrite fupd_ne; [done|]. intros E. rewrite <- E in Hin2.
      clear -Hcn Hz Hin2. set_solver.
    + apply IH; [done|done|set_solver|set_solver].
Qed.

Lemma chain_insert nx pv h b l :
  chain nx pv h l h -> b ∉ l -> b <> h -> NoDup l -> h ∉ l ->
  chain (fupd (fupd nx b (nx h)) h b) (fupd (fupd pv b h) (nx h) b) h (b :: l) h.
Proof.
  intros Hc Hb Hbh Hnd Hh. pose proof (chain_ends _ _ _ _ _ Hc) as [Hn _].
  pose proof (default_head_in l h) as Hin. rewrite <- Hn in Hin.
  simpl. rewrite fupd_eq. split; [done|]. split.
  { rewrite fupd_ne, fupd_eq; [done|]. set_solver. }
  destruct l as [|c l]; simpl in *.
  - destruct Hc as [-> Hp]. rewrite (fupd_ne _ _ _ b) by done. rewrite !fupd_eq. done.
  - destruct Hc as (-> & Hp & Hc). rewrite (fupd_ne _ _ _ b) by done. rewrite !fupd_eq.
    split_and!; [done..|]. apply NoDup_cons in Hnd as [Hcl Hnd].
    eapply chain_ext; [| |exact Hc]; intros x Hx; rewrite !fupd_ne; set_solver.
Qed.

(** How stores to buffers act on the pointers. *)
Lemma nextof_set_prev bs i v x : nextof (alter (set_b_prev v) i bs) x = nextof bs x.
Proof.
  unfold nextof. destruct (decide (i = x)) as [->|].
  - destruct (decide (x < length bs)%nat).
    + by rewrite list_lookup_total_alter_eq.
    + rewrite !list_lookup_total_alt, list_lookup_alter_eq. by destruct (bs !! x).
  - by rewrite list_lookup_total_alter_ne.
Qed.
Lemma prevof_set_next bs i v x : prevof (alter (set_b_next v) i bs) x = prevof bs x.
Proof.
  unfold prevof. destruct (decide (i = x)) as [->|].
  - rewrite !list_lookup_total_alt, list_lookup_alter_eq. by destruct (bs !! x).
  - by rewrite list_lookup_total_alter_ne.
Qed.
Lemma prevof_set_prev bs i v x :
  (i < length bs)%nat -> prevof (alter (set_b_prev v) i bs) x = fupd (prevof bs) i v x.
Proof.
  intros Hi. unfold prevof, fupd. case_decide; subst.
  - by rewrite list_lookup_total_alter_eq.
  - by rewrite list_lookup_total_alter_ne.
Qed.
Lemma nextof_set_next bs i v x :
  (i < length bs)%nat -> nextof (alter (set_b_next v) i bs) x = fupd (nextof bs) i v x.
Proof.
  intros Hi. unfold nextof, fupd. case_decide; subst.
  - by rewrite list_lookup_total_alter_eq.
  - by rewrite list_lookup_total_alter_ne.
Qed.

Lemma lru_bound bs l : lru bs l -> forall x, x ∈ l <-> (x < NBUF)%nat.
Proof. intros [_ Hp] x. rewrite Hp, elem_of_seq. lia. Qed.

Lemma lru_NoDup bs l : lru bs l -> NoDup l /\ bhead ∉ l.
Proof.
  intros Hl. split.
  - destruct Hl as [_ Hp]. rewrite Hp. apply NoDup_seq.
  - rewrite (lru_bound _ _ Hl). unfold bhead. lia.
Qed.

(** The two halves of [lru_front]. *)
Definition lru_unlink (b : nat) (bs : list buf) : list buf :=
  let bs := alter (set_b_prev (b_prev (bs !!! b))) (b_next (bs !!! b)) bs in
  alter (set_b_next (b_next (bs !!! b))) (b_prev (bs !!! b)) bs.
Definition lru_push (b : nat) (bs : list buf) : list buf :=
  let bs := alter (set_b_next (b_next (bs !!! bhead))) b bs in
  let bs := alter (set_b_prev bhead) b bs in
  let bs := alter (set_b_prev b) (b_next (bs !!! bhead)) bs in
  alter (set_b_next b) bhead bs.

Lemma lru_front_split b bs : lru_front b bs = lru_push b (lru_unlink b bs).
Proof. reflexivity. Qed.

Lemma length_lru_unlink b bs : length (lru_unlink b bs) = length bs.
Proof. unfold lru_unlink. by rewrite !length_alter. Qed.
Lemma length_lru_push b bs : length (lru_push b bs) = length bs.
Proof. unfold lru_push. by rewrite !length_alter. Qed.
Lemma length_lru_front b bs : length (lru_front b bs) = length bs.
Proof. by rewrite lru_front_split, length_lru_push, length_lru_unlink. Qed.

Section relink.
Context (bs : list buf) (b : nat).
Context (Hb : (b < length bs)%nat) (Hh : (bhead < length bs)%nat).

Lemma unlink_pointers x :
  (nextof bs b < length bs)%nat -> (prevof bs b < length bs)%nat ->
  nextof (lru_unlink b bs) x = fupd (nextof bs) (prevof bs b) (nextof bs b) x /\
  prevof (lru_unlink b bs) x = fupd (prevof bs) (nextof bs b) (prevof bs b) x.
Proof.
  intros Hn Hp. unfold lru_unlink. fold (prevof bs b) (nextof bs b).
  set (bs1 := alter _ (nextof bs b) bs). fold (prevof bs1 b) (nextof bs1 b).
  assert (Hlen : length bs1 = length bs) by apply length_alter.
  assert (E1 : nextof bs1 b = nextof bs b) by apply nextof_set_prev.
  assert (E2 : prevof bs1 b = prevof bs b).
  { unfold bs1. rewrite prevof_set_prev by done. unfold fupd. by case_decide. }
  rewrite E1, E2. split.
  - rewrite nextof_set_next by lia. unfold fupd. case_decide; [done|].
    apply nextof_set_prev.
  - rewrite prevof_set_next. by apply prevof_set_prev.
Qed.

Lemma push_pointers x :
  (nextof bs bhead < length bs)%nat ->
  nextof (lru_push b bs) x = fupd (fupd (nextof bs) b (nextof bs bhead)) bhead b x /\
  prevof (lru_push b bs) x = fupd (fupd (prevof bs) b bhead) (nextof bs bhead) b x.
Proof.
  intros Hn. unfold lru_push. fold (nextof bs bhead).
  set (bs1 := alter _ b bs). set (bs2 := alter (set_b_prev bhead) b bs1).
  fold (nextof bs2 bhead).
  assert (Hl1 : length bs1 = length bs) by apply length_alter.
  assert (Hl2 : length bs2 = length bs) by (unfold bs2; by rewrite length_alter).
  assert (E : forall y, nextof bs2 y = fupd (nextof bs) b (nextof bs bhead) y).
  { intros y. unfold bs2, bs1. rewrite nextof_set_prev. by apply nextof_set_next. }
  assert (Eh : nextof bs2 bhead = nextof bs bhead).
  { rewrite E. unfold fupd. by case_decide. }
  rewrite Eh. split.
  - rewrite nextof_set_next by (rewrite length_alter; lia).
    unfold fupd at 1 2. case_decide; [done|]. rewrite nextof_set_prev. apply E.
  - rewrite prevof_set_next, prevof_set_prev by lia.
    unfold fupd at 1 2. case_decide; [done|].
    unfold bs2. rewrite prevof_set_prev by lia. unfold fupd. case_decide; [done|].
    apply prevof_set_next.
Qed.
End relink.

Lemma lru_unlink_chain bs l1 b l2 :
  length bs = S NBUF -> lru bs (l1 ++ b :: l2) ->
  chain (nextof (lru_unlink b bs)) (prevof (lru_unlink b bs)) bhead (l1 ++ l2) bhead.
Proof.
  intros Hlen Hl. pose proof (lru_NoDup _ _ Hl) as [Hnd Hh].
  pose proof (lru_bound _ _ Hl) as Hbd. destruct Hl as [Hc _].
  pose proof (proj1 (chain_app _ _ _ _ _ _ _) Hc) as [Hc1 Hc2].
  destruct (chain_ends _ _ _ _ _ Hc1) as [_ Hpb].
  destruct (chain_ends _ _ _ _ _ Hc2) as [Hnb _].
  assert (Hin : forall x, x ∈ bhead :: l1 ++ b :: l2 -> (x < length bs)%nat).
  { intros x [->|Hx]%elem_of_cons; [unfold bhead; lia|]. apply Hbd in Hx. lia. }
  assert (Hn : (nextof bs b < length bs)%nat).
  { rewrite Hnb. apply Hin. pose proof (default_head_in l2 bhead). set_solver. }
  assert (Hp : (prevof bs b < length bs)%nat).
  { rewrite Hpb. apply Hin. pose proof (default_last_in l1 bhead). set_solver. }
  assert (Hb : (b < length bs)%nat) by (apply Hin; set_solver).
  assert (Hh' : (bhead < length bs)%nat) by (apply Hin; set_solver).
  pose proof (chain_unlink _ _ _ _ _ _ _ Hc Hnd Hh Hh) as Hu.
  eapply chain_ext; [| |exact Hu]; intros x _; by apply unlink_pointers.
Qed.

Lemma lru_push_chain bs b l :
  length bs = S NBUF -> (b < NBUF)%nat ->
  chain (nextof bs) (prevof bs) bhead l bhead -> b ∉ l -> NoDup l ->
  (forall x, x ∈ l -> (x < NBUF)%nat) ->
  chain (nextof (lru_push b bs)) (prevof (lru_push b bs)) bhead (b :: l) bhead.
Proof.
  intros Hlen Hb Hc Hbl Hnd Hbd.
  assert (Hh : bhead ∉ l) by (intros Hx%Hbd; unfold bhead in *; lia).
  assert (Hn : (nextof bs bhead < length bs)%nat).
  { destruct (chain_ends _ _ _ _ _ Hc) as [-> _].
    destruct l as [|c l]; simpl; [unfold bhead; lia|].
    pose proof (Hbd c ltac:(set_solver)). lia. }
  assert (Hb' : (b < length bs)%nat) by lia.
  assert (Hh' : (bhead < length bs)%nat) by (unfold bhead; lia).
  assert (Hbh : b <> bhead) by (unfold bhead; lia).
  pose proof (chain_insert _ _ _ b _ Hc Hbl Hbh Hnd Hh) as Hi.
  eapply chain_ext; [| |exact Hi]; intros x _; by apply push_pointers.
Qed.

(** [brelse]'s relinking moves the buffer to the front of the list. *)
Lemma lru_front_lru bs l1 b l2 :
  length bs = S NBUF -> lru bs (l1 ++ b :: l2) -> lru (lru_front b bs) (b :: l1 ++ l2).
Proof.
  intros Hlen Hl. pose proof (lru_NoDup _ _ Hl) as [Hnd Hh].
  pose proof (lru_bound _ _ Hl) as Hbd.
  assert (Hp : b :: l1 ++ l2 ≡ₚ seq 0 NBUF) by (rewrite <- (proj2 Hl); apply Permutation_middle).
  split; [|done]. rewrite lru_front_split.
  assert (Hnd' : NoDup (b :: l1 ++ l2)) by (rewrite Hp; apply NoDup_seq).
  apply NoDup_cons in Hnd' as [Hb Hnd'].
  apply lru_push_chain; [by rewrite length_lru_unlink|apply Hbd; set_solver| |done|done|].
  - by apply lru_unlink_chain.
  - intros x Hx. apply Hbd. set_solver.
Qed.

(** ** The two searches of [bget] *)
Definition matches (bs : list buf) (dev blockno : Z) (b : nat) : Prop :=
  b_dev (bs !!! b) = dev /\ b_blockno (bs !!! b) = blockno.
#[global] Instance matches_dec bs dev blockno b : Decision (matches bs dev blockno b).
Proof. unfold matches. apply _. Defined.

(** A buffer that may be recycled: nobody uses it and it is not dirty. *)
Definition evictable (bs : list buf) (b : nat) : Prop :=
  b_refcnt (bs !!! b) = 0 /\ has (b_flags (bs !!! b)) B_DIRTY = false.
#[global] Instance evictable_dec bs b : Decision (evictable bs b).
Proof. unfold evictable. apply _. Defined.

Lemma bget_find_chain fuel bs dev blockno a l :
  chain (nextof bs) (prevof bs) a l bhead -> bhead ∉ l -> (length l < fuel)%nat ->
  bget_find fuel bs dev blockno (nextof bs a) =
  Some (head (filter (matches bs dev blockno) l)).
Proof.
  revert fuel a. induction l as [|b l IH]; intros fuel a Hc Hh Hf;
    (destruct fuel as [|fuel]; [simpl in Hf; lia|]); cbn [bget_find chain] in *.
  - destruct Hc as [-> _]. by rewrite decide_True.
  - destruct Hc as (-> & _ & Hc). rewrite decide_False by set_solver.
    destruct (decide (matches bs dev blockno b)) as [Hm|Hm].
    + rewrite filter_cons_True by done. destruct Hm as [<- <-]. by rewrite !Z.eqb_refl.
    + rewrite filter_cons_False by done.
      replace ((b_dev (bs !!! b) =? dev) && (b_blockno (bs !!! b) =? blockno)) with false.
      2:{ symmetry. apply andb_false_iff. unfold matches in Hm.
          destruct (Z.eqb_spec (b_dev (bs !!! b)) dev); [right|by left].
          apply Z.eqb_neq. tauto. }
      apply IH; [done|set_solver|simpl in Hf; lia].
Qed.

Lemma bget_recycle_chain fuel bs l z :
  chain (nextof bs) (prevof bs) bhead l z -> bhead ∉ l -> (length l < fuel)%nat ->
  bget_recycle fuel bs (prevof bs z) = Some (last (filter (evictable bs) l)).
Proof.
  revert fuel z. induction l as [|b l IH] using rev_ind; intros fuel z Hc Hh Hf;
    (destruct fuel as [|fuel]; [rewrite ?length_app in Hf; simpl in Hf; lia|]);
    cbn [bget_recycle].
  - destruct Hc as [_ ->]. by rewrite decide_True.
  - apply chain_app in Hc as [Hc [_ ->]]. rewrite decide_False by set_solver.
    rewrite filter_app, last_app.
    destruct (decide (evictable bs b)) as [He|He].
    + rewrite filter_cons_True by done. destruct He as [-> ->]. done.
    + rewrite filter_cons_False by done. rewrite filter_nil. simpl.
      replace ((b_refcnt (bs !!! b) =? 0) && negb (has (b_flags (bs !!! b)) B_DIRTY))
        with false.
      2:{ symmetry. apply andb_false_iff. unfold evictable in He.
          destruct (Z.eqb_spec (b_refcnt (bs !!! b)) 0); [right|by left].
          apply negb_false_iff. destruct (has _ _); tauto. }
      apply IH; [done|set_solver|rewrite length_app in Hf; simpl in Hf; lia].
Qed.

Lemma lru_length bs l : lru bs l -> length l = NBUF.
Proof. intros [_ Hp]. by rewrite (Permutation_length Hp), length_seq. Qed.

Lemma bget_find_lru bs dev blockno l :
  lru bs l ->
  bget_find bget_fuel bs dev blockno (b_next (bs !!! bhead)) =
  Some (head (filter (matches bs dev blockno) l)).
Proof.
  intros Hl. apply bget_find_chain; [apply Hl|by apply (lru_NoDup bs)|].
  rewrite (lru_length _ _ Hl). unfold bget_fuel. lia.
Qed.

Lemma bget_recycle_lru bs l :
  lru bs l ->
  bget_recycle bget_fuel bs (b_prev (bs !!! bhead)) = Some (last (filter (evictable bs) l)).
Proof.
  intros Hl. apply bget_recycle_chain; [apply Hl|by apply (lru_NoDup bs)|].
  rewrite (lru_length _ _ Hl). unfold bget_fuel. lia.
Qed.

(** [binit] builds the list, the last buffer in front. *)
Lemma nextof_set_lock bs i v x : nextof (alter (set_b_lock v) i bs) x = nextof bs x.
Proof.
  unfold nextof. rewrite !list_lookup_total_alt, list_lookup_alter.
  case_decide; [subst|done]. by destruct (bs !! x).
Qed.
Lemma prevof_set_lock bs i v x : prevof (alter (set_b_lock v) i bs) x = prevof bs x.
Proof.
  unfold prevof. rewrite !list_lookup_total_alt, list_lookup_alter.
  case_decide; [subst|done]. by destruct (bs !! x).
Qed.

Lemma binit_one_push b bs :
  binit_one b bs = lru_push b (alter (set_b_lock (mk_sleeplock false 0)) b bs).
Proof.
  unfold binit_one, lru_push. cbv zeta.
  fold (nextof bs bhead) (nextof (alter (set_b_lock (mk_sleeplock false 0)) b bs) bhead).
  rewrite nextof_set_lock.
  replace (alter (set_b_lock (mk_sleeplock false 0)) b
             (alter (set_b_prev bhead) b (alter (set_b_next (nextof bs bhead)) b bs)))
    with (alter (set_b_prev bhead) b
            (alter (set_b_next (nextof bs bhead)) b
               (alter (set_b_lock (mk_sleeplock false 0)) b bs))); [done|].
  apply list_eq. intros i. rewrite !list_lookup_alter.
  destruct (decide (b = i)); [|done]. rewrite !decide_True by done. by destruct (bs !! b).
Qed.

Lemma binit_lru bs :
  length bs = S NBUF -> lru (binit_bufs bs) (reverse (seq 0 NBUF)).
Proof.
  intros Hlen. split; [|apply reverse_Permutation].
  assert (H : forall n, (n <= NBUF)%nat ->
    let bs' := foldl (fun bs b => binit_one b bs)
      (alter (set_b_next bhead) bhead (alter (set_b_prev bhead) bhead bs)) (seq 0 n) in
    length bs' = S NBUF /\
    chain (nextof bs') (prevof bs') bhead (reverse (seq 0 n)) bhead).
  { induction n as [|n IH]; intros Hn; cbv zeta.
    - simpl. rewrite !length_alter. split; [done|]. split.
      + rewrite nextof_set_next by (rewrite length_alter; unfold bhead; lia). apply fupd_eq.
      + rewrite prevof_set_next, prevof_set_prev by (unfold bhead; lia). apply fupd_eq.
    - rewrite seq_S, foldl_app, reverse_app. cbn [foldl]. cbv zeta in IH.
      destruct (IH ltac:(lia)) as [Hl Hc]. rewrite binit_one_push.
      set (bs' := foldl _ _ _) in *.
      rewrite length_lru_push, length_alter. split; [exact Hl|].
      apply lru_push_chain; [rewrite length_alter; exact Hl|unfold NBUF in *; lia| |..].
      + eapply chain_ext; [intros x _; apply nextof_set_lock
                          |intros x _; apply prevof_set_lock|exact Hc].
      + rewrite elem_of_reverse, elem_of_seq. lia.
      + rewrite reverse_Permutation. apply NoDup_seq.
      + intros x. rewrite elem_of_reverse, elem_of_seq. lia. }
  apply (H NBUF). lia.
Qed.
