(* ===== verification/Log.v ===== *)
(** The write-ahead log, [src/log.c], and [readsb] of [src/fs.c].

    On disk the header block holds [struct logheader] in its first bytes,
    little-endian: the count and then the home block numbers; the logged
    blocks follow it. *)
From Stdlib Require Import ZArith Lia.
From stdpp Require Import base gmap sets strings numbers list.
From S2P Require Import Prelude State Spinlock Code Sched Bio.

Local Open Scope Z_scope.

(** ** Integers inside a block *)
Definition get_u32 (d : block) (off : Z) : Z := le_val (slice d (Z.to_nat off) 4).
Definition get_i32 (d : block) (off : Z) : Z := i32 (get_u32 d off).
Definition put_u32 (d : block) (off v : Z) : block := splice d (Z.to_nat off) (le_bytes 4 v).

Definition decode_sb (d : block) : superblock :=
  mk_superblock (get_u32 d 0) (get_u32 d 4) (get_u32 d 8) (get_u32 d 12)
    (get_u32 d 16) (get_u32 d 20) (get_u32 d 24).

(** [readsb(dev, &sb)]: the superblock it reads. *)
Definition readsb (dev : Z) : M kst superblock :=
  bp ← bread dev 1;
  d ← bdata bp;
  brelse bp;;
  mret (decode_sb d).

(** ** [src/log.c] *)
Definition upd_log (f : logst -> logst) : M kst unit :=
  modify (fun k => set_k_log (f (k_log k)) k).
Definition set_lh (n : Z) (bl : list Z) (l : logst) : logst :=
  set_log_lh (mk_logheader n bl) l.
Definition lh_of : M kst logheader := gets (fun k => log_lh (k_log k)).

(** [log.lh.block[i]], an access outside the array is undefined. *)
Definition lh_block_at (lh : logheader) (i : Z) : M kst Z :=
  deref "log.lh.block" (if 0 <=? i then lh_block lh !! Z.to_nat i else None).

(** Offset of [block[i]] in the on-disk header. *)
Definition hdr_off (i : Z) : Z := 4 + 4 * i.

(** The copy loop of [read_head]: entries [i .. i + cnt - 1]. *)
Fixpoint read_head_loop (cnt : nat) (i : Z) (d : block) (bl : list Z) : M kst (list Z) :=
  match cnt with
  | O => mret bl
  | S cnt' =>
      if Z.of_nat (length bl) <=? i then fault "log.lh.block" else
      read_head_loop cnt' (i + 1) d (<[Z.to_nat i := get_i32 d (hdr_off i)]> bl)
  end.

Definition read_head : M kst unit :=
  l ← gets k_log;
  b ← bread (log_dev l) (log_start l);
  d ← bdata b;
  let n := get_i32 d 0 in
  lh ← lh_of;
  bl ← read_head_loop (Z.to_nat n) 0 d (lh_block lh);
  upd_log (set_lh n bl);;
  brelse b.

(** The copy loop of [write_head]. *)
Fixpoint write_head_loop (cnt : nat) (i : Z) (lh : logheader) (d : block) : M kst block :=
  match cnt with
  | O => mret d
  | S cnt' =>
      v ← lh_block_at lh i;
      write_head_loop cnt' (i + 1) lh (put_u32 d (hdr_off i) v)
  end.

Definition write_head : M kst unit :=
  l ← gets k_log;
  b ← bread (log_dev l) (log_start l);
  d ← bdata b;
  let lh := log_lh l in
  d ← write_head_loop (Z.to_nat (lh_n lh)) 0 lh (put_u32 d 0 (lh_n lh));
  set_bdata b d;;
  bwrite b;;
  brelse b.

(** Copy committed blocks from the log to their home: entries from [tail]. *)
Fixpoint install_trans_loop (cnt : nat) (tail : Z) : M kst unit :=
  match cnt with
  | O => mret tt
  | S cnt' =>
      l ← gets k_log;
      lbuf ← bread (log_dev l) (log_start l + tail + 1);
      home ← lh_block_at (log_lh l) tail;
      dbuf ← bread (log_dev l) (u32 home);
      d ← bdata lbuf;
      set_bdata dbuf d;;
      bwrite dbuf;;
      brelse lbuf;;
      brelse dbuf;;
      install_trans_loop cnt' (tail + 1)
  end.
Definition install_trans : M kst unit :=
  lh ← lh_of;
  install_trans_loop (Z.to_nat (lh_n lh)) 0.

Definition recover_from_log : M kst unit :=
  read_head;;
  install_trans;;
  upd_log (fun l => set_lh 0 (lh_block (log_lh l)) l);;
  write_head.

Definition initlog (dev : Z) : M kst unit :=
  if BSIZE <=? 4 + 4 * LOGSIZE then panic "initlog: too big logheader" else
  initlock L_log;;
  sb ← readsb dev;
  upd_log (set_log_start (i32 (sb_logstart sb)));;
  upd_log (set_log_size (i32 (sb_nlog sb)));;
  upd_log (set_log_dev dev);;
  recover_from_log.

Definition begin_op : M kst unit :=
  acquire L_log;;
  l ← gets k_log;
  if log_committing l then sleep Ch_log L_log;; again
  else if lh_n (log_lh l) + (log_outstanding l + 1) * MAXOPBLOCKS >? LOGSIZE then
    sleep Ch_log L_log;; again
  else
    upd_log (fun l => set_log_outstanding (log_outstanding l + 1) l);;
    release L_log.

(** Copy modified blocks from the cache to the log: entries from [tail]. *)
Fixpoint write_log_loop (cnt : nat) (tail : Z) : M kst unit :=
  match cnt with
  | O => mret tt
  | S cnt' =>
      l ← gets k_log;
      to ← bread (log_dev l) (log_start l + tail + 1);
      home ← lh_block_at (log_lh l) tail;
      frm ← bread (log_dev l) (u32 home);
      d ← bdata frm;
      set_bdata to d;;
      bwrite to;;
      brelse frm;;
      brelse to;;
      write_log_loop cnt' (tail + 1)
  end.
Definition write_log : M kst unit :=
  lh ← lh_of;
  write_log_loop (Z.to_nat (lh_n lh)) 0.

Definition commit : M kst unit :=
  lh ← lh_of;
  if lh_n lh >? 0 then
    write_log;;
    write_head;;
    install_trans;;
    upd_log (fun l => set_lh 0 (lh_block (log_lh l)) l);;
    write_head
  else mret tt.

Definition end_op : M kst unit :=
  acquire L_log;;
  upd_log (fun l => set_log_outstanding (log_outstanding l - 1) l);;
  l ← gets k_log;
  if log_committing l then panic "log.committing" else
  do_commit ← (if log_outstanding l =? 0 then
                 upd_log (set_log_committing true);; mret true
               else wakeup Ch_log;; mret false);
  release L_log;;
  if (do_commit : bool) then
    commit;;
    acquire L_log;;
    upd_log (set_log_committing false);;
    wakeup Ch_log;;
    release L_log
  else mret tt.

(** The absorption search of [log_write]: the first [i < n] that logs this block,
    or [n]. *)
Fixpoint log_absorb (cnt : nat) (i : Z) (bl : list Z) (blockno : Z) : Z :=
  match cnt with
  | O => i
  | S cnt' =>
      match bl with
      | [] => i
      | x :: bl' => if u32 x =? blockno then i else log_absorb cnt' (i + 1) bl' blockno
      end
  end.

Definition log_write (b : nat) : M kst unit :=
  l ← gets k_log;
  let n := lh_n (log_lh l) in
  if (n >=? LOGSIZE) || (n >=? log_size l - 1) then panic "too big a transaction" else
  if log_outstanding l <? 1 then panic "log_write outside of trans" else
  acquire L_log;;
  x ← buf_at b;
  let bl := lh_block (log_lh l) in
  let i := log_absorb (Z.to_nat n) 0 bl (b_blockno x) in
  upd_log (set_lh (if i =? n then n + 1 else n) (<[Z.to_nat i := i32 (b_blockno x)]> bl));;
  upd_buf b (fun x => set_b_flags (Z.lor (b_flags x) B_DIRTY) x);;
  release L_log.

(** ** Reading back what was stored *)
Lemma length_put_u32 d off v :
  0 <= off -> off + 4 <= Z.of_nat (length d) -> length (put_u32 d off v) = length d.
Proof. intros. apply length_splice. rewrite length_le_bytes. lia. Qed.

Lemma get_put_u32 d off v :
  0 <= off -> off + 4 <= Z.of_nat (length d) -> get_u32 (put_u32 d off v) off = u32 v.
Proof.
  intros. unfold get_u32, put_u32.
  pose proof (slice_splice_same d (Z.to_nat off) (le_bytes 4 v)) as E.
  rewrite length_le_bytes in E. rewrite E by lia. apply le_val_bytes.
Qed.

Lemma get_put_u32_ne d off off' v :
  0 <= off -> off + 4 <= Z.of_nat (length d) -> 0 <= off' -> off' + 4 <= Z.of_nat (length d) ->
  off' + 4 <= off \/ off + 4 <= off' -> get_u32 (put_u32 d off v) off' = get_u32 d off'.
Proof.
  intros. unfold get_u32, put_u32. f_equal.
  apply slice_splice_other; rewrite ?length_le_bytes; lia.
Qed.

Lemma u32_i32 x : u32 (i32 x) = u32 x.
Proof.
  unfold u32, i32.
  replace ((x + 2 ^ 31) mod 2 ^ 32 - 2 ^ 31) with (x + (- ((x + 2 ^ 31) / 2 ^ 32)) * 2 ^ 32).
  - by rewrite Z_mod_plus_full.
  - rewrite (Z.mod_eq (x + 2 ^ 31)) by lia. lia.
Qed.

(** The header block that [write_head] produces from [d]. *)
Fixpoint put_entries (i : Z) (hs : list Z) (d : block) : block :=
  match hs with
  | [] => d
  | h :: hs' => put_entries (i + 1) hs' (put_u32 d (hdr_off i) h)
  end.
Definition hdr_encode (hs : list Z) (d : block) : block :=
  put_entries 0 hs (put_u32 d 0 (Z.of_nat (length hs))).

(** The entries that [read_head] reads. *)
Definition hdr_n (d : block) : nat := Z.to_nat (get_i32 d 0).
Definition hdr_entries (d : block) : list Z :=
  (fun i => get_i32 d (hdr_off (Z.of_nat i))) <$> seq 0 (hdr_n d).

Lemma length_put_entries i hs d :
  0 <= i -> hdr_off (i + Z.of_nat (length hs)) <= Z.of_nat (length d) ->
  length (put_entries i hs d) = length d.
Proof.
  unfold hdr_off. revert i d. induction hs as [|h hs IH]; intros i d Hi Hl; [done|].
  cbn [put_entries length] in *.
  rewrite IH; rewrite ?length_put_u32; unfold hdr_off; lia.
Qed.

Lemma get_put_entries_old i hs d off :
  0 <= i -> hdr_off (i + Z.of_nat (length hs)) <= Z.of_nat (length d) ->
  0 <= off -> off + 4 <= hdr_off i -> get_u32 (put_entries i hs d) off = get_u32 d off.
Proof.
  unfold hdr_off. revert i d. induction hs as [|h hs IH]; intros i d Hi Hl Ho Ho'; [done|].
  cbn [put_entries length] in *. rewrite IH; rewrite ?length_put_u32; unfold hdr_off; try lia.
  apply get_put_u32_ne; unfold hdr_off; lia.
Qed.

Lemma get_put_entries_new i hs d j h :
  0 <= i -> hdr_off (i + Z.of_nat (length hs)) <= Z.of_nat (length d) ->
  hs !! j = Some h -> get_u32 (put_entries i hs d) (hdr_off (i + Z.of_nat j)) = u32 h.
Proof.
  unfold hdr_off. revert i d j. induction hs as [|h' hs IH]; intros i d j Hi Hl Hj; [done|].
  cbn [put_entries length] in *. destruct j as [|j].
  - injection Hj as ->. rewrite Z.add_0_r.
    rewrite get_put_entries_old; rewrite ?length_put_u32; unfold hdr_off; try lia.
    rewrite get_put_u32; lia.
  - replace (4 + 4 * (i + Z.of_nat (S j))) with (4 + 4 * ((i + 1) + Z.of_nat j)) by lia.
    apply IH; rewrite ?length_put_u32; unfold hdr_off; try lia. done.
Qed.

(** [write_head] then [read_head]: the same block numbers. *)
Lemma hdr_decode_encode hs d :
  hdr_off (Z.of_nat (length hs)) <= Z.of_nat (length d) -> Z.of_nat (length hs) < 2 ^ 31 ->
  hdr_entries (hdr_encode hs d) = i32 <$> hs.
Proof.
  intros Hl Hn.
  assert (Hlen : length (put_u32 d 0 (Z.of_nat (length hs))) = length d)
    by (apply length_put_u32; unfold hdr_off in *; lia).
  assert (En : hdr_n (hdr_encode hs d) = length hs).
  { unfold hdr_n, get_i32, hdr_encode.
    rewrite get_put_entries_old; rewrite ?Hlen; unfold hdr_off in *; try lia.
    rewrite get_put_u32, u32_small, i32_small; lia. }
  unfold hdr_entries. rewrite En. apply list_eq. intros j. rewrite !list_lookup_fmap.
  destruct (hs !! j) as [h|] eqn:Ej.
  - rewrite lookup_seq_lt by (by eapply lookup_lt_Some). simpl. f_equal.
    unfold get_i32, hdr_encode. pose proof (get_put_entries_new 0 hs
      (put_u32 d 0 (Z.of_nat (length hs))) j h) as E. rewrite Hlen in E.
    rewrite !Z.add_0_l in E. rewrite E; [|lia|done|done]. unfold i32, u32. by rewrite Zplus_mod_idemp_l.
  - apply lookup_ge_None in Ej. by rewrite lookup_seq_ge.
Qed.
