(* ===== verification/Blk.v ===== *)
(** What the buffer cache promises to its clients.

    [blk k L G U Hd]: the cache is consistent and presents the logical disk [L]
    (block number to contents), the blocks in [G] are pinned dirty in the cache
    because the log holds them back from the disk, and this thread has the
    buffers in [Hd] (with their block numbers) locked.  The held blocks in [U]
    have been stored to and not yet been written or pinned.  Every other block
    has its logical contents on the disk.

    The clients (log.c, fs.c) are verified against the lemmas [blk_bread],
    [blk_set_bdata], [blk_bwrite], [blk_pin] and [blk_brelse] only. *)
From Stdlib Require Import ZArith Lia.
From stdpp Require Import base gmap sets strings numbers list.
From S2P Require Import Prelude State Spinlock Sched Bio Log.

Local Open Scope Z_scope.

Definition disksize (k : kst) : Z := Z.of_nat (length (k_disk k)).

(** A buffer [b] with index [i]. *)
Record buf_ok (k : kst) (L : Z -> block) (G : list Z) (Hd : list (nat * Z))
    (i : nat) (b : buf) : Prop := mk_buf_ok {
  bo_flags : b_flags b = 0 \/ b_flags b = 2 \/ b_flags b = 6;
  bo_empty : b_flags b = 0 -> b_dev b <> 1;
  bo_valid : b_flags b <> 0 ->
    b_dev b = 1 /\ 0 <= b_blockno b < disksize k /\ b_data b = L (b_blockno b);
  bo_dirty : b_flags b <> 0 -> (b_flags b = 6 <-> b_blockno b ∈ G);
  bo_len : length (b_data b) = Z.to_nat BSIZE;
  bo_lock : sl_locked (b_lock b) = bool_decide (i ∈ Hd.*1);
  bo_ref : b_refcnt b = if bool_decide (i ∈ Hd.*1) then 1 else 0
}.

Record blk (k : kst) (L : Z -> block) (G U : list Z) (Hd : list (nat * Z)) : Prop := mk_blk {
  blk_cpu : cpu_ok (k_cpu k);
  blk_free : held (k_cpu k) = [];
  blk_cur : exists pid, cur_pid k pid;
  blk_len : length (k_bufs k) = S NBUF;
  blk_lru : exists l, lru (k_bufs k) l;
  blk_bufs : forall i, (i < NBUF)%nat -> buf_ok k L G Hd i (k_bufs k !!! i);
  blk_uniq : forall i j, (i < NBUF)%nat -> (j < NBUF)%nat ->
    b_flags (k_bufs k !!! i) <> 0 -> b_flags (k_bufs k !!! j) <> 0 ->
    b_blockno (k_bufs k !!! i) = b_blockno (k_bufs k !!! j) -> i = j;
  blk_Hd : forall i bno, (i, bno) ∈ Hd ->
    (i < NBUF)%nat /\ b_flags (k_bufs k !!! i) <> 0 /\ b_blockno (k_bufs k !!! i) = bno;
  blk_HdND : NoDup (Hd.*1);
  blk_G : forall g, g ∈ G -> exists i, (i < NBUF)%nat /\
    b_flags (k_bufs k !!! i) = 6 /\ b_blockno (k_bufs k !!! i) = g;
  blk_clean : forall bno, 0 <= bno < disksize k -> bno ∉ G -> bno ∉ U ->
    k_disk k !! Z.to_nat bno = Some (L bno);
  blk_U : forall u, u ∈ U -> u ∈ Hd.*2;
  blk_dlen : Forall (fun d => length d = Z.to_nat BSIZE) (k_disk k)
}.

(** A process that slept on a channel may have been made runnable. *)
Definition procs_le (ps qs : list proc) : Prop :=
  Forall2 (fun p q => q = p \/ (p_state p = SLEEPING /\ q = set_p_state RUNNABLE p)) ps qs.

(** What the cache operations leave alone: everything but the buffers and the
    wake-ups. *)
Definition bframe (k k' : kst) : Prop :=
  exists B P, k' = set_k_bufs B (set_k_ptable P k) /\ procs_le (k_ptable k) P.

Lemma procs_le_refl ps : procs_le ps ps.
Proof. apply Forall_Forall2_diag, Forall_true. by left. Qed.

Lemma procs_le_trans ps qs rs : procs_le ps qs -> procs_le qs rs -> procs_le ps rs.
Proof.
  unfold procs_le. intros H. revert rs. induction H as [|p q ps qs Hpq _ IH];
    intros rs Hr; inversion Hr as [|? r ? rs' Hqr Hr']; subst; constructor; [|by apply IH].
  destruct Hpq as [->|[Hs ->]], Hqr as [->|[Hs' ->]]; tauto.
Qed.

Lemma procs_le_wake ch ps : procs_le ps (wake ch <$> ps).
Proof.
  apply Forall2_fmap_r, Forall_Forall2_diag, Forall_true. intros p.
  unfold compose, wake.
  destruct (decide (p_state p = SLEEPING /\ p_chan p = Some ch)) as [[]|]; [right|left]; done.
Qed.

Lemma bframe_refl k : bframe k k.
Proof. exists (k_bufs k), (k_ptable k). split; [by destruct k|apply procs_le_refl]. Qed.

Lemma bframe_trans k1 k2 k3 : bframe k1 k2 -> bframe k2 k3 -> bframe k1 k3.
Proof.
  intros (B & P & -> & Hp) (B' & P' & -> & Hp'). exists B', P'.
  split; [by destruct k1|]. by eapply procs_le_trans.
Qed.

Lemma bframe_set_bufs B k : bframe k (set_k_bufs B k).
Proof. exists B, (k_ptable k). split; [by destruct k|apply procs_le_refl]. Qed.

Lemma procs_le_cur ps qs i p :
  procs_le ps qs -> ps !! i = Some p -> exists q, qs !! i = Some q /\ p_pid q = p_pid p.
Proof.
  intros H Hp. destruct (Forall2_lookup_l _ _ _ _ _ H Hp) as (q & Hq & [->|[_ ->]]); eauto.
Qed.

Lemma bframe_cur k k' pid : bframe k k' -> cur_pid k pid -> cur_pid k' pid.
Proof.
  intros (B & P & -> & Hp) (i & p & Hi & Hk & <-).
  destruct (procs_le_cur _ _ _ _ Hp Hk) as (q & Hq & Hpid). by exists i, q.
Qed.

(** ** List helpers *)
Lemma lru_alter bs l i f :
  (forall x, b_next (f x) = b_next x) -> (forall x, b_prev (f x) = b_prev x) ->
  lru bs l -> lru (alter f i bs) l.
Proof.
  intros Hn Hp [Hc Hl]. split; [|done].
  eapply chain_ext; [| |exact Hc]; intros x _; unfold nextof, prevof;
    rewrite !list_lookup_total_alt, list_lookup_alter; case_decide; try done; subst;
    destruct (bs !! x); simpl; auto.
Qed.

Lemma has_cases f : f = 0 \/ f = 2 \/ f = 6 ->
  has f B_VALID = negb (f =? 0) /\ has f B_DIRTY = (f =? 6).
Proof. intros [->|[->| ->]]; done. Qed.

(** Reordering what is held changes nothing. *)
Lemma blk_perm k L G U Hd Hd' : Hd ≡ₚ Hd' -> blk k L G U Hd -> blk k L G U Hd'.
Proof.
  intros Hp H. destruct H as [H1 H2 H3 H4 H5 H6 H7 H8 H9 H10 H11 H13 H12].
  assert (E1 : forall x, x ∈ Hd.*1 <-> x ∈ Hd'.*1) by (intros; by rewrite Hp).
  assert (E2 : forall x, x ∈ Hd.*2 <-> x ∈ Hd'.*2) by (intros; by rewrite Hp).
  constructor; try done.
  - intros i Hi. destruct (H6 i Hi) as [B1 B2 B3 B4 B5 B6 B7]. constructor; try done.
    + rewrite B6. by apply bool_decide_ext.
    + rewrite B7. by rewrite (bool_decide_ext _ _ (E1 i)).
  - intros i bno Hin. apply H8. by rewrite Hp.
  - by rewrite <- Hp.
  - intros u Hu. apply E2. by apply H13.
Qed.

Lemma blk_set_equiv k L G G' U Hd :
  (forall x, x ∈ G <-> x ∈ G') -> blk k L G U Hd -> blk k L G' U Hd.
Proof.
  intros E H. destruct H as [H1 H2 H3 H4 H5 H6 H7 H8 H9 H10 H11 H13 H12].
  constructor; try done.
  - intros i Hi. destruct (H6 i Hi) as [B1 B2 B3 B4 B5 B6 B7]. constructor; try done.
    intros Hf. rewrite <- E. auto.
  - intros g Hg. apply H10. by apply E.
  - intros. apply H11; [done| |done]. by rewrite E.
Qed.

Lemma blk_L_ext k L L' G U Hd :
  (forall b, 0 <= b < disksize k -> L b = L' b) -> blk k L G U Hd -> blk k L' G U Hd.
Proof.
  intros E H. destruct H as [H1 H2 H3 H4 H5 H6 H7 H8 H9 H10 H11 H13 H12].
  constructor; try done.
  - intros i Hi. destruct (H6 i Hi) as [B1 B2 B3 B4 B5 B6 B7]. constructor; try done.
    intros Hf. destruct (B3 Hf) as (? & ? & ?). split_and!; try done; try lia.
    rewrite <- E by lia. done.
  - intros. rewrite <- E by lia. auto.
Qed.

(** An index is held exactly when its block is. *)
Lemma blk_held_iff k L G U Hd i :
  blk k L G U Hd -> (i < NBUF)%nat -> b_flags (k_bufs k !!! i) <> 0 ->
  i ∈ Hd.*1 <-> b_blockno (k_bufs k !!! i) ∈ Hd.*2.
Proof.
  intros H Hi Hf. split.
  - intros ([i' bno] & -> & Hin)%list_elem_of_fmap. destruct (blk_Hd _ _ _ _ _ H _ _ Hin) as (_ & _ & Hb).
    simpl. rewrite Hb. apply list_elem_of_fmap. by exists (i', bno).
  - intros ([j bno] & Hb & Hin)%list_elem_of_fmap. simpl in Hb.
    destruct (blk_Hd _ _ _ _ _ H _ _ Hin) as (Hj & Hfj & Hbj).
    assert (i = j) as -> by (apply (blk_uniq _ _ _ _ _ H); [done..|congruence]).
    apply list_elem_of_fmap. by exists (j, bno).
Qed.

(** Fewer pinned and held buffers than there are leave one to recycle. *)
Lemma blk_evictable k L G U Hd :
  blk k L G U Hd -> (length G + length Hd < NBUF)%nat ->
  exists i, (i < NBUF)%nat /\ evictable (k_bufs k) i.
Proof.
  intros H Hlt.
  destruct (decide (Exists (evictable (k_bufs k)) (seq 0 NBUF))) as [He|He].
  { apply Exists_exists in He as (i & Hi%elem_of_seq & He). exists i. split; [lia|done]. }
  exfalso. rewrite <- Forall_Exists_neg, Forall_forall in He.
  set (f := fun i => b_blockno (k_bufs k !!! i)).
  assert (Hv : forall i, (i < NBUF)%nat ->
            b_flags (k_bufs k !!! i) <> 0 /\ f i ∈ G ++ Hd.*2).
  { intros i Hi. destruct (blk_bufs _ _ _ _ _ H i Hi) as [B1 B2 B3 B4 B5 B6 B7].
    specialize (He i). rewrite elem_of_seq in He. specialize (He ltac:(lia)).
    unfold evictable in He. rewrite (proj2 (has_cases _ B1)), B7 in He.
    case_bool_decide as Hh.
    - assert (Hf : b_flags (k_bufs k !!! i) <> 0).
      { apply list_elem_of_fmap in Hh as ([i' bno] & -> & Hin).
        by destruct (blk_Hd _ _ _ _ _ H _ _ Hin) as (_ & Hf & _). }
      split; [done|]. apply elem_of_app. right. by apply (blk_held_iff k L G U Hd).
    - destruct (Z.eqb_spec (b_flags (k_bufs k !!! i)) 6) as [E|]; [|tauto].
      split; [lia|]. apply elem_of_app. left. apply B4; lia. }
  assert (Hnd : NoDup (f <$> seq 0 NBUF)).
  { apply NoDup_fmap_2_strong; [|apply NoDup_seq].
    intros x y Hx%elem_of_seq Hy%elem_of_seq Hxy.
    apply (blk_uniq _ _ _ _ _ H); try lia; try done; by apply Hv; lia. }
  assert (Hsub : (f <$> seq 0 NBUF) ⊆+ G ++ Hd.*2).
  { apply NoDup_submseteq; [done|].
    intros x (i & -> & Hi%elem_of_seq)%list_elem_of_fmap. apply Hv. lia. }
  apply submseteq_length in Hsub.
  rewrite length_fmap, length_seq, length_app, length_fmap in Hsub. lia.
Qed.

(** ** Changing one buffer *)
Lemma alter_insert_total {A} `{!Inhabited A} (f : A -> A) i (l : list A) :
  (i < length l)%nat -> alter f i l = <[i := f (l !!! i)]> l.
Proof.
  intros Hi. apply list_eq. intros j. rewrite list_lookup_alter.
  destruct (decide (i = j)) as [->|].
  - rewrite list_lookup_insert_eq by done.
    destruct (lookup_lt_is_Some_2 l j Hi) as [x Hx]. rewrite Hx. simpl. f_equal. f_equal.
    symmetry. by apply list_lookup_total_correct.
  - by rewrite list_lookup_insert_ne.
Qed.

Lemma lookup_total_insert_case {A} `{!Inhabited A} i j (x : A) (l : list A) :
  (i < length l)%nat -> <[i := x]> l !!! j = if decide (i = j) then x else l !!! j.
Proof.
  intros Hi. case_decide; subst.
  - by apply list_lookup_total_insert_eq.
  - by apply list_lookup_total_insert_ne.
Qed.

Lemma blk_change k k' L L' G G' U U' Hd Hd' i b' :
  blk k L G U Hd -> (i < NBUF)%nat ->
  k_cpu k' = k_cpu k -> (exists pid, cur_pid k' pid) ->
  k_bufs k' = <[i := b']> (k_bufs k) ->
  b_next b' = b_next (k_bufs k !!! i) -> b_prev b' = b_prev (k_bufs k !!! i) ->
  disksize k' = disksize k ->
  buf_ok k' L' G' Hd' i b' ->
  (forall j, (j < NBUF)%nat -> j <> i -> b_flags (k_bufs k !!! j) <> 0 ->
     let n := b_blockno (k_bufs k !!! j) in
     L' n = L n /\ (n ∈ G' <-> n ∈ G) /\ (b_flags b' <> 0 -> n <> b_blockno b')) ->
  (forall j, j <> i -> j ∈ Hd'.*1 <-> j ∈ Hd.*1) ->
  (forall j bno, (j, bno) ∈ Hd' ->
     (j = i /\ b_flags b' <> 0 /\ b_blockno b' = bno) \/ (j <> i /\ (j, bno) ∈ Hd)) ->
  NoDup (Hd'.*1) ->
  (forall g, g ∈ G' -> (b_flags b' = 6 /\ b_blockno b' = g) \/
     (g ∈ G /\ (b_flags (k_bufs k !!! i) <> 6 \/ b_blockno (k_bufs k !!! i) <> g))) ->
  (forall bno, 0 <= bno < disksize k' -> bno ∉ G' -> bno ∉ U' ->
     k_disk k' !! Z.to_nat bno = Some (L' bno)) ->
  (forall u, u ∈ U' -> u ∈ Hd'.*2) ->
  Forall (fun d => length d = Z.to_nat BSIZE) (k_disk k') ->
  blk k' L' G' U' Hd'.
Proof.
  intros H Hi Hcpu Hcur Hbs Hnx Hpv Hds Hb' Hoth Hh1 Hh2 Hnd HG Hcl HU Hdl.
  assert (Hlen : (i < length (k_bufs k))%nat) by (rewrite (blk_len _ _ _ _ _ H); lia).
  assert (Hlook : forall j, k_bufs k' !!! j = if decide (i = j) then b' else k_bufs k !!! j)
    by (intros; rewrite Hbs; by apply lookup_total_insert_case).
  constructor.
  - rewrite Hcpu. apply H.
  - rewrite Hcpu. apply H.
  - done.
  - rewrite Hbs, length_insert. apply H.
  - destruct (blk_lru _ _ _ _ _ H) as [l [Hc Hl]]. exists l. split; [|done].
    eapply chain_ext; [| |exact Hc]; intros x _; unfold nextof, prevof; rewrite Hlook;
      by case_decide; subst.
  - intros j Hj. rewrite Hlook. case_decide as E; [by subst|].
    destruct (blk_bufs _ _ _ _ _ H j Hj) as [B1 B2 B3 B4 B5 B6 B7].
    constructor; try done.
    + intros Hf. destruct (Hoth j Hj ltac:(congruence) Hf) as (HL & _ & _).
      destruct (B3 Hf) as (? & ? & ?). rewrite Hds, HL. done.
    + intros Hf. destruct (Hoth j Hj ltac:(congruence) Hf) as (_ & -> & _). by apply B4.
    + rewrite B6. apply bool_decide_ext. symmetry. apply Hh1. congruence.
    + rewrite B7. by rewrite (bool_decide_ext (j ∈ Hd'.*1) (j ∈ Hd.*1) (Hh1 j ltac:(congruence))).
  - intros x y Hx Hy. rewrite !Hlook. repeat case_decide; subst; try done; intros Hfx Hfy Hxy.
    + destruct (Hoth y Hy ltac:(congruence) Hfy) as (_ & _ & Hne). by destruct (Hne Hfx).
    + destruct (Hoth x Hx ltac:(congruence) Hfx) as (_ & _ & Hne). by destruct (Hne Hfy).
    + by apply (blk_uniq _ _ _ _ _ H).
  - intros j bno Hin. rewrite Hlook. destruct (Hh2 j bno Hin) as [(-> & ? & ?)|(Hne & Hin')].
    + by rewrite decide_True.
    + rewrite decide_False by congruence. by apply (blk_Hd _ _ _ _ _ H).
  - done.
  - intros g Hg. destruct (HG g Hg) as [[Hf Hn]|[Hg' Hne]].
    + exists i. rewrite Hlook, decide_True by done. done.
    + destruct (blk_G _ _ _ _ _ H g Hg') as (j & Hj & Hf & Hn). exists j.
      rewrite Hlook. case_decide; subst; [|done]. destruct Hne; congruence.
  - done.
  - done.
  - done.
Qed.

(** Buffers that differ in their list pointers only. *)
Definition relinked (x y : buf) : Prop :=
  set_b_next 0 (set_b_prev 0 x) = set_b_next 0 (set_b_prev 0 y).

Lemma relinked_alter (bs bs' : list buf) (i : nat) (f : buf -> buf) :
  (forall x, relinked x (f x)) ->
  (forall j : nat, relinked (bs !!! j) (bs' !!! j)) ->
  forall j : nat, relinked (bs !!! j) (alter f i bs' !!! j).
Proof.
  intros Hf Hr j. rewrite !list_lookup_total_alt, list_lookup_alter.
  specialize (Hr j). rewrite !list_lookup_total_alt in Hr.
  case_decide; [subst|done]. unfold relinked in *.
  destruct (bs' !! j) as [y|]; simpl in *; [|done]. rewrite Hr. apply Hf.
Qed.

Lemma lru_front_relinked b bs (j : nat) : relinked (bs !!! j) (lru_front b bs !!! j).
Proof.
  unfold lru_front. cbv zeta. revert j.
  do 6 (apply relinked_alter; [done|]). done.
Qed.

Lemma relinked_fields x y : relinked x y ->
  b_flags y = b_flags x /\ b_dev y = b_dev x /\ b_blockno y = b_blockno x /\
  b_lock y = b_lock x /\ b_refcnt y = b_refcnt x /\ b_data y = b_data x.
Proof. unfold relinked. destruct x, y; simpl. intros [= -> -> -> -> -> ->]. done. Qed.

Lemma blk_lru_front k L G U Hd b :
  blk k L G U Hd -> (b < NBUF)%nat -> blk (set_k_bufs (lru_front b (k_bufs k)) k) L G U Hd.
Proof.
  intros H Hb. destruct H as [H1 H2 H3 H4 [l H5] H6 H7 H8 H9 H10 H11 H13 H12].
  assert (E : forall j, relinked (k_bufs k !!! j) (lru_front b (k_bufs k) !!! j))
    by (intros; apply lru_front_relinked).
  constructor; simpl; try done.
  - by rewrite length_lru_front.
  - assert (b ∈ l) as (l1 & l2 & ->)%list_elem_of_split by (by apply (lru_bound (k_bufs k))).
    exists (b :: l1 ++ l2). by apply lru_front_lru.
  - intros j Hj. destruct (relinked_fields _ _ (E j)) as (F1 & F2 & F3 & F4 & F5 & F6).
    destruct (H6 j Hj) as [B1 B2 B3 B4 B5 B6 B7].
    constructor; rewrite ?F1, ?F2, ?F3, ?F4, ?F5, ?F6; done.
  - intros x y Hx Hy. destruct (relinked_fields _ _ (E x)) as (-> & _ & -> & _).
    destruct (relinked_fields _ _ (E y)) as (-> & _ & -> & _). by apply H7.
  - intros x bno Hin. destruct (relinked_fields _ _ (E x)) as (-> & _ & -> & _). by apply H8.
  - intros g Hg. destruct (H10 g Hg) as (x & Hx & Hf & Hn). exists x.
    by destruct (relinked_fields _ _ (E x)) as (-> & _ & -> & _).
Qed.

(** ** The operations, as equations *)
Section eqs.
Context (k : kst) (pid : Z).
Context (Hcpu : cpu_ok (k_cpu k)) (Hheld : held (k_cpu k) = []) (Hcur : cur_pid k pid).

Lemma not_held lk : lk ∉ held (k_cpu k).
Proof. rewrite Hheld. apply not_elem_of_nil. Qed.

(** The common end of the two cases of [bget]. *)
Lemma bget_take (B : list buf) i s :
  B !! i = Some s -> sl_locked (b_lock s) = false ->
  (release L_bcache;; acquiresleep (SL_buf i);; mret i)
    (set_k_bufs B (set_k_cpu (lock_cpu L_bcache (k_cpu k)) k)) =
  Ok i (set_k_bufs (alter (set_b_lock (mk_sleeplock true pid)) i B) k).
Proof.
  intros Hi Hs. unfold mbind, M_bind.
  rewrite (release_eq L_bcache (k_cpu k)) by (try done; apply not_held).
  replace (set_k_cpu (k_cpu k) _) with (set_k_bufs B k) by by destruct k.
  destruct s as [f d n [lk p] r pv nx dat]; simpl in Hs; subst lk.
  rewrite (acquiresleep_eq _ _ pid p); [|done|apply not_held|done|].
  - done.
  - simpl. by rewrite Hi.
Qed.

Lemma bget_hit dev bno l i :
  length (k_bufs k) = S NBUF -> lru (k_bufs k) l ->
  head (filter (matches (k_bufs k) dev bno) l) = Some i ->
  sl_locked (b_lock (k_bufs k !!! i)) = false ->
  bget dev bno k =
  Ok i (set_k_bufs (alter (fun x => set_b_lock (mk_sleeplock true pid)
                       (set_b_refcnt (u32 (b_refcnt x + 1)) x)) i (k_bufs k)) k).
Proof.
  intros Hlen Hl Hh Hs. unfold bget. unfold mbind at 1, M_bind at 1.
  rewrite acquire_eq by apply not_held. unfold gets. unfold mbind at 1, M_bind at 1.
  change (k_bufs (set_k_cpu _ k)) with (k_bufs k). rewrite (bget_find_lru _ _ _ l Hl), Hh.
  assert (Hi : (i < NBUF)%nat).
  { apply (lru_bound _ _ Hl). apply head_Some_elem_of in Hh.
    by apply list_elem_of_filter in Hh as [_ ?]. }
  unfold upd_buf, upd_bufs, modify. unfold mbind at 1, M_bind at 1. simpl k_bufs.
  destruct (lookup_lt_is_Some_2 (k_bufs k) i) as [s Es]; [lia|].
  rewrite (list_lookup_total_correct _ _ _ Es) in Hs.
  erewrite bget_take; [|rewrite list_lookup_alter_eq, Es; reflexivity|done].
  by rewrite alter_alter.
Qed.

Lemma bget_miss dev bno l i :
  length (k_bufs k) = S NBUF -> lru (k_bufs k) l ->
  filter (matches (k_bufs k) dev bno) l = [] ->
  last (filter (evictable (k_bufs k)) l) = Some i ->
  sl_locked (b_lock (k_bufs k !!! i)) = false ->
  bget dev bno k =
  Ok i (set_k_bufs (alter (fun x => set_b_lock (mk_sleeplock true pid)
          (set_b_refcnt 1 (set_b_flags 0 (set_b_blockno bno (set_b_dev dev x)))))
          i (k_bufs k)) k).
Proof.
  intros Hlen Hl Hno Hla Hs. unfold bget. unfold mbind at 1, M_bind at 1.
  rewrite acquire_eq by apply not_held. unfold gets. unfold mbind at 1, M_bind at 1.
  change (k_bufs (set_k_cpu _ k)) with (k_bufs k). rewrite (bget_find_lru _ _ _ l Hl), Hno. cbn [head].
  rewrite (bget_recycle_lru _ l Hl), Hla.
  assert (Hi : (i < NBUF)%nat).
  { apply (lru_bound _ _ Hl). apply last_Some_elem_of in Hla.
    by apply list_elem_of_filter in Hla as [_ ?]. }
  unfold upd_buf, upd_bufs, modify. do 4 unfold mbind at 1, M_bind at 1. simpl k_bufs.
  destruct (lookup_lt_is_Some_2 (k_bufs k) i) as [s Es]; [lia|].
  rewrite (list_lookup_total_correct _ _ _ Es) in Hs. rewrite !alter_alter.
  replace (set_k_bufs _ _) with (set_k_bufs (alter (fun x =>
     set_b_refcnt 1 (set_b_flags 0 (set_b_blockno bno (set_b_dev dev x)))) i (k_bufs k))
     (set_k_cpu (lock_cpu L_bcache (k_cpu k)) k)) by by destruct k.
  erewrite bget_take; [|rewrite list_lookup_alter_eq, Es; reflexivity|done].
  by rewrite alter_alter.
Qed.

Lemma iderw_read i b d :
  k_bufs k !! i = Some b -> sl_locked (b_lock b) = true -> b_flags b = 0 -> b_dev b = 1 ->
  0 <= b_blockno b < disksize k -> k_disk k !! Z.to_nat (b_blockno b) = Some d ->
  iderw i k = Ok tt (set_k_bufs (alter (fun x => set_b_flags B_VALID (set_b_data d x))
                       i (k_bufs k)) k).
Proof.
  intros Hi Hs Hf Hd Hn Hdk. unfold iderw. unfold mbind at 1, M_bind at 1.
  rewrite (holdingsleep_eq _ _ (b_lock b)); [|done|apply not_held|by simpl; rewrite Hi].
  rewrite Hs. cbn [negb]. unfold buf_at, gets. unfold mbind at 1, M_bind at 1.
  rewrite (list_lookup_total_correct _ _ _ Hi), Hf, Hd. simpl.
  unfold get. unfold mbind at 1, M_bind at 1.
  replace (Z.of_nat (length (k_disk k)) <=? b_blockno b) with false
    by (unfold disksize in *; lia).
  rewrite Hdk. simpl. unfold upd_buf, upd_bufs, modify, mbind, M_bind, mret, M_ret.
  simpl. rewrite alter_alter. f_equal.
  replace (alter _ i (k_bufs k)) with
    (alter (fun x => set_b_flags B_VALID (set_b_data d x)) i (k_bufs k)); [by destruct k|].
  apply list_eq. intros j. rewrite !list_lookup_alter. case_decide; [|done].
  rewrite Hi. simpl. by rewrite Hf.
Qed.

Lemma iderw_write i b :
  k_bufs k !! i = Some b -> sl_locked (b_lock b) = true -> b_flags b = 6 -> b_dev b = 1 ->
  0 <= b_blockno b < disksize k ->
  iderw i k = Ok tt (set_k_bufs (alter (set_b_flags B_VALID) i (k_bufs k))
    (set_k_disk (<[Z.to_nat (b_blockno b) := b_data b]> (k_disk k))
      (set_k_writes ((b_blockno b, b_data b) :: k_writes k) k))).
Proof.
  intros Hi Hs Hf Hd Hn. unfold iderw. unfold mbind at 1, M_bind at 1.
  rewrite (holdingsleep_eq _ _ (b_lock b)); [|done|apply not_held|by simpl; rewrite Hi].
  rewrite Hs. cbn [negb]. unfold buf_at, gets. unfold mbind at 1, M_bind at 1.
  rewrite (list_lookup_total_correct _ _ _ Hi), Hf, Hd. simpl.
  unfold get. unfold mbind at 1, M_bind at 1.
  replace (Z.of_nat (length (k_disk k)) <=? b_blockno b) with false
    by (unfold disksize in *; lia).
  change (has 6 B_DIRTY) with true. cbv iota.
  unfold upd_buf, upd_bufs, modify, mbind, M_bind, mret, M_ret. simpl. rewrite alter_alter.
  f_equal.
  replace (alter _ i (k_bufs k)) with (alter (set_b_flags B_VALID) i (k_bufs k));
    [by destruct k|].
  apply list_eq. intros j. rewrite !list_lookup_alter. case_decide; [|done].
  rewrite Hi. simpl. by rewrite Hf.
Qed.
End eqs.

Section breads.
Context (k : kst) (pid : Z).
Context (Hcpu : cpu_ok (k_cpu k)) (Hheld : held (k_cpu k) = []) (Hcur : cur_pid k pid).

Lemma bread_miss bno l i b d :
  length (k_bufs k) = S NBUF -> lru (k_bufs k) l ->
  filter (matches (k_bufs k) ROOTDEV bno) l = [] ->
  last (filter (evictable (k_bufs k)) l) = Some i ->
  k_bufs k !! i = Some b -> sl_locked (b_lock b) = false ->
  0 <= bno < disksize k -> k_disk k !! Z.to_nat bno = Some d ->
  bread ROOTDEV bno k =
  Ok i (set_k_bufs (<[i := mk_buf B_VALID ROOTDEV bno (mk_sleeplock true pid) 1
                             (b_prev b) (b_next b) d]> (k_bufs k)) k).
Proof.
  intros Hlen Hl Hno Hla Hb Hs Hr Hd. unfold bread.
  pose proof (list_lookup_total_correct _ _ _ Hb) as Hb'.
  pose proof (lookup_lt_Some _ _ _ Hb) as Hlt.
  rewrite <- Hb' in Hs. erewrite bind_ok; [|by apply (bget_miss k pid Hcpu Hheld Hcur _ _ l i)].
  rewrite alter_insert_total by done. rewrite Hb'.
  unfold buf_at, gets. unfold mbind at 1, M_bind at 1. simpl k_bufs.
  rewrite list_lookup_total_insert_eq by done.
  cbn [b_flags set_b_lock set_b_refcnt set_b_flags].
  change (negb (has 0 B_VALID)) with true. cbv iota.
  set (b1 := set_b_lock _ _).
  erewrite bind_ok; [|apply (iderw_read (set_k_bufs (<[i := b1]> (k_bufs k)) k) pid Hcpu Hheld Hcur i b1 d); try done].
  - simpl. rewrite alter_insert_total by (by rewrite length_insert).
    rewrite list_lookup_total_insert_eq, list_insert_insert_eq by done. by destruct b, k.
  - simpl. by apply list_lookup_insert_eq.
Qed.

Lemma bread_hit bno l i b :
  length (k_bufs k) = S NBUF -> lru (k_bufs k) l ->
  head (filter (matches (k_bufs k) ROOTDEV bno) l) = Some i ->
  k_bufs k !! i = Some b -> sl_locked (b_lock b) = false ->
  has (b_flags b) B_VALID = true ->
  bread ROOTDEV bno k =
  Ok i (set_k_bufs (<[i := set_b_lock (mk_sleeplock true pid)
                             (set_b_refcnt (u32 (b_refcnt b + 1)) b)]> (k_bufs k)) k).
Proof.
  intros Hlen Hl Hh Hb Hs Hv. unfold bread.
  pose proof (list_lookup_total_correct _ _ _ Hb) as Hb'.
  pose proof (lookup_lt_Some _ _ _ Hb) as Hlt.
  rewrite <- Hb' in Hs. erewrite bind_ok; [|by apply (bget_hit k pid Hcpu Hheld Hcur _ _ l i)].
  rewrite alter_insert_total by done. rewrite Hb'.
  unfold buf_at, gets. unfold mbind at 1, M_bind at 1. simpl k_bufs.
  rewrite list_lookup_total_insert_eq by done.
  cbn [b_flags set_b_lock set_b_refcnt]. by rewrite Hv.
Qed.
End breads.

(** ** The operations, as the clients see them *)
Definition bupd (L : Z -> block) (bno : Z) (d : block) : Z -> block :=
  fun x => if decide (x = bno) then d else L x.

Lemma bupd_eq L b d : bupd L b d b = d.
Proof. unfold bupd. by rewrite decide_True. Qed.
Lemma bupd_ne L b d x : x <> b -> bupd L b d x = L x.
Proof. intros. unfold bupd. by rewrite decide_False. Qed.

Lemma bframe_disksize k k' : bframe k k' -> disksize k' = disksize k.
Proof. by intros (B & P & -> & _). Qed.

(** The buffer behind a held entry. *)
Lemma blk_held k L G U Hd i bno : blk k L G U Hd -> (i, bno) ∈ Hd ->
  exists b, k_bufs k !! i = Some b /\ k_bufs k !!! i = b /\ (i < NBUF)%nat /\
    b_flags b <> 0 /\ (b_flags b = 6 <-> bno ∈ G) /\ (b_flags b = 2 \/ b_flags b = 6) /\
    b_dev b = 1 /\ b_blockno b = bno /\ 0 <= bno < disksize k /\ b_data b = L bno /\
    length (b_data b) = Z.to_nat BSIZE /\ sl_locked (b_lock b) = true /\ b_refcnt b = 1.
Proof.
  intros H Hin. destruct (blk_Hd _ _ _ _ _ H _ _ Hin) as (Hi & Hf & Hn).
  destruct (lookup_lt_is_Some_2 (k_bufs k) i) as [b Hb].
  { rewrite (blk_len _ _ _ _ _ H). lia. }
  pose proof (list_lookup_total_correct _ _ _ Hb) as Hb'.
  destruct (blk_bufs _ _ _ _ _ H i Hi) as [B1 B2 B3 B4 B5 B6 B7].
  assert (Hh : i ∈ Hd.*1) by (apply list_elem_of_fmap; by exists (i, bno)).
  rewrite bool_decide_true in B6, B7 by done.
  rewrite Hb' in *. subst bno. exists b. destruct (B3 Hf) as (? & ? & ?).
  split_and!; try done; [by apply B4..|tauto|lia|lia].
Qed.

Lemma blk_bdata k L G U Hd i bno : blk k L G U Hd -> (i, bno) ∈ Hd -> bdata i k = Ok (L bno) k.
Proof.
  intros H Hin. destruct (blk_held _ _ _ _ _ _ _ H Hin) as
    (b & _ & Hb & _ & _ & _ & _ & _ & _ & _ & Hd' & _). unfold bdata, gets. by rewrite Hb, Hd'.
Qed.

Lemma blk_L_len k L G U Hd i bno :
  blk k L G U Hd -> (i, bno) ∈ Hd -> length (L bno) = Z.to_nat BSIZE.
Proof.
  intros H Hin. destruct (blk_held _ _ _ _ _ _ _ H Hin) as
    (b & _ & Hb & _ & _ & _ & _ & _ & _ & _ & <- & ? & _). done.
Qed.

(** [blk_change] for a buffer that stays held with the same block. *)
Lemma blk_change_held k k' L L' G G' U U' Hd i bno b b' :
  blk k L G U Hd -> (i, bno) ∈ Hd -> k_bufs k !!! i = b ->
  k_cpu k' = k_cpu k -> (exists pid, cur_pid k' pid) ->
  k_bufs k' = <[i := b']> (k_bufs k) ->
  b_next b' = b_next b -> b_prev b' = b_prev b -> b_dev b' = b_dev b ->
  b_blockno b' = b_blockno b -> b_lock b' = b_lock b -> b_refcnt b' = b_refcnt b ->
  b_flags b' = 2 \/ b_flags b' = 6 -> (b_flags b' = 6 <-> bno ∈ G') ->
  b_data b' = L' bno -> length (b_data b') = Z.to_nat BSIZE ->
  disksize k' = disksize k ->
  (forall x, x <> bno -> L' x = L x /\ (x ∈ G' <-> x ∈ G) /\ (x ∈ U' <-> x ∈ U)) ->
  (bno ∉ G' -> bno ∉ U' -> k_disk k' !! Z.to_nat bno = Some (L' bno)) ->
  (forall x, 0 <= x -> x <> bno -> k_disk k' !! Z.to_nat x = k_disk k !! Z.to_nat x) ->
  Forall (fun d => length d = Z.to_nat BSIZE) (k_disk k') ->
  blk k' L' G' U' Hd.
Proof.
  intros H Hin Hb Hcpu Hcur Hbs Hnx Hpv Hdv Hbn Hlk Hrf Hfl HfG Hdat Hlen Hds Hx Hbd Hdk Hdl.
  destruct (blk_held _ _ _ _ _ _ _ H Hin) as
    (b0 & _ & Hb0 & Hi & Hf & _ & _ & Hd1 & Hn1 & Hr1 & _ & _ & Hl1 & Hr).
  assert (b0 = b) as -> by congruence.
  assert (Hoth : forall j, (j < NBUF)%nat -> j <> i -> b_flags (k_bufs k !!! j) <> 0 ->
    b_blockno (k_bufs k !!! j) <> bno).
  { intros j Hj Hji Hfj E. apply Hji. apply (blk_uniq _ _ _ _ _ H); try done; congruence. }
  assert (Hhi : i ∈ Hd.*1) by (apply list_elem_of_fmap; by exists (i, bno)).
  eapply blk_change; try done; try congruence.
  - constructor; try tauto; try congruence; try lia.
    + rewrite Hbn, Hn1, Hds. intros _. split_and!; [congruence|lia..|done].
    + by rewrite bool_decide_true, Hlk.
    + by rewrite bool_decide_true, Hrf.
  - intros j Hj Hji Hfj n. destruct (Hx n (Hoth j Hj Hji Hfj)) as (? & ? & ?). split_and!; try done; try tauto.
    rewrite Hbn, Hn1. intros _. by apply Hoth.
  - intros j bno' Hj. destruct (decide (j = i)) as [->|]; [left|by right].
    destruct (blk_Hd _ _ _ _ _ H _ _ Hj) as (_ & _ & E). rewrite Hb in E.
    split_and!; [done|lia|congruence].
  - apply H.
  - intros g Hg. destruct (decide (g = bno)) as [->|Hne].
    + left. split; [tauto|congruence].
    + right. split; [by apply Hx|]. right. rewrite Hb, Hn1. done.
  - intros x Hr' HxG HxH. destruct (decide (x = bno)) as [->|Hxb]; [by apply Hbd|].
    destruct (Hx x Hxb) as (-> & HG & HU). rewrite Hdk by (done || lia).
    apply (blk_clean _ _ _ _ _ H); [lia|tauto|tauto].
  - intros u Hu. destruct (decide (u = bno)) as [->|Hub].
    + apply list_elem_of_fmap. by exists (i, bno).
    + apply (blk_U _ _ _ _ _ H). by apply Hx.
Qed.

Lemma blk_set_bdata k L G U Hd i bno d :
  blk k L G U Hd -> (i, bno) ∈ Hd -> length d = Z.to_nat BSIZE ->
  exists k', set_bdata i d k = Ok tt k' /\ blk k' (bupd L bno d) G (bno :: U) Hd /\ bframe k k'.
Proof.
  intros H Hin Hlen. eexists. split; [reflexivity|]. split; [|apply bframe_set_bufs].
  destruct (blk_held _ _ _ _ _ _ _ H Hin) as
    (b & Hb & Hb' & Hi & Hf & HfG & Hf26 & Hd1 & Hn1 & Hr1 & _ & _ & Hl1 & Hr).
  apply (blk_change_held k _ L _ G G U _ _ i bno b (set_b_data d b)); try done; try apply H; simpl.
  - rewrite alter_insert_total by (by eapply lookup_lt_Some). by rewrite Hb'.
  - by rewrite bupd_eq.
  - intros x Hx. rewrite bupd_ne, elem_of_cons by done. tauto.
  - intros _ []. left.
Qed.

(** Mark a held buffer dirty: [bno] is pinned until a [bwrite]. *)
Lemma blk_pin k L G G' U U' Hd i bno :
  blk k L G U Hd -> (i, bno) ∈ Hd -> (forall x, x ∈ G' <-> x = bno \/ x ∈ G) ->
  (forall x, x <> bno -> x ∈ U' <-> x ∈ U) ->
  exists k', upd_buf i (fun x => set_b_flags (Z.lor (b_flags x) B_DIRTY) x) k = Ok tt k' /\
    blk k' L G' U' Hd /\ bframe k k'.
Proof.
  intros H Hin HG HU. eexists. split; [reflexivity|]. split; [|apply bframe_set_bufs].
  destruct (blk_held _ _ _ _ _ _ _ H Hin) as
    (b & Hb & Hb' & Hi & Hf & HfG & Hf26 & Hd1 & Hn1 & Hr1 & Hdat & ? & Hl1 & Hr).
  assert (E : Z.lor (b_flags b) B_DIRTY = 6) by (by destruct Hf26 as [-> | ->]).
  apply (blk_change_held k _ L _ G G' U U' _ i bno b (set_b_flags 6 b)); try done; try apply H; simpl.
  - rewrite alter_insert_total by (by eapply lookup_lt_Some). by rewrite Hb', E.
  - by right.
  - rewrite HG. tauto.
  - intros x Hx. split; [done|]. rewrite HG, HU by done. tauto.
  - rewrite HG. tauto.
Qed.

(** One block write reached the disk. *)
Definition wrote (bno : Z) (d : block) (k : kst) : kst :=
  set_k_disk (<[Z.to_nat bno := d]> (k_disk k)) (set_k_writes ((bno, d) :: k_writes k) k).

Lemma blk_bwrite k L G G' U U' Hd i bno :
  blk k L G U Hd -> (i, bno) ∈ Hd -> (forall x, x ∈ G' <-> x <> bno /\ x ∈ G) ->
  (forall x, x <> bno -> x ∈ U' <-> x ∈ U) ->
  exists k', bwrite i k = Ok tt k' /\ blk k' L G' U' Hd /\ bframe (wrote bno (L bno) k) k'.
Proof.
  intros H Hin HG HU.
  destruct (blk_held _ _ _ _ _ _ _ H Hin) as
    (b & Hb & Hb' & Hi & Hf & HfG & Hf26 & Hd1 & Hn1 & Hr1 & Hdat & Hl & Hl1 & Hr).
  assert (E : Z.lor (b_flags b) B_DIRTY = 6) by (by destruct Hf26 as [-> | ->]).
  destruct (blk_cur _ _ _ _ _ H) as [pid Hcur].
  assert (Hlt : (i < length (k_bufs k))%nat) by (by eapply lookup_lt_Some).
  unfold bwrite. rewrite (bind_ok _ _ _ (sl_locked (b_lock b)) k).
  2:{ apply holdingsleep_eq; [apply H| |by simpl; rewrite Hb].
      rewrite (blk_free _ _ _ _ _ H). apply not_elem_of_nil. }
  rewrite Hl1. cbn [negb]. unfold upd_buf at 1, upd_bufs, modify.
  unfold mbind at 1, M_bind at 1.
  rewrite (fun k H1 H2 H3 => iderw_write k pid H1 H2 H3 i (set_b_flags 6 b)).
  - eexists. split; [reflexivity|]. simpl. rewrite alter_alter, Hdat, Hn1. split.
    2:{ exists (alter (fun x => set_b_flags B_VALID (set_b_flags (Z.lor (b_flags x) B_DIRTY) x))
          i (k_bufs k)), (k_ptable k). split; [by destruct k|apply procs_le_refl]. }
    apply (blk_change_held k _ L _ G G' U U' _ i bno b (set_b_flags B_VALID (set_b_flags 6 b)));
      try done; simpl.
    + by exists pid.
    + rewrite alter_insert_total by done. by rewrite Hb', E.
    + by left.
    + rewrite HG. split; [done|]. tauto.
    + unfold disksize. simpl. by rewrite length_insert.
    + intros x Hx. split; [done|]. rewrite HG, HU by done. tauto.
    + intros _ _. apply list_lookup_insert_eq. unfold disksize in *. lia.
    + intros x Hx0 Hx. apply list_lookup_insert_ne. lia.
    + apply Forall_insert; [apply H|congruence].
  - apply H.
  - apply H.
  - done.
  - simpl. rewrite list_lookup_alter_eq, Hb. simpl. by rewrite E.
  - done.
  - done.
  - done.
  - simpl. rewrite Hn1. done.
Qed.

(** A buffer [i] that nobody holds becomes the held buffer of [bno]. *)
Lemma blk_grab k L G U Hd i bno b' :
  blk k L G U Hd -> (i < NBUF)%nat -> i ∉ Hd.*1 -> 0 <= bno < disksize k ->
  (forall j, (j < NBUF)%nat -> j <> i -> b_flags (k_bufs k !!! j) <> 0 ->
     b_blockno (k_bufs k !!! j) <> bno) ->
  (forall g, g ∈ G -> g = bno \/ b_flags (k_bufs k !!! i) <> 6 \/
     b_blockno (k_bufs k !!! i) <> g) ->
  b_next b' = b_next (k_bufs k !!! i) -> b_prev b' = b_prev (k_bufs k !!! i) ->
  b_flags b' = (if bool_decide (bno ∈ G) then 6 else 2) -> b_dev b' = 1 ->
  b_blockno b' = bno -> sl_locked (b_lock b') = true -> b_refcnt b' = 1 ->
  b_data b' = L bno -> length (b_data b') = Z.to_nat BSIZE ->
  blk (set_k_bufs (<[i := b']> (k_bufs k)) k) L G U ((i, bno) :: Hd).
Proof.
  intros H Hi Hnh Hr Hoth HG Hnx Hpv Hf Hdv Hn Hl Hrf Hdat Hlen.
  assert (Hf0 : b_flags b' <> 0) by (rewrite Hf; by case_bool_decide).
  eapply (blk_change k _ L L G G U U Hd _ i b'); try done; simpl.
  - apply H.
  - constructor; try done.
    + rewrite Hf. case_bool_decide; tauto.
    + intros _. rewrite Hn. done.
    + intros _. rewrite Hn, Hf. case_bool_decide; [done|]. split; [done|tauto].
    + rewrite bool_decide_true by (simpl; left). done.
    + rewrite bool_decide_true by (simpl; left). done.
  - intros j Hj Hji Hfj. split_and!; [done..|]. intros _. rewrite Hn. by apply Hoth.
  - intros j Hji. rewrite elem_of_cons. tauto.
  - intros j bno' [[= -> ->]|Hin]%elem_of_cons; [by left|]. right. split; [|done].
    intros ->. apply Hnh. apply list_elem_of_fmap. by exists (i, bno').
  - constructor; [done|apply H].
  - intros g Hg. destruct (decide (g = bno)) as [->|Hne].
    + left. by rewrite Hf, bool_decide_true.
    + right. split; [done|]. destruct (HG g Hg); tauto.
  - apply H.
  - intros u Hu. right. by apply (blk_U _ _ _ _ _ H).
  - apply H.
Qed.

Section bread.
Context (k : kst) (L : Z -> block) (G U : list Z) (Hd : list (nat * Z)) (bno pid : Z).
Context (l : list nat).
Context (H : blk k L G U Hd) (Hr : 0 <= bno < disksize k) (Hnh : bno ∉ Hd.*2).
Context (Hcur : cur_pid k pid) (Hl : lru (k_bufs k) l).

Lemma blk_victim :
  (length G + length Hd < NBUF)%nat ->
  exists i b, last (filter (evictable (k_bufs k)) l) = Some i /\ (i < NBUF)%nat /\
    k_bufs k !! i = Some b /\ k_bufs k !!! i = b /\ i ∉ Hd.*1 /\
    sl_locked (b_lock b) = false /\ b_flags b <> 6.
Proof.
  intros Hroom. destruct (last (filter (evictable (k_bufs k)) l)) as [i|] eqn:El.
  - apply last_Some_elem_of, list_elem_of_filter in El as [[Href Hdirty] Hi%(lru_bound _ _ Hl)].
    destruct (lookup_lt_is_Some_2 (k_bufs k) i) as [b Hb].
    { rewrite (blk_len _ _ _ _ _ H). lia. }
    pose proof (list_lookup_total_correct _ _ _ Hb) as Hb'. exists i, b.
    destruct (blk_bufs _ _ _ _ _ H i Hi) as [B1 B2 B3 B4 B5 B6 B7].
    rewrite Hb' in *. rewrite Href in B7. case_bool_decide as Hih; [done|].
    rewrite (proj2 (has_cases _ B1)) in Hdirty. apply Z.eqb_neq in Hdirty. done.
  - destruct (blk_evictable _ _ _ _ _ H Hroom) as (i & Hi & He).
    apply last_None in El. exfalso. assert (i ∈ filter (evictable (k_bufs k)) l) as Hin
      by (apply list_elem_of_filter; split; [done|by apply (lru_bound _ _ Hl)]).
    rewrite El in Hin. by apply not_elem_of_nil in Hin.
Qed.

Lemma blk_bread_miss :
  (length G + length Hd < NBUF)%nat -> filter (matches (k_bufs k) ROOTDEV bno) l = [] ->
  exists i k', bread ROOTDEV bno k = Ok i k' /\ blk k' L G U ((i, bno) :: Hd) /\ bframe k k'.
Proof.
  intros Hroom Ef. destruct (blk_victim Hroom) as (i & b & El & Hi & Hb & Hb' & Hih & Hs & Hd6).
  assert (Hno : forall j, (j < NBUF)%nat -> b_flags (k_bufs k !!! j) <> 0 ->
                 b_blockno (k_bufs k !!! j) <> bno).
  { intros j Hj Hf E. assert (j ∈ filter (matches (k_bufs k) ROOTDEV bno) l) as Hin.
    { apply list_elem_of_filter. split; [|by apply (lru_bound _ _ Hl)]. split; [|done].
      by apply (blk_bufs _ _ _ _ _ H j Hj). }
    rewrite Ef in Hin. by apply not_elem_of_nil in Hin. }
  assert (HnG : bno ∉ G).
  { intros Hg. destruct (blk_G _ _ _ _ _ H _ Hg) as (j & Hj & Hf & Hn).
    apply (Hno j Hj); [lia|done]. }
  assert (HnU : bno ∉ U) by (intros Hu; by apply Hnh, (blk_U _ _ _ _ _ H)).
  pose proof (blk_clean _ _ _ _ _ H bno Hr HnG HnU) as Hdk.
  eexists i, _. split; [|split; [|apply bframe_set_bufs]].
  - apply (bread_miss k pid ltac:(apply H) ltac:(apply H) Hcur bno l i b (L bno)); try done.
    apply H.
  - apply blk_grab; try done.
    + intros j Hj _. by apply Hno.
    + intros g Hg. rewrite Hb'. by right; left.
    + by rewrite Hb'.
    + by rewrite Hb'.
    + by rewrite bool_decide_false.
    + simpl. apply (proj1 (Forall_lookup _ _) (blk_dlen _ _ _ _ _ H) _ _ Hdk).
Qed.

Lemma blk_bread_hit i fl :
  filter (matches (k_bufs k) ROOTDEV bno) l = i :: fl ->
  exists i k', bread ROOTDEV bno k = Ok i k' /\ blk k' L G U ((i, bno) :: Hd) /\ bframe k k'.
Proof.
  intros Ef. assert (i ∈ filter (matches (k_bufs k) ROOTDEV bno) l) as Hin by (rewrite Ef; left).
  apply list_elem_of_filter in Hin as [[Hdev Hn] Hi%(lru_bound _ _ Hl)].
  destruct (lookup_lt_is_Some_2 (k_bufs k) i) as [b Hb].
  { rewrite (blk_len _ _ _ _ _ H). lia. }
  pose proof (list_lookup_total_correct _ _ _ Hb) as Hb'.
  destruct (blk_bufs _ _ _ _ _ H i Hi) as [B1 B2 B3 B4 B5 B6 B7]. rewrite Hb' in *.
  assert (Hf : b_flags b <> 0) by (intros E; by destruct (B2 E)).
  assert (Hih : i ∉ Hd.*1).
  { rewrite (blk_held_iff k L G U Hd i H Hi); rewrite Hb'; [by rewrite Hn|done]. }
  rewrite bool_decide_false in B6, B7 by done.
  assert (Ef6 : b_flags b = if bool_decide (bno ∈ G) then 6 else 2).
  { specialize (B4 Hf). rewrite Hn in B4. case_bool_decide; [tauto|].
    destruct B1 as [?|[?|?]]; [done|done|tauto]. }
  eexists i, _. split; [|split; [|apply bframe_set_bufs]].
  - apply (bread_hit k pid ltac:(apply H) ltac:(apply H) Hcur bno l i b); try done.
    + apply H.
    + by rewrite Ef.
    + rewrite Ef6. by case_bool_decide.
  - apply blk_grab; try done; simpl; rewrite ?Hb'; try done.
    + intros j Hj Hji Hfj E. apply Hji. apply (blk_uniq _ _ _ _ _ H); try done; congruence.
    + intros g Hg. rewrite Hn. destruct (decide (g = bno)); [by left|right; right; congruence].
    + by rewrite B7.
    + destruct (B3 Hf) as (_ & _ & ->). congruence.
Qed.
End bread.

Lemma blk_bread k L G U Hd bno :
  blk k L G U Hd -> 0 <= bno < disksize k -> bno ∉ Hd.*2 ->
  bno ∈ G \/ (length G + length Hd < NBUF)%nat ->
  exists i k', bread ROOTDEV bno k = Ok i k' /\ blk k' L G U ((i, bno) :: Hd) /\ bframe k k'.
Proof.
  intros H Hr Hnh Hroom. destruct (blk_cur _ _ _ _ _ H) as [pid Hcur].
  destruct (blk_lru _ _ _ _ _ H) as [l Hl].
  destruct (filter (matches (k_bufs k) ROOTDEV bno) l) as [|i fl] eqn:Ef;
    [|by eapply blk_bread_hit].
  destruct Hroom as [Hg|Hroom]; [exfalso|by eapply blk_bread_miss].
  destruct (blk_G _ _ _ _ _ H _ Hg) as (j & Hj & Hf & Hn).
  assert (j ∈ filter (matches (k_bufs k) ROOTDEV bno) l) as Hin.
  { apply list_elem_of_filter. split; [|by apply (lru_bound _ _ Hl)]. split; [|done].
    apply (blk_bufs _ _ _ _ _ H j Hj). lia. }
  rewrite Ef in Hin. by apply not_elem_of_nil in Hin.
Qed.

Lemma brelse_eq k pid i b :
  cpu_ok (k_cpu k) -> held (k_cpu k) = [] -> cur_pid k pid ->
  k_bufs k !! i = Some b -> sl_locked (b_lock b) = true -> b_refcnt b = 1 ->
  brelse i k = Ok tt (woken (Ch_sleep (SL_buf i))
    (set_k_bufs (lru_front i (<[i := set_b_refcnt 0 (set_b_lock (mk_sleeplock false 0) b)]>
       (k_bufs k))) k)).
Proof.
  intros Hcpu Hheld Hcur Hb Hs Hr. unfold brelse.
  assert (Hnh : forall lk, lk ∉ held (k_cpu k)) by (intros; rewrite Hheld; apply not_elem_of_nil).
  rewrite (bind_ok _ _ _ true k).
  2:{ rewrite <- Hs. apply holdingsleep_eq; [done..|by simpl; rewrite Hb]. }
  cbn [negb]. erewrite bind_ok; [|by apply releasesleep_eq].
  erewrite bind_ok; [|by apply acquire_eq]. simpl.
  unfold upd_buf, upd_bufs, modify. unfold mbind at 1, M_bind at 1. simpl.
  rewrite alter_alter, alter_insert_total by (by eapply lookup_lt_Some).
  rewrite (list_lookup_total_correct _ _ _ Hb). simpl. rewrite Hr.
  unfold buf_at, gets. unfold mbind at 1, M_bind at 1. simpl.
  rewrite list_lookup_total_insert_eq by (by eapply lookup_lt_Some). simpl.
  unfold mbind at 1, M_bind at 1. simpl.
  by rewrite (release_eq L_bcache (k_cpu k)) by done.
Qed.

Lemma blk_woken ch k L G U Hd : blk k L G U Hd -> blk (woken ch k) L G U Hd.
Proof.
  intros H. destruct H. constructor; try done.
  - destruct blk_cur0 as [pid ?]. exists pid. by apply cur_pid_woken.
  - intros i Hi. destruct (blk_bufs0 i Hi). by constructor.
Qed.

Lemma blk_brelse k L G U Hd i bno :
  blk k L G U ((i, bno) :: Hd) ->
  bno ∉ U ->
  exists k', brelse i k = Ok tt k' /\ blk k' L G U Hd /\ bframe k k'.
Proof.
  intros H Hd0. destruct (blk_held _ _ _ _ _ i bno H ltac:(left)) as
    (b & Hb & Hb' & Hi & Hf & HfG & Hf26 & Hd1 & Hn1 & Hr1 & Hdat & Hl & Hl1 & Hr).
  destruct (blk_cur _ _ _ _ _ H) as [pid Hcur].
  pose proof (blk_HdND _ _ _ _ _ H) as [Hnih Hnd]%NoDup_cons. simpl in Hnih.
  eexists. split; [apply (brelse_eq k pid i b); try done; apply H|]. split.
  2:{ eexists _, _. split; [|apply procs_le_wake]. by destruct k. }
  apply blk_woken.
  change (blk (set_k_bufs (lru_front i (k_bufs (set_k_bufs
    (<[i := set_b_refcnt 0 (set_b_lock (mk_sleeplock false 0) b)]> (k_bufs k)) k)))
    (set_k_bufs (<[i := set_b_refcnt 0 (set_b_lock (mk_sleeplock false 0) b)]> (k_bufs k)) k)) L G U Hd).
  apply blk_lru_front; [|done].
  eapply (blk_change k _ L L G G U U ((i, bno) :: Hd) Hd i); try done; rewrite ?Hb'; try done; simpl.
  - by exists pid.
  - constructor; simpl; try done.
    + tauto.
    + intros _. rewrite Hn1. done.
    + intros _. rewrite Hn1. done.
    + by rewrite bool_decide_false.
    + by rewrite bool_decide_false.
  - intros j Hj Hji Hfj. split_and!; [done..|]. intros _ E. apply Hji.
    apply (blk_uniq _ _ _ _ _ H); try done; congruence.
  - intros j Hji. rewrite elem_of_cons. tauto.
  - intros j bno' Hin. right. split; [|by right]. intros ->. apply Hnih.
    apply list_elem_of_fmap. by exists (i, bno').
  - intros g Hg. rewrite Hn1. destruct (decide (g = bno)) as [->|]; [left; tauto|right; auto].
  - apply H.
  - intros u Hu. pose proof (blk_U _ _ _ _ _ H u Hu) as Hu'. simpl in Hu'.
    apply elem_of_cons in Hu' as [->|]; done.
  - apply H.
Qed.

(** ** Sequences of operations

    [dframe ws k k']: from [k] to [k'] the disk writes [ws] happened, in this
    order, and nothing else but cache contents and wake-ups changed. *)
Definition apply_writes (ws : list (Z * block)) (D : list block) : list block :=
  foldl (fun D w => <[Z.to_nat w.1 := w.2]> D) D ws.

Definition wrotes (ws : list (Z * block)) (k : kst) : kst :=
  set_k_disk (apply_writes ws (k_disk k)) (set_k_writes (reverse ws ++ k_writes k) k).

Definition dframe (ws : list (Z * block)) (k k' : kst) : Prop :=
  exists B P, k' = set_k_bufs B (set_k_ptable P (wrotes ws k)) /\ procs_le (k_ptable k) P.

Lemma apply_writes_app ws ws' D :
  apply_writes (ws ++ ws') D = apply_writes ws' (apply_writes ws D).
Proof. apply foldl_app. Qed.

Lemma length_apply_writes ws D : length (apply_writes ws D) = length D.
Proof. revert D. induction ws as [|w ws IH]; intros D; [done|]. simpl. by rewrite IH, length_insert. Qed.

Lemma dframe_refl k : dframe [] k k.
Proof. exists (k_bufs k), (k_ptable k). split; [by destruct k|apply procs_le_refl]. Qed.

Lemma dframe_trans ws ws' k1 k2 k3 :
  dframe ws k1 k2 -> dframe ws' k2 k3 -> dframe (ws ++ ws') k1 k3.
Proof.
  intros (B & P & -> & Hp) (B' & P' & -> & Hp'). exists B', P'. split; [|by eapply procs_le_trans].
  unfold wrotes. rewrite apply_writes_app, reverse_app, <- app_assoc. by destruct k1.
Qed.

Lemma dframe_bframe ws k1 k2 k3 : dframe ws k1 k2 -> bframe k2 k3 -> dframe ws k1 k3.
Proof.
  intros H (B & P & -> & Hp). rewrite <- (app_nil_r ws). eapply dframe_trans; [done|].
  exists B, P. split; [by destruct k2|done].
Qed.

Lemma dframe_wrote ws k1 k2 k3 b d :
  dframe ws k1 k2 -> bframe (wrote b d k2) k3 -> dframe (ws ++ [(b, d)]) k1 k3.
Proof.
  intros H (B & P & -> & Hp). eapply dframe_trans; [done|].
  exists B, P. split; [by destruct k2|done].
Qed.

Lemma dframe_disk ws k k' : dframe ws k k' -> k_disk k' = apply_writes ws (k_disk k).
Proof. by intros (B & P & -> & _). Qed.
Lemma dframe_writes ws k k' : dframe ws k k' -> k_writes k' = reverse ws ++ k_writes k.
Proof. by intros (B & P & -> & _). Qed.
Lemma dframe_log ws k k' : dframe ws k k' -> k_log k' = k_log k.
Proof. by intros (B & P & -> & _). Qed.
Lemma dframe_disksize ws k k' : dframe ws k k' -> disksize k' = disksize k.
Proof. intros H. unfold disksize. by rewrite (dframe_disk _ _ _ H), length_apply_writes. Qed.

(** The cache depends on these parts of the state only. *)
Lemma blk_ext k k' L G U Hd :
  k_cpu k' = k_cpu k -> k_proc k' = k_proc k -> k_ptable k' = k_ptable k ->
  k_bufs k' = k_bufs k -> k_disk k' = k_disk k -> blk k L G U Hd -> blk k' L G U Hd.
Proof.
  intros E1 E2 E3 E4 E5 H. destruct H as [H1 H2 H3 H4 H5 H6 H7 H8 H9 H10 H11 H13 H12].
  constructor; unfold disksize, cur_pid; rewrite ?E1, ?E2, ?E3, ?E4, ?E5; try done.
  intros i Hi. destruct (H6 i Hi) as [B1 B2 B3 B4 B5 B6 B7].
  constructor; unfold disksize; rewrite ?E5; done.
Qed.

(** The state [k] of a thread that came from [k0] with the writes [ws]. *)
Definition blkf (k0 : kst) (ws : list (Z * block)) (k : kst) (L : Z -> block)
    (G U : list Z) (Hd : list (nat * Z)) : Prop :=
  dframe ws k0 k /\ blk k L G U Hd.

Lemma blkf_start k L G U Hd : blk k L G U Hd -> blkf k [] k L G U Hd.
Proof. split; [apply dframe_refl|done]. Qed.

Section wp_blk.
Context (k0 : kst) (ws : list (Z * block)) (k : kst) (L : Z -> block).
Context (G U : list Z) (Hd : list (nat * Z)).
Context (H : blkf k0 ws k L G U Hd).

Lemma wp_bread bno (Q : nat -> kst -> Prop) :
  0 <= bno < disksize k0 -> bno ∉ Hd.*2 ->
  bno ∈ G \/ (length G + length Hd < NBUF)%nat ->
  (forall i k', blkf k0 ws k' L G U ((i, bno) :: Hd) -> Q i k') ->
  wp (bread ROOTDEV bno) Q k.
Proof.
  destruct H as [Hf Hb]. intros Hr Hn Hroom HQ. rewrite <- (dframe_disksize _ _ _ Hf) in Hr.
  destruct (blk_bread _ _ _ _ _ _ Hb Hr Hn Hroom) as (i & k' & E & Hb' & Hf').
  unfold wp. rewrite E. apply HQ. split; [by eapply dframe_bframe|done].
Qed.

Lemma wp_bdata i bno (Q : block -> kst -> Prop) :
  (i, bno) ∈ Hd -> Q (L bno) k -> wp (bdata i) Q k.
Proof. destruct H as [Hf Hb]. intros Hin HQ. unfold wp. by rewrite (blk_bdata _ _ _ _ _ _ _ Hb Hin). Qed.

Lemma wp_set_bdata i bno d (Q : unit -> kst -> Prop) :
  (i, bno) ∈ Hd -> length d = Z.to_nat BSIZE ->
  (forall k', blkf k0 ws k' (bupd L bno d) G (bno :: U) Hd -> Q tt k') ->
  wp (set_bdata i d) Q k.
Proof.
  destruct H as [Hf Hb]. intros Hin Hl HQ.
  destruct (blk_set_bdata _ _ _ _ _ _ _ _ Hb Hin Hl) as (k' & E & Hb' & Hf').
  unfold wp. rewrite E. apply HQ. split; [by eapply dframe_bframe|done].
Qed.

Lemma wp_bwrite i bno G' U' (Q : unit -> kst -> Prop) :
  (i, bno) ∈ Hd -> (forall x, x ∈ G' <-> x <> bno /\ x ∈ G) ->
  (forall x, x <> bno -> x ∈ U' <-> x ∈ U) ->
  (forall k', blkf k0 (ws ++ [(bno, L bno)]) k' L G' U' Hd -> Q tt k') ->
  wp (bwrite i) Q k.
Proof.
  destruct H as [Hf Hb]. intros Hin HG HU HQ.
  destruct (blk_bwrite _ _ _ _ _ _ _ _ _ Hb Hin HG HU) as (k' & E & Hb' & Hf').
  unfold wp. rewrite E. apply HQ. split; [by eapply dframe_wrote|done].
Qed.

Lemma wp_pin i bno G' U' (Q : unit -> kst -> Prop) :
  (i, bno) ∈ Hd -> (forall x, x ∈ G' <-> x = bno \/ x ∈ G) ->
  (forall x, x <> bno -> x ∈ U' <-> x ∈ U) ->
  (forall k', blkf k0 ws k' L G' U' Hd -> Q tt k') ->
  wp (upd_buf i (fun x => set_b_flags (Z.lor (b_flags x) B_DIRTY) x)) Q k.
Proof.
  destruct H as [Hf Hb]. intros Hin HG HU HQ.
  destruct (blk_pin _ _ _ _ _ _ _ _ _ Hb Hin HG HU) as (k' & E & Hb' & Hf').
  unfold wp. rewrite E. apply HQ. split; [by eapply dframe_bframe|done].
Qed.

Lemma wp_brelse i bno Hd' (Q : unit -> kst -> Prop) :
  Hd ≡ₚ (i, bno) :: Hd' -> bno ∉ U ->
  (forall k', blkf k0 ws k' L G U Hd' -> Q tt k') ->
  wp (brelse i) Q k.
Proof.
  destruct H as [Hf Hb]. intros Hp HU HQ.
  destruct (blk_brelse k L G U Hd' i bno) as (k' & E & Hb' & Hf'); [by eapply blk_perm|done|].
  unfold wp. rewrite E. apply HQ. split; [by eapply dframe_bframe|done].
Qed.
End wp_blk.
