(* ===== verification/Crash.v ===== *)
(** Crash safety of the log ([src/log.c]).

    [recovered s D] is what a disk [D] with a log at block [s] stands for: the
    blocks that the on-disk header names, replaced by their logged copies.  The
    theorems relate the sequence of disk writes that [commit] and
    [recover_from_log] issue to it, for a crash after any of these writes. *)
From Stdlib Require Import ZArith Lia.
From stdpp Require Import base gmap sets strings numbers list.
From S2P Require Import Prelude State Spinlock Sched Bio Log Blk.

Local Open Scope Z_scope.

(** ** The writes of the two copy loops *)
Fixpoint log_writes (s i : Z) (L : Z -> block) (hs : list Z) : list (Z * block) :=
  match hs with
  | [] => []
  | h :: hs' => (s + i + 1, L (u32 h)) :: log_writes s (i + 1) L hs'
  end.
Fixpoint inst_writes (s i : Z) (L : Z -> block) (hs : list Z) : list (Z * block) :=
  match hs with
  | [] => []
  | h :: hs' => (u32 h, L (s + i + 1)) :: inst_writes s (i + 1) L hs'
  end.

(** The logical disk after a sequence of writes. *)
Definition lupd (L : Z -> block) (ws : list (Z * block)) : Z -> block :=
  foldl (fun L w => bupd L w.1 w.2) L ws.

Lemma lupd_app L ws ws' : lupd L (ws ++ ws') = lupd (lupd L ws) ws'.
Proof. apply foldl_app. Qed.

Lemma lupd_other L ws x : x ∉ ws.*1 -> lupd L ws x = L x.
Proof.
  revert L. induction ws as [|w ws IH]; intros L Hx; [done|]. simpl in *.
  apply not_elem_of_cons in Hx as [Hx1 Hx2]. rewrite IH by done. by apply bupd_ne.
Qed.

Lemma log_writes_ext s i L L' hs :
  (forall h, h ∈ hs -> L (u32 h) = L' (u32 h)) -> log_writes s i L hs = log_writes s i L' hs.
Proof.
  revert i. induction hs as [|h hs IH]; intros i E; [done|]. simpl.
  rewrite E by left. f_equal. apply IH. intros. apply E. by right.
Qed.

Lemma inst_writes_ext s i L L' hs :
  (forall x, s + i < x <= s + i + Z.of_nat (length hs) -> L x = L' x) ->
  inst_writes s i L hs = inst_writes s i L' hs.
Proof.
  revert i. induction hs as [|h hs IH]; intros i E; [done|]. cbn [inst_writes length] in *.
  rewrite E by lia. f_equal. apply IH. intros. apply E. lia.
Qed.

Lemma log_writes_dom s i L hs x :
  x ∈ (log_writes s i L hs).*1 -> s + i < x <= s + i + Z.of_nat (length hs).
Proof.
  revert i. induction hs as [|h hs IH]; intros i; simpl; [by intros ?%elem_of_nil|].
  intros [->|Hx]%elem_of_cons; [lia|]. apply IH in Hx. lia.
Qed.

Lemma inst_writes_dom s i L hs : (inst_writes s i L hs).*1 = u32 <$> hs.
Proof. revert i. induction hs as [|h hs IH]; intros i; [done|]. simpl. by rewrite IH. Qed.

Lemma length_log_writes s i L hs : length (log_writes s i L hs) = length hs.
Proof. revert i. induction hs as [|h hs IH]; intros i; [done|]. simpl. by rewrite IH. Qed.

(** ** The loops *)
Definition log_at (s : Z) (lh : logheader) (k : kst) : Prop :=
  log_dev (k_log k) = ROOTDEV /\ log_start (k_log k) = s /\ log_lh (k_log k) = lh.

Lemma wp_lh_block_at lh pre h rest (Q : Z -> kst -> Prop) k :
  lh_block lh = pre ++ h :: rest -> Q h k -> wp (lh_block_at lh (Z.of_nat (length pre))) Q k.
Proof.
  intros E HQ. unfold lh_block_at. eapply wp_deref; [|exact HQ].
  rewrite (proj2 (Z.leb_le _ _)) by lia. rewrite Nat2Z.id, E.
  by rewrite list_lookup_middle.
Qed.

Ltac solve_notin := repeat (rewrite ?not_elem_of_cons; split); try lia; try apply not_elem_of_nil.

Section loops.
Context (k0 : kst) (s : Z) (lh : logheader).
Context (Hlog : log_at s lh k0) (Hs : 0 <= s).

Lemma log_at_blkf ws k L G U Hd : blkf k0 ws k L G U Hd -> log_at s lh k.
Proof. intros [Hf _]. unfold log_at. by rewrite (dframe_log _ _ _ Hf). Qed.

Lemma wp_write_log_loop G hs pre rest ws L k (Q : unit -> kst -> Prop) :
  blkf k0 ws k L G [] [] -> lh_block lh = pre ++ hs ++ rest ->
  Forall (fun h => 0 <= u32 h < disksize k0 /\ u32 h ∈ G) hs ->
  (forall g, g ∈ G -> ~ (s < g <= s + Z.of_nat (length pre) + Z.of_nat (length hs))) ->
  s + Z.of_nat (length pre) + Z.of_nat (length hs) < disksize k0 -> (length G < NBUF)%nat ->
  (forall k', blkf k0 (ws ++ log_writes s (Z.of_nat (length pre)) L hs) k'
     (lupd L (log_writes s (Z.of_nat (length pre)) L hs)) G [] [] -> Q tt k') ->
  wp (write_log_loop (length hs) (Z.of_nat (length pre))) Q k.
Proof.
  revert pre ws L k. induction hs as [|h hs IH]; intros pre ws L k Hk Hlh Hhs HG Hds Hroom HQ.
  { apply HQ. by rewrite app_nil_r. }
  apply Forall_cons in Hhs as [[Hh1 Hh2] Hhs]. cbn [write_log_loop length] in *.
  destruct (log_at_blkf _ _ _ _ _ _ Hk) as (E1 & E2 & E3).
  wp_steps. rewrite E1, E2, E3. set (t := Z.of_nat (length pre)) in *.
  assert (HtG : s + t + 1 ∉ G) by (intros Hg; apply (HG _ Hg); lia).
  assert (Hne : u32 h <> s + t + 1) by congruence.
  eapply wp_bread; [exact Hk|lia|apply not_elem_of_nil|right; simpl; lia|].
  intros to k1 Hk1. wp_steps. eapply wp_lh_block_at; [exact Hlh|]. wp_steps.
  eapply wp_bread; [exact Hk1|lia|simpl; by rewrite list_elem_of_singleton|by left|].
  intros frm k2 Hk2. wp_steps. eapply wp_bdata; [exact Hk2|left|]. wp_steps.
  eapply wp_set_bdata; [exact Hk2|right; left|by eapply blk_L_len; [apply Hk2|left]|].
  intros k3 Hk3. wp_steps.
  eapply (wp_bwrite _ _ _ _ _ _ _ Hk3 _ _ G []); [right; left| | |].
  { intros x. split; [|tauto]. intros Hx. split; [|done]. by intros ->. }
  { intros x Hx. rewrite elem_of_cons. tauto. }
  intros k4 Hk4. rewrite bupd_eq in Hk4. wp_steps.
  eapply wp_brelse; [exact Hk4|done|apply not_elem_of_nil|]. intros k5 Hk5. wp_steps.
  eapply wp_brelse; [exact Hk5|done|apply not_elem_of_nil|]. intros k6 Hk6.
  assert (Et : t + 1 = Z.of_nat (length (pre ++ [h]))) by (rewrite length_app; simpl; lia).
  rewrite Et. assert (Eext : log_writes s (t + 1) (bupd L (s + t + 1) (L (u32 h))) hs =
    log_writes s (t + 1) L hs).
  { apply log_writes_ext. intros h' Hh'. apply bupd_ne. intros E. apply HtG. rewrite <- E.
    by apply (proj1 (Forall_forall _ _) Hhs). }
  eapply (IH (pre ++ [h])); [exact Hk6|by rewrite <- app_assoc|done| |lia|done|].
  { intros g Hg. rewrite <- Et. specialize (HG g Hg). lia. }
  intros k' Hk'. apply HQ. rewrite <- Et, Eext, <- app_assoc in Hk'. exact Hk'.
Qed.

(** Room for the second buffer of [install_trans]: the home block is pinned in the
    cache, or there is a spare buffer. *)
Definition room (G hs : list Z) : Prop :=
  (Forall (fun h => u32 h ∈ G) hs /\ NoDup (u32 <$> hs) /\ (length G < NBUF)%nat) \/
  (S (length G) < NBUF)%nat.

Definition without (x : Z) (G : list Z) : list Z := filter (fun g => g <> x) G.

Lemma elem_of_without x G y : y ∈ without x G <-> y <> x /\ y ∈ G.
Proof. unfold without. by rewrite list_elem_of_filter. Qed.

Lemma length_without x G : (length (without x G) <= length G)%nat.
Proof. apply length_filter. Qed.

Lemma room_step G h hs : room G (h :: hs) -> room (without (u32 h) G) hs.
Proof.
  pose proof (length_without (u32 h) G). intros [(HG & Hnd & Hl)|Hl]; [left|right; lia].
  apply Forall_cons in HG as [_ HG]. simpl in Hnd. apply NoDup_cons in Hnd as [Hn Hnd].
  split_and!; [|done|lia]. rewrite Forall_forall in HG |- *. intros h' Hh'.
  apply elem_of_without. split; [|by apply HG]. intros E. apply Hn. rewrite <- E.
  by apply list_elem_of_fmap_2.
Qed.

Lemma wp_install_trans_loop G hs pre rest ws L k (Q : unit -> kst -> Prop) :
  blkf k0 ws k L G [] [] -> lh_block lh = pre ++ hs ++ rest ->
  Forall (fun h => 0 <= u32 h < disksize k0 /\
    ~ (s < u32 h <= s + Z.of_nat (length pre) + Z.of_nat (length hs))) hs ->
  room G hs -> s + Z.of_nat (length pre) + Z.of_nat (length hs) < disksize k0 ->
  (forall k', blkf k0 (ws ++ inst_writes s (Z.of_nat (length pre)) L hs) k'
     (lupd L (inst_writes s (Z.of_nat (length pre)) L hs))
     (foldl (fun G h => without (u32 h) G) G hs) [] [] -> Q tt k') ->
  wp (install_trans_loop (length hs) (Z.of_nat (length pre))) Q k.
Proof.
  revert G pre ws L k. induction hs as [|h hs IH]; intros G pre ws L k Hk Hlh Hhs Hroom Hds HQ.
  { apply HQ. by rewrite app_nil_r. }
  pose proof (room_step _ _ _ Hroom) as Hroom'. cbn [install_trans_loop length] in *.
  apply Forall_cons in Hhs as [[Hh1 Hh2] Hhs].
  destruct (log_at_blkf _ _ _ _ _ _ Hk) as (E1 & E2 & E3).
  wp_steps. rewrite E1, E2, E3. set (t := Z.of_nat (length pre)) in *.
  assert (Hne : u32 h <> s + t + 1) by lia.
  eapply wp_bread; [exact Hk|lia|apply not_elem_of_nil|right; destruct Hroom as [(_ & _ & ?)|?]; simpl; lia|].
  intros lbuf k1 Hk1. wp_steps. eapply wp_lh_block_at; [exact Hlh|]. wp_steps.
  eapply wp_bread; [exact Hk1|lia|simpl; by rewrite list_elem_of_singleton| |].
  { destruct Hroom as [(HG & _)|]; [left|right; simpl; lia]. by apply Forall_cons in HG as [? _]. }
  intros dbuf k2 Hk2. wp_steps. eapply wp_bdata; [exact Hk2|right; left|]. wp_steps.
  eapply wp_set_bdata; [exact Hk2|left|by eapply blk_L_len; [apply Hk2|right; left]|].
  intros k3 Hk3. wp_steps.
  eapply (wp_bwrite _ _ _ _ _ _ _ Hk3 _ _ (without (u32 h) G) []);
    [left|apply elem_of_without| |].
  { intros x Hx. rewrite elem_of_cons. tauto. }
  intros k4 Hk4. rewrite bupd_eq in Hk4. wp_steps.
  eapply wp_brelse; [exact Hk4|apply perm_swap|apply not_elem_of_nil|]. intros k5 Hk5. wp_steps.
  eapply wp_brelse; [exact Hk5|done|apply not_elem_of_nil|]. intros k6 Hk6.
  assert (Et : t + 1 = Z.of_nat (length (pre ++ [h]))) by (rewrite length_app; simpl; lia).
  rewrite Et. assert (Eext : inst_writes s (t + 1) (bupd L (u32 h) (L (s + t + 1))) hs =
    inst_writes s (t + 1) L hs).
  { apply inst_writes_ext. intros x Hx. apply bupd_ne. lia. }
  eapply (IH _ (pre ++ [h])); [exact Hk6|by rewrite <- app_assoc| |exact Hroom'|lia|].
  { eapply Forall_impl; [exact Hhs|]. intros h' Hh'. rewrite <- Et. cbn beta in Hh'. lia. }
  intros k' Hk'. apply HQ. rewrite <- Et, Eext, <- app_assoc in Hk'. exact Hk'.
Qed.
End loops.

(** ** Reading and writing the header *)
Lemma write_head_loop_eq lh hs pre rest d k :
  lh_block lh = pre ++ hs ++ rest ->
  write_head_loop (length hs) (Z.of_nat (length pre)) lh d k =
  Ok (put_entries (Z.of_nat (length pre)) hs d) k.
Proof.
  revert pre d. induction hs as [|h hs IH]; intros pre d E; [done|].
  cbn [write_head_loop length put_entries].
  rewrite (bind_ok _ _ _ h k).
  - replace (Z.of_nat (length pre) + 1) with (Z.of_nat (length (pre ++ [h])))
      by (rewrite length_app; simpl; lia).
    apply IH. by rewrite <- app_assoc.
  - unfold lh_block_at. rewrite (proj2 (Z.leb_le _ _)) by lia. rewrite Nat2Z.id, E.
    simpl. by rewrite list_lookup_middle.
Qed.

Lemma read_head_loop_eq n i d bl k :
  (i + n <= length bl)%nat ->
  read_head_loop n (Z.of_nat i) d bl k =
  Ok (take i bl ++ ((fun j => get_i32 d (hdr_off (Z.of_nat j))) <$> seq i n) ++ drop (i + n) bl) k.
Proof.
  revert i bl. induction n as [|n IH]; intros i bl Hl; cbn [read_head_loop seq fmap list_fmap].
  - rewrite Nat.add_0_r. simpl. by rewrite take_drop.
  - rewrite (proj2 (Z.leb_gt _ _)) by lia. rewrite Nat2Z.id.
    replace (Z.of_nat i + 1) with (Z.of_nat (S i)) by lia.
    rewrite IH by (rewrite length_insert; lia). f_equal.
    rewrite drop_insert_lt by lia. rewrite (take_S_r _ _ (get_i32 d (hdr_off (Z.of_nat i))))
      by (apply list_lookup_insert_eq; lia).
    rewrite take_insert_ge by lia. rewrite <- app_assoc. simpl.
    by replace (i + S n)%nat with (S (i + n)) by lia.
Qed.

Lemma blkf_set_log k0 l k ws L G U Hd :
  blkf k0 ws k L G U Hd -> blkf (set_k_log l k0) ws (set_k_log l k) L G U Hd.
Proof.
  intros [(B & P & -> & Hp) Hb]. split.
  - exists B, P. split; [by destruct k0|done].
  - by eapply blk_ext; [..|exact Hb].
Qed.
Section head.
Context (k0 : kst) (s : Z) (lh : logheader).
Context (Hlog : log_at s lh k0) (Hs : 0 <= s < disksize k0).

Lemma wp_write_head G hs rest ws L k (Q : unit -> kst -> Prop) :
  blkf k0 ws k L G [] [] -> lh_n lh = Z.of_nat (length hs) -> lh_block lh = hs ++ rest ->
  hdr_off (Z.of_nat (length hs)) <= BSIZE -> s ∉ G -> (length G < NBUF)%nat ->
  (forall k', blkf k0 (ws ++ [(s, hdr_encode hs (L s))]) k' (bupd L s (hdr_encode hs (L s)))
     G [] [] -> Q tt k') ->
  wp write_head Q k.
Proof.
  intros Hk Hn Hbl Hfit HsG Hroom HQ.
  destruct (log_at_blkf _ _ _ Hlog _ _ _ _ _ _ Hk) as (E1 & E2 & E3).
  unfold write_head. wp_steps. rewrite E1, E2, E3.
  eapply wp_bread; [exact Hk|lia|apply not_elem_of_nil|right; simpl; lia|].
  intros b k1 Hk1. wp_steps. eapply wp_bdata; [exact Hk1|left|]. wp_steps.
  assert (Hlen : length (L s) = Z.to_nat BSIZE) by (eapply blk_L_len; [apply Hk1|left]).
  assert (Hlen1 : length (put_u32 (L s) 0 (Z.of_nat (length hs))) = Z.to_nat BSIZE).
  { rewrite length_put_u32; [done|lia|]. unfold hdr_off, BSIZE in *. lia. }
  rewrite Hn, Nat2Z.id. unfold wp at 1.
  pose proof (write_head_loop_eq lh hs [] rest) as Eloop. cbn [length Z.of_nat] in Eloop.
  rewrite Eloop by done. wp_steps.
  eapply (wp_set_bdata _ _ _ _ _ _ _ Hk1 _ s); [left| |].
  { rewrite length_put_entries; [done|lia|]. rewrite Hlen1. unfold hdr_off, BSIZE in *. lia. }
  intros k2 Hk2. wp_steps.
  eapply (wp_bwrite _ _ _ _ _ _ _ Hk2 _ s G []); [left| | |].
  { intros x. split; [|tauto]. intros Hx. split; [|done]. by intros ->. }
  { intros x Hx. rewrite elem_of_cons. tauto. }
  intros k3 Hk3. rewrite bupd_eq in Hk3.
  eapply wp_brelse; [exact Hk3|done|apply not_elem_of_nil|]. exact HQ.
Qed.

End head.

(** ** What a disk stands for *)
Definition dblk (D : list block) (x : Z) : block := default [] (D !! Z.to_nat x).

(** The contents after recovery: install what the header names. *)
Definition recovered (s : Z) (f : Z -> block) : Z -> block :=
  lupd f (inst_writes s 0 f (hdr_entries (f s))).

(** Where the header of a disk of [size] blocks may point to. *)
Definition hdr_ok (s lsize dsize : Z) (f : Z -> block) : Prop :=
  0 <= s /\ s + lsize <= dsize /\ Z.of_nat (length (hdr_entries (f s))) < lsize /\
  Forall (fun h => 0 <= u32 h < dsize /\ ~ (s <= u32 h < s + lsize)) (hdr_entries (f s)).

(** The state in which [commit] runs: the blocks [u32 <$> hs] are modified in the
    cache, pinned there and named in the in-memory header; the on-disk log is
    empty.  [L] is what the file system sees. *)
Record txn (k : kst) (L : Z -> block) (s lsize : Z) (hs : list Z) (U : list Z)
    (Hd : list (nat * Z)) : Prop := mk_txn {
  tx_blk : blk k L (u32 <$> hs) U Hd;
  tx_dev : log_dev (k_log k) = ROOTDEV;
  tx_start : log_start (k_log k) = s;
  tx_lsize : log_size (k_log k) = lsize;
  tx_n : lh_n (log_lh (k_log k)) = Z.of_nat (length hs);
  tx_bl : exists rest, lh_block (log_lh (k_log k)) = hs ++ rest;
  tx_bllen : length (lh_block (log_lh (k_log k))) = Z.to_nat LOGSIZE;
  tx_int : Forall (fun h => i32 h = h) hs;
  tx_nd : NoDup (u32 <$> hs);
  tx_homes : Forall (fun h => 0 <= u32 h < disksize k /\ ~ (s <= u32 h < s + lsize)) hs;
  tx_len : Z.of_nat (length hs) < lsize;
  tx_max : lsize <= LOGSIZE;
  tx_s : 0 <= s;
  tx_area : s + lsize <= disksize k;
  tx_clean : hdr_n (L s) = O
}.

(** The disk writes of a commit, in order. *)
Definition commit_head (s : Z) (L : Z -> block) (hs : list Z) : block := hdr_encode hs (L s).
Definition commit_writes (s : Z) (L : Z -> block) (hs : list Z) : list (Z * block) :=
  log_writes s 0 L hs ++ [(s, commit_head s L hs)] ++
  ((fun h => (u32 h, L (u32 h))) <$> hs) ++ [(s, put_u32 (commit_head s L hs) 0 0)].

Lemma lupd_in L ws x d : NoDup ws.*1 -> (x, d) ∈ ws -> lupd L ws x = d.
Proof.
  revert L. induction ws as [|w ws IH]; intros L Hnd Hin; [by apply elem_of_nil in Hin|].
  simpl in Hnd. apply NoDup_cons in Hnd as [Hw Hnd].
  apply elem_of_cons in Hin as [<-|Hin]; simpl; [|by apply IH].
  change (lupd (bupd L x d) ws x = d). rewrite lupd_other by done. apply bupd_eq.
Qed.

Lemma log_writes_in s i L hs j h :
  hs !! j = Some h -> (s + i + Z.of_nat j + 1, L (u32 h)) ∈ log_writes s i L hs.
Proof.
  revert i j. induction hs as [|h' hs IH]; intros i j Hj; [done|]. simpl.
  destruct j as [|j].
  - injection Hj as ->. replace (s + i + Z.of_nat 0 + 1) with (s + i + 1) by lia. left.
  - right. replace (s + i + Z.of_nat (S j) + 1) with (s + (i + 1) + Z.of_nat j + 1) by lia.
    by apply IH.
Qed.

Lemma log_writes_NoDup s i L hs : NoDup (log_writes s i L hs).*1.
Proof.
  revert i. induction hs as [|h hs IH]; intros i; simpl; constructor; [|done].
  intros H%log_writes_dom. lia.
Qed.

(** The copies in the log area are the blocks' contents. *)
Lemma inst_of_log s i f L hs :
  (forall j h, hs !! j = Some h -> f (s + i + Z.of_nat j + 1) = L (u32 h)) ->
  inst_writes s i f hs = (fun h => (u32 h, L (u32 h))) <$> hs.
Proof.
  revert i. induction hs as [|h hs IH]; intros i E; [done|]. simpl. f_equal.
  - rewrite <- (E O h) by done. do 2 f_equal. lia.
  - apply IH. intros j h' Hj. rewrite <- (E (S j) h') by done. f_equal. lia.
Qed.

Lemma elem_of_without_all G hs x :
  x ∈ foldl (fun G h => without (u32 h) G) G hs <-> x ∉ u32 <$> hs /\ x ∈ G.
Proof.
  revert G. induction hs as [|h hs IH]; intros G; simpl.
  - split; [intros ?; split; [apply not_elem_of_nil|done]|tauto].
  - rewrite IH, elem_of_without, not_elem_of_cons. tauto.
Qed.

Lemma without_all_nil hs : foldl (fun G h => without (u32 h) G) (u32 <$> hs) hs = [].
Proof. apply elem_of_nil_inv. intros x. rewrite elem_of_without_all. tauto. Qed.

Section commit.
Context (k : kst) (L : Z -> block) (s lsize : Z) (hs : list Z).
Context (H : txn k L s lsize hs [] []).

(** The homes are not in the log area. *)
Lemma txn_home_area x : x ∈ u32 <$> hs -> 0 <= x < disksize k /\ ~ (s <= x < s + lsize).
Proof.
  intros (h & -> & Hh)%list_elem_of_fmap. by apply (proj1 (Forall_forall _ _) (tx_homes _ _ _ _ _ _ _ H)).
Qed.

Lemma log_writes_area x : x ∈ (log_writes s 0 L hs).*1 -> s < x < s + lsize.
Proof. intros Hx%log_writes_dom. pose proof (tx_len _ _ _ _ _ _ _ H). lia. Qed.

Definition logged : Z -> block := lupd L (log_writes s 0 L hs ++ [(s, commit_head s L hs)]).

Lemma logged_s : logged s = commit_head s L hs.
Proof. unfold logged. rewrite lupd_app. apply bupd_eq. Qed.

Lemma logged_copy j h : hs !! j = Some h -> logged (s + 0 + Z.of_nat j + 1) = L (u32 h).
Proof.
  intros Hj. unfold logged. rewrite lupd_app. simpl. rewrite bupd_ne by lia.
  apply lupd_in; [apply log_writes_NoDup|by apply log_writes_in].
Qed.

Lemma logged_other x : ~ (s <= x < s + lsize) -> logged x = L x.
Proof.
  intros Hx. pose proof (tx_len _ _ _ _ _ _ _ H).
  unfold logged. rewrite lupd_app. simpl. rewrite bupd_ne by lia.
  apply lupd_other. intros Hin%log_writes_area. lia.
Qed.

Lemma wp_commit :
  hs <> [] ->
  wp commit (fun _ k' =>
    blkf (set_k_log (set_lh 0 (lh_block (log_lh (k_log k))) (k_log k)) k) (commit_writes s L hs)
      k' (lupd L (commit_writes s L hs)) [] [] []) k.
Proof.
  intros Hne. destruct H as [Hb Hdev Hst Hsz Hn [rest Hbl] Hbll Hint Hnd Hho Hlen Hmax Hs Har Hcl].
  assert (Hlog : log_at s (log_lh (k_log k)) k) by done.
  assert (Hpos : lh_n (log_lh (k_log k)) >? 0 = true) by (destruct hs; [done|simpl in *; lia]).
  assert (HlG : (length (u32 <$> hs) < NBUF)%nat)
    by (rewrite length_fmap; unfold LOGSIZE, MAXOPBLOCKS, NBUF in *; lia).
  assert (HsG : s ∉ u32 <$> hs) by (intros []%txn_home_area; lia).
  assert (Hfit : hdr_off (Z.of_nat (length hs)) <= BSIZE)
    by (unfold hdr_off, LOGSIZE, MAXOPBLOCKS, BSIZE in *; lia).
  unfold commit, write_log, install_trans, lh_of. wp_steps. rewrite Hpos. wp_steps.
  rewrite Hn, Nat2Z.id.
  eapply (wp_write_log_loop k s _ Hlog Hs _ hs [] rest [] L); [by apply blkf_start|done|..].
  { rewrite Forall_forall in Hho |- *. intros h Hh. split; [by apply Hho|by apply list_elem_of_fmap_2]. }
  { intros g []%txn_home_area. simpl. lia. }
  { simpl. lia. }
  { done. }
  intros k1 Hk1. wp_steps.
  eapply (wp_write_head k s _ Hlog ltac:(lia) _ hs rest); [exact Hk1|done|done|done|done|done|].
  simpl. rewrite (lupd_other _ _ s) by (intros Hx%log_writes_area; lia). intros k2 Hk2. wp_steps.
  destruct Hk2 as [Hf2 Hb2]. rewrite (dframe_log _ _ _ Hf2), Hn, Nat2Z.id.
  change (bupd _ _ _) with (lupd (lupd L (log_writes s 0 L hs)) [(s, commit_head s L hs)]) in Hb2.
  rewrite <- lupd_app in Hb2. fold logged in Hb2.
  eapply (wp_install_trans_loop k s _ Hlog Hs _ hs [] rest); [split; [exact Hf2|exact Hb2]|done|..].
  { eapply Forall_impl; [exact Hho|]. simpl. lia. }
  { left. split_and!; [|done|done]. apply Forall_forall. intros h Hh. by apply list_elem_of_fmap_2. }
  { simpl. lia. }
  intros k3 Hk3. rewrite without_all_nil in Hk3. cbn [length Z.of_nat] in Hk3.
  rewrite (inst_of_log _ _ _ L) in Hk3 by apply logged_copy.
  unfold upd_log. wp_steps. rewrite (dframe_log _ _ _ (proj1 Hk3)).
  set (l' := set_lh 0 _ _). apply (blkf_set_log k l') in Hk3.
  eapply (wp_write_head (set_k_log l' k) s (log_lh l') ltac:(done) ltac:(change (0 <= s < disksize k); lia) [] []);
    [exact Hk3|done|done|done|apply not_elem_of_nil|simpl; unfold NBUF; lia|].
  rewrite (lupd_other logged _ s), logged_s by (rewrite <- list_fmap_compose; exact HsG).
  change (bupd ?f s ?d) with (lupd f [(s, d)]). unfold logged. rewrite <- !lupd_app.
  unfold commit_writes. rewrite <- !app_assoc. done.
Qed.
End commit.

(** The last write to a block decides; without one the block is unchanged. *)
Lemma lupd_ext f g ws x : f x = g x \/ x ∈ ws.*1 -> lupd f ws x = lupd g ws x.
Proof.
  revert f g. induction ws as [|w ws IH]; intros f g Hx.
  - destruct Hx as [Hx|Hx]; [done|by apply elem_of_nil in Hx].
  - simpl. apply IH. unfold bupd. case_decide; [by left|].
    destruct Hx as [Hx|Hx]; [by left|]. simpl in Hx. apply elem_of_cons in Hx as [|]; [done|by right].
Qed.

Lemma dblk_apply ws D x :
  Forall (fun w => 0 <= w.1) ws -> 0 <= x < Z.of_nat (length D) ->
  dblk (apply_writes ws D) x = lupd (dblk D) ws x.
Proof.
  revert D. induction ws as [|w ws IH]; intros D Hw Hx; [done|].
  apply Forall_cons in Hw as [Hw0 Hw].
  change (dblk (apply_writes ws (<[Z.to_nat w.1 := w.2]> D)) x = lupd (bupd (dblk D) w.1 w.2) ws x).
  rewrite IH by (rewrite ?length_insert; done).
  apply lupd_ext. left. unfold bupd, dblk. case_decide; subst.
  - by rewrite list_lookup_insert_eq by lia.
  - by rewrite list_lookup_insert_ne by lia.
Qed.

(** ** A crash after [j] of the writes of a commit *)
Lemma fmap_ints hs : Forall (fun h => i32 h = h) hs -> i32 <$> hs = hs.
Proof. induction 1 as [|h hs Hh _ IH]; [done|]. by rewrite fmap_cons, Hh, IH. Qed.

Section crash.
Context (L f : Z -> block) (s lsize dsize : Z) (hs : list Z).
Context (Hf : forall x, 0 <= x < dsize -> x ∉ u32 <$> hs -> f x = L x).
Context (Hhome : forall x, x ∈ u32 <$> hs -> 0 <= x < dsize /\ ~ (s <= x < s + lsize)).
Context (Hint : Forall (fun h => i32 h = h) hs) (Hnd : NoDup (u32 <$> hs)).
Context (Hlen : Z.of_nat (length hs) < lsize <= LOGSIZE).
Context (Hs : 0 <= s) (Har : s + lsize <= dsize).
Context (Hcl : hdr_n (L s) = O) (Hbs : length (L s) = Z.to_nat BSIZE).

Lemma crash_s_home : s ∉ u32 <$> hs.
Proof. intros []%Hhome. lia. Qed.

Lemma crash_lw_area p x : p ⊆ log_writes s 0 L hs -> x ∈ p.*1 -> s < x < s + lsize.
Proof.
  intros Hp (w & -> & Hw)%list_elem_of_fmap. apply Hp in Hw.
  assert (w.1 ∈ (log_writes s 0 L hs).*1) as Hx%log_writes_dom by (by apply list_elem_of_fmap_2). lia.
Qed.

Lemma hdr_clean g : hdr_n (g s) = O -> recovered s g = g /\ hdr_entries (g s) = [].
Proof.
  intros E. assert (Eh : hdr_entries (g s) = []) by (unfold hdr_entries; by rewrite E).
  split; [|done]. unfold recovered. by rewrite Eh.
Qed.

(** Before the header is written, nothing has happened. *)
Lemma crash_before p :
  p ⊆ log_writes s 0 L hs ->
  hdr_ok s lsize dsize (lupd f p) /\
  forall x, ~ (s <= x < s + lsize) -> recovered s (lupd f p) x = f x.
Proof.
  intros Hp. assert (Es : lupd f p s = L s).
  { rewrite lupd_other by (intros Hx%(crash_lw_area p); [lia|done]).
    apply Hf; [lia|apply crash_s_home]. }
  destruct (hdr_clean (lupd f p)) as [Er Ee]; [by rewrite Es|]. split.
  - unfold hdr_ok. rewrite Ee. split_and!; [lia|lia|simpl; lia|constructor].
  - intros x Hx. rewrite Er. apply lupd_other. intros Hin%(crash_lw_area p); [lia|done].
Qed.

(** After the final header write, everything has happened. *)
Lemma commit_head_decode : hdr_entries (commit_head s L hs) = hs.
Proof.
  unfold commit_head. rewrite hdr_decode_encode.
  - by apply fmap_ints.
  - rewrite Hbs. unfold hdr_off, BSIZE, LOGSIZE, MAXOPBLOCKS in *. lia.
  - unfold LOGSIZE, MAXOPBLOCKS in *. lia.
Qed.

Definition home_writes : list (Z * block) := (fun h => (u32 h, L (u32 h))) <$> hs.

Lemma home_writes_dom : home_writes.*1 = u32 <$> hs.
Proof. unfold home_writes. by rewrite <- list_fmap_compose. Qed.

(** From the header write until the log is cleared, recovery completes it. *)
Lemma crash_during p :
  p ⊆ home_writes ->
  let g := lupd (lupd f (log_writes s 0 L hs ++ [(s, commit_head s L hs)])) p in
  hdr_ok s lsize dsize g /\
  forall x, 0 <= x < dsize -> ~ (s <= x < s + lsize) -> recovered s g x = L x.
Proof.
  intros Hp. set (f1 := lupd f _). intros g.
  assert (Hpd : forall x, x ∈ p.*1 -> x ∈ u32 <$> hs).
  { intros x (w & -> & Hw)%list_elem_of_fmap. rewrite <- home_writes_dom.
    apply list_elem_of_fmap_2. by apply Hp. }
  assert (Earea : forall x, s <= x < s + lsize -> g x = f1 x).
  { intros x Hx. apply lupd_other. intros []%Hpd%Hhome. lia. }
  assert (Es : g s = commit_head s L hs).
  { rewrite Earea by lia. unfold f1. rewrite lupd_app. apply bupd_eq. }
  assert (Ecopy : forall j h, hs !! j = Some h -> g (s + 0 + Z.of_nat j + 1) = L (u32 h)).
  { intros j h Hj. pose proof (lookup_lt_Some _ _ _ Hj). rewrite Earea by lia.
    unfold f1. rewrite lupd_app. simpl. rewrite bupd_ne by lia.
    apply lupd_in; [apply log_writes_NoDup|by apply log_writes_in]. }
  split.
  - unfold hdr_ok. rewrite Es, commit_head_decode. split_and!; [lia..|].
    apply Forall_forall. intros h Hh. apply Hhome. by apply list_elem_of_fmap_2.
  - intros x Hx Hxa. unfold recovered. rewrite Es, commit_head_decode.
    rewrite (inst_of_log _ _ _ L) by exact Ecopy. fold home_writes.
    destruct (decide (x ∈ u32 <$> hs)) as [Hin|Hin].
    + apply list_elem_of_fmap in Hin as (h & -> & Hh).
      apply lupd_in; [by rewrite home_writes_dom|]. unfold home_writes.
      by apply (list_elem_of_fmap_2 (fun h => (u32 h, L (u32 h)))).
    + rewrite lupd_other by by rewrite home_writes_dom.
      unfold g. rewrite lupd_other by (intros ?%Hpd; done). unfold f1.
      rewrite lupd_app. simpl. rewrite bupd_ne by lia. rewrite lupd_other; [by apply Hf|].
      intros Hx'%log_writes_dom. lia.
Qed.
(** Once the log is cleared, the disk itself is up to date. *)
Lemma crash_after :
  let g := lupd f (commit_writes s L hs) in
  hdr_ok s lsize dsize g /\
  forall x, 0 <= x < dsize -> ~ (s <= x < s + lsize) -> recovered s g x = L x.
Proof.
  set (g0 := lupd (lupd f (log_writes s 0 L hs ++ [(s, commit_head s L hs)])) home_writes).
  assert (Hg0 : forall x, 0 <= x < dsize -> ~ (s <= x < s + lsize) -> g0 x = L x).
  { intros x Hx Hxa. unfold g0. destruct (decide (x ∈ u32 <$> hs)) as [Hin|Hin].
    - apply list_elem_of_fmap in Hin as (h & -> & Hh).
      apply lupd_in; [by rewrite home_writes_dom|]. unfold home_writes.
      by apply (list_elem_of_fmap_2 (fun h => (u32 h, L (u32 h)))).
    - rewrite lupd_other by by rewrite home_writes_dom.
      rewrite lupd_app. simpl. rewrite bupd_ne by lia. rewrite lupd_other; [by apply Hf|].
      intros Hx'%log_writes_dom. lia. }
  intros g. assert (Eg : g = bupd g0 s (put_u32 (commit_head s L hs) 0 0)).
  { unfold g, g0, commit_writes. rewrite !lupd_app. done. }
  assert (Hl : length (commit_head s L hs) = Z.to_nat BSIZE).
  { unfold commit_head, hdr_encode. rewrite length_put_entries; rewrite ?length_put_u32, ?Hbs;
      unfold hdr_off, BSIZE, LOGSIZE, MAXOPBLOCKS in *; lia. }
  destruct (hdr_clean g) as [Er Ee].
  { rewrite Eg, bupd_eq. unfold hdr_n, get_i32.
    rewrite get_put_u32; [done|lia|rewrite Hl; unfold BSIZE; lia]. }
  split.
  - unfold hdr_ok. rewrite Ee. split_and!; [lia|lia|simpl; lia|constructor].
  - intros x Hx Hxa. rewrite Er, Eg, bupd_ne by lia. by apply Hg0.
Qed.
End crash.

(** ** Recovery *)
Definition recover_writes (s : Z) (f : Z -> block) : list (Z * block) :=
  inst_writes s 0 f (hdr_entries (f s)) ++ [(s, put_u32 (f s) 0 0)].

Definition booted (k : kst) (f : Z -> block) (s lsize : Z) : Prop :=
  blk k f [] [] [] /\ log_dev (k_log k) = ROOTDEV /\ log_start (k_log k) = s /\
  log_size (k_log k) = lsize /\
  length (lh_block (log_lh (k_log k))) = Z.to_nat LOGSIZE /\ lsize <= LOGSIZE.

Lemma wp_read_head k f s lsize (Q : unit -> kst -> Prop) :
  booted k f s lsize -> hdr_ok s lsize (disksize k) f ->
  (forall k' rest,
     let l' := set_lh (get_i32 (f s) 0) (hdr_entries (f s) ++ rest) (k_log k) in
     length (hdr_entries (f s) ++ rest) = Z.to_nat LOGSIZE ->
     blkf (set_k_log l' k) [] k' f [] [] [] -> Q tt k') ->
  wp read_head Q k.
Proof.
  intros (Hb & Hdev & Hst & Hsz & Hbl & Hmax) (Hs & Har & Hn & _) HQ.
  unfold hdr_entries in Hn. rewrite length_fmap, length_seq in Hn.
  unfold read_head, lh_of. wp_steps. rewrite Hdev, Hst.
  eapply wp_bread; [by apply blkf_start|lia|apply not_elem_of_nil|right; simpl; unfold NBUF; lia|].
  intros b k1 Hk1. wp_steps. eapply wp_bdata; [exact Hk1|left|]. wp_steps.
  rewrite (dframe_log _ _ _ (proj1 Hk1)). unfold wp at 1.
  pose proof (read_head_loop_eq (hdr_n (f s)) 0 (f s) (lh_block (log_lh (k_log k))) k1) as E.
  change (Z.of_nat 0) with 0 in E. fold (hdr_n (f s)). rewrite E by (unfold LOGSIZE, MAXOPBLOCKS in *; lia).
  cbn [take app]. fold (hdr_entries (f s)). unfold upd_log. wp_steps.
  rewrite (dframe_log _ _ _ (proj1 Hk1)). set (l' := set_lh _ _ _).
  eapply wp_brelse; [by apply blkf_set_log, Hk1|done|apply not_elem_of_nil|].
  intros k2 Hk2. eapply HQ; [|exact Hk2]. unfold hdr_entries.
  rewrite length_app, length_fmap, length_seq, length_drop. unfold LOGSIZE, MAXOPBLOCKS in *. lia.
Qed.

Lemma wp_recover k f s lsize :
  booted k f s lsize -> hdr_ok s lsize (disksize k) f ->
  wp recover_from_log (fun _ k' => exists l', blkf (set_k_log l' k) (recover_writes s f) k'
       (lupd f (recover_writes s f)) [] [] [] /\ lh_n (log_lh l') = 0 /\
       log_dev l' = ROOTDEV /\ log_start l' = s /\ log_size l' = lsize /\
       length (lh_block (log_lh l')) = Z.to_nat LOGSIZE) k.
Proof.
  intros Hbt Hok. pose proof Hbt as (Hb & Hdev & Hst & Hsz & Hbl & Hmax).
  pose proof Hok as (Hs & Har & Hn & Hho).
  unfold recover_from_log. wp_steps. eapply wp_read_head; [done..|].
  intros k1 rest l1 Hlen1 Hk1. wp_steps. unfold install_trans, lh_of. wp_steps.
  rewrite (dframe_log _ _ _ (proj1 Hk1)). cbn [k_log set_k_log].
  assert (Hlog : log_at s (log_lh l1) (set_k_log l1 k)) by (split_and!; done).
  change (lh_n (log_lh l1)) with (get_i32 (f s) 0). fold (hdr_n (f s)).
  assert (En : hdr_n (f s) = length (hdr_entries (f s)))
    by (unfold hdr_entries; by rewrite length_fmap, length_seq).
  rewrite En.
  eapply (wp_install_trans_loop _ s _ Hlog Hs _ (hdr_entries (f s)) [] rest); [exact Hk1|done|..].
  { eapply Forall_impl; [exact Hho|]. cbn beta. change (disksize (set_k_log l1 k)) with (disksize k).
    simpl. lia. }
  { right. simpl. unfold NBUF. lia. }
  { change (disksize (set_k_log l1 k)) with (disksize k). simpl. lia. }
  intros k2 Hk2. unfold upd_log. wp_steps. rewrite (dframe_log _ _ _ (proj1 Hk2)).
  cbn [k_log set_k_log length Z.of_nat] in *. set (l2 := set_lh 0 _ _).
  assert (EG : foldl (fun G h => without (u32 h) G) [] (hdr_entries (f s)) = []).
  { apply elem_of_nil_inv. intros x. rewrite elem_of_without_all. intros [_ []%elem_of_nil]. }
  rewrite EG in Hk2. apply (blkf_set_log _ l2) in Hk2.
  change (set_k_log l2 (set_k_log l1 k)) with (set_k_log l2 k) in Hk2.
  eapply (wp_write_head (set_k_log l2 k) s (log_lh l2) ltac:(split_and!; done)
    ltac:(change (0 <= s < disksize k); lia) [] []);
    [exact Hk2|done|done|done|apply not_elem_of_nil|simpl; unfold NBUF; lia|].
  intros k3 Hk3. exists l2. split; [|split_and!; done].
  unfold recover_writes. rewrite lupd_app. rewrite (lupd_other f _ s) in Hk3; [exact Hk3|].
  rewrite inst_writes_dom. intros (h & E & Hh)%list_elem_of_fmap.
  pose proof (proj1 (Forall_forall _ _) Hho h Hh). cbn beta in *. lia.
Qed.

(** ** [log_write] *)
Lemma log_absorb_app n i bno hs rest :
  n = length hs ->
  (Forall (fun h => u32 h <> bno) hs /\ log_absorb n i (hs ++ rest) bno = i + Z.of_nat n) \/
  (exists j h, hs !! j = Some h /\ u32 h = bno /\
     log_absorb n i (hs ++ rest) bno = i + Z.of_nat j).
Proof.
  intros ->. revert i. induction hs as [|h hs IH]; intros i.
  - left. split; [constructor|]. simpl. lia.
  - cbn [log_absorb length app]. destruct (Z.eqb_spec (u32 h) bno) as [E|E].
    + right. exists O, h. split_and!; [done..|]. lia.
    + destruct (IH (i + 1)) as [[Hn ->]|(j & h' & Hj & Hh & ->)].
      * left. split; [by constructor|lia].
      * right. exists (S j), h'. split_and!; [done..|lia].
Qed.

(** The header after [log_write]: the block is entered once. *)
Lemma log_write_header bl hs bno lsize :
  (exists rest, bl = hs ++ rest) -> Forall (fun h => i32 h = h) hs -> NoDup (u32 <$> hs) ->
  (length hs < length bl)%nat -> 0 <= bno < 2 ^ 31 -> Z.of_nat (length hs) < lsize - 1 ->
  let n := Z.of_nat (length hs) in
  let i := log_absorb (length hs) 0 bl bno in
  exists hs', (exists rest, <[Z.to_nat i := i32 bno]> bl = hs' ++ rest) /\
    (if i =? n then n + 1 else n) = Z.of_nat (length hs') /\
    Forall (fun h => i32 h = h) hs' /\ NoDup (u32 <$> hs') /\
    Z.of_nat (length hs') < lsize /\ (length hs' <= S (length hs))%nat /\
    (forall x, x ∈ u32 <$> hs' <-> x = bno \/ x ∈ u32 <$> hs).
Proof.
  intros [rest ->] Hint Hnd Hlen Hb Hsz n i. subst n i.
  destruct (log_absorb_app (length hs) 0 bno hs rest eq_refl) as [[Hn ->]|(j & h & Hj & Hh & ->)].
  - destruct rest as [|r rest]; [rewrite app_nil_r in Hlen; lia|].
    exists (hs ++ [bno]). rewrite i32_small by lia. replace (Z.to_nat _) with (length hs) by lia.
    rewrite Z.add_0_l, Z.eqb_refl, length_app, fmap_app. simpl.
    assert (Hu : u32 bno = bno) by (apply u32_small; lia). rewrite Hu.
    split_and!; try lia.
    + exists rest. rewrite insert_app_r_alt, Nat.sub_diag by lia. by rewrite <- app_assoc.
    + apply Forall_app. split; [done|]. constructor; [apply i32_small; lia|constructor].
    + apply NoDup_app. split_and!; [done| |apply NoDup_singleton].
      intros x (h & -> & Hh)%list_elem_of_fmap E%list_elem_of_singleton.
      by apply (proj1 (Forall_forall _ _) Hn h).
    + intros x. rewrite elem_of_app, list_elem_of_singleton. tauto.
  - exists hs. pose proof (lookup_lt_Some _ _ _ Hj). rewrite Z.add_0_l, Nat2Z.id.
    replace (Z.of_nat j =? Z.of_nat (length hs)) with false by lia.
    assert (E : i32 bno = h).
    { rewrite <- Hh. transitivity (i32 h); [unfold i32, u32; by rewrite Zplus_mod_idemp_l|].
      by apply (proj1 (Forall_lookup _ _) Hint j h). }
    split_and!; try done; try lia.
    + exists rest. rewrite insert_app_l by done. by rewrite E, list_insert_id.
    + intros x. split; [by right|]. intros [->|]; [|done]. rewrite <- Hh.
      apply list_elem_of_fmap_2. by eapply list_elem_of_lookup_2.
Qed.

Lemma wp_log_write k L s lsize hs U Hd i bno :
  txn k L s lsize hs U Hd -> (i, bno) ∈ Hd -> 1 <= log_outstanding (k_log k) ->
  ~ (s <= bno < s + lsize) -> bno < 2 ^ 31 -> Z.of_nat (length hs) < lsize - 1 ->
  wp (log_write i) (fun _ k' => exists hs' l', k_log k' = l' /\
    bframe (set_k_log l' k) k' /\ log_outstanding l' = log_outstanding (k_log k) /\
    log_committing l' = log_committing (k_log k) /\
    txn k' L s lsize hs' (without bno U) Hd /\ (length hs' <= S (length hs))%nat /\
    (forall x, x ∈ u32 <$> hs' <-> x = bno \/ x ∈ u32 <$> hs)) k.
Proof.
  intros [Hb Hdev Hst Hsz Hn Hbl Hbll Hint Hnd Hho Hlen Hmax Hs Har Hcl] Hin Hout Hna Hb31 Hroom.
  destruct (blk_held _ _ _ _ _ _ _ Hb Hin) as (b & _ & Hbi & _ & _ & _ & _ & _ & Hbn & Hrange & _).
  destruct (log_write_header (lh_block (log_lh (k_log k))) hs bno lsize)
    as (hs' & Hbl' & En & Hint' & Hnd' & Hlen' & Hle & Hdom); [done|done|done| |lia|done|].
  { rewrite Hbll. unfold LOGSIZE, MAXOPBLOCKS in *. lia. }
  set (l' := set_lh (Z.of_nat (length hs'))
    (<[Z.to_nat (log_absorb (length hs) 0 (lh_block (log_lh (k_log k))) bno) := i32 bno]>
       (lh_block (log_lh (k_log k)))) (k_log k)).
  assert (Hb' : blk (set_k_log l' k) L (u32 <$> hs) U Hd) by (by eapply blk_ext; [..|exact Hb]).
  destruct (blk_pin _ _ _ (u32 <$> hs') U (without bno U) _ _ _ Hb' Hin Hdom)
    as (k' & Ek' & Hbk' & Hfk'); [intros x Hx; rewrite elem_of_without; tauto|].
  unfold wp, log_write, gets. unfold mbind at 1, M_bind at 1. rewrite Hn, Hsz.
  replace ((Z.of_nat (length hs) >=? LOGSIZE) || (Z.of_nat (length hs) >=? lsize - 1)) with false
    by (symmetry; apply orb_false_iff; lia).
  replace (log_outstanding (k_log k) <? 1) with false by lia.
  assert (Hnh : L_log ∉ held (k_cpu k)) by (rewrite (blk_free _ _ _ _ _ Hb); apply not_elem_of_nil).
  erewrite bind_ok; [|by apply acquire_eq].
  unfold buf_at, gets. unfold mbind at 1, M_bind at 1. simpl k_bufs. rewrite Hbi, Hbn, Nat2Z.id, En.
  unfold upd_log, modify. unfold mbind at 1, M_bind at 1. simpl k_log. fold l'.
  injection Ek' as <-. unfold upd_buf, upd_bufs, modify. unfold mbind at 1, M_bind at 1.
  rewrite (release_eq L_log (k_cpu k)) by (try done; apply Hb).
  exists hs', l'. split_and!; try done.
  constructor; try done.
  - simpl. by rewrite length_insert.
  - apply Forall_forall. intros h Hh. change (disksize _) with (disksize k).
    destruct (proj1 (Hdom (u32 h)) ltac:(by apply list_elem_of_fmap_2))
      as [->|(h' & -> & Hh')%list_elem_of_fmap]; [done|]. by apply (proj1 (Forall_forall _ _) Hho).
Qed.

(** ** A concrete kernel *)

(** After [binit], with process 0 running and the log's place known. *)
Definition boot (D : list block) (s lsize outstanding : Z) : kst :=
  set_k_bufs (binit_bufs (replicate (S NBUF) zero_buf)) (set_k_disk D
    (set_k_log (mk_logst s lsize outstanding false ROOTDEV
       (mk_logheader 0 (replicate (Z.to_nat LOGSIZE) 0)))
      (set_k_proc (Some O) kst_zero))).

Definition fresh_buf (b : buf) : bool :=
  (b_flags b =? 0) && (b_dev b =? 0) && (b_refcnt b =? 0) && negb (sl_locked (b_lock b)) &&
  bool_decide (length (b_data b) = Z.to_nat BSIZE).

Lemma binit_fresh i : (i < NBUF)%nat ->
  fresh_buf (binit_bufs (replicate (S NBUF) zero_buf) !!! i) = true.
Proof.
  intros Hi. assert (E : forallb (fun i => fresh_buf (binit_bufs (replicate (S NBUF) zero_buf) !!! i))
    (seq 0 NBUF) = true) by (vm_compute; reflexivity).
  apply (proj1 (forallb_forall _ _) E). apply list_elem_of_In, elem_of_seq. lia.
Qed.

Lemma fresh_blk k :
  cpu_ok (k_cpu k) -> held (k_cpu k) = [] -> (exists pid, cur_pid k pid) ->
  length (k_bufs k) = S NBUF -> (exists l, lru (k_bufs k) l) ->
  (forall i, (i < NBUF)%nat -> fresh_buf (k_bufs k !!! i) = true) ->
  Forall (fun d => length d = Z.to_nat BSIZE) (k_disk k) -> blk k (dblk (k_disk k)) [] [] [].
Proof.
  intros Hc Hh Hp Hl Hlru Hfr HD.
  assert (Hf : forall i, (i < NBUF)%nat -> let b := k_bufs k !!! i in
    b_flags b = 0 /\ b_dev b = 0 /\ b_refcnt b = 0 /\ sl_locked (b_lock b) = false /\
    length (b_data b) = Z.to_nat BSIZE).
  { intros i Hi b. pose proof (Hfr i Hi) as E. fold b in E.
    unfold fresh_buf in E. rewrite !andb_true_iff, !Z.eqb_eq, negb_true_iff, bool_decide_eq_true in E.
    tauto. }
  constructor; try assumption.
  - intros i Hi. destruct (Hf i Hi) as (F1 & F2 & F3 & F4 & F5).
    constructor; rewrite ?F1, ?F2, ?F3, ?F4; try done. by left.
  - intros i j Hi Hj F. by destruct (Hf i Hi) as (? & _).
  - intros ? ? []%elem_of_nil.
  - constructor.
  - intros ? []%elem_of_nil.
  - intros x Hx _ _. unfold dblk. destruct (k_disk k !! Z.to_nat x) eqn:E; [done|].
    apply lookup_ge_None in E. unfold disksize in Hx. lia.
  - intros ? []%elem_of_nil.
Qed.

Lemma boot_blk D s lsize o :
  Forall (fun d => length d = Z.to_nat BSIZE) D -> blk (boot D s lsize o) (dblk D) [] [] [].
Proof.
  intros HD. apply (fresh_blk (boot D s lsize o)).
  - unfold cpu_ok. cbn. repeat split; try lia; try done; constructor.
  - reflexivity.
  - exists 0, O, zero_proc. split_and!; reflexivity.
  - vm_compute. reflexivity.
  - exists (reverse (seq 0 NBUF)). apply binit_lru. reflexivity.
  - apply binit_fresh.
  - exact HD.
Qed.

Lemma boot_booted D s lsize o :
  Forall (fun d => length d = Z.to_nat BSIZE) D -> lsize <= LOGSIZE ->
  booted (boot D s lsize o) (dblk D) s lsize.
Proof. intros. split; [by apply boot_blk|]. split_and!; [reflexivity..|done]. Qed.

(** An empty transaction on a disk with an empty log. *)
Lemma boot_txn D s lsize o :
  Forall (fun d => length d = Z.to_nat BSIZE) D -> 0 < lsize <= LOGSIZE -> 0 <= s ->
  s + lsize <= Z.of_nat (length D) -> hdr_n (dblk D s) = O ->
  txn (boot D s lsize o) (dblk D) s lsize [] [] [].
Proof.
  intros HD Hl Hs Har Hh. constructor; try reflexivity; try assumption.
  - by apply boot_blk.
  - eexists. reflexivity.
  - constructor.
  - constructor.
  - constructor.
  - cbn. lia.
  - lia.
Qed.

Definition demo_disk : list block := replicate 64 (replicate (Z.to_nat BSIZE) 0).
Definition demo_data : block := replicate (Z.to_nat BSIZE) 7.

(** A transaction that has modified block 40. *)
Lemma demo_txn : exists k L, txn k L 2 30 [40] [] [] /\ L 40 = demo_data /\
  k_disk k = demo_disk /\ log_outstanding (k_log k) = 1 /\ log_committing (k_log k) = false.
Proof.
  assert (HD : Forall (fun d => length d = Z.to_nat BSIZE) demo_disk)
    by (apply Forall_replicate; done).
  pose proof (boot_blk demo_disk 2 30 1 HD) as Hb.
  destruct (blk_bread _ _ _ _ _ 40 Hb) as (i & k1 & _ & Hb1 & (B1 & P1 & -> & _)).
  { vm_compute. split; congruence. }
  { apply not_elem_of_nil. }
  { right. simpl. unfold NBUF. lia. }
  destruct (blk_set_bdata _ _ _ _ _ i 40 demo_data Hb1) as (k2 & _ & Hb2 & (B2 & P2 & -> & _)).
  { left. }
  { done. }
  set (k2 := set_k_bufs B2 _) in *.
  assert (Ht : txn k2 (bupd (dblk demo_disk) 40 demo_data) 2 30 [] [40] [(i, 40)]).
  { constructor; try done; try (vm_compute; congruence); try by constructor.
    eexists. reflexivity. }
  pose proof (wp_log_write _ _ _ _ _ _ _ i 40 Ht) as Hw.
  apply wp_ok in Hw as ([] & k3 & _ & hs & l' & El & (B3 & P3 & -> & _) & Ho & Hcm & Ht3 & Hle & Hd3);
    [|left|done|lia|lia|simpl; lia].
  assert (Ehs : hs = [40]).
  { destruct hs as [|h [|]]; simpl in Hle; [|..|lia].
    - pose proof (proj2 (Hd3 40) ltac:(by left)) as Hx. by apply elem_of_nil in Hx.
    - pose proof (tx_int _ _ _ _ _ _ _ Ht3) as [Eh _]%Forall_cons.
      pose proof (proj2 (Hd3 40) ltac:(by left)) as (h' & E & ->%list_elem_of_singleton)%list_elem_of_fmap.
      rewrite <- Eh. replace (i32 h) with (i32 (u32 h)); [by rewrite <- E|].
      unfold i32, u32. by rewrite Zplus_mod_idemp_l. }
  subst hs. destruct (blk_brelse _ _ _ _ [] i 40 (tx_blk _ _ _ _ _ _ _ Ht3)) as (k4 & _ & Hb4 & (B4 & P4 & -> & _)).
  { rewrite elem_of_without. tauto. }
  exists (set_k_bufs B4 (set_k_ptable P4 (set_k_bufs B3 (set_k_ptable P3 (set_k_log l' k2))))),
    (bupd (dblk demo_disk) 40 demo_data).
  split_and!; try done. destruct Ht3. constructor; done.
Qed.

(** ** Properties *)
Lemma recover_writes_nonneg s f lsize dsize :
  hdr_ok s lsize dsize f -> Forall (fun w => 0 <= w.1) (recover_writes s f).
Proof.
  intros (Hs & _ & _ & Hho). apply Forall_app. split; [|by repeat constructor].
  apply (Forall_fmap fst (fun x => 0 <= x)). rewrite inst_writes_dom. apply Forall_fmap. eapply Forall_impl; [exact Hho|]. simpl. lia.
Qed.

Lemma recover_disk k f s lsize :
  booted k f s lsize -> hdr_ok s lsize (disksize k) f ->
  (forall x, 0 <= x < disksize k -> f x = dblk (k_disk k) x) ->
  wp recover_from_log (fun _ kr => forall x, 0 <= x < disksize k -> x <> s ->
    dblk (k_disk kr) x = recovered s f x) k.
Proof.
  intros Hb Hok Hf. eapply wp_mono; [by eapply wp_recover|]. intros [] kr (l' & [Hd _] & _) x Hx Hxs.
  rewrite (dframe_disk _ _ _ Hd). rewrite dblk_apply by (done || by eapply recover_writes_nonneg).
  unfold recover_writes, recovered. rewrite lupd_app. simpl. rewrite bupd_ne by done.
  apply lupd_ext. left. symmetry. by apply Hf.
Qed.

Lemma commit_writes_nonneg L s lsize hs k :
  txn k L s lsize hs [] [] -> Forall (fun w => 0 <= w.1) (commit_writes s L hs).
Proof.
  intros H. pose proof (tx_s _ _ _ _ _ _ _ H) as Hs. unfold commit_writes.
  repeat (apply Forall_app; split); try by repeat constructor.
  - apply Forall_forall. intros w Hw.
    assert (w.1 ∈ (log_writes s 0 L hs).*1) as Hx%log_writes_dom by (by apply list_elem_of_fmap_2). lia.
  - apply Forall_fmap. eapply Forall_impl; [exact (tx_homes _ _ _ _ _ _ _ H)|]. simpl. lia.
Qed.

(** The first [j] writes of a commit: before or after its header write. *)
Lemma take_commit_writes j s L hs :
  take j (commit_writes s L hs) = take j (log_writes s 0 L hs) /\ (j <= length hs)%nat \/
  (exists i, take j (commit_writes s L hs) =
     (log_writes s 0 L hs ++ [(s, commit_head s L hs)]) ++ take i (home_writes L hs)) /\
     (length hs < j)%nat \/
  take j (commit_writes s L hs) = commit_writes s L hs /\ (length hs < j)%nat.
Proof.
  set (n := length hs). assert (Hlw : length (log_writes s 0 L hs) = n) by apply length_log_writes.
  assert (Hhw : length (home_writes L hs) = n) by apply length_fmap.
  unfold commit_writes. fold (home_writes L hs).
  destruct (decide (j <= n)%nat) as [Hj|Hj].
  { left. rewrite take_app_le by lia. done. }
  right. destruct (decide (j <= n + 1 + n)%nat) as [Hj'|Hj'].
  - left. split; [|lia]. exists (j - n - 1)%nat. rewrite take_app_ge by lia. rewrite Hlw.
    rewrite take_app_ge by (simpl; lia). rewrite take_app_le by (simpl; lia).
    simpl. by rewrite <- app_assoc.
  - right. split; [|lia]. apply take_ge. rewrite !length_app, Hlw, Hhw. simpl. lia.
Qed.

(** What the first [j] writes of a commit leave on the disk. *)
Lemma commit_crash_disk k L s lsize hs j :
  txn k L s lsize hs [] [] ->
  let g := lupd (dblk (k_disk k)) (take j (commit_writes s L hs)) in
  hdr_ok s lsize (disksize k) g /\
  forall x, 0 <= x < disksize k -> ~ (s <= x < s + lsize) ->
    recovered s g x = if (j <=? length hs)%nat then dblk (k_disk k) x else L x.
Proof.
  intros H g. pose proof H as [Hb Hdev Hst Hsz Hn Hbl Hbll Hint Hnd Hho Hlen Hmax Hs Har Hcl].
  assert (Hf : forall x, 0 <= x < disksize k -> x ∉ u32 <$> hs -> dblk (k_disk k) x = L x).
  { intros x Hx Hxh. unfold dblk.
    by rewrite (blk_clean _ _ _ _ _ Hb x Hx Hxh ltac:(apply not_elem_of_nil)). }
  assert (Hhome := txn_home_area _ _ _ _ _ H).
  assert (HsG : s ∉ u32 <$> hs) by (intros []%Hhome; lia).
  assert (Hbs : length (L s) = Z.to_nat BSIZE).
  { apply (proj1 (Forall_lookup _ _) (blk_dlen _ _ _ _ _ Hb) (Z.to_nat s)).
    apply (blk_clean _ _ _ _ _ Hb); [lia|done|apply not_elem_of_nil]. }
  destruct (take_commit_writes j s L hs) as [[E Hj]|[[[i E] Hj]|[E Hj]]]; unfold g; rewrite E.
  - rewrite (proj2 (Nat.leb_le _ _)) by lia.
    destruct (crash_before L (dblk (k_disk k)) s lsize (disksize k) hs)
      with (p := take j (log_writes s 0 L hs)) as [H1 H2]; try done; try lia.
    + intros w. apply subseteq_take.
    + split; [done|]. intros. by apply H2.
  - rewrite (proj2 (Nat.leb_gt _ _)) by lia. rewrite lupd_app.
    apply (crash_during L (dblk (k_disk k)) s lsize (disksize k) hs); try done; try lia.
    intros w. apply subseteq_take.
  - rewrite (proj2 (Nat.leb_gt _ _)) by lia.
    apply (crash_after L (dblk (k_disk k)) s lsize (disksize k) hs); try done; lia.
Qed.

Lemma commit_nil k L s lsize :
  txn k L s lsize [] [] [] -> commit k = Ok tt k.
Proof.
  intros H. unfold commit, lh_of. unfold mbind, M_bind, gets.
  by rewrite (tx_n _ _ _ _ _ _ _ H).
Qed.

Lemma commit_ok k L s lsize hs :
  txn k L s lsize hs [] [] ->
  exists k' ws, commit k = Ok tt k' /\ k_writes k' = reverse ws ++ k_writes k /\
    k_disk k' = apply_writes ws (k_disk k) /\
    (ws = commit_writes s L hs /\ hs <> [] \/ ws = [] /\ hs = []).
Proof.
  intros H. destruct (decide (hs = [])) as [->|Hne].
  { exists k, []. split_and!; [by eapply commit_nil|done..|by right]. }
  pose proof (wp_commit _ _ _ _ _ H Hne) as Hw. apply wp_ok in Hw as ([] & k' & E & Hd & _).
  exists k', (commit_writes s L hs). rewrite (dframe_disk _ _ _ Hd), (dframe_writes _ _ _ Hd).
  split_and!; try done. by left.
Qed.

Lemma apply_writes_blen ws D :
  Forall (fun w => length w.2 = Z.to_nat BSIZE) ws ->
  Forall (fun d => length d = Z.to_nat BSIZE) D ->
  Forall (fun d => length d = Z.to_nat BSIZE) (apply_writes ws D).
Proof.
  intros Hp. revert D. induction Hp as [|w p Hw _ IH]; intros D HD; [done|]. simpl.
  apply IH. by apply Forall_insert.
Qed.

Lemma txn_block_len k L s lsize hs x :
  txn k L s lsize hs [] [] -> 0 <= x < disksize k -> length (L x) = Z.to_nat BSIZE.
Proof.
  intros H Hx. pose proof (tx_blk _ _ _ _ _ _ _ H) as Hb.
  destruct (decide (x ∈ u32 <$> hs)) as [Hin|Hin].
  - destruct (blk_G _ _ _ _ _ Hb x Hin) as (i & Hi & Hf & <-).
    destruct (blk_bufs _ _ _ _ _ Hb i Hi) as [_ _ B3 _ B5 _ _].
    destruct (B3 ltac:(lia)) as (_ & _ & <-). done.
  - apply (proj1 (Forall_lookup _ _) (blk_dlen _ _ _ _ _ Hb) (Z.to_nat x)).
    apply (blk_clean _ _ _ _ _ Hb); [done|done|apply not_elem_of_nil].
Qed.

Lemma length_commit_head k L s lsize hs :
  txn k L s lsize hs [] [] -> length (commit_head s L hs) = Z.to_nat BSIZE.
Proof.
  intros H. pose proof H as [_ _ _ _ _ _ _ _ _ _ Hlen Hmax Hs Har _].
  pose proof (txn_block_len _ _ _ _ _ s H ltac:(lia)) as Hl.
  unfold commit_head, hdr_encode. rewrite length_put_entries; rewrite ?length_put_u32, ?Hl;
    unfold hdr_off, BSIZE, LOGSIZE, MAXOPBLOCKS in *; lia.
Qed.

Lemma commit_writes_blen k L s lsize hs :
  txn k L s lsize hs [] [] -> Forall (fun w => length w.2 = Z.to_nat BSIZE) (commit_writes s L hs).
Proof.
  intros H. pose proof (length_commit_head _ _ _ _ _ H) as Hh.
  assert (Hho : Forall (fun h => length (L (u32 h)) = Z.to_nat BSIZE) hs).
  { eapply Forall_impl; [exact (tx_homes _ _ _ _ _ _ _ H)|]. intros h [Hr _].
    by apply (txn_block_len _ _ _ _ _ _ H). }
  unfold commit_writes. repeat (apply Forall_app; split).
  - clear -Hho. generalize 0. induction Hho as [|h hs' ? _ IH]; intros i; [constructor|].
    constructor; [done|apply IH].
  - by repeat constructor.
  - apply Forall_fmap. exact Hho.
  - constructor; [|constructor]. cbn [snd]. rewrite length_put_u32; [done|lia|]. rewrite Hh.
    unfold BSIZE. lia.
Qed.

(** C1: a commit is atomic with respect to crashes.  [commit] returns; let [ws] be
    the disk writes it issued.  If the machine stops after any [j] of them and a
    freshly booted kernel runs [recover_from_log] on the disk that is left, then
    every block outside the log holds its contents from before the transaction
    if the header write of the commit (write number [length hs]) had not been
    reached, and its contents from the transaction otherwise; never a mixture. *)
Theorem commit_crash_atomic k L s lsize hs :
  txn k L s lsize hs [] [] ->
  exists k' ws, commit k = Ok tt k' /\ k_writes k' = reverse ws ++ k_writes k /\
    k_disk k' = apply_writes ws (k_disk k) /\
    forall j kb, (j <= length ws)%nat ->
      k_disk kb = apply_writes (take j ws) (k_disk k) ->
      booted kb (dblk (k_disk kb)) s lsize ->
      wp recover_from_log (fun _ kr => forall x, 0 <= x < disksize k -> ~ (s <= x < s + lsize) ->
        dblk (k_disk kr) x = if (j <=? length hs)%nat then dblk (k_disk k) x else L x) kb.
Proof.
  intros H. destruct (commit_ok _ _ _ _ _ H) as (k' & ws & E1 & E2 & E3 & Hws).
  exists k', ws. split_and!; try done. intros j kb Hj Hkb Hbt.
  assert (Htk : take j ws = take j (commit_writes s L hs) /\ (hs = [] -> j = O)).
  { destruct Hws as [[-> ?]|[-> ->]]; [done|]. simpl in Hj. by replace j with O by lia. }
  destruct Htk as [Htk H0].
  assert (Eds : disksize kb = disksize k) by (unfold disksize; by rewrite Hkb, length_apply_writes).
  destruct (commit_crash_disk k L s lsize hs j H) as [Hok Hrec].
  set (g := lupd (dblk (k_disk k)) (take j (commit_writes s L hs))) in *.
  assert (Eg : forall x, 0 <= x < disksize k -> g x = dblk (k_disk kb) x).
  { intros x Hx. rewrite Hkb, Htk, dblk_apply; [done| |done].
    by eapply Forall_take, commit_writes_nonneg. }
  assert (Hbt' : booted kb g s lsize).
  { destruct Hbt as (Hb & Hrest). split; [|done]. eapply blk_L_ext; [|exact Hb].
    intros x Hx. symmetry. apply Eg. lia. }
  eapply wp_mono; [apply (recover_disk kb g s lsize); [done|by rewrite Eds|by rewrite Eds]|].
  intros [] kr Hkr x Hx Hxa. pose proof (tx_len _ _ _ _ _ _ _ H).
  rewrite Hkr by lia. by apply Hrec.
Qed.

Lemma commit_crash_atomic_witness :
  exists k k' ws, length ws = 4%nat /\ commit k = Ok tt k' /\
    dblk (k_disk k) 40 <> demo_data /\
    forall j, (j <= 4)%nat ->
      wp recover_from_log (fun _ kr => dblk (k_disk kr) 40 =
        if (j <=? 1)%nat then dblk (k_disk k) 40 else demo_data)
        (boot (apply_writes (take j ws) (k_disk k)) 2 30 0).
Proof.
  destruct demo_txn as (k & L & Ht & HL & Hd & _).
  destruct (commit_crash_atomic k L 2 30 [40] Ht) as (k' & ws & E & Ew & Ed & Hc).
  assert (Hws : ws = commit_writes 2 L [40]).
  { destruct (commit_ok _ _ _ _ _ Ht) as (k2 & ws2 & E2 & Ew2 & _ & [[-> _]|[_ ?]]); [|done].
    rewrite E in E2. injection E2 as <-. rewrite Ew in Ew2. by apply app_inv_tail, (inj _) in Ew2. }
  exists k, k', ws. split_and!; [by rewrite Hws|done|rewrite Hd; by vm_compute|].
  intros j Hj. eapply wp_mono; [apply (Hc j); [by rewrite Hws|reflexivity|apply boot_booted; [|done]]|].
  - apply apply_writes_blen; [|apply (tx_blk _ _ _ _ _ _ _ Ht)]. apply Forall_take. rewrite Hws.
    by eapply commit_writes_blen.
  - intros [] kr Hkr. cbv beta in Hkr. rewrite Hkr; [by rewrite HL| |lia].
    unfold disksize. rewrite Hd. by vm_compute.
Defined.

Lemma recovered_ext s lsize dsize f g x :
  hdr_ok s lsize dsize f -> 0 < lsize -> (forall y, 0 <= y < dsize -> f y = g y) ->
  0 <= x < dsize -> hdr_ok s lsize dsize g /\ recovered s f x = recovered s g x.
Proof.
  intros (Hs & Har & Hn & Hho) Hl E Hx. assert (Es : g s = f s) by (symmetry; apply E; lia).
  split; [by unfold hdr_ok; rewrite Es|]. unfold recovered. rewrite Es.
  rewrite (inst_writes_ext s 0 f g) by (intros y Hy; apply E; lia). apply lupd_ext. left. by apply E.
Qed.

(** Repeating a recovery that was cut off gives the same result. *)
Lemma recover_crash_disk s lsize dsize f j :
  hdr_ok s lsize dsize f -> length (f s) = Z.to_nat BSIZE ->
  let g := lupd f (take j (recover_writes s f)) in
  hdr_ok s lsize dsize g /\ forall x, x <> s -> recovered s g x = recovered s f x.
Proof.
  intros (Hs & Har & Hn & Hho) Hbs g. set (hs := hdr_entries (f s)) in *.
  assert (Hdom : forall x, x ∈ u32 <$> hs -> ~ (s <= x < s + lsize)).
  { intros x (h & -> & Hh)%list_elem_of_fmap. by apply (proj1 (Forall_forall _ _) Hho). }
  destruct (decide (j <= length (inst_writes s 0 f hs))%nat) as [Hj|Hj].
  - assert (Eg : g = lupd f (take j (inst_writes s 0 f hs)))
      by (unfold g, recover_writes; by rewrite take_app_le).
    assert (Hp : forall x, x ∈ (take j (inst_writes s 0 f hs)).*1 -> x ∈ u32 <$> hs).
    { intros x Hx. rewrite <- (inst_writes_dom s 0 f hs). rewrite fmap_take in Hx.
      by eapply subseteq_take. }
    assert (Earea : forall x, s <= x < s + lsize -> g x = f x).
    { intros x Hx. rewrite Eg. apply lupd_other. intros ?%Hp%Hdom. lia. }
    assert (Es : g s = f s) by (apply Earea; lia).
    split; [by unfold hdr_ok; rewrite Es|]. intros x Hxs. unfold recovered. rewrite Es. fold hs.
    rewrite (inst_writes_ext s 0 g f) by (intros y Hy; apply Earea; lia).
    apply lupd_ext. destruct (decide (x ∈ u32 <$> hs)); [right; by rewrite inst_writes_dom|left].
    rewrite Eg. apply lupd_other. intros ?%Hp. done.
  - assert (Eg : g = bupd (lupd f (inst_writes s 0 f hs)) s (put_u32 (f s) 0 0)).
    { unfold g, recover_writes. rewrite take_ge by (rewrite length_app; simpl; fold hs; lia).
      by rewrite lupd_app. }
    destruct (hdr_clean s g) as [Er Ee].
    { rewrite Eg, bupd_eq. unfold hdr_n, get_i32. rewrite get_put_u32; [done|lia|].
      rewrite Hbs. unfold BSIZE. lia. }
    split; [unfold hdr_ok; rewrite Ee; split_and!; [lia|lia|simpl; lia|constructor]|].
    intros x Hx. rewrite Er, Eg, bupd_ne by done. done.
Qed.

(** C2: recovery restores the committed contents and may itself be cut off.  On
    any disk whose log header is well formed, [recover_from_log] returns, leaves
    every block (the header aside) as [recovered] prescribes and the log empty;
    and if the machine stops after any number of the disk writes that it issues
    ([k_writes] records them), the disk still has a well-formed log and stands for the
    same contents, and recovery after the next start brings these to their places. *)
Theorem recover_idempotent k s lsize :
  booted k (dblk (k_disk k)) s lsize -> hdr_ok s lsize (disksize k) (dblk (k_disk k)) ->
  exists k' ws, recover_from_log k = Ok tt k' /\ k_writes k' = reverse ws ++ k_writes k /\
    k_disk k' = apply_writes ws (k_disk k) /\
    lh_n (log_lh (k_log k')) = 0 /\ hdr_n (dblk (k_disk k') s) = O /\
    (forall x, 0 <= x < disksize k -> x <> s ->
       dblk (k_disk k') x = recovered s (dblk (k_disk k)) x) /\
    (forall j, let D := apply_writes (take j ws) (k_disk k) in
       hdr_ok s lsize (disksize k) (dblk D) /\
       forall x, 0 <= x < disksize k -> x <> s ->
         recovered s (dblk D) x = recovered s (dblk (k_disk k)) x) /\
    (forall j kb, k_disk kb = apply_writes (take j ws) (k_disk k) -> booted kb (dblk (k_disk kb)) s lsize ->
       wp recover_from_log (fun _ kr => forall x, 0 <= x < disksize k -> x <> s ->
         dblk (k_disk kr) x = recovered s (dblk (k_disk k)) x) kb).
Proof.
  intros Hb Hok. set (f := dblk (k_disk k)) in *.
  pose proof (recover_writes_nonneg _ _ _ _ Hok) as Hnn.
  pose proof (wp_recover _ _ _ _ Hb Hok) as Hw.
  apply wp_ok in Hw as ([] & k' & E & l' & [Hd Hbk'] & Hn & _).
  pose proof (dframe_disk _ _ _ Hd) as Edk. simpl in Edk.
  assert (Ef : forall p x, Forall (fun w => 0 <= w.1) p -> 0 <= x < disksize k ->
    dblk (apply_writes p (k_disk k)) x = lupd f p x) by (intros; by apply dblk_apply).
  pose proof Hok as (Hs & Har & Hlen & _).
  assert (Hbs : length (f s) = Z.to_nat BSIZE).
  { destruct Hb as (Hb & _). apply (proj1 (Forall_lookup _ _) (blk_dlen _ _ _ _ _ Hb) (Z.to_nat s)).
    apply (blk_clean _ _ _ _ _ Hb); [lia|apply not_elem_of_nil..]. }
  assert (Hcut : forall j, let D := apply_writes (take j (recover_writes s f)) (k_disk k) in
       hdr_ok s lsize (disksize k) (dblk D) /\
       forall x, 0 <= x < disksize k -> x <> s -> recovered s (dblk D) x = recovered s f x).
  { intros j D. destruct (recover_crash_disk s lsize (disksize k) f j Hok Hbs) as [H1 H2].
    assert (EfD : forall y, 0 <= y < disksize k -> lupd f (take j (recover_writes s f)) y = dblk D y)
      by (intros y Hy; unfold D; rewrite Ef; [done|by apply Forall_take|done]).
    split; [by apply (recovered_ext s lsize (disksize k) _ _ s H1); [lia|done|lia]|].
    intros x Hx Hxs. rewrite <- H2 by done. symmetry.
    by apply (recovered_ext s lsize (disksize k)); [|lia|..]. }
  exists k', (recover_writes s f).
  split_and!; [done|by rewrite (dframe_writes _ _ _ Hd)|done|by rewrite (dframe_log _ _ _ Hd)| | |exact Hcut|].
  - rewrite Edk, Ef by (done || lia). unfold recover_writes. rewrite lupd_app. simpl.
    rewrite bupd_eq. unfold hdr_n, get_i32. rewrite get_put_u32; [done|lia|].
    rewrite Hbs. unfold BSIZE. lia.
  - intros x Hx Hxs. rewrite Edk, Ef by done. unfold recover_writes. rewrite lupd_app. simpl.
    by rewrite bupd_ne.
  - intros j kb Hkb Hbt. destruct (Hcut j) as [H1 H2]. rewrite <- Hkb in H1, H2.
    assert (Eds : disksize kb = disksize k) by (unfold disksize; by rewrite Hkb, length_apply_writes).
    eapply wp_mono; [apply (recover_disk kb (dblk (k_disk kb)) s lsize); [done|by rewrite Eds|done]|].
    intros [] kr Hkr x Hx Hxs. rewrite Hkr by (rewrite ?Eds; done). by apply H2.
Qed.

Definition crashed_disk : list block :=
  <[2%nat := hdr_encode [40] (replicate (Z.to_nat BSIZE) 0)]> (<[3%nat := demo_data]> demo_disk).

Lemma crashed_disk_blen : Forall (fun d => length d = Z.to_nat BSIZE) crashed_disk.
Proof.
  unfold crashed_disk. apply Forall_insert; [apply Forall_insert|].
  - apply Forall_replicate. reflexivity.
  - reflexivity.
  - vm_compute. reflexivity.
Qed.

Lemma crashed_disk_hdr : hdr_ok 2 30 64 (dblk crashed_disk).
Proof.
  unfold hdr_ok. replace (hdr_entries (dblk crashed_disk 2)) with [40] by (vm_compute; reflexivity).
  split; [lia|]. split; [lia|]. split; [simpl; lia|].
  constructor; [|constructor]. change (u32 40) with 40. lia.
Qed.

Lemma recover_idempotent_witness :
  exists k', recover_from_log (boot crashed_disk 2 30 0) = Ok tt k' /\
    dblk (k_disk k') 40 = demo_data /\ dblk crashed_disk 40 <> demo_data.
Proof.
  destruct (recover_idempotent (boot crashed_disk 2 30 0) 2 30) as (k' & ws & E & _ & _ & _ & _ & Hx & _).
  - apply boot_booted; [apply crashed_disk_blen|unfold LOGSIZE, MAXOPBLOCKS; lia].
  - exact crashed_disk_hdr.
  - exists k'. split; [exact E|]. split.
    + rewrite (Hx 40); [|vm_compute; split; congruence|lia].
      change (recovered 2 (dblk crashed_disk) 40 = demo_data). vm_compute. reflexivity.
    + vm_compute. congruence.
Defined.
