(* ===== verification/LogOps.v ===== *)
(** Transactions: [begin_op], [log_write] and [end_op] of [src/log.c].

    [txn k L s lsize hs U Hd] is the state of a transaction; the theorems show
    how the operations move through it. *)
From Stdlib Require Import ZArith Lia.
From stdpp Require Import base gmap sets strings numbers list.
From S2P Require Import Prelude State Spinlock Code Sched Bio Log Blk Crash.

Local Open Scope Z_scope.

(** The parts of the log that a change of the counters leaves alone. *)
Definition same_log (l l' : logst) : Prop :=
  log_dev l' = log_dev l /\ log_start l' = log_start l /\ log_size l' = log_size l /\
  log_lh l' = log_lh l.

Lemma txn_set_log k L s lsize hs U Hd l' :
  txn k L s lsize hs U Hd -> same_log (k_log k) l' -> txn (set_k_log l' k) L s lsize hs U Hd.
Proof.
  intros [] (E1 & E2 & E3 & E4). constructor; try done; cbn [k_log set_k_log];
    rewrite ?E1, ?E2, ?E3, ?E4; try done. by eapply blk_ext; [..|eassumption].
Qed.

Lemma txn_woken ch k L s lsize hs U Hd :
  txn k L s lsize hs U Hd -> txn (woken ch k) L s lsize hs U Hd.
Proof. intros []. constructor; try done. by apply blk_woken. Qed.

Lemma txn_not_held k L s lsize hs U Hd lk : txn k L s lsize hs U Hd -> lk ∉ held (k_cpu k).
Proof.
  intros H. rewrite (blk_free _ _ _ _ _ (tx_blk _ _ _ _ _ _ _ H)). apply not_elem_of_nil.
Qed.

(** Nobody sleeps on [ch]. *)
Definition none_waiting (ch : chan) (k : kst) : Prop :=
  Forall (fun p => ~ (p_state p = SLEEPING /\ p_chan p = Some ch)) (k_ptable k).

Lemma woken_none_waiting ch k : none_waiting ch (woken ch k).
Proof.
  apply Forall_fmap, Forall_true. intros p. unfold compose, wake. case_decide; [|done].
  simpl. by intros [].
Qed.

(** A commit leaves an empty transaction with the same contents. *)
Lemma commit_txn k L s lsize hs :
  txn k L s lsize hs [] [] ->
  exists k' L', commit k = Ok tt k' /\ txn k' L' s lsize [] [] [] /\
    k_cpu k' = k_cpu k /\
    log_outstanding (k_log k') = log_outstanding (k_log k) /\
    log_committing (k_log k') = log_committing (k_log k) /\ disksize k' = disksize k /\
    (forall x, 0 <= x < disksize k -> ~ (s <= x < s + lsize) -> L' x = L x).
Proof.
  intros H. destruct (decide (hs = [])) as [->|Hne].
  { exists k, L. split_and!; try done. by eapply commit_nil. }
  pose proof (wp_commit _ _ _ _ _ H Hne) as Hw. apply wp_ok in Hw as ([] & k' & E & Hf & Hb).
  pose proof H as [_ Hdev Hst Hsz _ _ Hbll Hint Hnd Hho Hlen Hmax Hs Har _].
  exists k', (lupd L (commit_writes s L hs)).
  pose proof (dframe_log _ _ _ Hf) as El. pose proof (dframe_disksize _ _ _ Hf) as Eds.
  assert (Ehd : lupd L (commit_writes s L hs) s = put_u32 (commit_head s L hs) 0 0).
  { unfold commit_writes. rewrite !lupd_app. apply bupd_eq. }
  pose proof (length_commit_head _ _ _ _ _ H) as Hlh.
  split_and!; [done| | |by rewrite El|by rewrite El|done|].
  - constructor; rewrite ?El, ?Eds; try done; try lia; try by constructor.
    + by eexists.
    + simpl. lia.
    + rewrite Ehd. unfold hdr_n, get_i32. rewrite get_put_u32; [done|lia|].
      rewrite Hlh. unfold BSIZE. lia.
  - by destruct Hf as (B & P & -> & _).
  - intros x Hx Hxa. unfold commit_writes. rewrite !lupd_app. simpl. rewrite bupd_ne by lia.
    fold (home_writes L hs). destruct (decide (x ∈ u32 <$> hs)) as [Hin|Hin].
    + apply list_elem_of_fmap in Hin as (h & -> & Hh).
      apply lupd_in; [by rewrite home_writes_dom|]. unfold home_writes.
      by apply (list_elem_of_fmap_2 (fun h => (u32 h, L (u32 h)))).
    + rewrite lupd_other by by rewrite home_writes_dom. rewrite bupd_ne by lia.
      apply lupd_other. intros Hx'%log_writes_dom. lia.
Qed.

(** ** Properties *)

(** [log_write] of a held buffer pins its block: the header names the block
    once (a second [log_write] of the same block is absorbed), the buffer stays
    in the cache until the commit, no disk write happens, and the transaction
    stays well formed. *)
Theorem log_write_absorbs k L s lsize hs U Hd i bno :
  txn k L s lsize hs U Hd -> (i, bno) ∈ Hd -> 1 <= log_outstanding (k_log k) ->
  ~ (s <= bno < s + lsize) -> bno < 2 ^ 31 -> Z.of_nat (length hs) < lsize - 1 ->
  exists k' hs', log_write i k = Ok tt k' /\ txn k' L s lsize hs' (without bno U) Hd /\
    (forall x, x ∈ u32 <$> hs' <-> x = bno \/ x ∈ u32 <$> hs) /\
    (bno ∈ u32 <$> hs -> length hs' = length hs) /\
    (bno ∉ u32 <$> hs -> length hs' = S (length hs)) /\
    k_disk k' = k_disk k /\ k_writes k' = k_writes k.
Proof.
  intros H Hin Ho Hna Hb Hr. pose proof (wp_log_write _ _ _ _ _ _ _ _ _ H Hin Ho Hna Hb Hr) as Hw.
  apply wp_ok in Hw as ([] & k' & E & hs' & l' & _ & (B & P & -> & _) & _ & _ & Ht & Hle & Hd').
  eexists _, hs'. split_and!; try done.
  - intros Hx. rewrite <- (length_fmap u32 hs'), <- (length_fmap u32 hs).
    apply Permutation_length, NoDup_Permutation; [apply Ht|apply H|].
    intros x. rewrite Hd'. split; [|tauto]. by intros [->|].
  - intros Hx. rewrite <- (length_fmap u32 hs'), <- (length_fmap u32 hs).
    apply (Permutation_length (l' := bno :: (u32 <$> hs))), NoDup_Permutation; [apply Ht| |].
    + constructor; [done|apply H].
    + intros x. by rewrite Hd', elem_of_cons.
Qed.

Lemma log_write_absorbs_witness :
  exists k L i k' hs', txn k L 2 30 [40] [40] [(i, 40)] /\ log_write i k = Ok tt k' /\
    length hs' = 1%nat /\ txn k' L 2 30 hs' [] [(i, 40)].
Proof.
  destruct demo_txn as (k & L & Ht & HL & Hd & Ho & _).
  assert (Hds : disksize k = 64) by (unfold disksize; rewrite Hd; reflexivity).
  destruct (blk_bread k L _ _ _ 40 (tx_blk _ _ _ _ _ _ _ Ht)) as (i & k1 & _ & Hb1 & (B1 & P1 & -> & _)).
  { lia. }
  { apply not_elem_of_nil. }
  { left. left. }
  destruct (blk_set_bdata _ _ _ _ _ i 40 demo_data Hb1) as (k2 & _ & Hb2 & (B2 & P2 & -> & _)).
  { left. }
  { reflexivity. }
  set (k2 := set_k_bufs B2 _) in *.
  assert (Ht2 : txn k2 (bupd L 40 demo_data) 2 30 [40] [40] [(i, 40)]).
  { destruct Ht. constructor; try assumption. }
  destruct (log_write_absorbs k2 (bupd L 40 demo_data) 2 30 [40] [40] [(i, 40)] i 40 Ht2)
    as (k3 & hs' & E & Ht3 & _ & Hl & _).
  { left. }
  { change (1 <= log_outstanding (k_log k)). lia. }
  { lia. }
  { lia. }
  { simpl. lia. }
  exists k2, (bupd L 40 demo_data), i, k3, hs'. split_and!; [exact Ht2|exact E| |exact Ht3].
  apply Hl. left.
Defined.

(** C23: the last [end_op] of a transaction makes it durable: it returns, every
    block outside the log is on the disk with the contents the transaction gave
    it, a fresh empty transaction begins with these contents, and nobody is left
    waiting for the log. *)
Theorem end_op_durable k L s lsize hs :
  txn k L s lsize hs [] [] -> log_outstanding (k_log k) = 1 -> log_committing (k_log k) = false ->
  exists k' L', end_op k = Ok tt k' /\ txn k' L' s lsize [] [] [] /\
    log_outstanding (k_log k') = 0 /\ log_committing (k_log k') = false /\
    none_waiting Ch_log k' /\
    (forall x, 0 <= x < disksize k -> ~ (s <= x < s + lsize) ->
       L' x = L x /\ k_disk k' !! Z.to_nat x = Some (L x)).
Proof.
  intros H Ho Hc. pose proof (fun lk => txn_not_held _ _ _ _ _ _ _ lk H) as Hnh.
  pose proof (blk_cpu _ _ _ _ _ (tx_blk _ _ _ _ _ _ _ H)) as Hcpu.
  set (k1 := set_k_log (set_log_committing true (set_log_outstanding 0 (k_log k))) k).
  assert (H1 : txn k1 L s lsize hs [] []) by (by apply txn_set_log).
  destruct (commit_txn _ _ _ _ _ H1) as (k2 & L' & E2 & H2 & Ecpu & Eo & Ec & Eds & EL).
  set (k3 := set_k_log (set_log_committing false (k_log k2)) k2).
  assert (H3 : txn k3 L' s lsize [] [] []) by (by apply txn_set_log).
  exists (woken Ch_log k3), L'. split_and!.
  - unfold end_op. erewrite bind_ok; [|by apply acquire_eq]. unfold upd_log.
    erewrite bind_ok; [|reflexivity]. erewrite bind_ok; [|reflexivity]. cbv beta.
    match goal with |- context [if log_committing ?x then _ else _] =>
      change (log_committing x) with (log_committing (k_log k)) end.
    rewrite Hc. cbn [log_outstanding set_log_outstanding k_log set_k_log set_k_cpu].
    rewrite Ho. change (1 - 1 =? 0) with true. cbv iota.
    erewrite bind_ok; [|reflexivity]. erewrite bind_ok; [|by apply (release_eq L_log (k_cpu k))].
    cbv iota. erewrite bind_ok;
      [|replace (set_k_cpu _ _) with k1 by (destruct k; unfold k1; cbn in *; by rewrite ?Ho); exact E2].
    erewrite bind_ok; [|apply acquire_eq; by eapply txn_not_held].
    erewrite bind_ok; [|reflexivity]. cbv beta. erewrite bind_ok; [|apply wakeup_eq].
    + rewrite (release_eq L_log (k_cpu k2)); [by destruct k2|apply H2|by eapply txn_not_held|done].
    + apply lock_cpu_ok; [apply H2|by eapply txn_not_held].
    + simpl. apply not_elem_of_cons. split; [done|by eapply txn_not_held].
  - by apply txn_woken.
  - simpl. by rewrite Eo.
  - done.
  - apply woken_none_waiting.
  - intros x Hx Hxa. rewrite (EL x) by done. split; [done|]. rewrite <- (EL x) by done.
    apply (blk_clean _ _ _ _ _ (tx_blk _ _ _ _ _ _ _ H2)); [by rewrite Eds|apply not_elem_of_nil..].
Qed.

Lemma end_op_durable_witness :
  exists k k', end_op k = Ok tt k' /\ k_disk k !! 40%nat <> Some demo_data /\
    k_disk k' !! 40%nat = Some demo_data.
Proof.
  destruct demo_txn as (k & L & Ht & HL & Hd & Ho & Hc).
  destruct (end_op_durable k L 2 30 [40] Ht Ho Hc) as (k' & L' & E & _ & _ & _ & _ & Hx).
  assert (Hds : disksize k = 64) by (unfold disksize; rewrite Hd; reflexivity).
  exists k, k'. split_and!; [exact E|rewrite Hd; vm_compute; congruence|].
  destruct (Hx 40) as [_ Hx40]; [lia|lia|]. by rewrite HL in Hx40.
Defined.

(** ** [begin_op] *)

(** The reservation rule: every running operation may still log
    [MAXOPBLOCKS] blocks. *)
Definition reserved (l : logst) : Prop :=
  lh_n (log_lh l) + log_outstanding l * MAXOPBLOCKS <= LOGSIZE.

(** The operation is admitted. *)
Lemma begin_op_eq k :
  cpu_ok (k_cpu k) -> L_log ∉ held (k_cpu k) -> log_committing (k_log k) = false ->
  lh_n (log_lh (k_log k)) + (log_outstanding (k_log k) + 1) * MAXOPBLOCKS <= LOGSIZE ->
  begin_op k = Ok tt (set_k_log (set_log_outstanding (log_outstanding (k_log k) + 1) (k_log k)) k).
Proof.
  intros Hc Hl Hcm Hf. unfold begin_op. erewrite bind_ok; [|by apply acquire_eq].
  erewrite bind_ok; [|reflexivity]. cbv beta. change (k_log (set_k_cpu _ k)) with (k_log k). rewrite Hcm.
  destruct (Z.gtb_spec (lh_n (log_lh (k_log k)) + (log_outstanding (k_log k) + 1) * MAXOPBLOCKS) LOGSIZE) as [?|_]; [lia|].
  unfold upd_log. erewrite bind_ok; [|reflexivity]. rewrite (release_eq L_log (k_cpu k)) by done. by destruct k.
Qed.

(** [begin_op] either admits the operation, counting it, exactly when the log
    is not committing and the reservation still fits, so that the reservation
    rule holds afterwards; or it goes to sleep on the log, leaving the log as it
    was.  It never panics. *)
Theorem begin_op_reserves k i p :
  cpu_ok (k_cpu k) -> ncli (k_cpu k) = 0 -> held (k_cpu k) = [] ->
  k_proc k = Some i -> k_ptable k !! i = Some p ->
  let l := k_log k in
  let fits := lh_n (log_lh l) + (log_outstanding l + 1) * MAXOPBLOCKS <= LOGSIZE in
  (log_committing l = false /\ fits /\
   exists k', begin_op k = Ok tt k' /\ k' = set_k_log (set_log_outstanding (log_outstanding l + 1) l) k /\
     reserved (k_log k')) \/
  ((log_committing l = true \/ ~ fits) /\
   exists k', begin_op k = Blocked k' /\ k_log k' = l /\ k_disk k' = k_disk k /\
     held (k_cpu k') = [L_ptable] /\
     k_ptable k' !! i = Some (set_p_context K_swtch (set_p_state SLEEPING (set_p_chan (Some Ch_log) p)))).
Proof.
  intros Hc Hn Hh Hi Hp l fits.
  assert (Hnh : L_log ∉ held (k_cpu k)) by (rewrite Hh; apply not_elem_of_nil).
  assert (Hsl : exists k', (sleep Ch_log L_log;; again (A := unit)) (set_k_cpu (lock_cpu L_log (k_cpu k)) k) = Blocked k' /\
    k_log k' = l /\ k_disk k' = k_disk k /\ held (k_cpu k') = [L_ptable] /\
    k_ptable k' !! i = Some (set_p_context K_swtch (set_p_state SLEEPING (set_p_chan (Some Ch_log) p)))).
  { eexists. split; [by apply bind_blocked, (sleep_eq _ _ (k_cpu k) _ i p)|]. split_and!; try done.
    simpl. by rewrite list_lookup_alter_eq, Hp. }
  unfold begin_op. erewrite bind_ok; [|by apply acquire_eq].
  erewrite bind_ok; [|reflexivity]. cbv beta. change (k_log (set_k_cpu _ k)) with l.
  destruct (log_committing l) eqn:Ec; [right; split; [by left|done]|].
  destruct (Z.gtb_spec (lh_n (log_lh l) + (log_outstanding l + 1) * MAXOPBLOCKS) LOGSIZE) as [Hf|Hf].
  - right. split; [right; unfold fits; lia|done].
  - left. split_and!; [done|unfold fits; lia|]. eexists. split.
    + unfold upd_log. erewrite bind_ok; [|reflexivity]. rewrite (release_eq L_log (k_cpu k)) by done.
      reflexivity.
    + split; [by destruct k|]. unfold reserved. subst l. simpl. lia.
Qed.

Lemma begin_op_reserves_witness :
  exists k', begin_op (boot demo_disk 2 30 2) = Ok tt k' /\ log_outstanding (k_log k') = 3.
Proof.
  destruct (begin_op_reserves (boot demo_disk 2 30 2) O zero_proc) as [(_ & _ & k' & E & -> & _)|([Hf|Hf] & _)].
  - unfold cpu_ok. cbn. repeat split; try lia; try done; constructor.
  - reflexivity.
  - reflexivity.
  - reflexivity.
  - reflexivity.
  - eexists. split; [exact E|reflexivity].
  - discriminate.
  - exfalso. apply Hf. vm_compute. congruence.
Defined.
