(* ===== verification/Txn.v ===== *)
(** Rules for code that runs inside a transaction of the log: what [bread], a store
    to the buffer, [log_write] and [brelse] do to the logical disk [L].  The
    proofs about [src/fs.c] run its functions with these rules.

    [tframe k k'] bounds what a transaction touches besides the logical disk:
    buffers, wake-ups and the in-memory log header. *)
From Stdlib Require Import ZArith Lia.
From stdpp Require Import base gmap sets strings numbers list.
From S2P Require Import Prelude State Spinlock Sched Bio Log Blk Crash LogOps.

Local Open Scope Z_scope.

Definition tframe (k k' : kst) : Prop :=
  exists B P l, k' = set_k_bufs B (set_k_ptable P (set_k_log l k)) /\
    procs_le (k_ptable k) P /\ log_outstanding l = log_outstanding (k_log k) /\
    log_committing l = log_committing (k_log k).

Lemma tframe_refl k : tframe k k.
Proof.
  exists (k_bufs k), (k_ptable k), (k_log k). split; [by destruct k|].
  split; [apply procs_le_refl|done].
Qed.

Lemma tframe_trans k1 k2 k3 : tframe k1 k2 -> tframe k2 k3 -> tframe k1 k3.
Proof.
  intros (B & P & l & -> & Hp & Ho & Hc) (B' & P' & l' & -> & Hp' & Ho' & Hc').
  exists B', P', l'. simpl in *. split; [by destruct k1|].
  split; [by eapply procs_le_trans|]. split; congruence.
Qed.

Lemma tframe_bframe k k' : bframe k k' -> tframe k k'.
Proof. intros (B & P & -> & Hp). exists B, P, (k_log k). split; [by destruct k|done]. Qed.

Lemma tframe_disk k k' : tframe k k' -> k_disk k' = k_disk k.
Proof. by intros (B & P & l & -> & _). Qed.
Lemma tframe_disksize k k' : tframe k k' -> disksize k' = disksize k.
Proof. intros H. unfold disksize. by rewrite (tframe_disk _ _ H). Qed.
Lemma tframe_sb k k' : tframe k k' -> k_sb k' = k_sb k.
Proof. by intros (B & P & l & -> & _). Qed.
Lemma tframe_icache k k' : tframe k k' -> k_icache k' = k_icache k.
Proof. by intros (B & P & l & -> & _). Qed.

Lemma tframe_out k k' : tframe k k' -> log_outstanding (k_log k') = log_outstanding (k_log k).
Proof. by intros (B & P & l & -> & _ & E & _). Qed.

(** [k] was reached from [k0] by block operations and is a well-formed transaction. *)
Record intx (k0 k : kst) (L : Z -> block) (s lsize : Z) (hs U : list Z)
    (Hd : list (nat * Z)) : Prop := mk_intx {
  ix_frame : tframe k0 k;
  ix_txn : txn k L s lsize hs U Hd
}.

Lemma intx_start k L s lsize hs U Hd : txn k L s lsize hs U Hd -> intx k k L s lsize hs U Hd.
Proof. intros. split; [apply tframe_refl|done]. Qed.

Lemma intx_step k0 k k' L L' s lsize hs hs' U U' Hd Hd' :
  intx k0 k L s lsize hs U Hd -> tframe k k' -> txn k' L' s lsize hs' U' Hd' ->
  intx k0 k' L' s lsize hs' U' Hd'.
Proof.
  intros [Hf _] Hf' Ht. split; [by eapply tframe_trans|done].
Qed.

(** A transaction does not depend on the rest of the state. *)
Lemma txn_set_sb sb k L s lsize hs U Hd :
  txn k L s lsize hs U Hd -> txn (set_k_sb sb k) L s lsize hs U Hd.
Proof. intros []. constructor; try done. by eapply blk_ext; [..|eassumption]. Qed.
Lemma txn_set_icache c k L s lsize hs U Hd :
  txn k L s lsize hs U Hd -> txn (set_k_icache c k) L s lsize hs U Hd.
Proof. intros []. constructor; try done. by eapply blk_ext; [..|eassumption]. Qed.

Lemma intx_set_icache c k0 k L s lsize hs U Hd :
  intx k0 k L s lsize hs U Hd -> intx (set_k_icache c k0) (set_k_icache c k) L s lsize hs U Hd.
Proof.
  intros [(B & P & l & -> & Hr) Ht]. split; [exists B, P, l; by destruct k0|by apply txn_set_icache].
Qed.

Section wp_tx.
Context (k0 k : kst) (L : Z -> block) (s lsize : Z) (hs U : list Z) (Hd : list (nat * Z)).
Context (H : intx k0 k L s lsize hs U Hd).

Lemma ix_disksize : disksize k = disksize k0.
Proof using H. apply tframe_disksize, H. Qed.

Lemma wp_tx_bread bno (Q : nat -> kst -> Prop) :
  0 <= bno < disksize k0 -> bno ∉ Hd.*2 -> (length hs + length Hd < NBUF)%nat ->
  (forall i k', intx k0 k' L s lsize hs U ((i, bno) :: Hd) -> Q i k') ->
  wp (bread ROOTDEV bno) Q k.
Proof using H.
  intros Hr Hn Hroom HQ. rewrite <- ix_disksize in Hr.
  pose proof (tx_blk _ _ _ _ _ _ _ (ix_txn _ _ _ _ _ _ _ _ H)) as Hb.
  destruct (blk_bread _ _ _ _ _ _ Hb Hr Hn) as (i & k' & E & Hb' & Hf').
  { right. by rewrite length_fmap. }
  unfold wp. rewrite E. apply HQ. eapply intx_step; [done|by apply tframe_bframe|].
  destruct Hf' as (B & P & -> & _). by destruct (ix_txn _ _ _ _ _ _ _ _ H).
Qed.

Lemma wp_tx_bdata i bno (Q : block -> kst -> Prop) :
  (i, bno) ∈ Hd -> Q (L bno) k -> wp (bdata i) Q k.
Proof using H.
  intros Hin HQ. unfold wp.
  by rewrite (blk_bdata _ _ _ _ _ _ _ (tx_blk _ _ _ _ _ _ _ (ix_txn _ _ _ _ _ _ _ _ H)) Hin).
Qed.

Lemma wp_tx_set_bdata i bno d (Q : unit -> kst -> Prop) :
  (i, bno) ∈ Hd -> length d = Z.to_nat BSIZE -> bno <> s ->
  (forall k', intx k0 k' (bupd L bno d) s lsize hs (bno :: U) Hd -> Q tt k') ->
  wp (set_bdata i d) Q k.
Proof using H.
  intros Hin Hl Hs HQ. pose proof (ix_txn _ _ _ _ _ _ _ _ H) as Ht.
  destruct (blk_set_bdata _ _ _ _ _ _ _ d (tx_blk _ _ _ _ _ _ _ Ht) Hin Hl) as (k' & E & Hb' & Hf').
  unfold wp. rewrite E. apply HQ. eapply intx_step; [done|by apply tframe_bframe|].
  destruct Hf' as (B & P & -> & _). destruct Ht. constructor; try done.
  by rewrite bupd_ne by congruence.
Qed.

Lemma wp_tx_log_write i bno (Q : unit -> kst -> Prop) :
  (i, bno) ∈ Hd -> 1 <= log_outstanding (k_log k0) ->
  ~ (s <= bno < s + lsize) -> bno < 2 ^ 31 -> Z.of_nat (length hs) < lsize - 1 ->
  (forall hs' k', intx k0 k' L s lsize hs' (without bno U) Hd ->
     (length hs' <= S (length hs))%nat ->
     (forall x, x ∈ u32 <$> hs' <-> x = bno \/ x ∈ u32 <$> hs) -> Q tt k') ->
  wp (log_write i) Q k.
Proof using H.
  intros Hin Hout Hna Hb Hr HQ. rewrite <- (tframe_out _ _ (ix_frame _ _ _ _ _ _ _ _ H)) in Hout.
  wp_use (wp_log_write k L s lsize hs U Hd i bno); try done; [apply H|].
  intros [] k' (hs' & l' & El & Hf & Ho & Hc & Ht & Hle & Hx). apply (HQ hs'); [|done|done].
  eapply intx_step; [done| |done]. destruct Hf as (B & P & -> & Hp).
  exists B, P, l'. split; [by destruct k|done].
Qed.

Lemma wp_tx_brelse i bno Hd' (Q : unit -> kst -> Prop) :
  Hd = (i, bno) :: Hd' -> bno ∉ U ->
  (forall k', intx k0 k' L s lsize hs U Hd' -> Q tt k') -> wp (brelse i) Q k.
Proof using H.
  intros -> HU HQ. pose proof (ix_txn _ _ _ _ _ _ _ _ H) as Ht.
  destruct (blk_brelse k L (u32 <$> hs) U Hd' i bno) as (k' & E & Hb' & Hf'); [by apply Ht|done|].
  unfold wp. rewrite E. apply HQ. eapply intx_step; [done|by apply tframe_bframe|].
  destruct Hf' as (B & P & -> & _). by destruct Ht.
Qed.

Lemma ix_held_len i bno : (i, bno) ∈ Hd -> length (L bno) = Z.to_nat BSIZE.
Proof using H. apply blk_L_len with (1 := tx_blk _ _ _ _ _ _ _ (ix_txn _ _ _ _ _ _ _ _ H)). Qed.
End wp_tx.

(** Storing [d] to a held block that nobody else has pending, logging it and
    releasing it: the common end of every update in [src/fs.c]. *)
Lemma wp_tx_store k0 k L s lsize hs i bno Hd d (Q : unit -> kst -> Prop) :
  intx k0 k L s lsize hs [] ((i, bno) :: Hd) -> 1 <= log_outstanding (k_log k0) ->
  length d = Z.to_nat BSIZE -> ~ (s <= bno < s + lsize) -> bno < 2 ^ 31 -> Z.of_nat (length hs) < lsize - 1 ->
  (forall hs' k', intx k0 k' (bupd L bno d) s lsize hs' [] Hd ->
     (length hs' <= S (length hs))%nat ->
     (forall x, x ∈ u32 <$> hs' <-> x = bno \/ x ∈ u32 <$> hs) -> Q tt k') ->
  wp (set_bdata i d;; log_write i;; brelse i) Q k.
Proof.
  intros H Hout Hl Hna Hb Hr HQ. apply wp_bind.
  assert (Hs : bno <> s).
  { intros ->. pose proof (tx_len _ _ _ _ _ _ _ (ix_txn _ _ _ _ _ _ _ _ H)). lia. }
  eapply wp_tx_set_bdata; [exact H|left|done|done|]. intros k1 H1.
  apply wp_bind. eapply wp_tx_log_write; [exact H1|left|done|done|done|done|]. intros hs' k2 H2 Hle Hx.
  eapply wp_tx_brelse; [exact H2|done|rewrite elem_of_without; tauto|]. intros k3 H3.
  apply (HQ hs'); [|done|done].
  assert (without bno [bno] = []) as <- 
    by (apply elem_of_nil_inv; intros x; rewrite elem_of_without, list_elem_of_singleton; tauto).
  exact H3.
Qed.

(** The same, followed by [K]. *)
Lemma wp_tx_store_then {A} k0 k L s lsize hs i bno Hd d (K : M kst A) (Q : A -> kst -> Prop) :
  intx k0 k L s lsize hs [] ((i, bno) :: Hd) -> 1 <= log_outstanding (k_log k0) ->
  length d = Z.to_nat BSIZE -> ~ (s <= bno < s + lsize) -> bno < 2 ^ 31 ->
  Z.of_nat (length hs) < lsize - 1 ->
  (forall hs' k', intx k0 k' (bupd L bno d) s lsize hs' [] Hd ->
     (length hs' <= S (length hs))%nat ->
     (forall x, x ∈ u32 <$> hs' <-> x = bno \/ x ∈ u32 <$> hs) -> wp K Q k') ->
  wp (set_bdata i d;; log_write i;; brelse i;; K) Q k.
Proof.
  intros H Hout Hl Hna Hb Hr HQ.
  assert (wp (set_bdata i d;; log_write i;; brelse i) (fun _ => wp K Q) k) as Hw
    by (eapply wp_tx_store; done).
  apply wp_bind_inv in Hw. apply wp_bind. wp_use Hw. intros [] k1 Hw1.
  apply wp_bind_inv in Hw1. apply wp_bind. wp_use Hw1. intros [] k2 Hw2. by apply wp_bind.
Qed.
