(* ===== verification/Fs.v ===== *)
(** The block allocator and the inode layer of [src/fs.c].

    A [struct inode *] is an index into [icache.inode].  Block contents are
    byte lists; the on-disk structures are encoded and decoded at their byte
    offsets. *)
From Stdlib Require Import ZArith Lia.
From stdpp Require Import base gmap sets strings numbers list.
From S2P Require Import Prelude State Spinlock Sched Bio Log.

Local Open Scope Z_scope.

#[global] Instance inode_inhabited : Inhabited inode := populate zero_inode.

(** ** On-disk structures *)
Definition get_u16 (d : block) (off : Z) : Z := le_val (slice d (Z.to_nat off) 2).
Definition get_i16 (d : block) (off : Z) : Z := i16 (get_u16 d off).

(** [sizeof(struct dinode)] *)
Definition DINODE : Z := 64.

Definition enc_dinode (di : dinode) : list Z :=
  le_bytes 2 (di_type di) ++ le_bytes 2 (di_major di) ++ le_bytes 2 (di_minor di) ++
  le_bytes 2 (di_nlink di) ++ le_bytes 4 (di_size di) ++ mjoin (le_bytes 4 <$> di_addrs di).

Definition get_addrs (d : block) (off : Z) : list Z :=
  (fun i => get_u32 d (off + 4 * Z.of_nat i)) <$> seq 0 (Z.to_nat (NDIRECT + 1)).

(** [*((struct dinode * )data + i)] with [off = 64 * i]. *)
Definition get_dinode (d : block) (off : Z) : dinode :=
  mk_dinode (get_i16 d off) (get_i16 d (off + 2)) (get_i16 d (off + 4)) (get_i16 d (off + 6))
    (get_u32 d (off + 8)) (get_addrs d (off + 12)).
Definition put_dinode (d : block) (off : Z) (di : dinode) : block :=
  splice d (Z.to_nat off) (enc_dinode di).

Definition IBLOCK (i : Z) (sb : superblock) : Z := u32 (i / IPB + sb_inodestart sb).
Definition BBLOCK (b : Z) (sb : superblock) : Z := u32 (b / BPB + sb_bmapstart sb).
Definition dinode_off (inum : Z) : Z := DINODE * (inum mod IPB).

(** ** Blocks *)
Definition bzero (dev bno : Z) : M kst unit :=
  bp ← bread dev (u32 bno);
  set_bdata bp (replicate (Z.to_nat BSIZE) 0);;
  log_write bp;;
  brelse bp.

(** Bit [bi] of a bitmap block: [data[bi/8] & (1 << (bi % 8))]. *)
Definition bmask (bi : Z) : Z := Z.shiftl 1 (bi mod 8).
Definition data_at (d : block) (i : Z) : Z := default 0 (d !! Z.to_nat i).
Definition bit_clear (d : block) (bi : Z) : bool := Z.land (data_at d (bi / 8)) (bmask bi) =? 0.
Definition bit_set (d : block) (bi : Z) : block :=
  <[Z.to_nat (bi / 8) := u8 (Z.lor (data_at d (bi / 8)) (bmask bi))]> d.
Definition bit_reset (d : block) (bi : Z) : block :=
  <[Z.to_nat (bi / 8) := u8 (Z.land (data_at d (bi / 8)) (Z.lnot (bmask bi)))]> d.

(** The inner loop of [balloc]: the first free bit from [bi] on. *)
Fixpoint balloc_scan (cnt : nat) (bi b size : Z) (d : block) : option Z :=
  match cnt with
  | O => None
  | S cnt' =>
      if b + bi <? size then
        if bit_clear d bi then Some bi else balloc_scan cnt' (bi + 1) b size d
      else None
  end.

(** The outer loop; [cnt] bitmap blocks are left. *)
Fixpoint balloc_loop (cnt : nat) (dev b : Z) : M kst Z :=
  match cnt with
  | O => panic "balloc: out of blocks"
  | S cnt' =>
      sb ← gets k_sb;
      bp ← bread dev (BBLOCK b sb);
      d ← bdata bp;
      match balloc_scan (Z.to_nat BPB) 0 b (sb_size sb) d with
      | Some bi =>
          set_bdata bp (bit_set d bi);;
          log_write bp;;
          brelse bp;;
          bzero dev (b + bi);;
          mret (b + bi)
      | None =>
          brelse bp;;
          balloc_loop cnt' dev (b + BPB)
      end
  end.

(** Number of iterations of [for(b = 0; b < size; b += BPB)]. *)
Definition balloc_rounds (size : Z) : nat := Z.to_nat ((size + BPB - 1) / BPB).

Definition balloc (dev : Z) : M kst Z :=
  sb ← gets k_sb;
  balloc_loop (balloc_rounds (sb_size sb)) dev 0.

Definition bfree (dev b : Z) : M kst unit :=
  sb ← readsb dev;
  modify (set_k_sb sb);;
  bp ← bread dev (BBLOCK b sb);
  let bi := b mod BPB in
  d ← bdata bp;
  if bit_clear d bi then panic "freeing free block" else
  set_bdata bp (bit_reset d bi);;
  log_write bp;;
  brelse bp.

(** ** Inodes *)
Definition upd_icache (f : list inode -> list inode) : M kst unit :=
  modify (fun k => set_k_icache (f (k_icache k)) k).
Definition upd_inode (ip : nat) (f : inode -> inode) : M kst unit := upd_icache (alter f ip).
Definition inode_at (ip : nat) : M kst inode :=
  k ← get; deref "icache.inode" (k_icache k !! ip).

(** The loop of [iinit] over the sleep locks. *)
Fixpoint iinit_loop (cnt i : nat) : M kst unit :=
  match cnt with
  | O => mret tt
  | S cnt' => initsleeplock (SL_inode i);; iinit_loop cnt' (S i)
  end.

Definition iinit (dev : Z) : M kst unit :=
  initlock L_icache;;
  iinit_loop NINODE 0;;
  sb ← readsb dev;
  modify (set_k_sb sb).

(** The search of [iget]: the cached entry, and the first empty slot seen. *)
Fixpoint iget_find (dev inum : Z) (l : list inode) (i : nat) (empty : option nat) :
    option nat * option nat :=
  match l with
  | [] => (None, empty)
  | ip :: l' =>
      if (i_ref ip >? 0) && (i_dev ip =? dev) && (i_inum ip =? inum) then (Some i, empty)
      else iget_find dev inum l' (S i)
             (match empty with
              | None => if i_ref ip =? 0 then Some i else None
              | Some e => Some e
              end)
  end.

Definition iget (dev inum : Z) : M kst nat :=
  acquire L_icache;;
  l ← gets k_icache;
  match iget_find dev inum l 0 None with
  | (Some ip, _) =>
      upd_inode ip (fun x => set_i_ref (i_ref x + 1) x);;
      release L_icache;;
      mret ip
  | (None, None) => panic "iget: no inodes"
  | (None, Some ip) =>
      upd_inode ip (set_i_dev dev);;
      upd_inode ip (set_i_inum inum);;
      upd_inode ip (set_i_ref 1);;
      upd_inode ip (set_i_flags 0);;
      release L_icache;;
      mret ip
  end.

(** The loop of [ialloc] from [inum]; [cnt] inodes are left. *)
Fixpoint ialloc_loop (cnt : nat) (dev inum type : Z) : M kst nat :=
  match cnt with
  | O => panic "ialloc: no inodes"
  | S cnt' =>
      sb ← gets k_sb;
      bp ← bread dev (IBLOCK inum sb);
      d ← bdata bp;
      if get_i16 d (dinode_off inum) =? 0 then
        set_bdata bp (splice d (Z.to_nat (dinode_off inum))
                        (le_bytes 2 type ++ replicate (Z.to_nat (DINODE - 2)) 0));;
        log_write bp;;
        brelse bp;;
        iget dev inum
      else
        brelse bp;;
        ialloc_loop cnt' dev (inum + 1) type
  end.

Definition ialloc (dev type : Z) : M kst nat :=
  sb ← gets k_sb;
  ialloc_loop (Z.to_nat (sb_ninodes sb - 1)) dev 1 type.

(** The fields that an inode shares with its on-disk copy. *)
Definition dinode_of (ip : inode) : dinode :=
  mk_dinode (i_type ip) (i_major ip) (i_minor ip) (i_nlink ip) (i_size ip) (i_addrs ip).
Definition load_dinode (di : dinode) (ip : inode) : inode :=
  set_i_addrs (di_addrs di) (set_i_size (di_size di) (set_i_nlink (di_nlink di)
    (set_i_minor (di_minor di) (set_i_major (di_major di) (set_i_type (di_type di) ip))))).

Definition iupdate (ip : nat) : M kst unit :=
  x ← inode_at ip;
  sb ← gets k_sb;
  bp ← bread (i_dev x) (IBLOCK (i_inum x) sb);
  d ← bdata bp;
  set_bdata bp (put_dinode d (dinode_off (i_inum x)) (dinode_of x));;
  log_write bp;;
  brelse bp.

Definition idup (ip : nat) : M kst nat :=
  acquire L_icache;;
  upd_inode ip (fun x => set_i_ref (i_ref x + 1) x);;
  release L_icache;;
  mret ip.

Definition ilock (ip : nat) : M kst unit :=
  x ← inode_at ip;
  if i_ref x <? 1 then panic "ilock" else
  acquiresleep (SL_inode ip);;
  x ← inode_at ip;
  if negb (has (i_flags x) I_VALID) then
    sb ← gets k_sb;
    bp ← bread (i_dev x) (IBLOCK (i_inum x) sb);
    d ← bdata bp;
    upd_inode ip (load_dinode (get_dinode d (dinode_off (i_inum x))));;
    brelse bp;;
    upd_inode ip (fun x => set_i_flags (Z.lor (i_flags x) I_VALID) x);;
    x ← inode_at ip;
    if i_type x =? 0 then panic "ilock: no type" else mret tt
  else mret tt.

Definition iunlock (ip : nat) : M kst unit :=
  h ← holdingsleep (SL_inode ip);
  if negb h then panic "iunlock" else
  x ← inode_at ip;
  if i_ref x <? 1 then panic "iunlock" else
  releasesleep (SL_inode ip).

(** The first loop of [itrunc], over the direct blocks from [i] on. *)
Fixpoint itrunc_direct (cnt : nat) (i : Z) (ip : nat) : M kst unit :=
  match cnt with
  | O => mret tt
  | S cnt' =>
      x ← inode_at ip;
      a ← deref "addrs" (i_addrs x !! Z.to_nat i);
      (if a =? 0 then mret tt
       else
         bfree (i_dev x) a;;
         upd_inode ip (fun x => set_i_addrs (<[Z.to_nat i := 0]> (i_addrs x)) x));;
      itrunc_direct cnt' (i + 1) ip
  end.

(** The loop over the entries of the indirect block in buffer [bp]. *)
Fixpoint itrunc_indirect (cnt : nat) (j : Z) (dev : Z) (bp : nat) : M kst unit :=
  match cnt with
  | O => mret tt
  | S cnt' =>
      d ← bdata bp;
      (if get_u32 d (4 * j) =? 0 then mret tt else bfree dev (get_u32 d (4 * j)));;
      itrunc_indirect cnt' (j + 1) dev bp
  end.

Definition itrunc (ip : nat) : M kst unit :=
  itrunc_direct (Z.to_nat NDIRECT) 0 ip;;
  x ← inode_at ip;
  a ← deref "addrs" (i_addrs x !! Z.to_nat NDIRECT);
  (if a =? 0 then mret tt
   else
     bp ← bread (i_dev x) a;
     itrunc_indirect (Z.to_nat NINDIRECT) 0 (i_dev x) bp;;
     brelse bp;;
     bfree (i_dev x) a;;
     upd_inode ip (fun x => set_i_addrs (<[Z.to_nat NDIRECT := 0]> (i_addrs x)) x));;
  upd_inode ip (set_i_size 0);;
  iupdate ip.

Definition iput (ip : nat) : M kst unit :=
  acquire L_icache;;
  x ← inode_at ip;
  (if (i_ref x =? 1) && has (i_flags x) I_VALID && (i_nlink x =? 0) then
     release L_icache;;
     itrunc ip;;
     upd_inode ip (set_i_type 0);;
     iupdate ip;;
     acquire L_icache;;
     upd_inode ip (set_i_flags 0)
   else mret tt);;
  upd_inode ip (fun x => set_i_ref (i_ref x - 1) x);;
  release L_icache.

Definition iunlockput (ip : nat) : M kst unit :=
  iunlock ip;;
  iput ip.

(** ** Inode content *)
Definition bmap (ip : nat) (bn : Z) : M kst Z :=
  x ← inode_at ip;
  if bn <? NDIRECT then
    addr ← deref "addrs" (i_addrs x !! Z.to_nat bn);
    if addr =? 0 then
      addr ← balloc (i_dev x);
      upd_inode ip (fun x => set_i_addrs (<[Z.to_nat bn := addr]> (i_addrs x)) x);;
      mret addr
    else mret addr
  else
    let bn := bn - NDIRECT in
    if bn <? NINDIRECT then
      addr ← deref "addrs" (i_addrs x !! Z.to_nat NDIRECT);
      addr ← (if addr =? 0 then
                addr ← balloc (i_dev x);
                upd_inode ip (fun x => set_i_addrs (<[Z.to_nat NDIRECT := addr]> (i_addrs x)) x);;
                mret addr
              else mret addr);
      bp ← bread (i_dev x) addr;
      a ← bdata bp;
      addr ← (if get_u32 a (4 * bn) =? 0 then
                addr ← balloc (i_dev x);
                a ← bdata bp;
                set_bdata bp (put_u32 a (4 * bn) addr);;
                log_write bp;;
                mret addr
              else mret (get_u32 a (4 * bn)));
      brelse bp;;
      mret addr
    else panic "bmap: out of range".

(** [struct stat] *)
Record stat : Type := mk_stat {
  st_type : Z;
  st_dev : Z;
  st_ino : Z;
  st_nlink : Z;
  st_size : Z
}.

Definition stati (ip : nat) : M kst stat :=
  x ← inode_at ip;
  mret (mk_stat (i_type x) (i_dev x) (i_inum x) (i_nlink x) (i_size x)).
