(* ===== verification/FsDemo.v ===== *)
(** A small formatted disk on which the file system's theorems are instantiated: 64
    blocks with the layout of [src/fs.h], a root directory with three entries and
    a file that uses its indirect block. *)
From Stdlib Require Import ZArith Lia.
From stdpp Require Import base gmap sets strings numbers list.
From S2P Require Import Prelude State Spinlock Sched Bio Log Blk Crash LogOps Txn Fs.

Local Open Scope Z_scope.

(** Size, data blocks, inodes, log blocks; log, inodes and bitmap start. *)
Definition demo_sb : superblock := mk_superblock 64 30 8 30 2 32 33.

Definition pad (bs : list Z) : block := take (Z.to_nat BSIZE) (bs ++ replicate (Z.to_nat BSIZE) 0).

Definition demo_root : dinode := mk_dinode T_DIR 0 0 1 48 (34 :: replicate 12 0).
(** Blocks 35 to 46, the indirect block 47 and the block 48 that it names. *)
Definition demo_file : dinode :=
  mk_dinode T_FILE 0 0 1 6244 [35; 36; 37; 38; 39; 40; 41; 42; 43; 44; 45; 46; 47].

Definition demo_name (l : list Z) : list Z := take 14 (l ++ replicate 14 0).
Definition demo_img : list block :=
  [ pad [];
    pad (mjoin (le_bytes 4 <$> [64; 30; 8; 30; 2; 32; 33])) ] ++
  replicate 30 (pad []) ++
  [ pad (replicate 64 0 ++ enc_dinode demo_root ++ enc_dinode demo_file);
    pad (replicate 6 255 ++ [1]);
    pad (le_bytes 2 1 ++ demo_name [46] ++ le_bytes 2 1 ++ demo_name [46; 46] ++
         le_bytes 2 2 ++ demo_name [97]) ] ++
  ((fun b => replicate (Z.to_nat BSIZE) b) <$> seqZ 35 12) ++
  [ pad (le_bytes 4 48); replicate (Z.to_nat BSIZE) 48 ] ++ replicate 15 (pad []).

Definition demo_fs : kst := set_k_sb demo_sb (boot demo_img 2 30 1).

Lemma length_demo_img : length demo_img = 64%nat.
Proof. vm_compute. reflexivity. Qed.

Lemma demo_disksize : disksize demo_fs = 64.
Proof. vm_compute. reflexivity. Qed.

Lemma demo_img_blocks : Forall (fun d => length d = Z.to_nat BSIZE) demo_img.
Proof. apply Forall_forall. intros d Hd. apply list_elem_of_In in Hd.
  assert (E : forallb (fun d => bool_decide (length d = Z.to_nat BSIZE)) demo_img = true)
    by (vm_compute; reflexivity).
  rewrite forallb_forall in E. apply E in Hd. by apply bool_decide_eq_true in Hd.
Qed.

Lemma demo_txn_fs : txn demo_fs (dblk demo_img) 2 30 [] [] [].
Proof.
  apply txn_set_sb, boot_txn.
  - apply demo_img_blocks.
  - unfold LOGSIZE, MAXOPBLOCKS. lia.
  - lia.
  - rewrite length_demo_img. lia.
  - vm_compute. reflexivity.
Qed.

Lemma demo_decode_sb : decode_sb (dblk demo_img 1) = demo_sb.
Proof. vm_compute. reflexivity. Qed.

(** The disk with an unlocked, unread cache entry for inode 2. *)
Definition demo_inode : inode := set_i_dev ROOTDEV (set_i_inum 2 (set_i_ref 1 zero_inode)).
Definition demo_icache : list inode := demo_inode :: replicate 49 zero_inode.
Definition demo_ifs : kst := set_k_icache demo_icache demo_fs.

Lemma demo_txn_ifs : txn demo_ifs (dblk demo_img) 2 30 [] [] [].
Proof. apply txn_set_icache, demo_txn_fs. Qed.

Lemma demo_ifs_disksize : disksize demo_ifs = 64.
Proof. vm_compute. reflexivity. Qed.

Lemma demo_ifs_iblock : IBLOCK 2 (k_sb demo_ifs) = 32.
Proof. vm_compute. reflexivity. Qed.
