(* ===== verification/FsAlloc.v ===== *)
(** The block allocator of [src/fs.c], proved against its abstract contract: the
    bitmap is a set of free blocks, [balloc] takes the smallest one out and
    zeroes it, [bfree] puts one back. *)
From Stdlib Require Import ZArith Lia.
From stdpp Require Import base gmap sets strings numbers list.
From S2P Require Import Prelude State Spinlock Sched Bio Log Blk Crash LogOps Txn Fs FsDemo.

Local Open Scope Z_scope.

(** ** Bits of a bitmap block *)
Lemma bit_clear_testbit d bi :
  bit_clear d bi = negb (Z.testbit (data_at d (bi / 8)) (bi mod 8)).
Proof.
  unfold bit_clear, bmask. set (x := data_at d (bi / 8)).
  pose proof (Z.mod_pos_bound bi 8 ltac:(lia)) as Hn. set (n := bi mod 8) in *.
  destruct (Z.testbit x n) eqn:E; simpl.
  - apply Z.eqb_neq. intros H0. apply (f_equal (fun z => Z.testbit z n)) in H0.
    rewrite Z.land_spec, Z.shiftl_spec, Z.sub_diag, E, Z.bits_0 in H0 by lia. done.
  - apply Z.eqb_eq, Z.bits_inj'. intros m Hm. rewrite Z.land_spec, Z.bits_0.
    destruct (decide (m = n)) as [->|]; [by rewrite E|].
    rewrite Z.shiftl_spec by lia. destruct (decide (m < n)).
    + rewrite (Z.testbit_neg_r 1) by lia. apply andb_false_r.
    + rewrite (Z.bits_above_log2 1 (m - n)); [apply andb_false_r|lia|simpl; lia].
Qed.

Lemma testbit_u8 x n : 0 <= n < 8 -> Z.testbit (u8 x) n = Z.testbit x n.
Proof. intros. unfold u8. rewrite Z.mod_pow2_bits_low; [done|lia]. Qed.

Lemma testbit_bmask bi n : 0 <= n -> Z.testbit (bmask bi) n = bool_decide (n = bi mod 8).
Proof.
  intros Hn. unfold bmask. pose proof (Z.mod_pos_bound bi 8 ltac:(lia)).
  rewrite Z.shiftl_spec by lia. destruct (decide (n = bi mod 8)) as [->|].
  - rewrite Z.sub_diag. by rewrite bool_decide_true.
  - rewrite bool_decide_false by done. destruct (decide (n < bi mod 8)).
    + apply Z.testbit_neg_r. lia.
    + apply Z.bits_above_log2; simpl; lia.
Qed.

Lemma data_at_insert d i j v :
  0 <= i < Z.of_nat (length d) -> 0 <= j ->
  data_at (<[Z.to_nat i := v]> d) j = if decide (j = i) then v else data_at d j.
Proof.
  intros Hi Hj. unfold data_at. case_decide; subst.
  - by rewrite list_lookup_insert_eq by lia.
  - by rewrite list_lookup_insert_ne by lia.
Qed.

(** Changing the byte of bit [bi] with a function that acts on that bit alone. *)
Lemma bit_update d bi bi' (f : Z -> Z) (v : bool) :
  0 <= bi < 8 * Z.of_nat (length d) -> 0 <= bi' < 8 * Z.of_nat (length d) ->
  (forall x n, 0 <= n < 8 -> Z.testbit (f x) n = if decide (n = bi mod 8) then v else Z.testbit x n) ->
  bit_clear (<[Z.to_nat (bi / 8) := f (data_at d (bi / 8))]> d) bi' =
    if decide (bi' = bi) then negb v else bit_clear d bi'.
Proof.
  intros Hb Hb' Hf. rewrite !bit_clear_testbit.
  pose proof (Z.mod_pos_bound bi' 8 ltac:(lia)). pose proof (Z.mod_pos_bound bi 8 ltac:(lia)).
  pose proof (Z.div_mod bi 8 ltac:(lia)). pose proof (Z.div_mod bi' 8 ltac:(lia)).
  rewrite data_at_insert by lia. destruct (decide (bi' / 8 = bi / 8)) as [E|E].
  - rewrite Hf by lia. rewrite E. destruct (decide (bi' = bi)) as [->|]; [by rewrite decide_True|].
    by rewrite decide_False by lia.
  - by rewrite decide_False by congruence.
Qed.

Lemma bit_clear_set d bi bi' :
  0 <= bi < 8 * Z.of_nat (length d) -> 0 <= bi' < 8 * Z.of_nat (length d) ->
  bit_clear (bit_set d bi) bi' = if decide (bi' = bi) then false else bit_clear d bi'.
Proof.
  intros. unfold bit_set.
  apply (bit_update d bi bi' (fun x => u8 (Z.lor x (bmask bi))) true); [done|done|].
  intros x n Hn. rewrite testbit_u8, Z.lor_spec, testbit_bmask by lia.
  case_decide; [rewrite bool_decide_true by done; apply orb_true_r|].
  rewrite bool_decide_false by done. apply orb_false_r.
Qed.

Lemma bit_clear_reset d bi bi' :
  0 <= bi < 8 * Z.of_nat (length d) -> 0 <= bi' < 8 * Z.of_nat (length d) ->
  bit_clear (bit_reset d bi) bi' = if decide (bi' = bi) then true else bit_clear d bi'.
Proof.
  intros. unfold bit_reset.
  apply (bit_update d bi bi' (fun x => u8 (Z.land x (Z.lnot (bmask bi)))) false); [done|done|].
  intros x n Hn. rewrite testbit_u8, Z.land_spec, Z.lnot_spec, testbit_bmask by lia.
  case_decide; [rewrite bool_decide_true by done; apply andb_false_r|].
  rewrite bool_decide_false by done. apply andb_true_r.
Qed.

(** ** The abstract bitmap *)

(** Whether block [b] is free on the logical disk [L]. *)
Definition is_free (sb : superblock) (L : Z -> block) (b : Z) : bool :=
  bit_clear (L (BBLOCK b sb)) (b mod BPB).

(** A bitmap that describes a disk of [dsize] blocks with the log at
    [s .. s + lsize]: its blocks are on the disk, outside the log; neither they
    nor the log's blocks are free. *)
Record bitmap_ok (sb : superblock) (L : Z -> block) (s lsize dsize : Z) : Prop := mk_bitmap_ok {
  bm_size : 0 <= sb_size sb <= dsize;
  bm_max : dsize < 2 ^ 31;
  bm_block : forall b, 0 <= b < sb_size sb ->
    0 <= BBLOCK b sb < dsize /\ ~ (s <= BBLOCK b sb < s + lsize);
  bm_start : 0 <= sb_bmapstart sb < 2 ^ 31;
  bm_free : forall b, 0 <= b < sb_size sb -> is_free sb L b = true ->
    ~ (s <= b < s + lsize) /\ forall b', 0 <= b' < sb_size sb -> BBLOCK b' sb <> b
}.

Lemma BBLOCK_eq sb L s lsize dsize b :
  bitmap_ok sb L s lsize dsize -> 0 <= b < sb_size sb -> BBLOCK b sb = b / BPB + sb_bmapstart sb.
Proof.
  intros H Hb. unfold BBLOCK. pose proof (bm_start _ _ _ _ _ H). pose proof (bm_max _ _ _ _ _ H).
  pose proof (bm_size _ _ _ _ _ H). change BPB with 4096.
  pose proof (Z.div_pos b 4096 ltac:(lia) ltac:(lia)).
  pose proof (Z.div_le_upper_bound b 4096 b ltac:(lia) ltac:(lia)).
  apply u32_small. lia.
Qed.

(** Two blocks with the same bitmap block and the same bit are the same block. *)
Lemma BBLOCK_inj sb L s lsize dsize b b' :
  bitmap_ok sb L s lsize dsize -> 0 <= b < sb_size sb -> 0 <= b' < sb_size sb ->
  BBLOCK b sb = BBLOCK b' sb -> b mod BPB = b' mod BPB -> b = b'.
Proof.
  intros H Hb Hb' E Em. rewrite !(BBLOCK_eq _ _ _ _ _ _ H) in E by done.
  assert (b / BPB = b' / BPB) as E' by lia. change BPB with 4096 in *.
  pose proof (Z.div_mod b 4096 ltac:(lia)). pose proof (Z.div_mod b' 4096 ltac:(lia)). lia.
Qed.

Lemma is_free_mark sb L s lsize dsize b b' (d : block) (v : bool) :
  bitmap_ok sb L s lsize dsize -> 0 <= b < sb_size sb -> 0 <= b' < sb_size sb ->
  (forall bi, 0 <= bi < BPB ->
     bit_clear d bi = if decide (bi = b mod BPB) then v else bit_clear (L (BBLOCK b sb)) bi) ->
  is_free sb (bupd L (BBLOCK b sb) d) b' = if decide (b' = b) then v else is_free sb L b'.
Proof.
  intros H Hb Hb' Hd. unfold is_free. destruct (decide (BBLOCK b' sb = BBLOCK b sb)) as [E|E].
  - rewrite E, bupd_eq, Hd by (apply Z.mod_pos_bound; done).
    destruct (decide (b' = b)) as [->|Hne]; [by rewrite decide_True|].
    rewrite decide_False; [done|]. intros Em. by apply Hne, (BBLOCK_inj _ _ _ _ _ _ _ H).
  - rewrite bupd_ne by done. rewrite decide_False by congruence. done.
Qed.

Lemma is_free_other sb L b d b' :
  BBLOCK b' sb <> b -> is_free sb (bupd L b d) b' = is_free sb L b'.
Proof. intros. unfold is_free. by rewrite bupd_ne. Qed.

(** ** [balloc] *)
Lemma balloc_scan_spec cnt bi b size d :
  match balloc_scan cnt bi b size d with
  | Some r => bi <= r < bi + Z.of_nat cnt /\ b + r < size /\ bit_clear d r = true /\
      forall j, bi <= j < r -> bit_clear d j = false
  | None => forall j, bi <= j < bi + Z.of_nat cnt -> b + j < size -> bit_clear d j = false
  end.
Proof.
  revert bi. induction cnt as [|cnt IH]; intros bi; cbn [balloc_scan]; [intros; lia|].
  destruct (Z.ltb_spec (b + bi) size); [|intros; lia].
  destruct (bit_clear d bi) eqn:E; [split_and!; try done; lia|].
  specialize (IH (bi + 1)). destruct (balloc_scan cnt (bi + 1) b size d) as [r|].
  - destruct IH as (? & ? & ? & IH). split_and!; try done; try lia. intros j Hj.
    destruct (decide (j = bi)) as [->|]; [done|]. apply IH. lia.
  - intros j Hj. destruct (decide (j = bi)) as [->|]; [done|]. apply IH. lia.
Qed.

Definition least_free (sb : superblock) (L : Z -> block) (r : Z) : Prop :=
  0 <= r < sb_size sb /\ is_free sb L r = true /\ forall x, 0 <= x < r -> is_free sb L x = false.

(** The logical disk after allocating [r]. *)
Definition allocated (sb : superblock) (L : Z -> block) (r : Z) : Z -> block :=
  bupd (bupd L (BBLOCK r sb) (bit_set (L (BBLOCK r sb)) (r mod BPB)))
    r (replicate (Z.to_nat BSIZE) 0).

(** The blocks that the caller holds are not the allocator's. *)
Definition held_apart (sb : superblock) (L : Z -> block) (Hd : list (nat * Z)) : Prop :=
  forall x, x ∈ Hd.*2 -> is_free sb L x = false /\ forall b, 0 <= b < sb_size sb -> BBLOCK b sb <> x.

Lemma length_bit_set d bi : length (bit_set d bi) = length d.
Proof. apply length_insert. Qed.
Lemma length_bit_reset d bi : length (bit_reset d bi) = length d.
Proof. apply length_insert. Qed.

Section balloc_proof.
Context (k0 : kst) (L : Z -> block) (s lsize : Z) (hs : list Z) (Hd : list (nat * Z)).
Let sb := k_sb k0.
Context (Hout : 1 <= log_outstanding (k_log k0)).
Context (Hbm : bitmap_ok sb L s lsize (disksize k0)) (Hap : held_apart sb L Hd).
Context (Hlog : Z.of_nat (length hs) + 2 < lsize) (Hbuf : (S (length hs + length Hd) < NBUF)%nat).

(** What [balloc] leaves when it returns [r]. *)
Definition balloc_post (r a : Z) (k' : kst) : Prop :=
  a = r /\ exists hs', intx k0 k' (allocated sb L r) s lsize hs' [] Hd /\
    (length hs' <= S (S (length hs)))%nat /\
    forall x, x ∈ u32 <$> hs' <-> x = r \/ x = BBLOCK r sb \/ x ∈ u32 <$> hs.

Lemma wp_bzero k1 L1 hs1 r (Q : unit -> kst -> Prop) :
  intx k0 k1 L1 s lsize hs1 [] Hd -> 0 <= r < disksize k0 -> r ∉ Hd.*2 ->
  ~ (s <= r < s + lsize) -> (length hs1 <= S (length hs))%nat ->
  (forall hs' k', intx k0 k' (bupd L1 r (replicate (Z.to_nat BSIZE) 0)) s lsize hs' [] Hd ->
     (length hs' <= S (length hs1))%nat ->
     (forall x, x ∈ u32 <$> hs' <-> x = r \/ x ∈ u32 <$> hs1) -> Q tt k') ->
  wp (bzero ROOTDEV r) Q k1.
Proof.
  intros H1 Hr Hn Hna Hle HQ. unfold bzero. pose proof (bm_max _ _ _ _ _ Hbm).
  rewrite u32_small by lia. apply wp_bind. eapply wp_tx_bread; [exact H1|done|done|lia|].
  intros i k2 H2. eapply wp_tx_store; [exact H2|done|apply length_replicate|done|lia|lia|done].
Qed.

(** The round that finds the free bit [bi] of the bitmap block of [b]. *)
Lemma balloc_found k1 i b bi :
  intx k0 k1 L s lsize hs [] ((i, BBLOCK (b + bi) sb) :: Hd) ->
  least_free sb L (b + bi) -> (b + bi) mod BPB = bi ->
  wp (set_bdata i (bit_set (L (BBLOCK (b + bi) sb)) bi);; log_write i;; brelse i;;
      bzero ROOTDEV (b + bi);; mret (b + bi)) (balloc_post (b + bi)) k1.
Proof.
  intros H1 (Hr & Hf & _) Hm. set (r := b + bi) in *.
  destruct (bm_block _ _ _ _ _ Hbm r Hr) as [Hbb Hbl].
  destruct (bm_free _ _ _ _ _ Hbm r Hr Hf) as [Hrl Hrb].
  pose proof (bm_size _ _ _ _ _ Hbm). pose proof (bm_max _ _ _ _ _ Hbm).
  assert (Hrn : r ∉ Hd.*2) by (intros Hin; destruct (Hap r Hin); congruence).
  eapply wp_tx_store_then; [exact H1|done| |done|lia|lia|].
  { rewrite length_bit_set. eapply ix_held_len; [exact H1|left]. }
  intros hs1 k2 H2 Hle1 Hx1. apply wp_bind. eapply wp_bzero; [exact H2|lia|done|done|done|].
  intros hs2 k3 H3 Hle2 Hx2. apply wp_ret. split; [done|]. exists hs2. unfold allocated. rewrite Hm.
  split_and!; [done|lia|]. intros x. rewrite Hx2, Hx1. done.
Qed.

(** The bits of the bitmap block of [b], a multiple of [BPB], are those of [b + bi]. *)
Lemma bitmap_in b bi :
  0 <= b -> b mod BPB = 0 -> 0 <= bi < BPB -> b + bi < sb_size sb ->
  BBLOCK (b + bi) sb = BBLOCK b sb /\ (b + bi) mod BPB = bi.
Proof.
  intros Hb Hmod Hbi Hlt. change BPB with 4096 in *. pose proof (Z.div_mod b 4096 ltac:(lia)). split.
  - rewrite !(BBLOCK_eq _ _ _ _ _ _ Hbm) by lia. change BPB with 4096. f_equal.
    symmetry. apply (Z.div_unique (b + bi) 4096 (b / 4096) bi); lia.
  - rewrite Z.add_mod, Hmod, Z.add_0_l, Z.mod_mod, Z.mod_small by lia. done.
Qed.

Lemma is_free_in b bi :
  0 <= b -> b mod BPB = 0 -> 0 <= bi < BPB -> b + bi < sb_size sb ->
  is_free sb L (b + bi) = bit_clear (L (BBLOCK b sb)) bi.
Proof. intros. unfold is_free. destruct (bitmap_in b bi) as [-> ->]; done. Qed.

(** One round of the outer loop, up to its decision. *)
Lemma balloc_round cnt k1 b :
  intx k0 k1 L s lsize hs [] Hd -> 0 <= b < sb_size sb ->
  exists i k2, intx k0 k2 L s lsize hs [] ((i, BBLOCK b sb) :: Hd) /\
    balloc_loop (S cnt) ROOTDEV b k1 =
      match balloc_scan (Z.to_nat BPB) 0 b (sb_size sb) (L (BBLOCK b sb)) with
      | Some bi => (set_bdata i (bit_set (L (BBLOCK b sb)) bi);; log_write i;; brelse i;;
                    bzero ROOTDEV (b + bi);; mret (b + bi)) k2
      | None => (brelse i;; balloc_loop cnt ROOTDEV (b + BPB)) k2
      end.
Proof.
  intros H1 Hb. destruct (bm_block _ _ _ _ _ Hbm b Hb) as [Hbb Hbl].
  assert (wp (bread ROOTDEV (BBLOCK b sb))
    (fun i k2 => intx k0 k2 L s lsize hs [] ((i, BBLOCK b sb) :: Hd)) k1) as Hw.
  { eapply wp_tx_bread; [exact H1|done| |lia|done].
    intros Hx. destruct (Hap _ Hx) as [_ Hx']. by apply (Hx' b). }
  apply wp_ok in Hw as (i & k2 & E & H2). exists i, k2. split; [done|]. cbn [balloc_loop].
  rewrite (bind_ok _ _ k1 sb k1)
    by (unfold gets; by rewrite (tframe_sb _ _ (ix_frame _ _ _ _ _ _ _ _ H1))).
  rewrite (bind_ok _ _ _ _ _ E). erewrite bind_ok.
  2: { eapply blk_bdata; [apply (tx_blk _ _ _ _ _ _ _ (ix_txn _ _ _ _ _ _ _ _ H2))|left]. }
  by destruct (balloc_scan _ _ _ _ _).
Qed.

Lemma balloc_loop_spec cnt k1 b :
  intx k0 k1 L s lsize hs [] Hd -> 0 <= b -> b mod BPB = 0 ->
  (forall x, 0 <= x < b -> x < sb_size sb -> is_free sb L x = false) ->
  sb_size sb <= b + Z.of_nat cnt * BPB ->
  (cnt = O \/ b + (Z.of_nat cnt - 1) * BPB < sb_size sb) ->
  (exists r, least_free sb L r /\ wp (balloc_loop cnt ROOTDEV b) (balloc_post r) k1) \/
  ((forall x, 0 <= x < sb_size sb -> is_free sb L x = false) /\
   balloc_loop cnt ROOTDEV b k1 = Err (EPanic "balloc: out of blocks")).
Proof.
  revert k1 b. induction cnt as [|cnt IH]; intros k1 b H1 Hb Hmod Hno Hhi Hlo.
  { right. split; [|done]. intros. apply Hno; lia. }
  destruct Hlo as [?|Hlo]; [done|]. assert (HB : BPB = 4096) by done.
  destruct (balloc_round cnt k1 b H1) as (i & k2 & H2 & E); [lia|]. unfold wp. rewrite E. clear E.
  pose proof (balloc_scan_spec (Z.to_nat BPB) 0 b (sb_size sb) (L (BBLOCK b sb))) as Hs.
  rewrite Z2Nat.id, Z.add_0_l in Hs by lia.
  destruct (balloc_scan (Z.to_nat BPB) 0 b (sb_size sb) (L (BBLOCK b sb))) as [bi|].
  - left. destruct Hs as (Hbi & Hlt & Hc & Hfirst). exists (b + bi).
    assert (least_free sb L (b + bi)) as Hlf.
    { split_and!; [lia|lia|by rewrite is_free_in by lia|]. intros x Hx.
      destruct (decide (x < b)); [apply Hno; lia|]. replace x with (b + (x - b)) by lia.
      rewrite is_free_in by lia. apply Hfirst. lia. }
    split; [done|]. destruct (bitmap_in b bi) as [Hbk Hm]; [lia..|].
    rewrite <- Hbk in *. by apply balloc_found.
  - assert (wp (brelse i) (fun _ k3 => intx k0 k3 L s lsize hs [] Hd) k2) as Hw.
    { eapply wp_tx_brelse; [exact H2|done|apply not_elem_of_nil|done]. }
    apply wp_ok in Hw as ([] & k3 & E3 & H3). rewrite (bind_ok _ _ _ _ _ E3).
    apply IH; [done|lia| | |lia|lia].
    + by rewrite HB, Z.add_mod, <- HB, Hmod by lia.
    + intros x Hx Hlt. destruct (decide (x < b)); [apply Hno; lia|].
      replace x with (b + (x - b)) by lia. rewrite is_free_in by lia. apply Hs; lia.
Qed.

Lemma is_free_allocated r b :
  least_free sb L r -> length (L (BBLOCK r sb)) = Z.to_nat BSIZE -> 0 <= b < sb_size sb ->
  is_free sb (allocated sb L r) b = if decide (b = r) then false else is_free sb L b.
Proof.
  intros (Hr & Hf & _) Hl Hb. destruct (bm_free _ _ _ _ _ Hbm r Hr Hf) as [_ Hrb].
  unfold allocated. rewrite is_free_other by by apply Hrb.
  apply (is_free_mark _ _ _ _ _ _ _ _ _ Hbm); [done|done|]. intros bi Hbi.
  assert (HB : BPB = 8 * BSIZE) by done. pose proof (Z.mod_pos_bound r BPB ltac:(done)).
  apply bit_clear_set; lia.
Qed.

Lemma allocated_bitmap_ok r :
  least_free sb L r -> length (L (BBLOCK r sb)) = Z.to_nat BSIZE ->
  bitmap_ok sb (allocated sb L r) s lsize (disksize k0).
Proof.
  intros Hr Hl. destruct Hbm as [H1 H2 H3 H4 H5]. constructor; try done.
  intros b Hb Hf. rewrite is_free_allocated in Hf by done. apply H5; [done|]. by case_decide.
Qed.
End balloc_proof.

(** Every block of the logical disk has its size. *)
Lemma intx_block_len k0 k L s lsize hs Hd x :
  intx k0 k L s lsize hs [] Hd -> 0 <= x < disksize k0 -> length (L x) = Z.to_nat BSIZE.
Proof.
  intros H Hx. rewrite <- (ix_disksize _ _ _ _ _ _ _ _ H) in Hx.
  pose proof (tx_blk _ _ _ _ _ _ _ (ix_txn _ _ _ _ _ _ _ _ H)) as Hb.
  destruct (decide (x ∈ u32 <$> hs)) as [Hin|Hin].
  - destruct (blk_G _ _ _ _ _ Hb x Hin) as (i & Hi & Hf & <-).
    destruct (blk_bufs _ _ _ _ _ Hb i Hi) as [_ _ B3 _ B5 _ _].
    destruct (B3 ltac:(lia)) as (_ & _ & <-). done.
  - apply (proj1 (Forall_lookup _ _) (blk_dlen _ _ _ _ _ Hb) (Z.to_nat x)).
    apply (blk_clean _ _ _ _ _ Hb); [done|done|apply not_elem_of_nil].
Qed.

(** The run of [balloc] from a transaction. *)
Lemma balloc_run k0 k L s lsize hs Hd :
  intx k0 k L s lsize hs [] Hd -> 1 <= log_outstanding (k_log k0) ->
  bitmap_ok (k_sb k0) L s lsize (disksize k0) -> held_apart (k_sb k0) L Hd ->
  Z.of_nat (length hs) + 2 < lsize -> (S (length hs + length Hd) < NBUF)%nat ->
  (exists r, least_free (k_sb k0) L r /\ wp (balloc ROOTDEV) (balloc_post k0 L s lsize hs Hd r) k) \/
  ((forall x, 0 <= x < sb_size (k_sb k0) -> is_free (k_sb k0) L x = false) /\
   balloc ROOTDEV k = Err (EPanic "balloc: out of blocks")).
Proof.
  intros H Hout Hbm Hap Hlog Hbuf. unfold balloc, wp.
  rewrite (bind_ok _ _ k (k_sb k0) k)
    by (unfold gets; by rewrite (tframe_sb _ _ (ix_frame _ _ _ _ _ _ _ _ H))).
  pose proof (bm_size _ _ _ _ _ Hbm) as Hsz. set (n := sb_size (k_sb k0)) in *.
  pose proof (Z.div_mod (n + BPB - 1) BPB ltac:(done)) as Hdm.
  pose proof (Z.mod_pos_bound (n + BPB - 1) BPB ltac:(done)) as Hmb.
  assert (HB : BPB = 4096) by done. rewrite HB in *.
  assert (Hq : 0 <= (n + 4096 - 1) / 4096) by (apply Z.div_pos; lia).
  apply balloc_loop_spec; try done; unfold balloc_rounds; rewrite ?HB; fold n.
  - intros. lia.
  - rewrite Z2Nat.id by done. lia.
  - destruct (decide ((n + 4096 - 1) / 4096 = 0)) as [->|]; [by left|right].
    rewrite Z2Nat.id by done. lia.
Qed.

(** ** [bfree] *)

(** The logical disk after freeing [b]. *)
Definition released (sb : superblock) (L : Z -> block) (b : Z) : Z -> block :=
  bupd L (BBLOCK b sb) (bit_reset (L (BBLOCK b sb)) (b mod BPB)).

Section bfree_proof.
Context (k0 : kst) (L : Z -> block) (s lsize : Z) (hs : list Z) (Hd : list (nat * Z)).
Let sb := k_sb k0.
Context (Hbm : bitmap_ok sb L s lsize (disksize k0)) (Hap : held_apart sb L Hd).
Context (Hsb : decode_sb (L 1) = sb) (H1 : 1 < disksize k0) (H1d : 1 ∉ Hd.*2).
Context (Hlog : Z.of_nat (length hs) + 1 < lsize) (Hbuf : (length hs + length Hd < NBUF)%nat).

(** [bfree] up to the test of the bit. *)
Lemma bfree_start k b :
  intx k0 k L s lsize hs [] Hd -> 0 <= b < sb_size sb ->
  exists i k', intx k0 k' L s lsize hs [] ((i, BBLOCK b sb) :: Hd) /\
    bfree ROOTDEV b k =
      (if is_free sb L b then panic "freeing free block" else
       set_bdata i (bit_reset (L (BBLOCK b sb)) (b mod BPB));; log_write i;; brelse i) k'.
Proof.
  intros H Hb. assert (wp (readsb ROOTDEV) (fun a k' => a = sb /\ intx k0 k' L s lsize hs [] Hd) k) as Hw.
  { unfold readsb. apply wp_bind. eapply wp_tx_bread; [exact H|lia|done|lia|]. intros i k1 Hk1.
    apply wp_bind. eapply wp_tx_bdata; [exact Hk1|left|]. apply wp_bind.
    eapply wp_tx_brelse; [exact Hk1|done|apply not_elem_of_nil|]. intros k2 Hk2.
    apply wp_ret. by rewrite Hsb. }
  apply wp_ok in Hw as (? & k1 & E1 & -> & Hk1). unfold bfree.
  rewrite (bind_ok _ _ _ _ _ E1). rewrite (bind_ok _ _ k1 tt k1).
  2: { unfold modify. f_equal. subst sb. rewrite <- (tframe_sb _ _ (ix_frame _ _ _ _ _ _ _ _ Hk1)).
       by destruct k1. }
  destruct (bm_block _ _ _ _ _ Hbm b Hb) as [Hbb _].
  assert (wp (bread ROOTDEV (BBLOCK b sb))
    (fun i k2 => intx k0 k2 L s lsize hs [] ((i, BBLOCK b sb) :: Hd)) k1) as Hw.
  { eapply wp_tx_bread; [exact Hk1|done| |lia|done].
    intros Hx. destruct (Hap _ Hx) as [_ Hx']. by apply (Hx' b). }
  apply wp_ok in Hw as (i & k2 & E2 & Hk2). exists i, k2. split; [done|].
  rewrite (bind_ok _ _ _ _ _ E2). erewrite bind_ok; [done|].
  eapply blk_bdata; [apply (tx_blk _ _ _ _ _ _ _ (ix_txn _ _ _ _ _ _ _ _ Hk2))|left].
Qed.

Lemma is_free_released b b' :
  length (L (BBLOCK b sb)) = Z.to_nat BSIZE -> 0 <= b < sb_size sb -> 0 <= b' < sb_size sb ->
  is_free sb (released sb L b) b' = if decide (b' = b) then true else is_free sb L b'.
Proof.
  intros Hl Hb Hb'. apply (is_free_mark _ _ _ _ _ _ _ _ _ Hbm); [done|done|]. intros bi Hbi.
  assert (HB : BPB = 8 * BSIZE) by done. pose proof (Z.mod_pos_bound b BPB ltac:(done)).
  apply bit_clear_reset; lia.
Qed.
End bfree_proof.

(** ** Properties *)

(** C18: [balloc] implements allocation from a set of free blocks.  If the bitmap has a
    free block, it returns the smallest one; that block is then marked in use
    and all zero, the state of every other block is unchanged, no block but it
    and its bitmap block is modified, both are in the transaction, and the
    bitmap stays well formed.  If there is none it panics. *)
Theorem balloc_spec k L s lsize hs Hd :
  txn k L s lsize hs [] Hd -> 1 <= log_outstanding (k_log k) ->
  let sb := k_sb k in
  bitmap_ok sb L s lsize (disksize k) -> held_apart sb L Hd ->
  Z.of_nat (length hs) + 2 < lsize -> (S (length hs + length Hd) < NBUF)%nat ->
  (exists r k' L' hs', balloc ROOTDEV k = Ok r k' /\ least_free sb L r /\
     txn k' L' s lsize hs' [] Hd /\ tframe k k' /\
     (forall x, x ∈ u32 <$> hs' <-> x = r \/ x = BBLOCK r sb \/ x ∈ u32 <$> hs) /\
     L' r = replicate (Z.to_nat BSIZE) 0 /\
     (forall x, x <> r -> x <> BBLOCK r sb -> L' x = L x) /\
     (forall b, 0 <= b < sb_size sb ->
        is_free sb L' b = if decide (b = r) then false else is_free sb L b) /\
     bitmap_ok sb L' s lsize (disksize k)) \/
  ((forall x, 0 <= x < sb_size sb -> is_free sb L x = false) /\
   balloc ROOTDEV k = Err (EPanic "balloc: out of blocks")).
Proof.
  intros Ht Ho sb Hbm Hap Hlog Hbuf. pose proof (intx_start _ _ _ _ _ _ _ Ht) as Hi.
  destruct (balloc_run k k L s lsize hs Hd Hi Ho Hbm Hap Hlog Hbuf) as [(r & Hr & Hw)|Hn]; [left|by right].
  apply wp_ok in Hw as (a & k' & E & -> & hs' & H' & _ & Hx). exists r, k', (allocated sb L r), hs'.
  assert (Hl : length (L (BBLOCK r sb)) = Z.to_nat BSIZE)
    by (apply (intx_block_len _ _ _ _ _ _ _ _ Hi), (bm_block _ _ _ _ _ Hbm), Hr).
  split_and!; [done|done|apply H'|apply H'|done|unfold allocated; by rewrite bupd_eq| | |].
  - intros x Hx1 Hx2. unfold allocated. by rewrite !bupd_ne.
  - intros b Hb. by eapply (is_free_allocated k).
  - by eapply (allocated_bitmap_ok k).
Qed.

Lemma demo_bitmap_ok : bitmap_ok demo_sb (dblk demo_img) 2 30 (disksize demo_fs).
Proof.
  assert (HB : forall b, 0 <= b < 64 -> BBLOCK b demo_sb = 33).
  { intros b Hb. unfold BBLOCK. rewrite Z.div_small; [reflexivity|]. change BPB with 4096. lia. }
  rewrite demo_disksize. constructor; try (cbn; lia).
  - intros b Hb. rewrite HB by done. lia.
  - intros b Hb Hf.
    assert (E : forallb (fun b => negb (is_free demo_sb (dblk demo_img) b) || (49 <=? b)) (seqZ 0 64) = true)
      by (vm_compute; reflexivity).
    rewrite forallb_forall in E.
    specialize (E b ltac:(apply list_elem_of_In, elem_of_seqZ; cbn in Hb; lia)).
    rewrite Hf in E. simpl in E. split; [lia|]. intros b' Hb'. rewrite HB by done. lia.
Qed.

Lemma held_apart_nil sb L : held_apart sb L [].
Proof. intros x Hx. by apply not_elem_of_nil in Hx. Qed.

Lemma balloc_spec_witness :
  exists r k', balloc ROOTDEV demo_fs = Ok r k' /\ least_free demo_sb (dblk demo_img) r.
Proof.
  destruct (balloc_spec demo_fs (dblk demo_img) 2 30 [] [] demo_txn_fs) as [(r & k' & L' & hs' & E & H & _)|[Hn _]].
  - cbn. lia.
  - exact demo_bitmap_ok.
  - apply held_apart_nil.
  - simpl. lia.
  - simpl. unfold NBUF. lia.
  - exists r, k'. split; [exact E|exact H].
  - exfalso. specialize (Hn 49). enough (is_free demo_sb (dblk demo_img) 49 = true) as Ht.
    + change (k_sb demo_fs) with demo_sb in Hn. rewrite Hn in Ht; [discriminate Ht|cbn; lia].
    + vm_compute. reflexivity.
Defined.

(** [bfree] puts a block back: freeing a block that is in use clears its bit and
    changes no other block's state, touching only the bitmap block; freeing a
    block that is free panics. *)
Theorem bfree_spec k L s lsize hs Hd b :
  txn k L s lsize hs [] Hd -> 1 <= log_outstanding (k_log k) ->
  let sb := k_sb k in
  bitmap_ok sb L s lsize (disksize k) -> held_apart sb L Hd ->
  decode_sb (L 1) = sb -> 1 < disksize k -> 1 ∉ Hd.*2 ->
  Z.of_nat (length hs) + 1 < lsize -> (length hs + length Hd < NBUF)%nat -> 0 <= b < sb_size sb ->
  if is_free sb L b then bfree ROOTDEV b k = Err (EPanic "freeing free block")
  else exists k' L' hs', bfree ROOTDEV b k = Ok tt k' /\ txn k' L' s lsize hs' [] Hd /\ tframe k k' /\
    (forall x, x <> BBLOCK b sb -> L' x = L x) /\
    (forall b', 0 <= b' < sb_size sb ->
       is_free sb L' b' = if decide (b' = b) then true else is_free sb L b').
Proof.
  intros Ht Ho sb Hbm Hap Hsb H1 H1d Hlog Hbuf Hb. pose proof (intx_start _ _ _ _ _ _ _ Ht) as Hi.
  destruct (bfree_start k L s lsize hs Hd Hbm Hap Hsb H1 H1d Hbuf k b Hi Hb) as (i & k1 & Hk1 & E).
  rewrite E. fold sb. fold sb in Hk1. destruct (is_free sb L b) eqn:Ef; [done|].
  destruct (bm_block _ _ _ _ _ Hbm b Hb) as [Hbb Hbl]. pose proof (bm_max _ _ _ _ _ Hbm).
  assert (Hl : length (L (BBLOCK b sb)) = Z.to_nat BSIZE) by (by eapply intx_block_len).
  enough (wp (set_bdata i (bit_reset (L (BBLOCK b sb)) (b mod BPB));; log_write i;; brelse i)
    (fun _ k' => exists hs', intx k k' (released sb L b) s lsize hs' [] Hd) k1) as Hw.
  { apply wp_ok in Hw as ([] & k' & E' & hs' & H'). exists k', (released sb L b), hs'.
    split_and!; [done|apply H'|apply H'| |].
    - intros x Hx. unfold released. by rewrite bupd_ne.
    - intros b' Hb'. by eapply (is_free_released k). }
  eapply wp_tx_store; [exact Hk1|done|by rewrite length_bit_reset|done|lia|lia|].
  intros hs' k2 Hk2 _ _. by exists hs'.
Qed.

Lemma bfree_spec_witness :
  (exists k', bfree ROOTDEV 48 demo_fs = Ok tt k') /\
  bfree ROOTDEV 50 demo_fs = Err (EPanic "freeing free block").
Proof.
  assert (H : forall b, 0 <= b < 64 ->
    if is_free demo_sb (dblk demo_img) b then bfree ROOTDEV b demo_fs = Err (EPanic "freeing free block")
    else exists k', bfree ROOTDEV b demo_fs = Ok tt k').
  { intros b Hb. pose proof (bfree_spec demo_fs (dblk demo_img) 2 30 [] [] b demo_txn_fs
      ltac:(cbn; lia) demo_bitmap_ok (held_apart_nil _ _) demo_decode_sb
      ltac:(rewrite demo_disksize; lia) (not_elem_of_nil _) ltac:(simpl; lia)
      ltac:(simpl; unfold NBUF; lia) Hb) as Hs.
    change (k_sb demo_fs) with demo_sb in Hs. destruct (is_free demo_sb (dblk demo_img) b); [exact Hs|].
    destruct Hs as (k' & _ & _ & E & _). exists k'. exact E. }
  split.
  - pose proof (H 48 ltac:(lia)) as H1.
    assert (E : is_free demo_sb (dblk demo_img) 48 = false) by (vm_compute; reflexivity).
    rewrite E in H1. exact H1.
  - pose proof (H 50 ltac:(lia)) as H1.
    assert (E : is_free demo_sb (dblk demo_img) 50 = true) by (vm_compute; reflexivity).
    rewrite E in H1. exact H1.
Defined.

(** ** The limit of the log *)

(** Each of the blocks is cleared inside the running operations. *)
Fixpoint bzero_all (bs : list Z) : M kst unit :=
  match bs with
  | [] => mret tt
  | b :: bs' => bzero ROOTDEV b;; bzero_all bs'
  end.

(** A block that can be logged. *)
Definition loggable (k : kst) (s lsize b : Z) : Prop := 0 <= b < disksize k /\ ~ (s <= b < s + lsize) /\ b < 2 ^ 31.

Section overcommit.
Context (k0 : kst) (s lsize : Z) (Hout : 1 <= log_outstanding (k_log k0)).

(** A block that the log does not name yet takes one more entry. *)
Lemma bzero_counts k L hs b :
  intx k0 k L s lsize hs [] [] -> loggable k0 s lsize b -> b ∉ u32 <$> hs ->
  Z.of_nat (length hs) < lsize - 1 -> (length hs < NBUF)%nat ->
  wp (bzero ROOTDEV b) (fun _ k' => exists L' hs', intx k0 k' L' s lsize hs' [] [] /\ length hs' = S (length hs) /\
    forall x, x ∈ u32 <$> hs' <-> x = b \/ x ∈ u32 <$> hs) k.
Proof using Hout.
  intros H (Hb & Hna & H31) Hn Hlog Hbuf. unfold bzero. rewrite u32_small by lia. apply wp_bind.
  eapply wp_tx_bread; [exact H|done|apply not_elem_of_nil|cbn; lia|]. intros i k1 H1.
  eapply wp_tx_store; [exact H1|done|apply length_replicate|done|lia|lia|]. intros hs' k2 H2 _ Hx.
  eexists _, hs'. split_and!; [exact H2| |done].
  rewrite <- (length_fmap u32 hs'), <- (length_fmap u32 hs).
  apply (Permutation_length (l' := b :: (u32 <$> hs))), NoDup_Permutation.
  - apply (tx_nd _ _ _ _ _ _ _ (ix_txn _ _ _ _ _ _ _ _ H2)).
  - constructor; [done|]. apply (tx_nd _ _ _ _ _ _ _ (ix_txn _ _ _ _ _ _ _ _ H)).
  - intros x. by rewrite Hx, elem_of_cons.
Qed.

Lemma bzero_all_counts bs k L hs :
  intx k0 k L s lsize hs [] [] -> Forall (loggable k0 s lsize) bs -> NoDup bs -> (forall b, b ∈ bs -> b ∉ u32 <$> hs) ->
  Z.of_nat (length hs + length bs) <= lsize - 1 -> (length hs + length bs <= NBUF)%nat ->
  wp (bzero_all bs) (fun _ k' => exists L' hs', intx k0 k' L' s lsize hs' [] [] /\
    length hs' = (length hs + length bs)%nat /\ forall x, x ∈ u32 <$> hs' <-> x ∈ bs \/ x ∈ u32 <$> hs) k.
Proof using Hout.
  revert k L hs. induction bs as [|b bs IH]; intros k L hs H Hbs Hnd Hn Hlog Hbuf; cbn [bzero_all length] in *.
  { apply wp_ret. exists L, hs. split_and!; [done|lia|]. intros x. rewrite elem_of_nil. tauto. }
  apply Forall_cons in Hbs as [Hb Hbs]. apply NoDup_cons in Hnd as [Hnb Hnd]. apply wp_bind.
  eapply wp_mono; [eapply bzero_counts; [exact H|exact Hb|apply Hn; left|lia|lia]|].
  intros [] k1 (L1 & hs1 & H1 & Hl1 & Hx1).
  eapply wp_mono; [eapply (IH k1 L1 hs1); [exact H1|done|done| |lia|lia]|].
  - intros x Hx. rewrite Hx1. intros [->|Hin]; [done|]. apply (Hn x); [by right|done].
  - intros [] k2 (L2 & hs2 & H2 & Hl2 & Hx2). exists L2, hs2. split_and!; [done|lia|].
    intros x. rewrite Hx2, Hx1, elem_of_cons. tauto.
Qed.
End overcommit.

(** With all entries but one in use, no block can be logged. *)
Lemma bzero_full k L s lsize hs b :
  txn k L s lsize hs [] [] -> loggable k s lsize b -> Z.of_nat (length hs) = lsize - 1 -> (length hs < NBUF)%nat ->
  bzero ROOTDEV b k = Err (EPanic "too big a transaction").
Proof.
  intros H (Hb & Hna & H31) Hlen Hbuf. unfold bzero. rewrite u32_small by lia.
  assert (s <= s < s + lsize) by (pose proof (tx_len _ _ _ _ _ _ _ H); lia).
  assert (wp (bread ROOTDEV b) (fun i k1 => intx k k1 L s lsize hs [] [(i, b)]) k) as Hw.
  { eapply wp_tx_bread; [by apply intx_start|done|apply not_elem_of_nil|cbn; lia|done]. }
  apply wp_ok in Hw as (i & k1 & E1 & H1). rewrite (bind_ok _ _ _ _ _ E1).
  assert (wp (set_bdata i (replicate (Z.to_nat BSIZE) 0)) (fun _ k2 =>
    exists L', intx k k2 L' s lsize hs [b] [(i, b)]) k1) as Hw.
  { eapply wp_tx_set_bdata; [exact H1|left|apply length_replicate| |by intros k2 H2; eexists].
    intros ->. done. }
  apply wp_ok in Hw as ([] & k2 & E2 & L' & H2). rewrite (bind_ok _ _ _ _ _ E2).
  pose proof (ix_txn _ _ _ _ _ _ _ _ H2) as Ht. unfold log_write. unfold mbind at 1, M_bind at 1.
  erewrite (bind_ok (gets k_log)); [|reflexivity]. cbv beta zeta.
  rewrite (tx_n _ _ _ _ _ _ _ Ht), (tx_lsize _ _ _ _ _ _ _ Ht), Hlen.
  rewrite (proj2 (Z.geb_le (lsize - 1) (lsize - 1))) by lia. by rewrite orb_true_r.
Qed.

(** C31: the reservation of [begin_op] is one block too generous.  Take the log that mkfs makes
    ([LOGSIZE] blocks), empty and without running operations, and any [3 * MAXOPBLOCKS]
    different blocks of the disk outside the log.  Three operations begin, all admitted, and
    clear these blocks, [MAXOPBLOCKS] of them each, as [balloc] does with [bzero].  All but the
    last succeed; at the last one, which is within what [begin_op] has promised, [log_write]
    panics. *)
Theorem log_overcommit k L s bs b :
  txn k L s LOGSIZE [] [] [] -> log_outstanding (k_log k) = 0 -> log_committing (k_log k) = false ->
  Z.of_nat (length (bs ++ [b])) = 3 * MAXOPBLOCKS -> NoDup (bs ++ [b]) -> Forall (loggable k s LOGSIZE) (bs ++ [b]) ->
  exists k' L' hs, (begin_op;; begin_op;; begin_op;; bzero_all bs) k = Ok tt k' /\
    txn k' L' s LOGSIZE hs [] [] /\ log_outstanding (k_log k') = 3 /\ (forall x, x ∈ u32 <$> hs <-> x ∈ bs) /\
    bzero ROOTDEV b k' = Err (EPanic "too big a transaction").
Proof.
  intros H Ho Hc Hlen (Hnd & Hnb & _)%NoDup_app Hbs.
  rewrite length_app in Hlen. cbn [length] in Hlen. change (3 * MAXOPBLOCKS) with 30 in Hlen.
  apply Forall_app in Hbs as [Hbs [Hb _]%Forall_cons].
  set (adm o := set_k_log (set_log_outstanding o (k_log k)) k).
  assert (Hadm : forall o, txn (adm o) L s LOGSIZE [] [] []) by (intros o; by apply txn_set_log).
  assert (E : forall o, 0 <= o <= 2 -> begin_op (adm o) = Ok tt (adm (o + 1))).
  { intros o Hr. rewrite begin_op_eq; [by destruct k|apply (Hadm o)|by eapply txn_not_held|done|].
    rewrite (tx_n _ _ _ _ _ _ _ (Hadm o)). change (log_outstanding (k_log (adm o))) with o.
    cbn [length]. unfold LOGSIZE, MAXOPBLOCKS. lia. }
  assert (Ek : k = adm 0) by (unfold adm; rewrite <- Ho; clear; destruct k; cbn; f_equal; by destruct k_log).
  pose proof (bzero_all_counts (adm 3) s LOGSIZE ltac:(cbn; lia) bs (adm 3) L [] (intx_start _ _ _ _ _ _ _ (Hadm 3)) Hbs Hnd
    ltac:(intros; apply not_elem_of_nil) ltac:(cbn [length]; unfold LOGSIZE, MAXOPBLOCKS; lia)
    ltac:(cbn [length]; unfold NBUF; lia)) as Hw. cbn [length Nat.add] in Hw.
  apply wp_ok in Hw as ([] & k' & Ew & L' & hs & H' & Hl & Hx). exists k', L', hs. split_and!.
  - rewrite Ek at 1. do 3 (erewrite bind_ok; [|apply E; lia]). exact Ew.
  - apply H'.
  - by rewrite (tframe_out _ _ (ix_frame _ _ _ _ _ _ _ _ H')).
  - intros x. rewrite Hx. cbn. rewrite elem_of_nil. tauto.
  - eapply bzero_full; [apply H'| |unfold LOGSIZE, MAXOPBLOCKS; lia|unfold NBUF; lia].
    unfold loggable. rewrite (tframe_disksize _ _ (ix_frame _ _ _ _ _ _ _ _ H')). exact Hb.
Qed.

Lemma log_overcommit_witness : exists k k',
  (begin_op;; begin_op;; begin_op;; bzero_all (Z.of_nat <$> seq 32 29)) k = Ok tt k' /\
  bzero ROOTDEV 61 k' = Err (EPanic "too big a transaction").
Proof.
  set (k := set_k_log (set_log_outstanding 0 (k_log demo_fs)) demo_fs).
  assert (Hk : txn k (dblk demo_img) 2 30 [] [] []) by (by apply txn_set_log; [exact demo_txn_fs|]).
  destruct (log_overcommit k (dblk demo_img) 2 (Z.of_nat <$> seq 32 29) 61 Hk) as (k' & _ & _ & E & _ & _ & _ & Ep).
  - reflexivity.
  - reflexivity.
  - reflexivity.
  - apply (bool_decide_unpack _). vm_compute. exact I.
  - assert (Hd : disksize k = 64) by exact demo_disksize. apply Forall_forall. intros x Hx. unfold loggable. rewrite Hd.
    assert (31 < x < 62); [|unfold LOGSIZE, MAXOPBLOCKS; lia]. apply elem_of_app in Hx as [(i & -> & Hi)%list_elem_of_fmap|Hx%list_elem_of_singleton]; [|lia].
    apply elem_of_seq in Hi. lia.
  - exists k, k'. split; [exact E|exact Ep].
Defined.
