(* ===== verification/FsInode.v ===== *)
(** Inodes of [src/fs.c]: the on-disk format, the inode cache, [iupdate] and [ilock]. *)
From Stdlib Require Import ZArith Lia.
From stdpp Require Import base gmap sets strings numbers list.
From S2P Require Import Prelude State Spinlock Sched Bio Log Blk Crash LogOps Txn Fs FsDemo FsAlloc.

Local Open Scope Z_scope.

(** ** The on-disk inode *)
Lemma slice_slice {A} (l : list A) a n b m :
  (b + m <= n)%nat -> slice (slice l a n) b m = slice l (a + b) m.
Proof.
  intros. unfold slice. rewrite skipn_firstn_comm, take_take, drop_drop.
  by rewrite Nat.min_l by lia.
Qed.

Lemma slice_app_r {A} (l1 l2 : list A) b m :
  slice (l1 ++ l2) (length l1 + b) m = slice l2 b m.
Proof. unfold slice. by rewrite drop_app_add. Qed.

Lemma slice_app_l {A} (l1 l2 : list A) : slice (l1 ++ l2) 0 (length l1) = l1.
Proof. unfold slice. rewrite drop_0. by rewrite take_app_length. Qed.

Lemma slice_words l i v :
  l !! i = Some v -> slice (mjoin (le_bytes 4 <$> l)) (4 * i) 4 = le_bytes 4 v.
Proof.
  revert i. induction l as [|w l IH]; intros i Hi; [done|]. destruct i as [|i]; simplify_eq/=.
  - apply (slice_app_l (le_bytes 4 v)).
  - replace (i + S (i + S (i + S (i + 0))))%nat with (3 + 4 * i)%nat by lia.
    rewrite <- (IH i Hi). apply (slice_app_r (le_bytes 4 w)).
Qed.

Lemma get_dinode_local d off :
  0 <= off -> get_dinode d off = get_dinode (slice d (Z.to_nat off) 64) 0.
Proof.
  intros Ho. unfold get_dinode, get_i16, get_u16, get_u32, get_addrs, get_u32.
  rewrite !slice_slice by lia. f_equal; try (do 3 f_equal; lia).
  apply list_eq. intros i. rewrite !list_lookup_fmap. destruct (seq 0 _ !! i) as [j|] eqn:E; [|done].
  apply lookup_seq in E as [-> Hi]. simpl in *. change (Z.to_nat (NDIRECT + 1)) with 13%nat in Hi.
  f_equal. rewrite slice_slice by lia. do 2 f_equal. lia.
Qed.

(** The values that the fields of a [struct dinode] can have. *)
Record dinode_ok (di : dinode) : Prop := mk_dinode_ok {
  do_type : - 2 ^ 15 <= di_type di < 2 ^ 15;
  do_major : - 2 ^ 15 <= di_major di < 2 ^ 15;
  do_minor : - 2 ^ 15 <= di_minor di < 2 ^ 15;
  do_nlink : - 2 ^ 15 <= di_nlink di < 2 ^ 15;
  do_size : 0 <= di_size di < 2 ^ 32;
  do_len : length (di_addrs di) = Z.to_nat (NDIRECT + 1);
  do_addrs : Forall (fun a => 0 <= a < 2 ^ 32) (di_addrs di)
}.

Lemma i16_le_val v : - 2 ^ 15 <= v < 2 ^ 15 -> i16 (le_val (le_bytes 2 v)) = v.
Proof.
  intros. rewrite le_val_bytes. unfold i16. change (2 ^ (8 * Z.of_nat 2)) with (2 ^ 16).
  rewrite Zplus_mod_idemp_l, Z.mod_small; lia.
Qed.

Lemma length_enc_dinode di : dinode_ok di -> length (enc_dinode di) = 64%nat.
Proof.
  intros H. unfold enc_dinode. rewrite !length_app, !length_le_bytes, length_words, (do_len _ H). done.
Qed.

Lemma dec_enc_dinode di : dinode_ok di -> get_dinode (enc_dinode di) 0 = di.
Proof.
  intros [H1 H2 H3 H4 H5 H6 H7]. destruct di as [ty ma mi nl sz ad]; simpl in *.
  unfold get_dinode, get_i16, get_u16, enc_dinode. simpl di_type. simpl di_major. simpl di_minor.
  simpl di_nlink. simpl di_size. simpl di_addrs. f_equal.
  - by apply i16_le_val.
  - by apply i16_le_val.
  - by apply i16_le_val.
  - by apply i16_le_val.
  - unfold get_u32. transitivity (le_val (le_bytes 4 sz)); [reflexivity|]. by apply le_val_bytes_small.
  - unfold get_addrs. rewrite <- H6. apply list_eq. intros i. rewrite list_lookup_fmap.
    destruct (ad !! i) as [v|] eqn:E.
    + pose proof (lookup_lt_Some _ _ _ E) as Hi.
      rewrite (proj2 (lookup_seq _ _ _ _)) by (split; [reflexivity|done]). simpl fmap. f_equal.
      unfold get_u32. transitivity (le_val (slice (mjoin (le_bytes 4 <$> ad)) (4 * i) 4)).
      * f_equal. pose proof (slice_app_r (le_bytes 2 ty ++ le_bytes 2 ma ++ le_bytes 2 mi ++ le_bytes 2 nl ++ le_bytes 4 sz)
          (mjoin (le_bytes 4 <$> ad)) (4 * i) 4) as Hs. rewrite <- !app_assoc in Hs. rewrite <- Hs.
        f_equal. rewrite !length_app, !length_le_bytes. lia.
      * rewrite (slice_words _ _ _ E). apply le_val_bytes_small.
        by apply (proj1 (Forall_lookup _ _) H7 i).
    + apply lookup_ge_None in E. by rewrite lookup_ge_None_2 by (by rewrite length_seq).
Qed.

(** Storing an inode and reading it back, and any other one of the same block. *)
Lemma get_put_dinode d off di :
  dinode_ok di -> 0 <= off -> (Z.to_nat off + 64 <= length d)%nat ->
  get_dinode (put_dinode d off di) off = di.
Proof.
  intros H Ho Hl. rewrite get_dinode_local by done. unfold put_dinode.
  pose proof (length_enc_dinode _ H) as He. rewrite <- He at 1.
  rewrite slice_splice_same by lia. by apply dec_enc_dinode.
Qed.

Lemma get_put_dinode_ne d off off' di :
  dinode_ok di -> 0 <= off -> 0 <= off' -> (Z.to_nat off + 64 <= length d)%nat ->
  (Z.to_nat off' + 64 <= length d)%nat -> off + 64 <= off' \/ off' + 64 <= off ->
  get_dinode (put_dinode d off di) off' = get_dinode d off'.
Proof.
  intros H Ho Ho' Hl Hl' Hne. rewrite !(get_dinode_local _ off') by done. unfold put_dinode.
  pose proof (length_enc_dinode _ H) as He. rewrite slice_splice_other; [done|lia|lia|lia].
Qed.

Lemma dinode_off_range inum : 0 <= dinode_off inum /\ dinode_off inum + 64 <= BSIZE.
Proof.
  unfold dinode_off, DINODE. change IPB with 8. change BSIZE with 512.
  pose proof (Z.mod_pos_bound inum 8 ltac:(lia)). lia.
Qed.

Lemma dinode_off_ne i j : i mod IPB <> j mod IPB ->
  dinode_off i + 64 <= dinode_off j \/ dinode_off j + 64 <= dinode_off i.
Proof.
  unfold dinode_off, DINODE. change IPB with 8.
  pose proof (Z.mod_pos_bound i 8 ltac:(lia)). pose proof (Z.mod_pos_bound j 8 ltac:(lia)). lia.
Qed.

(** ** [iupdate] and [ilock] *)

(** Block [b] of the inode area: on the disk, outside the log and not held. *)
Definition inode_block (k : kst) (s lsize : Z) (Hd : list (nat * Z)) (b : Z) : Prop :=
  0 <= b < disksize k /\ b < 2 ^ 31 /\ ~ (s <= b < s + lsize) /\ b ∉ Hd.*2.

(** The logical disk after writing inode [x] back. *)
Definition iupdated (sb : superblock) (L : Z -> block) (x : inode) : Z -> block :=
  let ib := IBLOCK (i_inum x) sb in
  bupd L ib (put_dinode (L ib) (dinode_off (i_inum x)) (dinode_of x)).

Lemma wp_iupdate k0 k L s lsize hs Hd ip x (Q : unit -> kst -> Prop) :
  intx k0 k L s lsize hs [] Hd -> 1 <= log_outstanding (k_log k0) ->
  k_icache k0 !! ip = Some x -> i_dev x = ROOTDEV ->
  dinode_ok (dinode_of x) -> inode_block k0 s lsize Hd (IBLOCK (i_inum x) (k_sb k0)) ->
  Z.of_nat (length hs) + 1 < lsize -> (length hs + length Hd < NBUF)%nat ->
  (forall hs' k', intx k0 k' (iupdated (k_sb k0) L x) s lsize hs' [] Hd ->
     (length hs' <= S (length hs))%nat -> Q tt k') ->
  wp (iupdate ip) Q k.
Proof.
  intros H Hout Hx Hdev Hok (Hr & H31 & Hna & Hn) Hlog Hbuf HQ. unfold iupdate.
  unfold inode_at. wp_step. apply wp_bind, wp_get.
  eapply wp_deref; [by rewrite (tframe_icache _ _ (ix_frame _ _ _ _ _ _ _ _ H))|].
  apply wp_bind, wp_gets. rewrite (tframe_sb _ _ (ix_frame _ _ _ _ _ _ _ _ H)), Hdev.
  apply wp_bind. eapply wp_tx_bread; [exact H|done|done|done|]. intros i k1 H1.
  apply wp_bind. eapply wp_tx_bdata; [exact H1|left|].
  pose proof (ix_held_len _ _ _ _ _ _ _ _ H1 i _ ltac:(left)) as Hl.
  pose proof (dinode_off_range (i_inum x)). pose proof (length_enc_dinode _ Hok) as He.
  eapply wp_tx_store; [exact H1|done| |done|done|lia|].
  - unfold put_dinode. rewrite length_splice; [done|]. rewrite He, Hl. lia.
  - intros hs' k2 H2 Hle _. by apply (HQ hs').
Qed.

Lemma ilock_enter k ip x pid :
  cpu_ok (k_cpu k) -> held (k_cpu k) = [] -> cur_pid k pid ->
  k_icache k !! ip = Some x -> 1 <= i_ref x -> sl_locked (i_lock x) = false ->
  ilock ip k =
    (if negb (has (i_flags x) I_VALID) then
       sb ← gets k_sb;
       bp ← bread (i_dev x) (IBLOCK (i_inum x) sb);
       d ← bdata bp;
       upd_inode ip (load_dinode (get_dinode d (dinode_off (i_inum x))));;
       brelse bp;;
       upd_inode ip (fun x => set_i_flags (Z.lor (i_flags x) I_VALID) x);;
       x ← inode_at ip;
       if i_type x =? 0 then panic "ilock: no type" else mret tt
     else mret tt)
    (set_k_icache (alter (set_i_lock (mk_sleeplock true pid)) ip (k_icache k)) k).
Proof.
  intros Hc Hh Hcur Hx Hr Hs. unfold ilock.
  assert (Ha : forall k x, k_icache k !! ip = Some x -> inode_at ip k = Ok x k).
  { intros k' x' Hx'. unfold inode_at, get, mbind, M_bind. by rewrite Hx'. }
  rewrite (bind_ok _ _ _ _ _ (Ha _ _ Hx)). rewrite (proj2 (Z.ltb_ge _ _)) by lia.
  destruct (i_lock x) as [lk pid'] eqn:El; simpl in Hs; subst lk.
  erewrite bind_ok.
  2: { apply (acquiresleep_eq (SL_inode ip) k pid pid'); [done|rewrite Hh; apply not_elem_of_nil|done|].
       simpl. by rewrite Hx, <- El. }
  simpl set_sl. erewrite bind_ok; [|apply Ha; simpl; by rewrite list_lookup_alter_eq, Hx]. done.
Qed.

(** The part of [ilock] that fills an invalid entry [x]. *)
Lemma ilock_load k L s lsize hs Hd ip x :
  intx k k L s lsize hs [] Hd -> k_icache k !! ip = Some x -> i_dev x = ROOTDEV ->
  inode_block k s lsize Hd (IBLOCK (i_inum x) (k_sb k)) -> (length hs + length Hd < NBUF)%nat ->
  let di := get_dinode (L (IBLOCK (i_inum x) (k_sb k))) (dinode_off (i_inum x)) in
  let y := set_i_flags (Z.lor (i_flags x) I_VALID) (load_dinode di x) in
  exists k', intx (set_k_icache (<[ip := y]> (k_icache k)) k) k' L s lsize hs [] Hd /\
    forall K : inode -> M kst unit,
      (sb ← gets k_sb;
       bp ← bread (i_dev x) (IBLOCK (i_inum x) sb);
       d ← bdata bp;
       upd_inode ip (load_dinode (get_dinode d (dinode_off (i_inum x))));;
       brelse bp;;
       upd_inode ip (fun x => set_i_flags (Z.lor (i_flags x) I_VALID) x);;
       x ← inode_at ip; K x) k = K y k'.
Proof.
  intros H Hx Hdev (Hb & _ & _ & Hn) Hbuf di y. pose proof (lookup_lt_Some _ _ _ Hx) as Hlen.
  assert (wp (bread ROOTDEV (IBLOCK (i_inum x) (k_sb k)))
    (fun i k1 => intx k k1 L s lsize hs [] ((i, IBLOCK (i_inum x) (k_sb k)) :: Hd)) k) as Hw.
  { by eapply wp_tx_bread; [exact H|..]. }
  apply wp_ok in Hw as (i & k1 & E1 & H1).
  assert (E2 : bdata i k1 = Ok (L (IBLOCK (i_inum x) (k_sb k))) k1).
  { eapply blk_bdata; [apply (tx_blk _ _ _ _ _ _ _ (ix_txn _ _ _ _ _ _ _ _ H1))|left]. }
  pose proof (tframe_icache _ _ (ix_frame _ _ _ _ _ _ _ _ H1)) as Ec1.
  apply (intx_set_icache (<[ip := load_dinode di x]> (k_icache k))) in H1.
  assert (wp (brelse i) (fun _ k2 => intx (set_k_icache (<[ip := load_dinode di x]> (k_icache k)) k)
    k2 L s lsize hs [] Hd) (set_k_icache (<[ip := load_dinode di x]> (k_icache k)) k1)) as Hw.
  { by eapply wp_tx_brelse; [exact H1|done|apply not_elem_of_nil|]. }
  apply wp_ok in Hw as ([] & k2 & E3 & H2).
  pose proof (tframe_icache _ _ (ix_frame _ _ _ _ _ _ _ _ H2)) as Ec2.
  apply (intx_set_icache (<[ip := y]> (k_icache k))) in H2.
  exists (set_k_icache (<[ip := y]> (k_icache k)) k2). split; [done|]. intros K.
  rewrite (bind_ok (gets k_sb) _ k (k_sb k) k) by done. rewrite Hdev, (bind_ok _ _ _ _ _ E1), (bind_ok _ _ _ _ _ E2).
  rewrite (bind_ok (upd_inode _ _) _ _ tt (set_k_icache (<[ip := load_dinode di x]> (k_icache k)) k1)).
  2: { unfold upd_inode, upd_icache, modify. by rewrite Ec1, (alter_at _ _ _ x Hx). }
  rewrite (bind_ok _ _ _ _ _ E3).
  rewrite (bind_ok (upd_inode _ _) _ _ tt (set_k_icache (<[ip := y]> (k_icache k)) k2)).
  2: { unfold upd_inode, upd_icache, modify. rewrite Ec2. cbn [k_icache set_k_icache].
       rewrite (alter_at _ _ _ (load_dinode di x)) by by rewrite list_lookup_insert_eq.
       by rewrite list_insert_insert_eq. }
  apply bind_ok. unfold inode_at, get, mbind, M_bind. cbn [k_icache set_k_icache].
  by rewrite list_lookup_insert_eq.
Qed.

(** The entry that [ilock] leaves: locked, and loaded from the disk if it was not. *)
Definition locked_inode (pid : Z) (di : dinode) (x : inode) : inode :=
  let x1 := set_i_lock (mk_sleeplock true pid) x in
  if has (i_flags x) I_VALID then x1
  else set_i_flags (Z.lor (i_flags x) I_VALID) (load_dinode di x1).

Lemma ilock_run k L s lsize hs Hd ip x pid :
  txn k L s lsize hs [] Hd -> cur_pid k pid -> k_icache k !! ip = Some x -> 1 <= i_ref x ->
  sl_locked (i_lock x) = false -> i_dev x = ROOTDEV ->
  inode_block k s lsize Hd (IBLOCK (i_inum x) (k_sb k)) -> (length hs + length Hd < NBUF)%nat ->
  let di := get_dinode (L (IBLOCK (i_inum x) (k_sb k))) (dinode_off (i_inum x)) in
  if negb (has (i_flags x) I_VALID) && (di_type di =? 0) then ilock ip k = Err (EPanic "ilock: no type")
  else wp (ilock ip) (fun _ k' => txn k' L s lsize hs [] Hd /\
    tframe (set_k_icache (<[ip := locked_inode pid di x]> (k_icache k)) k) k') k.
Proof.
  intros Ht Hcur Hx Hr Hs Hdev Hib Hbuf di. unfold locked_inode.
  pose proof (tx_blk _ _ _ _ _ _ _ Ht) as Hblk. unfold wp.
  rewrite (ilock_enter k ip x pid) by (try done; apply Hblk).
  set (x1 := set_i_lock _ x). rewrite (alter_at _ _ _ x Hx). fold x1.
  assert (Hi : intx (set_k_icache (<[ip := x1]> (k_icache k)) k)
    (set_k_icache (<[ip := x1]> (k_icache k)) k) L s lsize hs [] Hd)
    by by apply intx_start, txn_set_icache.
  destruct (has (i_flags x) I_VALID); cbn [negb andb]; [split; apply Hi|].
  pose proof (lookup_lt_Some _ _ _ Hx) as Hlen.
  destruct (ilock_load _ L s lsize hs Hd ip x1 Hi) as (k2 & H2 & E);
    [by apply list_lookup_insert_eq|done|done|done|].
  change (i_dev x) with (i_dev x1). change (i_inum x) with (i_inum x1). rewrite E.
  cbn [k_icache set_k_icache] in H2. rewrite list_insert_insert_eq in H2.
  change (i_type _) with (di_type di). destruct (di_type di =? 0); [done|]. split; [apply H2|].
  apply H2.
Qed.

(** [iupdate] writes the inode to its place on the disk and nowhere else: reading
    the place back gives the in-memory fields, every other inode of the block
    and every other block is unchanged, and the write is part of the
    transaction. *)
Theorem iupdate_writes k L s lsize hs Hd ip x :
  txn k L s lsize hs [] Hd -> 1 <= log_outstanding (k_log k) ->
  k_icache k !! ip = Some x -> i_dev x = ROOTDEV -> dinode_ok (dinode_of x) ->
  let ib := IBLOCK (i_inum x) (k_sb k) in
  inode_block k s lsize Hd ib ->
  Z.of_nat (length hs) + 1 < lsize -> (length hs + length Hd < NBUF)%nat ->
  exists k' L' hs', iupdate ip k = Ok tt k' /\ txn k' L' s lsize hs' [] Hd /\ tframe k k' /\
    get_dinode (L' ib) (dinode_off (i_inum x)) = dinode_of x /\
    (forall j, j mod IPB <> i_inum x mod IPB ->
       get_dinode (L' ib) (dinode_off j) = get_dinode (L ib) (dinode_off j)) /\
    (forall b, b <> ib -> L' b = L b).
Proof.
  intros Ht Ho Hx Hdev Hok ib Hib Hlog Hbuf. pose proof (intx_start _ _ _ _ _ _ _ Ht) as Hi.
  assert (wp (iupdate ip) (fun _ k' => exists hs', intx k k' (iupdated (k_sb k) L x) s lsize hs' [] Hd) k) as Hw.
  { eapply wp_iupdate; try done. intros hs' k' H' _. by exists hs'. }
  apply wp_ok in Hw as ([] & k' & E & hs' & H'). exists k', (iupdated (k_sb k) L x), hs'.
  assert (Hl : length (L ib) = Z.to_nat BSIZE) by (eapply intx_block_len; [exact Hi|apply Hib]).
  pose proof (dinode_off_range (i_inum x)) as Hr. unfold iupdated. fold ib.
  split_and!; [done|apply H'|apply H'| | |].
  - rewrite bupd_eq. apply get_put_dinode; [done|lia|rewrite Hl; lia].
  - intros j Hj. rewrite bupd_eq. pose proof (dinode_off_range j).
    apply get_put_dinode_ne; [done|lia|lia|rewrite Hl; lia..|by apply dinode_off_ne, not_eq_sym].
  - intros b Hb. by apply bupd_ne.
Qed.

Lemma demo_inode_block : inode_block demo_ifs 2 30 [] (IBLOCK 2 (k_sb demo_ifs)).
Proof.
  unfold inode_block. rewrite demo_ifs_disksize, demo_ifs_iblock.
  split_and!; [lia|lia|lia|lia|apply not_elem_of_nil].
Qed.

Lemma iupdate_writes_witness :
  exists k' L', iupdate 0 demo_ifs = Ok tt k' /\
    get_dinode (L' (IBLOCK 2 (k_sb demo_ifs))) (dinode_off 2) = dinode_of demo_inode.
Proof.
  assert (Hok : dinode_ok (dinode_of demo_inode)).
  { constructor; try (cbn; lia); [reflexivity|]. apply Forall_replicate. lia. }
  destruct (iupdate_writes demo_ifs (dblk demo_img) 2 30 [] [] 0 demo_inode demo_txn_ifs
    ltac:(cbn; lia) eq_refl eq_refl Hok demo_inode_block ltac:(simpl; lia) ltac:(simpl; unfold NBUF; lia))
    as (k' & L' & hs' & E & _ & _ & H & _).
  exists k', L'. split; [exact E|exact H].
Defined.

(** [ilock] of an unlocked, referenced inode takes its lock and makes the cached
    fields valid: an entry that was already loaded only changes its lock; one
    that was not is filled with the inode's fields on the disk, and an inode
    that is free there makes it panic.  The disk does not change. *)
Theorem ilock_loads k L s lsize hs Hd ip x pid :
  txn k L s lsize hs [] Hd -> cur_pid k pid -> k_icache k !! ip = Some x -> 1 <= i_ref x ->
  sl_locked (i_lock x) = false -> i_dev x = ROOTDEV ->
  inode_block k s lsize Hd (IBLOCK (i_inum x) (k_sb k)) -> (length hs + length Hd < NBUF)%nat ->
  let di := get_dinode (L (IBLOCK (i_inum x) (k_sb k))) (dinode_off (i_inum x)) in
  if negb (has (i_flags x) I_VALID) && (di_type di =? 0) then ilock ip k = Err (EPanic "ilock: no type")
  else exists k' y, ilock ip k = Ok tt k' /\ txn k' L s lsize hs [] Hd /\
    k_icache k' = <[ip := y]> (k_icache k) /\ i_lock y = mk_sleeplock true pid /\
    i_dev y = i_dev x /\ i_inum y = i_inum x /\ i_ref y = i_ref x /\ has (i_flags y) I_VALID = true /\
    dinode_of y = (if has (i_flags x) I_VALID then dinode_of x else di).
Proof.
  intros Ht Hcur Hx Hr Hs Hdev Hib Hbuf di.
  pose proof (ilock_run k L s lsize hs Hd ip x pid Ht Hcur Hx Hr Hs Hdev Hib Hbuf) as Hw.
  cbv zeta in Hw. fold di in Hw. destruct (negb _ && _) eqn:E; [done|].
  apply wp_ok in Hw as ([] & k' & Ek & Ht' & Hf). exists k', (locked_inode pid di x).
  split; [done|]. split; [done|]. split; [by rewrite (tframe_icache _ _ Hf)|].
  unfold locked_inode. destruct (has (i_flags x) I_VALID) eqn:Ev; [split_and!; done|].
  split_and!; try done; try (by destruct di). unfold has. cbn [i_flags set_i_flags].
  rewrite Z.land_lor_distr_l. apply negb_true_iff, Z.eqb_neq. intros [_ E2]%Z.lor_eq_0_iff. done.
Qed.

Lemma ilock_loads_witness :
  exists k' y, ilock 0 demo_ifs = Ok tt k' /\ k_icache k' !! 0%nat = Some y /\ dinode_of y = demo_file.
Proof.
  assert (Hcur : cur_pid demo_ifs 0) by (exists O, zero_proc; split_and!; reflexivity).
  pose proof (ilock_loads demo_ifs (dblk demo_img) 2 30 [] [] 0 demo_inode 0 demo_txn_ifs
    Hcur eq_refl ltac:(cbn; lia) eq_refl eq_refl demo_inode_block ltac:(simpl; unfold NBUF; lia)) as H.
  assert (E : get_dinode (dblk demo_img (IBLOCK 2 (k_sb demo_ifs))) (dinode_off 2) = demo_file)
    by (vm_compute; reflexivity).
  cbv zeta in H. change (i_inum demo_inode) with 2 in H. rewrite E in H.
  destruct H as (k' & y & E1 & _ & E2 & _ & _ & _ & _ & _ & E3). exists k', y.
  split; [exact E1|]. split; [rewrite E2; reflexivity|exact E3].
Defined.

(** ** The inode cache *)

(** The referenced entry for inode [inum] of [dev]. *)
Definition caches (dev inum : Z) (x : inode) : Prop :=
  0 < i_ref x /\ i_dev x = dev /\ i_inum x = inum.
#[global] Instance caches_dec dev inum x : Decision (caches dev inum x).
Proof. unfold caches. apply _. Defined.

(** No inode is cached twice and no reference count is negative. *)
Record icache_ok (l : list inode) : Prop := mk_icache_ok {
  ic_ref : Forall (fun x => 0 <= i_ref x) l;
  ic_uniq : forall i j x y, l !! i = Some x -> l !! j = Some y ->
    0 < i_ref x -> caches (i_dev x) (i_inum x) y -> i = j
}.

Lemma iget_find_spec dev inum l i e :
  Forall (fun x => 0 <= i_ref x) l ->
  match iget_find dev inum l i e with
  | (Some ip, _) => exists j x, ip = (i + j)%nat /\ l !! j = Some x /\ caches dev inum x
  | (None, e') => Forall (fun x => ~ caches dev inum x) l /\
      match e with
      | Some _ => e' = e
      | None =>
          match e' with
          | Some ip => exists j x, ip = (i + j)%nat /\ l !! j = Some x /\ i_ref x = 0
          | None => Forall (fun x => i_ref x <> 0) l
          end
      end
  end.
Proof.
  revert i e. induction l as [|x l IH]; intros i e Hl; cbn [iget_find].
  { split; [constructor|]. by destruct e. }
  apply Forall_cons in Hl as [Hx Hl].
  destruct ((i_ref x >? 0) && (i_dev x =? dev) && (i_inum x =? inum)) eqn:E.
  { exists O, x. split; [lia|]. split; [done|]. unfold caches. lia. }
  assert (Hn : ~ caches dev inum x) by (unfold caches; lia).
  specialize (IH (S i) (match e with None => if i_ref x =? 0 then Some i else None | Some e => Some e end) Hl).
  destruct (iget_find _ _ _ _ _) as [[ip|] e'].
  { destruct IH as (j & y & -> & Hy & Hc). exists (S j), y. split; [lia|done]. }
  destruct IH as [Hf He]. split; [by constructor|]. destruct e as [e|]; [done|].
  destruct (Z.eqb_spec (i_ref x) 0) as [E0|E0].
  - subst e'. exists O, x. split; [lia|done].
  - destruct e' as [ip|]; [|by constructor].
    destruct He as (j & y & -> & Hy & Hc). exists (S j), y. split; [lia|done].
Qed.

Lemma icache_ok_insert l i x y :
  icache_ok l -> l !! i = Some x -> 0 < i_ref y ->
  (forall j z, l !! j = Some z -> caches (i_dev y) (i_inum y) z -> i = j) ->
  icache_ok (<[i := y]> l).
Proof.
  intros [H1 H2] Hx Hr Hu. pose proof (lookup_lt_Some _ _ _ Hx) as Hlen. split.
  - apply Forall_insert; [done|lia].
  - intros a b u v Hu' Hv Hru Hc. destruct (decide (a = i)) as [->|Ha], (decide (b = i)) as [->|Hb].
    + done.
    + rewrite list_lookup_insert_eq in Hu' by done. rewrite list_lookup_insert_ne in Hv by done.
      simplify_eq. by apply (Hu _ v).
    + rewrite list_lookup_insert_eq in Hv by done. rewrite list_lookup_insert_ne in Hu' by done.
      simplify_eq. symmetry. apply (Hu _ u); [done|]. destruct Hc as (_ & -> & ->). done.
    + rewrite list_lookup_insert_ne in Hu' by done. rewrite list_lookup_insert_ne in Hv by done.
      by apply (H2 _ _ u v).
Qed.

(** [iget] keeps the inode cache a set.  If the inode is cached, it returns that
    entry with one more reference and nothing else changed; if not, it takes a
    free entry, which then names the inode with one reference and is marked
    invalid; in both cases all other entries are untouched and no inode is
    cached twice.  With no free entry it panics. *)
Theorem iget_spec dev inum k :
  cpu_ok (k_cpu k) -> L_icache ∉ held (k_cpu k) -> icache_ok (k_icache k) ->
  let l := k_icache k in
  (exists ip x y, iget dev inum k = Ok ip (set_k_icache (<[ip := y]> l) k) /\ l !! ip = Some x /\
     icache_ok (<[ip := y]> l) /\ caches dev inum y /\
     (caches dev inum x /\ y = set_i_ref (i_ref x + 1) x \/
      Forall (fun z => ~ caches dev inum z) l /\ i_ref x = 0 /\ i_ref y = 1 /\ i_flags y = 0 /\
      i_lock y = i_lock x)) \/
  (Forall (fun z => ~ caches dev inum z) l /\ Forall (fun z => i_ref z <> 0) l /\
   iget dev inum k = Err (EPanic "iget: no inodes")).
Proof.
  intros Hc Hh Hok l. pose proof (iget_find_spec dev inum l 0 None (ic_ref _ Hok)) as Hf.
  unfold iget. erewrite bind_ok; [|by apply acquire_eq]. rewrite (bind_ok (gets _) _ _ l _) by done.
  assert (Hrel : forall (ip : nat) c, (release L_icache;; mret ip)
    (set_k_icache c (set_k_cpu (lock_cpu L_icache (k_cpu k)) k)) = Ok ip (set_k_icache c k)).
  { intros ip c. erewrite bind_ok; [|by apply (release_eq L_icache (k_cpu k))]. by destruct k. }
  destruct (iget_find dev inum l 0 None) as [[ip|] e].
  - left. destruct Hf as (j & x & -> & Hx & Hca). exists j, x, (set_i_ref (i_ref x + 1) x). simpl.
    split_and!; [|done| |unfold caches in *; simpl; lia|by left].
    + erewrite bind_ok; [|reflexivity]. cbn [k_icache set_k_cpu]. rewrite (alter_at _ _ _ x Hx). apply Hrel.
    + apply (icache_ok_insert _ _ x); [done|done|unfold caches in Hca; simpl; lia|].
      intros j' z Hz Hcz. simpl in Hcz. apply (ic_uniq _ Hok _ _ x z); [done|done|apply Hca|done].
  - destruct Hf as [Hno He]. destruct e as [ip|]; [left|by right].
    destruct He as (j & x & -> & Hx & H0). pose proof (lookup_lt_Some _ _ _ Hx) as Hlen.
    exists j, x, (set_i_flags 0 (set_i_ref 1 (set_i_inum inum (set_i_dev dev x)))). simpl.
    split_and!; [|done| |done|right; by destruct x].
    + do 4 (erewrite bind_ok; [|reflexivity]). cbn [k_icache set_k_cpu set_k_icache].
      rewrite !alter_alter, (alter_at _ _ _ x Hx). apply (Hrel j).
    + apply (icache_ok_insert _ _ x); [done|done|done|]. intros j' z Hz Hcz.
      by apply (proj1 (Forall_lookup _ _) Hno j' z) in Hcz.
Qed.

Lemma iget_spec_witness :
  exists k1 k2, iget ROOTDEV 2 demo_ifs = Ok 0%nat k1 /\ iget ROOTDEV 1 demo_ifs = Ok 1%nat k2.
Proof.
  assert (Hok : icache_ok (k_icache demo_ifs)).
  { split.
    - apply Forall_cons. split; [cbn; lia|]. apply Forall_replicate. cbn. lia.
    - intros [|i] [|j] x y Hx Hy Hr Hc; [done|exfalso..].
      + apply lookup_replicate in Hy as [-> _]. destruct Hc as [Hc _]. cbn in Hc. lia.
      + apply lookup_replicate in Hx as [-> _]. cbn in Hr. lia.
      + apply lookup_replicate in Hx as [-> _]. cbn in Hr. lia. }
  assert (Hcpu : cpu_ok (k_cpu demo_ifs)) by (unfold cpu_ok; cbn; repeat split; try lia; try done; constructor).
  destruct (iget_spec ROOTDEV 2 demo_ifs Hcpu (not_elem_of_nil _) Hok) as [(ip & _ & y & E & _)|(_ & _ & E)];
  destruct (iget_spec ROOTDEV 1 demo_ifs Hcpu (not_elem_of_nil _) Hok) as [(ip' & _ & y' & E' & _)|(_ & _ & E')].
  - eexists _, _. split.
    + assert (ip = O) as -> by (vm_compute in E; injection E; intros; congruence). exact E.
    + assert (ip' = 1%nat) as -> by (vm_compute in E'; injection E'; intros; congruence). exact E'.
  - vm_compute in E'. discriminate E'.
  - vm_compute in E. discriminate E.
  - vm_compute in E. discriminate E.
Defined.
