(* ===== verification/Console.v ===== *)
(** The console: [src/console.c], the output half of [src/uart.c], the keyboard
    decoder [src/kbd.c] with the tables of [src/kbd.h], and [procdump] of
    [src/proc.c].

    A device port read is an argument of the definition that reads it.  The
    [panicked] flag is never set in a run of the model, since [panic] ends it. *)
From Stdlib Require Import ZArith Lia Ascii.
From stdpp Require Import base gmap sets strings numbers list.
From S2P Require Import Prelude State Spinlock Code Sched Fs.

Local Open Scope Z_scope.

(** A C string literal as bytes, without the terminating NUL. *)
Definition bytes_of (s : string) : list Z :=
  (fun c => Z.of_N (N_of_ascii c)) <$> String.list_ascii_of_string s.
Definition chr (s : string) : Z := default 0 (head (bytes_of s)).

Definition upd_cons (f : consst -> consst) : M kst unit :=
  modify (fun k => set_k_cons (f (k_cons k)) k).
Definition upd_input (f : inputst -> inputst) : M kst unit :=
  modify (fun k => set_k_input (f (k_input k)) k).

(** ** Output *)
Definition BACKSPACE : Z := 256.

(** The wait for the transmitter only delays. *)
Definition uartputc (c : Z) : M kst unit :=
  co ← gets k_cons;
  if negb (co_uart co) then mret tt else
  upd_cons (fun co => set_co_sent (u8 c :: co_sent co) co).

Fixpoint iter_putc (s : list Z) : M kst unit :=
  match s with
  | [] => mret tt
  | c :: s' => uartputc c;; iter_putc s'
  end.

(** [crt[i] = v] *)
Definition crt_store (i v : Z) : M kst unit :=
  co ← gets k_cons;
  if (0 <=? i) && (i <? Z.of_nat (length (co_crt co))) then
    upd_cons (fun co => set_co_crt (<[Z.to_nat i := v]> (co_crt co)) co)
  else fault "crt".

Definition cgaputc (c : Z) : M kst unit :=
  co ← gets k_cons;
  let pos := co_pos co in
  pos ← (if c =? 10 then mret (pos + (80 - pos mod 80))
         else if c =? BACKSPACE then mret (if pos >? 0 then pos - 1 else pos)
         else crt_store pos (Z.lor (Z.land c 255) 1792);; mret (pos + 1));
  pos ← (if pos / 80 >=? 24 then
           upd_cons (fun co =>
             let crt := co_crt co in
             let crt := splice crt 0 (slice crt 80 (23 * 80)) in
             let pos := pos - 80 in
             set_co_crt (splice crt (Z.to_nat pos)
                           (replicate (Z.to_nat (24 * 80 - pos)) 0)) co);;
           mret (pos - 80)
         else mret pos);
  upd_cons (set_co_pos (u16 pos));;
  crt_store pos (Z.lor 32 1792).

Definition consputc (c : Z) : M kst unit :=
  (if c =? BACKSPACE then uartputc 8;; uartputc 32;; uartputc 8
   else uartputc c);;
  cgaputc c.

Fixpoint consputs (s : list Z) : M kst unit :=
  match s with
  | [] => mret tt
  | c :: s' => consputc c;; consputs s'
  end.

Definition digits : list Z := bytes_of "0123456789abcdef".
Definition digit (i : Z) : Z := default 0 (digits !! Z.to_nat i).

(** The digits that [print_x64] and [print_x32] print: [cnt] more from [x], which is
    [bits] wide. *)
Fixpoint hex_digits (cnt : nat) (bits x : Z) : list Z :=
  match cnt with
  | O => []
  | S cnt' => digit (Z.shiftr x (bits - 4)) :: hex_digits cnt' bits (Z.shiftl x 4 mod 2 ^ bits)
  end.
Definition print_x64 (x : Z) : M kst unit := consputs (hex_digits 16 64 x).
Definition print_x32 (x : Z) : M kst unit := consputs (hex_digits 8 32 x).

(** The [do ... while] of [print_d]: the digits of [x], least significant first. *)
Fixpoint dec_digits (fuel : nat) (x : Z) : list Z :=
  match fuel with
  | O => []
  | S fuel' =>
      digit (x mod 10) :: (if x / 10 =? 0 then [] else dec_digits fuel' (x / 10))
  end.
(** [buf[16]] has room for them: an [int] has at most ten digits. *)
Definition print_d_bytes (v : Z) : list Z :=
  let x := if v <? 0 then - v else v in
  let buf := dec_digits 16 x in
  let buf := if v <? 0 then buf ++ [chr "-"] else buf in
  reverse buf.
Definition print_d (v : Z) : M kst unit := consputs (print_d_bytes v).

(** An argument of [cprintf]. *)
Inductive va : Type :=
| VInt (v : Z)
| VStr (s : option (list Z)).

(** The bytes of a C string before its NUL. *)
Fixpoint cut_nul (s : list Z) : list Z :=
  match s with
  | [] => []
  | c :: s' => if c =? 0 then [] else c :: cut_nul s'
  end.

Definition va_num (a : option va) : Z :=
  match a with Some (VInt v) => v | _ => 0 end.
Definition va_str (a : option va) : list Z :=
  match a with Some (VStr (Some s)) => cut_nul s | _ => bytes_of "(null)" end.

(** The loop of [cprintf] over the format. *)
Fixpoint cprintf_loop (fmt : list Z) (ap : list va) : M kst unit :=
  match fmt with
  | [] => mret tt
  | c :: fmt' =>
      if negb (c =? chr "%") then consputc c;; cprintf_loop fmt' ap
      else
        match fmt' with
        | [] => mret tt
        | c :: fmt' =>
            if c =? chr "d" then print_d (i32 (va_num (head ap)));; cprintf_loop fmt' (tail ap)
            else if c =? chr "x" then print_x32 (u32 (va_num (head ap)));; cprintf_loop fmt' (tail ap)
            else if c =? chr "p" then print_x64 (u64 (va_num (head ap)));; cprintf_loop fmt' (tail ap)
            else if c =? chr "s" then consputs (va_str (head ap));; cprintf_loop fmt' (tail ap)
            else if c =? chr "%" then consputc (chr "%");; cprintf_loop fmt' ap
            else consputc (chr "%");; consputc c;; cprintf_loop fmt' ap
        end
  end.

Definition cprintf (fmt : list Z) (ap : list va) : M kst unit :=
  co ← gets k_cons;
  (if co_locking co then acquire L_cons else mret tt);;
  cprintf_loop fmt ap;;
  (if co_locking co then release L_cons else mret tt).

(** [procdump] of [src/proc.c]; [pcs p] are the addresses that [getstackpcs] finds on
    the kernel stack of a sleeping process. *)
Definition state_name (s : procstate) : string :=
  match s with
  | UNUSED => "unused"
  | EMBRYO => "embryo"
  | SLEEPING => "sleep "
  | RUNNABLE => "runble"
  | RUNNING => "run   "
  | ZOMBIE => "zombie"
  end.

Fixpoint procdump_pcs (pcs : list Z) : M kst unit :=
  match pcs with
  | [] => mret tt
  | pc :: pcs' =>
      if pc =? 0 then mret tt
      else cprintf (bytes_of " %p") [VInt pc];; procdump_pcs pcs'
  end.

Fixpoint procdump_loop (pcs : proc -> list Z) (ps : list proc) : M kst unit :=
  match ps with
  | [] => mret tt
  | p :: ps' =>
      (if decide (p_state p = UNUSED) then mret tt
       else
         cprintf (bytes_of "%d %s %s")
           [VInt (p_pid p); VStr (Some (bytes_of (state_name (p_state p)))); VStr (Some (p_name p))];;
         (if decide (p_state p = SLEEPING) then procdump_pcs (take 10 (pcs p)) else mret tt);;
         cprintf [10] []);;
      procdump_loop pcs ps'
  end.
Definition procdump (pcs : proc -> list Z) : M kst unit :=
  ps ← gets k_ptable;
  procdump_loop pcs ps.

(** ** Input *)
Definition ctrl (c : Z) : Z := c - chr "@".
Definition C_P : Z := 16.
Definition C_U : Z := 21.
Definition C_H : Z := 8.
Definition C_Z : Z := 26.
Definition C_D : Z := 4.

Definition input_at (i : inputst) (x : Z) : Z :=
  default 0 (in_buf i !! Z.to_nat (x mod INPUT_BUF)).

(** The [while] of the kill-line case; at most [INPUT_BUF] characters are pending. *)
Fixpoint kill_line (fuel : nat) : M kst unit :=
  match fuel with
  | O => fail EFuel
  | S fuel' =>
      i ← gets k_input;
      if negb (in_e i =? in_w i) && negb (input_at i (u32 (in_e i - 1)) =? 10) then
        upd_input (fun i => set_in_e (u32 (in_e i - 1)) i);;
        consputc BACKSPACE;;
        kill_line fuel'
      else mret tt
  end.
Definition kill_fuel : nat := S (Z.to_nat INPUT_BUF).

(** One character of the loop of [consoleintr]. *)
Definition consoleintr_char (pcs : proc -> list Z) (c : Z) : M kst unit :=
  if c =? C_Z then fault "lidt(0,0)"
  else if c =? C_P then procdump pcs
  else if c =? C_U then kill_line kill_fuel
  else if (c =? C_H) || (c =? 127) then
    i ← gets k_input;
    if negb (in_e i =? in_w i) then
      upd_input (fun i => set_in_e (u32 (in_e i - 1)) i);;
      consputc BACKSPACE
    else mret tt
  else
    i ← gets k_input;
    if negb (c =? 0) && (u32 (in_e i - in_r i) <? INPUT_BUF) then
      let c := if c =? 13 then 10 else c in
      upd_input (fun i => set_in_e (u32 (in_e i + 1))
        (set_in_buf (<[Z.to_nat (in_e i mod INPUT_BUF) := u8 c]> (in_buf i)) i));;
      consputc c;;
      i ← gets k_input;
      if (c =? 10) || (c =? C_D) || (in_e i =? u32 (in_r i + INPUT_BUF)) then
        upd_input (fun i => set_in_w (in_e i) i);;
        wakeup Ch_input
      else mret tt
    else mret tt.

(** The characters that successive calls of [getc] return until it is negative. *)
Fixpoint consoleintr_loop (pcs : proc -> list Z) (cs : list Z) : M kst unit :=
  match cs with
  | [] => mret tt
  | c :: cs' => consoleintr_char pcs c;; consoleintr_loop pcs cs'
  end.

Definition consoleintr (pcs : proc -> list Z) (cs : list Z) : M kst unit :=
  acquire L_input;;
  consoleintr_loop pcs cs;;
  release L_input.

(** The outer [while(n > 0)] of [consoleread] with [n] characters still wanted of
    [target]; whether the process was killed, and the bytes it stored. *)
Fixpoint consoleread_loop (n : nat) (target : Z) (ip : nat) : M kst (bool * list Z) :=
  match n with
  | O => mret (false, [])
  | S n' =>
      i ← gets k_input;
      if in_r i =? in_w i then
        '(_, p) ← curproc;
        if p_killed p then
          release L_input;;
          ilock ip;;
          mret (true, [])
        else
          sleep Ch_input L_input;;
          again
      else
        let c := input_at i (in_r i) in
        upd_input (fun i => set_in_r (u32 (in_r i + 1)) i);;
        if c =? C_D then
          (if Z.of_nat n <? target then upd_input (fun i => set_in_r (u32 (in_r i - 1)) i)
           else mret tt);;
          mret (false, [])
        else if c =? 10 then mret (false, [c])
        else
          r ← consoleread_loop n' target ip;
          mret (r.1, c :: r.2)
  end.

Definition consoleread (ip : nat) (n : Z) : M kst (Z * list Z) :=
  iunlock ip;;
  acquire L_input;;
  '(killed, bs) ← consoleread_loop (Z.to_nat n) (u32 n) ip;
  if (killed : bool) then mret (-1, bs)
  else
    release L_input;;
    ilock ip;;
    mret (Z.of_nat (length bs), bs).

Definition consolewrite (ip : nat) (buf : list Z) : M kst Z :=
  iunlock ip;;
  acquire L_cons;;
  consputs (u8 <$> buf);;
  release L_cons;;
  ilock ip;;
  mret (Z.of_nat (length buf)).

Definition consoleinit : M kst unit :=
  modify (fun k => set_k_devsw (<[Z.to_nat CONSOLE := Some Dev_console]> (k_devsw k)) k);;
  upd_cons (set_co_locking true).

(** ** The keyboard *)
Definition SHIFT : Z := 1.
Definition CTL : Z := 2.
Definition ALT : Z := 4.
Definition CAPSLOCK : Z := 8.
Definition NUMLOCK : Z := 16.
Definition SCROLLLOCK : Z := 32.
Definition E0ESC : Z := 64.

(** A C array of 256 bytes with an initialiser: the first elements and some designated
    ones. *)
Definition table (init : list Z) (des : list (Z * Z)) : list Z :=
  foldl (fun t d => <[Z.to_nat d.1 := d.2]> t) (take 256 (init ++ replicate 256 0)) des.

Definition shiftcode : list Z :=
  table [] [(29, CTL); (42, SHIFT); (54, SHIFT); (56, ALT); (157, CTL); (184, ALT)].
Definition togglecode : list Z := table [] [(58, CAPSLOCK); (69, NUMLOCK); (70, SCROLLLOCK)].

(** The keypad and cursor keys, [KEY_HOME] (0xE0) to [KEY_DEL] (0xE9). *)
Definition key_des (enter div : Z) : list (Z * Z) :=
  [(156, enter); (181, div); (200, 226); (208, 227); (201, 230); (209, 231); (203, 228);
   (205, 229); (151, 224); (207, 225); (210, 232); (211, 233)].

Definition normalmap : list Z :=
  table ([0; 27] ++ bytes_of "1234567890-=" ++ [8; 9] ++ bytes_of "qwertyuiop[]" ++ [10; 0] ++
         bytes_of "asdfghjkl;'`" ++ [0] ++ bytes_of "\zxcvbnm,./" ++ [0] ++ bytes_of "*" ++
         [0] ++ bytes_of " " ++ replicate 13 0 ++ bytes_of "789-456+1230.")
    (key_des 10 (chr "/")).
Definition shiftmap : list Z :=
  table ([0; 27] ++ bytes_of "!@#$%^&*()_+" ++ [8; 9] ++ bytes_of "QWERTYUIOP{}" ++ [10; 0] ++
         bytes_of "ASDFGHJKL:" ++ [34] ++ bytes_of "~" ++ [0] ++ bytes_of "|ZXCVBNM<>?" ++ [0] ++
         bytes_of "*" ++ [0] ++ bytes_of " " ++ replicate 13 0 ++ bytes_of "789-456+1230.")
    (key_des 10 (chr "/")).
Definition ctlmap : list Z :=
  table (replicate 16 0 ++ (ctrl <$> bytes_of "QWERTYUIOP") ++ [0; 0; 13; 0] ++
         (ctrl <$> bytes_of "ASDFGHJKL") ++ replicate 4 0 ++ (ctrl <$> bytes_of "\ZXCVBNM") ++
         [0; 0; u8 (ctrl (chr "/")); 0; 0])
    (key_des 13 (u8 (ctrl (chr "/")))).

Definition charcode (i : Z) : list Z :=
  if i =? 0 then normalmap else if i =? 1 then shiftmap else ctlmap.
Definition tab (t : list Z) (i : Z) : Z := default 0 (t !! Z.to_nat i).

(** [kbdgetc]; [port] is what the keyboard controller has: [None] if its data bit
    ([KBS_DIB]) is clear. *)
Definition kbdgetc (port : option Z) : M kst Z :=
  match port with
  | None => mret (-1)
  | Some data =>
      k ← get;
      let shift := k_shift k in
      if data =? 224 then put (set_k_shift (Z.lor shift E0ESC) k);; mret 0
      else if has data 128 then
        let data := if has shift E0ESC then data else Z.land data 127 in
        put (set_k_shift (Z.land shift (Z.lnot (Z.lor (tab shiftcode data) E0ESC))) k);;
        mret 0
      else
        let '(data, shift) :=
          if has shift E0ESC then (Z.lor data 128, Z.land shift (Z.lnot E0ESC))
          else (data, shift) in
        let shift := Z.lor shift (tab shiftcode data) in
        let shift := Z.lxor shift (tab togglecode data) in
        put (set_k_shift shift k);;
        let c := tab (charcode (Z.land shift (Z.lor CTL SHIFT))) data in
        mret (if has shift CAPSLOCK then
                if (chr "a" <=? c) && (c <=? chr "z") then c + (chr "A" - chr "a")
                else if (chr "A" <=? c) && (c <=? chr "Z") then c + (chr "a" - chr "A")
                else c
              else c)
  end.

(** [kbdintr] and [uartintr]: what the device delivers until it has nothing more. *)
Fixpoint kbd_chars (ports : list Z) : M kst (list Z) :=
  match ports with
  | [] => mret []
  | d :: ports' => c ← kbdgetc (Some d); cs ← kbd_chars ports'; mret (c :: cs)
  end.
Definition kbdintr (pcs : proc -> list Z) (ports : list Z) : M kst unit :=
  cs ← kbd_chars ports;
  consoleintr pcs cs.

(** [uartearlyinit]; [status] is the line status register, 255 if there is no port. *)
Definition uartearlyinit (status : Z) : M kst unit :=
  if status =? 255 then mret tt
  else upd_cons (set_co_uart true);; iter_putc (bytes_of "xv6..." ++ [10]).

Definition uartgetc (port : option Z) : M kst Z :=
  co ← gets k_cons;
  if negb (co_uart co) then mret (-1)
  else match port with None => mret (-1) | Some c => mret c end.
Definition uartintr (pcs : proc -> list Z) (ports : list Z) : M kst unit :=
  co ← gets k_cons;
  consoleintr pcs (if co_uart co then ports else []).
