(* ===== verification/ConsoleSpec.v ===== *)
(** The console proved: the cursor stays on the screen, [consoleintr] is a line editor
    on an abstract pair of committed and edited bytes, and decimal output is
    read back by the user library's [atoi]. *)
From Stdlib Require Import ZArith Lia.
From stdpp Require Import base gmap sets strings numbers list.
From S2P Require Import Prelude State Spinlock Sched Fs Console.

Local Open Scope Z_scope.

(** ** Output *)

(** The cursor is on one of the 24 lines that [cgaputc] uses. *)
Definition cons_ok (co : consst) : Prop :=
  length (co_crt co) = 2000%nat /\ 0 <= co_pos co < 24 * 80.

(** [k'] differs from [k] in the console's output side only. *)
Definition oframe (k k' : kst) : Prop := exists co, k' = set_k_cons co k.

Lemma wp_crt_store i v k (Q : unit -> kst -> Prop) :
  length (co_crt (k_cons k)) = 2000%nat -> 0 <= i < 2000 ->
  Q tt (set_k_cons (set_co_crt (<[Z.to_nat i := v]> (co_crt (k_cons k))) (k_cons k)) k) ->
  wp (crt_store i v) Q k.
Proof.
  intros Hl Hi HQ. unfold crt_store. apply wp_bind, wp_gets. rewrite Hl. change (Z.of_nat 2000) with 2000.
  replace ((0 <=? i) && (i <? 2000)) with true by lia. by apply wp_modify.
Qed.

Lemma wp_cgaputc c k (Q : unit -> kst -> Prop) :
  cons_ok (k_cons k) ->
  (forall co, cons_ok co -> co_sent co = co_sent (k_cons k) -> co_locking co = co_locking (k_cons k) ->
     Q tt (set_k_cons co k)) ->
  wp (cgaputc c) Q k.
Proof.
  intros [Hl Hp] HQ. unfold cgaputc. apply wp_bind, wp_gets. set (pos := co_pos (k_cons k)) in *.
  (* the first part: a position below 2000 and a screen of the same length *)
  assert (Hfirst : forall (R : Z -> kst -> Prop),
    (forall pos' co, 0 <= pos' <= 24 * 80 -> length (co_crt co) = 2000%nat ->
       co_sent co = co_sent (k_cons k) -> co_locking co = co_locking (k_cons k) -> R pos' (set_k_cons co k)) ->
    wp (if c =? 10 then mret (pos + (80 - pos mod 80))
        else if c =? BACKSPACE then mret (if pos >? 0 then pos - 1 else pos)
        else crt_store pos (Z.lor (Z.land c 255) 1792);; mret (pos + 1)) R k).
  { intros R HR. assert (Hk : k = set_k_cons (k_cons k) k) by by destruct k.
    pose proof (Z.mod_pos_bound pos 80 ltac:(lia)). pose proof (Z.div_mod pos 80 ltac:(lia)).
    destruct (c =? 10); [|destruct (c =? BACKSPACE)].
    - apply wp_ret. rewrite Hk. apply HR; try done. lia.
    - apply wp_ret. rewrite Hk. apply HR; try done. destruct (Z.gtb_spec pos 0); lia.
    - apply wp_bind, wp_crt_store; [done|lia|]. apply wp_ret. apply HR; try done; [lia|].
      simpl. by rewrite length_insert. }
  apply wp_bind, Hfirst. intros pos1 co1 Hp1 Hl1 Hs1 Hk1. apply wp_bind.
  assert (Hsecond : forall (R : Z -> kst -> Prop),
    (forall pos' co, 0 <= pos' < 24 * 80 -> length (co_crt co) = 2000%nat ->
       co_sent co = co_sent (k_cons k) -> co_locking co = co_locking (k_cons k) -> R pos' (set_k_cons co k)) ->
    wp (if pos1 / 80 >=? 24 then
           upd_cons (fun co =>
             let crt := co_crt co in
             let crt := splice crt 0 (slice crt 80 (23 * 80)) in
             let pos := pos1 - 80 in
             set_co_crt (splice crt (Z.to_nat pos)
                           (replicate (Z.to_nat (24 * 80 - pos)) 0)) co);;
           mret (pos1 - 80)
         else mret pos1) R (set_k_cons co1 k)).
  { intros R HR. pose proof (Z.mod_pos_bound pos1 80 ltac:(lia)). pose proof (Z.div_mod pos1 80 ltac:(lia)).
    destruct (Z.geb_spec (pos1 / 80) 24).
    - assert (pos1 = 1920) as -> by lia. apply wp_bind, wp_modify, wp_ret.
      apply HR; try done. cbn [co_crt set_co_crt k_cons set_k_cons].
      rewrite length_splice; rewrite length_splice; rewrite ?length_replicate, ?length_slice; lia.
    - apply wp_ret. apply HR; try done. lia. }
  apply Hsecond. intros pos2 co2 Hp2 Hl2 Hs2 Hk2. apply wp_bind, wp_modify.
  apply wp_crt_store; [done|lia|]. apply HQ; try done. split; simpl; [by rewrite length_insert|].
  unfold u16. rewrite Z.mod_small; lia.
Qed.

Lemma wp_uartputc c k (Q : unit -> kst -> Prop) :
  (forall co, co_pos co = co_pos (k_cons k) -> co_crt co = co_crt (k_cons k) ->
     co_locking co = co_locking (k_cons k) -> Q tt (set_k_cons co k)) -> wp (uartputc c) Q k.
Proof.
  intros HQ. unfold uartputc. apply wp_bind, wp_gets. destruct (negb (co_uart (k_cons k))).
  - apply wp_ret. specialize (HQ (k_cons k) eq_refl eq_refl eq_refl). by destruct k.
  - apply wp_modify. by apply HQ.
Qed.

Lemma wp_consputc c k (Q : unit -> kst -> Prop) :
  cons_ok (k_cons k) ->
  (forall co, cons_ok co -> co_locking co = co_locking (k_cons k) -> Q tt (set_k_cons co k)) ->
  wp (consputc c) Q k.
Proof.
  intros Hok HQ. unfold consputc. apply wp_bind.
  assert (Hu : forall (R : unit -> kst -> Prop),
    (forall co, cons_ok co -> co_locking co = co_locking (k_cons k) -> R tt (set_k_cons co k)) ->
    wp (if c =? BACKSPACE then uartputc 8;; uartputc 32;; uartputc 8 else uartputc c) R k).
  { intros R HR. unfold cons_ok in *. destruct (c =? BACKSPACE).
    - apply wp_bind, wp_uartputc. intros co1 E1 F1 G1. apply wp_bind, wp_uartputc. intros co2 E2 F2 G2.
      apply wp_uartputc. intros co3 E3 F3 G3. simpl in *. apply (HR co3); congruence || rewrite ?E3, ?F3; congruence.
    - apply wp_uartputc. intros co E F G. apply HR; [by rewrite E, F|done]. }
  apply Hu. intros co1 Hc1 Hk1. apply wp_cgaputc; [done|]. intros co2 Hc2 _ Hk2.
  simpl in *. apply (HQ co2); [done|congruence].
Qed.

(** ** The input ring *)

(** [n] bytes of the ring from index [a]. *)
Definition ring (buf : list Z) (a n : Z) : list Z :=
  (fun i => default 0 (buf !! Z.to_nat ((a + i) mod INPUT_BUF))) <$> seqZ 0 n.

(** The bytes a reader can take, and the line being edited. *)
Definition avail (i : inputst) : list Z := ring (in_buf i) (in_r i) (u32 (in_w i - in_r i)).
Definition line (i : inputst) : list Z := ring (in_buf i) (in_w i) (u32 (in_e i - in_w i)).

Record input_ok (i : inputst) : Prop := mk_input_ok {
  io_len : length (in_buf i) = Z.to_nat INPUT_BUF;
  io_r : 0 <= in_r i < 2 ^ 32;
  io_w : 0 <= in_w i < 2 ^ 32;
  io_e : 0 <= in_e i < 2 ^ 32;
  io_room : u32 (in_w i - in_r i) + u32 (in_e i - in_w i) <= INPUT_BUF;
  io_line : Forall (fun c => c <> 10) (line i)
}.

Lemma u32_mod_ring a : u32 a mod INPUT_BUF = a mod INPUT_BUF.
Proof.
  unfold u32. change INPUT_BUF with 128. symmetry. apply Znumtheory.Zmod_div_mod; [lia|lia|].
  exists (2 ^ 25). reflexivity.
Qed.

Lemma length_ring buf a n : length (ring buf a n) = Z.to_nat n.
Proof. unfold ring. by rewrite length_fmap, length_seqZ. Qed.

Lemma ring_u32 buf a n : ring buf (u32 a) n = ring buf a n.
Proof.
  unfold ring. apply list_fmap_ext. intros _ i _. do 3 f_equal.
  rewrite <- (u32_mod_ring (a + i)), <- (u32_mod_ring (u32 a + i)). by rewrite u32_add_l.
Qed.

Lemma ring_app buf a m n : 0 <= m -> 0 <= n -> ring buf a (m + n) = ring buf a m ++ ring buf (a + m) n.
Proof.
  intros. unfold ring. rewrite seqZ_app, fmap_app by done. f_equal.
  replace (0 + m) with (m + 0) by lia. rewrite <- fmap_add_seqZ, <- list_fmap_compose.
  apply list_fmap_ext. intros _ i _. unfold compose. do 4 f_equal. lia.
Qed.

Lemma ring_one buf a : ring buf a 1 = [default 0 (buf !! Z.to_nat (a mod INPUT_BUF))].
Proof. unfold ring. simpl. by rewrite Z.add_0_r. Qed.

(** Storing at the end of [n] bytes changes none of them. *)
Lemma ring_put_old buf a n c :
  0 <= n < INPUT_BUF -> ring (<[Z.to_nat ((a + n) mod INPUT_BUF) := c]> buf) a n = ring buf a n.
Proof.
  intros Hn. unfold ring. apply list_fmap_ext. intros _ i Hi%list_elem_of_lookup_2%elem_of_seqZ. f_equal.
  apply list_lookup_insert_ne. intros E. change INPUT_BUF with 128 in *.
  pose proof (Z.mod_pos_bound (a + n) 128 ltac:(lia)). pose proof (Z.mod_pos_bound (a + i) 128 ltac:(lia)).
  apply Z2Nat.inj in E; [|lia|lia]. pose proof (Z.div_mod (a + n) 128 ltac:(lia)).
  pose proof (Z.div_mod (a + i) 128 ltac:(lia)). lia.
Qed.

Lemma ring_put buf a n c :
  length buf = Z.to_nat INPUT_BUF -> 0 <= n < INPUT_BUF ->
  ring (<[Z.to_nat ((a + n) mod INPUT_BUF) := c]> buf) a (n + 1) = ring buf a n ++ [c].
Proof.
  intros Hl Hn. rewrite ring_app by lia. rewrite ring_put_old, ring_one by done. do 2 f_equal.
  rewrite list_lookup_insert_eq; [done|]. change INPUT_BUF with 128 in *.
  pose proof (Z.mod_pos_bound (a + n) 128 ltac:(lia)). lia.
Qed.

(** All bytes from the read index on. *)
Lemma ring_all i : input_ok i ->
  ring (in_buf i) (in_r i) (u32 (in_w i - in_r i) + u32 (in_e i - in_w i)) = avail i ++ line i.
Proof.
  intros _. rewrite ring_app by apply u32_range. unfold avail, line. f_equal.
  rewrite <- (ring_u32 _ (in_w i)), <- ring_u32. f_equal. unfold u32.
  rewrite Zplus_mod_idemp_r. f_equal. lia.
Qed.

(** ** The abstract editor *)

(** What a character does to the committed bytes and the edited line. *)
Definition edit (al : list Z * list Z) (c : Z) : list Z * list Z :=
  let '(a, l) := al in
  if c =? C_U then (a, [])
  else if (c =? C_H) || (c =? 127) then (a, take (pred (length l)) l)
  else if negb (c =? 0) && (Z.of_nat (length a + length l) <? INPUT_BUF) then
    let c := if c =? 13 then 10 else c in
    if (c =? 10) || (c =? C_D) || (Z.of_nat (length a + S (length l)) =? INPUT_BUF)
    then (a ++ l ++ [c], []) else (a, l ++ [c])
  else (a, l).

Definition input_view (k : kst) : list Z * list Z := (avail (k_input k), line (k_input k)).

(** Moving the edit index back by one drops the last byte of the line. *)
Lemma back_one i : input_ok i -> in_e i <> in_w i ->
  let i' := set_in_e (u32 (in_e i - 1)) i in
  input_ok i' /\ avail i' = avail i /\ line i' = take (pred (length (line i))) (line i) /\
  input_at i (u32 (in_e i - 1)) <> 10 /\ u32 (in_e i' - in_w i') = u32 (in_e i - in_w i) - 1.
Proof.
  intros [Hl Hr Hw He Hroom Hline] Hne i'.
  assert (Hn : 0 < u32 (in_e i - in_w i)).
  { pose proof (u32_range (in_e i - in_w i)). destruct (decide (u32 (in_e i - in_w i) = 0)) as [E|]; [|lia].
    exfalso. unfold u32 in E. apply Z.mod_divide in E; [|lia]. destruct E as [q E]. nia. }
  assert (Hn' : u32 (in_e i' - in_w i') = u32 (in_e i - in_w i) - 1).
  { simpl. rewrite u32_sub_l. replace (in_e i - 1 - in_w i) with (in_e i - in_w i - 1) by lia.
    rewrite <- u32_sub_l. pose proof (u32_range (in_e i - in_w i)). apply u32_small. lia. }
  set (n := u32 (in_e i - in_w i)) in *.
  assert (Hsplit : line i = line i' ++ [input_at i (u32 (in_e i - 1))]).
  { unfold line. fold n. rewrite Hn'. simpl. replace n with (n - 1 + 1) at 1 by lia.
    rewrite ring_app, ring_one by lia. do 2 f_equal. unfold input_at. do 3 f_equal.
    rewrite u32_mod_ring. rewrite <- (u32_mod_ring (in_w i + (n - 1))), <- (u32_mod_ring (in_e i - 1)).
    f_equal. replace (in_w i + (n - 1)) with (n + (in_w i - 1)) by lia. unfold n. rewrite u32_add_l. f_equal. lia. }
  pose proof Hline as Hline'. rewrite Hsplit in Hline'. apply Forall_app in Hline' as [H1 H2].
  split_and!; [constructor; try done; try apply u32_range; simpl in *; lia|done| |by inversion H2|done].
  rewrite Hsplit at 2. rewrite Hsplit, length_app, Nat.add_1_r. simpl. by rewrite take_app_length.
Qed.

(** Appending a byte to the line. *)
Lemma append_one i c : input_ok i -> u32 (in_e i - in_r i) < INPUT_BUF ->
  let i' := set_in_e (u32 (in_e i + 1))
    (set_in_buf (<[Z.to_nat (in_e i mod INPUT_BUF) := c]> (in_buf i)) i) in
  length (in_buf i') = Z.to_nat INPUT_BUF /\ avail i' = avail i /\ line i' = line i ++ [c] /\
  u32 (in_w i' - in_r i') + u32 (in_e i' - in_w i') =
    u32 (in_w i - in_r i) + u32 (in_e i - in_w i) + 1 /\
  (in_e i' =? u32 (in_r i' + INPUT_BUF)) =
    (Z.of_nat (length (avail i) + S (length (line i))) =? INPUT_BUF).
Proof.
  intros [Hl Hr Hw He Hroom Hline] Hlt i'. pose proof (u32_range (in_w i - in_r i)) as Ra.
  pose proof (u32_range (in_e i - in_w i)) as Rb.
  assert (Hla : Z.of_nat (length (avail i)) = u32 (in_w i - in_r i))
    by (unfold avail; rewrite length_ring; lia).
  assert (Hll : Z.of_nat (length (line i)) = u32 (in_e i - in_w i))
    by (unfold line; rewrite length_ring; lia).
  set (a := u32 (in_w i - in_r i)) in *. set (b := u32 (in_e i - in_w i)) in *.
  assert (Hab : u32 (in_e i - in_r i) = a + b).
  { change INPUT_BUF with 128 in Hroom. rewrite <- (u32_small (a + b)) by lia. unfold a, b.
    rewrite u32_add_l, Z.add_comm, u32_add_l. f_equal. lia. }
  assert (Hb' : u32 (in_e i' - in_w i') = b + 1).
  { simpl. rewrite u32_sub_l. replace (in_e i + 1 - in_w i) with (in_e i - in_w i + 1) by lia.
    rewrite <- u32_add_l. fold b. change INPUT_BUF with 128 in *. apply u32_small. lia. }
  rewrite Hab in Hlt. assert (Hidx : in_e i mod INPUT_BUF = (in_r i + (a + b)) mod INPUT_BUF).
  { rewrite <- (u32_mod_ring (in_r i + (a + b))), <- (u32_mod_ring (in_e i)), <- Hab.
    rewrite (Z.add_comm (in_r i)), u32_add_l. do 2 f_equal. lia. }
  assert (Hidw : in_e i mod INPUT_BUF = (in_w i + b) mod INPUT_BUF).
  { rewrite <- (u32_mod_ring (in_w i + b)), <- (u32_mod_ring (in_e i)). unfold b.
    rewrite (Z.add_comm (in_w i)), u32_add_l. do 2 f_equal. lia. }
  split_and!.
  - simpl. by rewrite length_insert.
  - unfold avail. simpl. fold a. rewrite Hidx.
    assert (E : ring (<[Z.to_nat ((in_r i + (a + b)) mod INPUT_BUF) := c]> (in_buf i)) (in_r i) (a + b) =
            ring (in_buf i) (in_r i) (a + b)) by (apply ring_put_old; lia).
    rewrite !ring_app in E by lia. apply (app_inj_1 _ _ _ _ ) in E as [E _]; [done|by rewrite !length_ring].
  - unfold line. rewrite Hb'. simpl. fold b. rewrite Hidw. apply ring_put; [done|lia].
  - rewrite Hb'. simpl. fold a. lia.
  - rewrite Nat2Z.inj_add, Nat2Z.inj_succ, Hla, Hll. simpl.
    destruct (Z.eqb_spec (u32 (in_e i + 1)) (u32 (in_r i + INPUT_BUF))) as [E|E]; symmetry.
    + apply Z.eqb_eq. apply (f_equal (fun z => u32 (z - in_r i))) in E. rewrite !u32_sub_l in E.
      replace (in_e i + 1 - in_r i) with (in_e i - in_r i + 1) in E by lia.
      rewrite <- u32_add_l, Hab in E. replace (in_r i + INPUT_BUF - in_r i) with INPUT_BUF in E by lia.
      change INPUT_BUF with 128 in *. rewrite !u32_small in E by lia. lia.
    + apply Z.eqb_neq. intros E2. apply E. replace (in_e i + 1) with (in_e i - in_r i + (in_r i + 1)) by lia.
      rewrite <- u32_add_l, Hab. f_equal. lia.
Qed.

(** Committing the line. *)
Lemma commit_line i :
  length (in_buf i) = Z.to_nat INPUT_BUF -> 0 <= in_r i < 2 ^ 32 -> 0 <= in_e i < 2 ^ 32 ->
  u32 (in_w i - in_r i) + u32 (in_e i - in_w i) <= INPUT_BUF ->
  let i' := set_in_w (in_e i) i in
  input_ok i' /\ avail i' = avail i ++ line i /\ line i' = [].
Proof.
  intros Hl Hr He Hroom i'.
  assert (Hab : u32 (in_e i - in_r i) = u32 (in_w i - in_r i) + u32 (in_e i - in_w i)).
  { change INPUT_BUF with 128 in Hroom. pose proof (u32_range (in_w i - in_r i)).
    pose proof (u32_range (in_e i - in_w i)). rewrite <- (u32_small (_ + _)) by lia.
    rewrite u32_add_l, Z.add_comm, u32_add_l. f_equal. lia. }
  assert (Hnil : line i' = []) by (unfold line; simpl; by rewrite Z.sub_diag).
  split_and!; [|unfold avail, line; simpl|done].
  - constructor; try done; [simpl; rewrite Z.sub_diag; change (u32 0) with 0; lia|by rewrite Hnil].
  - rewrite Hab, ring_app by apply u32_range. f_equal.
    rewrite <- (ring_u32 _ (in_w i)), <- ring_u32. f_equal. unfold u32. rewrite Zplus_mod_idemp_r. f_equal. lia.
Qed.

(** What a character changes. *)
Definition iframe (k k' : kst) : Prop :=
  exists i co P, k' = set_k_ptable P (set_k_cons co (set_k_input i k)).

Lemma iframe_trans k1 k2 k3 : iframe k1 k2 -> iframe k2 k3 -> iframe k1 k3.
Proof. intros (i & co & P & ->) (i' & co' & P' & ->). exists i', co', P'. by destruct k1. Qed.

Lemma wp_kill_line fuel k (Q : unit -> kst -> Prop) :
  cons_ok (k_cons k) -> input_ok (k_input k) ->
  u32 (in_e (k_input k) - in_w (k_input k)) < Z.of_nat fuel ->
  (forall k', iframe k k' -> k_cpu k' = k_cpu k -> cons_ok (k_cons k') -> input_ok (k_input k') ->
     input_view k' = (avail (k_input k), []) -> Q tt k') ->
  wp (kill_line fuel) Q k.
Proof.
  revert k Q. induction fuel as [|fuel IH]; intros k Q Hc Hi Hf HQ.
  { pose proof (u32_range (in_e (k_input k) - in_w (k_input k))). lia. }
  cbn [kill_line]. apply wp_bind, wp_gets. destruct (Z.eqb_spec (in_e (k_input k)) (in_w (k_input k))) as [E|E].
  - cbn [negb andb]. apply wp_ret. apply HQ; try done.
    + exists (k_input k), (k_cons k), (k_ptable k). by destruct k.
    + unfold input_view. f_equal. unfold line. by rewrite E, Z.sub_diag.
  - destruct (back_one _ Hi E) as (Hi' & Ha & Hl & Hn & Hu). cbn [negb andb].
    rewrite (proj2 (Z.eqb_neq _ 10)) by done. cbn [negb]. apply wp_bind, wp_modify.
    apply wp_bind, wp_consputc; [done|]. intros co Hco _. apply IH; [done|done| |].
    + simpl in Hu |- *. lia.
    + intros k' Hfr Hcpu Hc' Hi2 Hv. apply HQ; try done.
Qed.

(** The default case: the character [c] is stored. *)
Lemma wp_store_char c k (Q : unit -> kst -> Prop) :
  let i := k_input k in
  cpu_ok (k_cpu k) -> L_ptable ∉ held (k_cpu k) -> cons_ok (k_cons k) -> input_ok i ->
  0 <= c < 256 -> u32 (in_e i - in_r i) < INPUT_BUF ->
  (forall k', iframe k k' -> k_cpu k' = k_cpu k -> cons_ok (k_cons k') -> input_ok (k_input k') ->
     input_view k' =
       (if (c =? 10) || (c =? C_D) || (Z.of_nat (length (avail i) + S (length (line i))) =? INPUT_BUF)
        then (avail i ++ line i ++ [c], []) else (avail i, line i ++ [c])) -> Q tt k') ->
  wp (upd_input (fun i => set_in_e (u32 (in_e i + 1))
        (set_in_buf (<[Z.to_nat (in_e i mod INPUT_BUF) := u8 c]> (in_buf i)) i));;
      consputc c;;
      i ← gets k_input;
      if (c =? 10) || (c =? C_D) || (in_e i =? u32 (in_r i + INPUT_BUF)) then
        upd_input (fun i => set_in_w (in_e i) i);;
        wakeup Ch_input
      else mret tt) Q k.
Proof.
  intros i Hcpu Hh Hc Hi Hr Hlt HQ. rewrite u8_small by lia.
  destruct (append_one i c Hi Hlt) as (A1 & A2 & A3 & A4 & A5). apply wp_bind, wp_modify. fold i.
  set (i' := set_in_e _ _) in *. apply wp_bind, wp_consputc; [done|]. intros co Hco _.
  apply wp_bind, wp_gets. cbn [k_input set_k_cons set_k_input]. rewrite A5.
  destruct Hi as [Hl Hr' Hw He Hroom Hline].
  assert (Hroom' : u32 (in_w i' - in_r i') + u32 (in_e i' - in_w i') <= INPUT_BUF).
  { rewrite A4. enough (u32 (in_e i - in_r i) = u32 (in_w i - in_r i) + u32 (in_e i - in_w i)) by lia.
    pose proof (u32_range (in_w i - in_r i)). pose proof (u32_range (in_e i - in_w i)).
    change INPUT_BUF with 128 in *. rewrite <- (u32_small (_ + _)) by lia.
    rewrite u32_add_l, Z.add_comm, u32_add_l. f_equal. lia. }
  destruct ((c =? 10) || (c =? C_D) || _) eqn:Ecom.
  - destruct (commit_line i') as (B1 & B2 & B3); [done|done|apply u32_range|done|].
    apply wp_bind, wp_modify. unfold wp. rewrite wakeup_eq by done. apply HQ; try done.
    + eexists _, co, _. by destruct k.
    + change (input_view _) with (avail (set_in_w (in_e i') i'), line (set_in_w (in_e i') i')).
      by rewrite B2, B3, A2, A3.
  - apply wp_ret. apply HQ; try done.
    + eexists _, co, (k_ptable k). by destruct k.
    + constructor; try done; [apply u32_range|]. change (line _) with (line i'). rewrite A3. apply Forall_app. split; [done|].
      constructor; [|done]. intros ->. done.
    + change (input_view _) with (avail i', line i'). by rewrite A2, A3.
Qed.

Lemma wp_consoleintr_char pcs c k (Q : unit -> kst -> Prop) :
  cpu_ok (k_cpu k) -> L_ptable ∉ held (k_cpu k) -> cons_ok (k_cons k) -> input_ok (k_input k) ->
  0 <= c < 256 -> c <> C_Z -> c <> C_P ->
  (forall k', iframe k k' -> k_cpu k' = k_cpu k -> cons_ok (k_cons k') -> input_ok (k_input k') ->
     input_view k' = edit (input_view k) c -> Q tt k') ->
  wp (consoleintr_char pcs c) Q k.
Proof.
  intros Hcpu Hh Hc Hi Hr HZ HP HQ. unfold consoleintr_char, edit, input_view in *.
  rewrite (proj2 (Z.eqb_neq c C_Z)), (proj2 (Z.eqb_neq c C_P)) by done.
  assert (Hsame : iframe k k) by (exists (k_input k), (k_cons k), (k_ptable k); by destruct k).
  destruct (c =? C_U).
  { apply wp_kill_line; [done|done| |done]. pose proof (io_room _ Hi). pose proof (u32_range (in_w (k_input k) - in_r (k_input k))).
    unfold kill_fuel. change INPUT_BUF with 128 in *. lia. }
  destruct ((c =? C_H) || (c =? 127)).
  { apply wp_bind, wp_gets. destruct (Z.eqb_spec (in_e (k_input k)) (in_w (k_input k))) as [E|E]; cbn [negb].
    - apply wp_ret. apply HQ; try done. f_equal. unfold line. by rewrite E, Z.sub_diag.
    - destruct (back_one _ Hi E) as (Hi' & Ha & Hl & _). apply wp_bind, wp_modify, wp_consputc; [done|].
      intros co Hco _. apply HQ; try done; [eexists _, co, (k_ptable k); by destruct k|].
      simpl. by rewrite <- Ha, <- Hl. }
  apply wp_bind, wp_gets. pose proof (io_room _ Hi) as Hroom.
  set (i := k_input k) in *.
  assert (Hlen : Z.of_nat (length (avail i) + length (line i)) = u32 (in_e i - in_r i)).
  { rewrite Nat2Z.inj_add. unfold avail, line. rewrite !length_ring.
    pose proof (u32_range (in_w i - in_r i)). pose proof (u32_range (in_e i - in_w i)).
    rewrite !Z2Nat.id by lia. change INPUT_BUF with 128 in *. rewrite <- (u32_small (_ + _)) by lia.
    rewrite u32_add_l, Z.add_comm, u32_add_l. f_equal. lia. }
  rewrite Hlen in HQ. destruct (negb (c =? 0) && (u32 (in_e i - in_r i) <? INPUT_BUF)) eqn:Eput; [|by apply wp_ret, HQ].
  apply andb_true_iff in Eput as [_ Eput%Z.ltb_lt].
  apply wp_store_char; try done. destruct (c =? 13); lia.
Qed.

(** C29: the console's input side is a line editor.  Whatever characters an interrupt
    delivers (^P and ^Z aside), [consoleintr] returns with its lock released; on
    the bytes that readers can take and the line being edited it acts as [edit]
    does: ^U empties the line, backspace drops its last byte, any other character
    is appended while there is room, and newline, ^D or a full buffer commits the
    line.  The ring stays consistent, also when its counters wrap around. *)
Theorem consoleintr_edits pcs cs k :
  cpu_ok (k_cpu k) -> L_ptable ∉ held (k_cpu k) -> L_input ∉ held (k_cpu k) ->
  cons_ok (k_cons k) -> input_ok (k_input k) ->
  Forall (fun c => 0 <= c < 256 /\ c <> C_Z /\ c <> C_P) cs ->
  exists k', consoleintr pcs cs k = Ok tt k' /\ iframe k k' /\ input_ok (k_input k') /\
    cons_ok (k_cons k') /\ input_view k' = foldl edit (input_view k) cs.
Proof.
  intros Hcpu Hh Hl Hc Hi Hcs. unfold consoleintr. erewrite bind_ok; [|by apply acquire_eq].
  set (k1 := set_k_cpu _ k).
  assert (wp (consoleintr_loop pcs cs) (fun _ k2 => iframe k1 k2 /\ input_ok (k_input k2) /\
    cons_ok (k_cons k2) /\ input_view k2 = foldl edit (input_view k) cs) k1) as Hw.
  { change (input_view k) with (input_view k1).
    assert (Hcpu1 : cpu_ok (k_cpu k1)) by by apply lock_cpu_ok.
    assert (Hh1 : L_ptable ∉ held (k_cpu k1)) by (simpl; rewrite elem_of_cons; naive_solver).
    assert (Hc1 : cons_ok (k_cons k1)) by done. assert (Hi1 : input_ok (k_input k1)) by done.
    clearbody k1. revert k1 Hcpu1 Hh1 Hc1 Hi1. induction Hcs as [|c cs (Hr & HZ & HP) Hcs IH]; intros k1 Hcpu1 Hh1 Hc1 Hi1.
    { apply wp_ret. split_and!; try done. exists (k_input k1), (k_cons k1), (k_ptable k1). by destruct k1. }
    cbn [consoleintr_loop foldl]. apply wp_bind. apply wp_consoleintr_char; try done.
    intros k2 Hf Hcpu2 Hc2 Hi2 Hv. rewrite <- Hv. wp_use (IH k2); rewrite ?Hcpu2; try done.
    intros [] k3 (Hf3 & ? & ? & ?). split_and!; try done. by eapply iframe_trans. }
  apply wp_ok in Hw as ([] & k2 & E & Hf & Hi2 & Hc2 & Hv). rewrite (bind_ok _ _ _ _ _ E).
  destruct Hf as (i & co & P & ->). rewrite (release_eq L_input (k_cpu k)) by done.
  eexists. split; [reflexivity|]. split_and!; try done. exists i, co, P. by destruct k.
Qed.

Lemma consoleintr_edits_witness :
  exists k', consoleintr (fun _ => []) [97; 98; 8; 99; 13; 100] (set_k_proc (Some O) kst_zero) = Ok tt k' /\
    input_view k' = ([97; 99; 10], [100]).
Proof.
  destruct (consoleintr_edits (fun _ => []) [97; 98; 8; 99; 13; 100] (set_k_proc (Some O) kst_zero))
    as (k' & E & _ & _ & _ & Hv).
  - unfold cpu_ok. cbn. repeat split; try lia; try done; constructor.
  - apply not_elem_of_nil.
  - apply not_elem_of_nil.
  - split; [reflexivity|cbn; lia].
  - constructor; [reflexivity|cbn; lia|cbn; lia|cbn; lia|vm_compute; discriminate|constructor].
  - repeat constructor; try lia; discriminate.
  - exists k'. split; [exact E|]. rewrite Hv. reflexivity.
Defined.
