(* ===== verification/Dir.v ===== *)
(** The upper layers of [src/fs.c]: file contents, directories and path names.

    [readi] returns, besides its result, the bytes that it stores at [dst];
    [writei] takes the [n] bytes at [src].  A path is a byte list without NUL
    and a name buffer is a list of [DIRSIZ] bytes. *)
From Stdlib Require Import ZArith Lia.
From stdpp Require Import base gmap sets strings numbers list.
From S2P Require Import Prelude Strings State Spinlock Sched Bio Log Fs Console.

Local Open Scope Z_scope.

(** ** Inode contents *)

(** [devsw[major]], [None] when the read or write function is absent. *)
Definition devsw_at (major : Z) : M kst (option device) :=
  k ← get;
  mret (if (major <? 0) || (major >=? NDEV) then None else mjoin (k_devsw k !! Z.to_nat major)).

(** The copy loop of [readi]: [rem] bytes are left, [off] is the current offset. *)
Fixpoint readi_loop (fuel : nat) (ip : nat) (off rem : Z) : M kst (list Z) :=
  match fuel with
  | O => fail EFuel
  | S fuel' =>
      if rem <=? 0 then mret [] else
      x ← inode_at ip;
      bno ← bmap ip (off / BSIZE);
      bp ← bread (i_dev x) bno;
      let m := Z.min rem (BSIZE - off mod BSIZE) in
      d ← bdata bp;
      let bs := slice d (Z.to_nat (off mod BSIZE)) (Z.to_nat m) in
      brelse bp;;
      rest ← readi_loop fuel' ip (u32 (off + m)) (rem - m);
      mret (bs ++ rest)
  end.

(** Each round but the first and the last copies a whole block. *)
Definition rw_fuel (n : Z) : nat := Z.to_nat (n / BSIZE + 3).

Definition readi (ip : nat) (off n : Z) : M kst (Z * list Z) :=
  x ← inode_at ip;
  if i_type x =? T_DEV then
    dev ← devsw_at (i_major x);
    match dev with
    | None => mret (-1, [])
    | Some Dev_console => consoleread ip (i32 n)
    end
  else if (off >? i_size x) || (u32 (off + n) <? off) then mret (-1, [])
  else
    let n := if u32 (off + n) >? i_size x then u32 (i_size x - off) else n in
    bs ← readi_loop (rw_fuel n) ip off n;
    mret (i32 n, bs).

(** The copy loop of [writei]: [src] is what is left to write; the final offset. *)
Fixpoint writei_loop (fuel : nat) (ip : nat) (off : Z) (src : list Z) : M kst Z :=
  match fuel with
  | O => fail EFuel
  | S fuel' =>
      if Z.of_nat (length src) <=? 0 then mret off else
      x ← inode_at ip;
      bno ← bmap ip (off / BSIZE);
      bp ← bread (i_dev x) bno;
      let m := Z.min (Z.of_nat (length src)) (BSIZE - off mod BSIZE) in
      d ← bdata bp;
      set_bdata bp (splice d (Z.to_nat (off mod BSIZE)) (take (Z.to_nat m) src));;
      log_write bp;;
      brelse bp;;
      writei_loop fuel' ip (u32 (off + m)) (drop (Z.to_nat m) src)
  end.

Definition writei (ip : nat) (src : list Z) (off : Z) : M kst Z :=
  let n := Z.of_nat (length src) in
  x ← inode_at ip;
  if i_type x =? T_DEV then
    dev ← devsw_at (i_major x);
    match dev with
    | None => mret (-1)
    | Some Dev_console => consolewrite ip src
    end
  else if (off >? i_size x) || (u32 (off + n) <? off) then mret (-1)
  else if u32 (off + n) >? MAXFILE * BSIZE then mret (-1)
  else
    off ← writei_loop (rw_fuel n) ip off src;
    x ← inode_at ip;
    (if (n >? 0) && (off >? i_size x) then
       upd_inode ip (set_i_size off);;
       iupdate ip
     else mret tt);;
    mret (i32 n).

(** ** Directories *)

(** The bytes at a [char *] that points to the NUL-terminated [l]. *)
Definition ptr (l : list Z) : Z -> Z := fun i => default 0 (l !! Z.to_nat i).

Definition namecmp (s t : list Z) : Z := strncmp (ptr s) (ptr t) DIRSIZ.

(** [struct dirent] and its 16 bytes. *)
Record dirent : Type := mk_dirent {
  de_inum : Z;
  de_name : list Z
}.
Definition DIRENT : Z := 16.
Definition get_dirent (bs : list Z) : dirent := mk_dirent (le_val (take 2 bs)) (drop 2 bs).
Definition enc_dirent (de : dirent) : list Z := le_bytes 2 (de_inum de) ++ de_name de.

(** [strncpy(de.name, name, DIRSIZ)], with [de.name] at address 0 and [name], which is
    NUL-terminated, at address 64. *)
Definition dirname (name : list Z) : list Z :=
  read_bytes (strncpy (fun a => if a <? 64 then 0 else ptr name (a - 64)) 0 64 DIRSIZ)
    0 (Z.to_nat DIRSIZ).

(** The loop of [dirlookup] from offset [off]: the matching entry and its offset. *)
Fixpoint dirlookup_loop (fuel : nat) (dp : nat) (name : list Z) (off : Z) :
    M kst (option (Z * Z)) :=
  match fuel with
  | O => fail EFuel
  | S fuel' =>
      x ← inode_at dp;
      if off <? i_size x then
        '(r, bs) ← readi dp off DIRENT;
        if negb (r =? DIRENT) then panic "dirlookup read" else
        let de := get_dirent bs in
        if de_inum de =? 0 then dirlookup_loop fuel' dp name (off + DIRENT)
        else if namecmp name (de_name de) =? 0 then mret (Some (de_inum de, off))
        else dirlookup_loop fuel' dp name (off + DIRENT)
      else mret None
  end.

Definition dir_fuel (size : Z) : nat := Z.to_nat (size / DIRENT + 2).

(** [dirlookup]; the offset of the entry is what it stores in [*poff]. *)
Definition dirlookup (dp : nat) (name : list Z) : M kst (option (nat * Z)) :=
  x ← inode_at dp;
  if negb (i_type x =? T_DIR) then panic "dirlookup not DIR" else
  r ← dirlookup_loop (dir_fuel (i_size x)) dp name 0;
  match r with
  | Some (inum, off) => ip ← iget (i_dev x) inum; mret (Some (ip, off))
  | None => mret None
  end.

(** The search of [dirlink] for an empty entry. *)
Fixpoint dirlink_loop (fuel : nat) (dp : nat) (off : Z) : M kst Z :=
  match fuel with
  | O => fail EFuel
  | S fuel' =>
      x ← inode_at dp;
      if off <? i_size x then
        '(r, bs) ← readi dp off DIRENT;
        if negb (r =? DIRENT) then panic "dirlink read" else
        if de_inum (get_dirent bs) =? 0 then mret off
        else dirlink_loop fuel' dp (off + DIRENT)
      else mret off
  end.

Definition dirlink (dp : nat) (name : list Z) (inum : Z) : M kst Z :=
  r ← dirlookup dp name;
  match r with
  | Some (ip, _) => iput ip;; mret (-1)
  | None =>
      x ← inode_at dp;
      off ← dirlink_loop (dir_fuel (i_size x)) dp 0;
      r ← writei dp (enc_dirent (mk_dirent (u16 inum) (dirname name))) off;
      if negb (r =? DIRENT) then panic "dirlink" else mret 0
  end.

(** ** Paths *)
Definition slash : Z := 47.

Fixpoint skip_slashes (path : list Z) : list Z :=
  match path with
  | [] => []
  | c :: path' => if c =? slash then skip_slashes path' else path
  end.
(** The next element and what follows it. *)
Fixpoint take_elem (path : list Z) : list Z * list Z :=
  match path with
  | [] => ([], [])
  | c :: path' =>
      if c =? slash then ([], path)
      else let '(e, rest) := take_elem path' in (c :: e, rest)
  end.

Definition skipelem (path name : list Z) : option (list Z * list Z) :=
  let path := skip_slashes path in
  match path with
  | [] => None
  | _ =>
      let '(s, path) := take_elem path in
      let len := Z.of_nat (length s) in
      let name := if len >=? DIRSIZ then splice name 0 (take (Z.to_nat DIRSIZ) s)
                  else splice name 0 (s ++ [0]) in
      Some (skip_slashes path, name)
  end.

(** The loop of [namex]: the inode (with [None] for a null pointer) and the name
    buffer.  Each round consumes at least one byte of the path. *)
Fixpoint namex_loop (fuel : nat) (ip : nat) (path : list Z) (parent : bool) (name : list Z) :
    M kst (option nat * list Z) :=
  match fuel with
  | O => fail EFuel
  | S fuel' =>
      match skipelem path name with
      | None =>
          if parent then iput ip;; mret (None, name) else mret (Some ip, name)
      | Some (path, name) =>
          ilock ip;;
          x ← inode_at ip;
          if negb (i_type x =? T_DIR) then iunlockput ip;; mret (None, name)
          else if parent && bool_decide (path = []) then iunlock ip;; mret (Some ip, name)
          else
            next ← dirlookup ip name;
            match next with
            | None => iunlockput ip;; mret (None, name)
            | Some (next, _) => iunlockput ip;; namex_loop fuel' next path parent name
            end
      end
  end.

Definition namex (path : list Z) (parent : bool) (name : list Z) : M kst (option nat * list Z) :=
  ip ← (if bool_decide (head path = Some slash) then iget ROOTDEV ROOTINO
        else
          '(_, p) ← curproc;
          cwd ← deref "cwd" (p_cwd p);
          idup cwd);
  namex_loop (S (length path)) ip path parent name.

(** [namei] with its uninitialised local [name] taken as zeros. *)
Definition namei (path : list Z) : M kst (option nat) :=
  r ← namex path false (replicate (Z.to_nat DIRSIZ) 0);
  mret r.1.

Definition nameiparent (path name : list Z) : M kst (option nat * list Z) :=
  namex path true name.
