(* ===== verification/FsContent.v ===== *)
(** File contents: [bmap], [readi] and [writei] of [src/fs.c].  The abstract view of a
    file is a function from offsets to bytes; reading returns a segment of it and
    writing inside the file replaces one. *)
From Stdlib Require Import ZArith Lia.
From stdpp Require Import base gmap sets strings numbers list.
From S2P Require Import Prelude State Spinlock Sched Bio Log Blk Crash LogOps Txn Fs FsDemo FsAlloc FsInode Console Dir.

Local Open Scope Z_scope.

(** ** The abstract file *)

(** The indirect block of [x], and the disk block of its block [bn]. *)
Definition ind_block (x : inode) : Z := default 0 (i_addrs x !! Z.to_nat NDIRECT).
Definition block_of (L : Z -> block) (x : inode) (bn : Z) : Z :=
  if bn <? NDIRECT then default 0 (i_addrs x !! Z.to_nat bn)
  else get_u32 (L (ind_block x)) (4 * (bn - NDIRECT)).

Definition file_byte (L : Z -> block) (x : inode) (o : Z) : Z :=
  data_at (L (block_of L x (o / BSIZE))) (o mod BSIZE).

(** A block that can be read: on the disk, in use and not held. *)
Definition readable (k : kst) (Hd : list (nat * Z)) (b : Z) : Prop :=
  0 < b < disksize k /\ b ∉ Hd.*2.

(** The first [n] blocks of the file are allocated. *)
Record mapped (k : kst) (L : Z -> block) (Hd : list (nat * Z)) (x : inode) (n : Z) : Prop := mk_mapped {
  mp_dev : i_dev x = ROOTDEV;
  mp_len : length (i_addrs x) = Z.to_nat (NDIRECT + 1);
  mp_max : n <= MAXFILE;
  mp_ind : NDIRECT < n -> readable k Hd (ind_block x);
  mp_blocks : forall bn, 0 <= bn < n -> readable k Hd (block_of L x bn)
}.

Lemma readable_frame k k' Hd b : tframe k k' -> readable k Hd b -> readable k' Hd b.
Proof. intros Hf. unfold readable. by rewrite (tframe_disksize _ _ Hf). Qed.

Lemma wp_inode_at k0 k L s lsize hs U Hd ip x (Q : inode -> kst -> Prop) :
  intx k0 k L s lsize hs U Hd -> k_icache k0 !! ip = Some x -> Q x k -> wp (inode_at ip) Q k.
Proof.
  intros H Hx HQ. unfold inode_at. apply wp_bind, wp_get. eapply wp_deref; [|exact HQ].
  by rewrite (tframe_icache _ _ (ix_frame _ _ _ _ _ _ _ _ H)).
Qed.

(** [bmap] of an allocated block only looks it up. *)
Lemma wp_bmap k0 k L s lsize hs Hd ip x n bn (Q : Z -> kst -> Prop) :
  intx k0 k L s lsize hs [] Hd -> k_icache k0 !! ip = Some x -> mapped k0 L Hd x n ->
  (length hs + length Hd < NBUF)%nat -> 0 <= bn < n ->
  (forall k', intx k0 k' L s lsize hs [] Hd -> Q (block_of L x bn) k') ->
  wp (bmap ip bn) Q k.
Proof.
  intros H Hx [Hdev Hlen Hmax Hind Hblk] Hbuf Hbn HQ. unfold bmap. apply wp_bind.
  eapply wp_inode_at; [exact H|done|]. specialize (Hblk bn Hbn). unfold block_of in *. revert Hblk HQ.
  destruct (Z.ltb_spec bn NDIRECT) as [Hd'|Hd']; intros Hblk HQ.
  - destruct (lookup_lt_is_Some_2 (i_addrs x) (Z.to_nat bn)) as [a Ha].
    { rewrite Hlen. change NDIRECT with 12 in *. lia. }
    rewrite Ha in *. cbn [default from_option id] in *. apply wp_bind, wp_ret.
    rewrite (proj2 (Z.eqb_neq a 0)) by (unfold readable in Hblk; lia). apply wp_ret. by apply HQ.
  - specialize (Hind ltac:(lia)). unfold ind_block in *.
    rewrite (proj2 (Z.ltb_lt _ _)) by (change NINDIRECT with 128; change MAXFILE with (12 + 128) in *; change NDIRECT with 12 in *; lia).
    destruct (lookup_lt_is_Some_2 (i_addrs x) (Z.to_nat NDIRECT)) as [a Ha].
    { rewrite Hlen. change NDIRECT with 12. lia. }
    rewrite Ha in *. cbn [default from_option id] in *. apply wp_bind, wp_ret.
    rewrite (proj2 (Z.eqb_neq a 0)) by (unfold readable in Hind; lia). apply wp_bind, wp_ret.
    rewrite Hdev. apply wp_bind. destruct Hind as [Hr Hn].
    eapply wp_tx_bread; [exact H|lia|done|lia|]. intros i k1 H1.
    apply wp_bind. eapply wp_tx_bdata; [exact H1|left|]. unfold readable in Hblk.
    rewrite (proj2 (Z.eqb_neq _ 0)) by lia. apply wp_bind, wp_ret. apply wp_bind.
    eapply wp_tx_brelse; [exact H1|done|apply not_elem_of_nil|]. intros k2 H2. apply wp_ret. by apply HQ.
Qed.

(** ** Offsets *)
Lemma bsize : BSIZE = 512.
Proof. done. Qed.

(** A chunk inside one block is a segment of the file. *)
Lemma chunk_bytes L x off m :
  0 <= off -> 0 <= m -> off mod BSIZE + m <= BSIZE ->
  length (L (block_of L x (off / BSIZE))) = Z.to_nat BSIZE ->
  slice (L (block_of L x (off / BSIZE))) (Z.to_nat (off mod BSIZE)) (Z.to_nat m) =
    file_byte L x <$> seqZ off m.
Proof.
  intros Ho Hm Hle Hl. rewrite bsize in *. pose proof (Z.mod_pos_bound off 512 ltac:(lia)).
  pose proof (Z.div_mod off 512 ltac:(lia)).
  apply list_eq. intros i. rewrite list_lookup_fmap. destruct (decide (i < Z.to_nat m)%nat) as [Hi|Hi].
  - rewrite lookup_slice, lookup_seqZ_lt by lia. cbn [fmap option_fmap option_map].
    unfold file_byte. rewrite bsize. rewrite <- (Z.div_unique (off + Z.of_nat i) 512 (off / 512) (off mod 512 + Z.of_nat i)) by lia.
    rewrite <- (Z.mod_unique (off + Z.of_nat i) 512 (off / 512) (off mod 512 + Z.of_nat i)) by lia.
    unfold data_at. replace (Z.to_nat (off mod 512 + Z.of_nat i)) with (Z.to_nat (off mod 512) + i)%nat by lia.
    destruct (lookup_lt_is_Some_2 (L (block_of L x (off / 512))) (Z.to_nat (off mod 512) + i)) as [v Hv]; [lia|].
    by rewrite Hv.
  - rewrite lookup_ge_None_2 by (rewrite length_slice; lia). by rewrite lookup_seqZ_ge by lia.
Qed.

(** Number of blocks that [n] bytes from [off] touch. *)
Definition nblk (off n : Z) : Z :=
  if n <=? 0 then 0 else (off mod BSIZE + n + 511) / BSIZE.

Lemma nblk_fuel off n : 0 <= n -> nblk off n < Z.of_nat (rw_fuel n).
Proof.
  intros Hn. unfold nblk, rw_fuel. rewrite bsize. pose proof (Z.mod_pos_bound off 512 ltac:(lia)).
  pose proof (Z.div_mod n 512 ltac:(lia)). pose proof (Z.mod_pos_bound n 512 ltac:(lia)).
  rewrite Z2Nat.id by lia. destruct (Z.leb_spec n 0); [lia|]. apply Z.div_lt_upper_bound; lia.
Qed.

(** A round that copies [m] bytes to the end of the block or of the request. *)
Lemma nblk_step off n m : 0 <= off -> 0 < n -> m = Z.min n (BSIZE - off mod BSIZE) ->
  0 < m <= n /\ off mod BSIZE + m <= BSIZE /\ 0 <= nblk (off + m) (n - m) < nblk off n.
Proof.
  intros Ho Hn ->. unfold nblk. rewrite bsize. pose proof (Z.mod_pos_bound off 512 ltac:(lia)) as Hb.
  pose proof (Z.div_mod off 512 ltac:(lia)) as Hdm. split; [lia|]. split; [lia|].
  assert (1 <= (off mod 512 + n + 511) / 512) by (apply Z.div_le_lower_bound; lia).
  rewrite (proj2 (Z.leb_gt n 0)) by lia. destruct (decide (n <= 512 - off mod 512)).
  - rewrite Z.min_l, Z.sub_diag by lia. simpl. lia.
  - rewrite Z.min_r by lia. rewrite (proj2 (Z.leb_gt _ 0)) by lia.
    rewrite <- (Z.mod_unique (off + (512 - off mod 512)) 512 (off / 512 + 1) 0) by lia.
    replace (off mod 512 + n + 511) with (0 + (n - (512 - off mod 512)) + 511 + 1 * 512) by lia.
    rewrite Z.div_add by lia. split; [|lia]. apply Z.div_pos; lia.
Qed.

(** ** [readi] *)
Lemma wp_readi_loop fuel k0 k L s lsize hs Hd ip x n off rem (Q : list Z -> kst -> Prop) :
  intx k0 k L s lsize hs [] Hd -> k_icache k0 !! ip = Some x -> mapped k0 L Hd x n ->
  (length hs + length Hd < NBUF)%nat -> nblk off rem < Z.of_nat fuel ->
  0 <= off -> 0 <= rem -> off + rem <= BSIZE * n ->
  (forall k', intx k0 k' L s lsize hs [] Hd -> Q (file_byte L x <$> seqZ off rem) k') ->
  wp (readi_loop fuel ip off rem) Q k.
Proof.
  revert k off rem Q. induction fuel as [|fuel IH]; intros k off rem Q H Hx Hm Hbuf Hf Ho Hr Hn HQ.
  { exfalso. unfold nblk in Hf. rewrite bsize in Hf. destruct (Z.leb_spec rem 0); [lia|].
    pose proof (Z.mod_pos_bound off 512 ltac:(lia)).
    assert (0 <= (off mod 512 + rem + 511) / 512) by (apply Z.div_pos; lia). lia. }
  cbn [readi_loop]. destruct (Z.leb_spec rem 0) as [H0|H0].
  { apply wp_ret. assert (rem = 0) as -> by lia. by apply HQ. }
  destruct (nblk_step off rem _ Ho H0 eq_refl) as (Hm1 & Hm2 & Hm3).
  set (m := Z.min rem (BSIZE - off mod BSIZE)) in *.
  pose proof (Z.div_mod off BSIZE ltac:(done)) as Hdm.
  pose proof (Z.mod_pos_bound off BSIZE ltac:(done)) as Hmb.
  assert (Hbn : 0 <= off / BSIZE < n).
  { split; [apply Z.div_pos; rewrite ?bsize; lia|]. apply Z.div_lt_upper_bound; rewrite ?bsize in *; lia. }
  apply wp_bind. eapply wp_inode_at; [exact H|done|]. rewrite (mp_dev _ _ _ _ _ Hm).
  apply wp_bind. eapply wp_bmap; [exact H|done|exact Hm|done|done|]. intros k1 H1.
  destruct (mp_blocks _ _ _ _ _ Hm _ Hbn) as [Hr1 Hr2].
  apply wp_bind. eapply wp_tx_bread; [exact H1|lia|done|lia|]. intros i k2 H2.
  apply wp_bind. eapply wp_tx_bdata; [exact H2|left|].
  pose proof (ix_held_len _ _ _ _ _ _ _ _ H2 i _ ltac:(left)) as Hl.
  apply wp_bind. eapply wp_tx_brelse; [exact H2|done|apply not_elem_of_nil|]. intros k3 H3.
  pose proof (mp_max _ _ _ _ _ Hm) as Hmax. change MAXFILE with 140 in Hmax. rewrite bsize in *.
  rewrite u32_small by lia. apply wp_bind.
  eapply (IH k3 (off + m) (rem - m)); [exact H3|done|done|done|lia|lia|lia|lia|].
  intros k4 H4. apply wp_ret. rewrite <- bsize, chunk_bytes by (rewrite ?bsize; done || lia).
  rewrite <- fmap_app, <- seqZ_app by lia. replace (m + (rem - m)) with rem by lia. by apply HQ.
Qed.

(** Blocks of a file of [size] bytes. *)
Definition size_blocks (size : Z) : Z := (size + BSIZE - 1) / BSIZE.

Lemma size_blocks_le size : 0 <= size -> size <= BSIZE * size_blocks size.
Proof.
  intros. unfold size_blocks. rewrite bsize.
  pose proof (Z.div_mod (size + 512 - 1) 512 ltac:(lia)).
  pose proof (Z.mod_pos_bound (size + 512 - 1) 512 ltac:(lia)). lia.
Qed.

Lemma size_blocks_max size : 0 <= size -> size_blocks size <= MAXFILE -> size < 2 ^ 31.
Proof. intros H Hm. pose proof (size_blocks_le size H). change MAXFILE with 140 in Hm. rewrite bsize in *. lia. Qed.

(** The number of bytes that a read of [n] at [off] delivers. *)
Definition read_len (size off n : Z) : Z := Z.min n (size - off).

Lemma wp_readi k0 k L s lsize hs Hd ip x off n (Q : Z * list Z -> kst -> Prop) :
  intx k0 k L s lsize hs [] Hd -> k_icache k0 !! ip = Some x -> i_type x <> T_DEV ->
  0 <= i_size x -> mapped k0 L Hd x (size_blocks (i_size x)) -> (length hs + length Hd < NBUF)%nat ->
  0 <= off <= i_size x -> 0 <= n -> off + n < 2 ^ 32 ->
  (let m := read_len (i_size x) off n in
   forall k', intx k0 k' L s lsize hs [] Hd -> Q (m, file_byte L x <$> seqZ off m) k') ->
  wp (readi ip off n) Q k.
Proof.
  intros H Hx Ht Hs Hm Hbuf Ho Hn H32 HQ. unfold readi. apply wp_bind.
  eapply wp_inode_at; [exact H|done|]. rewrite (proj2 (Z.eqb_neq _ _)) by done.
  rewrite (u32_small (off + n)) by lia. rewrite (proj2 (Z.ltb_ge (off + n) off)) by lia.
  replace (off >? i_size x) with false by lia. cbn [orb].
  pose proof (size_blocks_le _ Hs) as Hsb. pose proof (size_blocks_max _ Hs (mp_max _ _ _ _ _ Hm)) as H31.
  assert ((if off + n >? i_size x then u32 (i_size x - off) else n) = read_len (i_size x) off n) as ->.
  { unfold read_len. destruct (Z.gtb_spec (off + n) (i_size x)); [rewrite u32_small|]; lia. }
  cbv zeta in HQ. set (m := read_len (i_size x) off n) in *.
  assert (0 <= m) by (unfold m, read_len; lia). assert (off + m <= i_size x) by (unfold m, read_len; lia).
  apply wp_bind. eapply wp_readi_loop; [exact H|done|exact Hm|done|by apply nblk_fuel|lia|lia|lia|].
  intros k' H'. apply wp_ret. rewrite i32_small by lia. by apply HQ.
Qed.

(** The file of the example disk, opened. *)
Definition demo_open : inode := set_i_flags I_VALID (load_dinode demo_file demo_inode).
Definition demo_ofs : kst := set_k_icache (demo_open :: replicate 49 zero_inode) demo_fs.

Lemma demo_txn_ofs : txn demo_ofs (dblk demo_img) 2 30 [] [] [].
Proof. apply txn_set_icache, demo_txn_fs. Qed.

Lemma demo_block_of bn : 0 <= bn < 13 ->
  block_of (dblk demo_img) demo_open bn = if bn <? 12 then 35 + bn else 48.
Proof.
  intros Hb. assert (E : forallb (fun bn => block_of (dblk demo_img) demo_open bn =?
    (if bn <? 12 then 35 + bn else 48)) (seqZ 0 13) = true) by (vm_compute; reflexivity).
  rewrite forallb_forall in E. apply Z.eqb_eq, E, list_elem_of_In, elem_of_seqZ. lia.
Qed.

Lemma demo_mapped : mapped demo_ofs (dblk demo_img) [] demo_open (size_blocks (i_size demo_open)).
Proof.
  assert (Hd : disksize demo_ofs = 64) by (vm_compute; reflexivity).
  change (size_blocks (i_size demo_open)) with 13. split; try reflexivity.
  - done.
  - intros _. unfold readable. rewrite Hd. change (ind_block demo_open) with 47.
    split; [lia|apply not_elem_of_nil].
  - intros bn Hb. unfold readable. rewrite demo_block_of, Hd by done.
    split; [destruct (Z.ltb_spec bn 12); lia|apply not_elem_of_nil].
Qed.

(** C24: [readi] reads the file.  For an inode whose blocks are allocated, a read of [n]
    bytes at [off] returns the number of bytes up to the end of the file (at most
    [n]) and exactly these bytes of the file, through direct and indirect blocks,
    without changing the disk; an offset past the end or an overflowing request
    returns -1 and nothing. *)
Theorem readi_spec k L s lsize hs Hd ip x off n :
  txn k L s lsize hs [] Hd -> k_icache k !! ip = Some x -> i_type x <> T_DEV ->
  0 <= i_size x -> mapped k L Hd x (size_blocks (i_size x)) -> (length hs + length Hd < NBUF)%nat ->
  0 <= off < 2 ^ 32 -> 0 <= n < 2 ^ 32 ->
  if (off <=? i_size x) && (off + n <? 2 ^ 32) then
    let m := Z.min n (i_size x - off) in
    exists k', readi ip off n k = Ok (m, file_byte L x <$> seqZ off m) k' /\
      txn k' L s lsize hs [] Hd /\ tframe k k'
  else readi ip off n k = Ok (-1, []) k.
Proof.
  intros Ht Hx Hty Hs Hm Hbuf Ho Hn. destruct (Z.leb_spec off (i_size x)) as [Hle|Hgt]; cbn [andb].
  2: { unfold readi. erewrite bind_ok; [|unfold inode_at, get, mbind, M_bind; by rewrite Hx].
       rewrite (proj2 (Z.eqb_neq _ _)) by done. by replace (off >? i_size x) with true by lia. }
  destruct (Z.ltb_spec (off + n) (2 ^ 32)) as [H32|H32].
  - assert (wp (readi ip off n) (fun r k' => r = (read_len (i_size x) off n, file_byte L x <$> seqZ off (read_len (i_size x) off n)) /\
      intx k k' L s lsize hs [] Hd) k) as Hw.
    { eapply wp_readi; [by apply intx_start|done|done|done|done|done|lia|lia|lia|]. done. }
    apply wp_ok in Hw as (r & k' & E & -> & H'). exists k'. split; [done|]. split; apply H'.
  - unfold readi. erewrite bind_ok; [|unfold inode_at, get, mbind, M_bind; by rewrite Hx].
    rewrite (proj2 (Z.eqb_neq _ _)) by done. replace (u32 (off + n) <? off) with true.
    + by rewrite orb_true_r.
    + symmetry. apply Z.ltb_lt. unfold u32.
      rewrite <- (Z.mod_unique (off + n) (2 ^ 32) 1 (off + n - 2 ^ 32)) by lia. lia.
Qed.

Lemma readi_spec_witness :
  (exists k', readi 0 6143 4 demo_ofs = Ok (4, [46; 48; 48; 48]) k') /\
  readi 0 7000 1 demo_ofs = Ok (-1, []) demo_ofs.
Proof.
  assert (H : forall off n, 0 <= off < 2 ^ 32 -> 0 <= n < 2 ^ 32 -> _) by
    (intros off n; exact (readi_spec demo_ofs (dblk demo_img) 2 30 [] [] 0 demo_open off n demo_txn_ofs
      eq_refl ltac:(done) ltac:(cbn; lia) demo_mapped ltac:(simpl; unfold NBUF; lia))).
  split.
  - destruct (H 6143 4 ltac:(lia) ltac:(lia)) as (k' & E & _). exists k'. rewrite E. reflexivity.
  - exact (H 7000 1 ltac:(lia) ltac:(lia)).
Defined.

(** ** [writei] inside the file *)

(** The first [n] blocks of the file are its own: outside the log, distinct, and none
    of them is its indirect block. *)
Record own_blocks (k : kst) (L : Z -> block) (s lsize : Z) (x : inode) (n : Z) : Prop := mk_own {
  ow_max : disksize k < 2 ^ 31;
  ow_log : forall bn, 0 <= bn < n -> ~ (s <= block_of L x bn < s + lsize);
  ow_inj : forall bn bn', 0 <= bn < n -> 0 <= bn' < n -> block_of L x bn = block_of L x bn' -> bn = bn';
  ow_ind : NDIRECT < n -> forall bn, 0 <= bn < n -> block_of L x bn <> ind_block x
}.

(** [L'] differs from [L] in blocks of the file only, and gives it the bytes [src] at
    [off]. *)
Definition overwrites (L L' : Z -> block) (x : inode) (n off : Z) (src : list Z) : Prop :=
  (forall bn, 0 <= bn < n -> block_of L' x bn = block_of L x bn) /\
  (forall o, 0 <= o < BSIZE * n -> file_byte L' x o =
     if decide (off <= o < off + Z.of_nat (length src)) then data_at src (o - off)
     else file_byte L x o) /\
  (forall b, (forall bn, 0 <= bn < n -> b <> block_of L x bn) -> L' b = L b).

(** The written range read back. *)
Lemma overwrites_range L L' x n off src :
  overwrites L L' x n off src -> 0 <= off -> off + Z.of_nat (length src) <= BSIZE * n ->
  file_byte L' x <$> seqZ off (Z.of_nat (length src)) = src.
Proof.
  intros Hov Ho Hle. apply list_eq. intros j. rewrite list_lookup_fmap.
  destruct (decide (j < length src)%nat) as [Hj|Hj].
  - rewrite lookup_seqZ_lt by lia. cbn [fmap option_fmap option_map].
    rewrite (proj1 (proj2 Hov)) by lia. rewrite decide_True by lia. unfold data_at.
    replace (Z.to_nat (off + Z.of_nat j - off)) with j by lia.
    destruct (lookup_lt_is_Some_2 src j Hj) as [v Hv]. by rewrite Hv.
  - rewrite lookup_seqZ_ge by lia. simpl. symmetry. apply lookup_ge_None_2. lia.
Qed.

(** A range that the write does not touch. *)
Lemma overwrites_other L L' x n off src o m :
  overwrites L L' x n off src -> 0 <= o -> o + m <= BSIZE * n ->
  o + m <= off \/ off + Z.of_nat (length src) <= o ->
  file_byte L' x <$> seqZ o m = file_byte L x <$> seqZ o m.
Proof.
  intros Hov Ho Hle Hd. apply list_fmap_ext. intros j a Ha. apply lookup_seqZ in Ha as [-> Hj].
  rewrite (proj1 (proj2 Hov)) by lia. by rewrite decide_False by lia.
Qed.

Lemma overwrites_nil L x n off : overwrites L L x n off [].
Proof. split_and!; try done. intros o Ho. rewrite decide_False; [done|simpl; lia]. Qed.

Lemma overwrites_app L L1 L2 x n off src1 src2 :
  0 <= off ->
  overwrites L L1 x n off src1 -> overwrites L1 L2 x n (off + Z.of_nat (length src1)) src2 ->
  overwrites L L2 x n off (src1 ++ src2).
Proof.
  intros Ho0 (A1 & B1 & C1) (A2 & B2 & C2). split_and!.
  - intros bn Hb. by rewrite A2, A1.
  - intros o Ho. rewrite B2 by done. rewrite length_app, Nat2Z.inj_add. unfold data_at.
    case_decide as D2; case_decide as D; try lia.
    + rewrite lookup_app_r by lia. do 2 f_equal. lia.
    + rewrite B1 by done. case_decide as D1; [|lia]. unfold data_at. by rewrite lookup_app_l by lia.
    + rewrite B1 by done. case_decide as D1; [lia|done].
  - intros b Hb. rewrite C2, C1; [done|done|]. intros bn Hbn. rewrite A1 by done. by apply Hb.
Qed.

Lemma data_at_splice d a new j :
  0 <= j -> (a + length new <= length d)%nat ->
  data_at (splice d a new) j =
    if decide (Z.of_nat a <= j < Z.of_nat a + Z.of_nat (length new)) then data_at new (j - Z.of_nat a)
    else data_at d j.
Proof.
  intros Hj Hl. unfold data_at. case_decide.
  - rewrite lookup_splice_new by lia. do 2 f_equal. lia.
  - rewrite lookup_splice_old by lia. done.
Qed.

(** One chunk, inside one block. *)
Lemma overwrites_chunk k L s lsize x n off src :
  own_blocks k L s lsize x n -> 0 <= off -> 0 <= off / BSIZE < n ->
  off mod BSIZE + Z.of_nat (length src) <= BSIZE ->
  length (L (block_of L x (off / BSIZE))) = Z.to_nat BSIZE ->
  overwrites L (bupd L (block_of L x (off / BSIZE))
    (splice (L (block_of L x (off / BSIZE))) (Z.to_nat (off mod BSIZE)) src)) x n off src.
Proof.
  intros [_ _ Hinj Hind] Ho Hq Hle Hl. rewrite bsize in *. set (q := off / 512) in *.
  set (b := block_of L x q) in *. set (L1 := bupd L b _). pose proof (Z.mod_pos_bound off 512 ltac:(lia)) as Hmb.
  pose proof (Z.div_mod off 512 ltac:(lia)) as Hdm. fold q in Hdm.
  assert (A : forall bn, 0 <= bn < n -> block_of L1 x bn = block_of L x bn).
  { intros bn Hbn. unfold block_of. destruct (Z.ltb_spec bn NDIRECT); [done|].
    unfold L1. rewrite bupd_ne; [done|]. intros E. by apply (Hind ltac:(lia) q Hq). }
  split_and!; [done| |].
  - intros o Hor. rewrite bsize in Hor. pose proof (Z.mod_pos_bound o 512 ltac:(lia)). pose proof (Z.div_mod o 512 ltac:(lia)).
    assert (Hob : 0 <= o / 512 < n) by (split; [apply Z.div_pos|apply Z.div_lt_upper_bound]; lia).
    unfold file_byte. rewrite bsize, A by done. destruct (decide (o / 512 = q)) as [E|E].
    + rewrite E. fold b. unfold L1. rewrite bupd_eq, data_at_splice by lia.
      destruct (decide (off <= o < off + Z.of_nat (length src))).
      * rewrite decide_True by lia. f_equal. lia.
      * rewrite decide_False by lia. done.
    + rewrite decide_False by lia. unfold L1. rewrite bupd_ne; [done|].
      intros E'. by apply E, Hinj.
  - intros b' Hb'. unfold L1. apply bupd_ne, Hb', Hq.
Qed.

Lemma own_blocks_upd k L L' s lsize x n :
  (forall bn, 0 <= bn < n -> block_of L' x bn = block_of L x bn) ->
  own_blocks k L s lsize x n -> own_blocks k L' s lsize x n.
Proof.
  intros A [H1 H2 H3 H4]. split; [done|..].
  - intros bn Hb. rewrite A by done. auto.
  - intros bn bn' Hb Hb'. rewrite !A by done. auto.
  - intros Hn bn Hb. rewrite A by done. auto.
Qed.

Lemma mapped_upd k L L' Hd x n :
  (forall bn, 0 <= bn < n -> block_of L' x bn = block_of L x bn) ->
  mapped k L Hd x n -> mapped k L' Hd x n.
Proof. intros A [H1 H2 H3 H4 H5]. split; try done. intros bn Hb. rewrite A by done. auto. Qed.

Lemma wp_writei_loop fuel k0 k L s lsize hs Hd ip x n off src (Q : Z -> kst -> Prop) :
  intx k0 k L s lsize hs [] Hd -> 1 <= log_outstanding (k_log k0) -> k_icache k0 !! ip = Some x ->
  mapped k0 L Hd x n -> own_blocks k0 L s lsize x n ->
  let len := Z.of_nat (length src) in
  Z.of_nat (length hs) + nblk off len < lsize ->
  Z.of_nat (length hs + length Hd) + nblk off len <= Z.of_nat NBUF ->
  nblk off len < Z.of_nat fuel -> 0 <= off -> off + len <= BSIZE * n ->
  (forall k' L' hs', intx k0 k' L' s lsize hs' [] Hd -> overwrites L L' x n off src ->
     Z.of_nat (length hs') <= Z.of_nat (length hs) + nblk off len -> Q (off + len) k') ->
  wp (writei_loop fuel ip off src) Q k.
Proof.
  revert k L hs off src Q. induction fuel as [|fuel IH];
    intros k L hs off src Q H Hout Hx Hm How len Hlog Hbuf Hf Ho Hn HQ.
  { exfalso. unfold nblk in Hf. rewrite bsize in Hf. destruct (Z.leb_spec len 0); [lia|].
    pose proof (Z.mod_pos_bound off 512 ltac:(lia)).
    assert (0 <= (off mod 512 + len + 511) / 512) by (apply Z.div_pos; lia). lia. }
  cbn [writei_loop]. fold len. destruct (Z.leb_spec len 0) as [H0|H0].
  { apply wp_ret. destruct src; [|simpl in *; lia]. rewrite <- (Z.add_0_r off) at 1.
    apply (HQ k L hs); [done|apply overwrites_nil|]. unfold nblk. simpl. lia. }
  destruct (nblk_step off len _ Ho H0 eq_refl) as (Hm1 & Hm2 & Hm3).
  set (m := Z.min len (BSIZE - off mod BSIZE)) in *.
  pose proof (Z.div_mod off BSIZE ltac:(done)) as Hdm.
  pose proof (Z.mod_pos_bound off BSIZE ltac:(done)) as Hmb.
  assert (Hbn : 0 <= off / BSIZE < n).
  { split; [apply Z.div_pos; rewrite ?bsize; lia|]. apply Z.div_lt_upper_bound; rewrite ?bsize in *; lia. }
  apply wp_bind. eapply wp_inode_at; [exact H|done|]. rewrite (mp_dev _ _ _ _ _ Hm).
  apply wp_bind. eapply wp_bmap; [exact H|done|exact Hm|lia|done|]. intros k1 H1.
  destruct (mp_blocks _ _ _ _ _ Hm _ Hbn) as [Hr1 Hr2].
  apply wp_bind. eapply wp_tx_bread; [exact H1|lia|done|lia|]. intros i k2 H2.
  apply wp_bind. eapply wp_tx_bdata; [exact H2|left|].
  pose proof (ix_held_len _ _ _ _ _ _ _ _ H2 i _ ltac:(left)) as Hl.
  set (b := block_of L x (off / BSIZE)) in *. set (src1 := take (Z.to_nat m) src).
  assert (Hs1 : Z.of_nat (length src1) = m) by (unfold src1; rewrite length_take; lia).
  pose proof (overwrites_chunk k0 L s lsize x n off src1 How Ho Hbn ltac:(lia) Hl) as Hov. fold b in Hov.
  pose proof (proj1 Hov) as Hbo. pose proof (ow_max _ _ _ _ _ _ How) as Hmx.
  eapply wp_tx_store_then;
    [exact H2|done|rewrite length_splice; lia|by apply (ow_log _ _ _ _ _ _ How)|lia|lia|].
  intros hs' k3 H3 Hle _. pose proof (mp_max _ _ _ _ _ Hm) as Hmax. change MAXFILE with 140 in Hmax.
  assert (Hd2 : Z.of_nat (length (drop (Z.to_nat m) src)) = len - m) by (rewrite length_drop; lia).
  rewrite u32_small by (rewrite bsize in Hn; lia).
  eapply (IH k3 _ hs'); [exact H3|done|done|by eapply mapped_upd|by eapply own_blocks_upd|..];
    rewrite ?Hd2; try lia.
  intros k4 L' hs4 H4 Hov2 Hle4. replace (off + m + (len - m)) with (off + len) by lia.
  apply (HQ k4 L' hs4 H4); [|lia]. rewrite <- (take_drop (Z.to_nat m) src).
  eapply overwrites_app; [done|exact Hov|]. fold src1. by rewrite Hs1.
Qed.

Lemma wp_writei k0 k L s lsize hs Hd ip x off src (Q : Z -> kst -> Prop) :
  intx k0 k L s lsize hs [] Hd -> 1 <= log_outstanding (k_log k0) -> k_icache k0 !! ip = Some x ->
  i_type x <> T_DEV -> let n := size_blocks (i_size x) in
  mapped k0 L Hd x n -> own_blocks k0 L s lsize x n ->
  let len := Z.of_nat (length src) in
  Z.of_nat (length hs) + nblk off len < lsize ->
  Z.of_nat (length hs + length Hd) + nblk off len <= Z.of_nat NBUF ->
  0 <= off -> off + len <= i_size x ->
  (forall k' L' hs', intx k0 k' L' s lsize hs' [] Hd -> overwrites L L' x n off src ->
     Z.of_nat (length hs') <= Z.of_nat (length hs) + nblk off len -> Q len k') ->
  wp (writei ip src off) Q k.
Proof.
  intros H Hout Hx Hty n Hm How len Hlog Hbuf Ho Hle HQ. unfold writei. fold len. apply wp_bind.
  eapply wp_inode_at; [exact H|done|]. rewrite (proj2 (Z.eqb_neq _ _)) by done.
  pose proof (size_blocks_le (i_size x) ltac:(lia)) as Hsb.
  pose proof (size_blocks_max (i_size x) ltac:(lia) (mp_max _ _ _ _ _ Hm)) as H31.
  pose proof (mp_max _ _ _ _ _ Hm) as Hmax. change MAXFILE with 140 in *.
  rewrite (u32_small (off + len)) by lia. rewrite (proj2 (Z.ltb_ge (off + len) off)) by lia.
  replace (off >? i_size x) with false by lia. cbn [orb].
  replace (off + len >? 140 * BSIZE) with false by (rewrite bsize in *; lia).
  apply wp_bind. eapply wp_writei_loop; [exact H|done|done|exact Hm|exact How|done|done| |lia|lia|].
  { apply nblk_fuel. lia. }
  intros k' L' hs' H' Hov Hle'. apply wp_bind. eapply wp_inode_at; [exact H'|done|].
  fold len. replace (off + len >? i_size x) with false by lia. rewrite andb_false_r.
  apply wp_bind, wp_ret, wp_ret. rewrite i32_small by lia. by apply (HQ k' L' hs').
Qed.

(** C3: [writei] inside a file replaces exactly the written bytes, in one transaction:
    it returns the length, every byte of the file is the new one inside the
    written range and the old one outside, no block outside the file changes,
    and a [readi] of the range gives back what was written. *)
Theorem writei_readi k L s lsize hs Hd ip x off src :
  txn k L s lsize hs [] Hd -> 1 <= log_outstanding (k_log k) -> k_icache k !! ip = Some x ->
  i_type x <> T_DEV -> let n := size_blocks (i_size x) in
  mapped k L Hd x n -> own_blocks k L s lsize x n ->
  let len := Z.of_nat (length src) in
  Z.of_nat (length hs) + nblk off len < lsize ->
  Z.of_nat (length hs + length Hd) + nblk off len < Z.of_nat NBUF ->
  0 <= off -> off + len <= i_size x ->
  exists k' L' hs', writei ip src off k = Ok len k' /\ txn k' L' s lsize hs' [] Hd /\ tframe k k' /\
    overwrites L L' x n off src /\ exists k'', readi ip off len k' = Ok (len, src) k''.
Proof.
  intros Ht Hout Hx Hty n Hm How len Hlog Hbuf Ho Hle. pose proof (intx_start _ _ _ _ _ _ _ Ht) as Hi.
  assert (wp (writei ip src off) (fun r k' => r = len /\ exists L' hs', intx k k' L' s lsize hs' [] Hd /\
    overwrites L L' x n off src /\ Z.of_nat (length hs') <= Z.of_nat (length hs) + nblk off len) k) as Hw.
  { eapply wp_writei; [exact Hi|done|done|done|exact Hm|exact How|done|fold len; lia|done|done|].
    intros k' L' hs' H' Hov Hle'. split; [done|]. by exists L', hs'. }
  apply wp_ok in Hw as (r & k' & E & -> & L' & hs' & H' & Hov & Hle'). exists k', L', hs'.
  split; [done|]. split; [apply H'|]. split; [apply H'|]. split; [done|].
  pose proof (size_blocks_max (i_size x) ltac:(lia) (mp_max _ _ _ _ _ Hm)) as H31.
  assert (wp (readi ip off len) (fun r k'' => r = (len, src)) k') as Hw.
  { eapply wp_readi; [exact H'|done|done|lia| |lia|lia|lia|lia|].
    - eapply mapped_upd; [|exact Hm]. apply Hov.
    - intros m k'' _. assert (m = len) as -> by (unfold m, read_len; lia). f_equal.
      pose proof (size_blocks_le (i_size x) ltac:(lia)) as Hsb. fold n in Hsb.
      apply (overwrites_range _ _ _ _ _ _ Hov); lia. }
  apply wp_ok in Hw as (r & k'' & E2 & ->). by exists k''.
Qed.

Lemma writei_readi_witness :
  exists k' k'', writei 0 [1; 2; 3] 6143 demo_ofs = Ok 3 k' /\ readi 0 6143 3 k' = Ok (3, [1; 2; 3]) k''.
Proof.
  assert (Hd : disksize demo_ofs = 64) by (vm_compute; reflexivity).
  assert (How : own_blocks demo_ofs (dblk demo_img) 2 30 demo_open (size_blocks (i_size demo_open))).
  { change (size_blocks (i_size demo_open)) with 13. split.
    - rewrite Hd. lia.
    - intros bn Hb. rewrite demo_block_of by done. destruct (Z.ltb_spec bn 12); lia.
    - intros bn bn' Hb Hb'. rewrite !demo_block_of by done.
      destruct (Z.ltb_spec bn 12), (Z.ltb_spec bn' 12); lia.
    - intros _ bn Hb. rewrite demo_block_of by done. change (ind_block demo_open) with 47.
      destruct (Z.ltb_spec bn 12); lia. }
  destruct (writei_readi demo_ofs (dblk demo_img) 2 30 [] [] 0 demo_open 6143 [1; 2; 3] demo_txn_ofs
    ltac:(cbn; lia) eq_refl ltac:(done) demo_mapped How ltac:(vm_compute; reflexivity)
    ltac:(vm_compute; reflexivity) ltac:(lia) ltac:(cbn; lia)) as (k' & L' & hs' & E & _ & _ & _ & k'' & E').
  exists k', k''. split; [exact E|exact E'].
Defined.
