(* ===== verification/FsDir.v ===== *)
(** Directories and path names of [src/fs.c]: [dirlookup] against the list of a
    directory's entries, [skipelem] against the splitting of a path at its
    slashes. *)
From Stdlib Require Import ZArith Lia.
From stdpp Require Import base gmap sets strings numbers list.
From S2P Require Import Prelude Strings State Spinlock Sched Bio Log Blk Crash LogOps Txn Fs FsDemo FsAlloc FsInode Console Dir FsContent.

Local Open Scope Z_scope.

(** ** Directory entries *)
Definition dir_entry (L : Z -> block) (x : inode) (j : Z) : dirent :=
  get_dirent (file_byte L x <$> seqZ (DIRENT * j) DIRENT).

(** Entry [j] is in use and has the name. *)
Definition entry_matches (L : Z -> block) (x : inode) (name : list Z) (j : Z) : bool :=
  let de := dir_entry L x j in
  negb (de_inum de =? 0) && (namecmp name (de_name de) =? 0).

Section dirlookup_proof.
Context (k0 : kst) (L : Z -> block) (s lsize : Z) (hs : list Z) (Hd : list (nat * Z)).
Context (dp : nat) (x : inode) (name : list Z).
Context (Hx : k_icache k0 !! dp = Some x) (Hty : i_type x = T_DIR).
Context (Hsz : 0 <= i_size x) (Hmul : i_size x mod DIRENT = 0).
Context (Hm : mapped k0 L Hd x (size_blocks (i_size x))) (Hbuf : (length hs + length Hd < NBUF)%nat).

Lemma wp_dirlookup_loop fuel k j (Q : option (Z * Z) -> kst -> Prop) :
  intx k0 k L s lsize hs [] Hd -> 0 <= j -> DIRENT * j <= i_size x ->
  i_size x / DIRENT - j < Z.of_nat fuel ->
  (forall j' k', j <= j' -> DIRENT * j' < i_size x -> entry_matches L x name j' = true ->
     (forall i, j <= i < j' -> entry_matches L x name i = false) ->
     intx k0 k' L s lsize hs [] Hd -> Q (Some (de_inum (dir_entry L x j'), DIRENT * j')) k') ->
  (forall k', (forall i, j <= i -> DIRENT * i < i_size x -> entry_matches L x name i = false) ->
     intx k0 k' L s lsize hs [] Hd -> Q None k') ->
  wp (dirlookup_loop fuel dp name (DIRENT * j)) Q k.
Proof using Hx Hty Hsz Hmul Hm Hbuf.
  assert (HD : DIRENT = 16) by done. pose proof (Z.div_mod (i_size x) DIRENT ltac:(done)) as Hdm.
  revert k j Q. induction fuel as [|fuel IH]; intros k j Q H Hj Hle Hf HS HN; [lia|].
  cbn [dirlookup_loop]. apply wp_bind. eapply wp_inode_at; [exact H|done|].
  destruct (Z.ltb_spec (DIRENT * j) (i_size x)) as [Hlt|Hge].
  2: { apply wp_ret. apply HN; [|done]. intros. lia. }
  pose proof (size_blocks_max _ Hsz (mp_max _ _ _ _ _ Hm)) as H31.
  apply wp_bind. eapply wp_readi; [exact H|done|by rewrite Hty|done|exact Hm|done|lia|lia|lia|].
  intros m k1 H1. assert (m = DIRENT) as -> by (unfold m, read_len; lia).
  cbv beta iota. rewrite Z.eqb_refl. cbn [negb]. fold (dir_entry L x j).
  assert (Hnext : entry_matches L x name j = false ->
    wp (dirlookup_loop fuel dp name (DIRENT * j + DIRENT)) Q k1).
  { intros Hno. replace (DIRENT * j + DIRENT) with (DIRENT * (j + 1)) by lia.
    apply IH; [done|lia|lia|lia|..].
    - intros j' k' Hj' Hlt' Hm' Hi' H'. apply HS; try done; [lia|]. intros i Hi.
      destruct (decide (i = j)) as [->|]; [done|]. apply Hi'. lia.
    - intros k' Hi' H'. apply HN; [|done]. intros i Hi Hilt.
      destruct (decide (i = j)) as [->|]; [done|]. apply Hi'; lia. }
  unfold entry_matches in Hnext.
  destruct (de_inum (dir_entry L x j) =? 0) eqn:E1; cbn [negb andb] in Hnext; [by apply Hnext|].
  destruct (namecmp name (de_name (dir_entry L x j)) =? 0) eqn:E2; [|by apply Hnext].
  apply wp_ret. apply HS; [lia|done| |intros; lia|done]. unfold entry_matches. by rewrite E1, E2.
Qed.

(** The whole scan: the first entry that matches, or none. *)
Lemma wp_dirlookup_scan k :
  intx k0 k L s lsize hs [] Hd ->
  wp (dirlookup_loop (dir_fuel (i_size x)) dp name 0) (fun r k' => intx k0 k' L s lsize hs [] Hd /\
    ((exists j, 0 <= j < i_size x / DIRENT /\ entry_matches L x name j = true /\
        (forall i, 0 <= i < j -> entry_matches L x name i = false) /\
        r = Some (de_inum (dir_entry L x j), DIRENT * j)) \/
     ((forall i, 0 <= i < i_size x / DIRENT -> entry_matches L x name i = false) /\ r = None))) k.
Proof using Hx Hty Hsz Hmul Hm Hbuf.
  intros H. assert (HD : DIRENT = 16) by done. pose proof (Z.div_mod (i_size x) DIRENT ltac:(done)) as Hdm.
  assert (Hq : 0 <= i_size x / DIRENT) by (apply Z.div_pos; lia).
  change 0 with (DIRENT * 0) at 1. eapply wp_dirlookup_loop; [exact H|lia|lia| |..].
  - unfold dir_fuel. lia.
  - intros j k' Hj Hlt Hma Hi H'. split; [done|left]. exists j. split; [lia|]. done.
  - intros k' Hi H'. split; [done|right]. split; [|done]. intros i Hi'. apply Hi; lia.
Qed.
End dirlookup_proof.

(** [dirlookup] finds the first entry of the directory that is in use and has the
    name, and returns the cached inode that [iget] gives for its number together
    with the entry's offset; if there is no such entry it returns null.  The disk
    does not change. *)
Theorem dirlookup_spec k L s lsize hs Hd dp x name :
  txn k L s lsize hs [] Hd -> k_icache k !! dp = Some x -> i_type x = T_DIR ->
  0 <= i_size x -> i_size x mod DIRENT = 0 -> mapped k L Hd x (size_blocks (i_size x)) ->
  (length hs + length Hd < NBUF)%nat ->
  exists k', txn k' L s lsize hs [] Hd /\ tframe k k' /\
    ((exists j, 0 <= j < i_size x / DIRENT /\ entry_matches L x name j = true /\
        (forall i, 0 <= i < j -> entry_matches L x name i = false) /\
        dirlookup dp name k =
          (ip ← iget (i_dev x) (de_inum (dir_entry L x j)); mret (Some (ip, DIRENT * j))) k') \/
     ((forall i, 0 <= i < i_size x / DIRENT -> entry_matches L x name i = false) /\
      dirlookup dp name k = Ok None k')).
Proof.
  intros Ht Hx Hty Hsz Hmul Hm Hbuf. unfold dirlookup.
  erewrite bind_ok; [|unfold inode_at, get, mbind, M_bind; by rewrite Hx]. rewrite Hty, Z.eqb_refl. cbn [negb].
  pose proof (wp_dirlookup_scan k L s lsize hs Hd dp x name Hx Hty Hsz Hmul Hm Hbuf k
    (intx_start _ _ _ _ _ _ _ Ht)) as Hw.
  apply wp_ok in Hw as (r & k' & E & H' & Hr). rewrite (bind_ok _ _ _ _ _ E). exists k'.
  split; [apply H'|]. split; [apply H'|].
  destruct Hr as [(j & Hj & Hma & Hi & ->)|[Hi ->]]; [left; by exists j|by right].
Qed.

(** The root directory of the example disk, opened. *)
Definition demo_dir : inode :=
  set_i_flags I_VALID (load_dinode demo_root (set_i_dev ROOTDEV (set_i_inum 1 (set_i_ref 1 zero_inode)))).
Definition demo_dfs : kst := set_k_icache (demo_dir :: replicate 49 zero_inode) demo_fs.

Lemma dirlookup_spec_witness :
  exists k' L, dirlookup 0 [97] demo_dfs =
      (ip ← iget ROOTDEV (de_inum (dir_entry L demo_dir 2)); mret (Some (ip, 32))) k' /\
    de_inum (dir_entry L demo_dir 2) = 2.
Proof.
  assert (Hm : mapped demo_dfs (dblk demo_img) [] demo_dir (size_blocks (i_size demo_dir))).
  { assert (Hd : disksize demo_dfs = 64) by (vm_compute; reflexivity).
    change (size_blocks (i_size demo_dir)) with 1. split; try reflexivity; try done.
    intros bn Hb. assert (bn = 0) as -> by lia. unfold readable. rewrite Hd.
    change (block_of (dblk demo_img) demo_dir 0) with 34. split; [lia|apply not_elem_of_nil]. }
  destruct (dirlookup_spec demo_dfs (dblk demo_img) 2 30 [] [] 0 demo_dir [97]
    (txn_set_icache _ _ _ _ _ _ _ _ demo_txn_fs) eq_refl eq_refl ltac:(cbn; lia) eq_refl Hm
    ltac:(simpl; unfold NBUF; lia)) as (k' & _ & _ & [(j & Hj & Hma & _ & E)|[Hi _]]).
  - exists k', (dblk demo_img). split; [|vm_compute; reflexivity].
    change (i_size demo_dir / DIRENT) with 3 in Hj.
    assert (j = 0 \/ j = 1 \/ j = 2) as [->|[->| ->]] by lia.
    + vm_compute in Hma. discriminate Hma.
    + vm_compute in Hma. discriminate Hma.
    + exact E.
  - change (i_size demo_dir / DIRENT) with 3 in Hi. specialize (Hi 2 ltac:(lia)). vm_compute in Hi. discriminate Hi.
Defined.

(** ** Path names *)

(** The elements of a path: what is between the slashes, empty parts dropped; [acc] is
    the element begun. *)
Fixpoint split_path (acc path : list Z) : list (list Z) :=
  match path with
  | [] => match acc with [] => [] | _ => [acc] end
  | c :: path' =>
      if c =? slash then
        match acc with [] => split_path [] path' | _ => acc :: split_path [] path' end
      else split_path (acc ++ [c]) path'
  end.
Definition elements (path : list Z) : list (list Z) := split_path [] path.

Lemma elements_skip path : elements (skip_slashes path) = elements path.
Proof.
  unfold elements. induction path as [|c path IH]; [done|]. cbn [skip_slashes split_path].
  destruct (c =? slash) eqn:E; [done|]. cbn [split_path]. by rewrite E.
Qed.

Lemma skip_slashes_head path :
  skip_slashes path = [] \/ exists c path', skip_slashes path = c :: path' /\ c <> slash.
Proof.
  induction path as [|c path IH]; [by left|]. cbn [skip_slashes].
  destruct (Z.eqb_spec c slash); [done|]. right. by exists c, path.
Qed.

Lemma take_elem_split acc path : acc <> [] ->
  split_path acc path = (acc ++ (take_elem path).1) :: elements (take_elem path).2.
Proof.
  revert acc. induction path as [|c path IH]; intros acc Ha; cbn [split_path take_elem].
  { simpl. rewrite app_nil_r. by destruct acc. }
  destruct (Z.eqb_spec c slash) as [->|Hne].
  - simpl. rewrite app_nil_r. unfold elements. cbn [split_path]. by destruct acc.
  - rewrite IH by (by destruct acc). destruct (take_elem path) as [e rest]. simpl.
    by rewrite <- app_assoc.
Qed.

Lemma take_elem_nonul path : Forall (fun c => c <> 0) path -> Forall (fun c => c <> 0) (take_elem path).1.
Proof.
  induction 1 as [|c path Hc Hp IH]; cbn [take_elem]; [constructor|].
  destruct (c =? slash); [constructor|]. destruct (take_elem path). simpl in *. by constructor.
Qed.

Lemma skip_slashes_nonul path : Forall (fun c => c <> 0) path -> Forall (fun c => c <> 0) (skip_slashes path).
Proof.
  induction 1 as [|c path Hc Hp IH]; cbn [skip_slashes]; [constructor|].
  destruct (c =? slash); [done|]. by constructor.
Qed.

Lemma cut_nul_all l : Forall (fun c => c <> 0) l -> cut_nul l = l.
Proof.
  induction 1 as [|c l Hc Hl IH]; [done|]. cbn [cut_nul]. rewrite (proj2 (Z.eqb_neq _ _)) by done.
  by rewrite IH.
Qed.

Lemma cut_nul_app l l' : Forall (fun c => c <> 0) l -> cut_nul (l ++ 0 :: l') = l.
Proof.
  induction 1 as [|c l Hc Hl IH]; [done|]. cbn [cut_nul app]. rewrite (proj2 (Z.eqb_neq _ _)) by done.
  by rewrite IH.
Qed.

(** The name buffer after the copy of element [e]. *)
Lemma elem_name e name :
  Forall (fun c => c <> 0) e -> length name = Z.to_nat DIRSIZ ->
  let name' := if Z.of_nat (length e) >=? DIRSIZ then splice name 0 (take (Z.to_nat DIRSIZ) e)
               else splice name 0 (e ++ [0]) in
  length name' = Z.to_nat DIRSIZ /\ cut_nul name' = take (Z.to_nat DIRSIZ) e.
Proof.
  intros He Hl name'. subst name'. change DIRSIZ with 14 in *.
  destruct (Z.geb_spec (Z.of_nat (length e)) 14).
  - rewrite splice_all by (rewrite length_take; lia). split; [rewrite length_take; lia|].
    apply cut_nul_all. by apply Forall_take.
  - split; [rewrite length_splice; [done|rewrite length_app; simpl; lia]|].
    unfold splice. rewrite <- app_assoc. simpl. rewrite cut_nul_app by done. symmetry. apply take_ge. lia.
Qed.

(** [skipelem] takes the path apart at its slashes, as its comment promises: it
    returns null exactly when the path has no element; otherwise the name buffer
    holds the first element, cut to [DIRSIZ] bytes, the rest of the path has
    exactly the remaining elements and no leading slash, and it is empty exactly
    when the element was the last one. *)
Theorem skipelem_spec path name :
  Forall (fun c => c <> 0) path -> length name = Z.to_nat DIRSIZ ->
  match elements path with
  | [] => skipelem path name = None
  | e :: es => exists rest name', skipelem path name = Some (rest, name') /\
      length name' = Z.to_nat DIRSIZ /\ cut_nul name' = take (Z.to_nat DIRSIZ) e /\
      elements rest = es /\ head rest <> Some slash /\ (rest = [] <-> es = [])
  end.
Proof.
  intros Hp Hl. rewrite <- elements_skip. unfold skipelem.
  pose proof (skip_slashes_nonul _ Hp) as Hn. destruct (skip_slashes_head path) as [->|(c & p & E & Hc)]; [done|].
  rewrite E in *. unfold elements at 1. cbn [split_path]. rewrite (proj2 (Z.eqb_neq _ _)) by done.
  rewrite take_elem_split by done. pose proof (take_elem_nonul _ Hn) as He. cbn [take_elem] in *.
  rewrite (proj2 (Z.eqb_neq _ _)) in * by done. destruct (take_elem p) as [e rest]. simpl in He.
  cbn [app fst snd]. destruct (elem_name (c :: e) name He Hl) as [Hl' Hcut].
  eexists _, _. split; [reflexivity|]. split; [done|]. split; [done|]. rewrite elements_skip.
  split; [done|]. rewrite <- elements_skip.
  destruct (skip_slashes_head rest) as [->|(c' & p' & -> & Hc')]; [done|]. split; [simpl; congruence|].
  split; [done|]. unfold elements. cbn [split_path]. rewrite (proj2 (Z.eqb_neq _ _)) by done.
  by rewrite take_elem_split.
Qed.

Lemma skipelem_spec_witness :
  exists rest name', skipelem [47; 47; 47; 97; 47; 47; 98; 98] (replicate 14 7) = Some (rest, name') /\
    cut_nul name' = [97] /\ rest = [98; 98].
Proof.
  destruct (skipelem_spec [47; 47; 47; 97; 47; 47; 98; 98] (replicate 14 7)) as (rest & name' & E & _ & Hc & Hr & _).
  - repeat constructor; lia.
  - reflexivity.
  - exists rest, name'. split; [exact E|]. split; [exact Hc|].
    assert (Some (rest, name') = Some ([98; 98], 97 :: 0 :: replicate 12 7)) as E'
      by (rewrite <- E; reflexivity).
    injection E'. intros _ ->. reflexivity.
Defined.
