(* ===== verification/FsLink.v ===== *)
(** [dirlink] of [src/fs.c] against [dirlookup]: the entry that a link writes is the
    entry that the next look-up of the name finds, and no other entry of the
    directory changes. *)
From Stdlib Require Import ZArith Lia.
From stdpp Require Import base gmap sets strings numbers list.
From S2P Require Import Prelude Strings State Spinlock Sched Bio Log Blk Crash LogOps Txn Fs FsDemo FsAlloc FsInode Console Dir FsContent FsDir.

Local Open Scope Z_scope.

(** ** Names *)

(** A field that holds the padded string reads as the string does. *)
Lemma padded_copy (p q : Z -> Z) i :
  (forall j, (j <= i)%nat -> q (Z.of_nat j) = padded p j) -> padded q i = padded p i.
Proof.
  revert p q. induction i as [|i IH]; intros p q Hq; cbn [padded].
  { apply (Hq 0%nat). lia. }
  pose proof (Hq 0%nat ltac:(lia)) as H0. cbn [padded] in H0. change (Z.of_nat 0) with 0 in H0. rewrite H0.
  destruct (p 0 =? 0) eqn:E; [done|]. apply IH. intros j Hj.
  replace (Z.of_nat j + 1) with (Z.of_nat (S j)) by lia. rewrite Hq by lia. cbn [padded]. by rewrite E.
Qed.

Lemma padded_byte (p : Z -> Z) i : (forall j, is_byte (p j)) -> is_byte (padded p i).
Proof.
  revert p. induction i as [|i IH]; intros p Hp; cbn [padded]; [done|].
  destruct (p 0 =? 0); [unfold is_byte; lia|]. by apply IH.
Qed.

Lemma ptr_byte l j : Forall is_byte l -> is_byte (ptr l j).
Proof.
  intros Hl. unfold ptr. destruct (l !! Z.to_nat j) eqn:E; cbn; [|unfold is_byte; lia].
  by apply (Forall_lookup_1 _ _ _ _ Hl E).
Qed.

Lemma read_bytes_lookup m a n i : (i < n)%nat -> read_bytes m a n !! i = Some (m (a + Z.of_nat i)).
Proof.
  revert a i. induction n as [|n IH]; intros a i Hi; [lia|]. destruct i as [|i]; cbn [read_bytes lookup list_lookup].
  - by rewrite Z.add_0_r.
  - change (list_lookup i (read_bytes m (a + 1) n)) with (read_bytes m (a + 1) n !! i).
    rewrite IH by lia. do 2 f_equal. lia.
Qed.

Lemma length_dirname name : length (dirname name) = 14%nat.
Proof. apply length_read_bytes. Qed.

Lemma ptr_dirname name j : (j < 14)%nat -> ptr (dirname name) (Z.of_nat j) = padded (ptr name) j.
Proof.
  intros Hj. unfold ptr at 1, dirname. rewrite Nat2Z.id. change (Z.to_nat DIRSIZ) with 14%nat.
  rewrite read_bytes_lookup by done. cbn [default]. change DIRSIZ with 14.
  rewrite strncpy_correct by lia. rewrite Z.add_0_l, Z.sub_0_r, Nat2Z.id.
  rewrite (proj2 (Z.leb_le _ _)), (proj2 (Z.ltb_lt _ _)) by lia. cbn [andb].
  apply padded_ext. intros i Hi. unfold from. rewrite (proj2 (Z.ltb_ge _ _)) by lia. f_equal. lia.
Qed.

Lemma dirname_byte name : Forall is_byte name -> Forall is_byte (dirname name).
Proof.
  intros Hn. apply Forall_lookup_2. intros j b Hb. pose proof (lookup_lt_Some _ _ _ Hb) as Hlt.
  rewrite length_dirname in Hlt. pose proof (ptr_dirname name j Hlt) as E.
  unfold ptr at 1 in E. rewrite Nat2Z.id, Hb in E. cbn in E. subst b.
  apply padded_byte. intros. by apply ptr_byte.
Qed.

(** The stored name compares equal to the name, cut to [DIRSIZ] bytes or not. *)
Lemma namecmp_dirname name : Forall is_byte name -> namecmp name (dirname name) = 0.
Proof.
  intros Hn. unfold namecmp. apply strncmp_zero_iff.
  - intros. by apply ptr_byte.
  - intros. by apply ptr_byte, dirname_byte.
  - change (Z.to_nat DIRSIZ) with 14%nat. intros i Hi. symmetry. apply padded_copy.
    intros j Hj. apply ptr_dirname. lia.
Qed.

Lemma length_enc_dirent inum name : length (enc_dirent (mk_dirent inum (dirname name))) = 16%nat.
Proof. unfold enc_dirent. cbn [de_inum de_name]. by rewrite length_app, length_le_bytes, length_dirname. Qed.

Lemma get_enc_dirent inum name :
  0 <= inum < 2 ^ 16 ->
  get_dirent (enc_dirent (mk_dirent inum (dirname name))) = mk_dirent inum (dirname name).
Proof.
  intros Hi. unfold get_dirent, enc_dirent. cbn [de_inum de_name].
  rewrite take_app_length', drop_app_length' by (symmetry; apply length_le_bytes).
  by rewrite le_val_bytes_small by (cbn; lia).
Qed.

Lemma nblk_dirent j : 0 <= j -> nblk (DIRENT * j) DIRENT = 1.
Proof.
  intros Hj. unfold nblk. change DIRENT with 16. rewrite bsize. cbn [Z.leb Z.compare].
  symmetry. apply (Z.div_unique _ _ _ ((16 * j) mod 512 + 16 + 511 - 512)); [|lia].
  left. Z.div_mod_to_equations. lia.
Qed.

(** ** The search for an empty entry *)
Section dirlink_proof.
Context (k0 : kst) (L : Z -> block) (s lsize : Z) (hs : list Z) (Hd : list (nat * Z)).
Context (dp : nat) (x : inode).
Context (Hx : k_icache k0 !! dp = Some x) (Hty : i_type x = T_DIR).
Context (Hsz : 0 <= i_size x) (Hmul : i_size x mod DIRENT = 0).
Context (Hm : mapped k0 L Hd x (size_blocks (i_size x))) (Hbuf : (length hs + length Hd < NBUF)%nat).
Context (jf : Z) (Hjf : DIRENT * jf < i_size x) (Hfree : de_inum (dir_entry L x jf) = 0).

Lemma wp_dirlink_loop fuel k j (Q : Z -> kst -> Prop) :
  intx k0 k L s lsize hs [] Hd -> 0 <= j <= jf -> jf - j < Z.of_nat fuel ->
  (forall i, j <= i < jf -> de_inum (dir_entry L x i) <> 0) ->
  (forall k', intx k0 k' L s lsize hs [] Hd -> Q (DIRENT * jf) k') ->
  wp (dirlink_loop fuel dp (DIRENT * j)) Q k.
Proof using All.
  assert (HD : DIRENT = 16) by done. pose proof (Z.div_mod (i_size x) DIRENT ltac:(done)) as Hdm.
  revert k j. induction fuel as [|fuel IH]; intros k j H Hj Hf Hused HQ; [lia|].
  cbn [dirlink_loop]. apply wp_bind. eapply wp_inode_at; [exact H|done|].
  rewrite (proj2 (Z.ltb_lt _ _)) by lia.
  pose proof (size_blocks_max _ Hsz (mp_max _ _ _ _ _ Hm)) as H31.
  apply wp_bind. eapply wp_readi; [exact H|done|by rewrite Hty|done|exact Hm|done|lia|lia|lia|].
  intros m k1 H1. assert (m = DIRENT) as -> by (unfold m, read_len; lia).
  cbv beta iota. rewrite Z.eqb_refl. cbn [negb]. fold (dir_entry L x j).
  destruct (decide (j = jf)) as [->|Hne].
  - rewrite Hfree. cbn [Z.eqb]. apply wp_ret. by apply HQ.
  - rewrite (proj2 (Z.eqb_neq _ _)) by (apply Hused; lia).
    replace (DIRENT * j + DIRENT) with (DIRENT * (j + 1)) by lia.
    apply IH; [done|lia|lia| |done]. intros i Hi. apply Hused. lia.
Qed.
End dirlink_proof.

(** The entries of the directory after the write of entry [jf]. *)
Lemma entries_written L L' x n jf inum name j :
  overwrites L L' x n (DIRENT * jf) (enc_dirent (mk_dirent inum (dirname name))) ->
  0 <= inum < 2 ^ 16 -> 0 <= jf -> DIRENT * (jf + 1) <= BSIZE * n -> 0 <= j -> DIRENT * (j + 1) <= BSIZE * n ->
  dir_entry L' x j = if decide (j = jf) then mk_dirent inum (dirname name) else dir_entry L x j.
Proof.
  intros Hov Hi Hjf Hn Hj Hjn. change DIRENT with 16 in *. unfold dir_entry. change DIRENT with 16.
  case_decide as E.
  - subst j. pose proof (overwrites_range _ _ _ _ _ _ Hov) as Hr. rewrite length_enc_dirent in Hr.
    change (Z.of_nat 16) with 16 in Hr. rewrite Hr by lia. by apply get_enc_dirent.
  - f_equal. apply (overwrites_other _ _ _ _ _ _ _ _ Hov); rewrite ?length_enc_dirent; lia.
Qed.

(** ** The outcomes of a look-up *)
Section lookup_outcomes.
Context (k0 : kst) (L : Z -> block) (s lsize : Z) (hs : list Z) (Hd : list (nat * Z)).
Context (dp : nat) (x : inode) (name : list Z).
Context (Hx : k_icache k0 !! dp = Some x) (Hty : i_type x = T_DIR).
Context (Hsz : 0 <= i_size x) (Hmul : i_size x mod DIRENT = 0).
Context (Hm : mapped k0 L Hd x (size_blocks (i_size x))) (Hbuf : (length hs + length Hd < NBUF)%nat).

Lemma inode_at_intx k hs' L' : intx k0 k L' s lsize hs' [] Hd -> inode_at dp k = Ok x k.
Proof using Hx.
  intros H. assert (wp (inode_at dp) (fun y k' => y = x /\ k' = k) k) as Hw by
    (eapply wp_inode_at; [exact H|done|done]).
  by apply wp_ok in Hw as (y & k' & E & -> & ->).
Qed.

Lemma dirlookup_absent k :
  intx k0 k L s lsize hs [] Hd ->
  (forall i, 0 <= i < i_size x / DIRENT -> entry_matches L x name i = false) ->
  exists k', intx k0 k' L s lsize hs [] Hd /\ dirlookup dp name k = Ok None k'.
Proof using All.
  intros H Hno. unfold dirlookup. erewrite bind_ok; [|by eapply inode_at_intx].
  rewrite Hty, Z.eqb_refl. cbn [negb].
  pose proof (wp_dirlookup_scan k0 L s lsize hs Hd dp x name Hx Hty Hsz Hmul Hm Hbuf k H) as Hw.
  apply wp_ok in Hw as (r & k' & E & H' & Hr). rewrite (bind_ok _ _ _ _ _ E). exists k'. split; [done|].
  destruct Hr as [(j & Hj & Hma & _)|[_ ->]]; [|done]. by rewrite Hno in Hma.
Qed.

Lemma dirlookup_first k j :
  intx k0 k L s lsize hs [] Hd -> 0 <= j < i_size x / DIRENT -> entry_matches L x name j = true ->
  (forall i, 0 <= i < j -> entry_matches L x name i = false) ->
  exists k', intx k0 k' L s lsize hs [] Hd /\
    dirlookup dp name k = (ip ← iget (i_dev x) (de_inum (dir_entry L x j)); mret (Some (ip, DIRENT * j))) k'.
Proof using All.
  intros H Hj Hma Hbef. unfold dirlookup. erewrite bind_ok; [|by eapply inode_at_intx].
  rewrite Hty, Z.eqb_refl. cbn [negb].
  pose proof (wp_dirlookup_scan k0 L s lsize hs Hd dp x name Hx Hty Hsz Hmul Hm Hbuf k H) as Hw.
  apply wp_ok in Hw as (r & k' & E & H' & Hr). rewrite (bind_ok _ _ _ _ _ E). exists k'. split; [done|].
  destruct Hr as [(j' & Hj' & Hma' & Hbef' & ->)|[Hno _]]; [|by rewrite Hno in Hma].
  assert (j' = j) as ->; [|done].
  destruct (Z.lt_trichotomy j j') as [Hlt|[->|Hlt]]; [|done|].
  - rewrite Hbef' in Hma by lia. done.
  - rewrite Hbef in Hma' by lia. done.
Qed.
End lookup_outcomes.

(** C30: a link is found again.  In a directory that has an empty entry and no entry
    with the name, [dirlink] returns 0 within one transaction; the first empty
    entry then holds the inode number and the name, cut and padded to [DIRSIZ]
    bytes, every other entry of the directory and every block outside it are
    what they were, and a [dirlookup] of the name, however long, finds the new
    entry and hands its inode number to [iget]. *)
Theorem dirlink_dirlookup k L s lsize hs Hd dp x name inum jf :
  txn k L s lsize hs [] Hd -> 1 <= log_outstanding (k_log k) -> k_icache k !! dp = Some x ->
  i_type x = T_DIR -> 0 <= i_size x -> i_size x mod DIRENT = 0 -> let n := size_blocks (i_size x) in
  mapped k L Hd x n -> own_blocks k L s lsize x n ->
  Z.of_nat (length hs) + 1 < lsize -> (length hs + length Hd + 1 < NBUF)%nat ->
  Forall is_byte name -> 0 < inum < 2 ^ 16 ->
  (forall i, 0 <= i < i_size x / DIRENT -> entry_matches L x name i = false) ->
  0 <= jf < i_size x / DIRENT -> de_inum (dir_entry L x jf) = 0 ->
  (forall i, 0 <= i < jf -> de_inum (dir_entry L x i) <> 0) ->
  exists k' L' hs', dirlink dp name inum k = Ok 0 k' /\ txn k' L' s lsize hs' [] Hd /\ tframe k k' /\
    (forall j, 0 <= j < i_size x / DIRENT -> dir_entry L' x j =
       if decide (j = jf) then mk_dirent inum (dirname name) else dir_entry L x j) /\
    (forall b, (forall bn, 0 <= bn < n -> b <> block_of L x bn) -> L' b = L b) /\
    exists k'', txn k'' L' s lsize hs' [] Hd /\
      dirlookup dp name k' = (ip ← iget (i_dev x) inum; mret (Some (ip, DIRENT * jf))) k''.
Proof.
  intros Ht Hout Hx Hty Hsz Hmul n Hm How Hlog Hbuf Hname Hinum Hno Hjf Hfree Hused.
  assert (HD : DIRENT = 16) by done. pose proof (Z.div_mod (i_size x) DIRENT ltac:(done)) as Hdm.
  pose proof (size_blocks_le _ Hsz) as Hsb. fold n in Hsb.
  destruct (dirlookup_absent k L s lsize hs Hd dp x name Hx Hty Hsz Hmul Hm ltac:(lia) k
    (intx_start _ _ _ _ _ _ _ Ht) Hno) as (k1 & H1 & E1).
  assert (wp (dirlink_loop (dir_fuel (i_size x)) dp 0)
    (fun r k' => r = DIRENT * jf /\ intx k k' L s lsize hs [] Hd) k1) as Hw.
  { change 0 with (DIRENT * 0) at 1. eapply wp_dirlink_loop; try done; try lia. unfold dir_fuel. lia. }
  apply wp_ok in Hw as (off & k2 & E2 & -> & H2). set (src := enc_dirent (mk_dirent inum (dirname name))).
  assert (Hlen : Z.of_nat (length src) = DIRENT) by (unfold src; by rewrite length_enc_dirent).
  assert (wp (writei dp src (DIRENT * jf)) (fun r k' => r = DIRENT /\ exists L' hs',
    intx k k' L' s lsize hs' [] Hd /\ overwrites L L' x n (DIRENT * jf) src /\
    Z.of_nat (length hs') <= Z.of_nat (length hs) + 1) k2) as Hw.
  { eapply wp_writei; [exact H2|done|done|by rewrite Hty|exact Hm|exact How|..];
      rewrite ?Hlen, ?nblk_dirent by lia; try lia.
    intros k' L' hs' H' Hov Hle. split; [done|]. by exists L', hs'. }
  apply wp_ok in Hw as (r & k3 & E3 & -> & L' & hs' & H3 & Hov & Hle).
  assert (Hent : forall j, 0 <= j < i_size x / DIRENT -> dir_entry L' x j =
    if decide (j = jf) then mk_dirent inum (dirname name) else dir_entry L x j).
  { intros j Hj. apply (entries_written _ _ _ _ _ _ _ _ Hov); lia. }
  exists k3, L', hs'. split_and!; [|apply H3|apply H3|exact Hent|apply Hov|].
  - unfold dirlink. rewrite (bind_ok _ _ _ _ _ E1).
    erewrite bind_ok; [|by eapply (inode_at_intx k s lsize Hd dp x Hx k1)].
    rewrite (bind_ok _ _ _ _ _ E2). rewrite (u16_small inum) by lia. by rewrite (bind_ok _ _ _ _ _ E3).
  - assert (Hm' : mapped k L' Hd x n) by (eapply mapped_upd; [apply Hov|done]).
    destruct (dirlookup_first k L' s lsize hs' Hd dp x name Hx Hty Hsz Hmul Hm' ltac:(lia) k3 jf H3 Hjf)
      as (k'' & H'' & E'').
    + unfold entry_matches. rewrite Hent, decide_True by done. cbn [de_inum de_name].
      rewrite namecmp_dirname by done. rewrite (proj2 (Z.eqb_neq _ _)) by lia. done.
    + intros i Hi. unfold entry_matches. rewrite Hent, decide_False by lia. apply Hno. lia.
    + exists k''. split; [apply H''|]. rewrite E'', Hent, decide_True by done. done.
Qed.

(** The root directory of the example disk with room for a fourth entry. *)
Definition demo_room : inode := set_i_size 64 demo_dir.
Definition demo_lfs : kst := set_k_icache (demo_room :: replicate 49 zero_inode) demo_fs.

Lemma dirlink_dirlookup_witness :
  exists k' k'', dirlink 0 [98; 98] 7 demo_lfs = Ok 0 k' /\
    dirlookup 0 [98; 98] k' = (ip ← iget ROOTDEV 7; mret (Some (ip, 48))) k''.
Proof.
  assert (Hd : disksize demo_lfs = 64) by (vm_compute; reflexivity).
  assert (Hb : forall bn, 0 <= bn < 1 -> block_of (dblk demo_img) demo_room bn = 34).
  { intros bn Hb. assert (bn = 0) as -> by lia. vm_compute. reflexivity. }
  assert (Hm : mapped demo_lfs (dblk demo_img) [] demo_room (size_blocks (i_size demo_room))).
  { change (size_blocks (i_size demo_room)) with 1. split; try reflexivity; try done.
    intros bn Hbn. unfold readable. rewrite Hd, Hb by done. split; [lia|apply not_elem_of_nil]. }
  assert (How : own_blocks demo_lfs (dblk demo_img) 2 30 demo_room (size_blocks (i_size demo_room))).
  { change (size_blocks (i_size demo_room)) with 1. split.
    - rewrite Hd. lia.
    - intros bn Hbn. rewrite Hb by done. lia.
    - intros bn bn' Hbn Hbn' _. lia.
    - intros Hlt. vm_compute in Hlt. discriminate Hlt. }
  assert (Hi : forall i, 0 <= i < 4 -> i = 0 \/ i = 1 \/ i = 2 \/ i = 3) by lia.
  destruct (dirlink_dirlookup demo_lfs (dblk demo_img) 2 30 [] [] 0 demo_room [98; 98] 7 3
    (txn_set_icache _ _ _ _ _ _ _ _ demo_txn_fs) ltac:(cbn; lia) eq_refl eq_refl ltac:(cbn; lia) eq_refl
    Hm How ltac:(cbn; lia) ltac:(simpl; unfold NBUF; lia)) as (k' & L' & hs' & E & _ & _ & _ & _ & k'' & _ & E').
  - repeat constructor; unfold is_byte; lia.
  - lia.
  - change (i_size demo_room / DIRENT) with 4. intros i [->|[->|[->| ->]]]%Hi; vm_compute; reflexivity.
  - change (i_size demo_room / DIRENT) with 4. lia.
  - vm_compute. reflexivity.
  - intros i Hlt. assert (i = 0 \/ i = 1 \/ i = 2) as [->|[->| ->]] by lia; vm_compute; discriminate.
  - exists k', k''. split; [exact E|exact E'].
Defined.
