(* ===== verification/Mkfs.v ===== *)
(** The file system builder, [src/mkfs.c], which runs on a little-endian host.

    The image file is a list of blocks.  [exit(1)] and a failed [assert] are errors.  A host
    file is what its [read]s return, in order. *)
From Stdlib Require Import ZArith Lia.
From stdpp Require Import base gmap sets strings numbers list.
From S2P Require Import Prelude Strings State Spinlock Sched Bio Log Fs Console Dir.

Local Open Scope Z_scope.

Definition NINODES : Z := 200.
Definition nbitmap : Z := FSSIZE / (BSIZE * 8) + 1.
Definition ninodeblocks : Z := NINODES / IPB + 1.
Definition nlog : Z := LOGSIZE.
Definition nmeta : Z := 2 + nlog + ninodeblocks + nbitmap.
Definition nblocks : Z := FSSIZE - nmeta.

Record mkst : Type := mk_mkst {
  m_img : list block;
  m_sb : superblock;
  m_freeinode : Z;
  m_freeblock : Z
}.
Definition set_m_img (v : list block) (s : mkst) : mkst := mk_mkst v (m_sb s) (m_freeinode s) (m_freeblock s).
Definition set_m_sb (v : superblock) (s : mkst) : mkst := mk_mkst (m_img s) v (m_freeinode s) (m_freeblock s).
Definition set_m_freeinode (v : Z) (s : mkst) : mkst := mk_mkst (m_img s) (m_sb s) v (m_freeblock s).
Definition set_m_freeblock (v : Z) (s : mkst) : mkst := mk_mkst (m_img s) (m_sb s) (m_freeinode s) v.

(** The number whose bytes in memory are those of [x] in Intel order. *)
Definition xshort (x : Z) : Z := le_val [u8 x; u8 (Z.shiftr x 8)].
Definition xint (x : Z) : Z := le_val [u8 x; u8 (Z.shiftr x 8); u8 (Z.shiftr x 16); u8 (Z.shiftr x 24)].

Definition zeroes : block := replicate (Z.to_nat BSIZE) 0.

(** [write] at block [i], past the end after a hole of zeros. *)
Definition write_at (img : list block) (i : nat) (d : block) : list block :=
  if decide (i < length img)%nat then <[i := d]> img
  else img ++ replicate (i - length img) zeroes ++ [d].

Definition sector (sec : Z) : nat := Z.to_nat (u32 (sec * BSIZE) / BSIZE).
Definition wsect (sec : Z) (d : block) : M mkst unit :=
  modify (fun s => set_m_img (write_at (m_img s) (sector sec) d) s).
(** A read at the end of the file is short. *)
Definition rsect (sec : Z) : M mkst block :=
  s ← get;
  match m_img s !! sector sec with
  | Some d => mret d
  | None => panic "read"
  end.

Definition winode (inum : Z) (din : dinode) : M mkst unit :=
  sb ← gets m_sb;
  let bn := IBLOCK inum sb in
  d ← rsect bn;
  wsect bn (put_dinode d (dinode_off inum) din).
Definition rinode (inum : Z) : M mkst dinode :=
  sb ← gets m_sb;
  d ← rsect (IBLOCK inum sb);
  mret (get_dinode d (dinode_off inum)).

Definition ialloc (type : Z) : M mkst Z :=
  inum ← gets m_freeinode;
  modify (set_m_freeinode (u32 (inum + 1)));;
  winode inum (mk_dinode (xshort type) 0 0 (xshort 1) (xint 0) (replicate (Z.to_nat (NDIRECT + 1)) 0));;
  mret inum.

Definition balloc (used : Z) : M mkst unit :=
  if negb (used <? BSIZE * 8) then panic "assert" else
  sb ← gets m_sb;
  wsect (sb_bmapstart sb) (foldl bit_set zeroes (seqZ 0 used)).

(** [freeblock++] *)
Definition next_block : M mkst Z :=
  b ← gets m_freeblock;
  modify (set_m_freeblock (u32 (b + 1)));;
  mret b.

Definition addr (din : dinode) (i : Z) : Z := default 0 (di_addrs din !! Z.to_nat i).
Definition set_addr (din : dinode) (i v : Z) : dinode :=
  mk_dinode (di_type din) (di_major din) (di_minor din) (di_nlink din) (di_size din)
    (<[Z.to_nat i := v]> (di_addrs din)).
Definition set_size (din : dinode) (v : Z) : dinode :=
  mk_dinode (di_type din) (di_major din) (di_minor din) (di_nlink din) v (di_addrs din).

(** [din.addrs[i]], allocated if it is 0. *)
Definition ensure_addr (din : dinode) (i : Z) : M mkst dinode :=
  if xint (addr din i) =? 0 then b ← next_block; mret (set_addr din i (xint b)) else mret din.

(** The body of the loop of [iappend] up to the choice of [x]. *)
Definition iappend_block (din : dinode) (fbn : Z) : M mkst (dinode * Z) :=
  if fbn <? NDIRECT then
    din ← ensure_addr din fbn;
    mret (din, xint (addr din fbn))
  else
    din ← ensure_addr din NDIRECT;
    let ind := xint (addr din NDIRECT) in
    indirect ← rsect ind;
    let i := 4 * (fbn - NDIRECT) in
    indirect ← (if get_u32 indirect i =? 0 then
                  b ← next_block;
                  let indirect := put_u32 indirect i (xint b) in
                  wsect ind indirect;;
                  mret indirect
                else mret indirect);
    mret (din, xint (get_u32 indirect i)).

Fixpoint iappend_loop (fuel : nat) (din : dinode) (off : Z) (p : list Z) : M mkst (dinode * Z) :=
  match fuel with
  | O => fail EFuel
  | S fuel' =>
      if Z.of_nat (length p) >? 0 then
        let fbn := off / BSIZE in
        if negb (fbn <? MAXFILE) then panic "assert" else
        '(din, x) ← iappend_block din fbn;
        let n1 := Z.min (Z.of_nat (length p)) ((fbn + 1) * BSIZE - off) in
        d ← rsect x;
        wsect x (splice d (Z.to_nat (off - fbn * BSIZE)) (take (Z.to_nat n1) p));;
        iappend_loop fuel' din (u32 (off + n1)) (drop (Z.to_nat n1) p)
      else mret (din, off)
  end.

(** A round takes at least one byte. *)
Definition iappend (inum : Z) (p : list Z) : M mkst unit :=
  din ← rinode inum;
  '(din, off) ← iappend_loop (S (length p)) din (xint (di_size din)) p;
  winode inum (set_size din (xint off)).

(** A directory entry for [inum], with the name as [strcpy] or [strncpy] leave it in a
    cleared field. *)
Definition mkde (inum : Z) (name : list Z) : list Z := enc_dirent (mk_dirent (xshort inum) (dirname name)).

Fixpoint copy_file (inum : Z) (reads : list (list Z)) : M mkst unit :=
  match reads with
  | [] => mret tt
  | buf :: reads' => iappend inum buf;; copy_file inum reads'
  end.

(** The name without its leading underscore. *)
Definition strip (name : list Z) : list Z :=
  match name with
  | c :: name' => if c =? chr "_" then name' else name
  | [] => []
  end.

(** The arguments from [argv[2]] on: a name, and the reads of the file if it can be opened. *)
Fixpoint add_files (rootino : Z) (files : list (list Z * option (list (list Z)))) : M mkst unit :=
  match files with
  | [] => mret tt
  | (name, reads) :: files' =>
      if bool_decide (chr "/" ∈ name) then panic "assert" else
      match reads with
      | None => panic "open"
      | Some reads =>
          inum ← ialloc T_FILE;
          iappend rootino (mkde inum (strip name));;
          copy_file inum reads;;
          add_files rootino files'
      end
  end.

Fixpoint clear_blocks (n : nat) (i : Z) : M mkst unit :=
  match n with
  | O => mret tt
  | S n' => wsect i zeroes;; clear_blocks n' (i + 1)
  end.

Definition mkfs_sb : superblock :=
  mk_superblock (xint FSSIZE) (xint nblocks) (xint NINODES) (xint nlog) (xint 2) (xint (2 + nlog))
    (xint (2 + nlog + ninodeblocks)).
Definition enc_sb (sb : superblock) : list Z :=
  mjoin (le_bytes 4 <$> [sb_size sb; sb_nblocks sb; sb_ninodes sb; sb_nlog sb; sb_logstart sb;
    sb_inodestart sb; sb_bmapstart sb]).

(** [main] from the opened, empty image file on. *)
Definition main (files : list (list Z * option (list (list Z)))) : M mkst unit :=
  modify (set_m_sb mkfs_sb);;
  modify (set_m_freeblock nmeta);;
  clear_blocks (Z.to_nat FSSIZE) 0;;
  wsect 1 (splice zeroes 0 (enc_sb mkfs_sb));;
  rootino ← ialloc T_DIR;
  if negb (rootino =? ROOTINO) then panic "assert" else
  iappend rootino (mkde rootino (bytes_of "."));;
  iappend rootino (mkde rootino (bytes_of ".."));;
  add_files rootino files;;
  din ← rinode rootino;
  let off := u32 ((xint (di_size din) / BSIZE + 1) * BSIZE) in
  winode rootino (set_size din (xint off));;
  used ← gets m_freeblock;
  balloc used.

(** The state when [main] starts: [freeinode] is 1. *)
Definition mkst0 : mkst := mk_mkst [] (mk_superblock 0 0 0 0 0 0 0) 1 0.
