(* ===== verification/MkfsSpec.v ===== *)
(** What [Mkfs] builds: a file system whose files have the contents that were appended to
    them, and that the kernel's file system code accepts. *)
From Stdlib Require Import ZArith Lia.
From stdpp Require Import base gmap sets strings numbers list.
From S2P Require Import Prelude Strings State Spinlock Sched Bio Log Blk Crash LogOps Txn Fs FsDemo FsAlloc FsInode Console Dir FsContent Mkfs.

Local Open Scope Z_scope.

(** ** The files of an image *)

(** A file: its inode's type and size, its data blocks and its indirect block (0 for none). *)
Record fnode : Type := mk_fnode {
  fn_type : Z;
  fn_size : Z;
  fn_blocks : list Z;
  fn_ind : Z
}.

Definition fn_addrs (f : fnode) : list Z :=
  ((fun i => default 0 (fn_blocks f !! i)) <$> seq 0 (Z.to_nat NDIRECT)) ++ [fn_ind f].
Definition fn_dinode (f : fnode) : dinode := mk_dinode (fn_type f) 0 0 1 (fn_size f) (fn_addrs f).

(** Every block that the file occupies. *)
Definition fn_used (f : fnode) : list Z := fn_blocks f ++ (if fn_ind f =? 0 then [] else [fn_ind f]).

(** The blocks' bytes, and the file's. *)
Definition fn_bytes (img : list block) (f : fnode) : list Z := mjoin (dblk img <$> fn_blocks f).
Definition fn_content (img : list block) (f : fnode) : list Z := take (Z.to_nat (fn_size f)) (fn_bytes img f).

Record fn_ok (img : list block) (f : fnode) : Prop := {
  fo_max : Z.of_nat (length (fn_blocks f)) <= MAXFILE;
  fo_none : fn_ind f = 0 <-> Z.of_nat (length (fn_blocks f)) <= NDIRECT;
  fo_ind : fn_ind f <> 0 -> forall i, 0 <= i < NINDIRECT ->
    get_u32 (dblk img (fn_ind f)) (4 * i) = default 0 (fn_blocks f !! Z.to_nat (NDIRECT + i))
}.

(** The data blocks below [fb] each belong to one file; the others are zero. *)
Record disk_ok (img : list block) (fb : Z) (G : list fnode) : Prop := {
  do_len : length img = Z.to_nat FSSIZE;
  do_blk : Forall (fun d => length d = Z.to_nat BSIZE) img;
  do_fb : nmeta <= fb <= FSSIZE;
  do_zero : forall b, fb <= b < FSSIZE -> dblk img b = zeroes;
  do_used : mjoin (fn_used <$> G) ≡ₚ seqZ nmeta (fb - nmeta);
  do_fn : forall f, f ∈ G -> fn_ok img f
}.

(** ** Sectors *)
Lemma xint_u32 x : xint x = u32 x.
Proof.
  unfold xint, u32, u8. rewrite !Z.shiftr_div_pow2 by lia. cbn [le_val].
  change (2 ^ 8) with 256. change (2 ^ 16) with (256 * 256). change (2 ^ 24) with (256 * 256 * 256).
  change (2 ^ 32) with (256 * 256 * 256 * 256). rewrite <- !Z.div_div by lia. Z.div_mod_to_equations. lia.
Qed.
Lemma xint_id x : 0 <= x < 2 ^ 32 -> xint x = x.
Proof. intros. rewrite xint_u32. by apply u32_small. Qed.
Lemma xshort_id x : 0 <= x < 2 ^ 16 -> xshort x = x.
Proof.
  intros. unfold xshort, u8. rewrite !Z.shiftr_div_pow2 by lia. cbn [le_val].
  change (2 ^ 8) with 256. change (2 ^ 16) with (256 * 256) in *. Z.div_mod_to_equations. lia.
Qed.

Lemma sector_id b : 0 <= b < FSSIZE -> sector b = Z.to_nat b.
Proof.
  intros Hb. unfold sector, FSSIZE, BSIZE in *. rewrite u32_small by lia. by rewrite Z.div_mul.
Qed.

Lemma zeroes_length : length zeroes = Z.to_nat BSIZE.
Proof. apply length_replicate. Qed.

Section Sectors.
Context {img : list block} (Hlen : length img = Z.to_nat FSSIZE).

Lemma dblk_lookup b : 0 <= b < FSSIZE -> img !! Z.to_nat b = Some (dblk img b).
Proof using Hlen.
  intros Hb. unfold dblk. destruct (img !! Z.to_nat b) eqn:E; [done|].
  apply lookup_ge_None in E. unfold FSSIZE in *. lia.
Qed.

Lemma dblk_insert b d x : 0 <= b < FSSIZE -> 0 <= x -> dblk (<[Z.to_nat b := d]> img) x = if decide (x = b) then d else dblk img x.
Proof using Hlen.
  intros Hb Hx. unfold dblk. case_decide as E.
  - subst. rewrite list_lookup_insert_eq; [done|]. unfold FSSIZE in *. lia.
  - by rewrite list_lookup_insert_ne by lia.
Qed.

Lemma rsect_ok sb fi fb b : 0 <= b < FSSIZE ->
  rsect b (mk_mkst img sb fi fb) = Ok (dblk img b) (mk_mkst img sb fi fb).
Proof using Hlen.
  intros Hb. unfold rsect. erewrite bind_ok; [|reflexivity]. cbn beta. cbn [m_img].
  by rewrite sector_id, dblk_lookup.
Qed.

Lemma wsect_ok sb fi fb b d : 0 <= b < FSSIZE ->
  wsect b d (mk_mkst img sb fi fb) = Ok tt (mk_mkst (<[Z.to_nat b := d]> img) sb fi fb).
Proof using Hlen.
  intros Hb. unfold wsect, modify, set_m_img. cbn [m_img m_sb m_freeinode m_freeblock].
  rewrite sector_id by done. unfold write_at. rewrite decide_True by (unfold FSSIZE in *; lia). done.
Qed.
End Sectors.

(** ** Blocks belong to one file *)
Lemma NoDup_mjoin {A} (ls : list (list A)) i j a b x :
  NoDup (mjoin ls) -> ls !! i = Some a -> ls !! j = Some b -> x ∈ a -> x ∈ b -> i = j.
Proof.
  revert i j. induction ls as [|l ls IH]; intros i j Hnd Hi Hj Ha Hb; [done|].
  cbn [mjoin list_join] in Hnd. apply NoDup_app in Hnd as (_ & Hd & Hnd).
  assert (Hin : forall k c, ls !! k = Some c -> x ∈ c -> x ∈ mjoin ls).
  { intros k c Hk Hc. apply list_elem_of_join. exists c. split; [done|]. by eapply list_elem_of_lookup_2. }
  destruct i as [|i], j as [|j]; cbn in Hi, Hj.
  - done.
  - injection Hi as ->. destruct (Hd x Ha). by eapply Hin.
  - injection Hj as ->. destruct (Hd x Hb). by eapply Hin.
  - f_equal. by apply IH.
Qed.

Lemma NoDup_mjoin_part {A} (ls : list (list A)) i a : NoDup (mjoin ls) -> ls !! i = Some a -> NoDup a.
Proof.
  revert i. induction ls as [|l ls IH]; intros [|i] Hnd Hi; [done..| |];
    cbn [mjoin list_join] in Hnd; apply NoDup_app in Hnd as (Hl & _ & Hnd); cbn in Hi.
  - by injection Hi as ->.
  - by apply (IH i).
Qed.

Lemma splice_app_l {A} (d l c : list A) o : (o + length c <= length d)%nat -> splice (d ++ l) o c = splice d o c ++ l.
Proof.
  intros Ho. unfold splice. rewrite take_app_le, drop_app_le by lia. by rewrite <- !app_assoc.
Qed.
Lemma splice_app_r {A} (d l c : list A) o : splice (d ++ l) (length d + o) c = d ++ splice l o c.
Proof.
  unfold splice. rewrite take_app_add, <- app_assoc. f_equal. f_equal.
  rewrite <- Nat.add_assoc. by rewrite drop_app_add.
Qed.

Lemma mjoin_splice (ls : list (list Z)) n i d o c :
  Forall (fun d => length d = n) ls -> ls !! i = Some d -> (o + length c <= n)%nat ->
  mjoin (<[i := splice d o c]> ls) = splice (mjoin ls) (n * i + o) c.
Proof.
  intros Hall. revert i. induction Hall as [|d0 ls Hd0 Hall IH]; intros i Hi Ho; [done|].
  destruct i as [|i]; cbn [lookup list_lookup] in Hi.
  - injection Hi as ->. cbn [insert list_insert mjoin list_join]. rewrite Nat.mul_0_r.
    by rewrite splice_app_l by (simpl; lia).
  - cbn [insert list_insert mjoin list_join]. change (list_insert i) with (insert (M := list (list Z)) i).
    rewrite IH by done. replace (n * S i + o)%nat with (length d0 + (n * i + o))%nat by lia.
    by rewrite splice_app_r.
Qed.

Lemma fn_bytes_ext img img' f : (forall b, b ∈ fn_blocks f -> dblk img' b = dblk img b) ->
  fn_bytes img' f = fn_bytes img f.
Proof.
  intros H. unfold fn_bytes. f_equal. apply list_fmap_ext. intros i b Hb. apply H.
  by eapply list_elem_of_lookup_2.
Qed.

Lemma fn_ok_ext img img' f : fn_ok img f -> (fn_ind f <> 0 -> dblk img' (fn_ind f) = dblk img (fn_ind f)) ->
  fn_ok img' f.
Proof. intros [H1 H2 H3] H. constructor; [done|done|]. intros Hi. rewrite H by done. by apply H3. Qed.

Lemma ind_used f : fn_ind f <> 0 -> fn_ind f ∈ fn_used f.
Proof.
  intros H. unfold fn_used. rewrite (proj2 (Z.eqb_neq _ _)) by done. apply elem_of_app. right. left.
Qed.
Lemma block_used f b : b ∈ fn_blocks f -> b ∈ fn_used f.
Proof. intros. apply elem_of_app. by left. Qed.

Lemma nmeta_val : nmeta = 59.
Proof. done. Qed.

Section Disk.
Context {img : list block} {fb : Z} {G : list fnode} (Hd : disk_ok img fb G).

Lemma used_nodup : NoDup (mjoin (fn_used <$> G)).
Proof using Hd. rewrite (do_used _ _ _ Hd). apply NoDup_seqZ. Qed.

Lemma used_range j f b : G !! j = Some f -> b ∈ fn_used f -> nmeta <= b < fb.
Proof using Hd.
  intros Hj Hb. assert (b ∈ mjoin (fn_used <$> G)) as Hin.
  { apply list_elem_of_join. exists (fn_used f). split; [done|]. apply list_elem_of_fmap. exists f.
    split; [done|]. by eapply list_elem_of_lookup_2. }
  rewrite (do_used _ _ _ Hd) in Hin. apply elem_of_seqZ in Hin. lia.
Qed.

Lemma used_disk j f b : G !! j = Some f -> b ∈ fn_used f -> 0 <= b < FSSIZE.
Proof using Hd.
  intros Hj Hb. pose proof (used_range j f b Hj Hb). pose proof (do_fb _ _ _ Hd). rewrite nmeta_val in *. lia.
Qed.

Lemma used_apart i j f g b : G !! i = Some f -> G !! j = Some g -> b ∈ fn_used f -> b ∈ fn_used g -> i = j.
Proof using Hd.
  intros Hi Hj. apply (NoDup_mjoin _ _ _ _ _ _ used_nodup); by rewrite list_lookup_fmap, ?Hi, ?Hj.
Qed.

Lemma fn_used_nodup j f : G !! j = Some f -> NoDup (fn_used f).
Proof using Hd.
  intros Hj. apply (NoDup_mjoin_part _ j _ used_nodup). by rewrite list_lookup_fmap, Hj.
Qed.

(** A data block is no indirect block. *)
Lemma block_not_ind i j f g b : G !! i = Some f -> G !! j = Some g -> b ∈ fn_blocks f -> fn_ind g <> 0 ->
  b <> fn_ind g.
Proof using Hd.
  intros Hi Hj Hb Hg ->. pose proof (used_apart i j f g _ Hi Hj (block_used _ _ Hb) (ind_used _ Hg)) as ->.
  rewrite Hi in Hj. injection Hj as ->. pose proof (fn_used_nodup _ _ Hi) as Hnd. unfold fn_used in Hnd.
  rewrite (proj2 (Z.eqb_neq _ _)) in Hnd by done. apply NoDup_app in Hnd as (_ & Hx & _).
  apply (Hx _ Hb). left.
Qed.

Lemma blocks_length f : (forall b, b ∈ fn_blocks f -> 0 <= b < FSSIZE) ->
  Forall (fun d => length d = Z.to_nat BSIZE) (dblk img <$> fn_blocks f).
Proof using Hd.
  intros Hb. apply Forall_fmap, Forall_forall. intros b Hin. cbn.
  eapply (Forall_lookup_1 _ _ _ _ (do_blk _ _ _ Hd)). apply (dblk_lookup (do_len _ _ _ Hd)). auto.
Qed.

(** Writing inside a data block of the file [j]. *)
Lemma write_block_ok j f i x o c :
  G !! j = Some f -> fn_blocks f !! i = Some x -> (o + length c <= Z.to_nat BSIZE)%nat ->
  let img' := <[Z.to_nat x := splice (dblk img x) o c]> img in
  disk_ok img' fb G /\ fn_bytes img' f = splice (fn_bytes img f) (Z.to_nat BSIZE * i + o) c /\
  (forall j' g, j' <> j -> G !! j' = Some g -> fn_bytes img' g = fn_bytes img g) /\
  forall b, 0 <= b < nmeta -> dblk img' b = dblk img b.
Proof using Hd.
  intros Hj Hi Ho img'. pose proof (list_elem_of_lookup_2 _ _ _ Hi) as Hin.
  pose proof (used_range j f x Hj (block_used _ _ Hin)) as Hx. pose proof (do_fb _ _ _ Hd) as Hfb.
  pose proof (used_disk j f x Hj (block_used _ _ Hin)) as Hxd.
  assert (Hlx : length (dblk img x) = Z.to_nat BSIZE).
  { eapply (Forall_lookup_1 _ _ _ _ (do_blk _ _ _ Hd)), (dblk_lookup (do_len _ _ _ Hd)), Hxd. }
  assert (Hne : forall b, 0 <= b -> b <> x -> dblk img' b = dblk img b).
  { intros b Hb Hbx. unfold img'. rewrite (dblk_insert (do_len _ _ _ Hd)) by done. by rewrite decide_False. }
  rewrite nmeta_val in *. split_and!.
  - constructor.
    + unfold img'. rewrite length_insert. apply Hd.
    + apply Forall_insert; [apply Hd|]. by rewrite length_splice by lia.
    + by apply Hd.
    + intros b Hb. rewrite Hne by lia. by apply Hd.
    + apply Hd.
    + intros g Hg. apply (fn_ok_ext img); [by apply Hd|]. intros Hgi. apply list_elem_of_lookup in Hg as [j' Hg].
      apply Hne; [|by apply not_eq_sym, (block_not_ind j j' f g)].
      pose proof (used_range j' g _ Hg (ind_used _ Hgi)). rewrite nmeta_val in *. lia.
  - unfold fn_bytes. rewrite <- (mjoin_splice _ _ i (dblk img x)); [|apply blocks_length| |done].
    2: { intros b Hb. by eapply used_disk, block_used. }
    2: { by rewrite list_lookup_fmap, Hi. }
    f_equal. apply list_eq. intros i'. rewrite list_lookup_fmap.
    destruct (decide (i' = i)) as [->|Hii].
    + rewrite Hi, list_lookup_insert_eq by (rewrite length_fmap; by eapply lookup_lt_Some). cbn. f_equal.
      unfold img'. rewrite (dblk_insert (do_len _ _ _ Hd)) by lia. by rewrite decide_True.
    + rewrite list_lookup_insert_ne, list_lookup_fmap by done. destruct (fn_blocks f !! i') as [y|] eqn:Hy; [|done].
      cbn. f_equal. apply Hne.
      * pose proof (used_disk j f y Hj (block_used _ _ (list_elem_of_lookup_2 _ _ _ Hy))). lia.
      * intros ->. apply Hii. eapply NoDup_lookup; [|done|done].
        pose proof (fn_used_nodup _ _ Hj) as Hnd. by apply NoDup_app in Hnd as (? & _).
  - intros j' g Hjj Hg. apply fn_bytes_ext. intros b Hb. apply Hne.
    + pose proof (used_disk j' g b Hg (block_used _ _ Hb)). lia.
    + intros ->. by apply Hjj, (used_apart j' j g f x); [..|apply block_used|apply block_used].
  - intros b Hb. apply Hne; lia.
Qed.
End Disk.

(** ** A new block for a file *)
Lemma mjoin_insert_perm (G : list fnode) j f f' extra :
  G !! j = Some f -> fn_used f' ≡ₚ extra ++ fn_used f ->
  mjoin (fn_used <$> <[j := f']> G) ≡ₚ extra ++ mjoin (fn_used <$> G).
Proof.
  revert j. induction G as [|g G IH]; intros [|j] Hj Hp; [done..| |]; cbn in Hj.
  - injection Hj as ->. cbn [insert list_insert fmap list_fmap mjoin list_join]. rewrite Hp. by rewrite app_assoc.
  - cbn [insert list_insert fmap list_fmap mjoin list_join].
    change (list_insert j) with (insert (M := list fnode) j).
    change (list_fmap _ _ fn_used ?l) with (fn_used <$> l). rewrite (IH j Hj Hp).
    rewrite !app_assoc. by rewrite (Permutation_app_comm (fn_used g) extra).
Qed.

Lemma seqZ_split a b c : a <= b <= c -> seqZ a (c - a) = seqZ a (b - a) ++ seqZ b (c - b).
Proof.
  intros H. replace (c - a) with ((b - a) + (c - b)) by lia. rewrite seqZ_app by lia.
  by replace (a + (b - a)) with b by lia.
Qed.

Section Grow.
Context {img : list block} {fb : Z} {G : list fnode} (Hd : disk_ok img fb G).
Context {j : nat} {f f' : fnode} {img' : list block} {fb' : Z} (Hj : G !! j = Some f).
Context (Hfb : fb <= fb' <= FSSIZE) (Hused : fn_used f' ≡ₚ seqZ fb (fb' - fb) ++ fn_used f).
Context (Hlen : length img' = Z.to_nat FSSIZE) (Hblk : Forall (fun d => length d = Z.to_nat BSIZE) img').
Context (Hsame : forall b, 0 <= b < FSSIZE -> fn_ind f' = 0 \/ b <> fn_ind f' -> dblk img' b = dblk img b).
Context (Hf' : fn_ok img' f') (Hind : fn_ind f' = 0 \/ nmeta <= fn_ind f' < fb').
Context {x : Z} (Hx : fn_blocks f' = fn_blocks f ++ [x]) (Hxr : fb <= x < fb').

(** No other file sees the change. *)
Lemma ind_own j' g b : j' <> j -> G !! j' = Some g -> b ∈ fn_used g -> b <> fn_ind f'.
Proof using All.
  intros Hjj Hg Hb ->. pose proof (used_range Hd j' g _ Hg Hb) as Hr. rewrite nmeta_val in Hr.
  assert (Hin : fn_ind f' ∈ fn_used f') by (apply ind_used; lia). rewrite Hused in Hin.
  apply elem_of_app in Hin as [Hin%elem_of_seqZ|Hin]; [lia|]. by apply Hjj, (used_apart Hd j' j g f (fn_ind f')).
Qed.

Lemma grow_disk_ok : disk_ok img' fb' (<[j := f']> G).
Proof using All.
  pose proof (do_fb _ _ _ Hd) as Hfb0. pose proof nmeta_val as Hnm. constructor; [done|done|lia| | |].
  - intros b Hb. rewrite Hsame by lia. apply Hd. lia.
  - rewrite (mjoin_insert_perm G j f f' (seqZ fb (fb' - fb)) Hj Hused), (do_used _ _ _ Hd), Permutation_app_comm.
    by rewrite (seqZ_split nmeta fb fb') by lia.
  - intros g Hg. apply list_elem_of_lookup in Hg as [j' Hg].
    destruct (decide (j' = j)) as [->|Hjj].
    + rewrite list_lookup_insert_eq in Hg by (by eapply lookup_lt_Some). by injection Hg as <-.
    + rewrite list_lookup_insert_ne in Hg by done.
      apply (fn_ok_ext img); [apply Hd; by eapply list_elem_of_lookup_2|]. intros Hgi.
      apply Hsame; [by apply (used_disk Hd j' g); [|apply ind_used]|right].
      apply (ind_own j' g); [done|done|by apply ind_used].
Qed.

Lemma grow_bytes : fn_bytes img' f' = fn_bytes img f ++ zeroes.
Proof using All.
  unfold fn_bytes. rewrite Hx, fmap_app. assert (Hnd : NoDup (fn_used f')).
  { rewrite Hused. apply NoDup_app. split_and!; [apply NoDup_seqZ| |by apply (fn_used_nodup Hd j)].
    intros b Hb%elem_of_seqZ Hb'. pose proof (used_range Hd j f b Hj Hb'). lia. }
  assert (Hnind : forall b, b ∈ fn_blocks f' -> fn_ind f' = 0 \/ b <> fn_ind f').
  { intros b Hb. destruct (decide (fn_ind f' = 0)) as [E|Hi]; [by left|right].
    intros ->. unfold fn_used in Hnd. rewrite (proj2 (Z.eqb_neq _ _)) in Hnd by done.
    apply NoDup_app in Hnd as (_ & Hn & _). apply (Hn _ Hb). left. }
  pose proof (do_fb _ _ _ Hd) as Hfb0. pose proof nmeta_val as Hnm.
  assert (Hold : forall b, b ∈ fn_blocks f -> dblk img' b = dblk img b).
  { intros b Hb. pose proof (used_range Hd j f b Hj (block_used _ _ Hb)) as Hr. rewrite nmeta_val in Hr.
    apply Hsame; [lia|]. apply Hnind. rewrite Hx. apply elem_of_app. by left. }
  rewrite join_app. f_equal.
  - f_equal. apply list_fmap_ext. intros i b Hb. apply Hold. by eapply list_elem_of_lookup_2.
  - cbn. rewrite app_nil_r. rewrite Hsame; [apply Hd; lia|lia|].
    apply Hnind. rewrite Hx. apply elem_of_app. right. left.
Qed.

Lemma grow_others j' g : j' <> j -> G !! j' = Some g -> fn_bytes img' g = fn_bytes img g.
Proof using All.
  intros Hjj Hg. apply fn_bytes_ext. intros b Hb.
  apply Hsame; [by apply (used_disk Hd j' g), block_used|right; by apply (ind_own j' g), block_used].
Qed.

Lemma grow_low b : 0 <= b < nmeta -> dblk img' b = dblk img b.
Proof using All.
  intros Hb. pose proof nmeta_val as Hnm. apply Hsame; [unfold FSSIZE; lia|]. destruct Hind; [by left|right; lia].
Qed.
End Grow.

(** ** Finding the block to append to *)
Definition with_addrs (din : dinode) (l : list Z) : dinode :=
  mk_dinode (di_type din) (di_major din) (di_minor din) (di_nlink din) (di_size din) l.

Lemma fn_addrs_direct f i : (i < 12)%nat -> fn_addrs f !! i = Some (default 0 (fn_blocks f !! i)).
Proof.
  intros Hi. unfold fn_addrs. change (Z.to_nat NDIRECT) with 12%nat.
  rewrite lookup_app_l by (by rewrite length_fmap, length_seq).
  rewrite list_lookup_fmap, lookup_seq_lt by done. done.
Qed.
Lemma fn_addrs_ind f : fn_addrs f !! 12%nat = Some (fn_ind f).
Proof. unfold fn_addrs. by rewrite lookup_app_r. Qed.
Lemma length_fn_addrs f : length (fn_addrs f) = 13%nat.
Proof. done. Qed.

Lemma fn_addrs_eq f l : length l = 13%nat -> (forall i, (i < 12)%nat -> l !! i = Some (default 0 (fn_blocks f !! i))) ->
  l !! 12%nat = Some (fn_ind f) -> l = fn_addrs f.
Proof.
  intros Hl Hd Hi. apply list_eq. intros i. destruct (decide (i < 12)%nat).
  - by rewrite fn_addrs_direct, Hd.
  - destruct (decide (i = 12)%nat) as [->|]; [by rewrite fn_addrs_ind|].
    rewrite !lookup_ge_None_2; [done|rewrite length_fn_addrs; lia|lia].
Qed.

Lemma addr_direct din f i : 0 <= i < NDIRECT -> addr (with_addrs din (fn_addrs f)) i = default 0 (fn_blocks f !! Z.to_nat i).
Proof. intros Hi. unfold addr. cbn [di_addrs with_addrs]. by rewrite fn_addrs_direct by (unfold NDIRECT in Hi; lia). Qed.
Lemma addr_ind din f : addr (with_addrs din (fn_addrs f)) NDIRECT = fn_ind f.
Proof. unfold addr. cbn [di_addrs with_addrs]. change (Z.to_nat NDIRECT) with 12%nat. by rewrite fn_addrs_ind. Qed.

Section Find.
Context {img : list block} {fb : Z} {G : list fnode} (Hd : disk_ok img fb G).
Context {j : nat} {f : fnode} (Hj : G !! j = Some f).

Lemma used_xint b : b ∈ fn_used f -> xint b = b /\ b <> 0 /\ 0 <= b < FSSIZE.
Proof using Hd Hj.
  intros Hb. pose proof (used_range Hd j f b Hj Hb) as H1. pose proof (used_disk Hd j f b Hj Hb) as H2.
  pose proof nmeta_val. split_and!; [apply xint_id; unfold FSSIZE in *; lia|lia|lia|lia].
Qed.

(** The block is already there. *)
Lemma iappend_block_old sb fi din fbn x :
  0 <= fbn -> fn_blocks f !! Z.to_nat fbn = Some x ->
  iappend_block (with_addrs din (fn_addrs f)) fbn (mk_mkst img sb fi fb) =
    Ok (with_addrs din (fn_addrs f), x) (mk_mkst img sb fi fb).
Proof using Hd Hj.
  intros Hfbn Hx. destruct (used_xint x) as (Ex & Hx0 & Hxr);
    [by apply block_used; eapply list_elem_of_lookup_2|].
  pose proof (do_fn _ _ _ Hd f (list_elem_of_lookup_2 _ _ _ Hj)) as [Hmax Hnone Hind].
  pose proof (lookup_lt_Some _ _ _ Hx) as Hlt. unfold iappend_block. destruct (Z.ltb_spec fbn NDIRECT) as [Hdir|Hge].
  - unfold ensure_addr. rewrite addr_direct, Hx by done. cbn [default from_option id]. rewrite Ex.
    rewrite (proj2 (Z.eqb_neq x 0)) by done. erewrite bind_ok; [|reflexivity]. cbn beta.
    rewrite addr_direct, Hx by done. cbn [default from_option id]. by rewrite Ex.
  - assert (Hi : fn_ind f <> 0) by (rewrite Hnone; lia).
    destruct (used_xint (fn_ind f) (ind_used _ Hi)) as (Ei & _ & Hir).
    unfold ensure_addr. rewrite addr_ind, Ei, (proj2 (Z.eqb_neq _ 0)) by done.
    erewrite bind_ok; [|reflexivity]. cbn beta zeta. rewrite addr_ind, Ei.
    erewrite bind_ok; [|by apply (rsect_ok (do_len _ _ _ Hd))]. cbn beta zeta.
    assert (Eg : get_u32 (dblk img (fn_ind f)) (4 * (fbn - NDIRECT)) = x).
    { rewrite (Hind Hi) by (unfold MAXFILE in *; lia). replace (NDIRECT + (fbn - NDIRECT)) with fbn by lia. by rewrite Hx. }
    rewrite Eg, (proj2 (Z.eqb_neq x 0)) by done. erewrite bind_ok; [|reflexivity]. cbn beta. by rewrite Eg, Ex.
Qed.
End Find.

(** The file [j] has got the block [x], which is zero; nothing else has changed. *)
Record grown (img : list block) (G : list fnode) (j : nat) (f : fnode)
    (img' : list block) (fb' : Z) (f' : fnode) (x : Z) : Prop := {
  gr_disk : disk_ok img' fb' (<[j := f']> G);
  gr_type : fn_type f' = fn_type f;
  gr_blocks : fn_blocks f' = fn_blocks f ++ [x];
  gr_bytes : fn_bytes img' f' = fn_bytes img f ++ zeroes;
  gr_others : forall j' g, j' <> j -> G !! j' = Some g -> fn_bytes img' g = fn_bytes img g;
  gr_low : forall b, 0 <= b < nmeta -> dblk img' b = dblk img b
}.

Lemma get_zeroes i : get_u32 zeroes i = 0.
Proof.
  unfold get_u32, slice, zeroes. rewrite drop_replicate, take_replicate.
  induction (Nat.min 4 _) as [|n IH]; [done|]. cbn. lia.
Qed.

Lemma lookup_snoc_default (l : list Z) x i :
  default 0 ((l ++ [x]) !! i) = if decide (i = length l) then x else default 0 (l !! i).
Proof.
  case_decide as E; [subst; by rewrite list_lookup_middle|]. destruct (decide (i < length l)%nat).
  - by rewrite lookup_app_l.
  - rewrite !lookup_ge_None_2; [done|lia|rewrite length_app; simpl; lia].
Qed.

Section Alloc.
Context {img : list block} {fb : Z} {G : list fnode} (Hd : disk_ok img fb G).
Context {j : nat} {f : fnode} (Hj : G !! j = Some f).
Let n : nat := length (fn_blocks f).

Lemma alloc_direct : (n < 12)%nat -> fb + 1 <= FSSIZE ->
  grown img G j f img (fb + 1) (mk_fnode (fn_type f) (fn_size f) (fn_blocks f ++ [fb]) (fn_ind f)) fb.
Proof using Hd Hj.
  intros Hn Hfb. pose proof (do_fn _ _ _ Hd f (list_elem_of_lookup_2 _ _ _ Hj)) as [Hmax Hnone _].
  assert (Hi : fn_ind f = 0) by (apply Hnone; unfold NDIRECT, n in *; lia).
  set (f' := mk_fnode _ _ _ _).
  assert (Hused : fn_used f' ≡ₚ seqZ fb (fb + 1 - fb) ++ fn_used f).
  { replace (fb + 1 - fb) with 1 by lia. unfold fn_used. cbn [f' fn_ind fn_blocks]. rewrite Hi.
    cbn. rewrite !app_nil_r. by rewrite Permutation_app_comm. }
  assert (Hf' : fn_ok img f').
  { constructor; cbn [f' fn_ind fn_blocks]; rewrite ?length_app; cbn [length];
      change MAXFILE with 140 in *; change NDIRECT with 12 in *; unfold n in *; [lia|split; [lia|done]|done]. }
  assert (H0 : fn_ind f' = 0 \/ nmeta <= fn_ind f' < fb + 1) by by left.
  assert (Hx : fn_blocks f' = fn_blocks f ++ [fb]) by done.
  constructor; [eapply (grow_disk_ok Hd Hj)|done|done|eapply (grow_bytes Hd Hj)|eapply (grow_others Hd Hj)|eapply (grow_low Hd Hj)];
    try done; try lia; try apply Hd.
Qed.

(** The indirect block is [ind], its entry for the new block [x]. *)
Lemma alloc_indirect ind x fb' :
  (12 <= n < 140)%nat -> fb' <= FSSIZE ->
  (n = 12%nat /\ ind = fb /\ x = fb + 1 /\ fb' = fb + 2 \/
   n <> 12%nat /\ ind = fn_ind f /\ x = fb /\ fb' = fb + 1) ->
  grown img G j f (<[Z.to_nat ind := put_u32 (dblk img ind) (4 * (Z.of_nat n - NDIRECT)) x]> img) fb'
    (mk_fnode (fn_type f) (fn_size f) (fn_blocks f ++ [x]) ind) x.
Proof using Hd Hj.
  intros Hn Hfb Hcase. pose proof (do_fn _ _ _ Hd f (list_elem_of_lookup_2 _ _ _ Hj)) as [Hmax Hnone Hind].
  pose proof nmeta_val as Hnm. pose proof (do_fb _ _ _ Hd) as Hfb0. set (f' := mk_fnode _ _ _ _).
  assert (Hfi : n = 12%nat -> fn_ind f = 0) by (intros; apply Hnone; unfold NDIRECT, n in *; lia).
  assert (Hfi' : n <> 12%nat -> fn_ind f <> 0) by (intros; rewrite Hnone; unfold NDIRECT, n in *; lia).
  assert (Hir : nmeta <= ind < fb' /\ ind <> x /\ fb <= x < fb').
  { destruct Hcase as [(E & -> & -> & ->)|(E & -> & -> & ->)]; [lia|].
    pose proof (used_range Hd j f _ Hj (ind_used _ (Hfi' E))). lia. }
  assert (Hind0 : ind <> 0) by lia.
  set (img' := <[_ := _]> img).
  assert (Hli : length (dblk img ind) = Z.to_nat BSIZE).
  { eapply (Forall_lookup_1 _ _ _ _ (do_blk _ _ _ Hd)), (dblk_lookup (do_len _ _ _ Hd)). lia. }
  assert (Hblk' : forall b, 0 <= b -> dblk img' b = if decide (b = ind) then put_u32 (dblk img ind) (4 * (Z.of_nat n - NDIRECT)) x else dblk img b).
  { intros b Hb. by apply (dblk_insert (do_len _ _ _ Hd)); [lia|]. }
  assert (Hold : forall i, 0 <= i < NINDIRECT -> get_u32 (dblk img ind) (4 * i) = default 0 (fn_blocks f !! Z.to_nat (NDIRECT + i))).
  { intros i Hi. destruct Hcase as [(E & -> & _)|(E & -> & _)]; [|by apply Hind; auto].
    rewrite (do_zero _ _ _ Hd), get_zeroes by lia. rewrite lookup_ge_None_2; [done|]. unfold n, NDIRECT in *. lia. }
  assert (Hused : fn_used f' ≡ₚ seqZ fb (fb' - fb) ++ fn_used f).
  { unfold fn_used. cbn [f' fn_ind fn_blocks]. rewrite (proj2 (Z.eqb_neq ind 0)) by done.
    destruct Hcase as [(E & -> & -> & ->)|(E & -> & -> & ->)].
    - rewrite (Hfi E). replace (fb + 2 - fb) with 2 by lia. cbn. rewrite app_nil_r.
      rewrite <- app_assoc, Permutation_app_comm. cbn [app].
      rewrite (seqZ_cons fb 2), (seqZ_cons (Z.succ fb)) by lia. cbn. rewrite Z.add_1_r. apply Permutation_swap.
    - rewrite (proj2 (Z.eqb_neq (fn_ind f) 0)) by (by apply Hfi'). replace (fb + 1 - fb) with 1 by lia.
      rewrite seqZ_cons, seqZ_nil by lia. rewrite <- app_assoc. cbn [app].
      symmetry. apply Permutation_middle. }
  assert (Hf' : fn_ok img' f').
  { constructor; cbn [f' fn_ind fn_blocks]; rewrite ?length_app; cbn [length].
    - change MAXFILE with 140. unfold n in *. lia.
    - unfold NDIRECT, n in *. lia.
    - intros _ i Hi. rewrite Hblk' by lia. rewrite decide_True by done. rewrite lookup_snoc_default.
      unfold NINDIRECT, NDIRECT, BSIZE in *. change (512 / 4) with 128 in *.
      destruct (decide (Z.to_nat (12 + i) = length (fn_blocks f))) as [E|E].
      + replace i with (Z.of_nat n - 12) by (unfold n; lia). rewrite get_put_u32 by (rewrite ?Hli; lia).
        apply u32_small. unfold FSSIZE in *. lia.
      + rewrite get_put_u32_ne by (rewrite ?Hli; unfold n in *; lia). by apply Hold. }
  assert (H0 : fn_ind f' = 0 \/ nmeta <= fn_ind f' < fb') by (right; cbn; lia).
  assert (Hx : fn_blocks f' = fn_blocks f ++ [x]) by done.
  assert (Hsame : forall b, 0 <= b < FSSIZE -> fn_ind f' = 0 \/ b <> fn_ind f' -> dblk img' b = dblk img b).
  { intros b Hb [?|Hne]; [cbn in *; lia|]. rewrite Hblk' by lia. by rewrite decide_False. }
  assert (Hlen' : length img' = Z.to_nat FSSIZE) by (unfold img'; rewrite length_insert; apply Hd).
  assert (Hall' : Forall (fun d => length d = Z.to_nat BSIZE) img').
  { apply Forall_insert; [apply Hd|]. rewrite length_put_u32; [done| |rewrite Hli];
      unfold BSIZE, NDIRECT in *; lia. }
  constructor; [eapply (grow_disk_ok Hd Hj)|done|done|eapply (grow_bytes Hd Hj)|eapply (grow_others Hd Hj)|eapply (grow_low Hd Hj)];
    try done; lia.
Qed.
End Alloc.

(** The blocks that one more data block takes, after [n]. *)
Definition extra (n : nat) : Z := if decide (n = 12)%nat then 2 else 1.

Lemma next_block_ok img sb fi fb : 0 <= fb <= FSSIZE ->
  next_block (mk_mkst img sb fi fb) = Ok fb (mk_mkst img sb fi (fb + 1)).
Proof.
  intros Hfb. unfold next_block. erewrite bind_ok; [|reflexivity]. cbn beta.
  erewrite bind_ok; [|reflexivity]. cbn. by rewrite u32_small by (unfold FSSIZE in *; lia).
Qed.

Lemma set_addr_direct din f x : (length (fn_blocks f) < 12)%nat ->
  set_addr (with_addrs din (fn_addrs f)) (Z.of_nat (length (fn_blocks f))) x =
  with_addrs din (fn_addrs (mk_fnode (fn_type f) (fn_size f) (fn_blocks f ++ [x]) (fn_ind f))).
Proof.
  intros Hn. unfold set_addr, with_addrs. cbn [di_type di_major di_minor di_nlink di_size di_addrs]. f_equal.
  rewrite Nat2Z.id. apply fn_addrs_eq.
  - by rewrite length_insert.
  - intros i Hi. cbn [fn_blocks]. rewrite lookup_snoc_default. case_decide as E.
    + subst. apply list_lookup_insert_eq. rewrite length_fn_addrs. lia.
    + rewrite list_lookup_insert_ne by done. by apply fn_addrs_direct.
  - rewrite list_lookup_insert_ne by lia. exact (fn_addrs_ind f).
Qed.

Lemma set_addr_ind din f ind x : (12 <= length (fn_blocks f))%nat ->
  with_addrs din (<[12%nat := ind]> (fn_addrs f)) =
  with_addrs din (fn_addrs (mk_fnode (fn_type f) (fn_size f) (fn_blocks f ++ [x]) ind)).
Proof.
  intros Hn. f_equal. apply fn_addrs_eq.
  - by rewrite length_insert.
  - intros i Hi. cbn [fn_blocks]. rewrite list_lookup_insert_ne by lia. rewrite lookup_snoc_default.
    rewrite decide_False by lia. by apply fn_addrs_direct.
  - apply list_lookup_insert_eq. rewrite length_fn_addrs. lia.
Qed.

Lemma xint_block b : 0 <= b <= FSSIZE + 1 -> xint b = b.
Proof. intros. apply xint_id. unfold FSSIZE in *. lia. Qed.
Lemma fb_range img fb G : disk_ok img fb G -> 0 < fb <= FSSIZE.
Proof. intros Hd. pose proof nmeta_val. pose proof (do_fb _ _ _ Hd). lia. Qed.

Section NewBlock.
Context {img : list block} {fb : Z} {G : list fnode} (Hd : disk_ok img fb G).
Context {j : nat} {f : fnode} (Hj : G !! j = Some f) (sb : superblock) (fi : Z) (din : dinode).
Let n : nat := length (fn_blocks f).

Lemma no_block : fn_blocks f !! n = None.
Proof using f n. by apply lookup_ge_None_2. Qed.

(** What [iappend_block] gives for the block after the last. *)
Definition makes_block (fb' : Z) : Prop :=
  exists img' f' x, iappend_block (with_addrs din (fn_addrs f)) (Z.of_nat n) (mk_mkst img sb fi fb) =
      Ok (with_addrs din (fn_addrs f'), x) (mk_mkst img' sb fi fb') /\ grown img G j f img' fb' f' x.

Lemma new_direct : (n < 12)%nat -> fb + 1 <= FSSIZE -> makes_block (fb + 1).
Proof using Hd Hj.
  intros Hn Hcap. pose proof (fb_range _ _ _ Hd) as Hfb. unfold makes_block, iappend_block, ensure_addr.
  rewrite (proj2 (Z.ltb_lt (Z.of_nat n) NDIRECT)) by (unfold NDIRECT; lia).
  rewrite addr_direct, Nat2Z.id, no_block by (unfold NDIRECT; lia). cbn [default from_option id].
  rewrite (xint_block 0) by (unfold FSSIZE; lia). change (0 =? 0) with true. cbv iota.
  erewrite bind_ok; [|erewrite bind_ok; [|apply next_block_ok; lia]; reflexivity]. cbn beta.
  rewrite xint_block, set_addr_direct by (unfold n in *; lia).
  eexists img, _, fb. split; [|by apply (alloc_direct Hd Hj)].
  rewrite addr_direct, Nat2Z.id by (unfold NDIRECT; lia). cbn [fn_blocks].
  rewrite lookup_snoc_default, decide_True by done. by rewrite xint_block by lia.
Qed.

Lemma new_first_indirect : n = 12%nat -> fb + 2 <= FSSIZE -> makes_block (fb + 2).
Proof using Hd Hj.
  intros En Hcap. pose proof (fb_range _ _ _ Hd) as Hfb.
  pose proof (do_fn _ _ _ Hd f (list_elem_of_lookup_2 _ _ _ Hj)) as [_ Hnone _].
  assert (Hi : fn_ind f = 0) by (apply Hnone; unfold NDIRECT, n in *; lia).
  unfold makes_block, iappend_block, ensure_addr.
  rewrite (proj2 (Z.ltb_ge (Z.of_nat n) NDIRECT)) by (unfold NDIRECT; lia).
  rewrite addr_ind, Hi, (xint_block 0) by (unfold FSSIZE; lia). change (0 =? 0) with true. cbv iota.
  erewrite bind_ok; [|erewrite bind_ok; [|apply next_block_ok; lia]; reflexivity]. cbn beta zeta.
  rewrite xint_block by lia.
  change (set_addr (with_addrs din (fn_addrs f)) NDIRECT fb) with (with_addrs din (<[12%nat := fb]> (fn_addrs f))).
  rewrite (set_addr_ind din f fb (fb + 1)) by (unfold n in *; lia). rewrite addr_ind. cbn [fn_ind].
  rewrite (xint_block fb) by lia. erewrite bind_ok; [|apply (rsect_ok (do_len _ _ _ Hd)); lia]. cbn beta.
  rewrite (do_zero _ _ _ Hd), get_zeroes by lia. change (0 =? 0) with true. cbv iota.
  erewrite bind_ok; [|erewrite bind_ok; [|apply next_block_ok; lia]; cbn beta;
    erewrite bind_ok; [|apply (wsect_ok (do_len _ _ _ Hd)); lia]; reflexivity]. cbn beta.
  rewrite (xint_block (fb + 1)) by lia. eexists _, _, (fb + 1). split.
  2: { apply (alloc_indirect Hd Hj fb (fb + 1) (fb + 2)); [unfold n in *; lia|lia|by left]. }
  rewrite (do_zero _ _ _ Hd) by lia. fold n. replace (fb + 1 + 1) with (fb + 2) by lia.
  rewrite get_put_u32 by (rewrite ?zeroes_length; unfold NDIRECT, BSIZE; lia).
  by rewrite u32_small, xint_block by (unfold FSSIZE in *; lia).
Qed.

Lemma new_indirect : (12 < n < 140)%nat -> fb + 1 <= FSSIZE -> makes_block (fb + 1).
Proof using Hd Hj.
  intros Hn Hcap. pose proof (fb_range _ _ _ Hd) as Hfb. pose proof nmeta_val as Hnm.
  pose proof (do_fn _ _ _ Hd f (list_elem_of_lookup_2 _ _ _ Hj)) as [_ Hnone Hind].
  assert (Hi : fn_ind f <> 0) by (rewrite Hnone; unfold NDIRECT, n in *; lia).
  pose proof (used_range Hd j f _ Hj (ind_used _ Hi)) as Hr.
  unfold makes_block, iappend_block, ensure_addr.
  rewrite (proj2 (Z.ltb_ge (Z.of_nat n) NDIRECT)) by (unfold NDIRECT; lia).
  rewrite addr_ind, xint_block, (proj2 (Z.eqb_neq _ 0)) by (done || lia).
  erewrite bind_ok; [|reflexivity]. cbn beta zeta. rewrite addr_ind, xint_block by lia.
  erewrite bind_ok; [|apply (rsect_ok (do_len _ _ _ Hd)); lia]. cbn beta.
  rewrite (Hind Hi) by (unfold NINDIRECT, NDIRECT, BSIZE in *; change (512 / 4) with 128; lia).
  replace (Z.to_nat (NDIRECT + (Z.of_nat n - NDIRECT))) with n by (unfold NDIRECT; lia). rewrite no_block.
  cbn [default from_option id]. change (0 =? 0) with true. cbv iota.
  erewrite bind_ok; [|erewrite bind_ok; [|apply next_block_ok; lia]; cbn beta;
    erewrite bind_ok; [|apply (wsect_ok (do_len _ _ _ Hd)); lia]; reflexivity]. cbn beta.
  rewrite (xint_block fb) by lia. eexists _, _, fb. split.
  2: { apply (alloc_indirect Hd Hj (fn_ind f) fb (fb + 1)); [unfold n in *; lia|lia|right; unfold n in *; lia]. }
  assert (Hli : length (dblk img (fn_ind f)) = Z.to_nat BSIZE).
  { eapply (Forall_lookup_1 _ _ _ _ (do_blk _ _ _ Hd)), (dblk_lookup (do_len _ _ _ Hd)). lia. }
  rewrite get_put_u32 by (rewrite ?Hli; unfold NDIRECT, BSIZE in *; lia).
  rewrite u32_small, xint_block by (unfold FSSIZE in *; lia). f_equal. f_equal.
  rewrite <- (set_addr_ind din f (fn_ind f) fb) by (unfold n in *; lia). f_equal.
Qed.

Lemma iappend_block_new : (n < 140)%nat -> fb + extra n <= FSSIZE -> makes_block (fb + extra n).
Proof using Hd Hj.
  unfold extra. intros Hn. destruct (decide (n = 12%nat)) as [En|En]; [by apply new_first_indirect|].
  destruct (decide (n < 12)%nat); [by apply new_direct|apply new_indirect; lia].
Qed.
End NewBlock.

(** ** Appending *)

(** The blocks that a file of a size takes. *)
Definition used_blocks (size : Z) : Z := size_blocks size + (if NDIRECT <? size_blocks size then 1 else 0).

(** The bytes of the blocks from [n] on are zero. *)
Definition slack (n : Z) (l : list Z) : Prop := Forall (eq 0) (drop (Z.to_nat n) l).

(** From [img] to [img'] the file [j] has become [f'], of [off'] bytes: those it had up to
    [off] and then [c]. *)
Record appended (img : list block) (fb : Z) (G : list fnode) (j : nat) (f : fnode) (off : Z) (c : list Z)
    (img' : list block) (fb' : Z) (f' : fnode) : Prop := {
  ap_disk : disk_ok img' fb' (<[j := f']> G);
  ap_type : fn_type f' = fn_type f;
  ap_fb : fb' = fb + used_blocks (off + Z.of_nat (length c)) - used_blocks off;
  ap_blocks : Z.of_nat (length (fn_blocks f')) = size_blocks (off + Z.of_nat (length c));
  ap_bytes : take (Z.to_nat (off + Z.of_nat (length c))) (fn_bytes img' f') =
    take (Z.to_nat off) (fn_bytes img f) ++ c;
  ap_slack : slack off (fn_bytes img f) -> slack (off + Z.of_nat (length c)) (fn_bytes img' f');
  ap_others : forall j' g, j' <> j -> G !! j' = Some g -> fn_bytes img' g = fn_bytes img g;
  ap_low : forall b, 0 <= b < nmeta -> dblk img' b = dblk img b
}.

Lemma appended_nil img fb G j f off : disk_ok img fb G -> G !! j = Some f ->
  Z.of_nat (length (fn_blocks f)) = size_blocks off -> appended img fb G j f off [] img fb f.
Proof.
  intros Hd Hj Hb. constructor; cbn [length Z.of_nat]; rewrite ?Z.add_0_r, ?app_nil_r; try done; [|lia].
  by rewrite list_insert_id.
Qed.

Lemma appended_app img fb G j f off c1 img1 fb1 f1 c2 img2 fb2 f2 :
  0 <= off -> appended img fb G j f off c1 img1 fb1 f1 ->
  appended img1 fb1 (<[j := f1]> G) j f1 (off + Z.of_nat (length c1)) c2 img2 fb2 f2 ->
  appended img fb G j f off (c1 ++ c2) img2 fb2 f2.
Proof.
  intros Hoff [A1 A2 A3 A4 A5 A8 A6 A7] [B1 B2 B3 B4 B5 B8 B6 B7].
  constructor; rewrite ?length_app, ?Nat2Z.inj_add, ?Z.add_assoc.
  - by rewrite list_insert_insert_eq in B1.
  - by rewrite B2.
  - lia.
  - done.
  - by rewrite B5, A5, app_assoc.
  - intros H. by apply B8, A8.
  - intros j' g Hjj Hg. rewrite (B6 j' g); [by apply (A6 j' g)|done|]. by rewrite list_lookup_insert_ne.
  - intros b Hb. by rewrite B7, A7.
Qed.

Lemma length_fn_bytes img fb G j f : disk_ok img fb G -> G !! j = Some f ->
  length (fn_bytes img f) = (Z.to_nat BSIZE * length (fn_blocks f))%nat.
Proof.
  intros Hd Hj. unfold fn_bytes. assert (H : Forall (fun d => length d = Z.to_nat BSIZE) (dblk img <$> fn_blocks f)).
  { apply (blocks_length Hd). intros b Hb. by apply (used_disk Hd j f), block_used. }
  rewrite <- (length_fmap (dblk img) (fn_blocks f)). revert H. generalize (dblk img <$> fn_blocks f). intros ls H.
  induction H as [|d l Hdl _ IH]; [cbn [mjoin list_join length]; lia|].
  change (mjoin (d :: l)) with (d ++ mjoin l). cbn [length]. rewrite length_app, Hdl, IH. lia.
Qed.

Lemma take_splice_end {A} (l c : list A) o : (o + length c <= length l)%nat ->
  take (o + length c) (splice l o c) = take o l ++ c.
Proof.
  intros H. unfold splice. rewrite app_assoc. rewrite take_app_le.
  - apply take_ge. rewrite length_app, length_take. lia.
  - rewrite length_app, length_take. lia.
Qed.

Lemma drop_splice_end {A} (l c : list A) o : (o + length c <= length l)%nat ->
  drop (o + length c) (splice l o c) = drop (o + length c) l.
Proof.
  intros H. unfold splice. rewrite app_assoc, drop_app_ge; rewrite length_app, length_take, Nat.min_l by lia; [|lia].
  by rewrite Nat.sub_diag.
Qed.

(** The block [i] of the file is the last one and takes [c] at [off]. *)
Lemma append_write img fb G j f i x off c :
  disk_ok img fb G -> G !! j = Some f -> fn_blocks f !! i = Some x -> length (fn_blocks f) = S i -> c <> [] ->
  BSIZE * Z.of_nat i <= off -> off + Z.of_nat (length c) <= BSIZE * (Z.of_nat i + 1) ->
  let img' := <[Z.to_nat x := splice (dblk img x) (Z.to_nat (off - BSIZE * Z.of_nat i)) c]> img in
  disk_ok img' fb G /\
  Z.of_nat (length (fn_blocks f)) = size_blocks (off + Z.of_nat (length c)) /\
  take (Z.to_nat (off + Z.of_nat (length c))) (fn_bytes img' f) = take (Z.to_nat off) (fn_bytes img f) ++ c /\
  drop (Z.to_nat (off + Z.of_nat (length c))) (fn_bytes img' f) = drop (Z.to_nat (off + Z.of_nat (length c))) (fn_bytes img f) /\
  (forall j' g, j' <> j -> G !! j' = Some g -> fn_bytes img' g = fn_bytes img g) /\
  forall b, 0 <= b < nmeta -> dblk img' b = dblk img b.
Proof.
  intros Hd Hj Hi Hl Hc Hlo Hhi. unfold BSIZE in Hlo, Hhi.
  assert (Hc1 : (1 <= length c)%nat) by (destruct c; [done|simpl; lia]).
  destruct (write_block_ok Hd j f i x (Z.to_nat (off - BSIZE * Z.of_nat i)) c) as (H1 & H2 & H3 & H4);
    [done|done|unfold BSIZE; lia|]. cbv zeta.
  replace (Z.to_nat BSIZE * i + Z.to_nat (off - BSIZE * Z.of_nat i))%nat with (Z.to_nat off) in H2
    by (unfold BSIZE; lia).
  assert (Hlen : (Z.to_nat off + length c <= length (fn_bytes img f))%nat).
  { rewrite (length_fn_bytes _ _ _ _ _ Hd Hj), Hl. unfold BSIZE. lia. }
  split_and!; [done| | | |done|done].
  - rewrite Hl. unfold size_blocks, BSIZE. Z.div_mod_to_equations. lia.
  - rewrite H2, Z2Nat.inj_add, Nat2Z.id by lia. by apply take_splice_end.
  - rewrite H2, Z2Nat.inj_add, Nat2Z.id by lia. by apply drop_splice_end.
Qed.

Section Chunk.
Context {img : list block} {fb : Z} {G : list fnode} (Hd : disk_ok img fb G).
Context {j : nat} {f : fnode} (Hj : G !! j = Some f) (sb : superblock) (fi : Z) (din : dinode).
Context {off : Z} {c : list Z} (Hoff : 0 <= off) (Hn : Z.of_nat (length (fn_blocks f)) = size_blocks off).
Context (Hc : c <> []) (Hfit : off + Z.of_nat (length c) <= BSIZE * (off / BSIZE + 1)).
Context (Hmax : off / BSIZE < MAXFILE).
Context (Hcap : fb + used_blocks (off + Z.of_nat (length c)) - used_blocks off <= FSSIZE).

(** One round of the loop of [iappend]. *)
Definition round : Prop :=
  exists img1 fb' f1 x, iappend_block (with_addrs din (fn_addrs f)) (off / BSIZE) (mk_mkst img sb fi fb) =
      Ok (with_addrs din (fn_addrs f1), x) (mk_mkst img1 sb fi fb') /\
    length img1 = Z.to_nat FSSIZE /\ 0 <= x < FSSIZE /\
    appended img fb G j f off c
      (<[Z.to_nat x := splice (dblk img1 x) (Z.to_nat (off - off / BSIZE * BSIZE)) c]> img1) fb' f1.

Lemma chunk_length : (1 <= length c)%nat.
Proof using All. destruct c; [done|simpl; lia]. Qed.

Lemma round_old : off mod BSIZE <> 0 -> round.
Proof using All.
  intros Hm. pose proof chunk_length as Hc1.
  assert (Hl : Z.of_nat (length (fn_blocks f)) = off / BSIZE + 1).
  { rewrite Hn. unfold size_blocks, BSIZE in *. Z.div_mod_to_equations. lia. }
  assert (Hq : 0 <= off / BSIZE) by (apply Z.div_pos; [done|unfold BSIZE; lia]).
  destruct (lookup_lt_is_Some_2 (fn_blocks f) (Z.to_nat (off / BSIZE))) as [x Hx]; [lia|].
  exists img, fb, f, x. split; [by apply (iappend_block_old Hd Hj)|]. split; [apply Hd|].
  split; [by apply (used_disk Hd j f), block_used; [|eapply list_elem_of_lookup_2]|].
  destruct (append_write img fb G j f (Z.to_nat (off / BSIZE)) x off c) as (H1 & H2 & H3 & H6 & H4 & H5);
    [done|done|done|lia|done|unfold BSIZE in *; Z.div_mod_to_equations; lia|rewrite Z2Nat.id by done; done|].
  rewrite Z2Nat.id in * by done. rewrite (Z.mul_comm (off / BSIZE)). constructor; try done.
  - by rewrite (list_insert_id G j f Hj).
  - assert (size_blocks (off + Z.of_nat (length c)) = size_blocks off) as E by lia.
    unfold used_blocks. rewrite E. lia.
  - unfold slack. intros H. rewrite H6. rewrite Z2Nat.inj_add by lia. rewrite <- drop_drop. by apply Forall_drop.
Qed.

Lemma round_new : off mod BSIZE = 0 -> round.
Proof using All.
  intros Hm. pose proof chunk_length as Hc1. set (n := length (fn_blocks f)) in *.
  assert (Hl : Z.of_nat n = off / BSIZE).
  { rewrite Hn. unfold size_blocks, BSIZE in *. Z.div_mod_to_equations. lia. }
  assert (Hs : size_blocks (off + Z.of_nat (length c)) = Z.of_nat n + 1).
  { unfold size_blocks, BSIZE in *. Z.div_mod_to_equations. lia. }
  assert (He : used_blocks (off + Z.of_nat (length c)) - used_blocks off = extra n).
  { unfold used_blocks, extra. rewrite Hs, <- Hn. case_decide; unfold NDIRECT in *;
      destruct (Z.ltb_spec 12 (Z.of_nat n + 1)); destruct (Z.ltb_spec 12 (Z.of_nat n)); lia. }
  destruct (iappend_block_new Hd Hj sb fi din) as (img1 & f1 & x & E & Hg);
    [change MAXFILE with 140 in *; fold n; lia|fold n; lia|]. destruct Hg as [G1 G2 G3 G4 G5 G6].
  assert (Hjl : (j < length G)%nat) by (by eapply lookup_lt_Some).
  assert (Hj1 : <[j := f1]> G !! j = Some f1) by (by apply list_lookup_insert_eq).
  assert (Hx : fn_blocks f1 !! n = Some x) by (rewrite G3; by apply list_lookup_middle).
  exists img1, (fb + extra n), f1, x. rewrite <- Hl. split; [done|]. split; [apply G1|].
  split; [by apply (used_disk G1 j f1), block_used; [|eapply list_elem_of_lookup_2]|].
  destruct (append_write img1 (fb + extra n) (<[j := f1]> G) j f1 n x off c) as (H1 & H2 & H3 & H6 & H4 & H5);
    [done|done|done|by rewrite G3, length_app, Nat.add_comm|done| |rewrite Hl; done|].
  { unfold BSIZE in *. Z.div_mod_to_equations. lia. }
  rewrite (Z.mul_comm (Z.of_nat n)). constructor; try done.
  - lia.
  - rewrite H3, G4. f_equal. rewrite take_app_le; [done|].
    rewrite (length_fn_bytes _ _ _ _ _ Hd Hj). fold n. unfold BSIZE in *. Z.div_mod_to_equations. lia.
  - intros _. unfold slack. rewrite H6, G4, drop_app_ge.
    + apply Forall_drop. by apply Forall_replicate.
    + rewrite (length_fn_bytes _ _ _ _ _ Hd Hj). fold n. unfold BSIZE in *. Z.div_mod_to_equations. lia.
  - intros j' g Hjj Hg. rewrite (H4 j' g); [by apply G5 with j'|done|by rewrite list_lookup_insert_ne].
  - intros b Hb. by rewrite H5, G6.
Qed.
End Chunk.

Lemma used_blocks_mono a b : 0 <= a <= b -> used_blocks a <= used_blocks b.
Proof.
  intros H. unfold used_blocks. assert (size_blocks a <= size_blocks b).
  { unfold size_blocks, BSIZE. apply Z.div_le_mono; lia. }
  destruct (Z.ltb_spec NDIRECT (size_blocks a)); destruct (Z.ltb_spec NDIRECT (size_blocks b)); lia.
Qed.

Lemma iappend_loop_ok fuel img fb G j f sb fi din off p :
  disk_ok img fb G -> G !! j = Some f -> 0 <= off -> Z.of_nat (length (fn_blocks f)) = size_blocks off ->
  off + Z.of_nat (length p) <= MAXFILE * BSIZE ->
  fb + used_blocks (off + Z.of_nat (length p)) - used_blocks off <= FSSIZE -> (length p < fuel)%nat ->
  exists img' fb' f', iappend_loop fuel (with_addrs din (fn_addrs f)) off p (mk_mkst img sb fi fb) =
      Ok (with_addrs din (fn_addrs f'), off + Z.of_nat (length p)) (mk_mkst img' sb fi fb') /\
    appended img fb G j f off p img' fb' f'.
Proof.
  revert img fb G f off p. induction fuel as [|fuel IH]; intros img fb G f off p Hd Hj Hoff Hn Hmax Hcap Hfuel; [lia|].
  cbn [iappend_loop]. destruct p as [|b0 p0] eqn:Ep.
  { exists img, fb, f. split; [cbn; by rewrite Z.add_0_r|]. by apply appended_nil. }
  rewrite <- Ep in *. assert (Hp : (1 <= length p)%nat) by (subst; simpl; lia). clear Ep b0 p0.
  replace (Z.of_nat (length p) >? 0) with true by lia. change MAXFILE with 140 in *.
  assert (Hq : 0 <= off / BSIZE < 140) by (unfold BSIZE in *; Z.div_mod_to_equations; lia).
  rewrite (proj2 (Z.ltb_lt (off / BSIZE) 140)) by lia. cbn [negb].
  set (n1 := Z.min _ _). set (c := take (Z.to_nat n1) p).
  assert (Hn1 : 0 < n1 <= Z.of_nat (length p) /\ off + n1 <= BSIZE * (off / BSIZE + 1)).
  { unfold n1, BSIZE in *. Z.div_mod_to_equations. lia. }
  assert (Hcl : Z.of_nat (length c) = n1) by (unfold c; rewrite length_take; lia).
  assert (Hround : round (img := img) (fb := fb) (G := G) (j := j) (f := f) sb fi din (off := off) (c := c)).
  { pose proof (used_blocks_mono (off + n1) (off + Z.of_nat (length p)) ltac:(lia)).
    assert (c <> []) by (intros ->; simpl in Hcl; lia).
    destruct (decide (off mod BSIZE = 0)); [apply (round_new Hd Hj)|apply (round_old Hd Hj)];
      rewrite ?Hcl; change MAXFILE with 140; done || lia. }
  destruct Hround as (img1 & fb1 & f1 & x & E1 & Hl1 & Hx & Hap).
  erewrite bind_ok; [|exact E1]. cbn beta iota.
  erewrite bind_ok; [|by apply (rsect_ok Hl1)]. cbn beta.
  erewrite bind_ok; [|by apply (wsect_ok Hl1)]. fold c. set (img2 := <[_ := _]> img1) in *.
  rewrite u32_small by (unfold BSIZE in *; lia). destruct Hap as [A1 A2 A3 A4 A5 A8 A6 A7].
  assert (Hdl : Z.of_nat (length (drop (Z.to_nat n1) p)) = Z.of_nat (length p) - n1) by (rewrite length_drop; lia).
  assert (Hjl : (j < length G)%nat) by (by eapply lookup_lt_Some).
  rewrite Hcl in *.
  destruct (IH img2 fb1 (<[j := f1]> G) f1 (off + n1) (drop (Z.to_nat n1) p)) as (img3 & fb3 & f3 & E3 & Hap3);
    [done|by apply list_lookup_insert_eq|lia|done|lia| |lia|].
  { rewrite Hdl. replace (off + n1 + (Z.of_nat (length p) - n1)) with (off + Z.of_nat (length p)) by lia. lia. }
  exists img3, fb3, f3. split.
  { rewrite E3, Hdl. by replace (off + n1 + (Z.of_nat (length p) - n1)) with (off + Z.of_nat (length p)) by lia. }
  rewrite <- (take_drop (Z.to_nat n1) p). fold c. apply (appended_app _ _ _ _ _ _ _ img2 fb1 f1); [done| |by rewrite Hcl].
  by constructor; rewrite ?Hcl.
Qed.

(** ** Inodes *)
Definition dinode_at (img : list block) (inum : Z) : dinode :=
  get_dinode (dblk img (IBLOCK inum mkfs_sb)) (dinode_off inum).

Definition free_dinode : dinode := mk_dinode 0 0 0 0 0 (replicate 13 0).

Record inodes_ok (img : list block) (G : list fnode) : Prop := {
  io_count : Z.of_nat (length G) < NINODES;
  io_used : forall i f, G !! i = Some f -> dinode_at img (Z.of_nat i + 1) = fn_dinode f;
  io_free : forall inum, Z.of_nat (length G) < inum < NINODES -> dinode_at img inum = free_dinode
}.

Record file_ok (f : fnode) : Prop := {
  fl_type : 0 < fn_type f < 2 ^ 15;
  fl_size : 0 <= fn_size f;
  fl_blocks : Z.of_nat (length (fn_blocks f)) = size_blocks (fn_size f)
}.

Lemma IBLOCK_mkfs inum : 0 <= inum < NINODES -> IBLOCK inum mkfs_sb = inum / 8 + 32 /\ 32 <= inum / 8 + 32 < 57.
Proof.
  intros Hi. unfold IBLOCK, NINODES in *. change IPB with 8. change (sb_inodestart mkfs_sb) with 32.
  assert (0 <= inum / 8 < 25) by (Z.div_mod_to_equations; lia). rewrite u32_small by lia. lia.
Qed.

Lemma winode_ok img sb fi fb inum di : length img = Z.to_nat FSSIZE -> sb = mkfs_sb -> 0 <= inum < NINODES ->
  winode inum di (mk_mkst img sb fi fb) =
    Ok tt (mk_mkst (<[Z.to_nat (IBLOCK inum mkfs_sb) :=
      put_dinode (dblk img (IBLOCK inum mkfs_sb)) (dinode_off inum) di]> img) sb fi fb).
Proof.
  intros Hl -> Hi. destruct (IBLOCK_mkfs inum Hi) as [E Hr]. unfold winode.
  erewrite bind_ok; [|reflexivity]. cbn beta zeta. cbn [m_sb].
  erewrite bind_ok; [|apply (rsect_ok Hl); unfold FSSIZE; lia]. cbn beta.
  apply (wsect_ok Hl). unfold FSSIZE. lia.
Qed.

Lemma rinode_ok img sb fi fb inum : length img = Z.to_nat FSSIZE -> sb = mkfs_sb -> 0 <= inum < NINODES ->
  rinode inum (mk_mkst img sb fi fb) = Ok (dinode_at img inum) (mk_mkst img sb fi fb).
Proof.
  intros Hl -> Hi. destruct (IBLOCK_mkfs inum Hi) as [E Hr]. unfold rinode.
  erewrite bind_ok; [|reflexivity]. cbn beta zeta. cbn [m_sb].
  erewrite bind_ok; [|apply (rsect_ok Hl); unfold FSSIZE; lia]. done.
Qed.

Section Winode.
Context {img : list block} (Hl : length img = Z.to_nat FSSIZE) (Hb : Forall (fun d => length d = Z.to_nat BSIZE) img).
Context {inum : Z} {di : dinode} (Hi : 0 <= inum < NINODES) (Hdi : dinode_ok di).
Let img' : list block :=
  <[Z.to_nat (IBLOCK inum mkfs_sb) := put_dinode (dblk img (IBLOCK inum mkfs_sb)) (dinode_off inum) di]> img.

Lemma winode_length : length img' = Z.to_nat FSSIZE /\ Forall (fun d => length d = Z.to_nat BSIZE) img'.
Proof using All.
  destruct (IBLOCK_mkfs inum Hi) as [E Hr]. split; [unfold img'; by rewrite length_insert|].
  assert (Hlb : length (dblk img (IBLOCK inum mkfs_sb)) = Z.to_nat BSIZE).
  { eapply (Forall_lookup_1 _ _ _ _ Hb), (dblk_lookup Hl). unfold FSSIZE. lia. }
  apply Forall_insert; [done|]. unfold put_dinode. pose proof (dinode_off_range inum) as Ho.
  rewrite length_splice; [done|]. rewrite (length_enc_dinode _ Hdi), Hlb. unfold BSIZE in *. lia.
Qed.

Lemma winode_other b : 0 <= b -> b <> IBLOCK inum mkfs_sb -> dblk img' b = dblk img b.
Proof using All.
  intros H0 Hne. destruct (IBLOCK_mkfs inum Hi) as [E Hr]. unfold img'.
  rewrite (dblk_insert Hl) by (unfold FSSIZE; lia). by rewrite decide_False.
Qed.

Lemma winode_at inum' : 0 <= inum' < NINODES ->
  dinode_at img' inum' = if decide (inum' = inum) then di else dinode_at img inum'.
Proof using All.
  intros Hi'. destruct (IBLOCK_mkfs inum Hi) as [E Hr]. destruct (IBLOCK_mkfs inum' Hi') as [E' Hr'].
  assert (Hlb : length (dblk img (IBLOCK inum mkfs_sb)) = Z.to_nat BSIZE).
  { eapply (Forall_lookup_1 _ _ _ _ Hb), (dblk_lookup Hl). unfold FSSIZE. lia. }
  pose proof (dinode_off_range inum) as Ho. pose proof (dinode_off_range inum') as Ho'. unfold dinode_at, img'.
  rewrite (dblk_insert Hl) by (unfold FSSIZE; lia). unfold BSIZE in *.
  destruct (decide (IBLOCK inum' mkfs_sb = IBLOCK inum mkfs_sb)) as [Eb|Nb].
  - case_decide as Ei; [subst inum'; apply get_put_dinode; [done|lia|rewrite Hlb; lia]|]. rewrite Eb.
    apply get_put_dinode_ne; [done|lia|lia|rewrite Hlb; lia|rewrite Hlb; lia|].
    apply dinode_off_ne. change IPB with 8. intros Em. apply Ei. rewrite E, E' in Eb.
    pose proof (Z.div_mod inum 8 ltac:(lia)). pose proof (Z.div_mod inum' 8 ltac:(lia)). lia.
  - rewrite decide_False; [done|]. by intros ->.
Qed.
End Winode.

(** ** The abstract file system: inode [i + 1] is a file with a type and contents *)
Definition view (img : list block) (G : list fnode) : list (Z * list Z) :=
  (fun f => (fn_type f, fn_content img f)) <$> G.

Definition total (V : list (Z * list Z)) : Z :=
  foldr (fun f n => used_blocks (Z.of_nat (length f.2)) + n) 0 V.

Definition rep (s : mkst) (V : list (Z * list Z)) : Prop :=
  exists img fb G, s = mk_mkst img mkfs_sb (Z.of_nat (length G) + 1) fb /\
    disk_ok img fb G /\ inodes_ok img G /\ Forall file_ok G /\
    (forall f, f ∈ G -> slack (fn_size f) (fn_bytes img f)) /\
    dblk img 1 = splice zeroes 0 (enc_sb mkfs_sb) /\ dblk img 2 = zeroes /\ V = view img G.

Section Files.
Context {img : list block} {fb : Z} {G : list fnode} (Hd : disk_ok img fb G) (Hfl : Forall file_ok G).
Context {j : nat} {f : fnode} (Hj : G !! j = Some f).

Lemma file_at : file_ok f.
Proof using Hfl Hj. by apply (Forall_lookup_1 _ _ _ _ Hfl Hj). Qed.

Lemma content_length : Z.of_nat (length (fn_content img f)) = fn_size f.
Proof using Hd Hfl Hj.
  destruct file_at as [_ Hs Hb]. unfold fn_content. rewrite length_take, (length_fn_bytes _ _ _ _ _ Hd Hj).
  pose proof (size_blocks_le (fn_size f) Hs). unfold BSIZE in *. lia.
Qed.

Lemma used_length : Z.of_nat (length (fn_used f)) = used_blocks (fn_size f).
Proof using Hd Hfl Hj.
  destruct file_at as [_ Hs Hb]. pose proof (do_fn _ _ _ Hd f (list_elem_of_lookup_2 _ _ _ Hj)) as [_ Hnone _].
  unfold fn_used, used_blocks. rewrite length_app, Nat2Z.inj_add, Hb.
  destruct (Z.eqb_spec (fn_ind f) 0) as [E|E]; rewrite Hnone, Hb in E;
    destruct (Z.ltb_spec NDIRECT (size_blocks (fn_size f))); simpl; lia.
Qed.

Lemma size_max : 0 <= fn_size f <= MAXFILE * BSIZE.
Proof using Hd Hfl Hj.
  destruct file_at as [_ Hs Hb]. pose proof (do_fn _ _ _ Hd f (list_elem_of_lookup_2 _ _ _ Hj)) as [Hm _ _].
  pose proof (size_blocks_le (fn_size f) Hs). unfold BSIZE in *. lia.
Qed.

Lemma fn_dinode_ok : dinode_ok (fn_dinode f).
Proof using Hd Hfl Hj.
  destruct file_at as [Ht Hs Hb]. pose proof size_max as Hm. change (MAXFILE * BSIZE) with 71680 in Hm.
  assert (Hr : forall b, b ∈ fn_used f -> 0 <= b < 2 ^ 32).
  { intros b Hb'. pose proof (used_disk Hd j f b Hj Hb'). unfold FSSIZE in *. lia. }
  constructor; cbn [fn_dinode di_type di_major di_minor di_nlink di_size di_addrs]; try lia; [done|].
  unfold fn_addrs. apply Forall_app. split.
  - apply Forall_fmap, Forall_forall. intros i _. cbn. destruct (fn_blocks f !! i) as [b|] eqn:E; [|cbn; lia].
    by apply Hr, block_used, list_elem_of_lookup_2 with i.
  - constructor; [|done]. destruct (decide (fn_ind f = 0)) as [->|]; [lia|]. by apply Hr, ind_used.
Qed.
End Files.

Lemma total_used img fb G : disk_ok img fb G -> Forall file_ok G -> fb = nmeta + total (view img G).
Proof.
  intros Hd Hfl. pose proof (do_used _ _ _ Hd) as Hp. apply Permutation_length in Hp. rewrite length_seqZ in Hp.
  pose proof (do_fb _ _ _ Hd) as Hfb.
  assert (H : Z.of_nat (length (mjoin (fn_used <$> G))) = total (view img G)).
  { assert (Hall : forall f, f ∈ G -> Z.of_nat (length (fn_used f)) = used_blocks (Z.of_nat (length (fn_content img f)))).
    { intros f Hf. apply list_elem_of_lookup in Hf as [j Hj].
      by rewrite (used_length Hd Hfl Hj), (content_length Hd Hfl Hj). }
    clear - Hall. induction G as [|f G IH]; [done|]. change (mjoin (fn_used <$> f :: G)) with (fn_used f ++ mjoin (fn_used <$> G)).
    cbn [view fmap list_fmap total foldr]. rewrite length_app, Nat2Z.inj_add, Hall by left.
    f_equal. apply IH. intros g Hg. apply Hall. by right. }
  lia.
Qed.

Lemma total_insert (V : list (Z * list Z)) j t c c' : V !! j = Some (t, c) ->
  total (<[j := (t, c')]> V) =
    total V - used_blocks (Z.of_nat (length c)) + used_blocks (Z.of_nat (length c')).
Proof.
  revert j. induction V as [|v V IH]; intros [|j] Hj; [done..| |]; cbn in Hj.
  - injection Hj as ->. cbn. lia.
  - change (total (<[S j := (t, c')]> (v :: V))) with
      (used_blocks (Z.of_nat (length v.2)) + total (<[j := (t, c')]> V)).
    change (total (v :: V)) with (used_blocks (Z.of_nat (length v.2)) + total V). rewrite (IH j Hj). lia.
Qed.

(** ** [iappend] and [ialloc] on the abstract file system *)

(** Changing the size field of the inode [j]. *)
Lemma winode_inodes img G j f f' : length img = Z.to_nat FSSIZE ->
  Forall (fun d => length d = Z.to_nat BSIZE) img -> inodes_ok img G -> G !! j = Some f -> dinode_ok (fn_dinode f') ->
  inodes_ok (<[Z.to_nat (IBLOCK (Z.of_nat j + 1) mkfs_sb) :=
    put_dinode (dblk img (IBLOCK (Z.of_nat j + 1) mkfs_sb)) (dinode_off (Z.of_nat j + 1)) (fn_dinode f')]> img)
    (<[j := f']> G).
Proof.
  intros Hl Hb [Hc Hu Hf] Hj Hdi. pose proof (lookup_lt_Some _ _ _ Hj) as Hjl. constructor.
  - by rewrite length_insert.
  - intros i g Hi. pose proof (lookup_lt_Some _ _ _ Hi) as Hil. rewrite length_insert in Hil.
    rewrite (winode_at Hl Hb) by (done || lia). destruct (decide (i = j)) as [->|Hne].
    + rewrite decide_True by done. rewrite list_lookup_insert_eq in Hi by done. by injection Hi as <-.
    + rewrite decide_False by lia. rewrite list_lookup_insert_ne in Hi by done. by apply Hu.
  - intros inum Hi. rewrite length_insert in Hi. rewrite (winode_at Hl Hb) by (done || lia).
    rewrite decide_False by lia. by apply Hf.
Qed.

(** The data blocks do not see a change of the inode blocks. *)
Lemma disk_ok_low img img' fb G : disk_ok img fb G -> length img' = Z.to_nat FSSIZE ->
  Forall (fun d => length d = Z.to_nat BSIZE) img' -> (forall b, nmeta <= b < FSSIZE -> dblk img' b = dblk img b) ->
  disk_ok img' fb G /\ forall f, f ∈ G -> fn_bytes img' f = fn_bytes img f.
Proof.
  intros Hd Hl Hb Hs. pose proof (do_fb _ _ _ Hd) as Hfb.
  assert (Hu : forall f b, f ∈ G -> b ∈ fn_used f -> dblk img' b = dblk img b).
  { intros f b Hf Hbf. apply list_elem_of_lookup in Hf as [j Hj]. apply Hs.
    pose proof (used_range Hd j f b Hj Hbf). lia. }
  split; [|intros f Hf; apply fn_bytes_ext; intros b Hbf; by apply (Hu f), block_used].
  constructor; try done.
  - intros b Hbr. rewrite Hs by lia. by apply Hd.
  - apply Hd.
  - intros f Hf. apply (fn_ok_ext img); [by apply Hd|]. intros Hi. by apply (Hu f), ind_used.
Qed.

(** The size of a file does not matter to the blocks. *)
Definition resize (f : fnode) (n : Z) : fnode := mk_fnode (fn_type f) n (fn_blocks f) (fn_ind f).

Lemma disk_ok_resize img fb G j f n : disk_ok img fb (<[j := f]> G) -> (j < length G)%nat ->
  disk_ok img fb (<[j := resize f n]> G).
Proof.
  intros [H1 H2 H3 H4 H5 H6] Hj. constructor; try done.
  - rewrite <- H5. rewrite !list_fmap_insert. done.
  - intros g Hg. apply list_elem_of_lookup in Hg as [i Hi]. destruct (decide (i = j)) as [->|Hne].
    + rewrite list_lookup_insert_eq in Hi by done. injection Hi as <-.
      destruct (H6 f) as [A B C]; [|by constructor].
      apply list_elem_of_lookup. exists j. by rewrite list_lookup_insert_eq.
    + rewrite list_lookup_insert_ne in Hi by done. apply H6, list_elem_of_lookup. exists i.
      by rewrite list_lookup_insert_ne.
Qed.

Lemma inodes_ok_low img img' G : inodes_ok img G -> (forall b, 0 <= b < nmeta -> dblk img' b = dblk img b) -> inodes_ok img' G.
Proof.
  intros [H1 H2 H3] Hs. assert (He : forall inum, 0 <= inum < NINODES -> dinode_at img' inum = dinode_at img inum).
  { intros inum Hi. unfold dinode_at. destruct (IBLOCK_mkfs inum Hi) as [E Hr]. rewrite Hs; [done|].
    rewrite nmeta_val. lia. }
  constructor; [done| |].
  - intros i f Hi. pose proof (lookup_lt_Some _ _ _ Hi). rewrite He by lia. by apply H2.
  - intros inum Hi. rewrite He by lia. by apply H3.
Qed.

Lemma view_lookup img G j t c : view img G !! j = Some (t, c) ->
  exists f, G !! j = Some f /\ t = fn_type f /\ c = fn_content img f.
Proof.
  unfold view. rewrite list_lookup_fmap. destruct (G !! j) as [f|]; [|done]. intros [= <- <-]. by exists f.
Qed.

Lemma view_insert img img' G j f' : (forall i g, i <> j -> G !! i = Some g -> fn_content img' g = fn_content img g) ->
  view img' (<[j := f']> G) = <[j := (fn_type f', fn_content img' f')]> (view img G).
Proof.
  intros H. apply list_eq. intros i. unfold view. rewrite list_lookup_fmap.
  destruct (decide (i = j)) as [->|Hne].
  - destruct (decide (j < length G)%nat).
    + rewrite !list_lookup_insert_eq; [done|by rewrite length_fmap|done].
    + rewrite !lookup_ge_None_2; [done|rewrite length_insert, length_fmap; lia|rewrite length_insert; lia].
  - rewrite !list_lookup_insert_ne, list_lookup_fmap by done. destruct (G !! i) as [g|] eqn:Hg; [|done].
    cbn. by rewrite (H i g).
Qed.

Lemma rep_iappend s V j t c p :
  rep s V -> V !! j = Some (t, c) -> Z.of_nat (length (c ++ p)) <= MAXFILE * BSIZE ->
  nmeta + total (<[j := (t, c ++ p)]> V) <= FSSIZE ->
  exists s', iappend (Z.of_nat j + 1) p s = Ok tt s' /\ rep s' (<[j := (t, c ++ p)]> V).
Proof.
  intros (img & fb & G & -> & Hd & Hio & Hfl & Hsl & Hsb & Hlog & ->) Hj Hmax Hcap.
  rewrite (total_insert _ _ _ _ _ Hj), length_app, Nat2Z.inj_add in *.
  apply view_lookup in Hj as (f & Hj & -> & ->). rewrite (content_length Hd Hfl Hj) in *.
  pose proof (total_used _ _ _ Hd Hfl) as Hfb. destruct (file_at Hfl Hj) as [Hty Hs Hb].
  pose proof (lookup_lt_Some _ _ _ Hj) as Hjl. pose proof (io_count _ _ Hio) as Hcnt.
  pose proof (size_max Hd Hfl Hj) as Hsz. change (MAXFILE * BSIZE) with 71680 in *.
  unfold iappend. erewrite bind_ok; [|apply rinode_ok; [apply Hd|done|lia]]. cbn beta.
  rewrite (io_used _ _ Hio _ _ Hj). change (di_size (fn_dinode f)) with (fn_size f). rewrite xint_id by lia.
  change (fn_dinode f) with (with_addrs (fn_dinode f) (fn_addrs f)).
  destruct (iappend_loop_ok (S (length p)) img fb G j f mkfs_sb (Z.of_nat (length G) + 1) (fn_dinode f) (fn_size f) p)
    as (img' & fb' & f' & E & [A1 A2 A3 A4 A5 A8 A6 A7]); [done|done|done|done|done|lia|lia|].
  erewrite bind_ok; [|exact E]. cbn beta iota. rewrite xint_id by lia.
  set (n := fn_size f + Z.of_nat (length p)) in *.
  assert (Hsd : set_size (with_addrs (fn_dinode f) (fn_addrs f')) n = fn_dinode (resize f' n)).
  { unfold fn_dinode, set_size, with_addrs, resize. cbn. by rewrite A2. }
  rewrite Hsd. pose proof (disk_ok_resize _ _ _ _ _ n A1 Hjl) as Hd2.
  assert (Hfl2 : Forall file_ok (<[j := resize f' n]> G)).
  { apply Forall_insert; [done|]. constructor; cbn; [by rewrite A2|lia|done]. }
  assert (Hj2 : <[j := resize f' n]> G !! j = Some (resize f' n)) by (by apply list_lookup_insert_eq).
  pose proof (fn_dinode_ok Hd2 Hfl2 Hj2) as Hdi.
  rewrite winode_ok by (apply Hd2 || done || lia).
  destruct (winode_length (do_len _ _ _ Hd2) (do_blk _ _ _ Hd2) (inum := Z.of_nat j + 1) ltac:(lia) Hdi) as [Hl3 Hb3].
  destruct (IBLOCK_mkfs (Z.of_nat j + 1) ltac:(lia)) as [Eib Hib]. set (img3 := <[_ := _]> img') in *.
  assert (Hoth : forall b, 0 <= b -> b <> IBLOCK (Z.of_nat j + 1) mkfs_sb -> dblk img3 b = dblk img' b).
  { intros b. apply (winode_other (do_len _ _ _ Hd2) (do_blk _ _ _ Hd2)); [lia|done]. }
  destruct (disk_ok_low img' img3 fb' _ Hd2 Hl3 Hb3) as [Hd3 Hby3].
  { intros b Hbr. rewrite nmeta_val in Hbr. apply Hoth; lia. }
  eexists. split; [reflexivity|]. exists img3, fb', (<[j := resize f' n]> G).
  split; [by rewrite length_insert|]. split; [done|]. split.
  { apply (winode_inodes img' G j f); [apply Hd2|apply Hd2|by apply (inodes_ok_low img)|done|done]. }
  split; [done|]. split.
  { intros g Hg. rewrite Hby3 by done. apply list_elem_of_lookup in Hg as [i Hi]. destruct (decide (i = j)) as [->|Hne].
    - rewrite Hj2 in Hi. injection Hi as <-. apply A8, Hsl. by eapply list_elem_of_lookup_2.
    - rewrite list_lookup_insert_ne in Hi by done. rewrite (A6 i g Hne Hi). apply Hsl. by eapply list_elem_of_lookup_2. }
  rewrite !Hoth by lia. rewrite !A7 by (rewrite nmeta_val; lia). split; [done|]. split; [done|].
  rewrite (view_insert img).
  - f_equal. cbn [fn_type resize]. rewrite A2. f_equal. unfold fn_content. cbn [fn_size resize].
    rewrite Hby3 by (apply list_elem_of_lookup; by exists j). symmetry. exact A5.
  - intros i g Hne Hg. unfold fn_content. f_equal. rewrite Hby3; [by apply (A6 i)|].
    apply list_elem_of_lookup. exists i. by rewrite list_lookup_insert_ne.
Qed.
