(* ===== verification/MkfsImage.v ===== *)
(** The image that [Mkfs.main] writes: superblock, empty log, bitmap, and the files with
    their contents, as the kernel's file system code reads them. *)
From Stdlib Require Import ZArith Lia.
From stdpp Require Import base gmap sets strings numbers list.
From S2P Require Import Prelude Strings State Spinlock Sched Bio Log Blk Crash LogOps Txn Fs FsDemo FsAlloc FsInode Console Dir FsContent Mkfs MkfsSpec.

Local Open Scope Z_scope.

(** ** [ialloc] *)
Definition new_file (t : Z) : fnode := mk_fnode t 0 [] 0.

Lemma fn_ok_new img t : fn_ok img (new_file t).
Proof. constructor; cbn; [change MAXFILE with 140; lia|unfold NDIRECT; lia|done]. Qed.

Lemma disk_ok_new img fb G t : disk_ok img fb G -> disk_ok img fb (G ++ [new_file t]).
Proof.
  intros [H1 H2 H3 H4 H5 H6]. constructor; try done.
  - rewrite fmap_app, join_app. cbn. by rewrite app_nil_r.
  - intros f [Hf|Hf]%elem_of_app; [by apply H6|]. apply list_elem_of_singleton in Hf as ->. apply fn_ok_new.
Qed.

Lemma rep_ialloc s V t :
  rep s V -> Z.of_nat (length V) + 1 < NINODES -> 0 < t < 2 ^ 15 ->
  exists s', ialloc t s = Ok (Z.of_nat (length V) + 1) s' /\ rep s' (V ++ [(t, [])]).
Proof.
  intros (img & fb & G & -> & Hd & Hio & Hfl & Hsl & Hsb & Hlog & ->) Hn Ht.
  unfold view in *. rewrite length_fmap in *. set (inum := Z.of_nat (length G) + 1) in *.
  pose proof (disk_ok_new _ _ _ t Hd) as Hd1.
  assert (Hfl1 : Forall file_ok (G ++ [new_file t])).
  { apply Forall_app. split; [done|]. constructor; [|done]. constructor; cbn; [done|lia|done]. }
  assert (Hj : (G ++ [new_file t]) !! length G = Some (new_file t)) by by apply list_lookup_middle.
  pose proof (fn_dinode_ok Hd1 Hfl1 Hj) as Hdi.
  unfold ialloc. erewrite bind_ok; [|reflexivity]. cbn beta. cbn [m_freeinode].
  erewrite bind_ok; [|reflexivity]. rewrite u32_small by (unfold NINODES in *; lia).
  rewrite (xshort_id t), (xshort_id 1), (xint_id 0) by lia.
  change (mk_dinode t 0 0 1 0 (replicate (Z.to_nat (NDIRECT + 1)) 0)) with (fn_dinode (new_file t)).
  assert (Hi : 0 <= inum < NINODES) by lia.
  erewrite bind_ok; [|apply winode_ok; [apply Hd|done|done]].
  destruct (winode_length (do_len _ _ _ Hd) (do_blk _ _ _ Hd) Hi Hdi) as [Hl3 Hb3].
  destruct (IBLOCK_mkfs inum Hi) as [Eib Hib]. set (img3 := <[_ := _]> img) in *.
  assert (Hoth : forall b, 0 <= b -> b <> IBLOCK inum mkfs_sb -> dblk img3 b = dblk img b).
  { intros b. by apply (winode_other (do_len _ _ _ Hd) (do_blk _ _ _ Hd) Hi Hdi). }
  destruct (disk_ok_low img img3 fb _ Hd1 Hl3 Hb3) as [Hd3 Hby3].
  { intros b Hbr. rewrite nmeta_val in Hbr. apply Hoth; lia. }
  eexists. split; [reflexivity|]. exists img3, fb, (G ++ [new_file t]).
  split; [cbn; do 2 f_equal; rewrite length_app; simpl; lia|]. split; [done|]. split.
  { destruct Hio as [Hc Hu Hfr]. constructor.
    - rewrite length_app. cbn [length]. lia.
    - intros i f Hf. pose proof (lookup_lt_Some _ _ _ Hf) as Hil. rewrite length_app in Hil. cbn [length] in Hil.
      unfold img3. rewrite (winode_at (do_len _ _ _ Hd) (do_blk _ _ _ Hd) Hi Hdi) by lia. case_decide as E.
      + assert (i = length G) as -> by lia. rewrite Hj in Hf. by injection Hf as <-.
      + rewrite lookup_app_l in Hf by lia. by apply Hu.
    - intros k Hk. rewrite length_app in Hk. cbn [length] in Hk. unfold img3.
      rewrite (winode_at (do_len _ _ _ Hd) (do_blk _ _ _ Hd) Hi Hdi) by lia. rewrite decide_False by lia. apply Hfr. lia. }
  split; [done|]. split.
  { intros f Hf. rewrite Hby3 by done. apply elem_of_app in Hf as [Hf|Hf]; [by apply Hsl|].
    apply list_elem_of_singleton in Hf as ->. by constructor. }
  rewrite !Hoth by lia. split; [done|]. split; [done|].
  unfold view. rewrite fmap_app. f_equal. apply list_fmap_ext. intros i f Hf.
  unfold fn_content. rewrite Hby3; [done|]. apply elem_of_app. left. by eapply list_elem_of_lookup_2.
Qed.

(** ** The cleared disk *)
Lemma clear_blocks_ok n img sb fi fb : (length img + n <= Z.to_nat FSSIZE)%nat ->
  clear_blocks n (Z.of_nat (length img)) (mk_mkst img sb fi fb) = Ok tt (mk_mkst (img ++ replicate n zeroes) sb fi fb).
Proof.
  revert img. induction n as [|n IH]; intros img Hl; cbn [clear_blocks]; [by rewrite app_nil_r|].
  erewrite bind_ok; [|reflexivity]. unfold set_m_img. cbn [m_img m_sb m_freeinode m_freeblock].
  rewrite sector_id by (unfold FSSIZE in *; lia). rewrite Nat2Z.id. unfold write_at.
  rewrite decide_False by lia. rewrite Nat.sub_diag. cbn [replicate app].
  assert (El : Z.of_nat (length img) + 1 = Z.of_nat (length (img ++ [zeroes]))) by (rewrite length_app; simpl; lia).
  rewrite El, IH by (rewrite length_app; simpl; lia). by rewrite <- app_assoc.
Qed.

Lemma get_zeroes_dinode off : get_dinode zeroes off = free_dinode.
Proof.
  unfold get_dinode, get_addrs, get_i16, get_u16. rewrite get_zeroes.
  assert (H2 : forall o, le_val (slice zeroes (Z.to_nat o) 2) = 0).
  { intros o. unfold slice, zeroes. rewrite drop_replicate, take_replicate.
    induction (Nat.min 2 _) as [|m IH]; [done|]. cbn. lia. }
  rewrite !H2. unfold free_dinode. f_equal. apply list_eq. intros i. rewrite list_lookup_fmap.
  change (Z.to_nat (NDIRECT + 1)) with 13%nat. destruct (decide (i < 13)%nat).
  - rewrite lookup_seq_lt, lookup_replicate_2 by done. cbn [fmap option_fmap option_map]. by rewrite get_zeroes.
  - rewrite (lookup_ge_None_2 (seq 0 13)) by (rewrite length_seq; lia).
    symmetry. apply lookup_replicate_None. lia.
Qed.

Definition sb_block : block := splice zeroes 0 (enc_sb mkfs_sb).
Definition blank : list block := <[1%nat := sb_block]> (replicate (Z.to_nat FSSIZE) zeroes).

Lemma blank_block b : 0 <= b < FSSIZE -> b <> 1 -> dblk blank b = zeroes.
Proof.
  intros Hb Hne. unfold dblk, blank. rewrite list_lookup_insert_ne by lia.
  rewrite lookup_replicate_2; [done|unfold FSSIZE in *; lia].
Qed.

Lemma rep_blank : rep (mk_mkst blank mkfs_sb 1 nmeta) [].
Proof.
  assert (Hl : length blank = Z.to_nat FSSIZE) by (unfold blank; rewrite length_insert; apply length_replicate).
  exists blank, nmeta, []. split; [done|]. split; [|split; [|split; [done|split; [by intros f ?%elem_of_nil|]]]].
  - constructor; [done| |unfold FSSIZE; rewrite nmeta_val; lia| |done|by intros f ?%elem_of_nil].
    + apply Forall_insert; [apply Forall_replicate, zeroes_length|].
      unfold sb_block. rewrite length_splice; [apply zeroes_length|]. rewrite zeroes_length. vm_compute. lia.
    + intros b Hb. rewrite nmeta_val in Hb. apply blank_block; lia.
  - constructor; [done|done|]. intros inum Hi. unfold dinode_at. cbn [length] in Hi.
    destruct (IBLOCK_mkfs inum ltac:(lia)) as [E Hr]. rewrite blank_block by (unfold FSSIZE; lia).
    apply get_zeroes_dinode.
  - split; [|split; [|done]].
    + unfold dblk, blank. by rewrite list_lookup_insert_eq by (rewrite length_replicate; unfold FSSIZE; lia).
    + apply blank_block; [unfold FSSIZE; lia|lia].
Qed.

(** ** The files of the image *)

(** The bytes of the root directory: an entry for itself, one for its parent, one for
    each file. *)
Definition dirents (files : list (list Z * list (list Z))) : list Z :=
  mkde 1 (bytes_of ".") ++ mkde 1 (bytes_of "..") ++
  mjoin (imap (fun i f => mkde (Z.of_nat i + 2) (strip f.1)) files).

Definition file_view (f : list Z * list (list Z)) : Z * list Z := (T_FILE, mjoin f.2).
Definition image_files (files : list (list Z * list (list Z))) : list (Z * list Z) :=
  (T_DIR, dirents files) :: (file_view <$> files).

(** The arguments of [main] when every file can be opened. *)
Definition opened (files : list (list Z * list (list Z))) : list (list Z * option (list (list Z))) :=
  (fun f => (f.1, Some f.2)) <$> files.

Lemma length_mkde i n : length (mkde i n) = Z.to_nat DIRENT.
Proof.
  unfold mkde, enc_dirent, dirname. cbn [de_inum de_name]. rewrite length_app, length_le_bytes.
  by rewrite length_read_bytes.
Qed.

Lemma dirents_snoc files f :
  dirents (files ++ [f]) = dirents files ++ mkde (Z.of_nat (length files) + 2) (strip f.1).
Proof.
  unfold dirents. rewrite imap_app, join_app, <- !app_assoc. cbn [imap]. do 3 f_equal.
  rewrite Nat.add_0_r. apply app_nil_r.
Qed.

Lemma length_dirents files : length (dirents files) = (16 * (length files + 2))%nat.
Proof.
  induction files as [|f files IH] using rev_ind.
  - unfold dirents. rewrite !length_app, !length_mkde. done.
  - rewrite dirents_snoc, !length_app, length_mkde, IH. change (Z.to_nat DIRENT) with 16%nat. simpl. lia.
Qed.

(** [V] with files no longer than those of [W], and no more of them. *)
Definition fits (V W : list (Z * list Z)) : Prop :=
  exists W1 W2, W = W1 ++ W2 /\ Forall2 (fun v w => (length v.2 <= length w.2)%nat) V W1.

Lemma blocks_total_cons v V : total (v :: V) = used_blocks (Z.of_nat (length v.2)) + total V.
Proof. done. Qed.
Lemma total_app V W : total (V ++ W) = total V + total W.
Proof. induction V as [|v V IH]; [done|]. cbn [app]. rewrite !blocks_total_cons, IH. lia. Qed.
Lemma blocks_total_nonneg V : 0 <= total V.
Proof.
  induction V as [|v V IH]; [done|]. pose proof (used_blocks_mono 0 (Z.of_nat (length v.2)) ltac:(lia)) as Hu.
  change (used_blocks 0) with 0 in Hu. rewrite blocks_total_cons. lia.
Qed.
Lemma total_fits V W : fits V W -> total V <= total W.
Proof.
  intros (W1 & W2 & -> & H). rewrite total_app. pose proof (blocks_total_nonneg W2).
  enough (total V <= total W1) by lia. clear -H. induction H as [|v w V W H _ IH]; [done|].
  rewrite !blocks_total_cons. pose proof (used_blocks_mono (Z.of_nat (length v.2)) (Z.of_nat (length w.2)) ltac:(lia)). lia.
Qed.

Section Capacity.
(** The files that the disk is to hold. *)
Context {W : list (Z * list Z)} (Hsize : Forall (fun w => Z.of_nat (length w.2) <= MAXFILE * BSIZE) W).
Context (Hcap : nmeta + total W <= FSSIZE).

Lemma rep_iappend_fits s V j t c p : rep s V -> V !! j = Some (t, c) -> fits (<[j := (t, c ++ p)]> V) W ->
  exists s', iappend (Z.of_nat j + 1) p s = Ok tt s' /\ rep s' (<[j := (t, c ++ p)]> V).
Proof using Hsize Hcap.
  intros Hr Hj Hf. apply rep_iappend; [done|done| |].
  - destruct Hf as (W1 & W2 & -> & H). apply Forall_app in Hsize as [Hs _].
    assert (Hj' : <[j := (t, c ++ p)]> V !! j = Some (t, c ++ p)).
    { apply list_lookup_insert_eq. by eapply lookup_lt_Some. }
    destruct (Forall2_lookup_l _ _ _ _ _ H Hj') as (w & Hw & Hl). cbn in Hl.
    pose proof (Forall_lookup_1 _ _ _ _ Hs Hw) as Hs'. cbn in Hs'. lia.
  - pose proof (total_fits _ _ Hf). lia.
Qed.

Lemma copy_file_ok reads s V t c : rep s (V ++ [(t, c)]) -> fits (V ++ [(t, c ++ mjoin reads)]) W ->
  exists s', copy_file (Z.of_nat (length V) + 1) reads s = Ok tt s' /\ rep s' (V ++ [(t, c ++ mjoin reads)]).
Proof using Hsize Hcap.
  revert s c. induction reads as [|buf reads IH]; intros s c Hr Hf; cbn [copy_file].
  { exists s. split; [done|]. by rewrite app_nil_r. }
  change (mjoin (buf :: reads)) with (buf ++ mjoin reads) in *.
  assert (Hin : forall x, <[length V := x]> (V ++ [(t, c)]) = V ++ [x]).
  { intros x. by rewrite <- (Nat.add_0_r (length V)), insert_app_r. }
  destruct (rep_iappend_fits s (V ++ [(t, c)]) (length V) t c buf) as (s1 & E1 & H1); [done|by apply list_lookup_middle|..].
  { rewrite Hin. destruct Hf as (W1 & W2 & -> & H). exists W1, W2. split; [done|].
    apply Forall2_app_inv_l in H as (l1 & l2 & H1 & H2 & ->). apply Forall2_app; [done|].
    inversion H2 as [|? w ? ? Hl Hn]; subst. inversion Hn; subst. constructor; [|done].
    cbn in *. rewrite !length_app in *. lia. }
  rewrite Hin in H1. erewrite bind_ok; [|exact E1]. rewrite (app_assoc c buf) in *. by apply IH.
Qed.
End Capacity.

(** One more file. *)
Definition good_name (name : list Z) : Prop := chr "/" ∉ name.

Lemma add_files_ok files2 files1 s :
  let W := image_files (files1 ++ files2) in
  rep s (image_files files1) -> Forall (fun w => Z.of_nat (length w.2) <= MAXFILE * BSIZE) W ->
  nmeta + total W <= FSSIZE -> Z.of_nat (length (files1 ++ files2)) + 1 < NINODES -> Forall (fun f => good_name f.1) files2 ->
  exists s', add_files 1 (opened files2) s = Ok tt s' /\ rep s' W.
Proof.
  revert files1 s. induction files2 as [|f files2 IH]; intros files1 s W Hr Hs Hc Hn Hg.
  { exists s. split; [done|]. unfold W. by rewrite app_nil_r. }
  inversion Hg as [|? ? Hg1 Hg2]; subst. cbn [opened fmap list_fmap add_files].
  rewrite bool_decide_eq_false_2 by done. rewrite length_app in Hn. cbn [length] in Hn.
  destruct (rep_ialloc s (image_files files1) T_FILE) as (s1 & E1 & H1); [done| |unfold T_FILE; lia|].
  { cbn. rewrite length_fmap. lia. }
  assert (Ei : Z.of_nat (length (image_files files1)) + 1 = Z.of_nat (length files1) + 2).
  { cbn. rewrite length_fmap. lia. }
  erewrite bind_ok; [|exact E1]. cbn beta.
  assert (Hfit : forall r c, (length r <= length (dirents (files1 ++ f :: files2)))%nat -> (length c <= length (mjoin f.2))%nat ->
    fits ((T_DIR, r) :: (file_view <$> files1) ++ [(T_FILE, c)]) W).
  { intros r c Hr' Hc'. exists ((T_DIR, dirents (files1 ++ f :: files2)) :: (file_view <$> files1) ++ [file_view f]), (file_view <$> files2).
    split; [unfold W, image_files; cbn [app]; by rewrite fmap_app, fmap_cons, <- app_assoc|].
    constructor; [done|]. apply Forall2_app; [by apply Forall_Forall2_diag, Forall_true|]. by constructor. }
  destruct (rep_iappend_fits Hs Hc s1 (image_files files1 ++ [(T_FILE, [])]) 0 T_DIR (dirents files1)
    (mkde (Z.of_nat (length files1) + 2) (strip f.1))) as (s2 & E2 & H2); [done|done|..].
  { rewrite <- dirents_snoc. apply Hfit; [|simpl; lia]. rewrite !length_dirents, !length_app. simpl. lia. }
  rewrite <- dirents_snoc in H2. cbn [image_files app insert list_insert] in H2.
  rewrite Ei. erewrite bind_ok; [|exact E2]. cbn beta.
  destruct (copy_file_ok Hs Hc f.2 s2 ((T_DIR, dirents (files1 ++ [f])) :: (file_view <$> files1)) T_FILE [])
    as (s3 & E3 & H3); [done| |].
  { apply Hfit; [|done]. rewrite !length_dirents, !length_app. simpl. lia. }
  rewrite <- Ei. erewrite bind_ok; [|exact E3].
  assert (EW : W = image_files ((files1 ++ [f]) ++ files2)) by (unfold W; by rewrite <- app_assoc).
  rewrite EW in *. apply IH; [|done|done| |done].
  - unfold image_files. rewrite fmap_app. exact H3.
  - rewrite !length_app. simpl. lia.
Qed.

(** ** The image, read by the kernel's code *)

(** The inode [inum] as [ilock] loads it from the logical disk of the image. *)
Definition image_inode (img : list block) (inum : Z) : inode := load_dinode (dinode_at img inum) zero_inode.

(** The size that the inode [inum] gets: that of the root directory is rounded up. *)
Definition image_size (inum : Z) (c : list Z) : Z :=
  let n := Z.of_nat (length c) in if inum =? ROOTINO then (n / BSIZE + 1) * BSIZE else n.

(** The inode [inum] is a file of type [t] and contents [c] on blocks that are in use: below
    [fb].  The rest of its last block is zero. *)
Record file_at_inode (img : list block) (fb inum t : Z) (c : list Z) : Prop := {
  fi_type : i_type (image_inode img inum) = t;
  fi_nlink : i_nlink (image_inode img inum) = 1;
  fi_size : i_size (image_inode img inum) = image_size inum c;
  fi_byte : forall o, 0 <= o < Z.of_nat (length c) ->
    file_byte (dblk img) (image_inode img inum) o = default 0 (c !! Z.to_nat o);
  fi_slack : forall o, Z.of_nat (length c) <= o < size_blocks (Z.of_nat (length c)) * BSIZE ->
    file_byte (dblk img) (image_inode img inum) o = 0;
  fi_addrs : length (i_addrs (image_inode img inum)) = Z.to_nat (NDIRECT + 1);
  fi_blocks : forall bn, 0 <= bn < size_blocks (Z.of_nat (length c)) ->
    nmeta <= block_of (dblk img) (image_inode img inum) bn < fb;
  fi_ind : NDIRECT < size_blocks (Z.of_nat (length c)) -> nmeta <= ind_block (image_inode img inum) < fb
}.

(** A mountable image that holds the files [V], the root directory first, and nothing else. *)
Record image_of (V : list (Z * list Z)) (img : list block) : Prop := {
  im_len : length img = Z.to_nat FSSIZE;
  im_blk : Forall (fun d => length d = Z.to_nat BSIZE) img;
  im_sb : decode_sb (dblk img 1) = mkfs_sb;
  im_log : get_u32 (dblk img (sb_logstart mkfs_sb)) 0 = 0;
  im_bitmap : bitmap_ok mkfs_sb (dblk img) (sb_logstart mkfs_sb) nlog FSSIZE;
  im_free : forall b, 0 <= b < FSSIZE ->
    is_free mkfs_sb (dblk img) b = bool_decide (nmeta + total V <= b);
  im_file : forall i t c, V !! i = Some (t, c) -> file_at_inode img (nmeta + total V) (Z.of_nat i + 1) t c;
  im_apart : forall i i' t t' c c' bn bn', V !! i = Some (t, c) -> V !! i' = Some (t', c') ->
    0 <= bn < size_blocks (Z.of_nat (length c)) -> 0 <= bn' < size_blocks (Z.of_nat (length c')) ->
    block_of (dblk img) (image_inode img (Z.of_nat i + 1)) bn =
      block_of (dblk img) (image_inode img (Z.of_nat i' + 1)) bn' -> i = i' /\ bn = bn';
  im_unused : forall inum, Z.of_nat (length V) < inum < NINODES -> i_type (image_inode img inum) = 0
}.

(** [di] has the blocks of [f]. *)
Section ReadFile.
Context {img : list block} {fb : Z} {G : list fnode} (Hd : disk_ok img fb G).
Context {j : nat} {f : fnode} (Hj : G !! j = Some f).
Context {di : dinode} (Hdi : di_addrs di = fn_addrs f).
Let x : inode := load_dinode di zero_inode.

Lemma block_of_fn bn : 0 <= bn < Z.of_nat (length (fn_blocks f)) ->
  fn_blocks f !! Z.to_nat bn = Some (block_of (dblk img) x bn).
Proof using Hd Hj Hdi.
  intros Hb. destruct (do_fn _ _ _ Hd f) as [Hm Hn Hi]; [by eapply list_elem_of_lookup_2|].
  destruct (lookup_lt_is_Some_2 (fn_blocks f) (Z.to_nat bn) ltac:(lia)) as [b Eb]. rewrite Eb. f_equal.
  unfold block_of, ind_block. change (i_addrs x) with (di_addrs di). rewrite Hdi. change NDIRECT with 12 in *.
  change MAXFILE with 140 in *. destruct (Z.ltb_spec bn 12) as [H|H].
  - by rewrite fn_addrs_direct, Eb by lia.
  - change (Z.to_nat 12) with 12%nat. rewrite fn_addrs_ind. cbn [default from_option id].
    assert (Hne : fn_ind f <> 0) by (intros E; apply Hn in E; lia).
    rewrite (Hi Hne) by (change NINDIRECT with 128; lia). replace (12 + (bn - 12)) with bn by lia. by rewrite Eb.
Qed.

Lemma ind_block_fn : ind_block x = fn_ind f.
Proof using Hdi. unfold ind_block. change (i_addrs x) with (di_addrs di). rewrite Hdi. by rewrite fn_addrs_ind. Qed.

Lemma file_byte_fn o : 0 <= o < BSIZE * Z.of_nat (length (fn_blocks f)) ->
  file_byte (dblk img) x o = default 0 (fn_bytes img f !! Z.to_nat o).
Proof using Hd Hj Hdi.
  intros Ho. change BSIZE with 512 in Ho. unfold file_byte, data_at. change BSIZE with 512.
  pose proof (Z.div_mod o 512 ltac:(lia)) as E. pose proof (Z.mod_pos_bound o 512 ltac:(lia)) as Hr.
  assert (Hq : 0 <= o / 512 < Z.of_nat (length (fn_blocks f))) by (Z.div_mod_to_equations; lia).
  pose proof (block_of_fn (o / 512) Hq) as Hb. set (b := block_of _ _ _) in *.
  assert (Hall : Forall (fun d => length d = 512%nat) (dblk img <$> fn_blocks f)).
  { apply (blocks_length Hd). intros b' Hb'. by eapply (used_disk Hd), block_used. }
  assert (Hl : length (dblk img b) = 512%nat) by (apply (Forall_lookup_1 _ _ (Z.to_nat (o / 512)) _ Hall); by rewrite list_lookup_fmap, Hb).
  destruct (lookup_lt_is_Some_2 (dblk img b) (Z.to_nat (o mod 512)) ltac:(lia)) as [y Ey].
  rewrite Ey. unfold fn_bytes. replace (Z.to_nat o) with (Z.to_nat (o / 512) * 512 + Z.to_nat (o mod 512))%nat by lia.
  rewrite (proj2 (join_lookup_Some_same_length' 512 _ (Z.to_nat (o / 512)) (Z.to_nat (o mod 512)) y Hall ltac:(lia))); [done|].
  exists (dblk img b). by rewrite list_lookup_fmap, Hb.
Qed.
End ReadFile.

(** The bitmap that marks the first [n] blocks. *)
Lemma bit_clear_marked n b : 0 <= n <= 4096 -> 0 <= b < 4096 ->
  bit_clear (foldl bit_set zeroes (seqZ 0 n)) b = bool_decide (n <= b) /\
  length (foldl bit_set zeroes (seqZ 0 n)) = Z.to_nat BSIZE.
Proof.
  intros [Hn Hm] Hb. revert Hm. pattern n. apply natlike_ind; [| |done].
  - intros _. rewrite seqZ_nil by lia. cbn [foldl]. split; [|apply zeroes_length].
    rewrite bool_decide_eq_true_2 by lia. unfold bit_clear, data_at, zeroes.
    rewrite lookup_replicate_2 by (apply Z2Nat.inj_lt; [Z.div_mod_to_equations; lia|done|Z.div_mod_to_equations; unfold BSIZE; lia]).
    done.
  - intros m Hm0 IH Hm. destruct IH as [IH Hl]; [lia|]. rewrite <- Z.add_1_r, seqZ_app, foldl_app by lia.
    rewrite (seqZ_cons (0 + m) 1), (seqZ_nil (Z.succ (0 + m))) by lia. cbn [foldl]. rewrite Z.add_0_l.
    split; [|by rewrite length_bit_set]. rewrite bit_clear_set by (rewrite Hl; unfold BSIZE; lia).
    rewrite IH. destruct (decide (b = m)); [symmetry; apply bool_decide_eq_false_2; lia|]. apply bool_decide_ext. lia.
Qed.

Section Final.
Context {img : list block} {fb : Z} {G : list fnode} (Hd : disk_ok img fb G) (Hfl : Forall file_ok G).
Context (Hsl : forall f, f ∈ G -> slack (fn_size f) (fn_bytes img f)).
Context {img' : list block} (Hlen : length img' = Z.to_nat FSSIZE).
Context (Hblk : Forall (fun d => length d = Z.to_nat BSIZE) img').
Context (Hdata : forall b, nmeta <= b < FSSIZE -> dblk img' b = dblk img b).
Context (Hdin : forall i f, G !! i = Some f ->
  dinode_at img' (Z.of_nat i + 1) = set_size (fn_dinode f) (image_size (Z.of_nat i + 1) (fn_content img f))).
Context (Hbm : dblk img' (sb_bmapstart mkfs_sb) = foldl bit_set zeroes (seqZ 0 fb)).

Lemma final_disk : disk_ok img' fb G /\ forall f, f ∈ G -> fn_bytes img' f = fn_bytes img f.
Proof using Hd Hlen Hblk Hdata. by apply (disk_ok_low img). Qed.

Lemma final_file i f : G !! i = Some f -> file_at_inode img' fb (Z.of_nat i + 1) (fn_type f) (fn_content img f).
Proof using All.
  intros Hi. destruct final_disk as [Hd' Hby]. specialize (Hby f (list_elem_of_lookup_2 _ _ _ Hi)).
  destruct (file_at Hfl Hi) as [Hty Hs Hb]. pose proof (size_blocks_le (fn_size f) Hs) as Hle.
  assert (Hdi : di_addrs (dinode_at img' (Z.of_nat i + 1)) = fn_addrs f) by (by rewrite (Hdin i f)).
  pose proof (content_length Hd Hfl Hi) as Hc. pose proof (length_fn_bytes _ _ _ _ _ Hd Hi) as Hbl.
  assert (Hfb : forall o, 0 <= o < size_blocks (fn_size f) * BSIZE ->
    file_byte (dblk img') (image_inode img' (Z.of_nat i + 1)) o = default 0 (fn_bytes img f !! Z.to_nat o)).
  { intros o Ho. rewrite <- Hby. apply (file_byte_fn Hd' Hi Hdi). lia. }
  constructor; try (unfold image_inode; by rewrite (Hdin i f)); rewrite ?Hc.
  - intros o Ho. rewrite Hfb by (unfold BSIZE in *; lia). unfold fn_content. by rewrite lookup_take_lt by lia.
  - intros o Ho. rewrite Hfb by lia. specialize (Hsl f (list_elem_of_lookup_2 _ _ _ Hi)). unfold slack in Hsl.
    destruct (fn_bytes img f !! Z.to_nat o) as [y|] eqn:E; [|done]. cbn. symmetry.
    apply (Forall_lookup_1 _ _ (Z.to_nat o - Z.to_nat (fn_size f)) _ Hsl). rewrite lookup_drop.
    rewrite <- E. f_equal. lia.
  - intros bn Hbn. apply (used_range Hd' i f); [done|]. apply block_used.
    apply list_elem_of_lookup_2 with (Z.to_nat bn). apply (block_of_fn Hd' Hi Hdi). lia.
  - intros Hn. unfold image_inode. rewrite (ind_block_fn Hdi). apply (used_range Hd' i f); [done|]. apply ind_used.
    destruct (do_fn _ _ _ Hd' f (list_elem_of_lookup_2 _ _ _ Hi)) as [_ Hnone _]. intros E. apply Hnone in E. lia.
Qed.

Lemma final_apart i i' f f' bn bn' : G !! i = Some f -> G !! i' = Some f' ->
  0 <= bn < size_blocks (fn_size f) -> 0 <= bn' < size_blocks (fn_size f') ->
  block_of (dblk img') (image_inode img' (Z.of_nat i + 1)) bn =
    block_of (dblk img') (image_inode img' (Z.of_nat i' + 1)) bn' -> i = i' /\ bn = bn'.
Proof using Hd Hfl Hlen Hblk Hdata Hdin.
  intros Hi Hi' Hb Hb' E. destruct final_disk as [Hd' _].
  destruct (file_at Hfl Hi) as [_ _ Hl]. destruct (file_at Hfl Hi') as [_ _ Hl'].
  pose proof (block_of_fn Hd' Hi (di := dinode_at img' (Z.of_nat i + 1)) ltac:(by rewrite (Hdin i f)) bn ltac:(lia)) as H1.
  pose proof (block_of_fn Hd' Hi' (di := dinode_at img' (Z.of_nat i' + 1)) ltac:(by rewrite (Hdin i' f')) bn' ltac:(lia)) as H2.
  fold (image_inode img' (Z.of_nat i + 1)) in H1. fold (image_inode img' (Z.of_nat i' + 1)) in H2. rewrite <- E in H2.
  assert (i = i') as ->.
  { eapply (used_apart Hd'); [exact Hi|exact Hi'|..]; eapply block_used, list_elem_of_lookup_2; [exact H1|exact H2]. }
  rewrite Hi in Hi'. injection Hi' as <-. split; [done|].
  pose proof (fn_used_nodup Hd' _ _ Hi) as Hnd. apply NoDup_app in Hnd as [Hnd _].
  pose proof (NoDup_lookup _ _ _ _ Hnd H1 H2). lia.
Qed.

Lemma final_free b : 0 <= b < FSSIZE -> is_free mkfs_sb (dblk img') b = bool_decide (fb <= b).
Proof using Hd Hlen Hbm.
  intros Hb. pose proof (do_fb _ _ _ Hd) as Hfb. rewrite nmeta_val in Hfb. unfold FSSIZE in *.
  unfold is_free, BBLOCK. change BPB with 4096. rewrite Z.div_small, Z.mod_small by lia.
  change (u32 (0 + sb_bmapstart mkfs_sb)) with (sb_bmapstart mkfs_sb). rewrite Hbm.
  by apply bit_clear_marked; lia.
Qed.

Lemma final_bitmap : bitmap_ok mkfs_sb (dblk img') (sb_logstart mkfs_sb) nlog FSSIZE.
Proof using Hd Hlen Hbm.
  pose proof (do_fb _ _ _ Hd) as Hfb. rewrite nmeta_val in Hfb.
  assert (HB : forall b, 0 <= b < sb_size mkfs_sb -> BBLOCK b mkfs_sb = 58).
  { intros b Hb. change (sb_size mkfs_sb) with 1000 in Hb. unfold BBLOCK. change BPB with 4096.
    by rewrite Z.div_small by lia. }
  change (sb_size mkfs_sb) with 1000 in *. change (sb_logstart mkfs_sb) with 2. change nlog with 30. unfold FSSIZE in *.
  constructor; change (sb_size mkfs_sb) with 1000; [lia|lia| |vm_compute; split; congruence|].
  - intros b Hb. rewrite HB by done. lia.
  - intros b Hb Hf. rewrite final_free in Hf by (unfold FSSIZE; lia). apply bool_decide_eq_true in Hf.
    split; [lia|]. intros b' Hb'. rewrite HB by done. lia.
Qed.
End Final.

Lemma dinode_ok_size di n : dinode_ok di -> 0 <= n < 2 ^ 32 -> dinode_ok (set_size di n).
Proof. intros [H1 H2 H3 H4 H5 H6 H7] Hn. by constructor. Qed.

Lemma image_size_other i c : (0 < i)%nat -> image_size (Z.of_nat i + 1) c = Z.of_nat (length c).
Proof. intros Hi. unfold image_size, ROOTINO. by rewrite (proj2 (Z.eqb_neq _ _)) by lia. Qed.

(** The end of [main], once the files are there. *)
Definition finish : M mkst unit :=
  din ← rinode ROOTINO;
  let off := u32 ((xint (di_size din) / BSIZE + 1) * BSIZE) in
  winode ROOTINO (set_size din (xint off));;
  used ← gets m_freeblock;
  balloc used.

Lemma finish_run img fb G f0 fi :
  disk_ok img fb G -> Forall file_ok G -> inodes_ok img G -> G !! 0%nat = Some f0 ->
  let n := (fn_size f0 / BSIZE + 1) * BSIZE in
  exists img', finish (mk_mkst img mkfs_sb fi fb) = Ok tt (mk_mkst img' mkfs_sb fi fb) /\
    length img' = Z.to_nat FSSIZE /\ Forall (fun d => length d = Z.to_nat BSIZE) img' /\
    (forall b, 0 <= b < FSSIZE -> b <> 32 -> b <> 58 -> dblk img' b = dblk img b) /\
    dblk img' 58 = foldl bit_set zeroes (seqZ 0 fb) /\
    (forall inum, 0 <= inum < NINODES ->
      dinode_at img' inum = if decide (inum = 1) then set_size (fn_dinode f0) n else dinode_at img inum).
Proof.
  intros Hd Hfl Hio H0 n. pose proof (io_used _ _ Hio _ _ H0) as E0. change (Z.of_nat 0 + 1) with 1 in E0.
  pose proof (size_max Hd Hfl H0) as Hm. change (MAXFILE * BSIZE) with 71680 in Hm.
  pose proof (do_fb _ _ _ Hd) as Hfb. rewrite nmeta_val in Hfb.
  assert (Hnr : 0 <= n < 2 ^ 32) by (unfold n, BSIZE; Z.div_mod_to_equations; lia).
  assert (Hi : 0 <= 1 < NINODES) by (unfold NINODES; lia).
  unfold finish. erewrite bind_ok; [|apply rinode_ok; [apply Hd|done|done]]. cbn beta.
  change ROOTINO with 1. rewrite E0. change (di_size (fn_dinode f0)) with (fn_size f0). rewrite (xint_id (fn_size f0)) by lia.
  fold n. cbv zeta. rewrite (u32_small n), (xint_id n) by lia.
  pose proof (dinode_ok_size _ n (fn_dinode_ok Hd Hfl H0) Hnr) as Hdi.
  erewrite bind_ok; [|apply winode_ok; [apply Hd|done|done]]. erewrite bind_ok; [|reflexivity]. cbn beta. cbn [m_freeblock].
  destruct (winode_length (do_len _ _ _ Hd) (do_blk _ _ _ Hd) Hi Hdi) as [Hl1 Hb1].
  pose proof (winode_other (do_len _ _ _ Hd) (do_blk _ _ _ Hd) Hi Hdi) as Hot1.
  pose proof (winode_at (do_len _ _ _ Hd) (do_blk _ _ _ Hd) Hi Hdi) as Hat1.
  set (img1 := <[_ := _]> img) in *. change (IBLOCK 1 mkfs_sb) with 32 in Hot1.
  unfold balloc. rewrite (proj2 (Z.ltb_lt fb (BSIZE * 8))) by (unfold BSIZE, FSSIZE in *; lia). cbn [negb].
  erewrite bind_ok; [|reflexivity]. cbn beta. cbn [m_sb]. change (sb_bmapstart mkfs_sb) with 58 at 1.
  rewrite wsect_ok by (done || unfold FSSIZE; lia).
  pose proof (dblk_insert Hl1 58 (foldl bit_set zeroes (seqZ 0 fb))) as Hot2. set (img2 := <[_ := _]> img1) in *.
  destruct (bit_clear_marked fb 0) as [_ Hbl]; [unfold FSSIZE in *; lia|lia|].
  exists img2. split; [done|]. split; [unfold img2; by rewrite length_insert|]. split; [by apply Forall_insert|].
  split; [|split].
  - intros b Hb ? ?. rewrite Hot2 by (unfold FSSIZE in *; lia). rewrite decide_False by done. apply Hot1; lia.
  - by rewrite Hot2 by (unfold FSSIZE; lia).
  - intros inum Hin. rewrite <- Hat1 by done. unfold dinode_at. destruct (IBLOCK_mkfs inum Hin) as [E Hr].
    rewrite Hot2 by (unfold FSSIZE; lia). by rewrite decide_False by lia.
Qed.

Lemma finish_ok s V : rep s V -> (0 < length V)%nat ->
  exists s', finish s = Ok tt s' /\ image_of V (m_img s').
Proof.
  intros (img & fb & G & -> & Hd & Hio & Hfl & Hsl & Hsb & Hlog & ->) Hn.
  unfold view in Hn. rewrite length_fmap in Hn. destruct (lookup_lt_is_Some_2 G 0 Hn) as [f0 H0].
  destruct (finish_run _ _ _ _ (Z.of_nat (length G) + 1) Hd Hfl Hio H0) as (img' & E & Hl & Hb & Hs & Hbm & Hat).
  eexists. split; [exact E|]. cbn [m_img]. clear E. pose proof (io_count _ _ Hio) as Hcnt.
  assert (Hdata : forall b, nmeta <= b < FSSIZE -> dblk img' b = dblk img b).
  { intros b Hbr. rewrite nmeta_val in Hbr. apply Hs; lia. }
  assert (Hdin : forall i f, G !! i = Some f ->
    dinode_at img' (Z.of_nat i + 1) = set_size (fn_dinode f) (image_size (Z.of_nat i + 1) (fn_content img f))).
  { intros i f Hi. pose proof (lookup_lt_Some _ _ _ Hi). pose proof (content_length Hd Hfl Hi) as Hc. rewrite Hat by lia.
    destruct (decide (i = 0%nat)) as [->|Hne].
    - rewrite Hi in H0. injection H0 as <-. rewrite decide_True by done. unfold image_size. by rewrite Hc.
    - rewrite decide_False by lia. rewrite image_size_other, Hc by lia. by rewrite (io_used _ _ Hio i f). }
  pose proof (total_used _ _ _ Hd Hfl) as Efb.
  constructor; rewrite <- ?Efb; [done|done|rewrite Hs by (unfold FSSIZE; lia); rewrite Hsb; done| | |..].
  - change (sb_logstart mkfs_sb) with 2. rewrite Hs, Hlog by (unfold FSSIZE; lia). apply get_zeroes.
  - by eapply final_bitmap.
  - intros b. by eapply final_free.
  - intros i t c Hi. apply view_lookup in Hi as (f & Hi & -> & ->). by apply (final_file Hd Hfl Hsl Hl Hb Hdata Hdin).
  - intros i i' t t' c c' bn bn' Hi Hi'. apply view_lookup in Hi as (f & Hi & -> & ->).
    apply view_lookup in Hi' as (f' & Hi' & -> & ->). rewrite (content_length Hd Hfl Hi), (content_length Hd Hfl Hi').
    by apply (final_apart Hd Hfl Hl Hb Hdata Hdin).
  - intros inum Hi. unfold view in Hi. rewrite length_fmap in Hi. unfold image_inode.
    rewrite Hat by lia. rewrite decide_False by lia. by rewrite (io_free _ _ Hio).
Qed.

(** The start of [main], which runs [rest] on the empty file system. *)
Lemma rep_start : exists s, rep s [] /\ forall rest : M mkst unit,
  (modify (set_m_sb mkfs_sb);; modify (set_m_freeblock nmeta);; clear_blocks (Z.to_nat FSSIZE) 0;;
   wsect 1 (splice zeroes 0 (enc_sb mkfs_sb));; rest) mkst0 = rest s.
Proof.
  eexists. split; [exact rep_blank|]. intros rest. do 2 (erewrite bind_ok; [|reflexivity]).
  unfold set_m_freeblock, set_m_sb, mkst0. cbn [m_img m_sb m_freeinode m_freeblock].
  erewrite bind_ok; [|apply (clear_blocks_ok (Z.to_nat FSSIZE) []); simpl; lia]. cbn [app].
  erewrite bind_ok; [|apply wsect_ok; [by rewrite length_replicate|unfold FSSIZE; lia]]. done.
Qed.

(** C11: [mkfs] builds a mountable image.  If the names have no slash, there are inodes and
    blocks for all files and no file is longer than an inode can map, [main] ends
    without an error, and the image has [FSSIZE] blocks; the kernel's code reads
    from it the superblock, an empty log, a bitmap in which exactly the blocks of
    the files are in use, and for every file an inode of its own with its type,
    size and contents, on blocks of its own.  The root directory has the entries
    of the files, in order; its size is rounded up. *)
Theorem mkfs_image files :
  Forall (fun f => good_name f.1) files -> Z.of_nat (length files) + 1 < NINODES ->
  Forall (fun f => Z.of_nat (length (mjoin f.2)) <= MAXFILE * BSIZE) files ->
  nmeta + total (image_files files) <= FSSIZE ->
  exists s, main (opened files) mkst0 = Ok tt s /\ image_of (image_files files) (m_img s).
Proof.
  intros Hg Hn Hs Hc. destruct rep_start as (s0 & H0 & E0).
  assert (Hsz : Forall (fun w => Z.of_nat (length w.2) <= MAXFILE * BSIZE) (image_files files)).
  { constructor; [|by apply Forall_fmap]. cbn [snd]. rewrite length_dirents.
    change (MAXFILE * BSIZE) with 71680. unfold NINODES in Hn. lia. }
  assert (Hf0 : forall r, (length r <= 32)%nat -> fits [(T_DIR, r)] (image_files files)).
  { intros r Hr. exists [(T_DIR, dirents files)], (file_view <$> files). split; [done|]. constructor; [|done].
    cbn [snd]. rewrite length_dirents. lia. }
  destruct (rep_ialloc s0 [] T_DIR H0) as (s1 & E1 & H1); [done|done|].
  change (Z.of_nat (length _) + 1) with ROOTINO in E1.
  destruct (rep_iappend_fits Hsz Hc s1 [(T_DIR, [])] 0 T_DIR [] (mkde 1 (bytes_of "."))) as (s2 & E2 & H2); [done|done| |].
  { apply Hf0. rewrite length_app, length_mkde. change (Z.to_nat DIRENT) with 16%nat. simpl. lia. }
  destruct (rep_iappend_fits Hsz Hc s2 _ 0 T_DIR _ (mkde 1 (bytes_of "..")) H2 eq_refl) as (s3 & E3 & H3).
  { apply Hf0. rewrite !length_app, !length_mkde. change (Z.to_nat DIRENT) with 16%nat. simpl. lia. }
  destruct (add_files_ok files [] s3) as (s4 & E4 & H4); [|done|done|done|done|].
  { unfold image_files, dirents. cbn [imap]. exact H3. }
  destruct (finish_ok s4 (image_files files) H4) as (s5 & E5 & H5); [cbn; lia|].
  exists s5. split; [|exact H5]. unfold main. rewrite E0, (bind_ok _ _ _ _ _ E1). cbn beta.
  rewrite Z.eqb_refl. cbn [negb].
  erewrite bind_ok; [|exact E2]. erewrite bind_ok; [|exact E3]. erewrite bind_ok; [|exact E4]. exact E5.
Qed.

(** Two files, one of them from two reads. *)
Definition demo_files : list (list Z * list (list Z)) :=
  [(bytes_of "README", [[120; 118]; [54]]); (bytes_of "_sh", [[127; 69]])].

Lemma mkfs_image_witness :
  exists s, main (opened demo_files) mkst0 = Ok tt s /\
    file_byte (dblk (m_img s)) (image_inode (m_img s) 2) 2 = 54 /\
    is_free mkfs_sb (dblk (m_img s)) 62 = true /\ is_free mkfs_sb (dblk (m_img s)) 61 = false.
Proof.
  destruct (mkfs_image demo_files) as (s & E & H).
  - apply (bool_decide_unpack (Forall (fun f => chr "/" ∉ f.1) demo_files)). vm_compute. exact I.
  - reflexivity.
  - apply (bool_decide_unpack _). vm_compute. exact I.
  - vm_compute. discriminate.
  - exists s. split; [exact E|]. destruct (im_file _ _ H 1 T_FILE [120; 118; 54] eq_refl) as [_ _ _ Hb _ _ _ _].
    rewrite !(im_free _ _ H) by (unfold FSSIZE; lia). split; [exact (Hb 2 ltac:(cbn; lia))|].
    split; vm_compute; reflexivity.
Defined.
