(* ===== verification/Printf.v ===== *)
(** The user library's [printf], [src/printf.c]: the bytes that successive [putc]s
    write to the descriptor.  [cprintf] of [src/console.c] shares the digit
    routines, which the two files have in the same words. *)
From Stdlib Require Import ZArith Lia.
From stdpp Require Import base gmap sets strings numbers list.
From S2P Require Import Prelude State Ulib Console Dir.

Local Open Scope Z_scope.

Definition print_x64 (x : Z) : list Z := hex_digits 16 64 x.
Definition print_x32 (x : Z) : list Z := hex_digits 8 32 x.
Definition print_d (v : Z) : list Z :=
  let x := if v <? 0 then - v else v in
  let buf := dec_digits 16 x in
  let buf := if v <? 0 then buf ++ [chr "-"] else buf in
  reverse buf.

(** [printf(fd, fmt, ...)]; [ap] are the variable arguments. *)
Fixpoint printf (fmt : list Z) (ap : list va) : list Z :=
  match fmt with
  | [] => []
  | c :: fmt' =>
      if negb (c =? chr "%") then c :: printf fmt' ap
      else
        match fmt' with
        | [] => []
        | c :: fmt' =>
            if c =? chr "c" then u8 (va_num (head ap)) :: printf fmt' (tail ap)
            else if c =? chr "d" then print_d (i32 (va_num (head ap))) ++ printf fmt' (tail ap)
            else if c =? chr "x" then print_x32 (u32 (va_num (head ap))) ++ printf fmt' (tail ap)
            else if c =? chr "p" then print_x64 (u64 (va_num (head ap))) ++ printf fmt' (tail ap)
            else if c =? chr "s" then va_str (head ap) ++ printf fmt' (tail ap)
            else if c =? chr "%" then chr "%" :: printf fmt' ap
            else chr "%" :: c :: printf fmt' ap
        end
  end.

(** ** Decimal digits *)
Definition is_digit (c : Z) : Prop := 48 <= c <= 57.

(** The number that digits stand for, continuing from [n]. *)
Definition digits_val (n : Z) (l : list Z) : Z := foldl (fun n c => n * 10 + c - 48) n l.

Lemma digit_dec i : 0 <= i < 10 -> digit i = 48 + i.
Proof.
  intros Hi. assert (E : forallb (fun i => digit i =? 48 + i) (seqZ 0 10) = true) by reflexivity.
  rewrite forallb_forall in E. apply Z.eqb_eq, E, list_elem_of_In, elem_of_seqZ. lia.
Qed.

Lemma dec_digits_spec fuel x : 0 <= x < 10 ^ Z.of_nat fuel ->
  Forall is_digit (dec_digits fuel x) /\ (length (dec_digits fuel x) <= fuel)%nat /\
  digits_val 0 (reverse (dec_digits fuel x)) = x.
Proof.
  revert x. induction fuel as [|fuel IH]; intros x Hx; [simpl in *; split_and!; [constructor|lia|lia]|].
  rewrite Nat2Z.inj_succ, Z.pow_succ_r in Hx by lia. cbn [dec_digits].
  pose proof (Z.mod_pos_bound x 10 ltac:(lia)). pose proof (Z.div_mod x 10 ltac:(lia)).
  rewrite digit_dec by lia. unfold is_digit in *.
  destruct (Z.eqb_spec (x / 10) 0) as [E|E].
  - split; [repeat constructor; lia|]. split; [simpl; lia|]. simpl. lia.
  - destruct (IH (x / 10)) as (H1 & H2 & H3).
    { split; [apply Z.div_pos; lia|apply Z.div_lt_upper_bound; lia]. }
    split; [constructor; [lia|done]|]. split; [simpl; lia|].
    unfold digits_val in *. rewrite reverse_cons, foldl_app, H3. simpl. lia.
Qed.

Lemma digits_val_ge n l : 0 <= n -> Forall is_digit l -> n <= digits_val n l.
Proof.
  intros Hn Hl. revert n Hn. induction Hl as [|c l Hc Hl IH]; intros n Hn; [simpl; lia|].
  unfold is_digit, digits_val in *. simpl. specialize (IH (n * 10 + c - 48) ltac:(lia)). lia.
Qed.

Lemma atoi_digits l s i n fuel :
  (forall j, (j < length l)%nat -> l !! j = Some (s (i + Z.of_nat j))) ->
  s (i + Z.of_nat (length l)) = 0 -> Forall is_digit l -> 0 <= n -> digits_val n l < 2 ^ 31 ->
  (length l < fuel)%nat -> atoi_loop fuel s i n = Some (digits_val n l).
Proof.
  revert i n fuel. induction l as [|c l IH]; intros i n fuel Hs H0 Hd Hn Hv Hf;
    (destruct fuel as [|fuel]; [simpl in Hf; lia|]); cbn [atoi_loop].
  - simpl in H0. rewrite Z.add_0_r in H0. by rewrite H0.
  - apply Forall_cons in Hd as [Hc Hd]. pose proof (Hs O ltac:(simpl; lia)) as Hsc.
    simpl in Hsc. rewrite Z.add_0_r in Hsc. injection Hsc as ->. unfold is_digit in Hc.
    replace ((48 <=? s i) && (s i <=? 57)) with true by lia.
    assert (Hge : 0 <= n * 10 + s i - 48) by lia. pose proof (digits_val_ge _ l Hge Hd) as Hle.
    unfold digits_val in *. simpl in Hv |- *. rewrite i32_small by lia.
    apply IH; try done; [| |simpl in *; lia].
    + intros j Hj. specialize (Hs (S j) ltac:(simpl; lia)). simpl in Hs. rewrite Hs. do 2 f_equal. lia.
    + rewrite <- H0. f_equal. simpl. lia.
Qed.

(** What [printf] prints for [%d], [atoi] reads back: for every [int] [v] above
    [INT_MIN] the output is a minus sign exactly when [v] is negative, followed by
    digits, and [atoi] on the digits returns the absolute value. *)
Theorem printf_atoi v :
  - 2 ^ 31 < v < 2 ^ 31 ->
  exists ds, printf (bytes_of "%d") [VInt v] = (if v <? 0 then [chr "-"] else []) ++ ds /\
    Forall is_digit ds /\ atoi 17 (ptr ds) = Some (Z.abs v).
Proof.
  intros Hv. exists (reverse (dec_digits 16 (Z.abs v))).
  destruct (dec_digits_spec 16 (Z.abs v)) as (H1 & H2 & H3); [lia|].
  assert (Hd : Forall is_digit (reverse (dec_digits 16 (Z.abs v)))) by by apply Forall_reverse.
  split; [|split; [done|]].
  - change (printf (bytes_of "%d") [VInt v]) with (print_d (i32 v) ++ []). rewrite app_nil_r.
    unfold print_d. rewrite i32_small by lia. destruct (Z.ltb_spec v 0).
    + rewrite reverse_app, Z.abs_neq by lia. done.
    + rewrite Z.abs_eq by lia. done.
  - unfold atoi. rewrite <- H3 at 2.
    apply atoi_digits; [| |done|lia|rewrite H3; lia|rewrite length_reverse; lia].
    + intros j Hj. unfold ptr. rewrite Z.add_0_l, Nat2Z.id.
      destruct (lookup_lt_is_Some_2 (reverse (dec_digits 16 (Z.abs v))) j Hj) as [c Hc]. by rewrite Hc.
    + unfold ptr. rewrite Z.add_0_l, Nat2Z.id. by rewrite lookup_ge_None_2.
Qed.

Lemma printf_atoi_witness : exists ds, printf (bytes_of "%d") [VInt (-450)] = chr "-" :: ds /\
  atoi 17 (ptr ds) = Some 450.
Proof.
  destruct (printf_atoi (-450)) as (ds & E & _ & Ha); [lia|]. exists ds. split; [exact E|exact Ha].
Defined.
