(* ===== verification/Grep.v ===== *)
(** The user program [src/grep.c]: its regular-expression matcher, proved against the
    set of strings that a pattern denotes, and its line buffer.

    A C string is the list of its bytes before the NUL. *)
From Stdlib Require Import ZArith Lia.
From stdpp Require Import base gmap sets strings numbers list.
From S2P Require Import Prelude.

Local Open Scope Z_scope.

(** ** The matcher *)
Definition c_caret : Z := 94.
Definition c_star : Z := 42.
Definition c_dot : Z := 46.
Definition c_dollar : Z := 36.
Definition c_nl : Z := 10.

(** [matchstar(c, re, text)]; [m] is [matchhere(re, .)]. *)
Fixpoint matchstar (c : Z) (m : list Z -> bool) (text : list Z) : bool :=
  m text ||
  match text with
  | [] => false
  | t :: text' => ((t =? c) || (c =? c_dot)) && matchstar c m text'
  end.

Fixpoint matchhere (re text : list Z) {struct re} : bool :=
  match re with
  | [] => true
  | c :: re' =>
      match re' with
      | s :: re'' =>
          if s =? c_star then matchstar c (matchhere re'') text
          else
            match text with
            | [] => false
            | t :: text' => ((c =? c_dot) || (c =? t)) && matchhere re' text'
            end
      | [] =>
          if c =? c_dollar then bool_decide (text = [])
          else
            match text with
            | [] => false
            | t :: text' => ((c =? c_dot) || (c =? t)) && matchhere re' text'
            end
      end
  end.

(** The [do ... while] of [match]: at every suffix of [text], the empty one included. *)
Fixpoint match_any (re text : list Z) : bool :=
  matchhere re text ||
  match text with
  | [] => false
  | _ :: text' => match_any re text'
  end.

Definition match_ (re text : list Z) : bool :=
  match re with
  | c :: re' => if c =? c_caret then matchhere re' text else match_any re text
  | [] => match_any re text
  end.

(** ** What a pattern denotes *)
Inductive item : Type :=
| One (c : Z)
| Star (c : Z).

(** A character of the pattern accepts one of the text. *)
Definition accepts (c t : Z) : Prop := c = c_dot \/ c = t.

(** The items of a pattern and whether it ends with the [$] anchor. *)
Fixpoint parse (re : list Z) : list item * bool :=
  match re with
  | [] => ([], false)
  | c :: re' =>
      match re' with
      | s :: re'' =>
          if s =? c_star then let '(its, e) := parse re'' in (Star c :: its, e)
          else let '(its, e) := parse re' in (One c :: its, e)
      | [] => if c =? c_dollar then ([], true) else ([One c], false)
      end
  end.

(** The strings that a sequence of items matches. *)
Fixpoint denotes (its : list item) (u : list Z) : Prop :=
  match its with
  | [] => u = []
  | One c :: its' => exists t u', u = t :: u' /\ accepts c t /\ denotes its' u'
  | Star c :: its' => exists u1 u2, u = u1 ++ u2 /\ Forall (accepts c) u1 /\ denotes its' u2
  end.

(** The pattern matches at the start of [text]. *)
Definition matches_at (p : list item * bool) (text : list Z) : Prop :=
  exists u v, text = u ++ v /\ denotes p.1 u /\ (p.2 = true -> v = []).

Lemma matches_at_one c its e text :
  matches_at (One c :: its, e) text <->
    exists t text', text = t :: text' /\ accepts c t /\ matches_at (its, e) text'.
Proof.
  unfold matches_at. simpl. split.
  - intros (u & v & -> & (t & u' & -> & Ha & Hd) & He). exists t, (u' ++ v). naive_solver.
  - intros (t & text' & -> & Ha & u & v & -> & Hd & He). exists (t :: u), v. naive_solver.
Qed.

Lemma matches_at_star c its e text :
  matches_at (Star c :: its, e) text <->
    exists u v, text = u ++ v /\ Forall (accepts c) u /\ matches_at (its, e) v.
Proof.
  unfold matches_at. simpl. split.
  - intros (u & v & -> & (u1 & u2 & -> & Hf & Hd) & He). exists u1, (u2 ++ v).
    rewrite app_assoc. naive_solver.
  - intros (u1 & w & -> & Hf & u2 & v & -> & Hd & He). exists (u1 ++ u2), v.
    rewrite app_assoc. naive_solver.
Qed.

Lemma accepts_bool c t : ((c =? c_dot) || (c =? t)) = true <-> accepts c t.
Proof. unfold accepts. rewrite orb_true_iff, !Z.eqb_eq. done. Qed.

Lemma matchstar_spec c m (P : list Z -> Prop) text :
  (forall v, m v = true <-> P v) ->
  matchstar c m text = true <-> exists u v, text = u ++ v /\ Forall (accepts c) u /\ P v.
Proof.
  intros Hm. induction text as [|t text IH]; cbn [matchstar]; rewrite orb_true_iff, Hm.
  - split.
    + intros [H|H]; [|done]. by exists [], [].
    + intros (u & v & E & _ & H). symmetry in E. apply app_nil in E as [-> ->]. by left.
  - rewrite andb_true_iff, IH. split.
    + intros [H|[Ha (u & v & -> & Hf & H)]]; [by exists [], (t :: text)|].
      exists (t :: u), v. split; [done|]. split; [|done]. constructor; [|done].
      apply accepts_bool. rewrite orb_true_iff, !Z.eqb_eq in *. naive_solver.
    + intros (u & v & E & Hf & H). destruct u as [|t' u]; simplify_eq/=; [by left|right].
      apply Forall_cons in Hf as [Ha Hf]. split; [|by exists u, v].
      apply accepts_bool in Ha. rewrite orb_true_iff, !Z.eqb_eq in *. naive_solver.
Qed.

Lemma matchhere_one c re text :
  (forall text', matchhere re text' = true <-> matches_at (parse re) text') ->
  match text with
  | [] => false
  | t :: text' => ((c =? c_dot) || (c =? t)) && matchhere re text'
  end = true <->
  matches_at (One c :: (parse re).1, (parse re).2) text.
Proof.
  intros IH. rewrite matches_at_one, <-surjective_pairing. destruct text as [|t text].
  - naive_solver.
  - rewrite andb_true_iff, accepts_bool, IH. naive_solver.
Qed.

Lemma parse_cons2 c s re :
  parse (c :: s :: re) =
    if s =? c_star then (Star c :: (parse re).1, (parse re).2)
    else (One c :: (parse (s :: re)).1, (parse (s :: re)).2).
Proof.
  change (parse (c :: s :: re)) with
    (if s =? c_star then let '(its, e) := parse re in (Star c :: its, e)
     else let '(its, e) := parse (s :: re) in (One c :: its, e)).
  by destruct (s =? c_star), (parse re), (parse (s :: re)).
Qed.

Lemma matchhere_spec re text : matchhere re text = true <-> matches_at (parse re) text.
Proof.
  revert text. induction re as [re IH] using (induction_ltof1 _ (@length Z)).
  unfold ltof in IH. intros text. destruct re as [|c [|s re]].
  - split; [|done]. intros _. by exists [], text.
  - cbn [matchhere parse]. destruct (c =? c_dollar).
    + rewrite bool_decide_eq_true. split; [intros ->; by exists [], []|].
      intros (u & v & -> & -> & H). simpl. by apply H.
    + apply (matchhere_one c [] text). intros text'. apply IH. simpl. lia.
  - rewrite parse_cons2. cbn [matchhere]. destruct (s =? c_star).
    + rewrite (matchstar_spec c _ (matches_at (parse re))) by (intros v; apply IH; simpl; lia).
      by rewrite matches_at_star, <-surjective_pairing.
    + apply (matchhere_one c (s :: re) text). intros v. apply IH. simpl. lia.
Qed.

Lemma match_any_spec re text :
  match_any re text = true <-> exists u v, text = u ++ v /\ matches_at (parse re) v.
Proof.
  induction text as [|t text IH]; cbn [match_any]; rewrite orb_true_iff, matchhere_spec.
  - split.
    + intros [H|H]; [by exists [], []|done].
    + intros (u & v & E & H). symmetry in E. apply app_nil in E as [-> ->]. by left.
  - rewrite IH. split.
    + intros [H|(u & v & -> & H)]; [by exists [], (t :: text)|by exists (t :: u), v].
    + intros (u & v & E & H). destruct u as [|t' u]; simplify_eq/=; [by left|right].
      by exists u, v.
Qed.

(** C27: [match] decides its pattern language.  Read a pattern as a sequence of items, a
    character or [.] standing for any character, each possibly followed by [*], with an
    optional leading [^] and an optional trailing [$].  [match(re, text)] is true exactly
    when some substring of [text] is denoted by the items, at the start of the text if
    the pattern has [^] and reaching its end if it has [$]. *)
Theorem match_spec (re text : list Z) :
  match_ re text = true <->
    match re with
    | c :: re' =>
        if c =? c_caret then matches_at (parse re') text
        else exists u v, text = u ++ v /\ matches_at (parse re) v
    | [] => exists u v, text = u ++ v /\ matches_at (parse re) v
    end.
Proof.
  unfold match_. destruct re as [|c re]; [apply match_any_spec|].
  destruct (c =? c_caret); [apply matchhere_spec|apply match_any_spec].
Qed.

(** ** The line buffer of [grep]

    [buf] holds 1024 bytes, of which [sizeof(buf)-1] carry data.  The model keeps the [m]
    bytes in use as a list; [read] returns as much of the rest of the input as fits, cut
    short to [lim i] bytes at the [i]th call (a pipe or the console may return less than
    was asked for). *)
Definition buf_data : nat := 1023.

(** [strchr(p, '\n')], as the text before and after the newline. *)
Fixpoint strchr_nl (p : list Z) : option (list Z * list Z) :=
  match p with
  | [] => None
  | b :: p' =>
      if b =? 0 then None
      else if b =? c_nl then Some ([], p')
      else match strchr_nl p' with
           | Some (l, r) => Some (b :: l, r)
           | None => None
           end
  end.

(** What is written for the line [l]. *)
Definition emit (pattern l : list Z) : list Z :=
  if match_ pattern l then l ++ [c_nl] else [].

(** The inner [while]: the rest after the last newline, and the output. *)
Fixpoint grep_lines (fuel : nat) (pattern p out : list Z) : list Z * list Z :=
  match fuel with
  | O => (p, out)
  | S fuel' =>
      match strchr_nl p with
      | None => (p, out)
      | Some (l, r) => grep_lines fuel' pattern r (out ++ emit pattern l)
      end
  end.

(** The outer [while]; every line consumes a byte, so [length data] is fuel enough for the
    inner loop, and every read returns at least one, so the length of the input plus one is
    enough for this one. *)
Fixpoint grep_loop (fuel : nat) (lim : nat -> nat) (i : nat)
    (pattern buf input out : list Z) : option (list Z) :=
  match fuel with
  | O => None
  | S fuel' =>
      let n := Nat.min (lim i) (Nat.min (buf_data - length buf) (length input)) in
      if (n =? 0)%nat then Some out
      else
        let data := buf ++ take n input in
        let '(p, out') := grep_lines (length data) pattern data out in
        let buf' := if (length p =? length data)%nat then [] else p in
        grep_loop fuel' lim (S i) pattern buf' (drop n input) out'
  end.

Definition grep (lim : nat -> nat) (pattern input : list Z) : option (list Z) :=
  grep_loop (S (length input)) lim 0 pattern [] input [].

(** *** The lines of a text *)

(** The terminated lines of [cur ++ s], where [cur] has no newline. *)
Fixpoint lines (cur s : list Z) : list (list Z) :=
  match s with
  | [] => []
  | b :: s' => if b =? c_nl then cur :: lines [] s' else lines (cur ++ [b]) s'
  end.

Lemma lines_skip cur l s : c_nl ∉ l -> lines cur (l ++ s) = lines (cur ++ l) s.
Proof.
  revert cur. induction l as [|b l IH]; intros cur Hl; simpl; [by rewrite app_nil_r|].
  apply not_elem_of_cons in Hl as [Hb Hl]. destruct (Z.eqb_spec b c_nl); [done|].
  by rewrite IH, <-app_assoc.
Qed.

Lemma lines_none cur s : c_nl ∉ s -> lines cur s = [].
Proof. intros H. rewrite <-(app_nil_r s). by rewrite lines_skip. Qed.

Lemma lines_first cur l r : c_nl ∉ l -> lines cur (l ++ c_nl :: r) = (cur ++ l) :: lines [] r.
Proof. intros H. by rewrite lines_skip. Qed.

Lemma strchr_nl_some p l r :
  strchr_nl p = Some (l, r) -> p = l ++ c_nl :: r /\ c_nl ∉ l.
Proof.
  revert l. induction p as [|b p IH]; intros l; simpl; [done|].
  destruct (b =? 0); [done|]. destruct (Z.eqb_spec b c_nl) as [->|Hb].
  - intros [= <- <-]. split; [done|]. apply not_elem_of_nil.
  - destruct (strchr_nl p) as [[l' r']|]; [|done]. intros [= <- <-].
    destruct (IH l' eq_refl) as [-> Hl]. split; [done|]. by apply not_elem_of_cons.
Qed.

Lemma strchr_nl_none p : 0 ∉ p -> strchr_nl p = None -> c_nl ∉ p.
Proof.
  induction p as [|b p IH]; simpl; [intros _ _; apply not_elem_of_nil|].
  intros H0. apply not_elem_of_cons in H0 as [Hb H0].
  destruct (Z.eqb_spec b 0); [done|]. destruct (Z.eqb_spec b c_nl); [done|].
  destruct (strchr_nl p) as [[l r]|]; [done|]. intros _. apply not_elem_of_cons. auto.
Qed.

(** The inner loop splits its data into terminated lines and a rest. *)
Lemma grep_lines_spec fuel pattern p out :
  (length p <= fuel)%nat -> 0 ∉ p ->
  exists r, grep_lines fuel pattern p out = (r, out ++ concat (emit pattern <$> lines [] p)) /\
    c_nl ∉ r /\ 0 ∉ r /\ (length r <= length p)%nat /\
    (length r = length p -> r = p) /\
    forall s, lines [] (p ++ s) = lines [] p ++ lines r s.
Proof.
  revert p out. induction fuel as [|fuel IH]; intros p out Hf H0.
  - destruct p; [|simpl in Hf; lia]. exists []. simpl. rewrite app_nil_r.
    repeat split; try done; apply not_elem_of_nil.
  - simpl. destruct (strchr_nl p) as [[l r]|] eqn:E.
    + apply strchr_nl_some in E as [-> Hl]. rewrite length_app in *. simpl in Hf.
      apply not_elem_of_app in H0 as [_ H0]. apply not_elem_of_cons in H0 as [_ H0].
      destruct (IH r (out ++ emit pattern l)) as (r' & -> & Hn & Hr0 & Hle & Heq & Hs);
        [lia|done|].
      exists r'. rewrite lines_first by done. cbn [fmap list_fmap concat app length].
      rewrite <-app_assoc. repeat split; try done; try lia.
      intros s. rewrite <-app_assoc. cbn [app]. rewrite lines_first by done. cbn [app].
      by rewrite Hs.
    + pose proof (strchr_nl_none p H0 E) as Hn. exists p.
      rewrite lines_none by done. simpl. rewrite app_nil_r.
      repeat split; try done. intros s. by rewrite lines_skip.
Qed.

(** Data without a newline that fills the buffer can be dropped when lines are short. *)
Lemma lines_overlong data s :
  (buf_data <= length data)%nat -> c_nl ∉ data ->
  Forall (fun l => (length l < buf_data)%nat) (lines data s) -> c_nl ∉ s.
Proof.
  intros Hd Hn Hs Hin. apply list_elem_of_split_l in Hin as (l & r & -> & Hl).
  rewrite lines_first in Hs by done. apply Forall_cons in Hs as [Hs _].
  rewrite length_app in Hs. lia.
Qed.

Lemma grep_loop_spec fuel lim i pattern buf input out :
  (length input < fuel)%nat -> (forall j, (i <= j)%nat -> (buf_data <= lim j)%nat) ->
  (length buf < buf_data)%nat -> c_nl ∉ buf -> 0 ∉ buf -> 0 ∉ input ->
  Forall (fun l => (length l < buf_data)%nat) (lines buf input) ->
  grep_loop fuel lim i pattern buf input out =
    Some (out ++ concat (emit pattern <$> lines buf input)).
Proof.
  revert i buf input out. induction fuel as [|fuel IH]; [lia|].
  intros i buf input out Hf Hlim Hb Hnb H0b H0i Hs. cbn [grep_loop].
  replace (Nat.min (lim i) _) with (Nat.min (buf_data - length buf) (length input))
    by (pose proof (Hlim i ltac:(lia)); lia).
  assert (Hlim' : forall j, (S i <= j)%nat -> (buf_data <= lim j)%nat) by (intros; apply Hlim; lia).
  set (n := Nat.min (buf_data - length buf) (length input)).
  destruct (Nat.eqb_spec n 0) as [Hn|Hn].
  { destruct input; [|simpl in n; lia]. simpl. by rewrite app_nil_r. }
  set (data := buf ++ take n input).
  assert (Hdata : 0 ∉ data).
  { apply not_elem_of_app. split; [done|]. intros H. apply H0i.
    rewrite <-(take_drop n input). apply elem_of_app. by left. }
  assert (Hrest : 0 ∉ drop n input).
  { intros H. apply H0i. rewrite <-(take_drop n input). apply elem_of_app. by right. }
  assert (Hld : length data = (length buf + n)%nat).
  { unfold data. rewrite length_app, length_take. lia. }
  assert (Hl : lines buf input = lines [] (data ++ drop n input)).
  { unfold data. rewrite <-app_assoc, take_drop, lines_skip by done. done. }
  rewrite Hl in Hs |- *.
  destruct (grep_lines_spec (length data) pattern data out) as
    (r & -> & Hnr & H0r & Hle & Heq & Hsp); [done|done|].
  rewrite Hsp in Hs |- *. rewrite fmap_app, concat_app, app_assoc.
  apply Forall_app in Hs as [_ Hs].
  destruct (Nat.eqb_spec (length r) (length data)) as [E|E].
  - assert (Hns : c_nl ∉ drop n input).
    { destruct (decide (n = length input)) as [->|Hfull].
      - rewrite drop_ge by lia. apply not_elem_of_nil.
      - apply (lines_overlong r); [lia|done|done]. }
    rewrite IH; rewrite ?length_drop; try done; try (simpl; lia).
    + by rewrite (lines_none [] (drop n input)), (lines_none r (drop n input)).
    + apply not_elem_of_nil.
    + apply not_elem_of_nil.
    + by rewrite lines_none.
  - rewrite IH; rewrite ?length_drop; try done; lia.
Qed.

(** C28: [grep] on a file prints its matching lines, in order.  When every [read] returns
    all that was asked for or the whole rest of the file, when the file has no NUL and when
    every terminated line is shorter than the 1023 bytes that the buffer holds, then [grep]
    terminates and has written exactly the terminated lines that [match] accepts. *)
Theorem grep_file_spec lim pattern input :
  (forall j, (buf_data <= lim j)%nat) -> 0 ∉ input ->
  Forall (fun l => (length l < buf_data)%nat) (lines [] input) ->
  grep lim pattern input = Some (concat (emit pattern <$> lines [] input)).
Proof.
  intros Hlim H0 Hs. unfold grep.
  rewrite (grep_loop_spec _ _ _ _ [] input []); try done; try apply not_elem_of_nil.
  - lia.
  - unfold buf_data. simpl. lia.
Qed.

(** The pattern [^b.*d$] on a text of three lines and an unterminated fourth one. *)
Lemma grep_file_spec_witness :
  grep (fun _ => 2000%nat) [94; 98; 46; 42; 100; 36]
    ([97; 98; 100; 10] ++ [98; 120; 121; 100; 10] ++ [98; 100; 10] ++ [98; 100]) =
  Some ([98; 120; 121; 100; 10] ++ [98; 100; 10]).
Proof.
  rewrite grep_file_spec.
  - vm_compute. reflexivity.
  - intros j. unfold buf_data. lia.
  - rewrite list_elem_of_In. simpl. lia.
  - unfold buf_data. repeat constructor; simpl; lia.
Defined.

(** A read that leaves the buffer without a newline empties it. *)
Lemma grep_loop_drops fuel lim i pattern buf c rest out :
  c_nl ∉ buf ++ c -> 0 ∉ buf ++ c -> c <> [] -> (length buf + length c <= buf_data)%nat -> lim i = length c ->
  grep_loop (S fuel) lim i pattern buf (c ++ rest) out = grep_loop fuel lim (S i) pattern [] rest out.
Proof.
  intros Hn H0 Hc Hl Hlim. cbn [grep_loop]. rewrite length_app.
  replace (Nat.min (lim i) _) with (length c) by lia.
  destruct (Nat.eqb_spec (length c) 0) as [E|_]; [by destruct c|]. rewrite take_app_length, drop_app_length.
  destruct (grep_lines_spec (length (buf ++ c)) pattern (buf ++ c) out) as (r & -> & Hnr & _ & Hle & Heq & Hs); [done..|].
  specialize (Hs [c_nl]). rewrite (lines_none [] (buf ++ c) Hn) in Hs |- *. cbn [fmap list_fmap concat]. rewrite app_nil_r.
  rewrite (lines_first [] (buf ++ c) []) in Hs by done. cbn [app lines] in Hs. rewrite Z.eqb_refl in Hs.
  injection Hs as Hs. by rewrite <- Hs, Nat.eqb_refl.
Qed.

(** C40: with a short read [grep] loses the start of a line.  Let the first [read] of a file
    return a part [a] of its first line [a ++ b] and let the reads after it be complete.  Then,
    whatever the pattern and the file, the output is that for the file without [a]: the first
    line is matched, and printed, as [b], and the other lines are as they should be. *)
Theorem grep_short_read lim pattern a b rest :
  a <> [] -> c_nl ∉ a -> c_nl ∉ b -> 0 ∉ a ++ b ++ c_nl :: rest -> (length a <= buf_data)%nat ->
  lim O = length a -> (forall j, (buf_data <= lim (S j))%nat) ->
  Forall (fun l => (length l < buf_data)%nat) (b :: lines [] rest) ->
  grep lim pattern (a ++ b ++ c_nl :: rest) = Some (emit pattern b ++ concat (emit pattern <$> lines [] rest)) /\
  lines [] (a ++ b ++ c_nl :: rest) = (a ++ b) :: lines [] rest.
Proof.
  intros Ha Hna Hnb H0 Hl Hlim0 Hlim Hs. apply not_elem_of_app in H0 as [H0a H0]. split.
  2: { rewrite app_assoc, lines_first; [done|]. by apply not_elem_of_app. }
  unfold grep. rewrite grep_loop_drops by done.
  assert (El : lines [] (b ++ c_nl :: rest) = b :: lines [] rest) by (by rewrite lines_first).
  rewrite (grep_loop_spec _ _ _ _ [] (b ++ c_nl :: rest) []); rewrite ?El; try done; try apply not_elem_of_nil.
  - rewrite (length_app a). destruct a; [done|]. cbn [length]. lia.
  - intros [|j] Hj; [lia|apply Hlim].
  - unfold buf_data. cbn. lia.
Qed.

(** The line [abc], which [^c] does not match, arrives as [ab] and [c]. *)
Lemma grep_short_read_witness :
  grep (fun i => if i is O then 2%nat else 2000%nat) [94; 99] [97; 98; 99; 10; 99; 10] = Some [99; 10; 99; 10] /\
  grep (fun _ => 2000%nat) [94; 99] [97; 98; 99; 10; 99; 10] = Some [99; 10].
Proof.
  split; [|vm_compute; reflexivity].
  destruct (grep_short_read (fun i => if i is O then 2%nat else 2000%nat) [94; 99] [97; 98] [99] [99; 10]) as [E _].
  - discriminate.
  - rewrite list_elem_of_In. vm_compute. lia.
  - rewrite list_elem_of_In. vm_compute. lia.
  - rewrite list_elem_of_In. vm_compute. lia.
  - unfold buf_data. cbn. lia.
  - reflexivity.
  - intros j. unfold buf_data. lia.
  - unfold buf_data. repeat constructor; cbn; lia.
  - exact E.
Defined.
