(* ===== verification/Umalloc.v ===== *)
(** The user library's allocator, [src/umalloc.c]: Kernighan and Ritchie's circular,
    address-ordered free list with coalescing.

    A header is the pair of its fields [s.ptr] and [s.size] at its address; addresses are
    multiples of [sizeof(Header)] bytes apart, so the headers do not overlap.  [sbrk] is
    the system call: it returns the old end of the process, moved up by the amount, or -1.
    Whether the kernel has the memory is an input of the model ([h_grants]); a process
    cannot grow beyond [PHYSTOP], since each of its pages has a physical page of its own
    below it. *)
From Stdlib Require Import ZArith Lia.
From stdpp Require Import base gmap sets strings numbers sorting list.
From S2P Require Import Prelude State.

Local Open Scope Z_scope.

Definition HDR : Z := 16.

Record heap : Type := mk_heap {
  h_ptr : Z -> Z;
  h_size : Z -> Z;
  h_freep : Z;
  h_brk : Z;
  h_grants : list bool
}.

Definition set_ptr (a v : Z) (h : heap) : heap :=
  mk_heap (upd (h_ptr h) a v) (h_size h) (h_freep h) (h_brk h) (h_grants h).
Definition set_size (a v : Z) (h : heap) : heap :=
  mk_heap (h_ptr h) (upd (h_size h) a v) (h_freep h) (h_brk h) (h_grants h).
Definition set_freep (p : Z) (h : heap) : heap :=
  mk_heap (h_ptr h) (h_size h) p (h_brk h) (h_grants h).
Definition set_brk (b : Z) (h : heap) : heap :=
  mk_heap (h_ptr h) (h_size h) (h_freep h) b (h_grants h).
Definition set_grants (g : list bool) (h : heap) : heap :=
  mk_heap (h_ptr h) (h_size h) (h_freep h) (h_brk h) g.

Definition sbrk (n : Z) : M heap Z :=
  h ← get;
  put (set_grants (tail (h_grants h)) h);;
  if default false (head (h_grants h)) && (h_brk h + n <=? PHYSTOP)
  then modify (set_brk (h_brk h + n));; mret (h_brk h)
  else mret (-1).

(** The search of [free] for the block [p] that precedes [bp]. *)
Fixpoint free_find (fuel : nat) (h : heap) (bp p : Z) : option Z :=
  match fuel with
  | O => None
  | S fuel' =>
      if (p <? bp) && (bp <? h_ptr h p) then Some p
      else if (h_ptr h p <=? p) && ((p <? bp) || (bp <? h_ptr h p)) then Some p
      else free_find fuel' h bp (h_ptr h p)
  end.

(** Join [bp] to the upper neighbour, then [p] to [bp]. *)
Definition join_upper (p bp : Z) : M heap unit :=
  h ← get;
  if bp + HDR * h_size h bp =? h_ptr h p
  then
    modify (set_size bp (u32 (h_size h bp + h_size h (h_ptr h p))));;
    modify (set_ptr bp (h_ptr h (h_ptr h p)))
  else modify (set_ptr bp (h_ptr h p)).
Definition join_lower (p bp : Z) : M heap unit :=
  h ← get;
  if p + HDR * h_size h p =? bp
  then
    modify (set_size p (u32 (h_size h p + h_size h bp)));;
    modify (set_ptr p (h_ptr h bp))
  else modify (set_ptr p bp).

(** The free list has at most one block per unit of the heap, and the base. *)
Definition list_fuel (h : heap) : nat := S (S (Z.to_nat (h_brk h / HDR))).

Definition free (ap : Z) : M heap unit :=
  let bp := ap - HDR in
  h ← get;
  match free_find (list_fuel h) h bp (h_freep h) with
  | None => fail EFuel
  | Some p =>
      join_upper p bp;;
      join_lower p bp;;
      modify (set_freep p)
  end.

Definition morecore (nu : Z) : M heap Z :=
  let nu := if nu <? 4096 then 4096 else nu in
  p ← sbrk (nu * HDR);
  if p =? -1 then mret 0
  else
    modify (set_size p nu);;
    free (p + HDR);;
    gets h_freep.

(** Take [nunits] units off the block [p] that follows [prevp]. *)
Definition carve (nunits prevp p : Z) : M heap Z :=
  h ← get;
  (if h_size h p =? nunits
   then modify (set_ptr prevp (h_ptr h p));; mret p
   else
     modify (set_size p (u32 (h_size h p - nunits)));;
     let q := p + HDR * u32 (h_size h p - nunits) in
     modify (set_size q nunits);;
     mret q) ≫= fun p =>
  modify (set_freep prevp);;
  mret (p + HDR).

Fixpoint malloc_loop (fuel : nat) (nunits prevp p : Z) : M heap Z :=
  match fuel with
  | O => fail EFuel
  | S fuel' =>
      h ← get;
      if nunits <=? h_size h p then carve nunits prevp p
      else if p =? h_freep h then
        p ← morecore nunits;
        if p =? 0 then mret 0
        else h ← get; malloc_loop fuel' nunits p (h_ptr h p)
      else malloc_loop fuel' nunits p (h_ptr h p)
  end.

Definition units (nbytes : Z) : Z := u32 ((nbytes + HDR - 1) / HDR + 1).

(** [base] is the address of the static header.  The loop passes the list at most once
    before [morecore] and once after it. *)
Definition malloc (base : Z) (nbytes : Z) : M heap Z :=
  let nunits := units nbytes in
  h ← get;
  (if h_freep h =? 0
   then modify (set_ptr base base);; modify (set_freep base);; modify (set_size base 0);; mret base
   else mret (h_freep h)) ≫= fun prevp =>
  h ← get;
  malloc_loop (list_fuel h + list_fuel h + list_fuel h) nunits prevp (h_ptr h prevp).

(** ** Blocks

    A block is the address of its header and its size in units, the header included. *)
Local Notation block := (Z * Z)%type (only parsing).
Definition bend (b : block) : Z := b.1 + HDR * b.2.
Definition disj (b c : block) : Prop := bend b <= c.1 \/ bend c <= b.1.

Fixpoint apart (l : list block) : Prop :=
  match l with
  | [] => True
  | b :: l' => Forall (disj b) l' /\ apart l'
  end.

Definition total (l : list block) : Z := foldr (fun b t => b.2 + t) 0 l.

(** The blocks fill the range from [lo] to [hi], each unit once. *)
Record tiled (lo hi : Z) (l : list block) : Prop := {
  t_in : Forall (fun b => lo <= b.1 /\ bend b <= hi /\ 1 <= b.2) l;
  t_apart : apart l;
  t_total : HDR * total l = hi - lo
}.

Lemma disj_sym b c : disj b c -> disj c b.
Proof. unfold disj. tauto. Qed.

#[global] Instance apart_perm : Proper ((≡ₚ) ==> impl) apart.
Proof.
  intros l l' Hp. induction Hp as [|x l l' Hp IH|x y l|l1 l2 l3 _ IH1 _ IH2]; intros Ha.
  - done.
  - destruct Ha as [H1 H2]. split; [by rewrite <-Hp|by apply IH].
  - destruct Ha as [H1 [H2 H3]]. apply Forall_cons in H1 as [H1 H1'].
    repeat split; try done. constructor; [by apply disj_sym|done].
  - by apply IH2, IH1.
Qed.

#[global] Instance total_perm : Proper ((≡ₚ) ==> (=)) total.
Proof. intros l l' Hp. induction Hp; simpl in *; lia. Qed.

#[global] Instance tiled_perm lo hi : Proper ((≡ₚ) ==> impl) (tiled lo hi).
Proof. intros l l' Hp [H1 H2 H3]. split; by rewrite <-Hp. Qed.

Lemma total_nonneg lo hi l :
  Forall (fun b : block => lo <= b.1 /\ bend b <= hi /\ 1 <= b.2) l -> Z.of_nat (length l) <= total l.
Proof. induction 1 as [|b l Hb _ IH]; simpl; lia. Qed.

Lemma total_cons b l : total (b :: l) = b.2 + total l.
Proof. done. Qed.

Ltac blocks := unfold disj, bend, HDR in *; rewrite ?total_cons in *; cbn [fst snd] in *; lia.

Lemma tiled_nil lo : tiled lo lo [].
Proof. split; simpl; [constructor|done|lia]. Qed.

Lemma tiled_le lo hi l : tiled lo hi l -> lo <= hi.
Proof. intros [H1 _ H3]. pose proof (total_nonneg _ _ _ H1). unfold HDR in *. lia. Qed.

(** At most one block per unit. *)
Lemma tiled_length lo hi l : tiled lo hi l -> HDR * Z.of_nat (length l) <= hi - lo.
Proof. intros [H1 _ H3]. pose proof (total_nonneg _ _ _ H1). unfold HDR in *. lia. Qed.

Lemma tiled_size lo hi b l : tiled lo hi (b :: l) -> 1 <= b.2 /\ HDR * b.2 <= hi - lo.
Proof.
  intros [H1 _ H3]. apply Forall_cons in H1 as [Hb H1]. pose proof (total_nonneg _ _ _ H1).
  blocks.
Qed.

Lemma tiled_merge lo hi x y l :
  tiled lo hi (x :: y :: l) -> bend x = y.1 -> tiled lo hi ((x.1, x.2 + y.2) :: l).
Proof.
  intros [H1 H2 H3] Hxy. apply Forall_cons in H1 as [Hx H1]. apply Forall_cons in H1 as [Hy H1].
  destruct H2 as [H2 [H2' H2'']]. apply Forall_cons in H2 as [_ H2].
  split.
  - constructor; [blocks|done].
  - split; [|done]. rewrite Forall_forall in *. intros z Hz.
    specialize (H2 z Hz). specialize (H2' z Hz). specialize (H1 z Hz). blocks.
  - blocks.
Qed.

Lemma tiled_split lo hi a s t l :
  tiled lo hi ((a, s + t) :: l) -> 1 <= s -> 1 <= t ->
  tiled lo hi ((a, s) :: (a + HDR * s, t) :: l).
Proof.
  intros [H1 [H2 H2'] H3] Hs Ht. apply Forall_cons in H1 as [Hx H1].
  split.
  - constructor; [blocks|]. constructor; [blocks|done].
  - repeat split; [| |done].
    + constructor; [blocks|]. eapply Forall_impl; [exact H2|]. intros z Hz. blocks.
    + eapply Forall_impl; [exact H2|]. intros z Hz. blocks.
  - blocks.
Qed.

Lemma tiled_grow lo hi n l :
  tiled lo hi l -> 1 <= n -> tiled lo (hi + HDR * n) ((hi, n) :: l).
Proof.
  intros [H1 H2 H3] Hn. pose proof (tiled_le lo hi l (Build_tiled _ _ _ H1 H2 H3)) as Hle.
  split.
  - constructor; [blocks|]. eapply Forall_impl; [exact H1|]. intros z Hz. blocks.
  - split; [|done]. eapply Forall_impl; [exact H1|]. intros z Hz. blocks.
  - blocks.
Qed.

(** ** The free list *)

(** From the addresses [xs] the links lead through all of them and then to [e]. *)
Fixpoint linked (f : Z -> Z) (xs : list Z) (e : Z) : Prop :=
  match xs with
  | [] => True
  | x :: xs' => f x = default e (head xs') /\ linked f xs' e
  end.

Lemma linked_app f xs ys e :
  linked f (xs ++ ys) e <-> linked f xs (default e (head ys)) /\ linked f ys e.
Proof.
  induction xs as [|x xs IH]; simpl; [tauto|]. rewrite IH.
  destruct xs as [|x' xs]; simpl; tauto.
Qed.

Lemma linked_upd f xs e a v : a ∉ xs -> linked f xs e -> linked (upd f a v) xs e.
Proof.
  induction xs as [|x xs IH]; simpl; [done|]. intros Ha [H1 H2].
  apply not_elem_of_cons in Ha as [Ha Ha']. split; [by rewrite upd_ne by congruence|auto].
Qed.

(** In address order with a gap between blocks: the list is fully coalesced. *)
Definition gaps : list block -> Prop := StronglySorted (fun b c => bend b < c.1).

Section heap_ok.
Context (base lo : Z).

(** [l] are the free blocks and [A] those in use. *)
Record heap_ok (h : heap) (l A : list block) : Prop := {
  ho_ring : linked (h_ptr h) (base :: l.*1) base;
  ho_size : Forall (fun b => h_size h b.1 = b.2) (l ++ A);
  ho_base : h_size h base = 0;
  ho_freep : h_freep h ∈ base :: l.*1;
  ho_gaps : gaps l;
  ho_tiled : tiled lo (h_brk h) (l ++ A);
  ho_bounds : 0 < base /\ base + HDR <= lo /\ h_brk h <= PHYSTOP
}.

Lemma gaps_app l1 l2 :
  gaps (l1 ++ l2) <->
    (forall b c, b ∈ l1 -> c ∈ l2 -> bend b < c.1) /\ gaps l1 /\ gaps l2.
Proof. unfold gaps. rewrite StronglySorted_app. naive_solver. Qed.

(** The blocks below and above a block in use. *)
Lemma gaps_around l b :
  gaps l -> Forall (fun x => 1 <= x.2) l -> Forall (disj b) l ->
  exists P N, l = P ++ N /\ (forall x, x ∈ P -> bend x <= b.1) /\ (forall x, x ∈ N -> bend b <= x.1).
Proof.
  intros Hg H1 H2. induction Hg as [|x l Hg IH Hx]; [exists [], []; set_solver|].
  apply Forall_cons in H1 as [Hin H1]. apply Forall_cons in H2 as [H2 H2'].
  destruct H2 as [H2|H2].
  - exists [], (x :: l). split; [done|]. split; [set_solver|]. intros y Hy.
    apply elem_of_cons in Hy as [->|Hy]; [done|]. rewrite Forall_forall in Hx.
    specialize (Hx y Hy). blocks.
  - destruct (IH H1 H2') as (P & N & -> & HP & HN). exists (x :: P), N.
    split; [done|]. split; [|done]. intros y Hy. apply elem_of_cons in Hy as [->|Hy]; auto.
Qed.

(** The addresses of the ring, in order, the base first. *)
Lemma ring_sorted h l A : heap_ok h l A -> StronglySorted Z.lt (base :: l.*1).
Proof.
  intros [_ _ _ _ Hg [Ht _ _] (Hb & Hlo & _)]. apply Forall_app in Ht as [Ht _].
  constructor.
  - induction Hg as [|x l Hg IH Hx]; [constructor|].
    apply Forall_cons in Ht as [Hin Ht]. cbn. constructor; [by apply IH|].
    rewrite Forall_fmap. eapply Forall_impl; [exact Hx|]. intros y Hy. simpl. blocks.
  - rewrite Forall_fmap. eapply Forall_impl; [exact Ht|]. intros y Hy. simpl. blocks.
Qed.

Lemma freep_nonzero h l A : heap_ok h l A -> h_freep h <> 0.
Proof.
  intros Hok. pose proof (ring_sorted _ _ _ Hok) as Hso. destruct Hok as [_ _ _ Hfp _ _ (? & _)].
  apply StronglySorted_inv in Hso as [_ Hso]. rewrite Forall_forall in Hso.
  apply elem_of_cons in Hfp as [->|Hfp]; [lia|]. specialize (Hso _ Hfp). lia.
Qed.

(** *** The search of [free] *)
Lemma find_low h bp p P N fuel :
  linked (h_ptr h) (P ++ p :: N) base -> StronglySorted Z.lt (P ++ p :: N) ->
  base <= p < bp -> (forall x, x ∈ P -> x < bp) -> (forall x, x ∈ N -> bp < x) -> base < bp ->
  (length P < fuel)%nat ->
  free_find fuel h bp (default p (head P)) = Some p.
Proof.
  revert fuel. induction P as [|x P IH]; intros fuel Hl Hs Hp HP HN Hb Hf;
    (destruct fuel as [|fuel]; [simpl in Hf; lia|]); cbn [free_find app head default].
  - destruct Hl as [Hl _]. unfold id. rewrite Hl. destruct N as [|n N]; simpl.
    + destruct (Z.ltb_spec bp base); [lia|]. rewrite andb_false_r.
      replace (base <=? p) with true by lia. replace (p <? bp) with true by lia. done.
    + specialize (HN n ltac:(set_solver)). replace (p <? bp) with true by lia.
      by replace (bp <? n) with true by lia.
  - destruct Hl as [Hl Hl']. apply StronglySorted_inv in Hs as [Hs Hx].
    assert (E : h_ptr h x = default p (head P)) by (rewrite Hl; by destruct P).
    assert (Hy : x < default p (head P) <= bp).
    { destruct P as [|y P]; simpl in *; unfold id.
      - apply Forall_cons in Hx as [Hx _]. lia.
      - apply Forall_cons in Hx as [Hx _]. specialize (HP y ltac:(set_solver)). lia. }
    unfold id. rewrite E. destruct (Z.ltb_spec bp (default p (head P))); [lia|].
    rewrite andb_false_r. destruct (Z.leb_spec (default p (head P)) x); [lia|]. simpl.
    apply IH; try done; [|simpl in Hf; lia]. intros y Hy'. apply HP. set_solver.
Qed.

Lemma free_find_mono h bp q p n m :
  free_find n h bp q = Some p -> (n <= m)%nat -> free_find m h bp q = Some p.
Proof.
  revert q m. induction n as [|n IH]; intros q m; [done|]. intros H Hm.
  destruct m as [|m]; [lia|]. cbn [free_find] in *. repeat case_match; try done.
  apply IH; [done|lia].
Qed.

Lemma find_high h bp x xs p fuel n :
  linked (h_ptr h) (x :: xs) base -> StronglySorted Z.lt (x :: xs) ->
  base < bp -> (forall y, y ∈ x :: xs -> bp < y) ->
  free_find n h bp base = Some p -> (length xs + n < fuel)%nat ->
  free_find fuel h bp x = Some p.
Proof.
  revert x fuel. induction xs as [|y xs IH]; intros x fuel Hl Hs Hb Hx Hn Hf;
    (destruct fuel as [|fuel]; [simpl in Hf; lia|]); cbn [free_find];
    pose proof (Hx x ltac:(set_solver)); destruct Hl as [Hl Hl']; rewrite Hl; cbn [head default];
    replace (x <? bp) with false by lia; cbn [andb orb].
  - replace (bp <? base) with false by lia. rewrite andb_false_r.
    apply (free_find_mono _ _ _ _ n); [done|simpl in Hf; lia].
  - apply StronglySorted_inv in Hs as [Hs Hlt]. apply Forall_cons in Hlt as [Hlt _].
    unfold id. replace (y <=? x) with false by lia. cbn [andb].
    apply IH; try done; [set_solver|simpl in Hf; lia].
Qed.

(** [free] finds the last block below the one it frees. *)
Lemma free_find_spec h l A bp P p N fuel :
  heap_ok h l A -> base :: l.*1 = P ++ p :: N -> p < bp -> (forall x, x ∈ P -> x < bp) ->
  (forall x, x ∈ N -> bp < x) -> (S (length P + length N) < fuel)%nat ->
  free_find fuel h bp (h_freep h) = Some p.
Proof.
  intros Hok E Hp HP HN Hf. pose proof (ring_sorted h l A Hok) as Hs.
  destruct Hok as [Hr _ _ Hfp _ _ _]. rewrite E in Hr, Hs, Hfp.
  assert (Hb : base <= p /\ default p (head P) = base).
  { destruct P as [|x P]; simpl in *; [injection E; intros; subst; unfold id; lia|].
    injection E as <- E. apply StronglySorted_inv in Hs as [_ Hs]. rewrite Forall_forall in Hs.
    specialize (Hs p ltac:(set_solver)). unfold id. lia. }
  destruct Hb as [Hb Hhd].
  assert (Hlow : free_find (S (length P)) h bp base = Some p).
  { rewrite <-Hhd. apply (find_low h bp p P N); try done; lia. }
  assert (Hcut : forall xs ys, P ++ p :: N = xs ++ ys ->
    linked (h_ptr h) ys base /\ StronglySorted Z.lt ys).
  { intros xs ys Eq. rewrite Eq in Hr, Hs. apply linked_app in Hr as [_ Hr].
    by apply StronglySorted_app in Hs as (_ & _ & Hs). }
  apply elem_of_app in Hfp as [Hin|Hin]; [|apply elem_of_cons in Hin as [->|Hin]].
  - apply list_elem_of_split in Hin as (P1 & P2 & ->).
    destruct (Hcut P1 (h_freep h :: P2 ++ p :: N)) as [Hl' Hs']; [by rewrite <-app_assoc|].
    apply (find_low h bp p (h_freep h :: P2) N); try done; try lia; [set_solver|].
    rewrite length_app in Hf. simpl in *. lia.
  - destruct (Hcut P (p :: N)) as [Hl' Hs']; [done|].
    apply (find_low h bp p [] N); try done; try lia; [set_solver|simpl; lia].
  - apply list_elem_of_split in Hin as (N1 & N2 & ->).
    destruct (Hcut (P ++ p :: N1) (h_freep h :: N2)) as [Hl' Hs']; [by rewrite <-app_assoc|].
    apply (find_high h bp _ N2 p fuel (S (length P))); try done; try lia; [set_solver|].
    rewrite length_app in Hf. simpl in *. lia.
Qed.

(** *** The two joins *)
Definition first (N : list block) : Z := default base (head N.*1).

Lemma join_upper_spec h p a s N :
  h_ptr h p = first N -> h_size h a = s -> Forall (fun c => h_size h c.1 = c.2) N ->
  linked (h_ptr h) N.*1 base -> gaps N -> base < a -> 1 <= s ->
  (forall c, c ∈ N -> bend (a, s) <= c.1 /\ 1 <= c.2 /\ s + c.2 < 2 ^ 32) ->
  exists h1 s2 N2, join_upper p a h = Ok tt h1 /\
    h_ptr h1 = upd (h_ptr h) a (first N2) /\
    (forall x, h_size h1 x = if x =? a then s2 else h_size h x) /\
    h_freep h1 = h_freep h /\ h_brk h1 = h_brk h /\ h_grants h1 = h_grants h /\
    (N2 = N /\ s2 = s \/ exists sn, N = (a + HDR * s, sn) :: N2 /\ s2 = s + sn) /\
    (forall c, c ∈ N2 -> bend (a, s2) < c.1).
Proof.
  intros Hp Ha Hsz Hl Hg Hb Hs HN. unfold join_upper, mbind, M_bind, get. rewrite Ha, Hp.
  destruct N as [|[n sn] N]; unfold first; cbn [fmap list_fmap head default].
  - destruct (Z.eqb_spec (a + HDR * s) base) as [E|E]; [unfold HDR in E; lia|].
    eexists _, s, []. split; [reflexivity|]. split; [done|]. split.
    { intros x. cbn. destruct (Z.eqb_spec x a); subst; done. }
    repeat split; try done; [by left|set_solver].
  - apply Forall_cons in Hsz as [Hn Hsz]. apply StronglySorted_inv in Hg as [Hg Hgn].
    destruct Hl as [Hl _]. cbn [fst snd] in *.
    destruct (HN (n, sn) ltac:(set_solver)) as (H1 & H2 & H3). cbn [fst snd] in *.
    unfold id in *. destruct (Z.eqb_spec (a + HDR * s) n) as [E|E].
    + eexists _, (s + sn), N. split; [reflexivity|]. cbn. rewrite Hn, Hl. split; [done|]. split.
      { intros x. unfold upd. rewrite u32_small by lia. done. }
      repeat split; try done; [right; exists sn; by rewrite E|].
      intros c Hc. rewrite Forall_forall in Hgn. specialize (Hgn c Hc). blocks.
    + eexists _, s, ((n, sn) :: N). split; [reflexivity|]. split; [done|]. split.
      { intros x. cbn. destruct (Z.eqb_spec x a); subst; done. }
      repeat split; try done; [by left|]. intros c Hc.
      apply elem_of_cons in Hc as [->|Hc]; [blocks|].
      rewrite Forall_forall in Hgn. specialize (Hgn c Hc). blocks.
Qed.

Lemma join_lower_spec h p a sp s :
  h_size h p = sp -> h_size h a = s -> 0 <= sp -> 0 <= s -> sp + s < 2 ^ 32 ->
  exists h1, join_lower p a h = Ok tt h1 /\
    h_freep h1 = h_freep h /\ h_brk h1 = h_brk h /\ h_grants h1 = h_grants h /\
    if bend (p, sp) =? a
    then h_ptr h1 = upd (h_ptr h) p (h_ptr h a) /\ h_size h1 = upd (h_size h) p (sp + s)
    else h_ptr h1 = upd (h_ptr h) p a /\ h_size h1 = h_size h.
Proof.
  intros Hp Ha H1 H2 H3. unfold join_lower, mbind, M_bind, get, bend. cbn [fst snd]. rewrite Hp, Ha.
  destruct (p + HDR * sp =? a); (eexists; split; [reflexivity|]); cbn;
    rewrite ?u32_small by lia; done.
Qed.

(** Linking a chain [M] between [P] and [N]. *)
Lemma linked_between f P M N :
  linked f P (default (first N) (head M)) -> linked f M (first N) -> linked f N.*1 base ->
  linked f (P ++ M ++ N.*1) base.
Proof.
  intros HP HM HN. rewrite !linked_app. split; [|done]. by destruct M.
Qed.

(** What a block in use and the free blocks around it look like. *)
Lemma around h l A a s :
  heap_ok h l ((a, s) :: A) ->
  1 <= s /\ lo <= a /\ h_size h a = s /\ tiled lo (h_brk h) ((a, s) :: l ++ A) /\
  exists Pl N, l = Pl ++ N /\ gaps Pl /\ gaps N /\
    (forall x, x ∈ Pl -> bend x <= a /\ 1 <= x.2 /\ x.2 + s < 2 ^ 31) /\
    (forall x, x ∈ N -> bend (a, s) <= x.1 /\ 1 <= x.2 /\ s + x.2 < 2 ^ 31).
Proof.
  intros [_ Hs _ _ Hg Ht (Hb & Hlo & Hbrk)].
  assert (Ht' : tiled lo (h_brk h) ((a, s) :: l ++ A)) by by rewrite Permutation_middle.
  apply Forall_app in Hs as [_ Hs]. apply Forall_cons in Hs as [Hs _].
  assert (Hsum : forall x, x ∈ l -> 1 <= x.2 /\ s + x.2 < 2 ^ 31).
  { intros x Hx. apply list_elem_of_split in Hx as (l1 & l2 & ->).
    assert (Hp : tiled lo (h_brk h) (x :: (a, s) :: (l1 ++ l2) ++ A)).
    { rewrite (Permutation_swap (a, s) x). change (x :: (l1 ++ l2) ++ A) with ((x :: l1 ++ l2) ++ A).
      by rewrite (Permutation_middle l1 l2 x). }
    destruct Hp as [H1 _ H3]. apply Forall_cons in H1 as [Hx H1]. apply Forall_cons in H1 as [Ha H1].
    pose proof (total_nonneg _ _ _ H1). unfold PHYSTOP in *. blocks. }
  assert (Hin := t_in _ _ _ Ht'). apply Forall_cons in Hin as [Hin _].
  destruct (t_apart _ _ _ Ht') as [Hd _]. apply Forall_app in Hd as [Hd _].
  destruct (gaps_around l (a, s)) as (Pl & N & -> & HP & HN); [done| |done|].
  { apply Forall_forall. intros x Hx. by apply Hsum. }
  apply gaps_app in Hg as (_ & HgP & HgN). cbn [fst snd] in *.
  split; [lia|]. split; [lia|]. split; [done|]. split; [done|]. exists Pl, N.
  split; [done|]. split; [done|]. split; [done|]. split; intros x Hx.
  - destruct (Hsum x ltac:(set_solver)). split; [by apply HP|]. lia.
  - destruct (Hsum x ltac:(set_solver)). split; [by apply HN|]. lia.
Qed.

Definition joined_upper (a s : Z) (N : list block) (s2 : Z) (N2 : list block) : Prop :=
  N2 = N /\ s2 = s \/ exists sn, N = (a + HDR * s, sn) :: N2 /\ s2 = s + sn.

Lemma joined_tiled hi a s s2 P N N2 A :
  joined_upper a s N s2 N2 -> tiled lo hi ((a, s) :: (P ++ N) ++ A) ->
  tiled lo hi ((P ++ (a, s2) :: N2) ++ A).
Proof.
  intros [[-> ->]|(sn & -> & ->)] Ht.
  - by rewrite <-(Permutation_middle P N (a, s)).
  - rewrite <-(Permutation_middle P N2 (a, s + sn)).
    apply (tiled_merge _ _ (a, s) (a + HDR * s, sn)); [|done].
    rewrite <-(Permutation_middle P N2 (a + HDR * s, sn)) in Ht. done.
Qed.

Lemma perm_middle2 (P N A : list block) x y :
  (P ++ x :: y :: N) ++ A ≡ₚ x :: y :: (P ++ N) ++ A.
Proof. by rewrite <-(Permutation_middle P (y :: N) x), <-(Permutation_middle P N y). Qed.

(** The ring of [Pl] and [N] at the last block below [a]. *)
Lemma ring_split (Pl : list block) :
  exists P p sp, (base, 0) :: Pl = P ++ [(p, sp)] /\
    (P = [] /\ Pl = [] /\ p = base /\ sp = 0 \/
     exists P', P = (base, 0) :: P' /\ Pl = P' ++ [(p, sp)]).
Proof.
  destruct Pl as [|x Pl _] using rev_ind.
  - exists [], base, 0. split; [done|]. by left.
  - destruct x as [p sp]. exists ((base, 0) :: Pl), p, sp. split; [done|]. right. by exists Pl.
Qed.

Lemma upd_sizes (f : Z -> Z) a v (l : list block) :
  a ∉ l.*1 -> Forall (fun b => f b.1 = b.2) l -> Forall (fun b => upd f a v b.1 = b.2) l.
Proof.
  intros Ha Hl. rewrite Forall_forall in *. intros b Hb. rewrite upd_ne; [by apply Hl|].
  intros <-. apply Ha, list_elem_of_fmap. by exists b.
Qed.

(** Every block of a tiling has its own address. *)
Lemma tiled_fresh hi b l : tiled lo hi (b :: l) -> b.1 ∉ l.*1.
Proof.
  intros [H1 [H2 _] _] Hin. apply list_elem_of_fmap in Hin as (c & Hc & Hin).
  apply Forall_cons in H1 as [Hb H1]. rewrite Forall_forall in H1, H2.
  specialize (H1 c Hin). specialize (H2 c Hin). blocks.
Qed.

(** *** Freeing the block [(a, s)]: [p] is the last block below it, [N2] are the blocks
    above it that are left after the upper join, and [s2] its size then. *)
Section freeing.
Context (h : heap) (Pl N A : list block) (a s : Z) (P : list block) (p sp s2 : Z) (N2 : list block).
Hypothesis Hok : heap_ok h (Pl ++ N) ((a, s) :: A).
Hypothesis Hsplit : (base, 0) :: Pl = P ++ [(p, sp)].
Hypothesis Hcase : P = [] /\ Pl = [] /\ p = base /\ sp = 0 \/
  exists P', P = (base, 0) :: P' /\ Pl = P' ++ [(p, sp)].
Hypothesis Hlow : forall x, x ∈ Pl -> bend x <= a.
Hypothesis Hhigh : forall x, x ∈ N2 -> bend (a, s2) < x.1.
Hypothesis Hjoin : joined_upper a s N s2 N2.

Lemma fr_ring : base :: (Pl ++ N).*1 = P.*1 ++ p :: N.*1.
Proof.
  apply (f_equal (fmap fst)) in Hsplit. rewrite fmap_app in Hsplit. cbn in Hsplit.
  rewrite fmap_app, app_comm_cons, Hsplit. by rewrite <-app_assoc.
Qed.

Lemma fr_order : (forall x, x ∈ P.*1 -> x < p) /\ p < a /\ base <= p /\ 0 <= sp /\
  (forall x, x ∈ N2.*1 -> a < x) /\ lo <= a /\ 1 <= s2 /\ s <= s2.
Proof.
  destruct (around h _ _ _ _ Hok) as (Hs & Ha & _ & Ht & _).
  pose proof (ring_sorted h _ _ Hok) as Hsort. rewrite fr_ring in Hsort.
  apply StronglySorted_app in Hsort as (Hsort & _ & _).
  destruct Hok as [_ _ _ _ _ [Hin _ _] (Hb & Hlo & _)].
  assert (Hp : p < a /\ base <= p /\ 0 <= sp).
  { destruct Hcase as [(-> & -> & -> & ->)|(P' & -> & ->)]; [unfold HDR in *; lia|].
    specialize (Hlow (p, sp) ltac:(set_solver)). rewrite Forall_forall in Hin.
    specialize (Hin (p, sp) ltac:(set_solver)). blocks. }
  assert (Hs2 : s <= s2).
  { destruct Hjoin as [[_ ->]|(sn & -> & ->)]; [lia|]. rewrite Forall_forall in Hin.
    specialize (Hin (a + HDR * s, sn) ltac:(set_solver)). blocks. }
  repeat split; try lia.
  - intros x Hx. apply Hsort; [done|set_solver].
  - intros x Hx. apply list_elem_of_fmap in Hx as (c & -> & Hc). specialize (Hhigh c Hc). blocks.
Qed.

Lemma fr_linked : linked (h_ptr h) P.*1 p /\ linked (h_ptr h) N2.*1 base.
Proof.
  destruct Hok as [Hr _ _ _ _ _ _]. rewrite fr_ring in Hr. apply linked_app in Hr as [H1 [_ H2]].
  split; [done|]. destruct Hjoin as [[-> _]|(sn & -> & _)]; [done|]. by destruct H2.
Qed.

Lemma fr_gaps : gaps Pl /\ gaps N2 /\ forall x y, x ∈ Pl -> y ∈ N2 -> bend x < y.1.
Proof.
  destruct Hok as [_ _ _ _ Hg _ _]. apply gaps_app in Hg as (Hc & H1 & H2).
  destruct Hjoin as [[-> _]|(sn & -> & _)]; [done|]. apply StronglySorted_inv in H2 as [H2 _].
  split; [done|]. split; [done|]. intros x y Hx Hy. apply Hc; set_solver.
Qed.

Lemma fr_tiled : tiled lo (h_brk h) ((Pl ++ (a, s2) :: N2) ++ A).
Proof.
  apply (joined_tiled _ a s s2 Pl N N2 A Hjoin). by destruct (around h _ _ _ _ Hok) as (_ & _ & _ & Ht & _).
Qed.

Lemma fr_sizes : Forall (fun b => h_size h b.1 = b.2) ((Pl ++ N2) ++ A).
Proof.
  destruct Hok as [_ Hs _ _ _ _ _]. rewrite !Forall_app, Forall_cons in *.
  destruct Hs as [[H1 H2] [_ H3]]. repeat split; try done.
  destruct Hjoin as [[-> _]|(sn & -> & _)]; [done|]. by apply Forall_cons in H2 as [_ H2].
Qed.

Lemma fr_insert h2 :
  bend (p, sp) <> a ->
  h_ptr h2 = upd (upd (h_ptr h) a (first N2)) p a ->
  (forall x, h_size h2 x = if x =? a then s2 else h_size h x) ->
  h_brk h2 = h_brk h -> h_freep h2 = p ->
  heap_ok h2 (Pl ++ (a, s2) :: N2) A.
Proof.
  intros Hne Hptr Hsz Hbrk Hfp. destruct fr_order as (HP & Hpa & Hbp & Hsp & HN & Hla & Hs2 & _).
  destruct fr_linked as [HlP HlN]. destruct fr_gaps as (HgP & HgN & Hgx).
  pose proof fr_tiled as Ht. pose proof fr_sizes as Hs. destruct Hok as [_ _ Hb0 _ _ _ Hbd].
  assert (Hring : base :: (Pl ++ (a, s2) :: N2).*1 = P.*1 ++ [p; a] ++ N2.*1).
  { apply (f_equal (fmap fst)) in Hsplit. rewrite fmap_app in Hsplit. cbn in Hsplit.
    rewrite fmap_app, app_comm_cons, Hsplit. by rewrite <-app_assoc. }
  split.
  - rewrite Hring, Hptr. apply linked_between; cbn [head default].
    + apply linked_upd; [intros H; apply HP in H; lia|].
      apply linked_upd; [intros H; apply HP in H; lia|]. done.
    + cbn. rewrite upd_eq, upd_ne, upd_eq by lia. done.
    + apply linked_upd; [intros H; apply HN in H; lia|].
      apply linked_upd; [intros H; apply HN in H; lia|]. done.
  - assert (Hfr : a ∉ ((Pl ++ N2) ++ A).*1).
    { apply (tiled_fresh (h_brk h) (a, s2)). by rewrite <-(Permutation_middle Pl N2) in Ht. }
    rewrite <-(Permutation_middle Pl N2). constructor; [cbn; by rewrite Hsz, Z.eqb_refl|].
    eapply Forall_impl; [exact (upd_sizes _ a s2 _ Hfr Hs)|]. intros b Hb. by rewrite Hsz.
  - rewrite Hsz. destruct (Z.eqb_spec base a); [lia|done].
  - rewrite Hring, Hfp. apply elem_of_app. right. by left.
  - apply gaps_app. split; [|split; [done|]].
    + intros x y Hx Hy. apply elem_of_cons in Hy as [->|Hy]; [|by apply Hgx].
      cbn. destruct Hcase as [(_ & -> & _)|(P' & _ & ->)]; [set_solver|].
      apply elem_of_app in Hx as [Hx|Hx].
      * apply gaps_app in HgP as (HgP & _ & _). specialize (HgP x (p, sp) Hx ltac:(set_solver)).
        cbn in HgP. lia.
      * apply list_elem_of_singleton in Hx as ->. specialize (Hlow (p, sp) ltac:(set_solver)). lia.
    + constructor; [done|]. apply Forall_forall. intros y Hy. by apply Hhigh.
  - by rewrite Hbrk.
  - by rewrite Hbrk.
Qed.

Lemma fr_merge h2 :
  bend (p, sp) = a ->
  h_ptr h2 = upd (upd (h_ptr h) a (first N2)) p (first N2) ->
  (forall x, h_size h2 x = if x =? p then sp + s2 else if x =? a then s2 else h_size h x) ->
  h_brk h2 = h_brk h -> h_freep h2 = p ->
  exists P', Pl = P' ++ [(p, sp)] /\ heap_ok h2 (P' ++ (p, sp + s2) :: N2) A.
Proof.
  intros Heq Hptr Hsz Hbrk Hfp. destruct fr_order as (HP & Hpa & Hbp & Hsp & HN & Hla & Hs2 & _).
  destruct fr_linked as [HlP HlN]. destruct fr_gaps as (HgP & HgN & Hgx).
  pose proof fr_tiled as Ht. pose proof fr_sizes as Hs. destruct Hok as [_ _ Hb0 _ _ _ Hbd].
  destruct Hcase as [(_ & _ & -> & ->)|(P' & EP & EPl)]; [blocks|]. exists P'. split; [done|].
  rewrite EPl in Ht, Hs, HgP. apply gaps_app in HgP as (HgP & HgP' & _).
  rewrite <-(app_assoc P') in Ht. rewrite <-(app_assoc P') in Hs. cbn [app] in Ht, Hs.
  rewrite perm_middle2 in Ht. rewrite <-(Permutation_middle P' N2) in Hs.
  apply Forall_cons in Hs as [_ Hs].
  assert (Hring : base :: (P' ++ (p, sp + s2) :: N2).*1 = P.*1 ++ [p] ++ N2.*1).
  { rewrite EP. cbn. by rewrite fmap_app. }
  assert (Hpb : p <> base) by (intros E; specialize (HP base); rewrite EP in HP;
    specialize (HP ltac:(by left)); lia).
  pose proof (tiled_fresh _ _ _ Ht) as Hfp'. cbn in Hfp'. apply not_elem_of_cons in Hfp' as [_ Hfp'].
  assert (Hfa : a ∉ ((P' ++ N2) ++ A).*1).
  { rewrite (Permutation_swap (a, s2) (p, sp)) in Ht. apply tiled_fresh in Ht. cbn in Ht.
    by apply not_elem_of_cons in Ht as [_ Ht]. }
  assert (Hm : tiled lo (h_brk h) ((p, sp + s2) :: (P' ++ N2) ++ A)).
  { by apply (tiled_merge _ _ (p, sp) (a, s2)). }
  split.
  - rewrite Hring, Hptr. apply linked_between; cbn [head default].
    + apply linked_upd; [intros H; apply HP in H; lia|].
      apply linked_upd; [intros H; apply HP in H; lia|]. done.
    + cbn. by rewrite upd_eq.
    + apply linked_upd; [intros H; apply HN in H; lia|].
      apply linked_upd; [intros H; apply HN in H; lia|]. done.
  - rewrite <-(Permutation_middle P' N2). constructor; [cbn; by rewrite Hsz, Z.eqb_refl|].
    eapply Forall_impl; [exact (upd_sizes _ p (sp + s2) _ Hfp' (upd_sizes _ a s2 _ Hfa Hs))|].
    intros b Hb. by rewrite Hsz.
  - rewrite Hsz. destruct (Z.eqb_spec base p); [lia|]. destruct (Z.eqb_spec base a); [lia|done].
  - rewrite Hring, Hfp. apply elem_of_app. right. by left.
  - apply gaps_app. split; [|split; [done|]].
    + intros x y Hx Hy. apply elem_of_cons in Hy as [->|Hy]; [exact (HgP x (p, sp) Hx ltac:(by left))|].
      apply Hgx; [rewrite EPl; apply elem_of_app; by left|done].
    + constructor; [done|]. apply Forall_forall. intros y Hy. specialize (Hhigh y Hy). blocks.
  - rewrite Hbrk. by rewrite <-(Permutation_middle P' N2).
  - by rewrite Hbrk.
Qed.
End freeing.

Lemma list_fuel_enough h l A : heap_ok h l A -> (S (length l) < list_fuel h)%nat.
Proof.
  intros [_ _ _ _ _ Ht (Hb & Hlo & _)]. pose proof (tiled_length _ _ _ Ht) as H.
  rewrite length_app in H. unfold list_fuel.
  assert (Z.of_nat (length l) <= h_brk h / HDR); [|lia].
  apply Z.div_le_lower_bound; unfold HDR in *; lia.
Qed.

(** The last block [p] below the block in use, which the search finds. *)
Lemma free_setup h l A a s :
  heap_ok h l ((a, s) :: A) ->
  exists Pl N P p sp, l = Pl ++ N /\ (base, 0) :: Pl = P ++ [(p, sp)] /\
    (P = [] /\ Pl = [] /\ p = base /\ sp = 0 \/
     exists P', P = (base, 0) :: P' /\ Pl = P' ++ [(p, sp)]) /\
    (forall x, x ∈ Pl -> bend x <= a) /\ gaps N /\
    (forall x, x ∈ N -> bend (a, s) <= x.1 /\ 1 <= x.2 /\ s + x.2 < 2 ^ 31) /\
    h_size h p = sp /\ 0 <= sp < 2 ^ 31 /\ p < a /\
    free_find (list_fuel h) h a (h_freep h) = Some p.
Proof.
  intros Hok. destruct (around h l A a s Hok) as (Hs & Ha & Hsz & _ & Pl & N & -> & _ & HgN & HPl & HN).
  destruct (ring_split Pl) as (P & p & sp & Hsplit & Hcase). exists Pl, N, P, p, sp.
  assert (Hp : h_size h p = sp /\ 0 <= sp < 2 ^ 31 /\ p < a).
  { destruct Hok as [_ Hss Hb0 _ _ _ (? & ? & _)]. unfold HDR in *.
    destruct Hcase as [(_ & _ & -> & ->)|(P' & _ & ->)]; [lia|].
    destruct (HPl (p, sp)) as (H1 & H2 & H3); [apply elem_of_app; right; by left|].
    rewrite Forall_forall in Hss. split; [apply (Hss (p, sp)); set_solver|blocks]. }
  split_and!; try done; [intros x Hx; by apply HPl|apply Hp..|].
  pose proof (fr_ring Pl N P p sp Hsplit) as Hring.
  apply (free_find_spec h (Pl ++ N) ((a, s) :: A) a P.*1 p N.*1); try done; [apply Hp|..].
  - pose proof (ring_sorted _ _ _ Hok) as Hso. rewrite Hring in Hso.
    apply StronglySorted_app in Hso as (Hso & _ & _). intros x Hx.
    specialize (Hso x p Hx ltac:(by left)). lia.
  - intros x Hx. apply list_elem_of_fmap in Hx as (c & -> & Hc). destruct (HN c Hc). blocks.
  - pose proof (list_fuel_enough _ _ _ Hok) as Hf. apply (f_equal length) in Hsplit.
    rewrite length_app in Hsplit, Hf. cbn in Hsplit. rewrite !length_fmap. lia.
Qed.

(** [free] gives a block in use back: the blocks still tile the heap, and some free block
    has at least its size. *)
Lemma free_ok h l A a s :
  heap_ok h l ((a, s) :: A) ->
  exists h' l', free (a + HDR) h = Ok tt h' /\ heap_ok h' l' A /\
    h_brk h' = h_brk h /\ h_grants h' = h_grants h /\ Exists (fun c => s <= c.2) l' /\
    (length l' <= S (length l))%nat.
Proof.
  intros Hok. destruct (free_setup h l A a s Hok) as
    (Pl & N & P & p & sp & -> & Hsplit & Hcase & Hlow & HgN & HN & Hsp & Hspb & Hpa & Hfind).
  destruct (around h _ A a s Hok) as (Hs & Ha & Hsz & _).
  assert (Hb : base < a) by (destruct Hok as [_ _ _ _ _ _ (? & ? & _)]; unfold HDR in *; lia).
  assert (Hr := ho_ring _ _ _ Hok). assert (HsN := ho_size _ _ _ Hok).
  rewrite (fr_ring Pl N P p sp Hsplit) in Hr. apply linked_app in Hr as [_ [Hr1 Hr2]].
  rewrite !Forall_app in HsN. destruct HsN as [[_ HsN] _].
  destruct (join_upper_spec h p a s N) as (h1 & s2 & N2 & E1 & Ep1 & Es1 & Ef1 & Eb1 & Eg1 & Hj & Hhi);
    try done.
  { intros c Hc. destruct (HN c Hc) as (? & ? & ?). repeat split; [done|done|lia]. }
  assert (Hs2 : s <= s2 < 2 ^ 31).
  { destruct Hj as [[_ ->]|(sn & -> & ->)].
    - destruct (around h _ A a s Hok) as (_ & _ & _ & Ht & _). apply tiled_size in Ht.
      destruct Hok as [_ _ _ _ _ _ (? & ? & Hphy)]. unfold PHYSTOP in Hphy. blocks.
    - destruct (HN (a + HDR * s, sn)) as (? & ? & ?); [by left|]. cbn in *. lia. }
  assert (HlN : (length N2 <= length N)%nat).
  { destruct Hj as [[-> _]|(sn & -> & _)]; cbn; lia. }
  destruct (join_lower_spec h1 p a sp s2) as (h2 & E2 & Ef2 & Eb2 & Eg2 & H2); try lia.
  { rewrite Es1. destruct (Z.eqb_spec p a); [lia|done]. }
  { by rewrite Es1, Z.eqb_refl. }
  exists (set_freep p h2).
  assert (Erun : free (a + HDR) h = Ok tt (set_freep p h2)).
  { unfold free. replace (a + HDR - HDR) with a by lia. erewrite bind_ok; [|reflexivity].
    cbn beta. rewrite Hfind. erewrite bind_ok; [|exact E1]. erewrite bind_ok; [|exact E2]. done. }
  destruct (Z.eqb_spec (bend (p, sp)) a) as [Em|Em]; destruct H2 as [Ep2 Es2].
  - rewrite Ep1, upd_eq in Ep2.
    destruct (fr_merge h Pl N A a s P p sp s2 N2 Hok Hsplit Hcase Hlow Hhi Hj (set_freep p h2))
      as (P' & -> & Hok'); try done; [|cbn; congruence|].
    { intros x. cbn. rewrite Es2. unfold upd. by rewrite Es1. }
    exists (P' ++ (p, sp + s2) :: N2). split_and!; try done; [cbn; congruence..| |].
    + apply Exists_app. right. left. cbn. lia.
    + rewrite !length_app. cbn. lia.
  - rewrite Ep1 in Ep2. exists (Pl ++ (a, s2) :: N2). split_and!; try done; [|cbn; congruence..| |].
    + apply (fr_insert h Pl N A a s P p sp s2 N2); try done; [|cbn; congruence].
      intros x. cbn. by rewrite Es2, Es1.
    + apply Exists_app. right. left. cbn. lia.
    + rewrite !length_app. cbn. lia.
Qed.

(** *** [malloc] *)

(** Taking a whole block out of the ring. *)
Lemma carve_whole h l A P q sq p sp N :
  heap_ok h l A -> (base, 0) :: l = P ++ (q, sq) :: (p, sp) :: N ->
  exists h' l', carve sp q p h = Ok (p + HDR) h' /\ heap_ok h' l' ((p, sp) :: A) /\
    h_brk h' = h_brk h /\ h_grants h' = h_grants h.
Proof.
  intros Hok E. pose proof (ring_sorted _ _ _ Hok) as Hso.
  assert (Er : base :: l.*1 = P.*1 ++ q :: p :: N.*1).
  { apply (f_equal (fmap fst)) in E. cbn in E. by rewrite fmap_app in E. }
  destruct Hok as [Hr Hs Hb0 Hfp Hg Ht Hbd]. rewrite Er in Hr, Hso.
  apply linked_app in Hr as [HrP [Hrq [Hrp HrN]]]. cbn in Hrq, HrP. unfold id in Hrq, HrP.
  apply StronglySorted_app in Hso as (HsP & _ & HsN).
  apply StronglySorted_inv in HsN as [HsN Hlt]. rewrite Forall_forall in Hlt.
  assert (El : exists P', l = P' ++ (p, sp) :: N /\ base :: P'.*1 = P.*1 ++ [q]).
  { destruct P as [|x P]; cbn in E, Er; injection E as E1 E2; [by exists []; subst|].
    exists (P ++ [(q, sq)]). rewrite <-E1, E2, <-app_assoc, fmap_app. done. }
  destruct El as (P' & -> & EP).
  assert (Hpsz : h_size h p = sp).
  { rewrite Forall_forall in Hs. apply (Hs (p, sp)). set_solver. }
  exists (set_freep q (set_ptr q (h_ptr h p) h)), (P' ++ N). split.
  { unfold carve. erewrite bind_ok; [|reflexivity]. cbn beta. rewrite Hpsz, Z.eqb_refl. done. }
  split; [|done].
  assert (Hperm : (P' ++ (p, sp) :: N) ++ A ≡ₚ (P' ++ N) ++ (p, sp) :: A).
  { by rewrite <-(Permutation_middle P' N), <-(Permutation_middle (P' ++ N) A). }
  split; cbn [h_ptr h_size h_freep h_brk set_freep set_ptr]; try done.
  - rewrite fmap_app, app_comm_cons, EP, <-app_assoc. rewrite Hrp. apply linked_between.
    + apply linked_upd; [|done]. intros H. specialize (HsP q q H ltac:(by left)). lia.
    + cbn. by rewrite upd_eq.
    + apply linked_upd; [|done]. intros H. specialize (Hlt q ltac:(by right)). lia.
  - by rewrite <-Hperm.
  - rewrite fmap_app, app_comm_cons, EP. apply elem_of_app. left. apply elem_of_app. right. by left.
  - apply gaps_app in Hg as (Hg1 & Hg2 & Hg3). apply StronglySorted_inv in Hg3 as [Hg3 _].
    apply gaps_app. split; [|done]. intros b c Hb Hc. apply Hg1; [done|by right].
  - by rewrite <-Hperm.
Qed.

(** Taking the tail end of a larger block. *)
Lemma carve_tail h l A P q p sp N n :
  heap_ok h l A -> l = P ++ (p, sp) :: N -> q ∈ base :: l.*1 -> 1 <= n < sp ->
  let a := p + HDR * (sp - n) in
  exists h' l', carve n q p h = Ok (a + HDR) h' /\ heap_ok h' l' ((a, n) :: A) /\
    h_brk h' = h_brk h /\ h_grants h' = h_grants h.
Proof.
  intros Hok -> Hq Hn a. destruct Hok as [Hr Hs Hb0 Hfp Hg Ht (Hbd & Hlo & Hphy)].
  assert (Hpsz : h_size h p = sp).
  { rewrite Forall_forall in Hs. apply (Hs (p, sp)). apply elem_of_app. left.
    apply elem_of_app. right. by left. }
  assert (Ht' : tiled lo (h_brk h) ((p, (sp - n) + n) :: (P ++ N) ++ A)).
  { rewrite <-(Permutation_middle P N) in Ht. by replace (sp - n + n) with sp by lia. }
  pose proof (tiled_size _ _ _ _ Ht') as Hsz. pose proof (tiled_fresh _ _ _ Ht') as Hfresh.
  assert (Hlop : lo <= p) by (destruct Ht' as [Hin _ _]; apply Forall_cons in Hin as [Hin _]; cbn in Hin; lia).
  apply tiled_split in Ht'; [|lia..]. fold a in Ht'. unfold PHYSTOP in Hphy.
  assert (Hu : u32 (sp - n) = sp - n) by (apply u32_small; blocks).
  assert (Hfa : a ∉ ((p, sp - n) :: (P ++ N) ++ A).*1).
  { rewrite (Permutation_swap (a, n)) in Ht'. by apply tiled_fresh in Ht'. }
  cbn in Hfa. apply not_elem_of_cons in Hfa as [Hap Hfa].
  exists (set_freep q (set_size a n (set_size p (sp - n) h))), (P ++ (p, sp - n) :: N). split.
  { unfold carve. erewrite bind_ok; [|reflexivity]. cbn beta. rewrite Hpsz.
    destruct (Z.eqb_spec sp n); [lia|]. rewrite Hu. done. }
  split; [|done].
  assert (Hperm : (P ++ (p, sp - n) :: N) ++ (a, n) :: A ≡ₚ (p, sp - n) :: (a, n) :: (P ++ N) ++ A).
  { rewrite <-(Permutation_middle P N). simpl. by rewrite <-(Permutation_middle (P ++ N) A). }
  assert (Hsame : (P ++ (p, sp - n) :: N).*1 = (P ++ (p, sp) :: N).*1) by by rewrite !fmap_app.
  split; cbn [h_ptr h_size h_freep h_brk set_freep set_size]; try done.
  - by rewrite Hsame.
  - rewrite Hperm. rewrite <-(Permutation_middle P N) in Hs. apply Forall_cons in Hs as [_ Hs].
    constructor; [cbn; by rewrite upd_ne, upd_eq|]. constructor; [cbn; by rewrite upd_eq|].
    apply upd_sizes; [done|]. by apply upd_sizes.
  - rewrite !upd_ne; [done| |]; unfold a; blocks.
  - by rewrite Hsame.
  - apply gaps_app in Hg as (Hg1 & Hg2 & Hg3). apply StronglySorted_inv in Hg3 as [Hg3 Hg4].
    apply gaps_app. split; [|split; [done|]].
    + intros b c Hb Hc. apply elem_of_cons in Hc as [->|Hc]; [apply (Hg1 b (p, sp)); [done|by left]|].
      apply Hg1; [done|by right].
    + constructor; [done|]. eapply Forall_impl; [exact Hg4|]. intros c Hc. blocks.
  - by rewrite Hperm.
Qed.

Lemma sbrk_eq n h :
  sbrk n h =
    if default false (head (h_grants h)) && (h_brk h + n <=? PHYSTOP)
    then Ok (h_brk h) (set_brk (h_brk h + n) (set_grants (tail (h_grants h)) h))
    else Ok (-1) (set_grants (tail (h_grants h)) h).
Proof.
  unfold sbrk. erewrite bind_ok; [|reflexivity]. cbn beta. erewrite bind_ok; [|reflexivity].
  by destruct (_ && _).
Qed.

(** [morecore]: the kernel refuses, or there is a free block that is large enough. *)
Lemma morecore_ok h l A n :
  heap_ok h l A -> 1 <= n ->
  exists h', h_grants h' = tail (h_grants h) /\
    (morecore n h = Ok 0 h' /\ heap_ok h' l A /\ h_brk h' = h_brk h /\
       (head (h_grants h) = Some true -> PHYSTOP < h_brk h + Z.max n 4096 * HDR) \/
     exists l', morecore n h = Ok (h_freep h') h' /\ heap_ok h' l' A /\ h_brk h <= h_brk h' /\
       Exists (fun c => n <= c.2) l' /\ (length l' <= S (length l))%nat).
Proof.
  intros Hok Hn. unfold morecore. set (nu := if n <? 4096 then 4096 else n).
  assert (Hnu : n <= nu /\ 1 <= nu) by (unfold nu; destruct (Z.ltb_spec n 4096); lia).
  destruct (default false (head (h_grants h)) && (h_brk h + nu * HDR <=? PHYSTOP)) eqn:Eg.
  - apply andb_true_iff in Eg as [Eg Ephy].
    set (h1 := set_size (h_brk h) nu (set_brk (h_brk h + nu * HDR) (set_grants (tail (h_grants h)) h))).
    assert (Hfresh : h_brk h ∉ (l ++ A).*1 /\ tiled lo (h_brk h + nu * HDR) ((h_brk h, nu) :: l ++ A)).
    { destruct Hok as [_ _ _ _ _ Ht _]. pose proof (tiled_grow _ _ nu _ Ht ltac:(lia)) as Ht'.
      rewrite Z.mul_comm. split; [by apply tiled_fresh in Ht'|done]. }
    destruct Hfresh as [Hfresh Htg].
    assert (Hok1 : heap_ok h1 l ((h_brk h, nu) :: A)).
    { destruct Hok as [Hr Hs Hb0 Hfp Hg Ht (Hbd & Hlo & Hphy)]. pose proof (tiled_le _ _ _ Ht).
      split; cbn [h1 h_ptr h_size h_freep h_brk set_size set_brk set_grants]; try done.
      - rewrite <-(Permutation_middle l A). constructor; [cbn; by rewrite upd_eq|]. by apply upd_sizes.
      - rewrite upd_ne; [done|]. unfold HDR in *. lia.
      - by rewrite <-(Permutation_middle l A).
      - split_and!; try done. lia. }
    destruct (free_ok h1 l A _ _ Hok1) as (h2 & l2 & Ef & Hok2 & Hb2 & Hg2 & Hex & Hl2).
    exists h2. split; [by rewrite Hg2|]. right. exists l2. split_and!; try done.
    + erewrite bind_ok; [|rewrite sbrk_eq, Eg, Ephy; reflexivity]. cbn beta.
      assert (Hpos : 0 < h_brk h).
      { destruct Hok as [_ _ _ _ _ Ht (? & ? & _)]. apply tiled_le in Ht. unfold HDR in *. lia. }
      destruct (Z.eqb_spec (h_brk h) (-1)); [lia|]. erewrite bind_ok; [|reflexivity].
      erewrite bind_ok; [|exact Ef]. done.
    + rewrite Hb2. cbn. unfold HDR. lia.
    + eapply Exists_impl; [exact Hex|]. cbn. lia.
  - exists (set_grants (tail (h_grants h)) h). split; [done|]. left. split_and!; [| |done|].
    + erewrite bind_ok; [|rewrite sbrk_eq, Eg; reflexivity]. done.
    + by destruct Hok.
    + intros Hgr. rewrite Hgr in Eg. cbn in Eg.
      replace (Z.max n 4096) with nu by (unfold nu; destruct (Z.ltb_spec n 4096); lia). lia.
Qed.

(** Following the links from [q]. *)
Fixpoint path (f : Z -> Z) (q : Z) (ds : list Z) : Prop :=
  match ds with
  | [] => True
  | d :: ds' => f q = d /\ path f d ds'
  end.

Lemma path_app f q xs d ys :
  path f q (xs ++ [d]) -> path f d ys -> path f q (xs ++ d :: ys).
Proof. revert q. induction xs; intros q; simpl; naive_solver. Qed.

Lemma linked_path f q xs e : linked f (q :: xs) e -> path f q (xs ++ [e]).
Proof. revert q. induction xs as [|x xs IH]; intros q [H1 H2]; simpl; auto. Qed.

(** One round through the ring, from [freep] back to it. *)
Lemma ring_round h l A :
  heap_ok h l A ->
  exists init, path (h_ptr h) (h_freep h) (init ++ [h_freep h]) /\ h_freep h ∉ init /\
    init ++ [h_freep h] ≡ₚ base :: l.*1.
Proof.
  intros Hok. pose proof (ring_sorted _ _ _ Hok) as Hso. destruct Hok as [Hr _ _ Hfp _ _ _].
  apply list_elem_of_split in Hfp as (Y & X & E). rewrite E in Hr, Hso |- *.
  apply linked_app in Hr as [HY HX]. apply linked_path in HX.
  exists (X ++ Y). split_and!.
  - rewrite <-app_assoc. destruct Y as [|y Y]; cbn in E; injection E as E1 E2; [by rewrite E1 in HX|].
    subst y. apply linked_path in HY. by apply path_app.
  - apply StronglySorted_app in Hso as (H1 & _ & H2). apply StronglySorted_inv in H2 as [_ H2].
    rewrite Forall_forall in H2. intros H. apply elem_of_app in H as [H|H].
    + specialize (H2 _ H). lia.
    + specialize (H1 _ (h_freep h) H ltac:(by left)). lia.
  - rewrite <-app_assoc, (Permutation_app_comm X). by rewrite <-app_assoc.
Qed.

(** The loop steps over blocks that are too small. *)
Lemma malloc_skip fuel n q init d h :
  path (h_ptr h) q (init ++ [d]) -> Forall (fun x => h_size h x < n /\ x <> h_freep h) init ->
  malloc_loop (length init + fuel) n q (h_ptr h q) h =
    malloc_loop fuel n (default q (last init)) d h.
Proof.
  revert q. induction init as [|x init IH]; intros q Hp Hs.
  - destruct Hp as [Hp _]. by rewrite Hp.
  - destruct Hp as [Hq Hp]. apply Forall_cons in Hs as [[Hx Hf] Hs]. rewrite Hq.
    cbn [length Nat.add malloc_loop]. erewrite bind_ok; [|reflexivity]. cbn beta.
    destruct (Z.leb_spec n (h_size h x)); [lia|]. destruct (Z.eqb_spec x (h_freep h)); [done|].
    rewrite IH by done. by rewrite last_cons; destruct (last init).
Qed.

Lemma carve_ok h l A q p n :
  heap_ok h l A -> q ∈ base :: l.*1 -> h_ptr h q = p -> 1 <= n <= h_size h p ->
  exists a h' l', carve n q p h = Ok (a + HDR) h' /\ heap_ok h' l' ((a, n) :: A) /\
    h_brk h' = h_brk h /\ h_grants h' = h_grants h.
Proof.
  intros Hok Hq Hp Hn. assert (Hr := ho_ring _ _ _ Hok). assert (Hs := ho_size _ _ _ Hok).
  assert (Hb0 := ho_base _ _ _ Hok).
  change (base :: l.*1) with (((base, 0) :: l).*1) in Hq, Hr.
  apply list_elem_of_fmap in Hq as ([q' sq] & -> & Hq). cbn [fst] in Hp.
  apply list_elem_of_split in Hq as (P & R & E). rewrite E, fmap_app in Hr.
  apply linked_app in Hr as [_ [Hr _]]. cbn in Hr. rewrite Hp in Hr.
  destruct R as [|[p' sp] N]; cbn in Hr; [rewrite Hr, Hb0 in Hn; lia|]. unfold id in Hr. subst p'.
  assert (El : exists P', l = P' ++ (p, sp) :: N).
  { destruct P as [|x P]; cbn in E; injection E as _ E; [by exists []|].
    exists (P ++ [(q', sq)]). by rewrite <-app_assoc. }
  destruct El as (P' & El). rewrite El in Hs.
  assert (Hsp : h_size h p = sp) by (rewrite Forall_forall in Hs; apply (Hs (p, sp)); set_solver).
  destruct (decide (sp = n)) as [->|Hne].
  - destruct (carve_whole h l A P q' sq p n N Hok E) as (h' & l' & ?). by exists p, h', l'.
  - destruct (carve_tail h l A P' q' p sp N n Hok El) as (h' & l' & ?); [|lia|by eauto].
    change (base :: l.*1) with (((base, 0) :: l).*1). rewrite E, fmap_app. set_solver.
Qed.

Lemma path_last f q i d : path f q (i ++ [d]) -> f (default q (last i)) = d.
Proof.
  revert q. induction i as [|x i IH]; intros q H; [by destruct H|]. destruct H as [_ H].
  apply IH in H. rewrite last_cons. by destruct (last i).
Qed.

Lemma path_prefix f q xs ys : path f q (xs ++ ys) -> path f q xs.
Proof. revert q. induction xs; intros q; simpl; naive_solver. Qed.

Lemma first_fit (P : Z -> Prop) `{!forall x, Decision (P x)} l :
  Exists P l -> exists i d r, l = i ++ d :: r /\ P d /\ Forall (fun x => ~ P x) i.
Proof.
  induction l as [|x l IH]; intros Hex; [by inversion Hex|]. destruct (decide (P x)) as [Hx|Hx].
  - exists [], x, l. done.
  - apply Exists_cons in Hex as [Hl|Hl]; [done|]. destruct (IH Hl) as (i & d & r & -> & Hd & Hi).
    exists (x :: i), d, r. split; [done|]. split; [done|]. by constructor.
Qed.

(** With a large enough free block the loop finds one in its first round. *)
Lemma malloc_fits h l A n fuel :
  heap_ok h l A -> Exists (fun c => n <= c.2) l -> 1 <= n -> (S (length l) <= fuel)%nat ->
  exists a h' l', malloc_loop fuel n (h_freep h) (h_ptr h (h_freep h)) h = Ok (a + HDR) h' /\
    heap_ok h' l' ((a, n) :: A) /\ h_brk h' = h_brk h /\ h_grants h' = h_grants h.
Proof.
  intros Hok Hex Hn Hf. destruct (ring_round h l A Hok) as (init & Hp & Hfi & Hperm).
  assert (Hlen := Permutation_length Hperm). rewrite length_app in Hlen. cbn in Hlen.
  rewrite length_fmap in Hlen.
  destruct (first_fit (fun x => n <= h_size h x) (init ++ [h_freep h])) as (i & d & r & E & Hd & Hi).
  { rewrite Hperm. right. assert (Hs := ho_size _ _ _ Hok). apply Forall_app in Hs as [Hs _].
    apply Exists_exists in Hex as (c & Hc & Hnc). apply Exists_exists. exists c.1.
    rewrite Forall_forall in Hs. rewrite (Hs c Hc). split; [|done]. apply list_elem_of_fmap. by exists c. }
  assert (Hil : (length i <= length init)%nat).
  { apply (f_equal length) in E. rewrite !length_app in E. cbn in E. lia. }
  assert (Hip : i = take (length i) init).
  { apply (f_equal (take (length i))) in E. by rewrite take_app_le, take_app_length in E. }
  replace fuel with (length i + S (fuel - S (length i)))%nat by lia.
  rewrite E in Hp. assert (Hpd : path (h_ptr h) (h_freep h) (i ++ [d])).
  { apply (path_prefix _ _ _ r). by rewrite <-app_assoc. }
  rewrite (malloc_skip _ n _ i d h Hpd).
  - cbn [malloc_loop]. erewrite bind_ok; [|reflexivity]. cbn beta.
    destruct (Z.leb_spec n (h_size h d)); [|lia].
    apply (carve_ok h l A); [done| |by apply path_last|lia]. destruct (last i) as [q|] eqn:El; cbn.
    + rewrite <-Hperm, E. apply elem_of_app. left. by apply last_Some_elem_of.
    + apply Hok.
  - rewrite Forall_forall in Hi |- *. intros x Hx. specialize (Hi x Hx). split; [lia|].
    intros ->. apply Hfi. rewrite Hip in Hx.
    apply elem_of_take in Hx as (j & Hj & _). by apply list_elem_of_lookup_2 in Hj.
Qed.

(** Before the first [malloc]. *)
Definition fresh_heap (h : heap) : Prop :=
  h_freep h = 0 /\ h_brk h = lo /\ 0 < base /\ base + HDR <= lo /\ lo <= PHYSTOP.

Definition heap_inv (h : heap) (l A : list block) : Prop :=
  heap_ok h l A \/ fresh_heap h /\ l = [] /\ A = [].

Lemma fresh_ok h :
  fresh_heap h -> heap_ok (set_size base 0 (set_freep base (set_ptr base base h))) [] [].
Proof.
  intros (Hf & Hb & H1 & H2 & H3). split; cbn; try done.
  - by rewrite upd_eq.
  - by rewrite upd_eq.
  - by left.
  - constructor.
  - rewrite Hb. apply tiled_nil.
  - lia.
Qed.

Lemma units_spec n : 0 <= n < 2 ^ 32 -> 1 <= units n /\ n <= HDR * (units n - 1) < n + HDR.
Proof.
  intros Hn. unfold units, HDR.
  assert (0 <= (n + 16 - 1) / 16 < 2 ^ 31).
  { split; [apply Z.div_pos; lia|apply Z.div_lt_upper_bound; lia]. }
  rewrite u32_small by lia. pose proof (Z.div_mod (n + 16 - 1) 16 ltac:(lia)).
  pose proof (Z.mod_pos_bound (n + 16 - 1) 16 ltac:(lia)). lia.
Qed.

(** The kernel refuses to grow the heap for [n] more units. *)
Definition refused (h : heap) (n : Z) : Prop :=
  head (h_grants h) = Some true -> PHYSTOP < h_brk h + Z.max n 4096 * HDR.

Lemma malloc_loop_ok h l A n fuel :
  heap_ok h l A -> 1 <= n -> (S (length l) + S (S (length l)) <= fuel)%nat ->
  exists r h', malloc_loop fuel n (h_freep h) (h_ptr h (h_freep h)) h = Ok r h' /\
    (r = 0 /\ heap_ok h' l A /\ refused h n /\ Forall (fun c => c.2 < n) l \/
     exists a l', r = a + HDR /\ heap_ok h' l' ((a, n) :: A)).
Proof.
  intros Hok Hn Hf. destruct (decide (Exists (fun c : Z * Z => n <= c.2) l)) as [Hex|Hex].
  { destruct (malloc_fits h l A n fuel) as (a & h' & l' & E & Hok' & _); [done..|lia|].
    exists (a + HDR), h'. split; [done|]. right. by exists a, l'. }
  assert (Hno : Forall (fun c => c.2 < n) l).
  { apply Forall_forall. intros c Hc. destruct (Z.lt_ge_cases c.2 n) as [?|Hge]; [done|].
    exfalso. apply Hex, Exists_exists. by exists c. }
  destruct (ring_round h l A Hok) as (init & Hp & Hfi & Hperm).
  assert (Hlen := Permutation_length Hperm). rewrite length_app in Hlen. cbn in Hlen.
  rewrite length_fmap in Hlen.
  assert (Hsz : Forall (fun x => h_size h x < n) (init ++ [h_freep h])).
  { rewrite Hperm. destruct Hok as [_ Hs Hb0 _ _ _ _]. apply Forall_app in Hs as [Hs _].
    constructor; [lia|]. apply Forall_fmap. rewrite Forall_forall in Hs, Hno |- *.
    intros c Hc. cbn. rewrite (Hs c Hc). by apply Hno. }
  apply Forall_app in Hsz as [Hsi Hsf]. apply Forall_cons in Hsf as [Hsf _].
  replace fuel with (length init + S (fuel - S (length init)))%nat by lia.
  rewrite (malloc_skip _ n _ init (h_freep h) h Hp).
  2: { rewrite Forall_forall in Hsi |- *. intros x Hx. split; [by apply Hsi|]. by intros ->. }
  cbn [malloc_loop]. erewrite bind_ok; [|reflexivity]. cbn beta.
  destruct (Z.leb_spec n (h_size h (h_freep h))); [lia|]. rewrite Z.eqb_refl.
  destruct (morecore_ok h l A n Hok Hn) as (h1 & _ & [(E1 & Hok1 & _ & Href)|(l1 & E1 & Hok1 & _ & Hex1 & Hl1)]).
  - exists 0, h1. split; [erewrite bind_ok; [|exact E1]; done|]. left. done.
  - pose proof (freep_nonzero _ _ _ Hok1) as Hnz.
    destruct (malloc_fits h1 l1 A n (fuel - S (length init))) as (a & h2 & l2 & E2 & Hok2 & _);
      [done..|lia|].
    exists (a + HDR), h2. split; [|right; by exists a, l2].
    erewrite bind_ok; [|exact E1]. cbn beta. destruct (Z.eqb_spec (h_freep h1) 0); [done|].
    erewrite bind_ok; [|reflexivity]. exact E2.
Qed.

(** [malloc] returns a block that is large enough, or null if the kernel refuses to grow
    the heap and no free block is large enough. *)
Lemma malloc_ok h l A nbytes :
  heap_inv h l A -> 0 <= nbytes < 2 ^ 32 ->
  exists r h', malloc base nbytes h = Ok r h' /\
    (r = 0 /\ heap_inv h' l A /\ refused h (units nbytes) /\ Forall (fun c => c.2 < units nbytes) l \/
     exists a l', r = a + HDR /\ heap_inv h' l' ((a, units nbytes) :: A)).
Proof.
  intros Hinv Hn. destruct (units_spec nbytes Hn) as [Hu _].
  assert (Hstart : exists h1, heap_ok h1 l A /\ refused h1 = refused h /\
    malloc base nbytes h =
      malloc_loop (list_fuel h1 + list_fuel h1 + list_fuel h1) (units nbytes) (h_freep h1)
        (h_ptr h1 (h_freep h1)) h1).
  { destruct Hinv as [Hok|(Hfr & -> & ->)].
    - exists h. split; [done|]. split; [done|].
      pose proof (freep_nonzero _ _ _ Hok) as Hnz.
      unfold malloc. erewrite bind_ok; [|reflexivity]. cbn beta.
      destruct (Z.eqb_spec (h_freep h) 0); [done|]. by erewrite bind_ok; [|reflexivity].
    - eexists. split; [by apply fresh_ok|]. split; [done|]. destruct Hfr as (Hfp & _).
      unfold malloc. erewrite bind_ok; [|reflexivity]. cbn beta. rewrite Hfp. done. }
  destruct Hstart as (h1 & Hok1 & Href & ->). pose proof (list_fuel_enough _ _ _ Hok1).
  destruct (malloc_loop_ok h1 l A (units nbytes) (list_fuel h1 + list_fuel h1 + list_fuel h1))
    as (r & h2 & E & Hres); [done..|lia|].
  exists r, h2. split; [done|]. rewrite <-Href.
  destruct Hres as [(-> & ? & ? & ?)|(a & l' & -> & ?)]; [left|right].
  - split_and!; try done. by left.
  - exists a, l'. split; [done|]. by left.
Qed.

(** When nothing is in use the free list is one block: coalescing is complete. *)
Lemma gaps_total hi x l :
  gaps (x :: l) -> Forall (fun b => bend b <= hi) (x :: l) ->
  HDR * total (x :: l) + Z.of_nat (length l) <= hi - x.1.
Proof.
  revert x. induction l as [|y l IH]; intros x Hg Hin; apply Forall_cons in Hin as [Hx Hin].
  - cbn [length]. change (total []) with 0 in *. rewrite total_cons. change (total []) with 0. blocks.
  - apply StronglySorted_inv in Hg as [Hg Hxy]. apply Forall_cons in Hxy as [Hxy _].
    specialize (IH y Hg Hin). rewrite total_cons in *. cbn [length]. blocks.
Qed.

Lemma all_free h l :
  heap_ok h l [] -> lo < h_brk h -> l = [(lo, (h_brk h - lo) / HDR)].
Proof.
  intros [_ _ _ _ Hg [Hin _ Ht] _] Hlt. rewrite app_nil_r in *.
  destruct l as [|x l]; [cbn in Ht; lia|].
  assert (Hhi : Forall (fun b => bend b <= h_brk h) (x :: l)).
  { eapply Forall_impl; [exact Hin|]. intros b Hb. cbn in Hb. lia. }
  pose proof (gaps_total (h_brk h) x l Hg Hhi) as Hle. apply Forall_cons in Hin as [Hx _].
  assert (E : x.1 = lo /\ length l = 0%nat) by lia. destruct E as [E1 E2].
  apply nil_length_inv in E2 as ->. rewrite total_cons in Ht. change (total []) with 0 in Ht.
  destruct x as [a s]. cbn in E1, Ht. subst a. do 2 f_equal. rewrite <-Ht, Z.add_0_r, Z.mul_comm.
  rewrite Z.div_mul; [done|unfold HDR; lia].
Qed.
End heap_ok.

(** ** Clients

    A client allocates and frees the blocks it owns: pairs of the pointer that [malloc]
    returned and the number of bytes it asked for. *)
Inductive mop : Type :=
| Malloc (n : Z)
| Free (i : nat).

Fixpoint run_mops (base : Z) (ops : list mop) (owned : list (Z * Z)) : M heap (list (Z * Z)) :=
  match ops with
  | [] => mret owned
  | Malloc n :: ops' =>
      p ← malloc base (u32 n);
      run_mops base ops' (if p =? 0 then owned else (p, u32 n) :: owned)
  | Free i :: ops' =>
      match owned !! i with
      | Some (p, _) => free p;; run_mops base ops' (delete i owned)
      | None => run_mops base ops' owned
      end
  end.

(** The bytes of an owned block, with the header in front of them. *)
Definition holds (o b : Z * Z) : Prop := o.1 = b.1 + HDR /\ o.2 <= HDR * (b.2 - 1).

Lemma run_mops_ok base lo ops owned h l A :
  heap_inv base lo h l A -> Forall2 holds owned A ->
  exists h' owned' l' A', run_mops base ops owned h = Ok owned' h' /\
    heap_inv base lo h' l' A' /\ Forall2 holds owned' A'.
Proof.
  revert owned h l A. induction ops as [|[n|i] ops IH]; intros owned h l A Hinv Ho; cbn [run_mops].
  - by exists h, owned, l, A.
  - destruct (malloc_ok base lo h l A (u32 n) Hinv (u32_range n)) as
      (r & h1 & E & [(-> & Hinv1 & _)|(a & l1 & -> & Hinv1)]);
      (erewrite bind_ok; [|exact E]); cbn beta.
    + by apply (IH _ _ l A).
    + destruct (Z.eqb_spec (a + HDR) 0) as [E0|_].
      { exfalso. destruct Hinv1 as [Hok|(_ & _ & ?)]; [|done].
        destruct (around _ _ _ _ _ _ _ Hok) as (_ & Ha & _). destruct Hok as [_ _ _ _ _ _ (? & ? & _)].
        unfold HDR in *. lia. }
      apply (IH _ _ _ _ Hinv1). constructor; [|done]. split; [done|]. cbn.
      apply (units_spec (u32 n) (u32_range n)).
  - destruct (owned !! i) as [[p m]|] eqn:Ei; [|by apply (IH _ _ l A)].
    destruct (Forall2_lookup_l _ _ _ _ _ Ho Ei) as ([a s] & Ea & Hp & _). cbn in Hp. subst p.
    assert (HpA : A ≡ₚ (a, s) :: delete i A) by by apply delete_Permutation.
    destruct Hinv as [Hok|(_ & _ & ->)]; [|done].
    assert (Hok' : heap_ok base lo h l ((a, s) :: delete i A)).
    { destruct Hok as [? Hs ? ? ? Ht ?]. rewrite HpA in Hs, Ht. by split. }
    destruct (free_ok _ _ _ _ _ _ _ Hok') as (h1 & l1 & E & Hok1 & _).
    erewrite bind_ok; [|exact E]. apply (IH _ _ l1 (delete i A)); [by left|].
    by apply Forall2_delete.
Qed.

Lemma apart_lookup l i j b c :
  apart l -> l !! i = Some b -> l !! j = Some c -> i <> j -> disj b c.
Proof.
  revert i j. induction l as [|x l IH]; intros i j Ha Hi Hj Hne; [done|].
  destruct Ha as [H1 H2]. rewrite Forall_forall in H1. destruct i as [|i], j as [|j]; simplify_eq/=.
  - by eapply H1, list_elem_of_lookup_2.
  - by eapply disj_sym, H1, list_elem_of_lookup_2.
  - apply (IH i j); try done. lia.
Qed.

(** C15: [malloc] and [free] manage the heap correctly for every client.  From the initial
    state, any sequence of allocations (of any [uint] sizes, granted or refused by the
    kernel) and frees of owned blocks runs to its end.  The client's blocks then lie in
    the heap, hold the bytes that were asked for and do not overlap, headers included.
    If it has freed everything, the free list is one block that is the whole heap: no
    memory is lost and coalescing is complete. *)
Theorem malloc_client base lo ops h :
  fresh_heap base lo h ->
  exists h' owned, run_mops base ops [] h = Ok owned h' /\
    Forall (fun o => lo + HDR <= o.1 /\ o.1 + o.2 <= h_brk h') owned /\
    (forall i j o o', owned !! i = Some o -> owned !! j = Some o' -> i <> j ->
       o.1 + o.2 <= o'.1 - HDR \/ o'.1 + o'.2 <= o.1 - HDR) /\
    (owned = [] -> lo < h_brk h' ->
       h_ptr h' base = lo /\ h_ptr h' lo = base /\ h_size h' lo = (h_brk h' - lo) / HDR).
Proof.
  intros Hf. destruct (run_mops_ok base lo ops [] h [] []) as (h' & owned & l & A & E & Hinv & Ho);
    [by right|constructor|].
  exists h', owned. split; [done|]. destruct Hinv as [Hok|(Hf' & -> & ->)].
  2: { apply Forall2_nil_inv_r in Ho as ->. destruct Hf' as (_ & Hb & _).
       split; [constructor|]. split; [done|]. lia. }
  assert (Ht := ho_tiled _ _ _ _ _ Hok). destruct Ht as [Hin Hap _].
  rewrite (Permutation_app_comm l A) in Hin, Hap. apply Forall_app in Hin as [Hin _]. split_and!.
  - apply Forall_forall. intros o Hi. apply list_elem_of_lookup in Hi as (i & Hi).
    destruct (Forall2_lookup_l _ _ _ _ _ Ho Hi) as (b & Hb & Hh).
    pose proof (Forall_lookup_1 _ _ _ _ Hin Hb) as Hbb. unfold holds in Hh. blocks.
  - intros i j o o' Hi Hj Hne.
    destruct (Forall2_lookup_l _ _ _ _ _ Ho Hi) as (b & Hb & Hh).
    destruct (Forall2_lookup_l _ _ _ _ _ Ho Hj) as (c & Hc & Hh').
    pose proof (apart_lookup _ i j b c Hap (lookup_app_l_Some _ _ _ _ Hb) (lookup_app_l_Some _ _ _ _ Hc) Hne)
      as Hd. unfold holds in *. blocks.
  - intros -> Hlt. apply Forall2_nil_inv_l in Ho as ->.
    pose proof (all_free _ _ _ _ Hok Hlt) as ->. destruct Hok as [[H1 [H2 _]] Hs _ _ _ _ _].
    apply Forall_cons in Hs as [Hs _]. done.
Qed.

(** Three allocations, one of them refused, and frees in an order that joins a block to
    both of its neighbours. *)
Lemma malloc_client_witness :
  exists h' owned, run_mops 64 [Malloc 100; Malloc 200; Malloc 1000000; Free 1; Malloc 40; Free 1; Free 0] []
    (mk_heap (fun _ => 0) (fun _ => 0) 0 8192 [true; false]) = Ok owned h' /\ owned = [] /\
    h_ptr h' 64 = 8192 /\ h_size h' 8192 = 4096.
Proof.
  destruct (malloc_client 64 8192 [Malloc 100; Malloc 200; Malloc 1000000; Free 1; Malloc 40; Free 1; Free 0]
    (mk_heap (fun _ => 0) (fun _ => 0) 0 8192 [true; false])) as (h' & owned & E & _ & _ & H).
  { unfold fresh_heap, HDR, PHYSTOP. cbn. lia. }
  exists h', owned. split; [exact E|]. vm_compute in E. injection E as <- <-.
  split; [reflexivity|]. destruct H as (H1 & _ & H3); [reflexivity|reflexivity|]. split; [exact H1|exact H3].
Defined.
