(* ===== verification/Coroutine.v ===== *)
(** The coroutine library, [src/coroutine.c].

    A [struct coroutine *] is an address, 0 for the null pointer.  A context is the frame
    that [swtch] (of [src/swtch.S]) left on a stack: the code that runs when it is switched
    to.  A frame can be resumed once; afterwards its place on the stack is in use again, so
    a context that is kept after its coroutine was resumed is [Stale].

    The body of a coroutine is a tree of steps on the program's variables ([env], a
    parameter) with calls of [co_yield] and [co_exit].  What [malloc] returns, and the
    indeterminate values that the code reads, are inputs. *)
From Stdlib Require Import ZArith Lia.
From stdpp Require Import base gmap sets strings numbers list.
From S2P Require Import Prelude.

Local Open Scope Z_scope.

Section Coroutine.
Context {env : Type}.

(** [Spin] is a loop of the body that has used up its fuel. *)
Inductive code : Type :=
| Return
| Act (f : env -> env) (k : env -> code)
| Yield (k : code)
| Exit (k : code)
| Spin.

(** [Entry c] is the frame that [co_new] builds: [func] above [co_exit].  [InExit tmp k] is
    a frame inside the loop of [co_exit] at [tmp], called before [k] ([None] if the body
    returned into it). *)
Inductive ctx : Type :=
| Null
| Entry (func : code)
| Frame (k : code)
| InExit (tmp : Z) (k : option code)
| Host
| Stale.

Record coroutine : Type := mk_coroutine {
  co_context : ctx;
  co_next : Z;
  co_stack : Z
}.

Record costate : Type := mk_costate {
  host_context : ctx;
  co_current : Z;
  co_list : Z;
  co_heap : gmap Z coroutine;
  co_env : env
}.

Definition set_host (c : ctx) (s : costate) : costate :=
  mk_costate c (co_current s) (co_list s) (co_heap s) (co_env s).
Definition set_current (p : Z) (s : costate) : costate :=
  mk_costate (host_context s) p (co_list s) (co_heap s) (co_env s).
Definition set_list (p : Z) (s : costate) : costate :=
  mk_costate (host_context s) (co_current s) p (co_heap s) (co_env s).
Definition set_heap (h : gmap Z coroutine) (s : costate) : costate :=
  mk_costate (host_context s) (co_current s) (co_list s) h (co_env s).
Definition set_env (e : env) (s : costate) : costate :=
  mk_costate (host_context s) (co_current s) (co_list s) (co_heap s) e.

Definition set_context (c : ctx) (x : coroutine) : coroutine := mk_coroutine c (co_next x) (co_stack x).
Definition set_next (n : Z) (x : coroutine) : coroutine := mk_coroutine (co_context x) n (co_stack x).

(** [*p]; the null pointer and dangling ones fault. *)
Definition co_at (p : Z) : M costate coroutine :=
  s ← get; deref "coroutine" (co_heap s !! p).
Definition upd_co (p : Z) (f : coroutine -> coroutine) : M costate unit :=
  modify (fun s => set_heap (alter f p (co_heap s)) s).

(** ** [swtch]

    [jump c] continues at the frame [c]; control is back in the host when the frame is the
    host's.  The two forms of the call have the new context in a coroutine or in
    [host_context]. *)
Definition swtch_co (jump : ctx -> M costate unit) (save : M costate unit) (new : Z) : M costate unit :=
  x ← co_at new;
  upd_co new (set_context Stale);;
  save;;
  jump (co_context x).
Definition swtch_host (jump : ctx -> M costate unit) (save : M costate unit) : M costate unit :=
  c ← gets host_context;
  modify (set_host Stale);;
  save;;
  jump c.

(** [co_yield]; [k] is the rest of the caller. *)
Definition co_yield (jump : ctx -> M costate unit) (k : ctx) : M costate unit :=
  tmp ← gets co_current;
  x ← co_at tmp;
  if negb (co_next x =? 0) then
    modify (set_current (co_next x));;
    swtch_co jump (upd_co tmp (set_context k)) (co_next x)
  else
    modify (set_current 0);;
    swtch_host jump (upd_co tmp (set_context k)).

(** The loop of [co_exit] at [tmp]; [back] returns from [co_exit].  If control comes back
    from one of the two switches, the loop goes on. *)
Fixpoint co_exit_loop (fuel : nat) (jump : ctx -> M costate unit) (back : M costate unit)
    (k : option code) (prev tmp : Z) : M costate unit :=
  match fuel with
  | O => fail EFuel
  | S fuel' =>
      if tmp =? 0 then back
      else
        x ← co_at tmp;
        cur ← gets co_current;
        if tmp =? cur then
          if negb (co_next x =? 0) then
            (if negb (prev =? 0) then co_at prev;; upd_co prev (set_next (co_next x)) else mret tt);;
            modify (set_list (co_next x));;
            swtch_co jump (upd_co cur (set_context (InExit tmp k))) tmp
          else
            modify (set_list 0);;
            swtch_host jump (upd_co cur (set_context (InExit tmp k)))
        else co_exit_loop fuel' jump back k tmp (co_next x)
  end.

(** [co_exit]; [prev] starts indeterminate. *)
Definition co_exit (fuel : nat) (jump : ctx -> M costate unit) (back : M costate unit)
    (k : option code) (prev : Z) : M costate unit :=
  s ← get;
  if co_current s =? 0 then back
  else co_exit_loop fuel jump back k prev (co_list s).

(** Running code on a coroutine's stack until control is back in the host.  [co_exit] is
    also what the body returns to; returning from that call leaves the stack. *)
Fixpoint resume (fuel : nat) (prev : Z) (c : ctx) : M costate unit :=
  match fuel with
  | O => fail EFuel
  | S fuel' =>
      let jump := resume fuel' prev in
      let back (k : option code) :=
        match k with
        | Some k => jump (Frame k)
        | None => fault "return from co_exit"
        end in
      match c with
      | Host => mret tt
      | Null => fault "swtch to the null context"
      | Stale => fault "swtch to a dead frame"
      | InExit tmp k =>
          x ← co_at tmp;
          co_exit_loop fuel' jump (back k) k tmp (co_next x)
      | Entry c | Frame c =>
          match c with
          | Act f k =>
              e ← gets co_env;
              modify (set_env (f e));;
              jump (Frame (k e))
          | Yield k => co_yield jump (Frame k)
          | Exit k => co_exit fuel' jump (back (Some k)) (Some k) prev
          | Return => co_exit fuel' jump (back None) None prev
          | Spin => fail EFuel
          end
      end
  end.

(** ** The host's calls *)

(** The [while] of [co_new]: the last coroutine of the list. *)
Fixpoint co_last (fuel : nat) (head : Z) : M costate Z :=
  match fuel with
  | O => fail EFuel
  | S fuel' =>
      x ← co_at head;
      if negb (co_next x =? 0) then co_last fuel' (co_next x) else mret head
  end.

(** [co_new]: [co1] and [stack] are the results of the two [malloc]s and [junk] what the
    field [next] then holds.  The assignment [head = co1] only changes the local variable. *)
Definition co_new (fuel : nat) (co1 stack junk : Z) (func : code) : M costate Z :=
  if co1 =? 0 then mret 0
  else if stack =? 0 then mret 0
  else
    modify (fun s => set_heap (<[co1 := mk_coroutine (Entry func) junk stack]> (co_heap s)) s);;
    l ← gets co_list;
    (if l =? 0 then modify (set_list co1)
     else head ← co_last fuel l; let head := co1 in mret tt);;
    mret co1.

Definition co_run (fuel : nat) (prev : Z) : M costate Z :=
  l ← gets co_list;
  if negb (l =? 0) then
    modify (set_current l);;
    swtch_co (resume fuel prev) (modify (set_host Host)) l;;
    mret 1
  else mret 0.

Fixpoint co_run_all_loop (fuel rfuel : nat) (prev tmp : Z) : M costate unit :=
  match fuel with
  | O => fail EFuel
  | S fuel' =>
      if tmp =? 0 then mret tt
      else
        co_run rfuel prev;;
        x ← co_at tmp;
        co_run_all_loop fuel' rfuel prev (co_next x)
  end.
Definition co_run_all (fuel rfuel : nat) (prev : Z) : M costate Z :=
  l ← gets co_list;
  if l =? 0 then mret 0
  else co_run_all_loop fuel rfuel prev l;; mret 1.

(** [co_destroy] gives the stack and the coroutine back. *)
Definition co_destroy (co : Z) : M costate unit :=
  if co =? 0 then mret tt
  else co_at co;; modify (fun s => set_heap (delete co (co_heap s)) s).

(** ** One coroutine *)

(** What a body does up to its next [co_yield] or its end, and what is left. *)
Fixpoint segment (c : code) (e : env) : env * option code :=
  match c with
  | Return => (e, None)
  | Act f k => segment (k e) (f e)
  | Yield k => (e, Some k)
  | Exit _ => (e, None)
  | Spin => (e, None)
  end.

(** Its number of steps, unless it runs into [Spin]. *)
Fixpoint seg_steps (c : code) (e : env) : option nat :=
  match c with
  | Act f k => S <$> seg_steps (k e) (f e)
  | Spin => None
  | _ => Some O
  end.

(** The calls of [co_run] that the specification expects: 1 and one more segment as long as
    the coroutine lives, then 0. *)
Fixpoint expected (n : nat) (c : option code) (e : env) : list Z * env :=
  match n with
  | O => ([], e)
  | S n' =>
      match c with
      | None => let '(rs, e') := expected n' None e in (0 :: rs, e')
      | Some c =>
          let '(e', c') := segment c e in
          let '(rs, e'') := expected n' c' e' in (1 :: rs, e'')
      end
  end.

(** Enough fuel for [n] calls: the longest segment. *)
Fixpoint runs_fuel (n : nat) (c : option code) (e : env) : option nat :=
  match n with
  | O => Some O
  | S n' =>
      match c with
      | None => Some O
      | Some c =>
          a ← seg_steps c e;
          b ← runs_fuel n' (segment c e).2 (segment c e).1;
          Some (Nat.max (a + 2) b)
      end
  end.

Fixpoint co_runs (n fuel : nat) (prev : Z) : M costate (list Z) :=
  match n with
  | O => mret []
  | S n' =>
      r ← co_run fuel prev;
      rs ← co_runs n' fuel prev;
      mret (r :: rs)
  end.

(** The library holds the one coroutine [p], which still has to run [c]. *)
Definition single (p : Z) (c : option code) (s : costate) : Prop :=
  p <> 0 /\
  match c with
  | Some k => co_list s = p /\ exists x, co_heap s !! p = Some x /\ co_next x = 0 /\
      (co_context x = Entry k \/ co_context x = Frame k)
  | None => co_list s = 0
  end.

Lemma resume_segment p c s x prev n fuel :
  p <> 0 -> co_current s = p -> co_list s = p -> host_context s = Host ->
  co_heap s !! p = Some x -> co_next x = 0 -> seg_steps c (co_env s) = Some n -> (n + 2 <= fuel)%nat ->
  exists s', resume fuel prev (Frame c) s = Ok tt s' /\ dom (co_heap s') = dom (co_heap s) /\
    co_env s' = (segment c (co_env s)).1 /\ single p (segment c (co_env s)).2 s'.
Proof.
  revert s n fuel. induction c as [|f k IH|k _|k _|]; intros s n fuel Hp Hcur Hl Hh Hx Hn Hst Hf;
    (destruct fuel as [|fuel]; [lia|]).
  2: { cbn [resume segment seg_steps] in *. erewrite bind_ok; [|reflexivity]. cbn beta.
       erewrite bind_ok; [|reflexivity].
       destruct (seg_steps (k _) _) as [n'|] eqn:En; [|done]. cbn in Hst. simplify_eq.
       apply (IH (co_env s) (set_env (f (co_env s)) s) n' fuel); try done. lia. }
  4: done.
  all: destruct fuel as [|fuel]; [cbn in Hf; lia|];
    destruct s as [hc cu li hp e]; cbn in Hcur, Hl, Hh, Hx; subst cu li hc;
    unfold resume, co_yield, co_exit, co_exit_loop, co_at, swtch_host, upd_co, gets, get, modify, deref,
      mbind, M_bind, mret, M_ret; cbn; rewrite ?(proj2 (Z.eqb_neq p 0) Hp); cbn; rewrite Hx; cbn;
    rewrite ?Z.eqb_refl, Hn; cbn; eexists; (split; [reflexivity|]); cbn; (split; [by rewrite dom_alter_L|]); split; try done.
  split; [done|]. split; [done|]. eexists. cbn. rewrite lookup_alter_eq, Hx. cbn.
  split; [reflexivity|]. split; [done|]. by right.
Qed.

Lemma resume_entry fuel prev c : resume fuel prev (Entry c) = resume fuel prev (Frame c).
Proof. by destruct fuel. Qed.

Lemma co_run_single p c s prev n fuel :
  single p (Some c) s -> seg_steps c (co_env s) = Some n -> (n + 2 <= fuel)%nat ->
  exists s', co_run fuel prev s = Ok 1 s' /\ dom (co_heap s') = dom (co_heap s) /\
    co_env s' = (segment c (co_env s)).1 /\ single p (segment c (co_env s)).2 s'.
Proof.
  intros (Hp & Hl & x & Hx & Hn & Hc) Hst Hf.
  set (s1 := set_host Host (set_heap (alter (set_context Stale) p (co_heap s)) (set_current p s))).
  destruct (resume_segment p c s1 (set_context Stale x) prev n fuel) as (s' & E & Hd & He & Hs); try done.
  { cbn. by rewrite lookup_alter_eq, Hx. }
  exists s'. split; [|split; [by rewrite Hd; cbn; rewrite dom_alter_L|done]]. unfold co_run. erewrite bind_ok; [|reflexivity]. cbn beta.
  rewrite Hl. rewrite (proj2 (Z.eqb_neq p 0) Hp). cbn [negb]. erewrite bind_ok; [|reflexivity].
  erewrite bind_ok; [reflexivity|]. unfold swtch_co, co_at.
  erewrite bind_ok; [|erewrite bind_ok; [|reflexivity]; cbn; rewrite Hx; reflexivity].
  cbn beta. erewrite bind_ok; [|reflexivity]. erewrite bind_ok; [|reflexivity].
  destruct Hc as [->| ->]; [rewrite resume_entry|]; exact E.
Qed.

Lemma co_runs_single n m p c s prev fuel :
  single p c s -> runs_fuel n c (co_env s) = Some m -> (m <= fuel)%nat ->
  exists s', co_runs n fuel prev s = Ok (expected n c (co_env s)).1 s' /\
    co_env s' = (expected n c (co_env s)).2.
Proof.
  revert m c s. induction n as [|n IH]; intros m c s Hs Hm Hf; [by exists s|].
  cbn [co_runs expected runs_fuel] in *. destruct c as [c|].
  - destruct (seg_steps c (co_env s)) as [a|] eqn:Ea; [|done]. cbn [mbind option_bind] in Hm.
    destruct (runs_fuel n _ _) as [b|] eqn:Eb in Hm; [|done]. cbn in Hm. simplify_eq.
    destruct (co_run_single p c s prev a fuel Hs Ea) as (s1 & E1 & _ & He & Hs1); [lia|].
    destruct (segment c (co_env s)) as [e' c'] eqn:Es. cbn [fst snd] in *. subst e'.
    destruct (IH b c' s1 Hs1 Eb) as (s2 & E2 & He2); [lia|].
    destruct (expected n c' (co_env s1)) as [rs e2]. exists s2. split; [|done].
    erewrite bind_ok; [|exact E1]. cbn beta. erewrite bind_ok; [|exact E2]. done.
  - destruct (IH O None s Hs) as (s2 & E2 & He2); [by destruct n|lia|].
    destruct (expected n None (co_env s)) as [rs e2]. exists s2. split; [|done].
    assert (E1 : co_run fuel prev s = Ok 0 s).
    { destruct Hs as [_ Hl]. unfold co_run. erewrite bind_ok; [|reflexivity]. by rewrite Hl. }
    erewrite bind_ok; [|exact E1]. cbn beta. erewrite bind_ok; [|exact E2]. done.
Qed.

(** [co_new] when no coroutine is live. *)
Lemma co_new_first fuel p stack junk func s : co_list s = 0 -> p <> 0 -> stack <> 0 ->
  co_new fuel p stack junk func s =
    Ok p (set_list p (set_heap (<[p := mk_coroutine (Entry func) junk stack]> (co_heap s)) s)).
Proof.
  intros Hl Hp Hst. unfold co_new. rewrite (proj2 (Z.eqb_neq p 0) Hp), (proj2 (Z.eqb_neq stack 0) Hst).
  erewrite bind_ok; [|reflexivity]. erewrite bind_ok; [|reflexivity]. cbn beta.
  cbn [co_list set_heap]. rewrite Hl. cbn [Z.eqb]. reflexivity.
Qed.

(** C36: one coroutine works as documented.  Create a coroutine in a library that has none
    ([malloc] succeeds and the memory it returns is zero in the field [next]); then call
    [co_run] any number of times.  Each call runs the body from where it stopped to its
    next [co_yield], [co_exit] or end and returns 1; once the body has ended, every call
    returns 0 and runs nothing. *)
Theorem co_single fuel n m p stack func prev s :
  co_list s = 0 -> p <> 0 -> stack <> 0 -> runs_fuel n (Some func) (co_env s) = Some m -> (m <= fuel)%nat ->
  exists s', (co_new fuel p stack 0 func ≫= fun _ => co_runs n fuel prev) s =
      Ok (expected n (Some func) (co_env s)).1 s' /\
    co_env s' = (expected n (Some func) (co_env s)).2.
Proof.
  intros Hl Hp Hst Hm Hf.
  erewrite bind_ok; [|by apply co_new_first]. cbn beta.
  set (s1 := set_list p _).
  apply (co_runs_single n m p (Some func) s1 prev fuel); [|done..]. split; [done|]. split; [done|].
  exists (mk_coroutine (Entry func) 0 stack). cbn. rewrite lookup_insert_eq. split; [done|]. by split; [|left].
Qed.

(** ** Several coroutines *)

(** The addresses on the list from [p]. *)
Inductive listed (h : gmap Z coroutine) : Z -> list Z -> Prop :=
| listed_nil : listed h 0 []
| listed_cons p x l : p <> 0 -> h !! p = Some x -> listed h (co_next x) l -> listed h p (p :: l).

Lemma listed_insert h p l q x : listed h p l -> q ∉ l -> listed (<[q := x]> h) p l.
Proof.
  induction 1 as [|p y l Hp Hy Hl IH]; intros Hq; [constructor|].
  apply not_elem_of_cons in Hq as [Hq Hq']. econstructor; [done| |by apply IH].
  by rewrite lookup_insert_ne.
Qed.

Lemma co_last_listed h p l s fuel :
  listed h p l -> co_heap s = h -> p <> 0 -> (length l <= fuel)%nat -> exists q, co_last fuel p s = Ok q s.
Proof.
  intros Hl. revert s fuel. induction Hl as [|p x l Hp Hx Hl IH]; intros s fuel Hs Hne Hf; [done|].
  cbn [length] in Hf. destruct fuel as [|fuel]; [lia|]. cbn [co_last]. unfold co_at. erewrite bind_ok; [|erewrite bind_ok; [|reflexivity]; cbn; rewrite Hs, Hx; reflexivity].
  cbn beta. destruct (Z.eqb_spec (co_next x) 0) as [E|E]; cbn [negb]; [by exists p|]. apply IH; [done..|lia].
Qed.

(** [co_new] when some coroutine is live. *)
Lemma co_new_more fuel p stack junk func s l :
  listed (co_heap s) (co_list s) l -> l <> [] -> p ∉ l -> p <> 0 -> stack <> 0 -> (length l <= fuel)%nat ->
  co_new fuel p stack junk func s =
    Ok p (set_heap (<[p := mk_coroutine (Entry func) junk stack]> (co_heap s)) s).
Proof.
  intros Hl Hne Hnin Hp Hst Hf.
  set (s1 := set_heap (<[p := mk_coroutine (Entry func) junk stack]> (co_heap s)) s).
  assert (Hl1 : listed (co_heap s1) (co_list s1) l) by by apply listed_insert.
  assert (Hl0 : co_list s <> 0) by (inversion Hl; subst; [done|congruence]).
  destruct (co_last_listed _ _ l s1 fuel Hl1 eq_refl Hl0 Hf) as [q Eq].
  unfold co_new.
  rewrite (proj2 (Z.eqb_neq p 0) Hp), (proj2 (Z.eqb_neq stack 0) Hst).
  erewrite bind_ok; [|reflexivity]. erewrite bind_ok; [|reflexivity]. cbn beta.
  change (co_list _) with (co_list s). rewrite (proj2 (Z.eqb_neq _ 0) Hl0).
  erewrite bind_ok; [reflexivity|]. erewrite bind_ok; [|exact Eq]. done.
Qed.

(** C37: [co_new] loses every coroutine but the first.  When the list of live coroutines is
    not empty, [co_new] returns its new coroutine as if it had succeeded, but the list is
    the same as before: the new coroutine is not on it, and [co_run], [co_run_all] and
    [co_yield], which only follow the list, cannot reach it. *)
Theorem co_new_lost fuel p stack junk func s l :
  listed (co_heap s) (co_list s) l -> l <> [] -> p ∉ l -> p <> 0 -> stack <> 0 -> (length l <= fuel)%nat ->
  exists s', co_new fuel p stack junk func s = Ok p s' /\
    co_list s' = co_list s /\ listed (co_heap s') (co_list s') l /\ p ∉ l.
Proof.
  intros Hl Hne Hnin Hp Hst Hf.
  rewrite (co_new_more _ _ _ _ _ _ l) by done. eexists. split; [reflexivity|]. split; [done|]. split; [by apply listed_insert|done].
Qed.

(** [co_run_all] with one live coroutine that yields. *)
Lemma co_run_all_single m p c k s prev n fuel :
  single p (Some c) s -> (segment c (co_env s)).2 = Some k -> seg_steps c (co_env s) = Some n -> (n + 2 <= fuel)%nat ->
  exists s', co_run_all (S (S m)) fuel prev s = Ok 1 s' /\ dom (co_heap s') = dom (co_heap s) /\
    co_env s' = (segment c (co_env s)).1 /\ single p (Some k) s'.
Proof.
  intros Hs Hk Hst Hf. destruct (co_run_single p c s prev n fuel Hs Hst Hf) as (s1 & E & Hd & He & Hs1).
  rewrite Hk in Hs1. exists s1. split; [|done]. destruct Hs as (Hp & Hl & _).
  destruct Hs1 as (_ & _ & x & Hx & Hn & _). unfold co_run_all.
  erewrite bind_ok; [|reflexivity]. cbn beta. rewrite Hl, (proj2 (Z.eqb_neq p 0) Hp).
  erewrite bind_ok; [reflexivity|]. cbn [co_run_all_loop]. rewrite (proj2 (Z.eqb_neq p 0) Hp).
  erewrite bind_ok; [|exact E]. unfold co_at.
  erewrite bind_ok; [|erewrite bind_ok; [|reflexivity]; cbn; rewrite Hx; reflexivity].
  cbn beta. by rewrite Hn.
Qed.

(** [co_run_all] does not keep a coroutine running until it is done: with one live
    coroutine it runs one segment and returns 1, and a coroutine that has yielded is
    still live. *)
Theorem co_run_all_once p c k s prev n fuel :
  single p (Some c) s -> (segment c (co_env s)).2 = Some k -> seg_steps c (co_env s) = Some n -> (n + 2 <= fuel)%nat ->
  exists s', co_run_all 2 fuel prev s = Ok 1 s' /\ single p (Some k) s'.
Proof.
  intros Hs Hk Hst Hf. destruct (co_run_all_single O p c k s prev n fuel Hs Hk Hst Hf) as (s' & E & _ & _ & Hs'). by exists s'.
Qed.

(** [co_yield] outside a coroutine follows the null pointer: it faults instead of doing
    nothing. *)
Theorem co_yield_host_faults jump k s :
  co_current s = 0 -> co_heap s !! 0 = None -> co_yield jump k s = Err (EFault "coroutine").
Proof.
  intros Hc Hh. unfold co_yield, co_at. erewrite bind_ok; [|reflexivity]. cbn beta. rewrite Hc.
  unfold mbind, M_bind, get. by rewrite Hh.
Qed.
End Coroutine.

(** ** An instance: the variables are one number, the body adds to it. *)
Definition demo_body : @code Z :=
  Act (fun e => e + 1) (fun _ => Yield (Act (fun e => 10 * e) (fun e => if e =? 1 then Return else Exit Return))).
Definition demo_co : @costate Z := mk_costate Null 0 0 ∅ 0.

Lemma co_single_witness : exists s',
  (co_new 8 32 64 0 demo_body ≫= fun _ => co_runs 4 8 0) demo_co = Ok [1; 1; 0; 0] s' /\ co_env s' = 10.
Proof.
  destruct (co_single 8 4 3 32 64 demo_body 0 demo_co) as (s' & E & He);
    [reflexivity|discriminate|discriminate|reflexivity|lia|].
  exists s'. split; [exact E|exact He].
Defined.

Definition demo_one : @costate Z :=
  mk_costate Null 0 32 {[32 := mk_coroutine (Entry demo_body) 0 64]} 0.

Lemma co_new_lost_witness : exists s',
  co_new 1 96 128 0 demo_body demo_one = Ok 96 s' /\ co_list s' = 32 /\ listed (co_heap s') 32 [32].
Proof.
  destruct (co_new_lost 1 96 128 0 demo_body demo_one [32]) as (s' & E & Hl & Hli & _).
  - econstructor; [discriminate|reflexivity|constructor].
  - discriminate.
  - intros H. apply list_elem_of_singleton in H. discriminate.
  - discriminate.
  - discriminate.
  - cbn. lia.
  - exists s'. split; [exact E|]. split; [exact Hl|]. rewrite Hl in Hli. exact Hli.
Defined.

Lemma co_run_all_once_witness : exists s', co_run_all 2 8 0 demo_one = Ok 1 s' /\ co_list s' = 32.
Proof.
  destruct (co_run_all_once 32 demo_body (Act (fun e => 10 * e) (fun e => if e =? 1 then Return else Exit Return))
    demo_one 0 1 8) as (s' & E & Hs).
  - split; [discriminate|]. split; [reflexivity|]. eexists. split; [reflexivity|]. split; [reflexivity|]. left. reflexivity.
  - reflexivity.
  - reflexivity.
  - lia.
  - exists s'. split; [exact E|]. apply Hs.
Defined.

Lemma co_yield_host_faults_witness : co_yield (fun _ => mret tt) Host demo_co = Err (EFault "coroutine").
Proof. apply co_yield_host_faults; reflexivity. Defined.
