(* ===== verification/CoProg.v ===== *)
(** The programs that use the coroutine library: [src/co_easy.c], [src/co_normal.c] and
    [src/co_hard.c], run on the library of [Coroutine.v].

    Their variables are the environment of the coroutines; the output of [printf] is kept
    with them.  What the two [malloc]s of each [co_new] return and the contents of the field
    [next] of the new memory are inputs.  [exit] ends [main]. *)
From Stdlib Require Import ZArith Lia.
From stdpp Require Import base gmap sets strings numbers list.
From S2P Require Import Prelude Ulib Console Printf Coroutine.

Local Open Scope Z_scope.

Record pvars : Type := mk_pvars {
  nr_tasks : Z;
  shared_var : Z;
  locked : Z;
  printed : list Z
}.
Definition set_nr_tasks (n : Z) (v : pvars) : pvars := mk_pvars n (shared_var v) (locked v) (printed v).
Definition set_shared_var (n : Z) (v : pvars) : pvars := mk_pvars (nr_tasks v) n (locked v) (printed v).
Definition set_locked (n : Z) (v : pvars) : pvars := mk_pvars (nr_tasks v) (shared_var v) n (printed v).
(** [shared_var++] *)
Definition incr_shared (v : pvars) : pvars := set_shared_var (i32 (shared_var v + 1)) v.
(** [printf(1, fmt, ...)] *)
Definition say (fmt : list Z) (ap : list va) (v : pvars) : pvars :=
  mk_pvars (nr_tasks v) (shared_var v) (locked v) (printed v ++ printf fmt ap).
Definition ln (s : string) : list Z := bytes_of s ++ [10].

Notation cocode := (@code pvars).
Notation comach := (@costate pvars).

(** A step of a coroutine that needs none of the variables. *)
Definition act (f : pvars -> pvars) (k : cocode) : cocode := Act f (fun _ => k).
(** Reading the variables. *)
Definition look (k : pvars -> cocode) : cocode := Act (fun v => v) k.

(** ** The coroutines *)
Definition co_hello : cocode :=
  act (say (ln "Hello coroutine!") [])
    (Yield (act (say (ln "Hello Again!") []) Return)).

(** The [for] of [co_take_turns], with [n] rounds to go. *)
Fixpoint take_turns (n : nat) (rank : Z) : cocode :=
  match n with
  | O => Return
  | S n' =>
      Yield (look (fun v =>
        if rank =? Z.rem (shared_var v) (nr_tasks v) then
          act (say (bytes_of " %d") [VInt rank]) (act incr_shared (take_turns n' rank))
        else
          act (say (ln "error: shared_var not updated by other coroutines") [])
            (Coroutine.Exit (take_turns n' rank))))
  end.
Definition co_take_turns : cocode := Act incr_shared (fun v => take_turns 6 (shared_var v)).

(** The critical section of [co_lock_worker]: [n] times [co_yield] and the unlock. *)
Fixpoint hold_lock (n : nat) : cocode :=
  match n with
  | O => act (set_locked 0) Return
  | S n' => Yield (hold_lock n')
  end.
Definition got_lock (rank : Z) : cocode :=
  act (set_locked 1) (act (say (ln "co[%d] lock acquired :)") [VInt rank]) (hold_lock 10)).
(** The [do ... while]; it goes round at most [fuel] times. *)
Fixpoint wait_lock (fuel : nat) (rank counter : Z) : cocode :=
  match fuel with
  | O => Spin
  | S fuel' =>
      act (if counter =? 0 then say (ln "co[%d] waiting for the lock") [VInt rank]
           else say (ln "co[%d] the lock is still unavailable :(") [VInt rank])
        (Yield (look (fun v =>
          if negb (locked v =? 0) then wait_lock fuel' rank (i32 (counter + 1)) else got_lock rank)))
  end.
Definition co_lock_worker (fuel : nat) : cocode :=
  Act incr_shared (fun v => let rank := shared_var v in
    look (fun v => if negb (locked v =? 0) then wait_lock fuel rank 0 else got_lock rank)).

(** ** The hosts *)
Definition host (f : pvars -> pvars) : M comach unit := modify (fun s => set_env (f (co_env s)) s).

(** One [co_new]: its two [malloc]s and the field [next]. *)
Record mallocs : Type := mk_mallocs { ma_co : Z; ma_stack : Z; ma_next : Z }.

Section Host.
(** [fuel] is for the loops of the library, [prev] and [arg] are the indeterminate values
    of [co_exit] and of the message below, which has a [%d] and no argument. *)
Context (fuel : nat) (prev arg : Z).

(** [main] of [co_easy] *)
Definition co_easy_main (m : mallocs) : M comach unit :=
  co ← co_new fuel (ma_co m) (ma_stack m) (ma_next m) co_hello;
  host (say (ln "host: one coroutine created!") []);;
  r ← co_run fuel prev;
  if r =? 0 then host (say (ln "host: co_run() failed (1st)") [])
  else
    host (say (ln "host: Expecting one more Hello after this line") []);;
    r ← co_run fuel prev;
    (if r =? 0 then host (say (ln "host: co_run() failed (2nd)") [])
     else host (say (ln "host: coroutine returned") []));;
    co_destroy co.

(** The [for] that creates the coroutines; [None] if it ended in [exit]. *)
Fixpoint create_all (func : cocode) (ms : list mallocs) : M comach (option (list Z)) :=
  match ms with
  | [] => mret (Some [])
  | m :: ms' =>
      co ← co_new fuel (ma_co m) (ma_stack m) (ma_next m) func;
      if co =? 0 then
        host (say (ln "host: create co[%d] failed") [VInt arg]);;
        mret None
      else
        r ← create_all func ms';
        mret (cons co <$> r)
  end.
Fixpoint destroy_all (cos : list Z) : M comach unit :=
  match cos with
  | [] => mret tt
  | co :: cos' => co_destroy co;; destroy_all cos'
  end.

Definition answer_line : list Z :=
  10 :: bytes_of "host: co_run_all() returned; shared_var == %d" ++
  ln " (expecting %d, the answer to the Ultimate Question of Life, the Universe, and Everything)".
Definition failed_line : list Z := 10 :: ln "host: error: co_run_all() failed".

(** [main] of [co_normal] *)
Definition co_normal_main (ms : nat -> mallocs) : M comach unit :=
  host (set_nr_tasks 6);;
  r ← create_all co_take_turns (ms <$> seq 0 6);
  match r with
  | None => mret tt
  | Some co =>
      host (say (ln "host: coroutines created!") []);;
      r ← co_run_all fuel fuel prev;
      (if negb (r =? 0) then
         host (fun v => say answer_line [VInt (shared_var v); VInt (i32 (nr_tasks v * 7))] v)
       else host (say failed_line []));;
      destroy_all co
  end.

(** [main] of [co_hard]; a worker waits at most [wait] rounds. *)
Definition co_hard_main (wait : nat) (ms : nat -> mallocs) : M comach unit :=
  r ← create_all (co_lock_worker wait) (ms <$> seq 0 3);
  match r with
  | None => mret tt
  | Some co =>
      host (say (ln "host: coroutines created!") []);;
      r ← co_run_all fuel fuel prev;
      (if r =? 0 then host (say failed_line []) else mret tt);;
      destroy_all co
  end.
End Host.

(** The state in which a program starts. *)
Definition co_init : comach := mk_costate Null 0 0 ∅ (mk_pvars 0 0 0 []).

(** ** What the programs print *)

(** Memory is found for every coroutine, and it is all different. *)
Definition mallocs_ok (ms : list mallocs) : Prop :=
  Forall (fun m => ma_co m <> 0 /\ ma_stack m <> 0) ms /\ NoDup (ma_co <$> ms).

Section Print.
Context (fuel : nat) (prev arg : Z).
Implicit Types (s : comach) (ms : list mallocs).

(** Further coroutines leave the list with the first as it is. *)
Lemma create_rest func ms s p x :
  p <> 0 -> co_list s = p -> co_heap s !! p = Some x -> co_next x = 0 -> (1 <= fuel)%nat ->
  mallocs_ok ms -> p ∉ ma_co <$> ms ->
  exists h, create_all fuel arg func ms s = Ok (Some (ma_co <$> ms)) (set_heap h s) /\ h !! p = Some x /\
    dom h = dom (co_heap s) ∪ list_to_set (ma_co <$> ms).
Proof.
  intros Hp Hl Hx Hn Hf. revert s Hl Hx. induction ms as [|m ms IH]; intros s Hl Hx [Hall Hnd] Hnin.
  - exists (co_heap s). split; [by destruct s|]. split; [done|]. cbn. set_solver.
  - apply Forall_cons in Hall as [[H1 H2] Hall]. apply NoDup_cons in Hnd as [Hm Hnd].
    apply not_elem_of_cons in Hnin as [Hpm Hnin]. cbn [create_all].
    erewrite bind_ok; [|eapply (co_new_more _ _ _ _ _ _ [p]); [|done|set_solver|done|done|done]].
    2:{ rewrite Hl. econstructor; [done|exact Hx|]. rewrite Hn. constructor. }
    cbn beta. rewrite (proj2 (Z.eqb_neq _ 0) H1). set (s1 := set_heap _ s).
    destruct (IH s1 Hl) as (h & E & Hh & Hd); [cbn; by rewrite lookup_insert_ne|done|done|].
    rewrite (bind_ok _ _ _ _ _ E). exists h. split; [reflexivity|]. split; [exact Hh|].
    rewrite Hd. cbn [s1 set_heap co_heap]. rewrite dom_insert_L. cbn. set_solver.
Qed.

Lemma create_all_ok func m ms s :
  co_list s = 0 -> mallocs_ok (m :: ms) -> ma_next m = 0 -> (1 <= fuel)%nat ->
  exists s', create_all fuel arg func (m :: ms) s = Ok (Some (ma_co <$> m :: ms)) s' /\
    single (ma_co m) (Some func) s' /\ co_env s' = co_env s /\ list_to_set (ma_co <$> m :: ms) ⊆ dom (co_heap s').
Proof.
  intros Hl [Hall Hnd] Hn Hf. apply Forall_cons in Hall as [[H1 H2] Hall]. apply NoDup_cons in Hnd as [Hm Hnd].
  cbn [create_all]. erewrite bind_ok; [|by apply co_new_first]. cbn beta. rewrite (proj2 (Z.eqb_neq _ 0) H1).
  set (s1 := set_list _ _).
  destruct (create_rest func ms s1 (ma_co m) (mk_coroutine (Entry func) (ma_next m) (ma_stack m)))
    as (h & E & Hh & Hd); [done|done|cbn; by rewrite lookup_insert_eq|done..|].
  rewrite (bind_ok _ _ _ _ _ E). exists (set_heap h s1). split; [reflexivity|]. split.
  - split; [done|]. split; [done|]. eexists. split; [exact Hh|]. split; [done|by left].
  - split; [done|]. cbn [set_heap co_heap]. rewrite Hd. cbn. rewrite dom_insert_L. set_solver.
Qed.

Lemma destroy_all_ok cos s : NoDup cos -> Forall (fun co => co <> 0) cos -> list_to_set cos ⊆ dom (co_heap s) ->
  exists h, destroy_all cos s = Ok tt (set_heap h s).
Proof.
  intros Hnd. revert s. induction Hnd as [|co cos Hco Hnd IH]; intros s Hall Hd.
  - exists (co_heap s). by destruct s.
  - apply Forall_cons in Hall as [H1 Hall]. cbn [destroy_all].
    assert (Hin : co ∈ dom (co_heap s)) by (cbn in Hd; set_solver). apply elem_of_dom in Hin as [x Hx].
    assert (E : co_destroy co s = Ok tt (set_heap (delete co (co_heap s)) s)).
    { unfold co_destroy. rewrite (proj2 (Z.eqb_neq _ 0) H1). unfold co_at, mbind, M_bind, get, deref. by rewrite Hx. }
    rewrite (bind_ok _ _ _ _ _ E).
    destruct (IH (set_heap (delete co (co_heap s)) s) Hall) as [h Eh]; [cbn in *; rewrite dom_delete_L; set_solver|].
    exists h. rewrite Eh. by destruct s.
Qed.

Lemma mallocs_nonzero ms : mallocs_ok ms -> Forall (fun co => co <> 0) (ma_co <$> ms).
Proof. intros [Hall _]. apply Forall_fmap. by eapply Forall_impl; [exact Hall|]; intros m [H _]. Qed.

(** Creating several coroutines that yield at once and running them with [co_run_all]: only
    the first runs, up to its first [co_yield]. *)
Lemma create_run func m ms s f k n :
  co_list s = 0 -> mallocs_ok (m :: ms) -> ma_next m = 0 ->
  (segment func (f (co_env s))).2 = Some k -> seg_steps func (f (co_env s)) = Some n -> (n + 2 <= fuel)%nat ->
  exists s1 s2, create_all fuel arg func (m :: ms) s = Ok (Some (ma_co <$> m :: ms)) s1 /\ co_env s1 = co_env s /\
    (host f;; co_run_all fuel fuel prev) s1 = Ok 1 s2 /\ co_env s2 = (segment func (f (co_env s))).1 /\
    forall v, exists h, destroy_all (ma_co <$> m :: ms) (set_env v s2) = Ok tt (set_heap h (set_env v s2)).
Proof.
  intros Hl Hm Hn Hk Hst Hf. destruct (create_all_ok func m ms s Hl Hm Hn) as (s1 & E1 & H1 & He & Hd); [lia|].
  assert (exists fuel', fuel = S (S fuel')) as [fuel' Ef] by (exists (fuel - 2)%nat; lia).
  rewrite <- He in Hk, Hst |- *.
  destruct (co_run_all_single fuel' (ma_co m) func k (set_env (f (co_env s1)) s1) prev n fuel) as (s2 & E2 & D2 & He2 & _);
    [exact H1|exact Hk|exact Hst|lia|].
  exists s1, s2. split; [exact E1|]. split; [done|]. split; [erewrite bind_ok; [|reflexivity]; rewrite Ef at 1; exact E2|].
  split; [exact He2|]. intros v. apply destroy_all_ok; [apply Hm|by apply mallocs_nonzero|].
  cbn [co_heap set_env] in *. by rewrite D2.
Qed.

(** C38: [co_normal] does not give its answer.  Whenever all its memory is granted (zeroed
    where the first coroutine lies), the program runs to its end; but of the six coroutines
    only the first takes its rank, none takes a turn, and the program prints that
    [shared_var] is 1 where it expects 42. *)
Theorem co_normal_answer (ms : nat -> mallocs) :
  mallocs_ok (ms <$> seq 0 6) -> ma_next (ms O) = 0 -> (4 <= fuel)%nat ->
  exists s, co_normal_main fuel prev arg ms co_init = Ok tt s /\
    printed (co_env s) = ln "host: coroutines created!" ++ printf answer_line [VInt 1; VInt 42].
Proof using Type*.
  intros Hm Hn Hf. unfold co_normal_main. erewrite bind_ok; [|reflexivity].
  set (s0 := set_env (set_nr_tasks 6 (co_env co_init)) co_init).
  destruct (create_run co_take_turns (ms O) (ms <$> seq 1 5) s0 (say (ln "host: coroutines created!") [])
    (match take_turns 6 0 with Yield c => c | c => c end) 1)
    as (s1 & s2 & E1 & He1 & E2 & He2 & Hd); [done|done|done|reflexivity|reflexivity|lia|].
  rewrite (bind_ok _ _ _ _ _ E1). cbn beta iota.
  apply bind_ok_inv in E2 as ([] & s1' & E0 & E2). rewrite (bind_ok _ _ _ _ _ E0), (bind_ok _ _ _ _ _ E2).
  cbn [negb Z.eqb]. erewrite bind_ok; [|reflexivity]. rewrite He2.
  destruct (Hd (say answer_line [VInt 1; VInt 42] (segment co_take_turns (say (ln "host: coroutines created!") [] (co_env s0))).1)) as [h Eh].
  eexists. split; [exact Eh|]. reflexivity.
Qed.

(** [co_hard] neither shows the lock working: the first worker takes it and is never run
    again, so it is not given back, and the other two never ask for it. *)
Theorem co_hard_stuck wait (ms : nat -> mallocs) :
  mallocs_ok (ms <$> seq 0 3) -> ma_next (ms O) = 0 -> (6 <= fuel)%nat ->
  exists s, co_hard_main fuel prev arg wait ms co_init = Ok tt s /\ locked (co_env s) = 1 /\
    printed (co_env s) = ln "host: coroutines created!" ++ ln "co[0] lock acquired :)".
Proof using Type*.
  intros Hm Hn Hf. unfold co_hard_main.
  destruct (create_run (co_lock_worker wait) (ms O) (ms <$> seq 1 2) co_init (say (ln "host: coroutines created!") [])
    (hold_lock 9) 4) as (s1 & s2 & E1 & He1 & E2 & He2 & Hd); [done|done|done|reflexivity|reflexivity|lia|].
  rewrite (bind_ok _ _ _ _ _ E1). cbn beta iota.
  apply bind_ok_inv in E2 as ([] & s1' & E0 & E2). rewrite (bind_ok _ _ _ _ _ E0), (bind_ok _ _ _ _ _ E2).
  cbn [Z.eqb]. erewrite bind_ok; [|reflexivity].
  destruct (Hd (co_env s2)) as [h Eh]. replace (set_env (co_env s2) s2) with s2 in Eh by by destruct s2.
  eexists. split; [exact Eh|]. cbn [co_env set_heap]. rewrite He2. by split.
Qed.

(** [co_easy] works: with its memory granted and zeroed it prints the two greetings in
    turn with the host's lines. *)
Theorem co_easy_prints (m : mallocs) :
  ma_co m <> 0 -> ma_stack m <> 0 -> ma_next m = 0 -> (3 <= fuel)%nat ->
  exists s, co_easy_main fuel prev m co_init = Ok tt s /\
    printed (co_env s) = ln "host: one coroutine created!" ++ ln "Hello coroutine!" ++
      ln "host: Expecting one more Hello after this line" ++ ln "Hello Again!" ++ ln "host: coroutine returned".
Proof using Type*.
  intros H1 H2 Hn Hf. unfold co_easy_main. erewrite bind_ok; [|by apply co_new_first]. cbn beta.
  set (s1 := set_list _ _). erewrite bind_ok; [|reflexivity]. set (s2 := set_env _ s1).
  assert (Hs2 : single (ma_co m) (Some co_hello) s2).
  { split; [done|]. split; [done|]. exists (mk_coroutine (Entry co_hello) 0 (ma_stack m)). cbn. rewrite lookup_insert_eq, Hn.
    split; [done|]. split; [done|by left]. }
  destruct (co_run_single _ _ s2 prev 1 fuel Hs2 eq_refl) as (s3 & E3 & D3 & He3 & Hs3); [lia|].
  rewrite (bind_ok _ _ _ _ _ E3). cbn [Z.eqb]. erewrite bind_ok; [|reflexivity].
  set (s4 := set_env _ s3).
  destruct (co_run_single (ma_co m) (act (say (ln "Hello Again!") []) Return) s4 prev 1 fuel Hs3 eq_refl)
    as (s5 & E5 & D5 & He5 & _); [lia|].
  rewrite (bind_ok _ _ _ _ _ E5). cbn [Z.eqb]. erewrite bind_ok; [|reflexivity]. set (s6 := set_env _ s5).
  destruct (destroy_all_ok [ma_co m] s6) as [h Eh].
  { apply NoDup_singleton. }
  { by constructor. }
  { cbn [s6 set_env co_heap]. rewrite D5. cbn [s4 set_env co_heap]. rewrite D3. cbn. rewrite dom_insert_L. set_solver. }
  exists (set_heap h s6). split.
  - cbn [destroy_all] in Eh. apply bind_ok_inv in Eh as ([] & s7 & E7 & E8). rewrite E7. exact E8.
  - cbn [set_heap co_env s6 set_env]. rewrite He5. cbn [s4 set_env co_env]. rewrite He3. reflexivity.
Qed.
End Print.

Definition demo_mallocs (i : nat) : mallocs := mk_mallocs (16384 * (Z.of_nat i + 1)) (16384 * (Z.of_nat i + 1) + 32) 0.

Lemma co_normal_answer_witness : exists s, co_normal_main 8 0 0 demo_mallocs co_init = Ok tt s /\
  printed (co_env s) = ln "host: coroutines created!" ++ printf answer_line [VInt 1; VInt 42].
Proof.
  apply (co_normal_answer 8 0 0 demo_mallocs).
  - split; [|vm_compute; repeat (constructor; [set_solver|]); constructor].
    vm_compute. repeat constructor; discriminate.
  - reflexivity.
  - lia.
Defined.
