(* ===== verification/Sh.v ===== *)
(** The shell's parser, [src/sh.c].

    [buf] are the bytes of the command line before its NUL; a [char *] into it is a
    position.  The parser's state is the position [*ps].  A token is the pair of its
    positions [q] and [eq]. *)
From Stdlib Require Import ZArith Lia.
From stdpp Require Import base gmap sets strings numbers list.
From S2P Require Import Prelude State Console.

Local Open Scope Z_scope.

Definition whitespace : list Z := [32; 9; 13; 10; 11].
Definition symbols : list Z := bytes_of "<|>&;()".
Definition MAXARGS : nat := 10.

Notation token := (nat * nat)%type (only parsing).

(** Commands over a type of strings: tokens in the parser, byte strings in its
    specification. *)
Inductive command (A : Type) : Type :=
| Exec (argv : list A)
| Redir (c : command A) (file : A) (mode fd : Z)
| Pipe (left right : command A)
| List (left right : command A)
| Back (c : command A).
Arguments Exec {A} argv.
Arguments Redir {A} c file mode fd.
Arguments Pipe {A} left right.
Arguments List {A} left right.
Arguments Back {A} c.

Definition cmd : Type := command token.

(** [strchr(set, c)] is not null; for [c] NUL it is. *)
Definition strchr (set : list Z) (c : Z) : bool := negb (c =? 0) && bool_decide (c ∈ set).
Definition is_space (c : Z) : bool := strchr whitespace c.
Definition is_symbol (c : Z) : bool := strchr symbols c.

(** The lengths that the scanning loops pass over. *)
Fixpoint space_len (l : list Z) : nat :=
  match l with
  | c :: l' => if is_space c then S (space_len l') else O
  | [] => O
  end.
Fixpoint word_len (l : list Z) : nat :=
  match l with
  | c :: l' => if negb (is_space c) && negb (is_symbol c) then S (word_len l') else O
  | [] => O
  end.

Section Parser.
Context (buf : list Z).

Definition char_at (s : nat) : Z := default 0 (buf !! s).
Definition skip (s : nat) : nat := s + space_len (drop s buf).

(** The [switch] of [gettoken]: the kind of the token at [s] and its end. *)
Definition lex (s : nat) : Z * nat :=
  let c := char_at s in
  if c =? 0 then (0, s)
  else if bool_decide (c ∈ bytes_of "|();&<") then (c, S s)
  else if c =? chr ">" then
    if char_at (S s) =? chr ">" then (chr "+", S (S s)) else (c, S s)
  else (chr "a", s + word_len (drop s buf))%nat.

(** [gettoken]: the kind of the token and the positions [q] and [eq]. *)
Definition gettoken : M nat (Z * token) :=
  s ← get;
  let q := skip s in
  let '(ret, eq) := lex q in
  put (skip eq);;
  mret (ret, (q, eq)).

Definition peek (toks : list Z) : M nat bool :=
  s ← get;
  put (skip s);;
  mret (strchr toks (char_at (skip s))).

(** The redirections that the loop of [parseredirs] reads, in order. *)
Fixpoint redirs (fuel : nat) : M nat (list (token * Z * Z)) :=
  match fuel with
  | O => fail EFuel
  | S fuel' =>
      b ← peek (bytes_of "<>");
      if (b : bool) then
        '(tok, _) ← gettoken;
        '(k, file) ← gettoken;
        if negb (k =? chr "a") then panic "missing file for redirection" else
        rs ← redirs fuel';
        mret ((if tok =? chr "<" then (file, O_RDONLY, 0)
               else (file, Z.lor O_WRONLY O_CREATE, 1)) :: rs)
      else mret []
  end.

Definition redircmd {A} (c : command A) (r : A * Z * Z) : command A :=
  let '(file, mode, fd) := r in Redir c file mode fd.

Definition parseredirs (fuel : nat) (c : cmd) : M nat cmd :=
  rs ← redirs fuel;
  mret (foldl redircmd c rs).

(** The loop of [parseexec]: the arguments and the redirections between them.  The
    redirections wrap a pointer to the command whose arguments are still being filled in,
    so they are applied to the finished command. *)
Fixpoint parseargs (fuel : nat) (argv : list token) : M nat (list token * list (token * Z * Z)) :=
  match fuel with
  | O => fail EFuel
  | S fuel' =>
      b ← peek (bytes_of "|)&;");
      if (b : bool) then mret (argv, []) else
      '(tok, w) ← gettoken;
      if tok =? 0 then mret (argv, [])
      else if negb (tok =? chr "a") then panic "syntax"
      else if (MAXARGS <=? length (argv ++ [w]))%nat then panic "too many args"
      else
        rs ← redirs fuel';
        '(argv, rs') ← parseargs fuel' (argv ++ [w]);
        mret (argv, rs ++ rs')
  end.

(** The loop of [parseline] over the ampersands. *)
Fixpoint parseback (fuel : nat) (c : cmd) : M nat cmd :=
  match fuel with
  | O => fail EFuel
  | S fuel' =>
      b ← peek (bytes_of "&");
      if (b : bool) then gettoken;; parseback fuel' (Back c) else mret c
  end.

Fixpoint parseline (fuel : nat) : M nat cmd :=
  match fuel with
  | O => fail EFuel
  | S fuel' =>
      c ← parsepipe fuel';
      c ← parseback fuel' c;
      b ← peek (bytes_of ";");
      if (b : bool) then gettoken;; r ← parseline fuel'; mret (List c r) else mret c
  end
with parsepipe (fuel : nat) : M nat cmd :=
  match fuel with
  | O => fail EFuel
  | S fuel' =>
      c ← parseexec fuel';
      b ← peek (bytes_of "|");
      if (b : bool) then gettoken;; r ← parsepipe fuel'; mret (Pipe c r) else mret c
  end
with parseexec (fuel : nat) : M nat cmd :=
  match fuel with
  | O => fail EFuel
  | S fuel' =>
      b ← peek (bytes_of "(");
      if (b : bool) then parseblock fuel' else
      rs ← redirs fuel';
      '(argv, rs') ← parseargs fuel' [];
      mret (foldl redircmd (Exec argv) (rs ++ rs'))
  end
with parseblock (fuel : nat) : M nat cmd :=
  match fuel with
  | O => fail EFuel
  | S fuel' =>
      b ← peek (bytes_of "(");
      if negb b then panic "parseblock" else
      gettoken;;
      c ← parseline fuel';
      b ← peek (bytes_of ")");
      if negb b then panic "syntax - missing )" else
      gettoken;;
      parseredirs fuel' c
  end.
End Parser.

(** [nulterminate]: a NUL at the end of every token, on the line with its terminator. *)
Fixpoint nulterminate (c : cmd) (line : list Z) : list Z :=
  match c with
  | Exec argv => foldl (fun l (t : token) => <[t.2 := 0]> l) line argv
  | Redir c file _ _ => <[file.2 := 0]> (nulterminate c line)
  | Pipe l r => nulterminate r (nulterminate l line)
  | List l r => nulterminate r (nulterminate l line)
  | Back c => nulterminate c line
  end.

(** Every recursive call follows a token or is one of four in a row, so eight per byte of
    the line are enough. *)
Definition parse_fuel (buf : list Z) : nat := 8 * S (S (length buf)).

(** [parsecmd]: the command and the line after [nulterminate]. *)
Definition parsecmd (buf : list Z) : M nat (cmd * list Z) :=
  put O;;
  c ← parseline buf (parse_fuel buf);
  peek buf [];;
  s ← get;
  if negb (s =? length buf)%nat then panic "syntax" else
  mret (c, nulterminate c (buf ++ [0])).
