(* ===== verification/ShSpec.v ===== *)
(** What the shell's parser ([Sh]) does: printing a command and parsing it gives the
    command back. *)
From Stdlib Require Import ZArith Lia.
From stdpp Require Import base gmap sets strings numbers list.
From S2P Require Import Prelude State Console Sh.

Local Open Scope Z_scope.

(** Run one call of the parser whose result is known. *)
Tactic Notation "run" uconstr(H) := cbn beta iota; erewrite bind_ok; [|apply H]; cbn beta iota.

(** ** Token streams

    A printed line is a sequence of words and symbols, each followed by a space. *)
Inductive tok : Type :=
| W (w : list Z)
| Y (c : Z).

Definition word_char (c : Z) : bool := negb (c =? 0) && negb (is_space c) && negb (is_symbol c).
Definition word (w : list Z) : Prop := w <> [] /\ Forall (fun c => word_char c = true) w.

Definition tok_ok (t : tok) : Prop :=
  match t with
  | W w => word w
  | Y c => c ∈ symbols
  end.
Definition text (t : tok) : list Z := match t with W w => w | Y c => [c] end.
Definition kind (t : tok) : Z := match t with W _ => chr "a" | Y c => c end.
Definition first (t : tok) : Z := default 0 (head (text t)).

Fixpoint flat (ts : list tok) : list Z :=
  match ts with
  | [] => []
  | t :: ts' => text t ++ 32 :: flat ts'
  end.

Lemma flat_app ts ts' : flat (ts ++ ts') = flat ts ++ flat ts'.
Proof. induction ts as [|t ts IH]; [done|]. simpl. by rewrite IH, <-app_assoc. Qed.

Lemma symbol_cases c : c ∈ symbols -> c = 60 \/ c = 124 \/ c = 62 \/ c = 38 \/ c = 59 \/ c = 40 \/ c = 41.
Proof. intros H. apply list_elem_of_In in H. simpl in H. lia. Qed.

(** A token starts with a byte that is neither NUL nor a space. *)
Lemma tok_first t : tok_ok t -> exists l, text t = first t :: l /\ first t <> 0 /\ is_space (first t) = false.
Proof.
  destruct t as [w|c]; simpl.
  - intros [Hne Hw]. destruct w as [|c w]; [done|]. apply Forall_cons in Hw as [Hc _].
    exists w. unfold word_char in Hc. cbn. unfold id. split; [done|].
    destruct (Z.eqb_spec c 0); [done|]. split; [done|]. by destruct (is_space c).
  - intros Hc. exists []. cbn. unfold id. split; [done|].
    apply symbol_cases in Hc as [->|[->|[->|[->|[->|[->| ->]]]]]]; done.
Qed.

Lemma word_len_word w l :
  Forall (fun c => word_char c = true) w -> word_len (w ++ 32 :: l) = length w.
Proof.
  induction 1 as [|c w Hc _ IH]; [done|]. cbn [app word_len].
  unfold word_char in Hc. destruct (is_space c), (is_symbol c), (c =? 0); cbn in Hc; try done.
  cbn. by rewrite IH.
Qed.

Section Stream.
Context (buf : list Z).

(** The parser stands before the tokens [ts], which end the line. *)
Definition before (s : nat) (ts : list tok) : Prop :=
  drop s buf = flat ts /\ (s <= length buf)%nat /\ Forall tok_ok ts.

Lemma char_at_drop s c l : drop s buf = c :: l -> char_at buf s = c.
Proof.
  intros H. unfold char_at. rewrite <-(Nat.add_0_r s), <-lookup_drop, H. done.
Qed.

Lemma drop_more s l l' : drop s buf = l ++ l' -> drop (s + length l) buf = l'.
Proof. intros H. rewrite <-drop_drop, H. by rewrite drop_app_length. Qed.

Lemma drop_bound s l : drop s buf = l -> (s <= length buf)%nat -> (s + length l = length buf)%nat.
Proof. intros <- Hs. rewrite length_drop. lia. Qed.

Lemma before_end s : before s [] <-> s = length buf.
Proof.
  unfold before. simpl. split.
  - intros (H & Hs & _). pose proof (drop_bound s [] H Hs). simpl in *. lia.
  - intros ->. rewrite drop_all. split; [done|]. split; [lia|constructor].
Qed.

Lemma skip_before s ts : before s ts -> skip buf s = s.
Proof.
  intros (H & _ & Hok). unfold skip. rewrite H. destruct ts as [|t ts]; simpl; [lia|].
  apply Forall_cons in Hok as [Ht _]. destruct (tok_first t Ht) as (l & -> & _ & Hsp).
  cbn. rewrite Hsp. lia.
Qed.

Lemma before_next s t ts :
  before s (t :: ts) -> before (S (s + length (text t))) ts /\ skip buf (s + length (text t)) = S (s + length (text t)).
Proof.
  intros (H & Hs & Hok). apply Forall_cons in Hok as [Ht Hok]. simpl in H.
  pose proof (drop_more _ _ _ H) as H1.
  assert (H2 : drop (S (s + length (text t))) buf = flat ts).
  { rewrite <-Nat.add_1_r. by apply (drop_more _ [32]). }
  assert (Hb : before (S (s + length (text t))) ts).
  { split; [done|]. split; [|done]. apply drop_bound in H; [|done].
    rewrite length_app in H. simpl in H. lia. }
  split; [done|]. unfold skip. rewrite H1. cbn [space_len].
  change (is_space 32) with true. cbn iota. pose proof (skip_before _ _ Hb) as Hsk. unfold skip in Hsk.
  rewrite H2 in Hsk. lia.
Qed.

Lemma char_before s t ts : before s (t :: ts) -> char_at buf s = first t.
Proof.
  intros (H & _ & Hok). apply Forall_cons in Hok as [Ht _].
  destruct (tok_first t Ht) as (l & E & _). simpl in H. rewrite E in H. by apply (char_at_drop s _ _ H).
Qed.

Lemma peek_tok s t ts set : before s (t :: ts) -> peek buf set s = Ok (strchr set (first t)) s.
Proof.
  intros Hb. unfold peek. erewrite bind_ok; [|reflexivity]. cbn beta.
  rewrite (skip_before s _ Hb), (char_before s t ts Hb). done.
Qed.

Lemma peek_sym b s c ts set :
  before s (Y c :: ts) -> strchr set c = b -> peek buf set s = Ok b s.
Proof. intros Hb <-. by rewrite (peek_tok s _ ts set Hb). Qed.

Lemma peek_end s set : before s [] -> peek buf set s = Ok false s.
Proof.
  intros Hb. unfold peek. erewrite bind_ok; [|reflexivity]. cbn beta.
  rewrite (skip_before s _ Hb). apply before_end in Hb as ->. unfold char_at.
  by rewrite lookup_ge_None_2.
Qed.

Lemma lex_tok s t ts :
  before s (t :: ts) -> lex buf s = (kind t, s + length (text t))%nat.
Proof.
  intros Hb. unfold lex. rewrite (char_before s t ts Hb). destruct Hb as (H & _ & Hok).
  apply Forall_cons in Hok as [Ht _]. destruct t as [w|c].
  - destruct Ht as [Hne Hw]. destruct w as [|c w]; [done|]. unfold first. cbn [text head default id].
    pose proof Hw as Hw'. apply Forall_cons in Hw' as [Hc _]. unfold word_char, is_symbol, strchr in Hc.
    destruct (Z.eqb_spec c 0) as [->|Hnz]; [done|]. cbn [negb andb] in Hc.
    destruct (is_space c); [done|]. cbn [negb andb] in Hc.
    destruct (bool_decide_reflect (c ∈ symbols)) as [|Hns]; [done|].
    rewrite bool_decide_false.
    2: { intros Hin. apply Hns. revert Hin. rewrite !list_elem_of_In. simpl. tauto. }
    destruct (Z.eqb_spec c (chr ">")) as [->|_].
    { exfalso. apply Hns. rewrite list_elem_of_In. simpl. tauto. }
    rewrite H. cbn [flat text kind] in *. by rewrite word_len_word.
  - unfold first. cbn [text head default id] in *. cbn [flat text app length] in H |- *.
    assert (Hn : char_at buf (S s) = 32).
    { rewrite <-Nat.add_1_r. apply (char_at_drop _ 32 (flat ts)). by apply (drop_more s [c]). }
    rewrite Nat.add_1_r, Hn.
    by apply symbol_cases in Ht as [->|[->|[->|[->|[->|[->| ->]]]]]].
Qed.

Lemma gettoken_tok s t ts :
  before s (t :: ts) ->
  gettoken buf s = Ok (kind t, (s, s + length (text t))%nat) (S (s + length (text t))).
Proof.
  intros Hb. destruct (before_next s t ts Hb) as [_ Hskip].
  unfold gettoken. erewrite bind_ok; [|reflexivity]. cbn beta.
  rewrite (skip_before s _ Hb), (lex_tok s t ts Hb). erewrite bind_ok; [|reflexivity]. by rewrite Hskip.
Qed.

Lemma gettoken_end s : before s [] -> gettoken buf s = Ok (0, (s, s)) s.
Proof.
  intros Hb. unfold gettoken. erewrite bind_ok; [|reflexivity]. cbn beta.
  rewrite (skip_before s _ Hb). pose proof Hb as Hb'. apply before_end in Hb' as ->. unfold lex, char_at.
  rewrite lookup_ge_None_2 by done. cbn [default from_option]. cbn [Z.eqb].
  erewrite bind_ok; [|reflexivity]. by rewrite (skip_before _ [] Hb).
Qed.

(** ** The strings of tokens *)
Definition str (t : token) : list Z := take (t.2 - t.1) (drop t.1 buf).

(** A token whose bytes are word bytes and which ends before a byte that is none. *)
Definition good (t : token) : Prop :=
  (t.1 <= t.2 <= length buf)%nat /\ (forall i, (t.1 <= i < t.2)%nat -> word_char (char_at buf i) = true) /\
  word_char (char_at buf t.2) = false.

Lemma word_token s w ts :
  before s (W w :: ts) -> str (s, s + length w)%nat = w /\ good (s, s + length w)%nat.
Proof.
  intros (H & Hs & Hok). apply Forall_cons in Hok as [[_ Hw] _]. cbn [flat text] in H.
  unfold str, good. cbn [fst snd]. rewrite H. replace (s + length w - s)%nat with (length w) by lia.
  rewrite take_app_length. split; [done|]. split_and!; [lia| | |].
  - apply drop_bound in H; [|done]. rewrite length_app in H. lia.
  - intros i Hi. unfold char_at. replace i with (s + (i - s))%nat by lia.
    rewrite <-lookup_drop, H, lookup_app_l by lia.
    destruct (lookup_lt_is_Some_2 w (i - s)) as [c Hc]; [lia|]. rewrite Hc. cbn. unfold id.
    by apply (Forall_lookup_1 _ _ _ _ Hw Hc).
  - rewrite (char_at_drop _ 32 (flat ts)); [done|]. by apply drop_more.
Qed.

(** The next token is none that starts with a byte of [set]. *)
Definition avoids (set : list Z) (ts : list tok) : Prop :=
  match ts with
  | [] => True
  | t :: _ => strchr set (first t) = false
  end.
Definition starts (set : list Z) (ts : list tok) : Prop :=
  match ts with
  | [] => True
  | t :: _ => strchr set (first t) = true
  end.

Lemma peek_avoids s ts set : before s ts -> avoids set ts -> peek buf set s = Ok false s.
Proof.
  intros Hb Ha. destruct ts as [|t ts]; [by apply peek_end|]. by rewrite (peek_tok s t ts set Hb), Ha.
Qed.

(** The symbols that may follow a simple command, a pipeline and a line. *)
Definition after_exec : list Z := bytes_of "|)&;".
Definition after_pipe : list Z := bytes_of ")&;".
Definition after_line : list Z := bytes_of ")".

Lemma starts_avoids set set' ts :
  (forall c, strchr set c = true -> strchr set' c = false) -> starts set ts -> avoids set' ts.
Proof. destruct ts as [|t ts]; [done|]. intros H. apply H. Qed.

Lemma strchr_true set c : strchr set c = true -> In c set.
Proof.
  unfold strchr. intros H. apply andb_true_iff in H as [_ H]. apply bool_decide_eq_true in H.
  by apply list_elem_of_In.
Qed.

Lemma disjoint_sets set set' :
  forallb (fun c => negb (strchr set' c)) set = true ->
  forall c, strchr set c = true -> strchr set' c = false.
Proof.
  intros H c Hc. apply strchr_true in Hc. rewrite forallb_forall in H. specialize (H c Hc).
  by destruct (strchr set' c).
Qed.

(** ** Redirections *)
Definition redirection : Type := list Z * Z * Z.
Definition redir_ok (r : redirection) : Prop :=
  word r.1.1 /\ (r.1.2 = O_RDONLY /\ r.2 = 0 \/ r.1.2 = Z.lor O_WRONLY O_CREATE /\ r.2 = 1).
Definition redir_toks (r : redirection) : list tok :=
  [Y (if r.1.2 =? O_RDONLY then chr "<" else chr ">"); W r.1.1].

Definition str_redir (r : token * Z * Z) : redirection := (str r.1.1, r.1.2, r.2).

Lemma redirs_spec fuel rs s rest :
  before s (mjoin (redir_toks <$> rs) ++ rest) -> avoids (bytes_of "<>") rest ->
  Forall redir_ok rs -> (length rs < fuel)%nat ->
  exists rs' s', redirs buf fuel s = Ok rs' s' /\ before s' rest /\ str_redir <$> rs' = rs /\
    Forall (fun r => good r.1.1) rs'.
Proof.
  revert rs s. induction fuel as [|fuel IH]; intros rs s Hb Ha Hok Hf; [lia|].
  cbn [redirs]. destruct rs as [|[[f mode] fd] rs].
  - erewrite bind_ok; [|by apply (peek_avoids s rest)]. cbn beta. exists [], s. done.
  - apply Forall_cons in Hok as [[Hw Hm] Hok]. cbn [fst snd] in Hw, Hm.
    cbn [fmap list_fmap mjoin list_join redir_toks app fst snd] in Hb.
    set (y := if mode =? O_RDONLY then chr "<" else chr ">") in Hb.
    assert (Hy : strchr (bytes_of "<>") y = true) by (unfold y; by destruct (mode =? O_RDONLY)).
    erewrite bind_ok; [|apply (peek_tok _ _ _ _ Hb)]. cbn beta.
    change (first (Y y)) with y. rewrite Hy.
    erewrite bind_ok; [|apply (gettoken_tok _ _ _ Hb)]. cbn beta.
    destruct (before_next _ _ _ Hb) as [Hb1 _].
    erewrite bind_ok; [|apply (gettoken_tok _ _ _ Hb1)]. cbn beta.
    destruct (before_next _ _ _ Hb1) as [Hb2 _]. destruct (word_token _ _ _ Hb1) as [Hs Hg].
    cbn [kind]. rewrite Z.eqb_refl. cbn [negb].
    destruct (IH rs _ Hb2 Ha Hok) as (rs' & s' & E & Hb' & Hrs & Hgs); [simpl in Hf; lia|].
    assert (Et : forall t : token, (if y =? chr "<" then (t, O_RDONLY, 0)
      else (t, Z.lor O_WRONLY O_CREATE, 1)) = (t, mode, fd)).
    { intros t. unfold y. by destruct Hm as [[-> ->]|[-> ->]]. }
    erewrite bind_ok; [|exact E]. cbn beta. eexists _, s'. split; [reflexivity|]. split; [done|].
    rewrite Et. cbn [fmap list_fmap text] in *. split; [|by constructor].
    f_equal; [|exact Hrs]. unfold str_redir. cbn [fst snd]. by rewrite Hs.
Qed.

(** ** Arguments *)
Lemma word_first set w :
  word w -> forallb is_symbol set = true -> strchr set (first (W w)) = false.
Proof.
  intros [Hne Hw] Hset. destruct w as [|c w]; [done|]. apply Forall_cons in Hw as [Hc _].
  unfold first. cbn [text head default id]. destruct (strchr set c) eqn:E; [|done].
  apply strchr_true in E. rewrite forallb_forall in Hset. specialize (Hset c E).
  unfold word_char in Hc. rewrite Hset in Hc. by destruct (c =? 0), (is_space c).
Qed.

Lemma parseargs_spec fuel ws rs argv s rest :
  before s ((W <$> ws) ++ mjoin (redir_toks <$> rs) ++ rest) -> (ws = [] -> rs = []) ->
  starts after_exec rest -> Forall word ws -> Forall redir_ok rs ->
  (length argv + length ws < MAXARGS)%nat -> (length ws + length rs < fuel)%nat ->
  exists ts rs' s', parseargs buf fuel argv s = Ok (argv ++ ts, rs') s' /\ before s' rest /\
    str <$> ts = ws /\ str_redir <$> rs' = rs /\ Forall good ts /\ Forall (fun r => good r.1.1) rs'.
Proof.
  revert ws rs argv s. induction fuel as [|fuel IH]; intros ws rs argv s Hb Hwr Hst Hw Hr Hn Hf; [lia|].
  cbn [parseargs]. destruct ws as [|w ws].
  - rewrite Hwr in Hb by done. cbn in Hb. exists [], [], s. rewrite app_nil_r, (Hwr eq_refl).
    destruct rest as [|t rest].
    + run (peek_end _ _ Hb). run (gettoken_end _ Hb). done.
    + run (peek_tok _ _ _ _ Hb). unfold starts in Hst. change (bytes_of "|)&;") with after_exec. by rewrite Hst.
  - apply Forall_cons in Hw as [Hw Hws]. cbn [fmap list_fmap app] in Hb.
    run (peek_tok _ _ _ _ Hb). rewrite word_first by done. run (gettoken_tok _ _ _ Hb).
    destruct (before_next _ _ _ Hb) as [Hb1 _]. destruct (word_token _ _ _ Hb) as [Hs Hg].
    cbn [kind text] in *. change (chr "a" =? 0) with false. rewrite Z.eqb_refl. cbn [negb].
    set (t := (s, (s + length w)%nat)) in *.
    destruct (Nat.leb_spec MAXARGS (length (argv ++ [t]))) as [Hle|_].
    { rewrite length_app in Hle. cbn in Hle, Hn. lia. }
    set (now := if decide (ws = []) then rs else []). set (later := if decide (ws = []) then [] else rs).
    assert (Hnl : now ++ later = rs) by (unfold now, later; destruct (decide (ws = [])); [apply app_nil_r|done]).
    rewrite <-Hnl, Forall_app in Hr. destruct Hr as [Hr1 Hr2]. cbn [length] in Hn, Hf.
    rewrite <-Hnl, length_app in Hf.
    destruct (redirs_spec fuel now (S (s + length w)) ((W <$> ws) ++ mjoin (redir_toks <$> later) ++ rest))
      as (rs1 & s1 & E1 & Hb2 & Hrs1 & Hg1); [| |done|lia|].
    { unfold now, later. by destruct (decide (ws = [])) as [->|]. }
    { unfold later. destruct ws as [|w' ws]; cbn.
      - apply (starts_avoids after_exec); [|done]. by apply disjoint_sets.
      - apply Forall_cons in Hws as [Hw' _]. by apply word_first. }
    run E1.
    destruct (IH ws later (argv ++ [t]) s1 Hb2) as (ts & rs2 & s2 & E2 & Hb3 & Hts & Hrs2 & Hgt & Hg2);
      try done; [by unfold later; intros ->|rewrite length_app; cbn; lia|lia|].
    run E2. exists (t :: ts), (rs1 ++ rs2), s2. rewrite <-app_assoc. split; [done|]. split; [done|].
    cbn [fmap list_fmap]. rewrite Hs, Hts, fmap_app, Hrs1, Hrs2. repeat split; try done.
    + by constructor.
    + by apply Forall_app.
Qed.
End Stream.

(** ** Printing commands *)
Notation scmd := (command (list Z)) (only parsing).

Fixpoint cmd_map {A B} (f : A -> B) (c : command A) : command B :=
  match c with
  | Exec argv => Exec (f <$> argv)
  | Redir c file mode fd => Redir (cmd_map f c) (f file) mode fd
  | Pipe l r => Pipe (cmd_map f l) (cmd_map f r)
  | List l r => List (cmd_map f l) (cmd_map f r)
  | Back c => Back (cmd_map f c)
  end.

Fixpoint strings {A} (c : command A) : list A :=
  match c with
  | Exec argv => argv
  | Redir c file _ _ => strings c ++ [file]
  | Pipe l r | List l r => strings l ++ strings r
  | Back c => strings c
  end.

(** A command that the grammar can express: words that are not empty and have no special
    bytes, fewer than [MAXARGS] arguments, and the two kinds of redirection. *)
Fixpoint cmd_ok (c : scmd) : Prop :=
  match c with
  | Exec argv => Forall word argv /\ (length argv < MAXARGS)%nat
  | Redir c file mode fd => cmd_ok c /\ redir_ok (file, mode, fd)
  | Pipe l r | List l r => cmd_ok l /\ cmd_ok r
  | Back c => cmd_ok c
  end.

Definition parens (b : bool) (ts : list tok) : list tok :=
  if b then Y (chr "(") :: ts ++ [Y (chr ")")] else ts.

(** The tokens of a command where the grammar expects a line (0), a line without a
    semicolon (1), a pipeline (2) or a simple command (3). *)
Fixpoint pr (lvl : nat) (c : scmd) : list tok :=
  match c with
  | Exec argv => W <$> argv
  | Redir c file mode fd => pr 3 c ++ redir_toks (file, mode, fd)
  | Pipe l r => parens (2 <? lvl)%nat (pr 3 l ++ Y (chr "|") :: pr 2 r)
  | Back c => parens (1 <? lvl)%nat (pr 1 c ++ [Y (chr "&")])
  | List l r => parens (0 <? lvl)%nat (pr 1 l ++ Y (chr ";") :: pr 0 r)
  end.

Definition print (c : scmd) : list Z := flat (pr 0 c).

Lemma sym_ok c : In c symbols -> tok_ok (Y c).
Proof. intros H. by apply list_elem_of_In. Qed.

Lemma redir_toks_ok r : redir_ok r -> Forall tok_ok (redir_toks r).
Proof.
  intros [Hw _]. constructor; [|by constructor].
  apply sym_ok. destruct (r.1.2 =? O_RDONLY); cbn; tauto.
Qed.

Lemma parens_ok b ts : Forall tok_ok ts -> Forall tok_ok (parens b ts).
Proof.
  intros H. destruct b; [|done]. constructor; [apply sym_ok; cbn; tauto|].
  apply Forall_app. split; [done|]. constructor; [apply sym_ok; cbn; tauto|constructor].
Qed.

Lemma pr_ok lvl c : cmd_ok c -> Forall tok_ok (pr lvl c).
Proof.
  revert lvl. induction c as [argv|c IH file mode fd|l IHl r IHr|l IHl r IHr|c IH]; intros lvl; cbn [cmd_ok pr].
  - intros [Hw _]. by apply Forall_fmap.
  - intros [Hc Hr]. apply Forall_app. split; [by apply IH|by apply redir_toks_ok].
  - intros [Hl Hr]. apply parens_ok, Forall_app. split; [by apply IHl|].
    constructor; [apply sym_ok; cbn; tauto|by apply IHr].
  - intros [Hl Hr]. apply parens_ok, Forall_app. split; [by apply IHl|].
    constructor; [apply sym_ok; cbn; tauto|by apply IHr].
  - intros Hc. apply parens_ok, Forall_app. split; [by apply IH|].
    constructor; [apply sym_ok; cbn; tauto|constructor].
Qed.

(** A command without its redirections, and these from the inside out. *)
Fixpoint spine (c : scmd) : scmd * list redirection :=
  match c with
  | Redir c file mode fd => ((spine c).1, (spine c).2 ++ [(file, mode, fd)])
  | _ => (c, [])
  end.

Definition simple (c : scmd) : bool := match c with Exec _ | Redir _ _ _ _ => true | _ => false end.
Fixpoint size (c : scmd) : nat :=
  match c with
  | Exec _ => 1
  | Redir c _ _ _ => S (size c)
  | Pipe l r | List l r => S (size l + size r)
  | Back c => S (size c)
  end.

Lemma spine_fold c : c = foldl redircmd (spine c).1 (spine c).2.
Proof. induction c as [| c IH file mode fd| | |]; try done. cbn. rewrite foldl_app. cbn. by rewrite <-IH. Qed.

Lemma spine_pr c : pr 3 c = pr 3 (spine c).1 ++ mjoin (redir_toks <$> (spine c).2).
Proof.
  induction c as [| c IH file mode fd| | |]; cbn [spine fst snd]; try (cbn; by rewrite app_nil_r).
  cbn [pr]. by rewrite IH, fmap_app, join_app, app_assoc.
Qed.

Lemma spine_ok c : cmd_ok c -> cmd_ok (spine c).1 /\ Forall redir_ok (spine c).2.
Proof.
  induction c as [| c IH file mode fd| | |]; cbn; try (split; [done|constructor]).
  intros [Hc Hr]. destruct (IH Hc) as [H1 H2]. split; [done|]. apply Forall_app. by split; [|constructor].
Qed.

Lemma spine_base c : (exists argv, (spine c).1 = Exec argv) \/ simple (spine c).1 = false /\ (size (spine c).1 <= size c)%nat.
Proof. induction c as [argv| c IH file mode fd| | |]; cbn; [left; by exists argv| |by right..]. destruct IH as [?|[? ?]]; [by left|right; split; [done|lia]]. Qed.

(** ** Parsing printed commands *)

(** The parser looks at a symbol; the answer is [b]. *)
Tactic Notation "see" constr(b) constr(H) :=
  cbn beta iota; erewrite bind_ok; [|eapply (peek_sym _ b); [exact H|reflexivity]]; cbn beta iota.

Section Roundtrip.
Context (buf : list Z).

(** Given [need] fuel, [p] parses the tokens [ts], followed by a token that starts with a
    byte of [after] or by the end, as the command [c]. *)
Definition parses (p : nat -> M nat cmd) (need : nat) (ts : list tok) (after : list Z) (c : scmd) : Prop :=
  forall fuel s rest, before buf s (ts ++ rest) -> starts after rest -> (need <= fuel)%nat ->
    exists c' s', p fuel s = Ok c' s' /\ before buf s' rest /\
      cmd_map (str buf) c' = c /\ Forall (good buf) (strings c').

Definition P3 (c : scmd) : Prop := parses (parseexec buf) (8 * length (pr 3 c) + 4) (pr 3 c) after_exec c.
Definition P2 (c : scmd) : Prop := parses (parsepipe buf) (8 * length (pr 2 c) + 5) (pr 2 c) after_pipe c.
Definition P0 (c : scmd) : Prop := parses (parseline buf) (8 * length (pr 0 c) + 6) (pr 0 c) after_line c.

Lemma map_redirs (c : cmd) rs :
  cmd_map (str buf) (foldl redircmd c rs) = foldl redircmd (cmd_map (str buf) c) (str_redir buf <$> rs).
Proof. revert c. induction rs as [|[[f m] fd] rs IH]; intros c; [done|]. cbn. by rewrite IH. Qed.

Lemma strings_redirs (c : cmd) rs :
  Forall (good buf) (strings c) -> Forall (fun r => good buf r.1.1) rs ->
  Forall (good buf) (strings (foldl redircmd c rs)).
Proof.
  intros Hc Hr. revert c Hc. induction Hr as [|[[f m] fd] rs Hf _ IH]; intros c Hc; [done|].
  cbn. apply IH. cbn. apply Forall_app. split; [done|]. by constructor.
Qed.

Lemma length_redir_toks rs : length (mjoin (redir_toks <$> rs)) = (2 * length rs)%nat.
Proof.
  induction rs as [|r rs IH]; [done|].
  change (mjoin (redir_toks <$> r :: rs)) with (redir_toks r ++ mjoin (redir_toks <$> rs)).
  rewrite length_app, IH. cbn. lia.
Qed.

Lemma redirs_start rs rest set :
  avoids set rest -> strchr set 60 = false -> strchr set 62 = false ->
  avoids set (mjoin (redir_toks <$> rs) ++ rest).
Proof.
  intros Hr H1 H2. destruct rs as [|r rs]; [done|].
  cbn [fmap list_fmap mjoin list_join redir_toks app avoids]. by destruct (r.1.2 =? O_RDONLY).
Qed.

(** A simple command: arguments and then redirections. *)
Lemma P3_exec argv rs :
  Forall word argv -> (length argv < MAXARGS)%nat -> Forall redir_ok rs ->
  parses (parseexec buf) (8 * length ((W <$> argv) ++ mjoin (redir_toks <$> rs)) + 4)
    ((W <$> argv) ++ mjoin (redir_toks <$> rs)) after_exec (foldl redircmd (Exec argv) rs).
Proof.
  intros Hw Hn Hr fuel s rest Hb Hst Hf. destruct fuel as [|fuel]; [lia|].
  rewrite length_app, length_fmap, length_redir_toks in Hf. rewrite <-app_assoc in Hb.
  cbn [parseexec]. assert (Hav : forall set, strchr set 60 = false -> strchr set 62 = false ->
    forallb is_symbol set = true -> avoids set rest -> avoids set ((W <$> argv) ++ mjoin (redir_toks <$> rs) ++ rest)).
  { intros set H1 H2 H3 H4. destruct argv as [|w argv]; [by apply redirs_start|].
    apply Forall_cons in Hw as [Hw _]. by apply word_first. }
  assert (Hrest : forall set, forallb (fun c => negb (strchr set c)) after_exec = true -> avoids set rest).
  { intros set H. apply (starts_avoids after_exec); [by apply disjoint_sets|done]. }
  assert (E0 : peek buf (bytes_of "(") s = Ok false s).
  { apply (peek_avoids buf s _ _ Hb). apply Hav; try done. by apply Hrest. }
  run E0.
  set (now := if decide (argv = []) then rs else []). set (later := if decide (argv = []) then [] else rs).
  assert (Hnl : now ++ later = rs) by (unfold now, later; destruct (decide (argv = [])); [apply app_nil_r|done]).
  rewrite <-Hnl, Forall_app in Hr. destruct Hr as [Hr1 Hr2]. rewrite <-Hnl, length_app in Hf.
  destruct (redirs_spec buf fuel now s ((W <$> argv) ++ mjoin (redir_toks <$> later) ++ rest))
    as (rs1 & s1 & E1 & Hb1 & Hrs1 & Hg1); [| |done|lia|].
  { unfold now, later. by destruct (decide (argv = [])) as [->|]. }
  { unfold later. destruct argv as [|w argv]; [by apply Hrest|].
    apply Forall_cons in Hw as [Hw _]. by apply word_first. }
  run E1.
  destruct (parseargs_spec buf fuel argv later [] s1 rest) as (ts & rs2 & s2 & E2 & Hb2 & Hts & Hrs2 & Hgt & Hg2);
    try done; [by unfold later; intros ->|lia|].
  run E2. eexists _, s2. split; [reflexivity|]. split; [done|]. split.
  - rewrite map_redirs, fmap_app, Hrs1, Hrs2, Hnl. cbn [cmd_map app]. by rewrite Hts.
  - apply strings_redirs; [done|]. by apply Forall_app.
Qed.

(** A block in parentheses and its redirections. *)
Lemma P3_block c rs :
  P0 c -> Forall redir_ok rs ->
  let ts := (Y (chr "(") :: pr 0 c ++ [Y (chr ")")]) ++ mjoin (redir_toks <$> rs) in
  parses (parseexec buf) (8 * length ts + 4) ts after_exec (foldl redircmd c rs).
Proof.
  intros H0 Hr ts fuel s rest Hb Hst Hf. unfold ts in *.
  rewrite length_app, length_redir_toks in Hf. cbn [length] in Hf. rewrite length_app in Hf. cbn [length] in Hf.
  destruct fuel as [|[|fuel]]; [lia..|]. rewrite <-!app_assoc in Hb. cbn [app] in Hb.
  rewrite <-app_assoc in Hb. cbn [app] in Hb. cbn [parseexec parseblock].
  see true Hb. see true Hb. cbn [negb].
  run (gettoken_tok _ _ _ _ Hb). destruct (before_next _ _ _ _ Hb) as [Hb1 _].
  destruct (H0 fuel _ _ Hb1) as (c' & s1 & E1 & Hb2 & Hc & Hg); [done|lia|]. run E1.
  see true Hb2. cbn [negb]. run (gettoken_tok _ _ _ _ Hb2).
  destruct (before_next _ _ _ _ Hb2) as [Hb3 _].
  destruct (redirs_spec buf fuel rs _ rest Hb3) as (rs' & s2 & E2 & Hb4 & Hrs & Hg2); [|done|lia|].
  { apply (starts_avoids after_exec); [by apply disjoint_sets|done]. }
  unfold parseredirs. run E2. eexists _, s2. split; [reflexivity|]. split; [done|]. split.
  - by rewrite map_redirs, Hrs, Hc.
  - by apply strings_redirs.
Qed.

Lemma pr_block c : simple c = false -> pr 3 c = Y (chr "(") :: pr 0 c ++ [Y (chr ")")].
Proof. by destruct c. Qed.

Lemma P3_spine c : cmd_ok c -> (simple (spine c).1 = false -> P0 (spine c).1) -> P3 c.
Proof.
  intros Hok H0. destruct (spine_ok c Hok) as [Hb Hr]. unfold P3. rewrite spine_pr.
  rewrite (spine_fold c) at 5. destruct (spine_base c) as [[argv E]|[Hs _]].
  - rewrite E in *. destruct Hb as [Hw Hn]. by apply P3_exec.
  - rewrite (pr_block _ Hs). apply P3_block; auto.
Qed.

(** *** Pipelines *)
Lemma P2_of_P3 c : P3 c -> pr 2 c = pr 3 c -> P2 c.
Proof.
  intros H3 E fuel s rest Hb Hst Hf. rewrite E in *. destruct fuel as [|fuel]; [lia|]. cbn [parsepipe].
  destruct (H3 fuel s rest Hb) as (c' & s' & E1 & Hb' & Hc & Hg); [|lia|].
  { destruct rest as [|t rest]; [done|]. cbn [starts] in *. apply strchr_true in Hst.
    cbn in Hst. destruct Hst as [<-|[<-|[<-|[]]]]; done. }
  run E1. assert (E2 : peek buf (bytes_of "|") s' = Ok false s').
  { apply (peek_avoids _ _ _ _ Hb'), (starts_avoids after_pipe); [by apply disjoint_sets|done]. }
  run E2. by exists c', s'.
Qed.

Lemma P2_pipe l r : P3 l -> P2 r -> P2 (Pipe l r).
Proof.
  intros H3 H2 fuel s rest Hb Hst Hf. cbn [pr parens Nat.ltb Nat.leb] in *.
  rewrite length_app in Hf. cbn [length] in Hf. rewrite <-app_assoc in Hb. cbn [app] in Hb.
  destruct fuel as [|fuel]; [lia|]. cbn [parsepipe].
  destruct (H3 fuel s _ Hb) as (l' & s1 & E1 & Hb1 & Hl & Hgl); [done|lia|]. run E1.
  see true Hb1. run (gettoken_tok _ _ _ _ Hb1). destruct (before_next _ _ _ _ Hb1) as [Hb2 _].
  destruct (H2 fuel _ _ Hb2) as (r' & s2 & E2 & Hb3 & Hr & Hgr); [done|lia|]. run E2.
  exists (Pipe l' r'), s2. split; [done|]. split; [done|]. cbn. rewrite Hl, Hr. split; [done|].
  by apply Forall_app.
Qed.

(** *** Lines *)
Fixpoint backs {A} (n : nat) (c : command A) : command A :=
  match n with
  | O => c
  | S n' => Back (backs n' c)
  end.

Lemma parseback_spec n fuel c' s rest :
  before buf s (replicate n (Y (chr "&")) ++ rest) -> avoids (bytes_of "&") rest -> (n < fuel)%nat ->
  exists s', parseback buf fuel c' s = Ok (backs n c') s' /\ before buf s' rest.
Proof.
  revert n c' s. induction fuel as [|fuel IH]; intros n c' s Hb Ha Hf; [lia|]. cbn [parseback].
  destruct n as [|n].
  - run (peek_avoids _ _ _ _ Hb Ha). by exists s.
  - cbn [replicate app] in Hb. see true Hb. run (gettoken_tok _ _ _ _ Hb).
    destruct (before_next _ _ _ _ Hb) as [Hb1 _].
    destruct (IH n (Back c') _ Hb1 Ha) as (s' & E & Hb'); [lia|]. exists s'. split; [|done].
    rewrite E. f_equal. clear. induction n as [|n IH]; [done|]. cbn. by rewrite IH.
Qed.

(** The command below the ampersands. *)
Lemma strip_back c :
  exists n core, c = backs n core /\ pr 1 c = pr 2 core ++ replicate n (Y (chr "&")) /\
    (size core <= size c)%nat /\ (cmd_ok c -> cmd_ok core) /\ (n = O \/ (size core < size c)%nat).
Proof.
  induction c as [argv|c IH f m fd|l _ r _|l _ r _|c IH].
  1-4: exists O; eexists; split; [reflexivity|]; rewrite app_nil_r; split_and!; try done; by left.
  destruct IH as (n & core & -> & E & Hsz & Hok & _). exists (S n), core. cbn [pr parens Nat.ltb Nat.leb].
  rewrite E, <-app_assoc. split; [done|]. split; [by rewrite <-replicate_cons_app|].
  cbn [size]. split_and!; [lia|by cbn|right; lia].
Qed.

Lemma map_backs {A B} (f : A -> B) n c : cmd_map f (backs n c) = backs n (cmd_map f c).
Proof. induction n as [|n IH]; [done|]. cbn. by rewrite IH. Qed.
Lemma strings_backs {A} n (c : command A) : strings (backs n c) = strings c.
Proof. by induction n. Qed.

Lemma bg_spec n core fuel s rest :
  P2 core -> before buf s ((pr 2 core ++ replicate n (Y (chr "&"))) ++ rest) ->
  starts (bytes_of ");") rest -> (8 * length (pr 2 core) + 5 + n <= fuel)%nat ->
  exists c' s1 s', parsepipe buf fuel s = Ok c' s1 /\ parseback buf fuel c' s1 = Ok (backs n c') s' /\
    before buf s' rest /\ cmd_map (str buf) (backs n c') = backs n core /\
    Forall (good buf) (strings (backs n c')).
Proof.
  intros H2 Hb Hst Hf. rewrite <-app_assoc in Hb.
  destruct (H2 fuel s _ Hb) as (c' & s1 & E1 & Hb1 & Hc & Hg); [|lia|].
  { destruct n as [|n]; [|done]. destruct rest as [|t rest]; [done|]. cbn [replicate app starts] in *.
    apply strchr_true in Hst. cbn in Hst. destruct Hst as [<-|[<-|[]]]; done. }
  destruct (parseback_spec n fuel c' s1 rest Hb1) as (s' & E2 & Hb2); [|lia|].
  { apply (starts_avoids (bytes_of ");")); [by apply disjoint_sets|done]. }
  exists c', s1, s'. rewrite map_backs, strings_backs, Hc. done.
Qed.

Lemma P0_bg n core :
  P2 core -> pr 0 (backs n core) = pr 2 core ++ replicate n (Y (chr "&")) -> P0 (backs n core).
Proof.
  intros H2 E fuel s rest Hb Hst Hf. rewrite E in *. rewrite length_app, length_replicate in Hf.
  destruct fuel as [|fuel]; [lia|]. cbn [parseline].
  destruct (bg_spec n core fuel s rest H2 Hb) as (c' & s1 & s' & E1 & E2 & Hb' & Hc & Hg); [|lia|].
  { destruct rest as [|t rest]; [done|]. cbn [starts] in *.
    apply strchr_true in Hst. cbn in Hst. destruct Hst as [<-|[]]; done. }
  run E1. run E2. assert (E3 : peek buf (bytes_of ";") s' = Ok false s').
  { apply (peek_avoids _ _ _ _ Hb'), (starts_avoids after_line); [by apply disjoint_sets|done]. }
  run E3. by exists (backs n c'), s'.
Qed.

Lemma P0_list l r n core :
  l = backs n core -> pr 1 l = pr 2 core ++ replicate n (Y (chr "&")) -> P2 core -> P0 r -> P0 (List l r).
Proof.
  intros -> El H2 H0 fuel s rest Hb Hst Hf. cbn [pr parens Nat.ltb Nat.leb] in *. rewrite El in *.
  rewrite !length_app, length_replicate in Hf. cbn [length] in Hf. rewrite <-app_assoc in Hb. cbn [app] in Hb.
  destruct fuel as [|fuel]; [lia|]. cbn [parseline].
  destruct (bg_spec n core fuel s _ H2 Hb) as (c' & s1 & s2 & E1 & E2 & Hb' & Hc & Hg); [done|lia|].
  run E1. run E2. see true Hb'. run (gettoken_tok _ _ _ _ Hb'). destruct (before_next _ _ _ _ Hb') as [Hb2 _].
  destruct (H0 fuel _ _ Hb2) as (r' & s3 & E3 & Hb3 & Hr & Hgr); [done|lia|]. run E3.
  exists (List (backs n c') r'), s3. split; [done|]. split; [done|]. cbn [cmd_map strings].
  rewrite Hc, Hr. split; [done|]. by apply Forall_app.
Qed.

(** Every printed command is parsed, at each of the three levels. *)
Lemma parse_all c : cmd_ok c -> P0 c /\ P2 c /\ P3 c.
Proof.
  induction c as [c IH] using (induction_ltof1 _ size). unfold ltof in IH. intros Hok.
  destruct c as [argv|c f m fd|l r|l r|c].
  - assert (H3 : P3 (Exec argv)) by by apply P3_spine.
    assert (H2 : P2 (Exec argv)) by by apply P2_of_P3.
    split; [|done]. apply (P0_bg 0); [done|]. by rewrite app_nil_r.
  - assert (H3 : P3 (Redir c f m fd)).
    { apply P3_spine; [done|]. intros Hs. destruct (spine_ok _ Hok) as [Hb _]. cbn [spine fst] in *.
      destruct (spine_base c) as [[argv E]|[_ Hsz]]; [by rewrite E in Hs|].
      apply IH; [cbn; lia|done]. }
    assert (H2 : P2 (Redir c f m fd)) by by apply P2_of_P3.
    split; [|done]. apply (P0_bg 0); [done|]. by rewrite app_nil_r.
  - destruct Hok as [Hl Hr]. destruct (IH l) as (_ & _ & H3l); [cbn; lia|done|].
    destruct (IH r) as (_ & H2r & _); [cbn; lia|done|].
    assert (H2 : P2 (Pipe l r)) by by apply P2_pipe.
    assert (H0 : P0 (Pipe l r)) by (apply (P0_bg 0); [done|]; by rewrite app_nil_r).
    split; [done|]. split; [done|]. by apply P3_spine.
  - pose proof Hok as [Hl Hr]. destruct (strip_back l) as (n & core & El & Ep & Hsz & Hc & _).
    destruct (IH core) as (_ & H2 & _); [cbn; lia|auto|]. destruct (IH r) as (H0r & _); [cbn; lia|done|].
    assert (H0 : P0 (List l r)) by by apply (P0_list l r n core).
    assert (H3 : P3 (List l r)) by by apply P3_spine.
    split; [done|]. split; [by apply P2_of_P3|done].
  - destruct (strip_back (Back c)) as (n & core & E & Ep & _ & Hc & Hlt).
    destruct Hlt as [->|Hlt].
    { cbn in E. subst core. cbn [pr parens Nat.ltb Nat.leb replicate] in Ep. rewrite app_nil_r in Ep.
      apply (f_equal length) in Ep. cbn in Ep. rewrite ?length_app in Ep. cbn in Ep. lia. }
    destruct (IH core) as (_ & H2 & _); [lia|auto|].
    assert (H0 : P0 (Back c)) by (rewrite E; apply P0_bg; [done|]; rewrite <-E; exact Ep).
    assert (H3 : P3 (Back c)) by by apply P3_spine.
    split; [done|]. split; [by apply P2_of_P3|done].
Qed.
End Roundtrip.

(** ** Terminating the strings *)
Definition put_nul (l : list Z) (e : nat) : list Z := <[e := 0]> l.

Lemma nulterminate_fold (c : cmd) line : nulterminate c line = foldl put_nul line (strings c).*2.
Proof.
  revert line. induction c as [argv|c IH f m fd|l IHl r IHr|l IHl r IHr|c IH]; intros line;
    cbn [nulterminate strings]; rewrite ?fmap_app, ?foldl_app, ?IH, ?IHl, ?IHr; try done.
  revert line. induction argv as [|t argv IH]; intros line; [done|]. cbn. apply IH.
Qed.

Lemma lookup_put_nuls es l i :
  (forall e, e ∈ es -> (e < length l)%nat) ->
  foldl put_nul l es !! i = if decide (i ∈ es) then Some 0 else l !! i.
Proof.
  revert l. induction es as [|e es IH]; intros l He; [done|]. cbn [foldl]. rewrite IH.
  2: { intros e' H'. unfold put_nul. rewrite length_insert. apply He. by right. }
  unfold put_nul. destruct (decide (i ∈ es)) as [H|H].
  - by rewrite decide_True by by right.
  - destruct (decide (i = e)) as [->|Hne].
    + rewrite decide_True by by left. apply list_lookup_insert_eq, He. by left.
    + rewrite decide_False by (intros Hin; by apply elem_of_cons in Hin as [|]).
      by apply list_lookup_insert_ne.
Qed.

Lemma cut_nul_take l n :
  l !! n = Some 0 -> (forall i, (i < n)%nat -> exists c, l !! i = Some c /\ c <> 0) -> cut_nul l = take n l.
Proof.
  revert n. induction l as [|c l IH]; intros n Hn Hl; [done|]. destruct n as [|n].
  - cbn in Hn. injection Hn as ->. done.
  - destruct (Hl O) as (c' & Hc & Hnz); [lia|]. cbn in Hc. injection Hc as <-. cbn.
    rewrite (proj2 (Z.eqb_neq c 0) Hnz). f_equal. apply IH; [done|]. intros i Hi. by apply (Hl (S i)); lia.
Qed.

(** After [nulterminate] the C string at every token is the token's text. *)
Lemma nulterminate_strings buf (c : cmd) :
  Forall (good buf) (strings c) ->
  let line := nulterminate c (buf ++ [0]) in
  Forall (fun t : token => cut_nul (drop t.1 line) = str buf t) (strings c).
Proof.
  intros Hg line. apply Forall_forall. intros t Ht.
  pose proof (proj1 (Forall_forall _ _) Hg) as Hg'. destruct (Hg' t Ht) as ((H1 & H2) & Hw & He).
  assert (Hlk : forall i, line !! i = if decide (i ∈ (strings c).*2) then Some 0 else (buf ++ [0]) !! i).
  { intros i. unfold line. rewrite nulterminate_fold. apply lookup_put_nuls. intros e Hin.
    apply list_elem_of_fmap in Hin as (t' & -> & Hin). destruct (Hg' t' Hin) as ((_ & Hl) & _).
    rewrite length_app. cbn. lia. }
  assert (Hin : forall i, (t.1 <= i < t.2)%nat -> line !! i = buf !! i /\ exists b, buf !! i = Some b /\ b <> 0).
  { intros i Hi. specialize (Hw i Hi). rewrite Hlk, decide_False.
    - rewrite lookup_app_l by lia. split; [done|].
      destruct (lookup_lt_is_Some_2 buf i) as [b Hb]; [lia|]. exists b. split; [done|].
      intros ->. unfold char_at in Hw. rewrite Hb in Hw. done.
    - intros Hin. apply list_elem_of_fmap in Hin as (t' & -> & Hin). destruct (Hg' t' Hin) as (_ & _ & He').
      by rewrite Hw in He'. }
  rewrite (cut_nul_take _ (t.2 - t.1)).
  - unfold str. apply list_eq. intros i. destruct (decide (i < t.2 - t.1)%nat) as [Hi|Hi].
    + rewrite !lookup_take_lt, !lookup_drop by lia. by apply Hin; lia.
    + rewrite !lookup_take_ge by lia. done.
  - rewrite lookup_drop, Hlk, decide_True; [done|]. replace (t.1 + (t.2 - t.1))%nat with t.2 by lia.
    apply list_elem_of_fmap. by exists t.
  - intros i Hi. rewrite lookup_drop. destruct (Hin (t.1 + i)%nat ltac:(lia)) as (-> & b & Hb & Hnz).
    by exists b.
Qed.

Lemma cmd_map_ext {A B} (f g : A -> B) c :
  Forall (fun t => f t = g t) (strings c) -> cmd_map f c = cmd_map g c.
Proof.
  induction c as [argv|c IH file m fd|l IHl r IHr|l IHl r IHr|c IH]; cbn; rewrite ?Forall_app.
  - intros H. f_equal. by apply Forall_fmap_ext.
  - intros [H1 H2]. apply Forall_cons in H2 as [H2 _]. by rewrite IH, H2.
  - intros [H1 H2]. by rewrite IHl, IHr.
  - intros [H1 H2]. by rewrite IHl, IHr.
  - intros H. by rewrite IH.
Qed.

(** C16: printing a command and parsing it gives the command back: for every command tree
    that the grammar can express (any nesting of pipes, lists, background commands,
    redirections and blocks), [parsecmd] on its text returns, and the tree it builds has
    the same shape, with the original words as the NUL-terminated strings that
    [nulterminate] leaves in the line. *)
Theorem parse_print (c : command (list Z)) :
  cmd_ok c ->
  exists c' line s, parsecmd (print c) 0%nat = Ok (c', line) s /\
    cmd_map (fun t : token => cut_nul (drop t.1 line)) c' = c.
Proof.
  intros Hok. set (buf := print c). destruct (parse_all buf c Hok) as (H0 & _).
  assert (Hb : before buf 0 (pr 0 c ++ [])).
  { rewrite app_nil_r. split; [done|]. split; [lia|]. by apply pr_ok. }
  assert (Hlen : (length (pr 0 c) <= length buf)%nat).
  { unfold buf, print. clear. induction (pr 0 c) as [|t ts IH]; [done|]. cbn. rewrite length_app. cbn. lia. }
  destruct (H0 (parse_fuel buf) 0%nat [] Hb) as (c' & s' & E & Hb' & Hc & Hg); [done|unfold parse_fuel; lia|].
  eexists c', _, s'. split.
  - unfold parsecmd. erewrite bind_ok; [|reflexivity]. run E. run (peek_end buf s' [] Hb').
    erewrite bind_ok; [|reflexivity]. cbn beta. apply before_end in Hb' as ->.
    rewrite Nat.eqb_refl. reflexivity.
  - rewrite <-Hc. apply cmd_map_ext. by apply nulterminate_strings.
Qed.

Lemma parse_print_witness :
  let c := Pipe (Redir (Exec [bytes_of "ls"; bytes_of "-l"]) (bytes_of "out") (Z.lor O_WRONLY O_CREATE) 1)
             (List (Exec [bytes_of "a"]) (Back (Redir (Back (Exec [])) (bytes_of "in") O_RDONLY 0))) in
  exists c' line s, parsecmd (print c) 0%nat = Ok (c', line) s /\
    cmd_map (fun t : token => cut_nul (drop t.1 line)) c' = c.
Proof.
  apply parse_print. cbn [cmd_ok]. unfold redir_ok, word. cbn [fst snd].
  repeat match goal with
         | |- _ /\ _ => split
         | |- Forall _ [] => constructor
         | |- Forall _ (_ :: _) => constructor
         | |- bytes_of _ <> [] => discriminate
         | |- Forall _ (bytes_of _) => vm_compute; repeat constructor
         | |- (_ < _)%nat => vm_compute; lia
         end; [right; split; reflexivity|left; split; reflexivity].
Defined.

(** ** Termination on every line *)
Section Termination.
Context (buf : list Z).

(** From [s] the parser returns at a position from [lo] on, or panics. *)
Definition ends {A} (m : M nat A) (s lo : nat) : Prop :=
  match m s with
  | Ok _ s' => (lo <= s' <= length buf)%nat
  | Err (EPanic _) => True
  | _ => False
  end.

Lemma ends_bind {A B} (m : M nat A) (f : A -> M nat B) s lo lo' :
  ends m s lo -> (forall a s', m s = Ok a s' -> (lo <= s' <= length buf)%nat -> ends (f a) s' lo') ->
  ends (m ≫= f) s lo'.
Proof.
  unfold ends, mbind, M_bind. intros H1 H2. destruct (m s) as [a s'| |e] eqn:E; [|done|done].
  by apply H2.
Qed.

Lemma ends_mono {A} (m : M nat A) s lo lo' : ends m s lo -> (lo' <= lo)%nat -> ends m s lo'.
Proof. unfold ends. destruct (m s) as [a s'|s'|e]; try done. lia. Qed.

Lemma ends_ret {A} (a : A) s : (s <= length buf)%nat -> ends (mret a) s s.
Proof. unfold ends. cbn. lia. Qed.

Lemma space_len_le l : (space_len l <= length l)%nat.
Proof. induction l as [|c l IH]; cbn; [lia|]. destruct (is_space c); cbn; lia. Qed.
Lemma word_len_le l : (word_len l <= length l)%nat.
Proof. induction l as [|c l IH]; cbn; [lia|]. destruct (_ && _); cbn; lia. Qed.

Lemma skip_range s : (s <= length buf)%nat -> (s <= skip buf s <= length buf)%nat.
Proof. intros Hs. unfold skip. pose proof (space_len_le (drop s buf)). rewrite length_drop in *. lia. Qed.

Lemma char_at_lt s : char_at buf s <> 0 -> (s < length buf)%nat.
Proof.
  intros H. destruct (decide (s < length buf)%nat); [done|]. exfalso. apply H. unfold char_at.
  by rewrite lookup_ge_None_2 by lia.
Qed.

Lemma skip_not_space s : (s <= length buf)%nat -> is_space (char_at buf (skip buf s)) = false.
Proof.
  intros Hs. unfold skip, char_at. rewrite <-lookup_drop. clear Hs.
  induction (drop s buf) as [|c l IH]; cbn; [done|]. destruct (is_space c) eqn:E; cbn; [done|].
  unfold id. done.
Qed.

Lemma lex_range s :
  (s <= length buf)%nat -> is_space (char_at buf s) = false ->
  (s <= (lex buf s).2 <= length buf)%nat /\ (char_at buf s <> 0 -> (s < (lex buf s).2)%nat) /\
  (char_at buf s = 0 -> (lex buf s).1 = 0).
Proof.
  intros Hs Hsp. unfold lex. set (c := char_at buf s) in *.
  destruct (Z.eqb_spec c 0) as [->|Hnz]; [cbn; split; [lia|done]|].
  assert (Hlt : (s < length buf)%nat) by by apply char_at_lt.
  destruct (bool_decide_reflect (c ∈ bytes_of "|();&<")) as [Hin|Hin]; [cbn; split; [lia|split; [lia|done]]|].
  destruct (Z.eqb_spec c (chr ">")) as [Eg|Hg].
  { destruct (Z.eqb_spec (char_at buf (S s)) (chr ">")) as [E2|_]; cbn; [|split; [lia|split; [lia|done]]].
    assert ((S s < length buf)%nat) by (apply char_at_lt; by rewrite E2). split; [lia|split; [lia|done]]. }
  cbn [fst snd]. pose proof (word_len_le (drop s buf)) as Hle. rewrite length_drop in Hle.
  assert (Hpos : (0 < word_len (drop s buf))%nat).
  { destruct (drop s buf) as [|c' l] eqn:Ed.
    { apply (f_equal length) in Ed. rewrite length_drop in Ed. cbn in Ed. lia. }
    pose proof (char_at_drop buf s c' l Ed) as Ec. fold c in Ec. subst c'. cbn. rewrite Hsp.
    assert (Hsy : is_symbol c = false).
    { unfold is_symbol, strchr. rewrite (bool_decide_false (c ∈ symbols)); [apply andb_false_r|].
      intros H. apply Hin. apply list_elem_of_In in H. apply list_elem_of_In. cbn in *.
      unfold chr in Hg. cbn in Hg. intuition congruence. }
    rewrite Hsy. cbn. lia. }
  split; [lia|]. split; [lia|done].
Qed.

Lemma gettoken_ends s :
  (s <= length buf)%nat ->
  exists r t s', gettoken buf s = Ok (r, t) s' /\ (skip buf s <= s' <= length buf)%nat /\
    (char_at buf (skip buf s) <> 0 \/ r <> 0 -> (skip buf s < s')%nat).
Proof.
  intros Hs. pose proof (skip_range s Hs) as Hr.
  destruct (lex_range (skip buf s) ltac:(lia) (skip_not_space s Hs)) as (H1 & H2 & H3).
  unfold gettoken. erewrite bind_ok; [|reflexivity]. cbn beta. destruct (lex buf (skip buf s)) as [r e].
  cbn [fst snd] in *. erewrite bind_ok; [|reflexivity]. eexists _, _, _. split; [reflexivity|].
  pose proof (skip_range e ltac:(lia)). split; [lia|]. intros Hor.
  assert (Hnz : char_at buf (skip buf s) <> 0) by (destruct Hor as [?|Hz]; auto).
  specialize (H2 Hnz). lia.
Qed.

Lemma peek_true set s s1 b :
  (s <= length buf)%nat -> peek buf set s = Ok b s1 ->
  s1 = skip buf s /\ (b = true -> skip buf s1 = s1 /\ char_at buf s1 <> 0).
Proof.
  intros Hs. unfold peek. cbn. intros [= <- <-]. split; [done|]. intros H.
  unfold strchr in H. apply andb_true_iff in H as [H _]. split; [|by intros E; rewrite E in H].
  pose proof (skip_not_space s Hs) as Hsp. pose proof (skip_range s Hs). unfold skip at 1.
  destruct (drop (skip buf s) buf) as [|c l] eqn:Ed; cbn; [lia|].
  rewrite (char_at_drop buf _ _ _ Ed) in Hsp. rewrite Hsp. lia.
Qed.

(** After a successful [peek], the token is taken. *)
Lemma ends_peek {B} set (f : bool -> M nat B) s :
  (s <= length buf)%nat ->
  (forall s1, (s <= s1 <= length buf)%nat -> ends (f false) s1 s1) ->
  (forall s1, (s <= s1 <= length buf)%nat ->
     (exists r t s', gettoken buf s1 = Ok (r, t) s' /\ (s1 < s' <= length buf)%nat) -> ends (f true) s1 s1) ->
  ends (peek buf set ≫= f) s s.
Proof.
  intros Hs Hf Ht. pose proof (skip_range s Hs) as Hr. destruct (peek buf set s) as [b s1| |] eqn:E; [|done|done].
  destruct (peek_true set s s1 b Hs E) as [-> Hb]. unfold ends. rewrite (bind_ok _ _ _ _ _ E).
  apply (ends_mono (f b) _ (skip buf s)); [|lia]. destruct b; [|by apply Hf]. apply Ht; [done|].
  destruct (Hb eq_refl) as [Hsk Hnz]. destruct (gettoken_ends (skip buf s) ltac:(lia)) as (r & t & s' & Eg & H1 & H2).
  exists r, t, s'. split; [done|]. rewrite Hsk in *. specialize (H2 (or_introl Hnz)). lia.
Qed.

Lemma redirs_ends fuel s : (s <= length buf)%nat -> (length buf - s < fuel)%nat -> ends (redirs buf fuel) s s.
Proof.
  revert s. induction fuel as [|fuel IH]; intros s Hs Hf; [lia|]. cbn [redirs].
  apply ends_peek; [done|intros; by apply ends_ret; lia|].
  intros s1 Hs1 (r & t & s2 & E & Hs2). unfold ends. rewrite (bind_ok _ _ _ _ _ E). cbn beta iota.
  destruct (gettoken_ends s2 ltac:(lia)) as (r' & t' & s3 & E3 & H3 & _).
  rewrite (bind_ok _ _ _ _ _ E3). cbn beta iota. pose proof (skip_range s2 ltac:(lia)).
  destruct (negb _); [done|].
  apply (ends_bind (redirs buf fuel) _ s3 s3); [apply IH; lia|]. intros rs s4 _ H4. unfold ends. cbn. lia.
Qed.

Lemma parseargs_ends fuel argv s :
  (s <= length buf)%nat -> (length buf - s < fuel)%nat -> ends (parseargs buf fuel argv) s s.
Proof.
  revert argv s. induction fuel as [|fuel IH]; intros argv s Hs Hf; [lia|]. cbn [parseargs].
  apply ends_peek; [done| |intros; by apply ends_ret; lia].
  intros s1 Hs1. destruct (gettoken_ends s1 ltac:(lia)) as (r & t & s2 & E & H2 & Hlt).
  pose proof (skip_range s1 ltac:(lia)). unfold ends. rewrite (bind_ok _ _ _ _ _ E). cbn beta iota.
  destruct (Z.eqb_spec r 0) as [->|Hr]; [cbn; lia|]. specialize (Hlt (or_intror Hr)).
  destruct (negb _); [done|]. destruct (_ <=? _)%nat; [done|].
  apply (ends_bind (redirs buf fuel) _ s2 s2); [apply redirs_ends; lia|]. intros rs s3 _ H3.
  apply (ends_bind (parseargs buf fuel _) _ s3 s3); [apply IH; lia|]. intros [a' rs'] s4 _ H4. unfold ends. cbn. lia.
Qed.

Lemma parseback_ends fuel c s :
  (s <= length buf)%nat -> (length buf - s < fuel)%nat -> ends (parseback buf fuel c) s s.
Proof.
  revert c s. induction fuel as [|fuel IH]; intros c s Hs Hf; [lia|]. cbn [parseback].
  apply ends_peek; [done|intros; by apply ends_ret; lia|].
  intros s1 Hs1 (r & t & s2 & E & Hs2). unfold ends. rewrite (bind_ok _ _ _ _ _ E).
  apply (ends_mono _ _ s2); [|lia]. apply IH; lia.
Qed.

(** Take the symbol that was seen, parse on and return. *)
Lemma ends_then {A B} (p : M nat A) (f : A -> B) s1 :
  (exists r t s', gettoken buf s1 = Ok (r, t) s' /\ (s1 < s' <= length buf)%nat) ->
  (forall s', (s1 < s' <= length buf)%nat -> ends p s' s') ->
  ends (gettoken buf ≫= fun _ => p ≫= fun x => mret (f x)) s1 s1.
Proof.
  intros (r & t & s2 & E & Hs2) Hp. unfold ends. rewrite (bind_ok _ _ _ _ _ E).
  apply (ends_bind p _ s2 s2); [by apply Hp|]. intros a s3 _ H3. unfold ends. cbn. lia.
Qed.

Lemma parse_ends fuel : forall s, (s <= length buf)%nat ->
  ((8 * (length buf - s) + 6 <= fuel)%nat -> ends (parseline buf fuel) s s) /\
  ((8 * (length buf - s) + 5 <= fuel)%nat -> ends (parsepipe buf fuel) s s) /\
  ((8 * (length buf - s) + 4 <= fuel)%nat -> ends (parseexec buf fuel) s s) /\
  ((8 * (length buf - s) + 3 <= fuel)%nat -> ends (parseblock buf fuel) s s).
Proof.
  induction fuel as [|fuel IH]; intros s Hs; [split_and!; lia|]. split_and!; intros Hf.
  - cbn [parseline]. apply (ends_bind (parsepipe buf fuel) _ s s); [apply IH; lia|]. intros c s1 _ H1.
    apply (ends_bind (parseback buf fuel c) _ s1 s1); [apply parseback_ends; lia|]. intros c2 s2 _ H2.
    apply (ends_mono _ _ s2); [|lia]. apply ends_peek; [lia|intros; apply ends_ret; lia|].
    intros s3 H3 Hg. apply ends_then; [done|]. intros s4 H4. apply IH; lia.
  - cbn [parsepipe]. apply (ends_bind (parseexec buf fuel) _ s s); [apply IH; lia|]. intros c s1 _ H1.
    apply (ends_mono _ _ s1); [|lia]. apply ends_peek; [lia|intros; apply ends_ret; lia|].
    intros s3 H3 Hg. apply ends_then; [done|]. intros s4 H4. apply IH; lia.
  - cbn [parseexec]. apply ends_peek; [done| |intros s1 H1 _; apply IH; lia].
    intros s1 H1. apply (ends_bind (redirs buf fuel) _ s1 s1); [apply redirs_ends; lia|]. intros rs s2 _ H2.
    apply (ends_bind (parseargs buf fuel []) _ s2 s2); [apply parseargs_ends; lia|].
    intros [a rs'] s3 _ H3. unfold ends. cbn. lia.
  - cbn [parseblock]. apply ends_peek; [done|done|].
    intros s1 H1 (r & t & s2 & E & H2). cbn [negb]. unfold ends. rewrite (bind_ok _ _ _ _ _ E).
    apply (ends_bind (parseline buf fuel) _ s2 s2); [apply IH; lia|]. intros c s3 _ H3.
    apply (ends_mono _ _ s3); [|lia]. apply ends_peek; [lia|done|].
    intros s4 H4 (r' & t' & s5 & E5 & H5). cbn [negb]. unfold ends. rewrite (bind_ok _ _ _ _ _ E5).
    apply (ends_mono _ _ s5); [|lia]. unfold parseredirs.
    apply (ends_bind (redirs buf fuel) _ s5 s5); [apply redirs_ends; lia|]. intros rs s6 _ H6. unfold ends. cbn. lia.
Qed.
End Termination.

(** C32: the parser terminates on every line: [parsecmd] returns a command or stops with one
    of the shell's error messages, whatever bytes the line has. *)
Theorem parsecmd_terminates (buf : list Z) :
  (exists c line s, parsecmd buf 0%nat = Ok (c, line) s) \/ (exists msg, parsecmd buf 0%nat = Err (EPanic msg)).
Proof.
  pose proof (proj1 (parse_ends buf (parse_fuel buf) 0%nat ltac:(lia)) ltac:(unfold parse_fuel; lia)) as H.
  unfold parsecmd. erewrite bind_ok; [|reflexivity]. unfold ends in H.
  destruct (parseline buf (parse_fuel buf) 0%nat) as [c s|s|e] eqn:E; [|done|].
  - rewrite (bind_ok _ _ _ _ _ E). cbn beta. erewrite bind_ok; [|reflexivity].
    erewrite bind_ok; [|reflexivity]. cbn beta. destruct (negb _).
    + right. by eexists.
    + left. by eexists _, _, _.
  - right. destruct e as [msg| |]; [|done..]. exists msg. unfold mbind, M_bind. by rewrite E.
Qed.
