(* ===== verification/Kalloc.v ===== *)
(** The physical page allocator, [src/kalloc.c].

    Kernel memory is a map from kernel virtual addresses to bytes; the free
    list runs through the first eight bytes of the free pages. *)
From Stdlib Require Import ZArith Lia.
From stdpp Require Import base gmap sets strings numbers list.
From S2P Require Import Prelude Strings State Spinlock.

Local Open Scope Z_scope.

(** ** [src/memlayout.h] and [src/mmu.h] *)
Definition V2P (a : Z) : Z := u64 (a - KERNBASE).
Definition P2V (a : Z) : Z := u64 (a + KERNBASE).
Definition PGROUNDUP (a : Z) : Z := Z.land (u64 (a + (PGSIZE - 1))) (Z.lnot (PGSIZE - 1)).
Definition PGROUNDDOWN (a : Z) : Z := Z.land a (Z.lnot (PGSIZE - 1)).

Definition upd_mem (f : mem -> mem) : M kst unit := modify (fun k => set_k_mem (f (k_mem k)) k).
Definition load64 (a : Z) : M kst Z := gets (fun k => load 8 (k_mem k) a).
Definition store64 (a v : Z) : M kst unit := upd_mem (fun m => store 8 m a v).
Definition upd_kmem (f : kmemst -> kmemst) : M kst unit :=
  modify (fun k => set_k_kmem (f (k_kmem k)) k).

Definition kfree (v : Z) : M kst unit :=
  k ← get;
  if negb (v mod PGSIZE =? 0) || (v <? k_end k) || (V2P v >=? PHYSTOP) then panic "kfree" else
  upd_mem (fun m => memset m v 1 PGSIZE);;
  (if km_use_lock (k_kmem k) then acquire L_kmem else mret tt);;
  km ← gets k_kmem;
  store64 v (km_freelist km);;
  upd_kmem (set_km_freelist v);;
  (if km_use_lock (k_kmem k) then release L_kmem else mret tt).

Definition kalloc : M kst Z :=
  use ← gets (fun k => km_use_lock (k_kmem k));
  (if (use : bool) then acquire L_kmem else mret tt);;
  r ← gets (fun k => km_freelist (k_kmem k));
  (if r =? 0 then mret tt
   else
     next ← load64 r;
     upd_kmem (set_km_freelist next));;
  (if (use : bool) then release L_kmem else mret tt);;
  mret r.

(** The loop of [freerange]: [n] pages from [p] on. *)
Fixpoint freerange_loop (n : nat) (p : Z) : M kst unit :=
  match n with
  | O => mret tt
  | S n' => kfree p;; freerange_loop n' (p + PGSIZE)
  end.

(** The number of whole pages from [PGROUNDUP(vstart)] to [vend]. *)
Definition freerange (vstart vend : Z) : M kst unit :=
  let p := PGROUNDUP vstart in
  freerange_loop (Z.to_nat ((vend - p) / PGSIZE)) p.

Definition kinit1 (vstart vend : Z) : M kst unit :=
  upd_kmem (set_km_use_lock false);;
  freerange vstart vend.

Definition kinit2 (vstart vend : Z) : M kst unit :=
  freerange vstart vend;;
  upd_kmem (set_km_use_lock true).

(** ** The free list as a list of pages *)
Definition page_ok (kend v : Z) : Prop :=
  v mod PGSIZE = 0 /\ kend <= v /\ KERNBASE <= v < KERNBASE + PHYSTOP.

(** From [p] the links visit exactly the pages of [l]. *)
Fixpoint links (m : mem) (p : Z) (l : list Z) : Prop :=
  match l with
  | [] => p = 0
  | v :: l' => p = v /\ links m (load 8 m v) l'
  end.

Record free_pages (k : kst) (l : list Z) : Prop := mk_free_pages {
  fp_links : links (k_mem k) (km_freelist (k_kmem k)) l;
  fp_nd : NoDup l;
  fp_ok : Forall (page_ok (k_end k)) l;
  fp_cpu : cpu_ok (k_cpu k);
  fp_lock : L_kmem ∉ held (k_cpu k)
}.

Lemma links_ext m m' p l :
  (forall v i, v ∈ l -> 0 <= i < 8 -> m' (v + i) = m (v + i)) -> links m p l -> links m' p l.
Proof.
  revert p. induction l as [|v l IH]; intros p E; [done|]. simpl. intros [-> Hl].
  split; [done|]. rewrite (load_ext _ m' m). 
  - apply IH; [|done]. intros. apply E; [by right|done].
  - intros x Hx. replace x with (v + (x - v)) by lia. apply E; [left|lia].
Qed.

Lemma V2P_page v : KERNBASE <= v < KERNBASE + PHYSTOP -> V2P v = v - KERNBASE.
Proof. intros. unfold V2P. apply u64_small. unfold KERNBASE, PHYSTOP in *. lia. Qed.
Lemma P2V_V2P v : KERNBASE <= v < KERNBASE + PHYSTOP -> P2V (V2P v) = v.
Proof.
  intros. rewrite V2P_page by done. unfold P2V. rewrite u64_small; unfold KERNBASE, PHYSTOP in *; lia.
Qed.

Lemma page_ok_pos kend v : page_ok kend v -> 0 < v < 2 ^ 64.
Proof. unfold page_ok, KERNBASE, PHYSTOP. lia. Qed.

(** Distinct pages do not overlap. *)
Lemma pages_disjoint v w : v mod PGSIZE = 0 -> w mod PGSIZE = 0 -> v <> w ->
  v + PGSIZE <= w \/ w + PGSIZE <= v.
Proof.
  intros Hv Hw Hne. unfold PGSIZE in *.
  pose proof (Z.div_mod v 4096 ltac:(lia)). pose proof (Z.div_mod w 4096 ltac:(lia)).
  destruct (Z.lt_trichotomy (v / 4096) (w / 4096)) as [|[|]]; nia.
Qed.

(** Memory after [kfree v] with the list head [h]. *)
Definition freed (m : mem) (v h : Z) : mem := store 8 (memset m v 1 PGSIZE) v h.

Lemma freed_other m v h a : ~ (v <= a < v + PGSIZE) -> freed m v h a = m a.
Proof.
  intros Ha. unfold freed, PGSIZE in *. rewrite store_old by (simpl; lia).
  rewrite memset_filled by (unfold PGSIZE; lia). unfold filled.
  destruct (Z.leb_spec v a); destruct (Z.ltb_spec a (v + 4096)); simpl; try done; lia.
Qed.

Lemma kfree_eq k l v :
  free_pages k l -> page_ok (k_end k) v ->
  kfree v k = Ok tt (set_k_kmem (set_km_freelist v (k_kmem k))
                (set_k_mem (freed (k_mem k) v (km_freelist (k_kmem k))) k)).
Proof.
  intros [Hl Hnd Hok Hc Hlk] (Hm & He & Hr). unfold kfree, get. unfold mbind at 1, M_bind at 1.
  rewrite Hm, V2P_page by done. simpl.
  rewrite (proj2 (Z.ltb_ge _ _)) by done. simpl.
  replace (v - KERNBASE >=? PHYSTOP) with false by lia. simpl.
  unfold upd_mem, modify, gets, store64, upd_kmem, upd_mem, modify, mbind, M_bind, mret, M_ret.
  destruct (km_use_lock (k_kmem k)).
  - rewrite acquire_eq by done. simpl. rewrite (release_eq L_kmem (k_cpu k)) by done. by destruct k.
  - by destruct k.
Qed.

Lemma kalloc_eq k l :
  free_pages k l ->
  kalloc k = Ok (default 0 (head l))
    (set_k_kmem (set_km_freelist (default 0 (head (tail l))) (k_kmem k)) k).
Proof.
  intros [Hl Hnd Hok Hc Hlk]. unfold kalloc, gets, load64, upd_kmem, modify.
  unfold mbind, M_bind, mret, M_ret.
  assert (E : km_freelist (k_kmem k) = default 0 (head l) /\
    (l <> [] -> load 8 (k_mem k) (km_freelist (k_kmem k)) = default 0 (head (tail l)) /\
                km_freelist (k_kmem k) <> 0)).
  { destruct l as [|v l]; simpl in *; [done|]. destruct Hl as [-> Hl]. split; [done|]. intros _.
    apply Forall_cons in Hok as [Hv%page_ok_pos _].
    destruct l as [|w l]; simpl in *; [|destruct Hl as [-> _]]; split; done || lia. }
  destruct E as [E1 E2].
  assert (Hk : k = set_k_kmem (set_km_freelist (default 0 (head l)) (k_kmem k)) k).
  { rewrite <- E1. destruct k as [? ? ? ? ? ? ? ? ? ? ? ? ? ? ? [? ?]]. done. }
  destruct l as [|v l].
  - simpl in *. destruct (km_use_lock (k_kmem k)).
    + rewrite acquire_eq by done. simpl. rewrite E1. simpl. rewrite (release_eq L_kmem (k_cpu k)) by done.
      f_equal. rewrite Hk at 2. by destruct k.
    + rewrite E1. simpl. by rewrite <- Hk.
  - destruct (E2 ltac:(done)) as [E3 E4]. rewrite E1 in E3, E4. simpl in *.
    destruct (km_use_lock (k_kmem k)).
    + rewrite acquire_eq by done. simpl. rewrite E1. rewrite (proj2 (Z.eqb_neq _ _)) by done. simpl. rewrite E3.
      rewrite (release_eq L_kmem (k_cpu k)) by done. by destruct k.
    + rewrite E1, (proj2 (Z.eqb_neq _ _)) by done. by rewrite E3.
Qed.

Lemma free_pages_kfree k l v :
  free_pages k l -> page_ok (k_end k) v -> v ∉ l ->
  free_pages (set_k_kmem (set_km_freelist v (k_kmem k))
    (set_k_mem (freed (k_mem k) v (km_freelist (k_kmem k))) k)) (v :: l).
Proof.
  intros [Hl Hnd Hok Hc Hlk] Hv Hn. constructor; try done.
  - cbn [links k_mem k_kmem set_k_kmem set_k_mem km_freelist set_km_freelist]. split; [done|].
    assert (Hh : 0 <= km_freelist (k_kmem k) < 2 ^ 64).
    { destruct l as [|w l]; simpl in Hl; [rewrite Hl; lia|]. destruct Hl as [-> _].
      apply Forall_cons in Hok as [Hw%page_ok_pos _]. lia. }
    assert (El : load 8 (freed (k_mem k) v (km_freelist (k_kmem k))) v = km_freelist (k_kmem k)).
    { unfold freed. rewrite load_store_same. by apply Z.mod_small. }
    rewrite El. eapply links_ext; [|exact Hl]. intros w i Hw Hi. apply freed_other.
    assert (Hwv : w <> v) by (by intros ->).
    apply (proj1 (Forall_forall _ _) Hok) in Hw as (Hwm & _).
    destruct Hv as (Hvm & _). pose proof (pages_disjoint v w Hvm Hwm ltac:(congruence)).
    unfold PGSIZE in *. lia.
  - by constructor.
  - by constructor.
Qed.

Lemma free_pages_kalloc k l :
  free_pages k l ->
  free_pages (set_k_kmem (set_km_freelist (default 0 (head (tail l))) (k_kmem k)) k) (tail l).
Proof.
  intros [Hl Hnd Hok Hc Hlk]. destruct l as [|v l]; simpl in *; [by constructor|].
  destruct Hl as [Hv Hl]. apply NoDup_cons in Hnd as [_ Hnd]. apply Forall_cons in Hok as [_ Hok].
  constructor; try done. simpl. destruct l as [|w l]; simpl in *; [done|].
  by destruct Hl as [_ Hl].
Qed.

(** ** Clients *)

(** A client's call: allocate, or free a page it owns (a free of anything else is
    not made). *)
Inductive kop : Type :=
| KAlloc
| KFree (v : Z).

(** Run the calls; [owned] are the pages the client holds. *)
Fixpoint run_kops (ops : list kop) (owned : list Z) : M kst (list Z) :=
  match ops with
  | [] => mret owned
  | KAlloc :: ops' =>
      r ← kalloc;
      run_kops ops' (if r =? 0 then owned else r :: owned)
  | KFree v :: ops' =>
      if decide (v ∈ owned) then kfree v;; run_kops ops' (filter (fun w => w <> v) owned)
      else run_kops ops' owned
  end.

Lemma filter_ne_perm (v : Z) (l : list Z) : v ∈ l -> NoDup l -> v :: filter (fun w => w <> v) l ≡ₚ l.
Proof.
  intros Hv Hnd. apply NoDup_Permutation; [|done|].
  - constructor; [rewrite list_elem_of_filter; tauto|by apply NoDup_filter].
  - intros x. rewrite elem_of_cons, list_elem_of_filter. destruct (decide (x = v)); naive_solver.
Qed.

(** ** Properties *)

(** C19: the allocator conserves pages.  Whatever sequence of allocations and frees a
    client makes, the calls succeed, and the pages it owns and the pages on the
    free list are together exactly the pages there were at the start, each once:
    no page is ever handed out twice, lost or invented. *)
Theorem kalloc_conserves ops owned k l :
  free_pages k l -> Forall (page_ok (k_end k)) owned -> NoDup (owned ++ l) ->
  exists k' owned' l', run_kops ops owned k = Ok owned' k' /\ free_pages k' l' /\
    NoDup (owned' ++ l') /\ owned' ++ l' ≡ₚ owned ++ l.
Proof.
  revert owned k l. induction ops as [|[|v] ops IH]; intros owned k l Hf Ho Hnd; cbn [run_kops].
  - by exists k, owned, l.
  - erewrite bind_ok; [|by apply (kalloc_eq k l)]. pose proof (free_pages_kalloc k l Hf) as Hf'.
    destruct l as [|v l]; simpl in *.
    + by apply (IH owned _ [] Hf').
    + pose proof (fp_ok _ _ Hf) as [Hv Hl]%Forall_cons.
      rewrite (proj2 (Z.eqb_neq _ _)) by (pose proof (page_ok_pos _ _ Hv); lia).
      destruct (IH (v :: owned) _ l Hf') as (k' & ow' & l' & E & Hf2 & Hnd2 & Hp).
      * by constructor.
      * simpl. by rewrite Permutation_middle.
      * exists k', ow', l'. split_and!; try done. rewrite Hp. simpl. apply Permutation_middle.
  - case_decide as Hv; [|by apply IH].
    pose proof (proj1 (Forall_forall _ _) Ho v Hv) as Hvok.
    assert (Hvl : v ∉ l) by (intros Hin; apply NoDup_app in Hnd as (_ & Hd & _); by apply (Hd v)).
    erewrite bind_ok; [|by apply (kfree_eq k l)].
    pose proof (free_pages_kfree k l v Hf Hvok Hvl) as Hf'.
    assert (Hperm : filter (fun w => w <> v) owned ++ v :: l ≡ₚ owned ++ l).
    { rewrite <- Permutation_middle. apply NoDup_app in Hnd as (Hno & _ & _).
      change (v :: ?a ++ l) with ((v :: a) ++ l). by rewrite filter_ne_perm. }
    destruct (IH (filter (fun w => w <> v) owned) _ (v :: l) Hf') as (k' & ow' & l' & E & Hf2 & Hnd2 & Hp).
    + apply Forall_forall. intros w [_ Hw]%list_elem_of_filter. by apply (proj1 (Forall_forall _ _) Ho).
    + by rewrite Hperm.
    + exists k', ow', l'. split_and!; try done. by rewrite Hp.
Qed.

(** [freerange] puts every page of the range on the list. *)
Lemma freerange_loop_spec n p k l :
  free_pages k l -> (forall i, (i < n)%nat -> page_ok (k_end k) (p + PGSIZE * Z.of_nat i)) ->
  (forall i, (i < n)%nat -> p + PGSIZE * Z.of_nat i ∉ l) ->
  exists k', freerange_loop n p k = Ok tt k' /\ k_end k' = k_end k /\
    free_pages k' (reverse ((fun i => p + PGSIZE * Z.of_nat i) <$> seq 0 n) ++ l).
Proof.
  revert p k l. induction n as [|n IH]; intros p k l Hf Hok Hn; cbn [freerange_loop].
  { by exists k. }
  assert (Hp : page_ok (k_end k) p) by (specialize (Hok O ltac:(lia)); by rewrite Z.mul_0_r, Z.add_0_r in Hok).
  assert (Hpl : p ∉ l) by (specialize (Hn O ltac:(lia)); by rewrite Z.mul_0_r, Z.add_0_r in Hn).
  erewrite bind_ok; [|by apply (kfree_eq k l)].
  destruct (IH (p + PGSIZE) _ (p :: l) (free_pages_kfree k l p Hf Hp Hpl)) as (k' & E & Ee & Hf').
  - intros i Hi. specialize (Hok (S i) ltac:(lia)).
    by replace (p + PGSIZE + PGSIZE * Z.of_nat i) with (p + PGSIZE * Z.of_nat (S i)) by lia.
  - intros i Hi. apply not_elem_of_cons. split; [unfold PGSIZE; lia|].
    specialize (Hn (S i) ltac:(lia)).
    by replace (p + PGSIZE + PGSIZE * Z.of_nat i) with (p + PGSIZE * Z.of_nat (S i)) by lia.
  - exists k'. split_and!; [done|done|]. cbn [seq fmap list_fmap]. rewrite reverse_cons, <- app_assoc.
    rewrite <- fmap_S_seq. rewrite <- list_fmap_compose.
    replace (p + PGSIZE * Z.of_nat 0) with p by lia.
    replace ((fun i => p + PGSIZE * Z.of_nat i) ∘ S <$> seq 0 n) with
      ((fun i => p + PGSIZE + PGSIZE * Z.of_nat i) <$> seq 0 n); [done|].
    apply list_fmap_ext. intros i x _. unfold compose. lia.
Qed.

(** A kernel with one free page. *)
Definition demo_page : Z := KERNBASE + 4194304.
Lemma demo_free : free_pages (set_k_kmem (mk_kmemst true demo_page)
  (set_k_end (KERNBASE + EXTMEM) kst_zero)) [demo_page].
Proof.
  constructor.
  - split; [reflexivity|]. reflexivity.
  - apply NoDup_singleton.
  - constructor; [|constructor]. unfold page_ok. vm_compute. intuition congruence.
  - unfold cpu_ok; simpl. repeat split; try lia; try done; constructor.
  - apply not_elem_of_nil.
Qed.

Lemma kalloc_conserves_witness :
  exists k' l', run_kops [KAlloc; KAlloc; KFree demo_page; KAlloc] []
      (set_k_kmem (mk_kmemst true demo_page) (set_k_end (KERNBASE + EXTMEM) kst_zero)) = Ok [demo_page] k' /\
    [demo_page] ++ l' ≡ₚ [demo_page].
Proof.
  destruct (kalloc_conserves [KAlloc; KAlloc; KFree demo_page; KAlloc] []
    (set_k_kmem (mk_kmemst true demo_page) (set_k_end (KERNBASE + EXTMEM) kst_zero)) [demo_page])
    as (k' & ow & l' & E & Hf & Hnd & Hp).
  - exact demo_free.
  - constructor.
  - apply NoDup_singleton.
  - assert (Ho : ow = [demo_page]).
    { enough (X : match run_kops [KAlloc; KAlloc; KFree demo_page; KAlloc] []
        (set_k_kmem (mk_kmemst true demo_page) (set_k_end (KERNBASE + EXTMEM) kst_zero)) with
        | Ok o _ => o = [demo_page] | _ => False end) by (rewrite E in X; exact X).
      vm_compute. reflexivity. }
    subst ow. exists k', l'. split; [exact E|exact Hp].
Defined.
