(* ===== verification/Vm.v ===== *)
(** Virtual memory, [src/vm.c]: four-level page tables in kernel memory, user
    address spaces, and the kernel's access to user memory.

    A page table entry is 64 bits, little-endian, in the byte memory [k_mem]. *)
From Stdlib Require Import ZArith Lia.
From stdpp Require Import base gmap sets strings numbers list.
From S2P Require Import Prelude Strings State Spinlock Fs Dir Kalloc.

Local Open Scope Z_scope.

Definition PTE_P : Z := 1.
Definition PTE_W : Z := 2.
Definition PTE_U : Z := 4.
Definition PTE_PWT : Z := 8.
Definition PTE_PCD : Z := 16.
Definition PTE_PS : Z := 128.
Definition PTE_ADDR (pte : Z) : Z := Z.land pte (u64 (Z.lnot 4095)).
Definition PTE_FLAGS (pte : Z) : Z := Z.land pte 4095.
Definition NPDENTRIES : nat := 512.

(** The four indices of a virtual address. *)
Definition px (shift va : Z) : Z := Z.land (Z.shiftr va shift) 511.
Definition PMX : Z -> Z := px 39.
Definition PDPX : Z -> Z := px 30.
Definition PDX : Z -> Z := px 21.
Definition PTX : Z -> Z := px 12.

(** [memset(p, 0, PGSIZE)]; a null pointer (from a failed [kalloc]) is not mapped. *)
Definition zero_page (p : Z) : M kst unit :=
  if p =? 0 then fault "null pointer" else upd_mem (fun m => memset m p 0 PGSIZE).
(** [memmove] between kernel addresses. *)
Definition kmemmove (dst src n : Z) : M kst unit := upd_mem (fun m => memmove m dst src n).
(** Store bytes that the kernel has at hand. *)
Definition kstore_bytes (dst : Z) (bs : list Z) : M kst unit :=
  upd_mem (fun m => write_bytes m dst bs).

(** ** The kernel's page table *)
Definition setupkvm : M kst Z :=
  pml4 ← kalloc;
  zero_page pml4;;
  k ← get;
  store64 (pml4 + 8 * 256) (Z.lor (Z.lor (V2P (k_kpdpt k)) PTE_P) PTE_W);;
  mret pml4.

Definition lcr3 (v : Z) : M kst unit := modify (set_k_cr3 v).

Definition switchkvm : M kst unit :=
  k ← get;
  lcr3 (V2P (k_kpml4 k)).

Definition kvmalloc : M kst unit :=
  kpml4 ← kalloc;
  modify (set_k_kpml4 kpml4);;
  zero_page kpml4;;
  kpdpt ← kalloc;
  modify (set_k_kpdpt kpdpt);;
  zero_page kpdpt;;
  store64 (kpml4 + 8 * PMX KERNBASE) (Z.lor (Z.lor (V2P kpdpt) PTE_P) PTE_W);;
  store64 kpdpt (Z.lor (Z.lor (Z.lor 0 PTE_PS) PTE_P) PTE_W);;
  store64 (kpdpt + 8 * 3)
    (Z.lor (Z.lor (Z.lor (Z.lor (Z.lor 3221225472 PTE_PS) PTE_P) PTE_W) PTE_PWT) PTE_PCD);;
  switchkvm.

Definition switchuvm (p : proc) : M kst unit :=
  pushcli;;
  if p_pgdir p =? 0 then panic "switchuvm: no pgdir" else
  k ← get;
  let tss := k_local k + 1024 in
  let stktop := u64 (p_kstack p + KSTACKSIZE) in
  upd_mem (fun m => store 4 m (tss + 4) (u32 stktop));;
  upd_mem (fun m => store 4 m (tss + 8) (u32 (Z.shiftr stktop 32)));;
  lcr3 (V2P (p_pgdir p));;
  popcli.

(** ** Walking a page table *)

(** One level of [walkpgdir]: the table that the entry at address [e] points to, made
    if absent; 0 if it is absent and is not to be, or cannot be, made. *)
Definition walk_level (e : Z) (alloc : bool) : M kst Z :=
  v ← load64 e;
  if has v PTE_P then mret (P2V (PTE_ADDR v))
  else if negb alloc then mret 0
  else
    t ← kalloc;
    if t =? 0 then mret 0 else
    zero_page t;;
    store64 e (Z.lor (Z.lor (Z.lor (V2P t) PTE_P) PTE_W) PTE_U);;
    mret t.

(** The address of the page table entry of [va], or 0. *)
Definition walkpgdir (pml4 va : Z) (alloc : bool) : M kst Z :=
  pdp ← walk_level (pml4 + 8 * PMX va) alloc;
  if pdp =? 0 then mret 0 else
  pd ← walk_level (pdp + 8 * PDPX va) alloc;
  if pd =? 0 then mret 0 else
  pgtab ← walk_level (pd + 8 * PDX va) alloc;
  if pgtab =? 0 then mret 0 else
  mret (pgtab + 8 * PTX va).

(** The loop of [mappages] up to the page [last]; a round per page. *)
Fixpoint mappages_loop (fuel : nat) (pgdir a last pa perm : Z) : M kst Z :=
  match fuel with
  | O => fail EFuel
  | S fuel' =>
      pte ← walkpgdir pgdir a true;
      if pte =? 0 then mret (-1) else
      v ← load64 pte;
      if has v PTE_P then panic "remap" else
      store64 pte (Z.lor (Z.lor pa perm) PTE_P);;
      if a =? last then mret 0
      else mappages_loop fuel' pgdir (u64 (a + PGSIZE)) last (u64 (pa + PGSIZE)) perm
  end.

Definition mappages (pgdir va size pa perm : Z) : M kst Z :=
  let a := PGROUNDDOWN va in
  let last := PGROUNDDOWN (u64 (va + size - 1)) in
  mappages_loop (Z.to_nat ((last - a) / PGSIZE + 1)) pgdir a last pa perm.

(** ** User address spaces *)
Definition inituvm (pgdir : Z) (init : list Z) (sz : Z) : M kst unit :=
  if sz >=? PGSIZE then panic "inituvm: more than a page" else
  mem ← kalloc;
  zero_page mem;;
  mappages pgdir PGSIZE PGSIZE (V2P mem) (Z.lor PTE_W PTE_U);;
  kstore_bytes mem (take (Z.to_nat sz) init).

(** The loop of [loaduvm] from offset [i]; a round per page. *)
Fixpoint loaduvm_loop (fuel : nat) (pgdir addr : Z) (ip : nat) (offset sz i : Z) : M kst Z :=
  match fuel with
  | O => fail EFuel
  | S fuel' =>
      if i <? sz then
        pte ← walkpgdir pgdir (u64 (addr + i)) false;
        if pte =? 0 then panic "loaduvm: address should exist" else
        v ← load64 pte;
        let pa := PTE_ADDR v in
        let n := if sz - i <? PGSIZE then sz - i else PGSIZE in
        '(r, bs) ← readi ip (u32 (offset + i)) n;
        kstore_bytes (P2V pa) bs;;
        if negb (r =? n) then mret (-1)
        else loaduvm_loop fuel' pgdir addr ip offset sz (i + PGSIZE)
      else mret 0
  end.
Definition loaduvm (pgdir addr : Z) (ip : nat) (offset sz : Z) : M kst Z :=
  if negb (addr mod PGSIZE =? 0) then panic "loaduvm: addr must be page aligned" else
  loaduvm_loop (Z.to_nat (sz / PGSIZE + 2)) pgdir addr ip offset sz 0.

(** The loop of [deallocuvm] from page [a]. *)
Fixpoint deallocuvm_loop (fuel : nat) (pgdir a oldsz : Z) : M kst unit :=
  match fuel with
  | O => fail EFuel
  | S fuel' =>
      if a <? oldsz then
        pte ← walkpgdir pgdir a false;
        (if pte =? 0 then mret tt
         else
           v ← load64 pte;
           if negb (has v PTE_P) then mret tt
           else
             let pa := PTE_ADDR v in
             if pa =? 0 then panic "kfree" else
             kfree (P2V pa);;
             store64 pte 0);;
        deallocuvm_loop fuel' pgdir (a + PGSIZE) oldsz
      else mret tt
  end.
Definition vm_fuel (from to : Z) : nat := Z.to_nat ((to - from) / PGSIZE + 2).

Definition deallocuvm (pgdir oldsz newsz : Z) : M kst Z :=
  if newsz >=? oldsz then mret oldsz else
  let a := PGROUNDUP newsz in
  deallocuvm_loop (vm_fuel a oldsz) pgdir a oldsz;;
  mret newsz.

(** The loop of [allocuvm] from page [a]: whether it got all pages. *)
Fixpoint allocuvm_loop (fuel : nat) (pgdir a oldsz newsz : Z) : M kst Z :=
  match fuel with
  | O => fail EFuel
  | S fuel' =>
      if a <? newsz then
        mem ← kalloc;
        if mem =? 0 then
          deallocuvm pgdir newsz oldsz;;
          mret 0
        else
          zero_page mem;;
          r ← mappages pgdir a PGSIZE (V2P mem) (Z.lor PTE_W PTE_U);
          if r <? 0 then
            deallocuvm pgdir newsz oldsz;;
            kfree mem;;
            mret 0
          else allocuvm_loop fuel' pgdir (a + PGSIZE) oldsz newsz
      else mret newsz
  end.
Definition allocuvm (pgdir oldsz newsz : Z) : M kst Z :=
  if newsz >=? KERNBASE then mret 0 else
  if newsz <? oldsz then mret oldsz else
  let a := PGROUNDUP oldsz in
  allocuvm_loop (vm_fuel a newsz) pgdir a oldsz newsz.

(** Free what the entries [i ..] of a table point to: [free] for each present one. *)
Fixpoint freevm_table (cnt : nat) (i table : Z) (free : Z -> M kst unit) : M kst unit :=
  match cnt with
  | O => mret tt
  | S cnt' =>
      e ← load64 (table + 8 * i);
      (if has e PTE_P then free (P2V (PTE_ADDR e)) else mret tt);;
      freevm_table cnt' (i + 1) table free
  end.
Definition freevm_pt (pt : Z) : M kst unit :=
  freevm_table NPDENTRIES 0 pt kfree;; kfree pt.
Definition freevm_pd (pd : Z) : M kst unit :=
  freevm_table NPDENTRIES 0 pd freevm_pt;; kfree pd.
Definition freevm_pdp (pdp : Z) : M kst unit :=
  freevm_table NPDENTRIES 0 pdp freevm_pd;; kfree pdp.
Definition freevm (pml4 : Z) : M kst unit :=
  if pml4 =? 0 then panic "freevm: no pgdir" else
  freevm_table (NPDENTRIES / 2) 0 pml4 freevm_pdp;;
  kfree pml4.

Definition clearpteu (pgdir uva : Z) : M kst unit :=
  pte ← walkpgdir pgdir uva false;
  if pte =? 0 then panic "clearpteu" else
  v ← load64 pte;
  store64 pte (Z.land v (u64 (Z.lnot PTE_U))).

(** The loop of [copyuvm] from page [i]: did it copy them all? *)
Fixpoint copyuvm_loop (fuel : nat) (pgdir d i sz : Z) : M kst bool :=
  match fuel with
  | O => fail EFuel
  | S fuel' =>
      if i <? sz then
        pte ← walkpgdir pgdir i false;
        if pte =? 0 then panic "copyuvm: pte should exist" else
        v ← load64 pte;
        if negb (has v PTE_P) then panic "copyuvm: page not present" else
        mem ← kalloc;
        if mem =? 0 then mret false else
        kmemmove mem (P2V (PTE_ADDR v)) PGSIZE;;
        r ← mappages d i PGSIZE (V2P mem) (i32 (PTE_FLAGS v));
        if r <? 0 then mret false else copyuvm_loop fuel' pgdir d (i + PGSIZE) sz
      else mret true
  end.
(** [sz] is a [uint]. *)
Definition copyuvm (pgdir sz : Z) : M kst Z :=
  d ← setupkvm;
  if d =? 0 then mret 0 else
  ok ← copyuvm_loop (vm_fuel PGSIZE (u32 sz)) pgdir d PGSIZE (u32 sz);
  if (ok : bool) then mret d
  else freevm d;; mret 0.

(** [uva2ka] reads the entry even when [walkpgdir] returned a null pointer; the page
    at address 0 of a kernel page table is not mapped, so that read faults. *)
Definition uva2ka (pgdir uva : Z) : M kst Z :=
  pte ← walkpgdir pgdir uva false;
  if pte =? 0 then fault "null pte" else
  v ← load64 pte;
  if negb (has v PTE_P) then mret 0 else
  if negb (has v PTE_U) then mret 0 else
  mret (P2V (PTE_ADDR v)).

(** The loop of [copyout]: [bs] is what is left of the buffer. *)
Fixpoint copyout_loop (fuel : nat) (pgdir va : Z) (bs : list Z) : M kst Z :=
  match fuel with
  | O => fail EFuel
  | S fuel' =>
      if Z.of_nat (length bs) >? 0 then
        let va0 := PGROUNDDOWN va in
        pa0 ← uva2ka pgdir va0;
        if pa0 =? 0 then mret (-1) else
        let n := Z.min (PGSIZE - (va - va0)) (Z.of_nat (length bs)) in
        kstore_bytes (pa0 + (va - va0)) (take (Z.to_nat n) bs);;
        copyout_loop fuel' pgdir (u64 (va0 + PGSIZE)) (drop (Z.to_nat n) bs)
      else mret 0
  end.
Definition copyout (pgdir va : Z) (bs : list Z) : M kst Z :=
  copyout_loop (Z.to_nat (Z.of_nat (length bs) / PGSIZE + 3)) pgdir va bs.

(** ** The processor's address translation

    In kernel mode a user address goes through the current page table; a kernel
    address is mapped directly. *)
Definition translate (va : Z) : M kst Z :=
  if va >=? KERNBASE then mret va else
  k ← get;
  pte ← walkpgdir (P2V (k_cr3 k)) (PGROUNDDOWN va) false;
  if pte =? 0 then fault "page fault" else
  v ← load64 pte;
  if negb (has v PTE_P) then fault "page fault" else
  mret (P2V (PTE_ADDR v) + (va - PGROUNDDOWN va)).

Fixpoint read_user (n : nat) (va : Z) : M kst (list Z) :=
  match n with
  | O => mret []
  | S n' =>
      a ← translate va;
      b ← gets (fun k => k_mem k a);
      bs ← read_user n' (va + 1);
      mret (b :: bs)
  end.
Fixpoint write_user (va : Z) (bs : list Z) : M kst unit :=
  match bs with
  | [] => mret tt
  | b :: bs' =>
      a ← translate va;
      upd_mem (fun m => upd m a b);;
      write_user (va + 1) bs'
  end.
