(* ===== verification/Smp.v ===== *)
(** Several CPUs.  Each CPU has its own interrupt state, current process and page table and runs
    its own code; the rest of the kernel's state is shared.  A step is one operation of one CPU:
    the attempt to take a spin lock, which spins while another CPU holds it, the release of a
    lock, the code between two of them, or the switch to the scheduler.

    On this machine [sleep] loses no wake-up ([sleep_wakeup]), whatever the order in which the
    CPUs run. *)
From Stdlib Require Import ZArith Lia.
From stdpp Require Import base gmap sets strings numbers list.
From S2P Require Import Prelude State Spinlock Code Sched Vm.

Local Open Scope Z_scope.

(** ** The machine *)
Definition thread : Type := code Empty_set unit.

Record core : Type := mk_core {
  co_cpu : cpu;
  co_proc : option nat;
  co_local : Z;
  co_cr3 : Z;
  co_code : thread
}.

(** [s_switched]: the processes that have switched to the scheduler, with the code behind the
    switch. *)
Record smp : Type := mk_smp {
  s_k : kst;
  s_cores : list core;
  s_switched : gmap nat thread
}.

(** The state as a CPU sees it, and its part of a state. *)
Definition load_core (x : core) (k : kst) : kst :=
  set_k_cr3 (co_cr3 x) (set_k_local (co_local x) (set_k_proc (co_proc x) (set_k_cpu (co_cpu x) k))).
Definition save_core (k : kst) (p : thread) : core :=
  mk_core (k_cpu k) (k_proc k) (k_local k) (k_cr3 k) p.

(** Another CPU than [c] holds the lock. *)
Definition taken (lk : lockid) (c : nat) (cores : list core) : bool :=
  existsb (fun d => negb (d =? c)%nat &&
             match cores !! d with Some y => bool_decide (lk ∈ held (co_cpu y)) | None => false end)
    (seq 0 (length cores)).

(** [scheduler] behind its [swtch] to a process, to its [release]; it finds no other process to
    run. *)
Definition scheduler_back : thread :=
  do_ (switchkvm;; modify (set_k_proc None));;
  unlock L_ptable.

(** Process [i] switches to the scheduler of its CPU. *)
Definition smp_switch (c : nat) (x : core) (p : thread) (σ : smp) : outcome smp unit :=
  match co_proc x with
  | Some i =>
      Ok tt (mk_smp (s_k σ)
               (<[c := mk_core (co_cpu x) (co_proc x) (co_local x) (co_cr3 x) scheduler_back]> (s_cores σ))
               (<[i := p]> (s_switched σ)))
  | None => Err (EFault "proc")
  end.

(** One operation in the state of the CPU. *)
Definition smp_do {A : Type} (c : nat) (x : core) (m : M kst A) (f : A -> thread) (σ : smp) :
    outcome smp unit :=
  match m (load_core x (s_k σ)) with
  | Ok r k => Ok tt (mk_smp k (<[c := save_core k (f r)]> (s_cores σ)) (s_switched σ))
  | Blocked _ => Err (EFault "switch")
  | Err e => Err e
  end.

Definition smp_step (c : nat) : M smp unit := fun σ =>
  match s_cores σ !! c with
  | None => Ok tt σ
  | Some x =>
      match co_code x with
      | C_ret _ => Ok tt σ
      | C_acquire lk p =>
          if taken lk c (s_cores σ) then Ok tt σ else smp_do c x (acquire lk) (fun _ => p) σ
      | C_release lk p => smp_do c x (release lk) (fun _ => p) σ
      | C_do m f => smp_do c x m f σ
      | C_swtch p => smp_switch c x p σ
      | C_again l => match l with end
      end
  end.

(** [sch]: the CPUs in the order in which they take steps. *)
Fixpoint smp_run (sch : list nat) : M smp unit :=
  match sch with
  | [] => mret tt
  | c :: sch' => smp_step c;; smp_run sch'
  end.

Definition finished (σ : smp) : Prop := Forall (fun x => co_code x = C_ret tt) (s_cores σ).

(** ** Steps *)
Lemma taken_spec lk c cores :
  taken lk c cores = true <-> exists d y, d <> c /\ cores !! d = Some y /\ lk ∈ held (co_cpu y).
Proof.
  unfold taken. rewrite existsb_exists. split.
  - intros (d & _ & [Hd E]%andb_prop). apply negb_true_iff, Nat.eqb_neq in Hd.
    destruct (cores !! d) as [y|] eqn:Hy; [|done]. apply bool_decide_eq_true in E. by exists d, y.
  - intros (d & y & Hd & Hy & E). exists d. split.
    + apply in_seq. apply lookup_lt_Some in Hy. lia.
    + rewrite Hy. apply andb_true_intro. split; [by apply negb_true_iff, Nat.eqb_neq|by apply bool_decide_eq_true].
Qed.

Section step.
Context (c : nat) (x : core) (σ : smp) (Hx : s_cores σ !! c = Some x).

Lemma step_ret u : co_code x = C_ret u -> smp_step c σ = Ok tt σ.
Proof. intros E. unfold smp_step. by rewrite Hx, E. Qed.

Lemma step_do {A} (m : M kst A) f r k :
  co_code x = C_do m f -> m (load_core x (s_k σ)) = Ok r k ->
  smp_step c σ = Ok tt (mk_smp k (<[c := save_core k (f r)]> (s_cores σ)) (s_switched σ)).
Proof. intros E Em. unfold smp_step. rewrite Hx, E. unfold smp_do. by rewrite Em. Qed.

Lemma step_release lk p k :
  co_code x = C_release lk p -> release lk (load_core x (s_k σ)) = Ok tt k ->
  smp_step c σ = Ok tt (mk_smp k (<[c := save_core k p]> (s_cores σ)) (s_switched σ)).
Proof. intros E Em. unfold smp_step. rewrite Hx, E. unfold smp_do. by rewrite Em. Qed.

Lemma step_acquire lk p :
  co_code x = C_acquire lk p -> lk ∉ held (co_cpu x) ->
  smp_step c σ =
    if taken lk c (s_cores σ) then Ok tt σ
    else let k := set_k_cpu (lock_cpu lk (co_cpu x)) (load_core x (s_k σ)) in
         Ok tt (mk_smp k (<[c := save_core k p]> (s_cores σ)) (s_switched σ)).
Proof.
  intros E Hl. unfold smp_step. rewrite Hx, E. destruct (taken _ _ _); [done|].
  unfold smp_do. by rewrite acquire_eq.
Qed.
End step.

(** ** A process that goes to sleep, and CPUs that wake it up *)

(** A CPU that changes, under the lock, what the sleeper waits for, and wakes up a channel. *)
Record waker : Type := mk_waker {
  w_core : core;
  w_act : M kst unit;
  w_chan : chan
}.
Definition waker_code (lk : lockid) (w : waker) : thread :=
  lock lk;;
  do_ (w_act w);;
  wakeup_code (w_chan w);;
  unlock lk.

(** The change leaves the process table and the CPU alone. *)
Definition quiet (m : M kst unit) : Prop :=
  forall k, exists k', m k = Ok tt k' /\ k_ptable k' = k_ptable k /\ k_cpu k' = k_cpu k.
Definition waker_ok (w : waker) : Prop :=
  cpu_ok (co_cpu (w_core w)) /\ held (co_cpu (w_core w)) = [] /\ quiet (w_act w).

(** CPU 0 runs process [i], which calls [sleep] with its lock held. *)
Definition sleep_start (ch : chan) (lk : lockid) (c : cpu) (i : nat) (l r : Z) (ws : list waker) (k : kst) : smp :=
  mk_smp k
    (mk_core (lock_cpu lk c) (Some i) l r (sleep_code ch lk) ::
     ((fun w => let y := w_core w in
        mk_core (co_cpu y) (co_proc y) (co_local y) (co_cr3 y) (waker_code lk w)) <$> ws))
    ∅.

Section sleep_wakeup.
Context (ch : chan) (lk : lockid) (c : cpu) (i : nat) (ws : list waker).
Context (Hc : cpu_ok c) (Hn : ncli c = 0) (Hh : held c = []) (Hne : lk <> L_ptable).
Context (Hws : Forall waker_ok ws).

(** The code of the sleeping process and of a waker, operation by operation. *)
Definition sleeper_code (a : nat) : thread :=
  let sl5 (j : nat) (ie : bool) := C_swtch (sleep_back j lk ie) in
  let sl4 (j : nat) := C_do sched_enter (sl5 j) in
  let sl3 := C_do (sleep_mark ch) sl4 in
  let sl2 := C_release lk sl3 in
  let sl1 := C_acquire L_ptable sl2 in
  match a with
  | 0 => C_do (k ← get; match k_proc k with None => panic "sleep" | Some _ => mret tt end) (fun _ => sl1)
  | 1 => sl1 | 2 => sl2 | 3 => sl3 | 4 => sl4 i | 5 => sl5 i (intr_on c)
  | 6 => scheduler_back
  | 7 => C_release L_ptable (C_ret tt)
  | _ => C_ret tt
  end%nat.
Definition sleeper_cpu (a : nat) : cpu :=
  match a with
  | 0 | 1 => lock_cpu lk c
  | 2 => lock_cpu L_ptable (lock_cpu lk c)
  | 3 | 4 | 5 | 6 | 7 => lock_cpu L_ptable c
  | _ => c
  end%nat.
Definition waker_rest (w : waker) (n : nat) : thread :=
  let w5 := C_release lk (C_ret tt) in
  let w4 := C_release L_ptable w5 in
  let w3 := C_do (wakeup1 (w_chan w)) (fun _ => w4) in
  let w2 := C_acquire L_ptable w3 in
  let w1 := C_do (w_act w) (fun _ => w2) in
  match n with
  | 0 => C_acquire lk w1 | 1 => w1 | 2 => w2 | 3 => w3 | 4 => w4 | 5 => w5
  | _ => C_ret tt
  end%nat.
Definition waker_cpu (w : waker) (n : nat) : cpu :=
  let c' := co_cpu (w_core w) in
  match n with
  | 1 | 2 | 5 => lock_cpu lk c'
  | 3 | 4 => lock_cpu L_ptable (lock_cpu lk c')
  | _ => c'
  end%nat.

Lemma sleep_code_eq : sleep_code ch lk = sleeper_code 0.
Proof. unfold sleep_code, sleeper_code, sleep_back. by destruct (decide (lk = L_ptable)). Qed.

Definition sleeper_at (a : nat) (x : core) : Prop :=
  co_cpu x = sleeper_cpu a /\ co_code x = sleeper_code a /\ ((a <= 5)%nat -> co_proc x = Some i).
Definition waker_at (w : waker) (n : nat) (x : core) : Prop :=
  co_cpu x = waker_cpu w n /\ co_code x = waker_rest w n.

(** Some waker of the sleeper's channel has come past its [wakeup1]. *)
Definition woke (ph : list nat) : bool :=
  existsb (fun '(w, n) => (4 <=? n)%nat && bool_decide (w_chan w = ch)) (zip ws ph).

(** [a] and [ph]: how far the sleeper and the wakers are. *)
Record inv (a : nat) (ph : list nat) (σ : smp) : Prop := mk_inv {
  in_cores : exists x xs, s_cores σ = x :: xs /\ sleeper_at a x /\ length xs = length ws /\
    forall j y w n, xs !! j = Some y -> ws !! j = Some w -> ph !! j = Some n -> waker_at w n y;
  in_len : length ph = length ws;
  in_a : (a <= 8)%nat;
  in_ph : forall j n, ph !! j = Some n ->
    (n <= 6)%nat /\ ((a <= 2)%nat -> n = O) /\ ((2 <= a <= 7)%nat -> (n <= 2)%nat);
  in_one : forall j j' n n', ph !! j = Some n -> ph !! j' = Some n' ->
    (1 <= n <= 5)%nat -> (1 <= n' <= 5)%nat -> j = j';
  in_slot : exists q, k_ptable (s_k σ) !! i = Some q /\
    ((4 <= a)%nat -> p_chan q = Some ch /\ p_state q = if woke ph then RUNNABLE else SLEEPING);
  in_switched : (6 <= a)%nat -> s_switched σ !! i = Some (sleep_back i lk (intr_on c))
}.

Lemma switching_eq : cpu_switching c = lock_cpu L_ptable c.
Proof. unfold cpu_switching, lock_cpu. by rewrite Hn, Hh. Qed.

Lemma release_under k :
  k_cpu k = lock_cpu L_ptable (lock_cpu lk c) -> release lk k = Ok tt (set_k_cpu (lock_cpu L_ptable c) k).
Proof.
  intros Hk. destruct (sleep_locks lk c (set_k_cpu (lock_cpu lk c) k) eq_refl Hn Hh Hne) as (k1 & E1 & E2).
  rewrite acquire_eq in E1; [|cbn; rewrite Hh; apply not_elem_of_cons; split; [done|apply not_elem_of_nil]].
  injection E1 as <-. cbn in E2. rewrite set_k_cpu_cpu, <- Hk, set_k_cpu_id in E2. rewrite E2.
  by rewrite switching_eq, set_k_cpu_cpu.
Qed.

Lemma woke_spec ph :
  woke ph = true <-> exists j w n, ws !! j = Some w /\ ph !! j = Some n /\ (4 <= n)%nat /\ w_chan w = ch.
Proof.
  unfold woke. rewrite existsb_exists. split.
  - intros ([w n] & Hin & [H Hch]%andb_prop). apply list_elem_of_In, list_elem_of_lookup in Hin as [j Hj].
    apply lookup_zip_with_Some in Hj as (w' & n' & [= <- <-] & Hw & Hj).
    apply Nat.leb_le in H. apply bool_decide_eq_true in Hch. by exists j, w, n.
  - intros (j & w & n & Hw & Hj & H & Hch). exists (w, n). split.
    + apply list_elem_of_In, list_elem_of_lookup. exists j. apply lookup_zip_with_Some. by exists w, n.
    + apply andb_true_intro. split; [by apply Nat.leb_le|by apply bool_decide_eq_true].
Qed.

Lemma woke_false a ph σ : inv a ph σ -> (a <= 7)%nat -> woke ph = false.
Proof.
  intros Hi Ha. apply not_true_iff_false. rewrite woke_spec. intros (j & w & n & _ & Hj & H4 & _).
  destruct (in_ph _ _ _ Hi _ _ Hj) as (_ & H0 & H2). destruct (decide (a <= 2)%nat); lia.
Qed.

(** Who holds which lock. *)
Lemma sleeper_holds a : (a <= 8)%nat ->
  (lk ∈ held (sleeper_cpu a) <-> (a <= 2)%nat) /\ (L_ptable ∈ held (sleeper_cpu a) <-> (2 <= a <= 7)%nat).
Proof.
  intros Ha. do 9 (destruct a as [|a]; [cbn; rewrite Hh, ?elem_of_cons, ?elem_of_nil; naive_solver lia|]). lia.
Qed.
Lemma waker_holds w n : waker_ok w -> (n <= 6)%nat ->
  (lk ∈ held (waker_cpu w n) <-> (1 <= n <= 5)%nat) /\ (L_ptable ∈ held (waker_cpu w n) <-> (3 <= n <= 4)%nat).
Proof.
  intros (_ & Hw & _) Hn6. do 7 (destruct n as [|n]; [cbn; rewrite Hw, ?elem_of_cons, ?elem_of_nil; naive_solver lia|]). lia.
Qed.

Lemma who_holds a ph σ lk' d : inv a ph σ ->
  taken lk' d (s_cores σ) = true <->
  (d <> O /\ lk' ∈ held (sleeper_cpu a)) \/
  exists j w n, d <> S j /\ ws !! j = Some w /\ ph !! j = Some n /\ lk' ∈ held (waker_cpu w n).
Proof.
  intros [(x & xs & -> & (Hxc & _) & Hl & Hw) Hlen _ _ _ _ _]. rewrite taken_spec. split.
  - intros ([|j] & y & Hd & Hy & Hin); cbn in Hy; [left; simplify_eq; by rewrite <- Hxc|right].
    destruct (lookup_lt_is_Some_2 ws j) as [w Hwj]; [apply lookup_lt_Some in Hy; lia|].
    destruct (lookup_lt_is_Some_2 ph j) as [n Hnj]; [apply lookup_lt_Some in Hwj; lia|].
    destruct (Hw _ _ _ _ Hy Hwj Hnj) as [Hcy _]. exists j, w, n. by rewrite <- Hcy.
  - intros [[Hd Hin]|(j & w & n & Hd & Hwj & Hnj & Hin)].
    + exists O, x. by rewrite Hxc.
    + destruct (lookup_lt_is_Some_2 xs j) as [y Hy]; [apply lookup_lt_Some in Hwj; lia|].
      exists (S j), y. split_and!; [done|done|]. destruct (Hw _ _ _ _ Hy Hwj Hnj) as [-> _]. done.
Qed.

Lemma taken_lock a ph σ d : inv a ph σ ->
  taken lk d (s_cores σ) = true <->
  (d <> O /\ (a <= 2)%nat) \/ exists j n, d <> S j /\ ph !! j = Some n /\ (1 <= n <= 5)%nat.
Proof.
  intros Hi. rewrite (who_holds _ _ _ _ _ Hi), (proj1 (sleeper_holds a (in_a _ _ _ Hi))).
  apply or_iff_compat_l. split.
  - intros (j & w & n & Hd & Hwj & Hnj & Hin). exists j, n. split_and!; [done..| |].
    all: apply (proj1 (waker_holds w n (proj1 (Forall_lookup _ _) Hws _ _ Hwj) (proj1 (in_ph _ _ _ Hi _ _ Hnj)))), Hin.
  - intros (j & n & Hd & Hnj & Hb).
    destruct (lookup_lt_is_Some_2 ws j) as [w Hwj]; [apply lookup_lt_Some in Hnj; rewrite <- (in_len _ _ _ Hi); lia|].
    exists j, w, n. split_and!; [done..|].
    by apply (proj1 (waker_holds w n (proj1 (Forall_lookup _ _) Hws _ _ Hwj) (proj1 (in_ph _ _ _ Hi _ _ Hnj)))).
Qed.

Lemma taken_ptable a ph σ d : inv a ph σ ->
  taken L_ptable d (s_cores σ) = true <->
  (d <> O /\ (2 <= a <= 7)%nat) \/ exists j n, d <> S j /\ ph !! j = Some n /\ (3 <= n <= 4)%nat.
Proof.
  intros Hi. rewrite (who_holds _ _ _ _ _ Hi), (proj2 (sleeper_holds a (in_a _ _ _ Hi))).
  apply or_iff_compat_l. split.
  - intros (j & w & n & Hd & Hwj & Hnj & Hin). exists j, n. split_and!; [done..| |].
    all: apply (proj2 (waker_holds w n (proj1 (Forall_lookup _ _) Hws _ _ Hwj) (proj1 (in_ph _ _ _ Hi _ _ Hnj)))), Hin.
  - intros (j & n & Hd & Hnj & Hb).
    destruct (lookup_lt_is_Some_2 ws j) as [w Hwj]; [apply lookup_lt_Some in Hnj; rewrite <- (in_len _ _ _ Hi); lia|].
    exists j, w, n. split_and!; [done..|].
    by apply (proj2 (waker_holds w n (proj1 (Forall_lookup _ _) Hws _ _ Hwj) (proj1 (in_ph _ _ _ Hi _ _ Hnj)))).
Qed.

(** The sleeper never waits: while it holds its lock, no waker is behind its own. *)
Lemma inv_sleeper a ph σ x xs k' x' T :
  inv a ph σ -> (a < 8)%nat -> s_cores σ = x :: xs -> sleeper_at (S a) x' ->
  (exists q, k_ptable k' !! i = Some q /\
     ((4 <= S a)%nat -> p_chan q = Some ch /\ p_state q = if woke ph then RUNNABLE else SLEEPING)) ->
  ((6 <= S a)%nat -> T !! i = Some (sleep_back i lk (intr_on c))) ->
  inv (S a) ph (mk_smp k' (<[O := x']> (s_cores σ)) T).
Proof.
  intros [(y & ys & Ec & _ & Hl & Hw) Hlen Ha Hph H1 _ _] Ha8 Ec' Hx' Hq HT.
  constructor; cbn; [|done|lia| |done|done|done].
  - exists x', ys. rewrite Ec. done.
  - intros j n Hj. destruct (Hph j n Hj) as (? & ? & ?). split_and!; [lia| |]; intros; [|destruct (decide (a = 1)%nat)]; lia.
Qed.

Lemma slot_later a ph σ k' :
  inv a ph σ -> a <> 3%nat -> k_ptable k' = k_ptable (s_k σ) ->
  exists q, k_ptable k' !! i = Some q /\
    ((4 <= S a)%nat -> p_chan q = Some ch /\ p_state q = if woke ph then RUNNABLE else SLEEPING).
Proof. intros [_ _ _ _ _ (q & Hq & H) _] Ha ->. exists q. split; [done|]. intros. apply H. lia. Qed.

Lemma sleeper_step a ph σ :
  inv a ph σ -> (a < 8)%nat -> exists σ', smp_step 0 σ = Ok tt σ' /\ inv (S a) ph σ'.
Proof.
  intros Hi Ha. pose proof Hi as [(x & xs & Ec & (Hxc & Hxp & Hxi) & Hl & Hw) Hlen _ Hph H1 (q & Hq & Hqs) HT].
  assert (Hx : s_cores σ !! O = Some x) by (by rewrite Ec).
  destruct a as [|[|[|[|[|[|[|[|]]]]]]]]; [..|lia]; cbn in Hxc, Hxp.
  - eexists. split; [eapply (step_do _ _ _ Hx _ _ tt); [exact Hxp|]|].
    { unfold get, mbind, M_bind. cbn. rewrite Hxi by lia. reflexivity. }
    eapply inv_sleeper; [done|done|done| |by eapply slot_later|by intros; lia].
    split_and!; [done|done|intros _; apply Hxi; lia].
  - erewrite (step_acquire _ _ _ Hx); [|done|].
    2:{ rewrite Hxc. cbn. rewrite Hh. apply not_elem_of_cons. split; [done|apply not_elem_of_nil]. }
    assert (taken L_ptable 0 (s_cores σ) = false) as ->.
    { apply not_true_iff_false. rewrite (taken_ptable _ _ _ _ Hi). intros [[]|(j & n & _ & Hj & Hb)]; [done|].
      destruct (Hph _ _ Hj) as (_ & H0 & _). lia. }
    eexists. split; [done|]. cbv zeta. eapply inv_sleeper; [done|done|done| |by eapply slot_later|by intros; lia].
    split_and!; [cbn; by rewrite Hxc|done|intros _; apply Hxi; lia].
  - eexists. split; [eapply (step_release _ _ _ Hx); [done|by apply release_under]|].
    eapply inv_sleeper; [done|done|done| |by eapply slot_later|by intros; lia].
    split_and!; [done|done|intros _; apply Hxi; lia].
  - eexists. split; [eapply (step_do _ _ _ Hx); [done|]|].
    { replace (load_core x (s_k σ)) with (set_k_ptable (k_ptable (s_k σ)) (set_k_cpu (cpu_switching c) (load_core x (s_k σ)))).
      2:{ rewrite switching_eq, <- Hxc. by destruct (s_k σ). }
      eapply sleep_mark_eq; [apply Hxi; lia|exact Hq]. }
    eapply inv_sleeper; [done|done|done| | |by intros; lia].
    + split_and!; [cbn; by rewrite switching_eq|done|intros _; apply Hxi; lia].
    + cbn. rewrite list_lookup_alter_eq, Hq. eexists. split; [done|]. intros _. by rewrite (woke_false _ _ _ Hi) by lia.
  - destruct (Hqs ltac:(lia)) as [Hqc Hqst]. rewrite (woke_false _ _ _ Hi) in Hqst by lia.
    eexists. split; [eapply (step_do _ _ _ Hx); [done|]|].
    { replace (load_core x (s_k σ)) with (set_k_ptable (k_ptable (s_k σ)) (set_k_cpu (cpu_switching c) (load_core x (s_k σ)))).
      2:{ rewrite switching_eq, <- Hxc. by destruct (s_k σ). }
      eapply sched_enter_eq; [apply Hxi; lia|exact Hq|by rewrite Hqst]. }
    eapply inv_sleeper; [done|done|done| | |by intros; lia].
    + split_and!; [cbn; by rewrite switching_eq|done|intros _; apply Hxi; lia].
    + cbn. rewrite list_lookup_alter_eq, Hq. eexists. split; [done|]. intros _. by rewrite (woke_false _ _ _ Hi) by lia.
  - eexists. split; [unfold smp_step; rewrite Hx, Hxp; unfold smp_switch; rewrite Hxi by lia; reflexivity|].
    eapply inv_sleeper; [done|done|done| |by eapply slot_later|by intros; rewrite lookup_insert_eq].
    split_and!; [done|done|intros; lia].
  - eexists. split; [eapply (step_do _ _ _ Hx _ _ tt); [exact Hxp|reflexivity]|].
    eapply inv_sleeper; [done|done|done| |by eapply slot_later|by auto].
    split_and!; [done|done|intros; lia].
  - eexists. split; [eapply (step_release _ _ _ Hx); [done|]|].
    { apply (release_eq _ c); [done|rewrite Hh; apply not_elem_of_nil|done]. }
    eapply inv_sleeper; [done|done|done| |by eapply slot_later|by auto].
    split_and!; [done|done|intros; lia].
Qed.

(** A waker goes on by one operation. *)
Lemma inv_waker a ph σ j n w k' y' :
  inv a ph σ -> ph !! j = Some n -> ws !! j = Some w -> (n < 6)%nat ->
  waker_at w (S n) y' -> (2 < a)%nat -> ((2 <= n)%nat -> a = 8%nat) ->
  (n = O -> taken lk (S j) (s_cores σ) = false) ->
  (exists q, k_ptable k' !! i = Some q /\
     ((4 <= a)%nat -> p_chan q = Some ch /\ p_state q = if woke (<[j := S n]> ph) then RUNNABLE else SLEEPING)) ->
  inv a (<[j := S n]> ph) (mk_smp k' (<[S j := y']> (s_cores σ)) (s_switched σ)).
Proof.
  intros Hi Hj Hwj Hn6 Hy Ha H2 H0 Hq. pose proof Hi as [(x & xs & Ec & Hx & Hl & Hw) Hlen Ha8 Hph H1 _ HT].
  pose proof (lookup_lt_Some _ _ _ Hj) as Hlt.
  constructor; cbn; try done.
  - exists x, (<[j := y']> xs). rewrite Ec, length_insert. split_and!; [done..|].
    intros j' y w' n'. destruct (decide (j = j')) as [<-|Hjj].
    + rewrite !list_lookup_insert_eq by lia. by intros [= <-] ? [= <-]; simplify_eq.
    + rewrite !list_lookup_insert_ne by done. apply Hw.
  - by rewrite length_insert.
  - intros j' n'. destruct (decide (j = j')) as [<-|Hjj].
    + rewrite list_lookup_insert_eq by lia. intros [= <-]. lia.
    + rewrite list_lookup_insert_ne by done. apply Hph.
  - assert (Ho : forall j' n', j <> j' -> ph !! j' = Some n' -> (1 <= n' <= 5)%nat -> (1 <= S n <= 5)%nat -> False).
    { intros j' n' Hjj Hj' Hb Hbn. destruct (decide (n = O)) as [->|Hn0].
      - pose proof (H0 eq_refl) as Hf. apply not_true_iff_false in Hf. apply Hf.
        apply (taken_lock _ _ _ _ Hi). right. exists j', n'. split_and!; try done; lia.
      - apply Hjj. eapply H1; try done; lia. }
    intros j1 j2 n1 n2. destruct (decide (j = j1)) as [<-|E1], (decide (j = j2)) as [<-|E2];
      rewrite ?list_lookup_insert_eq, ?list_lookup_insert_ne by (done || lia); try done.
    + intros [= <-] Hj2 Hb1 Hb2. by destruct (Ho _ _ E2 Hj2).
    + intros Hj1 [= <-] Hb1 Hb2. by destruct (Ho _ _ E1 Hj1).
    + apply H1.
Qed.

(** Nothing but its [wakeup1] changes the sleeper. *)
Lemma slot_same a ph σ j n k' :
  inv a ph σ -> ph !! j = Some n -> n <> 3%nat -> k_ptable k' = k_ptable (s_k σ) ->
  exists q, k_ptable k' !! i = Some q /\
    ((4 <= a)%nat -> p_chan q = Some ch /\ p_state q = if woke (<[j := S n]> ph) then RUNNABLE else SLEEPING).
Proof.
  intros Hi Hj Hn3 ->. destruct (in_slot _ _ _ Hi) as (q & Hq & Hs). exists q. split; [done|].
  intros H4. specialize (Hs H4). assert (woke (<[j := S n]> ph) = woke ph) as ->; [|done].
  apply eq_iff_eq_true. rewrite !woke_spec. pose proof (lookup_lt_Some _ _ _ Hj) as Hlt.
  split; intros (j' & w & n' & Hw & Hj' & Hn' & Hch); destruct (decide (j = j')) as [<-|Hjj].
  - rewrite list_lookup_insert_eq in Hj' by lia. injection Hj' as <-. exists j, w, n. split_and!; try done. lia.
  - rewrite list_lookup_insert_ne in Hj' by done. by exists j', w, n'.
  - exists j, w, (S n). rewrite list_lookup_insert_eq by lia. split_and!; try done. simplify_eq. lia.
  - exists j', w, n'. by rewrite list_lookup_insert_ne.
Qed.

Lemma slot_woken ph σ j w :
  inv 8 ph σ -> ph !! j = Some 3%nat -> ws !! j = Some w ->
  exists q, (wake (w_chan w) <$> k_ptable (s_k σ)) !! i = Some q /\
    ((4 <= 8)%nat -> p_chan q = Some ch /\ p_state q = if woke (<[j := 4%nat]> ph) then RUNNABLE else SLEEPING).
Proof.
  intros Hi Hj Hwj. destruct (in_slot _ _ _ Hi) as (q & Hq & Hs). destruct (Hs ltac:(lia)) as [Hch Hst].
  rewrite list_lookup_fmap, Hq. eexists. split; [done|]. intros _. pose proof (lookup_lt_Some _ _ _ Hj) as Hlt.
  assert (woke (<[j := 4%nat]> ph) = woke ph || bool_decide (w_chan w = ch)) as ->.
  { apply eq_iff_eq_true. rewrite orb_true_iff, bool_decide_eq_true, !woke_spec. split.
    - intros (j' & w' & n' & Hw & Hj' & Hn' & Hc'). destruct (decide (j = j')) as [<-|Hjj]; [right; by simplify_eq|left].
      rewrite list_lookup_insert_ne in Hj' by done. by exists j', w', n'.
    - intros [(j' & w' & n' & Hw & Hj' & Hn' & Hc')|Hc'].
      + exists j', w', n'. split_and!; try done. rewrite list_lookup_insert_ne; [done|]. intros ->. simplify_eq. lia.
      + exists j, w, 4%nat. by rewrite list_lookup_insert_eq. }
  unfold wake. case_bool_decide as Hcc; case_decide as Hd; cbn; split; try done.
  - by rewrite orb_true_r.
  - rewrite Hst in *. rewrite orb_true_r. destruct (woke ph); [done|]. destruct Hd. by rewrite Hch, Hcc.
  - destruct Hd as [_ Hd]. congruence.
  - by rewrite orb_false_r.
Qed.

Lemma waker_step a ph σ j n w :
  inv a ph σ -> ph !! j = Some n -> ws !! j = Some w ->
  if (n =? 6)%nat || ((n =? 0)%nat && taken lk (S j) (s_cores σ)) || ((n =? 2)%nat && taken L_ptable (S j) (s_cores σ))
  then smp_step (S j) σ = Ok tt σ
  else exists σ', smp_step (S j) σ = Ok tt σ' /\ inv a (<[j := S n]> ph) σ'.
Proof.
  intros Hi Hj Hwj. pose proof Hi as [(x & xs & Ec & Hx & Hl & Hw) Hlen Ha8 Hph H1 _ HT].
  destruct (lookup_lt_is_Some_2 xs j) as [y Hy]; [apply lookup_lt_Some in Hwj; lia|].
  assert (Hsy : s_cores σ !! S j = Some y) by (by rewrite Ec).
  destruct (Hw _ _ _ _ Hy Hwj Hj) as [Hyc Hyp]. destruct (Hph _ _ Hj) as (Hn6 & Hn0 & Hn2).
  destruct (proj1 (Forall_lookup _ _) Hws _ _ Hwj) as (Hwc & Hwh & Hwq).
  assert (Hwl : lk ∉ held (co_cpu (w_core w))) by (rewrite Hwh; apply not_elem_of_nil).
  assert (Hwp : L_ptable ∉ held (lock_cpu lk (co_cpu (w_core w)))).
  { cbn. rewrite Hwh. apply not_elem_of_cons. split; [done|apply not_elem_of_nil]. }
  destruct n as [|[|[|[|[|[|[|]]]]]]]; [..|lia]; cbn in Hyc, Hyp |- *.
  - erewrite (step_acquire _ _ _ Hsy) by (try rewrite Hyc; done). destruct (taken lk (S j) (s_cores σ)) eqn:Et; [done|].
    eexists. split; [done|]. cbv zeta. eapply inv_waker; try done; try lia; [split; cbn; by rewrite ?Hyc| |by eapply slot_same].
    apply not_true_iff_false in Et. rewrite (taken_lock _ _ _ _ Hi) in Et. destruct (decide (a <= 2)%nat); [|lia].
    destruct Et. by left.
  - destruct (Hwq (load_core y (s_k σ))) as (k' & E & Ept & Ecpu).
    eexists. split; [by eapply (step_do _ _ _ Hsy)|].
    eapply inv_waker; try done; try lia; [split; cbn; [by rewrite Ecpu|done]|by eapply slot_same].
  - erewrite (step_acquire _ _ _ Hsy) by (try rewrite Hyc; done). destruct (taken L_ptable (S j) (s_cores σ)) eqn:Et; [done|].
    eexists. split; [done|]. cbv zeta.
    assert (a = 8%nat) as ->.
    { apply not_true_iff_false in Et. rewrite (taken_ptable _ _ _ _ Hi) in Et.
      destruct (decide (2 <= a <= 7)%nat); [destruct Et; by left|]. destruct (decide (a <= 2)%nat); lia. }
    eapply inv_waker; try done; try lia; [split; cbn; by rewrite ?Hyc|by eapply slot_same].
  - assert (a = 8%nat) as -> by (destruct (decide (a <= 2)%nat); lia).
    eexists. split; [by eapply (step_do _ _ _ Hsy)|].
    eapply inv_waker; try done; try lia. by eapply slot_woken.
  - assert (a = 8%nat) as -> by (destruct (decide (a <= 2)%nat); lia).
    eexists. split; [eapply (step_release _ _ _ Hsy); [done|]|].
    { apply (release_eq _ (lock_cpu lk (co_cpu (w_core w)))); [by apply lock_cpu_ok|done|done]. }
    eapply inv_waker; try done; try lia. by eapply slot_same.
  - assert (a = 8%nat) as -> by (destruct (decide (a <= 2)%nat); lia).
    eexists. split; [eapply (step_release _ _ _ Hsy); [done|by apply (release_eq _ (co_cpu (w_core w)))]|].
    eapply inv_waker; try done; try lia. by eapply slot_same.
  - by eapply (step_ret _ _ _ Hsy).
Qed.

(** ** Every order of steps *)

(** The operations that are left. *)
Definition left (a : nat) (ph : list nat) : nat := (8 - a + sum_list_with (fun n => 6 - n) ph)%nat.

Definition goes_on (d : nat) (σ : smp) (a : nat) (ph : list nat) : Prop :=
  exists σ' a' ph', smp_step d σ = Ok tt σ' /\ inv a' ph' σ' /\ S (left a' ph') = left a ph.

Lemma left_insert a ph j n : ph !! j = Some n -> (n < 6)%nat -> S (left a (<[j := S n]> ph)) = left a ph.
Proof.
  intros Hj Hn6. unfold left. enough (S (sum_list_with (fun n => 6 - n)%nat (<[j := S n]> ph)) =
    sum_list_with (fun n => 6 - n)%nat ph) by lia.
  revert j Hj. induction ph as [|m ph IH]; intros [|j] Hj; [done|done| |].
  - injection Hj as ->. change (<[O := S n]> (n :: ph)) with (S n :: ph). cbn [sum_list_with]. lia.
  - specialize (IH j Hj). change (<[S j := S n]> (m :: ph)) with (m :: <[j := S n]> ph). cbn [sum_list_with]. lia.
Qed.

Lemma left_pos ph : (0 < sum_list_with (fun n => 6 - n)%nat ph)%nat -> exists j n, ph !! j = Some n /\ (n < 6)%nat.
Proof.
  induction ph as [|m ph IH]; cbn [sum_list_with]; [lia|]. intros H. destruct (decide (m < 6)%nat) as [Hm|Hm].
  - by exists O, m.
  - destruct IH as (j & n & Hj & Hn6); [lia|]. by exists (S j), n.
Qed.

Lemma sleeper_goes_on a ph σ : inv a ph σ -> (a < 8)%nat -> goes_on 0 σ a ph.
Proof.
  intros Hi Ha. destruct (sleeper_step _ _ _ Hi Ha) as (σ' & E & Hi'). exists σ', (S a), ph.
  split_and!; [done|done|]. unfold left. lia.
Qed.

Lemma any_step d a ph σ : inv a ph σ -> smp_step d σ = Ok tt σ \/ goes_on d σ a ph.
Proof.
  intros Hi. pose proof Hi as [(x & xs & Ec & (_ & Hx & _) & Hl & _) Hlen Ha _ _ _ _]. destruct d as [|j].
  - destruct (decide (a < 8)%nat); [right; by apply sleeper_goes_on|left].
    assert (a = 8%nat) as -> by lia. eapply (step_ret O x); [by rewrite Ec|exact Hx].
  - destruct (decide (j < length ws)%nat) as [Hj|Hj].
    2:{ left. unfold smp_step. rewrite Ec. by rewrite lookup_ge_None_2 by (cbn; lia). }
    destruct (lookup_lt_is_Some_2 ws j Hj) as [w Hwj]. destruct (lookup_lt_is_Some_2 ph j) as [n Hnj]; [lia|].
    pose proof (waker_step _ _ _ _ _ _ Hi Hnj Hwj) as H. destruct (_ || _) eqn:E in H; [by left|right].
    destruct H as (σ' & E' & Hi'). exists σ', a, (<[j := S n]> ph). split_and!; [done|done|].
    apply left_insert; [done|]. destruct (in_ph _ _ _ Hi _ _ Hnj) as [Hn6 _].
    destruct (decide (n = 6)%nat) as [->|]; [done|lia].
Qed.

(** There is no deadlock. *)
Lemma waker_goes_on a ph σ j n :
  inv a ph σ -> ph !! j = Some n -> (n < 6)%nat ->
  (n = O -> taken lk (S j) (s_cores σ) = false) -> (n = 2%nat -> taken L_ptable (S j) (s_cores σ) = false) ->
  goes_on (S j) σ a ph.
Proof.
  intros Hi Hj Hn6 H0 H2.
  destruct (lookup_lt_is_Some_2 ws j) as [w Hwj]; [apply lookup_lt_Some in Hj; rewrite <- (in_len _ _ _ Hi); lia|].
  pose proof (waker_step _ _ _ _ _ _ Hi Hj Hwj) as H.
  rewrite (proj2 (Nat.eqb_neq n 6)) in H by lia. cbn [orb] in H.
  assert ((n =? 0)%nat && taken lk (S j) (s_cores σ) = false) as Ef
    by (destruct (Nat.eqb_spec n 0); [by rewrite H0|done]).
  assert ((n =? 2)%nat && taken L_ptable (S j) (s_cores σ) = false) as Eg
    by (destruct (Nat.eqb_spec n 2); [by rewrite H2|done]).
  rewrite Ef, Eg in H. destruct H as (σ' & E & Hi'). exists σ', a, (<[j := S n]> ph).
  split_and!; [done|done|by apply left_insert].
Qed.

Lemma progress a ph σ : inv a ph σ -> (0 < left a ph)%nat -> exists d, (d <= length ws)%nat /\ goes_on d σ a ph.
Proof.
  intros Hi Hl. destruct (decide (a < 8)%nat) as [Ha|Ha]; [exists O; split; [lia|by apply sleeper_goes_on]|].
  pose proof (in_a _ _ _ Hi). assert (a = 8%nat) as -> by lia.
  assert (Hlen : forall j n, ph !! j = Some n -> (S j <= length ws)%nat).
  { intros j n Hj. apply lookup_lt_Some in Hj. rewrite (in_len _ _ _ Hi) in Hj. lia. }
  destruct (decide (Exists (fun n => 1 <= n <= 5)%nat ph)) as [He|He].
  - apply Exists_exists in He as (n & [j Hj]%list_elem_of_lookup & Hb). exists (S j). split; [by eapply Hlen|].
    eapply waker_goes_on; try done; [lia|lia|]. intros ->. apply not_true_iff_false.
    rewrite (taken_ptable _ _ _ _ Hi). intros [[_ ?]|(j' & n' & Hd & Hj' & Hb')]; [lia|].
    apply Hd. f_equal. eapply (in_one _ _ _ Hi); try done; lia.
  - destruct (left_pos ph) as (j & n & Hj & Hn6); [unfold left in Hl; lia|].
    assert (Ho : forall j' n', ph !! j' = Some n' -> ~ (1 <= n' <= 5)%nat).
    { intros j' n' Hj' Hb. apply He, Exists_exists. exists n'. split; [by eapply list_elem_of_lookup_2|done]. }
    exists (S j). split; [by eapply Hlen|]. pose proof (Ho _ _ Hj). assert (n = O) as -> by lia.
    eapply waker_goes_on; try done. intros _. apply not_true_iff_false.
    rewrite (taken_lock _ _ _ _ Hi). intros [[_ ?]|(j' & n' & _ & Hj' & Hb)]; [lia|]. by destruct (Ho _ _ Hj').
Qed.

Lemma run_inv sch a ph σ : inv a ph σ ->
  exists σ' a' ph', smp_run sch σ = Ok tt σ' /\ inv a' ph' σ' /\ (left a' ph' <= left a ph)%nat.
Proof.
  revert a ph σ. induction sch as [|d sch IH]; intros a ph σ Hi; cbn [smp_run]; [by exists σ, a, ph|].
  destruct (any_step d _ _ _ Hi) as [E|(σ1 & a1 & ph1 & E & Hi1 & El)]; rewrite (bind_ok _ _ _ _ _ E).
  - by apply IH.
  - destruct (IH _ _ _ Hi1) as (σ' & a' & ph' & E' & Hi' & Hle). exists σ', a', ph'. split_and!; [done|done|lia].
Qed.

(** A round in which every CPU takes a step. *)
Lemma round_inv sch a ph σ : inv a ph σ -> (0 < left a ph)%nat -> (forall d, (d <= length ws)%nat -> d ∈ sch) ->
  exists σ' a' ph', smp_run sch σ = Ok tt σ' /\ inv a' ph' σ' /\ (left a' ph' < left a ph)%nat.
Proof.
  intros Hi Hl Hall. destruct (progress _ _ _ Hi Hl) as (d & Hd & Hgo). specialize (Hall d Hd). clear Hd.
  induction sch as [|e sch IH]; [by apply not_elem_of_nil in Hall|]. cbn [smp_run].
  destruct (decide (e = d)) as [->|Hne']; [|destruct (any_step e _ _ _ Hi) as [E|Hgo']].
  2:{ rewrite (bind_ok _ _ _ _ _ E). apply IH. set_solver. }
  1: destruct Hgo as (σ1 & a1 & ph1 & E & Hi1 & El). 2: destruct Hgo' as (σ1 & a1 & ph1 & E & Hi1 & El).
  all: rewrite (bind_ok _ _ _ _ _ E); destruct (run_inv sch _ _ _ Hi1) as (σ' & a' & ph' & E' & Hi' & Hle);
    exists σ', a', ph'; (split_and!; [done|done|lia]).
Qed.

Lemma smp_run_app s1 s2 σ : smp_run (s1 ++ s2) σ = (smp_run s1;; smp_run s2) σ.
Proof.
  revert σ. induction s1 as [|d s1 IH]; intros σ; [done|]. cbn. unfold mbind, M_bind in *.
  destruct (smp_step d σ); [apply IH|done..].
Qed.

Lemma rounds_inv rs a ph σ : inv a ph σ -> Forall (fun r => forall d, (d <= length ws)%nat -> d ∈ r) rs ->
  (left a ph <= length rs)%nat ->
  exists σ' a' ph', smp_run (concat rs) σ = Ok tt σ' /\ inv a' ph' σ' /\ left a' ph' = O.
Proof.
  intros Hi Hrs. revert a ph σ Hi. induction Hrs as [|r rs Hr _ IH]; intros a ph σ Hi Hl; cbn [concat length] in *.
  { exists σ, a, ph. split_and!; [done|done|lia]. }
  assert (exists σ1 a1 ph1, smp_run r σ = Ok tt σ1 /\ inv a1 ph1 σ1 /\ (left a1 ph1 <= length rs)%nat)
    as (σ1 & a1 & ph1 & E & Hi1 & Hl1).
  { destruct (decide (left a ph = O)) as [E|E].
    - destruct (run_inv r _ _ _ Hi) as (σ1 & a1 & ph1 & ? & ? & ?). exists σ1, a1, ph1. split_and!; [done|done|lia].
    - destruct (round_inv r _ _ _ Hi ltac:(lia) Hr) as (σ1 & a1 & ph1 & ? & ? & ?). exists σ1, a1, ph1. split_and!; [done|done|lia]. }
  destruct (IH _ _ _ Hi1 Hl1) as (σ' & a' & ph' & E' & Hi' & Hl'). exists σ', a', ph'.
  split_and!; [|done|done]. rewrite smp_run_app. by rewrite (bind_ok _ _ _ _ _ E).
Qed.

(** All have finished just when no operation is left. *)
Lemma finished_left a ph σ : inv a ph σ -> left a ph = O -> finished σ.
Proof.
  intros [(x & xs & Ec & (_ & Hx & _) & Hl & Hw) Hlen Ha Hph _ _ _] E. unfold finished, left in *. rewrite Ec.
  assert (a = 8%nat) as -> by lia. constructor; [done|]. apply Forall_lookup_2. intros j y Hy.
  destruct (lookup_lt_is_Some_2 ws j) as [w Hwj]; [apply lookup_lt_Some in Hy; lia|].
  destruct (lookup_lt_is_Some_2 ph j) as [n Hnj]; [apply lookup_lt_Some in Hwj; lia|].
  destruct (Hw _ _ _ _ Hy Hwj Hnj) as [_ ->]. destruct (Hph _ _ Hnj) as [Hn6 _].
  destruct (decide (n = 6)%nat) as [->|Hn']; [done|]. exfalso.
  pose proof (left_insert 8 ph j n Hnj ltac:(lia)) as H. unfold left in H. lia.
Qed.

Lemma finished_phases a ph σ : inv a ph σ -> finished σ ->
  a = 8%nat /\ forall j n, ph !! j = Some n -> n = 6%nat.
Proof.
  intros [(x & xs & Ec & (_ & Hx & _) & Hl & Hw) Hlen Ha Hph _ _ _] Hf. unfold finished in Hf. rewrite Ec in Hf.
  apply Forall_cons in Hf as [Hfx Hf]. rewrite Hfx in Hx. split.
  - do 9 (destruct a as [|a]; [done|]). lia.
  - intros j n Hnj. destruct (lookup_lt_is_Some_2 ws j) as [w Hwj]; [apply lookup_lt_Some in Hnj; lia|].
    destruct (lookup_lt_is_Some_2 xs j) as [y Hy]; [apply lookup_lt_Some in Hwj; lia|].
    destruct (Hw _ _ _ _ Hy Hwj Hnj) as [_ Hyp]. rewrite (proj1 (Forall_lookup _ _) Hf _ _ Hy) in Hyp.
    destruct (Hph _ _ Hnj) as [Hn6 _]. do 7 (destruct n as [|n]; [done|]). lia.
Qed.

Lemma start_inv l r k p : k_ptable k !! i = Some p ->
  inv 0 (replicate (length ws) O) (sleep_start ch lk c i l r ws k).
Proof.
  intros Hp. constructor; cbn; try lia.
  - eexists _, _. split_and!; [done| |by rewrite length_fmap|].
    + split_and!; [done|apply sleep_code_eq|done].
    + intros j y w n Hy Hw [-> _]%lookup_replicate. rewrite list_lookup_fmap, Hw in Hy. by injection Hy as <-.
  - by rewrite length_replicate.
  - intros j n [-> _]%lookup_replicate. lia.
  - intros j j' n n' [-> _]%lookup_replicate. lia.
  - exists p. split; [done|lia].
Qed.

Lemma left_start n : left 0 (replicate n O) = (8 + 6 * n)%nat.
Proof. unfold left. induction n as [|n IH]; cbn in *; lia. Qed.
End sleep_wakeup.

(** ** Property *)

(** C25: no wake-up is lost.  CPU 0 runs a process that calls [sleep] with its lock held; any
    number of other CPUs each take the lock, change what is waited for, call [wakeup] and
    release the lock.  In whatever order the CPUs take their steps, nothing panics; if each CPU
    gets its turn often enough, all finish.  When all have finished, no lock is held and the
    process is runnable if one of the CPUs woke up its channel, however its [wakeup] fell in
    with the steps of [sleep], and is asleep otherwise.  The rest of [sleep], run by the
    scheduler with [ptable.lock] held, clears the channel and returns with the lock held. *)
Theorem sleep_wakeup ch lk c i l r ws k p sch :
  cpu_ok c -> ncli c = 0 -> held c = [] -> lk <> L_ptable -> Forall waker_ok ws ->
  k_ptable k !! i = Some p ->
  exists σ', smp_run sch (sleep_start ch lk c i l r ws k) = Ok tt σ' /\
    (forall rs, sch = concat rs -> Forall (fun round => forall d, (d <= length ws)%nat -> d ∈ round) rs ->
       (8 + 6 * length ws <= length rs)%nat -> finished σ') /\
    (finished σ' ->
       Forall (fun x => held (co_cpu x) = []) (s_cores σ') /\
       exists q rest, k_ptable (s_k σ') !! i = Some q /\ p_chan q = Some ch /\
         p_state q = (if decide (Exists (fun w => w_chan w = ch) ws) then RUNNABLE else SLEEPING) /\
         s_switched σ' !! i = Some rest /\
         forall k2 ie, k_cpu k2 = mk_cpu 1 ie false [L_ptable] ->
           exists k3, segment rest k2 = Ok (inl tt) k3 /\ held (k_cpu k3) = [lk] /\
             k_ptable k3 = alter (set_p_chan None) i (k_ptable k2)).
Proof.
  intros Hc Hn Hh Hne Hws Hp. pose proof (start_inv ch lk c i ws Hne l r k p Hp) as Hi0.
  destruct (run_inv ch lk c i ws Hc Hn Hh Hne Hws sch _ _ _ Hi0) as (σ' & a & ph & E & Hi & _).
  exists σ'. split_and!; [done| |].
  - intros rs -> Hrs Hlen.
    destruct (rounds_inv ch lk c i ws Hc Hn Hh Hne Hws rs _ _ _ Hi0 Hrs) as (σ2 & a2 & ph2 & E2 & Hi2 & Hl2).
    { by rewrite left_start. }
    assert (σ2 = σ') as -> by congruence. by eapply finished_left.
  - intros Hf. destruct (finished_phases _ _ _ _ _ _ _ _ Hi Hf) as [-> Hph].
    destruct Hi as [(x & xs & Ec & (Hx & _) & Hl & Hw) Hlen _ _ _ (q & Hq & Hqs) HT].
    destruct (Hqs ltac:(lia)) as [Hch Hst]. split.
    + rewrite Ec. constructor; [by rewrite Hx|]. apply Forall_lookup_2. intros j y Hy.
      destruct (lookup_lt_is_Some_2 ws j) as [w Hwj]; [apply lookup_lt_Some in Hy; lia|].
      destruct (lookup_lt_is_Some_2 ph j) as [n Hnj]; [apply lookup_lt_Some in Hwj; lia|].
      destruct (Hw _ _ _ _ Hy Hwj Hnj) as [-> _]. rewrite (Hph _ _ Hnj).
      by destruct (proj1 (Forall_lookup _ _) Hws _ _ Hwj) as (_ & ? & _).
    + exists q, (sleep_back i lk (intr_on c)). split_and!; [done|done| |by apply HT; lia|].
      * rewrite Hst. assert (woke ch ws ph = true <-> Exists (fun w => w_chan w = ch) ws) as H.
        { rewrite woke_spec, Exists_exists. split.
          - intros (j & w & n & Hwj & _ & _ & Hwc). exists w. split; [by eapply list_elem_of_lookup_2|done].
          - intros (w & [j Hwj]%list_elem_of_lookup & Hwc).
            destruct (lookup_lt_is_Some_2 ph j) as [n Hnj]; [apply lookup_lt_Some in Hwj; lia|].
            exists j, w, n. pose proof (Hph _ _ Hnj). split_and!; try done. lia. }
        case_decide; destruct (woke ch ws ph); naive_solver.
      * intros k2 ie Hk2. eexists. split; [by apply (segment_sleep_back lk i Hne _ ie)|done].
Qed.

(** One CPU counts a tick and wakes up the sleeper, another wakes up the log. *)
Lemma sleep_wakeup_witness :
  exists σ' q,
    let idle := mk_cpu 0 false false [] in
    let w1 := mk_waker (mk_core idle None 0 0 (C_ret tt)) (modify (fun k => set_k_ticks (k_ticks k + 1) k)) Ch_ticks in
    let w2 := mk_waker (mk_core idle None 0 0 (C_ret tt)) (mret tt) Ch_log in
    smp_run (concat (replicate 20 [2; 0; 1]%nat))
      (sleep_start Ch_ticks L_ticks idle 0 0 0 [w1; w2] kst_zero) = Ok tt σ' /\
    finished σ' /\ k_ptable (s_k σ') !! O = Some q /\ p_state q = RUNNABLE.
Proof.
  set (idle := mk_cpu 0 false false []).
  set (w1 := mk_waker (mk_core idle None 0 0 (C_ret tt)) (modify (fun k => set_k_ticks (k_ticks k + 1) k)) Ch_ticks).
  set (w2 := mk_waker (mk_core idle None 0 0 (C_ret tt)) (mret tt) Ch_log).
  assert (Hidle : cpu_ok idle) by (unfold cpu_ok; cbn; repeat split; try lia; try done; constructor).
  destruct (sleep_wakeup Ch_ticks L_ticks idle 0 0 0 [w1; w2] kst_zero zero_proc (concat (replicate 20 [2; 0; 1]%nat))
    Hidle eq_refl eq_refl ltac:(discriminate)) as (σ' & E & Hfin & H); [|reflexivity|].
  - apply Forall_cons. split; [|apply Forall_singleton]; (split_and!; [exact Hidle|reflexivity|]);
      intros k; eexists; split_and!; reflexivity.
  - assert (Hf : finished σ').
    { apply (Hfin (replicate 20 [2; 0; 1]%nat)); [reflexivity| |cbn; lia]. apply Forall_replicate.
      intros d Hd. cbn in Hd. rewrite !elem_of_cons. lia. }
    destruct (H Hf) as (_ & q & rest & Hq & _ & Hst & _). rewrite decide_True in Hst by (by left).
    exists σ', q. split; [exact E|]. split; [exact Hf|]. split; [exact Hq|exact Hst].
Defined.
