(* ===== verification/VmSpec.v ===== *)
(** What the page-table code ([Vm]) does.  The pages of an address space form a tree: a path
    of indices, the last one first, leads from the root through tables to the user's
    pages.  The table code acts on that tree. *)
From Stdlib Require Import ZArith Lia.
From stdpp Require Import base gmap sets strings numbers list.
From S2P Require Import Prelude Strings State Spinlock Fs Dir Kalloc Vm.

Local Open Scope Z_scope.

(** ** Address spaces *)

(** The indices of [va]: down to its page table, and down to its page. *)
Definition table_path (va : Z) : list Z := [PDX va; PDPX va; PMX va].
Definition page_path (va : Z) : list Z := PTX va :: table_path va.

(** Paths of user addresses: the upper half of the root is the kernel's. *)
Definition path_ok (p : list Z) : Prop :=
  (length p <= 4)%nat /\ Forall (fun i => 0 <= i < 512) p /\ (forall i, last p = Some i -> i < 256).

(** The entry [e] points to the page [o], or is not present. *)
Definition entry_ok (o : option Z) (e : Z) : Prop :=
  match o with
  | Some w => has e PTE_P = true /\ P2V (PTE_ADDR e) = w
  | None => has e PTE_P = false
  end.

(** [t] holds the pages of the address space [pml4]: its tables, and at the end of paths of
    length four the user's pages.  All are different pages, none of them free. *)
Record vm_ok (k : kst) (pml4 : Z) (t : gmap (list Z) Z) (fl : list Z) : Prop := {
  vo_free : free_pages k fl;
  vo_end : KERNBASE < k_end k;
  vo_root : t !! [] = Some pml4;
  vo_page : forall p v, t !! p = Some v -> path_ok p /\ page_ok (k_end k) v /\ v ∉ fl;
  vo_inj : forall p q v, t !! p = Some v -> t !! q = Some v -> p = q;
  vo_up : forall p i v, t !! (i :: p) = Some v -> is_Some (t !! p);
  vo_entry : forall p i v, t !! p = Some v -> path_ok (i :: p) ->
    entry_ok (t !! (i :: p)) (load 8 (k_mem k) (v + 8 * i))
}.

(** The page table entry at a path. *)
Definition pte (k : kst) (t : gmap (list Z) Z) (q : list Z) : Z :=
  match q with
  | i :: p => match t !! p with Some v => load 8 (k_mem k) (v + 8 * i) | None => 0 end
  | [] => 0
  end.

(** What a user page is mapped to: its entry, if it is present. *)
Definition mapping (k : kst) (t : gmap (list Z) Z) (va : Z) : option Z :=
  match t !! page_path va with Some _ => Some (pte k t (page_path va)) | None => None end.

(** Only memory and the free list are different. *)
Definition only_mem (k k' : kst) : Prop := k' = set_k_kmem (k_kmem k') (set_k_mem (k_mem k') k).

(** The pages of the address space and the free ones. *)
Definition owned (t : gmap (list Z) Z) (fl : list Z) (v : Z) : Prop :=
  v ∈ fl \/ exists p, t !! p = Some v.

(** [w] is a page outside the address space that is not free. *)
Definition fresh (k : kst) (t : gmap (list Z) Z) (fl : list Z) (w : Z) : Prop :=
  page_ok (k_end k) w /\ ~ owned t fl w.

(** [w] is a page that is neither free nor a table: a user page, or one outside. *)
Definition kept (t : gmap (list Z) Z) (fl : list Z) (w : Z) : Prop :=
  w mod PGSIZE = 0 /\ w ∉ fl /\ forall p, (length p < 4)%nat -> t !! p <> Some w.

(** The upper half of the root, with the entries of the kernel's addresses, is the same. *)
Definition upper_same (t : gmap (list Z) Z) (k k' : kst) : Prop :=
  forall v a, t !! [] = Some v -> v + 2048 <= a < v + PGSIZE -> k_mem k' a = k_mem k a.

(** The same user pages with the same entries and contents; more tables perhaps. *)
Record vm_same (k : kst) (t : gmap (list Z) Z) (fl : list Z)
    (k' : kst) (t' : gmap (list Z) Z) (fl' : list Z) : Prop := {
  vs_tables : t ⊆ t';
  vs_pages : forall q, length q = 4%nat -> t' !! q = t !! q;
  vs_ptes : forall q, length q = 4%nat -> path_ok q -> pte k' t' q = pte k t q;
  vs_kept : forall w, kept t fl w ->
    kept t' fl' w /\ forall a, w <= a < w + PGSIZE -> k_mem k' a = k_mem k a;
  vs_owned : forall x, owned t' fl' x <-> owned t fl x;
  vs_upper : upper_same t k k'
}.

Lemma owned_cons t w fl x : owned t (w :: fl) x <-> owned t fl x \/ x = w.
Proof. unfold owned. setoid_rewrite elem_of_cons. naive_solver. Qed.

(** The pages that are neither in the address space nor free keep their contents. *)
Definition spares (t : gmap (list Z) Z) (fl : list Z) (k k' : kst) : Prop :=
  forall x a, x mod PGSIZE = 0 -> ~ owned t fl x -> x <= a < x + PGSIZE -> k_mem k' a = k_mem k a.

Lemma spares_refl t fl k : spares t fl k k.
Proof. done. Qed.
Lemma spares_trans t fl t1 fl1 k k1 k2 : (forall x, owned t1 fl1 x -> owned t fl x) ->
  spares t fl k k1 -> spares t1 fl1 k1 k2 -> spares t fl k k2.
Proof. intros Ho H1 H2 x a Hx Hn Ha. rewrite (H2 x a), (H1 x a); try done. intros H. by apply Hn, Ho. Qed.
Lemma spares_kept t fl k k' :
  (forall x a, kept t fl x -> x <= a < x + PGSIZE -> k_mem k' a = k_mem k a) -> spares t fl k k'.
Proof.
  intros H x a Hx Hn. apply H. split_and!; [done| |].
  - intros Hin. apply Hn. by left.
  - intros p _ Hp. apply Hn. right. by exists p.
Qed.

(** ** Page table entries *)
Lemma pte_addr y : 0 <= y < 2 ^ 64 -> PTE_ADDR y = y - y mod 4096.
Proof.
  intros Hy. unfold PTE_ADDR. change (u64 (Z.lnot 4095)) with (Z.shiftl (Z.ones 52) 12).
  assert (E : Z.land y (Z.shiftl (Z.ones 52) 12) = Z.shiftl (Z.land (Z.shiftr y 12) (Z.ones 52)) 12).
  { apply Z.bits_inj'. intros n Hn. rewrite Z.land_spec, !Z.shiftl_spec, Z.land_spec by lia.
    destruct (Z.ltb_spec n 12).
    - rewrite !(Z.testbit_neg_r _ (n - 12)) by lia. by rewrite andb_false_r.
    - rewrite Z.shiftr_spec by lia. by replace (n - 12 + 12) with n by lia. }
  rewrite E, Z.land_ones, Z.shiftl_mul_pow2, Z.shiftr_div_pow2 by lia.
  rewrite Z.mod_small.
  - change (2 ^ 12) with 4096. pose proof (Z.div_mod y 4096 ltac:(lia)). lia.
  - split; [apply Z.div_pos; lia|]. apply Z.div_lt_upper_bound; lia.
Qed.

Lemma lor_low x f : x mod 4096 = 0 -> 0 <= f < 4096 -> Z.lor x f = x + f.
Proof.
  intros Hx Hf. assert (E : Z.land x f = 0).
  { pose proof (Z.div_mod x 4096 ltac:(lia)) as Ex. rewrite Hx, Z.add_0_r in Ex.
    apply Z.bits_inj'. intros n Hn. rewrite Z.land_spec, Z.bits_0.
    destruct (Z.ltb_spec n 12).
    - replace x with (Z.shiftl (x / 4096) 12) by (rewrite Z.shiftl_mul_pow2 by lia; lia).
      rewrite Z.shiftl_spec, Z.testbit_neg_r by lia. done.
    - replace (Z.testbit f n) with false; [apply andb_false_r|]. symmetry.
      apply Z.bits_above_log2; [lia|]. destruct (Z.eq_dec f 0) as [->|]; [simpl; lia|].
      apply Z.lt_le_trans with 12; [|done]. apply Z.log2_lt_pow2; lia. }
  pose proof (Z.add_lor_land x f). lia.
Qed.

(** The entry for the page [w] with flags [f]. *)
Lemma new_entry kend w f : page_ok kend w -> 0 <= f < 4096 ->
  Z.lor (V2P w) f = V2P w + f /\ 0 <= V2P w + f < 2 ^ 64 /\ P2V (PTE_ADDR (V2P w + f)) = w /\
  has (V2P w + f) PTE_P = has f PTE_P.
Proof.
  intros (Hm & _ & Hr) Hf. pose proof (P2V_V2P w Hr) as Ep.
  assert (Hv : (V2P w) mod 4096 = 0).
  { rewrite V2P_page by done. unfold PGSIZE in Hm. unfold KERNBASE.
    rewrite Zminus_mod, Hm. reflexivity. }
  assert (Hb : 0 <= V2P w < PHYSTOP) by (rewrite V2P_page by done; unfold PHYSTOP in *; lia).
  unfold PHYSTOP in Hb. split_and!; [by apply lor_low|lia|lia| |].
  - rewrite pte_addr by lia. rewrite Z.add_mod, Hv, Z.add_0_l, Z.mod_mod, (Z.mod_small f) by lia.
    by replace (V2P w + f - f) with (V2P w) by lia.
  - rewrite <- lor_low by done. unfold has, PTE_P. rewrite Z.land_lor_distr_l.
    replace (Z.land (V2P w) 1) with 0; [done|]. change 1 with (Z.ones 1).
    rewrite Z.land_ones by lia. change (2 ^ 1) with 2.
    pose proof (Z.div_mod (V2P w) 4096 ltac:(lia)) as E. rewrite Hv in E. rewrite E.
    rewrite Z.add_0_r. replace (4096 * (V2P w / 4096)) with (2048 * (V2P w / 4096) * 2) by lia.
    by rewrite Z.mod_mul.
Qed.

Lemma px_spec s va : 0 <= s -> px s va = (va / 2 ^ s) mod 512.
Proof. intros. unfold px. change 511 with (Z.ones 9). by rewrite Z.land_ones, Z.shiftr_div_pow2 by lia. Qed.

Lemma user_path va : 0 <= va < 2 ^ 47 -> path_ok (page_path va).
Proof.
  intros Hva. unfold page_path, table_path, PTX, PDX, PDPX, PMX. rewrite !px_spec by lia.
  assert (H : forall x, 0 <= x mod 512 < 512) by (intros; apply Z.mod_pos_bound; lia).
  split; [simpl; lia|]. split; [repeat constructor; apply H|].
  intros i [= <-]. rewrite Z.mod_small.
  - apply Z.div_lt_upper_bound; lia.
  - split; [apply Z.div_pos; lia|]. apply Z.div_lt_upper_bound; lia.
Qed.

(** The path determines the page. *)
Lemma page_path_inj a b : 0 <= a < 2 ^ 47 -> 0 <= b < 2 ^ 47 ->
  page_path a = page_path b -> a / PGSIZE = b / PGSIZE.
Proof.
  intros Ha Hb. unfold page_path, table_path, PTX, PDX, PDPX, PMX. rewrite !px_spec by lia.
  intros [= E1 E2 E3 E4]. unfold PGSIZE. 
  assert (H : forall x, 0 <= x < 2 ^ 47 -> x / 4096 = (x / 2 ^ 12) mod 512 + 512 * ((x / 2 ^ 21) mod 512 +
    512 * ((x / 2 ^ 30) mod 512 + 512 * ((x / 2 ^ 39) mod 512)))).
  { clear. intros x Hx. change (2 ^ 12) with 4096.
    replace (x / 2 ^ 21) with (x / 4096 / 512) by (rewrite Z.div_div by lia; done).
    replace (x / 2 ^ 30) with (x / 4096 / 512 / 512) by (rewrite !Z.div_div by lia; done).
    replace (x / 2 ^ 39) with (x / 4096 / 512 / 512 / 512) by (rewrite !Z.div_div by lia; done).
    set (n := x / 4096). assert (Hn : 0 <= n < 512 * 512 * 512 * 512)
      by (split; [apply Z.div_pos; lia|apply Z.div_lt_upper_bound; lia]).
    clearbody n. clear Hx x. Z.div_mod_to_equations. lia. }
  rewrite (H a Ha), (H b Hb). congruence.
Qed.

(** ** Frames *)
Lemma only_mem_refl k : only_mem k k.
Proof. by destruct k. Qed.
Lemma only_mem_trans k k1 k2 : only_mem k k1 -> only_mem k1 k2 -> only_mem k k2.
Proof. unfold only_mem. intros H1 H2. rewrite H2. rewrite H1 at 1. done. Qed.
Lemma only_mem_set k m km : only_mem k (set_k_kmem km (set_k_mem m k)).
Proof. done. Qed.
Lemma only_mem_end k k' : only_mem k k' -> k_end k' = k_end k.
Proof. intros H. by rewrite H. Qed.

Lemma vm_same_refl k t fl : vm_same k t fl k t fl.
Proof. by constructor. Qed.
Lemma vm_same_trans k t fl k1 t1 fl1 k2 t2 fl2 :
  vm_same k t fl k1 t1 fl1 -> vm_same k1 t1 fl1 k2 t2 fl2 -> vm_same k t fl k2 t2 fl2.
Proof.
  intros [A1 A2 A3 A4 A5 A6] [B1 B2 B3 B4 B5 B6]. constructor.
  - by etrans.
  - intros q Hq. by rewrite B2, A2.
  - intros q Hq Hp. by rewrite B3, A3.
  - intros w Hw. destruct (A4 w Hw) as [Hw1 E1]. destruct (B4 w Hw1) as [Hw2 E2].
    split; [done|]. intros a Ha. by rewrite E2, E1.
  - intros x. by rewrite B5, A5.
  - intros v a Hv Ha. rewrite (B6 v a), (A6 v a); try done. by apply (lookup_weaken t).
Qed.

(** The free list does not depend on the pages outside it. *)
Lemma free_pages_ext k k' fl :
  free_pages k fl -> only_mem k k' -> km_freelist (k_kmem k') = km_freelist (k_kmem k) ->
  (forall v a, v ∈ fl -> v <= a < v + PGSIZE -> k_mem k' a = k_mem k a) -> free_pages k' fl.
Proof.
  intros [Hl Hnd Hp Hc Hlk] Ho Hf Hm. constructor.
  - rewrite Hf. eapply links_ext; [|done]. intros v i Hv Hi. apply (Hm v); [done|unfold PGSIZE; lia].
  - done.
  - by rewrite (only_mem_end _ _ Ho).
  - by rewrite Ho.
  - by rewrite Ho.
Qed.

Section Frame.
Context {k : kst} {pml4 : Z} {t : gmap (list Z) Z} {fl : list Z} (Hok : vm_ok k pml4 t fl).

Lemma node_aligned p v : t !! p = Some v -> v mod PGSIZE = 0.
Proof using Hok. intros Hv. by destruct (vo_page _ _ _ _ Hok p v Hv) as (_ & (? & _) & _). Qed.

Lemma nodes_disjoint p q v w : t !! p = Some v -> t !! q = Some w -> p <> q ->
  v + PGSIZE <= w \/ w + PGSIZE <= v.
Proof using Hok.
  intros Hv Hw Hne. apply pages_disjoint; [by eapply node_aligned|by eapply node_aligned|].
  intros ->. by apply Hne, (vo_inj _ _ _ _ Hok p q w).
Qed.

Lemma fresh_disjoint p v w : t !! p = Some v -> fresh k t fl w -> v + PGSIZE <= w \/ w + PGSIZE <= v.
Proof using Hok.
  intros Hv [(Hw & _) Hn]. apply pages_disjoint; [by eapply node_aligned|done|].
  intros ->. apply Hn. right. by exists p.
Qed.

(** The tree does not depend on what is outside its tables. *)
Lemma vm_ok_ext k' fl' :
  only_mem k k' -> free_pages k' fl' -> (forall p v, t !! p = Some v -> v ∉ fl') ->
  (forall p v a, (length p < 4)%nat -> t !! p = Some v -> v <= a < v + PGSIZE -> k_mem k' a = k_mem k a) ->
  vm_ok k' pml4 t fl'.
Proof using Hok.
  intros Ho Hf Hsub Hm. destruct Hok as [_ Hend Hr Hp Hi Hu He]. constructor; try done.
  - by rewrite (only_mem_end _ _ Ho).
  - intros p v Hv. destruct (Hp p v Hv) as (H1 & H2 & H3). rewrite (only_mem_end _ _ Ho).
    split_and!; [done..|]. by eapply Hsub.
  - intros p i v Hv Hpi. destruct Hpi as (Hlen & Hidx & Hlast).
    pose proof (proj1 (Forall_cons _ _ _) Hidx) as [Hx _].
    rewrite (load_ext _ _ (k_mem k)).
    + apply He; [done|]. by split_and!.
    + intros a Ha. apply (Hm p v); [simpl in Hlen; lia|done|]. change (Z.of_nat 8) with 8 in Ha.
      unfold PGSIZE. lia.
Qed.

Lemma pte_ext k' q : (forall p v a, t !! p = Some v -> (length p < 4)%nat -> v <= a < v + PGSIZE -> k_mem k' a = k_mem k a) ->
  path_ok q -> pte k' t q = pte k t q.
Proof using Hok.
  intros Hm (Hlen & Hidx & _). destruct q as [|i p]; [done|]. cbn [pte].
  destruct (t !! p) as [v|] eqn:Hv; [|done]. apply Forall_cons in Hidx as [Hx _].
  apply load_ext. intros a Ha. change (Z.of_nat 8) with 8 in Ha.
  apply (Hm p v); [done|simpl in Hlen; lia|unfold PGSIZE; lia].
Qed.

Lemma load_zero m a : (forall x, a <= x < a + 8 -> m x = 0) -> load 8 m a = 0.
Proof.
  intros Hm. rewrite (load_ext 8 m (fun _ => 0) a); [done|]. intros x Hx. apply Hm. lia.
Qed.

Lemma path_ok_tail i p : path_ok (i :: p) -> path_ok p /\ 0 <= i < 512 /\ (length p < 4)%nat.
Proof.
  intros (H1 & H2 & H3). apply Forall_cons in H2 as [Hi H2]. cbn [length] in H1.
  split_and!; try done; try lia. split_and!; [lia|done|]. intros j Hj. apply H3.
  rewrite last_cons, Hj. done.
Qed.
End Frame.

(** ** Entries of the tree *)
Lemma cons_ne {A} (x : A) l : x :: l <> l.
Proof. intros E. apply (f_equal length) in E. simpl in E. lia. Qed.

Section Entry.
Context {k : kst} {pml4 : Z} {t : gmap (list Z) Z} {fl : list Z} (Hok : vm_ok k pml4 t fl).
Context {p : list Z} {i v : Z} (Hv : t !! p = Some v) (Hpi : path_ok (i :: p)).

(** Storing one entry changes no other. *)
Lemma load_other q j x e : t !! q = Some x -> path_ok (j :: q) -> j :: q <> i :: p ->
  load 8 (store 8 (k_mem k) (v + 8 * i) e) (x + 8 * j) = load 8 (k_mem k) (x + 8 * j).
Proof using Hok Hv Hpi.
  intros Hx Hqj Hne. apply load_store_other. change (Z.of_nat 8) with 8.
  destruct (path_ok_tail _ _ Hpi) as (_ & Hi & _). destruct (path_ok_tail _ _ Hqj) as (_ & Hj & _).
  destruct (decide (q = p)) as [->|Hqp].
  - rewrite Hv in Hx. injection Hx as <-. assert (i <> j) by congruence. lia.
  - destruct (nodes_disjoint Hok q p x v Hx Hv Hqp); unfold PGSIZE in *; lia.
Qed.

Lemma store_outside e a : ~ (v <= a < v + PGSIZE) -> store 8 (k_mem k) (v + 8 * i) e a = k_mem k a.
Proof using Hpi.
  intros Ha. destruct (path_ok_tail _ _ Hpi) as (_ & Hi & _). apply store_old.
  change (Z.of_nat 8) with 8. unfold PGSIZE in Ha. lia.
Qed.

(** The entries of user addresses are in the lower half of the root. *)
Lemma store_upper m e r a : t !! [] = Some r -> r + 2048 <= a < r + PGSIZE -> store 8 m (v + 8 * i) e a = m a.
Proof using Hok Hv Hpi.
  intros Hr Ha. apply store_old. change (Z.of_nat 8) with 8. destruct (path_ok_tail _ _ Hpi) as (_ & Hi & _).
  destruct p as [|j p'].
  - assert (v = r) as -> by congruence. destruct Hpi as (_ & _ & Hl). specialize (Hl i eq_refl). lia.
  - destruct (nodes_disjoint Hok [] (j :: p') r v Hr Hv); [done|unfold PGSIZE in *; lia..].
Qed.

(** Storing an entry keeps the free list. *)
Lemma store_free_list k1 fl1 e :
  free_pages k1 fl1 -> v ∉ fl1 -> free_pages (set_k_mem (store 8 (k_mem k1) (v + 8 * i) e) k1) fl1.
Proof using Hok Hv Hpi.
  intros Hf Hn. apply (free_pages_ext k1); [done|by destruct k1|done|]. intros x a Hx Ha.
  pose proof (node_aligned Hok p v Hv) as Hm. destruct (path_ok_tail _ _ Hpi) as (_ & Hi & _).
  pose proof (proj1 (Forall_forall _ _) (fp_ok _ _ Hf) x Hx) as (Hxm & _). cbn [k_mem set_k_mem].
  apply store_old. change (Z.of_nat 8) with 8.
  destruct (pages_disjoint x v Hxm Hm) as [|]; [by intros ->|unfold PGSIZE in *; lia..].
Qed.

Section Link.
Context {w f : Z} (Hn : t !! (i :: p) = None) (Hw : fresh k t fl w).
Context (Hz : (length p < 3)%nat -> forall a, w <= a < w + PGSIZE -> k_mem k a = 0).
Context (Hf : 0 <= f < 4096) (HP : has f PTE_P = true).
Let k' : kst := set_k_mem (store 8 (k_mem k) (v + 8 * i) (V2P w + f)) k.
Let t' : gmap (list Z) Z := <[i :: p := w]> t.

Lemma link_load : load 8 (k_mem k') (v + 8 * i) = V2P w + f.
Proof using Hw Hf.
  destruct Hw as [Hw1 _]. destruct (new_entry _ w f Hw1 Hf) as (_ & Hr & _).
  unfold k'. cbn [k_mem set_k_mem]. rewrite load_store_same. by apply Z.mod_small.
Qed.

Lemma link_zero j : (length p < 3)%nat -> 0 <= j < 512 -> load 8 (k_mem k') (w + 8 * j) = 0.
Proof using Hok Hv Hpi Hw Hz.
  intros Hp Hj. apply load_zero. intros a Ha. unfold k'. cbn [k_mem set_k_mem]. rewrite store_outside.
  - apply Hz; [done|]. unfold PGSIZE. lia.
  - destruct (fresh_disjoint Hok p v w Hv Hw); unfold PGSIZE in *; lia.
Qed.

(** A new page [w] at the end of [i :: p]. *)
Lemma vm_link : vm_ok k' pml4 t' fl.
Proof using Hok Hv Hpi Hn Hw Hz Hf HP.
  pose proof Hw as [Hw1 Hw2]. destruct (new_entry _ w f Hw1 Hf) as (_ & _ & He1 & He2). constructor.
  - apply store_free_list; [apply Hok|]. by apply (vo_page _ _ _ _ Hok p v).
  - apply Hok.
  - unfold t'. rewrite lookup_insert_ne by done. apply Hok.
  - intros q x [(<- & <-)|(Hne & Hx)]%lookup_insert_Some; [|by apply (vo_page _ _ _ _ Hok)].
    split_and!; [done..|]. intros Hin. apply Hw2. by left.
  - intros q r x [(<- & <-)|(Hne & Hx)]%lookup_insert_Some [(<- & Ew)|(Hne' & Hx')]%lookup_insert_Some.
    + done.
    + destruct Hw2. right. by exists r.
    + destruct Hw2. right. exists q. congruence.
    + by apply (vo_inj _ _ _ _ Hok q r x).
  - intros q j x [([= <- <-] & <-)|(Hne & Hx)]%lookup_insert_Some; apply lookup_insert_is_Some'; right.
    + by exists v.
    + by apply (vo_up _ _ _ _ Hok _ _ _ Hx).
  - intros q j x [(<- & <-)|(Hne & Hx)]%lookup_insert_Some Hqj.
    + unfold t'. rewrite lookup_insert_ne by (apply not_eq_sym, cons_ne).
      destruct (path_ok_tail _ _ Hqj) as (_ & Hj & Hlen). cbn [length] in Hlen.
      rewrite link_zero by (done || lia).
      destruct (t !! (j :: i :: p)) eqn:Ec; [|done].
      destruct (vo_up _ _ _ _ Hok _ _ _ Ec). congruence.
    + destruct (decide (j :: q = i :: p)) as [[= -> ->]|Hd].
      * rewrite Hv in Hx. injection Hx as <-. unfold t'. rewrite lookup_insert_eq, link_load.
        cbn [entry_ok]. by rewrite He2.
      * unfold t'. rewrite lookup_insert_ne by congruence. unfold k'. cbn [k_mem set_k_mem]. rewrite (load_other q j x) by done.
        by apply (vo_entry _ _ _ _ Hok).
Qed.

Lemma link_pte_new : pte k' t' (i :: p) = V2P w + f.
Proof using Hv Hw Hf.
  unfold t'. cbn [pte]. rewrite lookup_insert_ne, Hv by apply cons_ne. apply link_load.
Qed.

Lemma link_pte_old q : q <> i :: p -> length q = 4%nat -> path_ok q -> pte k' t' q = pte k t q.
Proof using Hok Hv Hpi Hn Hw Hz.
  intros Hne Hlen Hq. destruct q as [|j q]; [done|]. cbn [pte length] in *.
  unfold t'. destruct (decide (q = i :: p)) as [->|Hqp].
  - cbn [length] in Hlen. destruct (path_ok_tail _ _ Hq) as (_ & Hj & _).
    rewrite lookup_insert_eq, Hn. apply link_zero; [lia|done].
  - rewrite lookup_insert_ne by done. destruct (t !! q) as [x|] eqn:Hx; [|done]. unfold k'. cbn [k_mem set_k_mem].
    by apply (load_other q j x).
Qed.
End Link.
End Entry.

(** ** Allocation *)
Lemma vm_kalloc k pml4 t fl : vm_ok k pml4 t fl ->
  exists k', kalloc k = Ok (default 0 (head fl)) k' /\ vm_ok k' pml4 t (tail fl) /\
    only_mem k k' /\ k_mem k' = k_mem k /\ (forall w, head fl = Some w -> fresh k' t (tail fl) w).
Proof.
  intros Hok. pose proof (vo_free _ _ _ _ Hok) as Hf. eexists. split; [by apply kalloc_eq|].
  split; [|split; [by destruct k|split; [done|]]].
  - apply (vm_ok_ext Hok); [by destruct k|by apply free_pages_kalloc| |done].
    intros p v Hv. destruct (vo_page _ _ _ _ Hok _ _ Hv) as (_ & _ & Hn).
    destruct fl; [done|]. by apply not_elem_of_cons in Hn as [_ Hn].
  - intros w Hw. destruct fl as [|w' fl]; [done|]. injection Hw as ->.
    destruct Hf as [_ [Hnd _]%NoDup_cons [Hw _]%Forall_cons _ _]. split; [done|].
    intros [Hin|(p & Hp)]; [done|]. destruct (vo_page _ _ _ _ Hok _ _ Hp) as (_ & _ & Hn).
    apply Hn. left.
Qed.

(** A change inside a page outside the address space is not seen in it. *)
Lemma vm_outside k pml4 t fl w m :
  vm_ok k pml4 t fl -> fresh k t fl w -> (forall a, ~ (w <= a < w + PGSIZE) -> m a = k_mem k a) ->
  vm_ok (set_k_mem m k) pml4 t fl /\ forall q, path_ok q -> pte (set_k_mem m k) t q = pte k t q.
Proof.
  intros Hok Hw Hm.
  assert (Hp : forall p v a, t !! p = Some v -> v <= a < v + PGSIZE -> m a = k_mem k a).
  { intros p v a Hv Ha. apply Hm. destruct (fresh_disjoint Hok p v w Hv Hw); lia. }
  split.
  - apply (vm_ok_ext Hok); [by destruct k| |by apply Hok|intros; by eapply Hp].
    apply (free_pages_ext k); [apply Hok|by destruct k|done|]. intros x a Hx Ha. apply Hm.
    destruct Hw as [(Hwm & _) Hwn].
    pose proof (proj1 (Forall_forall _ _) (fp_ok _ _ (vo_free _ _ _ _ Hok)) x Hx) as (Hxm & _).
    destruct (pages_disjoint x w Hxm Hwm) as [|]; [|lia|lia]. intros ->. apply Hwn. by left.
  - intros q Hq. apply (pte_ext Hok); [|done]. intros p v a Hv _. by eapply Hp.
Qed.

Lemma vm_zero_page k pml4 t fl w :
  vm_ok k pml4 t fl -> fresh k t fl w ->
  exists k', zero_page w k = Ok tt k' /\ vm_ok k' pml4 t fl /\ only_mem k k' /\ fresh k' t fl w /\
    (forall q, path_ok q -> pte k' t q = pte k t q) /\
    (forall a, w <= a < w + PGSIZE -> k_mem k' a = 0) /\
    (forall a, ~ (w <= a < w + PGSIZE) -> k_mem k' a = k_mem k a).
Proof.
  intros Hok Hw. pose proof (page_ok_pos _ _ (proj1 Hw)) as Hpos.
  assert (Hset : forall a, memset (k_mem k) w 0 PGSIZE a = filled (k_mem k) w 0 PGSIZE a)
    by (intros; by apply memset_filled).
  assert (Hout : forall a, ~ (w <= a < w + PGSIZE) -> memset (k_mem k) w 0 PGSIZE a = k_mem k a).
  { intros a Ha. rewrite Hset. unfold filled.
    destruct (Z.leb_spec w a); destruct (Z.ltb_spec a (w + PGSIZE)); simpl; done || lia. }
  destruct (vm_outside k pml4 t fl w (memset (k_mem k) w 0 PGSIZE) Hok Hw Hout) as [H1 H2].
  exists (set_k_mem (memset (k_mem k) w 0 PGSIZE) k). split_and!; try done.
  - unfold zero_page. by rewrite (proj2 (Z.eqb_neq w 0)) by lia.
  - intros a Ha. cbn [k_mem set_k_mem]. rewrite Hset. unfold filled.
    rewrite (proj2 (Z.leb_le w a)), (proj2 (Z.ltb_lt a _)) by lia. done.
Qed.

Lemma table_flags w : Z.lor (Z.lor (Z.lor w PTE_P) PTE_W) PTE_U = Z.lor w 7.
Proof. by rewrite <- !Z.lor_assoc. Qed.

(** A new table, made of a page [w] that was free, does not change what is mapped. *)
Lemma link_table_same k0 k pml4 t fl p i v w f :
  vm_ok k pml4 t fl -> t !! p = Some v -> path_ok (i :: p) -> (length p < 3)%nat ->
  t !! (i :: p) = None -> fresh k t fl w -> (forall a, w <= a < w + PGSIZE -> k_mem k a = 0) ->
  (forall q, path_ok q -> pte k t q = pte k0 t q) ->
  (forall a, ~ (w <= a < w + PGSIZE) -> k_mem k a = k_mem k0 a) ->
  vm_same k0 t (w :: fl)
    (set_k_mem (store 8 (k_mem k) (v + 8 * i) (V2P w + f)) k) (<[i :: p := w]> t) fl.
Proof.
  intros Hok Hv Hpi Hlen Hn Hw Hz Hq0 Hm0. constructor.
  - by apply insert_subseteq.
  - intros q Hq. apply lookup_insert_ne. intros <-. cbn [length] in Hq. lia.
  - intros q Hq Hp. rewrite <- Hq0 by done. apply (link_pte_old Hok Hv Hpi Hn Hw); [done| |done|done].
    intros ->. cbn [length] in Hq. lia.
  - intros x (Hx1 & [Hxw Hx2]%not_elem_of_cons & Hx3). split.
    + split_and!; [done..|]. intros q Hq [(_ & ->)|(_ & E)]%lookup_insert_Some; [done|]. by apply (Hx3 q).
    + intros a Ha. cbn [k_mem set_k_mem]. rewrite (store_outside Hpi), Hm0; [done| |].
      * destruct (pages_disjoint x w Hx1 (proj1 (proj1 Hw)) Hxw); lia.
      * destruct (pages_disjoint x v Hx1 (node_aligned Hok p v Hv)); [|lia|lia].
        intros ->. apply (Hx3 p); [lia|done].
  - intros x. unfold owned. setoid_rewrite elem_of_cons. setoid_rewrite lookup_insert_Some.
    naive_solver.
  - intros r a Hr Ha. cbn [k_mem set_k_mem]. rewrite (store_upper Hok Hv Hpi _ _ r), Hm0; try done.
    destruct (fresh_disjoint Hok [] r w Hr Hw); lia.
Qed.

(** One level of the walk, making the table if it is not there.  It fails only when there
    is no free page. *)
Lemma walk_level_ok k pml4 t fl p i v :
  vm_ok k pml4 t fl -> t !! p = Some v -> path_ok (i :: p) -> (length p < 3)%nat ->
  exists r k' t' fl', walk_level (v + 8 * i) true k = Ok r k' /\ vm_ok k' pml4 t' fl' /\
    only_mem k k' /\ vm_same k t fl k' t' fl' /\ (length fl <= length fl' + 1)%nat /\
    (if r =? 0 then fl = [] /\ fl' = [] else t' !! (i :: p) = Some r).
Proof.
  intros Hok Hv Hpi Hlen. pose proof (vo_entry _ _ _ _ Hok p i v Hv Hpi) as He. unfold walk_level.
  erewrite bind_ok; [|reflexivity]. cbn beta.
  destruct (t !! (i :: p)) as [w|] eqn:Hw; cbn [entry_ok] in He.
  - destruct He as [-> ->]. exists w, k, t, fl.
    split_and!; [done|done|apply only_mem_refl|apply vm_same_refl|lia|].
    destruct (vo_page _ _ _ _ Hok _ _ Hw) as (_ & Hp%page_ok_pos & _).
    by rewrite (proj2 (Z.eqb_neq w 0)) by lia.
  - rewrite He. cbn [negb]. destruct (vm_kalloc k pml4 t fl Hok) as (k1 & E1 & Hok1 & Ho1 & Hm1 & Hfr).
    erewrite bind_ok; [|exact E1]. cbn beta.
    assert (Hq1 : forall q, pte k1 t q = pte k t q) by (intros [|]; cbn [pte]; by rewrite ?Hm1).
    destruct fl as [|w fl]; cbn [default head tail] in *.
    { exists 0, k1, t, []. split_and!; try done; [|simpl; lia]. constructor; try done; [by rewrite Hm1|]. intros ? ? _ _. by rewrite Hm1. }
    destruct (vm_zero_page k1 pml4 t fl w Hok1 (Hfr w eq_refl)) as (k2 & E2 & Hok2 & Ho2 & Hfr2 & Hq2 & Hz & Hm2).
    pose proof (page_ok_pos _ _ (proj1 Hfr2)) as Hpos.
    cbn [from_option id]. rewrite (proj2 (Z.eqb_neq w 0)) by lia.
    erewrite bind_ok; [|exact E2]. rewrite table_flags.
    destruct (new_entry _ w 7 (proj1 Hfr2) ltac:(lia)) as (-> & _).
    eexists w, _, (<[i :: p := w]> t), fl. split; [reflexivity|].
    split; [apply (vm_link Hok2 Hv Hpi Hw Hfr2 (fun _ => Hz)); [lia|done]|]. split_and!.
    + eapply only_mem_trans; [exact Ho1|]. eapply only_mem_trans; [exact Ho2|]. by destruct k2.
    + apply (link_table_same k k2 pml4 t fl); try done.
      * intros q Hq. by rewrite Hq2, Hq1.
      * intros a Ha. by rewrite Hm2, Hm1.
    + simpl. lia.
    + rewrite (proj2 (Z.eqb_neq w 0)) by lia. apply lookup_insert_eq.
Qed.

(** ** [walkpgdir] *)
Definition user_page (va : Z) : Prop := 0 <= va < 2 ^ 47 /\ va mod PGSIZE = 0.

Lemma walk_level_find k pml4 t fl p i v :
  vm_ok k pml4 t fl -> t !! p = Some v -> path_ok (i :: p) ->
  walk_level (v + 8 * i) false k = Ok (default 0 (t !! (i :: p))) k.
Proof.
  intros Hok Hv Hpi. pose proof (vo_entry _ _ _ _ Hok p i v Hv Hpi) as He. unfold walk_level.
  erewrite bind_ok; [|reflexivity]. cbn beta.
  destruct (t !! (i :: p)) as [w|]; cbn [entry_ok] in He; [by destruct He as [-> ->]|by rewrite He].
Qed.

Lemma node_nonzero k pml4 t fl p v : vm_ok k pml4 t fl -> t !! p = Some v -> (v =? 0) = false.
Proof.
  intros Hok Hv. destruct (vo_page _ _ _ _ Hok p v Hv) as (_ & Hp%page_ok_pos & _). lia.
Qed.

Lemma node_up_none k pml4 t fl p i : vm_ok k pml4 t fl -> t !! p = None -> t !! (i :: p) = None.
Proof.
  intros Hok Hn. destruct (t !! (i :: p)) eqn:E; [|done].
  destruct (vo_up _ _ _ _ Hok _ _ _ E). congruence.
Qed.

Ltac path_facts va H :=
  let H1 := fresh "Hp3" in let H2 := fresh "Hp2" in let H3 := fresh "Hp1" in
  pose proof (user_path va H) as H1; unfold page_path, table_path in H1;
  pose proof (proj1 (path_ok_tail _ _ H1)) as H2;
  pose proof (proj1 (path_ok_tail _ _ H2)) as H3;
  pose proof (proj1 (path_ok_tail _ _ H3)).

(** Without allocation the walk changes nothing and finds the entry if there is a table. *)
Lemma walkpgdir_find k pml4 t fl va :
  vm_ok k pml4 t fl -> 0 <= va < 2 ^ 47 ->
  walkpgdir pml4 va false k =
    Ok (match t !! table_path va with Some v => v + 8 * PTX va | None => 0 end) k.
Proof.
  intros Hok Hva. path_facts va Hva. unfold walkpgdir, table_path.
  pose proof (vo_root _ _ _ _ Hok) as Hr.
  erewrite bind_ok; [|by eapply walk_level_find]. cbn beta.
  destruct (t !! [PMX va]) as [v1|] eqn:E1; cbn [default from_option id];
    [|by rewrite (node_up_none _ _ _ _ _ _ Hok (node_up_none _ _ _ _ _ _ Hok E1))].
  rewrite (node_nonzero _ _ _ _ _ _ Hok E1).
  erewrite bind_ok; [|by eapply walk_level_find]. cbn beta.
  destruct (t !! [PDPX va; PMX va]) as [v2|] eqn:E2; cbn [default from_option id];
    [|by erewrite (node_up_none _ _ _ _ _ _ Hok)].
  rewrite (node_nonzero _ _ _ _ _ _ Hok E2).
  erewrite bind_ok; [|by eapply walk_level_find]. cbn beta.
  destruct (t !! [PDX va; PDPX va; PMX va]) as [v3|] eqn:E3; cbn [default from_option id]; [|done].
  by rewrite (node_nonzero _ _ _ _ _ _ Hok E3).
Qed.

(** With allocation it makes the missing tables, or fails when there is no free page left;
    either way the user's mappings and pages stay. *)
Lemma walkpgdir_ok k pml4 t fl va :
  vm_ok k pml4 t fl -> 0 <= va < 2 ^ 47 ->
  exists r k' t' fl', walkpgdir pml4 va true k = Ok r k' /\ vm_ok k' pml4 t' fl' /\
    only_mem k k' /\ vm_same k t fl k' t' fl' /\ (length fl <= length fl' + 3)%nat /\
    (if r =? 0 then fl' = [] /\ (length fl <= 2)%nat else exists v, t' !! table_path va = Some v /\ r = v + 8 * PTX va).
Proof.
  intros Hok Hva. path_facts va Hva. unfold walkpgdir, table_path.
  pose proof (vo_root _ _ _ _ Hok) as Hr.
  destruct (walk_level_ok k pml4 t fl [] (PMX va) pml4) as (r1 & k1 & t1 & fl1 & E1 & Hok1 & Ho1 & Hs1 & Hl1 & Hr1);
    [done|done|done|simpl; lia|].
  erewrite bind_ok; [|exact E1]. cbn beta.
  destruct (r1 =? 0) eqn:Z1; [destruct Hr1 as [-> ->]; exists 0, k1, t1, []; simpl in *; split_and!; done || lia|].
  destruct (walk_level_ok k1 pml4 t1 fl1 [PMX va] (PDPX va) r1) as (r2 & k2 & t2 & fl2 & E2 & Hok2 & Ho2 & Hs2 & Hl2 & Hr2);
    [done|done|done|simpl; lia|].
  erewrite bind_ok; [|exact E2]. cbn beta.
  pose proof (vm_same_trans _ _ _ _ _ _ _ _ _ Hs1 Hs2) as Hs12.
  pose proof (only_mem_trans _ _ _ Ho1 Ho2) as Ho12.
  destruct (r2 =? 0) eqn:Z2; [destruct Hr2 as [-> ->]; exists 0, k2, t2, []; simpl in *; split_and!; done || lia|].
  destruct (walk_level_ok k2 pml4 t2 fl2 [PDPX va; PMX va] (PDX va) r2)
    as (r3 & k3 & t3 & fl3 & E3 & Hok3 & Ho3 & Hs3 & Hl3 & Hr3); [done|done|done|simpl; lia|].
  erewrite bind_ok; [|exact E3]. cbn beta.
  pose proof (vm_same_trans _ _ _ _ _ _ _ _ _ Hs12 Hs3) as Hs.
  pose proof (only_mem_trans _ _ _ Ho12 Ho3) as Ho.
  destruct (r3 =? 0) eqn:Z3; [destruct Hr3 as [-> ->]; exists 0, k3, t3, []; simpl in *; split_and!; done || lia|].
  eexists _, k3, t3, fl3. split; [reflexivity|]. split_and!; [done..|lia|].
  destruct (vo_page _ _ _ _ Hok3 _ _ Hr3) as (_ & Hp%page_ok_pos & _).
  destruct (path_ok_tail _ _ Hp3) as (_ & Hi & _).
  rewrite (proj2 (Z.eqb_neq _ 0)) by lia. by exists r3.
Qed.

(** ** [mappages] for one page *)
Lemma PGROUNDDOWN_spec a : PGROUNDDOWN a = a - a mod PGSIZE.
Proof.
  unfold PGROUNDDOWN. change (PGSIZE - 1) with (Z.ones 12). rewrite <- Z.ldiff_land, Z.ldiff_ones_r by lia.
  rewrite Z.shiftl_mul_pow2, Z.shiftr_div_pow2 by lia. change (2 ^ 12) with PGSIZE.
  pose proof (Z.div_mod a PGSIZE ltac:(done)). lia.
Qed.

Lemma mappages_one k pml4 va pa perm : user_page va ->
  mappages pml4 va PGSIZE pa perm k =
    (pte ← walkpgdir pml4 va true;
     if pte =? 0 then mret (-1) else
     v ← load64 pte;
     if has v PTE_P then panic "remap" else
     store64 pte (Z.lor (Z.lor pa perm) PTE_P);;
     mret 0) k.
Proof.
  intros [Hr Hm]. unfold mappages.
  assert (E : PGROUNDDOWN (u64 (va + PGSIZE - 1)) = va).
  { rewrite u64_small by (unfold PGSIZE; lia). rewrite PGROUNDDOWN_spec.
    replace (va + PGSIZE - 1) with (va + (PGSIZE - 1)) by lia.
    rewrite Z.add_mod, Hm, Z.add_0_l, Z.mod_mod by done. change ((PGSIZE - 1) mod PGSIZE) with (PGSIZE - 1). lia. }
  rewrite E, PGROUNDDOWN_spec, Hm, Z.sub_0_r, Z.sub_diag. change (Z.to_nat (0 / PGSIZE + 1)) with 1%nat.
  cbn [mappages_loop]. by rewrite Z.eqb_refl.
Qed.

Lemma lor_range a b : 0 <= a < 4096 -> 0 <= b < 4096 -> 0 <= Z.lor a b < 4096.
Proof.
  intros Ha Hb. assert (0 <= Z.lor a b) by (apply Z.lor_nonneg; lia). split; [done|].
  destruct (Z.eq_dec (Z.lor a b) 0) as [->|]; [lia|]. apply (Z.log2_lt_pow2 _ 12); [lia|].
  rewrite Z.log2_lor by lia. apply Z.max_lub_lt.
  - destruct (Z.eq_dec a 0) as [->|]; [simpl; lia|]. apply Z.log2_lt_pow2; lia.
  - destruct (Z.eq_dec b 0) as [->|]; [simpl; lia|]. apply Z.log2_lt_pow2; lia.
Qed.

(** What changes when only the user pages at the paths [R] do. *)
Record vm_step (R : list Z -> Prop) (k : kst) (t : gmap (list Z) Z) (k' : kst) (t' : gmap (list Z) Z) : Prop := {
  st_mem : only_mem k k';
  st_pages : forall q, length q = 4%nat -> ~ R q -> t' !! q = t !! q;
  st_ptes : forall q, length q = 4%nat -> path_ok q -> ~ R q -> pte k' t' q = pte k t q;
  st_bytes : forall q v a, length q = 4%nat -> ~ R q -> t !! q = Some v ->
    v <= a < v + PGSIZE -> k_mem k' a = k_mem k a;
  st_root : t' !! [] = t !! [];
  st_upper : upper_same t k k'
}.

Lemma vm_step_refl R k t : vm_step R k t k t.
Proof. constructor; [apply only_mem_refl|done..]. Qed.
Lemma vm_step_trans R k t k1 t1 k2 t2 :
  vm_step R k t k1 t1 -> vm_step R k1 t1 k2 t2 -> vm_step R k t k2 t2.
Proof.
  intros [A1 A2 A3 A4 A5 A6] [B1 B2 B3 B4 B5 B6]. constructor.
  - by eapply only_mem_trans.
  - intros q Hq HR. by rewrite B2, A2.
  - intros q Hq Hp HR. by rewrite B3, A3.
  - intros q v a Hq HR Hv Ha. rewrite (B4 q v a), (A4 q v a); try done. by rewrite A2.
  - by rewrite B5, A5.
  - intros v a Hv Ha. rewrite (B6 v a), (A6 v a); try done. by rewrite A5.
Qed.
Lemma vm_step_mono (R R' : list Z -> Prop) k t k' t' :
  (forall q, R q -> R' q) -> vm_step R k t k' t' -> vm_step R' k t k' t'.
Proof.
  intros HR [A1 A2 A3 A4 A5 A6]. constructor; [done|auto|auto| |done..].
  intros q v a Hq HnR. apply A4; [done|]. intros H. by apply HnR, HR.
Qed.

Lemma node_kept k pml4 t fl q v : vm_ok k pml4 t fl -> length q = 4%nat -> t !! q = Some v -> kept t fl v.
Proof.
  intros Hok Hq Hv. destruct (vo_page _ _ _ _ Hok q v Hv) as (_ & (Hm & _) & Hn).
  split_and!; [done..|]. intros p Hp Hpv. rewrite (vo_inj _ _ _ _ Hok p q v Hpv Hv) in Hp. lia.
Qed.
Lemma fresh_kept k t fl w : fresh k t fl w -> kept t fl w.
Proof.
  intros [(Hm & _) Hn]. split_and!; [done| |]; [intros Hin; apply Hn; by left|].
  intros p _ Hp. apply Hn. right. by exists p.
Qed.
Lemma same_step R k pml4 t fl k' t' fl' :
  vm_ok k pml4 t fl -> only_mem k k' -> vm_same k t fl k' t' fl' -> vm_step R k t k' t'.
Proof.
  intros Hok Ho [A1 A2 A3 A4 A5 A6]. constructor; [done|auto|auto| | |done].
  - intros q v a Hq _ Hv Ha. by apply (A4 v (node_kept _ _ _ _ _ _ Hok Hq Hv)).
  - rewrite (vo_root _ _ _ _ Hok). eapply lookup_weaken; [apply Hok|done].
Qed.

Lemma fresh_same k t fl k' t' fl' w :
  only_mem k k' -> (forall x, owned t' fl' x -> owned t fl x) -> fresh k t fl w -> fresh k' t' fl' w.
Proof.
  intros Ho Hx [Hw Hn]. split; [by rewrite (only_mem_end _ _ Ho)|]. intros H. by apply Hn, Hx.
Qed.

(** Linking a user page at a path of length four. *)
Lemma link_page_step k pml4 t fl p i v w f :
  vm_ok k pml4 t fl -> t !! p = Some v -> length p = 3%nat -> path_ok (i :: p) -> t !! (i :: p) = None ->
  fresh k t fl w ->
  vm_step (eq (i :: p)) k t (set_k_mem (store 8 (k_mem k) (v + 8 * i) (V2P w + f)) k) (<[i :: p := w]> t) /\
  forall x a, kept t fl x -> x <= a < x + PGSIZE -> store 8 (k_mem k) (v + 8 * i) (V2P w + f) a = k_mem k a.
Proof.
  intros Hok Hv Hlen Hpi Hn Hw. split.
  - constructor.
    + by destruct k.
    + intros q _ Hne. by apply lookup_insert_ne.
    + intros q Hq Hpq Hne. apply (link_pte_old Hok Hv Hpi Hn Hw); [lia|congruence|done|done].
    + intros q x a Hq Hne Hx Ha. cbn [k_mem set_k_mem]. apply (store_outside Hpi).
      destruct (nodes_disjoint Hok p q v x) as [|]; try done; try lia. intros ->. lia.
    + by apply lookup_insert_ne.
    + intros r a Hr Ha. by apply (store_upper Hok Hv Hpi _ _ r).
  - intros x a (Hx & _ & Hxt) Ha. apply (store_outside Hpi).
    destruct (pages_disjoint x v Hx (node_aligned Hok p v Hv)); [|lia|lia].
    intros ->. apply (Hxt p); [lia|done].
Qed.

(** [mappages] maps the page at [va] to [w], a page outside the address space, or fails
    because no page is left for a table. *)
Lemma mappages_ok k pml4 t fl va w perm :
  vm_ok k pml4 t fl -> user_page va -> t !! page_path va = None -> fresh k t fl w -> 0 <= perm < 4096 ->
  exists r k' t' fl', mappages pml4 va PGSIZE (V2P w) perm k = Ok r k' /\ vm_ok k' pml4 t' fl' /\
    vm_step (eq (page_path va)) k t k' t' /\ (length fl <= length fl' + 3)%nat /\
    (forall x a, kept t fl x -> x <= a < x + PGSIZE -> k_mem k' a = k_mem k a) /\
    (r = -1 /\ (length fl <= 2)%nat /\ vm_same k t fl k' t' fl' \/
     r = 0 /\ t' !! page_path va = Some w /\ pte k' t' (page_path va) = V2P w + Z.lor perm PTE_P /\
     forall x, owned t' fl' x <-> owned t fl x \/ x = w).
Proof.
  intros Hok Hva Hn Hw Hperm. rewrite mappages_one by done. destruct Hva as [Hva Hal].
  destruct (walkpgdir_ok k pml4 t fl va Hok Hva) as (r & k1 & t1 & fl1 & E1 & Hok1 & Ho1 & Hs1 & Hl1 & Hr).
  assert (Hb1 : forall x a, kept t fl x -> x <= a < x + PGSIZE -> k_mem k1 a = k_mem k a)
    by (intros x a Hx; apply (vs_kept _ _ _ _ _ _ Hs1 x Hx)).
  pose proof (same_step (eq (page_path va)) _ _ _ _ _ _ _ Hok Ho1 Hs1) as Hst1.
  erewrite bind_ok; [|exact E1]. cbn beta. destruct (r =? 0).
  { exists (-1), k1, t1, fl1. destruct Hr as [-> Hr]. by split_and!; [..|left]. }
  destruct Hr as (v & Hv & ->). pose proof (user_path va Hva) as Hp. unfold page_path in Hp, Hn.
  assert (Hn1 : t1 !! page_path va = None) by (by rewrite (vs_pages _ _ _ _ _ _ Hs1)).
  pose proof (vo_entry _ _ _ _ Hok1 _ _ _ Hv Hp) as He. unfold page_path in Hn1. rewrite Hn1 in He.
  erewrite bind_ok; [|reflexivity]. cbn beta. cbn [entry_ok] in He. rewrite He.
  assert (Hw1 : fresh k1 t1 fl1 w).
  { apply (fresh_same _ _ _ _ _ _ _ Ho1 (fun x => proj1 (vs_owned _ _ _ _ _ _ Hs1 x)) Hw). }
  assert (Hf : 0 <= Z.lor perm PTE_P < 4096) by (apply lor_range; [done|unfold PTE_P; lia]).
  rewrite <- Z.lor_assoc. destruct (new_entry _ w _ (proj1 Hw1) Hf) as (-> & _).
  assert (HP : has (Z.lor perm PTE_P) PTE_P = true).
  { unfold has, PTE_P. rewrite Z.land_lor_distr_l. apply negb_true_iff, Z.eqb_neq.
    by intros [_ ?]%Z.lor_eq_0_iff. }
  assert (Hz : (length (table_path va) < 3)%nat -> forall a, w <= a < w + PGSIZE -> k_mem k1 a = 0)
    by (cbn; lia).
  destruct (link_page_step k1 pml4 t1 fl1 _ _ v w (Z.lor perm PTE_P) Hok1 Hv eq_refl Hp Hn1 Hw1) as [Hst Hb].
  eexists 0, _, (<[page_path va := w]> t1), fl1. split; [reflexivity|].
  split; [by apply (vm_link Hok1 Hv Hp Hn1 Hw1 Hz)|]. split_and!.
  - by eapply vm_step_trans.
  - done.
  - intros x a Hx Ha. cbn [k_mem set_k_mem].
    rewrite (Hb x), (Hb1 x); [done|done|done|by apply (vs_kept _ _ _ _ _ _ Hs1)|done].
  - right. split_and!; [done|apply lookup_insert_eq|by apply (link_pte_new Hv Hw1)|].
    intros x. rewrite <- (vs_owned _ _ _ _ _ _ Hs1 x). unfold owned. setoid_rewrite lookup_insert_Some.
    split.
    + intros [Hx|(p & [(_ & <-)|(_ & Hx)])]; [left; by left|by right|left; right; by exists p].
    + intros [[Hx|(p & Hx)]| ->]; [by left| |right; exists (page_path va); by left].
      right. exists p. right. split; [|done]. unfold page_path. congruence.
Qed.

(** ** Unmapping *)
Section Unlink.
Context {k : kst} {pml4 : Z} {t : gmap (list Z) Z} {fl : list Z} (Hok : vm_ok k pml4 t fl).
Context {p : list Z} {i v w : Z} (Hv : t !! p = Some v) (Hpi : path_ok (i :: p)) (Hlen : length p = 3%nat).
Context (Hw : t !! (i :: p) = Some w).
Let m1 : mem := freed (k_mem k) w (km_freelist (k_kmem k)).
Let k1 : kst := set_k_kmem (set_km_freelist w (k_kmem k)) (set_k_mem m1 k).
Let k' : kst := set_k_mem (store 8 m1 (v + 8 * i) 0) k1.

Lemma unlink_pages : w ∉ fl /\ w <> v /\ page_ok (k_end k) w /\ v ∉ w :: fl.
Proof using Hok Hv Hpi Hlen Hw.
  destruct (vo_page _ _ _ _ Hok _ _ Hw) as (_ & Hp & Hn). destruct (vo_page _ _ _ _ Hok _ _ Hv) as (_ & _ & Hn').
  assert (w <> v).
  { intros ->. by apply (cons_ne i p), (vo_inj _ _ _ _ Hok _ _ v). }
  split_and!; [done..|]. apply not_elem_of_cons. split; congruence.
Qed.

Lemma unlink_kfree : kfree w k = Ok tt k1.
Proof using Hok Hv Hpi Hlen Hw. apply (kfree_eq k fl); [apply Hok|apply unlink_pages]. Qed.

(** Other pages of the tree keep their contents, except for the changed entry. *)
Lemma unlink_bytes q x a : t !! q = Some x -> q <> i :: p -> x <= a < x + PGSIZE ->
  ~ (v + 8 * i <= a < v + 8 * i + 8) -> k_mem k' a = k_mem k a.
Proof using Hok Hv Hpi Hlen Hw.
  intros Hx Hne Ha Hout. change (k_mem k' a) with (store 8 m1 (v + 8 * i) 0 a).
  rewrite store_old by (change (Z.of_nat 8) with 8; lia). apply freed_other.
  destruct (nodes_disjoint Hok q (i :: p) x w Hx Hw Hne); lia.
Qed.

Lemma unlink_load q j x : t !! q = Some x -> path_ok (j :: q) -> q <> i :: p -> j :: q <> i :: p ->
  load 8 (k_mem k') (x + 8 * j) = load 8 (k_mem k) (x + 8 * j).
Proof using Hok Hv Hpi Hlen Hw.
  intros Hx Hqj Hq Hne. destruct (path_ok_tail _ _ Hpi) as (_ & Hi & _).
  destruct (path_ok_tail _ _ Hqj) as (_ & Hj & _). apply load_ext. intros a Ha.
  change (Z.of_nat 8) with 8 in Ha. apply (unlink_bytes q x); [done|done|unfold PGSIZE; lia|].
  destruct (decide (q = p)) as [->|Hqp].
  - rewrite Hv in Hx. injection Hx as <-. assert (i <> j) by congruence. lia.
  - destruct (nodes_disjoint Hok q p x v Hx Hv Hqp); unfold PGSIZE in *; lia.
Qed.

Lemma vm_unlink : vm_ok k' pml4 (delete (i :: p) t) (w :: fl).
Proof using Hok Hv Hpi Hlen Hw.
  destruct unlink_pages as (Hwf & Hwv & Hwp & Hvn). constructor.
  - apply (store_free_list Hok Hv Hpi); [|done]. apply free_pages_kfree; [apply Hok|done..].
  - apply Hok.
  - rewrite lookup_delete_ne by done. apply Hok.
  - intros q x [Hne Hx]%lookup_delete_Some. destruct (vo_page _ _ _ _ Hok _ _ Hx) as (H1 & H2 & H3).
    split_and!; [done..|]. apply not_elem_of_cons. split; [|done]. intros ->.
    by apply Hne, (vo_inj _ _ _ _ Hok _ _ w).
  - intros q r x [_ H1]%lookup_delete_Some [_ H2]%lookup_delete_Some. by apply (vo_inj _ _ _ _ Hok q r x).
  - intros q j x [_ Hx]%lookup_delete_Some. rewrite lookup_delete_ne; [by apply (vo_up _ _ _ _ Hok _ _ _ Hx)|].
    intros <-. destruct (vo_page _ _ _ _ Hok _ _ Hx) as ((H1 & _) & _). cbn [length] in H1. lia.
  - intros q j x [Hq Hx]%lookup_delete_Some Hqj.
    destruct (decide (j :: q = i :: p)) as [[= -> ->]|Hne].
    + rewrite Hv in Hx. injection Hx as <-. rewrite lookup_delete_eq. cbn [entry_ok].
      change (k_mem k') with (store 8 m1 (v + 8 * i) 0). by rewrite load_store_same.
    + rewrite lookup_delete_ne by done. rewrite (unlink_load q j x) by done.
      by apply (vo_entry _ _ _ _ Hok).
Qed.

Lemma unlink_step : vm_step (eq (i :: p)) k t k' (delete (i :: p) t).
Proof using Hok Hv Hpi Hlen Hw.
  constructor.
  - by destruct k.
  - intros q _ Hne. by apply lookup_delete_ne.
  - intros [|j q] Hq Hqp Hne; [done|]. cbn [pte length] in *.
    rewrite lookup_delete_ne by (intros <-; cbn [length] in Hq; lia).
    destruct (t !! q) as [x|] eqn:Hx; [|done]. apply (unlink_load q); try done. intros ->. cbn [length] in Hq. lia.
  - intros q x a Hq Hne Hx Ha. apply (unlink_bytes q x); try done.
    destruct (path_ok_tail _ _ Hpi) as (_ & Hi & _).
    destruct (nodes_disjoint Hok q p x v Hx Hv); [intros ->; lia|unfold PGSIZE in *; lia..].
  - by apply lookup_delete_ne.
  - intros r a Hr Ha. change (k_mem k' a) with (store 8 m1 (v + 8 * i) 0 a).
    rewrite (store_upper Hok Hv Hpi _ _ r) by done. apply freed_other.
    destruct (nodes_disjoint Hok [] (i :: p) r w Hr Hw); [done|lia..].
Qed.

Lemma unlink_spares : spares t fl k k'.
Proof using Hok Hv Hpi Hlen Hw.
  intros x a Hx Hn Ha. change (k_mem k' a) with (store 8 m1 (v + 8 * i) 0 a).
  destruct (path_ok_tail _ _ Hpi) as (_ & Hi & _).
  destruct (pages_disjoint x v Hx (node_aligned Hok p v Hv)) as [Hv1|Hv1];
    [intros ->; apply Hn; right; by exists p| |].
  all: rewrite store_old by (change (Z.of_nat 8) with 8; unfold PGSIZE in *; lia); apply freed_other.
  all: destruct (pages_disjoint x w Hx (node_aligned Hok _ w Hw)); [|lia..].
  all: intros ->; apply Hn; right; by exists (i :: p).
Qed.

Lemma unlink_owned x : owned (delete (i :: p) t) (w :: fl) x <-> owned t fl x.
Proof using Hok Hv Hpi Hlen Hw.
  unfold owned. setoid_rewrite elem_of_cons. setoid_rewrite lookup_delete_Some. split.
  - intros [[->|Hx]|(q & _ & Hx)]; [right; by exists (i :: p)|by left|right; by exists q].
  - intros [Hx|(q & Hx)]; [left; by right|]. destruct (decide (i :: p = q)) as [<-|Hne].
    + left. left. congruence.
    + right. by exists q.
Qed.
End Unlink.

(** The user pages from [lo] to [hi]. *)
Definition in_range (lo hi : Z) (q : list Z) : Prop :=
  exists va, user_page va /\ lo <= va < hi /\ q = page_path va.

Lemma user_page_inj a b : user_page a -> user_page b -> page_path a = page_path b -> a = b.
Proof.
  intros [Ha Hma] [Hb Hmb] E. apply page_path_inj in E; [|done..]. unfold PGSIZE in *.
  pose proof (Z.div_mod a 4096 ltac:(lia)). pose proof (Z.div_mod b 4096 ltac:(lia)). lia.
Qed.

(** [a] is a page boundary at or below the end of user memory. *)
Definition boundary (a : Z) : Prop := 0 <= a <= 2 ^ 47 /\ a mod PGSIZE = 0.

Lemma boundary_page a hi : boundary a -> a < hi -> hi <= 2 ^ 47 -> user_page a /\ boundary (a + PGSIZE).
Proof.
  intros [Ha Hm] H1 H2. split; [split; [lia|done]|]. split.
  - unfold PGSIZE in *. assert (E : (2 ^ 47 - a) mod 4096 = 0) by (rewrite Zminus_mod, Hm; done).
    pose proof (Z.div_mod (2 ^ 47 - a) 4096 ltac:(lia)). lia.
  - rewrite Z.add_mod, Hm by done. done.
Qed.

Lemma range_later a hi va : boundary a -> user_page va -> va < a -> ~ in_range a hi (page_path va).
Proof.
  intros Ha Hva Hlt (vb & Hvb & Hr & E). apply user_page_inj in E; [lia|done..].
Qed.

(** One round of [deallocuvm]. *)
Lemma dealloc_round k pml4 t fl a :
  vm_ok k pml4 t fl -> user_page a ->
  exists k' t' fl', (pte ← walkpgdir pml4 a false;
      if pte =? 0 then mret tt
      else
        v ← load64 pte;
        if negb (has v PTE_P) then mret tt
        else
          let pa := PTE_ADDR v in
          if pa =? 0 then panic "kfree" else
          kfree (P2V pa);;
          store64 pte 0) k = Ok tt k' /\ vm_ok k' pml4 t' fl' /\
    vm_step (eq (page_path a)) k t k' t' /\ t' !! page_path a = None /\
    (forall x, owned t' fl' x <-> owned t fl x) /\ spares t fl k k'.
Proof.
  intros Hok Hua. destruct Hua as [Ha Hm]. erewrite bind_ok; [|by apply (walkpgdir_find k pml4 t fl)]. cbn beta.
  pose proof (user_path a Ha) as Hp.
  destruct (t !! table_path a) as [v|] eqn:Hv.
  2: { exists k, t, fl. split_and!; try done; [apply vm_step_refl|]. by apply (node_up_none k pml4 t fl). }
  destruct (path_ok_tail _ _ Hp) as (_ & Hi & _).
  destruct (vo_page _ _ _ _ Hok _ _ Hv) as (_ & Hpos%page_ok_pos & _).
  rewrite (proj2 (Z.eqb_neq _ 0)) by lia. erewrite bind_ok; [|reflexivity]. cbn beta.
  pose proof (vo_entry _ _ _ _ Hok _ _ _ Hv Hp) as He. fold (page_path a) in He.
  destruct (t !! page_path a) as [w|] eqn:Hw; cbn [entry_ok] in He.
  - destruct He as [-> Ew]. cbn [negb]. cbv zeta.
    destruct (vo_page _ _ _ _ Hok _ _ Hw) as (_ & (_ & Hge & _) & _). pose proof (vo_end _ _ _ _ Hok) as Hend.
    rewrite (proj2 (Z.eqb_neq _ 0)) by (intros E; rewrite E in Ew; change (P2V 0) with KERNBASE in Ew; lia).
    rewrite Ew. erewrite bind_ok; [|exact (unlink_kfree Hok Hv Hp eq_refl Hw)].
    eexists _, _, (w :: fl). split; [reflexivity|].
    split; [exact (vm_unlink Hok Hv Hp eq_refl Hw)|]. split_and!.
    + exact (unlink_step Hok Hv Hp eq_refl Hw).
    + apply lookup_delete_eq.
    + exact (unlink_owned Hok Hv Hp eq_refl Hw).
    + exact (unlink_spares Hok Hv Hp eq_refl Hw).
  - rewrite He. exists k, t, fl. split_and!; try done. apply vm_step_refl.
Qed.

Lemma bind_bind_ok {S A B C} (m : M S A) (f : A -> M S B) (g : B -> M S C) s b s' :
  (x ← m; f x) s = Ok b s' -> (x ← m; y ← f x; g y) s = g b s'.
Proof.
  unfold mbind, M_bind. destruct (m s) as [a s1|s1|e]; [|done..]. by intros ->.
Qed.

Lemma deallocuvm_loop_ok fuel k pml4 t fl a hi :
  vm_ok k pml4 t fl -> boundary a -> hi <= 2 ^ 47 -> hi - a <= PGSIZE * (Z.of_nat fuel - 1) ->
  (fuel <> 0)%nat ->
  exists k' t' fl', deallocuvm_loop fuel pml4 a hi k = Ok tt k' /\ vm_ok k' pml4 t' fl' /\
    vm_step (in_range a hi) k t k' t' /\
    (forall va, user_page va -> a <= va < hi -> t' !! page_path va = None) /\
    (forall x, owned t' fl' x <-> owned t fl x) /\ spares t fl k k'.
Proof.
  revert k t fl a. induction fuel as [|fuel IH]; intros k t fl a Hok Ha Hhi Hfuel Hnz; [done|].
  cbn [deallocuvm_loop]. destruct (Z.ltb_spec a hi) as [Hlt|Hge].
  2: { exists k, t, fl. split_and!; try done; [apply vm_step_refl|]. intros; lia. }
  destruct (boundary_page a hi Ha Hlt Hhi) as [Hua Hnext].
  destruct (dealloc_round k pml4 t fl a Hok Hua) as (k1 & t1 & fl1 & E1 & Hok1 & Hst1 & Hn1 & How1 & Hsp1).
  rewrite (bind_bind_ok _ _ _ _ _ _ E1).
  destruct (IH k1 t1 fl1 (a + PGSIZE)) as (k2 & t2 & fl2 & E2 & Hok2 & Hst2 & Hn2 & How2 & Hsp2);
    [done|done|done|unfold PGSIZE in *; lia|unfold PGSIZE in *; lia|].
  exists k2, t2, fl2. split_and!; [done|done| | | |].
  - eapply vm_step_trans.
    + eapply vm_step_mono; [|exact Hst1]. intros q <-. by exists a.
    + eapply vm_step_mono; [|exact Hst2]. intros q (va & Hva & Hr & ->). exists va.
      split_and!; [done|unfold PGSIZE in *; lia|lia|done].
  - intros va Hva Hr. destruct (decide (va = a)) as [->|Hne].
    + rewrite (st_pages _ _ _ _ _ Hst2); [done|done|]. apply range_later; [done|done|unfold PGSIZE; lia].
    + apply Hn2; [done|]. destruct Hva as [_ Hm]. destruct Ha as [_ Hma].
      destruct (pages_disjoint va a Hm Hma Hne); lia.
  - intros x. by rewrite How2.
  - apply (spares_trans t fl t1 fl1 k k1 k2); [intros x; apply How1|done..].
Qed.

Lemma PGROUNDUP_spec sz : 0 <= sz <= 2 ^ 47 -> boundary (PGROUNDUP sz) /\ sz <= PGROUNDUP sz < sz + PGSIZE.
Proof.
  intros Hsz. change (PGROUNDUP sz) with (PGROUNDDOWN (u64 (sz + (PGSIZE - 1)))).
  rewrite u64_small by (unfold PGSIZE; lia). rewrite PGROUNDDOWN_spec. unfold boundary, PGSIZE.
  Z.div_mod_to_equations. lia.
Qed.

(** [deallocuvm] unmaps the pages above the new size, frees them, and changes no other. *)
Lemma deallocuvm_ok k pml4 t fl oldsz newsz :
  vm_ok k pml4 t fl -> 0 <= newsz < oldsz -> oldsz <= 2 ^ 47 ->
  exists k' t' fl', deallocuvm pml4 oldsz newsz k = Ok newsz k' /\ vm_ok k' pml4 t' fl' /\
    vm_step (in_range (PGROUNDUP newsz) oldsz) k t k' t' /\
    (forall va, user_page va -> PGROUNDUP newsz <= va < oldsz -> t' !! page_path va = None) /\
    (forall x, owned t' fl' x <-> owned t fl x) /\ spares t fl k k'.
Proof.
  intros Hok Hn Ho. unfold deallocuvm. replace (newsz >=? oldsz) with false by lia.
  destruct (PGROUNDUP_spec newsz ltac:(lia)) as [Hb Hr].
  destruct (deallocuvm_loop_ok (vm_fuel (PGROUNDUP newsz) oldsz) k pml4 t fl (PGROUNDUP newsz) oldsz)
    as (k' & t' & fl' & E & H); [done|done|done| | |].
  - unfold vm_fuel, PGSIZE in *. Z.div_mod_to_equations. lia.
  - unfold vm_fuel, PGSIZE in *. Z.div_mod_to_equations. lia.
  - exists k', t', fl'. split; [|done]. by erewrite bind_ok.
Qed.

(** ** [allocuvm] *)

(** Freeing a page outside the address space. *)
Lemma vm_kfree k pml4 t fl w : vm_ok k pml4 t fl -> fresh k t fl w ->
  exists k', kfree w k = Ok tt k' /\ vm_ok k' pml4 t (w :: fl) /\ vm_step (fun _ => False) k t k' t /\
    spares t (w :: fl) k k'.
Proof.
  intros Hok Hw. destruct Hw as [Hw Hn]. pose proof (vo_free _ _ _ _ Hok) as Hf.
  assert (Hnl : w ∉ fl) by (intros ?; apply Hn; by left).
  assert (Hm : forall p v a, t !! p = Some v -> v <= a < v + PGSIZE ->
    freed (k_mem k) w (km_freelist (k_kmem k)) a = k_mem k a).
  { intros p v a Hv Ha. apply freed_other. destruct (fresh_disjoint Hok p v w Hv (conj Hw Hn)); lia. }
  eexists. split; [by apply (kfree_eq k fl)|]. split_and!.
  - apply (vm_ok_ext Hok); [by destruct k|by apply free_pages_kfree| |].
    + intros p v Hv. destruct (vo_page _ _ _ _ Hok _ _ Hv) as (_ & _ & Hv').
      apply not_elem_of_cons. split; [|done]. intros ->. apply Hn. right. by exists p.
    + intros p v a _ Hv Ha. by apply (Hm p v).
  - constructor; [by destruct k|done| | |done|].
    + intros q _ Hq _. apply (pte_ext Hok); [|done]. intros p v a Hv _ Ha. by apply (Hm p v).
    + intros q v a _ _ Hv Ha. by apply (Hm q v).
    + intros v a Hv Ha. apply (Hm [] v); [done|lia].
  - intros x a Hx Hnx Ha. apply freed_other.
    destruct (pages_disjoint x w Hx (proj1 Hw)); [|lia..]. intros ->. apply Hnx. left. by left.
Qed.

Definition UPERM : Z := Z.lor PTE_W PTE_U.

(** Getting a page, clearing it and mapping it at [a]; [m3] is [mappages]' result. *)
Lemma alloc_round k pml4 t w fl a :
  vm_ok k pml4 t (w :: fl) -> user_page a -> t !! page_path a = None ->
  exists k1 k2 m3 k3 t3 fl3, kalloc k = Ok w k1 /\ zero_page w k1 = Ok tt k2 /\ 0 < w /\
    mappages pml4 a PGSIZE (V2P w) UPERM k2 = Ok m3 k3 /\ vm_ok k3 pml4 t3 fl3 /\
    vm_step (eq (page_path a)) k t k3 t3 /\ (length fl <= length fl3 + 3)%nat /\
    spares t (w :: fl) k k3 /\
    (m3 = -1 /\ (length fl <= 2)%nat /\ fresh k3 t3 fl3 w /\ t3 !! page_path a = None /\
       (forall x, owned t3 fl3 x \/ x = w <-> owned t (w :: fl) x) \/
     m3 = 0 /\ t3 !! page_path a = Some w /\ pte k3 t3 (page_path a) = V2P w + 7 /\
       (forall x, w <= x < w + PGSIZE -> k_mem k3 x = 0) /\
       forall x, owned t3 fl3 x <-> owned t (w :: fl) x).
Proof.
  intros Hok Ha Hn. destruct (vm_kalloc k pml4 t (w :: fl) Hok) as (k1 & E1 & Hok1 & Ho1 & Hm1 & Hfr).
  cbn [head tail default from_option id] in *. pose proof (Hfr w eq_refl) as Hw1.
  destruct (vm_zero_page k1 pml4 t fl w Hok1 Hw1) as (k2 & E2 & Hok2 & Ho2 & Hw2 & Hq2 & Hz & Hm2).
  destruct (mappages_ok k2 pml4 t fl a w UPERM Hok2 Ha Hn Hw2 ltac:(done))
    as (m3 & k3 & t3 & fl3 & E3 & Hok3 & Hst3 & Hl3 & Hb3 & H3).
  assert (Hst : vm_step (eq (page_path a)) k t k3 t3).
  { eapply vm_step_trans; [|exact Hst3]. constructor.
    - by eapply only_mem_trans.
    - done.
    - intros q _ Hq _. rewrite Hq2 by done. destruct q; cbn [pte]; by rewrite ?Hm1.
    - intros q v x _ _ Hv Hx. rewrite Hm2, Hm1; [done|].
      destruct (fresh_disjoint Hok1 q v w Hv Hw1); lia.
    - done.
    - intros v x Hv Hx. rewrite Hm2, Hm1; [done|]. destruct (fresh_disjoint Hok1 [] v w Hv Hw1); lia. }
  pose proof (page_ok_pos _ _ (proj1 Hw1)) as Hpos.
  exists k1, k2, m3, k3, t3, fl3. split_and!; try done; [lia| |].
  { apply (spares_trans _ _ t fl _ k2); [intros x; rewrite owned_cons; by left| |by apply spares_kept].
    intros x y Hx Hnx Hy. rewrite Hm2, Hm1; [done|].
    destruct (pages_disjoint x w Hx (proj1 (proj1 Hw1))); [|lia..]. intros ->. apply Hnx. left. by left. }
  destruct H3 as [(-> & Hl & Hs3)|(-> & Ht & Hp & Ho3)]; [left|right].
  - split_and!; [done..| | |].
    + eapply fresh_same; [apply Hst3|apply (vs_owned _ _ _ _ _ _ Hs3)|done].
    + by rewrite (vs_pages _ _ _ _ _ _ Hs3).
    + intros x. by rewrite (vs_owned _ _ _ _ _ _ Hs3 x), owned_cons.
  - split_and!; [done..| |].
    + intros x Hx. rewrite (Hb3 w), Hz; [done|done|by eapply fresh_kept|done].
    + intros x. by rewrite Ho3, owned_cons.
Qed.

(** The number of pages that it takes to get from the boundary [a] to [hi]. *)
Definition npages (a hi : Z) : Z := (hi - a + (PGSIZE - 1)) / PGSIZE.

(** The pages from [lo] to [hi] are mapped, writable for the user, and zero. *)
Definition zero_mapped (k : kst) (t : gmap (list Z) Z) (lo hi : Z) : Prop :=
  forall va, user_page va -> lo <= va < hi ->
    exists w, t !! page_path va = Some w /\ pte k t (page_path va) = V2P w + 7 /\
      forall x, w <= x < w + PGSIZE -> k_mem k x = 0.

Definition unmapped (t : gmap (list Z) Z) (lo hi : Z) : Prop :=
  forall va, user_page va -> lo <= va < hi -> t !! page_path va = None.

Lemma range_mono lo lo' hi q : lo' <= lo -> in_range lo hi q -> in_range lo' hi q.
Proof. intros H (va & Hva & Hr & ->). exists va. split_and!; [done|lia|lia|done]. Qed.

(** After a failure [deallocuvm] takes back what the call had mapped. *)
Lemma alloc_undo k0 t0 k pml4 t fl oldsz newsz a :
  vm_ok k pml4 t fl -> 0 <= oldsz <= newsz -> newsz <= 2 ^ 47 -> PGROUNDUP oldsz <= a < newsz ->
  vm_step (in_range a newsz) k0 t0 k t ->
  exists k' t' fl', deallocuvm pml4 newsz oldsz k = Ok oldsz k' /\ vm_ok k' pml4 t' fl' /\
    vm_step (in_range (PGROUNDUP oldsz) newsz) k0 t0 k' t' /\ only_mem k k' /\
    unmapped t' (PGROUNDUP oldsz) newsz /\ (forall x, owned t' fl' x <-> owned t fl x) /\ spares t fl k k'.
Proof.
  intros Hok Ho Hn Ha Hst. destruct (PGROUNDUP_spec oldsz ltac:(lia)) as [_ Hr].
  destruct (deallocuvm_ok k pml4 t fl newsz oldsz Hok ltac:(lia) Hn)
    as (k' & t' & fl' & E & Hok' & Hst' & Hun & How & Hsp).
  exists k', t', fl'. split_and!; try done; [|apply Hst'].
  eapply vm_step_trans; [|exact Hst']. eapply vm_step_mono; [|exact Hst].
  intros q. apply range_mono. lia.
Qed.

Lemma alloc_no_page k pml4 t oldsz newsz a :
  vm_ok k pml4 t [] -> 0 <= oldsz <= newsz -> newsz <= 2 ^ 47 -> PGROUNDUP oldsz <= a < newsz ->
  exists k1 k' t' fl', kalloc k = Ok 0 k1 /\ deallocuvm pml4 newsz oldsz k1 = Ok oldsz k' /\
    vm_ok k' pml4 t' fl' /\ (forall x, owned t' fl' x <-> owned t [] x) /\
    vm_step (in_range (PGROUNDUP oldsz) newsz) k t k' t' /\ unmapped t' (PGROUNDUP oldsz) newsz /\
    spares t [] k k'.
Proof.
  intros Hok Ho Hn Ha. destruct (vm_kalloc k pml4 t [] Hok) as (k1 & E1 & Hok1 & Ho1 & Hm1 & _).
  destruct (alloc_undo k t k1 pml4 t [] oldsz newsz a) as (k2 & t2 & fl2 & E2 & Hok2 & Hst2 & _ & Hun2 & How2 & Hsp2);
    [done|done|done|done| |].
  2: { exists k1, k2, t2, fl2. split_and!; try done. intros x y Hx Hnx Hy. by rewrite (Hsp2 x y), Hm1. }
  constructor; [done|done|intros [|]; cbn [pte]; by rewrite ?Hm1|by rewrite Hm1|done|intros ? ? _ _; by rewrite Hm1].
Qed.

Lemma alloc_no_table k pml4 t w fl oldsz newsz a k0 t0 :
  vm_ok k pml4 t fl -> fresh k t fl w -> 0 <= oldsz <= newsz -> newsz <= 2 ^ 47 ->
  PGROUNDUP oldsz <= a < newsz -> vm_step (in_range a newsz) k0 t0 k t ->
  exists k1 k' t' fl', deallocuvm pml4 newsz oldsz k = Ok oldsz k1 /\ kfree w k1 = Ok tt k' /\
    vm_ok k' pml4 t' fl' /\ (forall x, owned t' fl' x <-> owned t fl x \/ x = w) /\
    vm_step (in_range (PGROUNDUP oldsz) newsz) k0 t0 k' t' /\ unmapped t' (PGROUNDUP oldsz) newsz /\
    spares t (w :: fl) k k'.
Proof.
  intros Hok Hfr Ho Hn Ha Hst.
  destruct (alloc_undo k0 t0 k pml4 t fl oldsz newsz a) as (k4 & t4 & fl4 & E4 & Hok4 & Hst4 & Ho4 & Hun4 & How4 & Hsp4);
    [done..|].
  assert (Hfr4 : fresh k4 t4 fl4 w) by (eapply fresh_same; [done|apply How4|done]).
  destruct (vm_kfree k4 pml4 t4 fl4 w Hok4 Hfr4) as (k5 & E5 & Hok5 & Hst5 & Hsp5).
  exists k4, k5, t4, (w :: fl4). split_and!; try done.
  - intros x. by rewrite <- How4, owned_cons.
  - eapply vm_step_trans; [exact Hst4|]. by eapply vm_step_mono; [|exact Hst5].
  - apply (spares_trans _ _ t4 (w :: fl4) _ k4); [intros x; by rewrite !owned_cons, How4| |done].
    intros x y Hx Hnx. apply Hsp4; [done|]. intros H. apply Hnx. apply owned_cons. by left.
Qed.

(** The page at [a] stays while the later ones are mapped. *)
Lemma zero_mapped_next k t k' t' a hi w :
  user_page a -> boundary (a + PGSIZE) -> t !! page_path a = Some w -> pte k t (page_path a) = V2P w + 7 ->
  (forall x, w <= x < w + PGSIZE -> k_mem k x = 0) -> vm_step (in_range (a + PGSIZE) hi) k t k' t' ->
  zero_mapped k' t' (a + PGSIZE) hi -> zero_mapped k' t' a hi.
Proof.
  intros Ha Hb Ht Hp Hz Hst Hrest va Hva Hr. destruct (decide (va = a)) as [->|Hne].
  - assert (HnR : ~ in_range (a + PGSIZE) hi (page_path a))
      by (apply range_later; [done|done|unfold PGSIZE; lia]).
    exists w. rewrite (st_pages _ _ _ _ _ Hst), (st_ptes _ _ _ _ _ Hst) by (done || by apply user_path, Hva).
    split_and!; [done..|]. intros x Hx. rewrite (st_bytes _ _ _ _ _ Hst (page_path a) w); auto.
  - apply Hrest; [done|]. destruct (pages_disjoint va a (proj2 Hva) (proj2 Ha) Hne); lia.
Qed.

Lemma allocuvm_loop_ok fuel k pml4 t fl a oldsz newsz :
  vm_ok k pml4 t fl -> 0 <= oldsz <= newsz -> newsz <= 2 ^ 47 -> boundary a -> PGROUNDUP oldsz <= a ->
  a < newsz + PGSIZE ->
  unmapped t a newsz -> newsz - a <= PGSIZE * (Z.of_nat fuel - 1) -> (fuel <> 0)%nat ->
  exists r k' t' fl', allocuvm_loop fuel pml4 a oldsz newsz k = Ok r k' /\ vm_ok k' pml4 t' fl' /\
    (forall x, owned t' fl' x <-> owned t fl x) /\ spares t fl k k' /\
    (r = newsz /\ vm_step (in_range a newsz) k t k' t' /\ zero_mapped k' t' a newsz /\
       Z.of_nat (length fl) <= Z.of_nat (length fl') + 4 * npages a newsz \/
     r = 0 /\ vm_step (in_range (PGROUNDUP oldsz) newsz) k t k' t' /\
       unmapped t' (PGROUNDUP oldsz) newsz /\ Z.of_nat (length fl) < 4 * npages a newsz).
Proof.
  revert k t fl a. induction fuel as [|fuel IH]; intros k t fl a Hok Ho Hn Ha Hlo Hah Hun Hfuel Hnz; [done|].
  cbn [allocuvm_loop]. destruct (Z.ltb_spec a newsz) as [Hlt|Hge].
  2: { exists newsz, k, t, fl. split_and!; try done. left. split_and!; [done|apply vm_step_refl| |].
       - intros va _ Hr. lia.
       - assert (0 <= npages a newsz) by (apply Z.div_pos; unfold PGSIZE in *; lia). lia. }
  destruct (boundary_page a newsz Ha Hlt Hn) as [Hua Hnext]. assert (Hn1 : 1 <= npages a newsz).
  { unfold npages, PGSIZE in *. apply Z.div_le_lower_bound; lia. }
  destruct fl as [|w fl].
  { destruct (alloc_no_page k pml4 t oldsz newsz a) as (k1 & k2 & t2 & fl2 & E1 & E2 & Hok2 & How2 & Hst2 & Hun2 & Hsp2);
      [done|done|done|lia|].
    erewrite bind_ok; [|exact E1]. change (0 =? 0) with true. cbn beta iota. exists 0, k2, t2, fl2. split; [by erewrite bind_ok|].
    split_and!; [done..|]. right. split_and!; try done. cbn [length]. lia. }
  destruct (alloc_round k pml4 t w fl a Hok Hua (Hun a Hua ltac:(lia)))
    as (k1 & k2 & m3 & k3 & t3 & fl3 & E1 & E2 & Hw & E3 & Hok3 & Hst3 & Hl3 & Hsp3 & H3).
  erewrite bind_ok; [|exact E1]. cbn beta. rewrite (proj2 (Z.eqb_neq w 0)) by lia.
  erewrite bind_ok; [|exact E2]. erewrite bind_ok; [|exact E3]. cbn beta.
  assert (Hst3' : vm_step (in_range a newsz) k t k3 t3)
    by (eapply vm_step_mono; [|exact Hst3]; intros q <-; by exists a).
  destruct H3 as [(-> & Hl & Hfr & _ & How3)|(-> & Ht3 & Hp3 & Hz3 & How3)].
  - destruct (alloc_no_table k3 pml4 t3 w fl3 oldsz newsz a k t)
      as (k4 & k5 & t4 & fl4 & E4 & E5 & Hok4 & How4 & Hst4 & Hun4 & Hsp4); [done..|lia|done|].
    change (-1 <? 0) with true. cbv iota. exists 0, k5, t4, fl4.
    split; [erewrite bind_ok; [|exact E4]; by erewrite bind_ok|]. split_and!; [done| | |].
    + intros x. by rewrite How4, How3.
    + apply (spares_trans _ _ t3 (w :: fl3) _ k3); [intros x; rewrite owned_cons; apply How3|done..].
    + right. split_and!; [done..|cbn [length]; lia].
  - change (0 <? 0) with false. cbv iota.
    assert (Hnp : npages (a + PGSIZE) newsz = npages a newsz - 1)
      by (unfold npages, PGSIZE; Z.div_mod_to_equations; lia).
    destruct (IH k3 t3 fl3 (a + PGSIZE)) as (r & k4 & t4 & fl4 & E4 & Hok4 & How4 & Hsp4 & H4);
      [done|done|done|done|unfold PGSIZE in *; lia|lia| |unfold PGSIZE in *; lia..|].
    { intros va Hva Hr. rewrite (st_pages _ _ _ _ _ Hst3); [apply Hun; [done|unfold PGSIZE in *; lia]|done|].
      intros E. apply user_page_inj in E; [unfold PGSIZE in *; lia|done..]. }
    exists r, k4, t4, fl4. split_and!; [done|done|intros x; by rewrite How4, How3| |].
    { apply (spares_trans _ _ t3 fl3 _ k3); [intros x; apply How3|done..]. }
    destruct H4 as [(-> & Hst4 & Hz4 & Hl4)|(-> & Hst4 & Hun4 & Hl4)]; [left|right].
    + split_and!; [done| |by apply (zero_mapped_next k3 t3 k4 t4 a newsz w)|cbn [length]; lia].
      eapply vm_step_trans; [exact Hst3'|]. eapply vm_step_mono; [|exact Hst4].
      intros q. apply range_mono. unfold PGSIZE. lia.
    + split_and!; [done| |done|cbn [length] in *; lia].
      eapply vm_step_trans; [|exact Hst4]. eapply vm_step_mono; [|exact Hst3']. intros q. by apply range_mono.
Qed.

Lemma allocuvm_ok k pml4 t fl oldsz newsz :
  vm_ok k pml4 t fl -> 0 <= oldsz <= newsz -> newsz <= 2 ^ 47 -> unmapped t (PGROUNDUP oldsz) newsz ->
  exists r k' t' fl', allocuvm pml4 oldsz newsz k = Ok r k' /\ vm_ok k' pml4 t' fl' /\
    (forall x, owned t' fl' x <-> owned t fl x) /\ spares t fl k k' /\
    (r = newsz /\ vm_step (in_range (PGROUNDUP oldsz) newsz) k t k' t' /\
       zero_mapped k' t' (PGROUNDUP oldsz) newsz /\
       Z.of_nat (length fl) <= Z.of_nat (length fl') + 4 * npages (PGROUNDUP oldsz) newsz \/
     r = 0 /\ vm_step (in_range (PGROUNDUP oldsz) newsz) k t k' t' /\
       unmapped t' (PGROUNDUP oldsz) newsz /\ Z.of_nat (length fl) < 4 * npages (PGROUNDUP oldsz) newsz).
Proof.
  intros Hok Ho Hn Hun. unfold allocuvm. replace (newsz >=? KERNBASE) with false by (unfold KERNBASE; lia).
  replace (newsz <? oldsz) with false by lia. destruct (PGROUNDUP_spec oldsz ltac:(lia)) as [Hb Hr].
  apply allocuvm_loop_ok; try done; unfold vm_fuel, PGSIZE in *; Z.div_mod_to_equations; lia.
Qed.

(** ** User memory by address *)
Lemma page_path_down va : page_path (va - va mod PGSIZE) = page_path va.
Proof.
  unfold page_path, table_path, PTX, PDX, PDPX, PMX. rewrite !px_spec by lia.
  assert (H : forall n, 0 <= n -> (va - va mod PGSIZE) / 2 ^ (12 + n) = va / 2 ^ (12 + n)).
  { intros n Hn. rewrite Z.pow_add_r by lia. rewrite <- !Z.div_div by lia. f_equal.
    change (2 ^ 12) with PGSIZE. pose proof (Z.div_mod va PGSIZE ltac:(done)) as E.
    replace (va - va mod PGSIZE) with (va / PGSIZE * PGSIZE) by lia. by apply Z.div_mul. }
  pose proof (H 0 ltac:(lia)) as H0. pose proof (H 9 ltac:(lia)) as H9.
  pose proof (H 18 ltac:(lia)) as H18. pose proof (H 27 ltac:(lia)) as H27.
  change (12 + 0) with 12 in H0. change (12 + 9) with 21 in H9.
  change (12 + 18) with 30 in H18. change (12 + 27) with 39 in H27. by rewrite H0, H9, H18, H27.
Qed.

Lemma user_page_down va : 0 <= va < 2 ^ 47 -> user_page (va - va mod PGSIZE).
Proof. intros Hva. unfold user_page, PGSIZE. Z.div_mod_to_equations. lia. Qed.

(** The byte at a user address. *)
Definition user_byte (k : kst) (t : gmap (list Z) Z) (va : Z) : option Z :=
  match t !! page_path va with Some w => Some (k_mem k (w + va mod PGSIZE)) | None => None end.

Lemma step_user R k t k' t' va : vm_step R k t k' t' -> 0 <= va < 2 ^ 47 -> ~ R (page_path va) ->
  mapping k' t' va = mapping k t va /\ user_byte k' t' va = user_byte k t va.
Proof.
  intros Hst Hva HR. unfold mapping, user_byte. rewrite (st_pages _ _ _ _ _ Hst) by done.
  rewrite (st_ptes _ _ _ _ _ Hst) by (done || by apply user_path).
  destruct (t !! page_path va) as [w|] eqn:Hw; [|done]. split; [done|]. f_equal.
  apply (st_bytes _ _ _ _ _ Hst (page_path va) w); [done..|].
  pose proof (Z.mod_pos_bound va PGSIZE ltac:(done)). lia.
Qed.

Lemma in_range_user lo hi va : 0 <= va < 2 ^ 47 -> boundary lo -> 0 <= hi <= 2 ^ 47 ->
  in_range lo hi (page_path va) <-> lo <= va < PGROUNDUP hi.
Proof.
  intros Hva [Hlo Hm] Hhi. destruct (PGROUNDUP_spec hi Hhi) as [[_ Hmh] Hr].
  pose proof (user_page_down va Hva) as Hp. rewrite <- page_path_down. split.
  - intros (vb & Hvb & Hrb & E). apply user_page_inj in E; [|done..]. destruct Hvb as [_ Hmb].
    unfold PGSIZE in *. Z.div_mod_to_equations. lia.
  - intros H. eexists. split_and!; [done| | |done]; unfold PGSIZE in *; Z.div_mod_to_equations; lia.
Qed.

(** C5: [allocuvm] grows an address space.  From a well-formed address space and free list,
    with the range above the old size unmapped, the call succeeds or runs out of memory.
    If it succeeds, every address from the old size (rounded up) to the new one is mapped
    present, writable and accessible to the user and reads zero; no page is used twice.
    If it fails it returns 0 with nothing mapped in the range, and it does not fail when
    there are four free pages for each new one.  In both cases every other user
    address keeps its mapping and its byte, tables and free list stay well-formed, and no
    page is lost or invented. *)
Theorem allocuvm_spec k pml4 t fl oldsz newsz :
  vm_ok k pml4 t fl -> 0 <= oldsz <= newsz -> newsz <= 2 ^ 47 -> unmapped t (PGROUNDUP oldsz) newsz ->
  exists r k' t' fl', allocuvm pml4 oldsz newsz k = Ok r k' /\ vm_ok k' pml4 t' fl' /\ only_mem k k' /\
    (forall x, owned t' fl' x <-> owned t fl x) /\
    (forall va, 0 <= va < 2 ^ 47 -> ~ (PGROUNDUP oldsz <= va < PGROUNDUP newsz) ->
       mapping k' t' va = mapping k t va /\ user_byte k' t' va = user_byte k t va) /\
    (r = newsz /\ (forall va, PGROUNDUP oldsz <= va < PGROUNDUP newsz ->
         (exists w, mapping k' t' va = Some (V2P w + Z.lor (Z.lor PTE_W PTE_U) PTE_P)) /\
         user_byte k' t' va = Some 0) \/
     r = 0 /\ (forall va, PGROUNDUP oldsz <= va < PGROUNDUP newsz -> mapping k' t' va = None) /\
       Z.of_nat (length fl) < 4 * npages (PGROUNDUP oldsz) newsz).
Proof.
  intros Hok Ho Hn Hun.
  destruct (PGROUNDUP_spec oldsz ltac:(lia)) as [Hb Hr]. destruct (PGROUNDUP_spec newsz ltac:(lia)) as [Hbn Hrn].
  destruct (allocuvm_ok k pml4 t fl oldsz newsz Hok Ho Hn Hun) as (r & k' & t' & fl' & E & Hok' & How & _ & H).
  exists r, k', t', fl'.
  assert (Hst : vm_step (in_range (PGROUNDUP oldsz) newsz) k t k' t') by (by destruct H as [(_ & ? & _)|(_ & ? & _)]).
  split_and!; [done|done|apply Hst|done| |].
  { intros va Hva Hout. apply (step_user _ _ _ _ _ va Hst Hva). by rewrite in_range_user by (done || lia). }
  assert (Hpage : forall va, PGROUNDUP oldsz <= va < PGROUNDUP newsz -> 0 <= va < 2 ^ 47 /\
    user_page (va - va mod PGSIZE) /\ PGROUNDUP oldsz <= va - va mod PGSIZE < newsz).
  { intros va Hva. destruct Hb as [Hb1 Hb2], Hbn as [Hbn1 Hbn2]. assert (0 <= va < 2 ^ 47) by lia.
    split_and!; [lia|lia|by apply user_page_down| |]; unfold PGSIZE in *; Z.div_mod_to_equations; lia. }
  destruct H as [(-> & _ & Hz & _)|(-> & _ & Hu & Hl)]; [left|right]; split_and!; try done.
  - intros va Hva. destruct (Hpage va Hva) as (Hu & Hup & Hr').
    destruct (Hz _ Hup Hr') as (w & Hw & Hp & H0). rewrite page_path_down in Hw, Hp.
    unfold mapping, user_byte. rewrite Hw, Hp. split; [by exists w|]. f_equal. apply H0.
    pose proof (Z.mod_pos_bound va PGSIZE ltac:(done)). lia.
  - intros va Hva. destruct (Hpage va Hva) as (Hu' & Hup & Hr').
    pose proof (Hu _ Hup Hr') as Hnone. rewrite page_path_down in Hnone. unfold mapping. by rewrite Hnone.
Qed.

(** An empty address space and nine free pages. *)
Definition demo_pg (i : Z) : Z := KERNBASE + 4194304 + PGSIZE * i.
Definition demo_links : mem :=
  foldr (fun i m => store 8 m (demo_pg i) (demo_pg (i + 1))) (fun _ => 0) [1; 2; 3; 4; 5; 6; 7; 8].
Definition demo_vm : kst :=
  set_k_mem demo_links (set_k_kmem (mk_kmemst true (demo_pg 1))
    (set_k_cr3 (V2P (demo_pg 0)) (set_k_end (KERNBASE + EXTMEM) kst_zero))).
Definition demo_tree : gmap (list Z) Z := {[ [] := demo_pg 0 ]}.
Definition demo_list : list Z := demo_pg <$> [1; 2; 3; 4; 5; 6; 7; 8; 9].

Lemma demo_vm_ok : vm_ok demo_vm (demo_pg 0) demo_tree demo_list.
Proof.
  unfold demo_tree. constructor.
  - constructor.
    + by vm_compute.
    + apply (bool_decide_unpack _). by vm_compute.
    + unfold demo_list, page_ok. cbn [fmap list_fmap]. repeat constructor; vm_compute; congruence.
    + unfold cpu_ok; simpl. repeat split; try lia; try done; constructor.
    + apply not_elem_of_nil.
  - by vm_compute.
  - done.
  - intros p v [<- <-]%lookup_singleton_Some. split; [split; [simpl; lia|split; [constructor|done]]|].
    split; [unfold page_ok; repeat split; vm_compute; congruence|].
    apply (bool_decide_unpack _). by vm_compute.
  - intros p q v [<- _]%lookup_singleton_Some [<- _]%lookup_singleton_Some. done.
  - intros p i v [? _]%lookup_singleton_Some. done.
  - intros p i v [<- <-]%lookup_singleton_Some Hp. destruct (path_ok_tail _ _ Hp) as (_ & Hi & _).
    rewrite lookup_singleton_ne by done. cbn [entry_ok].
    rewrite load_zero; [done|]. intros x Hx. cbn [k_mem set_k_mem demo_vm]. unfold demo_links, demo_pg, PGSIZE in *. cbn [foldr].
    rewrite !store_old by (change (Z.of_nat 8) with 8; lia). done.
Qed.

Lemma demo_unmapped lo hi : unmapped demo_tree lo hi.
Proof. intros va _ _. by apply lookup_singleton_ne. Qed.

Lemma allocuvm_spec_witness :
  exists k' t', allocuvm (demo_pg 0) 4096 4196 demo_vm = Ok 4196 k' /\
    user_byte k' t' 8191 = Some 0 /\ user_byte k' t' 8192 = None.
Proof.
  destruct (allocuvm_spec demo_vm (demo_pg 0) demo_tree demo_list 4096 4196 demo_vm_ok)
    as (r & k' & t' & fl' & E & _ & _ & _ & Hout & H).
  - lia.
  - lia.
  - apply demo_unmapped.
  - destruct H as [[-> Hin]|(_ & _ & Hl)]; [|vm_compute in Hl; discriminate].
    exists k', t'. split; [exact E|]. split.
    + apply Hin. vm_compute. split; congruence.
    + refine (eq_trans (proj2 (Hout 8192 _ _)) _).
      * lia.
      * vm_compute. intros [_ H]. discriminate.
      * reflexivity.
Defined.
