(* ===== verification/VmUser.v ===== *)
(** User memory: what [copyout] writes and the processor reads, what [freevm] frees, and
    the copy that [copyuvm] makes for [fork]. *)
From Stdlib Require Import ZArith Lia.
From stdpp Require Import base gmap sets strings numbers list.
From S2P Require Import Prelude Strings State Spinlock Fs Dir Kalloc Vm VmSpec.

Local Open Scope Z_scope.

(** ** Reading through the page table *)
Section Access.
Context {k : kst} {pml4 : Z} {t : gmap (list Z) Z} {fl : list Z} (Hok : vm_ok k pml4 t fl).

Lemma down_spec va : va = PGROUNDDOWN va + va mod PGSIZE /\ 0 <= va mod PGSIZE < PGSIZE.
Proof. rewrite PGROUNDDOWN_spec. pose proof (Z.mod_pos_bound va PGSIZE ltac:(done)). lia. Qed.

(** The entry of a mapped page. *)
Lemma find_entry va w : 0 <= va < 2 ^ 47 -> t !! page_path va = Some w ->
  exists a, walkpgdir pml4 (PGROUNDDOWN va) false k = Ok a k /\ (a =? 0) = false /\
    load 8 (k_mem k) a = pte k t (page_path va) /\
    has (pte k t (page_path va)) PTE_P = true /\ P2V (PTE_ADDR (pte k t (page_path va))) = w.
Proof using Hok.
  intros Hva Hw. pose proof (user_path va Hva) as Hp. pose proof (vo_up _ _ _ _ Hok _ _ _ Hw) as [v Hv].
  pose proof (vo_entry _ _ _ _ Hok _ _ _ Hv Hp) as He. fold (page_path va) in He. rewrite Hw in He.
  pose proof (page_path_down va) as Ed. rewrite <- PGROUNDDOWN_spec in Ed.
  assert (E1 : PTX (PGROUNDDOWN va) = PTX va) by (unfold page_path in Ed; congruence).
  assert (E2 : table_path (PGROUNDDOWN va) = table_path va) by (unfold page_path in Ed; congruence).
  exists (v + 8 * PTX va). split.
  - rewrite (walkpgdir_find k pml4 t fl), E1, E2, Hv; [done|done|].
    rewrite PGROUNDDOWN_spec. apply user_page_down, Hva.
  - destruct (vo_page _ _ _ _ Hok _ _ Hv) as (_ & Hpos%page_ok_pos & _).
    destruct (path_ok_tail _ _ Hp) as (_ & Hi & _). cbn [pte page_path]. rewrite Hv.
    destruct He as [He1 He2]. split_and!; try done. apply Z.eqb_neq. lia.
Qed.

(** The processor's translation of a mapped user address. *)
Lemma translate_ok va w : k_cr3 k = V2P pml4 -> 0 <= va < 2 ^ 47 -> t !! page_path va = Some w ->
  translate va k = Ok (w + va mod PGSIZE) k.
Proof using Hok.
  intros Hcr Hva Hw. destruct (find_entry va w Hva Hw) as (a & Ea & Hnz & El & HP & Ew).
  unfold translate. replace (va >=? KERNBASE) with false by (unfold KERNBASE; lia).
  erewrite bind_ok; [|reflexivity]. cbn beta.
  destruct (vo_page _ _ _ _ Hok _ _ (vo_root _ _ _ _ Hok)) as (_ & (_ & _ & Hr) & _).
  rewrite Hcr, P2V_V2P by done. erewrite bind_ok; [|exact Ea]. cbn beta. rewrite Hnz.
  erewrite bind_ok; [|reflexivity]. cbn beta. rewrite El, HP. cbn [negb]. rewrite Ew.
  destruct (down_spec va). by replace (va - PGROUNDDOWN va) with (va mod PGSIZE) by lia.
Qed.

Lemma read_user_ok n va bs : k_cr3 k = V2P pml4 -> 0 <= va -> va + Z.of_nat n <= 2 ^ 47 -> length bs = n ->
  (forall i b, bs !! i = Some b -> user_byte k t (va + Z.of_nat i) = Some b) ->
  read_user n va k = Ok bs k.
Proof using Hok.
  intros Hcr. revert va bs. induction n as [|n IH]; intros va bs Hva Hhi Hlen Hb.
  { by destruct bs. }
  destruct bs as [|b bs]; [done|]. cbn [read_user].
  pose proof (Hb 0%nat b eq_refl) as Hb0. rewrite Z.add_0_r in Hb0. unfold user_byte in Hb0.
  destruct (t !! page_path va) as [w|] eqn:Hw; [|done]. injection Hb0 as Hb0.
  erewrite bind_ok; [|apply translate_ok; [done|lia|done]]. cbn beta.
  erewrite bind_ok; [|reflexivity]. cbn beta. rewrite Hb0.
  erewrite bind_ok; [done|]. apply IH; [lia|lia|by injection Hlen|].
  intros i c Hi. replace (va + 1 + Z.of_nat i) with (va + Z.of_nat (S i)) by lia. by apply Hb.
Qed.

Lemma uva2ka_ok va w : 0 <= va < 2 ^ 47 -> t !! page_path va = Some w ->
  uva2ka pml4 (PGROUNDDOWN va) k = Ok (if has (pte k t (page_path va)) PTE_U then w else 0) k.
Proof using Hok.
  intros Hva Hw. destruct (find_entry va w Hva Hw) as (a & Ea & Hnz & El & HP & Ew).
  unfold uva2ka. erewrite bind_ok; [|exact Ea]. cbn beta. rewrite Hnz.
  erewrite bind_ok; [|reflexivity]. cbn beta. rewrite El, HP, Ew. cbn [negb].
  by destruct (has _ PTE_U).
Qed.

(** A write inside one user page. *)
Lemma page_write q w m : length q = 4%nat -> t !! q = Some w ->
  (forall a, ~ (w <= a < w + PGSIZE) -> m a = k_mem k a) ->
  vm_ok (set_k_mem m k) pml4 t fl /\ forall q', path_ok q' -> pte (set_k_mem m k) t q' = pte k t q'.
Proof using Hok.
  intros Hq Hw Hm.
  assert (Ht : forall p v a, (length p < 4)%nat -> t !! p = Some v -> v <= a < v + PGSIZE -> m a = k_mem k a).
  { intros p v a Hp Hv Ha. apply Hm. destruct (nodes_disjoint Hok p q v w Hv Hw); [intros ->; lia|lia..]. }
  split.
  - apply (vm_ok_ext Hok); [by destruct k| |by apply Hok|done].
    apply (free_pages_ext k); [apply Hok|by destruct k|done|]. intros x a Hx Ha. apply Hm.
    destruct (vo_page _ _ _ _ Hok _ _ Hw) as (_ & (Hwm & _) & Hwn).
    pose proof (proj1 (Forall_forall _ _) (fp_ok _ _ (vo_free _ _ _ _ Hok)) x Hx) as (Hxm & _).
    destruct (pages_disjoint x w Hxm Hwm); [by intros ->|lia..].
  - intros q' Hq'. apply (pte_ext Hok); [|done]. intros p v a Hv Hp Ha. by apply (Ht p v).
Qed.
End Access.

(** ** [copyout] *)

(** The user addresses from [lo] to [hi] are mapped for the user. *)
Definition accessible (k : kst) (t : gmap (list Z) Z) (lo hi : Z) : Prop :=
  forall va, lo <= va < hi -> is_Some (t !! page_path va) /\ has (pte k t (page_path va)) PTE_U = true.

(** The bytes [bs] are at [va] and all other bytes are as before. *)
Record written (k : kst) (t : gmap (list Z) Z) (va : Z) (bs : list Z) (k' : kst) : Prop := {
  wr_mem : only_mem k k';
  wr_ptes : forall q, path_ok q -> pte k' t q = pte k t q;
  wr_new : forall i b, bs !! i = Some b -> user_byte k' t (va + Z.of_nat i) = Some b;
  wr_old : forall x, 0 <= x < 2 ^ 47 -> ~ (va <= x < va + Z.of_nat (length bs)) ->
    user_byte k' t x = user_byte k t x;
  wr_out : forall a, (forall q w, length q = 4%nat -> t !! q = Some w -> ~ (w <= a < w + PGSIZE)) ->
    k_mem k' a = k_mem k a
}.

Lemma written_app k t va bs1 bs2 k1 k2 :
  0 <= va -> va + Z.of_nat (length (bs1 ++ bs2)) <= 2 ^ 47 ->
  written k t va bs1 k1 -> written k1 t (va + Z.of_nat (length bs1)) bs2 k2 -> written k t va (bs1 ++ bs2) k2.
Proof.
  rewrite length_app. intros Hva Hhi [A1 A2 A3 A4 A5] [B1 B2 B3 B4 B5]. constructor.
  - by eapply only_mem_trans.
  - intros q Hq. by rewrite B2, A2.
  - intros i b Hi. destruct (decide (i < length bs1)%nat) as [Hlt|Hge].
    + rewrite lookup_app_l in Hi by done. pose proof (lookup_lt_Some _ _ _ Hi). rewrite B4 by lia. by apply A3.
    + rewrite lookup_app_r in Hi by lia.
      replace (va + Z.of_nat i) with (va + Z.of_nat (length bs1) + Z.of_nat (i - length bs1)) by lia. by apply B3.
  - intros x Hx Hout. rewrite length_app in Hout. rewrite B4, A4; lia || done.
  - intros a Ha. by rewrite B5, A5.
Qed.

Lemma same_page va x : va / PGSIZE = x / PGSIZE -> page_path x = page_path va.
Proof.
  intros E. rewrite <- (page_path_down x), <- (page_path_down va).
  pose proof (Z.div_mod x PGSIZE ltac:(done)). pose proof (Z.div_mod va PGSIZE ltac:(done)).
  by replace (x - x mod PGSIZE) with (va - va mod PGSIZE) by lia.
Qed.

Lemma add_in_page va i : 0 <= i -> va mod PGSIZE + i < PGSIZE ->
  (va + i) / PGSIZE = va / PGSIZE /\ (va + i) mod PGSIZE = va mod PGSIZE + i.
Proof. intros. unfold PGSIZE in *. Z.div_mod_to_equations. lia. Qed.

(** One chunk, inside the page of [va]. *)
Lemma write_chunk k pml4 t fl va w bs :
  vm_ok k pml4 t fl -> 0 <= va < 2 ^ 47 -> t !! page_path va = Some w ->
  va mod PGSIZE + Z.of_nat (length bs) <= PGSIZE ->
  let k' := set_k_mem (write_bytes (k_mem k) (w + va mod PGSIZE) bs) k in
  vm_ok k' pml4 t fl /\ written k t va bs k'.
Proof.
  intros Hok Hva Hw Hlen k'. destruct (down_spec va) as [_ Hmod].
  assert (Hout : forall a, ~ (w <= a < w + PGSIZE) -> k_mem k' a = k_mem k a).
  { intros a Ha. cbn [k' k_mem set_k_mem]. apply write_bytes_old. lia. }
  destruct (page_write Hok (page_path va) w (k_mem k') eq_refl Hw Hout) as [Hok' Hpt].
  split; [done|]. constructor.
  - unfold only_mem. by destruct k.
  - done.
  - intros i b Hi. pose proof (lookup_lt_Some _ _ _ Hi) as Hlt.
    destruct (add_in_page va (Z.of_nat i)) as [Ed Em]; [lia|lia|].
    unfold user_byte. rewrite (same_page va), Hw, Em by done. f_equal.
    cbn [k' k_mem set_k_mem]. rewrite Z.add_assoc, write_bytes_new by done. by apply nth_lookup_Some.
  - intros x Hx Hnin. unfold user_byte. destruct (t !! page_path x) as [w'|] eqn:Hw'; [|done]. f_equal.
    destruct (decide (page_path x = page_path va)) as [E|Hne].
    + rewrite E, Hw in Hw'. injection Hw' as <-. apply page_path_inj in E; [|done..].
      cbn [k' k_mem set_k_mem]. apply write_bytes_old.
      pose proof (Z.div_mod x PGSIZE ltac:(done)). pose proof (Z.div_mod va PGSIZE ltac:(done)).
      rewrite E in *. lia.
    + apply Hout. pose proof (Z.mod_pos_bound x PGSIZE ltac:(done)).
      destruct (nodes_disjoint Hok _ _ _ _ Hw' Hw Hne); lia.
  - intros a Ha. apply Hout. by apply (Ha (page_path va)).
Qed.

Lemma accessible_ext k t k' lo hi :
  0 <= lo -> hi <= 2 ^ 47 -> (forall q, path_ok q -> pte k' t q = pte k t q) ->
  accessible k t lo hi -> accessible k' t lo hi.
Proof. intros H1 H2 Hp Hacc va Hva. rewrite Hp by (apply user_path; lia). by apply Hacc. Qed.

Lemma copyout_loop_ok fuel k pml4 t fl va bs :
  vm_ok k pml4 t fl -> 0 <= va -> va + Z.of_nat (length bs) <= 2 ^ 47 ->
  accessible k t va (va + Z.of_nat (length bs)) -> (fuel <> 0)%nat ->
  va mod PGSIZE + Z.of_nat (length bs) <= PGSIZE * (Z.of_nat fuel - 1) \/ bs = [] ->
  exists k', copyout_loop fuel pml4 va bs k = Ok 0 k' /\ vm_ok k' pml4 t fl /\ written k t va bs k'.
Proof.
  revert k va bs. induction fuel as [|fuel IH]; intros k va bs Hok Hva Hhi Hacc Hnz Hfuel; [done|].
  cbn [copyout_loop]. destruct (Z.gtb_spec (Z.of_nat (length bs)) 0) as [Hpos|Hle].
  2: { destruct bs; [|simpl in Hle; lia]. exists k. split_and!; try done. constructor; try done. apply only_mem_refl. }
  destruct Hfuel as [Hfuel| ->]; [|simpl in Hpos; lia].
  destruct (down_spec va) as [Ed Hm]. destruct (Hacc va ltac:(lia)) as [[w Hw] HU].
  erewrite bind_ok; [|apply (uva2ka_ok Hok va w); [lia|done]]. cbn beta. rewrite HU.
  destruct (vo_page _ _ _ _ Hok _ _ Hw) as (_ & Hwp%page_ok_pos & _).
  rewrite (proj2 (Z.eqb_neq w 0)) by lia. replace (va - PGROUNDDOWN va) with (va mod PGSIZE) by lia.
  set (n := Z.min (PGSIZE - va mod PGSIZE) (Z.of_nat (length bs))).
  assert (Htk : Z.of_nat (length (take (Z.to_nat n) bs)) = n) by (rewrite length_take; lia).
  destruct (write_chunk k pml4 t fl va w (take (Z.to_nat n) bs)) as [Hok1 Hwr1]; [done|lia|done|lia|].
  erewrite bind_ok; [|reflexivity]. set (k1 := set_k_mem _ k) in *.
  assert (Eb : take (Z.to_nat n) bs ++ drop (Z.to_nat n) bs = bs) by apply take_drop.
  assert (Hdl : Z.of_nat (length (drop (Z.to_nat n) bs)) = Z.of_nat (length bs) - n) by (rewrite length_drop; lia).
  rewrite u64_small by (unfold PGSIZE in *; lia).
  assert (Hnext : n = PGSIZE - va mod PGSIZE \/ drop (Z.to_nat n) bs = []).
  { destruct (decide (n = PGSIZE - va mod PGSIZE)); [by left|]. right. apply drop_ge. lia. }
  destruct Hnext as [En|En].
  - destruct (IH k1 (PGROUNDDOWN va + PGSIZE) (drop (Z.to_nat n) bs)) as (k2 & E2 & Hok2 & Hwr2);
      [done|lia|lia| |unfold PGSIZE in *; lia| |].
    { apply (accessible_ext k); [lia|lia|apply Hwr1|]. intros x Hx. apply Hacc. lia. }
    { left. assert ((PGROUNDDOWN va + PGSIZE) mod PGSIZE = 0) as ->; [|lia].
      rewrite PGROUNDDOWN_spec. unfold PGSIZE in *. Z.div_mod_to_equations. lia. }
    exists k2. split_and!; [done|done|]. rewrite <- Eb. apply written_app with k1; [done|rewrite Eb; lia|done|].
    by replace (va + Z.of_nat (length (take (Z.to_nat n) bs))) with (PGROUNDDOWN va + PGSIZE) by lia.
  - rewrite En in *. rewrite app_nil_r in Eb. rewrite Eb in *. exists k1. split_and!; [|done|done].
    destruct fuel; [unfold PGSIZE in *; lia|done].
Qed.

(** C6: what the kernel copies out, the process reads.  When the whole range is mapped for
    the user, [copyout] returns 0; afterwards the processor, running with this page
    table, reads exactly the copied bytes there, also across page boundaries.  Every other user
    byte, every mapping and all memory outside the user's pages are as before. *)
Theorem copyout_read k pml4 t fl va bs :
  vm_ok k pml4 t fl -> 0 <= va -> va + Z.of_nat (length bs) <= 2 ^ 47 ->
  accessible k t va (va + Z.of_nat (length bs)) ->
  exists k', copyout pml4 va bs k = Ok 0 k' /\ vm_ok k' pml4 t fl /\ only_mem k k' /\
    (k_cr3 k = V2P pml4 -> read_user (length bs) va k' = Ok bs k') /\
    (forall x, 0 <= x < 2 ^ 47 -> ~ (va <= x < va + Z.of_nat (length bs)) ->
       user_byte k' t x = user_byte k t x) /\
    (forall x, 0 <= x < 2 ^ 47 -> mapping k' t x = mapping k t x) /\
    (forall a, (forall q w, length q = 4%nat -> t !! q = Some w -> ~ (w <= a < w + PGSIZE)) ->
       k_mem k' a = k_mem k a).
Proof.
  intros Hok Hva Hhi Hacc. unfold copyout.
  destruct (copyout_loop_ok (Z.to_nat (Z.of_nat (length bs) / PGSIZE + 3)) k pml4 t fl va bs)
    as (k' & E & Hok' & [W1 W2 W3 W4 W5]); [done..| | |].
  - unfold PGSIZE. Z.div_mod_to_equations. lia.
  - left. destruct (down_spec va) as [_ Hm]. unfold PGSIZE in *. Z.div_mod_to_equations. lia.
  - exists k'. split_and!; try done.
    + intros Hcr. apply (read_user_ok Hok'); [by rewrite W1|done|done|done|done].
    + intros x Hx. unfold mapping. rewrite W2; [done|]. by apply user_path.
Qed.

(** ** [switchuvm] *)

(** Memory after [switchuvm]. *)
Definition with_stack (m : mem) (tss stktop : Z) : mem :=
  store 4 (store 4 m (tss + 4) (u32 stktop)) (tss + 8) (u32 (Z.shiftr stktop 32)).

Lemma switchuvm_eq p k : cpu_ok (k_cpu k) -> p_pgdir p <> 0 ->
  switchuvm p k = Ok tt (set_k_cr3 (V2P (p_pgdir p)) (set_k_mem
    (with_stack (k_mem k) (k_local k + 1024) (u64 (p_kstack p + KSTACKSIZE))) k)).
Proof.
  intros Hc Hp. unfold switchuvm. erewrite bind_ok; [|apply (pushcli_nested 0 (k_cpu k)); [apply Hc|done]].
  rewrite (proj2 (Z.eqb_neq _ _) Hp). do 4 (erewrite bind_ok; [|reflexivity]; cbn beta).
  erewrite (popcli_nested 0 (k_cpu k)); [|done|reflexivity]. by destruct k.
Qed.

Lemma with_stack_other m tss v a : ~ (tss + 4 <= a < tss + 12) -> with_stack m tss v a = m a.
Proof. intros Ha. unfold with_stack. by rewrite !store_old by lia. Qed.

(** A page mapped by [allocuvm] can be accessed. *)
Lemma mapped_accessible k pml4 t fl a w : vm_ok k pml4 t fl -> user_page a -> t !! page_path a = Some w ->
  pte k t (page_path a) = V2P w + 7 -> accessible k t a (a + PGSIZE).
Proof.
  intros Hok [Ha Hm] Hw Hp va Hva. destruct (vo_page _ _ _ _ Hok _ _ Hw) as (_ & Hwp & _).
  rewrite (same_page a va) by (unfold PGSIZE in *; Z.div_mod_to_equations; lia).
  rewrite Hw, Hp. split; [done|]. destruct (new_entry _ w 7 Hwp ltac:(lia)) as (E7 & _). rewrite <- E7.
  unfold has, PTE_U. rewrite Z.land_lor_distr_l. apply negb_true_iff, Z.eqb_neq. by intros [_ ?]%Z.lor_eq_0_iff.
Qed.

(** The address space of [demo_vm], grown to one page. *)
Lemma demo_grown : exists k t fl, allocuvm (demo_pg 0) 4096 4196 demo_vm = Ok 4196 k /\
  vm_ok k (demo_pg 0) t fl /\ k_cr3 k = V2P (demo_pg 0) /\ accessible k t 4096 8192 /\
  (5 <= length fl)%nat /\ forall x, owned t fl x <-> x = demo_pg 0 \/ x ∈ demo_list.
Proof.
  destruct (allocuvm_ok demo_vm (demo_pg 0) demo_tree demo_list 4096 4196 demo_vm_ok)
    as (r & k & t & fl & E & Hok & How & _ & H); [lia|lia|apply demo_unmapped|].
  destruct H as [(-> & Hst & Hz & Hlen)|(_ & _ & _ & Hl)]; [|vm_compute in Hl; discriminate].
  exists k, t, fl. split; [exact E|]. split; [exact Hok|]. split; [exact (f_equal k_cr3 (st_mem _ _ _ _ _ Hst))|].
  change (npages (PGROUNDUP 4096) 4196) with 1 in Hlen. change (length demo_list) with 9%nat in Hlen.
  split; [|split; [lia|]].
  2: { intros x. rewrite How. unfold owned, demo_tree. setoid_rewrite lookup_singleton_Some. split.
       - intros [Hin|(p & _ & Hx)]; [by right|left; symmetry; exact Hx].
       - intros [Hx|Hin]; [right; exists []; split; [reflexivity|symmetry; exact Hx]|left; exact Hin]. }
  destruct (Hz 4096) as (w & Hw & Hp & _); [split; [lia|reflexivity]|vm_compute; split; congruence|].
  apply (mapped_accessible k (demo_pg 0) t fl 4096 w Hok); [split; [lia|reflexivity]|done|done].
Qed.

Lemma copyout_read_witness :
  exists k1 k2, allocuvm (demo_pg 0) 4096 4196 demo_vm = Ok 4196 k1 /\
    copyout (demo_pg 0) 8000 [1; 2; 3] k1 = Ok 0 k2 /\ read_user 3 8000 k2 = Ok [1; 2; 3] k2.
Proof.
  destruct demo_grown as (k1 & t & fl & E & Hok & Hcr & Hacc & _).
  destruct (copyout_read k1 (demo_pg 0) t fl 8000 [1; 2; 3] Hok) as (k2 & E2 & _ & _ & Hrd & _).
  - lia.
  - cbn [length]. lia.
  - intros va Hva. apply Hacc. cbn [length] in Hva. lia.
  - exists k1, k2. split; [exact E|]. split; [exact E2|]. exact (Hrd Hcr).
Defined.
