(* ===== verification/VmFork.v ===== *)
(** Taking an address space down ([freevm]) and copying it ([copyuvm]). *)
From Stdlib Require Import ZArith Lia.
From stdpp Require Import base gmap sets strings numbers list.
From S2P Require Import Prelude Strings State Spinlock Fs Dir Kalloc Vm VmSpec VmUser.

Local Open Scope Z_scope.

(** ** [freevm]

    It frees a subtree at a time: first what a table points to, then the table. *)
Section Free.
Context {k0 : kst} {pml4 : Z} {t : gmap (list Z) Z} {fl0 : list Z} (Hok : vm_ok k0 pml4 t fl0).

(** The pages at the paths [D] have been freed and nothing else has changed. *)
Definition freeing (D : list Z -> Prop) (k : kst) : Prop :=
  only_mem k0 k /\
  exists fl, free_pages k fl /\
    (forall x, x ∈ fl <-> x ∈ fl0 \/ exists q, D q /\ t !! q = Some x) /\
    forall a, (forall q w, D q -> t !! q = Some w -> ~ (w <= a < w + PGSIZE)) -> k_mem k a = k_mem k0 a.

Lemma freeing_ext (D D' : list Z -> Prop) k :
  (forall q w, t !! q = Some w -> D q <-> D' q) -> freeing D k -> freeing D' k.
Proof using.
  intros HD (Ho & fl & Hf & Hx & Hm). split; [done|]. exists fl. split; [done|]. split.
  - intros x. rewrite Hx. split; (intros [H|(q & Hq & Hv)]; [by left|right; exists q; split; [|done]]);
      by eapply HD.
  - intros a Ha. apply Hm. intros q w Hq Hw. apply (Ha q w); [by eapply HD|done].
Qed.

Lemma free_node (D : list Z -> Prop) k p v : t !! p = Some v -> ~ D p -> freeing D k ->
  exists k', kfree v k = Ok tt k' /\ freeing (fun q => D q \/ q = p) k'.
Proof using Hok.
  intros Hv Hp (Ho & fl & Hf & Hx & Hm). destruct (vo_page _ _ _ _ Hok _ _ Hv) as (_ & Hvp & Hvn).
  assert (Hvf : v ∉ fl).
  { rewrite Hx. intros [?|(q & Hq & Hqv)]; [done|]. by rewrite (vo_inj _ _ _ _ Hok q p v Hqv Hv) in Hq. }
  assert (Hvk : page_ok (k_end k) v) by (by rewrite (only_mem_end _ _ Ho)).
  eexists. split; [by apply (kfree_eq k fl)|]. split.
  - eapply only_mem_trans; [exact Ho|]. by destruct k.
  - exists (v :: fl). split; [by apply free_pages_kfree|]. split.
    + intros x. rewrite elem_of_cons, Hx. split.
      * intros [->|[?|(q & Hq & Hqx)]]; [right; exists p; by split; [right|]|by left|].
        right. exists q. by split; [left|].
      * intros [?|(q & [Hq| ->] & Hqx)]; [right; by left|right; right; by exists q|left; congruence].
    + intros a Ha. cbn [k_mem set_k_mem set_k_kmem]. rewrite freed_other.
      * apply Hm. intros q w Hq. apply Ha. by left.
      * apply (Ha p); [by right|done].
Qed.

(** [f] frees the subtree at [p]. *)
Definition frees (f : Z -> M kst unit) (p : list Z) : Prop :=
  forall v (D : list Z -> Prop) k, t !! p = Some v -> (forall q, p `suffix_of` q -> ~ D q) -> freeing D k ->
    exists k', f v k = Ok tt k' /\ freeing (fun q => D q \/ p `suffix_of` q) k'.

Lemma frees_page p : length p = 4%nat -> frees kfree p.
Proof using Hok.
  intros Hlen v D k Hv HD Hk. destruct (free_node D k p v Hv (HD p ltac:(done)) Hk) as (k' & E & Hk').
  exists k'. split; [done|]. eapply freeing_ext; [|exact Hk']. intros q w Hq.
  assert (p `suffix_of` q <-> q = p) as ->; [|done]. split; [|by intros ->]. intros [l ->].
  destruct (vo_page _ _ _ _ Hok _ _ Hq) as ((Hl & _) & _). rewrite length_app in Hl.
  destruct l; [done|]. simpl in Hl. lia.
Qed.

(** The table's page is untouched while its children are freed. *)
Lemma freeing_entry D k p v i : freeing D k -> t !! p = Some v -> ~ D p -> path_ok (i :: p) ->
  entry_ok (t !! (i :: p)) (load 8 (k_mem k) (v + 8 * i)).
Proof using Hok.
  intros (_ & fl & _ & _ & Hm) Hv Hp Hpi. destruct (path_ok_tail _ _ Hpi) as (_ & Hi & _).
  rewrite (load_ext _ _ (k_mem k0)); [by apply (vo_entry _ _ _ _ Hok)|]. intros a Ha.
  change (Z.of_nat 8) with 8 in Ha. apply Hm. intros q w Hq Hw.
  destruct (nodes_disjoint Hok q p w v Hw Hv); [intros ->; done|unfold PGSIZE in *; lia..].
Qed.

Lemma suffix_cons_ne (i j : Z) (p q : list Z) : (i :: p) `suffix_of` q -> (j :: p) `suffix_of` q -> i = j.
Proof using.
  intros [l1 ->] [l2 E]. assert (El : length l1 = length l2) by (apply (f_equal length) in E; rewrite !length_app in E; simpl in E; lia).
  apply app_inj_1 in E; [|done]. by destruct E as [_ [= ->]].
Qed.
Lemma suffix_not_cons (i : Z) (p : list Z) : ~ (i :: p) `suffix_of` p.
Proof using. intros H%suffix_length. simpl in H. lia. Qed.

Lemma freevm_table_ok f p : (forall j, frees f (j :: p)) -> forall cnt i v (D : list Z -> Prop) k,
  t !! p = Some v -> (forall j, i <= j < i + Z.of_nat cnt -> path_ok (j :: p)) -> ~ D p ->
  (forall j q, i <= j -> (j :: p) `suffix_of` q -> ~ D q) -> freeing D k ->
  exists k', freevm_table cnt i v f k = Ok tt k' /\
    freeing (fun q => D q \/ exists j, i <= j < i + Z.of_nat cnt /\ (j :: p) `suffix_of` q) k'.
Proof using Hok.
  intros Hf cnt. induction cnt as [|cnt IH]; intros i v D k Hv Hpath Hp HD Hk; cbn [freevm_table].
  { exists k. split; [done|]. eapply freeing_ext; [|exact Hk]. intros q w _. split; [by left|].
    intros [?|(j & ? & _)]; [done|lia]. }
  erewrite bind_ok; [|reflexivity]. cbn beta.
  pose proof (freeing_entry D k p v i Hk Hv Hp (Hpath i ltac:(lia))) as He.
  assert (exists k1, (if has (load 8 (k_mem k) (v + 8 * i)) PTE_P then
      f (P2V (PTE_ADDR (load 8 (k_mem k) (v + 8 * i)))) else mret tt) k = Ok tt k1 /\
      freeing (fun q => D q \/ (i :: p) `suffix_of` q) k1) as (k1 & E1 & Hk1).
  { destruct (t !! (i :: p)) as [w|] eqn:Hw; cbn [entry_ok] in He.
    - destruct He as [-> ->]. apply (Hf i w D k Hw); [|done]. intros q. by apply HD.
    - rewrite He. exists k. split; [done|]. eapply freeing_ext; [|exact Hk]. intros q w Hq.
      split; [by left|]. intros [?|[l ->]]; [done|]. exfalso. revert w Hq.
      induction l as [|x l IHl]; intros w Hq; [simpl in Hq; congruence|].
      destruct (vo_up _ _ _ _ Hok _ _ _ Hq) as [w' Hq']. by apply (IHl w'). }
  erewrite bind_ok; [|exact E1].
  destruct (IH (i + 1) v (fun q => D q \/ (i :: p) `suffix_of` q) k1) as (k2 & E2 & Hk2);
    [done|intros; apply Hpath; lia| | |done|].
  - intros [?|?%suffix_not_cons]; done.
  - intros j q Hj Hs [Hd|Hs']; [by apply (HD j q); [lia|..]|].
    pose proof (suffix_cons_ne _ _ _ _ Hs Hs'). lia.
  - exists k2. split; [done|]. eapply freeing_ext; [|exact Hk2]. intros q w _. cbn beta. split.
    + intros [[?|?]|(j & ? & ?)]; [by left|right; exists i; split; [lia|done]|right; exists j; split; [lia|done]].
    + intros [?|(j & ? & ?)]; [by do 2 left|]. destruct (decide (j = i)) as [->|]; [left; by right|].
      right. exists j. split; [lia|done].
Qed.

Lemma frees_table f p cnt : (forall j, frees f (j :: p)) ->
  (forall j, path_ok (j :: p) <-> 0 <= j < Z.of_nat cnt) ->
  frees (fun v => freevm_table cnt 0 v f;; kfree v) p.
Proof using Hok.
  intros Hf Hj v D k Hv HD Hk.
  destruct (freevm_table_ok f p Hf cnt 0 v D k Hv) as (k1 & E1 & Hk1);
    [intros j Hr; apply Hj; lia|by apply HD| |done|].
  { intros j q _ Hs. apply HD. etrans; [|exact Hs]. by exists [j]. }
  edestruct (fun H => free_node _ k1 p v Hv H Hk1) as (k2 & E2 & Hk2).
  { intros [Hd|(j & _ & ?%suffix_not_cons)]; [|done]. by apply (HD p). }
  exists k2. split; [by erewrite bind_ok|]. eapply freeing_ext; [|exact Hk2]. intros q w Hq. cbn beta. split.
  - intros [[?|(j & _ & Hs)]| ->]; [by left|right|by right]. etrans; [|exact Hs]. by exists [j].
  - intros [?|[l ->]]; [by do 2 left|]. destruct l as [|x l] using rev_ind; [by right|]. left. right.
    exists x. rewrite <- app_assoc in *. split; [|by exists l]. apply Hj.
    clear - Hok Hq. induction l as [|y l IHl] in w, Hq |- *.
    + by destruct (vo_page _ _ _ _ Hok _ _ Hq).
    + destruct (vo_up _ _ _ _ Hok _ _ _ Hq) as [w' Hq']. by apply (IHl w').
Qed.

Lemma path_ok_children p n : path_ok p -> length p = S n -> (n < 3)%nat ->
  forall j, path_ok (j :: p) <-> 0 <= j < 512.
Proof using.
  intros (H1 & H2 & H3) Hl Hn j. split; [by intros (_ & [? _]%Forall_cons & _)|]. intros Hj.
  split; [simpl; lia|]. split; [by constructor|]. intros i. destruct p; [done|]. exact (H3 i).
Qed.

Lemma frees_level f n : (n < 3)%nat -> (forall p, length p = S (S n) -> frees f p) ->
  forall p, length p = S n -> frees (fun v => freevm_table NPDENTRIES 0 v f;; kfree v) p.
Proof using Hok.
  intros Hn Hf p Hp v D k Hv HD Hk. revert v D k Hv HD Hk. intros v D k Hv.
  apply (frees_table f p NPDENTRIES); [intros j; apply Hf; simpl; lia| |done].
  apply (path_ok_children p n); [by apply (vo_page _ _ _ _ Hok p v)|done|done].
Qed.

Lemma frees_pt p : length p = 3%nat -> frees freevm_pt p.
Proof using Hok. intros Hp. refine (frees_level kfree 2 _ _ p Hp); [lia|exact frees_page]. Qed.
Lemma frees_pd p : length p = 2%nat -> frees freevm_pd p.
Proof using Hok. intros Hp. refine (frees_level freevm_pt 1 _ _ p Hp); [lia|exact frees_pt]. Qed.
Lemma frees_pdp p : length p = 1%nat -> frees freevm_pdp p.
Proof using Hok. intros Hp. refine (frees_level freevm_pd 0 _ _ p Hp); [lia|exact frees_pd]. Qed.

(** The whole tree. *)
Lemma freevm_ok : exists k' fl', freevm pml4 k0 = Ok tt k' /\ only_mem k0 k' /\ free_pages k' fl' /\
  (forall x, x ∈ fl' <-> owned t fl0 x) /\
  forall a, (forall q w, t !! q = Some w -> ~ (w <= a < w + PGSIZE)) -> k_mem k' a = k_mem k0 a.
Proof using Hok.
  pose proof (vo_root _ _ _ _ Hok) as Hr. unfold freevm. rewrite (node_nonzero _ _ _ _ _ _ Hok Hr).
  assert (Hf : frees (fun v => freevm_table (NPDENTRIES / 2) 0 v freevm_pdp;; kfree v) []).
  { apply frees_table.
    - intros j. by apply frees_pdp.
    - intros j. unfold path_ok. change (Z.of_nat (NPDENTRIES / 2)) with 256. split.
      + intros (_ & [? _]%Forall_cons & Hl). specialize (Hl j eq_refl). lia.
      + intros Hj. split; [simpl; lia|]. split; [repeat constructor; lia|]. intros i [= <-]. lia. }
  destruct (Hf pml4 (fun _ => False) k0 Hr) as (k' & E & Ho & fl' & Hfr & Hx & Hm); [by intros ? ? []| |].
  { split; [apply only_mem_refl|]. exists fl0. split; [apply Hok|]. split; [|done].
    intros x. split; [by left|]. by intros [?|(q & [] & _)]. }
  exists k', fl'. split_and!; [done|done|done| |].
  - intros x. rewrite Hx. unfold owned. split.
    + intros [?|(q & _ & ?)]; [by left|right; by exists q].
    + intros [?|(q & ?)]; [by left|right; exists q; split; [right; exists q; by rewrite app_nil_r|done]].
  - intros a Ha. apply Hm. intros q w _. by apply Ha.
Qed.
End Free.

(** [freevm] returns an address space to the allocator.  It terminates without a panic;
    afterwards the free list is well-formed and holds, besides what was free before, exactly
    the pages of the address space, each once: every user page, every page table of every
    level and the root.  No other memory changes. *)
Theorem freevm_frees k pml4 t fl :
  vm_ok k pml4 t fl ->
  exists k' fl', freevm pml4 k = Ok tt k' /\ only_mem k k' /\ free_pages k' fl' /\
    (forall x, x ∈ fl' <-> x ∈ fl \/ exists p, t !! p = Some x) /\
    forall a, (forall q w, t !! q = Some w -> ~ (w <= a < w + PGSIZE)) -> k_mem k' a = k_mem k a.
Proof. intros Hok. exact (freevm_ok Hok). Qed.

Lemma freevm_frees_witness :
  exists k1 k2 fl, allocuvm (demo_pg 0) 4096 4196 demo_vm = Ok 4196 k1 /\ freevm (demo_pg 0) k1 = Ok tt k2 /\
    free_pages k2 fl /\ forall x, x ∈ fl <-> x = demo_pg 0 \/ x ∈ demo_list.
Proof.
  destruct demo_grown as (k1 & t & fl & E & Hok & _ & _ & _ & How).
  destruct (freevm_frees k1 (demo_pg 0) t fl Hok) as (k2 & fl2 & E2 & _ & Hf & Hx & _).
  exists k1, k2, fl2. split; [exact E|]. split; [exact E2|]. split; [exact Hf|].
  intros x. exact (iff_trans (Hx x) (How x)).
Defined.

(** ** Two address spaces *)

(** The parent's [t] and the child's [td]: both well-formed, without a common page. *)
Definition two (k : kst) (pml4 : Z) (t : gmap (list Z) Z) (d : Z) (td : gmap (list Z) Z) (fl : list Z) : Prop :=
  vm_ok k pml4 t fl /\ vm_ok k d td fl /\ forall p q v, t !! p = Some v -> td !! q <> Some v.

(** No byte of the address space has changed, tables included. *)
Definition untouched (t : gmap (list Z) Z) (k k' : kst) : Prop :=
  forall p v a, t !! p = Some v -> v <= a < v + PGSIZE -> k_mem k' a = k_mem k a.

Lemma untouched_trans t k k1 k2 : untouched t k k1 -> untouched t k1 k2 -> untouched t k k2.
Proof. intros H1 H2 p v a Hv Ha. by rewrite (H2 p v), (H1 p v). Qed.

Lemma two_frame k pml4 t d td fl k' td' fl' :
  two k pml4 t d td fl -> only_mem k k' -> vm_ok k' d td' fl' ->
  (forall x, owned td' fl' x -> owned td fl x) -> untouched t k k' -> two k' pml4 t d td' fl'.
Proof.
  intros (H1 & H2 & Hd) Ho H2' Hx Hm.
  assert (Hn : forall p v, t !! p = Some v -> ~ owned td' fl' v).
  { intros p v Hv [Hin|(q & Hq)]%Hx; [|by apply (Hd p q v)].
    by destruct (vo_page _ _ _ _ H1 p v Hv) as (_ & _ & ?). }
  split_and!; [|done|].
  - apply (vm_ok_ext H1); [done|apply H2'| |].
    + intros p v Hv Hin. apply (Hn p v Hv). by left.
    + intros p v a _ Hv Ha. by apply (Hm p v).
  - intros p q v Hv Hq. apply (Hn p v Hv). right. by exists q.
Qed.

(** The parent's pages are no tables of the child and not free. *)
Lemma two_kept k pml4 t d td fl p v : two k pml4 t d td fl -> t !! p = Some v -> kept td fl v.
Proof.
  intros (H1 & _ & Hd) Hv. destruct (vo_page _ _ _ _ H1 p v Hv) as (_ & (Hm & _) & Hn).
  split_and!; [done..|]. intros q _. by apply (Hd p q).
Qed.

Lemma untouched_pte k pml4 t fl k' q : vm_ok k pml4 t fl -> untouched t k k' -> path_ok q -> pte k' t q = pte k t q.
Proof. intros Hok Hm Hq. apply (pte_ext Hok); [|done]. intros p v a Hv _ Ha. by apply (Hm p v). Qed.

(** ** [setupkvm] *)

(** Of the kernel's half only the first entry is used, for the kernel's memory. *)
Definition high_free (k : kst) (d : Z) : Prop :=
  forall j, 256 < j < 512 -> has (load 8 (k_mem k) (d + 8 * j)) PTE_P = false.

Lemma setupkvm_ok k pml4 t d fl : vm_ok k pml4 t (d :: fl) ->
  exists k', setupkvm k = Ok d k' /\ two k' pml4 t d {[ [] := d ]} fl /\ only_mem k k' /\ untouched t k k' /\ 0 < d /\
    high_free k' d.
Proof.
  intros Hok. destruct (vm_kalloc k pml4 t (d :: fl) Hok) as (k1 & E1 & Hok1 & Ho1 & Hm1 & Hfr).
  cbn [head tail default from_option id] in *. pose proof (Hfr d eq_refl) as Hd1.
  destruct (vm_zero_page k1 pml4 t fl d Hok1 Hd1) as (k2 & E2 & Hok2 & Ho2 & Hd2 & _ & Hz & Hm2).
  set (e := Z.lor (Z.lor (V2P (k_kpdpt k2)) PTE_P) PTE_W).
  set (k3 := set_k_mem (store 8 (k_mem k2) (d + 8 * 256) e) k2).
  assert (Hout : forall a, ~ (d <= a < d + PGSIZE) -> k_mem k3 a = k_mem k2 a).
  { intros a Ha. cbn [k3 k_mem set_k_mem]. apply store_old. change (Z.of_nat 8) with 8. unfold PGSIZE in Ha. lia. }
  destruct (vm_outside k2 pml4 t fl d (k_mem k3) Hok2 Hd2 Hout) as [Hok3 _].
  change (set_k_mem (k_mem k3) k2) with k3 in Hok3.
  pose proof (page_ok_pos _ _ (proj1 Hd1)) as Hpos.
  exists k3. split; [|split; [|split; [|split]]].
  - unfold setupkvm. erewrite bind_ok; [|exact E1]. cbn beta. erewrite bind_ok; [|exact E2]. done.
  - split_and!; [done| |].
    + destruct Hd2 as [Hdp Hdn]. constructor.
      * apply Hok3.
      * apply Hok3.
      * done.
      * intros p v [<- <-]%lookup_singleton_Some. split; [split; [simpl; lia|split; [constructor|done]]|]. split; [done|].
        intros ?. apply Hdn. by left.
      * intros p q v [<- _]%lookup_singleton_Some [<- _]%lookup_singleton_Some. done.
      * intros p i v [? _]%lookup_singleton_Some. done.
      * intros p i v [<- <-]%lookup_singleton_Some Hp. rewrite lookup_singleton_ne by done. cbn [entry_ok].
        destruct (path_ok_tail _ _ Hp) as (_ & Hi & _). destruct Hp as (_ & _ & Hl). specialize (Hl i eq_refl).
        cbn [k3 k_mem set_k_mem]. rewrite load_store_other by lia.
        rewrite load_zero; [done|]. intros x Hx. apply Hz. unfold PGSIZE. lia.
    + intros p q v Hv [_ <-]%lookup_singleton_Some. destruct Hd1 as [_ Hn]. apply Hn. right. by exists p.
  - eapply only_mem_trans; [exact Ho1|]. eapply only_mem_trans; [exact Ho2|]. by destruct k2.
  - intros p v a Hv Ha. assert (Hnd : ~ (d <= a < d + PGSIZE)).
    { destruct (fresh_disjoint Hok1 p v d Hv Hd1); lia. }
    by rewrite Hout, Hm2, Hm1.
  - split; [lia|]. intros j Hj. cbn [k3 k_mem set_k_mem]. rewrite load_store_other by lia.
    rewrite load_zero; [done|]. intros x Hx. apply Hz. unfold PGSIZE. lia.
Qed.

Lemma flags_present e : has e PTE_P = true -> Z.lor (PTE_FLAGS e) PTE_P = PTE_FLAGS e.
Proof.
  unfold has, PTE_P, PTE_FLAGS. intros H%negb_true_iff%Z.eqb_neq. apply Z.bits_inj'. intros n Hn.
  rewrite Z.lor_spec. destruct (Z.eq_dec n 0) as [->|Hne].
  - rewrite Z.land_spec. change (Z.testbit 4095 0) with true. change (Z.testbit 1 0) with true.
    rewrite andb_true_r, orb_true_r. destruct (Z.testbit e 0) eqn:E; [done|]. exfalso. apply H.
    apply Z.bits_inj'. intros m Hm. rewrite Z.land_spec, Z.bits_0. destruct (Z.eq_dec m 0) as [->|]; [by rewrite E|].
    change 1 with (2 ^ 0). rewrite Z.pow2_bits_false by lia. apply andb_false_r.
  - change 1 with (2 ^ 0). rewrite (Z.pow2_bits_false 0 n) by lia. apply orb_false_r.
Qed.

Lemma flags_range e : 0 <= PTE_FLAGS e < 4096 /\ i32 (PTE_FLAGS e) = PTE_FLAGS e.
Proof.
  unfold PTE_FLAGS. change 4095 with (Z.ones 12). rewrite Z.land_ones by lia.
  pose proof (Z.mod_pos_bound e (2 ^ 12) ltac:(lia)) as Hb. change (2 ^ 12) with 4096 in *.
  split; [done|]. unfold i32. rewrite Z.mod_small; lia.
Qed.

(** ** [copyuvm] *)

(** Filling a page [w] that was free: the child's address space does not see it. *)
Lemma fill_page k d td w fl m :
  vm_ok k d td (w :: fl) -> (forall a, ~ (w <= a < w + PGSIZE) -> m a = k_mem k a) ->
  exists k1, kalloc k = Ok w k1 /\ 0 < w /\ k_mem k1 = k_mem k /\ only_mem k k1 /\
    let k2 := set_k_mem m k1 in
    vm_ok k2 d td fl /\ only_mem k k2 /\ fresh k2 td fl w /\ vm_step (fun _ => False) k td k2 td.
Proof.
  intros Hok Hm. destruct (vm_kalloc k d td (w :: fl) Hok) as (k1 & E1 & Hok1 & Ho1 & Hm1 & Hfr).
  cbn [head tail default from_option id] in *. pose proof (Hfr w eq_refl) as Hw1.
  assert (Hm' : forall a, ~ (w <= a < w + PGSIZE) -> m a = k_mem k1 a) by (intros; by rewrite Hm1, Hm).
  destruct (vm_outside k1 d td fl w m Hok1 Hw1 Hm') as [Hok2 Hq2].
  pose proof (page_ok_pos _ _ (proj1 Hw1)) as Hpos.
  assert (Ho2 : only_mem k (set_k_mem m k1)) by (eapply only_mem_trans; [exact Ho1|]; by destruct k1).
  exists k1. cbv zeta. split; [done|]. split; [lia|]. do 5 (split; [done|]). constructor.
  - done.
  - done.
  - intros q _ Hq _. rewrite Hq2 by done. destruct q; cbn [pte]; by rewrite ?Hm1.
  - intros q v a _ _ Hv Ha. apply Hm. destruct (fresh_disjoint Hok1 q v w Hv Hw1); lia.
  - done.
  - intros v a Hv Ha. apply Hm. destruct (fresh_disjoint Hok1 [] v w Hv Hw1); lia.
Qed.

Lemma copy_round k pml4 t d td w fl va w0 :
  two k pml4 t d td (w :: fl) -> user_page va -> t !! page_path va = Some w0 -> td !! page_path va = None ->
  has (pte k t (page_path va)) PTE_P = true ->
  exists k1 k2 m3 k3 td3 fl3, kalloc k = Ok w k1 /\ 0 < w /\ kmemmove w w0 PGSIZE k1 = Ok tt k2 /\
    mappages d va PGSIZE (V2P w) (i32 (PTE_FLAGS (pte k t (page_path va)))) k2 = Ok m3 k3 /\
    two k3 pml4 t d td3 fl3 /\ only_mem k k3 /\ untouched t k k3 /\
    vm_step (eq (page_path va)) k td k3 td3 /\ (length fl <= length fl3 + 3)%nat /\
    (m3 = -1 /\ (length fl <= 2)%nat /\ (forall x, owned td3 fl3 x <-> owned td fl x) \/
     m3 = 0 /\ td3 !! page_path va = Some w /\
       pte k3 td3 (page_path va) = V2P w + PTE_FLAGS (pte k t (page_path va)) /\
       (forall o, 0 <= o < PGSIZE -> k_mem k3 (w + o) = k_mem k (w0 + o)) /\
       forall x, owned td3 fl3 x <-> owned td (w :: fl) x).
Proof.
  intros H2 Hva Hw0 Hn HP. pose proof H2 as (Hp & Hc & Hd). set (e := pte k t (page_path va)) in *.
  assert (Hmv : forall a, memmove (k_mem k) w w0 PGSIZE a = moved (k_mem k) w w0 PGSIZE a)
    by (intros; by apply memmove_moved).
  destruct (fill_page k d td w fl (memmove (k_mem k) w w0 PGSIZE) Hc) as (k1 & E1 & Hw & Hm1 & Ho1 & Hok2 & Ho2 & Hw2 & Hst2).
  { intros a Ha. rewrite Hmv. unfold moved.
    destruct (Z.leb_spec w a); destruct (Z.ltb_spec a (w + PGSIZE)); simpl; done || lia. }
  set (k2 := set_k_mem (memmove (k_mem k) w w0 PGSIZE) k1) in *.
  destruct (flags_range e) as [Hf Ei]. rewrite Ei.
  destruct (mappages_ok k2 d td fl va w (PTE_FLAGS e) Hok2 Hva Hn Hw2 Hf)
    as (m3 & k3 & td3 & fl3 & E3 & Hok3 & Hst3 & Hl3 & Hb3 & H3).
  assert (How : forall x, owned td3 fl3 x -> owned td (w :: fl) x).
  { intros x. rewrite owned_cons. destruct H3 as [(_ & _ & Hs)|(_ & _ & _ & Ho)]; [|apply Ho].
    intros Hx. left. by apply (vs_owned _ _ _ _ _ _ Hs). }
  assert (Hun : untouched t k k3).
  { intros p v a Hv Ha. destruct (vo_page _ _ _ _ Hp p v Hv) as (_ & (Hvm & _) & [Hvw Hvf]%not_elem_of_cons).
    rewrite (Hb3 v); [|split_and!; [done|done|intros q _; by apply (Hd p q)]|done].
    cbn [k2 k_mem set_k_mem]. rewrite Hmv. unfold moved.
    destruct (pages_disjoint v w Hvm (proj1 (proj1 Hw2)) Hvw);
      destruct (Z.leb_spec w a); destruct (Z.ltb_spec a (w + PGSIZE)); simpl; done || lia. }
  assert (Ho3 : only_mem k k3) by (eapply only_mem_trans; [exact Ho2|apply Hst3]).
  assert (Hk2 : k_mem k2 = memmove (k_mem k) w w0 PGSIZE) by exact eq_refl.
  assert (E2 : kmemmove w w0 PGSIZE k1 = Ok tt k2) by (unfold k2; rewrite <- Hm1; exact eq_refl).
  pose proof (two_frame k pml4 t d td (w :: fl) k3 td3 fl3 H2 Ho3 Hok3 How Hun) as H2'.
  exists k1, k2, m3, k3, td3, fl3. clearbody k2. split_and!; [exact E1|exact Hw|exact E2|exact E3|done..| |done|].
  - eapply vm_step_trans; [|exact Hst3]. by eapply vm_step_mono; [|exact Hst2].
  - destruct H3 as [(-> & Hl & Hs)|(-> & Ht & Hpt & Ho)]; [left|right].
    + split_and!; [done|done|apply (vs_owned _ _ _ _ _ _ Hs)].
    + split_and!; [done|done|by rewrite Hpt, flags_present| |].
      * intros o Hoff. rewrite (Hb3 w), Hk2; [|by apply (fresh_kept k2)|lia]. rewrite Hmv.
        unfold moved. rewrite (proj2 (Z.leb_le w (w + o))), (proj2 (Z.ltb_lt (w + o) _)) by lia.
        cbn [andb]. f_equal. lia.
      * intros x. by rewrite Ho, owned_cons.
Qed.

(** The child's pages from [lo] to [hi] in [k] have the contents and flags of the parent's
    in [k0]. *)
Definition copied (k0 : kst) (t : gmap (list Z) Z) (k : kst) (td : gmap (list Z) Z) (lo hi : Z) : Prop :=
  forall va, user_page va -> lo <= va < hi ->
    exists w0 w, t !! page_path va = Some w0 /\ td !! page_path va = Some w /\
      pte k td (page_path va) = V2P w + PTE_FLAGS (pte k0 t (page_path va)) /\
      forall o, 0 <= o < PGSIZE -> k_mem k (w + o) = k_mem k0 (w0 + o).

Lemma copied_next k0 t k td k' td' a hi w0 w :
  user_page a -> boundary (a + PGSIZE) -> t !! page_path a = Some w0 -> td !! page_path a = Some w ->
  pte k td (page_path a) = V2P w + PTE_FLAGS (pte k0 t (page_path a)) ->
  (forall o, 0 <= o < PGSIZE -> k_mem k (w + o) = k_mem k0 (w0 + o)) ->
  vm_step (in_range (a + PGSIZE) hi) k td k' td' -> copied k0 t k' td' (a + PGSIZE) hi ->
  copied k0 t k' td' a hi.
Proof.
  intros Ha Hb Hw0 Hw Hp Hm Hst Hrest va Hva Hr. destruct (decide (va = a)) as [->|Hne].
  - assert (HnR : ~ in_range (a + PGSIZE) hi (page_path a))
      by (apply range_later; [done|done|unfold PGSIZE; lia]).
    exists w0, w. rewrite (st_pages _ _ _ _ _ Hst), (st_ptes _ _ _ _ _ Hst) by (done || by apply user_path, Hva).
    split_and!; [done..|]. intros o Ho. rewrite (st_bytes _ _ _ _ _ Hst (page_path a) w); [by apply Hm|done..|lia].
  - apply Hrest; [done|]. destruct (pages_disjoint va a (proj2 Hva) (proj2 Ha) Hne); lia.
Qed.

(** The copy so far is of a parent that has not changed since. *)
Lemma copied_since k0 pml4 t fl k k' td lo hi :
  vm_ok k0 pml4 t fl -> untouched t k0 k -> copied k t k' td lo hi -> copied k0 t k' td lo hi.
Proof.
  intros Hok Hun Hc va Hva Hr. destruct (Hc va Hva Hr) as (w0 & w & Hw0 & Hw & Hp & Hm).
  exists w0, w. split_and!; [done|done| |].
  - rewrite Hp. by rewrite (untouched_pte k0 pml4 t fl k) by (done || apply user_path, Hva).
  - intros o Ho. rewrite Hm by done. apply (Hun _ _ _ Hw0). lia.
Qed.

Definition mapped (t : gmap (list Z) Z) (lo hi : Z) : Prop :=
  forall va, user_page va -> lo <= va < hi -> is_Some (t !! page_path va).

(** The head of a round: the parent's entry. *)
Lemma find_page k pml4 t fl va w : vm_ok k pml4 t fl -> user_page va -> t !! page_path va = Some w ->
  exists a, walkpgdir pml4 va false k = Ok a k /\ (a =? 0) = false /\
    load 8 (k_mem k) a = pte k t (page_path va) /\
    has (pte k t (page_path va)) PTE_P = true /\ P2V (PTE_ADDR (pte k t (page_path va))) = w.
Proof.
  intros Hok [Hva Hm] Hw. pose proof (find_entry Hok va w Hva Hw) as H.
  rewrite PGROUNDDOWN_spec, Hm, Z.sub_0_r in H. exact H.
Qed.

(** The pages in use by the child or free: none is gained, and at most one lost. *)
Definition leak (td : gmap (list Z) Z) (fl : list Z) (td' : gmap (list Z) Z) (fl' : list Z) : Prop :=
  (forall x, owned td' fl' x -> owned td fl x) /\
  exists w, forall x, owned td fl x -> owned td' fl' x \/ x = w.

Lemma copyuvm_loop_ok fuel k pml4 t d td fl a sz :
  two k pml4 t d td fl -> sz <= 2 ^ 47 -> boundary a -> mapped t a sz -> unmapped td a sz ->
  sz - a <= PGSIZE * (Z.of_nat fuel - 1) -> (fuel <> 0)%nat ->
  exists b k' td' fl', copyuvm_loop fuel pml4 d a sz k = Ok b k' /\ two k' pml4 t d td' fl' /\
    only_mem k k' /\ untouched t k k' /\
    (b = true /\ vm_step (in_range a sz) k td k' td' /\ copied k t k' td' a sz /\
       (forall x, owned td' fl' x <-> owned td fl x) \/
     b = false /\ leak td fl td' fl' /\ Z.of_nat (length fl) < 4 * npages a sz).
Proof.
  revert k td fl a. induction fuel as [|fuel IH]; intros k td fl a H2 Hsz Ha Hmap Hun Hfuel Hnz; [done|].
  cbn [copyuvm_loop]. destruct (Z.ltb_spec a sz) as [Hlt|Hge].
  2: { exists true, k, td, fl. split_and!; [done|done|apply only_mem_refl|done|]. left.
       split_and!; [done|apply vm_step_refl| |done]. intros va _ ?. lia. }
  destruct (boundary_page a sz Ha Hlt Hsz) as [Hua Hnext]. assert (Hn1 : 1 <= npages a sz).
  { unfold npages, PGSIZE in *. apply Z.div_le_lower_bound; lia. }
  destruct (Hmap a Hua ltac:(lia)) as [w0 Hw0]. pose proof H2 as (Hp & Hc & _).
  destruct (find_page k pml4 t fl a w0 Hp Hua Hw0) as (e & Ee & Hnze & El & HP & Ew).
  erewrite bind_ok; [|exact Ee]. cbn beta. rewrite Hnze. erewrite bind_ok; [|reflexivity]. cbn beta.
  rewrite El, HP, Ew. cbn [negb]. destruct fl as [|w fl].
  { destruct (vm_kalloc k d td [] Hc) as (k1 & E1 & Hok1 & Ho1 & Hm1 & _).
    erewrite bind_ok; [|exact E1]. exists false, k1, td, [].
    assert (Hu1 : untouched t k k1) by (intros ? ? ? _ _; by rewrite Hm1).
    split_and!; [done|by apply (two_frame k pml4 t d td [])|done|done|]. right.
    split_and!; [done|split; [done|exists 0; by left]|cbn [length]; lia]. }
  destruct (copy_round k pml4 t d td w fl a w0 H2 Hua Hw0 (Hun a Hua ltac:(lia)) HP)
    as (k1 & k2 & m3 & k3 & td3 & fl3 & E1 & Hw & E2 & E3 & H23 & Ho3 & Hu3 & Hst3 & Hl3 & H3).
  erewrite bind_ok; [|exact E1]. cbn beta. rewrite (proj2 (Z.eqb_neq w 0)) by lia.
  erewrite bind_ok; [|exact E2]. erewrite bind_ok; [|exact E3]. cbn beta.
  destruct H3 as [(-> & Hl & How3)|(-> & Ht3 & Hp3 & Hb3 & How3)].
  { exists false, k3, td3, fl3. split_and!; [done..|]. right. split_and!; [done| |cbn [length]; lia].
    split; [|exists w]; intros x; rewrite How3, owned_cons; tauto. }
  change (0 <? 0) with false. cbv iota.
  assert (Hnp : npages (a + PGSIZE) sz = npages a sz - 1)
    by (unfold npages, PGSIZE; Z.div_mod_to_equations; lia).
  destruct (IH k3 td3 fl3 (a + PGSIZE)) as (b & k4 & td4 & fl4 & E4 & H24 & Ho4 & Hu4 & H4);
    [done|done|done| | |unfold PGSIZE in *; lia..|].
  { intros va Hva Hr. apply Hmap; [done|unfold PGSIZE in *; lia]. }
  { intros va Hva Hr. rewrite (st_pages _ _ _ _ _ Hst3); [apply Hun; [done|unfold PGSIZE in *; lia]|done|].
    intros E. apply user_page_inj in E; [unfold PGSIZE in *; lia|done..]. }
  exists b, k4, td4, fl4. split_and!; [done|done|by eapply only_mem_trans|by eapply untouched_trans|].
  destruct H4 as [(-> & Hst4 & Hc4 & How4)|(-> & [Hlk1 [x0 Hlk2]] & Hl4)]; [left|right].
  - split_and!; [done| | |intros x; by rewrite How4].
    + eapply vm_step_trans; (eapply vm_step_mono; [|eassumption]).
      * intros q <-. by exists a.
      * intros q. apply range_mono. unfold PGSIZE. lia.
    + eapply (copied_next k t k3 td3); try done. by apply (copied_since k pml4 t (w :: fl) k3).
  - split_and!; [done| |cbn [length] in *; lia]. split; [|exists x0]; intros x Hx.
    + by apply How3, Hlk1.
    + by apply Hlk2, How3.
Qed.

Lemma copied_user k0 pml4 t fl k td sz x :
  vm_ok k0 pml4 t fl -> copied k0 t k td PGSIZE sz -> 0 <= sz <= 2 ^ 47 -> PGSIZE <= x < PGROUNDUP sz ->
  user_byte k td x = user_byte k0 t x /\
  exists w, mapping k td x = Some (V2P w + PTE_FLAGS (pte k0 t (page_path x))).
Proof.
  intros Hok Hc Hsz Hx. destruct (PGROUNDUP_spec sz Hsz) as [[Hb1 Hb2] Hr].
  destruct (Hc (x - x mod PGSIZE)) as (w0 & w & Hw0 & Hw & Hp & Hm).
  { apply user_page_down. unfold PGSIZE in *. lia. }
  { unfold PGSIZE in *. Z.div_mod_to_equations. lia. }
  rewrite page_path_down in *. unfold user_byte, mapping. rewrite Hw0, Hw, Hp. split; [|by exists w].
  f_equal. apply Hm. by apply Z.mod_pos_bound.
Qed.

Lemma untouched_user k pml4 t fl k' x : vm_ok k pml4 t fl -> untouched t k k' -> 0 <= x < 2 ^ 47 ->
  mapping k' t x = mapping k t x /\ user_byte k' t x = user_byte k t x.
Proof.
  intros Hok Hun Hx. unfold mapping, user_byte.
  rewrite (untouched_pte k pml4 t fl) by (done || by apply user_path).
  destruct (t !! page_path x) as [w|] eqn:Hw; [|done]. split; [done|]. f_equal. apply (Hun _ _ _ Hw).
  pose proof (Z.mod_pos_bound x PGSIZE ltac:(done)). lia.
Qed.

(** Freeing the child leaves the parent alone. *)
Lemma two_freevm k pml4 t d td fl : two k pml4 t d td fl ->
  exists k' fl', freevm d k = Ok tt k' /\ only_mem k k' /\ untouched t k k' /\ vm_ok k' pml4 t fl' /\
    forall x, x ∈ fl' <-> owned td fl x.
Proof.
  intros (Hp & Hc & Hd). destruct (freevm_ok Hc) as (k' & fl' & E & Ho & Hf & Hx & Hm).
  assert (Hun : untouched t k k').
  { intros p v a Hv Ha. apply Hm. intros q w Hw.
    destruct (pages_disjoint v w (node_aligned Hp p v Hv) (node_aligned Hc q w Hw)); [|lia..].
    intros ->. by apply (Hd p q w). }
  exists k', fl'. split_and!; try done. apply (vm_ok_ext Hp); [done|done| |].
  - intros p v Hv [Hin|(q & Hq)]%Hx; [|by apply (Hd p q v)].
    by destruct (vo_page _ _ _ _ Hp p v Hv) as (_ & _ & ?).
  - intros p v a _ Hv Ha. by apply (Hun p v).
Qed.

(** Without a free page [setupkvm] clears the page at address 0, which is not mapped. *)
Lemma setupkvm_none k pml4 t : vm_ok k pml4 t [] -> setupkvm k = Err (EFault "null pointer").
Proof. intros Hok. unfold setupkvm. by erewrite bind_ok; [|apply (kalloc_eq k []), Hok]. Qed.

Lemma copyuvm_none k pml4 t sz : vm_ok k pml4 t [] -> copyuvm pml4 sz k = Err (EFault "null pointer").
Proof. intros Hok. unfold copyuvm, mbind at 1, M_bind at 1. by rewrite (setupkvm_none _ _ _ Hok). Qed.

(** The whole of [copyuvm]. *)
Lemma copyuvm_run k pml4 t fl sz :
  vm_ok k pml4 t fl -> fl <> [] -> 0 <= sz < 2 ^ 32 -> mapped t PGSIZE sz ->
  exists r k' fl', copyuvm pml4 sz k = Ok r k' /\ only_mem k k' /\ vm_ok k' pml4 t fl' /\
    (forall x, 0 <= x < 2 ^ 47 -> mapping k' t x = mapping k t x /\ user_byte k' t x = user_byte k t x) /\
    (r <> 0 /\ (exists td, vm_ok k' r td fl' /\ (forall p q v, t !! p = Some v -> td !! q <> Some v) /\
        (forall x, PGSIZE <= x < PGROUNDUP sz -> user_byte k' td x = user_byte k t x /\
           exists w, mapping k' td x = Some (V2P w + PTE_FLAGS (pte k t (page_path x)))) /\
        (forall x, 0 <= x < 2 ^ 47 -> ~ (PGSIZE <= x < PGROUNDUP sz) -> user_byte k' td x = None) /\
        (forall x, owned td fl' x <-> x ∈ fl)) \/
     r = 0 /\ Z.of_nat (length fl) <= 4 * npages PGSIZE sz /\ (forall x, x ∈ fl' -> x ∈ fl) /\
       exists w, forall x, x ∈ fl -> x ∈ fl' \/ x = w).
Proof.
  intros Hok Hne Hsz Hmap. destruct fl as [|d fl]; [done|]. unfold copyuvm. rewrite u32_small by lia.
  destruct (setupkvm_ok k pml4 t d fl Hok) as (k1 & E1 & H2 & Ho1 & Hu1 & Hd & _).
  erewrite bind_ok; [|exact E1]. cbn beta. rewrite (proj2 (Z.eqb_neq d 0)) by lia.
  assert (Hb : boundary PGSIZE) by (split; [unfold PGSIZE; lia|done]).
  destruct (copyuvm_loop_ok (vm_fuel PGSIZE sz) k1 pml4 t d {[ [] := d ]} fl PGSIZE sz)
    as (b & k2 & td & fl2 & E2 & H22 & Ho2 & Hu2 & H); [done|lia|done|done| | | |].
  { intros va _ _. by apply lookup_singleton_ne. }
  { unfold vm_fuel, PGSIZE in *. Z.div_mod_to_equations. lia. }
  { unfold vm_fuel, PGSIZE in *. Z.div_mod_to_equations. lia. }
  assert (Hroot : forall x, owned {[ [] := d ]} fl x <-> x ∈ d :: fl).
  { intros x. unfold owned. setoid_rewrite elem_of_cons. setoid_rewrite lookup_singleton_Some. split.
    - intros [?|(p & _ & ->)]; [by right|by left].
    - intros [->|?]; [right; by exists []|by left]. }
  pose proof (untouched_trans _ _ _ _ Hu1 Hu2) as Hu12. pose proof (only_mem_trans _ _ _ Ho1 Ho2) as Ho12.
  erewrite bind_ok; [|exact E2]. cbn beta.
  destruct H as [(-> & Hst & Hc & How)|(-> & [Hlk1 [w Hlk2]] & Hl)].
  - exists d, k2, fl2. split_and!; [done|done|apply H22|intros x; by eapply untouched_user|]. left.
    split; [lia|]. exists td. split_and!; [apply H22|apply H22| | |].
    + intros x. apply (copied_user k pml4 t (d :: fl)); [done| |lia].
      by apply (copied_since k pml4 t (d :: fl) k1).
    + intros x Hx Hout. rewrite <- in_range_user in Hout by (done || lia).
      destruct (step_user _ _ _ _ _ x Hst Hx Hout) as [_ ->]. unfold user_byte. by rewrite lookup_singleton_ne.
    + intros x. by rewrite How.
  - destruct (two_freevm k2 pml4 t d td fl2 H22) as (k3 & fl3 & E3 & Ho3 & Hu3 & Hok3 & Hx3).
    exists 0, k3, fl3. split; [by erewrite bind_ok|].
    split_and!; [by eapply only_mem_trans|done|intros x; eapply untouched_user; [done|]; by eapply untouched_trans|].
    right. split_and!; [done|cbn [length]; lia| |exists w]; intros x.
    + rewrite Hx3. intros ?%Hlk1. by apply Hroot.
    + rewrite Hx3. intros ?%Hroot. by apply Hlk2.
Qed.

(** C4: [copyuvm], the heart of [fork], copies an address space.  With at least one free page
    it returns, and the parent's mappings and bytes stay as they were.  If it succeeds, the
    child is a well-formed address space of its own that shares no page with the parent; from
    the first page to the size it reads the same bytes with the same flags, it has nothing else
    mapped, and all its pages come from the free list.  If it fails, for want of memory, it
    returns 0 and has taken the child down; the free list has its pages back, except for one
    at most: the page that is lost when [mappages] fails.  Without any free page it does not
    return: [setupkvm] writes through the null pointer that [kalloc] gave it, and faults. *)
Theorem copyuvm_copies k pml4 t fl sz :
  vm_ok k pml4 t fl -> 0 <= sz < 2 ^ 32 -> mapped t PGSIZE sz ->
  (fl = [] -> copyuvm pml4 sz k = Err (EFault "null pointer")) /\
  (fl <> [] ->
   exists r k' fl', copyuvm pml4 sz k = Ok r k' /\ only_mem k k' /\ vm_ok k' pml4 t fl' /\
    (forall x, 0 <= x < 2 ^ 47 -> mapping k' t x = mapping k t x /\ user_byte k' t x = user_byte k t x) /\
    (r <> 0 /\ (exists td, vm_ok k' r td fl' /\ (forall p q v, t !! p = Some v -> td !! q <> Some v) /\
        (forall x, PGSIZE <= x < PGROUNDUP sz -> user_byte k' td x = user_byte k t x /\
           exists w, mapping k' td x = Some (V2P w + PTE_FLAGS (pte k t (page_path x)))) /\
        (forall x, 0 <= x < 2 ^ 47 -> ~ (PGSIZE <= x < PGROUNDUP sz) -> user_byte k' td x = None) /\
        (forall x, owned td fl' x <-> x ∈ fl)) \/
     r = 0 /\ Z.of_nat (length fl) <= 4 * npages PGSIZE sz /\ (forall x, x ∈ fl' -> x ∈ fl) /\
       exists w, forall x, x ∈ fl -> x ∈ fl' \/ x = w)).
Proof.
  intros Hok Hsz Hmap. split; [intros ->; by eapply copyuvm_none|]. intros Hne. by apply copyuvm_run.
Qed.

Lemma copyuvm_copies_witness :
  exists k1 k2 d td t, allocuvm (demo_pg 0) 4096 4196 demo_vm = Ok 4196 k1 /\
    copyuvm (demo_pg 0) 4196 k1 = Ok d k2 /\ d <> 0 /\
    (forall x, 4096 <= x < 8192 -> user_byte k2 td x = user_byte k1 t x) /\ user_byte k2 td 8192 = None.
Proof.
  destruct demo_grown as (k1 & t & fl & E & Hok & _ & Hacc & Hlen & _).
  destruct (copyuvm_copies k1 (demo_pg 0) t fl 4196 Hok) as [_ Hc].
  - lia.
  - intros va _ Hva. apply Hacc. unfold PGSIZE in Hva. lia.
  - destruct Hc as (d & k2 & fl2 & E2 & _ & _ & _ & H).
    { intros ->. cbn [length] in Hlen. lia. }
    destruct H as [(Hd & td & _ & _ & Hin & Hout & _)|(_ & Hl & _)].
    + exists k1, k2, d, td, t. split; [exact E|]. split; [exact E2|]. split; [exact Hd|]. split.
      * intros x Hx. exact (proj1 (Hin x Hx)).
      * apply Hout; [lia|]. vm_compute. intros [_ Hc]. discriminate.
    + change (npages PGSIZE 4196) with 1 in Hl. lia.
Defined.
