(* ===== verification/Pipe.v ===== *)
(** Pipes, [src/pipe.c].

    A [struct pipe *] is the address of its page; [k_pipes] holds the struct at
    that address.  [filealloc] and [fileclose] are in [File.v], with
    [pipealloc], which calls them.  [pipewrite] and [piperead] sleep inside their loops; they
    are given as code, so that what a sleeping call goes on with is there. *)
From Stdlib Require Import ZArith Lia.
From stdpp Require Import base gmap sets strings numbers list.
From S2P Require Import Prelude State Spinlock Code Sched Kalloc.

Local Open Scope Z_scope.

Definition pipe_at (p : Z) : M kst pipe := k ← get; deref "pipe" (k_pipes k !! p).
Definition upd_pipe (p : Z) (f : pipe -> pipe) : M kst unit :=
  modify (fun k => set_k_pipes (alter f p (k_pipes k)) k).

Definition pipeclose (p : Z) (writable : bool) : M kst unit :=
  acquire (L_pipe p);;
  (if writable then
     upd_pipe p (set_pi_writeopen false);;
     wakeup (Ch_nread p)
   else
     upd_pipe p (set_pi_readopen false);;
     wakeup (Ch_nwrite p));;
  x ← pipe_at p;
  if negb (pi_readopen x) && negb (pi_writeopen x) then
    release (L_pipe p);;
    modify (fun k => set_k_pipes (delete p (k_pipes k)) k);;
    kfree p
  else release (L_pipe p).

(** [p->data[p->nwrite++ % PIPESIZE] = c] *)
Definition pipe_put (c : Z) (x : pipe) : pipe :=
  set_pi_nwrite (u32 (pi_nwrite x + 1))
    (set_pi_data (<[Z.to_nat (pi_nwrite x mod PIPESIZE) := c]> (pi_data x)) x).
Definition pipe_full (x : pipe) : bool := pi_nwrite x =? u32 (pi_nread x + PIPESIZE).
Definition pipe_empty (x : pipe) : bool := pi_nread x =? pi_nwrite x.

(** The loop of [pipewrite] over the bytes not yet written: [false] if it gave up.  The
    bytes are the loop's variable: behind [sleep] it goes on with those that are left. *)
Fixpoint pipewrite_loop (p : Z) (bs : list Z) : code (list Z) bool :=
  match bs with
  | [] => mret true
  | c :: bs' =>
      x ← do_ (pipe_at p);
      if pipe_full x then
        '(_, pr) ← do_ curproc;
        if negb (pi_readopen x) || p_killed pr then
          unlock (L_pipe p);;
          mret false
        else
          wakeup_code (Ch_nread p);;
          sleep_code (Ch_nwrite p) (L_pipe p);;
          C_again (c :: bs')
      else
        do_ (upd_pipe p (pipe_put c));;
        pipewrite_loop p bs'
  end.

(** [pipewrite] behind its loop, and from a head of its loop on. *)
Definition pipewrite_end (p n : Z) (ok : bool) : code (list Z) Z :=
  if ok then
    wakeup_code (Ch_nread p);;
    unlock (L_pipe p);;
    mret n
  else mret (-1).
Definition pipewrite_from (p n : Z) (bs : list Z) : code (list Z) Z :=
  ok ← pipewrite_loop p bs; pipewrite_end p n ok.

Definition pipewrite_code (p : Z) (bs : list Z) : code (list Z) Z :=
  lock (L_pipe p);;
  pipewrite_from p (Z.of_nat (length bs)) bs.

Definition pipewrite (p : Z) (bs : list Z) : M kst Z := run (pipewrite_code p bs).

(** The copy loop of [piperead]: at most [n] bytes. *)
Fixpoint piperead_loop (n : nat) (p : Z) : M kst (list Z) :=
  match n with
  | O => mret []
  | S n' =>
      x ← pipe_at p;
      if pipe_empty x then mret []
      else
        let c := default 0 (pi_data x !! Z.to_nat (pi_nread x mod PIPESIZE)) in
        upd_pipe p (set_pi_nread (u32 (pi_nread x + 1)));;
        cs ← piperead_loop n' p;
        mret (c :: cs)
  end.

(** [piperead] from the head of its first loop on. *)
Definition piperead_from (p n : Z) (_ : unit) : code unit (Z * list Z) :=
  x ← do_ (pipe_at p);
  if pipe_empty x && pi_writeopen x then
    '(_, pr) ← do_ curproc;
    if p_killed pr then
      unlock (L_pipe p);;
      mret (-1, [])
    else
      sleep_code (Ch_nread p) (L_pipe p);;
      C_again tt
  else
    bs ← do_ (piperead_loop (Z.to_nat n) p);
    wakeup_code (Ch_nwrite p);;
    unlock (L_pipe p);;
    mret (Z.of_nat (length bs), bs).

Definition piperead_code (p n : Z) : code unit (Z * list Z) :=
  lock (L_pipe p);;
  piperead_from p n tt.

Definition piperead (p n : Z) : M kst (Z * list Z) := run (piperead_code p n).

(** ** The ring buffer as a queue *)

(** The bytes between the two counters, oldest first. *)
Definition pending (x : pipe) : nat := Z.to_nat (u32 (pi_nwrite x - pi_nread x)).
Definition queue (x : pipe) : list Z :=
  (fun i => default 0 (pi_data x !! Z.to_nat ((pi_nread x + Z.of_nat i) mod PIPESIZE)))
    <$> seq 0 (pending x).

Record pipe_ok (x : pipe) : Prop := mk_pipe_ok {
  po_len : length (pi_data x) = Z.to_nat PIPESIZE;
  po_r : 0 <= pi_nread x < 2 ^ 32;
  po_w : 0 <= pi_nwrite x < 2 ^ 32;
  po_cnt : (pending x <= Z.to_nat PIPESIZE)%nat
}.

(** The counters wrap at a multiple of the buffer size. *)
Lemma mod_u32 a : u32 a mod PIPESIZE = a mod PIPESIZE.
Proof.
  unfold u32, PIPESIZE. rewrite <- Znumtheory.Zmod_div_mod; [done|lia|lia|].
  exists (2 ^ 23). lia.
Qed.

Lemma length_queue x : length (queue x) = pending x.
Proof. unfold queue. by rewrite length_fmap, length_seq. Qed.

(** Without the wrap-around: [nwrite = nread + pending]. *)
Lemma pending_eq x : pipe_ok x ->
  u32 (pi_nread x + Z.of_nat (pending x)) = pi_nwrite x.
Proof.
  intros [_ Hr Hw _]. unfold pending. rewrite Z2Nat.id by (unfold u32; apply Z.mod_pos_bound; lia).
  unfold u32. rewrite Zplus_mod_idemp_r. replace (pi_nread x + (pi_nwrite x - pi_nread x)) with (pi_nwrite x) by lia.
  apply Z.mod_small. lia.
Qed.

Lemma pipe_full_pending x : pipe_ok x -> pipe_full x = bool_decide (pending x = Z.to_nat PIPESIZE).
Proof.
  intros H. pose proof (pending_eq x H) as E. destruct H as [_ Hr Hw Hc]. unfold pipe_full.
  rewrite <- E. case_bool_decide as Hp.
  - rewrite Hp. apply Z.eqb_refl.
  - apply Z.eqb_neq. intros E2. apply Hp. unfold u32, PIPESIZE in *.
    assert (Hd : (pi_nread x + Z.of_nat (pending x)) mod 2 ^ 32 = (pi_nread x + 512) mod 2 ^ 32) by done.
    assert (Z.of_nat (pending x) = 512); [|lia].
    assert (((pi_nread x + Z.of_nat (pending x)) - (pi_nread x + 512)) mod 2 ^ 32 = 0)
      by (rewrite Zminus_mod, Hd, Z.sub_diag; done).
    replace (pi_nread x + Z.of_nat (pending x) - (pi_nread x + 512)) with (Z.of_nat (pending x) - 512) in * by lia.
    apply Z.mod_divide in H; [|lia]. destruct H as [q Hq]. nia.
Qed.

Lemma pipe_empty_pending x : pipe_ok x -> pipe_empty x = bool_decide (pending x = O).
Proof.
  intros [_ Hr Hw Hc]. unfold pipe_empty, pending. case_bool_decide as Hp.
  - apply Z.eqb_eq. assert (u32 (pi_nwrite x - pi_nread x) = 0).
    { pose proof (u32_range (pi_nwrite x - pi_nread x)). lia. }
    unfold u32 in *. apply Z.mod_divide in H; [|lia]. destruct H as [q Hq]. nia.
  - apply Z.eqb_neq. intros E. apply Hp. rewrite E, Z.sub_diag. done.
Qed.

Lemma slot_inj r i j : 0 <= i < PIPESIZE -> 0 <= j < PIPESIZE ->
  (r + i) mod PIPESIZE = (r + j) mod PIPESIZE -> i = j.
Proof.
  unfold PIPESIZE. intros Hi Hj E.
  assert (E2 : ((r + i) - (r + j)) mod 512 = 0) by (rewrite Zminus_mod, E, Z.sub_diag; done).
  replace (r + i - (r + j)) with (i - j) in E2 by lia.
  apply Z.mod_divide in E2; [|lia]. destruct E2 as [q Hq]. nia.
Qed.

Lemma pending_add x d : pipe_ok x -> 0 <= Z.of_nat (pending x) + d < 2 ^ 32 ->
  u32 (pi_nwrite x - pi_nread x + d) = Z.of_nat (pending x) + d.
Proof.
  intros H Hd. unfold pending in *. rewrite Z2Nat.id in * by (unfold u32; apply Z.mod_pos_bound; lia).
  rewrite <- u32_add_l. by apply u32_small.
Qed.

Lemma queue_put x c : pipe_ok x -> (pending x < Z.to_nat PIPESIZE)%nat ->
  pipe_ok (pipe_put c x) /\ queue (pipe_put c x) = queue x ++ [c].
Proof.
  intros H Hp. pose proof (pending_eq x H) as Ew. pose proof H as [Hl Hr Hw Hc].
  assert (Ep : pending (pipe_put c x) = S (pending x)).
  { unfold pending at 1. simpl. rewrite u32_sub_l.
    replace (pi_nwrite x + 1 - pi_nread x) with (pi_nwrite x - pi_nread x + 1) by lia.
    rewrite pending_add; [lia|done|unfold PIPESIZE in *; lia]. }
  split.
  - constructor; simpl; [by rewrite length_insert|done|apply u32_range|rewrite Ep; lia].
  - unfold queue. rewrite Ep, seq_S, fmap_app. simpl. f_equal.
    + apply list_fmap_ext. intros i y Hy. apply lookup_seq in Hy as [-> Hi]. f_equal.
      apply list_lookup_insert_ne. rewrite <- Ew, mod_u32. intros E.
      apply Z2Nat.inj in E; [|apply Z.mod_pos_bound; unfold PIPESIZE; lia..].
      apply slot_inj in E; unfold PIPESIZE in *; lia.
    + f_equal. rewrite <- Ew, mod_u32.
      rewrite list_lookup_insert_eq; [done|]. rewrite Hl.
      pose proof (Z.mod_pos_bound (pi_nread x + Z.of_nat (pending x)) PIPESIZE). unfold PIPESIZE in *. lia.
Qed.

Lemma queue_get x : pipe_ok x -> (0 < pending x)%nat ->
  let x' := set_pi_nread (u32 (pi_nread x + 1)) x in
  pipe_ok x' /\
  queue x = default 0 (pi_data x !! Z.to_nat (pi_nread x mod PIPESIZE)) :: queue x'.
Proof.
  intros H Hp x'. pose proof H as [Hl Hr Hw Hc].
  assert (Ep : S (pending x') = pending x).
  { unfold pending at 1. simpl. rewrite u32_sub_r.
    replace (pi_nwrite x - (pi_nread x + 1)) with (pi_nwrite x - pi_nread x + -1) by lia.
    rewrite pending_add; [lia|done|unfold PIPESIZE in *; lia]. }
  split.
  - constructor; simpl; [done|apply u32_range|done|lia].
  - unfold queue. rewrite <- Ep. cbn [seq fmap list_fmap]. rewrite Z.add_0_r. f_equal.
    rewrite <- fmap_S_seq, <- list_fmap_compose. apply list_fmap_ext. intros i y Hy.
    apply lookup_seq in Hy as [-> Hi]. unfold compose. simpl. do 3 f_equal.
    rewrite <- (Zplus_mod_idemp_l (u32 _)), mod_u32, Zplus_mod_idemp_l. f_equal. lia.
Qed.

(** ** The loops *)

(** What the pipe operations need of the state. *)
Definition pipe_pre (k : kst) (p : Z) (x : pipe) : Prop :=
  k_pipes k !! p = Some x /\ pipe_ok x.

Definition set_pipe (p : Z) (x : pipe) (k : kst) : kst :=
  set_k_pipes (<[p := x]> (k_pipes k)) k.

Lemma set_pipe_id p x k : k_pipes k !! p = Some x -> set_pipe p x k = k.
Proof. intros E. unfold set_pipe. rewrite insert_id by done. by destruct k. Qed.

Lemma set_pipe_pipe p x y k : set_pipe p y (set_pipe p x k) = set_pipe p y k.
Proof. unfold set_pipe. simpl. by rewrite insert_insert_eq. Qed.

Lemma pipe_at_set p x k : pipe_at p (set_pipe p x k) = Ok x (set_pipe p x k).
Proof. unfold pipe_at, get, mbind, M_bind, deref. simpl. by rewrite lookup_insert_eq. Qed.

Lemma upd_pipe_set p x f k : upd_pipe p f (set_pipe p x k) = Ok tt (set_pipe p (f x) k).
Proof.
  unfold upd_pipe, modify, set_pipe. simpl. rewrite alter_insert_eq. done.
Qed.

(** What is left of a write of [n] bytes, [bs] of them not yet written, and of a read, when
    process [i] has gone to sleep in it. *)
Definition pipewrite_asleep (p n : Z) (bs : list Z) (i : nat) (ie : bool) : code (list Z) Z :=
  (sleep_back i (L_pipe p) ie;; C_again bs) ≫= pipewrite_end p n.
Definition piperead_asleep (p : Z) (i : nat) (ie : bool) : code unit (Z * list Z) :=
  sleep_back i (L_pipe p) ie;; C_again tt.

Definition room (x : pipe) : nat := (Z.to_nat PIPESIZE - pending x)%nat.

(** The code under the lock of the pipe, in process [i] on a CPU that was [c] before it took
    the lock. *)
Section locked.
Context (p : Z) (k : kst) (c : cpu) (i : nat) (pr : proc).
Context (Hk : k_cpu k = lock_cpu (L_pipe p) c) (Hc : cpu_ok c) (Hn : ncli c = 0) (Hh : held c = []).
Context (Hi : k_proc k = Some i) (Hp : k_ptable k !! i = Some pr).

Lemma unlock_pipe x : release (L_pipe p) (set_pipe p x k) = Ok tt (set_pipe p x (set_k_cpu c k)).
Proof. rewrite (release_eq _ c); [by destruct k|done|rewrite Hh; apply not_elem_of_nil|done]. Qed.

Lemma run_wakeup {L : Type} ch x :
  run (L := L) (wakeup_code ch) (set_pipe p x k) = Ok tt (woken ch (set_pipe p x k)).
Proof.
  rewrite wakeup_run, <- (wakeup_run Empty_set). apply wakeup_eq; simpl; rewrite Hk.
  - apply lock_cpu_ok; [done|rewrite Hh; apply not_elem_of_nil].
  - simpl. rewrite Hh. apply not_elem_of_cons. split; [done|apply not_elem_of_nil].
Qed.

(** The end of both operations: wake the other side and release. *)
Lemma pipe_finish {L A : Type} ch x (a : A) :
  segment (L := L) (wakeup_code ch;; unlock (L_pipe p);; mret a) (set_pipe p x k) =
  Ok (inl a) (woken ch (set_pipe p x (set_k_cpu c k))).
Proof.
  erewrite segment_run_ok by apply run_wakeup. erewrite segment_unlock_ok; [done|].
  rewrite (release_eq _ c); [by destruct k|done|rewrite Hh; apply not_elem_of_nil|done].
Qed.

(** The bytes are appended one by one; when the buffer fills up, the loop gives up, if the
    reader is gone or the process is killed, or goes to sleep with the rest. *)
Lemma pipewrite_loop_eq bs x :
  pipe_ok x ->
  exists x', pipe_ok x' /\ queue x' = queue x ++ take (room x) bs /\
    pi_readopen x' = pi_readopen x /\ pi_writeopen x' = pi_writeopen x /\
    segment (pipewrite_loop p bs) (set_pipe p x k) =
      if decide (length bs <= room x)%nat then Ok (inl true) (set_pipe p x' k)
      else if negb (pi_readopen x) || p_killed pr then Ok (inl false) (set_pipe p x' (set_k_cpu c k))
      else Ok (inr (sleep_back i (L_pipe p) (intr_on c);; C_again (drop (room x) bs)))
             (asleep (Ch_nwrite p) i c (woken (Ch_nread p) (set_pipe p x' k))).
Proof.
  revert x. induction bs as [|b bs IH]; intros x H.
  { exists x. rewrite decide_True by (simpl; lia). by rewrite take_nil, app_nil_r. }
  cbn [pipewrite_loop]. erewrite segment_do_ok by apply pipe_at_set. unfold room.
  rewrite pipe_full_pending by done. case_bool_decide as Hf.
  - exists x. rewrite Hf, Nat.sub_diag, app_nil_r, decide_False by (simpl; lia). split_and!; try done.
    erewrite segment_do_ok by (by apply (curproc_eq _ i pr)). cbv beta iota.
    destruct (negb (pi_readopen x) || p_killed pr).
    + by erewrite segment_unlock_ok by apply unlock_pipe.
    + erewrite segment_run_ok by apply run_wakeup. rewrite segment_bind.
      erewrite (segment_sleep _ _ c _ i); try done. simpl. by rewrite list_lookup_fmap, Hp.
  - destruct (queue_put x b H) as [H1 E1]; [destruct H; lia|].
    assert (Ep1 : pending (pipe_put b x) = S (pending x))
      by (rewrite <- !length_queue, E1, length_app; simpl; lia).
    erewrite segment_do_ok by apply upd_pipe_set.
    destruct (IH (pipe_put b x) H1) as (x' & H' & Eq & Er & Ew & E).
    exists x'. unfold room in *. rewrite Ep1 in *.
    replace (Z.to_nat PIPESIZE - pending x)%nat with (S (Z.to_nat PIPESIZE - S (pending x)))
      by (destruct H; lia).
    split_and!; try done; [by rewrite Eq, E1, <- app_assoc|]. rewrite E. simpl.
    repeat case_decide; try lia; done.
Qed.

Lemma pipewrite_from_eq n bs x :
  pipe_ok x ->
  exists x', pipe_ok x' /\ queue x' = queue x ++ take (room x) bs /\
    pi_readopen x' = pi_readopen x /\ pi_writeopen x' = pi_writeopen x /\
    segment (pipewrite_from p n bs) (set_pipe p x k) =
      if decide (length bs <= room x)%nat then Ok (inl n) (woken (Ch_nread p) (set_pipe p x' (set_k_cpu c k)))
      else if negb (pi_readopen x) || p_killed pr then Ok (inl (-1)) (set_pipe p x' (set_k_cpu c k))
      else Ok (inr (pipewrite_asleep p n (drop (room x) bs) i (intr_on c)))
             (asleep (Ch_nwrite p) i c (woken (Ch_nread p) (set_pipe p x' k))).
Proof.
  intros H. destruct (pipewrite_loop_eq bs x H) as (x' & H' & Eq & Er & Ew & E). exists x'.
  split_and!; try done. unfold pipewrite_from. rewrite segment_bind, E.
  case_decide; [apply pipe_finish|]. by destruct (negb (pi_readopen x) || p_killed pr).
Qed.
End locked.

(** The copy loop takes from the front of the queue. *)
Lemma piperead_loop_queue n p x k :
  pipe_ok x ->
  exists x', piperead_loop n p (set_pipe p x k) = Ok (take n (queue x)) (set_pipe p x' k) /\
    pipe_ok x' /\ queue x' = drop n (queue x) /\ pi_readopen x' = pi_readopen x /\
    pi_writeopen x' = pi_writeopen x.
Proof.
  revert x. induction n as [|n IH]; intros x H; cbn [piperead_loop]; [by exists x|].
  erewrite bind_ok; [|apply pipe_at_set]. rewrite pipe_empty_pending by done.
  case_bool_decide as Hp.
  - exists x. assert (queue x = []) as -> by (apply nil_length_inv; by rewrite length_queue). done.
  - destruct (queue_get x H ltac:(lia)) as [H1 ->].
    erewrite bind_ok; [|apply upd_pipe_set].
    destruct (IH _ H1) as (x' & E & H' & Eq & Er & Ew).
    erewrite bind_ok; [|exact E]. by exists x'.
Qed.

Section locked_read.
Context (p : Z) (k : kst) (c : cpu) (i : nat) (pr : proc).
Context (Hk : k_cpu k = lock_cpu (L_pipe p) c) (Hc : cpu_ok c) (Hn : ncli c = 0) (Hh : held c = []).
Context (Hi : k_proc k = Some i) (Hp : k_ptable k !! i = Some pr).

Lemma piperead_from_eq n x :
  pipe_ok x ->
  exists x', pipe_ok x' /\ pi_readopen x' = pi_readopen x /\ pi_writeopen x' = pi_writeopen x /\
    if bool_decide (queue x = []) && pi_writeopen x
    then x' = x /\ segment (piperead_from p n tt) (set_pipe p x k) =
      if p_killed pr then Ok (inl (-1, [])) (set_pipe p x (set_k_cpu c k))
      else Ok (inr (piperead_asleep p i (intr_on c))) (asleep (Ch_nread p) i c (set_pipe p x k))
    else queue x' = drop (Z.to_nat n) (queue x) /\
      let bs := take (Z.to_nat n) (queue x) in
      segment (piperead_from p n tt) (set_pipe p x k) =
      Ok (inl (Z.of_nat (length bs), bs)) (woken (Ch_nwrite p) (set_pipe p x' (set_k_cpu c k))).
Proof.
  intros H. assert (bool_decide (queue x = []) = pipe_empty x) as ->.
  { rewrite pipe_empty_pending by done. apply bool_decide_ext. rewrite <- length_queue.
    split; [by intros ->|apply nil_length_inv]. }
  unfold piperead_from. erewrite segment_do_ok by apply pipe_at_set.
  destruct (pipe_empty x && pi_writeopen x).
  - exists x. split_and!; try done. erewrite segment_do_ok by (by apply (curproc_eq _ i pr)).
    cbv beta iota. destruct (p_killed pr).
    + by erewrite segment_unlock_ok by (by apply (unlock_pipe p k c i pr)).
    + rewrite segment_bind. by erewrite (segment_sleep _ _ c _ i).
  - destruct (piperead_loop_queue (Z.to_nat n) p x k H) as (x' & E & H' & Eq & Er & Ew).
    exists x'. split_and!; try done. cbv zeta. erewrite segment_do_ok by exact E. by apply (pipe_finish p k c i pr).
Qed.
End locked_read.

(** ** The calls *)
Section pipe_props.
Context (k : kst) (p : Z) (x : pipe) (i : nat) (pr : proc).
Context (Hx : k_pipes k !! p = Some x) (Hok : pipe_ok x).
Context (Hcpu : cpu_ok (k_cpu k)) (Hncli : ncli (k_cpu k) = 0) (Hheld : held (k_cpu k) = []).
Context (Hi : k_proc k = Some i) (Hp : k_ptable k !! i = Some pr).

Lemma lock_pipe {L A : Type} (g : unit -> code L A) :
  segment (lock (L_pipe p) ≫= g) k =
  segment (g tt) (set_pipe p x (set_k_cpu (lock_cpu (L_pipe p) (k_cpu k)) k)).
Proof.
  apply segment_lock_ok. rewrite acquire_eq by (rewrite Hheld; apply not_elem_of_nil).
  f_equal. symmetry. by apply set_pipe_id.
Qed.

(** [pipewrite] appends to a FIFO queue.  If the bytes fit, all are appended and
    their number is returned.  Otherwise it appends what fits and then returns
    -1 if the read end is closed or the process is killed, and else sleeps on
    [nwrite] with the readers woken. *)
Theorem pipewrite_spec bs :
  exists x', pipe_ok x' /\ queue x' = queue x ++ take (room x) bs /\
    pi_readopen x' = pi_readopen x /\ pi_writeopen x' = pi_writeopen x /\
    segment (pipewrite_code p bs) k =
      if decide (length bs <= room x)%nat
      then Ok (inl (Z.of_nat (length bs))) (woken (Ch_nread p) (set_pipe p x' k))
      else if negb (pi_readopen x) || p_killed pr then Ok (inl (-1)) (set_pipe p x' k)
      else Ok (inr (pipewrite_asleep p (Z.of_nat (length bs)) (drop (room x) bs) i (intr_on (k_cpu k))))
             (asleep (Ch_nwrite p) i (k_cpu k) (woken (Ch_nread p) (set_pipe p x' k))).
Proof.
  unfold pipewrite_code. rewrite lock_pipe.
  destruct (pipewrite_from_eq p (set_k_cpu (lock_cpu (L_pipe p) (k_cpu k)) k) (k_cpu k) i pr
    eq_refl Hcpu Hncli Hheld Hi Hp (Z.of_nat (length bs)) bs x Hok) as (x' & H' & Eq & Er & Ew & E).
  exists x'. by split_and!.
Qed.

(** [piperead] takes from the front of the queue: if there are bytes, or the
    write end is closed, it returns the first [n] pending bytes (fewer, down to
    zero, if fewer are pending) and wakes the writers; if the pipe is empty and
    still open it returns -1 when the process is killed and sleeps otherwise. *)
Theorem piperead_spec n :
  exists x', pipe_ok x' /\ pi_readopen x' = pi_readopen x /\ pi_writeopen x' = pi_writeopen x /\
    if bool_decide (queue x = []) && pi_writeopen x
    then x' = x /\ segment (piperead_code p n) k =
      if p_killed pr then Ok (inl (-1, [])) k
      else Ok (inr (piperead_asleep p i (intr_on (k_cpu k)))) (asleep (Ch_nread p) i (k_cpu k) k)
    else queue x' = drop (Z.to_nat n) (queue x) /\
      let bs := take (Z.to_nat n) (queue x) in
      segment (piperead_code p n) k =
      Ok (inl (Z.of_nat (length bs), bs)) (woken (Ch_nwrite p) (set_pipe p x' k)).
Proof.
  unfold piperead_code. rewrite lock_pipe.
  destruct (piperead_from_eq p (set_k_cpu (lock_cpu (L_pipe p) (k_cpu k)) k) (k_cpu k) i pr
    eq_refl Hcpu Hncli Hheld Hi Hp n x Hok) as (x' & H' & Er & Ew & E).
  exists x'. split_and!; try done. destruct (bool_decide (queue x = []) && pi_writeopen x).
  - destruct E as [-> E]. split; [done|]. rewrite E. destruct (p_killed pr).
    + f_equal. transitivity (set_pipe p x k); [by destruct k|by apply set_pipe_id].
    + f_equal. change (asleep (Ch_nread p) i (k_cpu k) (set_pipe p x k) = asleep (Ch_nread p) i (k_cpu k) k).
      by rewrite (set_pipe_id p x k Hx).
  - destruct E as [Eq E]. split; [done|]. cbv zeta in *. rewrite E. by destruct k.
Qed.
End pipe_props.

