(* ===== verification/PipeSpec.v ===== *)
(** Pipes under every interleaving.  The threads of a system run [pipewrite] and [piperead] on
    one pipe, sleep inside them and go on later, in any order, with anything else happening in
    between; the runs are those of a bounded queue ([pipe_fifo]).

    A stretch of code from a call, or from the scheduler's switch to a sleeping thread, up to
    the return or the next switch is one step.  This is how the code runs: it holds the lock of
    the pipe in between, so no other thread reads or writes the struct. *)
From Stdlib Require Import ZArith Lia.
From stdpp Require Import base gmap sets strings numbers list.
From S2P Require Import Prelude State Spinlock Code Sched Kalloc Pipe.

Local Open Scope Z_scope.

(** ** The threads *)

(** A call in which a process sleeps: its number of bytes and the rest of its code. *)
Inductive pthread : Type :=
| PT_write (n : Z) (c : code (list Z) Z)
| PT_read (n : Z) (c : code unit (Z * list Z)).

Record psys : Type := mk_psys {
  ps_k : kst;
  ps_asleep : gmap nat pthread
}.

(** What can be seen: a call of a process and how it ended, if it did; a thread that went on,
    and how its call ended. *)
Inductive pevent : Type :=
| Ev_other
| Ev_write (i : nat) (bs : list Z) (r : option Z)
| Ev_write_on (i : nat) (r : option Z)
| Ev_read (i : nat) (n : Z) (r : option (Z * list Z))
| Ev_read_on (i : nat) (r : option (Z * list Z)).

(** Process [i] runs on the CPU and holds no lock; it has been switched to by the scheduler,
    which holds [ptable.lock]. *)
Definition on_cpu (i : nat) (k : kst) : Prop :=
  k_proc k = Some i /\ is_Some (k_ptable k !! i) /\
  cpu_ok (k_cpu k) /\ ncli (k_cpu k) = 0 /\ held (k_cpu k) = [].
Definition switched_to (i : nat) (k : kst) : Prop :=
  k_proc k = Some i /\ is_Some (k_ptable k !! i) /\
  exists ie, k_cpu k = mk_cpu 1 ie false [L_ptable].

(** Process [j] sleeps on a channel. *)
Definition sleeps (ch : chan) (j : nat) (k : kst) : Prop :=
  exists pr, k_ptable k !! j = Some pr /\ p_state pr = SLEEPING /\ p_chan pr = Some ch.

(** Everything else that happens: other code does not touch the bytes and counters of the pipe
    and does not sleep on its channels.  It may close an end, kill processes, wake up
    processes whenever it likes, and switch between them. *)
Definition elsewhere (p : Z) (k k' : kst) : Prop :=
  (exists x x', k_pipes k !! p = Some x /\ k_pipes k' !! p = Some x' /\
     pi_data x' = pi_data x /\ pi_nread x' = pi_nread x /\ pi_nwrite x' = pi_nwrite x) /\
  forall j ch, ch = Ch_nread p \/ ch = Ch_nwrite p -> sleeps ch j k' -> sleeps ch j k.

Definition returned {L A : Type} (r : A + code L A) : option A :=
  match r with inl a => Some a | inr _ => None end.
Definition suspend {L A : Type} (i : nat) (f : code L A -> pthread) (r : A + code L A)
    (T : gmap nat pthread) : gmap nat pthread :=
  match r with inl _ => delete i T | inr c => <[i := f c]> T end.

Inductive pipe_step (p : Z) : psys -> pevent -> psys -> Prop :=
| ps_other k k' T : elsewhere p k k' -> pipe_step p (mk_psys k T) Ev_other (mk_psys k' T)
| ps_write k T i bs r k' :
    T !! i = None -> on_cpu i k -> segment (pipewrite_code p bs) k = Ok r k' ->
    pipe_step p (mk_psys k T) (Ev_write i bs (returned r))
      (mk_psys k' (suspend i (PT_write (Z.of_nat (length bs))) r T))
| ps_write_on k T i n c r k' :
    T !! i = Some (PT_write n c) -> switched_to i k ->
    segment (unloop (pipewrite_from p n) c) k = Ok r k' ->
    pipe_step p (mk_psys k T) (Ev_write_on i (returned r)) (mk_psys k' (suspend i (PT_write n) r T))
| ps_read k T i n r k' :
    T !! i = None -> on_cpu i k -> segment (piperead_code p n) k = Ok r k' ->
    pipe_step p (mk_psys k T) (Ev_read i n (returned r)) (mk_psys k' (suspend i (PT_read n) r T))
| ps_read_on k T i n c r k' :
    T !! i = Some (PT_read n c) -> switched_to i k ->
    segment (unloop (piperead_from p n) c) k = Ok r k' ->
    pipe_step p (mk_psys k T) (Ev_read_on i (returned r)) (mk_psys k' (suspend i (PT_read n) r T)).

Inductive pipe_run (p : Z) : psys -> list pevent -> psys -> Prop :=
| pr_nil σ : pipe_run p σ [] σ
| pr_cons σ e σ1 es σ2 : pipe_step p σ e σ1 -> pipe_run p σ1 es σ2 -> pipe_run p σ (e :: es) σ2.

(** ** The queue *)

(** A request that waits: the bytes still to be put, of [n] bytes; the number of bytes wanted. *)
Inductive request : Type :=
| Want_put (n : Z) (bs : list Z)
| Want_get (n : Z).

Record fifo : Type := mk_fifo {
  f_queue : list Z;
  f_readopen : bool;
  f_writeopen : bool;
  f_waiting : gmap nat request
}.

Definition f_room (q : list Z) : nat := (Z.to_nat PIPESIZE - length q)%nat.

(** How a request to put bytes, or to get [n] bytes, ends; [None]: it waits. *)
Definition put_ends (n : Z) (bs q : list Z) (readopen killed : bool) : option Z :=
  if decide (length bs <= f_room q)%nat then Some n
  else if negb readopen || killed then Some (-1) else None.
Definition get_ends (n : Z) (q : list Z) (writeopen killed : bool) : option (Z * list Z) :=
  if bool_decide (q = []) && writeopen then if killed then Some (-1, []) else None
  else let bs := take (Z.to_nat n) q in Some (Z.of_nat (length bs), bs).

Definition wait_for {A : Type} (i : nat) (rq : request) (r : option A) (W : gmap nat request) :
    gmap nat request :=
  match r with Some _ => delete i W | None => <[i := rq]> W end.

(** [ws]: the bytes that the step put, each with the process that put it. *)
Inductive fifo_step : fifo -> pevent -> list (nat * Z) -> fifo -> Prop :=
| fs_other q ro wo ro' wo' W :
    fifo_step (mk_fifo q ro wo W) Ev_other [] (mk_fifo q ro' wo' W)
| fs_put q ro wo W i bs killed :
    W !! i = None ->
    let n := Z.of_nat (length bs) in
    let r := put_ends n bs q ro killed in
    fifo_step (mk_fifo q ro wo W) (Ev_write i bs r) (pair i <$> take (f_room q) bs)
      (mk_fifo (q ++ take (f_room q) bs) ro wo (wait_for i (Want_put n (drop (f_room q) bs)) r W))
| fs_put_on q ro wo W i n bs killed :
    W !! i = Some (Want_put n bs) ->
    let r := put_ends n bs q ro killed in
    fifo_step (mk_fifo q ro wo W) (Ev_write_on i r) (pair i <$> take (f_room q) bs)
      (mk_fifo (q ++ take (f_room q) bs) ro wo (wait_for i (Want_put n (drop (f_room q) bs)) r W))
| fs_get q ro wo W i n killed :
    W !! i = None ->
    let r := get_ends n q wo killed in
    fifo_step (mk_fifo q ro wo W) (Ev_read i n r) []
      (mk_fifo (if r then drop (Z.to_nat n) q else q) ro wo (wait_for i (Want_get n) r W))
| fs_get_on q ro wo W i n killed :
    W !! i = Some (Want_get n) ->
    let r := get_ends n q wo killed in
    fifo_step (mk_fifo q ro wo W) (Ev_read_on i r) []
      (mk_fifo (if r then drop (Z.to_nat n) q else q) ro wo (wait_for i (Want_get n) r W)).

Inductive fifo_run : fifo -> list pevent -> list (nat * Z) -> fifo -> Prop :=
| fr_nil a : fifo_run a [] [] a
| fr_cons a e w a1 es ws a2 :
    fifo_step a e w a1 -> fifo_run a1 es ws a2 -> fifo_run a (e :: es) (w ++ ws) a2.

(** The bytes that a step of the readers returned, the bytes that process [i] asked to be
    written, and whether a write of [i] gave up. *)
Definition got (e : pevent) : list Z :=
  match e with Ev_read _ _ (Some (_, bs)) | Ev_read_on _ (Some (_, bs)) => bs | _ => [] end.
Definition asked (i : nat) (e : pevent) : list Z :=
  match e with Ev_write j bs _ => if decide (i = j) then bs else [] | _ => [] end.
Definition gave_up (e : pevent) : option nat :=
  match e with
  | Ev_write j _ (Some v) | Ev_write_on j (Some v) => if v =? -1 then Some j else None
  | _ => None
  end.
Definition put_by (i : nat) (ws : list (nat * Z)) : list Z := (filter (fun w => w.1 = i) ws).*2.
Definition unsent (i : nat) (a : fifo) : list Z :=
  match f_waiting a !! i with Some (Want_put _ bs) => bs | _ => [] end.

(** Nothing is lost, duplicated or reordered in the queue. *)
Lemma fifo_step_queue a e ws a' :
  fifo_step a e ws a' -> f_queue a ++ ws.*2 = got e ++ f_queue a'.
Proof.
  assert (Hp : forall (i : nat) (l : list Z), (pair i <$> l).*2 = l)
    by (intros i l; rewrite <- list_fmap_compose; apply list_fmap_id).
  destruct 1; cbn [f_queue got]; rewrite ?Hp, ?app_nil_r; try done.
  all: unfold r, get_ends; destruct (bool_decide (q = []) && wo) eqn:E; [|by rewrite take_drop].
  all: apply andb_prop in E as [->%bool_decide_eq_true _]; by destruct killed; rewrite ?drop_nil.
Qed.

Lemma fifo_run_queue a es ws a' :
  fifo_run a es ws a' -> f_queue a ++ ws.*2 = concat (got <$> es) ++ f_queue a'.
Proof.
  induction 1 as [a|a e w a1 es ws a2 Hs _ IH]; [by rewrite app_nil_r|].
  apply fifo_step_queue in Hs. cbn. by rewrite fmap_app, app_assoc, Hs, <- !app_assoc, IH.
Qed.

(** What a process asked to be written is put in its order, but for what it still waits with. *)
Lemma put_by_pair i j l : put_by i (pair j <$> l) = if decide (i = j) then l else [].
Proof.
  unfold put_by. case_decide as E; induction l as [|b l IH]; try done; rewrite fmap_cons.
  - rewrite filter_cons_True, fmap_cons by done. by rewrite IH.
  - by rewrite filter_cons_False by (cbn; congruence).
Qed.

(** A request of process [j] leaves the others alone. *)
Lemma unsent_other {A} i j rq (r : option A) q ro wo W : i <> j ->
  unsent i (mk_fifo q ro wo (wait_for j rq r W)) = default [] (pb ← W !! i; match pb with Want_put _ bs => Some bs | _ => None end).
Proof.
  intros Hne. unfold unsent, wait_for. cbn. destruct r; rewrite ?lookup_delete_ne, ?lookup_insert_ne by done;
    by destruct (W !! i) as [[]|].
Qed.

Lemma unsent_put i n bs q ro wo W killed :
  let r := put_ends n bs q ro killed in
  r <> Some (-1) ->
  bs = take (f_room q) bs ++ unsent i (mk_fifo (q ++ take (f_room q) bs) ro wo
                                (wait_for i (Want_put n (drop (f_room q) bs)) r W)).
Proof.
  intros r Hr. unfold unsent, wait_for. cbn. subst r. unfold put_ends in *. case_decide.
  - rewrite lookup_delete_eq, app_nil_r. by rewrite take_ge.
  - destruct (negb ro || killed).
    + done.
    + rewrite lookup_insert_eq. by rewrite take_drop.
Qed.

Lemma fifo_step_sent a e ws a' i :
  fifo_step a e ws a' -> gave_up e <> Some i ->
  unsent i a ++ asked i e = put_by i ws ++ unsent i a'.
Proof.
  intros Hs Hg. destruct Hs as [q ro wo ro' wo' W|q ro wo W j bs killed Hj n r|q ro wo W j n bs killed Hj r
    |q ro wo W j n killed Hj r|q ro wo W j n killed Hj r]; cbn [asked].
  - by rewrite app_nil_r.
  - rewrite put_by_pair. case_decide as E.
    + subst j. unfold unsent at 1. cbn [f_waiting]. rewrite Hj. cbn. apply unsent_put.
      intros Er. unfold r in *. rewrite Er in Hg. cbn in Hg. done.
    + rewrite unsent_other by done. unfold unsent. cbn [f_waiting]. rewrite app_nil_r.
      by destruct (W !! i) as [[]|].
  - rewrite put_by_pair, app_nil_r. case_decide as E.
    + subst j. unfold unsent at 1. cbn [f_waiting]. rewrite Hj. apply unsent_put.
      intros Er. unfold r in *. rewrite Er in Hg. cbn in Hg. done.
    + rewrite unsent_other by done. unfold unsent. cbn [f_waiting].
      by destruct (W !! i) as [[]|].
  - rewrite app_nil_r. destruct (decide (i = j)) as [<-|E].
    + unfold unsent, wait_for. cbn. rewrite Hj. destruct r; by rewrite ?lookup_delete_eq, ?lookup_insert_eq.
    + rewrite unsent_other by done. unfold unsent. cbn [f_waiting]. by destruct (W !! i) as [[]|].
  - rewrite app_nil_r. destruct (decide (i = j)) as [<-|E].
    + unfold unsent, wait_for. cbn. rewrite Hj. destruct r; by rewrite ?lookup_delete_eq, ?lookup_insert_eq.
    + rewrite unsent_other by done. unfold unsent. cbn [f_waiting]. by destruct (W !! i) as [[]|].
Qed.

Lemma fifo_run_sent a es ws a' i :
  fifo_run a es ws a' -> Some i ∉ gave_up <$> es ->
  unsent i a ++ concat (asked i <$> es) = put_by i ws ++ unsent i a'.
Proof.
  induction 1 as [a|a e w a1 es ws a2 Hs _ IH]; intros Hg; [by rewrite app_nil_r|].
  apply not_elem_of_cons in Hg as [Hg1 Hg]. apply (fifo_step_sent _ _ _ _ i) in Hs; [|congruence].
  cbn. unfold put_by in *. rewrite app_assoc, Hs, filter_app, fmap_app, <- !app_assoc. by rewrite IH.
Qed.

(** ** The code and the queue *)
Definition thread_ok (p : Z) (i : nat) (t : option pthread) (w : option request) : Prop :=
  match t, w with
  | None, None => True
  | Some (PT_write n c), Some (Want_put m bs) => m = n /\ exists ie, c = pipewrite_asleep p n bs i ie
  | Some (PT_read n c), Some (Want_get m) => m = n /\ exists ie, c = piperead_asleep p i ie
  | _, _ => False
  end.

(** [g]: some write has given up.  Writers sleep only while the pipe is full, and readers only
    while it is empty; a write that gives up wakes up no reader. *)
Record sim (p : Z) (k : kst) (T : gmap nat pthread) (a : fifo) (g : bool) : Prop := mk_sim {
  si_pipe : exists x, k_pipes k !! p = Some x /\ pipe_ok x /\ queue x = f_queue a /\
    pi_readopen x = f_readopen a /\ pi_writeopen x = f_writeopen a;
  si_threads : forall i, thread_ok p i (T !! i) (f_waiting a !! i);
  si_writers : forall j, sleeps (Ch_nwrite p) j k -> length (f_queue a) = Z.to_nat PIPESIZE;
  si_readers : g = false -> forall j, sleeps (Ch_nread p) j k -> f_queue a = []
}.

Lemma sleeps_woken ch ch' j k : sleeps ch' j (woken ch k) -> sleeps ch' j k /\ ch' <> ch.
Proof.
  intros (pr & Hp & Hs & Hc). cbn in Hp. rewrite list_lookup_fmap in Hp.
  destruct (k_ptable k !! j) as [q|] eqn:E; [|done]. injection Hp as <-. unfold wake in *.
  case_decide as Hd; [done|]. split; [by exists q|]. intros ->. by apply Hd.
Qed.

Lemma sleeps_asleep ch ch' i j c k : sleeps ch' j (asleep ch i c k) -> ch' = ch \/ sleeps ch' j k.
Proof.
  intros (pr & Hp & Hs & Hc). cbn in Hp. rewrite list_lookup_alter in Hp.
  case_decide as E; [|right; by exists pr]. destruct (k_ptable k !! i); [|done].
  injection Hp as <-. left. by injection Hc.
Qed.

(** A thread behind the lock of the pipe. *)
Record behind_lock (p : Z) (i : nat) (pr : proc) (c : cpu) (k : kst) : Prop := mk_behind_lock {
  bl_cpu : k_cpu k = lock_cpu (L_pipe p) c;
  bl_ok : cpu_ok c;
  bl_ncli : ncli c = 0;
  bl_held : held c = [];
  bl_proc : k_proc k = Some i;
  bl_slot : k_ptable k !! i = Some pr
}.

Lemma threads_suspend {L A : Type} p i (f : code L A -> pthread) (r : A + code L A) rq T W :
  (forall j, thread_ok p j (T !! j) (W !! j)) ->
  (forall c, r = inr c -> thread_ok p i (Some (f c)) (Some rq)) ->
  forall j, thread_ok p j (suspend i f r T !! j) (wait_for i rq (returned r) W !! j).
Proof.
  intros HT Hr j. destruct (decide (i = j)) as [<-|Hne]; destruct r as [v|c]; cbn.
  - by rewrite !lookup_delete_eq.
  - rewrite !lookup_insert_eq. by apply Hr.
  - by rewrite !lookup_delete_ne.
  - by rewrite !lookup_insert_ne.
Qed.

Definition minus_one (r : option Z) : bool := match r with Some v => v =? -1 | None => false end.

Section step.
Context (p : Z) (i : nat) (pr : proc) (c : cpu) (k : kst) (T : gmap nat pthread) (a : fifo) (g : bool).
Context (Hl : behind_lock p i pr c k) (Hs : sim p k T a g).

(** A write behind the lock. *)
Lemma put_sim n bs :
  let q := f_queue a in
  exists r k', segment (pipewrite_from p n bs) k = Ok r k' /\
    returned r = put_ends n bs q (f_readopen a) (p_killed pr) /\
    sim p k' (suspend i (PT_write n) r T)
      (mk_fifo (q ++ take (f_room q) bs) (f_readopen a) (f_writeopen a)
         (wait_for i (Want_put n (drop (f_room q) bs)) (returned r) (f_waiting a)))
      (g || minus_one (returned r)).
Proof.
  intros q. destruct Hl as [Hk Hc Hn Hh Hi Hp]. destruct Hs as [(x & Hx & Hok & Eq & Ero & Ewo) HT HW HR].
  destruct (pipewrite_from_eq p k c i pr Hk Hc Hn Hh Hi Hp n bs x Hok) as (x' & Hok' & Eq' & Er' & Ew' & E).
  assert (Eroom : room x = f_room q) by (unfold room, f_room, q; by rewrite <- Eq, length_queue).
  rewrite set_pipe_id in E by done. rewrite Eroom, Eq in *. rewrite E. unfold put_ends. rewrite Ero.
  assert (Hx' : forall k1, k_pipes k1 = <[p := x']> (k_pipes k) -> exists x0, k_pipes k1 !! p = Some x0 /\ pipe_ok x0 /\
    queue x0 = q ++ take (f_room q) bs /\ pi_readopen x0 = f_readopen a /\ pi_writeopen x0 = f_writeopen a).
  { intros k1 ->. exists x'. rewrite lookup_insert_eq. unfold q in *. split_and!; try done; congruence. }
  assert (Hfull : length q = Z.to_nat PIPESIZE -> f_room q = O) by (unfold f_room; lia).
  assert (Hle : (length q <= Z.to_nat PIPESIZE)%nat).
  { unfold q. rewrite <- Eq, length_queue. apply Hok. }
  case_decide as Hf; [|destruct (negb (f_readopen a) || p_killed pr)].
  - eexists _, _. split_and!; [done|done|]. constructor; cbn [f_queue f_readopen f_writeopen f_waiting].
    + by apply Hx'.
    + apply threads_suspend; [done|]. by intros ?.
    + intros j [Hj _]%sleeps_woken. rewrite (Hfull (HW j Hj)), app_nil_r. by eapply HW.
    + intros _ j [_ Hj]%sleeps_woken. done.
  - eexists _, _. split_and!; [done|done|]. constructor; cbn [f_queue f_readopen f_writeopen f_waiting].
    + by apply Hx'.
    + apply threads_suspend; [done|]. by intros ?.
    + intros j Hj. rewrite (Hfull (HW j Hj)), app_nil_r. by eapply HW.
    + cbn. by rewrite orb_true_r.
  - eexists _, _. split_and!; [done|done|]. constructor; cbn [f_queue f_readopen f_writeopen f_waiting].
    + by apply Hx'.
    + apply threads_suspend; [done|]. intros d [= <-]. cbn. split; [done|]. by eexists.
    + intros j _. rewrite length_app, length_take. unfold f_room in *. lia.
    + intros _ j [Hj|Hj]%sleeps_asleep; [done|]. by apply sleeps_woken in Hj as [_ Hj].
Qed.

(** A read behind the lock. *)
Lemma get_sim n :
  let q := f_queue a in
  exists r k', segment (piperead_from p n tt) k = Ok r k' /\
    returned r = get_ends n q (f_writeopen a) (p_killed pr) /\
    sim p k' (suspend i (PT_read n) r T)
      (mk_fifo (if returned r then drop (Z.to_nat n) q else q) (f_readopen a) (f_writeopen a)
         (wait_for i (Want_get n) (returned r) (f_waiting a))) g.
Proof.
  intros q. destruct Hl as [Hk Hc Hn Hh Hi Hp]. destruct Hs as [(x & Hx & Hok & Eq & Ero & Ewo) HT HW HR].
  destruct (piperead_from_eq p k c i pr Hk Hc Hn Hh Hi Hp n x Hok) as (x' & Hok' & Er' & Ew' & E).
  rewrite set_pipe_id in E by done. rewrite Eq, Ewo in E. fold q in E. unfold get_ends.
  destruct (bool_decide (q = []) && f_writeopen a) eqn:Ee; [|].
  - apply andb_prop in Ee as [Hq%bool_decide_eq_true _]. destruct E as [-> E]. rewrite E.
    destruct (p_killed pr); eexists _, _; (split_and!; [done|done|]); cbn [returned];
      constructor; cbn [f_queue f_readopen f_writeopen f_waiting].
    + exists x. cbn. rewrite lookup_insert_eq, Hq, drop_nil. split_and!; try done. by rewrite Eq.
    + apply (threads_suspend p i (PT_read n) (inl _)); [done|]. by intros ?.
    + intros j Hj. rewrite Hq, drop_nil. apply HW in Hj. by rewrite <- Hq.
    + intros Hg j Hj. by rewrite Hq, drop_nil.
    + exists x. split_and!; done.
    + apply (threads_suspend p i (PT_read n) (inr (piperead_asleep p i (intr_on c)))); [done|].
      intros d [= <-]. cbn. split; [done|]. by eexists.
    + intros j [Hj|Hj]%sleeps_asleep; [done|]. by eapply HW.
    + done.
  - destruct E as [Eq' E]. rewrite E. eexists _, _. split_and!; [done|done|]. cbn [returned].
    constructor; cbn [f_queue f_readopen f_writeopen f_waiting].
    + exists x'. cbn. rewrite lookup_insert_eq. split_and!; try done; congruence.
    + apply (threads_suspend p i (PT_read n) (inl _)); [done|]. by intros ?.
    + intros j [_ Hj]%sleeps_woken. done.
    + intros Hg j [Hj _]%sleeps_woken. unfold q. by rewrite (HR Hg j Hj), drop_nil.
Qed.
End step.

(** Taking the lock at the start of a call, and behind [sleep]. *)
Lemma call_locks p i k T a g :
  on_cpu i k -> sim p k T a g ->
  exists pr k1, behind_lock p i pr (k_cpu k) k1 /\ sim p k1 T a g /\
    (forall bs, segment (pipewrite_code p bs) k = segment (pipewrite_from p (Z.of_nat (length bs)) bs) k1) /\
    forall n, segment (piperead_code p n) k = segment (piperead_from p n tt) k1.
Proof.
  intros (Hi & [pr Hp] & Hc & Hn & Hh) [Hx HT HW HR].
  exists pr, (set_k_cpu (lock_cpu (L_pipe p) (k_cpu k)) k). split_and!; [done..| |];
    intros; apply segment_lock_ok, acquire_eq; rewrite Hh; apply not_elem_of_nil.
Qed.

Lemma sleep_locks_again p i k T a g ie :
  switched_to i k -> sim p k T a g ->
  exists pr k1, behind_lock p i pr (mk_cpu 0 ie ie []) k1 /\ sim p k1 T a g /\
    (forall n bs, segment (unloop (pipewrite_from p n) (pipewrite_asleep p n bs i ie)) k =
                  segment (pipewrite_from p n bs) k1) /\
    forall n, segment (unloop (piperead_from p n) (piperead_asleep p i ie)) k = segment (piperead_from p n tt) k1.
Proof.
  intros (Hi & [pr Hp] & ie' & Hc) [Hx HT HW HR].
  set (k1 := set_k_ptable (alter (set_p_chan None) i (k_ptable k))
               (set_k_cpu (lock_cpu (L_pipe p) (mk_cpu 0 ie ie [])) k)).
  assert (Hsl : forall ch j, sleeps ch j k1 -> sleeps ch j k).
  { intros ch j (q & Hq & Hs & Hch). cbn in Hq. rewrite list_lookup_alter in Hq.
    case_decide; [|by exists q]. destruct (k_ptable k !! i); [|done]. by injection Hq as <-. }
  exists (set_p_chan None pr), k1. split_and!.
  - constructor; try done; [|cbn; by rewrite list_lookup_alter_eq, Hp].
    unfold cpu_ok; cbn. split_and!; try lia; try done. constructor.
  - constructor; [done|done|intros j Hj; eapply HW; eauto|intros Hg j Hj; eapply HR; eauto].
  - intros n bs. by apply (segment_resume (L_pipe p) i ltac:(done) (pipewrite_from p n) bs ie ie' k Hc).
  - intros n. by apply (segment_resume (B := unit) (L_pipe p) i ltac:(done) (piperead_from p n) tt ie ie' k Hc).
Qed.

Definition gives_up (e : pevent) : bool := match gave_up e with Some _ => true | None => false end.

Lemma gives_up_write i bs r : gives_up (Ev_write i bs r) = minus_one r.
Proof. destruct r; [|done]. unfold gives_up; cbn. by destruct (_ =? _). Qed.
Lemma gives_up_write_on i r : gives_up (Ev_write_on i r) = minus_one r.
Proof. destruct r; [|done]. unfold gives_up; cbn. by destruct (_ =? _). Qed.

Lemma elsewhere_sim p k k' T a g :
  elsewhere p k k' -> sim p k T a g ->
  exists ro wo, sim p k' T (mk_fifo (f_queue a) ro wo (f_waiting a)) g.
Proof.
  intros [(x & x' & Ex & Ex' & Ed & Er & Ew) Hsl] [(y & Hy & Hok & Eq & _) HT HW HR].
  assert (y = x) as -> by congruence. exists (pi_readopen x'), (pi_writeopen x').
  assert (Ep : pending x' = pending x) by (unfold pending; congruence).
  constructor; cbn; eauto.
  exists x'. split_and!; try done.
  - destruct Hok. constructor; congruence.
  - rewrite <- Eq. unfold queue. by rewrite Ep, Ed, Er.
Qed.

(** Every step of the code is a step of the queue. *)
Lemma step_sim p σ e σ' a g :
  pipe_step p σ e σ' -> sim p (ps_k σ) (ps_asleep σ) a g ->
  exists ws a', fifo_step a e ws a' /\ sim p (ps_k σ') (ps_asleep σ') a' (g || gives_up e).
Proof.
  intros Hst Hs. destruct a as [q ro wo W].
  destruct Hst as [k k' T He|k T i bs r k' Hi Hc E|k T i n c r k' Hi Hc E|k T i n r k' Hi Hc E
    |k T i n c r k' Hi Hc E]; cbn [ps_k ps_asleep] in *;
    [|pose proof (si_threads _ _ _ _ _ Hs i) as Hw; rewrite Hi in Hw; cbn [thread_ok f_waiting] in Hw..].
  - destruct (elsewhere_sim _ _ _ _ _ _ He Hs) as (ro' & wo' & Hs').
    eexists _, _. split; [apply (fs_other _ _ _ ro' wo')|by rewrite orb_false_r].
  - destruct (call_locks _ _ _ _ _ _ Hc Hs) as (pr & k1 & Hl & Hs1 & Eb & _). rewrite Eb in E.
    destruct (put_sim _ _ _ _ _ _ _ _ Hl Hs1 (Z.of_nat (length bs)) bs) as (r' & k2 & E' & Er & Hs').
    rewrite E in E'. injection E' as <- <-. cbn [f_queue f_readopen f_writeopen f_waiting] in *. destruct (W !! i) eqn:Hwi; [done|]. rewrite gives_up_write, Er in *.
    eexists _, _. split; [by apply fs_put|exact Hs'].
  - destruct (W !! i) as [[m bs|]|] eqn:Hwi; try done. destruct Hw as (-> & ie & ->).
    destruct (sleep_locks_again _ _ _ _ _ _ ie Hc Hs) as (pr & k1 & Hl & Hs1 & Eb & _). rewrite Eb in E.
    destruct (put_sim _ _ _ _ _ _ _ _ Hl Hs1 n bs) as (r' & k2 & E' & Er & Hs').
    rewrite E in E'. injection E' as <- <-. cbn [f_queue f_readopen f_writeopen f_waiting] in *. rewrite gives_up_write_on, Er in *.
    eexists _, _. split; [by apply fs_put_on|exact Hs'].
  - destruct (call_locks _ _ _ _ _ _ Hc Hs) as (pr & k1 & Hl & Hs1 & _ & Eb). rewrite Eb in E.
    destruct (get_sim _ _ _ _ _ _ _ _ Hl Hs1 n) as (r' & k2 & E' & Er & Hs').
    rewrite E in E'. injection E' as <- <-. cbn [f_queue f_readopen f_writeopen f_waiting] in *. destruct (W !! i) eqn:Hwi; [done|]. rewrite orb_false_r, Er in *.
    eexists _, _. split; [by apply fs_get|exact Hs'].
  - destruct (W !! i) as [[|m]|] eqn:Hwi; try done. destruct Hw as (-> & ie & ->).
    destruct (sleep_locks_again _ _ _ _ _ _ ie Hc Hs) as (pr & k1 & Hl & Hs1 & _ & Eb). rewrite Eb in E.
    destruct (get_sim _ _ _ _ _ _ _ _ Hl Hs1 n) as (r' & k2 & E' & Er & Hs').
    rewrite E in E'. injection E' as <- <-. cbn [f_queue f_readopen f_writeopen f_waiting] in *. rewrite orb_false_r, Er in *.
    eexists _, _. split; [by apply fs_get_on|exact Hs'].
Qed.

Lemma run_sim p σ es σ' a g :
  pipe_run p σ es σ' -> sim p (ps_k σ) (ps_asleep σ) a g ->
  exists ws a', fifo_run a es ws a' /\ sim p (ps_k σ') (ps_asleep σ') a' (g || existsb gives_up es).
Proof.
  intros Hr. revert a g. induction Hr as [σ|σ e σ1 es σ2 Hst _ IH]; intros a g Hs.
  - exists [], a. cbn. rewrite orb_false_r. split; [constructor|done].
  - destruct (step_sim _ _ _ _ _ _ Hst Hs) as (w & a1 & Hf & Hs1).
    destruct (IH _ _ Hs1) as (ws & a2 & Hfr & Hs2). exists (w ++ ws), a2. cbn.
    rewrite orb_assoc. split; [by econstructor|done].
Qed.

(** No call fails or gets stuck: what a thread does next ends in a step. *)
Lemma step_exists p k T a g i :
  sim p k T a g ->
  (on_cpu i k -> T !! i = None ->
     (forall bs, exists r σ', pipe_step p (mk_psys k T) (Ev_write i bs r) σ') /\
     (forall n, exists r σ', pipe_step p (mk_psys k T) (Ev_read i n r) σ')) /\
  (switched_to i k -> is_Some (T !! i) ->
     exists e σ', pipe_step p (mk_psys k T) e σ' /\ e <> Ev_other).
Proof.
  intros Hs. pose proof (si_threads _ _ _ _ _ Hs i) as Hw. split.
  - intros Hc Hi. destruct (call_locks _ _ _ _ _ _ Hc Hs) as (pr & k1 & Hl & Hs1 & Ew & Er). split.
    + intros bs. destruct (put_sim _ _ _ _ _ _ _ _ Hl Hs1 (Z.of_nat (length bs)) bs) as (r & k2 & E & _).
      rewrite <- Ew in E. eexists _, _. by apply (ps_write _ _ _ _ _ r k2).
    + intros n. destruct (get_sim _ _ _ _ _ _ _ _ Hl Hs1 n) as (r & k2 & E & _).
      rewrite <- Er in E. eexists _, _. by apply (ps_read _ _ _ _ _ r k2).
  - intros Hc [t Hi]. rewrite Hi in Hw. destruct t as [n c|n c], (f_waiting a !! i) as [[m bs|m]|]; try done;
      destruct Hw as (-> & ie & ->);
      destruct (sleep_locks_again _ _ _ _ _ _ ie Hc Hs) as (pr & k1 & Hl & Hs1 & Ew & Er).
    + destruct (put_sim _ _ _ _ _ _ _ _ Hl Hs1 n bs) as (r & k2 & E & _). rewrite <- Ew in E.
      eexists _, _. split; [by eapply (ps_write_on _ _ _ _ _ _ r k2)|done].
    + destruct (get_sim _ _ _ _ _ _ _ _ Hl Hs1 n) as (r & k2 & E & _). rewrite <- Er in E.
      eexists _, _. split; [by eapply (ps_read_on _ _ _ _ _ _ r k2)|done].
Qed.

(** ** Property *)

(** C22: a pipe is a bounded FIFO queue under every interleaving of [pipewrite] and [piperead]
    calls of any number of processes, which sleep inside their calls and go on later, while
    ends are closed and processes are killed and woken up in any way: each run is a run of the
    queue with the same calls and results.  The bytes that were in the pipe followed by those
    put are the bytes that the readers got followed by those in the pipe, also when the counters
    wrap around.  The bytes put by a process none of whose writes gave up are those that it
    asked to be written, in order, but for the rest with which it sleeps.  Writers sleep only
    while the pipe is full, and readers only while it is empty, unless a write gave up (it wakes
    up nobody).  No call faults or panics. *)
Theorem pipe_fifo p k x es σ' :
  k_pipes k !! p = Some x -> pipe_ok x ->
  (forall j, ~ sleeps (Ch_nread p) j k /\ ~ sleeps (Ch_nwrite p) j k) ->
  pipe_run p (mk_psys k ∅) es σ' ->
  exists ws a' x',
    fifo_run (mk_fifo (queue x) (pi_readopen x) (pi_writeopen x) ∅) es ws a' /\
    k_pipes (ps_k σ') !! p = Some x' /\ pipe_ok x' /\ queue x' = f_queue a' /\
    (length (queue x') <= Z.to_nat PIPESIZE)%nat /\
    queue x ++ ws.*2 = concat (got <$> es) ++ queue x' /\
    (forall i, Some i ∉ gave_up <$> es ->
       concat (asked i <$> es) = put_by i ws ++ unsent i a' /\
       (ps_asleep σ' !! i = None -> unsent i a' = [])) /\
    (forall j, sleeps (Ch_nwrite p) j (ps_k σ') -> length (queue x') = Z.to_nat PIPESIZE) /\
    (existsb gives_up es = false -> forall j, sleeps (Ch_nread p) j (ps_k σ') -> queue x' = []) /\
    forall i,
      (on_cpu i (ps_k σ') -> ps_asleep σ' !! i = None ->
         (forall bs, exists r σ2, pipe_step p σ' (Ev_write i bs r) σ2) /\
         (forall n, exists r σ2, pipe_step p σ' (Ev_read i n r) σ2)) /\
      (switched_to i (ps_k σ') -> is_Some (ps_asleep σ' !! i) ->
         exists e σ2, pipe_step p σ' e σ2 /\ e <> Ev_other).
Proof.
  intros Hx Hok Hns Hr. set (a := mk_fifo (queue x) (pi_readopen x) (pi_writeopen x) ∅).
  assert (Hs : sim p k ∅ a false).
  { constructor; cbn; [by exists x|by intros i; rewrite !lookup_empty|..]; intros; exfalso; naive_solver. }
  destruct (run_sim _ _ _ _ _ _ Hr Hs) as (ws & a' & Hf & Hs'). cbn in Hs'. destruct σ' as [k' T'].
  pose proof Hs' as [(x' & Hx' & Hok' & Eq & _) HT HW HR]. exists ws, a', x'. rewrite Eq.
  split_and!; try done; eauto using step_exists.
  - rewrite <- Eq, length_queue. apply Hok'.
  - apply (fifo_run_queue _ _ _ _ Hf).
  - intros i Hi. split; [apply (fifo_run_sent _ _ _ _ i Hf Hi)|]. cbn [ps_asleep] in *. intros E.
    pose proof (HT i) as H. rewrite E in H. unfold unsent. by destruct (f_waiting a' !! i).
Qed.

(** A kernel with a pipe and a running process. *)
Definition demo_pipe (r w : Z) : pipe := mk_pipe (replicate 512 9) r w true true.
Definition demo_pipe_kst (x : pipe) : kst :=
  set_pipe 4096 x (set_k_proc (Some O) kst_zero).
Lemma demo_pipe_ok r w : 0 <= r < 2 ^ 32 -> 0 <= w < 2 ^ 32 -> u32 (w - r) <= 512 ->
  pipe_ok (demo_pipe r w).
Proof.
  intros. constructor; [reflexivity|done|done|]. unfold pending. simpl.
  pose proof (u32_range (w - r)). unfold PIPESIZE. lia.
Qed.
Lemma demo_cpu : cpu_ok (mk_cpu 0 false false []).
Proof. unfold cpu_ok; simpl. repeat split; try lia; try done; constructor. Qed.

(** Process 0 writes into a full pipe and sleeps; process 1 reads. *)
Lemma pipe_fifo_witness :
  exists es σ', pipe_run 4096 (mk_psys (demo_pipe_kst (demo_pipe 4294967040 256)) ∅) es σ' /\
    es = [Ev_write O [1] None; Ev_other; Ev_read 1 2 (Some (2, [9; 9]))] /\
    exists (ws : list (nat * Z)) x', k_pipes (ps_k σ') !! 4096 = Some x' /\
      queue (demo_pipe 4294967040 256) ++ ws.*2 = [9; 9] ++ queue x'.
Proof.
  set (x := demo_pipe 4294967040 256). set (k := demo_pipe_kst x).
  assert (Hok : pipe_ok x) by (apply demo_pipe_ok; [lia|lia|vm_compute; congruence]).
  assert (Hx : k_pipes k !! 4096 = Some x) by reflexivity.
  assert (Hz : forall j, k_ptable k !! j = None \/ k_ptable k !! j = Some zero_proc).
  { intros j. unfold k, demo_pipe_kst. cbn [k_ptable set_pipe set_k_pipes set_k_proc kst_zero].
    destruct (decide (j < NPROC)%nat) as [Hj|Hj]; [right; by rewrite lookup_replicate_2|left].
    apply lookup_ge_None. rewrite length_replicate. lia. }
  assert (Hns : forall ch j, ~ sleeps ch j k).
  { intros ch j (pr & Hp & Hst & _). destruct (Hz j) as [E|E]; rewrite E in Hp; [done|]. by injection Hp as <-. }
  destruct (pipewrite_spec k 4096 x O zero_proc Hx Hok demo_cpu eq_refl eq_refl eq_refl eq_refl [1])
    as (x1 & Hok1 & Eq1 & Er1 & Ew1 & E1).
  assert (Er : room x = O) by (vm_compute; reflexivity).
  rewrite Er in E1, Eq1. rewrite decide_False in E1 by (cbn; lia). cbn [pi_readopen x demo_pipe negb orb p_killed zero_proc] in E1.
  rewrite app_nil_r in Eq1.
  match type of E1 with _ = Ok ?r ?s => set (r1 := r) in *; set (k1 := s) in * end.
  set (k2 := set_k_proc (Some 1%nat) (set_k_cpu (mk_cpu 0 false false []) k1)).
  assert (Hx2 : k_pipes k2 !! 4096 = Some x1) by (cbn; by rewrite lookup_insert_eq).
  assert (Hp2 : k_ptable k2 !! 1%nat = Some zero_proc) by reflexivity.
  destruct (piperead_spec k2 4096 x1 1 zero_proc Hx2 Hok1 demo_cpu eq_refl eq_refl eq_refl Hp2 2)
    as (x2 & Hok2 & _ & _ & E2).
  rewrite Eq1 in E2. replace (bool_decide (queue x = []) && pi_writeopen x1) with false in E2
    by (vm_compute; reflexivity).
  destruct E2 as [Eq2 E2]. change (take (Z.to_nat 2) (queue x)) with (take 2 (queue x)) in E2.
  replace (take 2 (queue x)) with [9; 9] in E2 by (vm_compute; reflexivity). cbv zeta in E2.
  set (es := [Ev_write O [1] None; Ev_other; Ev_read 1 2 (Some (2, [9; 9]))]).
  assert (Hrun : exists σ', pipe_run 4096 (mk_psys k ∅) es σ').
  { eexists. eapply pr_cons; [apply (ps_write 4096 k ∅ O [1] r1 k1 (lookup_empty _)); [|exact E1]|].
    { split_and!; [done|by eexists|exact demo_cpu|done|done]. }
    eapply pr_cons; [apply (ps_other _ k1 k2)|].
    { split; [by exists x1, x1; split_and!; [cbn; by rewrite lookup_insert_eq|..]|]. intros j ch _ Hsl. exact Hsl. }
    eapply pr_cons; [|apply pr_nil]. eapply (ps_read 4096 k2 _ 1%nat 2 (inl (2, [9; 9]))); [done| |exact E2].
    split_and!; [done|by eexists|exact demo_cpu|done|done]. }
  destruct Hrun as [σ' Hrun]. exists es, σ'. split; [exact Hrun|]. split; [reflexivity|].
  destruct (pipe_fifo 4096 k x es σ' Hx Hok (fun j => conj (Hns _ j) (Hns _ j)) Hrun)
    as (ws & a' & x' & _ & Hx' & _ & _ & _ & Eq & _).
  exists ws, x'. split; [exact Hx'|exact Eq].
Defined.
