(* ===== verification/File.v ===== *)
(** Open files, [src/file.c], and [pipealloc] of [src/pipe.c].

    A [struct file *] is an index into [ftable.file]. *)
From Stdlib Require Import ZArith Lia.
From stdpp Require Import base gmap sets strings numbers list.
From S2P Require Import Prelude State Spinlock Sched Bio Log Fs Console Dir Kalloc Pipe.

Local Open Scope Z_scope.

#[global] Instance file_inhabited : Inhabited file := populate zero_file.

Definition upd_ftable (f : list file -> list file) : M kst unit :=
  modify (fun k => set_k_ftable (f (k_ftable k)) k).
Definition upd_file (i : nat) (f : file -> file) : M kst unit := upd_ftable (alter f i).
Definition file_at (i : nat) : M kst file := k ← get; deref "ftable.file" (k_ftable k !! i).

Definition fileinit : M kst unit := initlock L_ftable.

(** The search of [filealloc]. *)
Fixpoint file_free (l : list file) (i : nat) : option nat :=
  match l with
  | [] => None
  | f :: l' => if f_ref f =? 0 then Some i else file_free l' (S i)
  end.

Definition filealloc : M kst (option nat) :=
  acquire L_ftable;;
  l ← gets k_ftable;
  match file_free l 0 with
  | Some f =>
      upd_file f (set_f_ref 1);;
      release L_ftable;;
      mret (Some f)
  | None =>
      release L_ftable;;
      mret None
  end.

Definition filedup (f : nat) : M kst nat :=
  acquire L_ftable;;
  x ← file_at f;
  if f_ref x <? 1 then panic "filedup" else
  upd_file f (fun x => set_f_ref (f_ref x + 1) x);;
  release L_ftable;;
  mret f.

Definition fileclose (f : nat) : M kst unit :=
  acquire L_ftable;;
  x ← file_at f;
  if f_ref x <? 1 then panic "fileclose" else
  upd_file f (fun x => set_f_ref (f_ref x - 1) x);;
  ff ← file_at f;
  if f_ref ff >? 0 then release L_ftable
  else
    upd_file f (set_f_ref 0);;
    upd_file f (set_f_type FD_NONE);;
    release L_ftable;;
    match f_type ff with
    | FD_PIPE => pipeclose (f_pipe ff) (f_writable ff)
    | FD_INODE => begin_op;; iput (f_ip ff);; end_op
    | FD_NONE => mret tt
    end.

Definition filestat (f : nat) : M kst (Z * option stat) :=
  x ← file_at f;
  match f_type x with
  | FD_INODE =>
      ilock (f_ip x);;
      st ← stati (f_ip x);
      iunlock (f_ip x);;
      mret (0, Some st)
  | _ => mret (-1, None)
  end.

(** [fileread]: the result and the bytes stored at [addr]. *)
Definition fileread (f : nat) (n : Z) : M kst (Z * list Z) :=
  x ← file_at f;
  if negb (f_readable x) then mret (-1, []) else
  match f_type x with
  | FD_PIPE => piperead (f_pipe x) n
  | FD_INODE =>
      ilock (f_ip x);;
      '(r, bs) ← readi (f_ip x) (f_off x) (u32 n);
      (if r >? 0 then upd_file f (fun x => set_f_off (u32 (f_off x + r)) x) else mret tt);;
      iunlock (f_ip x);;
      mret (r, bs)
  | FD_NONE => panic "fileread"
  end.

(** [((LOGSIZE-1-1-2) / 2) * 512] *)
Definition filewrite_max : Z := (LOGSIZE - 1 - 1 - 2) / 2 * 512.

(** The loop of [filewrite]: [bs] is what is left; [i] bytes are written. *)
Fixpoint filewrite_loop (fuel : nat) (f : nat) (bs : list Z) (i : Z) : M kst Z :=
  match fuel with
  | O => fail EFuel
  | S fuel' =>
      if Z.of_nat (length bs) <=? 0 then mret i else
      let n1 := Z.min (Z.of_nat (length bs)) filewrite_max in
      begin_op;;
      x ← file_at f;
      ilock (f_ip x);;
      r ← writei (f_ip x) (take (Z.to_nat n1) bs) (f_off x);
      (if r >? 0 then upd_file f (fun x => set_f_off (u32 (f_off x + r)) x) else mret tt);;
      iunlock (f_ip x);;
      end_op;;
      if r <? 0 then mret i else
      if negb (r =? n1) then panic "short filewrite" else
      filewrite_loop fuel' f (drop (Z.to_nat n1) bs) (i + r)
  end.

Definition filewrite (f : nat) (bs : list Z) : M kst Z :=
  let n := Z.of_nat (length bs) in
  x ← file_at f;
  if negb (f_writable x) then mret (-1) else
  match f_type x with
  | FD_PIPE => pipewrite (f_pipe x) bs
  | FD_INODE =>
      i ← filewrite_loop (Z.to_nat (n / filewrite_max + 2)) f bs 0;
      mret (if i =? n then n else -1)
  | FD_NONE => panic "filewrite"
  end.

(** [pipealloc]: the two files, or the error path that closes what it got. *)
Definition pipealloc_bad (f0 f1 : option nat) : M kst (option (nat * nat)) :=
  (match f0 with Some f => fileclose f | None => mret tt end);;
  (match f1 with Some f => fileclose f | None => mret tt end);;
  mret None.

Definition pipe_end (f : nat) (readable : bool) (p : Z) : M kst unit :=
  upd_file f (set_f_type FD_PIPE);;
  upd_file f (set_f_readable readable);;
  upd_file f (set_f_writable (negb readable));;
  upd_file f (set_f_pipe p).

Definition pipealloc : M kst (option (nat * nat)) :=
  f0 ← filealloc;
  match f0 with
  | None => pipealloc_bad None None
  | Some f0 =>
      f1 ← filealloc;
      match f1 with
      | None => pipealloc_bad (Some f0) None
      | Some f1 =>
          p ← kalloc;
          if p =? 0 then pipealloc_bad (Some f0) (Some f1) else
          modify (fun k => set_k_pipes (<[p := mk_pipe (read_bytes (k_mem k) p (Z.to_nat PIPESIZE))
                                                0 0 true true]> (k_pipes k)) k);;
          pipe_end f0 true p;;
          pipe_end f1 false p;;
          mret (Some (f0, f1))
      end
  end.
