(* ===== verification/Proc.v ===== *)
(** Processes, [src/proc.c]: [allocproc], [userinit], [growproc], [fork], [exit],
    [wait], [scheduler] and [forkret].  ([sched], [sleep], [wakeup] and [kill] are
    in [Sched.v], [procdump] in [Console.v].)

    A [struct proc *] is an index into [ptable.proc].  The trap frame at the top
    of the kernel stack is the field [p_tf]; the context below it is reduced to
    the code it resumes. *)
From Stdlib Require Import ZArith Lia.
From stdpp Require Import base gmap sets strings numbers list.
From S2P Require Import Prelude Strings State Spinlock Code Sched Bio Log Fs Console Dir Kalloc Vm Pipe File.

Local Open Scope Z_scope.

#[global] Instance proc_inhabited : Inhabited proc := populate zero_proc.

Definition proc_at (i : nat) : M kst proc := k ← get; deref "ptable" (k_ptable k !! i).

Definition pinit : M kst unit := initlock L_ptable.

Fixpoint find_unused (ps : list proc) (i : nat) : option nat :=
  match ps with
  | [] => None
  | p :: ps' => if decide (p_state p = UNUSED) then Some i else find_unused ps' (S i)
  end.

Definition allocproc : M kst (option nat) :=
  acquire L_ptable;;
  ps ← gets k_ptable;
  match find_unused ps 0 with
  | None => release L_ptable;; mret None
  | Some p =>
      upd_proc p (set_p_state EMBRYO);;
      k ← get;
      upd_proc p (set_p_pid (k_nextpid k));;
      modify (set_k_nextpid (i32 (k_nextpid k + 1)));;
      release L_ptable;;
      kstack ← kalloc;
      upd_proc p (set_p_kstack kstack);;
      if kstack =? 0 then
        upd_proc p (set_p_state UNUSED);;
        mret None
      else
        upd_proc p (set_p_context K_forkret);;
        mret (Some p)
  end.

(** [safestrcpy(name, src, 16)]: the destination at address 0, the NUL-terminated source
    at 64. *)
Definition safe_name (old src : list Z) : list Z :=
  read_bytes (safestrcpy (fun a => if a <? 64 then ptr old a else ptr src (a - 64)) 0 64 16) 0 16.

(** [userinit]; [initcode] is the embedded binary. *)
Definition userinit (initcode : list Z) : M kst unit :=
  p ← allocproc;
  modify (set_k_initproc p);;
  p ← deref "initproc" p;
  pgdir ← setupkvm;
  upd_proc p (set_p_pgdir pgdir);;
  if pgdir =? 0 then panic "userinit: out of memory?" else
  inituvm pgdir initcode (u32 (Z.of_nat (length initcode)));;
  upd_proc p (set_p_sz (PGSIZE * 2));;
  upd_proc p (set_p_tf (set_tf_rcx PGSIZE (set_tf_rsp (PGSIZE * 2) (set_tf_r11 512 zero_tf))));;
  upd_proc p (fun x => set_p_name (safe_name (p_name x) (bytes_of "initcode")) x);;
  cwd ← namei (bytes_of "/");
  upd_proc p (set_p_cwd cwd);;
  upd_proc p (set_p_state RUNNABLE).

Definition growproc (n : Z) : M kst Z :=
  '(i, p) ← curproc;
  let sz := p_sz p in
  sz ← (if n >? 0 then allocuvm (p_pgdir p) sz (u64 (sz + n))
        else if n <? 0 then deallocuvm (p_pgdir p) sz (u64 (sz + n))
        else mret sz);
  if negb (n =? 0) && (sz =? 0) then mret (-1) else
  upd_proc i (set_p_sz sz);;
  '(_, p) ← curproc;
  switchuvm p;;
  mret 0.

(** The loop of [fork] that duplicates the open files. *)
Fixpoint fork_files (fds : list (option nat)) (fd np : nat) : M kst unit :=
  match fds with
  | [] => mret tt
  | f :: fds' =>
      (match f with
       | Some f =>
           g ← filedup f;
           upd_proc np (fun x => set_p_ofile (<[fd := Some g]> (p_ofile x)) x)
       | None => mret tt
       end);;
      fork_files fds' (S fd) np
  end.

Definition fork : M kst Z :=
  np ← allocproc;
  match np with
  | None => mret (-1)
  | Some np =>
      '(i, p) ← curproc;
      pgdir ← copyuvm (p_pgdir p) (p_sz p);
      upd_proc np (set_p_pgdir pgdir);;
      if pgdir =? 0 then
        x ← proc_at np;
        kfree (p_kstack x);;
        upd_proc np (set_p_kstack 0);;
        upd_proc np (set_p_state UNUSED);;
        mret (-1)
      else
        upd_proc np (set_p_sz (p_sz p));;
        upd_proc np (set_p_parent (Some i));;
        upd_proc np (set_p_tf (set_tf_rax 0 (p_tf p)));;
        fork_files (p_ofile p) 0 np;;
        cwd ← deref "cwd" (p_cwd p);
        cwd ← idup cwd;
        upd_proc np (set_p_cwd (Some cwd));;
        upd_proc np (fun x => set_p_name (safe_name (p_name x) (cut_nul (p_name p))) x);;
        x ← proc_at np;
        let pid := p_pid x in
        upd_proc np (set_p_state RUNNABLE);;
        mret pid
  end.

(** The loop of [exit] that closes the open files. *)
Fixpoint exit_files (cnt fd i : nat) : M kst unit :=
  match cnt with
  | O => mret tt
  | S cnt' =>
      p ← proc_at i;
      (match mjoin (p_ofile p !! fd) with
       | Some f =>
           fileclose f;;
           upd_proc i (fun x => set_p_ofile (<[fd := None]> (p_ofile x)) x)
       | None => mret tt
       end);;
      exit_files cnt' (S fd) i
  end.

(** [wakeup1(p)] for a process pointer, which may be null: no process sleeps on the null
    channel, since every caller of [sleep] passes the address of an object. *)
Definition wakeup_proc (p : option nat) : M kst unit :=
  match p with
  | Some i => wakeup1 (Ch_proc i)
  | None => mret tt
  end.

(** The loop of [exit] that passes the children to init. *)
Fixpoint exit_children (cnt j i : nat) : M kst unit :=
  match cnt with
  | O => mret tt
  | S cnt' =>
      p ← proc_at j;
      init ← gets k_initproc;
      (if decide (p_parent p = Some i) then
         upd_proc j (set_p_parent init);;
         (if decide (p_state p = ZOMBIE) then wakeup_proc init else mret tt)
       else mret tt);;
      exit_children cnt' (S j) i
  end.

(** [exit] once the files are closed. *)
Definition exit_rest (i : nat) : M kst unit :=
  begin_op;;
  p ← proc_at i;
  cwd ← deref "cwd" (p_cwd p);
  iput cwd;;
  end_op;;
  upd_proc i (set_p_cwd None);;
  acquire L_ptable;;
  p ← proc_at i;
  wakeup_proc (p_parent p);;
  exit_children NPROC 0 i;;
  upd_proc i (set_p_state ZOMBIE);;
  sched;;
  panic "zombie exit".

Definition exit : M kst unit :=
  '(i, _) ← curproc;
  init ← gets k_initproc;
  if decide (init = Some i) then panic "init exiting" else
  exit_files NOFILE 0 i;;
  exit_rest i.

(** The scan of [wait]: a zombie child of [i], and whether there is any child. *)
Fixpoint wait_scan (ps : list proc) (j i : nat) (havekids : bool) : option nat * bool :=
  match ps with
  | [] => (None, havekids)
  | p :: ps' =>
      if decide (p_parent p = Some i) then
        if decide (p_state p = ZOMBIE) then (Some j, true) else wait_scan ps' (S j) i true
      else wait_scan ps' (S j) i havekids
  end.

Definition wait : M kst Z :=
  acquire L_ptable;;
  '(i, pr) ← curproc;
  ps ← gets k_ptable;
  match wait_scan ps 0 i false with
  | (Some j, _) =>
      p ← proc_at j;
      let pid := p_pid p in
      kfree (p_kstack p);;
      upd_proc j (set_p_kstack 0);;
      freevm (p_pgdir p);;
      upd_proc j (set_p_pid 0);;
      upd_proc j (set_p_parent None);;
      upd_proc j (fun x => set_p_name (<[O := 0]> (p_name x)) x);;
      upd_proc j (set_p_killed false);;
      upd_proc j (set_p_state UNUSED);;
      release L_ptable;;
      mret pid
  | (None, havekids) =>
      if negb havekids || p_killed pr then
        release L_ptable;;
        mret (-1)
      else
        sleep (Ch_proc i) L_ptable;;
        again
  end.

(** One pass of [scheduler] over the process table, from slot [j] on.  [run i] is what
    happens between the [swtch] to process [i] and its [swtch] back; [skipped] is
    the number of slots passed over since a process ran. *)
Fixpoint scheduler_pass (run : nat -> M kst unit) (cnt j : nat) (skipped : Z) : M kst Z :=
  match cnt with
  | O => mret skipped
  | S cnt' =>
      p ← proc_at j;
      if decide (p_state p = RUNNABLE) then
        modify (set_k_proc (Some j));;
        switchuvm p;;
        upd_proc j (set_p_state RUNNING);;
        run j;;
        switchkvm;;
        modify (set_k_proc None);;
        scheduler_pass run cnt' (S j) 0
      else scheduler_pass run cnt' (S j) (skipped + 1)
  end.

(** One round of [for(;;)] in [scheduler]; [hlt] waits for an interrupt. *)
Definition scheduler_round (run : nat -> M kst unit) (skipped : Z) : M kst Z :=
  sti;;
  acquire L_ptable;;
  skipped ← scheduler_pass run NPROC 0 skipped;
  release L_ptable;;
  mret (if skipped >? 2 * Z.of_nat NPROC then 0 else skipped).

Definition forkret : M kst unit :=
  release L_ptable;;
  k ← get;
  if k_first k then
    modify (set_k_first false);;
    iinit ROOTDEV;;
    initlog ROOTDEV
  else mret tt.
