(* ===== verification/Exec.v ===== *)
(** System call arguments ([src/syscall.c]) and program loading ([src/exec.c]). *)
From Stdlib Require Import ZArith Lia.
From stdpp Require Import base gmap sets strings numbers list.
From S2P Require Import Prelude Strings State Spinlock Sched Bio Log Fs Console Dir Kalloc Vm Pipe File Proc.

Local Open Scope Z_scope.

(** ** Arguments *)

(** [fetchint], [fetchaddr]: [None] is the result -1. *)
Definition fetchint (addr : Z) : M kst (option Z) :=
  '(_, p) ← curproc;
  if (addr >=? p_sz p) || (u64 (addr + 4) >? p_sz p) then mret None else
  bs ← read_user 4 addr;
  mret (Some (i32 (le_val bs))).

Definition fetchaddr (addr : Z) : M kst (option Z) :=
  '(_, p) ← curproc;
  if (addr >=? p_sz p) || (u64 (addr + 8) >? p_sz p) then mret None else
  bs ← read_user 8 addr;
  mret (Some (le_val bs)).

(** The scan of [fetchstr] for the NUL, at most [n] bytes: the string. *)
Fixpoint fetchstr_loop (n : nat) (s : Z) : M kst (option (list Z)) :=
  match n with
  | O => mret None
  | S n' =>
      a ← translate s;
      c ← gets (fun k => k_mem k a);
      if c =? 0 then mret (Some [])
      else
        r ← fetchstr_loop n' (s + 1);
        mret (cons c <$> r)
  end.

(** [fetchstr]: the string at [addr]; its length is the C result. *)
Definition fetchstr (addr : Z) : M kst (option (list Z)) :=
  '(_, p) ← curproc;
  if addr >=? p_sz p then mret None
  else fetchstr_loop (Z.to_nat (p_sz p - addr)) addr.

Definition fetcharg (n : Z) : M kst Z :=
  '(_, p) ← curproc;
  let tf := p_tf p in
  if n =? 0 then mret (tf_rdi tf)
  else if n =? 1 then mret (tf_rsi tf)
  else if n =? 2 then mret (tf_rdx tf)
  else if n =? 3 then mret (tf_r10 tf)
  else if n =? 4 then mret (tf_r8 tf)
  else if n =? 5 then mret (tf_r9 tf)
  else panic "failed fetch".

Definition argint (n : Z) : M kst Z := v ← fetcharg n; mret (i32 v).
Definition argaddr (n : Z) : M kst Z := fetcharg n.

(** [argptr]: the pointer, or [None] for -1.  The checks are made on [(uint)i]; the
    [int] [size] is added to it as an unsigned number. *)
Definition argptr (n size : Z) : M kst (option Z) :=
  i ← argaddr n;
  '(_, p) ← curproc;
  if (size <? 0) || (u32 i >=? p_sz p) || (u32 (u32 i + size) >? p_sz p) then mret None
  else mret (Some i).

(** [argstr]: the address goes through an [int]. *)
Definition argstr (n : Z) : M kst (option (list Z)) :=
  addr ← argint n;
  fetchstr (u64 addr).

(** ** [exec] *)
Definition ELF_MAGIC : Z := 1179403647.
Definition ELF_PROG_LOAD : Z := 1.

(** [struct elfhdr] (64 bytes) and [struct proghdr] (56 bytes), as far as [exec] uses
    them. *)
Record elfhdr : Type := mk_elfhdr {
  elf_magic : Z;
  elf_entry : Z;
  elf_phoff : Z;
  elf_phnum : Z
}.
Record proghdr : Type := mk_proghdr {
  ph_type : Z;
  ph_off : Z;
  ph_vaddr : Z;
  ph_filesz : Z;
  ph_memsz : Z
}.
Definition field (bs : list Z) (off n : nat) : Z := le_val (slice bs off n).
Definition get_elfhdr (bs : list Z) : elfhdr :=
  mk_elfhdr (field bs 0 4) (field bs 24 8) (field bs 32 8) (field bs 56 2).
Definition get_proghdr (bs : list Z) : proghdr :=
  mk_proghdr (field bs 0 4) (field bs 8 8) (field bs 16 8) (field bs 32 8) (field bs 40 8).

(** The [bad] label. *)
Definition exec_bad (pgdir : Z) (ip : option nat) : M kst Z :=
  (if pgdir =? 0 then mret tt else freevm pgdir);;
  (match ip with
   | Some ip => iunlockput ip;; end_op
   | None => mret tt
   end);;
  mret (-1).

(** The loop over the program headers: the new size, [None] for a jump to [bad]. *)
Fixpoint exec_load (cnt : nat) (off : Z) (pgdir sz : Z) (ip : nat) : M kst (option Z) :=
  match cnt with
  | O => mret (Some sz)
  | S cnt' =>
      '(r, bs) ← readi ip (u32 off) 56;
      if negb (r =? 56) then mret None else
      let ph := get_proghdr bs in
      if negb (ph_type ph =? ELF_PROG_LOAD) then exec_load cnt' (i32 (off + 56)) pgdir sz ip else
      if ph_memsz ph <? ph_filesz ph then mret None else
      if u64 (ph_vaddr ph + ph_memsz ph) <? ph_vaddr ph then mret None else
      sz ← allocuvm pgdir sz (u64 (ph_vaddr ph + ph_memsz ph));
      if sz =? 0 then mret None else
      if negb (ph_vaddr ph mod PGSIZE =? 0) then mret None else
      r ← loaduvm pgdir (ph_vaddr ph) ip (u32 (ph_off ph)) (u32 (ph_filesz ph));
      if r <? 0 then mret None else exec_load cnt' (i32 (off + 56)) pgdir sz ip
  end.

(** The loop that pushes the argument strings: the stack pointer and the addresses. *)
Fixpoint exec_args (args : list (list Z)) (argc : Z) (pgdir sp : Z) : M kst (option (Z * list Z)) :=
  match args with
  | [] => mret (Some (sp, []))
  | a :: args' =>
      if argc >=? MAXARG then mret None else
      let sp := Z.land (u64 (sp - (Z.of_nat (length a) + 1))) (u64 (Z.lnot 7)) in
      r ← copyout pgdir sp (a ++ [0]);
      if r <? 0 then mret None else
      rest ← exec_args args' (argc + 1) pgdir sp;
      mret ((fun x => (x.1, sp :: x.2)) <$> rest)
  end.

(** The last component of a path. *)
Fixpoint last_elem (path : list Z) (last : list Z) : list Z :=
  match path with
  | [] => last
  | c :: path' => last_elem path' (if c =? slash then path' else last)
  end.

(** From the two stack pages on; [ip] has been released. *)
Definition exec_stack (path : list Z) (args : list (list Z)) (elf : elfhdr) (pgdir sz : Z) : M kst Z :=
  let sz := PGROUNDUP sz in
  sz ← allocuvm pgdir sz (u64 (sz + 2 * PGSIZE));
  if sz =? 0 then exec_bad pgdir None else
  clearpteu pgdir (sz - 2 * PGSIZE);;
  r ← exec_args args 0 pgdir sz;
  match r with
  | None => exec_bad pgdir None
  | Some (sp, addrs) =>
      let argc := Z.of_nat (length args) in
      let argvp := u64 (sp - (argc + 1) * 8) in
      '(i, p) ← curproc;
      let oldpgdir := p_pgdir p in
      upd_proc i (fun x => set_p_tf (set_tf_rdi argc (p_tf x)) x);;
      upd_proc i (fun x => set_p_tf (set_tf_rsi argvp (p_tf x)) x);;
      let sp := u64 (sp - (3 + argc + 1) * 8) in
      let ustack := [4294967295; argc; argvp] ++ addrs ++ [0] in
      r ← copyout pgdir sp (mjoin (le_bytes 8 <$> ustack));
      if r <? 0 then exec_bad pgdir None else
      upd_proc i (fun x => set_p_name (safe_name (p_name x) (last_elem path path)) x);;
      upd_proc i (set_p_pgdir pgdir);;
      upd_proc i (set_p_sz sz);;
      upd_proc i (fun x => set_p_tf (set_tf_rip (elf_entry elf) (p_tf x)) x);;
      upd_proc i (fun x => set_p_tf (set_tf_rcx (elf_entry elf) (p_tf x)) x);;
      upd_proc i (fun x => set_p_tf (set_tf_rsp sp (p_tf x)) x);;
      x ← proc_at i;
      switchuvm x;;
      freevm oldpgdir;;
      mret 0
  end.

Definition exec (path : list Z) (args : list (list Z)) : M kst Z :=
  begin_op;;
  ip ← namei path;
  match ip with
  | None => end_op;; mret (-1)
  | Some ip =>
      ilock ip;;
      '(r, bs) ← readi ip 0 64;
      if negb (r =? 64) then exec_bad 0 (Some ip) else
      let elf := get_elfhdr bs in
      if negb (elf_magic elf =? ELF_MAGIC) then exec_bad 0 (Some ip) else
      pgdir ← setupkvm;
      if pgdir =? 0 then exec_bad 0 (Some ip) else
      sz ← exec_load (Z.to_nat (elf_phnum elf)) (i32 (elf_phoff elf)) pgdir PGSIZE ip;
      match sz with
      | None => exec_bad pgdir (Some ip)
      | Some sz =>
          iunlockput ip;;
          end_op;;
          exec_stack path args elf pgdir sz
      end
  end.
