(* ===== verification/Sysfile.v ===== *)
(** The system calls: [src/sysfile.c], [src/sysproc.c], the dispatch of
    [src/syscall.c] and [trap] of [src/trap.c].

    A call returns the value that [syscall] stores in [rax].  The functions are
    declared to return [addr_t] and defined to return [int], so the upper half of the
    register is not specified by C; the model stores the sign-extended value.

    Data for a user buffer is stored through the process's page table after the call
    that produced it, and data from one is loaded before the call that consumes it, so
    a page fault on the buffer is raised at the start of the call. *)
From Stdlib Require Import ZArith Lia.
From stdpp Require Import base gmap sets strings numbers list.
From S2P Require Import Prelude Strings State Spinlock Code Sched Bio Log Fs Console Dir Kalloc Vm Pipe File Proc Exec.

Local Open Scope Z_scope.

(** ** File descriptors *)
Definition argfd (n : Z) : M kst (option (nat * nat)) :=
  fd ← argint n;
  '(_, p) ← curproc;
  if (fd <? 0) || (fd >=? Z.of_nat NOFILE) then mret None
  else mret ((fun f => (Z.to_nat fd, f)) <$> mjoin (p_ofile p !! Z.to_nat fd)).

(** The search of [fdalloc]. *)
Fixpoint fd_free {A} (l : list (option A)) (fd : nat) : option nat :=
  match l with
  | [] => None
  | None :: _ => Some fd
  | Some _ :: l' => fd_free l' (S fd)
  end.

Definition set_ofile (i fd : nat) (f : option nat) : M kst unit :=
  upd_proc i (fun x => set_p_ofile (<[fd := f]> (p_ofile x)) x).

Definition fdalloc (f : nat) : M kst (option nat) :=
  '(i, p) ← curproc;
  match fd_free (p_ofile p) 0 with
  | Some fd => set_ofile i fd (Some f);; mret (Some fd)
  | None => mret None
  end.

Definition sys_dup : M kst Z :=
  a ← argfd 0;
  match a with
  | None => mret (-1)
  | Some (_, f) =>
      fd ← fdalloc f;
      match fd with
      | None => mret (-1)
      | Some fd => filedup f;; mret (Z.of_nat fd)
      end
  end.

Definition sys_read : M kst Z :=
  a ← argfd 0;
  match a with
  | None => mret (-1)
  | Some (_, f) =>
      n ← argint 2;
      p ← argptr 1 n;
      match p with
      | None => mret (-1)
      | Some p =>
          '(r, bs) ← fileread f n;
          write_user p bs;;
          mret r
      end
  end.

Definition sys_write : M kst Z :=
  a ← argfd 0;
  match a with
  | None => mret (-1)
  | Some (_, f) =>
      n ← argint 2;
      p ← argptr 1 n;
      match p with
      | None => mret (-1)
      | Some p =>
          bs ← read_user (Z.to_nat n) p;
          filewrite f bs
      end
  end.

Definition sys_close : M kst Z :=
  a ← argfd 0;
  match a with
  | None => mret (-1)
  | Some (fd, f) =>
      '(i, _) ← curproc;
      set_ofile i fd None;;
      fileclose f;;
      mret 0
  end.

(** The fields of [struct stat] at their offsets. *)
Definition write_stat (a : Z) (st : stat) : M kst unit :=
  write_user a (le_bytes 2 (st_type st));;
  write_user (a + 4) (le_bytes 4 (st_dev st));;
  write_user (a + 8) (le_bytes 4 (st_ino st));;
  write_user (a + 12) (le_bytes 2 (st_nlink st));;
  write_user (a + 16) (le_bytes 4 (st_size st)).

Definition sys_fstat : M kst Z :=
  a ← argfd 0;
  match a with
  | None => mret (-1)
  | Some (_, f) =>
      p ← argptr 1 20;
      match p with
      | None => mret (-1)
      | Some p =>
          '(r, st) ← filestat f;
          (match st with Some st => write_stat p st | None => mret tt end);;
          mret r
      end
  end.

(** ** Directories *)

(** The loop of [isdirempty] from offset [off]. *)
Fixpoint isdirempty_loop (fuel : nat) (dp : nat) (off : Z) : M kst bool :=
  match fuel with
  | O => fail EFuel
  | S fuel' =>
      x ← inode_at dp;
      if off <? i_size x then
        '(r, bs) ← readi dp off DIRENT;
        if negb (r =? DIRENT) then panic "isdirempty: readi" else
        if negb (de_inum (get_dirent bs) =? 0) then mret false
        else isdirempty_loop fuel' dp (off + DIRENT)
      else mret true
  end.
Definition isdirempty (dp : nat) : M kst bool :=
  x ← inode_at dp;
  isdirempty_loop (dir_fuel (i_size x)) dp (2 * DIRENT).

Definition upd_nlink (ip : nat) (d : Z) : M kst unit :=
  upd_inode ip (fun x => set_i_nlink (i16 (i_nlink x + d)) x).

Definition name0 : list Z := replicate (Z.to_nat DIRSIZ) 0.

(** The [bad] label of [sys_link]. *)
Definition link_bad (ip : nat) : M kst Z :=
  ilock ip;;
  upd_nlink ip (-1);;
  iupdate ip;;
  iunlockput ip;;
  end_op;;
  mret (-1).

Definition sys_link : M kst Z :=
  old ← argstr 0;
  match old with
  | None => mret (-1)
  | Some old =>
  new ← argstr 1;
  match new with
  | None => mret (-1)
  | Some new =>
      begin_op;;
      ip ← namei old;
      match ip with
      | None => end_op;; mret (-1)
      | Some ip =>
          ilock ip;;
          x ← inode_at ip;
          if i_type x =? T_DIR then iunlockput ip;; end_op;; mret (-1) else
          upd_nlink ip 1;;
          iupdate ip;;
          iunlock ip;;
          '(dp, name) ← nameiparent new name0;
          match dp with
          | None => link_bad ip
          | Some dp =>
              ilock dp;;
              d ← inode_at dp;
              x ← inode_at ip;
              r ← (if negb (i_dev d =? i_dev x) then mret (-1) else dirlink dp name (i_inum x));
              if r <? 0 then iunlockput dp;; link_bad ip
              else
                iunlockput dp;;
                iput ip;;
                end_op;;
                mret 0
          end
      end
  end
  end.

(** The [bad] label of [sys_unlink]. *)
Definition unlink_bad (dp : nat) : M kst Z :=
  iunlockput dp;;
  end_op;;
  mret (-1).

Definition sys_unlink : M kst Z :=
  path ← argstr 0;
  match path with
  | None => mret (-1)
  | Some path =>
      begin_op;;
      '(dp, name) ← nameiparent path name0;
      match dp with
      | None => end_op;; mret (-1)
      | Some dp =>
          ilock dp;;
          if (namecmp name (bytes_of ".") =? 0) || (namecmp name (bytes_of "..") =? 0) then
            unlink_bad dp
          else
          r ← dirlookup dp name;
          match r with
          | None => unlink_bad dp
          | Some (ip, off) =>
              ilock ip;;
              x ← inode_at ip;
              if i_nlink x <? 1 then panic "unlink: nlink < 1" else
              empty ← (if i_type x =? T_DIR then isdirempty ip else mret true);
              if negb empty then iunlockput ip;; unlink_bad dp
              else
                r ← writei dp (replicate (Z.to_nat DIRENT) 0) off;
                if negb (r =? DIRENT) then panic "unlink: writei" else
                (if i_type x =? T_DIR then upd_nlink dp (-1);; iupdate dp else mret tt);;
                iunlockput dp;;
                upd_nlink ip (-1);;
                iupdate ip;;
                iunlockput ip;;
                end_op;;
                mret 0
          end
      end
  end.

Definition create (path : list Z) (type major minor : Z) : M kst (option nat) :=
  '(dp, name) ← nameiparent path name0;
  match dp with
  | None => mret None
  | Some dp =>
      ilock dp;;
      r ← dirlookup dp name;
      match r with
      | Some (ip, _) =>
          iunlockput dp;;
          ilock ip;;
          x ← inode_at ip;
          if (type =? T_FILE) && (i_type x =? T_FILE) then mret (Some ip)
          else iunlockput ip;; mret None
      | None =>
          d ← inode_at dp;
          ip ← ialloc (i_dev d) type;
          ilock ip;;
          upd_inode ip (set_i_major major);;
          upd_inode ip (set_i_minor minor);;
          upd_inode ip (set_i_nlink 1);;
          iupdate ip;;
          x ← inode_at ip;
          (if type =? T_DIR then
             upd_nlink dp 1;;
             iupdate dp;;
             r ← dirlink ip (bytes_of ".") (i_inum x);
             if r <? 0 then panic "create dots" else
             r ← dirlink ip (bytes_of "..") (i_inum d);
             if r <? 0 then panic "create dots" else mret tt
           else mret tt);;
          r ← dirlink dp name (i_inum x);
          if r <? 0 then panic "create: dirlink" else
          iunlockput dp;;
          mret (Some ip)
      end
  end.

(** The inode that [sys_open] opens, locked; [None] after the error exits. *)
Definition open_inode (path : list Z) (omode : Z) : M kst (option nat) :=
  if has omode O_CREATE then
    ip ← create path T_FILE 0 0;
    match ip with
    | None => end_op;; mret None
    | Some ip => mret (Some ip)
    end
  else
    ip ← namei path;
    match ip with
    | None => end_op;; mret None
    | Some ip =>
        ilock ip;;
        x ← inode_at ip;
        if (i_type x =? T_DIR) && negb (omode =? O_RDONLY) then
          iunlockput ip;; end_op;; mret None
        else mret (Some ip)
    end.

Definition open_fail (f : option nat) (ip : nat) : M kst Z :=
  (match f with Some f => fileclose f | None => mret tt end);;
  iunlockput ip;;
  end_op;;
  mret (-1).

Definition sys_open : M kst Z :=
  path ← argstr 0;
  match path with
  | None => mret (-1)
  | Some path =>
      omode ← argint 1;
      begin_op;;
      ip ← open_inode path omode;
      match ip with
      | None => mret (-1)
      | Some ip =>
          f ← filealloc;
          match f with
          | None => open_fail None ip
          | Some f =>
              fd ← fdalloc f;
              match fd with
              | None => open_fail (Some f) ip
              | Some fd =>
                  iunlock ip;;
                  end_op;;
                  upd_file f (set_f_type FD_INODE);;
                  upd_file f (set_f_ip ip);;
                  upd_file f (set_f_off 0);;
                  upd_file f (set_f_readable (negb (has omode O_WRONLY)));;
                  upd_file f (set_f_writable (has omode O_WRONLY || has omode O_RDWR));;
                  mret (Z.of_nat fd)
              end
          end
      end
  end.

(** The common end of [sys_mkdir] and [sys_mknod]. *)
Definition created (ip : option nat) : M kst Z :=
  match ip with
  | None => end_op;; mret (-1)
  | Some ip => iunlockput ip;; end_op;; mret 0
  end.

Definition sys_mkdir : M kst Z :=
  begin_op;;
  path ← argstr 0;
  ip ← (match path with None => mret None | Some path => create path T_DIR 0 0 end);
  created ip.

Definition sys_mknod : M kst Z :=
  begin_op;;
  path ← argstr 0;
  ip ← (match path with
        | None => mret None
        | Some path =>
            major ← argint 1;
            minor ← argint 2;
            create path T_DEV (i16 major) (i16 minor)
        end);
  created ip.

Definition sys_chdir : M kst Z :=
  begin_op;;
  path ← argstr 0;
  ip ← (match path with None => mret None | Some path => namei path end);
  match ip with
  | None => end_op;; mret (-1)
  | Some ip =>
      ilock ip;;
      x ← inode_at ip;
      if negb (i_type x =? T_DIR) then iunlockput ip;; end_op;; mret (-1)
      else
        iunlock ip;;
        '(i, p) ← curproc;
        cwd ← deref "cwd" (p_cwd p);
        iput cwd;;
        end_op;;
        upd_proc i (set_p_cwd (Some ip));;
        mret 0
  end.

(** The loop of [sys_exec] over the argument vector: [None] for -1. *)
Fixpoint exec_argv (cnt : nat) (uargv : Z) : M kst (option (list (list Z))) :=
  match cnt with
  | O => mret None
  | S cnt' =>
      uarg ← fetchaddr uargv;
      match uarg with
      | None => mret None
      | Some uarg =>
          if uarg =? 0 then mret (Some [])
          else
            s ← fetchstr uarg;
            match s with
            | None => mret None
            | Some s => rest ← exec_argv cnt' (u64 (uargv + 8)); mret (cons s <$> rest)
            end
      end
  end.

Definition sys_exec : M kst Z :=
  path ← argstr 0;
  match path with
  | None => mret (-1)
  | Some path =>
      uargv ← argaddr 1;
      args ← exec_argv (Z.to_nat MAXARG) uargv;
      match args with
      | None => mret (-1)
      | Some args => exec path args
      end
  end.

Definition sys_pipe : M kst Z :=
  fd ← argptr 0 8;
  match fd with
  | None => mret (-1)
  | Some fd =>
      r ← pipealloc;
      match r with
      | None => mret (-1)
      | Some (rf, wf) =>
          fd0 ← fdalloc rf;
          match fd0 with
          | None => fileclose rf;; fileclose wf;; mret (-1)
          | Some fd0 =>
              fd1 ← fdalloc wf;
              match fd1 with
              | None =>
                  '(i, _) ← curproc;
                  set_ofile i fd0 None;;
                  fileclose rf;;
                  fileclose wf;;
                  mret (-1)
              | Some fd1 =>
                  write_user fd (le_bytes 4 (Z.of_nat fd0));;
                  write_user (fd + 4) (le_bytes 4 (Z.of_nat fd1));;
                  mret 0
              end
          end
      end
  end.

(** ** [src/sysproc.c] *)
Definition sys_fork : M kst Z := fork.
Definition sys_exit : M kst Z := exit;; mret 0.
Definition sys_wait : M kst Z := wait.
Definition sys_kill : M kst Z := pid ← argint 0; kill pid.
Definition sys_getpid : M kst Z := '(_, p) ← curproc; mret (p_pid p).

Definition sys_sbrk : M kst Z :=
  n ← argaddr 0;
  '(_, p) ← curproc;
  r ← growproc (i64 n);
  if r <? 0 then mret (u64 (-1)) else mret (p_sz p).

(** A round of the loop of [sys_sleep], entered with [tickslock] held; [ticks - ticks0 < n]
    compares unsigned numbers. *)
Definition sys_sleep_round (n ticks0 : Z) : M kst Z :=
  ticks ← gets k_ticks;
  if u32 (ticks - ticks0) <? u32 n then
    '(_, p) ← curproc;
    if p_killed p then release L_ticks;; mret (-1)
    else sleep Ch_ticks L_ticks;; again
  else release L_ticks;; mret 0.

Definition sys_sleep : M kst Z :=
  n ← argint 0;
  acquire L_ticks;;
  ticks0 ← gets k_ticks;
  sys_sleep_round n ticks0.

Definition sys_uptime : M kst Z :=
  acquire L_ticks;;
  xticks ← gets k_ticks;
  release L_ticks;;
  mret (i32 xticks).

(** ** Dispatch *)

(** [syscalls[num]], with the numbers of [src/syscall.h]. *)
Definition syscalls (num : Z) : option (M kst Z) :=
  match num with
  | 1 => Some sys_fork
  | 2 => Some sys_exit
  | 3 => Some sys_wait
  | 4 => Some sys_pipe
  | 5 => Some sys_read
  | 6 => Some sys_kill
  | 7 => Some sys_exec
  | 8 => Some sys_fstat
  | 9 => Some sys_chdir
  | 10 => Some sys_dup
  | 11 => Some sys_getpid
  | 12 => Some sys_sbrk
  | 13 => Some sys_sleep
  | 14 => Some sys_uptime
  | 15 => Some sys_open
  | 16 => Some sys_write
  | 17 => Some sys_mknod
  | 18 => Some sys_unlink
  | 19 => Some sys_link
  | 20 => Some sys_mkdir
  | 21 => Some sys_close
  | _ => None
  end.

Definition exit_if_killed : M kst unit :=
  '(_, p) ← curproc;
  if p_killed p then exit else mret tt.

Definition syscall (tf : trapframe) : M kst unit :=
  exit_if_killed;;
  '(i, p) ← curproc;
  upd_proc i (set_p_tf tf);;
  (match syscalls (tf_rax tf) with
   | Some call =>
       r ← call;
       upd_proc i (fun x => set_p_tf (set_tf_rax (u64 r) (p_tf x)) x)
   | None =>
       cprintf (bytes_of "%d %s: unknown sys call %d" ++ [10])
         [VInt (p_pid p); VStr (Some (p_name p)); VInt (tf_rax tf)];;
       upd_proc i (fun x => set_p_tf (set_tf_rax (u64 (-1)) (p_tf x)) x)
   end);;
  exit_if_killed.
