(* ===== verification/Keep.v ===== *)
(** What the kernel's code leaves alone.  [Keeps m]: from a state in which the current process,
    if there is one, is alive, the code [m], whether it returns or gives up the CPU, keeps every process's place in the
    process tree, its open files and its being in use, and every file's reference count and
    type; and it does not stop in the panics that a wrong reference count would raise.

    The instances follow the definitions of the code, function by function, so that class
    resolution finds the fact for the callees. *)
From Stdlib Require Import ZArith Lia.
From stdpp Require Import base gmap sets strings numbers list.
From S2P Require Import Prelude Strings State Spinlock Code Sched Bio Log Fs Console Dir Kalloc Vm Pipe File Proc Exec Sysfile.

Local Open Scope Z_scope.

(** ** The view of a state *)

(** The state of a process up to scheduling. *)
Definition pclass (p : proc) : procstate :=
  match p_state p with SLEEPING | RUNNABLE | RUNNING => RUNNABLE | st => st end.
Record pv : Type := mk_pv {
  pv_class : procstate;
  pv_parent : option nat;
  pv_ofile : list (option nat)
}.
Record fv : Type := mk_fv {
  fv_ref : Z;
  fv_type : fdtype
}.
Definition pview (p : proc) : pv := mk_pv (pclass p) (p_parent p) (p_ofile p).
Definition fview (f : file) : fv := mk_fv (f_ref f) (f_type f).

Record same (k k' : kst) : Prop := mk_same {
  sm_proc : k_proc k' = k_proc k;
  sm_init : k_initproc k' = k_initproc k;
  sm_ptable : pview <$> k_ptable k' = pview <$> k_ptable k;
  sm_ftable : fview <$> k_ftable k' = fview <$> k_ftable k
}.

(** The process that the CPU runs, if any, is alive. *)
Definition running (k : kst) : Prop :=
  forall i, k_proc k = Some i -> exists p, k_ptable k !! i = Some p /\ pclass p = RUNNABLE.

Definition benign (e : error) : Prop := e <> EPanic "filedup" /\ e <> EPanic "fileclose".

Class Keeps {A : Type} (m : M kst A) : Prop :=
  keeps : forall k, running k ->
    match m k with Ok _ k' | Blocked k' => same k k' | Err e => benign e end.

#[global] Instance same_refl : Reflexive same.
Proof. by intros k. Qed.
#[global] Instance same_trans : Transitive same.
Proof. intros k1 k2 k3 [] []. split; congruence. Qed.

Lemma same_lookup {A B} (f : A -> B) (l l' : list A) i x :
  f <$> l' = f <$> l -> l !! i = Some x -> exists y, l' !! i = Some y /\ f y = f x.
Proof.
  intros E Hx. assert ((f <$> l') !! i = Some (f x)) as H by (rewrite E, list_lookup_fmap, Hx; done).
  rewrite list_lookup_fmap in H. destruct (l' !! i) as [y|]; [|discriminate]. exists y. split; [done|].
  by injection H.
Qed.

Lemma running_same k k' : same k k' -> running k -> running k'.
Proof.
  intros [Hp _ Ht _] Hr i Hi. destruct (Hr i) as (p & Hpi & Hc); [congruence|].
  destruct (same_lookup _ _ _ _ _ Ht Hpi) as (q & Hq & Hv). exists q. injection Hv as Hv _ _. split; congruence.
Qed.

(** ** Rules *)
Lemma keeps_ret {A} (a : A) : Keeps (mret a).
Proof. by intros k _. Qed.

Lemma keeps_bind {A B} (m : M kst A) (f : A -> M kst B) :
  Keeps m -> (forall a, Keeps (f a)) -> Keeps (m ≫= f).
Proof.
  intros Hm Hf k Hr. unfold mbind, M_bind. specialize (Hm k Hr). destruct (m k) as [a k1|k1|e]; [|done..].
  specialize (Hf a k1 (running_same _ _ Hm Hr)). destruct (f a k1); [by etrans..|done].
Qed.

Lemma keeps_fail {A} e : benign e -> Keeps (A := A) (fail e).
Proof. by intros He k _. Qed.

Lemma keeps_modify f : (forall k, same k (f k)) -> Keeps (modify f).
Proof. intros Hf k _. apply Hf. Qed.

Lemma keeps_get {A} (f : kst -> A) : Keeps (gets f).
Proof. by intros k _. Qed.

#[global] Instance keeps_deref {A} w (o : option A) : Keeps (deref w o).
Proof. destruct o; [apply keeps_ret|]. apply keeps_fail. by split. Qed.

(** Updates of the process and file tables that keep the view. *)
Lemma fmap_alter_view {A B} (v : A -> B) f i (l : list A) :
  (forall x, v (f x) = v x) -> v <$> alter f i l = v <$> l.
Proof.
  intros Hf. apply list_eq. intros j. rewrite !list_lookup_fmap, list_lookup_alter.
  destruct (decide (i = j)) as [<-|]; [|done]. destruct (l !! i); cbn; [by rewrite Hf|done].
Qed.

Lemma keeps_upd_proc i f : (forall p, pview (f p) = pview p) -> Keeps (upd_proc i f).
Proof. intros Hf. apply keeps_modify. intros k. split; try done. by apply fmap_alter_view. Qed.

Lemma keeps_upd_file i f : (forall x, fview (f x) = fview x) -> Keeps (upd_file i f).
Proof. intros Hf. apply keeps_modify. intros k. split; try done. by apply fmap_alter_view. Qed.

(** Code that is run as a call. *)
Lemma keeps_ext {A} (m m' : M kst A) : (forall k, m k = m' k) -> Keeps m' -> Keeps m.
Proof. intros E Hm k Hr. rewrite E. by apply Hm. Qed.
Lemma keeps_run_bind {L A B} (c : code L A) (g : A -> code L B) :
  Keeps (run c) -> (forall a, Keeps (run (g a))) -> Keeps (run (c ≫= g)).
Proof. intros Hc Hg. eapply keeps_ext; [intros; apply run_code_bind|]. by apply keeps_bind. Qed.
Lemma keeps_run_do {L A} (m : M kst A) : Keeps m -> Keeps (run (L := L) (do_ m)).
Proof. apply keeps_ext. intros. apply run_do. Qed.
Lemma keeps_run_lock {L} lk : Keeps (acquire lk) -> Keeps (run (L := L) (lock lk)).
Proof. apply keeps_ext. intros. apply run_lock. Qed.
Lemma keeps_run_unlock {L} lk : Keeps (release lk) -> Keeps (run (L := L) (unlock lk)).
Proof. apply keeps_ext. intros. apply run_unlock. Qed.

(** One rule for the head of the code; what is called is found among the instances. *)
Ltac keeps_step :=
  lazymatch goal with
  | |- Keeps (mbind _ _) => apply keeps_bind; [|intros ?]
  | |- Keeps (mret _) => apply keeps_ret
  | |- Keeps get => exact (keeps_get id)
  | |- Keeps (gets _) => apply keeps_get
  | |- Keeps (panic _) => apply keeps_fail; split; discriminate
  | |- Keeps (fault _) => apply keeps_fail; split; discriminate
  | |- Keeps (fail _) => apply keeps_fail; split; discriminate
  | |- Keeps again => apply keeps_fail; split; discriminate
  | |- Keeps (run (mbind _ _)) => apply keeps_run_bind; [|intros ?]
  | |- Keeps (run (mret _)) => apply keeps_ret
  | |- Keeps (run (do_ _)) => apply keeps_run_do
  | |- Keeps (run (lock _)) => apply keeps_run_lock
  | |- Keeps (run (unlock _)) => apply keeps_run_unlock
  | |- Keeps (run (C_again _)) => apply keeps_fail; split; discriminate
  | |- Keeps (run (match ?x with _ => _ end)) => destruct x
  | |- Keeps (modify _) => first [exact _ | apply keeps_modify; intros ?; split; reflexivity]
  | |- Keeps (upd_proc _ _) => apply keeps_upd_proc; intros ?; reflexivity
  | |- Keeps (upd_file _ _) => apply keeps_upd_file; intros ?; reflexivity
  | |- Keeps (match ?x with _ => _ end) => destruct x
  | |- Keeps _ => first [exact _ | solve [auto]]
  end.
Ltac keeps := repeat (cbv beta zeta; keeps_step).

(** ** [src/spinlock.c], [src/proc.c], [src/sleeplock.c] *)
#[local] Typeclasses Opaque upd_cpu pushcli popcli initlock holding acquire release curproc proc_at
  sched_enter sleep_mark sched sleep yield wakeup1 wakeup kill run sl_of initsleeplock acquiresleep releasesleep holdingsleep
  upd_proc upd_file.
#[global] Instance keeps_upd_cpu f : Keeps (upd_cpu f).
Proof. unfold upd_cpu. keeps. Qed.
#[global] Instance keeps_pushcli : Keeps pushcli.
Proof. unfold pushcli, readeflags_IF, cli. keeps. Qed.
#[global] Instance keeps_popcli : Keeps popcli.
Proof. unfold popcli, readeflags_IF, sti. keeps. Qed.
#[global] Instance keeps_initlock lk : Keeps (initlock lk).
Proof. unfold initlock. keeps. Qed.
#[global] Instance keeps_holding lk : Keeps (holding lk).
Proof. unfold holding. keeps. Qed.
#[global] Instance keeps_acquire lk : Keeps (acquire lk).
Proof. unfold acquire. keeps. Qed.
#[global] Instance keeps_release lk : Keeps (release lk).
Proof. unfold release. keeps. Qed.
#[global] Instance keeps_curproc : Keeps curproc.
Proof. unfold curproc. keeps. Qed.
#[global] Instance keeps_proc_at i : Keeps (proc_at i).
Proof. unfold proc_at. keeps. Qed.

#[global] Instance keeps_sched_enter : Keeps sched_enter.
Proof. unfold sched_enter, readeflags_IF. keeps. Qed.
#[global] Instance keeps_swtch {A} : Keeps (A := A) swtch_to_scheduler.
Proof. by intros k _. Qed.
#[global] Instance keeps_sched : Keeps sched.
Proof. eapply keeps_ext; [apply sched_run|]. keeps. Qed.

(** The same for code that runs as process [i], which may also change its own state among
    those of a live process. *)
Definition keeps_as (i : nat) {A} (m : M kst A) : Prop :=
  forall k, running k -> k_proc k = Some i ->
    match m k with Ok _ k' | Blocked k' => same k k' | Err e => benign e end.

Lemma keeps_as_keeps i {A} (m : M kst A) : Keeps m -> keeps_as i m.
Proof. intros Hm k Hr _. by apply Hm. Qed.

Lemma keeps_as_bind i {A B} (m : M kst A) (f : A -> M kst B) :
  keeps_as i m -> (forall a, keeps_as i (f a)) -> keeps_as i (m ≫= f).
Proof.
  intros Hm Hf k Hr Hi. unfold mbind, M_bind. specialize (Hm k Hr Hi). destruct (m k) as [a k1|k1|e]; [|done..].
  assert (k_proc k1 = Some i) as Hi1 by (by rewrite (sm_proc _ _ Hm)).
  specialize (Hf a k1 (running_same _ _ Hm Hr) Hi1). destruct (f a k1); [by etrans..|done].
Qed.

Lemma keeps_as_state i st : pclass (set_p_state st zero_proc) = RUNNABLE -> keeps_as i (upd_proc i (set_p_state st)).
Proof.
  intros Hst k Hr Hi. destruct (Hr i Hi) as (p & Hp & Hc).
  cbn. split; try done. cbn [k_ptable set_k_ptable]. apply list_eq. intros j.
  rewrite !list_lookup_fmap, list_lookup_alter. destruct (decide (i = j)) as [<-|]; [|done].
  rewrite Hp. cbn [fmap option_fmap option_map]. f_equal. unfold pview. rewrite Hc.
  unfold pclass in *. cbn [p_state set_p_state p_parent p_ofile] in *. by rewrite Hst.
Qed.

Lemma keeps_cur {B} (f : nat * proc -> M kst B) :
  (forall i p, keeps_as i (f (i, p))) -> Keeps (curproc ≫= f).
Proof.
  intros Hf k Hr. destruct (k_proc k) as [i|] eqn:Hi.
  - destruct (Hr i Hi) as (p & Hp & Hc).
    rewrite (bind_ok _ _ _ _ _ (curproc_eq _ _ _ Hi Hp)). by apply Hf.
  - unfold curproc, get, deref, mbind, M_bind. rewrite Hi. by split.
Qed.

#[global] Instance keeps_sleep_mark ch : Keeps (sleep_mark ch).
Proof.
  apply keeps_cur. intros i p. apply keeps_as_bind; [apply keeps_as_keeps; keeps|intros _].
  apply keeps_as_bind; [by apply keeps_as_state|intros _]. apply keeps_as_keeps. keeps.
Qed.
#[global] Instance keeps_sleep_code {L} ch lk : Keeps (run (L := L) (sleep_code ch lk)).
Proof. eapply keeps_ext; [apply sleep_run|]. keeps. Qed.
#[global] Instance keeps_sleep ch lk : Keeps (sleep ch lk).
Proof. unfold sleep. exact _. Qed.

#[global] Instance keeps_yield : Keeps yield.
Proof.
  unfold yield. apply keeps_bind; [keeps|intros _]. apply keeps_cur. intros i p.
  apply keeps_as_bind; [by apply keeps_as_state|intros _]. apply keeps_as_keeps. keeps.
Qed.

Lemma pview_wake ch p : pview (wake ch p) = pview p.
Proof. unfold wake. case_decide as E; [|done]. unfold pview, pclass. cbn. by rewrite (proj1 E). Qed.

#[global] Instance keeps_wakeup1 ch : Keeps (wakeup1 ch).
Proof.
  apply keeps_modify. intros k. split; try done. cbn [k_ptable set_k_ptable].
  rewrite <- list_fmap_compose. apply list_fmap_ext. intros _ p _. apply pview_wake.
Qed.
#[global] Instance keeps_wakeup_code {L} ch : Keeps (run (L := L) (wakeup_code ch)).
Proof. unfold wakeup_code. keeps. Qed.
#[global] Instance keeps_wakeup ch : Keeps (wakeup ch).
Proof. unfold wakeup. exact _. Qed.

Lemma pview_kill_loop pid ps ps' : kill_loop pid ps = Some ps' -> pview <$> ps' = pview <$> ps.
Proof.
  revert ps'. induction ps as [|p ps IH]; intros ps' E; [discriminate|]. cbn [kill_loop] in E.
  destruct (p_pid p =? pid).
  - injection E as <-. rewrite !fmap_cons. f_equal. case_decide as Es; [|done].
    unfold pview, pclass. cbn in *. by rewrite Es.
  - destruct (kill_loop pid ps) as [qs|]; [|discriminate]. injection E as <-. rewrite !fmap_cons. f_equal. auto.
Qed.

#[global] Instance keeps_kill pid : Keeps (kill pid).
Proof.
  unfold kill. apply keeps_bind; [keeps|intros _]. intros k Hr. unfold mbind at 1, M_bind at 1, get.
  destruct (kill_loop pid (k_ptable k)) as [ps|] eqn:E.
  - set (k1 := set_k_ptable ps k). assert (Hs : same k k1) by (split; try done; by eapply pview_kill_loop).
    assert (Keeps (release L_ptable;; mret 0)) as Hk by keeps.
    specialize (Hk k1 (running_same _ _ Hs Hr)). unfold put, mbind at 1, M_bind at 1.
    destruct ((release L_ptable;; mret 0) k1); [by etrans..|done].
  - assert (Keeps (release L_ptable;; mret (-1))) as Hk by keeps. by apply Hk.
Qed.

#[global] Instance keeps_set_sl l v : Keeps (modify (set_sl l v)).
Proof. destruct l; keeps. Qed.
#[global] Instance keeps_sl_of l : Keeps (sl_of l).
Proof. unfold sl_of. keeps. Qed.
#[global] Instance keeps_initsleeplock l : Keeps (initsleeplock l).
Proof. unfold initsleeplock. exact _. Qed.
#[global] Instance keeps_acquiresleep l : Keeps (acquiresleep l).
Proof. unfold acquiresleep. keeps. Qed.
#[global] Instance keeps_releasesleep l : Keeps (releasesleep l).
Proof. unfold releasesleep. keeps. Qed.
#[global] Instance keeps_holdingsleep l : Keeps (holdingsleep l).
Proof. unfold holdingsleep. keeps. Qed.

(** ** [src/memide.c] and [src/bio.c] *)
#[local] Typeclasses Opaque upd_bufs upd_buf buf_at iderw bget bread bwrite brelse bdata
  set_bdata.
#[global] Instance keeps_upd_bufs f : Keeps (upd_bufs f).
Proof. unfold upd_bufs. keeps. Qed.
#[global] Instance keeps_upd_buf i f : Keeps (upd_buf i f).
Proof. unfold upd_buf. keeps. Qed.
#[global] Instance keeps_buf_at i : Keeps (buf_at i).
Proof. unfold buf_at. keeps. Qed.
#[global] Instance keeps_iderw i : Keeps (iderw i).
Proof. unfold iderw. keeps. Qed.
#[global] Instance keeps_bget dev blockno : Keeps (bget dev blockno).
Proof. unfold bget. keeps. Qed.
#[global] Instance keeps_bread dev blockno : Keeps (bread dev blockno).
Proof. unfold bread. keeps. Qed.
#[global] Instance keeps_bwrite b : Keeps (bwrite b).
Proof. unfold bwrite. keeps. Qed.
#[global] Instance keeps_brelse b : Keeps (brelse b).
Proof. unfold brelse. keeps. Qed.
#[global] Instance keeps_bdata b : Keeps (bdata b).
Proof. unfold bdata. keeps. Qed.
#[global] Instance keeps_set_bdata b d : Keeps (set_bdata b d).
Proof. unfold set_bdata. keeps. Qed.

(** ** [src/log.c] *)
#[local] Typeclasses Opaque readsb upd_log lh_of lh_block_at read_head_loop write_head_loop
  write_head install_trans_loop install_trans begin_op write_log_loop write_log commit end_op
  log_write.
#[global] Instance keeps_readsb dev : Keeps (readsb dev).
Proof. unfold readsb. keeps. Qed.
#[global] Instance keeps_upd_log f : Keeps (upd_log f).
Proof. unfold upd_log. keeps. Qed.
#[global] Instance keeps_lh_of : Keeps lh_of.
Proof. unfold lh_of. keeps. Qed.
#[global] Instance keeps_lh_block_at lh i : Keeps (lh_block_at lh i).
Proof. unfold lh_block_at. keeps. Qed.
#[global] Instance keeps_read_head_loop cnt i d bl : Keeps (read_head_loop cnt i d bl).
Proof. revert i d bl. induction cnt; intros; cbn [read_head_loop]; keeps. Qed.
#[global] Instance keeps_write_head_loop cnt i lh d : Keeps (write_head_loop cnt i lh d).
Proof. revert i lh d. induction cnt; intros; cbn [write_head_loop]; keeps. Qed.
#[global] Instance keeps_write_head : Keeps write_head.
Proof. unfold write_head. keeps. Qed.
#[global] Instance keeps_install_trans_loop cnt tail : Keeps (install_trans_loop cnt tail).
Proof. revert tail. induction cnt; intros; cbn [install_trans_loop]; keeps. Qed.
#[global] Instance keeps_install_trans : Keeps install_trans.
Proof. unfold install_trans. keeps. Qed.
#[global] Instance keeps_begin_op : Keeps begin_op.
Proof. unfold begin_op. keeps. Qed.
#[global] Instance keeps_write_log_loop cnt tail : Keeps (write_log_loop cnt tail).
Proof. revert tail. induction cnt; intros; cbn [write_log_loop]; keeps. Qed.
#[global] Instance keeps_write_log : Keeps write_log.
Proof. unfold write_log. keeps. Qed.
#[global] Instance keeps_commit : Keeps commit.
Proof. unfold commit. keeps. Qed.
#[global] Instance keeps_end_op : Keeps end_op.
Proof. unfold end_op. keeps. Qed.
#[global] Instance keeps_log_write b : Keeps (log_write b).
Proof. unfold log_write. keeps. Qed.

(** ** [src/fs.c] *)
#[local] Typeclasses Opaque bzero balloc_loop balloc bfree upd_icache upd_inode inode_at iget
  ialloc_loop ialloc iupdate idup ilock iunlock itrunc_direct itrunc_indirect itrunc iput
  iunlockput bmap stati.
#[global] Instance keeps_bzero dev bno : Keeps (bzero dev bno).
Proof. unfold bzero. keeps. Qed.
#[global] Instance keeps_balloc_loop cnt dev b : Keeps (balloc_loop cnt dev b).
Proof. revert dev b. induction cnt; intros; cbn [balloc_loop]; keeps. Qed.
#[global] Instance keeps_balloc dev : Keeps (balloc dev).
Proof. unfold balloc. keeps. Qed.
#[global] Instance keeps_bfree dev b : Keeps (bfree dev b).
Proof. unfold bfree. keeps. Qed.
#[global] Instance keeps_upd_icache f : Keeps (upd_icache f).
Proof. unfold upd_icache. keeps. Qed.
#[global] Instance keeps_upd_inode ip f : Keeps (upd_inode ip f).
Proof. unfold upd_inode. keeps. Qed.
#[global] Instance keeps_inode_at ip : Keeps (inode_at ip).
Proof. unfold inode_at. keeps. Qed.
#[global] Instance keeps_iget dev inum : Keeps (iget dev inum).
Proof. unfold iget. keeps. Qed.
#[global] Instance keeps_ialloc_loop cnt dev inum type : Keeps (ialloc_loop cnt dev inum type).
Proof. revert dev inum type. induction cnt; intros; cbn [ialloc_loop]; keeps. Qed.
#[global] Instance keeps_ialloc dev type : Keeps (ialloc dev type).
Proof. unfold ialloc. keeps. Qed.
#[global] Instance keeps_iupdate ip : Keeps (iupdate ip).
Proof. unfold iupdate. keeps. Qed.
#[global] Instance keeps_idup ip : Keeps (idup ip).
Proof. unfold idup. keeps. Qed.
#[global] Instance keeps_ilock ip : Keeps (ilock ip).
Proof. unfold ilock. keeps. Qed.
#[global] Instance keeps_iunlock ip : Keeps (iunlock ip).
Proof. unfold iunlock. keeps. Qed.
#[global] Instance keeps_itrunc_direct cnt i ip : Keeps (itrunc_direct cnt i ip).
Proof. revert i ip. induction cnt; intros; cbn [itrunc_direct]; keeps. Qed.
#[global] Instance keeps_itrunc_indirect cnt j dev bp : Keeps (itrunc_indirect cnt j dev bp).
Proof. revert j dev bp. induction cnt; intros; cbn [itrunc_indirect]; keeps. Qed.
#[global] Instance keeps_itrunc ip : Keeps (itrunc ip).
Proof. unfold itrunc. keeps. Qed.
#[global] Instance keeps_iput ip : Keeps (iput ip).
Proof. unfold iput. keeps. Qed.
#[global] Instance keeps_iunlockput ip : Keeps (iunlockput ip).
Proof. unfold iunlockput. keeps. Qed.
#[global] Instance keeps_bmap ip bn : Keeps (bmap ip bn).
Proof. unfold bmap. keeps. Qed.
#[global] Instance keeps_stati ip : Keeps (stati ip).
Proof. unfold stati. keeps. Qed.

(** ** [src/console.c], [src/kbd.c], [src/uart.c] *)
#[local] Typeclasses Opaque upd_cons upd_input uartputc iter_putc crt_store cgaputc consputc
  consputs print_x64 print_x32 print_d cprintf_loop cprintf procdump_pcs procdump_loop procdump
  kill_line consoleintr_char consoleintr_loop consoleintr consoleread_loop consoleread
  consolewrite kbdgetc kbd_chars kbdintr uartgetc uartintr.
#[global] Instance keeps_upd_cons f : Keeps (upd_cons f).
Proof. unfold upd_cons. keeps. Qed.
#[global] Instance keeps_upd_input f : Keeps (upd_input f).
Proof. unfold upd_input. keeps. Qed.
#[global] Instance keeps_uartputc c : Keeps (uartputc c).
Proof. unfold uartputc. keeps. Qed.
#[global] Instance keeps_iter_putc s : Keeps (iter_putc s).
Proof. induction s; intros; cbn [iter_putc]; keeps. Qed.
#[global] Instance keeps_crt_store i v : Keeps (crt_store i v).
Proof. unfold crt_store. keeps. Qed.
#[global] Instance keeps_cgaputc c : Keeps (cgaputc c).
Proof. unfold cgaputc. keeps. Qed.
#[global] Instance keeps_consputc c : Keeps (consputc c).
Proof. unfold consputc. keeps. Qed.
#[global] Instance keeps_consputs s : Keeps (consputs s).
Proof. induction s; intros; cbn [consputs]; keeps. Qed.
#[global] Instance keeps_print_x64 x : Keeps (print_x64 x).
Proof. unfold print_x64. keeps. Qed.
#[global] Instance keeps_print_x32 x : Keeps (print_x32 x).
Proof. unfold print_x32. keeps. Qed.
#[global] Instance keeps_print_d v : Keeps (print_d v).
Proof. unfold print_d. keeps. Qed.
#[global] Instance keeps_cprintf_loop fmt ap : Keeps (cprintf_loop fmt ap).
Proof.
  revert ap. induction fmt as [fmt IH] using (induction_ltof1 _ (@length Z)). unfold ltof in IH. intros ap.
  destruct fmt as [|c [|c' fmt]]; cbn [cprintf_loop]; keeps; apply IH; cbn; lia.
Qed.
#[global] Instance keeps_cprintf fmt ap : Keeps (cprintf fmt ap).
Proof. unfold cprintf. keeps. Qed.
#[global] Instance keeps_procdump_pcs pcs : Keeps (procdump_pcs pcs).
Proof. induction pcs; intros; cbn [procdump_pcs]; keeps. Qed.
#[global] Instance keeps_procdump_loop pcs ps : Keeps (procdump_loop pcs ps).
Proof. revert pcs. induction ps; intros; cbn [procdump_loop]; keeps. Qed.
#[global] Instance keeps_procdump pcs : Keeps (procdump pcs).
Proof. unfold procdump. keeps. Qed.
#[global] Instance keeps_kill_line fuel : Keeps (kill_line fuel).
Proof. induction fuel; intros; cbn [kill_line]; keeps. Qed.
#[global] Instance keeps_consoleintr_char pcs c : Keeps (consoleintr_char pcs c).
Proof. unfold consoleintr_char. keeps. Qed.
#[global] Instance keeps_consoleintr_loop pcs cs : Keeps (consoleintr_loop pcs cs).
Proof. revert pcs. induction cs; intros; cbn [consoleintr_loop]; keeps. Qed.
#[global] Instance keeps_consoleintr pcs cs : Keeps (consoleintr pcs cs).
Proof. unfold consoleintr. keeps. Qed.
#[global] Instance keeps_consoleread_loop n target ip : Keeps (consoleread_loop n target ip).
Proof. revert target ip. induction n; intros; cbn [consoleread_loop]; keeps. Qed.
#[global] Instance keeps_consoleread ip n : Keeps (consoleread ip n).
Proof. unfold consoleread. keeps. Qed.
#[global] Instance keeps_consolewrite ip buf : Keeps (consolewrite ip buf).
Proof. unfold consolewrite. keeps. Qed.
#[global] Instance keeps_kbdgetc port : Keeps (kbdgetc port).
Proof.
  intros k _. destruct port as [data|]; [|by cbn]. unfold kbdgetc, get, put, mbind, M_bind.
  cbv zeta. destruct (data =? 224); [by split|]. destruct (has data 128); [by split|].
  destruct (has (k_shift k) E0ESC); by split.
Qed.
#[global] Instance keeps_kbd_chars ports : Keeps (kbd_chars ports).
Proof. induction ports; intros; cbn [kbd_chars]; keeps. Qed.
#[global] Instance keeps_kbdintr pcs ports : Keeps (kbdintr pcs ports).
Proof. unfold kbdintr. keeps. Qed.
#[global] Instance keeps_uartgetc port : Keeps (uartgetc port).
Proof. unfold uartgetc. keeps. Qed.
#[global] Instance keeps_uartintr pcs ports : Keeps (uartintr pcs ports).
Proof. unfold uartintr. keeps. Qed.

(** ** The upper layers of [src/fs.c] *)
#[local] Typeclasses Opaque devsw_at readi_loop readi writei_loop writei dirlookup_loop
  dirlookup dirlink_loop dirlink namex_loop namex namei nameiparent.
#[global] Instance keeps_devsw_at major : Keeps (devsw_at major).
Proof. unfold devsw_at. keeps. Qed.
#[global] Instance keeps_readi_loop fuel ip off rem : Keeps (readi_loop fuel ip off rem).
Proof. revert ip off rem. induction fuel; intros; cbn [readi_loop]; keeps. Qed.
#[global] Instance keeps_readi ip off n : Keeps (readi ip off n).
Proof. unfold readi. keeps. Qed.
#[global] Instance keeps_writei_loop fuel ip off src : Keeps (writei_loop fuel ip off src).
Proof. revert ip off src. induction fuel; intros; cbn [writei_loop]; keeps. Qed.
#[global] Instance keeps_writei ip src off : Keeps (writei ip src off).
Proof. unfold writei. keeps. Qed.
#[global] Instance keeps_dirlookup_loop fuel dp name off : Keeps (dirlookup_loop fuel dp name off).
Proof. revert dp name off. induction fuel; intros; cbn [dirlookup_loop]; keeps. Qed.
#[global] Instance keeps_dirlookup dp name : Keeps (dirlookup dp name).
Proof. unfold dirlookup. keeps. Qed.
#[global] Instance keeps_dirlink_loop fuel dp off : Keeps (dirlink_loop fuel dp off).
Proof. revert dp off. induction fuel; intros; cbn [dirlink_loop]; keeps. Qed.
#[global] Instance keeps_dirlink dp name inum : Keeps (dirlink dp name inum).
Proof. unfold dirlink. keeps. Qed.
#[global] Instance keeps_namex_loop fuel ip path parent name : Keeps (namex_loop fuel ip path parent name).
Proof. revert ip path parent name. induction fuel; intros; cbn [namex_loop]; keeps. Qed.
#[global] Instance keeps_namex path parent name : Keeps (namex path parent name).
Proof. unfold namex. keeps. Qed.
#[global] Instance keeps_namei path : Keeps (namei path).
Proof. unfold namei. keeps. Qed.
#[global] Instance keeps_nameiparent path name : Keeps (nameiparent path name).
Proof. unfold nameiparent. keeps. Qed.

(** ** [src/kalloc.c] *)
#[local] Typeclasses Opaque upd_mem load64 store64 upd_kmem kfree kalloc.
#[global] Instance keeps_upd_mem f : Keeps (upd_mem f).
Proof. unfold upd_mem. keeps. Qed.
#[global] Instance keeps_load64 a : Keeps (load64 a).
Proof. unfold load64. keeps. Qed.
#[global] Instance keeps_store64 a v : Keeps (store64 a v).
Proof. unfold store64. keeps. Qed.
#[global] Instance keeps_upd_kmem f : Keeps (upd_kmem f).
Proof. unfold upd_kmem. keeps. Qed.
#[global] Instance keeps_kfree v : Keeps (kfree v).
Proof. unfold kfree. keeps. Qed.
#[global] Instance keeps_kalloc : Keeps kalloc.
Proof. unfold kalloc. keeps. Qed.

(** ** [src/vm.c] *)
#[local] Typeclasses Opaque zero_page kmemmove kstore_bytes setupkvm lcr3 switchkvm switchuvm
  walk_level walkpgdir mappages_loop mappages inituvm loaduvm_loop loaduvm deallocuvm_loop deallocuvm
  allocuvm_loop allocuvm freevm_table freevm_pt freevm_pd freevm_pdp freevm clearpteu
  copyuvm_loop copyuvm uva2ka copyout_loop copyout translate read_user write_user.
#[global] Instance keeps_zero_page p : Keeps (zero_page p).
Proof. unfold zero_page. keeps. Qed.
#[global] Instance keeps_kmemmove dst src n : Keeps (kmemmove dst src n).
Proof. unfold kmemmove. keeps. Qed.
#[global] Instance keeps_kstore_bytes dst bs : Keeps (kstore_bytes dst bs).
Proof. unfold kstore_bytes. keeps. Qed.
#[global] Instance keeps_setupkvm : Keeps setupkvm.
Proof. unfold setupkvm. keeps. Qed.
#[global] Instance keeps_lcr3 v : Keeps (lcr3 v).
Proof. unfold lcr3. keeps. Qed.
#[global] Instance keeps_switchkvm : Keeps switchkvm.
Proof. unfold switchkvm. keeps. Qed.
#[global] Instance keeps_switchuvm p : Keeps (switchuvm p).
Proof. unfold switchuvm. keeps. Qed.
#[global] Instance keeps_walk_level e alloc : Keeps (walk_level e alloc).
Proof. unfold walk_level. keeps. Qed.
#[global] Instance keeps_walkpgdir pml4 va alloc : Keeps (walkpgdir pml4 va alloc).
Proof. unfold walkpgdir. keeps. Qed.
#[global] Instance keeps_mappages_loop fuel pgdir a last pa perm : Keeps (mappages_loop fuel pgdir a last pa perm).
Proof. revert pgdir a last pa perm. induction fuel; intros; cbn [mappages_loop]; keeps. Qed.
#[global] Instance keeps_mappages pgdir va size pa perm : Keeps (mappages pgdir va size pa perm).
Proof. unfold mappages. keeps. Qed.
#[global] Instance keeps_inituvm pgdir init sz : Keeps (inituvm pgdir init sz).
Proof. unfold inituvm. keeps. Qed.
#[global] Instance keeps_loaduvm_loop fuel pgdir addr ip offset sz i : Keeps (loaduvm_loop fuel pgdir addr ip offset sz i).
Proof. revert pgdir addr ip offset sz i. induction fuel; intros; cbn [loaduvm_loop]; keeps. Qed.
#[global] Instance keeps_loaduvm pgdir addr ip offset sz : Keeps (loaduvm pgdir addr ip offset sz).
Proof. unfold loaduvm. keeps. Qed.
#[global] Instance keeps_deallocuvm_loop fuel pgdir a oldsz : Keeps (deallocuvm_loop fuel pgdir a oldsz).
Proof. revert pgdir a oldsz. induction fuel; intros; cbn [deallocuvm_loop]; keeps. Qed.
#[global] Instance keeps_deallocuvm pgdir oldsz newsz : Keeps (deallocuvm pgdir oldsz newsz).
Proof. unfold deallocuvm. keeps. Qed.
#[global] Instance keeps_allocuvm_loop fuel pgdir a oldsz newsz : Keeps (allocuvm_loop fuel pgdir a oldsz newsz).
Proof. revert pgdir a oldsz newsz. induction fuel; intros; cbn [allocuvm_loop]; keeps. Qed.
#[global] Instance keeps_allocuvm pgdir oldsz newsz : Keeps (allocuvm pgdir oldsz newsz).
Proof. unfold allocuvm. keeps. Qed.
#[global] Instance keeps_freevm_table cnt i table free :
  (forall t, Keeps (free t)) -> Keeps (freevm_table cnt i table free).
Proof. intros Hf. revert i. induction cnt; intros; cbn [freevm_table]; keeps. Qed.
#[global] Instance keeps_freevm_pt pt : Keeps (freevm_pt pt).
Proof. unfold freevm_pt. keeps. Qed.
#[global] Instance keeps_freevm_pd pd : Keeps (freevm_pd pd).
Proof. unfold freevm_pd. keeps. Qed.
#[global] Instance keeps_freevm_pdp pdp : Keeps (freevm_pdp pdp).
Proof. unfold freevm_pdp. keeps. Qed.
#[global] Instance keeps_freevm pml4 : Keeps (freevm pml4).
Proof. unfold freevm. keeps. Qed.
#[global] Instance keeps_clearpteu pgdir uva : Keeps (clearpteu pgdir uva).
Proof. unfold clearpteu. keeps. Qed.
#[global] Instance keeps_copyuvm_loop fuel pgdir d i sz : Keeps (copyuvm_loop fuel pgdir d i sz).
Proof. revert pgdir d i sz. induction fuel; intros; cbn [copyuvm_loop]; keeps. Qed.
#[global] Instance keeps_copyuvm pgdir sz : Keeps (copyuvm pgdir sz).
Proof. unfold copyuvm. keeps. Qed.
#[global] Instance keeps_uva2ka pgdir uva : Keeps (uva2ka pgdir uva).
Proof. unfold uva2ka. keeps. Qed.
#[global] Instance keeps_copyout_loop fuel pgdir va bs : Keeps (copyout_loop fuel pgdir va bs).
Proof. revert pgdir va bs. induction fuel; intros; cbn [copyout_loop]; keeps. Qed.
#[global] Instance keeps_copyout pgdir va bs : Keeps (copyout pgdir va bs).
Proof. unfold copyout. keeps. Qed.
#[global] Instance keeps_translate va : Keeps (translate va).
Proof. unfold translate. keeps. Qed.
#[global] Instance keeps_read_user n va : Keeps (read_user n va).
Proof. revert va. induction n; intros; cbn [read_user]; keeps. Qed.
#[global] Instance keeps_write_user va bs : Keeps (write_user va bs).
Proof. revert va. induction bs; intros; cbn [write_user]; keeps. Qed.

(** ** [src/pipe.c] *)
#[local] Typeclasses Opaque pipe_at upd_pipe pipeclose pipewrite_loop pipewrite piperead_loop
  piperead.
#[global] Instance keeps_pipe_at p : Keeps (pipe_at p).
Proof. unfold pipe_at. keeps. Qed.
#[global] Instance keeps_upd_pipe p f : Keeps (upd_pipe p f).
Proof. unfold upd_pipe. keeps. Qed.
#[global] Instance keeps_pipeclose p writable : Keeps (pipeclose p writable).
Proof. unfold pipeclose. keeps. Qed.
#[global] Instance keeps_pipewrite_loop p bs : Keeps (run (pipewrite_loop p bs)).
Proof. revert p. induction bs; intros; cbn [pipewrite_loop]; keeps. Qed.
#[global] Instance keeps_pipewrite p bs : Keeps (pipewrite p bs).
Proof. unfold pipewrite, pipewrite_code, pipewrite_from, pipewrite_end. keeps. Qed.
#[global] Instance keeps_piperead_loop n p : Keeps (piperead_loop n p).
Proof. revert p. induction n; intros; cbn [piperead_loop]; keeps. Qed.
#[global] Instance keeps_piperead p n : Keeps (piperead p n).
Proof. unfold piperead, piperead_code, piperead_from. keeps. Qed.

(** ** [src/file.c], where no count changes *)
#[local] Typeclasses Opaque file_at filestat fileread filewrite_loop filewrite.
#[global] Instance keeps_file_at i : Keeps (file_at i).
Proof. unfold file_at. keeps. Qed.
#[global] Instance keeps_filestat f : Keeps (filestat f).
Proof. unfold filestat. keeps. Qed.
#[global] Instance keeps_fileread f n : Keeps (fileread f n).
Proof. unfold fileread. keeps. Qed.
#[global] Instance keeps_filewrite_loop fuel f bs i : Keeps (filewrite_loop fuel f bs i).
Proof. revert f bs i. induction fuel; intros; cbn [filewrite_loop]; keeps. Qed.
#[global] Instance keeps_filewrite f bs : Keeps (filewrite f bs).
Proof. unfold filewrite. keeps. Qed.

(** ** [src/syscall.c] and [src/exec.c] *)
#[local] Typeclasses Opaque fetchint fetchaddr fetchstr_loop fetchstr fetcharg argint argaddr
  argptr argstr exec_bad exec_load exec_args exec_stack exec.
#[global] Instance keeps_fetchint addr : Keeps (fetchint addr).
Proof. unfold fetchint. keeps. Qed.
#[global] Instance keeps_fetchaddr addr : Keeps (fetchaddr addr).
Proof. unfold fetchaddr. keeps. Qed.
#[global] Instance keeps_fetchstr_loop n s : Keeps (fetchstr_loop n s).
Proof. revert s. induction n; intros; cbn [fetchstr_loop]; keeps. Qed.
#[global] Instance keeps_fetchstr addr : Keeps (fetchstr addr).
Proof. unfold fetchstr. keeps. Qed.
#[global] Instance keeps_fetcharg n : Keeps (fetcharg n).
Proof. unfold fetcharg. keeps. Qed.
#[global] Instance keeps_argint n : Keeps (argint n).
Proof. unfold argint. keeps. Qed.
#[global] Instance keeps_argaddr n : Keeps (argaddr n).
Proof. unfold argaddr. keeps. Qed.
#[global] Instance keeps_argptr n size : Keeps (argptr n size).
Proof. unfold argptr. keeps. Qed.
#[global] Instance keeps_argstr n : Keeps (argstr n).
Proof. unfold argstr. keeps. Qed.
#[global] Instance keeps_exec_bad pgdir ip : Keeps (exec_bad pgdir ip).
Proof. unfold exec_bad. keeps. Qed.
#[global] Instance keeps_exec_load cnt off pgdir sz ip : Keeps (exec_load cnt off pgdir sz ip).
Proof. revert off pgdir sz ip. induction cnt; intros; cbn [exec_load]; keeps. Qed.
#[global] Instance keeps_exec_args args argc pgdir sp : Keeps (exec_args args argc pgdir sp).
Proof. revert argc pgdir sp. induction args; intros; cbn [exec_args]; keeps. Qed.
#[global] Instance keeps_exec_stack path args elf pgdir sz : Keeps (exec_stack path args elf pgdir sz).
Proof. unfold exec_stack. keeps. Qed.
#[global] Instance keeps_exec path args : Keeps (exec path args).
Proof. unfold exec. keeps. Qed.

(** ** [growproc] *)
#[local] Typeclasses Opaque growproc.
#[global] Instance keeps_growproc n : Keeps (growproc n).
Proof. unfold growproc. keeps. Qed.

(** ** [src/sysfile.c] and [src/sysproc.c], the calls that open and close nothing *)
#[local] Typeclasses Opaque argfd sys_read sys_write write_stat sys_fstat isdirempty_loop
  isdirempty upd_nlink link_bad sys_link unlink_bad sys_unlink create open_inode created
  sys_mkdir sys_mknod sys_chdir exec_argv sys_exec sys_kill sys_getpid sys_sbrk sys_sleep_round
  sys_sleep sys_uptime.
#[global] Instance keeps_argfd n : Keeps (argfd n).
Proof. unfold argfd. keeps. Qed.
#[global] Instance keeps_sys_read : Keeps sys_read.
Proof. unfold sys_read. keeps. Qed.
#[global] Instance keeps_sys_write : Keeps sys_write.
Proof. unfold sys_write. keeps. Qed.
#[global] Instance keeps_write_stat a st : Keeps (write_stat a st).
Proof. unfold write_stat. keeps. Qed.
#[global] Instance keeps_sys_fstat : Keeps sys_fstat.
Proof. unfold sys_fstat. keeps. Qed.
#[global] Instance keeps_isdirempty_loop fuel dp off : Keeps (isdirempty_loop fuel dp off).
Proof. revert dp off. induction fuel; intros; cbn [isdirempty_loop]; keeps. Qed.
#[global] Instance keeps_isdirempty dp : Keeps (isdirempty dp).
Proof. unfold isdirempty. keeps. Qed.
#[global] Instance keeps_upd_nlink ip d : Keeps (upd_nlink ip d).
Proof. unfold upd_nlink. keeps. Qed.
#[global] Instance keeps_link_bad ip : Keeps (link_bad ip).
Proof. unfold link_bad. keeps. Qed.
#[global] Instance keeps_sys_link : Keeps sys_link.
Proof. unfold sys_link. keeps. Qed.
#[global] Instance keeps_unlink_bad dp : Keeps (unlink_bad dp).
Proof. unfold unlink_bad. keeps. Qed.
#[global] Instance keeps_sys_unlink : Keeps sys_unlink.
Proof. unfold sys_unlink. keeps. Qed.
#[global] Instance keeps_create path type major minor : Keeps (create path type major minor).
Proof. unfold create. keeps. Qed.
#[global] Instance keeps_open_inode path omode : Keeps (open_inode path omode).
Proof. unfold open_inode. keeps. Qed.
#[global] Instance keeps_created ip : Keeps (created ip).
Proof. unfold created. keeps. Qed.
#[global] Instance keeps_sys_mkdir : Keeps sys_mkdir.
Proof. unfold sys_mkdir. keeps. Qed.
#[global] Instance keeps_sys_mknod : Keeps sys_mknod.
Proof. unfold sys_mknod. keeps. Qed.
#[global] Instance keeps_sys_chdir : Keeps sys_chdir.
Proof. unfold sys_chdir. keeps. Qed.
#[global] Instance keeps_exec_argv cnt uargv : Keeps (exec_argv cnt uargv).
Proof. revert uargv. induction cnt; intros; cbn [exec_argv]; keeps. Qed.
#[global] Instance keeps_sys_exec : Keeps sys_exec.
Proof. unfold sys_exec. keeps. Qed.
#[global] Instance keeps_sys_kill : Keeps sys_kill.
Proof. unfold sys_kill. keeps. Qed.
#[global] Instance keeps_sys_getpid : Keeps sys_getpid.
Proof. unfold sys_getpid. keeps. Qed.
#[global] Instance keeps_sys_sbrk : Keeps sys_sbrk.
Proof. unfold sys_sbrk. keeps. Qed.
#[global] Instance keeps_sys_sleep_round n ticks0 : Keeps (sys_sleep_round n ticks0).
Proof. unfold sys_sleep_round. keeps. Qed.
#[global] Instance keeps_sys_sleep : Keeps sys_sleep.
Proof. unfold sys_sleep. keeps. Qed.
#[global] Instance keeps_sys_uptime : Keeps sys_uptime.
Proof. unfold sys_uptime. keeps. Qed.
