(* ===== verification/Kinv.v ===== *)
(** The invariant of the kernel's tables, on the view of a state that [Keep.v] defines: the
    reference count of every open file is the number of file descriptors that name it, a
    free file and a free process slot are clean, and every process that is not [init] has a
    living parent.

    Operations are followed on views: [steps v m Q B] runs [m] from a state with view [v];
    [Q] holds of the view when it returns, [B] of the view when it gives up the CPU. *)
From Stdlib Require Import ZArith Lia.
From stdpp Require Import base gmap sets strings numbers list.
From S2P Require Import Prelude State Spinlock Code Sched Log Fs Kalloc Pipe File Proc Sysfile Keep.

Local Open Scope Z_scope.

(** ** Views *)
Record view : Type := mk_view {
  v_cur : option nat;
  v_init : option nat;
  v_procs : list pv;
  v_files : list fv
}.
Definition view_of (k : kst) : view :=
  mk_view (k_proc k) (k_initproc k) (pview <$> k_ptable k) (fview <$> k_ftable k).

Lemma same_view k k' : same k k' <-> view_of k' = view_of k.
Proof.
  split.
  - intros [H1 H2 H3 H4]. unfold view_of. congruence.
  - intros H. injection H as H1 H2 H3 H4. by split.
Qed.

Definition set_procs (ps : list pv) (v : view) : view := mk_view (v_cur v) (v_init v) ps (v_files v).
Definition set_files (fs : list fv) (v : view) : view := mk_view (v_cur v) (v_init v) (v_procs v) fs.

(** Process [i] of the view is alive. *)
Definition alive (v : view) (i : nat) : Prop :=
  exists p, v_procs v !! i = Some p /\ pv_class p = RUNNABLE.
Definition runs (v : view) : Prop := forall i, v_cur v = Some i -> alive v i.

Lemma running_view k : running k <-> runs (view_of k).
Proof.
  unfold running, runs, alive, view_of. cbn [v_cur v_procs]. split.
  - intros Hr i Hi. destruct (Hr i Hi) as (p & Hp & Hc). exists (pview p). by rewrite list_lookup_fmap, Hp.
  - intros Hr i Hi. destruct (Hr i Hi) as (q & Hq & Hc). apply list_lookup_fmap_Some in Hq as (p & -> & Hp).
    by exists p.
Qed.

(** ** Reference counts *)

(** 1 if the descriptor names file [f]. *)
Definition names (f : nat) (o : option nat) : Z := if decide (o = Some f) then 1 else 0.
Definition refs (f : nat) (l : list (option nat)) : Z := foldr Z.add 0 (names f <$> l).
(** The number of descriptors that name [f]. *)
Definition fd_refs (ps : list pv) (f : nat) : Z := foldr Z.add 0 ((fun p => refs f (pv_ofile p)) <$> ps).

Lemma sum_insert (l : list Z) i x y :
  l !! i = Some x -> foldr Z.add 0 (<[i := y]> l) = foldr Z.add 0 l - x + y.
Proof.
  revert i. induction l as [|z l IH]; intros [|i] H; try discriminate.
  - injection H as ->. cbn. lia.
  - change (<[S i := y]> (z :: l)) with (z :: <[i := y]> l). cbn [foldr]. rewrite (IH i H). lia.
Qed.

Lemma sum_nonneg (l : list Z) : Forall (Z.le 0) l -> 0 <= foldr Z.add 0 l.
Proof. induction 1; cbn; lia. Qed.

Lemma sum_ge (l : list Z) i x : Forall (Z.le 0) l -> l !! i = Some x -> x <= foldr Z.add 0 l.
Proof.
  intros Hl Hx. pose proof (sum_insert l i x 0 Hx) as E.
  assert (0 <= foldr Z.add 0 (<[i := 0]> l)) by (apply sum_nonneg, Forall_insert; [done|lia]). lia.
Qed.

Lemma names_nonneg f o : 0 <= names f o.
Proof. unfold names. case_decide; lia. Qed.

Lemma refs_nonneg f l : 0 <= refs f l.
Proof. apply sum_nonneg, Forall_fmap, Forall_true. intros o. apply names_nonneg. Qed.

Lemma refs_nonneg_all ps f : Forall (Z.le 0) ((fun p => refs f (pv_ofile p)) <$> ps).
Proof. apply Forall_fmap, Forall_true. intros p. apply refs_nonneg. Qed.

Lemma fd_refs_nonneg ps f : 0 <= fd_refs ps f.
Proof. apply sum_nonneg, refs_nonneg_all. Qed.

Lemma refs_insert f l fd o o' :
  l !! fd = Some o -> refs f (<[fd := o']> l) = refs f l - names f o + names f o'.
Proof. intros H. unfold refs. rewrite list_fmap_insert. apply sum_insert. by rewrite list_lookup_fmap, H. Qed.

Lemma refs_none f l : Forall (eq None) l -> refs f l = 0.
Proof. induction 1 as [|? ? <- _ IH]; [done|]. unfold refs in *. cbn. by rewrite IH. Qed.

Lemma fd_refs_insert ps f i p q :
  ps !! i = Some p -> fd_refs (<[i := q]> ps) f = fd_refs ps f - refs f (pv_ofile p) + refs f (pv_ofile q).
Proof. intros H. unfold fd_refs. rewrite list_fmap_insert. apply sum_insert. by rewrite list_lookup_fmap, H. Qed.

Lemma fd_refs_named ps f i p fd :
  ps !! i = Some p -> pv_ofile p !! fd = Some (Some f) -> 1 <= fd_refs ps f.
Proof.
  intros Hp Hf. transitivity (refs f (pv_ofile p)).
  - transitivity (names f (Some f)); [unfold names; rewrite decide_True by done; lia|].
    apply (sum_ge _ fd); [apply Forall_fmap, Forall_true; intros; apply names_nonneg|].
    by rewrite list_lookup_fmap, Hf.
  - apply (sum_ge _ i); [apply refs_nonneg_all|]. by rewrite list_lookup_fmap, Hp.
Qed.

(** ** The invariant *)

(** [pend f] is what the count of [f] is ahead of the descriptors: references that the
    code holds without a descriptor yet, or has dropped with the descriptor still there. *)
Record vinv (pend : nat -> Z) (v : view) : Prop := mk_vinv {
  vi_init : exists i, v_init v = Some i /\ alive v i;
  vi_nproc : length (v_procs v) = NPROC;
  vi_len : forall i p, v_procs v !! i = Some p -> length (pv_ofile p) = NOFILE;
  vi_unused : forall i p, v_procs v !! i = Some p -> pv_class p = UNUSED -> pv_parent p = None;
  vi_closed : forall i p, v_procs v !! i = Some p -> pv_class p = UNUSED \/ pv_class p = ZOMBIE ->
    Forall (eq None) (pv_ofile p);
  vi_tree : forall i p, v_procs v !! i = Some p -> pv_class p = RUNNABLE \/ pv_class p = ZOMBIE ->
    v_init v <> Some i -> exists j, pv_parent p = Some j /\ alive v j;
  vi_refs : forall f x, v_files v !! f = Some x -> fv_ref x = fd_refs (v_procs v) f + pend f;
  vi_none : forall f x, v_files v !! f = Some x -> 0 <= fv_ref x /\ (fv_ref x = 0 -> fv_type x = FD_NONE);
  vi_range : forall i p fd f, v_procs v !! i = Some p -> pv_ofile p !! fd = Some (Some f) ->
    (f < length (v_files v))%nat
}.

Definition zero_pend : nat -> Z := fun _ => 0.
(** One more reference to [f]. *)
Definition one (f g : nat) : Z := if decide (g = f) then 1 else 0.

Lemma vinv_ext pend pend' v : (forall f, pend f = pend' f) -> vinv pend v -> vinv pend' v.
Proof. intros E [H1 H0 H2 H3 H4 H5 H6 H7 H8]. split; try done. intros f x Hx. rewrite <- E. auto. Qed.

(** The state of the tables. *)
Definition kinv (k : kst) : Prop := vinv zero_pend (view_of k).

(** ** Changes of the tables *)
Lemma alter_insert_at {A} (f : A -> A) i (l : list A) x : l !! i = Some x -> alter f i l = <[i := f x]> l.
Proof.
  intros Hx. apply list_eq. intros j. rewrite list_lookup_alter. destruct (decide (i = j)) as [<-|Hne].
  - rewrite Hx, list_lookup_insert_eq by (by eapply lookup_lt_Some). done.
  - by rewrite list_lookup_insert_ne.
Qed.

Lemma alive_insert v i p q j :
  v_procs v !! i = Some p -> (pv_class p = RUNNABLE -> pv_class q = RUNNABLE) ->
  alive v j -> alive (set_procs (<[i := q]> (v_procs v)) v) j.
Proof.
  intros Hp Hpq (r & Hr & Hc). destruct (decide (i = j)) as [<-|Hne].
  - exists q. cbn [v_procs set_procs]. rewrite list_lookup_insert_eq by (by eapply lookup_lt_Some).
    split; [done|]. apply Hpq. congruence.
  - exists r. cbn [v_procs set_procs]. by rewrite list_lookup_insert_ne.
Qed.

Lemma alive_other v i q j :
  i <> j -> alive v j -> alive (set_procs (<[i := q]> (v_procs v)) v) j.
Proof. intros Hne (r & Hr & Hc). exists r. cbn [v_procs set_procs]. by rewrite list_lookup_insert_ne. Qed.

(** A process may go from being alive only if nobody relies on it. *)
Definition leaves (v : view) (i : nat) : Prop :=
  v_init v <> Some i /\ forall j r, v_procs v !! j = Some r -> pv_parent r <> Some i.

Lemma vinv_proc pend pend' v i p q :
  vinv pend v -> v_procs v !! i = Some p ->
  length (pv_ofile q) = NOFILE ->
  (pv_class q = UNUSED -> pv_parent q = None) ->
  (pv_class q = UNUSED \/ pv_class q = ZOMBIE -> Forall (eq None) (pv_ofile q)) ->
  (pv_class p = RUNNABLE -> pv_class q = RUNNABLE) \/ leaves v i ->
  (pv_class q = RUNNABLE \/ pv_class q = ZOMBIE -> v_init v <> Some i ->
     exists j, pv_parent q = Some j /\ alive v j /\ (j = i -> pv_class q = RUNNABLE)) ->
  (forall fd f, pv_ofile q !! fd = Some (Some f) -> (f < length (v_files v))%nat) ->
  (forall f, pend' f = pend f + refs f (pv_ofile p) - refs f (pv_ofile q)) ->
  vinv pend' (set_procs (<[i := q]> (v_procs v)) v).
Proof.
  intros [H1 H0 H2 H3 H4 H5 H6 H7 H8] Hp Hlen Hun Hcl Hal Htree Hrange Hpend.
  pose proof (lookup_lt_Some _ _ _ Hp) as Hi. set (v' := set_procs (<[i := q]> (v_procs v)) v).
  assert (Hlook : forall j r, v_procs v' !! j = Some r -> (j = i /\ r = q) \/ (j <> i /\ v_procs v !! j = Some r)).
  { intros j r Hr. unfold v' in Hr. cbn [v_procs set_procs] in Hr. apply list_lookup_insert_Some in Hr. naive_solver. }
  assert (Hkeep : forall j, alive v j -> j <> i \/ pv_class q = RUNNABLE -> alive v' j).
  { intros j Hj [Hne|Hq]; [by apply alive_other|]. eapply alive_insert; eauto. }
  split; cbn [v_init set_procs v_files] in *.
  - destruct H1 as (j & Hj & Ha). exists j. split; [done|]. apply Hkeep; [done|].
    destruct (decide (j = i)) as [->|]; [|by left]. right. destruct Hal as [Hal|[Hal _]]; [|congruence].
    destruct Ha as (r & Hr & Hc). apply Hal. congruence.
  - unfold v'. cbn [v_procs set_procs]. by rewrite length_insert.
  - intros j r [[-> ->]|[_ Hr]]%Hlook; eauto.
  - intros j r [[-> ->]|[_ Hr]]%Hlook; eauto.
  - intros j r [[-> ->]|[_ Hr]]%Hlook; eauto.
  - intros j r [[-> ->]|[Hne Hr]]%Hlook Hc Hni.
    + destruct (Htree Hc Hni) as (j & Hj & Ha & Hji). exists j. split; [done|]. apply Hkeep; [done|].
      destruct (decide (j = i)); [right; auto|by left].
    + destruct (H5 j r Hr Hc Hni) as (j' & Hj' & Ha). exists j'. split; [done|]. apply Hkeep; [done|].
      destruct (decide (j' = i)) as [->|]; [|by left]. right. destruct Hal as [Hal|[_ Hal]]; [|by destruct (Hal j r Hr)].
      destruct Ha as (r' & Hr' & Hc'). apply Hal. congruence.
  - intros f x Hx. change (v_procs v') with (<[i := q]> (v_procs v)). rewrite (fd_refs_insert _ _ _ p) by done.
    rewrite Hpend, (H6 f x Hx). lia.
  - done.
  - intros j r fd f [[-> ->]|[_ Hr]]%Hlook Hf; eauto.
Qed.

(** [proc[i].ofile[fd] = o] *)
Definition put_fd (fd : nat) (o : option nat) (p : pv) : pv :=
  mk_pv (pv_class p) (pv_parent p) (<[fd := o]> (pv_ofile p)).

Lemma vinv_put_fd pend pend' v i p fd old o :
  vinv pend v -> v_procs v !! i = Some p -> pv_ofile p !! fd = Some old ->
  pv_class p <> UNUSED -> pv_class p <> ZOMBIE ->
  (forall f, o = Some f -> (f < length (v_files v))%nat) ->
  (forall f, pend' f = pend f + names f old - names f o) ->
  vinv pend' (set_procs (alter (put_fd fd o) i (v_procs v)) v).
Proof.
  intros H Hp Hfd Hu Hz Ho Hpend. rewrite (alter_insert_at _ _ _ p) by done.
  eapply vinv_proc; [exact H|exact Hp|..]; cbn [put_fd pv_class pv_parent pv_ofile].
  - rewrite length_insert. by eapply vi_len.
  - done.
  - naive_solver.
  - by left.
  - intros Hc Hni. destruct (vi_tree _ _ H i p Hp Hc Hni) as (j & Hj & Ha). exists j. split_and!; [done|done|].
    intros ->. destruct Ha as (r & Hr & Hcr). congruence.
  - intros fd' f Hf. apply list_lookup_insert_Some in Hf as [(_ & Hf & _)|[_ Hf]]; [by apply Ho|].
    by eapply (vi_range _ _ H).
  - intros f. rewrite Hpend. rewrite (refs_insert _ _ _ old) by done. lia.
Qed.

(** [ftable.file[f]] becomes [y]. *)
Lemma vinv_file pend pend' v f x y :
  vinv pend v -> v_files v !! f = Some x ->
  0 <= fv_ref y -> (fv_ref y = 0 -> fv_type y = FD_NONE) ->
  (forall g, pend' g = pend g + (fv_ref y - fv_ref x) * one f g) ->
  vinv pend' (set_files (<[f := y]> (v_files v)) v).
Proof.
  intros [H1 H0 H2 H3 H4 H5 H6 H7 H8] Hx Hy Hn Hpend.
  split; cbn [v_init v_procs v_files set_files]; try done.
  - intros g z Hz. rewrite Hpend. unfold one. apply list_lookup_insert_Some in Hz as [(<- & -> & _)|[Hne Hz]].
    + rewrite decide_True by done. specialize (H6 f x Hx). lia.
    + rewrite decide_False by done. rewrite (H6 g z Hz). lia.
  - intros g z Hz. apply list_lookup_insert_Some in Hz as [(<- & -> & _)|[Hne Hz]]; [done|]. by eapply H7.
  - intros. rewrite length_insert. eauto.
Qed.

(** ** Running code on views *)
Definition steps (v : view) {A : Type} (m : M kst A) (Q : A -> view -> Prop) (B : view -> Prop) : Prop :=
  forall k, view_of k = v ->
    match m k with Ok a k' => Q a (view_of k') | Blocked k' => B (view_of k') | Err e => benign e end.

(** Code that never gives up the CPU. *)
Class Stays {A : Type} (m : M kst A) : Prop := stays : forall k k', m k <> Blocked k'.

Lemma stays_ext {A} (m m' : M kst A) : (forall k, m k = m' k) -> Stays m' -> Stays m.
Proof. intros E Hm k k'. rewrite E. apply Hm. Qed.

Lemma stays_bind {A B} (m : M kst A) (f : A -> M kst B) : Stays m -> (forall a, Stays (f a)) -> Stays (m ≫= f).
Proof.
  intros Hm Hf k k' E. unfold mbind, M_bind in E. destruct (m k) as [a k1|k1|e] eqn:Em; [|by destruct (Hm k k1)|done].
  by destruct (Hf a k1 k').
Qed.

Ltac stays :=
  repeat (cbv beta zeta; lazymatch goal with
  | |- Stays (mbind _ _) => apply stays_bind; [|intros ?]
  | |- Stays (match ?x with _ => _ end) => destruct x
  | |- Stays _ => first [exact _ | solve [intros ? ?; discriminate]]
  end).

#[local] Typeclasses Opaque acquire release wakeup kalloc kfree pipeclose.
#[global] Instance stays_acquire lk : Stays (acquire lk).
Proof. unfold acquire, pushcli, holding, readeflags_IF, cli. stays. Qed.
#[global] Instance stays_release lk : Stays (release lk).
Proof. unfold release, popcli, holding, readeflags_IF, sti. stays. Qed.
#[global] Instance stays_wakeup ch : Stays (wakeup ch).
Proof. eapply stays_ext; [apply wakeup_run|]. unfold wakeup1. stays. Qed.
#[global] Instance stays_kalloc : Stays kalloc.
Proof. unfold kalloc, load64. stays. Qed.
#[global] Instance stays_kfree v : Stays (kfree v).
Proof. unfold kfree, store64. stays. Qed.
#[global] Instance stays_pipeclose p w : Stays (pipeclose p w).
Proof.
  unfold pipeclose, pipe_at. stays. intros k k'. unfold deref. by destruct (k_pipes a1 !! p).
Qed.

Section rules.
Context {v : view} {B : view -> Prop}.

Lemma steps_bind {A C} (m : M kst A) (f : A -> M kst C) Q :
  steps v m (fun a v' => steps v' (f a) Q B) B -> steps v (m ≫= f) Q B.
Proof using. intros H k Hk. specialize (H k Hk). unfold mbind, M_bind. destruct (m k); [by apply H|done..]. Qed.

Lemma steps_ret {A} (a : A) (Q : A -> view -> Prop) : Q a v -> steps v (mret a) Q B.
Proof using. intros H k <-. done. Qed.

Lemma steps_mono {A} (m : M kst A) (P Q : A -> view -> Prop) (B' : view -> Prop) :
  steps v m P B' -> (forall a v', P a v' -> Q a v') -> (forall v', B' v' -> B v') -> steps v m Q B.
Proof using. intros H HQ HB k Hk. specialize (H k Hk). destruct (m k); auto. Qed.

Lemma steps_keeps {A} (m : M kst A) (Q : A -> view -> Prop) :
  Keeps m -> runs v -> (forall a, Q a v) -> B v -> steps v m Q B.
Proof using.
  intros Hm Hr HQ HB k Hk. specialize (Hm k (proj2 (running_view k) ltac:(by rewrite Hk))).
  destruct (m k); [|..|done]; apply same_view in Hm; rewrite Hm, Hk; auto.
Qed.

Lemma steps_call {A} (m : M kst A) (Q : A -> view -> Prop) :
  Keeps m -> Stays m -> runs v -> (forall a, Q a v) -> steps v m Q B.
Proof using.
  intros Hm Hs Hr HQ k Hk. specialize (Hm k (proj2 (running_view k) ltac:(by rewrite Hk))).
  destruct (m k) as [|k'|] eqn:E; [|by destruct (Hs k k')|done]. apply same_view in Hm. rewrite Hm, Hk; auto.
Qed.

Lemma steps_gets {A C} (g : kst -> A) (f : A -> M kst C) Q :
  (forall k, view_of k = v -> steps v (f (g k)) Q B) -> steps v (gets g ≫= f) Q B.
Proof using. intros H k Hk. by apply H. Qed.

Lemma steps_curproc {C} (f : nat * proc -> M kst C) Q :
  (forall i p, v_cur v = Some i -> v_procs v !! i = Some (pview p) -> steps v (f (i, p)) Q B) ->
  steps v (curproc ≫= f) Q B.
Proof using.
  intros H k <-. unfold curproc, get, deref, mbind, M_bind.
  destruct (k_proc k) as [i|] eqn:Ei; [|by split]. cbn. destruct (k_ptable k !! i) as [p|] eqn:Ep; [|by split].
  apply H; cbn; rewrite ?list_lookup_fmap, ?Ep; done.
Qed.

Lemma steps_proc_at {C} i (f : proc -> M kst C) Q :
  (forall p, v_procs v !! i = Some (pview p) -> steps v (f p) Q B) -> steps v (proc_at i ≫= f) Q B.
Proof using.
  intros H k <-. unfold proc_at, get, deref, mbind, M_bind. destruct (k_ptable k !! i) as [p|] eqn:Ep; [|by split].
  apply H; cbn; rewrite ?list_lookup_fmap, ?Ep; done.
Qed.

Lemma steps_file_at {C} i (f : file -> M kst C) Q :
  (forall x, v_files v !! i = Some (fview x) -> steps v (f x) Q B) -> steps v (file_at i ≫= f) Q B.
Proof using.
  intros H k <-. unfold file_at, get, deref, mbind, M_bind. destruct (k_ftable k !! i) as [p|] eqn:Ep; [|by split].
  apply H; cbn; rewrite ?list_lookup_fmap, ?Ep; done.
Qed.

Lemma steps_upd_proc i f g (Q : unit -> view -> Prop) :
  (forall p, pview (f p) = g (pview p)) -> Q tt (set_procs (alter g i (v_procs v)) v) ->
  steps v (upd_proc i f) Q B.
Proof using.
  intros Hfg HQ k <-. cbn. unfold view_of, set_procs in *. cbn in *.
  assert (pview <$> alter f i (k_ptable k) = alter g i (pview <$> k_ptable k)) as ->; [|done].
  apply list_eq. intros j. rewrite list_lookup_fmap, !list_lookup_alter, !list_lookup_fmap.
  destruct (decide (i = j)) as [<-|]; [|done]. destruct (k_ptable k !! i); cbn; [by rewrite Hfg|done].
Qed.

Lemma steps_upd_file i f g (Q : unit -> view -> Prop) :
  (forall x, fview (f x) = g (fview x)) -> Q tt (set_files (alter g i (v_files v)) v) ->
  steps v (upd_file i f) Q B.
Proof using.
  intros Hfg HQ k <-. cbn. unfold view_of, set_files in *. cbn in *.
  assert (fview <$> alter f i (k_ftable k) = alter g i (fview <$> k_ftable k)) as ->; [|done].
  apply list_eq. intros j. rewrite list_lookup_fmap, !list_lookup_alter, !list_lookup_fmap.
  destruct (decide (i = j)) as [<-|]; [|done]. destruct (k_ftable k !! i); cbn; [by rewrite Hfg|done].
Qed.
End rules.
