(* ===== verification/ShRun.v ===== *)
(** How the shell runs a command: [runcmd] of [src/sh.c], as the system calls that it makes,
    and the file descriptors that every program it executes gets.

    The descriptor table of a process is a list of [NOFILE] entries; [open], [dup] and
    [pipe] take the lowest free entry, as [fdalloc] of [src/sysfile.c] does. *)
From Stdlib Require Import ZArith Lia.
From stdpp Require Import base gmap sets strings numbers list.
From S2P Require Import Prelude State Console Printf Sysfile Sh.

Local Open Scope Z_scope.

(** A process: its system calls, with the rest as a function of the result.  [SPrint] writes to the
    standard error.  [fork1] and [pipe] end the process when they fail ([SPanic]); [exec] returns only on failure. *)
Inductive script : Type :=
| SExit
| SPrint (msg : list Z) (k : script)
| SExec (argv : list (list Z)) (k : script)
| SOpen (file : list Z) (mode : Z) (k : Z -> script)
| SClose (fd : Z) (k : script)
| SDup (fd : Z) (k : script)
| SPipe (k : option (Z * Z) -> script)
| SFork (child parent : script)
| SWait (k : script).

(** [panic] prints its argument and exits. *)
Definition SPanic (s : list Z) : script := SPrint (printf (bytes_of "%s" ++ [10]) [VStr (Some s)]) SExit.

Fixpoint runcmd (c : command (list Z)) : script :=
  match c with
  | Exec argv =>
      match argv with
      | [] => SExit
      | a :: _ => SExec argv (SPrint (printf (bytes_of "exec %s failed" ++ [10]) [VStr (Some a)]) SExit)
      end
  | Redir c file mode fd =>
      SClose fd
        (SOpen file mode (fun r => if r <? 0 then SPrint (printf (bytes_of "open %s failed" ++ [10]) [VStr (Some file)]) SExit else runcmd c))
  | List l r => SFork (runcmd l) (SWait (runcmd r))
  | Pipe l r =>
      SPipe (fun p =>
        match p with
        | None => SPanic (bytes_of "pipe")
        | Some (p0, p1) =>
            SFork (SClose 1 (SDup p1 (SClose p0 (SClose p1 (runcmd l)))))
              (SFork (SClose 0 (SDup p0 (SClose p0 (SClose p1 (runcmd r)))))
                 (SClose p0 (SClose p1 (SWait (SWait SExit)))))
        end)
  | Back c => SFork (runcmd c) SExit
  end.

(** ** Descriptors *)
Inductive object : Type :=
| Inherited (fd : nat)
| Opened (file : list Z) (mode : Z)
| Reader (pipe : nat)
| Writer (pipe : nat).

Notation fdtable := (list (option object)) (only parsing).

Definition take_fd (o : object) (l : fdtable) : option (nat * fdtable) :=
  fd ← fd_free l 0; Some (fd, <[fd := Some o]> l).
Definition close_fd (fd : Z) (l : fdtable) : fdtable := <[Z.to_nat fd := None]> l.
Definition fd_object (fd : Z) (l : fdtable) : option object := mjoin (l !! Z.to_nat fd).

Section Run.
(** Which files can be opened and which programs executed. *)
Context (open_ok : list Z -> bool) (exec_ok : list (list Z) -> bool).

(** The calls of [exec] that a process and its children make, each with the descriptors of
    the calling process, and the next pipe number.  Every [fork] succeeds. *)
Fixpoint execs (s : script) (l : fdtable) (n : nat) : list (list (list Z) * fdtable) * nat :=
  match s with
  | SExit => ([], n)
  | SPrint _ k => execs k l n
  | SExec argv k =>
      if exec_ok argv then ([(argv, l)], n)
      else let '(es, n') := execs k l n in ((argv, l) :: es, n')
  | SOpen file mode k =>
      match (if open_ok file then take_fd (Opened file mode) l else None) with
      | Some (fd, l') => execs (k (Z.of_nat fd)) l' n
      | None => execs (k (-1)) l n
      end
  | SClose fd k => execs k (close_fd fd l) n
  | SDup fd k =>
      match fd_object fd l ≫= fun o => take_fd o l with
      | Some (_, l') => execs k l' n
      | None => execs k l n
      end
  | SPipe k =>
      match take_fd (Reader n) l ≫= fun '(r, l') => '(w, l'') ← take_fd (Writer n) l'; Some (r, w, l'') with
      | Some (r, w, l') => execs (k (Some (Z.of_nat r, Z.of_nat w))) l' (S n)
      | None => execs (k None) l n
      end
  | SFork child parent =>
      let '(es, n1) := execs child l n in
      let '(es', n2) := execs parent l n1 in
      (es ++ es', n2)
  | SWait k => execs k l n
  end.

(** ** What a command means

    Each program of the command with its descriptors: standard input and output as the
    pipes and redirections around it say, everything else as in the shell. *)
Fixpoint wiring (c : command (list Z)) (l : fdtable) (n : nat) : list (list (list Z) * fdtable) * nat :=
  match c with
  | Exec [] => ([], n)
  | Exec argv => ([(argv, l)], n)
  | Redir c file mode fd =>
      if open_ok file then wiring c (<[Z.to_nat fd := Some (Opened file mode)]> l) n else ([], n)
  | Pipe a b =>
      let '(es, n1) := wiring a (<[1%nat := Some (Writer n)]> l) (S n) in
      let '(es', n2) := wiring b (<[0%nat := Some (Reader n)]> l) n1 in
      (es ++ es', n2)
  | List a b =>
      let '(es, n1) := wiring a l n in
      let '(es', n2) := wiring b l n1 in
      (es ++ es', n2)
  | Back c => wiring c l n
  end.

(** The redirections are of standard input and output, as the parser makes them. *)
Fixpoint redirs_ok (c : command (list Z)) : Prop :=
  match c with
  | Exec _ => True
  | Redir c _ _ fd => (fd = 0 \/ fd = 1) /\ redirs_ok c
  | Pipe a b | List a b => redirs_ok a /\ redirs_ok b
  | Back c => redirs_ok c
  end.

(** Standard input and output are open, and two descriptors are free. *)
Definition std (l : fdtable) : Prop :=
  (exists o, l !! 0%nat = Some (Some o)) /\ (exists o, l !! 1%nat = Some (Some o)) /\
  exists r w, r <> w /\ l !! r = Some None /\ l !! w = Some None.

Lemma fd_free_spec {A} (l : list (option A)) k i :
  fd_free l k = Some i <->
    exists j, i = (k + j)%nat /\ l !! j = Some None /\ forall j', (j' < j)%nat -> exists o, l !! j' = Some (Some o).
Proof.
  revert k. induction l as [|[o|] l IH]; intros k; cbn [fd_free].
  - split; [done|]. intros (j & _ & H & _). done.
  - rewrite IH. split.
    + intros (j & -> & Hj & Hl). exists (S j). split; [lia|]. split; [done|].
      intros [|j'] Hj'; [by exists o|]. apply Hl. lia.
    + intros ([|j] & -> & Hj & Hl); [done|]. exists j. split; [lia|]. split; [done|].
      intros j' Hj'. apply (Hl (S j')). lia.
  - split.
    + intros [= <-]. exists O. split; [lia|]. split; [done|]. lia.
    + intros ([|j] & -> & _ & Hl); [f_equal; lia|]. destruct (Hl O) as [o Ho]; [lia|done].
Qed.

Lemma fd_free_least {A} (l : list (option A)) i :
  l !! i = Some None -> (forall j, (j < i)%nat -> exists o, l !! j = Some (Some o)) -> fd_free l 0 = Some i.
Proof. intros Hi Hl. apply fd_free_spec. by exists i. Qed.

Lemma fd_free_ex {A} (l : list (option A)) i : l !! i = Some None -> exists j, fd_free l 0 = Some j /\ l !! j = Some None.
Proof.
  revert i. induction l as [|[o|] l IH]; intros i Hi; [done| |by exists O].
  destruct i as [|i]; [done|]. destruct (IH i Hi) as (j & Hj & Hl). exists (S j). split; [|done].
  apply fd_free_spec in Hj as (j' & -> & Hj' & Hall). apply fd_free_spec. exists (S j').
  split; [lia|]. split; [done|]. intros [|k] Hk; [by exists o|]. apply Hall. lia.
Qed.

Lemma std_set l fd o : std l -> (fd < 2)%nat -> std (<[fd := Some o]> l).
Proof.
  intros ([o0 H0] & [o1 H1] & r & w & Hne & Hr & Hw) Hfd.
  assert (Hlen : (fd < length l)%nat) by (apply lookup_lt_Some in H1; lia).
  assert (Hrw : r <> fd /\ w <> fd).
  { split; intros ->; destruct fd as [|[|]]; try lia; congruence. }
  split; [|split].
  - destruct fd as [|fd]; [exists o; by rewrite list_lookup_insert_eq|exists o0; by rewrite list_lookup_insert_ne].
  - destruct (decide (fd = 1%nat)) as [->|?]; [exists o; by rewrite list_lookup_insert_eq|].
    exists o1. by rewrite list_lookup_insert_ne.
  - exists r, w. rewrite !list_lookup_insert_ne by naive_solver. done.
Qed.

(** Closing a standard descriptor and taking a new one gives the same number. *)
Lemma retake l fd o : std l -> (fd < 2)%nat -> take_fd o (<[fd := None]> l) = Some (fd, <[fd := Some o]> l).
Proof.
  intros ([o0 H0] & [o1 H1] & _) Hfd. assert (Hlen := lookup_lt_Some _ _ _ H1).
  unfold take_fd. rewrite (fd_free_least _ fd).
  - cbn. by rewrite list_insert_insert_eq.
  - apply list_lookup_insert_eq. lia.
  - intros j Hj. exists o0. assert (j = 0%nat) as -> by lia. by rewrite list_lookup_insert_ne by lia.
Qed.

(** The two ends of a pipe. *)
Lemma pipe_fds l n :
  std l -> exists r w, take_fd (Reader n) l = Some (r, <[r := Some (Reader n)]> l) /\
    take_fd (Writer n) (<[r := Some (Reader n)]> l) = Some (w, <[w := Some (Writer n)]> (<[r := Some (Reader n)]> l)) /\
    r <> w /\ (2 <= r)%nat /\ (2 <= w)%nat /\ l !! r = Some None /\ l !! w = Some None.
Proof.
  intros ([o0 H0] & [o1 H1] & a & b & Hab & Ha & Hb).
  destruct (fd_free_ex l a Ha) as (r & Er & Hr).
  assert (Hex : exists i, <[r := Some (Reader n)]> l !! i = Some None).
  { destruct (decide (r = a)) as [->|?]; [exists b|exists a]; by rewrite list_lookup_insert_ne. }
  destruct Hex as [i Hi]. destruct (fd_free_ex _ i Hi) as (w & Ew & Hw).
  assert (Hne : r <> w).
  { intros ->. rewrite list_lookup_insert_eq in Hw; [done|]. by apply lookup_lt_Some in Hr. }
  rewrite list_lookup_insert_ne in Hw by done.
  assert (H2 : forall j, l !! j = Some None -> (2 <= j)%nat).
  { intros [|[|j]] Hj; [congruence|congruence|lia]. }
  exists r, w. unfold take_fd. rewrite Er, Ew. cbn. split_and!; auto.
Qed.

(** A child of a pipeline moves its end to a standard descriptor and closes both ends. *)
Lemma child_fds l fd e r w R W o :
  std l -> (fd < 2)%nat -> r <> w -> (2 <= r)%nat -> (2 <= w)%nat -> l !! r = Some None -> l !! w = Some None ->
  (e = r /\ o = R \/ e = w /\ o = W) ->
  let l2 := <[w := Some W]> (<[r := Some R]> l) in
  exists l3, (fd_object (Z.of_nat e) (<[fd := None]> l2) ≫= fun o => take_fd o (<[fd := None]> l2)) = Some (fd, l3) /\
    close_fd (Z.of_nat w) (close_fd (Z.of_nat r) l3) = <[fd := Some o]> l.
Proof.
  intros Hstd Hfd Hne Hr2 Hw2 Hr Hw He l2.
  assert (Hlr := lookup_lt_Some _ _ _ Hr). assert (Hlw := lookup_lt_Some _ _ _ Hw).
  assert (Ho : fd_object (Z.of_nat e) (<[fd := None]> l2) = Some o).
  { unfold fd_object. rewrite Nat2Z.id. destruct He as [[-> ->]|[-> ->]];
      rewrite list_lookup_insert_ne by lia; unfold l2.
    - rewrite list_lookup_insert_ne by done. by rewrite list_lookup_insert_eq.
    - by rewrite list_lookup_insert_eq by (rewrite length_insert; lia). }
  exists (<[fd := Some o]> l2). rewrite Ho. cbn [mbind option_bind].
  split.
  - destruct Hstd as ([o0 H0] & [o1 H1] & _). assert (Hl1 := lookup_lt_Some _ _ _ H1).
    unfold take_fd. rewrite (fd_free_least _ fd).
    + cbn. by rewrite list_insert_insert_eq.
    + apply list_lookup_insert_eq. unfold l2. rewrite !length_insert. lia.
    + intros j Hj. exists o0. assert (j = 0%nat) as -> by lia. unfold l2.
      by rewrite !list_lookup_insert_ne by lia.
  - unfold close_fd, l2. rewrite !Nat2Z.id. apply list_eq. intros i.
    destruct (decide (i = w)) as [->|Hiw].
    { rewrite list_lookup_insert_eq by (rewrite !length_insert; lia). by rewrite list_lookup_insert_ne by lia. }
    rewrite list_lookup_insert_ne by done. destruct (decide (i = r)) as [->|Hir].
    { rewrite list_lookup_insert_eq by (rewrite !length_insert; lia). by rewrite list_lookup_insert_ne by lia. }
    rewrite list_lookup_insert_ne by done. destruct (decide (i = fd)) as [->|Hif].
    { rewrite !list_lookup_insert_eq by (rewrite ?length_insert; lia). done. }
    by rewrite !list_lookup_insert_ne by done.
Qed.

(** C17: every program that the shell runs gets the right descriptors.  For every command,
    the programs that the processes of [runcmd] execute, with their descriptor tables, are
    those of the command's [wiring]: standard output of the left side of a pipe is its
    writing end, standard input of the right side its reading end, redirections open the
    named file in place of standard input or output, a command whose file cannot be opened
    is not run, and all other descriptors are exactly the shell's: no end of a pipe
    leaks into a program. *)
Theorem runcmd_wiring c l n :
  std l -> redirs_ok c -> (forall argv, exec_ok argv = true) ->
  execs (runcmd c) l n = wiring c l n.
Proof.
  intros Hstd Hok Hex. revert l n Hstd Hok.
  induction c as [argv|c IH file mode fd|a IHa b IHb|a IHa b IHb|c IH]; intros l n Hstd Hok;
    cbn [runcmd wiring redirs_ok] in *.
  - destruct argv; [done|]. cbn. by rewrite Hex.
  - destruct Hok as [Hfd Hok]. cbn [execs]. destruct (open_ok file); [|done].
    assert (Hlt : (Z.to_nat fd < 2)%nat) by lia. unfold close_fd. rewrite retake by done.
    rewrite (proj2 (Z.ltb_ge _ 0) (Nat2Z.is_nonneg _)). apply IH; [by apply std_set|done].
  - destruct Hok as [Ha Hb]. destruct (pipe_fds l n Hstd) as (r & w & Er & Ew & Hne & Hr2 & Hw2 & Hr & Hw).
    cbn [execs]. rewrite Er. cbn [mbind option_bind]. rewrite Ew. cbn [mbind option_bind execs].
    set (l2 := <[w := Some (Writer n)]> (<[r := Some (Reader n)]> l)).
    destruct (child_fds l 1 w r w (Reader n) (Writer n) (Writer n)) as (l3 & E3 & Hl3);
      [done|lia|done|done|done|done|done|by right|].
    destruct (child_fds l 0 r r w (Reader n) (Writer n) (Reader n)) as (l4 & E4 & Hl4);
      [done|lia|done|done|done|done|done|by left|].
    change (close_fd 1 l2) with (<[1%nat := None]> l2). change (close_fd 0 l2) with (<[0%nat := None]> l2).
    fold l2 in E3, E4. rewrite E3, Hl3, E4, Hl4.
    rewrite IHa by (try done; by apply std_set; [|lia]).
    destruct (wiring a _ (S n)) as [es n1]. rewrite IHb by (try done; by apply std_set; [|lia]).
    destruct (wiring b _ n1) as [es' n2]. by rewrite app_nil_r.
  - destruct Hok as [Ha Hb]. cbn [execs]. rewrite IHa by done. destruct (wiring a l n) as [es n1].
    by rewrite IHb.
  - cbn [execs]. rewrite IH by done. destruct (wiring c l n) as [es n1]. by rewrite app_nil_r.
Qed.
End Run.

(** A descriptor table with standard input, output and error open. *)
Definition shell_fds : fdtable :=
  [Some (Inherited 0); Some (Inherited 1); Some (Inherited 2)] ++ replicate 13 None.

Lemma runcmd_wiring_witness :
  let c := Pipe (Redir (Exec [bytes_of "a"]) (bytes_of "in") O_RDONLY 0) (Pipe (Exec [bytes_of "b"]) (Exec [bytes_of "c"])) in
  execs (fun _ => true) (fun _ => true) (runcmd c) shell_fds 0 =
    ([([bytes_of "a"], [Some (Opened (bytes_of "in") O_RDONLY); Some (Writer 0); Some (Inherited 2)] ++ replicate 13 None);
      ([bytes_of "b"], [Some (Reader 0); Some (Writer 1); Some (Inherited 2)] ++ replicate 13 None);
      ([bytes_of "c"], [Some (Reader 1); Some (Inherited 1); Some (Inherited 2)] ++ replicate 13 None)], 2%nat).
Proof.
  cbv zeta. rewrite runcmd_wiring.
  - reflexivity.
  - split; [eexists; reflexivity|]. split; [eexists; reflexivity|].
    exists 3%nat, 4%nat. split; [discriminate|]. split; reflexivity.
  - cbn. split; [split; [left; reflexivity|exact I]|split; exact I].
  - reflexivity.
Defined.
