(* ===== verification/Trap.v ===== *)
(** Interrupts and exceptions, [src/trap.c].

    Of the hardware, [cpunum ()] and [rcr2 ()] are arguments, and so are the
    keyboard and serial input that an interrupt finds.  [lapiceoi] only
    acknowledges the interrupt to the local APIC; [ideintr] is the one of
    [src/memide.c], which does nothing. *)
From Stdlib Require Import ZArith Lia.
From stdpp Require Import base gmap sets strings numbers list.
From S2P Require Import Prelude Strings State Spinlock Sched Bio Log Fs Console Dir Kalloc Vm Pipe File Proc Exec Sysfile.

Local Open Scope Z_scope.

Definition T_IRQ0 : Z := 32.
Definition IRQ_TIMER : Z := 0.
Definition IRQ_KBD : Z := 1.
Definition IRQ_COM1 : Z := 4.
Definition IRQ_IDE : Z := 14.
Definition IRQ_SPURIOUS : Z := 31.
Definition KERNEL_CS : Z := 8.
Definition DPL_USER : Z := 3.

(** ** The interrupt descriptor table *)

(** The four words of the gate that [mkgate] writes. *)
Definition gate (kva pl : Z) : list Z :=
  [ u32 (Z.lor (Z.land kva 65535) (Z.shiftl KERNEL_CS 16));
    u32 (Z.lor (Z.lor (Z.land kva 4294901760) 36352) (Z.shiftl (Z.land pl 3) 13));
    u32 (Z.shiftr kva 32);
    0 ].
Definition mkgate (idt n kva pl : Z) : M kst unit :=
  upd_mem (fun m => write_bytes m (idt + 16 * n) (mjoin (le_bytes 4 <$> gate kva pl))).

Fixpoint tvinit_loop (vectors : list Z) (idt n : Z) : M kst unit :=
  match vectors with
  | [] => mret tt
  | v :: vectors' => mkgate idt n v 0;; tvinit_loop vectors' idt (n + 1)
  end.
(** [tvinit]: the address of the table; [vectors] are the 256 entry points of
    [src/vectors.S]. *)
Definition tvinit (vectors : list Z) : M kst Z :=
  idt ← kalloc;
  zero_page idt;;
  tvinit_loop vectors idt 0;;
  mret idt.

(** ** [trap] *)
Definition timer_tick : M kst unit :=
  acquire L_ticks;;
  modify (fun k => set_k_ticks (u32 (k_ticks k + 1)) k);;
  wakeup Ch_ticks;;
  release L_ticks.

Section Trap.
Context (cpunum rcr2 : Z) (pcs : proc -> list Z) (kbd_ports uart_ports : list Z).

(** The [default] case of the switch. *)
Definition trap_default (tf : trapframe) : M kst unit :=
  pr ← gets k_proc;
  match pr with
  | Some i =>
      p ← proc_at i;
      if Z.land (tf_cs tf) 3 =? 0 then
        cprintf (bytes_of "unexpected trap %d from cpu %d rip %p (cr2=0x%p)" ++ [10])
          [VInt (tf_trapno tf); VInt cpunum; VInt (tf_rip tf); VInt rcr2];;
        cprintf (bytes_of "proc id: %d" ++ [10]) [VInt (p_pid p)];;
        panic "trap"
      else
        cprintf (bytes_of "pid %d %s: trap %d err %d on cpu %d rip 0x%p addr 0x%p--kill proc" ++ [10])
          [VInt (p_pid p); VStr (Some (p_name p)); VInt (tf_trapno tf); VInt (tf_err tf);
           VInt cpunum; VInt (tf_rip tf); VInt rcr2];;
        upd_proc i (set_p_killed true)
  | None =>
      cprintf (bytes_of "unexpected trap %d from cpu %d rip %p (cr2=0x%p)" ++ [10])
        [VInt (tf_trapno tf); VInt cpunum; VInt (tf_rip tf); VInt rcr2];;
      panic "trap"
  end.

(** [switch(tf->trapno)] *)
Definition trap_handle (tf : trapframe) : M kst unit :=
  let n := tf_trapno tf in
  if n =? T_IRQ0 + IRQ_TIMER then (if cpunum =? 0 then timer_tick else mret tt)
  else if n =? T_IRQ0 + IRQ_IDE then mret tt
  else if n =? T_IRQ0 + IRQ_IDE + 1 then mret tt
  else if n =? T_IRQ0 + IRQ_KBD then kbdintr pcs kbd_ports
  else if n =? T_IRQ0 + IRQ_COM1 then uartintr pcs uart_ports
  else if (n =? T_IRQ0 + 7) || (n =? T_IRQ0 + IRQ_SPURIOUS) then
    cprintf (bytes_of "cpu%d: spurious interrupt at %p:%p" ++ [10])
      [VInt cpunum; VInt (tf_cs tf); VInt (tf_rip tf)]
  else trap_default tf.

(** [if(proc && proc->killed && (tf->cs&3) == DPL_USER) exit();] *)
Definition trap_exit (tf : trapframe) : M kst unit :=
  pr ← gets k_proc;
  match pr with
  | Some i =>
      p ← proc_at i;
      if p_killed p && (Z.land (tf_cs tf) 3 =? DPL_USER) then exit else mret tt
  | None => mret tt
  end.

Definition trap_yield (tf : trapframe) : M kst unit :=
  pr ← gets k_proc;
  match pr with
  | Some i =>
      p ← proc_at i;
      if decide (p_state p = RUNNING) then
        if tf_trapno tf =? T_IRQ0 + IRQ_TIMER then yield else mret tt
      else mret tt
  | None => mret tt
  end.

Definition trap (tf : trapframe) : M kst unit :=
  trap_handle tf;;
  trap_exit tf;;
  trap_yield tf;;
  trap_exit tf.
End Trap.
