(* ===== verification/KinvOps.v ===== *)
(** The operations of [src/file.c] and [src/sysfile.c] that open and close files, on views:
    each keeps the invariant of [Kinv.v]. *)
From Stdlib Require Import ZArith Lia.
From stdpp Require Import base gmap sets strings numbers list.
From S2P Require Import Prelude State Spinlock Code Sched Bio Log Fs Console Dir Kalloc Vm Pipe File Proc Exec Sysfile Keep Kinv.

Local Open Scope Z_scope.

(** ** [src/file.c] *)
Definition incref (x : fv) : fv := mk_fv (fv_ref x + 1) (fv_type x).
Definition decref (x : fv) : fv :=
  if fv_ref x - 1 >? 0 then mk_fv (fv_ref x - 1) (fv_type x) else mk_fv 0 FD_NONE.
Definition with_file (f : nat) (x : fv) (v : view) : view := set_files (<[f := x]> (v_files v)) v.

Lemma file_free_spec l i f :
  file_free l i = Some f -> exists x, l !! (f - i)%nat = Some x /\ f_ref x = 0 /\ (i <= f)%nat.
Proof.
  revert i. induction l as [|x l IH]; intros i H; [discriminate|]. cbn [file_free] in H.
  destruct (Z.eqb_spec (f_ref x) 0) as [E|E].
  - injection H as <-. exists x. by rewrite Nat.sub_diag.
  - destruct (IH _ H) as (y & Hy & Hr & Hle). exists y. split_and!; [|done|lia].
    by replace (f - i)%nat with (S (f - S i)) by lia.
Qed.

Section file_ops.
Context {v : view} {B : view -> Prop} (Hr : runs v).

Lemma steps_filealloc Q :
  Q None v ->
  (forall f x, v_files v !! f = Some x -> fv_ref x = 0 -> Q (Some f) (with_file f (mk_fv 1 (fv_type x)) v)) ->
  steps v filealloc Q B.
Proof using Hr.
  intros HN HS. unfold filealloc. apply steps_bind, steps_call; [exact _..|done|intros _].
  apply steps_gets. intros k Hk. destruct (file_free (k_ftable k) 0) as [f|] eqn:E.
  2: { apply steps_bind, steps_call; [exact _..|done|intros _]. by apply steps_ret. }
  apply file_free_spec in E as (x & Hx & Hrx & _). rewrite Nat.sub_0_r in Hx.
  assert (v_files v !! f = Some (fview x)) as Hf by (subst v; cbn; by rewrite list_lookup_fmap, Hx).
  apply steps_bind, (steps_upd_file _ _ (fun y => mk_fv 1 (fv_type y))); [done|].
  rewrite (alter_insert_at _ _ _ _ Hf). apply steps_bind, steps_call; [exact _..|done|intros _].
  apply steps_ret. by apply HS.
Qed.

Lemma steps_filedup f x Q :
  v_files v !! f = Some x -> 1 <= fv_ref x -> Q f (with_file f (incref x) v) -> steps v (filedup f) Q B.
Proof using Hr.
  intros Hf Hx HQ. unfold filedup. apply steps_bind, steps_call; [exact _..|done|intros _].
  apply steps_file_at. intros y Hy. assert (x = fview y) as -> by congruence. cbn in Hx.
  rewrite (proj2 (Z.ltb_ge _ _)) by lia. apply steps_bind, (steps_upd_file _ _ incref); [done|].
  rewrite (alter_insert_at _ _ _ _ Hf). apply steps_bind, steps_call; [exact _..|done|intros _].
  by apply steps_ret.
Qed.

Lemma steps_fileclose f x Q :
  v_files v !! f = Some x -> 1 <= fv_ref x -> Q tt (with_file f (decref x) v) ->
  (fv_type x = FD_INODE -> B (with_file f (decref x) v)) -> steps v (fileclose f) Q B.
Proof using Hr.
  intros Hf Hx HQ HB. unfold fileclose. apply steps_bind, steps_call; [exact _..|done|intros _].
  apply steps_file_at. intros y Hy. assert (x = fview y) as -> by congruence. cbn in Hx.
  rewrite (proj2 (Z.ltb_ge _ _)) by lia.
  apply steps_bind, (steps_upd_file _ _ (fun z => mk_fv (fv_ref z - 1) (fv_type z))); [done|].
  rewrite (alter_insert_at _ _ _ _ Hf). pose proof (lookup_lt_Some _ _ _ Hf) as Hlt.
  apply steps_file_at. intros ff Hff. cbn [v_files set_files] in Hff.
  rewrite list_lookup_insert_eq in Hff by done. injection Hff as Eref Etype.
  unfold decref in *. cbn [fv_ref fv_type fview] in *. rewrite <- Eref.
  destruct (f_ref y - 1 >? 0).
  - apply steps_call; [exact _..|done|by intros []].
  - apply steps_bind, (steps_upd_file _ _ (fun z => mk_fv 0 (fv_type z))); [done|].
    cbn [v_files set_files]. rewrite (alter_insert_at _ _ _ (mk_fv (f_ref y - 1) (f_type y)))
      by (by apply list_lookup_insert_eq). rewrite list_insert_insert_eq.
    apply steps_bind, (steps_upd_file _ _ (fun z => mk_fv (fv_ref z) FD_NONE)); [done|].
    cbn [v_files set_files]. rewrite (alter_insert_at _ _ _ (mk_fv 0 (f_type y)))
      by (by apply list_lookup_insert_eq). rewrite list_insert_insert_eq.
    apply steps_bind, steps_call; [exact _..|done|intros _]. rewrite <- Etype.
    destruct (f_type y).
    + by apply steps_ret.
    + apply steps_call; [exact _..|done|by intros []].
    + apply steps_keeps; [keeps|done|by intros []|by apply HB].
Qed.
End file_ops.

(** ** Counting *)
Lemma names_one f g : names g (Some f) = one f g.
Proof. unfold names, one. repeat case_decide; naive_solver. Qed.
Lemma names_none g : names g None = 0.
Proof. unfold names. by case_decide. Qed.

Lemma vinv_incref pend pend' v f x :
  vinv pend v -> v_files v !! f = Some x -> (forall g, pend' g = pend g + one f g) ->
  vinv pend' (with_file f (incref x) v).
Proof.
  intros H Hf Hp. pose proof (vi_none _ _ H f x Hf) as [H0 _].
  eapply vinv_file; [exact H|exact Hf|..]; cbn [incref fv_ref fv_type]; [lia|intros; lia|].
  intros g. rewrite Hp. lia.
Qed.

Lemma vinv_decref pend pend' v f x :
  vinv pend v -> v_files v !! f = Some x -> 1 <= fv_ref x -> (forall g, pend' g = pend g - one f g) ->
  vinv pend' (with_file f (decref x) v).
Proof.
  intros H Hf Hx Hp. unfold decref.
  destruct (Z.gtb_spec (fv_ref x - 1) 0); (eapply vinv_file; [exact H|exact Hf|..]);
    cbn [fv_ref fv_type]; try (intros; lia); try done; intros g; rewrite Hp; [lia|].
  assert (fv_ref x = 1) as -> by lia. lia.
Qed.

Lemma vinv_newref pend pend' v f x :
  vinv pend v -> v_files v !! f = Some x -> fv_ref x = 0 -> (forall g, pend' g = pend g + one f g) ->
  vinv pend' (with_file f (mk_fv 1 (fv_type x)) v).
Proof.
  intros H Hf Hx Hp. eapply vinv_file; [exact H|exact Hf|..]; cbn [fv_ref fv_type]; [lia|intros; lia|].
  intros g. rewrite Hp. lia.
Qed.

(** A file that a descriptor names is in use. *)
Lemma vinv_named v i p fd f :
  vinv zero_pend v -> v_procs v !! i = Some p -> pv_ofile p !! fd = Some (Some f) ->
  exists x, v_files v !! f = Some x /\ 1 <= fv_ref x.
Proof.
  intros H Hp Hf. destruct (lookup_lt_is_Some_2 (v_files v) f) as [x Hx].
  { by eapply vi_range. }
  exists x. split; [done|]. rewrite (vi_refs _ _ H f x Hx). pose proof (fd_refs_named _ _ _ _ _ Hp Hf).
  unfold zero_pend. lia.
Qed.

Lemma runs_put_fd v i fd o : runs v -> runs (set_procs (alter (put_fd fd o) i (v_procs v)) v).
Proof.
  intros Hr j Hj. destruct (Hr j Hj) as (p & Hp & Hc). unfold alive. cbn [v_procs set_procs].
  rewrite list_lookup_alter. destruct (decide (i = j)) as [<-|]; [|by exists p].
  rewrite Hp. exists (put_fd fd o p). done.
Qed.

(** Process [i] is inside the closing of file [f] by [exit], which clears descriptor [fd]
    afterwards; it has closed the descriptors below. *)
Definition in_exit (v : view) (i fd f : nat) : Prop :=
  v_cur v = Some i /\ v_init v <> Some i /\ exists p, v_procs v !! i = Some p /\
    (forall j, (j < fd)%nat -> pv_ofile p !! j = Some None) /\ pv_ofile p !! fd = Some (Some f) /\
    vinv (fun g => - one f g) v.

(** The CPU is given up with the counts right, or inside the closing of one file by [exit]. *)
Definition stopped (v : view) : Prop :=
  vinv zero_pend v \/ exists i fd f, in_exit v i fd f.

Definition ok_view (v : view) : Prop := runs v /\ vinv zero_pend v.
Definition safe {A} (m : M kst A) : Prop := forall v, ok_view v -> steps v m (fun _ => ok_view) stopped.

Lemma ok_stopped v : ok_view v -> stopped v.
Proof. intros [_ H]. by left. Qed.

Lemma safe_keeps {A} (m : M kst A) : Keeps m -> safe m.
Proof. intros Hm v Hv. apply steps_keeps; [done|apply Hv|done|by apply ok_stopped]. Qed.

Lemma safe_bind {A C} (m : M kst A) (f : A -> M kst C) : safe m -> (forall a, safe (f a)) -> safe (m ≫= f).
Proof. intros Hm Hf v Hv. apply steps_bind. eapply steps_mono; [by apply Hm| |done]. intros a v'. apply Hf. Qed.

(** Code run first that keeps the view. *)
Lemma steps_first {A C} v (m : M kst A) (f : A -> M kst C) Q :
  Keeps m -> ok_view v -> (forall a, steps v (f a) Q stopped) -> steps v (m ≫= f) Q stopped.
Proof. intros Hm Hv Hf. apply steps_bind, steps_keeps; [done|apply Hv|done|by apply ok_stopped]. Qed.

(** ** File descriptors *)
Lemma proc_fd_free {A} (l : list (option A)) n fd :
  fd_free l n = Some fd -> l !! (fd - n)%nat = Some None /\ (n <= fd)%nat.
Proof.
  revert n. induction l as [|[x|] l IH]; intros n H; [discriminate| |]; cbn [fd_free] in H.
  - destruct (IH _ H) as [Hl Hle]. split; [|lia]. by replace (fd - n)%nat with (S (fd - S n)) by lia.
  - injection H as <-. by rewrite Nat.sub_diag.
Qed.

Lemma steps_argfd v n (Q : option (nat * nat) -> view -> Prop) :
  ok_view v -> Q None v ->
  (forall i p fd f, v_cur v = Some i -> v_procs v !! i = Some p -> pv_ofile p !! fd = Some (Some f) -> Q (Some (fd, f)) v) ->
  steps v (argfd n) Q stopped.
Proof.
  intros Hv HN HS. unfold argfd. apply steps_first; [exact _|done|]. intros fd.
  apply steps_curproc. intros i p Hi Hp. destruct ((fd <? 0) || (fd >=? Z.of_nat NOFILE)); [by apply steps_ret|].
  apply steps_ret. destruct (p_ofile p !! Z.to_nat fd) as [[f|]|] eqn:E; cbn; [|done..].
  by eapply HS.
Qed.

Lemma steps_fdalloc v f B (Q : option nat -> view -> Prop) :
  Q None v ->
  (forall i p fd, v_cur v = Some i -> v_procs v !! i = Some p -> pv_ofile p !! fd = Some None ->
     Q (Some fd) (set_procs (alter (put_fd fd (Some f)) i (v_procs v)) v)) ->
  steps v (fdalloc f) Q B.
Proof.
  intros HN HS. unfold fdalloc. apply steps_curproc. intros i p Hi Hp.
  destruct (fd_free (p_ofile p) 0) as [fd|] eqn:E; [|by apply steps_ret].
  apply proc_fd_free in E as [Hfd _]. rewrite Nat.sub_0_r in Hfd.
  apply steps_bind, (steps_upd_proc _ _ (put_fd fd (Some f))); [done|]. apply steps_ret. by eapply HS.
Qed.

(** The current process is neither free nor a zombie. *)
Lemma runs_cur v i p : runs v -> v_cur v = Some i -> v_procs v !! i = Some p -> pv_class p = RUNNABLE.
Proof. intros Hr Hi Hp. destruct (Hr i Hi) as (q & Hq & Hc). congruence. Qed.

(** A descriptor of the current process comes to name a file. *)
Lemma vinv_cur_fd pend pend' v i p fd old o :
  vinv pend v -> runs v -> v_cur v = Some i -> v_procs v !! i = Some p -> pv_ofile p !! fd = Some old ->
  (forall f, o = Some f -> (f < length (v_files v))%nat) ->
  (forall f, pend' f = pend f + names f old - names f o) ->
  vinv pend' (set_procs (alter (put_fd fd o) i (v_procs v)) v).
Proof.
  intros H Hr Hi Hp Hfd Ho Hpend. pose proof (runs_cur _ _ _ Hr Hi Hp) as Hc.
  eapply vinv_put_fd; [exact H|exact Hp|exact Hfd|congruence|congruence|exact Ho|exact Hpend].
Qed.

Lemma safe_sys_dup : safe sys_dup.
Proof.
  intros v [Hr Hv]. unfold sys_dup. apply steps_bind, steps_argfd; [done|by apply steps_ret|].
  intros i p fd f Hi Hp Hf. destruct (vinv_named _ _ _ _ _ Hv Hp Hf) as (x & Hx & H1).
  apply steps_bind, steps_fdalloc; [by apply steps_ret|]. intros i' p' fd' Hi' Hp' Hfd'.
  pose proof (runs_put_fd v i' fd' (Some f) Hr) as Hr1.
  apply steps_bind, (steps_filedup Hr1 f x); [done|done|]. apply steps_ret. split; [exact Hr1|].
  eapply (vinv_incref (fun g => - one f g)); [|exact Hx|unfold zero_pend; intros; lia].
  eapply vinv_cur_fd; [exact Hv|done|done|exact Hp'|exact Hfd'| |].
  - intros ? [= <-]. by eapply lookup_lt_Some.
  - intros g. rewrite names_none, names_one. unfold zero_pend. lia.
Qed.

Lemma safe_sys_close : safe sys_close.
Proof.
  intros v [Hr Hv]. unfold sys_close. apply steps_bind, steps_argfd; [done|by apply steps_ret|].
  intros i p fd f Hi Hp Hf. destruct (vinv_named _ _ _ _ _ Hv Hp Hf) as (x & Hx & H1).
  apply steps_curproc. intros i' p' Hi' _. assert (i' = i) as -> by congruence.
  apply steps_bind, (steps_upd_proc _ _ (put_fd fd None)); [done|].
  pose proof (runs_put_fd v i fd None Hr) as Hr1.
  assert (vinv zero_pend (with_file f (decref x) (set_procs (alter (put_fd fd None) i (v_procs v)) v))) as Hv2.
  { eapply (vinv_decref (one f)); [|exact Hx|done|unfold zero_pend; intros; lia].
    eapply vinv_cur_fd; [exact Hv|done|done|exact Hp|exact Hf|done|].
    intros g. rewrite names_none, names_one. unfold zero_pend. lia. }
  apply steps_bind, (steps_fileclose Hr1 f x); [done|done| |].
  - by apply steps_ret.
  - intros _. by left.
Qed.

(** ** [pipealloc] and [sys_pipe] *)

(** Closing a file that the code holds a reference to without a descriptor. *)
Lemma steps_drop pend v f x (Q : unit -> view -> Prop) :
  runs v -> vinv (fun g => pend g + one f g) v -> 0 <= pend f -> v_files v !! f = Some x ->
  (fv_type x = FD_INODE -> forall v', vinv pend v' -> stopped v') ->
  (vinv pend (with_file f (decref x) v) -> Q tt (with_file f (decref x) v)) ->
  steps v (fileclose f) Q stopped.
Proof.
  intros Hr Hv Hp Hx HB HQ. pose proof (vi_refs _ _ Hv f x Hx) as E.
  pose proof (fd_refs_nonneg (v_procs v) f). cbn beta in E. unfold one in E. rewrite decide_True in E by done.
  assert (vinv pend (with_file f (decref x) v)) as Hv'
    by (eapply vinv_decref; [exact Hv|exact Hx|lia|intros; cbn beta; lia]).
  apply (steps_fileclose Hr f x); [done|lia|by apply HQ|]. intros Ht. by apply HB.
Qed.

Lemma vinv_file_type pend v f x t :
  vinv pend v -> v_files v !! f = Some x -> fv_ref x <> 0 -> vinv pend (with_file f (mk_fv (fv_ref x) t) v).
Proof.
  intros H Hf Hx. pose proof (vi_none _ _ H f x Hf) as [H0 _].
  eapply vinv_file; [exact H|exact Hf|..]; cbn [fv_ref fv_type]; [lia|intros; lia|intros; lia].
Qed.

Lemma steps_pipe_end v f p readable B (Q : unit -> view -> Prop) x :
  runs v -> v_files v !! f = Some x -> Q tt (with_file f (mk_fv (fv_ref x) FD_PIPE) v) ->
  steps v (pipe_end f readable p) Q B.
Proof.
  intros Hr Hf HQ. unfold pipe_end.
  apply steps_bind, (steps_upd_file _ _ (fun y => mk_fv (fv_ref y) FD_PIPE)); [done|].
  rewrite (alter_insert_at _ _ _ _ Hf).
  assert (Hid : forall h (g : fv -> fv) (w : view), (forall y, g y = y) -> set_files (alter g h (v_files w)) w = w).
  { intros h g [c i ps fs] Hg. unfold set_files. cbn. f_equal. by apply list_alter_id. }
  do 2 (apply steps_bind, (steps_upd_file _ _ id); [done|]; rewrite Hid by done).
  apply (steps_upd_file _ _ id); [done|]. by rewrite Hid.
Qed.

Lemma with_file_eq f x v : (f < length (v_files v))%nat -> v_files (with_file f x v) !! f = Some x.
Proof. intros. by apply list_lookup_insert_eq. Qed.
Lemma with_file_ne f g x v : f <> g -> v_files (with_file f x v) !! g = v_files v !! g.
Proof. intros. by apply list_lookup_insert_ne. Qed.
Lemma with_file_len f x v : length (v_files (with_file f x v)) = length (v_files v).
Proof. apply length_insert. Qed.

(** Two files held without descriptors are closed. *)
Lemma steps_drop2 {A} v f0 f1 x0 x1 (m : M kst A) Q :
  runs v -> vinv (fun g => one f0 g + one f1 g) v -> f0 <> f1 ->
  v_files v !! f0 = Some x0 -> v_files v !! f1 = Some x1 -> fv_type x0 <> FD_INODE ->
  (forall v', ok_view v' -> steps v' m Q stopped) ->
  steps v (fileclose f0;; fileclose f1;; m) Q stopped.
Proof.
  intros Hr Hv Hne Hx0 Hx1 Ht HQ. apply steps_bind, (steps_drop (one f1) _ _ x0); [done| | |done|done|].
  - eapply vinv_ext; [|exact Hv]. intros g. cbn beta. lia.
  - unfold one. case_decide; lia.
  - intros Hv1. apply steps_bind, (steps_drop zero_pend _ _ x1);
      [exact Hr|exact Hv1|unfold zero_pend; lia|by rewrite with_file_ne|by left|].
    intros Hv2. apply HQ. by split.
Qed.

(** The two ends of the pipe, on files just allocated. *)
Lemma steps_pipe_ends v f0 f1 p B (Q : option (nat * nat) -> view -> Prop) :
  runs v -> vinv (fun g => one f0 g + one f1 g) v -> f0 <> f1 ->
  v_files v !! f0 = Some (mk_fv 1 FD_NONE) -> v_files v !! f1 = Some (mk_fv 1 FD_NONE) ->
  (forall v', runs v' -> vinv (fun g => one f0 g + one f1 g) v' ->
     v_files v' !! f0 = Some (mk_fv 1 FD_PIPE) -> v_files v' !! f1 = Some (mk_fv 1 FD_PIPE) -> Q (Some (f0, f1)) v') ->
  steps v (pipe_end f0 true p;; pipe_end f1 false p;; mret (Some (f0, f1))) Q B.
Proof.
  intros Hr Hv Hne Hf0 Hf1 HQ. apply steps_bind, (steps_pipe_end _ _ _ _ _ _ _ Hr Hf0).
  pose proof (vinv_file_type _ _ _ _ FD_PIPE Hv Hf0 ltac:(done)) as Hv1. cbn [fv_ref] in *.
  set (v1 := with_file f0 (mk_fv 1 FD_PIPE) v) in *. assert (Hr1 : runs v1) by exact Hr.
  assert (v_files v1 !! f1 = Some (mk_fv 1 FD_NONE)) as Hf1' by (unfold v1; by rewrite with_file_ne).
  apply steps_bind, (steps_pipe_end _ _ _ _ _ _ _ Hr1 Hf1').
  pose proof (vinv_file_type _ _ _ _ FD_PIPE Hv1 Hf1' ltac:(done)) as Hv2. cbn [fv_ref] in *.
  apply steps_ret. apply HQ; [done|done| |].
  - rewrite with_file_ne by done. apply with_file_eq. by eapply lookup_lt_Some.
  - apply with_file_eq. unfold v1. rewrite with_file_len. by eapply lookup_lt_Some.
Qed.

Lemma steps_pipealloc v (Q : option (nat * nat) -> view -> Prop) :
  ok_view v -> (forall v', ok_view v' -> Q None v') ->
  (forall v' f0 f1, runs v' -> vinv (fun g => one f0 g + one f1 g) v' -> f0 <> f1 ->
     v_files v' !! f0 = Some (mk_fv 1 FD_PIPE) -> v_files v' !! f1 = Some (mk_fv 1 FD_PIPE) -> Q (Some (f0, f1)) v') ->
  steps v pipealloc Q stopped.
Proof.
  intros [Hr Hv] HN HS. unfold pipealloc. apply steps_bind, (steps_filealloc Hr).
  { unfold pipealloc_bad. apply steps_bind, steps_ret, steps_bind, steps_ret, steps_ret. by apply HN. }
  intros f0 x0 Hx0 E0. pose proof (lookup_lt_Some _ _ _ Hx0) as Hl0.
  pose proof (proj2 (vi_none _ _ Hv f0 x0 Hx0) E0) as Et0. rewrite Et0.
  assert (Hv1 : vinv (one f0) (with_file f0 (mk_fv 1 FD_NONE) v)).
  { rewrite <- Et0. eapply vinv_newref; [exact Hv|done|done|done]. }
  set (v1 := with_file f0 (mk_fv 1 FD_NONE) v) in *. assert (Hr1 : runs v1) by exact Hr.
  assert (Hf0 : v_files v1 !! f0 = Some (mk_fv 1 FD_NONE)) by (by apply with_file_eq).
  apply steps_bind, (steps_filealloc Hr1).
  { unfold pipealloc_bad. apply steps_bind.
    apply (steps_drop zero_pend _ _ (mk_fv 1 FD_NONE)); [done|exact Hv1|done|done|done|].
    intros Hv2. apply steps_bind, steps_ret, steps_ret. apply HN. by split. }
  intros f1 x1 Hx1 E1. pose proof (lookup_lt_Some _ _ _ Hx1) as Hl1.
  pose proof (proj2 (vi_none _ _ Hv1 f1 x1 Hx1) E1) as Et1. rewrite Et1.
  assert (Hne : f0 <> f1). { intros <-. rewrite Hf0 in Hx1. injection Hx1 as <-. discriminate E1. }
  assert (Hv2 : vinv (fun g => one f0 g + one f1 g) (with_file f1 (mk_fv 1 FD_NONE) v1)).
  { rewrite <- Et1. eapply vinv_newref; [exact Hv1|done|done|done]. }
  set (v2 := with_file f1 (mk_fv 1 FD_NONE) v1) in *. assert (Hr2 : runs v2) by exact Hr.
  assert (Hf1 : v_files v2 !! f1 = Some (mk_fv 1 FD_NONE)) by (by apply with_file_eq).
  assert (Hf0' : v_files v2 !! f0 = Some (mk_fv 1 FD_NONE)) by (unfold v2; by rewrite with_file_ne).
  apply steps_bind, steps_call; [exact _..|done|intros p]. destruct (p =? 0).
  - eapply steps_drop2; [exact Hr2|exact Hv2|done|done|done|done|]. intros v' Hv'. by apply steps_ret, HN.
  - apply steps_bind, steps_call; [keeps|intros ? ?; discriminate|done|intros _].
    apply steps_pipe_ends; try done. intros. by apply HS.
Qed.

Lemma safe_sys_pipe : safe sys_pipe.
Proof.
  intros v Hv. unfold sys_pipe. apply steps_first; [exact _|done|]. intros [fd|]; [|by apply steps_ret].
  apply steps_bind, steps_pipealloc; [done|intros; by apply steps_ret|].
  intros v1 rf wf Hr1 Hv1 Hne Hrf Hwf.
  apply steps_bind, steps_fdalloc; [by eapply steps_drop2; [..|intros; apply steps_ret]|].
  intros i p fd0 Hi Hp Hfd0. pose proof (runs_put_fd v1 i fd0 (Some rf) Hr1) as Hr2.
  set (v2 := set_procs _ v1) in *.
  assert (Hv2 : vinv (one wf) v2).
  { eapply vinv_cur_fd; [exact Hv1|done|done|done|exact Hfd0|intros ? [= <-]; by eapply lookup_lt_Some|].
    intros g. rewrite names_none, names_one. lia. }
  assert (Hp2 : v_procs v2 !! i = Some (put_fd fd0 (Some rf) p))
    by (unfold v2; cbn [v_procs set_procs]; by rewrite list_lookup_alter_eq, Hp).
  apply steps_bind, steps_fdalloc.
  - apply steps_curproc. intros i' p' Hi' _. assert (i' = i) as -> by (unfold v2 in Hi'; cbn in Hi'; congruence).
    apply steps_bind, (steps_upd_proc _ _ (put_fd fd0 None)); [done|].
    eapply steps_drop2; [by apply runs_put_fd| |exact Hne|exact Hrf|exact Hwf|done|intros; by apply steps_ret].
    eapply vinv_cur_fd; [exact Hv2|done|done|exact Hp2| |done|].
    + cbn [put_fd pv_ofile]. apply list_lookup_insert_eq. by eapply lookup_lt_Some.
    + intros g. rewrite names_none, names_one. lia.
  - intros i' p' fd1 Hi' Hp' Hfd1. pose proof (runs_put_fd v2 i' fd1 (Some wf) Hr2) as Hr3.
    assert (Hv3 : vinv zero_pend (set_procs (alter (put_fd fd1 (Some wf)) i' (v_procs v2)) v2)).
    { eapply vinv_cur_fd; [exact Hv2|done|done|done|exact Hfd1|intros ? [= <-]; by eapply lookup_lt_Some|].
      intros g. rewrite names_none, names_one. unfold zero_pend. lia. }
    apply safe_keeps; [keeps|by split].
Qed.

Lemma safe_sys_open : safe sys_open.
Proof.
  intros v Hv. unfold sys_open. apply steps_first; [exact _|done|]. intros [path|]; [|by apply steps_ret].
  apply steps_first; [exact _|done|]. intros omode. apply steps_first; [exact _|done|]. intros _.
  apply steps_first; [exact _|done|]. intros [ip|]; [|by apply steps_ret].
  destruct Hv as [Hr Hv]. apply steps_bind, (steps_filealloc Hr).
  { apply safe_keeps; [unfold open_fail; keeps|by split]. }
  intros f x Hx Ex. pose proof (vinv_newref _ (one f) _ _ _ Hv Hx Ex ltac:(done)) as Hv1.
  set (v1 := with_file f _ v) in *. pose proof (lookup_lt_Some _ _ _ Hx) as Hl.
  assert (Hf1 : v_files v1 !! f = Some (mk_fv 1 (fv_type x))) by (by apply with_file_eq).
  apply steps_bind, steps_fdalloc.
  - unfold open_fail. apply steps_bind, (steps_drop zero_pend _ _ (mk_fv 1 (fv_type x)));
      [exact Hr|exact Hv1|done|done|by left|]. intros Hv2. apply safe_keeps; [keeps|by split].
  - intros i p fd Hi Hp Hfd. pose proof (runs_put_fd v1 i fd (Some f) Hr) as Hr2. set (v2 := set_procs _ v1) in *.
    assert (Hv2 : vinv zero_pend v2).
    { eapply vinv_cur_fd; [exact Hv1|exact Hr|done|exact Hp|exact Hfd|intros ? [= <-]; by eapply lookup_lt_Some|].
      intros g. rewrite names_none, names_one. unfold zero_pend. lia. }
    do 2 (apply steps_first; [exact _|by split|]; intros _).
    apply steps_bind, (steps_upd_file _ _ (fun y => mk_fv (fv_ref y) FD_INODE)); [done|].
    rewrite (alter_insert_at _ _ _ (mk_fv 1 (fv_type x))) by exact Hf1.
    apply safe_keeps; [keeps|]. split; [exact Hr2|]. by apply (vinv_file_type _ _ f (mk_fv 1 (fv_type x)) FD_INODE Hv2).
Qed.
