(* ===== verification/KinvProc.v ===== *)
(** The operations of [src/proc.c] that create, end and reap processes, on views; and the
    invariant of [Kinv.v] for every system call and every trap. *)
From Stdlib Require Import ZArith Lia.
From stdpp Require Import base gmap sets strings numbers list.
From S2P Require Import Prelude State Spinlock Code Sched Bio Log Fs Console Dir Kalloc Vm Pipe File Proc Exec Sysfile Trap Keep Kinv KinvOps.

Local Open Scope Z_scope.

(** Changes of one field of a process in a view. *)
Definition put_class (c : procstate) (p : pv) : pv := mk_pv c (pv_parent p) (pv_ofile p).
Definition put_parent (o : option nat) (p : pv) : pv := mk_pv (pv_class p) o (pv_ofile p).
Definition with_proc (i : nat) (p : pv) (v : view) : view := set_procs (<[i := p]> (v_procs v)) v.

Lemma with_proc_twice i p q v : with_proc i q (with_proc i p v) = with_proc i q v.
Proof. unfold with_proc, set_procs. cbn. by rewrite list_insert_insert_eq. Qed.
Lemma with_proc_eq i p v : (i < length (v_procs v))%nat -> v_procs (with_proc i p v) !! i = Some p.
Proof. intros. by apply list_lookup_insert_eq. Qed.
Lemma with_proc_ne i j p v : i <> j -> v_procs (with_proc i p v) !! j = v_procs v !! j.
Proof. intros. by apply list_lookup_insert_ne. Qed.

Lemma steps_put {v : view} {B} i p f g (Q : unit -> view -> Prop) :
  (forall x, pview (f x) = g (pview x)) -> v_procs v !! i = Some p -> Q tt (with_proc i (g p) v) ->
  steps v (upd_proc i f) Q B.
Proof.
  intros Hg Hp HQ. apply (steps_upd_proc _ _ g); [done|]. by rewrite (alter_insert_at _ _ _ _ Hp).
Qed.

Lemma steps_class {v : view} {B} i p c (Q : unit -> view -> Prop) :
  pclass (set_p_state c zero_proc) = c ->
  v_procs v !! i = Some p -> Q tt (with_proc i (put_class c p) v) -> steps v (upd_proc i (set_p_state c)) Q B.
Proof.
  intros Hc Hp HQ. eapply steps_put; [|exact Hp|exact HQ]. intros x. unfold pview, put_class, pclass in *.
  cbn in *. by rewrite Hc.
Qed.

Lemma runs_other v i p : runs v -> v_cur v <> Some i -> runs (with_proc i p v).
Proof. intros Hr Hne j Hj. apply alive_other; [|by apply Hr]. intros ->. by apply Hne. Qed.

(** ** [allocproc] *)
Lemma find_unused_spec ps i np :
  find_unused ps i = Some np -> exists p, ps !! (np - i)%nat = Some p /\ p_state p = UNUSED /\ (i <= np)%nat.
Proof.
  revert i. induction ps as [|p ps IH]; intros i H; [discriminate|]. cbn [find_unused] in H. case_decide as E.
  - injection H as <-. exists p. by rewrite Nat.sub_diag.
  - destruct (IH _ H) as (q & Hq & Hs & Hle). exists q. split_and!; [|done|lia].
    by replace (np - i)%nat with (S (np - S i)) by lia.
Qed.

(** A free slot, and the slot of a process being made. *)
Definition clean : pv := mk_pv UNUSED None (replicate NOFILE None).
Definition embryo : pv := mk_pv EMBRYO None (replicate NOFILE None).

Lemma vinv_clean v i p :
  vinv zero_pend v -> v_procs v !! i = Some p -> pv_class p = UNUSED ->
  p = clean.
Proof.
  intros H Hp Hc. pose proof (vi_unused _ _ H i p Hp Hc) as Hpa. pose proof (vi_len _ _ H i p Hp) as Hl.
  pose proof (vi_closed _ _ H i p Hp (or_introl Hc)) as Hcl. destruct p as [c pa o].
  cbn [pv_class pv_parent pv_ofile] in *. subst. unfold clean. f_equal.
  rewrite <- Hl. clear -Hcl. induction Hcl as [|? ? <- _ IH]; cbn; [done|by f_equal].
Qed.

Lemma none_ofile_range (n fd : nat) (f : nat) : replicate n (@None nat) !! fd <> Some (Some f).
Proof. intros E. apply lookup_replicate in E as [E _]. discriminate. Qed.

Lemma refs_empty f n : refs f (replicate n None) = 0.
Proof. apply refs_none, Forall_replicate. done. Qed.

(** A slot goes back and forth between free and being made. *)
Lemma vinv_slot v i p c :
  vinv zero_pend v -> v_procs v !! i = Some p -> pv_class p = UNUSED \/ p = embryo ->
  c = UNUSED \/ c = EMBRYO -> vinv zero_pend (with_proc i (mk_pv c None (replicate NOFILE None)) v).
Proof.
  intros H Hp Hc Hc'. assert (Hpo : pv_ofile p = replicate NOFILE None /\ pv_class p <> RUNNABLE).
  { destruct Hc as [Hc| ->]; [|done]. rewrite (vinv_clean _ _ _ H Hp Hc). done. }
  destruct Hpo as [Hpo Hpr].
  eapply vinv_proc; [exact H|exact Hp|..]; cbn [pv_class pv_parent pv_ofile].
  - by rewrite length_replicate.
  - done.
  - intros _. apply Forall_replicate. done.
  - left. intros. congruence.
  - intros [->| ->] _; destruct Hc' as [E|E]; discriminate E.
  - intros fd f E. by apply none_ofile_range in E.
  - intros f. rewrite Hpo, refs_empty. unfold zero_pend. lia.
Qed.

Lemma steps_allocproc v B (Q : option nat -> view -> Prop) :
  runs v -> (forall i p, v_procs v !! i = Some p -> pv_class p = UNUSED -> p = clean) -> Q None v ->
  (forall np, v_cur v <> Some np -> v_procs v !! np = Some clean -> Q (Some np) (with_proc np embryo v)) ->
  steps v allocproc Q B.
Proof.
  intros Hr Hcl HN HS. unfold allocproc. apply steps_bind, steps_call; [exact _..|done|intros _].
  apply steps_gets. intros k Hk. destruct (find_unused (k_ptable k) 0) as [np|] eqn:E.
  2: { apply steps_bind, steps_call; [exact _..|done|intros _]. by apply steps_ret. }
  apply find_unused_spec in E as (p & Hp & Hs & _). rewrite Nat.sub_0_r in Hp.
  assert (Hpv : v_procs v !! np = Some (pview p)) by (subst v; cbn; by rewrite list_lookup_fmap, Hp).
  rewrite (Hcl _ _ Hpv) in Hpv by (cbn; unfold pclass; by rewrite Hs).
  pose proof (lookup_lt_Some _ _ _ Hpv) as Hl.
  assert (Hnp : v_cur v <> Some np).
  { intros E. pose proof (runs_cur _ _ _ Hr E Hpv) as Hc. discriminate Hc. }
  apply steps_bind. eapply (steps_class _ _ EMBRYO); [done|exact Hpv|].
  change (put_class EMBRYO _) with embryo. set (v1 := with_proc np embryo v).
  assert (Hr1 : runs v1) by (by apply runs_other).
  apply steps_bind, steps_call; [exact (keeps_get id)|by intros ? ?|done|]. intros k1.
  do 2 (apply steps_bind, steps_call; [keeps|by intros ? ?|done|]; intros _).
  apply steps_bind, steps_call; [exact _..|done|intros _].
  apply steps_bind, steps_call; [exact _..|done|intros kstack].
  apply steps_bind, steps_call; [keeps|by intros ? ?|done|]. intros _. destruct (kstack =? 0).
  - assert (Hnp1 : v_procs v1 !! np = Some embryo) by (by apply with_proc_eq).
    apply steps_bind. eapply (steps_class _ _ UNUSED); [done|exact Hnp1|]. apply steps_ret.
    unfold v1. rewrite with_proc_twice. unfold with_proc. rewrite list_insert_id by done. by destruct v.
  - apply steps_bind, steps_call; [keeps|by intros ? ?|done|]. intros _. apply steps_ret. by apply HS.
Qed.

(** ** [fork] *)

(** A slot that is being made may have any parent and any open files. *)
Lemma vinv_embryo v np q q' pend :
  vinv zero_pend v -> v_procs v !! np = Some q -> pv_class q = EMBRYO -> pv_class q' = EMBRYO ->
  length (pv_ofile q') = NOFILE ->
  (forall fd f, pv_ofile q' !! fd = Some (Some f) -> (f < length (v_files v))%nat) ->
  (forall f, pend f = refs f (pv_ofile q) - refs f (pv_ofile q')) ->
  vinv pend (with_proc np q' v).
Proof.
  intros H Hq Hc Hc' Hl Hrg Hp. eapply vinv_proc; [exact H|exact Hq|done|..]; try (rewrite Hc'; naive_solver).
  - left. congruence.
  - exact Hrg.
  - intros f. rewrite Hp. unfold zero_pend. lia.
Qed.

(** The view in which slot [np], with parent [pa], has open files [o], and the files are [fs]. *)
Definition forking (np : nat) (pa : option nat) (o : list (option nat)) (fs : list fv) (v : view) : view :=
  set_files fs (with_proc np (mk_pv EMBRYO pa o) v).

Lemma forking_twice np pa o fs o' fs' v : forking np pa o' fs' (forking np pa o fs v) = forking np pa o' fs' v.
Proof. unfold forking, with_proc, set_files, set_procs. cbn. by rewrite list_insert_insert_eq. Qed.

Lemma steps_fork_files fds fd np v q B Q :
  ok_view v -> v_procs v !! np = Some q -> pv_class q = EMBRYO -> v_cur v <> Some np ->
  (fd + length fds = NOFILE)%nat ->
  (forall j, (fd <= j < NOFILE)%nat -> pv_ofile q !! j = Some None) ->
  (forall f, Some f ∈ fds -> exists i p fd', i <> np /\ v_procs v !! i = Some p /\ pv_ofile p !! fd' = Some (Some f)) ->
  (forall o fs, ok_view (forking np (pv_parent q) o fs v) -> Q tt (forking np (pv_parent q) o fs v)) ->
  steps v (fork_files fds fd np) Q B.
Proof.
  revert fd v q. induction fds as [|o fds IH]; intros fd v q Hv Hq Hc Hcur Hlen Hnone Hfds HQ; cbn [fork_files].
  { apply steps_ret. destruct q as [c pa o]. cbn [pv_class pv_parent] in *. subst c.
    specialize (HQ o (v_files v)). unfold forking, with_proc in HQ. rewrite list_insert_id in HQ by done.
    destruct v. by apply HQ. }
  cbn [length] in Hlen. apply steps_bind. destruct o as [f|].
  2: { apply steps_ret. eapply IH; try done; [lia|intros; apply Hnone; lia|].
    intros f Hf. apply Hfds. by right. }
  destruct (Hfds f ltac:(by left)) as (i & p & fd' & Hne & Hp & Hf).
  destruct Hv as [Hr Hv]. destruct (vinv_named _ _ _ _ _ Hv Hp Hf) as (x & Hx & H1).
  apply steps_bind, (steps_filedup Hr f x); [done|done|].
  pose proof (vinv_incref _ (one f) _ _ _ Hv Hx ltac:(done)) as Hv1.
  apply (steps_upd_proc _ _ (put_fd fd (Some f))); [done|].
  assert (Hfd : pv_ofile q !! fd = Some None) by (apply Hnone; lia).
  assert (Hv2 : vinv zero_pend (set_procs (alter (put_fd fd (Some f)) np (v_procs (with_file f (incref x) v)))
    (with_file f (incref x) v))).
  { eapply vinv_put_fd; [exact Hv1|exact Hq|exact Hfd|congruence|congruence| |].
    - intros ? [= <-]. rewrite with_file_len. by eapply lookup_lt_Some.
    - intros g. rewrite names_none, names_one. unfold zero_pend. lia. }
  rewrite (alter_insert_at _ _ _ q) in * by exact Hq.
  change (set_procs _ _) with (set_files (<[f := incref x]> (v_files v)) (with_proc np (put_fd fd (Some f) q) v)) in *.
  unfold put_fd in *. rewrite Hc in *. fold (forking np (pv_parent q) (<[fd := Some f]> (pv_ofile q)) (<[f := incref x]> (v_files v)) v) in *.
  pose proof (lookup_lt_Some _ _ _ Hq) as Hl.
  eapply (IH (S fd) _ (mk_pv EMBRYO (pv_parent q) (<[fd := Some f]> (pv_ofile q)))).
  - split; [exact (runs_other _ _ _ Hr Hcur)|exact Hv2].
  - by apply with_proc_eq.
  - done.
  - exact Hcur.
  - lia.
  - intros j Hj. cbn [pv_ofile]. rewrite list_lookup_insert_ne by lia. apply Hnone. lia.
  - intros g Hg. destruct (Hfds g ltac:(by right)) as (i' & p' & fd2 & Hne' & Hp' & Hf').
    exists i', p', fd2. split_and!; [done| |done]. unfold forking. cbn [v_procs set_files].
    by rewrite with_proc_ne.
  - cbn [pv_parent]. intros o fs. rewrite forking_twice. apply HQ.
Qed.

Lemma ok_adopt v np i :
  ok_view v -> v_procs v !! np = Some embryo -> v_cur v <> Some np ->
  ok_view (with_proc np (put_parent (Some i) embryo) v).
Proof.
  intros [Hr Hv] Hq Hnp. split; [by apply runs_other|]. eapply vinv_embryo; [exact Hv|exact Hq|done|done| | |].
  - exact (vi_len _ _ Hv np _ Hq).
  - intros fd f E. by apply none_ofile_range in E.
  - intros f. cbn. unfold zero_pend. lia.
Qed.

Lemma vinv_child v np i o :
  ok_view v -> v_cur v = Some i -> v_procs v !! np = Some (mk_pv EMBRYO (Some i) o) ->
  vinv zero_pend (with_proc np (mk_pv RUNNABLE (Some i) o) v).
Proof.
  intros [Hr Hv] Hi Hq. pose proof (Hr i Hi) as Ha.
  eapply vinv_proc; [exact Hv|exact Hq|..]; cbn [pv_class pv_parent pv_ofile].
  - exact (vi_len _ _ Hv np _ Hq).
  - done.
  - intros [E|E]; discriminate E.
  - by left.
  - intros _ _. by exists i.
  - intros fd f E. exact (vi_range _ _ Hv np _ fd f Hq E).
  - intros f. unfold zero_pend. lia.
Qed.

Lemma safe_fork : safe fork.
Proof.
  intros v Hv. unfold fork. apply steps_bind, steps_allocproc; [apply Hv| |by apply steps_ret|].
  { intros. eapply vinv_clean; [apply Hv|done|done]. }
  intros np Hnp Hcl. pose proof (lookup_lt_Some _ _ _ Hcl) as Hl. set (v1 := with_proc np embryo v).
  assert (Hok : ok_view v1).
  { split; [apply runs_other; [apply Hv|done]|]. eapply vinv_slot; [apply Hv|exact Hcl|by left|by right]. }
  apply steps_curproc. intros i p Hi Hp.
  assert (Hq : v_procs v1 !! np = Some embryo) by (by apply with_proc_eq).
  apply steps_first; [exact _|done|]. intros pgdir. apply steps_first; [keeps|done|]. intros _.
  destruct (pgdir =? 0).
  - apply steps_proc_at. intros x _. do 2 (apply steps_first; [keeps|done|]; intros _).
    apply steps_bind. eapply (steps_class _ _ UNUSED); [done|exact Hq|]. apply steps_ret.
    split; [apply runs_other; [apply Hok|exact Hnp]|]. eapply vinv_slot; [apply Hok|exact Hq|by right|by left].
  - apply steps_first; [keeps|done|]. intros _. apply steps_bind.
    eapply (steps_put _ _ _ (put_parent (Some i))); [done|exact Hq|].
    set (q := put_parent (Some i) embryo). set (v2 := with_proc np q v1).
    assert (Hok2 : ok_view v2) by (by apply ok_adopt).
    apply steps_first; [keeps|done|]. intros _.
    assert (Hne : i <> np) by (intros ->; by apply Hnp).
    assert (Hl1 : (np < length (v_procs v1))%nat) by (by eapply lookup_lt_Some).
    apply steps_bind. eapply (steps_fork_files _ _ _ _ q); [done|by apply with_proc_eq|done|exact Hnp| | | |].
    + exact (vi_len _ _ (proj2 Hok) i _ Hp).
    + intros j Hj. apply lookup_replicate_2. lia.
    + intros f Hf. apply list_elem_of_lookup in Hf as [fd Hfd]. exists i, (pview p), fd.
      split_and!; [done| |exact Hfd]. unfold v2. by rewrite with_proc_ne.
    + intros o fs Hok3. cbn [q put_parent pv_parent] in *. set (v3 := forking np (Some i) o fs v2) in *.
      assert (Hl2 : (np < length (v_procs v2))%nat) by (unfold v2, with_proc; cbn; by rewrite length_insert).
      assert (Hq3 : v_procs v3 !! np = Some (mk_pv EMBRYO (Some i) o)) by (by apply with_proc_eq).
      do 2 (apply steps_first; [exact _|done|]; intros ?). do 2 (apply steps_first; [keeps|done|]; intros _).
      apply steps_proc_at. intros x _. apply steps_bind. eapply (steps_class _ _ RUNNABLE); [done|exact Hq3|].
      apply steps_ret. split; [apply runs_other; [apply Hok3|exact Hnp]|]. by apply vinv_child.
Qed.

(** ** [exit] *)
Lemma steps_fail {v : view} {B A} e (Q : A -> view -> Prop) : benign e -> steps v (fail e) Q B.
Proof. by intros He k _. Qed.

(** Giving up the CPU, in whatever state the process is. *)
Lemma steps_sched v (B : view -> Prop) Q : B v -> steps v sched Q B.
Proof.
  intros HB. enough (steps v (sched_enter;; swtch_to_scheduler) Q B) as H.
  { intros k Hk. unfold sched. rewrite sched_run. by apply H. }
  apply steps_bind. unfold sched_enter, holding, readeflags_IF. apply steps_gets. intros k1 _.
  destruct (negb _); [by apply steps_fail|]. apply steps_gets. intros k2 _.
  destruct (negb _); [by apply steps_fail|]. apply steps_curproc. intros i p _ Hp.
  case_decide; [by apply steps_fail|]. apply steps_gets. intros k3 _.
  destruct (intr_on _); [by apply steps_fail|]. apply steps_bind.
  eapply (steps_put _ _ _ id); [done|exact Hp|]. unfold id, with_proc. rewrite list_insert_id by done.
  destruct v. apply steps_ret. intros k Hk. cbn. by rewrite Hk.
Qed.

(** The descriptor of a file that has been closed is cleared. *)
Lemma ok_cleared v i p fd f :
  runs v -> v_cur v = Some i -> v_procs v !! i = Some p -> pv_ofile p !! fd = Some (Some f) ->
  vinv (fun g => - one f g) v -> ok_view (set_procs (alter (put_fd fd None) i (v_procs v)) v).
Proof.
  intros Hr Hi Hp Ho Hv. split; [by apply runs_put_fd|].
  eapply vinv_cur_fd; [exact Hv|exact Hr|exact Hi|exact Hp|exact Ho|done|].
  intros g. cbn beta. rewrite names_none, names_one. unfold zero_pend. lia.
Qed.

Lemma put_fd_closed (p : pv) fd j : (fd < length (pv_ofile p))%nat ->
  (forall j, (j < fd)%nat -> pv_ofile p !! j = Some None) -> (j < S fd)%nat ->
  pv_ofile (put_fd fd None p) !! j = Some None.
Proof.
  intros Hlen Hcl Hj. cbn [put_fd pv_ofile]. destruct (decide (j = fd)) as [->|].
  - by apply list_lookup_insert_eq.
  - rewrite list_lookup_insert_ne by done. apply Hcl. lia.
Qed.

(** All open files are closed. *)
Lemma steps_exit_files cnt fd i v p Q :
  ok_view v -> v_cur v = Some i -> v_init v <> Some i -> v_procs v !! i = Some p -> (fd + cnt = NOFILE)%nat ->
  (forall j, (j < fd)%nat -> pv_ofile p !! j = Some None) ->
  (forall v' p', ok_view v' -> v_cur v' = Some i -> v_init v' = v_init v -> v_procs v' !! i = Some p' ->
     Forall (eq None) (pv_ofile p') -> Q tt v') ->
  steps v (exit_files cnt fd i) Q stopped.
Proof.
  revert fd v p. induction cnt as [|cnt IH]; intros fd v p Hv Hi Hin Hp Hlen Hcl HQ; cbn [exit_files].
  { apply steps_ret. eapply HQ; [done|done|done|exact Hp|]. apply Forall_lookup_2. intros j o Ho.
    pose proof (lookup_lt_Some _ _ _ Ho) as Hj. rewrite (vi_len _ _ (proj2 Hv) i p Hp) in Hj.
    rewrite Hcl in Ho by lia. congruence. }
  destruct Hv as [Hr Hv]. pose proof (vi_len _ _ Hv i p Hp) as Hlo.
  destruct (lookup_lt_is_Some_2 (pv_ofile p) fd) as [o Ho]; [lia|].
  apply steps_proc_at. intros x Hx. assert (pview x = p) as Ex by congruence.
  assert (p_ofile x !! fd = Some o) as -> by (by rewrite <- Ex in Ho). cbn [mjoin option_join].
  apply steps_bind. destruct o as [f|].
  2: { apply steps_ret. eapply IH; [by split|done|done|exact Hp|lia| |done]. intros j Hj.
    destruct (decide (j = fd)) as [->|]; [done|]. apply Hcl. lia. }
  destruct (vinv_named _ _ _ _ _ Hv Hp Ho) as (y & Hy & H1).
  assert (Hv1 : vinv (fun g => - one f g) (with_file f (decref y) v)).
  { eapply vinv_decref; [exact Hv|exact Hy|done|intros; unfold zero_pend; lia]. }
  apply steps_bind, (steps_fileclose Hr f y); [done|done| |].
  - apply (steps_upd_proc _ _ (put_fd fd None)); [done|].
    eapply (IH (S fd) _ (put_fd fd None p)); [exact (ok_cleared (with_file f (decref y) v) i p fd f Hr Hi Hp Ho Hv1)|done|done| |lia| |done].
    + cbn [v_procs set_procs with_file set_files]. by rewrite list_lookup_alter_eq, Hp.
    + intros j Hj. apply put_fd_closed; [lia|done|done].
  - intros _. right. exists i, fd, f. split_and!; [done|done|]. by exists p.
Qed.

#[local] Instance keeps_wakeup_proc p : Keeps (wakeup_proc p).
Proof. unfold wakeup_proc. keeps. Qed.

(** A process that has a parent gets [init] for its parent. *)
Lemma ok_reparent v j p i :
  ok_view v -> v_procs v !! j = Some p -> pv_parent p = Some i ->
  ok_view (with_proc j (put_parent (v_init v) p) v).
Proof.
  intros [Hr Hv] Hx Hpa. destruct (vi_init _ _ Hv) as (ini & Eini & Hini). split.
  { intros i' Hi'. eapply alive_insert; [exact Hx|done|by apply Hr]. }
  eapply vinv_proc; [exact Hv|exact Hx|..]; cbn [put_parent pv_class pv_parent pv_ofile].
  - exact (vi_len _ _ Hv j _ Hx).
  - intros Hc. pose proof (vi_unused _ _ Hv j _ Hx Hc) as E. congruence.
  - exact (vi_closed _ _ Hv j _ Hx).
  - by left.
  - intros Hc Hni. exists ini. split_and!; [done|done|]. intros ->. congruence.
  - intros fd f. exact (vi_range _ _ Hv j _ fd f Hx).
  - intros f. lia.
Qed.

(** The children of [i] become children of [init]. *)
Lemma steps_exit_children cnt j i v p Q :
  ok_view v -> v_cur v = Some i -> v_init v <> Some i -> v_procs v !! i = Some p -> Forall (eq None) (pv_ofile p) ->
  (j + cnt = NPROC)%nat ->
  (forall j' q, (j' < j)%nat -> v_procs v !! j' = Some q -> pv_parent q <> Some i) ->
  (forall v' p', ok_view v' -> v_cur v' = Some i -> v_init v' = v_init v -> v_procs v' !! i = Some p' ->
     Forall (eq None) (pv_ofile p') ->
     (forall j' q, v_procs v' !! j' = Some q -> pv_parent q <> Some i) -> Q tt v') ->
  steps v (exit_children cnt j i) Q stopped.
Proof.
  revert j v p. induction cnt as [|cnt IH]; intros j v p Hv Hi Hin Hp Hcl Hlen Hpar HQ; cbn [exit_children].
  { apply steps_ret. eapply HQ; try done. intros j' q Hq. apply (Hpar j'); [|done].
    apply lookup_lt_Some in Hq. rewrite (vi_nproc _ _ (proj2 Hv)) in Hq. lia. }
  apply steps_proc_at. intros x Hx. apply steps_gets. intros k Hk.
  assert (k_initproc k = v_init v) as -> by (by subst v). apply steps_bind. case_decide as Epa.
  2: { apply steps_ret. eapply IH; try done; [lia|]. intros j' q Hj' Hq.
    destruct (decide (j' = j)) as [->|]; [|apply (Hpar j'); [lia|done]]. rewrite Hx in Hq. injection Hq as <-. done. }
  apply steps_bind. eapply (steps_put _ _ _ (put_parent (v_init v))); [done|exact Hx|].
  set (q := put_parent (v_init v) (pview x)). set (v1 := with_proc j q v).
  pose proof (lookup_lt_Some _ _ _ Hx) as Hj.
  assert (Hok : ok_view v1) by (eapply ok_reparent; [done|exact Hx|exact Epa]).
  assert (Hnext : steps v1 (exit_children cnt (S j) i) Q stopped).
  { assert (exists p', v_procs v1 !! i = Some p' /\ Forall (eq None) (pv_ofile p')) as (p' & Hp' & Hcl').
    { destruct (decide (j = i)) as [->|Hne].
      - exists q. split; [by apply with_proc_eq|]. rewrite Hx in Hp. by injection Hp as <-.
      - exists p. unfold v1. by rewrite with_proc_ne. }
    eapply (IH (S j) v1 p'); [done|done|done|done|done|lia| |done].
    intros j' r Hj' Hr'. destruct (decide (j' = j)) as [->|].
    - unfold v1 in Hr'. rewrite with_proc_eq in Hr' by done. injection Hr' as <-. cbn. congruence.
    - unfold v1 in Hr'. rewrite with_proc_ne in Hr' by done. apply (Hpar j'); [lia|done]. }
  apply steps_keeps; [keeps|apply Hok|intros _; exact Hnext|by apply ok_stopped].
Qed.

(** A process that nobody depends on any more becomes a zombie. *)
Lemma vinv_zombie v i p :
  ok_view v -> v_init v <> Some i -> v_procs v !! i = Some p -> Forall (eq None) (pv_ofile p) ->
  (forall j q, v_procs v !! j = Some q -> pv_parent q <> Some i) -> v_cur v = Some i ->
  vinv zero_pend (with_proc i (put_class ZOMBIE p) v).
Proof.
  intros [Hr Hv] Hin Hp Hcl Hpar Hi. pose proof (runs_cur _ _ _ Hr Hi Hp) as Hc.
  eapply vinv_proc; [exact Hv|exact Hp|..]; cbn [put_class pv_class pv_parent pv_ofile].
  - exact (vi_len _ _ Hv i p Hp).
  - done.
  - done.
  - by right.
  - intros _ _. destruct (vi_tree _ _ Hv i p Hp (or_introl Hc) Hin) as (j & Hj & Ha). exists j.
    split_and!; [done|done|]. intros ->. by destruct (Hpar i p Hp).
  - intros fd f. exact (vi_range _ _ Hv i p fd f Hp).
  - intros f. lia.
Qed.

Lemma steps_exit_rest v Q i p :
  ok_view v -> v_cur v = Some i -> v_init v <> Some i -> v_procs v !! i = Some p -> Forall (eq None) (pv_ofile p) ->
  steps v (exit_rest i) Q stopped.
Proof.
  intros Hv1 Hi1 Hin Hp1 Hcl1. unfold exit_rest. do 6 (apply steps_first; [keeps|done|]; intros ?).
  do 3 (apply steps_first; [keeps|done|]; intros ?). apply steps_bind.
  eapply (steps_exit_children _ _ _ _ p); [done|done|congruence|done|done|done|lia|].
  intros v2 p2 Hv2 Hi2 Hini2 Hp2 Hcl2 Hpar2. apply steps_bind.
  eapply (steps_class _ _ ZOMBIE); [done|exact Hp2|]. apply steps_bind, steps_sched. left.
  apply vinv_zombie; try done. congruence.
Qed.

Lemma steps_exit v Q : ok_view v -> steps v exit Q stopped.
Proof.
  intros Hv. unfold exit. apply steps_curproc. intros i p Hi Hp. apply steps_gets. intros k Hk.
  assert (k_initproc k = v_init v) as -> by (by subst v).
  case_decide as Hin; [by apply steps_fail|]. apply steps_bind.
  eapply (steps_exit_files _ _ _ _ (pview p)); [done|done|done|done|done|lia|].
  intros v1 p1 Hv1 Hi1 Hini1 Hp1 Hcl1. eapply steps_exit_rest; try done. congruence.
Qed.

(** What [exit] goes on with when it has given up the CPU inside a [fileclose]: [m] is the rest
    of that call, which has counted the file already. *)
Definition exit_resumes (m : M kst unit) (fd i : nat) : M kst unit :=
  m;;
  upd_proc i (fun x => set_p_ofile (<[fd := None]> (p_ofile x)) x);;
  exit_files (NOFILE - S fd) (S fd) i;;
  exit_rest i.

Lemma steps_exit_resumes m fd i f v Q :
  Keeps m -> runs v -> in_exit v i fd f -> steps v (exit_resumes m fd i) Q stopped.
Proof.
  intros Hm Hr Hex. pose proof Hex as (Hi & Hin & p & Hp & Hcl & Ho & Hv). unfold exit_resumes.
  apply steps_bind, steps_keeps; [done|done| |right; by exists i, fd, f]. intros _.
  apply steps_bind, (steps_upd_proc _ _ (put_fd fd None)); [done|].
  pose proof (lookup_lt_Some _ _ _ Ho) as Hfd. pose proof (vi_len _ _ Hv i p Hp) as Hlo.
  apply steps_bind. eapply (steps_exit_files _ _ _ _ (put_fd fd None p)); [by eapply ok_cleared|done|done| |lia| |].
  - cbn [v_procs set_procs]. by rewrite list_lookup_alter_eq, Hp.
  - intros j Hj. apply put_fd_closed; [lia|done|done].
  - intros v1 p1 Hv1 Hi1 Hini1 Hp1 Hcl1. eapply steps_exit_rest; try done. by rewrite Hini1.
Qed.

(** ** [wait] *)
Lemma wait_scan_spec ps n i h j h' :
  wait_scan ps n i h = (Some j, h') ->
  exists p, ps !! (j - n)%nat = Some p /\ p_parent p = Some i /\ p_state p = ZOMBIE /\ (n <= j)%nat.
Proof.
  revert n h. induction ps as [|p ps IH]; intros n h H; [discriminate|]. cbn [wait_scan] in H.
  assert (Hrec : forall b, wait_scan ps (S n) i b = (Some j, h') ->
    exists q, (p :: ps) !! (j - n)%nat = Some q /\ p_parent q = Some i /\ p_state q = ZOMBIE /\ (n <= j)%nat).
  { intros b E. destruct (IH _ _ E) as (q & Hq & Hpa & Hs & Hle). exists q. split_and!; [|done|done|lia].
    by replace (j - n)%nat with (S (j - S n)) by lia. }
  case_decide as Epa; [|by eapply Hrec]. case_decide as Es; [|by eapply Hrec].
  injection H as <- <-. exists p. by rewrite Nat.sub_diag.
Qed.

(** A zombie's slot becomes free. *)
Lemma vinv_reap v j p :
  vinv zero_pend v -> v_procs v !! j = Some p -> pv_class p = ZOMBIE ->
  vinv zero_pend (with_proc j (mk_pv UNUSED None (pv_ofile p)) v).
Proof.
  intros Hv Hp Hc. eapply vinv_proc; [exact Hv|exact Hp|..]; cbn [pv_class pv_parent pv_ofile].
  - exact (vi_len _ _ Hv j p Hp).
  - done.
  - intros _. exact (vi_closed _ _ Hv j p Hp (or_intror Hc)).
  - left. congruence.
  - intros [E|E]; discriminate E.
  - intros fd f. exact (vi_range _ _ Hv j p fd f Hp).
  - intros f. lia.
Qed.

Lemma safe_wait : safe wait.
Proof.
  intros v Hv. unfold wait. apply steps_first; [exact _|done|]. intros _.
  apply steps_curproc. intros i pr Hi Hpr. apply steps_gets. intros k Hk.
  destruct (wait_scan (k_ptable k) 0 i false) as [[j|] havekids] eqn:E.
  2: { apply safe_keeps; [keeps|done]. }
  apply wait_scan_spec in E as (p & Hp & _ & Hs & _). rewrite Nat.sub_0_r in Hp.
  assert (Hpv : v_procs v !! j = Some (pview p)) by (subst v; cbn; by rewrite list_lookup_fmap, Hp).
  assert (Hc : pv_class (pview p) = ZOMBIE) by (cbn; unfold pclass; by rewrite Hs).
  pose proof (lookup_lt_Some _ _ _ Hpv) as Hl.
  assert (Hij : v_cur v <> Some j).
  { intros E. pose proof (runs_cur _ _ _ (proj1 Hv) E Hpv) as Hrc. congruence. }
  apply steps_proc_at. intros x _. do 4 (apply steps_first; [keeps|done|]; intros _).
  apply steps_bind. eapply (steps_put _ _ _ (put_parent None)); [done|exact Hpv|].
  set (v1 := with_proc j (put_parent None (pview p)) v).
  assert (Hr1 : runs v1) by (apply runs_other; [apply Hv|done]).
  assert (Hp1 : v_procs v1 !! j = Some (put_parent None (pview p))) by (by apply with_proc_eq).
  do 2 (apply steps_bind, steps_call; [keeps|intros ? ?; discriminate|done|intros _]).
  apply steps_bind. eapply (steps_class _ _ UNUSED); [done|exact Hp1|]. unfold v1. rewrite with_proc_twice.
  apply safe_keeps; [keeps|]. split; [apply runs_other; [apply Hv|done]|]. exact (vinv_reap v j _ (proj2 Hv) Hpv Hc).
Qed.

(** ** System calls and traps *)
Lemma safe_exit : safe exit.
Proof. intros v Hv. by apply steps_exit. Qed.

Lemma safe_sys_exit : safe sys_exit.
Proof. apply safe_bind; [exact safe_exit|]. intros. apply safe_keeps. keeps. Qed.

#[local] Hint Resolve safe_sys_dup safe_sys_close safe_sys_pipe safe_sys_open safe_sys_exit : kernel.

Lemma safe_syscalls num call : syscalls num = Some call -> safe call.
Proof.
  unfold syscalls. intros H. repeat (case_match; try discriminate); injection H as <-;
    first [solve [auto with kernel nocore]|apply safe_keeps; exact _|exact safe_fork|exact safe_wait].
Qed.

Lemma safe_exit_if_killed : safe exit_if_killed.
Proof.
  unfold exit_if_killed. apply safe_bind; [apply safe_keeps; exact _|]. intros [i p].
  destruct (p_killed p); [exact safe_exit|apply safe_keeps; keeps].
Qed.

Lemma safe_syscall tf : safe (syscall tf).
Proof.
  unfold syscall. apply safe_bind; [exact safe_exit_if_killed|intros _].
  apply safe_bind; [apply safe_keeps; exact _|intros [i p]]. apply safe_bind; [apply safe_keeps; keeps|intros _].
  apply safe_bind; [|intros _; exact safe_exit_if_killed]. destruct (syscalls (tf_rax tf)) as [call|] eqn:E.
  - apply safe_bind; [by eapply safe_syscalls|]. intros r. apply safe_keeps. keeps.
  - apply safe_keeps. keeps.
Qed.

#[local] Instance keeps_timer_tick : Keeps timer_tick.
Proof. unfold timer_tick. keeps. Qed.
#[local] Instance keeps_trap_handle n cr2 pcs kb ua tf : Keeps (trap_handle n cr2 pcs kb ua tf).
Proof. unfold trap_handle, trap_default. keeps. Qed.
#[local] Instance keeps_trap_yield tf : Keeps (trap_yield tf).
Proof. unfold trap_yield. keeps. Qed.

Lemma safe_trap_exit tf : safe (trap_exit tf).
Proof.
  unfold trap_exit. apply safe_bind; [apply safe_keeps; apply keeps_get|]. intros [i|]; [|apply safe_keeps; keeps].
  apply safe_bind; [apply safe_keeps; exact _|]. intros p.
  destruct (p_killed p && _); [exact safe_exit|apply safe_keeps; keeps].
Qed.

Lemma safe_trap n cr2 pcs kb ua tf : safe (trap n cr2 pcs kb ua tf).
Proof.
  unfold trap. apply safe_bind; [apply safe_keeps; exact _|intros _].
  apply safe_bind; [apply safe_trap_exit|intros _]. apply safe_bind; [apply safe_keeps; exact _|intros _].
  apply safe_trap_exit.
Qed.

(** ** Boot *)
Definition fresh_view (ini : option nat) : view :=
  mk_view None ini (replicate NPROC clean) (replicate NFILE (mk_fv 0 FD_NONE)).
(** [init] is the only process. *)
Definition init_view (np : nat) : view :=
  with_proc np (mk_pv RUNNABLE None (replicate NOFILE None)) (fresh_view (Some np)).

Lemma fd_refs_clean n f : fd_refs (replicate n clean) f = 0.
Proof. induction n as [|n IH]; [done|]. unfold fd_refs in *. cbn [replicate fmap list_fmap foldr]. by rewrite IH. Qed.

Lemma vinv_init_view np : (np < NPROC)%nat -> vinv zero_pend (init_view np).
Proof.
  intros Hnp. assert (Hl : (np < length (v_procs (fresh_view (Some np))))%nat) by (cbn [fresh_view v_procs]; by rewrite length_replicate).
  assert (Hlook : forall i p, v_procs (init_view np) !! i = Some p ->
    pv_ofile p = replicate NOFILE None /\ pv_parent p = None /\ pv_class p <> ZOMBIE /\ (pv_class p = RUNNABLE -> i = np)).
  { intros i p Hp. unfold init_view, with_proc in Hp. cbn [v_procs set_procs] in Hp.
    apply list_lookup_insert_Some in Hp as [(<- & <- & _)|[_ Hp]]; [done|].
    apply lookup_replicate in Hp as [-> _]. done. }
  split; cbn [init_view with_proc set_procs v_init v_files fresh_view].
  - exists np. split; [done|]. exists (mk_pv RUNNABLE None (replicate NOFILE None)). split; [|done]. by apply with_proc_eq.
  - unfold init_view, with_proc. cbn [v_procs set_procs fresh_view]. by rewrite length_insert, length_replicate.
  - intros i p (-> & _)%Hlook. by rewrite length_replicate.
  - intros i p (_ & Hpa & _)%Hlook _. done.
  - intros i p (-> & _)%Hlook _. by apply Forall_replicate.
  - intros i p (_ & _ & Hz & Hi)%Hlook [Hc|Hc] Hne; [|done]. by destruct Hne; rewrite (Hi Hc).
  - intros f x Hx. apply lookup_replicate in Hx as [-> _]. unfold init_view, with_proc. cbn [v_procs set_procs].
    rewrite (fd_refs_insert _ _ _ clean) by (by apply lookup_replicate_2). cbn [fresh_view v_procs clean pv_ofile].
    rewrite fd_refs_clean, refs_empty. done.
  - intros f x Hx. apply lookup_replicate in Hx as [-> _]. done.
  - intros i p fd f (-> & _)%Hlook E. by apply none_ofile_range in E.
Qed.

Lemma steps_modify {v : view} {B} f g (Q : unit -> view -> Prop) :
  (forall k, view_of (f k) = g (view_of k)) -> Q tt (g v) -> steps v (modify f) Q B.
Proof. intros Hg HQ k <-. cbn. by rewrite Hg. Qed.

Lemma steps_userinit initcode ini :
  steps (fresh_view ini) (userinit initcode)
    (fun _ v => exists np, (np < NPROC)%nat /\ v = init_view np) (fun _ => True).
Proof.
  unfold userinit. apply steps_bind, steps_allocproc.
  - by intros i Hi.
  - intros i p Hp _. by apply lookup_replicate in Hp as [-> _].
  - apply steps_bind, (steps_modify _ (fun v => mk_view (v_cur v) None (v_procs v) (v_files v))); [done|].
    apply steps_bind. by apply steps_fail.
  - intros np _ Hcl. apply lookup_lt_Some in Hcl. pose proof Hcl as Hl.
    cbn [fresh_view v_procs] in Hl. rewrite length_replicate in Hl.
    apply steps_bind, (steps_modify _ (fun v => mk_view (v_cur v) (Some np) (v_procs v) (v_files v))); [done|].
    apply steps_bind, steps_ret. set (v := mk_view _ _ _ _). assert (Hr : runs v) by (by intros i Hi).
    assert (Hnp : v_procs v !! np = Some embryo) by (by apply with_proc_eq).
    do 2 (apply steps_bind, steps_keeps; [keeps|done| |done]; intros ?).
    destruct (_ =? 0); [by apply steps_fail|].
    do 6 (apply steps_bind, steps_keeps; [keeps|done| |done]; intros ?).
    eapply (steps_class _ _ RUNNABLE); [done|exact Hnp|]. exists np. split; [done|].
    unfold v, init_view, with_proc, set_procs. cbn [v_procs v_cur v_init v_files fresh_view].
    by rewrite list_insert_insert_eq.
Qed.

(** [userinit], on tables as the loader leaves them, makes [init] the only process; the
    invariant holds. *)
Lemma userinit_tables initcode k k' :
  view_of k = fresh_view (k_initproc k) -> userinit initcode k = Ok tt k' -> running k' /\ kinv k'.
Proof.
  intros Hk E. pose proof (steps_userinit initcode (k_initproc k) k Hk) as H. rewrite E in H.
  destruct H as (np & Hnp & Hv). split.
  - apply running_view. rewrite Hv. by intros i Hi.
  - unfold kinv. rewrite Hv. by apply vinv_init_view.
Qed.

(** ** The invariant *)

(** What an entry into the kernel may end in. *)
Definition kept (o : outcome kst unit) : Prop :=
  match o with
  | Ok _ k' => running k' /\ kinv k'
  | Blocked k' => stopped (view_of k')
  | Err e => benign e
  end.

Lemma safe_kept (m : M kst unit) k : safe m -> running k -> kinv k -> kept (m k).
Proof.
  intros Hm Hr Hk. assert (ok_view (view_of k)) as Hv by (split; [by apply running_view|done]).
  specialize (Hm _ Hv k eq_refl). unfold kept. destruct (m k) as [a k'| |]; [|done..].
  destruct Hm as [Hr' Hk']. split; [by apply running_view|done].
Qed.

(** C10: the kernel's tables stay well-formed.  The tables are well-formed when the reference
    count of every open file is the number of descriptors that name it, free files and free
    process slots are clean, zombies have closed their files and every process but [init] has
    a living parent.  From such a state every system call and every trap that returns ends in
    such a state again; one that gives up the CPU leaves such a state behind, except inside
    [exit], where one file may have been closed whose descriptor is not yet cleared.  From
    that exception [exit], when it is scheduled again, goes on in the same way: for any rest
    of the interrupted [fileclose] it leaves well-formed tables behind, or stops in the same
    exception again.  A run that ends in an error (a panic, a fault, or the end of a loop's
    bound) does not end in the panics of [filedup] and [fileclose]. *)
Theorem kernel_tables cpunum rcr2 pcs kbd_ports uart_ports tf k :
  running k ->
  (kinv k -> kept (syscall tf k) /\ kept (trap cpunum rcr2 pcs kbd_ports uart_ports tf k)) /\
  (forall i fd f m, in_exit (view_of k) i fd f -> Keeps m -> kept (exit_resumes m fd i k)).
Proof.
  intros Hr. split.
  - intros Hk. split; apply safe_kept; auto using safe_syscall, safe_trap.
  - intros i fd f m Hex Hm. apply running_view in Hr.
    pose proof (steps_exit_resumes m fd i f (view_of k) (fun _ => ok_view) Hm Hr Hex k eq_refl) as H.
    unfold kept. destruct (exit_resumes m fd i k) as [a k'| |]; [|done..].
    destruct H as [Hr' Hk']. split; [by apply running_view|done].
Qed.

(** [init] runs with one open file. *)
Definition demo_tables : kst :=
  set_k_ftable (mk_file FD_INODE 1 true true 0 0 0 :: replicate 99 zero_file)
    (set_k_ptable (set_p_state RUNNING (set_p_ofile (Some O :: replicate 15 None) zero_proc) :: replicate 63 zero_proc)
      (set_k_initproc (Some O) (set_k_proc (Some O) kst_zero))).
Definition demo_dup : trapframe := set_tf_rax 10 zero_tf.

Lemma demo_kinv : kinv demo_tables.
Proof.
  assert (Hv : vinv zero_pend (init_view 0)) by (apply vinv_init_view; unfold NPROC; lia).
  eapply (vinv_newref _ (one 0) _ 0 (mk_fv 0 FD_NONE)) in Hv; [|reflexivity|reflexivity|done].
  eapply (vinv_put_fd _ zero_pend _ 0 _ 0 _ (Some O)) in Hv;
    [|reflexivity|reflexivity|discriminate|discriminate|intros ? [= <-]; cbn; lia|].
  - eapply (vinv_file_type _ _ 0 (mk_fv 1 FD_NONE) FD_INODE) in Hv; [|reflexivity|discriminate].
    destruct Hv as [H1 H2 H3 H4 H5 H6 H7 H8 H9]. by split.
  - intros f. rewrite names_none, names_one. unfold zero_pend. lia.
Qed.

Lemma kernel_tables_witness :
  exists k', syscall demo_dup demo_tables = Ok tt k' /\ (f_ref <$> k_ftable k' !! 0%nat) = Some 2 /\ kinv k'.
Proof.
  assert (Hr : running demo_tables).
  { intros i [= <-]. eexists. split; reflexivity. }
  pose proof (proj1 (proj1 (kernel_tables 0 0 (fun _ => []) [] [] demo_dup demo_tables Hr) demo_kinv)) as H.
  assert (E : match syscall demo_dup demo_tables with
              | Ok _ k' => (f_ref <$> k_ftable k' !! 0%nat) = Some 2 | _ => False end) by (vm_compute; reflexivity).
  destruct (syscall demo_dup demo_tables) as [[] k'| |]; [|destruct E..].
  exists k'. split; [reflexivity|]. split; [exact E|exact (proj2 H)].
Defined.
