(* ===== verification/ProcSpec.v ===== *)
(** [fork] and [wait] of [src/proc.c] as a whole: a child that is a copy of its parent, with
    an address space of its own and one more reference to each open file, and the end of a
    child, whose memory goes back to the allocator.  The address spaces are those of
    [VmSpec.v] and [VmFork.v], the tables those of [Kinv.v]. *)
From Stdlib Require Import ZArith Lia.
From stdpp Require Import base gmap sets strings numbers list.
From S2P Require Import Prelude Strings State Spinlock Code Sched Bio Log Fs Console Dir Kalloc Vm VmSpec VmUser VmFork Pipe File Proc Keep Kinv KinvOps KinvProc.

Local Open Scope Z_scope.

(** ** Frames *)

(** [k'] differs from [k] in tables and memory only. *)
Definition pframe (k k' : kst) : Prop :=
  k' = set_k_ptable (k_ptable k') (set_k_nextpid (k_nextpid k') (set_k_ftable (k_ftable k')
         (set_k_icache (k_icache k') (set_k_kmem (k_kmem k') (set_k_mem (k_mem k') k))))).

Lemma pframe_refl k : pframe k k.
Proof. by destruct k. Qed.
Lemma pframe_trans k k1 k2 : pframe k k1 -> pframe k1 k2 -> pframe k k2.
Proof. unfold pframe. intros H1 H2. rewrite H2. rewrite H1 at 1. done. Qed.
Lemma pframe_cpu k k' : pframe k k' -> k_cpu k' = k_cpu k.
Proof. intros H. by rewrite H. Qed.
Lemma pframe_proc k k' : pframe k k' -> k_proc k' = k_proc k.
Proof. intros H. by rewrite H. Qed.

(** The memory system does not depend on the tables. *)
Lemma vm_ok_tables k k' pml4 t fl :
  vm_ok k pml4 t fl -> k_mem k' = k_mem k -> k_kmem k' = k_kmem k -> k_cpu k' = k_cpu k -> k_end k' = k_end k ->
  vm_ok k' pml4 t fl.
Proof.
  intros [[Fl Fn Fo Fc Flk] He Hr Hp Hi Hu Hen] Em Ek Ec Ee.
  split; [split|..]; rewrite ?Em, ?Ek, ?Ec, ?Ee; try done.
Qed.

Lemma user_byte_mem k k' t x : k_mem k' = k_mem k -> user_byte k' t x = user_byte k t x.
Proof. intros E. unfold user_byte. by rewrite E. Qed.
Lemma mapping_mem k k' t x : k_mem k' = k_mem k -> mapping k' t x = mapping k t x.
Proof. intros E. unfold mapping, pte. by rewrite E. Qed.

(** The user sees no change. *)
Definition same_user (t : gmap (list Z) Z) (k k' : kst) : Prop :=
  forall x, 0 <= x < 2 ^ 47 -> mapping k' t x = mapping k t x /\ user_byte k' t x = user_byte k t x.

(** ** The parts of [fork] *)

(** Code that changes slot [np] of the process table. *)
Lemma upd_slot np f q T k :
  (np < length T)%nat -> k_ptable k = <[np := q]> T ->
  upd_proc np f k = Ok tt (set_k_ptable (<[np := f q]> T) k).
Proof.
  intros Hl E. unfold upd_proc, upd_ptable, modify. do 2 f_equal.
  rewrite E, (alter_insert_at _ _ _ q) by (by apply list_lookup_insert_eq). apply list_insert_insert_eq.
Qed.

Lemma upd_slot_again np f q T k :
  (np < length T)%nat ->
  upd_proc np f (set_k_ptable (<[np := q]> T) k) = Ok tt (set_k_ptable (<[np := f q]> T) k).
Proof. intros Hl. by rewrite (upd_slot np f q T). Qed.

(** The process that [allocproc] returns. *)
Definition newborn (pid kstack : Z) (p : proc) : proc :=
  set_p_context K_forkret (set_p_kstack kstack (set_p_pid pid (set_p_state EMBRYO p))).

Lemma allocproc_ok k np p pml4 t w fl :
  cpu_ok (k_cpu k) -> L_ptable ∉ held (k_cpu k) -> find_unused (k_ptable k) 0 = Some np -> k_ptable k !! np = Some p ->
  vm_ok k pml4 t (w :: fl) ->
  exists k', allocproc k = Ok (Some np) k' /\ pframe k k' /\ vm_ok k' pml4 t fl /\ fresh k' t fl w /\
    k_mem k' = k_mem k /\ k_ptable k' = <[np := newborn (k_nextpid k) w p]> (k_ptable k) /\
    k_nextpid k' = i32 (k_nextpid k + 1) /\ k_ftable k' = k_ftable k /\ k_icache k' = k_icache k.
Proof.
  intros Hc Hl Hnp Hp Hok. pose proof (lookup_lt_Some _ _ _ Hp) as Hlt.
  unfold allocproc. erewrite bind_ok; [|by apply acquire_eq].
  erewrite bind_ok; [|reflexivity]. cbn [k_ptable set_k_cpu]. rewrite Hnp.
  erewrite bind_ok; [|reflexivity]. erewrite bind_ok; [|reflexivity]. erewrite bind_ok; [|reflexivity].
  erewrite bind_ok; [|reflexivity]. erewrite bind_ok; [|by apply release_eq].
  set (k1 := set_k_cpu _ _).
  assert (Hok1 : vm_ok k1 pml4 t (w :: fl)) by (by apply (vm_ok_tables k)).
  destruct (vm_kalloc k1 pml4 t (w :: fl) Hok1) as (k2 & E2 & Hok2 & Ho2 & Hm2 & Hfr). cbn [head tail default id] in *.
  specialize (Hfr w eq_refl). erewrite bind_ok; [|exact E2].
  assert (Hw : 0 < w) by (destruct Hfr as [(_ & He & _) _]; pose proof (vo_end _ _ _ _ Hok2); unfold KERNBASE in *; lia).
  assert (Hpt : k_ptable k2 = <[np := set_p_pid (k_nextpid k) (set_p_state EMBRYO p)]> (k_ptable k)).
  { assert (k_ptable k2 = k_ptable k1) as -> by (by rewrite Ho2). unfold k1.
    cbn [k_ptable set_k_cpu set_k_nextpid set_k_ptable k_nextpid].
    by rewrite alter_alter, (alter_insert_at _ _ _ p). }
  erewrite bind_ok; [|by apply upd_slot]. rewrite (proj2 (Z.eqb_neq _ _)) by lia.
  erewrite bind_ok; [|by apply upd_slot]. eexists. split; [reflexivity|].
  assert (Hfin : forall T, pframe k (set_k_ptable T k2)).
  { intros T. unfold pframe. rewrite Ho2. unfold k1. by destruct k. }
  split_and!; [exact (Hfin _)|by apply (vm_ok_tables k2)|exact Hfr|exact Hm2|done|..].
  all: cbn; rewrite Ho2; done.
Qed.

(** Without a free slot [allocproc] changes nothing; without a page for the kernel stack it
    gives the slot back. *)
Lemma allocproc_no_slot k :
  cpu_ok (k_cpu k) -> L_ptable ∉ held (k_cpu k) -> find_unused (k_ptable k) 0 = None -> allocproc k = Ok None k.
Proof.
  intros Hc Hl Hnp. unfold allocproc. erewrite bind_ok; [|by apply acquire_eq].
  erewrite bind_ok; [|reflexivity]. cbn [k_ptable set_k_cpu]. rewrite Hnp.
  erewrite bind_ok; [|by apply (release_eq _ (k_cpu k))]. by destruct k.
Qed.

Lemma allocproc_no_page k np p pml4 t :
  cpu_ok (k_cpu k) -> L_ptable ∉ held (k_cpu k) -> find_unused (k_ptable k) 0 = Some np -> k_ptable k !! np = Some p ->
  vm_ok k pml4 t [] ->
  exists k', allocproc k = Ok None k' /\ pframe k k' /\ vm_ok k' pml4 t [] /\ k_mem k' = k_mem k /\
    k_ptable k' = <[np := set_p_state UNUSED (set_p_kstack 0 (set_p_pid (k_nextpid k) p))]> (k_ptable k) /\
    k_nextpid k' = i32 (k_nextpid k + 1) /\ k_ftable k' = k_ftable k /\ k_icache k' = k_icache k.
Proof.
  intros Hc Hl Hnp Hp Hok. pose proof (lookup_lt_Some _ _ _ Hp) as Hlt.
  unfold allocproc. erewrite bind_ok; [|by apply acquire_eq].
  erewrite bind_ok; [|reflexivity]. cbn [k_ptable set_k_cpu]. rewrite Hnp.
  do 4 (erewrite bind_ok; [|reflexivity]). erewrite bind_ok; [|by apply release_eq].
  set (k1 := set_k_cpu _ _).
  assert (Hok1 : vm_ok k1 pml4 t []) by (by apply (vm_ok_tables k)).
  destruct (vm_kalloc k1 pml4 t [] Hok1) as (k2 & E2 & Hok2 & Ho2 & Hm2 & _). cbn [head tail default id] in *.
  erewrite bind_ok; [|exact E2].
  assert (Hpt : k_ptable k2 = <[np := set_p_pid (k_nextpid k) (set_p_state EMBRYO p)]> (k_ptable k)).
  { assert (k_ptable k2 = k_ptable k1) as -> by (by rewrite Ho2). unfold k1.
    cbn [k_ptable set_k_cpu set_k_nextpid set_k_ptable k_nextpid].
    by rewrite alter_alter, (alter_insert_at _ _ _ p). }
  erewrite bind_ok; [|by apply upd_slot]. change (0 =? 0) with true. cbv iota.
  erewrite bind_ok; [|by apply upd_slot]. eexists. split; [reflexivity|]. split_and!.
  - unfold pframe. rewrite Ho2. unfold k1. by destruct k.
  - by apply (vm_ok_tables k2).
  - exact Hm2.
  - done.
  - cbn; by rewrite Ho2.
  - cbn; by rewrite Ho2.
  - cbn; by rewrite Ho2.
Qed.

Definition addref (n : Z) (x : file) : file := set_f_ref (f_ref x + n) x.

Lemma filedup_eq f x k :
  cpu_ok (k_cpu k) -> L_ftable ∉ held (k_cpu k) -> k_ftable k !! f = Some x -> 1 <= f_ref x ->
  filedup f k = Ok f (set_k_ftable (alter (addref 1) f (k_ftable k)) k).
Proof.
  intros Hc Hl Hf Hx. unfold filedup. erewrite bind_ok; [|by apply acquire_eq].
  erewrite bind_ok; [|unfold file_at, get, mbind, M_bind; cbn [k_ftable set_k_cpu]; by rewrite Hf].
  rewrite (proj2 (Z.ltb_ge _ _)) by lia. erewrite bind_ok; [|reflexivity].
  erewrite bind_ok; [|by apply release_eq]. by destruct k.
Qed.

Lemma addref_0 x : addref 0 x = x.
Proof. unfold addref. rewrite Z.add_0_r. by destruct x. Qed.

Lemma addref_addref m n x : addref m (addref n x) = addref (m + n) x.
Proof. unfold addref, set_f_ref. cbn [f_ref f_type f_readable f_writable f_pipe f_ip f_off]. f_equal. lia. Qed.

Lemma fork_files_ok fds fd np q T k :
  cpu_ok (k_cpu k) -> L_ftable ∉ held (k_cpu k) -> (np < length T)%nat -> k_ptable k = <[np := q]> T ->
  (forall f, Some f ∈ fds -> exists x, k_ftable k !! f = Some x /\ 1 <= f_ref x) ->
  drop fd (p_ofile q) = replicate (length fds) None ->
  exists F, fork_files fds fd np k =
      Ok tt (set_k_ftable F (set_k_ptable (<[np := set_p_ofile (take fd (p_ofile q) ++ fds) q]> T) k)) /\
    forall f, F !! f = addref (refs f fds) <$> k_ftable k !! f.
Proof.
  revert fd q k. induction fds as [|o fds IH]; intros fd q k Hc Hl Hnp Hpt Hfds Hdrop; cbn [fork_files].
  { exists (k_ftable k). split.
    - rewrite app_nil_r. cbn [length replicate] in Hdrop. rewrite <- (app_nil_r (take fd (p_ofile q))), <- Hdrop, take_drop.
      replace (set_p_ofile (p_ofile q) q) with q by (by destruct q). rewrite <- Hpt. by destruct k.
    - intros f. unfold refs. cbn. destruct (k_ftable k !! f); cbn; [by rewrite addref_0|done]. }
  cbn [length replicate] in Hdrop.
  assert (Hfd : p_ofile q !! fd = Some None) by (rewrite <- (Nat.add_0_r fd), <- lookup_drop, Hdrop; done).
  assert (Hds : drop (S fd) (p_ofile q) = replicate (length fds) None)
    by (rewrite <- Nat.add_1_r, <- drop_drop, Hdrop; done).
  destruct o as [f|].
  - destruct (Hfds f ltac:(by left)) as (x & Hx & H1).
    erewrite bind_ok; [|erewrite bind_ok; [|by apply (filedup_eq f x)]; by apply upd_slot].
    set (q1 := set_p_ofile (<[fd := Some f]> (p_ofile q)) q).
    destruct (IH (S fd) q1 (set_k_ptable (<[np := q1]> T) (set_k_ftable (alter (addref 1) f (k_ftable k)) k)))
      as (F & E & HF); [done|done|done|done| | |].
    + intros g Hg. destruct (Hfds g ltac:(by right)) as (y & Hy & Hy1). cbn [k_ftable set_k_ptable set_k_ftable].
      rewrite list_lookup_alter. destruct (decide (f = g)) as [<-|]; [|by exists y].
      rewrite Hy. exists (addref 1 y). split; [done|]. cbn. lia.
    + unfold q1. cbn [p_ofile set_p_ofile]. rewrite drop_insert_lt by lia. done.
    + exists F. split.
      * etrans; [exact E|]. unfold q1. cbn [p_ofile set_p_ofile].
        rewrite (take_S_r _ _ (Some f)) by (apply list_lookup_insert_eq; by eapply lookup_lt_Some).
        rewrite take_insert, decide_False by lia. rewrite <- app_assoc. reflexivity.
      * intros g. rewrite HF. cbn [k_ftable set_k_ptable set_k_ftable]. rewrite list_lookup_alter.
        unfold refs. cbn [fmap list_fmap foldr]. rewrite names_one. unfold one.
        destruct (decide (f = g)) as [<-|Hne].
        -- rewrite decide_True by done. rewrite Hx. cbn [fmap option_fmap option_map]. by rewrite addref_addref, Z.add_comm.
        -- by rewrite decide_False by done.
  - erewrite bind_ok; [|reflexivity].
    destruct (IH (S fd) q k) as (F & E & HF); try done.
    { intros g Hg. apply Hfds. by right. }
    exists F. split.
    + rewrite E. rewrite (take_S_r _ _ None) by done. by rewrite <- app_assoc.
    + intros g. rewrite HF. unfold refs. cbn [fmap list_fmap foldr]. by rewrite names_none.
Qed.

Lemma idup_eq ip k :
  cpu_ok (k_cpu k) -> L_icache ∉ held (k_cpu k) ->
  idup ip k = Ok ip (set_k_icache (alter (fun x => set_i_ref (i_ref x + 1) x) ip (k_icache k)) k).
Proof.
  intros Hc Hl. unfold idup. erewrite bind_ok; [|by apply acquire_eq]. erewrite bind_ok; [|reflexivity].
  erewrite bind_ok; [|by apply release_eq]. by destruct k.
Qed.

(** ** [fork] *)

(** The slot [old] after a successful [fork] of process [i], which is [p]. *)
Definition child (i : nat) (p old : proc) (pid kstack pgdir : Z) : proc :=
  set_p_state RUNNABLE (set_p_name (safe_name (p_name old) (cut_nul (p_name p)))
    (set_p_cwd (p_cwd p) (set_p_ofile (p_ofile p) (set_p_tf (set_tf_rax 0 (p_tf p))
      (set_p_parent (Some i) (set_p_sz (p_sz p) (set_p_pgdir pgdir (newborn pid kstack old)))))))).

(** What [fork] does after [copyuvm] has returned [pgdir]. *)
Definition fork_tail (i np : nat) (p : proc) (pgdir : Z) : M kst Z :=
  upd_proc np (set_p_pgdir pgdir);;
  if pgdir =? 0 then
    x ← proc_at np;
    kfree (p_kstack x);;
    upd_proc np (set_p_kstack 0);;
    upd_proc np (set_p_state UNUSED);;
    mret (-1)
  else
    upd_proc np (set_p_sz (p_sz p));;
    upd_proc np (set_p_parent (Some i));;
    upd_proc np (set_p_tf (set_tf_rax 0 (p_tf p)));;
    fork_files (p_ofile p) 0 np;;
    cwd ← deref "cwd" (p_cwd p);
    cwd ← idup cwd;
    upd_proc np (set_p_cwd (Some cwd));;
    upd_proc np (fun x => set_p_name (safe_name (p_name x) (cut_nul (p_name p))) x);;
    x ← proc_at np;
    upd_proc np (set_p_state RUNNABLE);;
    mret (p_pid x).

Lemma fork_unfold k k1 k2 np i p pgdir :
  allocproc k = Ok (Some np) k1 -> curproc k1 = Ok (i, p) k1 -> copyuvm (p_pgdir p) (p_sz p) k1 = Ok pgdir k2 ->
  fork k = fork_tail i np p pgdir k2.
Proof.
  intros E1 E2 E3. unfold fork. rewrite (bind_ok _ _ _ _ _ E1), (bind_ok _ _ _ _ _ E2), (bind_ok _ _ _ _ _ E3).
  reflexivity.
Qed.

Section fork_proof.
Context (k2 : kst) (i np : nat) (p old : proc) (T : list proc) (pid w pgdir : Z).
Context (Hc : cpu_ok (k_cpu k2)) (Hh : held (k_cpu k2) = []) (Hnp : (np < length T)%nat).
Context (Hpt : k_ptable k2 = <[np := newborn pid w old]> T).

Ltac slot := rewrite (bind_ok _ _ _ _ _ (upd_slot_again _ _ _ _ _ Hnp)); cbv beta.

(** What follows a successful [copyuvm]. *)
Lemma fork_copied cwd :
  pgdir <> 0 -> p_cwd p = Some cwd -> p_ofile old = replicate (length (p_ofile p)) None ->
  (forall f, Some f ∈ p_ofile p -> exists x, k_ftable k2 !! f = Some x /\ 1 <= f_ref x) ->
  exists F, (forall f, F !! f = addref (refs f (p_ofile p)) <$> k_ftable k2 !! f) /\
   fork_tail i np p pgdir k2 =
   Ok pid (set_k_icache (alter (fun x => set_i_ref (i_ref x + 1) x) cwd (k_icache k2))
     (set_k_ftable F (set_k_ptable (<[np := child i p old pid w pgdir]> T) k2))).
Proof using Hc Hh Hnp Hpt.
  intros Hpg Hcwd Hold Hfs. assert (Hlk : forall lk, lk ∉ held (k_cpu k2)) by (intros; rewrite Hh; apply not_elem_of_nil).
  set (q := set_p_tf (set_tf_rax 0 (p_tf p)) (set_p_parent (Some i) (set_p_sz (p_sz p) (set_p_pgdir pgdir (newborn pid w old))))).
  destruct (fork_files_ok (p_ofile p) 0 np q T (set_k_ptable (<[np := q]> T) k2)) as (F & E & HF);
    [done|done|done|done|done|done|].
  exists F. split; [exact HF|]. unfold fork_tail.
  rewrite (bind_ok _ _ _ _ _ (upd_slot _ _ _ _ _ Hnp Hpt)). rewrite (proj2 (Z.eqb_neq _ _)) by done. do 3 slot.
  rewrite (bind_ok _ _ _ _ _ E), Hcwd. erewrite bind_ok; [|reflexivity].
  change (set_k_ftable F (set_k_ptable _ (set_k_ptable _ _))) with (set_k_ptable (<[np := set_p_ofile (p_ofile p) q]> T) (set_k_ftable F k2)).
  erewrite bind_ok; [|apply idup_eq; [exact Hc|apply Hlk]].
  set (I := alter _ cwd _). change (set_k_icache I (set_k_ptable _ _)) with
    (set_k_ptable (<[np := set_p_ofile (p_ofile p) q]> T) (set_k_icache I (set_k_ftable F k2))).
  do 2 slot. erewrite bind_ok; [|unfold proc_at, get, mbind, M_bind; cbn [k_ptable set_k_ptable];
    rewrite list_lookup_insert_eq by done; reflexivity].
  slot. unfold child, I. rewrite Hcwd. reflexivity.
Qed.

(** What follows a [copyuvm] without memory. *)
Lemma fork_failed pml4 t fl :
  vm_ok k2 pml4 t fl -> fresh k2 t fl w ->
  exists k', fork_tail i np p 0 k2 =
    Ok (-1) k' /\ pframe k2 k' /\ vm_ok k' pml4 t (w :: fl) /\ same_user t k2 k' /\
    k_ptable k' = <[np := set_p_state UNUSED (set_p_kstack 0 (set_p_pgdir 0 (newborn pid w old)))]> T /\
    k_nextpid k' = k_nextpid k2 /\ k_ftable k' = k_ftable k2 /\ k_icache k' = k_icache k2.
Proof using Hc Hh Hnp Hpt.
  intros Hok Hw. unfold fork_tail. rewrite (bind_ok _ _ _ _ _ (upd_slot _ _ _ _ _ Hnp Hpt)).
  rewrite Z.eqb_refl.
  erewrite bind_ok; [|unfold proc_at, get, mbind, M_bind; cbn [k_ptable set_k_ptable];
    rewrite list_lookup_insert_eq by done; reflexivity].
  set (k3 := set_k_ptable _ k2). assert (Hok3 : vm_ok k3 pml4 t fl) by (by apply (vm_ok_tables k2)).
  destruct (vm_kfree k3 pml4 t fl w Hok3 Hw) as (k4 & E4 & Hok4 & Hst & _).
  change (p_kstack _) with w. rewrite (bind_ok _ _ _ _ _ E4).
  pose proof (st_mem _ _ _ _ _ Hst) as Ho.
  assert (Hpt4 : k_ptable k4 = <[np := set_p_pgdir 0 (newborn pid w old)]> T) by (by rewrite Ho).
  rewrite (bind_ok _ _ _ _ _ (upd_slot _ _ _ _ _ Hnp Hpt4)). slot.
  eexists. split; [reflexivity|]. split_and!.
  - unfold pframe. rewrite Ho. unfold k3. by destruct k2.
  - by apply (vm_ok_tables k4).
  - intros x Hx. exact (step_user _ _ _ _ _ x Hst Hx (fun H => H)).
  - done.
  - cbn. by rewrite Ho.
  - cbn. by rewrite Ho.
  - cbn. by rewrite Ho.
Qed.
End fork_proof.

(** What the invariant says about the caller and the slot. *)
Lemma fork_facts k i p np old :
  kinv k -> k_ptable k !! i = Some p -> p_state p = RUNNING ->
  find_unused (k_ptable k) 0 = Some np -> k_ptable k !! np = Some old ->
  np <> i /\ p_ofile old = replicate (length (p_ofile p)) None /\
  forall f, Some f ∈ p_ofile p -> exists x, k_ftable k !! f = Some x /\ 1 <= f_ref x.
Proof.
  intros Hk Hp Hrun Hnp Hold. apply find_unused_spec in Hnp as (q & Hq & Hs & _). rewrite Nat.sub_0_r in Hq.
  assert (q = old) as -> by congruence.
  assert (Hlook : forall j x, k_ptable k !! j = Some x -> v_procs (view_of k) !! j = Some (pview x))
    by (intros j x Hx; cbn; by rewrite list_lookup_fmap, Hx).
  pose proof (vi_len _ _ Hk i _ (Hlook _ _ Hp)) as Hlen. cbn [pview pv_ofile] in Hlen. split; [|split].
  - intros ->. congruence.
  - assert (pview old = clean) as E.
    { eapply vinv_clean; [exact Hk|by apply Hlook|]. cbn. unfold pclass. by rewrite Hs. }
    rewrite Hlen. by injection E.
  - intros f [fd Hfd]%list_elem_of_lookup. destruct (vinv_named _ _ _ fd f Hk (Hlook _ _ Hp) Hfd) as (y & Hy & H1).
    cbn in Hy. rewrite list_lookup_fmap in Hy. destruct (k_ftable k !! f) as [x|]; [|discriminate]. injection Hy as <-.
    by exists x.
Qed.

(** [fork] up to [copyuvm]. *)
Lemma fork_start k i p np old t w fl :
  cpu_ok (k_cpu k) -> held (k_cpu k) = [] -> k_proc k = Some i -> k_ptable k !! i = Some p -> np <> i ->
  find_unused (k_ptable k) 0 = Some np -> k_ptable k !! np = Some old ->
  vm_ok k (p_pgdir p) t (w :: fl) -> fl <> [] -> 0 <= p_sz p < 2 ^ 32 -> mapped t PGSIZE (p_sz p) ->
  exists r k2 fl2, fork k = fork_tail i np p r k2 /\ pframe k k2 /\ vm_ok k2 (p_pgdir p) t fl2 /\ fresh k2 t fl2 w /\
    same_user t k k2 /\ k_ptable k2 = <[np := newborn (k_nextpid k) w old]> (k_ptable k) /\
    k_nextpid k2 = i32 (k_nextpid k + 1) /\ k_ftable k2 = k_ftable k /\ k_icache k2 = k_icache k /\
    ((r <> 0 /\ exists td, vm_ok k2 r td fl2 /\ (forall q q' v, t !! q = Some v -> td !! q' <> Some v) /\
        (forall x, PGSIZE <= x < PGROUNDUP (p_sz p) -> user_byte k2 td x = user_byte k t x) /\
        (forall x, 0 <= x < 2 ^ 47 -> ~ (PGSIZE <= x < PGROUNDUP (p_sz p)) -> user_byte k2 td x = None) /\
        (forall x, owned td fl2 x <-> x ∈ fl)) \/
     (r = 0 /\ Z.of_nat (length fl) <= 4 * npages PGSIZE (p_sz p) /\ (forall x, x ∈ fl2 -> x ∈ fl) /\
        exists y, forall x, x ∈ fl -> x ∈ fl2 \/ x = y)).
Proof.
  intros Hc Hh Hi Hp Hne Hnp Hold Hok Hfl Hsz Hmap.
  destruct (allocproc_ok k np old (p_pgdir p) t w fl Hc) as (k1 & E1 & Hf1 & Hok1 & Hw1 & Hm1 & Hpt1 & Hn1 & Hft1 & Hic1);
    [rewrite Hh; apply not_elem_of_nil|done|done|done|].
  assert (Hp1 : k_ptable k1 !! i = Some p) by (by rewrite Hpt1, list_lookup_insert_ne).
  assert (Hi1 : k_proc k1 = Some i) by (by rewrite (pframe_proc _ _ Hf1)).
  destruct (copyuvm_run k1 (p_pgdir p) t fl (p_sz p)) as (r & k2 & fl2 & E2 & Ho2 & Hok2 & Hus2 & Hres); [done..|].
  exists r, k2, fl2. split; [by eapply fork_unfold; [exact E1|apply curproc_eq|]|].
  assert (Htab : k_ptable k2 = k_ptable k1 /\ k_nextpid k2 = k_nextpid k1 /\ k_ftable k2 = k_ftable k1 /\
    k_icache k2 = k_icache k1 /\ k_end k2 = k_end k1) by (rewrite Ho2; done).
  destruct Htab as (Hpt2 & Hn2 & Hft2 & Hic2 & He2).
  assert (Hub : forall x, user_byte k1 t x = user_byte k t x) by (intros; by apply user_byte_mem).
  split_and!; [|done| | |congruence|congruence|congruence|congruence|].
  - eapply pframe_trans; [exact Hf1|]. unfold pframe. rewrite Ho2. by destruct k1.
  - destruct Hw1 as [Hw1 Hw2]. split; [by rewrite He2|]. intros [Hin|Hin]; apply Hw2; [left|by right].
    destruct Hres as [(_ & td & _ & _ & _ & _ & How)|(_ & _ & Hsub & _)]; [|by apply Hsub].
    apply How. by left.
  - intros x Hx. destruct (Hus2 x Hx) as [-> ->]. split; [by apply mapping_mem|apply Hub].
  - destruct Hres as [(Hr & td & Htd & Hdis & Hin & Hout & How)|(-> & Hlen & Hlost)]; [left|by right].
    split; [done|]. exists td. split_and!; [done|done| |done|done]. intros x Hx. rewrite <- Hub. by apply Hin.
Qed.

(** A child was made: it is in slot [np], with the page [w] for its kernel stack and the rest of
    its pages from [fl]. *)
Definition fork_child (k : kst) (i : nat) (p : proc) (np : nat) (old : proc) (t : gmap (list Z) Z) (w : Z) (fl : list Z)
    (cwd : nat) (k' : kst) (fl' : list Z) : Prop :=
  exists pgdir td, fork k = Ok (k_nextpid k) k' /\
    k_ptable k' = <[np := child i p old (k_nextpid k) w pgdir]> (k_ptable k) /\
    vm_ok k' pgdir td fl' /\ (forall q q' v, t !! q = Some v -> td !! q' <> Some v) /\
    (forall x, PGSIZE <= x < PGROUNDUP (p_sz p) -> user_byte k' td x = user_byte k t x) /\
    (forall x, 0 <= x < 2 ^ 47 -> ~ (PGSIZE <= x < PGROUNDUP (p_sz p)) -> user_byte k' td x = None) /\
    (forall x, owned td fl' x <-> x ∈ fl) /\
    (forall f, k_ftable k' !! f = addref (refs f (p_ofile p)) <$> k_ftable k !! f) /\
    k_icache k' = alter (fun x => set_i_ref (i_ref x + 1) x) cwd (k_icache k).

(** The call failed and slot [np] is free again. *)
Definition fork_undone (k : kst) (np : nat) (k' : kst) : Prop :=
  fork k = Ok (-1) k' /\ (exists q, k_ptable k' = <[np := q]> (k_ptable k) /\ p_state q = UNUSED) /\
  k_ftable k' = k_ftable k /\ k_icache k' = k_icache k.

(** What of the kernel and of the caller stays in either case. *)
Definition fork_frame (k : kst) (p : proc) (t : gmap (list Z) Z) (k' : kst) (fl' : list Z) : Prop :=
  pframe k k' /\ vm_ok k' (p_pgdir p) t fl' /\ same_user t k k' /\ k_nextpid k' = i32 (k_nextpid k + 1).

Section fork_cases.
Context (k : kst) (i : nat) (p : proc) (t : gmap (list Z) Z) (cwd np : nat) (old : proc).
Context (Hc : cpu_ok (k_cpu k)) (Hh : held (k_cpu k) = []) (Hk : kinv k) (Hi : k_proc k = Some i).
Context (Hp : k_ptable k !! i = Some p) (Hrun : p_state p = RUNNING) (Hcwd : p_cwd p = Some cwd).
Context (Hsz : 0 <= p_sz p < 2 ^ 32) (Hmap : mapped t PGSIZE (p_sz p)).
Context (Hnp : find_unused (k_ptable k) 0 = Some np) (Hold : k_ptable k !! np = Some old).

Lemma fork_no_page : vm_ok k (p_pgdir p) t [] -> exists k', fork_frame k p t k' [] /\ fork_undone k np k'.
Proof using Hc Hh Hnp Hold.
  intros Hok. destruct (allocproc_no_page k np old (p_pgdir p) t Hc) as (k' & E & Hf & Hok' & Hm & Hpt & Hn & Hft & Hic);
    [rewrite Hh; apply not_elem_of_nil|done|done|done|].
  exists k'. split; [split_and!; try done|].
  - intros x _. split; [by apply mapping_mem|by apply user_byte_mem].
  - split_and!; [unfold fork; by rewrite (bind_ok _ _ _ _ _ E)|by eexists|done|done].
Qed.

Lemma fork_one_page w : vm_ok k (p_pgdir p) t [w] -> fork k = Err (EFault "null pointer").
Proof using Hc Hh Hi Hp Hrun Hk Hnp Hold.
  intros Hok. destruct (fork_facts k i p np old Hk Hp Hrun Hnp Hold) as (Hne & _ & _).
  destruct (allocproc_ok k np old (p_pgdir p) t w [] Hc) as (k1 & E1 & Hf1 & Hok1 & _ & _ & Hpt1 & _);
    [rewrite Hh; apply not_elem_of_nil|done|done|done|].
  unfold fork. rewrite (bind_ok _ _ _ _ _ E1).
  rewrite (bind_ok _ _ _ (i, p) k1)
    by (apply curproc_eq; [by rewrite (pframe_proc _ _ Hf1)|by rewrite Hpt1, list_lookup_insert_ne]).
  unfold mbind, M_bind. by rewrite (copyuvm_none _ _ _ _ Hok1).
Qed.

Lemma fork_pages w fl : vm_ok k (p_pgdir p) t (w :: fl) -> fl <> [] ->
  exists k' fl', fork_frame k p t k' fl' /\
    (fork_child k i p np old t w fl cwd k' fl' \/
     fork_undone k np k' /\ Z.of_nat (length fl) <= 4 * npages PGSIZE (p_sz p) /\
       (forall x, x ∈ fl' -> x ∈ w :: fl) /\ w ∈ fl' /\ exists y, forall x, x ∈ fl -> x ∈ fl' \/ x = y).
Proof using Hc Hh Hk Hi Hp Hrun Hcwd Hsz Hmap Hnp Hold.
  intros Hok Hfl. destruct (fork_facts k i p np old Hk Hp Hrun Hnp Hold) as (Hne & Ho & Hfs).
  pose proof (lookup_lt_Some _ _ _ Hold) as Hl.
  destruct (fork_start k i p np old t w fl) as (r & k2 & fl2 & E & Hf2 & Hok2 & Hw2 & Hsu & Hpt2 & Hn2 & Hft2 & Hic2 & Hres);
    [done..|].
  assert (Hc2 : cpu_ok (k_cpu k2)) by (by rewrite (pframe_cpu _ _ Hf2)).
  assert (Hh2 : held (k_cpu k2) = []) by (by rewrite (pframe_cpu _ _ Hf2)).
  destruct Hres as [(Hr & td & Htd & Hdis & Hin & Hout & How)|(-> & Hlen & Hsub & y & Hlost)].
  - destruct (fork_copied k2 i np p old (k_ptable k) (k_nextpid k) w r Hc2 Hh2 Hl Hpt2 cwd) as (F & HF & E2);
      [done|done|done|by rewrite Hft2|].
    set (k3 := set_k_icache _ _) in E2. exists k3, fl2. split; [split_and!; [|by apply (vm_ok_tables k2)|exact Hsu|exact Hn2]|left].
    { eapply pframe_trans; [exact Hf2|]. unfold pframe, k3. by destruct k2. }
    exists r, td. split_and!; [by rewrite E|done|by apply (vm_ok_tables k2)|done|exact Hin|exact Hout|exact How| |].
    + intros f. rewrite <- Hft2. apply HF.
    + cbn. by rewrite Hic2.
  - destruct (fork_failed k2 i np p old (k_ptable k) (k_nextpid k) w Hc2 Hh2 Hl Hpt2 (p_pgdir p) t fl2)
      as (k' & E2 & Hf3 & Hok3 & Hsu3 & Hpt3 & Hn3 & Hft3 & Hic3); [done|done|].
    exists k', (w :: fl2). split; [split_and!; [by eapply pframe_trans|done| |congruence]|right].
    { intros x Hx. destruct (Hsu3 x Hx) as [-> ->]. by apply Hsu. }
    split_and!; [split_and!; [by rewrite E|by eexists|congruence|congruence]|done| |by left|].
    + intros x [->|Hx]%elem_of_cons; [by left|]. right. by apply Hsub.
    + exists y. intros x [?|?]%Hlost; [left; by right|by right].
Qed.
End fork_cases.

(** C7: [fork] makes a copy of the calling process.  Without a free slot it returns -1 and
    changes nothing.  With a free slot and at least two free pages, it returns the next process
    number and leaves in the slot a runnable child of the caller with the caller's size,
    registers (but 0 as the result), open files, directory and name; the child's address space
    is its own, made of free pages, shares no page with the caller's, and from the first page
    to the size reads the same bytes; each open file has one more reference per descriptor,
    the directory one more; the caller's slot, mappings and bytes are as before.  Or, if the
    memory does not suffice, it returns -1 and the slot is free again, with no file or inode
    touched, the kernel stack's page back on the free list and at most one page lost there (by
    [copyuvm]).  Without any free page it returns -1 with the slot free again.  With exactly one
    free page, which the kernel stack takes, it faults in [setupkvm]. *)
Theorem fork_spec k i p t fl cwd :
  cpu_ok (k_cpu k) -> held (k_cpu k) = [] -> kinv k -> k_proc k = Some i -> k_ptable k !! i = Some p ->
  p_state p = RUNNING -> p_cwd p = Some cwd ->
  vm_ok k (p_pgdir p) t fl -> 0 <= p_sz p < 2 ^ 32 -> mapped t PGSIZE (p_sz p) ->
  match find_unused (k_ptable k) 0, fl with
  | None, _ => fork k = Ok (-1) k
  | Some np, [] => exists k', fork_frame k p t k' [] /\ fork_undone k np k'
  | Some np, [w] => fork k = Err (EFault "null pointer")
  | Some np, w :: fl => exists old k' fl', k_ptable k !! np = Some old /\ fork_frame k p t k' fl' /\
      (fork_child k i p np old t w fl cwd k' fl' \/
       fork_undone k np k' /\ Z.of_nat (length fl) <= 4 * npages PGSIZE (p_sz p) /\
         (forall x, x ∈ fl' -> x ∈ w :: fl) /\ w ∈ fl' /\ exists y, forall x, x ∈ fl -> x ∈ fl' \/ x = y)
  end.
Proof.
  intros Hc Hh Hk Hi Hp Hrun Hcwd Hok Hsz Hmap. destruct (find_unused (k_ptable k) 0) as [np|] eqn:Hnp.
  2: { unfold fork. rewrite (bind_ok _ _ _ _ _ (allocproc_no_slot k Hc ltac:(rewrite Hh; apply not_elem_of_nil) Hnp)).
       by destruct fl as [|? []]. }
  pose proof Hnp as (old & Hold & _)%find_unused_spec. rewrite Nat.sub_0_r in Hold.
  destruct fl as [|w [|w' fl]]; [by eapply fork_no_page|by eapply fork_one_page|].
  destruct (fork_pages k i p t cwd np old Hc Hh Hk Hi Hp Hrun Hcwd Hsz Hmap Hnp Hold w (w' :: fl) Hok ltac:(done)) as (k' & fl' & H).
  by exists old, k', fl'.
Qed.

(** A process with an open file and a directory, which has no page mapped yet. *)
Definition demo_parent : proc :=
  set_p_pgdir (demo_pg 0) (set_p_sz PGSIZE (set_p_cwd (Some O)
    (set_p_state RUNNING (set_p_ofile (Some O :: replicate 15 None) zero_proc)))).
Definition demo_fork : kst :=
  set_k_ftable (k_ftable demo_tables) (set_k_ptable (demo_parent :: replicate 63 zero_proc)
    (set_k_initproc (Some O) (set_k_proc (Some O) demo_vm))).

Lemma fork_spec_witness :
  exists k' q, fork demo_fork = Ok 1 k' /\ k_ptable k' !! 1%nat = Some q /\ p_state q = RUNNABLE /\
    p_parent q = Some O /\ (f_ref <$> k_ftable k' !! 0%nat) = Some 2.
Proof.
  assert (Hok : vm_ok demo_fork (demo_pg 0) demo_tree demo_list) by
    exact (vm_ok_tables demo_vm demo_fork _ _ _ demo_vm_ok eq_refl eq_refl eq_refl eq_refl).
  pose proof (fork_spec demo_fork O demo_parent demo_tree demo_list O) as H.
  change (find_unused (k_ptable demo_fork) 0) with (Some 1%nat) in H.
  destruct H as (old & k' & fl' & Hold & _ & H).
  - unfold cpu_ok; cbn. repeat split; try lia; try done; constructor.
  - reflexivity.
  - exact demo_kinv.
  - reflexivity.
  - reflexivity.
  - reflexivity.
  - reflexivity.
  - exact Hok.
  - cbn. unfold PGSIZE. lia.
  - intros va _ Hva. change (p_sz demo_parent) with PGSIZE in Hva. lia.
  - destruct H as [(pgdir & td & E & Ept & _ & _ & _ & _ & _ & Hf & _)|(_ & Hlen & _)].
    + exists k', (child O demo_parent old 1 (demo_pg 1) pgdir). split; [exact E|]. rewrite Ept, (Hf O). repeat split.
    + change (npages PGSIZE (p_sz demo_parent)) with 0 in Hlen. cbn in Hlen. lia.
Defined.

(** ** [wait] *)

(** The slot of a child that [wait] has reaped. *)
Definition reaped (p : proc) : proc :=
  set_p_state UNUSED (set_p_killed false (set_p_name (<[O := 0]> (p_name p))
    (set_p_parent None (set_p_pid 0 (set_p_kstack 0 p))))).

(** [wait] stops the process [i] on its own channel. *)
Lemma wait_without_zombie k i p :
  cpu_ok (k_cpu k) -> ncli (k_cpu k) = 0 -> held (k_cpu k) = [] -> k_proc k = Some i -> k_ptable k !! i = Some p ->
  sleep (Ch_proc i) L_ptable (set_k_cpu (lock_cpu L_ptable (k_cpu k)) k) = Blocked (asleep (Ch_proc i) i (k_cpu k) k).
Proof.
  intros (Hn & Hi & He & Hd) Hn0 Hh Hp Hpi. unfold sleep. rewrite sleep_run.
  erewrite bind_ok; [|unfold get, mbind, M_bind; cbn; by rewrite Hp].
  rewrite decide_True by done. erewrite bind_ok by reflexivity.
  assert (Ek : set_k_cpu (lock_cpu L_ptable (k_cpu k)) k =
               set_k_ptable (k_ptable k) (set_k_cpu (cpu_switching (k_cpu k)) k)).
  { unfold lock_cpu, cpu_switching. rewrite Hn0, Hh. by destruct k. }
  rewrite Ek. erewrite bind_ok by (by eapply (sleep_mark_eq (Ch_proc i) (k_cpu k) k i p)).
  erewrite bind_ok; [|eapply (sched_enter_eq (k_cpu k) k i); [done|by rewrite list_lookup_alter_eq, Hpi|done]].
  unfold swtch_to_scheduler, asleep. rewrite alter_alter. reflexivity.
Qed.

Lemma wait_scan_none ps n i h :
  Forall (fun q => p_parent q = Some i -> p_state q <> ZOMBIE) ps ->
  wait_scan ps n i h = (None, h || bool_decide (Exists (fun q => p_parent q = Some i) ps)).
Proof.
  intros Hps. revert n h. induction Hps as [|q ps Hq _ IH]; intros n h; cbn [wait_scan].
  { rewrite bool_decide_false by (by intros ?%Exists_nil). by rewrite orb_false_r. }
  case_decide as Epa.
  - rewrite decide_False by auto. rewrite IH. rewrite (bool_decide_true (Exists _ (q :: ps))) by (by left).
    by rewrite orb_true_r.
  - rewrite IH. do 2 f_equal. apply bool_decide_ext. rewrite Exists_cons. naive_solver.
Qed.

Lemma wait_scan_first ps n i h j q :
  ps !! j = Some q -> p_parent q = Some i -> p_state q = ZOMBIE ->
  (forall j' q', (j' < j)%nat -> ps !! j' = Some q' -> p_parent q' = Some i -> p_state q' <> ZOMBIE) ->
  wait_scan ps n i h = (Some (n + j)%nat, true).
Proof.
  revert n h j. induction ps as [|p ps IH]; intros n h j Hq Hpa Hz Hbef; [discriminate|]. cbn [wait_scan].
  destruct j as [|j].
  - injection Hq as ->. rewrite !decide_True by done. by rewrite Nat.add_0_r.
  - assert (Hp : p_parent p = Some i -> p_state p <> ZOMBIE) by (intros; by apply (Hbef O); [lia|..]).
    assert (Hrec : forall b, wait_scan ps (S n) i b = (Some (n + S j)%nat, true)).
    { intros b. rewrite (IH (S n) b j); [f_equal; f_equal; lia|done|done|done|].
      intros j' q' Hj'. apply (Hbef (S j')). lia. }
    case_decide as Epa; [rewrite decide_False by auto|]; apply Hrec.
Qed.

(** The memory system does not depend on which locks are held, if not the allocator's. *)
Lemma vm_ok_relock c k pml4 t fl :
  vm_ok k pml4 t fl -> cpu_ok c -> L_kmem ∉ held c -> vm_ok (set_k_cpu c k) pml4 t fl.
Proof. intros [[Fl Fn Fo _ _] He Hr Hp Hi Hu Hen] Hc Hl. by split; [split|..]. Qed.

Lemma kfree_ok k pml4 t fl w :
  vm_ok k pml4 t fl -> fresh k t fl w ->
  exists k', kfree w k = Ok tt k' /\ vm_ok k' pml4 t (w :: fl) /\ only_mem k k' /\
    forall a, ~ (w <= a < w + PGSIZE) -> k_mem k' a = k_mem k a.
Proof.
  intros Hok Hw. destruct (vm_kfree k pml4 t fl w Hok Hw) as (k' & E & Hok' & Hst & _). exists k'.
  split_and!; [done|done|by destruct Hst|]. intros a Ha.
  rewrite (kfree_eq k fl w (vo_free _ _ _ _ Hok) (proj1 Hw)) in E. injection E as <-. cbn. apply freed_other. lia.
Qed.

(** The code of [wait] that reaps child [j], with the lock held. *)
Lemma wait_reaps k c j q t fl :
  k_cpu k = lock_cpu L_ptable c -> cpu_ok c -> held c = [] -> k_ptable k !! j = Some q ->
  vm_ok k (p_pgdir q) t fl -> fresh k t fl (p_kstack q) ->
  exists k' fl', (kfree (p_kstack q);; upd_proc j (set_p_kstack 0);; freevm (p_pgdir q);; upd_proc j (set_p_pid 0);;
      upd_proc j (set_p_parent None);; upd_proc j (fun x => set_p_name (<[O := 0]> (p_name x)) x);;
      upd_proc j (set_p_killed false);; upd_proc j (set_p_state UNUSED);; release L_ptable;; mret (p_pid q)) k =
      Ok (p_pid q) (set_k_cpu c (set_k_ptable (<[j := reaped q]> (k_ptable k)) k')) /\
    only_mem k k' /\ free_pages k' fl' /\
    (forall x, x ∈ fl' <-> x ∈ fl \/ x = p_kstack q \/ exists a, t !! a = Some x) /\
    (forall a, ~ (p_kstack q <= a < p_kstack q + PGSIZE) ->
       (forall b w, t !! b = Some w -> ~ (w <= a < w + PGSIZE)) -> k_mem k' a = k_mem k a).
Proof.
  intros Hcpu Hc Hh Hq Hok Hst. pose proof (lookup_lt_Some _ _ _ Hq) as Hl.
  destruct (kfree_ok k (p_pgdir q) t fl (p_kstack q) Hok Hst) as (k1 & E1 & Hok1 & Ho1 & Hm1).
  rewrite (bind_ok _ _ _ _ _ E1).
  assert (Hpt1 : k_ptable k1 = <[j := q]> (k_ptable k)) by (rewrite list_insert_id by done; by rewrite Ho1).
  rewrite (bind_ok _ _ _ _ _ (upd_slot _ _ _ _ _ Hl Hpt1)). set (k2 := set_k_ptable _ k1).
  assert (Hok2 : vm_ok k2 (p_pgdir q) t (p_kstack q :: fl)) by (by apply (vm_ok_tables k1)).
  destruct (freevm_ok Hok2) as (k3 & fl3 & E3 & Ho3 & Hf3 & Hx3 & Hm3). rewrite (bind_ok _ _ _ _ _ E3).
  assert (Hpt3 : k_ptable k3 = <[j := set_p_kstack 0 q]> (k_ptable k)) by (by rewrite Ho3).
  rewrite (bind_ok _ _ _ _ _ (upd_slot _ _ _ _ _ Hl Hpt3)).
  do 4 (rewrite (bind_ok _ _ _ _ _ (upd_slot_again _ _ _ _ _ Hl)); cbv beta).
  erewrite bind_ok; [|apply (release_eq L_ptable c); [done|rewrite Hh; apply not_elem_of_nil|]].
  2: { transitivity (k_cpu k2); [by cbn; rewrite Ho3|]. rewrite <- Hcpu. unfold k2. cbn. by rewrite Ho1. }
  exists (set_k_ptable (k_ptable k) k3), fl3. split_and!.
  - reflexivity.
  - unfold only_mem. rewrite Ho3. unfold k2. rewrite Ho1. by destruct k.
  - destruct Hf3. by split.
  - intros x. rewrite Hx3, owned_cons. unfold owned. naive_solver.
  - intros a Ha Hb. etrans; [exact (Hm3 a Hb)|]. by apply Hm1.
Qed.

(** C9: [wait] on all its branches.  If the caller has a zombie child, it returns the number
    of the first one in the table, frees its slot and changes no other; the allocator gets
    back exactly the child's kernel stack, its user pages and its page tables, and no other
    memory changes.  If the caller has no child, or has none that is a zombie and is itself
    killed, it returns -1 and changes nothing.  Otherwise it sleeps on its own channel, with
    [ptable.lock] held until the scheduler has the CPU. *)
Theorem wait_spec k i p :
  cpu_ok (k_cpu k) -> ncli (k_cpu k) = 0 -> held (k_cpu k) = [] -> k_proc k = Some i -> k_ptable k !! i = Some p ->
  (forall j q t fl, k_ptable k !! j = Some q -> p_parent q = Some i -> p_state q = ZOMBIE ->
     (forall j' q', (j' < j)%nat -> k_ptable k !! j' = Some q' -> p_parent q' = Some i -> p_state q' <> ZOMBIE) ->
     vm_ok k (p_pgdir q) t fl -> fresh k t fl (p_kstack q) ->
     exists k' fl', wait k = Ok (p_pid q) (set_k_ptable (<[j := reaped q]> (k_ptable k)) k') /\
       only_mem k k' /\ free_pages k' fl' /\
       (forall x, x ∈ fl' <-> x ∈ fl \/ x = p_kstack q \/ exists a, t !! a = Some x) /\
       (forall a, ~ (p_kstack q <= a < p_kstack q + PGSIZE) ->
          (forall b w, t !! b = Some w -> ~ (w <= a < w + PGSIZE)) -> k_mem k' a = k_mem k a)) /\
  (Forall (fun q => p_parent q = Some i -> p_state q <> ZOMBIE) (k_ptable k) ->
     let kids := Exists (fun q => p_parent q = Some i) (k_ptable k) in
     (~ kids \/ p_killed p = true -> wait k = Ok (-1) k) /\
     (kids -> p_killed p = false -> wait k = Blocked (asleep (Ch_proc i) i (k_cpu k) k))).
Proof.
  intros Hc Hn Hh Hi Hp. assert (Hl : forall lk, lk ∉ held (k_cpu k)) by (intros; rewrite Hh; apply not_elem_of_nil).
  set (k1 := set_k_cpu (lock_cpu L_ptable (k_cpu k)) k).
  assert (Hrel : release L_ptable k1 = Ok tt k).
  { rewrite (release_eq L_ptable (k_cpu k)) by done. by destruct k. }
  unfold wait. rewrite (bind_ok _ _ _ _ _ (acquire_eq L_ptable k (Hl _))).
  rewrite (bind_ok _ _ _ _ _ (curproc_eq k1 i p Hi Hp)). erewrite bind_ok; [|reflexivity].
  change (k_ptable (set_k_cpu _ _)) with (k_ptable k). split.
  - intros j q t fl Hq Hpa Hz Hbef Hok Hst. rewrite (wait_scan_first _ _ _ _ j q) by done. cbn [Nat.add].
    assert (Hat : proc_at j k1 = Ok q k1)
      by (unfold proc_at, get, mbind, M_bind; change (k_ptable k1) with (k_ptable k); by rewrite Hq).
    rewrite (bind_ok _ _ _ _ _ Hat).
    assert (Hok1 : vm_ok k1 (p_pgdir q) t fl).
    { apply vm_ok_relock; [done|by apply lock_cpu_ok|]. cbn. apply not_elem_of_cons. by split. }
    destruct (wait_reaps k1 (k_cpu k) j q t fl) as (k' & fl' & E & Ho & Hf & Hx & Hm); [done..|].
    exists (set_k_cpu (k_cpu k) k'), fl'. split_and!; [exact E| | |exact Hx|exact Hm].
    + unfold only_mem. rewrite Ho. unfold k1. by destruct k.
    + destruct Hf as [F1 F2 F3 _ _]. by split.
  - intros Hnz. rewrite wait_scan_none by done. cbn [orb]. split.
    + intros Hor. replace (negb (bool_decide _) || p_killed p) with true.
      { by rewrite (bind_ok _ _ _ _ _ Hrel). }
      symmetry. destruct Hor as [Hor| ->]; [rewrite bool_decide_false by done; done|by rewrite orb_true_r].
    + intros Hk Hkl. rewrite bool_decide_true, Hkl by done. cbn [negb orb]. apply bind_blocked.
      by apply (wait_without_zombie k i p).
Qed.

(** The parent of a zombie. *)
Definition demo_zombie : proc :=
  set_p_pgdir (demo_pg 0) (set_p_kstack (demo_pg 10) (set_p_state ZOMBIE (set_p_parent (Some O) (set_p_pid 7 zero_proc)))).
Definition demo_wait : kst :=
  set_k_ptable (set_p_state RUNNING zero_proc :: demo_zombie :: replicate 62 zero_proc)
    (set_k_proc (Some O) demo_vm).

Lemma wait_spec_witness :
  exists k' fl', wait demo_wait = Ok 7 k' /\ (p_state <$> k_ptable k' !! 1%nat) = Some UNUSED /\
    free_pages k' fl' /\ demo_pg 10 ∈ fl' /\ demo_pg 0 ∈ fl'.
Proof.
  assert (Hok : vm_ok demo_wait (demo_pg 0) demo_tree demo_list) by
    exact (vm_ok_tables demo_vm demo_wait _ _ _ demo_vm_ok eq_refl eq_refl eq_refl eq_refl).
  assert (Hst : fresh demo_wait demo_tree demo_list (demo_pg 10)).
  { split; [unfold page_ok; repeat split; vm_compute; congruence|].
    intros [Hin|(a & Ha)].
    - revert Hin. apply (bool_decide_unpack _). vm_compute. exact I.
    - unfold demo_tree in Ha. apply lookup_singleton_Some in Ha as [_ Ha]. vm_compute in Ha. discriminate Ha. }
  destruct (wait_spec demo_wait O (set_p_state RUNNING zero_proc)) as [H _].
  - unfold cpu_ok; cbn. repeat split; try lia; try done; constructor.
  - reflexivity.
  - reflexivity.
  - reflexivity.
  - reflexivity.
  - destruct (H 1%nat demo_zombie demo_tree demo_list eq_refl eq_refl eq_refl) as (k' & fl' & E & _ & Hf & Hx & _).
    + intros [|j'] q' Hj' Hq' Hpa; [|lia]. injection Hq' as <-. discriminate Hpa.
    + exact Hok.
    + exact Hst.
    + eexists _, fl'. split; [exact E|]. split; [reflexivity|]. split; [destruct Hf; by split|]. split.
      * apply Hx. right. left. reflexivity.
      * apply Hx. right. right. exists []. reflexivity.
Defined.
