(* ===== verification/ExecSpec.v ===== *)
(** The second half of [exec] ([src/exec.c], from the stack pages on): the stack that a new
    program finds, the change to the new address space, and what is left of it on failure. *)
From Stdlib Require Import ZArith Lia.
From stdpp Require Import base gmap sets strings numbers list.
From S2P Require Import Prelude Strings State Spinlock Sched Fs Dir Kalloc Vm VmSpec VmUser VmFork Proc Exec ProcSpec.

Local Open Scope Z_scope.

(** ** [clearpteu] *)
Definition NOT_U : Z := u64 (Z.lnot PTE_U).

Lemma clear_entry e : has (Z.land e NOT_U) PTE_P = has e PTE_P /\ PTE_ADDR (Z.land e NOT_U) = PTE_ADDR e /\
  has (Z.land e NOT_U) PTE_U = false /\ 0 <= Z.land e NOT_U < 2 ^ 64.
Proof.
  assert (Hr : 0 <= Z.land e NOT_U < 2 ^ 64).
  { change NOT_U with (Z.land NOT_U (Z.ones 64)). rewrite Z.land_assoc, Z.land_ones by lia. by apply Z.mod_pos_bound. }
  unfold has, PTE_ADDR. rewrite <- !Z.land_assoc. split; [done|]. split; [done|]. split; [|done].
  change (Z.land NOT_U PTE_U) with 0. by rewrite Z.land_0_r.
Qed.

(** The page at [va] is no longer the user's; all else stays, and only the page table of
    [va] is written. *)
Lemma clearpteu_ok k pml4 t fl va w :
  vm_ok k pml4 t fl -> user_page va -> t !! page_path va = Some w ->
  exists k', clearpteu pml4 va k = Ok tt k' /\ vm_ok k' pml4 t fl /\ only_mem k k' /\
    has (pte k' t (page_path va)) PTE_U = false /\
    (forall q, path_ok q -> q <> page_path va -> pte k' t q = pte k t q) /\
    exists v, t !! table_path va = Some v /\ forall a, ~ (v <= a < v + PGSIZE) -> k_mem k' a = k_mem k a.
Proof.
  intros Hok [Hva Hm] Hw. pose proof (vo_up _ _ _ _ Hok _ _ _ Hw) as [v Hv]. pose proof (user_path va Hva) as Hp.
  destruct (vo_page _ _ _ _ Hok _ _ Hv) as (_ & Hpos%page_ok_pos & Hvf). destruct (path_ok_tail _ _ Hp) as (_ & Hi & _).
  set (e := load 8 (k_mem k) (v + 8 * PTX va)). set (e' := Z.land e NOT_U).
  destruct (clear_entry e) as (C1 & C2 & C3 & C4). fold e' in C1, C2, C3, C4.
  set (k' := set_k_mem (store 8 (k_mem k) (v + 8 * PTX va) e') k). exists k'.
  assert (El : load 8 (k_mem k') (v + 8 * PTX va) = e').
  { cbn [k' k_mem set_k_mem]. rewrite load_store_same. by apply Z.mod_small. }
  assert (Ho : forall j q x, t !! q = Some x -> path_ok (j :: q) -> j :: q <> page_path va ->
    load 8 (k_mem k') (x + 8 * j) = load 8 (k_mem k) (x + 8 * j)).
  { intros j q x Hx Hjq Hne. cbn [k' k_mem set_k_mem]. by apply (load_other Hok Hv Hp q j x). }
  split_and!.
  - unfold clearpteu. erewrite bind_ok; [|by apply (walkpgdir_find k pml4 t fl)]. cbn beta. rewrite Hv.
    rewrite (proj2 (Z.eqb_neq _ _)) by lia. done.
  - constructor; try apply Hok.
    + apply (store_free_list Hok Hv Hp); [apply Hok|done].
    + intros q j x Hx Hjq. destruct (decide (j :: q = page_path va)) as [E|Hne].
      * injection E as -> ->. rewrite Hv in Hx. injection Hx as <-. rewrite El.
        pose proof (vo_entry _ _ _ _ Hok _ _ _ Hv Hp) as He. fold (page_path va) in *. fold e in He. rewrite Hw in *.
        cbn [entry_ok] in *. by rewrite C1, C2.
      * rewrite (Ho j q x) by done. by apply (vo_entry _ _ _ _ Hok).
  - by destruct k.
  - cbn [pte page_path]. fold (table_path va). rewrite Hv, El. done.
  - intros [|j q] Hq Hne; [done|]. cbn [pte]. destruct (t !! q) as [x|] eqn:Hx; [|done]. by apply (Ho j q x).
  - exists v. split; [done|]. intros a Ha. cbn [k' k_mem set_k_mem]. by apply (store_outside Hp).
Qed.

(** ** Writing below the stack pointer *)

(** The user bytes [bs] at [va]. *)
Definition has_bytes (k : kst) (t : gmap (list Z) Z) (va : Z) (bs : list Z) : Prop :=
  forall i b, bs !! i = Some b -> user_byte k t (va + Z.of_nat i) = Some b.

(** Of the address space [t] only user bytes from [lo] to [hi] change. *)
Record within (k : kst) (t : gmap (list Z) Z) (lo hi : Z) (k' : kst) : Prop := {
  wi_mem : only_mem k k';
  wi_ptes : forall q, path_ok q -> pte k' t q = pte k t q;
  wi_old : forall x, 0 <= x < 2 ^ 47 -> ~ (lo <= x < hi) -> user_byte k' t x = user_byte k t x;
  wi_out : forall a, (forall q w, length q = 4%nat -> t !! q = Some w -> ~ (w <= a < w + PGSIZE)) ->
    k_mem k' a = k_mem k a
}.

Lemma within_refl k t lo hi : within k t lo hi k.
Proof. constructor; [apply only_mem_refl|done..]. Qed.
Lemma within_trans k t lo hi k1 k2 : within k t lo hi k1 -> within k1 t lo hi k2 -> within k t lo hi k2.
Proof.
  intros [A1 A2 A3 A4] [B1 B2 B3 B4]. constructor.
  - by eapply only_mem_trans.
  - intros q Hq. by rewrite B2, A2.
  - intros x Hx Hn. by rewrite B3, A3.
  - intros a Ha. by rewrite B4, A4.
Qed.
Lemma written_within k t va bs k' lo hi : written k t va bs k' -> lo <= va -> va + Z.of_nat (length bs) <= hi ->
  within k t lo hi k'.
Proof. intros [W1 W2 W3 W4 W5] Hlo Hhi. constructor; try done. intros x Hx Hn. apply W4; [done|lia]. Qed.

Lemma within_bytes k t lo hi k' va bs : within k t lo hi k' -> has_bytes k t va bs -> 0 <= va ->
  va + Z.of_nat (length bs) <= 2 ^ 47 -> hi <= va \/ va + Z.of_nat (length bs) <= lo -> has_bytes k' t va bs.
Proof.
  intros Hw Hb H1 H2 H3 i b Hi. pose proof (lookup_lt_Some _ _ _ Hi). rewrite (wi_old _ _ _ _ _ Hw) by lia. by apply Hb.
Qed.

Lemma copyout_ok k pml4 t fl va bs :
  vm_ok k pml4 t fl -> 0 <= va -> va + Z.of_nat (length bs) <= 2 ^ 47 ->
  accessible k t va (va + Z.of_nat (length bs)) ->
  exists k', copyout pml4 va bs k = Ok 0 k' /\ vm_ok k' pml4 t fl /\ written k t va bs k'.
Proof.
  intros Hok Hva Hhi Hacc. apply copyout_loop_ok; [done..| |].
  - unfold PGSIZE. Z.div_mod_to_equations. lia.
  - left. destruct (down_spec va) as [_ Hm]. unfold PGSIZE in *. Z.div_mod_to_equations. lia.
Qed.

(** What happens at the first page decides, if it is refused. *)
Lemma copyout_first k pml4 va bs : bs <> [] ->
  (uva2ka pml4 (PGROUNDDOWN va) k = Ok 0 k -> copyout pml4 va bs k = Ok (-1) k) /\
  (forall e, uva2ka pml4 (PGROUNDDOWN va) k = Err e -> copyout pml4 va bs k = Err e).
Proof.
  intros Hbs. unfold copyout.
  assert (exists n, Z.to_nat (Z.of_nat (length bs) / PGSIZE + 3) = S n) as [n ->].
  { exists (Z.to_nat (Z.of_nat (length bs) / PGSIZE + 2)). unfold PGSIZE. Z.div_mod_to_equations. lia. }
  cbn [copyout_loop]. replace (Z.of_nat (length bs) >? 0) with true
    by (destruct bs; [done|symmetry; apply Z.gtb_lt; cbn [length]; lia]).
  unfold mbind, M_bind. split; [by intros ->|by intros e ->].
Qed.

(** A page that is not the user's stops [copyout] at once. *)
Lemma copyout_refused k pml4 t fl va w bs :
  vm_ok k pml4 t fl -> 0 <= va < 2 ^ 47 -> t !! page_path va = Some w ->
  has (pte k t (page_path va)) PTE_U = false -> bs <> [] -> copyout pml4 va bs k = Ok (-1) k.
Proof.
  intros Hok Hva Hw HU Hbs. apply copyout_first; [done|]. by rewrite (uva2ka_ok Hok va w), HU.
Qed.

(** A page that is not mapped, below one that is in the same table, stops it too. *)
Lemma copyout_unmapped k pml4 t fl va bs :
  vm_ok k pml4 t fl -> 0 <= va < 2 ^ 47 -> t !! page_path va = None -> is_Some (t !! table_path va) -> bs <> [] ->
  copyout pml4 va bs k = Ok (-1) k.
Proof.
  intros Hok Hva Hn [v Hv] Hbs. apply copyout_first; [done|].
  pose proof (user_path va Hva) as Hp. pose proof (vo_entry _ _ _ _ Hok _ _ _ Hv Hp) as He.
  fold (page_path va) in He. rewrite Hn in He. cbn [entry_ok] in He.
  pose proof (page_path_down va) as Ed. rewrite <- PGROUNDDOWN_spec in Ed.
  assert (E1 : PTX (PGROUNDDOWN va) = PTX va) by (unfold page_path in Ed; congruence).
  assert (E2 : table_path (PGROUNDDOWN va) = table_path va) by (unfold page_path in Ed; congruence).
  assert (Ev : v + 8 * PTX va <> 0).
  { destruct (vo_page _ _ _ _ Hok _ _ Hv) as (_ & Hpos%page_ok_pos & _). destruct (path_ok_tail _ _ Hp) as (_ & Hi & _). lia. }
  unfold uva2ka. erewrite bind_ok.
  2: { apply (walkpgdir_find k pml4 t fl); [done|]. rewrite PGROUNDDOWN_spec. apply user_page_down, Hva. }
  rewrite E1, E2, Hv, (proj2 (Z.eqb_neq _ _) Ev). erewrite bind_ok by reflexivity. cbn beta. by rewrite He.
Qed.

(** An address at the top of the 64-bit range has no entry, and [uva2ka] follows a null pointer. *)
Lemma copyout_high k pml4 va bs :
  high_free k pml4 -> 2 ^ 64 - 2 ^ 39 <= va < 2 ^ 64 -> bs <> [] -> copyout pml4 va bs k = Err (EFault "null pte").
Proof.
  intros Hh Hva Hbs. apply copyout_first; [done|].
  assert (Epm : PMX (PGROUNDDOWN va) = 511).
  { rewrite PGROUNDDOWN_spec. unfold PMX, px. rewrite Z.shiftr_div_pow2 by lia. change 511 with (Z.ones 9) at 1.
    rewrite Z.land_ones by lia. unfold PGSIZE.
    assert ((va - va mod 4096) / 2 ^ 39 = 2 ^ 25 - 1) as ->; [|done].
    symmetry. pose proof (Z.div_mod va 4096 ltac:(lia)). pose proof (Z.mod_pos_bound va 4096 ltac:(lia)).
    apply Z.div_unique with (va - va mod 4096 - (2 ^ 64 - 2 ^ 39)); [left|]; lia. }
  assert (Ew : walk_level (pml4 + 8 * 511) false k = Ok 0 k).
  { unfold walk_level. erewrite bind_ok by reflexivity. cbn beta. by rewrite Hh by lia. }
  unfold uva2ka, walkpgdir. rewrite Epm. erewrite bind_ok; [|by rewrite (bind_ok _ _ _ _ _ Ew)]. done.
Qed.

(** Bytes that start in the user's pages and reach into a page that is not the user's: those
    in front of it are written before [copyout] fails. *)
Lemma copyout_loop_stops fuel k pml4 t fl va g w bs :
  vm_ok k pml4 t fl -> 0 <= va <= g -> g < 2 ^ 47 -> g mod PGSIZE = 0 -> accessible k t va g ->
  t !! page_path g = Some w -> has (pte k t (page_path g)) PTE_U = false -> g - va < Z.of_nat (length bs) ->
  (fuel <> 0)%nat -> va mod PGSIZE + (g - va) <= PGSIZE * (Z.of_nat fuel - 1) ->
  exists k', copyout_loop fuel pml4 va bs k = Ok (-1) k' /\ vm_ok k' pml4 t fl /\ within k t va g k'.
Proof.
  revert k va bs. induction fuel as [|fuel IH]; intros k va bs Hok Hva Hg Hgm Hacc Hw HU Hlen Hnz Hfuel; [done|].
  cbn [copyout_loop]. rewrite (proj2 (Z.gtb_lt _ _)) by lia.
  destruct (Z.eq_dec va g) as [->|Hne].
  { erewrite bind_ok; [|apply (uva2ka_ok Hok g w); [lia|done]]. rewrite HU. exists k. split_and!; [done..|apply within_refl]. }
  destruct (down_spec va) as [Ed Hm]. destruct (Hacc va ltac:(lia)) as [[x Hx] HxU].
  erewrite bind_ok; [|apply (uva2ka_ok Hok va x); [lia|done]]. cbn beta. rewrite HxU.
  destruct (vo_page _ _ _ _ Hok _ _ Hx) as (_ & Hxp%page_ok_pos & _).
  rewrite (proj2 (Z.eqb_neq x 0)) by lia. replace (va - PGROUNDDOWN va) with (va mod PGSIZE) by lia.
  assert (Hnext : PGROUNDDOWN va + PGSIZE <= g) by (unfold PGSIZE in *; Z.div_mod_to_equations; lia).
  set (n := Z.min (PGSIZE - va mod PGSIZE) (Z.of_nat (length bs))).
  assert (En : n = PGSIZE - va mod PGSIZE) by lia.
  assert (Htk : Z.of_nat (length (take (Z.to_nat n) bs)) = n) by (rewrite length_take; lia).
  destruct (write_chunk k pml4 t fl va x (take (Z.to_nat n) bs)) as [Hok1 Hwr1]; [done|lia|done|lia|].
  erewrite bind_ok; [|reflexivity]. set (k1 := set_k_mem _ k) in *.
  rewrite u64_small by (unfold PGSIZE in *; lia).
  assert (Hw1 : within k t va g k1) by (apply (written_within _ _ _ _ _ _ _ Hwr1); lia).
  destruct (IH k1 (PGROUNDDOWN va + PGSIZE) (drop (Z.to_nat n) bs)) as (k2 & E2 & Hok2 & Hw2); try done; try lia.
  - apply (accessible_ext k); [lia|lia|apply Hwr1|]. intros y Hy. apply Hacc. lia.
  - by rewrite (wi_ptes _ _ _ _ _ Hw1) by (apply user_path; lia).
  - rewrite length_drop. lia.
  - assert ((PGROUNDDOWN va + PGSIZE) mod PGSIZE = 0) as ->; [|lia].
    rewrite PGROUNDDOWN_spec. unfold PGSIZE in *. Z.div_mod_to_equations. lia.
  - exists k2. split_and!; [done..|]. apply (within_trans _ _ _ _ k1); [done|].
    destruct Hw2 as [B1 B2 B3 B4]. constructor; try done. intros y Hy Hny. apply B3; [done|lia].
Qed.

(** ** The arguments on the stack *)

(** The stack pointer after a string, aligned to a word; the addresses of the strings, and
    the pointer after all of them. *)
Definition push (sp : Z) (a : list Z) : Z := let s := sp - (Z.of_nat (length a) + 1) in s - s mod 8.
Fixpoint arg_addrs (args : list (list Z)) (sp : Z) : list Z :=
  match args with
  | [] => []
  | a :: args' => push sp a :: arg_addrs args' (push sp a)
  end.
Definition arg_end (args : list (list Z)) (sp : Z) : Z := foldl push sp args.

Lemma push_bounds sp a : sp - (Z.of_nat (length a) + 8) <= push sp a /\ push sp a + Z.of_nat (length a) + 1 <= sp.
Proof. unfold push. pose proof (Z.mod_pos_bound (sp - (Z.of_nat (length a) + 1)) 8 ltac:(lia)). lia. Qed.
Lemma arg_end_le args sp : arg_end args sp <= sp.
Proof.
  revert sp. induction args as [|a args IH]; intros sp; [done|]. cbn [arg_end foldl].
  pose proof (push_bounds sp a). specialize (IH (push sp a)). unfold arg_end in IH. lia.
Qed.

Lemma land_not_7 y : 0 <= y < 2 ^ 64 -> Z.land y (u64 (Z.lnot 7)) = y - y mod 8.
Proof.
  intros Hy. change (u64 (Z.lnot 7)) with (Z.ldiff (Z.ones 64) (Z.ones 3)).
  assert (E : Z.land y (Z.ldiff (Z.ones 64) (Z.ones 3)) = Z.ldiff (Z.land y (Z.ones 64)) (Z.ones 3)).
  { apply Z.bits_inj'. intros n Hn. rewrite !Z.land_spec, !Z.ldiff_spec, Z.land_spec. by rewrite andb_assoc. }
  rewrite E, Z.land_ones, Z.mod_small by lia. rewrite Z.ldiff_ones_r by lia.
  rewrite Z.shiftr_div_pow2, Z.shiftl_mul_pow2 by lia. change (2 ^ 3) with 8. pose proof (Z.div_mod y 8 ltac:(lia)). lia.
Qed.

Lemma push_eq sp a : 0 <= sp < 2 ^ 64 -> Z.of_nat (length a) + 1 <= sp ->
  Z.land (u64 (sp - (Z.of_nat (length a) + 1))) (u64 (Z.lnot 7)) = push sp a.
Proof. intros H1 H2. rewrite u64_small by lia. rewrite land_not_7 by lia. done. Qed.

(** A stack page at [base], above a page that the user cannot touch. *)
Record stack_at (k : kst) (t : gmap (list Z) Z) (base : Z) : Prop := {
  st_low : PGSIZE <= base;
  st_high : base + PGSIZE <= 2 ^ 47;
  st_guard : forall va, base - PGSIZE <= va < base ->
    is_Some (t !! page_path va) /\ has (pte k t (page_path va)) PTE_U = false;
  st_stack : accessible k t base (base + PGSIZE)
}.

(** What the arguments have to satisfy to go on the stack page at [base], the first of them being
    number [argc]. *)
Definition args_fit (base : Z) (args : list (list Z)) (argc sp : Z) : Prop :=
  base <= arg_end args sp /\ argc + Z.of_nat (length args) <= MAXARG.

Lemma stack_within k t base lo hi k' : stack_at k t base -> within k t lo hi k' -> stack_at k' t base.
Proof.
  intros [H1 H2 H3 H4] Hw. constructor; [done..| |]; intros va Hva;
    rewrite (wi_ptes _ _ _ _ _ Hw) by (apply user_path; lia); auto.
Qed.

Lemma within_mono k t lo hi lo' hi' k' : within k t lo hi k' -> lo' <= lo -> hi <= hi' -> within k t lo' hi' k'.
Proof. intros [W1 W2 W3 W4] Hlo Hhi. constructor; try done. intros x Hx Hn. apply W3; [done|lia]. Qed.

(** Bytes that end in the stack page are stored, or they start in the guard page and
    [copyout] fails. *)
Lemma stack_copyout k pml4 t fl base va bs :
  vm_ok k pml4 t fl -> stack_at k t base -> base - PGSIZE <= va -> va + Z.of_nat (length bs) <= base + PGSIZE -> bs <> [] ->
  (base <= va /\ exists k', copyout pml4 va bs k = Ok 0 k' /\ vm_ok k' pml4 t fl /\
     within k t va (va + Z.of_nat (length bs)) k' /\ has_bytes k' t va bs) \/
  (va < base /\ copyout pml4 va bs k = Ok (-1) k).
Proof.
  intros Hok [H1 H2 H3 H4] Hlo Hhi Hbs. destruct (Z.le_gt_cases base va) as [Hle|Hgt]; [left|right]; split; try done.
  - destruct (copyout_ok k pml4 t fl va bs) as (k' & E & Hok' & Hw); [done|unfold PGSIZE in *; lia|lia| |].
    + intros x Hx. apply H4. lia.
    + exists k'. split_and!; [done..| |exact (wr_new _ _ _ _ _ Hw)]. by apply (written_within _ _ _ _ _ _ _ Hw).
  - destruct (H3 va ltac:(lia)) as [[w Hw] HU].
    apply (copyout_refused k pml4 t fl va w); [done|unfold PGSIZE in *; lia|done..].
Qed.

(** The image of a program with its stack page at [base]: the pages of the program from the
    second page on up to the guard page are the user's, the first page is not mapped, and no
    entry is there for the addresses at the end of the address space. *)
Record image_at (k : kst) (d : Z) (t : gmap (list Z) Z) (base : Z) : Prop := {
  im_stack : stack_at k t base;
  im_base : 2 * PGSIZE <= base /\ base mod PGSIZE = 0;
  im_low : accessible k t PGSIZE (base - PGSIZE);
  im_zero : forall va, 0 <= va < PGSIZE -> t !! page_path va = None;
  im_high : high_free k d
}.

Lemma high_within k d t fl lo hi k' : vm_ok k d t fl -> within k t lo hi k' -> high_free k d -> high_free k' d.
Proof.
  intros Hok Hw Hh j Hj. rewrite <- (Hh j Hj). f_equal. apply load_ext. intros a Ha. change (Z.of_nat 8) with 8 in Ha.
  apply (wi_out _ _ _ _ _ Hw). intros q w Hq Hqw.
  destruct (nodes_disjoint Hok q [] w d Hqw (vo_root _ _ _ _ Hok)); [by intros ->|unfold PGSIZE in *; lia..].
Qed.

Lemma image_within k d t fl base lo hi k' :
  vm_ok k d t fl -> image_at k d t base -> within k t lo hi k' -> image_at k' d t base.
Proof.
  intros Hok [H1 H2 H3 H4 H5] Hw. constructor; [by eapply stack_within|done| |done|by eapply high_within].
  destruct H1 as [_ Hhi _ _]. apply (accessible_ext k); [done|unfold PGSIZE in *; lia|apply Hw|done].
Qed.

(** A page of the image is in the same table as the page at 0. *)
Lemma image_table k d t fl base va : vm_ok k d t fl -> image_at k d t base -> 0 <= va < PGSIZE -> is_Some (t !! table_path va).
Proof.
  intros Hok [Hst [Hb _] Hlow _ _] Hva.
  assert (is_Some (t !! page_path PGSIZE)) as [w Hw].
  { destruct (Z.eq_dec (base - PGSIZE) PGSIZE) as [E|E]; [apply (st_guard _ _ _ Hst)|apply Hlow]; unfold PGSIZE in *; lia. }
  assert (table_path va = table_path PGSIZE) as ->.
  { assert (Ez : forall x, 0 <= x < 2 ^ 21 -> table_path x = [0; 0; 0]).
    { intros x Hx. unfold table_path, PDX, PDPX, PMX, px. rewrite !Z.shiftr_div_pow2 by lia.
      rewrite !Z.div_small by (change (2 ^ 21) with 2097152 in *; change (2 ^ 30) with 1073741824; change (2 ^ 39) with 549755813888; lia). done. }
    rewrite !Ez; [done|unfold PGSIZE in *; lia..]. }
  by apply (vo_up _ _ _ _ Hok _ _ _ Hw).
Qed.

(** Bytes that reach past the start of the guard page are stored when they are in the stack page,
    and else [copyout] fails. *)
Lemma image_copyout k d t fl base va bs :
  vm_ok k d t fl -> image_at k d t base -> 0 <= va -> base - PGSIZE < va + Z.of_nat (length bs) <= base + PGSIZE -> bs <> [] ->
  (base <= va /\ exists k', copyout d va bs k = Ok 0 k' /\ vm_ok k' d t fl /\
     within k t va (va + Z.of_nat (length bs)) k' /\ has_bytes k' t va bs) \/
  (va < base /\ exists k', copyout d va bs k = Ok (-1) k' /\ vm_ok k' d t fl /\ within k t 0 base k').
Proof.
  intros Hok Him Hva Hend Hbs. pose proof Him as [Hst [Hb Hbm] Hlow Hzero _]. pose proof Hst as [H1 H2 H3 H4].
  destruct (Z.le_gt_cases (base - PGSIZE) va) as [Hg|Hg].
  { destruct (stack_copyout k d t fl base va bs Hok Hst Hg) as [?|[? E]]; [lia|done|by left|right].
    split; [done|]. exists k. split_and!; [done..|apply within_refl]. }
  right. split; [unfold PGSIZE in *; lia|]. destruct (Z.le_gt_cases PGSIZE va) as [Hp|Hp].
  - destruct (H3 (base - PGSIZE)) as [[w Hw] HU]; [unfold PGSIZE; lia|].
    destruct (copyout_loop_stops (Z.to_nat (Z.of_nat (length bs) / PGSIZE + 3)) k d t fl va (base - PGSIZE) w bs)
      as (k' & E & Hok' & Hwi); try done.
    + lia.
    + unfold PGSIZE in *. lia.
    + unfold PGSIZE in *. Z.div_mod_to_equations. lia.
    + intros x Hx. apply Hlow. lia.
    + lia.
    + unfold PGSIZE. Z.div_mod_to_equations. lia.
    + unfold PGSIZE in *. Z.div_mod_to_equations. lia.
    + exists k'. split_and!; [done..|]. apply (within_mono _ _ _ _ _ _ _ Hwi); unfold PGSIZE; lia.
  - exists k. split_and!; [|done|apply within_refl].
    apply (copyout_unmapped k d t fl); [done|unfold PGSIZE in *; lia|apply Hzero; lia|by eapply image_table|done].
Qed.

(** The strings are at their addresses. *)
Definition strings_at (k : kst) (t : gmap (list Z) Z) (args : list (list Z)) (addrs : list Z) : Prop :=
  Forall2 (fun a x => has_bytes k t x (a ++ [0])) args addrs.

Lemma strings_within k t lo hi k' args sp : within k t lo hi k' -> 0 <= arg_end args sp -> sp <= 2 ^ 47 ->
  hi <= arg_end args sp -> strings_at k t args (arg_addrs args sp) -> strings_at k' t args (arg_addrs args sp).
Proof.
  intros Hw. revert sp. induction args as [|a args IH]; intros sp H0 H1 H2 Hs; [constructor|].
  inversion Hs as [|? ? ? ? Ha Hr]; subst. pose proof (push_bounds sp a). pose proof (arg_end_le args (push sp a)).
  cbn [arg_end foldl] in H0, H2. fold (arg_end args (push sp a)) in H0, H2. constructor; [|apply IH; try done; lia].
  apply (within_bytes _ _ _ _ _ _ _ Hw Ha); [lia| |]; rewrite length_app; cbn [length]; lia.
Qed.

(** One of the strings is longer than all the memory below the stack pointer, so that the
    subtraction wraps around, before another one or their number ends the loop. *)
Fixpoint arg_wraps (base : Z) (args : list (list Z)) (argc sp : Z) : bool :=
  match args with
  | [] => false
  | a :: args' =>
      (argc <? MAXARG) &&
      ((sp <? Z.of_nat (length a) + 1) || (base <=? push sp a) && arg_wraps base args' (argc + 1) (push sp a))
  end.

Lemma push_wraps sp (a : list Z) : 0 <= sp < Z.of_nat (length a) + 1 -> Z.of_nat (length a) < 2 ^ 39 ->
  2 ^ 64 - 2 ^ 39 <= Z.land (u64 (sp - (Z.of_nat (length a) + 1))) (u64 (Z.lnot 7)) < 2 ^ 64.
Proof.
  intros Hsp Hl. assert (u64 (sp - (Z.of_nat (length a) + 1)) = sp - (Z.of_nat (length a) + 1) + 2 ^ 64) as ->.
  { unfold u64. symmetry. apply Z.mod_unique with (-1); lia. }
  rewrite land_not_7 by lia. set (y := _ + 2 ^ 64). assert (2 ^ 64 - 2 ^ 39 <= y < 2 ^ 64) by lia. clearbody y.
  change (2 ^ 64) with (8 * 2 ^ 61) in *. change (2 ^ 39) with (8 * 2 ^ 36) in *. Z.div_mod_to_equations. lia.
Qed.

Lemma exec_args_ok args : forall k d t fl base argc sp,
  vm_ok k d t fl -> image_at k d t base -> base <= sp <= base + PGSIZE -> 0 <= argc <= MAXARG ->
  Forall (fun a => Z.of_nat (length a) < 2 ^ 39) args ->
  if arg_wraps base args argc sp then exec_args args argc d sp k = Err (EFault "null pte") else
  exists r k', exec_args args argc d sp k = Ok r k' /\ vm_ok k' d t fl /\ within k t 0 sp k' /\
    ((args_fit base args argc sp /\ r = Some (arg_end args sp, arg_addrs args sp) /\
      within k t (arg_end args sp) sp k' /\ strings_at k' t args (arg_addrs args sp)) \/
     (~ args_fit base args argc sp /\ r = None)).
Proof.
  induction args as [|a args IH]; intros k d t fl base argc sp Hok Him Hsp Hc Hf.
  { exists (Some (sp, [])), k. split_and!; [done..|apply within_refl|]. left. unfold args_fit, arg_end. cbn.
    split_and!; [lia|lia|done|apply within_refl|constructor]. }
  apply Forall_cons in Hf as [Ha Hf]. unfold args_fit. cbn [exec_args arg_end foldl arg_addrs length arg_wraps].
  fold (arg_end args (push sp a)). pose proof (arg_end_le args (push sp a)) as Hend. pose proof (push_bounds sp a) as Hb.
  pose proof (im_stack _ _ _ _ Him) as [Hlo Hhi _ _].
  assert (Hlen : Z.of_nat (length (a ++ [0])) = Z.of_nat (length a) + 1) by (rewrite length_app; cbn [length]; lia).
  assert (Hne : a ++ [0] <> []) by (by destruct a).
  destruct (Z.geb_spec argc MAXARG) as [Hm|Hm].
  { rewrite (proj2 (Z.ltb_ge _ _)) by lia. exists None, k. split_and!; [done..|apply within_refl|]. right. split; [lia|done]. }
  rewrite (proj2 (Z.ltb_lt _ _)) by lia. cbn [andb]. destruct (Z.ltb_spec sp (Z.of_nat (length a) + 1)) as [Hw|Hw]; cbn [orb].
  { unfold mbind, M_bind. rewrite copyout_high; [done|apply Him|apply push_wraps; unfold PGSIZE in *; lia|done]. }
  rewrite push_eq by (unfold PGSIZE in *; lia).
  assert (Hge : 0 <= push sp a) by (unfold push; cbv zeta; Z.div_mod_to_equations; lia).
  destruct (image_copyout k d t fl base (push sp a) (a ++ [0])) as [(Hle & k1 & E & Hok1 & Hw1 & Hb1)|(Hgt & k1 & E & Hok1 & Hw1)];
    [done|done|done|unfold PGSIZE in *; lia|done|..]; rewrite (bind_ok _ _ _ _ _ E).
  2: { rewrite (proj2 (Z.leb_gt _ _)) by done. exists None, k1. split_and!; [done|done| |].
       - apply (within_mono _ _ _ _ _ _ _ Hw1); lia.
       - right. split; [lia|done]. }
  change (0 <? 0) with false. rewrite (proj2 (Z.leb_le _ _)) by done. cbn [andb]. cbn iota.
  pose proof (IH k1 d t fl base (argc + 1) (push sp a) Hok1 (image_within _ _ _ _ _ _ _ _ Hok Him Hw1) ltac:(lia) ltac:(lia) Hf) as H.
  destruct (arg_wraps base args (argc + 1) (push sp a)); [unfold mbind, M_bind; by rewrite H|].
  destruct H as (r & k2 & E2 & Hok2 & Hw2 & Hr).
  rewrite (bind_ok _ _ _ _ _ E2). eexists _, k2. split; [reflexivity|]. split; [done|]. split.
  { apply (within_trans _ _ _ _ k1); [apply (within_mono _ _ _ _ _ _ _ Hw1)|apply (within_mono _ _ _ _ _ _ _ Hw2)]; lia. }
  destruct Hr as [([Hf1 Hf2] & -> & Hw3 & Hs)|[Hn ->]]; [left|right].
  - split; [lia|]. split; [done|]. split.
    + apply (within_trans _ _ _ _ k1); [apply (within_mono _ _ _ _ _ _ _ Hw1)|apply (within_mono _ _ _ _ _ _ _ Hw3)]; lia.
    + constructor; [|done]. apply (within_bytes _ _ _ _ _ _ _ Hw3 Hb1); [lia| |]; rewrite ?length_app; cbn [length]; lia.
  - split; [|done]. intros [Hf1 Hf2]. apply Hn. split; lia.
Qed.

(** ** The two stack pages *)
Lemma spares_untouched k pml4 t d td fl k' : two k pml4 t d td fl -> spares td fl k k' -> untouched t k k'.
Proof.
  intros (H1 & H2 & Hd) Hs p v a Hv Ha. apply (Hs v); [by apply (node_aligned H1 p)| |done].
  intros [Hin|(q & Hq)]; [|by apply (Hd p q v)]. by destruct (vo_page _ _ _ _ H1 p v Hv) as (_ & _ & ?).
Qed.

(** A change that stays inside one page of the other address space. *)
Lemma page_untouched k pml4 t d td fl k' q v : two k pml4 t d td fl -> td !! q = Some v ->
  (forall a, ~ (v <= a < v + PGSIZE) -> k_mem k' a = k_mem k a) -> untouched t k k'.
Proof.
  intros (H1 & H2 & Hd) Hv Hm p x a Hx Ha. apply Hm.
  destruct (pages_disjoint x v (node_aligned H1 p x Hx) (node_aligned H2 q v Hv)); [|lia..]. intros ->. by apply (Hd p q v).
Qed.

(** The guard page is taken from the user; the bytes of all pages stay. *)
Lemma guard_page k pml4 t d td fl lo :
  two k pml4 t d td fl -> boundary lo -> lo + 2 * PGSIZE <= 2 ^ 47 -> zero_mapped k td lo (lo + 2 * PGSIZE) ->
  exists k', clearpteu d lo k = Ok tt k' /\ two k' pml4 t d td fl /\ only_mem k k' /\ untouched t k k' /\
    stack_at k' td (lo + PGSIZE) /\ (forall x, user_byte k' td x = user_byte k td x) /\
    (accessible k td PGSIZE lo -> accessible k' td PGSIZE lo) /\ (high_free k d -> high_free k' d).
Proof.
  intros H2 Hlo Hhi Hz. pose proof H2 as (_ & Hok & _).
  destruct (boundary_page lo (lo + 2 * PGSIZE) Hlo ltac:(unfold PGSIZE; lia) Hhi) as [Hu1 Hb2].
  destruct (boundary_page (lo + PGSIZE) (lo + 2 * PGSIZE) Hb2 ltac:(unfold PGSIZE; lia) Hhi) as [Hu2 _].
  destruct (Hz lo Hu1 ltac:(unfold PGSIZE; lia)) as (w1 & Hw1 & _).
  destruct (Hz (lo + PGSIZE) Hu2 ltac:(unfold PGSIZE; lia)) as (w2 & Hw2 & Hp2 & _).
  destruct (clearpteu_ok k d td fl lo w1 Hok Hu1 Hw1) as (k' & E & Hok' & Ho & HU & Hpt & v & Hv & Hm).
  pose proof (page_untouched _ _ _ _ _ _ _ _ _ H2 Hv Hm) as Hun.
  exists k'. split; [done|]. split; [by apply (two_frame k pml4 t d td fl)|]. split_and!; [done..| | | |].
  - constructor; [unfold boundary, PGSIZE in *; lia|unfold PGSIZE in *; lia| |].
    + intros va Hva. destruct Hu1 as [Hr1 Hm1].
      rewrite (same_page lo va) by (unfold PGSIZE in *; Z.div_mod_to_equations; lia). split; [by exists w1|done].
    + apply (mapped_accessible k' d td fl _ w2 Hok' Hu2 Hw2). rewrite Hpt; [done|by apply user_path, Hu2|].
      intros Ep. apply user_page_inj in Ep; [unfold PGSIZE in *; lia|done..].
  - intros x. unfold user_byte. destruct (td !! page_path x) as [w|] eqn:Hw; [|done]. f_equal. apply Hm.
    destruct (nodes_disjoint Hok _ _ _ _ Hw Hv); [done| |]; pose proof (Z.mod_pos_bound x PGSIZE ltac:(done)); lia.
  - intros Hacc va Hva. rewrite Hpt; [by apply Hacc|apply user_path; unfold PGSIZE in *; lia|].
    intros Ep. apply page_path_inj in Ep; [|unfold PGSIZE in *; lia|apply Hu1]. destruct Hlo as [_ Hlm].
    unfold PGSIZE in *. Z.div_mod_to_equations. lia.
  - intros Hh j Hj. rewrite <- (Hh j Hj). f_equal. apply load_ext. intros a Ha. change (Z.of_nat 8) with 8 in Ha. apply Hm.
    destruct (nodes_disjoint Hok _ [] _ _ Hv (vo_root _ _ _ _ Hok)); [done|unfold PGSIZE in *; lia..].
Qed.

Lemma stack_alloc k pml4 t d td fl lo :
  two k pml4 t d td fl -> boundary lo -> lo + 2 * PGSIZE <= 2 ^ 47 -> unmapped td lo (lo + 2 * PGSIZE) ->
  exists r k1 td1 fl1, allocuvm d lo (u64 (lo + 2 * PGSIZE)) k = Ok r k1 /\ two k1 pml4 t d td1 fl1 /\
    only_mem k k1 /\ untouched t k k1 /\ (forall x, owned td1 fl1 x <-> owned td fl x) /\
    (r = lo + 2 * PGSIZE /\ zero_mapped k1 td1 lo (lo + 2 * PGSIZE) /\
       (forall x, 0 <= x < lo -> user_byte k1 td1 x = user_byte k td x) /\
       (accessible k td PGSIZE lo -> accessible k1 td1 PGSIZE lo) /\ (high_free k d -> high_free k1 d) /\
       (forall va, 0 <= va < lo -> td1 !! page_path va = td !! page_path va) \/
     r = 0 /\ (length fl < 8)%nat).
Proof.
  intros H2 Hlo Hhi Hun. pose proof H2 as (_ & Hok & _). pose proof Hlo as [Hlo1 Hlo2].
  assert (Er : PGROUNDUP lo = lo).
  { destruct (PGROUNDUP_spec lo Hlo1) as [[_ Hm] Hr]. unfold PGSIZE in *. Z.div_mod_to_equations. lia. }
  rewrite u64_small by (unfold PGSIZE in *; lia).
  destruct (allocuvm_ok k d td fl lo (lo + 2 * PGSIZE)) as (r & k1 & td1 & fl1 & E & Hok1 & How & Hsp & H);
    [done|unfold PGSIZE in *; lia|done|by rewrite Er|]. rewrite Er in H.
  pose proof (spares_untouched _ _ _ _ _ _ _ H2 Hsp) as Hut.
  assert (Hst : vm_step (in_range lo (lo + 2 * PGSIZE)) k td k1 td1) by (destruct H as [H|H]; apply H).
  assert (Hn : npages lo (lo + 2 * PGSIZE) = 2) by (unfold npages, PGSIZE; Z.div_mod_to_equations; lia).
  exists r, k1, td1, fl1. split_and!; try done; [|apply Hst|].
  { apply (two_frame k pml4 t d td fl); [done|apply Hst|done|intros x; apply How|done]. }
  destruct H as [(-> & _ & Hz & _)|(-> & _ & _ & Hl)]; [left|right; split; [done|lia]].
  assert (Hout : forall x, 0 <= x < lo -> ~ in_range lo (lo + 2 * PGSIZE) (page_path x)).
  { intros x Hx (va & Hva & Hr & Ep). apply page_path_inj in Ep; [|lia|apply Hva]. unfold PGSIZE in *. Z.div_mod_to_equations. lia. }
  split_and!; [done..| | | |].
  - intros x Hx. apply (step_user _ _ _ _ _ x Hst); [lia|by apply Hout].
  - intros Hacc va Hva. rewrite (st_pages _ _ _ _ _ Hst), (st_ptes _ _ _ _ _ Hst);
      [by apply Hacc|done|apply user_path; unfold PGSIZE in *; lia|apply Hout; unfold PGSIZE in *; lia|done|apply Hout; unfold PGSIZE in *; lia].
  - intros Hh j Hj. rewrite <- (Hh j Hj). f_equal. apply load_ext. intros a Ha. change (Z.of_nat 8) with 8 in Ha.
    apply (st_upper _ _ _ _ _ Hst d); [apply Hok|unfold PGSIZE; lia].
  - intros va Hva. apply (st_pages _ _ _ _ _ Hst); [done|by apply Hout].
Qed.

(** ** Leaving the old image or the new one *)

(** Only these parts of the kernel change. *)
Definition eframe (k k' : kst) : Prop :=
  k' = set_k_cr3 (k_cr3 k') (set_k_ptable (k_ptable k') (set_k_kmem (k_kmem k') (set_k_mem (k_mem k') k))).

Lemma eframe_trans k k1 k2 : eframe k k1 -> eframe k1 k2 -> eframe k k2.
Proof. unfold eframe. intros H1 H2. rewrite H2. rewrite H1 at 1. done. Qed.
Lemma only_mem_eframe k k' : only_mem k k' -> eframe k k'.
Proof. unfold only_mem, eframe. intros H. rewrite H. by destruct k. Qed.

(** [exec] gives up: the pages of the new image are free again, the old one is untouched. *)
Lemma exec_fail k pml4 t d td fl : two k pml4 t d td fl ->
  exists k' fl', exec_bad d None k = Ok (-1) k' /\ only_mem k k' /\ untouched t k k' /\ vm_ok k' pml4 t fl' /\
    forall x, x ∈ fl' <-> owned td fl x.
Proof.
  intros H2. destruct (two_freevm _ _ _ _ _ _ H2) as (k' & fl' & E & H). exists k', fl'. split; [|done].
  unfold exec_bad. pose proof H2 as (_ & Hok & _).
  rewrite (node_nonzero _ _ _ _ _ _ Hok (vo_root _ _ _ _ Hok)). by rewrite (bind_ok _ _ _ _ _ E).
Qed.

Lemma vm_ok_owned k k' pml4 t fl : vm_ok k pml4 t fl -> only_mem k k' -> k_kmem k' = k_kmem k ->
  (forall x a, owned t fl x -> x <= a < x + PGSIZE -> k_mem k' a = k_mem k a) -> vm_ok k' pml4 t fl.
Proof.
  intros Hok Ho Hk Hm. apply (vm_ok_ext Hok); [done| | |].
  - apply (free_pages_ext k); [apply Hok|done|by rewrite Hk|]. intros x a Hx Ha. apply (Hm x); [by left|done].
  - intros p v Hv. apply (vo_page _ _ _ _ Hok p v Hv).
  - intros p v a _ Hv Ha. apply (Hm v); [right; by exists p|done].
Qed.

(** The page at [x] belongs to no one of the three. *)
Definition foreign (t td : gmap (list Z) Z) (fl : list Z) (x : Z) : Prop :=
  x mod PGSIZE = 0 /\ ~ owned t fl x /\ ~ owned td fl x.

Lemma stack_segment k pml4 t d td fl v : two k pml4 t d td fl -> foreign t td fl (k_local k) ->
  let k' := set_k_mem (with_stack (k_mem k) (k_local k + 1024) v) k in two k' pml4 t d td fl /\ untouched td k k'.
Proof.
  intros (H1 & H2 & Hd) (Hl & Hn1 & Hn2) k'.
  assert (Hm : forall x a, x mod PGSIZE = 0 -> x <> k_local k -> x <= a < x + PGSIZE -> k_mem k' a = k_mem k a).
  { intros x a Hx Hne Ha. apply with_stack_other. destruct (pages_disjoint x (k_local k) Hx Hl Hne); unfold PGSIZE in *; lia. }
  assert (Ha : forall pml4 t, vm_ok k pml4 t fl -> forall x, owned t fl x -> x mod PGSIZE = 0).
  { intros ? ? Hok x [Hin|(p & Hp)]; [|by apply (node_aligned Hok p)].
    exact (proj1 (proj1 (Forall_forall _ _) (fp_ok _ _ (vo_free _ _ _ _ Hok)) x Hin)). }
  split; [split_and!; [apply (vm_ok_owned k)..|done]|]; try done; try by destruct k.
  - intros x a Hx. apply Hm; [by apply (Ha _ _ H1)|]. by intros ->.
  - intros x a Hx. apply Hm; [by apply (Ha _ _ H2)|]. by intros ->.
  - intros p x a Hx. apply Hm; [by apply (node_aligned H2 p)|]. intros ->. apply Hn2. right. by exists p.
Qed.

(** The process once the new image is in place. *)
Definition execed (path : list Z) (argc argvp entry d sz sp : Z) (p : proc) : proc :=
  set_p_tf (set_tf_rsp sp (set_tf_rcx entry (set_tf_rip entry (set_tf_rsi argvp (set_tf_rdi argc (p_tf p))))))
    (set_p_sz sz (set_p_pgdir d (set_p_name (safe_name (p_name p) (last_elem path path)) p))).

(** The registers of the arguments, which [exec] sets before the last step that can fail. *)
Definition arg_regs (argc argvp : Z) (p : proc) : proc := set_p_tf (set_tf_rsi argvp (set_tf_rdi argc (p_tf p))) p.

Definition exec_commit (path : list Z) (elf : elfhdr) (pgdir sz sp oldpgdir : Z) (i : nat) : M kst Z :=
  upd_proc i (fun x => set_p_name (safe_name (p_name x) (last_elem path path)) x);;
  upd_proc i (set_p_pgdir pgdir);;
  upd_proc i (set_p_sz sz);;
  upd_proc i (fun x => set_p_tf (set_tf_rip (elf_entry elf) (p_tf x)) x);;
  upd_proc i (fun x => set_p_tf (set_tf_rcx (elf_entry elf) (p_tf x)) x);;
  upd_proc i (fun x => set_p_tf (set_tf_rsp sp (p_tf x)) x);;
  x ← proc_at i;
  switchuvm x;;
  freevm oldpgdir;;
  mret 0.

Lemma two_sym k pml4 t d td fl : two k pml4 t d td fl -> two k d td pml4 t fl.
Proof. intros (H1 & H2 & Hd). split_and!; [done..|]. intros p q v Hv Hq. by apply (Hd q p v). Qed.
Lemma two_tables k k' pml4 t d td fl : two k pml4 t d td fl ->
  k_mem k' = k_mem k -> k_kmem k' = k_kmem k -> k_cpu k' = k_cpu k -> k_end k' = k_end k -> two k' pml4 t d td fl.
Proof. intros (H1 & H2 & Hd) E1 E2 E3 E4. split_and!; [by apply (vm_ok_tables k)..|done]. Qed.

Lemma exec_commit_ok k pml4 t d td fl i p T path elf sz sp argc argvp :
  two k pml4 t d td fl -> cpu_ok (k_cpu k) -> foreign t td fl (k_local k) ->
  (i < length T)%nat -> k_ptable k = <[i := arg_regs argc argvp p]> T ->
  exists k' fl', exec_commit path elf d sz sp pml4 i k = Ok 0 k' /\ eframe k k' /\ k_cr3 k' = V2P d /\
    k_ptable k' = <[i := execed path argc argvp (elf_entry elf) d sz sp p]> T /\
    vm_ok k' d td fl' /\ untouched td k k' /\ forall x, x ∈ fl' <-> owned t fl x.
Proof.
  intros H2 Hc Hfo Hi Hpt. unfold exec_commit. set (q := execed path argc argvp (elf_entry elf) d sz sp p).
  rewrite (bind_ok _ _ _ _ _ (upd_slot _ _ _ _ _ Hi Hpt)).
  do 5 (rewrite (bind_ok _ _ _ _ _ (upd_slot_again _ _ _ _ _ Hi)); cbv beta).
  set (x := set_p_tf _ _). assert (Ex : x = q) by (unfold x, q, execed, arg_regs; by destruct p).
  rewrite Ex. clear Ex. clearbody x. clear x. set (k1 := set_k_ptable (<[i := q]> T) k).
  assert (Ep : proc_at i k1 = Ok q k1)
    by (unfold proc_at, get, mbind, M_bind, k1; cbn [k_ptable set_k_ptable]; by rewrite list_lookup_insert_eq).
  rewrite (bind_ok _ _ _ _ _ Ep).
  pose proof H2 as (_ & Hd & _). pose proof (node_nonzero _ _ _ _ _ _ Hd (vo_root _ _ _ _ Hd)) as Hnz%Z.eqb_neq.
  assert (H21 : two k1 pml4 t d td fl) by (by apply (two_tables k)).
  destruct (stack_segment k1 pml4 t d td fl (u64 (p_kstack q + KSTACKSIZE)) H21 Hfo) as [H22 Hun2].
  rewrite (bind_ok _ _ _ _ _ (switchuvm_eq q k1 Hc Hnz)). change (p_pgdir q) with d.
  set (k2 := set_k_mem _ k1) in *. set (k3 := set_k_cr3 (V2P d) k2).
  assert (H23 : two k3 pml4 t d td fl) by (by apply (two_tables k2)).
  destruct (two_freevm _ _ _ _ _ _ (two_sym _ _ _ _ _ _ H23)) as (k4 & fl' & E4 & Ho4 & Hun4 & Hok4 & Hfl).
  rewrite (bind_ok _ _ _ _ _ E4). exists k4, fl'. split; [done|]. split_and!.
  - apply (eframe_trans _ k3); [unfold eframe, k3, k2, k1; by destruct k|by apply only_mem_eframe].
  - by rewrite Ho4.
  - by rewrite Ho4.
  - done.
  - by apply (untouched_trans td k k2 k4).
  - done.
Qed.

(** ** The whole of [exec_stack] *)

(** The words that [exec] pushes below the strings, and where they start. *)
Definition words_at (args : list (list Z)) (top : Z) : Z := arg_end args top - 8 * (Z.of_nat (length args) + 4).
Definition argv_at (args : list (list Z)) (top : Z) : Z := words_at args top + 24.
Definition argv_words (args : list (list Z)) (top : Z) : list Z := mjoin (le_bytes 8 <$> arg_addrs args top ++ [0]).
Definition head_words (args : list (list Z)) (top : Z) : list Z :=
  mjoin (le_bytes 8 <$> [4294967295; Z.of_nat (length args); argv_at args top]).

Definition exec_fits (base : Z) (args : list (list Z)) (top : Z) : Prop :=
  base <= words_at args top /\ Z.of_nat (length args) <= MAXARG.

Lemma arg_addrs_length args sp : length (arg_addrs args sp) = length args.
Proof. revert sp. induction args as [|a args IH]; intros sp; [done|]. cbn. by rewrite IH. Qed.

Lemma has_bytes_app k t va a b : has_bytes k t va (a ++ b) -> has_bytes k t (va + Z.of_nat (length a)) b.
Proof.
  intros H i x Hi. rewrite <- Z.add_assoc, <- Nat2Z.inj_add. apply H. rewrite lookup_app_r by lia.
  by replace (length a + i - length a)%nat with i by lia.
Qed.
Lemma has_bytes_head k t va a b : has_bytes k t va (a ++ b) -> has_bytes k t va a.
Proof. intros H i x Hi. apply H. by apply lookup_app_l_Some. Qed.

Lemma two_within k pml4 t d td fl lo hi k' : two k pml4 t d td fl -> within k td lo hi k' -> vm_ok k' d td fl ->
  two k' pml4 t d td fl /\ untouched t k k'.
Proof.
  intros H2 Hw Hok. assert (Hun : untouched t k k').
  { intros p v a Hv Ha. apply (wi_out _ _ _ _ _ Hw). intros q w _ Hq. destruct H2 as (H1 & Hd & Hdis).
    destruct (pages_disjoint v w (node_aligned H1 p v Hv) (node_aligned Hd q w Hq)); [|lia..].
    intros ->. by apply (Hdis p q w). }
  split; [|done]. by apply (two_frame k pml4 t d td fl); [|apply Hw|..].
Qed.

Lemma untouched_byte k t k' x : untouched t k k' -> user_byte k' t x = user_byte k t x.
Proof.
  intros Hu. unfold user_byte. destruct (t !! page_path x) as [w|] eqn:Hw; [|done]. f_equal. apply (Hu _ _ _ Hw).
  pose proof (Z.mod_pos_bound x PGSIZE ltac:(done)). lia.
Qed.

Lemma stack_untouched k d td fl k' base : vm_ok k d td fl -> untouched td k k' -> stack_at k td base -> stack_at k' td base.
Proof.
  intros Hok Hu [S1 S2 S3 S4]. constructor; [done..| |]; intros va Hva;
    rewrite (untouched_pte k d td fl) by (done || (apply user_path; unfold PGSIZE in *; lia)); auto.
Qed.

(** A program that can run: what the processor reads at the addresses that the registers
    hold, its guard page, and what [exec_load] had put below the stack. *)
Record new_image (path : list Z) (args : list (list Z)) (elf : elfhdr) (d lo : Z) (i : nat) (p : proc)
    (t td : gmap (list Z) Z) (fl : list Z) (k k' : kst) (td' : gmap (list Z) Z) (fl' : list Z) : Prop := {
  ni_vm : vm_ok k' d td' fl';
  ni_cr3 : k_cr3 k' = V2P d;
  ni_proc : let top := lo + 2 * PGSIZE in
    k_ptable k' = <[i := execed path (Z.of_nat (length args)) (argv_at args top) (elf_entry elf) d top
      (words_at args top) p]> (k_ptable k);
  ni_head : let top := lo + 2 * PGSIZE in read_user 24 (words_at args top) k' = Ok (head_words args top) k';
  ni_argv : let top := lo + 2 * PGSIZE in
    read_user (8 * S (length args)) (argv_at args top) k' = Ok (argv_words args top) k';
  ni_strings : Forall2 (fun a x => read_user (S (length a)) x k' = Ok (a ++ [0]) k') args
    (arg_addrs args (lo + 2 * PGSIZE));
  ni_stack : stack_at k' td' (lo + PGSIZE);
  ni_program : forall x, 0 <= x < lo -> user_byte k' td' x = user_byte k td x;
  ni_pages : forall x, owned td' fl' x <-> owned td fl x \/ exists q, t !! q = Some x
}.

(** The caller goes on: its memory is as before and the pages of the new image are free. *)
Record old_image (args : list (list Z)) (lo : Z) (i : nat) (p : proc) (t td : gmap (list Z) Z) (fl : list Z)
    (k k' : kst) (fl' : list Z) : Prop := {
  oi_vm : vm_ok k' (p_pgdir p) t fl';
  oi_cr3 : k_cr3 k' = k_cr3 k;
  oi_proc : k_ptable k' = k_ptable k \/
    k_ptable k' = <[i := arg_regs (Z.of_nat (length args)) (argv_at args (lo + 2 * PGSIZE)) p]> (k_ptable k);
  oi_memory : untouched t k k';
  oi_pages : forall x, x ∈ fl' <-> owned td fl x
}.

(** From the arguments' registers on. *)
Definition exec_finish (path : list Z) (args : list (list Z)) (elf : elfhdr) (pgdir sz sp : Z) (addrs : list Z) : M kst Z :=
  let argc := Z.of_nat (length args) in
  let argvp := u64 (sp - (argc + 1) * 8) in
  '(i, p) ← curproc;
  upd_proc i (fun x => set_p_tf (set_tf_rdi argc (p_tf x)) x);;
  upd_proc i (fun x => set_p_tf (set_tf_rsi argvp (p_tf x)) x);;
  let sp := u64 (sp - (3 + argc + 1) * 8) in
  let ustack := [4294967295; argc; argvp] ++ addrs ++ [0] in
  r ← copyout pgdir sp (mjoin (le_bytes 8 <$> ustack));
  if r <? 0 then exec_bad pgdir None else exec_commit path elf pgdir sz sp (p_pgdir p) i.

Lemma exec_stack_eq path args elf pgdir sz :
  exec_stack path args elf pgdir sz =
    (sz ← allocuvm pgdir (PGROUNDUP sz) (u64 (PGROUNDUP sz + 2 * PGSIZE));
     if sz =? 0 then exec_bad pgdir None else
     clearpteu pgdir (sz - 2 * PGSIZE);;
     r ← exec_args args 0 pgdir sz;
     match r with None => exec_bad pgdir None | Some (sp, addrs) => exec_finish path args elf pgdir sz sp addrs end).
Proof. unfold exec_stack, exec_finish, exec_commit. cbv zeta. reflexivity. Qed.

Lemma within_eframe k t lo hi k' : within k t lo hi k' -> eframe k k'.
Proof. intros Hw. apply only_mem_eframe, Hw. Qed.

Lemma words_eq args sp (argc := Z.of_nat (length args)) : 0 <= words_at args sp -> arg_end args sp < 2 ^ 64 ->
  u64 (arg_end args sp - (argc + 1) * 8) = argv_at args sp /\ u64 (arg_end args sp - (3 + argc + 1) * 8) = words_at args sp.
Proof. unfold argv_at, words_at. fold argc. intros H1 H2. rewrite !u64_small; lia. Qed.
Lemma words_length args sp : Z.of_nat (length (head_words args sp ++ argv_words args sp)) = 8 * (Z.of_nat (length args) + 4).
Proof. unfold head_words, argv_words. rewrite length_app, !length_words, length_app, arg_addrs_length. cbn [length]. lia. Qed.

Lemma exec_finish_ok k t d td fl i p path args elf base :
  let top := base + PGSIZE in let argc := Z.of_nat (length args) in
  two k (p_pgdir p) t d td fl -> cpu_ok (k_cpu k) -> foreign t td fl (k_local k) ->
  k_proc k = Some i -> k_ptable k !! i = Some p -> stack_at k td base ->
  args_fit base args 0 top -> strings_at k td args (arg_addrs args top) ->
  exists r k' fl', exec_finish path args elf d top (arg_end args top) (arg_addrs args top) k = Ok r k' /\ eframe k k' /\
    ((r = 0 /\ base <= words_at args top /\ vm_ok k' d td fl' /\ k_cr3 k' = V2P d /\
      k_ptable k' = <[i := execed path argc (argv_at args top) (elf_entry elf) d top (words_at args top) p]> (k_ptable k) /\
      has_bytes k' td (words_at args top) (head_words args top ++ argv_words args top) /\
      strings_at k' td args (arg_addrs args top) /\ stack_at k' td base /\
      (forall x, 0 <= x < base -> user_byte k' td x = user_byte k td x) /\ (forall x, x ∈ fl' <-> owned t fl x)) \/
     (r = -1 /\ words_at args top < base /\ vm_ok k' (p_pgdir p) t fl' /\ k_cr3 k' = k_cr3 k /\
      k_ptable k' = <[i := arg_regs argc (argv_at args top) p]> (k_ptable k) /\ untouched t k k' /\
      (forall x, x ∈ fl' <-> owned td fl x))).
Proof.
  intros top argc H2 Hc Hfo Hi Hp Hst [Hf1 Hf2] Hs. unfold exec_finish. fold argc.
  pose proof (st_low _ _ _ Hst). pose proof (st_high _ _ _ Hst). pose proof (arg_end_le args top) as Hle.
  pose proof (lookup_lt_Some _ _ _ Hp) as Hlt. fold argc in Hf2. change MAXARG with 32 in Hf2.
  assert (Hw : words_at args top = arg_end args top - 8 * (argc + 4)) by done.
  destruct (words_eq args top) as [Ha Hsp]; [rewrite Hw; unfold top, PGSIZE in *; lia|unfold top in *; lia|].
  fold argc in Ha, Hsp.
  rewrite Ha, Hsp. erewrite bind_ok; [|by apply curproc_eq]. cbv beta iota.
  assert (Hpt : k_ptable k = <[i := p]> (k_ptable k)) by (by rewrite list_insert_id).
  rewrite (bind_ok _ _ _ _ _ (upd_slot _ _ _ _ _ Hlt Hpt)).
  rewrite (bind_ok _ _ _ _ _ (upd_slot_again _ _ _ _ _ Hlt)). cbv beta.
  set (k1 := set_k_ptable _ k). assert (H21 : two k1 (p_pgdir p) t d td fl) by (by apply (two_tables k)).
  change (mjoin (le_bytes 8 <$> _)) with (head_words args top ++ argv_words args top).
  pose proof (words_length args top) as Hlen. fold argc in Hlen.
  set (bs := head_words args top ++ argv_words args top) in *.
  assert (Hst1 : stack_at k1 td base) by (destruct Hst; by constructor).
  destruct (stack_copyout k1 d td fl base (words_at args top) bs (proj1 (proj2 H21)) Hst1)
    as [(Hfit & k2 & E & Hok2 & Hw2 & Hb2)|(Hno & E)];
    [unfold PGSIZE in *; lia|unfold PGSIZE in *; lia|by intros E|..].
  - rewrite (bind_ok _ _ _ _ _ E). change (0 <? 0) with false. cbv iota.
    destruct (two_within _ _ _ _ _ _ _ _ _ H21 Hw2 Hok2) as [H22 Hun2].
    assert (Hk2 : k_ptable k2 = <[i := arg_regs argc (argv_at args top) p]> (k_ptable k) /\ k_cpu k2 = k_cpu k /\ k_local k2 = k_local k).
    { rewrite (wi_mem _ _ _ _ _ Hw2). unfold k1. by destruct k. }
    destruct Hk2 as (Hpt2 & Hc2 & Hl2).
    destruct (exec_commit_ok k2 (p_pgdir p) t d td fl i p (k_ptable k) path elf top (words_at args top) argc (argv_at args top))
      as (k3 & fl' & E3 & Hf3 & Hcr & Hpt3 & Hok3 & Hun3 & Hfl); [done|by rewrite Hc2|by rewrite Hl2|done|done|].
    assert (Hub : forall x, user_byte k3 td x = user_byte k2 td x) by (intros; by apply untouched_byte).
    assert (Hs2 : strings_at k2 td args (arg_addrs args top)).
    { eapply strings_within; [exact Hw2|unfold PGSIZE in *; lia|unfold top; lia|lia|]. exact Hs. }
    exists 0, k3, fl'. split; [exact E3|]. split.
    { apply (eframe_trans _ k2); [|done]. apply (eframe_trans _ k1); [unfold eframe, k1; by destruct k|by eapply within_eframe]. }
    left. split_and!; try done.
    + intros j b Hj. rewrite Hub. by apply Hb2.
    + eapply Forall2_impl; [exact Hs2|]. intros a x Hx j b Hj. rewrite Hub. by apply Hx.
    + apply (stack_untouched k2 d td fl); [done|done|by eapply stack_within].
    + intros x Hx. rewrite Hub. apply (wi_old _ _ _ _ _ Hw2); lia.
  - rewrite (bind_ok _ _ _ _ _ E). change (-1 <? 0) with true. cbv iota.
    destruct (exec_fail _ _ _ _ _ _ H21) as (k2 & fl' & E2 & Ho2 & Hun2 & Hok2 & Hfl).
    exists (-1), k2, fl'. split; [done|]. split.
    { apply (eframe_trans _ k1); [unfold eframe, k1; by destruct k|by apply only_mem_eframe]. }
    right. split_and!; try done; by rewrite Ho2.
Qed.

Lemma strings_read k d td fl args sp : vm_ok k d td fl -> k_cr3 k = V2P d -> 0 <= arg_end args sp -> sp <= 2 ^ 47 ->
  strings_at k td args (arg_addrs args sp) ->
  Forall2 (fun a x => read_user (S (length a)) x k = Ok (a ++ [0]) k) args (arg_addrs args sp).
Proof.
  intros Hok Hcr. revert sp. induction args as [|a args IH]; intros sp H0 H1 Hs; [constructor|].
  inversion Hs as [|? ? ? ? Ha Hr]; subst. pose proof (push_bounds sp a). pose proof (arg_end_le args (push sp a)).
  cbn [arg_end foldl] in H0. fold (arg_end args (push sp a)) in H0. constructor; [|apply IH; try done; lia].
  apply (read_user_ok Hok); [done|lia|lia| |exact Ha]. rewrite length_app. cbn [length]. lia.
Qed.

(** The new image so far is given up. *)
Lemma image_dropped k k1 t d td fl td1 fl1 i p args lo :
  two k1 (p_pgdir p) t d td1 fl1 -> only_mem k k1 -> untouched t k k1 -> (forall x, owned td1 fl1 x <-> owned td fl x) ->
  exists k2 fl', exec_bad d None k1 = Ok (-1) k2 /\ eframe k k2 /\ old_image args lo i p t td fl k k2 fl'.
Proof.
  intros H2 Ho1 Hu1 How. destruct (exec_fail _ _ _ _ _ _ H2) as (k2 & fl' & E2 & Ho2 & Hu2 & Hok2 & Hfl).
  exists k2, fl'. split; [done|]. assert (Ho : only_mem k k2) by (by eapply only_mem_trans).
  split; [by apply only_mem_eframe|]. constructor; try done.
  - by rewrite Ho.
  - left. by rewrite Ho.
  - by eapply untouched_trans.
  - intros x. by rewrite Hfl.
Qed.

Lemma foreign_owned t td fl td1 fl1 x : foreign t td fl x -> (forall y, owned td1 fl1 y <-> owned td fl y) ->
  foreign t td1 fl1 x.
Proof.
  intros (H1 & H2 & H3) H. split_and!; [done| |by rewrite H]. intros [Hin|(q & Hq)].
  - apply H3, H. by left.
  - apply H2. right. by exists q.
Qed.

(** The pages of the new image and the free ones, once the old image is freed. *)
Lemma all_owned t td fl td1 fl1 fl' : (forall y, owned td1 fl1 y <-> owned td fl y) -> (forall x, x ∈ fl' <-> owned t fl1 x) ->
  forall x, owned td1 fl' x <-> owned td fl x \/ exists q, t !! q = Some x.
Proof. intros H1 H2 x. rewrite <- H1. unfold owned in *. rewrite H2. naive_solver. Qed.

(** [exec] from the two stack pages on, in a state [k] where the process [p] in slot [i] has
    the address space [t], the new image so far is [td] and [fl] are the free pages. *)
Section Image.
Context (k : kst) (t : gmap (list Z) Z) (d : Z) (td : gmap (list Z) Z) (fl : list Z) (i : nat) (p : proc).
Context (path : list Z) (args : list (list Z)) (elf : elfhdr) (lo : Z).
Let base : Z := lo + PGSIZE.
Let top : Z := lo + 2 * PGSIZE.
Context (Hc : cpu_ok (k_cpu k)) (Hfo : foreign t td fl (k_local k)) (Hi : k_proc k = Some i) (Hp : k_ptable k !! i = Some p).
Context (Hf : Forall (fun a => Z.of_nat (length a) < 2 ^ 39) args) (Hlo : 0 <= lo).

(** What [exec_stack] has to establish. *)
Definition outcome_ok (o : outcome kst Z) : Prop :=
  (arg_wraps base args 0 top = true /\ o = Err (EFault "null pte")) \/
  exists r k', o = Ok r k' /\ eframe k k' /\
    ((r = 0 /\ exec_fits base args top /\ exists td' fl', new_image path args elf d lo i p t td fl k k' td' fl') \/
     (r = -1 /\ ((arg_wraps base args 0 top = false /\ ~ exec_fits base args top) \/ (length fl < 8)%nat) /\
      exists fl', old_image args lo i p t td fl k k' fl')).

(** The registers point to the arguments. *)
Lemma image_ready k' td' fl' :
  vm_ok k' d td' fl' -> k_cr3 k' = V2P d -> base <= words_at args top ->
  k_ptable k' = <[i := execed path (Z.of_nat (length args)) (argv_at args top) (elf_entry elf) d top
    (words_at args top) p]> (k_ptable k) ->
  has_bytes k' td' (words_at args top) (head_words args top ++ argv_words args top) ->
  strings_at k' td' args (arg_addrs args top) -> stack_at k' td' base ->
  (forall x, 0 <= x < lo -> user_byte k' td' x = user_byte k td x) ->
  (forall x, owned td' fl' x <-> owned td fl x \/ exists q, t !! q = Some x) ->
  new_image path args elf d lo i p t td fl k k' td' fl'.
Proof using Hlo.
  intros Hok Hcr Hw Hpt Hb Hs Hst Hub Hpg. pose proof (arg_end_le args top) as Hle. pose proof (st_high _ _ _ Hst) as Hhi.
  assert (Hsum : words_at args top + 8 * (Z.of_nat (length args) + 4) = arg_end args top) by (unfold words_at; lia).
  assert (Hh : length (head_words args top) = 24%nat) by done.
  assert (Hl : length (argv_words args top) = (8 * S (length args))%nat).
  { unfold argv_words. rewrite length_words, length_app, arg_addrs_length. cbn [length]. lia. }
  assert (Hb0 : 0 <= base) by (unfold base, PGSIZE; lia).
  assert (Htop : top <= 2 ^ 47) by (unfold base, PGSIZE in Hhi; unfold top, PGSIZE; lia).
  constructor; try done; cbv zeta; fold top.
  - apply (read_user_ok Hok); [done|lia|lia|done|]. exact (has_bytes_head _ _ _ _ _ Hb).
  - apply (read_user_ok Hok); [done|unfold argv_at; lia|unfold argv_at; lia|done|].
    exact (has_bytes_app _ _ _ _ _ Hb).
  - apply (strings_read _ _ _ _ _ _ Hok Hcr); [lia|done|done].
Qed.

(** From the guard page on. *)
Lemma exec_pushed k2 td1 fl1 :
  two k2 (p_pgdir p) t d td1 fl1 -> only_mem k k2 -> untouched t k k2 -> (forall x, owned td1 fl1 x <-> owned td fl x) ->
  image_at k2 d td1 base -> (forall x, 0 <= x < lo -> user_byte k2 td1 x = user_byte k td x) ->
  outcome_ok ((r ← exec_args args 0 d top;
    match r with None => exec_bad d None | Some (sp, addrs) => exec_finish path args elf d top sp addrs end) k2).
Proof using Hc Hfo Hi Hp Hf Hlo.
  intros H2 Ho Hu How Him Hub. assert (Etop : top = base + PGSIZE) by (unfold base, top; lia).
  pose proof (im_stack _ _ _ _ Him) as Hst. pose proof (st_high _ _ _ Hst) as Hhi. unfold outcome_ok.
  pose proof (exec_args_ok args k2 d td1 fl1 base 0 top (proj1 (proj2 H2)) Him ltac:(unfold base, top, PGSIZE; lia) ltac:(done) Hf) as Hargs.
  destruct (arg_wraps base args 0 top); [left; split; [done|]; unfold mbind, M_bind; by rewrite Hargs|right].
  destruct Hargs as (r & k3 & E3 & Hok3 & Hw3 & Hr). rewrite (bind_ok _ _ _ _ _ E3).
  destruct (two_within _ _ _ _ _ _ _ _ _ H2 Hw3 Hok3) as [H23 Hu3].
  assert (Ho3 : only_mem k k3) by (eapply only_mem_trans; [exact Ho|apply Hw3]).
  assert (Hu03 : untouched t k k3) by (by eapply untouched_trans).
  destruct Hr as [(Hfit & -> & Hwa & Hs)|(Hno & ->)].
  2: { destruct (image_dropped k k3 t d td fl td1 fl1 i p args lo) as (k4 & fl' & E4 & Hf4 & H4); [done..|].
       exists (-1), k4. split_and!; [done..|]. right. split_and!; [done| |by exists fl'].
       left. split; [done|]. intros [F1 F2]. apply Hno. unfold args_fit, words_at in *. lia. }
  assert (Hk3 : k_cpu k3 = k_cpu k /\ k_local k3 = k_local k /\ k_proc k3 = k_proc k /\ k_ptable k3 = k_ptable k /\ k_cr3 k3 = k_cr3 k)
    by (rewrite Ho3; done).
  destruct Hk3 as (Hk1 & Hk2 & Hk3 & Hk4 & Hk5).
  destruct (exec_finish_ok k3 t d td1 fl1 i p path args elf base) as (r & k4 & fl' & E4 & Hf4 & H4);
    [done|by rewrite Hk1|rewrite Hk2; by eapply foreign_owned|by rewrite Hk3|by rewrite Hk4|by eapply stack_within|by rewrite <- Etop|by rewrite <- Etop|].
  rewrite <- Etop in E4, H4. exists r, k4. split; [exact E4|].
  split; [apply (eframe_trans _ k3); [by apply only_mem_eframe|done]|].
  destruct H4 as [(-> & Hfw & Hok4 & Hcr & Hpt & Hb & Hs4 & Hst4 & Hub4 & Hfl)|(-> & Hno & Hok4 & Hcr & Hpt & Hu4 & Hfl)];
    [left|right]; rewrite Hk4 in Hpt.
  - split; [done|]. split; [split; [done|apply Hfit]|]. exists td1, fl'. apply image_ready; try done.
    + intros x Hx. destruct Hfit as [Hfit _].
      rewrite Hub4, (wi_old _ _ _ _ _ Hwa), Hub; unfold base, PGSIZE in *; done || lia.
    + by apply (all_owned t td fl td1 fl1).
  - split; [done|]. split; [left; split; [done|]; intros [F1 _]; lia|]. exists fl'. constructor; try done.
    + by rewrite Hcr.
    + by right.
    + by eapply untouched_trans.
    + intros x. by rewrite Hfl.
Qed.
End Image.

Lemma exec_stack_ok k t d td fl i p path args elf sz :
  let lo := PGROUNDUP sz in let base := lo + PGSIZE in let top := lo + 2 * PGSIZE in
  two k (p_pgdir p) t d td fl -> foreign t td fl (k_local k) ->
  k_proc k = Some i -> k_ptable k !! i = Some p ->
  PGSIZE <= sz <= 2 ^ 47 -> top <= 2 ^ 47 -> unmapped td lo top ->
  accessible k td PGSIZE lo -> unmapped td 0 PGSIZE -> high_free k d ->
  Forall (fun a => Z.of_nat (length a) < 2 ^ 39) args ->
  outcome_ok k t d td fl i p path args elf lo (exec_stack path args elf d sz k).
Proof.
  intros lo base top H2 Hfo Hi Hp Hsz Hhi Hun Hacc Hz0 Hhf Hf.
  destruct (PGROUNDUP_spec sz ltac:(unfold PGSIZE in *; lia)) as [Hlo Hlo'].
  fold lo in Hlo, Hlo'. rewrite exec_stack_eq. fold lo.
  destruct (stack_alloc k (p_pgdir p) t d td fl lo H2 Hlo Hhi Hun)
    as (r & k1 & td1 & fl1 & E1 & H21 & Ho1 & Hu1 & How1 & Hr). rewrite (bind_ok _ _ _ _ _ E1).
  destruct Hr as [(-> & Hz & Hub1 & Hacc1 & Hhf1 & Hpg1)|(-> & Hl)].
  2: { destruct (image_dropped k k1 t d td fl td1 fl1 i p args lo) as (k2 & fl' & E2 & Hf2 & H'); [done..|].
       right. exists (-1), k2. split_and!; [exact E2|done|]. right. split_and!; [done|by right|by exists fl']. }
  rewrite (proj2 (Z.eqb_neq _ _)) by (destruct Hlo; unfold PGSIZE; lia).
  replace (lo + 2 * PGSIZE - 2 * PGSIZE) with lo by lia.
  destruct (guard_page k1 (p_pgdir p) t d td1 fl1 lo H21 Hlo Hhi Hz) as (k2 & E2 & H22 & Ho2 & Hu2 & Hst2 & Hub2 & Hacc2 & Hhf2).
  rewrite (bind_ok _ _ _ _ _ E2).
  refine (exec_pushed k t d td fl i p path args elf lo (fp_cpu _ _ (vo_free _ _ _ _ (proj1 H2))) Hfo Hi Hp Hf (proj1 (proj1 Hlo)) k2 td1 fl1 H22 _ _ How1 _ _).
  - by eapply only_mem_trans.
  - by eapply untouched_trans.
  - constructor; [done| | | |by auto].
    + split; [lia|]. destruct Hlo as [_ Hlm]. rewrite Z.add_mod, Hlm by done. done.
    + replace (lo + PGSIZE - PGSIZE) with lo by lia. auto.
    + intros va Hva. rewrite Hpg1 by lia. rewrite <- page_path_down. apply Hz0; [|unfold PGSIZE in *; Z.div_mod_to_equations; lia].
      split; [unfold PGSIZE in *; Z.div_mod_to_equations; lia|]. unfold PGSIZE in *. Z.div_mod_to_equations. lia.
  - intros x Hx. by rewrite Hub2, Hub1.
Qed.

(** The strings alone take their lengths, so that a page of them is too much. *)
Definition args_length (args : list (list Z)) : Z := foldr (fun a n => Z.of_nat (length a) + 1 + n) 0 args.

Lemma arg_end_sum args sp : arg_end args sp <= sp - args_length args.
Proof.
  revert sp. induction args as [|a args IH]; intros sp; cbn [args_length foldr]; [cbn; lia|]. fold (args_length args).
  cbn [arg_end foldl]. fold (arg_end args (push sp a)). specialize (IH (push sp a)). pose proof (push_bounds sp a). lia.
Qed.

(** No string wraps around that is shorter than a page. *)
Lemma short_no_wrap base args argc sp : PGSIZE <= base <= sp -> Forall (fun a => Z.of_nat (length a) + 8 <= PGSIZE) args ->
  arg_wraps base args argc sp = false.
Proof.
  intros Hb Hf. revert argc sp Hb. induction Hf as [|a args Ha _ IH]; intros argc sp Hb; cbn [arg_wraps]; [done|].
  rewrite (proj2 (Z.ltb_ge sp _)) by lia. cbn [orb]. destruct (Z.leb_spec base (push sp a)); [|by rewrite !andb_false_r].
  rewrite IH by lia. by rewrite !andb_false_r.
Qed.

Lemma exec_too_long k t d td fl i p path args elf sz :
  let lo := PGROUNDUP sz in let top := lo + 2 * PGSIZE in
  two k (p_pgdir p) t d td fl -> foreign t td fl (k_local k) ->
  k_proc k = Some i -> k_ptable k !! i = Some p ->
  PGSIZE <= sz <= 2 ^ 47 -> top <= 2 ^ 47 -> unmapped td lo top ->
  accessible k td PGSIZE lo -> unmapped td 0 PGSIZE -> high_free k d ->
  Forall (fun a => Z.of_nat (length a) + 8 <= PGSIZE) args -> PGSIZE <= args_length args ->
  exists k' fl', exec_stack path args elf d sz k = Ok (-1) k' /\ old_image args lo i p t td fl k k' fl'.
Proof.
  intros lo top H2 Hfo Hi Hp Hsz Hhi Hun Hacc Hz0 Hhf Hl Hlen. pose proof (arg_end_sum args top) as Hend.
  destruct (PGROUNDUP_spec sz ltac:(unfold PGSIZE in *; lia)) as [_ Hlo].
  destruct (exec_stack_ok k t d td fl i p path args elf sz) as [[Hw _]|(r & k' & E & _ & [(_ & [Hfit _] & _)|(-> & _ & fl' & Ho)])]; try done.
  - eapply Forall_impl; [exact Hl|]. intros a Ha. cbn beta in *. unfold PGSIZE in *. lia.
  - rewrite short_no_wrap in Hw; [done| |done]. unfold PGSIZE in *. lia.
  - exfalso. fold lo in Hfit. fold top in Hfit. unfold words_at in Hfit. unfold top in *. lia.
  - by exists k', fl'.
Qed.




