(* ===== verification/Machine.v ===== *)
(** Device access: the port and memory-mapped registers that the drivers use, as the
    operations of an unspecified device.  The inline assembly of [src/x86.h] ([inb], [outb],
    [insl], [outsl]) is one operation each. *)
From Stdlib Require Import ZArith Lia.
From stdpp Require Import base gmap sets strings numbers list.
From S2P Require Import Prelude State Spinlock.

Local Open Scope Z_scope.

(** A machine's devices with state [D].  A read may change the device. *)
Class Device (D : Type) : Type := {
  dev_inb : Z -> D -> Z * D;
  dev_outb : Z -> Z -> D -> D;
  dev_insl : Z -> nat -> D -> list Z * D;
  dev_outsl : Z -> list Z -> D -> D;
  dev_read : Z -> D -> Z * D;
  dev_write : Z -> Z -> D -> D
}.

(** The kernel with its devices: the kernel's globals, those of the drivers, the devices. *)
Record mach (D : Type) : Type := mk_mach {
  mc_k : kst;
  mc_dev : D;
  mc_idequeue : option nat;
  mc_qnext : nat -> option nat;
  mc_havedisk1 : bool;
  mc_lapic : Z;
  mc_apicids : list Z;
  mc_ioapicid : Z;
  mc_cpucalls : Z
}.
Arguments mk_mach {D}.
Arguments mc_k {D}.
Arguments mc_dev {D}.
Arguments mc_idequeue {D}.
Arguments mc_qnext {D}.
Arguments mc_havedisk1 {D}.
Arguments mc_lapic {D}.
Arguments mc_apicids {D}.
Arguments mc_ioapicid {D}.
Arguments mc_cpucalls {D}.

Section Setters.
Context {D : Type}.
Implicit Types s : mach D.

Definition set_mc_k (v : kst) s : mach D :=
  mk_mach v (mc_dev s) (mc_idequeue s) (mc_qnext s) (mc_havedisk1 s) (mc_lapic s) (mc_apicids s) (mc_ioapicid s) (mc_cpucalls s).
Definition set_mc_dev (v : D) s : mach D :=
  mk_mach (mc_k s) v (mc_idequeue s) (mc_qnext s) (mc_havedisk1 s) (mc_lapic s) (mc_apicids s) (mc_ioapicid s) (mc_cpucalls s).
Definition set_mc_idequeue (v : option nat) s : mach D :=
  mk_mach (mc_k s) (mc_dev s) v (mc_qnext s) (mc_havedisk1 s) (mc_lapic s) (mc_apicids s) (mc_ioapicid s) (mc_cpucalls s).
Definition set_mc_qnext (v : nat -> option nat) s : mach D :=
  mk_mach (mc_k s) (mc_dev s) (mc_idequeue s) v (mc_havedisk1 s) (mc_lapic s) (mc_apicids s) (mc_ioapicid s) (mc_cpucalls s).
Definition set_mc_havedisk1 (v : bool) s : mach D :=
  mk_mach (mc_k s) (mc_dev s) (mc_idequeue s) (mc_qnext s) v (mc_lapic s) (mc_apicids s) (mc_ioapicid s) (mc_cpucalls s).
Definition set_mc_lapic (v : Z) s : mach D :=
  mk_mach (mc_k s) (mc_dev s) (mc_idequeue s) (mc_qnext s) (mc_havedisk1 s) v (mc_apicids s) (mc_ioapicid s) (mc_cpucalls s).
Definition set_mc_apicids (v : list Z) s : mach D :=
  mk_mach (mc_k s) (mc_dev s) (mc_idequeue s) (mc_qnext s) (mc_havedisk1 s) (mc_lapic s) v (mc_ioapicid s) (mc_cpucalls s).
Definition set_mc_ioapicid (v : Z) s : mach D :=
  mk_mach (mc_k s) (mc_dev s) (mc_idequeue s) (mc_qnext s) (mc_havedisk1 s) (mc_lapic s) (mc_apicids s) v (mc_cpucalls s).
Definition set_mc_cpucalls (v : Z) s : mach D :=
  mk_mach (mc_k s) (mc_dev s) (mc_idequeue s) (mc_qnext s) (mc_havedisk1 s) (mc_lapic s) (mc_apicids s) (mc_ioapicid s) v.

(** Kernel code that does not touch a device. *)
Definition kernel {A} (m : M kst A) : M (mach D) A := fun s =>
  match m (mc_k s) with
  | Ok a k => Ok a (set_mc_k k s)
  | Blocked k => Blocked (set_mc_k k s)
  | Err e => Err e
  end.

Context `{Device D}.

Definition inb (port : Z) : M (mach D) Z := fun s =>
  let '(v, d) := dev_inb port (mc_dev s) in Ok v (set_mc_dev d s).
Definition outb (port v : Z) : M (mach D) unit :=
  modify (fun s => set_mc_dev (dev_outb port (u8 v) (mc_dev s)) s).
(** [insl(port, addr, cnt)]: the [4 * cnt] bytes that it stores. *)
Definition insl (port : Z) (cnt : nat) : M (mach D) (list Z) := fun s =>
  let '(v, d) := dev_insl port cnt (mc_dev s) in Ok v (set_mc_dev d s).
Definition outsl (port : Z) (bs : list Z) : M (mach D) unit :=
  modify (fun s => set_mc_dev (dev_outsl port bs (mc_dev s)) s).
(** A 32-bit access to a device register in memory. *)
Definition readl (a : Z) : M (mach D) Z := fun s =>
  let '(v, d) := dev_read a (mc_dev s) in Ok v (set_mc_dev d s).
Definition writel (a v : Z) : M (mach D) unit :=
  modify (fun s => set_mc_dev (dev_write a (u32 v) (mc_dev s)) s).

Lemma kernel_ok {A} (m : M kst A) a k s : m (mc_k s) = Ok a k -> kernel m s = Ok a (set_mc_k k s).
Proof using. intros E. unfold kernel. by rewrite E. Qed.
Lemma kernel_blocked {A} (m : M kst A) k s : m (mc_k s) = Blocked k -> kernel m s = Blocked (set_mc_k k s).
Proof using. intros E. unfold kernel. by rewrite E. Qed.
End Setters.

(** A machine without devices: reads find the bus idle. *)
#[global] Instance null_device : Device unit := {
  dev_inb _ d := (255, d);
  dev_outb _ _ d := d;
  dev_insl _ n d := (replicate (4 * n) 255, d);
  dev_outsl _ _ d := d;
  dev_read _ d := (2 ^ 32 - 1, d);
  dev_write _ _ d := d
}.
