(* ===== verification/Apic.v ===== *)
(** The interrupt controllers, [src/ioapic.c] and [src/lapic.c], and [uartinit] of
    [src/uart.c]. *)
From Stdlib Require Import ZArith Lia.
From stdpp Require Import base gmap sets strings numbers list.
From S2P Require Import Prelude State Spinlock Sched Fs Console Dir Kalloc Vm Trap Machine.

Local Open Scope Z_scope.

(** ** [src/ioapic.c] *)
Definition IOAPIC : Z := 4273995776.
Definition REG_ID : Z := 0.
Definition REG_VER : Z := 1.
Definition REG_TABLE : Z := 16.
Definition INT_DISABLED : Z := 65536.

Section Ioapic.
Context {D : Type} `{Device D}.

(** The fields [reg] and [data] of [struct ioapic]. *)
Definition ioapic_reg : Z := P2V IOAPIC.
Definition ioapic_data : Z := P2V IOAPIC + 16.

Definition ioapicread (reg : Z) : M (mach D) Z := writel ioapic_reg reg;; readl ioapic_data.
Definition ioapicwrite (reg data : Z) : M (mach D) unit := writel ioapic_reg reg;; writel ioapic_data data.

(** The loop of [ioapicinit] from [i] on. *)
Fixpoint ioapic_mask (n : nat) (i : Z) : M (mach D) unit :=
  match n with
  | O => mret tt
  | S n' =>
      ioapicwrite (REG_TABLE + 2 * i) (Z.lor INT_DISABLED (T_IRQ0 + i));;
      ioapicwrite (REG_TABLE + 2 * i + 1) 0;;
      ioapic_mask n' (i + 1)
  end.

Definition ioapicinit : M (mach D) unit :=
  v ← ioapicread REG_VER;
  let maxintr := Z.land (Z.shiftr v 16) 255 in
  w ← ioapicread REG_ID;
  ioapicid ← gets mc_ioapicid;
  (if negb (Z.shiftr w 24 =? ioapicid) then
     kernel (cprintf (bytes_of "ioapicinit: id isn't equal to ioapicid; not a MP" ++ [10]) [])
   else mret tt);;
  ioapic_mask (Z.to_nat (maxintr + 1)) 0.

Definition ioapicenable (irq cpunum : Z) : M (mach D) unit :=
  ioapicwrite (REG_TABLE + 2 * irq) (T_IRQ0 + irq);;
  ioapicwrite (REG_TABLE + 2 * irq + 1) (Z.shiftl cpunum 24).
End Ioapic.

(** ** [uartinit] *)
Definition COM1 : Z := 1016.
Definition uartinit {D} `{Device D} : M (mach D) unit :=
  k ← gets mc_k;
  if negb (co_uart (k_cons k)) then mret tt else
  inb (COM1 + 2);;
  inb (COM1 + 0);;
  ioapicenable IRQ_COM1 0.

(** ** [src/lapic.c] *)
Definition ID : Z := 8.
Definition VER : Z := 12.
Definition TPR : Z := 32.
Definition EOI : Z := 44.
Definition SVR : Z := 60.
Definition ENABLE : Z := 256.
Definition ESR : Z := 160.
Definition ICRLO : Z := 192.
Definition INIT : Z := 1280.
Definition STARTUP : Z := 1536.
Definition DELIVS : Z := 4096.
Definition ASSERT : Z := 16384.
Definition LEVEL : Z := 32768.
Definition BCAST : Z := 524288.
Definition ICRHI : Z := 196.
Definition TIMER : Z := 200.
Definition X1 : Z := 11.
Definition PERIODIC : Z := 131072.
Definition PCINT : Z := 208.
Definition LINT0 : Z := 212.
Definition LINT1 : Z := 216.
Definition ERROR : Z := 220.
Definition MASKED : Z := 65536.
Definition TICR : Z := 224.
Definition TDCR : Z := 248.
Definition IRQ_ERROR : Z := 19.

(** [struct rtcdate] of [src/date.h] *)
Record rtcdate : Type := mk_rtcdate {
  rt_second : Z;
  rt_minute : Z;
  rt_hour : Z;
  rt_day : Z;
  rt_month : Z;
  rt_year : Z
}.
#[global] Instance rtcdate_eq_dec : EqDecision rtcdate.
Proof. solve_decision. Defined.

Section Lapic.
Context {D : Type} `{Device D}.

(** [lapic[index]] *)
Definition lapic_read (index : Z) : M (mach D) Z := l ← gets mc_lapic; readl (l + 4 * index).
Definition lapicw (index value : Z) : M (mach D) unit :=
  l ← gets mc_lapic;
  writel (l + 4 * index) value;;
  lapic_read ID;;
  mret tt.

(** Until the interrupt is delivered, at most [wait] times. *)
Fixpoint lapic_delivered (wait : nat) : M (mach D) unit :=
  match wait with
  | O => fail EFuel
  | S wait' => v ← lapic_read ICRLO; if has v DELIVS then lapic_delivered wait' else mret tt
  end.

Definition lapicinit (wait : nat) : M (mach D) unit :=
  l ← gets mc_lapic;
  if l =? 0 then mret tt else
  lapicw SVR (Z.lor ENABLE (T_IRQ0 + IRQ_SPURIOUS));;
  lapicw TDCR X1;;
  lapicw TIMER (Z.lor PERIODIC (T_IRQ0 + IRQ_TIMER));;
  lapicw TICR 10000000;;
  lapicw LINT0 MASKED;;
  lapicw LINT1 MASKED;;
  v ← lapic_read VER;
  (if 4 <=? Z.land (Z.shiftr v 16) 255 then lapicw PCINT MASKED else mret tt);;
  lapicw ERROR (T_IRQ0 + IRQ_ERROR);;
  lapicw ESR 0;;
  lapicw ESR 0;;
  lapicw EOI 0;;
  lapicw ICRHI 0;;
  lapicw ICRLO (Z.lor (Z.lor BCAST INIT) LEVEL);;
  lapic_delivered wait;;
  lapicw TPR 0.

(** The index of the first CPU with the identifier. *)
Fixpoint find_apic (apicid : Z) (ids : list Z) (i : Z) : option Z :=
  match ids with
  | [] => None
  | a :: ids' => if a =? apicid then Some i else find_apic apicid ids' (i + 1)
  end.

(** [ra] is the return address of the call. *)
Definition cpunum (ra : Z) : M (mach D) Z :=
  k ← gets mc_k;
  (if intr_on (k_cpu k) then
     n ← gets mc_cpucalls;
     modify (set_mc_cpucalls (i32 (n + 1)));;
     (if n =? 0 then
        kernel (cprintf (bytes_of "cpu called from %x with interrupts enabled" ++ [10]) [VInt ra])
      else mret tt)
   else mret tt);;
  l ← gets mc_lapic;
  if l =? 0 then mret 0 else
  v ← lapic_read ID;
  ids ← gets mc_apicids;
  match find_apic (Z.shiftr v 24) ids 0 with
  | Some i => mret i
  | None => panic ("unknown apicid" +:+ String (Ascii.ascii_of_nat 10) "")
  end.

Definition lapiceoi : M (mach D) unit :=
  l ← gets mc_lapic;
  if l =? 0 then mret tt else lapicw EOI 0.

Definition CMOS_PORT : Z := 112.
Definition CMOS_RETURN : Z := 113.

Definition lapicstartap (apicid addr : Z) : M (mach D) unit :=
  outb CMOS_PORT 15;;
  outb (CMOS_PORT + 1) 10;;
  let wrv := P2V (Z.lor (Z.shiftl 64 4) 103) in
  kernel (modify (fun k => set_k_mem (store 2 (k_mem k) wrv 0) k));;
  kernel (modify (fun k => set_k_mem (store 2 (k_mem k) (wrv + 2) (Z.shiftr addr 4)) k));;
  lapicw ICRHI (Z.shiftl apicid 24);;
  lapicw ICRLO (Z.lor (Z.lor INIT LEVEL) ASSERT);;
  lapicw ICRLO (Z.lor INIT LEVEL);;
  lapicw ICRHI (Z.shiftl apicid 24);;
  lapicw ICRLO (Z.lor STARTUP (Z.shiftr addr 12));;
  lapicw ICRHI (Z.shiftl apicid 24);;
  lapicw ICRLO (Z.lor STARTUP (Z.shiftr addr 12)).

(** *** The clock *)
Definition CMOS_STATA : Z := 10.
Definition CMOS_STATB : Z := 11.
Definition CMOS_UIP : Z := Z.shiftl 1 7.

Definition cmos_read (reg : Z) : M (mach D) Z := outb CMOS_PORT reg;; inb CMOS_RETURN.

Definition fill_rtcdate : M (mach D) rtcdate :=
  second ← cmos_read 0;
  minute ← cmos_read 2;
  hour ← cmos_read 4;
  day ← cmos_read 7;
  month ← cmos_read 8;
  year ← cmos_read 9;
  mret (mk_rtcdate second minute hour day month year).

(** Until two readings agree, at most [wait] rounds. *)
Fixpoint cmos_stable (wait : nat) : M (mach D) rtcdate :=
  match wait with
  | O => fail EFuel
  | S wait' =>
      t1 ← fill_rtcdate;
      sa ← cmos_read CMOS_STATA;
      if has sa CMOS_UIP then cmos_stable wait' else
      t2 ← fill_rtcdate;
      if bool_decide (t1 = t2) then mret t1 else cmos_stable wait'
  end.

Definition CONV (x : Z) : Z := u32 (Z.shiftr x 4 * 10 + Z.land x 15).
Definition conv_date (t : rtcdate) : rtcdate :=
  mk_rtcdate (CONV (rt_second t)) (CONV (rt_minute t)) (CONV (rt_hour t)) (CONV (rt_day t))
    (CONV (rt_month t)) (CONV (rt_year t)).

Definition cmostime (wait : nat) : M (mach D) rtcdate :=
  sb ← cmos_read CMOS_STATB;
  let bcd := Z.land sb (Z.shiftl 1 2) =? 0 in
  t1 ← cmos_stable wait;
  let t := if bcd then conv_date t1 else t1 in
  mret (mk_rtcdate (rt_second t) (rt_minute t) (rt_hour t) (rt_day t) (rt_month t) (u32 (rt_year t + 2000))).
End Lapic.
