(* ===== verification/Ide.v ===== *)
(** The IDE disk driver, [src/ide.c]: a queue of requests that the disk's interrupts serve.

    [Ata] states what the driver relies on of the disk: the registers and commands of
    programmed I/O as the ATA standard documents them.  The theorems are proved against this
    interface, and [sim] is a simple disk that has it. *)
From Stdlib Require Import ZArith Lia.
From stdpp Require Import base gmap sets strings numbers list.
From S2P Require Import Prelude State Spinlock Sched Bio Fs Console Dir Kalloc Vm Trap Machine Apic.

Local Open Scope Z_scope.

Definition SECTOR_SIZE : Z := 512.
Definition IDE_BSY : Z := 128.
Definition IDE_DRDY : Z := 64.
Definition IDE_DF : Z := 32.
Definition IDE_ERR : Z := 1.
Definition IDE_CMD_READ : Z := 32.
Definition IDE_CMD_WRITE : Z := 48.
Definition IDE_CMD_RDMUL : Z := 196.
Definition IDE_CMD_WRMUL : Z := 197.

Section Ide.
Context {D : Type} `{Device D}.

(** The disk is polled at most [wait] times. *)
Context (wait : nat).

Fixpoint idewait_loop (n : nat) (checkerr : bool) : M (mach D) Z :=
  match n with
  | O => fail EFuel
  | S n' =>
      r ← inb 503;
      if negb (Z.land r (Z.lor IDE_BSY IDE_DRDY) =? IDE_DRDY) then idewait_loop n' checkerr
      else if checkerr && negb (Z.land r (Z.lor IDE_DF IDE_ERR) =? 0) then mret (-1)
      else mret 0
  end.
Definition idewait (checkerr : bool) : M (mach D) Z := idewait_loop wait checkerr.

(** The loop of [ideinit] that looks for disk 1. *)
Fixpoint ide_probe (n : nat) : M (mach D) unit :=
  match n with
  | O => mret tt
  | S n' =>
      r ← inb 503;
      if negb (r =? 0) then modify (set_mc_havedisk1 true) else ide_probe n'
  end.

Definition ideinit : M (mach D) unit :=
  kernel (initlock L_ide);;
  ids ← gets mc_apicids;
  ioapicenable IRQ_IDE (Z.of_nat (length ids) - 1);;
  idewait false;;
  outb 502 (Z.lor 224 (Z.shiftl 1 4));;
  ide_probe 1000;;
  outb 502 (Z.lor 224 (Z.shiftl 0 4)).

(** [idestart] of the buffer [b]. *)
Definition idestart (b : nat) : M (mach D) unit :=
  x ← kernel (buf_at b);
  if FSSIZE <=? b_blockno x then panic "incorrect blockno" else
  let sector_per_block := BSIZE / SECTOR_SIZE in
  let sector := i32 (b_blockno x * sector_per_block) in
  let read_cmd := if sector_per_block =? 1 then IDE_CMD_READ else IDE_CMD_RDMUL in
  let write_cmd := if sector_per_block =? 1 then IDE_CMD_WRITE else IDE_CMD_WRMUL in
  if 7 <? sector_per_block then panic "idestart" else
  idewait false;;
  outb 1014 0;;
  outb 498 sector_per_block;;
  outb 499 (Z.land sector 255);;
  outb 500 (Z.land (Z.shiftr sector 8) 255);;
  outb 501 (Z.land (Z.shiftr sector 16) 255);;
  outb 502 (Z.lor (Z.lor 224 (Z.shiftl (Z.land (b_dev x) 1) 4)) (Z.land (Z.shiftr sector 24) 15));;
  if has (b_flags x) B_DIRTY then
    outb 503 write_cmd;;
    outsl 496 (b_data x)
  else outb 503 read_cmd.

(** [idestart(idequeue)], which panics on a null pointer. *)
Definition idestart_queue : M (mach D) unit :=
  q ← gets mc_idequeue;
  match q with
  | None => panic "idestart"
  | Some b => idestart b
  end.

Definition ideintr : M (mach D) unit :=
  kernel (acquire L_ide);;
  q ← gets mc_idequeue;
  match q with
  | None => kernel (release L_ide)
  | Some b =>
      qn ← gets mc_qnext;
      modify (set_mc_idequeue (qn b));;
      x ← kernel (buf_at b);
      (if negb (has (b_flags x) B_DIRTY) then
         r ← idewait true;
         if 0 <=? r then bs ← insl 496 (Z.to_nat (BSIZE / 4)); kernel (upd_buf b (set_b_data bs)) else mret tt
       else mret tt);;
      kernel (upd_buf b (fun x => set_b_flags (Z.lor (b_flags x) B_VALID) x));;
      kernel (upd_buf b (fun x => set_b_flags (Z.land (b_flags x) (Z.lnot B_DIRTY)) x));;
      kernel (wakeup (Ch_buf b));;
      q ← gets mc_idequeue;
      (match q with None => mret tt | Some _ => idestart_queue end);;
      kernel (release L_ide)
  end.

(** The walk along the queue to the null link: the buffer whose [qnext] it is, or [None] if
    it is [idequeue] itself.  A queue of distinct buffers has at most [NBUF] links. *)
Fixpoint queue_end (n : nat) (qn : nat -> option nat) (b : nat) : option nat :=
  match n with
  | O => None
  | S n' => match qn b with None => Some b | Some c => queue_end n' qn c end
  end.

Definition ide_append (b : nat) : M (mach D) unit :=
  modify (fun s => set_mc_qnext (fun i => if decide (i = b) then None else mc_qnext s i) s);;
  s ← get;
  match mc_idequeue s with
  | None => put (set_mc_idequeue (Some b) s)
  | Some h =>
      match queue_end (S NBUF) (mc_qnext s) h with
      | None => fail EFuel
      | Some e => put (set_mc_qnext (fun i => if decide (i = e) then Some b else mc_qnext s i) s)
      end
  end.

(** The wait at the end of [iderw].  A process that sleeps stops here; [iderw_resume] is what
    it does when it is scheduled again, from the switch in [sched] on ([ie] is the [intena]
    that it had saved). *)
Definition iderw_wait (b : nat) : M (mach D) unit :=
  x ← kernel (buf_at b);
  (if negb (Z.land (b_flags x) (Z.lor B_VALID B_DIRTY) =? B_VALID) then kernel (sleep (Ch_buf b) L_ide) else mret tt);;
  kernel (release L_ide).
Definition iderw_resume (ie : bool) (b : nat) : M (mach D) unit :=
  kernel (upd_cpu (set_intena ie));;
  '(i, _) ← kernel curproc;
  kernel (upd_proc i (set_p_chan None));;
  kernel (release L_ptable);;
  kernel (acquire L_ide);;
  iderw_wait b.

Definition iderw (b : nat) : M (mach D) unit :=
  h ← kernel (holdingsleep (SL_buf b));
  if negb h then panic "iderw: buf not locked" else
  x ← kernel (buf_at b);
  if Z.land (b_flags x) (Z.lor B_VALID B_DIRTY) =? B_VALID then panic "iderw: nothing to do" else
  disk1 ← gets mc_havedisk1;
  if negb (b_dev x =? 0) && negb disk1 then panic "iderw: ide disk 1 not present" else
  kernel (acquire L_ide);;
  ide_append b;;
  q ← gets mc_idequeue;
  (if bool_decide (q = Some b) then idestart b else mret tt);;
  iderw_wait b.
End Ide.

(** ** The disk that the driver expects *)

(** Waiting for a command, for its data to be fetched, or for data. *)
Inductive ata_mode : Type :=
| A_idle
| A_read (drive sector : Z)
| A_write (drive sector : Z).

(** What the registers of a command select. *)
Definition task_drive (r : Z -> Z) : Z := Z.land (Z.shiftr (r 502) 4) 1.
Definition task_sector (r : Z -> Z) : Z := r 499 + 2 ^ 8 * r 500 + 2 ^ 16 * r 501 + 2 ^ 24 * Z.land (r 502) 15.

Definition upd2 (f : Z -> Z -> block) (a b : Z) (v : block) : Z -> Z -> block :=
  fun x y => if decide (x = a /\ y = b) then v else f x y.

Fixpoint polls {D} `{Device D} (n : nat) (d : D) (r : Z) (d' : D) : Prop :=
  let '(v, d1) := dev_inb 503 d in
  match n with
  | O => v = r /\ d1 = d'
  | S n' => Z.land v (Z.lor IDE_BSY IDE_DRDY) <> IDE_DRDY /\ polls n' d1 r d'
  end.

(** A disk that works: it is ready after fewer than [wait] polls, reports no errors, and reads
    and writes the sector that the registers select. *)
Class Ata (D : Type) `{Device D} (wait : nat) : Type := {
  a_mode : D -> ata_mode;
  a_media : D -> Z -> Z -> block;
  a_reg : D -> Z -> Z;
  a_poll d : (forall drive sector, a_mode d <> A_write drive sector) ->
    exists n r d', (n < wait)%nat /\ polls n d r d' /\ Z.land r (Z.lor IDE_BSY IDE_DRDY) = IDE_DRDY /\
      Z.land r (Z.lor IDE_DF IDE_ERR) = 0 /\ a_mode d' = a_mode d /\ a_media d' = a_media d /\ a_reg d' = a_reg d;
  a_select d p v : p ∈ [1014; 498; 499; 500; 501; 502] -> a_mode d = A_idle ->
    a_mode (dev_outb p v d) = A_idle /\ a_media (dev_outb p v d) = a_media d /\
    forall q, a_reg (dev_outb p v d) q = if decide (q = p) then v else a_reg d q;
  a_read_cmd d : a_mode d = A_idle -> a_reg d 498 = 1 ->
    a_mode (dev_outb 503 IDE_CMD_READ d) = A_read (task_drive (a_reg d)) (task_sector (a_reg d)) /\
    a_media (dev_outb 503 IDE_CMD_READ d) = a_media d;
  a_write_cmd d : a_mode d = A_idle -> a_reg d 498 = 1 ->
    a_mode (dev_outb 503 IDE_CMD_WRITE d) = A_write (task_drive (a_reg d)) (task_sector (a_reg d)) /\
    a_media (dev_outb 503 IDE_CMD_WRITE d) = a_media d;
  a_data_in d drive sector : a_mode d = A_read drive sector ->
    exists d', dev_insl 496 128 d = (a_media d drive sector, d') /\ a_mode d' = A_idle /\ a_media d' = a_media d;
  a_data_out d drive sector bs : a_mode d = A_write drive sector -> length bs = Z.to_nat BSIZE ->
    a_mode (dev_outsl 496 bs d) = A_idle /\ a_media (dev_outsl 496 bs d) = upd2 (a_media d) drive sector bs
}.
