(* ===== verification/IdeSpec.v ===== *)
(** The IDE driver ([Ide]) proved: requests are served in the order in which they were made,
    each with the effect on the disk and the buffer that the memory disk's [iderw] has. *)
From Stdlib Require Import ZArith Lia.
From stdpp Require Import base gmap sets strings numbers list.
From S2P Require Import Prelude State Spinlock Sched Bio Fs Console Dir Kalloc Vm Trap Machine Apic Ide.

Local Open Scope Z_scope.

(** ** The abstract driver *)
Definition dirty (x : buf) : bool := has (b_flags x) B_DIRTY.
Definition drive_of (x : buf) : Z := Z.land (b_dev x) 1.

(** A request served: what it does to the disk and to the buffer. *)
Definition serve_disk (x : buf) (disk : Z -> Z -> block) : Z -> Z -> block :=
  if dirty x then upd2 disk (drive_of x) (b_blockno x) (b_data x) else disk.
Definition serve_buf (disk : Z -> Z -> block) (x : buf) : buf :=
  set_b_flags (Z.land (Z.lor (b_flags x) B_VALID) (Z.lnot B_DIRTY))
    (if dirty x then x else set_b_data (disk (drive_of x) (b_blockno x)) x).

(** Setting one flag and clearing the other. *)
Lemma valid_clean f : Z.lor (Z.land f (Z.lnot B_DIRTY)) B_VALID = Z.land (Z.lor f B_VALID) (Z.lnot B_DIRTY).
Proof. rewrite Z.land_lor_distr_l. done. Qed.
Lemma clean_id f : has f B_DIRTY = false -> Z.land f (Z.lnot B_DIRTY) = f.
Proof.
  unfold has. intros E%negb_false_iff%Z.eqb_eq. rewrite <- (Z.lor_0_r (Z.land f (Z.lnot B_DIRTY))), <- E.
  rewrite <- Z.land_lor_distr_r, Z.lor_comm, Z.lor_lnot_diag. apply Z.land_m1_r.
Qed.

(** The memory disk's [iderw] does the same, at once. *)
Lemma memide_serves b x k :
  cpu_ok (k_cpu k) -> L_sleep (SL_buf b) ∉ held (k_cpu k) -> k_bufs k !! b = Some x -> sl_locked (b_lock x) = true ->
  ~ Z.land (b_flags x) (Z.lor B_VALID B_DIRTY) = B_VALID -> b_dev x = 1 -> 0 <= b_blockno x < Z.of_nat (length (k_disk k)) ->
  let disk := fun _ n => k_disk k !!! Z.to_nat n in
  exists k', Bio.iderw b k = Ok tt k' /\ k_bufs k' = alter (serve_buf disk) b (k_bufs k) /\
    forall n, 0 <= n -> k_disk k' !!! Z.to_nat n = serve_disk x disk 1 n.
Proof.
  intros Hc Hl Hb Hlk Hf Hdev Hn disk. unfold Bio.iderw.
  erewrite bind_ok; [|apply (holdingsleep_eq _ _ (b_lock x)); [done|done|cbn; by rewrite Hb]]. rewrite Hlk. cbn [negb].
  erewrite bind_ok; [|reflexivity]. cbn beta. rewrite (list_lookup_total_correct _ _ _ Hb), (proj2 (Z.eqb_neq _ _)) by done.
  rewrite Hdev. change (negb (1 =? 1)) with false. cbv iota. erewrite bind_ok; [|reflexivity]. cbn beta.
  rewrite (proj2 (Z.leb_gt _ _)) by lia. unfold serve_disk, dirty, drive_of. rewrite Hdev. change (Z.land 1 1) with 1.
  destruct (has (b_flags x) B_DIRTY) eqn:Ed.
  - eexists. split; [reflexivity|]. cbn [k_bufs k_disk set_k_bufs set_k_disk set_k_writes]. split.
    + rewrite alter_alter. apply list_alter_ext; [|done]. intros y Hy. simplify_eq. unfold serve_buf, dirty. rewrite Ed.
      by rewrite <- valid_clean.
    + intros n Hn0. unfold upd2. destruct (decide (n = b_blockno x)) as [->|Hne].
      * rewrite decide_True by done. apply list_lookup_total_insert_eq. lia.
      * rewrite decide_False by tauto. by rewrite list_lookup_total_insert_ne by lia.
  - destruct (lookup_lt_is_Some_2 (k_disk k) (Z.to_nat (b_blockno x))) as [d Hd]; [lia|].
    erewrite bind_ok; [|cbn; rewrite Hd; reflexivity]. eexists. split; [reflexivity|]. split; [|done].
    cbn [k_bufs set_k_bufs]. rewrite alter_alter. apply list_alter_ext; [|done]. intros y Hy. simplify_eq.
    unfold serve_buf, dirty, drive_of. rewrite Ed. unfold disk. rewrite (list_lookup_total_correct _ _ _ Hd).
    by rewrite <- valid_clean, clean_id.
Qed.

(** A buffer that can be requested. *)
Record request_ok (x : buf) : Prop := {
  ro_block : 0 <= b_blockno x < FSSIZE;
  ro_data : length (b_data x) = Z.to_nat BSIZE;
  ro_flags : Z.land (b_flags x) (Z.lor B_VALID B_DIRTY) <> B_VALID
}.

(** ** The disk's side *)
Section Disk.
Context {D : Type} `{Device D} {wait : nat} `{!Ata D wait}.
Implicit Types (s : mach D) (d : D).

Lemma idewait_loop_ok n m c d r d' s : (n < m)%nat -> polls n d r d' -> mc_dev s = d ->
  Z.land r (Z.lor IDE_BSY IDE_DRDY) = IDE_DRDY -> Z.land r (Z.lor IDE_DF IDE_ERR) = 0 ->
  idewait_loop m c s = Ok 0 (set_mc_dev d' s).
Proof using.
  revert m d s. induction n as [|n IH]; intros m d s Hm Hp Hd Hr He; (destruct m as [|m]; [lia|]); cbn [idewait_loop polls] in *;
    unfold inb, mbind, M_bind; rewrite Hd; destruct (dev_inb 503 d) as [v d1].
  - destruct Hp as [-> ->]. rewrite Hr, Z.eqb_refl, He, Z.eqb_refl. cbn [negb]. by rewrite andb_false_r.
  - destruct Hp as [Hv Hp]. rewrite (proj2 (Z.eqb_neq _ _)) by done. cbn [negb].
    rewrite (IH m d1 (set_mc_dev d1 s)); [done|lia|done|done|done|done].
Qed.

Lemma idewait_ok c s : (forall drive sector, a_mode (mc_dev s) <> A_write drive sector) ->
  exists d', idewait wait c s = Ok 0 (set_mc_dev d' s) /\ a_mode d' = a_mode (mc_dev s) /\
    a_media d' = a_media (mc_dev s) /\ a_reg d' = a_reg (mc_dev s).
Proof using Type*.
  intros Hm. destruct (a_poll (mc_dev s) Hm) as (n & r & d' & Hn & Hp & Hr & He & E1 & E2 & E3).
  exists d'. split; [|done]. by apply (idewait_loop_ok n wait c (mc_dev s) r d').
Qed.

Lemma outb_ok p v s : outb p v s = Ok tt (set_mc_dev (dev_outb p (u8 v) (mc_dev s)) s).
Proof using. done. Qed.
Lemma set_mc_dev_dev d d' s : set_mc_dev d (set_mc_dev d' s) = set_mc_dev d s.
Proof using. done. Qed.

(** The registers hold a block number. *)
Lemma task_sector_eq r n dev : 0 <= n < FSSIZE -> r 499 = u8 (Z.land n 255) -> r 500 = u8 (Z.land (Z.shiftr n 8) 255) ->
  r 501 = u8 (Z.land (Z.shiftr n 16) 255) ->
  r 502 = u8 (Z.lor (Z.lor 224 (Z.shiftl (Z.land dev 1) 4)) (Z.land (Z.shiftr n 24) 15)) ->
  task_sector r = n /\ task_drive r = Z.land dev 1.
Proof using.
  intros Hn E1 E2 E3 E4. unfold task_sector, task_drive. rewrite E1, E2, E3, E4. unfold FSSIZE in Hn.
  change 255 with (Z.ones 8). rewrite !Z.land_ones by lia.
  rewrite !Z.shiftr_div_pow2 by lia. change (2 ^ 24) with 16777216. change (2 ^ 16) with 65536. change (2 ^ 8) with 256.
  rewrite (Z.div_small n 16777216), (Z.div_small n 65536) by lia. change (Z.land 0 15) with 0. rewrite Z.lor_0_r.
  assert (Hd : Z.land dev 1 = 0 \/ Z.land dev 1 = 1).
  { pose proof (Z.land_ones dev 1 ltac:(lia)) as E. change (Z.ones 1) with 1 in E. rewrite E.
    pose proof (Z.mod_pos_bound dev (2 ^ 1) ltac:(lia)). lia. }
  unfold u8. change (2 ^ 8) with 256.
  split; [|destruct Hd as [-> | ->]; reflexivity].
  assert (E : Z.land (Z.lor 224 (Z.shiftl (Z.land dev 1) 4) mod 256) 15 = 0) by (destruct Hd as [-> | ->]; reflexivity).
  rewrite E, !Zmod_mod. change (0 mod 256) with 0. Z.div_mod_to_equations. lia.
Qed.

(** The disk works on the request of the buffer [x]. *)
Definition started (d : D) (x : buf) (disk : Z -> Z -> block) : Prop :=
  a_mode d = (if dirty x then A_idle else A_read (drive_of x) (b_blockno x)) /\ a_media d = serve_disk x disk.

(** The registers written before a command. *)
Definition setup_regs (n dev : Z) : list (Z * Z) :=
  [(1014, 0); (498, 1); (499, Z.land n 255); (500, Z.land (Z.shiftr n 8) 255); (501, Z.land (Z.shiftr n 16) 255);
   (502, Z.lor (Z.lor 224 (Z.shiftl (Z.land dev 1) 4)) (Z.land (Z.shiftr n 24) 15))].
Definition setup (d : D) (n dev : Z) : D := foldl (fun d pv => dev_outb pv.1 (u8 pv.2) d) d (setup_regs n dev).

(** Writing the registers of a command. *)
Lemma select_all ws d : Forall (fun pv => pv.1 ∈ [1014; 498; 499; 500; 501; 502]) ws -> a_mode d = A_idle ->
  let d' := foldl (fun d pv => dev_outb pv.1 (u8 pv.2) d) d ws in
  a_mode d' = A_idle /\ a_media d' = a_media d /\
  forall q, a_reg d' q = foldl (fun r pv => if decide (q = pv.1) then u8 pv.2 else r) (a_reg d q) ws.
Proof using Type*.
  revert d. induction ws as [|[p v] ws IH]; intros d Hp Hm; [done|]. inversion Hp; subst. cbn [foldl fst snd].
  destruct (a_select d p (u8 v)) as (E1 & E2 & E3); [done|done|]. destruct (IH (dev_outb p (u8 v) d)) as (F1 & F2 & F3); [done|done|].
  split; [exact F1|]. split; [by rewrite <- E2|]. intros q. by rewrite F3, E3.
Qed.

Lemma setup_ok d n dev : a_mode d = A_idle -> 0 <= n < FSSIZE ->
  a_mode (setup d n dev) = A_idle /\ a_media (setup d n dev) = a_media d /\ a_reg (setup d n dev) 498 = 1 /\
  task_sector (a_reg (setup d n dev)) = n /\ task_drive (a_reg (setup d n dev)) = Z.land dev 1.
Proof using Type*.
  intros Hm Hn.
  destruct (select_all (setup_regs n dev) d ltac:(repeat constructor; set_solver) Hm) as (F1 & F2 & F3). fold (setup d n dev) in F1, F2, F3.
  split; [done|]. split; [done|]. split; [by rewrite F3|]. apply task_sector_eq; [done|by rewrite F3..].
Qed.

Lemma idestart_ok s b x : k_bufs (mc_k s) !! b = Some x -> request_ok x -> a_mode (mc_dev s) = A_idle ->
  exists d', idestart wait b s = Ok tt (set_mc_dev d' s) /\ started d' x (a_media (mc_dev s)).
Proof using Type*.
  intros Hb [Hn Hl _] Hm. unfold idestart.
  erewrite bind_ok; [|apply kernel_ok; reflexivity]. cbn beta. rewrite (list_lookup_total_correct _ _ _ Hb).
  rewrite (proj2 (Z.leb_gt _ _)) by lia. change (BSIZE / SECTOR_SIZE) with 1. cbv zeta.
  change (7 <? 1) with false. change (1 =? 1) with true. cbv iota. rewrite Z.mul_1_r, i32_small by (unfold FSSIZE in *; lia).
  destruct (idewait_ok false (set_mc_k (mc_k s) s)) as (d1 & E1 & M1 & M2 & _); [cbn; rewrite Hm; done|]. cbn in M1, M2.
  erewrite bind_ok; [|exact E1]. do 6 (erewrite bind_ok; [|apply outb_ok]).
  destruct (setup_ok d1 (b_blockno x) (b_dev x)) as (F1 & F2 & F3 & F4 & F5); [by rewrite M1|done|].
  set (s2 := set_mc_dev _ _). assert (Es : s2 = set_mc_dev (setup d1 (b_blockno x) (b_dev x)) s) by (by destruct s).
  rewrite Es. clear s2 Es. unfold started, serve_disk, dirty, drive_of. set (d2 := setup _ _ _) in *.
  destruct (has (b_flags x) B_DIRTY).
  - destruct (a_write_cmd d2 F1 F3) as [G1 G2]. erewrite bind_ok; [|apply outb_ok]. cbn [mc_dev set_mc_dev].
    change (u8 IDE_CMD_WRITE) with IDE_CMD_WRITE. rewrite F4, F5 in G1. destruct (a_data_out _ _ _ _ G1 Hl) as [K1 K2].
    eexists. split; [reflexivity|]. split; [exact K1|]. cbn [mc_dev set_mc_dev]. by rewrite K2, G2, F2, M2.
  - destruct (a_read_cmd d2 F1 F3) as [G1 G2]. rewrite F4, F5 in G1. rewrite outb_ok. cbn [mc_dev set_mc_dev].
    eexists. split; [reflexivity|]. change (u8 IDE_CMD_READ) with IDE_CMD_READ. split; [exact G1|]. by rewrite G2, F2, M2.
Qed.
End Disk.

(** ** The queue *)
Fixpoint linked (h : option nat) (qn : nat -> option nat) (Q : list nat) : Prop :=
  match Q with
  | [] => h = None
  | b :: Q' => h = Some b /\ linked (qn b) qn Q'
  end.

Lemma linked_ext h qn qn' Q : (forall b, b ∈ Q -> qn' b = qn b) -> linked h qn Q -> linked h qn' Q.
Proof.
  revert h. induction Q as [|b Q IH]; intros h He; [done|]. intros [-> HL]. split; [done|].
  rewrite He by left. apply IH; [|done]. intros c Hc. apply He. by right.
Qed.

Lemma queue_end_ok n qn b Q : linked (Some b) qn (b :: Q) -> (length Q < n)%nat ->
  exists P e, b :: Q = P ++ [e] /\ queue_end n qn b = Some e.
Proof.
  revert n b. induction Q as [|c Q IH]; intros n b [_ HL] Hn; (destruct n as [|n]; [simpl in Hn; lia|]); cbn [queue_end].
  - cbn in HL. rewrite HL. by exists [], b.
  - pose proof HL as [E _]. rewrite E. destruct (IH n c) as (P & e & EP & EQ); [by rewrite <- E|simpl in Hn; lia|].
    exists (b :: P), e. split; [|done]. by rewrite EP.
Qed.

Lemma linked_snoc h qn P e b : linked h qn (P ++ [e]) -> NoDup (P ++ [e]) -> b ∉ P ++ [e] -> qn b = None ->
  linked h (fun i => if decide (i = e) then Some b else qn i) ((P ++ [e]) ++ [b]).
Proof.
  revert h. induction P as [|c P IH]; intros h HL Hnd Hb Hq; cbn in HL |- *.
  - destruct HL as [-> _]. split; [done|]. rewrite decide_True by done. split; [done|].
    rewrite decide_False; [done|]. set_solver.
  - destruct HL as [-> HL]. split; [done|]. apply NoDup_cons in Hnd as [Hc Hnd].
    rewrite decide_False by set_solver. apply IH; [done|done|set_solver|done].
Qed.

(** ** Events *)
Inductive event : Type :=
| EReq (b : nat)
| EIntr
| EResume (ie : bool) (b : nat)
| EEnv (k : kst).

(** The pending requests in order, the rest of the kernel, and the disk without the pending
    writes. *)
Record astate : Type := mk_astate {
  as_queue : list nat;
  as_k : kst;
  as_disk : Z -> Z -> block
}.

Definition upd_k_buf (b : nat) (f : buf -> buf) (k : kst) : kst := set_k_bufs (alter f b (k_bufs k)) k.
Definition served (x : buf) : Prop := Z.land (b_flags x) (Z.lor B_VALID B_DIRTY) = B_VALID.
#[global] Instance served_dec x : Decision (served x).
Proof. unfold served. apply _. Defined.

(** The process that was waiting for [b] goes on, without a lock. *)
Definition awake (ie : bool) (i : nat) (k : kst) : kst :=
  set_k_cpu (mk_cpu 0 ie ie []) (set_k_ptable (alter (set_p_chan None) i (k_ptable k)) k).

(** What an event does: a request goes to the end of the queue and its process to sleep; an
    interrupt serves the first request and wakes its process up; a process that runs again
    returns if its request was served and sleeps on if not. *)
Definition abs_step (e : event) (a : astate) : astate :=
  let '(mk_astate Q k disk) := a in
  match e, k_proc k with
  | EReq b, Some i => mk_astate (Q ++ [b]) (asleep (Ch_buf b) i (k_cpu k) k) disk
  | EIntr, _ =>
      match Q with
      | [] => a
      | b :: Q' => mk_astate Q' (woken (Ch_buf b) (upd_k_buf b (serve_buf disk) k)) (serve_disk (k_bufs k !!! b) disk)
      end
  | EResume ie b, Some i =>
      let k1 := awake ie i k in
      if decide (served (k_bufs k !!! b)) then mk_astate Q k1 disk
      else mk_astate Q (asleep (Ch_buf b) i (k_cpu k1) k1) disk
  | EEnv k', _ => mk_astate Q k' disk
  | _, None => a
  end.

(** No spin lock is held, so that the process may sleep. *)
Definition may_sleep (k : kst) : Prop :=
  cpu_ok (k_cpu k) /\ ncli (k_cpu k) = 0 /\ held (k_cpu k) = [] /\
  exists i p, k_proc k = Some i /\ k_ptable k !! i = Some p.

(** When the kernel makes the event happen.  The rest of the kernel does not change the
    buffers in the queue: they are locked. *)
Definition allowed (disk1 : bool) (e : event) (a : astate) : Prop :=
  let '(mk_astate Q k disk) := a in
  match e with
  | EReq b => may_sleep k /\ (b < NBUF)%nat /\ b ∉ Q /\ exists x, k_bufs k !! b = Some x /\ request_ok x /\
      sl_locked (b_lock x) = true /\ (b_dev x = 0 \/ disk1 = true)
  | EIntr => cpu_ok (k_cpu k) /\ L_ide ∉ held (k_cpu k) /\ L_ptable ∉ held (k_cpu k)
  | EResume ie b => (b < length (k_bufs k))%nat /\ (exists v, k_cpu k = mk_cpu 1 v false [L_ptable]) /\
      exists i p, k_proc k = Some i /\ k_ptable k !! i = Some p
  | EEnv k' => forall b, b ∈ Q -> k_bufs k' !! b = k_bufs k !! b
  end.

Section Steps.
Context {D : Type} `{Device D} {wait : nat} `{!Ata D wait}.
Implicit Types (s : mach D).

Definition ide_step (e : event) : M (mach D) unit :=
  match e with
  | EReq b => iderw wait b
  | EIntr => ideintr wait
  | EResume ie b => iderw_resume ie b
  | EEnv k => modify (set_mc_k k)
  end.

(** The state in which an event leaves the machine. *)
Definition after {S A} (o : outcome S A) : option S :=
  match o with Ok _ s => Some s | Blocked s => Some s | Err _ => None end.

(** The first request is on the disk. *)
Definition pending (d : D) (Q : list nat) (k : kst) (disk : Z -> Z -> block) : Prop :=
  match Q with
  | [] => a_mode d = A_idle /\ a_media d = disk
  | b :: _ => started d (k_bufs k !!! b) disk
  end.

Record ide_rep (disk1 : bool) s (a : astate) : Prop := {
  ir_k : mc_k s = as_k a;
  ir_disk1 : mc_havedisk1 s = disk1;
  ir_queue : linked (mc_idequeue s) (mc_qnext s) (as_queue a);
  ir_nodup : NoDup (as_queue a);
  ir_bufs : forall b, b ∈ as_queue a -> (b < NBUF)%nat /\ exists x, k_bufs (as_k a) !! b = Some x /\ request_ok x;
  ir_disk : pending (mc_dev s) (as_queue a) (as_k a) (as_disk a)
}.

Lemma append_ok s b Q : linked (mc_idequeue s) (mc_qnext s) Q -> NoDup Q -> (length Q <= NBUF)%nat -> b ∉ Q ->
  exists h qn, ide_append b s = Ok tt (set_mc_idequeue h (set_mc_qnext qn s)) /\ linked h qn (Q ++ [b]) /\
    h = Some (default b (head Q)).
Proof using.
  intros HL Hnd Hl Hb. unfold ide_append. erewrite bind_ok; [|reflexivity]. erewrite bind_ok; [|reflexivity]. cbn beta.
  set (qn := fun i => if decide (i = b) then None else mc_qnext s i).
  assert (HL' : linked (mc_idequeue s) qn Q).
  { revert HL. apply linked_ext. intros c Hc. unfold qn. rewrite decide_False; [done|]. intros ->. done. }
  assert (Hq : qn b = None) by (unfold qn; by rewrite decide_True). cbn [mc_idequeue set_mc_qnext mc_qnext].
  destruct Q as [|h Q].
  - cbn in HL'. rewrite HL'. exists (Some b), qn. split; [done|]. split; [|done]. split; [done|exact Hq].
  - pose proof HL' as [E _]. rewrite E in HL' |- *.
    destruct (queue_end_ok (S NBUF) qn h Q HL') as (P & e & EP & EQ); [simpl in Hl; lia|].
    rewrite EQ. exists (Some h), (fun i => if decide (i = e) then Some b else qn i).
    split; [by destruct s; cbn in E; subst|]. split; [|done].
    rewrite EP in *. by apply linked_snoc.
Qed.

Lemma set_mc_k_id s : set_mc_k (mc_k s) s = s.
Proof using. by destruct s. Qed.

Lemma kernel_buf_at s b x : k_bufs (mc_k s) !! b = Some x -> kernel (buf_at b) s = Ok x s.
Proof using.
  intros Hb. erewrite kernel_ok; [|reflexivity]. by rewrite (list_lookup_total_correct _ _ _ Hb), set_mc_k_id.
Qed.

(** A process that waits for a request that was not served sleeps. *)
Lemma wait_sleeps s b x c i p : k_bufs (mc_k s) !! b = Some x -> ~ served x -> k_cpu (mc_k s) = lock_cpu L_ide c ->
  cpu_ok c -> ncli c = 0 -> held c = [] -> k_proc (mc_k s) = Some i -> k_ptable (mc_k s) !! i = Some p ->
  iderw_wait b s = Blocked (set_mc_k (asleep (Ch_buf b) i c (mc_k s)) s).
Proof using.
  intros Hb Hx Hc Hok Hn Hh Hi Hp. unfold iderw_wait. erewrite bind_ok; [|by apply kernel_buf_at]. cbn beta.
  rewrite (proj2 (Z.eqb_neq _ _)) by done. cbn [negb]. apply bind_blocked, kernel_blocked.
  by apply (sleep_eq _ _ c _ i p).
Qed.

Lemma wait_returns s b x c : k_bufs (mc_k s) !! b = Some x -> served x -> k_cpu (mc_k s) = lock_cpu L_ide c ->
  cpu_ok c -> L_ide ∉ held c -> iderw_wait b s = Ok tt (set_mc_k (set_k_cpu c (mc_k s)) s).
Proof using.
  intros Hb Hx Hc Hok Hl. unfold iderw_wait. erewrite bind_ok; [|by apply kernel_buf_at]. cbn beta.
  rewrite (proj2 (Z.eqb_eq _ _)) by done. cbn [negb]. erewrite bind_ok; [|reflexivity].
  apply kernel_ok. by apply release_eq.
Qed.

Lemma queue_length disk1 s a : ide_rep disk1 s a -> (length (as_queue a) <= NBUF)%nat.
Proof using.
  intros Hr. rewrite <- (length_seq NBUF 0). apply submseteq_length, NoDup_submseteq; [apply Hr|].
  intros b Hb. apply elem_of_seq. destruct (ir_bufs _ _ _ Hr b Hb) as [Hl _]. lia.
Qed.

Lemma request_step disk1 s a b : ide_rep disk1 s a -> allowed disk1 (EReq b) a ->
  exists s', iderw wait b s = Blocked s' /\ ide_rep disk1 s' (abs_step (EReq b) a).
Proof using Type*.
  intros Hr Ha. pose proof (queue_length _ _ _ Hr) as Hql. destruct a as [Q k disk], Hr as [Hk H1 HL Hnd Hbs Hd]. cbn in *.
  destruct Ha as ((Hc & Hn & Hh & i & p & Hi & Hp) & Hb & HbQ & x & Hx & Hro & Hlk & Hdev). subst k.
  unfold iderw. assert (E0 : kernel (holdingsleep (SL_buf b)) s = Ok true s).
  { erewrite kernel_ok; [|apply (holdingsleep_eq _ _ (b_lock x)); [done|rewrite Hh; apply not_elem_of_nil|cbn; by rewrite Hx]].
    by rewrite Hlk, set_mc_k_id. }
  erewrite bind_ok; [|exact E0]. cbn [negb]. erewrite bind_ok; [|by apply kernel_buf_at]. cbn beta.
  rewrite (proj2 (Z.eqb_neq _ _)) by apply Hro. erewrite bind_ok; [|reflexivity]. cbn beta. rewrite H1.
  replace (negb (b_dev x =? 0) && negb disk1) with false by (destruct Hdev as [-> | ->]; [done|by rewrite andb_false_r]).
  erewrite bind_ok; [|apply kernel_ok, acquire_eq; rewrite Hh; apply not_elem_of_nil].
  set (s1 := set_mc_k _ s). destruct (append_ok s1 b Q HL Hnd Hql HbQ) as (h & qn & E1 & HL1 & Eh).
  erewrite bind_ok; [|exact E1]. erewrite bind_ok; [|reflexivity]. cbn beta. cbn [mc_idequeue set_mc_idequeue].
  set (s2 := set_mc_idequeue h _).
  assert (Hst : exists d', (if bool_decide (h = Some b) then idestart wait b else mret tt) s2 = Ok tt (set_mc_dev d' s2) /\
    pending d' (Q ++ [b]) (mc_k s) disk).
  { destruct Q as [|c Q]; cbn in Eh.
    - rewrite bool_decide_eq_true_2 by done. destruct Hd as [Hm <-].
      destruct (idestart_ok s2 b x Hx Hro Hm) as (d' & E & Hs). exists d'. split; [done|]. cbn.
      by rewrite (list_lookup_total_correct _ _ _ Hx).
    - rewrite bool_decide_eq_false_2 by (rewrite Eh; intros [= ->]; apply HbQ; left). exists (mc_dev s2). by destruct s. }
  destruct Hst as (d' & E2 & Hpd). erewrite bind_ok; [|exact E2].
  erewrite (wait_sleeps _ b x (k_cpu (mc_k s)) i p); [|done|apply Hro|done|done|done|done|done|done].
  eexists. split; [reflexivity|]. rewrite Hi. constructor; cbn; [done|done|done| | |done].
  - apply NoDup_app. split; [done|]. split; [|apply NoDup_singleton]. set_solver.
  - intros c [Hc'|Hc']%elem_of_app; [by apply Hbs|]. apply list_elem_of_singleton in Hc' as ->. split; [done|]. by exists x.
Qed.

(** The data phase of [ideintr]. *)
Lemma fetch_ok s b x disk : k_bufs (mc_k s) !! b = Some x -> started (mc_dev s) x disk ->
  exists d', (if negb (dirty x) then
      r ← idewait wait true;
      if 0 <=? r then bs ← insl 496 (Z.to_nat (BSIZE / 4)); kernel (upd_buf b (set_b_data bs)) else mret tt
    else mret tt) s =
      Ok tt (set_mc_dev d' (set_mc_k (upd_k_buf b (fun x => if dirty x then x else set_b_data (disk (drive_of x) (b_blockno x)) x) (mc_k s)) s)) /\
    a_mode d' = A_idle /\ a_media d' = serve_disk x disk.
Proof using Type*.
  intros Hb [Hm Hd]. unfold serve_disk in *. assert (Hsame : forall f, f x = x -> set_mc_k (upd_k_buf b f (mc_k s)) s = s).
  { intros f Hf. unfold upd_k_buf. rewrite (list_alter_ext f id (k_bufs (mc_k s)) (k_bufs (mc_k s)) b); [|by intros y Hy; simplify_eq|done].
    rewrite list_alter_id by done. by destruct s as [[]]. }
  destruct (dirty x) eqn:Ex; cbn [negb].
  - exists (mc_dev s). split; [|done]. rewrite (Hsame (fun x => if dirty x then x else _)) by (by rewrite Ex). by destruct s.
  - destruct (idewait_ok true s) as (d1 & E1 & M1 & M2 & _); [by rewrite Hm|].
    rewrite Hm in M1. rewrite Hd in M2. destruct (a_data_in d1 _ _ M1) as (d2 & E2 & N1 & N2).
    erewrite bind_ok; [|exact E1]. change (0 <=? 0) with true. cbv iota.
    erewrite bind_ok; [|unfold insl; cbn [mc_dev set_mc_dev]; change (Z.to_nat (BSIZE / 4)) with 128%nat; rewrite E2; reflexivity].
    cbn beta. exists d2. rewrite N2, M2. split; [|done]. erewrite kernel_ok; [|reflexivity].
    unfold upd_k_buf. cbn [mc_k set_mc_dev].
    erewrite (list_alter_ext (fun x => if dirty x then x else _)); [done| |done].
    intros y Hy. simplify_eq. by rewrite Ex.
Qed.

Lemma upd_k_buf_buf b f g k : upd_k_buf b f (upd_k_buf b g k) = upd_k_buf b (fun x => f (g x)) k.
Proof using. unfold upd_k_buf. cbn [k_bufs set_k_bufs]. by rewrite alter_alter. Qed.

Lemma kernel_upd_buf b f s : kernel (upd_buf b f) s = Ok tt (set_mc_k (upd_k_buf b f (mc_k s)) s).
Proof using. done. Qed.

(** The start of the next request. *)
Lemma next_ok s Q disk : linked (mc_idequeue s) (mc_qnext s) Q ->
  (forall b, b ∈ Q -> exists x, k_bufs (mc_k s) !! b = Some x /\ request_ok x) ->
  a_mode (mc_dev s) = A_idle -> a_media (mc_dev s) = disk ->
  exists d', match mc_idequeue s with None => mret tt | Some _ => idestart_queue wait end s = Ok tt (set_mc_dev d' s) /\
    pending d' Q (mc_k s) disk.
Proof using Type*.
  intros HL Hbs Hm Hd. destruct Q as [|b Q].
  - cbn in HL. rewrite HL. exists (mc_dev s). split; [by destruct s|done].
  - destruct HL as [E _]. rewrite E. unfold idestart_queue. erewrite bind_ok; [|reflexivity]. cbn beta. rewrite E.
    destruct (Hbs b ltac:(left)) as (x & Hx & Hro). destruct (idestart_ok s b x Hx Hro Hm) as (d' & E' & Hst).
    exists d'. split; [done|]. rewrite Hd in Hst. cbn. by rewrite (list_lookup_total_correct _ _ _ Hx).
Qed.

Lemma intr_step disk1 s a : ide_rep disk1 s a -> allowed disk1 EIntr a ->
  exists s', ideintr wait s = Ok tt s' /\ ide_rep disk1 s' (abs_step EIntr a).
Proof using Type*.
  destruct a as [Q k disk]. intros [Hk H1 HL Hnd Hbs Hd] (Hc & Hl & Hlp). cbn in *. subst k.
  unfold ideintr. erewrite bind_ok; [|by apply kernel_ok, acquire_eq]. erewrite bind_ok; [|reflexivity]. cbn beta.
  set (s1 := set_mc_k _ s). cbn [mc_idequeue s1 set_mc_k]. destruct Q as [|b Q].
  { cbn in HL. rewrite HL. exists s. split; [|by constructor].
    erewrite kernel_ok; [|by apply (release_eq L_ide (k_cpu (mc_k s)))]. unfold s1. by destruct s as [[]]. }
  destruct HL as [E HL]. rewrite E. erewrite bind_ok; [|reflexivity]. erewrite bind_ok; [|reflexivity]. cbn beta.
  destruct (Hbs b ltac:(left)) as (Hb & x & Hx & Hro). cbn [pending] in Hd.
  rewrite (list_lookup_total_correct _ _ _ Hx) in Hd |- *.
  set (s2 := set_mc_idequeue _ s1). erewrite bind_ok; [|by apply (kernel_buf_at s2 b x)]. cbn beta.
  destruct (fetch_ok s2 b x disk Hx Hd) as (d3 & E3 & M3 & D3). erewrite bind_ok; [|exact E3].
  do 2 (erewrite bind_ok; [|apply kernel_upd_buf]). cbn [mc_k set_mc_k set_mc_dev]. rewrite !upd_k_buf_buf.
  set (s3 := set_mc_k _ (set_mc_k _ _)).
  assert (Ek : mc_k s3 = upd_k_buf b (serve_buf disk) (mc_k s1)).
  { unfold s3, upd_k_buf. cbn [mc_k set_mc_k]. f_equal. apply list_alter_ext; [|done]. intros y _. unfold serve_buf. by destruct (dirty y). }
  erewrite bind_ok; [|apply kernel_ok, wakeup_eq; [by apply lock_cpu_ok|set_solver]].
  rewrite Ek. set (s4 := set_mc_k _ s3). erewrite bind_ok; [|reflexivity]. cbn beta.
  destruct (next_ok s4 Q (serve_disk x disk)) as (d5 & E5 & Hp5); [done| |done|done|].
  { intros c Hc'. destruct (Hbs c ltac:(by right)) as (_ & y & Hy & Hyo). exists y. split; [|done].
    cbn. rewrite list_lookup_alter_ne; [done|]. apply NoDup_cons in Hnd as [Hnd _]. by intros ->. }
  erewrite bind_ok; [|exact E5]. eexists. split; [apply kernel_ok; by apply (release_eq L_ide (k_cpu (mc_k s)))|].
  apply NoDup_cons in Hnd as [HbQ Hnd]. constructor; cbn; [by destruct s as [[]]|done|done|done| |done].
  intros c Hc'. destruct (Hbs c ltac:(by right)) as (Hcl & y & Hy & Hyo). split; [done|]. exists y. split; [|done].
  rewrite list_lookup_alter_ne; [done|]. by intros ->.
Qed.

Lemma resume_step disk1 s a ie b : ide_rep disk1 s a -> allowed disk1 (EResume ie b) a ->
  exists s', after (iderw_resume ie b s) = Some s' /\ ide_rep disk1 s' (abs_step (EResume ie b) a).
Proof using Type*.
  destruct a as [Q k disk]. intros [Hk H1 HL Hnd Hbs Hd] (Hb & (v & Hc) & i & p & Hi & Hp). cbn in *. subst k.
  destruct (lookup_lt_is_Some_2 _ _ Hb) as [x Hx]. rewrite Hi, (list_lookup_total_correct _ _ _ Hx).
  set (c := mk_cpu 0 ie ie []). assert (Hok : cpu_ok c) by (unfold cpu_ok; cbn; repeat split; (done || lia || constructor)).
  assert (Hnil : forall l, l ∉ held c) by (intros l; apply not_elem_of_nil).
  unfold iderw_resume. erewrite bind_ok; [|apply kernel_ok; reflexivity].
  erewrite bind_ok; [|apply kernel_ok, (curproc_eq _ i p); done]. cbn beta iota.
  erewrite bind_ok; [|apply kernel_ok; reflexivity].
  erewrite bind_ok; [|apply kernel_ok, (release_eq L_ptable c); [done|done|cbn; by rewrite Hc]].
  erewrite bind_ok; [|apply kernel_ok, acquire_eq, Hnil]. set (s2 := set_mc_k _ _).
  assert (Ha : set_k_cpu c (mc_k s2) = awake ie i (mc_k s)) by (by destruct s as [[]]).
  destruct (decide (served x)) as [Hs|Hs].
  - erewrite (wait_returns s2 b x c); [|done|done|done|done|apply Hnil]. rewrite Ha.
    eexists. split; [reflexivity|]. by constructor.
  - erewrite (wait_sleeps s2 b x c i _); [|done|done|done|done|done|done|done|cbn; by rewrite list_lookup_alter_eq, Hp].
    eexists. split; [reflexivity|]. by constructor.
Qed.

Lemma env_step disk1 s a k : ide_rep disk1 s a -> allowed disk1 (EEnv k) a -> ide_rep disk1 (set_mc_k k s) (abs_step (EEnv k) a).
Proof using.
  destruct a as [Q k0 disk]. intros [Hk H1 HL Hnd Hbs Hd] Ha. cbn in *. constructor; cbn; [done|done|done|done| |].
  - intros b Hb. destruct (Hbs b Hb) as (Hl & x & Hx & Hro). split; [done|]. exists x. by rewrite Ha.
  - destruct Q as [|b Q]; [done|]. cbn in *. by rewrite !list_lookup_total_alt, Ha in * by left.
Qed.

(** ** Runs *)
Fixpoint ide_run (es : list event) (s : mach D) : option (mach D) :=
  match es with
  | [] => Some s
  | e :: es' => s' ← after (ide_step e s); ide_run es' s'
  end.
Definition abs_run (es : list event) (a : astate) : astate := foldl (fun a e => abs_step e a) a es.
Fixpoint all_allowed (disk1 : bool) (es : list event) (a : astate) : Prop :=
  match es with
  | [] => True
  | e :: es' => allowed disk1 e a /\ all_allowed disk1 es' (abs_step e a)
  end.

(** C12: the IDE driver implements the abstract driver, on every disk that works.  Under any
    sequence of requests, interrupts, processes that run again and changes of the rest of
    the kernel, neither [iderw] nor [ideintr] panics, and the requests are served one by
    one in the order in which they were made: a dirty buffer is written to its sector, any
    other is read from it, the buffer becomes valid and clean, and the processes that wait
    for it become runnable; a process returns from [iderw] exactly when its buffer is
    valid. *)
Theorem ide_refines disk1 es s a :
  ide_rep disk1 s a -> all_allowed disk1 es a ->
  exists s', ide_run es s = Some s' /\ ide_rep disk1 s' (abs_run es a).
Proof using Type*.
  revert s a. induction es as [|e es IH]; intros s a Hr Ha; [by exists s|]. destruct Ha as [He Ha]. cbn [ide_run].
  assert (Hs : exists s1, after (ide_step e s) = Some s1 /\ ide_rep disk1 s1 (abs_step e a)).
  { destruct e as [b| |ie b|k]; cbn [ide_step].
    - destruct (request_step _ _ _ _ Hr He) as (s1 & E & Hr1). exists s1. by rewrite E.
    - destruct (intr_step _ _ _ Hr He) as (s1 & E & Hr1). exists s1. by rewrite E.
    - by apply resume_step.
    - exists (set_mc_k k s). split; [done|by apply env_step]. }
  destruct Hs as (s1 & E & Hr1). rewrite E. cbn. by apply IH.
Qed.
End Steps.

(** ** A simulated disk *)
Record sim : Type := mk_sim {
  sm_mode : ata_mode;
  sm_media : Z -> Z -> block;
  sm_reg : Z -> Z;
  sm_busy : bool
}.

Definition sim_outb (p v : Z) (d : sim) : sim :=
  if decide (p = 503) then
    let m := if decide (v = IDE_CMD_READ) then A_read (task_drive (sm_reg d)) (task_sector (sm_reg d))
             else A_write (task_drive (sm_reg d)) (task_sector (sm_reg d)) in
    mk_sim m (sm_media d) (sm_reg d) true
  else mk_sim (sm_mode d) (sm_media d) (fun q => if decide (q = p) then v else sm_reg d q) (sm_busy d).
Definition sim_insl (d : sim) : list Z * sim :=
  match sm_mode d with
  | A_read drive sector => (sm_media d drive sector, mk_sim A_idle (sm_media d) (sm_reg d) false)
  | _ => ([], d)
  end.
Definition sim_outsl (bs : list Z) (d : sim) : sim :=
  match sm_mode d with
  | A_write drive sector => mk_sim A_idle (upd2 (sm_media d) drive sector bs) (sm_reg d) true
  | _ => d
  end.

#[global] Instance sim_device : Device sim := {
  dev_inb _ d := if sm_busy d then (IDE_BSY, mk_sim (sm_mode d) (sm_media d) (sm_reg d) false) else (IDE_DRDY, d);
  dev_outb := sim_outb;
  dev_insl _ _ := sim_insl;
  dev_outsl _ := sim_outsl;
  dev_read _ d := (0, d);
  dev_write _ _ d := d
}.

#[global] Program Instance sim_ata : Ata sim 2 := {
  a_mode := sm_mode;
  a_media := sm_media;
  a_reg := sm_reg
}.
Next Obligation.
  intros [m md r []] _.
  - exists 1%nat, IDE_DRDY, (mk_sim m md r false). by repeat split; try lia.
  - exists 0%nat, IDE_DRDY, (mk_sim m md r false). by repeat split; try lia.
Qed.
Next Obligation.
  intros d p v Hp Hm. cbn. unfold sim_outb. rewrite decide_False by (intros ->; set_solver). done.
Qed.
Next Obligation. intros d Hm _. done. Qed.
Next Obligation. intros d Hm _. done. Qed.
Next Obligation. intros d drive sector Hm. cbn. unfold sim_insl. rewrite Hm. by eexists. Qed.
Next Obligation. intros d drive sector bs Hm _. cbn. unfold sim_outsl. by rewrite Hm. Qed.

(** Two processes: the first reads block 5 into buffer 0, the second writes buffer 1 to it. *)
Definition demo_kst (i : nat) (k : kst) : kst := set_k_cpu (mk_cpu 0 false false []) (set_k_proc (Some i) k).
Definition demo_buf (flags v : Z) : buf :=
  mk_buf flags 0 5 (mk_sleeplock true 1) 1 0 0 (replicate (Z.to_nat BSIZE) v).
Definition demo_k : kst := set_k_bufs (demo_buf 0 0 :: demo_buf B_DIRTY 7 :: drop 2 (k_bufs kst_zero)) kst_zero.
Definition demo_a0 : astate := mk_astate [] (demo_kst 0 demo_k) (fun _ _ => replicate (Z.to_nat BSIZE) 3).
Definition demo_a1 : astate := abs_step (EReq 0) demo_a0.
Definition demo_a2 : astate := abs_step (EEnv (demo_kst 1 (as_k demo_a1))) demo_a1.
Definition demo_a3 : astate := abs_step (EReq 1) demo_a2.
Definition demo_events : list event :=
  [EReq 0; EEnv (demo_kst 1 (as_k demo_a1)); EReq 1; EEnv (demo_kst 2 (as_k demo_a3)); EIntr; EIntr].
Definition demo_mach : mach sim :=
  mk_mach (demo_kst 0 demo_k) (mk_sim A_idle (fun _ _ => replicate (Z.to_nat BSIZE) 3) (fun _ => 0) false)
    None (fun _ => None) false 0 [0] 0 0.

Lemma demo_cpu_ok i k : cpu_ok (k_cpu (demo_kst i k)).
Proof. unfold cpu_ok. cbn. repeat split; (done || lia || constructor). Qed.
Lemma demo_may_sleep i k p : k_ptable k !! i = Some p -> may_sleep (demo_kst i k).
Proof. intros Hp. split; [apply demo_cpu_ok|]. split; [done|]. split; [done|]. by exists i, p. Qed.
Lemma demo_request flags v : Z.land flags (Z.lor B_VALID B_DIRTY) <> B_VALID -> request_ok (demo_buf flags v).
Proof. intros Hf. constructor; cbn [demo_buf b_blockno b_data b_flags]; [unfold FSSIZE; lia|apply length_replicate|done]. Qed.

Lemma ide_refines_witness : exists s', ide_run (wait := 2) demo_events demo_mach = Some s' /\
  b_data (k_bufs (mc_k s') !!! 0%nat) = replicate (Z.to_nat BSIZE) 3 /\
  a_media (mc_dev s') 0 5 = replicate (Z.to_nat BSIZE) 7.
Proof.
  destruct (ide_refines (wait := 2) false demo_events demo_mach demo_a0) as (s' & E & [Hk _ _ _ _ Hd]).
  - constructor; cbn; [reflexivity|reflexivity|reflexivity|constructor|by intros b ?%elem_of_nil|by split].
  - cbn [all_allowed demo_events]. split; [|split; [|split; [|split; [|split; [|split; [|exact I]]]]]].
    + split; [eapply demo_may_sleep; reflexivity|]. split; [unfold NBUF; lia|]. split; [apply not_elem_of_nil|].
      exists (demo_buf 0 0). split; [reflexivity|]. split; [by apply demo_request|]. split; [reflexivity|by left].
    + intros b _. reflexivity.
    + split; [eapply demo_may_sleep; reflexivity|]. split; [unfold NBUF; lia|]. split; [apply (bool_decide_unpack _); exact I|].
      exists (demo_buf B_DIRTY 7). split; [reflexivity|]. split; [by apply demo_request|]. split; [reflexivity|by left].
    + intros b _. reflexivity.
    + split; [apply demo_cpu_ok|]. split; apply not_elem_of_nil.
    + split; [apply demo_cpu_ok|]. split; apply not_elem_of_nil.
  - exists s'. split; [exact E|]. rewrite Hk. destruct Hd as [_ Hd]. split; [reflexivity|]. rewrite Hd. reflexivity.
Defined.
