(* ===== verification/Boot.v ===== *)
(** The boot loader, [src/bootmain.c]: it reads the kernel from the disk by programmed I/O
    and finds where to put it in a multiboot header.  The file is compiled for 32 bits, where
    [uint64] ([unsigned long]) and pointers are four bytes wide.

    The disk is the one of [Ide.v]: what the loader relies on is the class [Ata]. *)
From Stdlib Require Import ZArith Lia.
From stdpp Require Import base gmap sets strings numbers list.
From S2P Require Import Prelude State Machine Ide IdeSpec.

Local Open Scope Z_scope.

Definition SECTSIZE : Z := 512.
Definition MBOOT_MAGIC : Z := 464367618.
(** The scratch space. *)
Definition SCRATCH : Z := 65536.

(** Physical memory and the devices. *)
Record bst (D : Type) : Type := mk_bst {
  bs_mem : mem;
  bs_dev : D
}.
Arguments mk_bst {D}.
Arguments bs_mem {D}.
Arguments bs_dev {D}.

(** [struct mbheader] at address [hdr]. *)
Record mbheader : Type := mk_mbheader {
  mb_flags : Z;
  mb_header_addr : Z;
  mb_load_addr : Z;
  mb_load_end_addr : Z;
  mb_bss_end_addr : Z;
  mb_entry_addr : Z
}.
Definition mbheader_at (m : mem) (hdr : Z) : mbheader :=
  mk_mbheader (load 4 m (hdr + 4)) (load 4 m (hdr + 12)) (load 4 m (hdr + 16)) (load 4 m (hdr + 20))
    (load 4 m (hdr + 24)) (load 4 m (hdr + 28)).

Section Boot.
Context {D : Type} `{Device D}.

Definition boot_inb (port : Z) : M (bst D) Z := fun s =>
  let '(v, d) := dev_inb port (bs_dev s) in Ok v (mk_bst (bs_mem s) d).
Definition boot_outb (port v : Z) : M (bst D) unit :=
  modify (fun s => mk_bst (bs_mem s) (dev_outb port (u8 v) (bs_dev s))).
(** [insl(port, addr, cnt)] *)
Definition boot_insl (port addr : Z) (cnt : nat) : M (bst D) unit := fun s =>
  let '(v, d) := dev_insl port cnt (bs_dev s) in Ok tt (mk_bst (write_bytes (bs_mem s) addr v) d).
(** [stosb(addr, 0, cnt)] *)
Definition boot_clear (addr cnt : Z) : M (bst D) unit :=
  modify (fun s => mk_bst (fun a => if (addr <=? a) && (a <? addr + cnt) then 0 else bs_mem s a) (bs_dev s)).

(** The disk is polled at most [wait] times. *)
Context (wait : nat).

Fixpoint waitdisk_loop (n : nat) : M (bst D) unit :=
  match n with
  | O => fail EFuel
  | S n' =>
      r ← boot_inb 503;
      if negb (Z.land r 192 =? 64) then waitdisk_loop n' else mret tt
  end.
Definition waitdisk : M (bst D) unit := waitdisk_loop wait.

Definition readsect (dst offset : Z) : M (bst D) unit :=
  waitdisk;;
  boot_outb 498 1;;
  boot_outb 499 offset;;
  boot_outb 500 (Z.shiftr offset 8);;
  boot_outb 501 (Z.shiftr offset 16);;
  boot_outb 502 (Z.lor (Z.shiftr offset 24) 224);;
  boot_outb 503 32;;
  waitdisk;;
  boot_insl 496 dst (Z.to_nat (SECTSIZE / 4)).

Fixpoint readseg_loop (fuel : nat) (pa epa offset : Z) : M (bst D) unit :=
  match fuel with
  | O => fail EFuel
  | S fuel' =>
      if pa <? epa then
        readsect pa offset;;
        readseg_loop fuel' (u32 (pa + SECTSIZE)) epa (u32 (offset + 1))
      else mret tt
  end.
Definition readseg (pa count offset : Z) : M (bst D) unit :=
  let epa := u32 (pa + count) in
  let pa := u32 (pa - offset mod SECTSIZE) in
  let offset := u32 (offset / SECTSIZE + 1) in
  readseg_loop (Z.to_nat (epa / SECTSIZE + 2)) pa epa offset.

(** The search for the header from word [n] of the scratch space on. *)
Fixpoint find_mbheader (cnt : nat) (m : mem) (n : Z) : option Z :=
  match cnt with
  | O => None
  | S cnt' =>
      let x i := load 4 m (SCRATCH + 4 * i) in
      if (x n =? MBOOT_MAGIC) && (u32 (x n + x (n + 1) + x (n + 2)) =? 0) then Some n
      else find_mbheader cnt' m (n + 1)
  end.

(** [bootmain]: the address at which it enters the kernel, or [None] if it returns. *)
Definition bootmain : M (bst D) (option Z) :=
  readseg SCRATCH 8192 0;;
  s ← get;
  match find_mbheader (Z.to_nat (8192 / 4)) (bs_mem s) 0 with
  | None => mret None
  | Some n =>
      let hdr := SCRATCH + 4 * n in
      let h := mbheader_at (bs_mem s) hdr in
      if negb (has (mb_flags h) 65536) then mret None
      else if mb_load_addr h >? mb_header_addr h then mret None
      else if mb_load_end_addr h <? mb_load_addr h then mret None
      else
        readseg (mb_load_addr h) (u32 (mb_load_end_addr h - mb_load_addr h))
          (u32 (n * 4 - u32 (mb_header_addr h - mb_load_addr h)));;
        s ← get;
        let h := mbheader_at (bs_mem s) hdr in
        (if mb_bss_end_addr h >? mb_load_end_addr h then
           boot_clear (mb_load_end_addr h) (mb_bss_end_addr h - mb_load_end_addr h)
         else mret tt);;
        s ← get;
        mret (Some (mb_entry_addr (mbheader_at (bs_mem s) hdr)))
  end.
End Boot.

(** ** What is loaded *)

(** Byte [i] of the file that starts at sector 1 of the first disk. *)
Definition image (media : Z -> Z -> block) : mem := fun i =>
  nth (Z.to_nat (i mod SECTSIZE)) (media 0 (i / SECTSIZE + 1)) 0.

(** [m'] has [len] bytes of [src] from [off] on at [pa], and is else as [m]. *)
Definition loaded (m m' : mem) (pa len off : Z) (src : mem) : Prop :=
  forall a, m' a = if decide (pa <= a < pa + len) then src (off + (a - pa)) else m a.

(** The sectors [readseg] reads. *)
Definition sectors (count offset : Z) : Z := (offset mod SECTSIZE + count + (SECTSIZE - 1)) / SECTSIZE.

(** A multiboot header at word [n] of the file. *)
Definition header_word (img : mem) (n : Z) : Prop :=
  load 4 img (4 * n) = MBOOT_MAGIC /\ u32 (load 4 img (4 * n) + load 4 img (4 * (n + 1)) + load 4 img (4 * (n + 2))) = 0.
(** The header has the addresses to load at, and they are in order. *)
Definition loadable (h : mbheader) : Prop :=
  has (mb_flags h) 65536 = true /\ mb_load_addr h <= mb_header_addr h /\ mb_load_addr h <= mb_load_end_addr h.
#[global] Instance loadable_dec h : Decision (loadable h) := ltac:(apply _).
(** Where in the file the byte for the load address is, with the header at word [n]. *)
Definition load_offset (n : Z) (h : mbheader) : Z := 4 * n - (mb_header_addr h - mb_load_addr h).
(** The file holds the load address, and the sectors read for it stay clear of the
    scratch space and below the end of the address space. *)
Definition clear_of_scratch (n : Z) (h : mbheader) : Prop :=
  0 <= load_offset n h /\ SCRATCH + 8192 <= mb_load_addr h - load_offset n h mod SECTSIZE /\
  mb_load_end_addr h + SECTSIZE <= 2 ^ 32.

Section Spec.
Context {D : Type} `{Device D} {wait : nat} `{!Ata D wait}.
Implicit Types (s : bst D) (d : D).

Lemma waitdisk_ok s : (forall drive sector, a_mode (bs_dev s) <> A_write drive sector) ->
  exists d', waitdisk wait s = Ok tt (mk_bst (bs_mem s) d') /\ a_mode d' = a_mode (bs_dev s) /\
    a_media d' = a_media (bs_dev s).
Proof using Type*.
  intros Hm. destruct (a_poll (bs_dev s) Hm) as (n & r & d' & Hn & Hp & Hr & _ & E1 & E2 & _).
  exists d'. split; [|done]. clear E1 E2 Hm. unfold waitdisk. destruct s as [m d]. cbn [bs_mem bs_dev] in *.
  revert Hn Hp. generalize wait as w. revert d.
  induction n as [|n IH]; intros d w Hn Hp; (destruct w as [|w]; [lia|]); cbn [waitdisk_loop polls] in *;
    unfold boot_inb, mbind, M_bind; cbn [bs_dev bs_mem]; destruct (dev_inb 503 d) as [v d1].
  - destruct Hp as [-> ->]. change 192 with (Z.lor IDE_BSY IDE_DRDY). rewrite Hr. done.
  - destruct Hp as [Hv Hp]. change 192 with (Z.lor IDE_BSY IDE_DRDY). change 64 with IDE_DRDY.
    rewrite (proj2 (Z.eqb_neq _ _)) by done. cbn [negb]. apply (IH d1 w); [lia|done].
Qed.

(** The four bytes of a sector number. *)
Lemma boot_sector r n : 0 <= n < 2 ^ 28 -> r 499 = u8 n -> r 500 = u8 (Z.shiftr n 8) -> r 501 = u8 (Z.shiftr n 16) ->
  r 502 = u8 (Z.lor (Z.shiftr n 24) 224) -> task_sector r = n /\ task_drive r = 0.
Proof using.
  intros Hn E1 E2 E3 E4. unfold task_sector, task_drive. rewrite E1, E2, E3, E4.
  rewrite !Z.shiftr_div_pow2 by lia. assert (Hx : 0 <= n / 2 ^ 24 < 16) by (Z.div_mod_to_equations; lia).
  set (x := n / 2 ^ 24) in *.
  assert (Hb : Z.land (u8 (Z.lor x 224)) 15 = x /\ Z.land (u8 (Z.lor x 224) / 2 ^ 4) 1 = 0).
  { clear - Hx. clearbody x. revert x Hx. assert (HF : Forall (fun x => Z.land (u8 (Z.lor x 224)) 15 = x /\
      Z.land (u8 (Z.lor x 224) / 2 ^ 4) 1 = 0) (seqZ 0 16)) by (repeat constructor).
    intros x Hx. rewrite Forall_forall in HF. apply HF, elem_of_seqZ. lia. }
  destruct Hb as [-> ->]. split; [|done]. unfold u8, x. clear. Z.div_mod_to_equations. lia.
Qed.

Lemma readsect_ok s dst n :
  a_mode (bs_dev s) = A_idle -> 0 <= n < 2 ^ 28 ->
  exists d', readsect wait dst n s = Ok tt (mk_bst (write_bytes (bs_mem s) dst (a_media (bs_dev s) 0 n)) d') /\
    a_mode d' = A_idle /\ a_media d' = a_media (bs_dev s).
Proof using Type*.
  intros Hm Hn. destruct (waitdisk_ok s) as (d1 & E1 & M1 & D1); [congruence|].
  unfold readsect. rewrite (bind_ok _ _ _ _ _ E1). clear E1. rewrite Hm in M1.
  set (ws := [(498, 1); (499, n); (500, Z.shiftr n 8); (501, Z.shiftr n 16); (502, Z.lor (Z.shiftr n 24) 224)]).
  destruct (select_all ws d1) as (F1 & F2 & F3); [repeat constructor; set_solver|done|].
  set (d2 := foldl (fun d pv => dev_outb pv.1 (u8 pv.2) d) d1 ws) in *.
  do 5 (erewrite bind_ok; [|reflexivity]). cbn [bs_mem bs_dev].
  change (dev_outb 502 _ _) with d2.
  destruct (boot_sector (a_reg d2) n Hn) as [Es Ed]; [by rewrite F3..|].
  destruct (a_read_cmd d2) as [G1 G2]; [done|by rewrite F3|]. rewrite Es, Ed in G1.
  erewrite bind_ok; [|reflexivity]. cbn [bs_mem bs_dev]. change (u8 32) with IDE_CMD_READ.
  set (d3 := dev_outb 503 IDE_CMD_READ d2) in *.
  destruct (waitdisk_ok (mk_bst (bs_mem s) d3)) as (d4 & E4 & M4 & D4); [cbn; congruence|].
  rewrite (bind_ok _ _ _ _ _ E4). cbn [bs_mem bs_dev] in *.
  destruct (a_data_in d4 0 n) as (d5 & E5 & M5 & D5); [congruence|].
  exists d5. unfold boot_insl. cbn [bs_mem bs_dev]. change (Z.to_nat (SECTSIZE / 4)) with 128%nat. rewrite E5.
  split_and!; [|done|congruence]. by rewrite D4, G2, F2, D1.
Qed.

Lemma readseg_loop_ok n k fuel s pa epa :
  (forall j, length (a_media (bs_dev s) 0 j) = Z.to_nat SECTSIZE) -> a_mode (bs_dev s) = A_idle ->
  (n < fuel)%nat -> 0 <= pa -> pa + SECTSIZE * Z.of_nat n < 2 ^ 32 -> 1 <= k -> k + Z.of_nat n <= 2 ^ 28 ->
  pa + SECTSIZE * (Z.of_nat n - 1) < epa \/ n = O -> epa <= pa + SECTSIZE * Z.of_nat n ->
  exists s', readseg_loop wait fuel pa epa k s = Ok tt s' /\ a_mode (bs_dev s') = A_idle /\
    a_media (bs_dev s') = a_media (bs_dev s) /\
    loaded (bs_mem s) (bs_mem s') pa (SECTSIZE * Z.of_nat n) (SECTSIZE * (k - 1)) (image (a_media (bs_dev s))).
Proof using Type*.
  unfold SECTSIZE. revert k fuel s pa. induction n as [|n IH]; intros k fuel s pa Hl Hm Hf Hpa Hw Hk Hk2 He1 He2;
    (destruct fuel as [|fuel]; [lia|]); cbn [readseg_loop].
  - rewrite (proj2 (Z.ltb_ge _ _)) by lia. exists s. split_and!; [done..|]. intros a. by rewrite decide_False by lia.
  - rewrite (proj2 (Z.ltb_lt _ _)) by lia.
    destruct (readsect_ok s pa k Hm ltac:(lia)) as (d1 & E1 & M1 & D1). rewrite (bind_ok _ _ _ _ _ E1).
    unfold SECTSIZE, u32. rewrite !Z.mod_small by lia.
    destruct (IH (k + 1) fuel (mk_bst (write_bytes (bs_mem s) pa (a_media (bs_dev s) 0 k)) d1) (pa + 512))
      as (s' & E' & M' & D' & L'); cbn [bs_dev bs_mem] in *; [by rewrite D1|done|lia..|].
    exists s'. split; [exact E'|]. split; [done|]. split; [congruence|]. intros a. rewrite (L' a), D1.
    destruct (decide (pa + 512 <= a < pa + 512 + 512 * Z.of_nat n)).
    + rewrite decide_True by lia. f_equal. lia.
    + destruct (decide (pa <= a < pa + 512 * Z.of_nat (S n))).
      * replace a with (pa + Z.of_nat (Z.to_nat (a - pa))) at 1 by lia.
        rewrite write_bytes_new by (rewrite Hl; unfold SECTSIZE; lia). unfold image, SECTSIZE.
        f_equal; [f_equal|f_equal]; Z.div_mod_to_equations; lia.
      * apply write_bytes_old. rewrite Hl. unfold SECTSIZE. lia.
Qed.

Lemma readseg_ok s pa count offset :
  (forall j, length (a_media (bs_dev s) 0 j) = Z.to_nat SECTSIZE) -> a_mode (bs_dev s) = A_idle ->
  offset mod SECTSIZE <= pa -> 0 <= count -> pa + count + SECTSIZE <= 2 ^ 32 -> 0 <= offset < 2 ^ 32 ->
  exists s', readseg wait pa count offset s = Ok tt s' /\ a_mode (bs_dev s') = A_idle /\
    a_media (bs_dev s') = a_media (bs_dev s) /\
    loaded (bs_mem s) (bs_mem s') (pa - offset mod SECTSIZE) (SECTSIZE * sectors count offset)
      (offset - offset mod SECTSIZE) (image (a_media (bs_dev s))).
Proof using Type*.
  intros Hl Hm Hpa Hc Hw Ho. unfold readseg, sectors, u32. unfold SECTSIZE in Hpa, Hw |- *.
  rewrite !Z.mod_small by (Z.div_mod_to_equations; lia). set (r := offset mod 512) in *. set (k := (r + count + 511) / 512).
  assert (Hr : 0 <= r < 512) by (apply Z.mod_pos_bound; lia).
  assert (Hk : 512 * (k - 1) < r + count <= 512 * k) by (unfold k; Z.div_mod_to_equations; lia).
  assert (Ho' : 512 * (offset / 512) = offset - r) by (unfold r; Z.div_mod_to_equations; lia).
  destruct (readseg_loop_ok (Z.to_nat k) (offset / 512 + 1) (Z.to_nat ((pa + count) / 512 + 2)) s (pa - r) (pa + count))
    as (s' & E' & M' & D' & L'); unfold SECTSIZE in *; [done|done|..].
  all: try (clearbody k; Z.div_mod_to_equations; lia).
  rewrite (Z.mod_small (offset / 512 + 1)) by (Z.div_mod_to_equations; lia).
  exists s'. split_and!; [done..|]. change (512 - 1) with 511. fold k. replace (offset - r) with (512 * (offset / 512 + 1 - 1)) by lia.
  by replace (512 * k) with (512 * Z.of_nat (Z.to_nat k)) by lia.
Qed.

(** A copied word is the word of the image. *)
Lemma load_loaded n m m' pa len off src a : loaded m m' pa len off src -> pa <= a -> a + Z.of_nat n <= pa + len ->
  load n m' a = load n src (off + (a - pa)).
Proof using.
  intros Hl. unfold load. replace (off + (a - pa)) with (a + (off - pa)) by lia. intros H1 H2. f_equal. revert a H1 H2.
  induction n as [|n IH]; intros a H1 H2; [done|]. cbn [read_bytes]. f_equal.
  - rewrite Hl, decide_True by lia. f_equal. lia.
  - rewrite IH by lia. f_equal. lia.
Qed.

Lemma load_range n m a : (forall i, 0 <= m i < 256) -> 0 <= load n m a < 2 ^ (8 * Z.of_nat n).
Proof using.
  intros Hm. unfold load. pose proof (le_val_range (read_bytes m a n)) as Hr. rewrite length_read_bytes in Hr. apply Hr. clear Hr.
  revert a. induction n as [|n IH]; intros a; cbn [read_bytes]; constructor; [apply Hm|apply IH].
Qed.

Lemma find_header m m' img n : loaded m m' SCRATCH 8192 0 img -> 0 <= n -> n + 2 < 2048 -> header_word img n ->
  (forall i, 0 <= i < n -> ~ header_word img i) -> find_mbheader (Z.to_nat (8192 / 4)) m' 0 = Some n.
Proof using.
  intros Hl Hn0 Hn Hh Hno.
  assert (Hx : forall i, 0 <= i < 2048 -> load 4 m' (SCRATCH + 4 * i) = load 4 img (4 * i)).
  { intros i Hi. rewrite (load_loaded _ _ _ _ _ _ _ _ Hl) by lia. f_equal. lia. }
  change (Z.to_nat (8192 / 4)) with (Z.to_nat 2048). clear Hl.
  assert (Hg : forall c j, 0 <= j <= n -> n - j < Z.of_nat c -> find_mbheader c m' j = Some n); [|apply Hg; lia].
  induction c as [|c IH]; intros j Hj Hc; [lia|]. cbn [find_mbheader]. rewrite !Hx by lia.
  destruct (decide (j = n)) as [->|Hne].
  - destruct Hh as [E1 E2]. by rewrite E2, E1.
  - destruct (_ && _) eqn:E; [|apply IH; lia]. exfalso. apply (Hno j); [lia|].
    rewrite andb_true_iff, !Z.eqb_eq in E. exact E.
Qed.

Lemma header_loaded m m' img n : loaded m m' SCRATCH 8192 0 img -> 0 <= n -> n + 8 <= 2048 ->
  mbheader_at m' (SCRATCH + 4 * n) = mbheader_at img (4 * n).
Proof using.
  intros Hl Hn0 Hn. unfold mbheader_at. rewrite !(load_loaded _ _ _ _ _ _ _ _ Hl) by lia.
  f_equal; f_equal; lia.
Qed.

Lemma header_ext m m' a : (forall x, a <= x < a + 32 -> m x = m' x) -> mbheader_at m a = mbheader_at m' a.
Proof using. intros Hx. unfold mbheader_at. f_equal; apply load_ext; intros; apply Hx; lia. Qed.

(** The second read, in the terms of the theorem. *)
Lemma readseg_program s pa epa offset :
  (forall j, length (a_media (bs_dev s) 0 j) = Z.to_nat SECTSIZE) -> a_mode (bs_dev s) = A_idle ->
  offset mod SECTSIZE <= pa -> pa <= epa -> epa + SECTSIZE <= 2 ^ 32 -> 0 <= offset < 2 ^ 32 ->
  exists m' d', readseg wait pa (epa - pa) offset s = Ok tt (mk_bst m' d') /\
    (forall a, pa <= a < epa -> m' a = image (a_media (bs_dev s)) (offset + (a - pa))) /\
    (forall a, ~ (pa - offset mod SECTSIZE <= a < epa + SECTSIZE) -> m' a = bs_mem s a).
Proof using Type*.
  intros Hl Hm Hpa Hle Hw Ho.
  destruct (readseg_ok s pa (epa - pa) offset Hl Hm Hpa ltac:(lia) ltac:(lia) Ho) as ([m' d'] & E & _ & _ & L).
  exists m', d'. split; [exact E|]. cbn [bs_mem] in L. unfold sectors, SECTSIZE in *.
  assert (Hr : 0 <= offset mod 512 < 512) by (apply Z.mod_pos_bound; lia). set (r := offset mod 512) in *. clearbody r.
  split; intros a Ha; rewrite (L a).
  - rewrite decide_True by (Z.div_mod_to_equations; lia). f_equal. lia.
  - apply decide_False. Z.div_mod_to_equations; lia.
Qed.

Lemma clear_bss m d a e :
  exists m', (if e >? a then boot_clear a (e - a) else mret tt) (mk_bst m d) = Ok tt (mk_bst m' d) /\
    forall x, m' x = if decide (a <= x < e) then 0 else m x.
Proof using.
  rewrite Z.gtb_ltb. destruct (Z.ltb_spec a e) as [Hlt|Hge].
  - eexists. split; [reflexivity|]. intros x. cbn beta. replace (a + (e - a)) with e by lia.
    destruct (Z.leb_spec a x), (Z.ltb_spec x e); cbn [andb bs_mem]; [rewrite decide_True by lia|rewrite decide_False by lia..]; done.
  - exists m. split; [done|]. intros x. by rewrite decide_False by lia.
Qed.

(** C13: the boot loader.  When the first multiboot header of the file that starts at sector 1
    lies in its first 8192 bytes, [bootmain] reads that part into the scratch space and, if
    the header gives load addresses, puts the file at them: the bytes from the load address
    to the end of the load come from the file, counted so that the header falls on its own
    address, the rest of the program's memory is cleared, and the kernel is entered at the
    address of the header.  Memory that is neither scratch space nor within a sector of the
    program is left alone.  If the header has no usable addresses the loader returns and
    nothing but the scratch space is written. *)
Theorem boot_loads s n :
  a_mode (bs_dev s) = A_idle -> (forall j, length (a_media (bs_dev s) 0 j) = Z.to_nat SECTSIZE) ->
  let img := image (a_media (bs_dev s)) in
  let h := mbheader_at img (4 * n) in
  (forall i, 0 <= img i < 256) -> 0 <= n -> n + 8 <= 2048 -> header_word img n ->
  (forall i, 0 <= i < n -> ~ header_word img i) -> (loadable h -> clear_of_scratch n h) ->
  exists r m' d', bootmain wait s = Ok r (mk_bst m' d') /\
    (forall a, SCRATCH <= a < SCRATCH + 8192 -> m' a = img (a - SCRATCH)) /\
    if decide (loadable h) then
      r = Some (mb_entry_addr h) /\
      (forall a, mb_load_addr h <= a < mb_load_end_addr h -> m' a = img (load_offset n h + (a - mb_load_addr h))) /\
      (forall a, mb_load_end_addr h <= a < mb_bss_end_addr h -> m' a = 0) /\
      (forall a, ~ (SCRATCH <= a < SCRATCH + 8192) ->
        ~ (mb_load_addr h - SECTSIZE < a < Z.max (mb_load_end_addr h + SECTSIZE) (mb_bss_end_addr h)) -> m' a = bs_mem s a)
    else r = None /\ forall a, ~ (SCRATCH <= a < SCRATCH + 8192) -> m' a = bs_mem s a.
Proof using Type*.
  intros Hm Hl img h Hb Hn0 Hn Hh Hno Hc. unfold bootmain.
  destruct (readseg_ok s SCRATCH 8192 0 Hl Hm ltac:(done) ltac:(done) ltac:(done) ltac:(done)) as (s1 & E1 & M1 & D1 & L1).
  rewrite (bind_ok _ _ _ _ _ E1). clear E1. change (SCRATCH - 0 mod SECTSIZE) with SCRATCH in L1.
  change (SECTSIZE * sectors 8192 0) with 8192 in L1. change (0 - 0 mod SECTSIZE) with 0 in L1. fold img in L1.
  erewrite bind_ok; [|reflexivity]. cbn beta. rewrite (find_header _ _ _ _ L1) by (done || lia).
  pose proof (header_loaded _ _ _ _ L1 Hn0 Hn) as EH. rewrite EH. fold h. fold h in EH.
  assert (Hr : forall k, 0 <= load 4 img k < 2 ^ 32) by (intros; by apply load_range).
  assert (Hs : forall a, SCRATCH <= a < SCRATCH + 8192 -> bs_mem s1 a = img (a - SCRATCH)).
  { intros a Ha. rewrite (L1 a), decide_True by done. f_equal. }
  assert (Ho : forall a, ~ (SCRATCH <= a < SCRATCH + 8192) -> bs_mem s1 a = bs_mem s a).
  { intros a Ha. by rewrite (L1 a), decide_False. }
  destruct (decide (loadable h)) as [Hld|Hld].
  2:{ exists None, (bs_mem s1), (bs_dev s1). split; [|done]. unfold loadable in Hld. destruct s1.
      repeat case_match; try done. exfalso. apply Hld. destruct (has _ _); [|done]. split; [done|]. lia. }
  destruct (Hc Hld) as (Hoff & Hlo & Hhi). destruct Hld as (Hf & Hle & Hle2). rewrite Hf. cbn [negb].
  rewrite Z.gtb_ltb, (proj2 (Z.ltb_ge _ _)), (proj2 (Z.ltb_ge _ _)) by done.
  pose proof (Hr (4 * n + 12)) as R1. pose proof (Hr (4 * n + 16)) as R2. pose proof (Hr (4 * n + 20)) as R3.
  change (0 <= mb_header_addr h < 2 ^ 32) in R1. change (0 <= mb_load_addr h < 2 ^ 32) in R2.
  change (0 <= mb_load_end_addr h < 2 ^ 32) in R3.
  replace (u32 (n * 4 - u32 (mb_header_addr h - mb_load_addr h))) with (load_offset n h)
    by (unfold load_offset, u32 in *; rewrite (Z.mod_small (mb_header_addr h - _)), Z.mod_small by lia; lia).
  replace (u32 (mb_load_end_addr h - mb_load_addr h)) with (mb_load_end_addr h - mb_load_addr h)
    by (unfold u32; rewrite Z.mod_small; lia).
  destruct (readseg_program s1 (mb_load_addr h) (mb_load_end_addr h) (load_offset n h)) as (m2 & d2 & E2 & P2 & O2);
    [by rewrite D1|done|unfold SECTSIZE, SCRATCH in *; lia..|unfold load_offset in *; lia|].
  rewrite (bind_ok _ _ _ _ _ E2), D1 in *. fold img in P2. clear E2. erewrite bind_ok; [|reflexivity]. cbn beta. cbn [bs_mem].
  assert (K2 : forall a, SCRATCH <= a < SCRATCH + 8192 -> m2 a = bs_mem s1 a).
  { intros a Ha. apply O2. unfold SCRATCH in *. lia. }
  rewrite (header_ext m2 (bs_mem s1)), EH by (intros; apply K2; unfold SCRATCH in *; lia).
  destruct (clear_bss m2 d2 (mb_load_end_addr h) (mb_bss_end_addr h)) as (m3 & E3 & L3).
  rewrite (bind_ok _ _ _ _ _ E3). clear E3. erewrite bind_ok; [|reflexivity]. cbn beta. cbn [bs_mem].
  assert (K3 : forall a, SCRATCH <= a < SCRATCH + 8192 -> m3 a = bs_mem s1 a).
  { intros a Ha. rewrite L3, decide_False by (unfold SECTSIZE, SCRATCH in *; Z.div_mod_to_equations; lia). by apply K2. }
  rewrite (header_ext m3 (bs_mem s1)), EH by (intros; apply K3; unfold SCRATCH in *; lia).
  assert (Hmod : 0 <= load_offset n h mod SECTSIZE < SECTSIZE) by (by apply Z.mod_pos_bound).
  exists (Some (mb_entry_addr h)), m3, d2. split_and!; [done|..|done| | |]; intros a Ha.
  - by rewrite K3, Hs.
  - rewrite L3, decide_False by lia. by apply P2.
  - by rewrite L3, decide_True.
  - intros Ha2. rewrite L3, decide_False, O2 by (unfold SECTSIZE in *; lia). by apply Ho.
Qed.
End Spec.

(** A kernel of two sectors: a header at word 1, loaded at 1 MB. *)
Definition demo_header : list Z := [MBOOT_MAGIC; 65536; u32 (- (MBOOT_MAGIC + 65536)); 1048580; 1048576; 1049576; 1050576; 1048612].
Definition demo_sector : block :=
  let l := le_bytes 4 0 ++ mjoin (le_bytes 4 <$> demo_header) in l ++ replicate (512 - length l) 144.
Definition demo_media (drive sector : Z) : block :=
  if decide (sector = 1) then demo_sector else replicate 512 (sector mod 256).
Definition demo_boot : bst sim := mk_bst (fun _ => 7) (mk_sim A_idle demo_media (fun _ => 0) true).

Lemma demo_media_bytes i : 0 <= image demo_media i < 256.
Proof.
  assert (Hs : Forall (fun b => 0 <= b < 256) (demo_media 0 (i / SECTSIZE + 1))).
  { unfold demo_media. case_decide; [|apply Forall_replicate, Z.mod_pos_bound; lia].
    apply Forall_forall. intros b Hb.
    assert (Ht : forallb (fun b => (0 <=? b) && (b <? 256)) demo_sector = true) by reflexivity.
    rewrite forallb_forall in Ht. apply list_elem_of_In, Ht in Hb. lia. }
  unfold image. destruct (Nat.lt_ge_cases (Z.to_nat (i mod SECTSIZE)) (length (demo_media 0 (i / SECTSIZE + 1)))) as [Hlt|Hge].
  - rewrite Forall_forall in Hs. by apply Hs, list_elem_of_In, nth_In.
  - rewrite nth_overflow by done. lia.
Qed.

Lemma boot_loads_witness : exists r m' d', bootmain 2 demo_boot = Ok r (mk_bst m' d') /\
  r = Some 1048612 /\ m' 1048580 = 2 /\ m' 1049575 = 2 /\ m' 1049576 = 0 /\ m' 1050576 = 7.
Proof.
  destruct (boot_loads demo_boot 1) as (r & m' & d' & E & _ & Hd).
  - reflexivity.
  - intros j. cbn [demo_boot bs_dev a_media sim_ata sm_media]. unfold demo_media. by case_decide.
  - apply demo_media_bytes.
  - lia.
  - lia.
  - split; vm_compute; reflexivity.
  - intros i Hi [E _]. assert (i = 0) as -> by lia. vm_compute in E. discriminate.
  - intros _. vm_compute. repeat split; discriminate.
  - exists r, m', d'. split; [exact E|]. rewrite decide_True in Hd by (vm_compute; repeat split; discriminate).
    destruct Hd as (Hr & Hp & Hz & Ho).
    split; [rewrite Hr; vm_compute; reflexivity|].
    split; [rewrite Hp; [|split]; vm_compute; congruence|]. split; [rewrite Hp; [|split]; vm_compute; congruence|].
    split; [apply Hz; split; vm_compute; congruence|].
    rewrite Ho; [reflexivity|unfold SCRATCH; lia|].
    vm_compute; intros [_ Ha]; discriminate Ha.
Defined.
