(* ===== verification/Mp.v ===== *)
(** Finding the processors: [src/mp.c] on the tables of [src/mp.h] that the firmware leaves
    in memory. *)
From Stdlib Require Import ZArith Lia.
From stdpp Require Import base gmap sets strings numbers list.
From S2P Require Import Prelude Strings State Spinlock Sched Fs Console Dir Kalloc Vm Trap Machine.

Local Open Scope Z_scope.

Definition NCPU : Z := 8.
Definition MPPROC : Z := 0.
Definition MPBUS : Z := 1.
Definition MPIOAPIC : Z := 2.
Definition MPIOINTR : Z := 3.
Definition MPLINTR : Z := 4.

(** Sizes of [struct mp], [struct mpconf], [struct mpproc] and [struct mpioapic]. *)
Definition MP_SIZE : Z := 16.
Definition MPCONF_SIZE : Z := 44.
Definition MPPROC_SIZE : Z := 20.
Definition MPIOAPIC_SIZE : Z := 8.

(** Fields. *)
Definition mp_physaddr (m : mem) (p : Z) : Z := load 4 m (p + 4).
Definition mp_imcrp (m : mem) (p : Z) : Z := m (p + 12).
Definition mpconf_length (m : mem) (p : Z) : Z := load 2 m (p + 4).
Definition mpconf_version (m : mem) (p : Z) : Z := m (p + 6).
Definition mpconf_lapicaddr (m : mem) (p : Z) : Z := load 4 m (p + 36).

Fixpoint sum_loop (n : nat) (m : mem) (addr acc : Z) : Z :=
  match n with
  | O => acc
  | S n' => sum_loop n' m (addr + 1) (i32 (acc + m addr))
  end.
Definition sum (m : mem) (addr len : Z) : Z := u8 (sum_loop (Z.to_nat len) m addr 0).

(** [n] structures from [p] on; 0 for none. *)
Fixpoint mpsearch_loop (n : nat) (m : mem) (p : Z) : Z :=
  match n with
  | O => 0
  | S n' =>
      if (memcmp (from m p) (ptr (bytes_of "_MP_")) 4 =? 0) && (sum m p MP_SIZE =? 0) then p
      else mpsearch_loop n' m (p + MP_SIZE)
  end.
Definition mpsearch1 (m : mem) (a len : Z) : Z :=
  mpsearch_loop (Z.to_nat ((len + MP_SIZE - 1) / MP_SIZE)) m (P2V a).

Definition mpsearch (m : mem) : Z :=
  let bda := P2V 1024 in
  let p := u32 (Z.shiftl (Z.lor (Z.shiftl (m (bda + 15)) 8) (m (bda + 14))) 4) in
  if negb (p =? 0) then
    let mp := mpsearch1 m p 1024 in
    if negb (mp =? 0) then mp else mpsearch1 m 983040 65536
  else
    let p := u32 (Z.lor (Z.shiftl (m (bda + 20)) 8) (m (bda + 19)) * 1024) in
    let mp := mpsearch1 m (u32 (p - 1024)) 1024 in
    if negb (mp =? 0) then mp else mpsearch1 m 983040 65536.

(** The configuration table and [*pmp]. *)
Definition mpconfig (m : mem) : option (Z * Z) :=
  let mp := mpsearch m in
  if (mp =? 0) || (mp_physaddr m mp =? 0) then None else
  let conf := P2V (mp_physaddr m mp) in
  if negb (memcmp (from m conf) (ptr (bytes_of "PCMP")) 4 =? 0) then None else
  if negb (mpconf_version m conf =? 1) && negb (mpconf_version m conf =? 4) then None else
  if negb (sum m conf (mpconf_length m conf) =? 0) then None else
  Some (conf, mp).

Section Mp.
Context {D : Type} `{Device D}.

(** The loop over the entries from [p] up to [e]. *)
Fixpoint mp_entries (fuel : nat) (m : mem) (p e : Z) : M (mach D) unit :=
  match fuel with
  | O => fail EFuel
  | S fuel' =>
      if p <? e then
        let t := m p in
        if t =? MPPROC then
          ids ← gets mc_apicids;
          (if Z.of_nat (length ids) <? NCPU then modify (set_mc_apicids (ids ++ [m (p + 1)])) else mret tt);;
          mp_entries fuel' m (p + MPPROC_SIZE) e
        else if t =? MPIOAPIC then
          modify (set_mc_ioapicid (m (p + 1)));;
          mp_entries fuel' m (p + MPIOAPIC_SIZE) e
        else if (t =? MPBUS) || (t =? MPIOINTR) || (t =? MPLINTR) then
          mp_entries fuel' m (p + 8) e
        else panic "Major problem parsing mp config."
      else mret tt
  end.

(** An entry has at least 8 bytes, so that [length] rounds are enough. *)
Definition mpinit : M (mach D) unit :=
  k ← gets mc_k;
  let m := k_mem k in
  match mpconfig m with
  | None => kernel (cprintf (bytes_of "No other CPUs found." ++ [10]) [])
  | Some (conf, mp) =>
      modify (set_mc_lapic (P2V (mpconf_lapicaddr m conf)));;
      mp_entries (S (Z.to_nat (mpconf_length m conf))) m (conf + MPCONF_SIZE) (conf + mpconf_length m conf);;
      ids ← gets mc_apicids;
      kernel (cprintf (bytes_of "Seems we are SMP, ncpu = %d" ++ [10]) [VInt (Z.of_nat (length ids))]);;
      if negb (mp_imcrp m mp =? 0) then
        outb 34 112;;
        v ← inb 35;
        outb 35 (Z.lor v 1)
      else mret tt
  end.
End Mp.

(** ** The tables *)

(** The entries of a configuration table with the bytes that the kernel does not use. *)
Inductive mpentry : Type :=
| Processor (apicid : Z) (rest : list Z)
| IoApic (apicno : Z) (rest : list Z)
| Other (t : Z) (rest : list Z).

Definition enc_entry (e : mpentry) : list Z :=
  match e with
  | Processor id rest => MPPROC :: id :: rest
  | IoApic no rest => MPIOAPIC :: no :: rest
  | Other t rest => t :: rest
  end.
Definition entry_ok (e : mpentry) : Prop :=
  match e with
  | Processor _ rest => length rest = 18%nat
  | IoApic _ rest => length rest = 6%nat
  | Other t rest => length rest = 7%nat /\ (t = MPBUS \/ t = MPIOINTR \/ t = MPLINTR)
  end.
Definition enc_entries (es : list mpentry) : list Z := mjoin (enc_entry <$> es).

Definition processors (es : list mpentry) : list Z := omap (fun e => if e is Processor id _ then Some id else None) es.
Definition ioapics (es : list mpentry) : list Z := omap (fun e => if e is IoApic no _ then Some no else None) es.

(** The bytes add up to 0. *)
Definition sums_to_0 (l : list Z) : Prop := foldr Z.add 0 l mod 256 = 0.

(** A floating pointer structure at [p], the first one of [n] from [a] on, or none there. *)
Definition is_mp (m : mem) (p : Z) : Prop :=
  read_bytes m p 4 = bytes_of "_MP_" /\ sums_to_0 (read_bytes m p (Z.to_nat MP_SIZE)).
Definition first_mp (m : mem) (a n p : Z) : Prop :=
  exists j, 0 <= j < n /\ p = P2V a + MP_SIZE * j /\ is_mp m p /\ forall i, 0 <= i < j -> ~ is_mp m (P2V a + MP_SIZE * i).
Definition no_mp (m : mem) (a n : Z) : Prop := forall i, 0 <= i < n -> ~ is_mp m (P2V a + MP_SIZE * i).

(** Where the structure may be: the first kilobyte of the extended BIOS data area, or else
    the last one of base memory; and the ROM. *)
Definition ebda (m : mem) : Z := u32 (Z.shiftl (Z.lor (Z.shiftl (m (P2V 1024 + 15)) 8) (m (P2V 1024 + 14))) 4).
Definition basemem (m : mem) : Z := u32 (Z.lor (Z.shiftl (m (P2V 1024 + 20)) 8) (m (P2V 1024 + 19)) * 1024).
Definition low_area (m : mem) : Z := if ebda m =? 0 then u32 (basemem m - 1024) else ebda m.
Definition located (m : mem) (p : Z) : Prop :=
  first_mp m (low_area m) 64 p \/ (no_mp m (low_area m) 64 /\ first_mp m 983040 4096 p).

(** A configuration table with the entries [es] at [conf]. *)
Record mp_table (m : mem) (conf : Z) (es : list mpentry) : Prop := {
  mt_sig : read_bytes m conf 4 = bytes_of "PCMP";
  mt_version : mpconf_version m conf = 1 \/ mpconf_version m conf = 4;
  mt_length : mpconf_length m conf = MPCONF_SIZE + Z.of_nat (length (enc_entries es));
  mt_sum : sums_to_0 (read_bytes m conf (Z.to_nat (mpconf_length m conf)));
  mt_entries : read_bytes m (conf + MPCONF_SIZE) (length (enc_entries es)) = enc_entries es;
  mt_ok : Forall entry_ok es
}.

(** ** Searching *)
Lemma sum_loop_ok n m a acc : u8 (sum_loop n m a acc) = u8 (acc + foldr Z.add 0 (read_bytes m a n)).
Proof.
  revert a acc. induction n as [|n IH]; intros a acc; cbn [sum_loop read_bytes foldr]; [f_equal; lia|].
  rewrite IH. unfold u8, i32. change (2 ^ 8) with 256. change (2 ^ 31) with (256 * 8388608). change (2 ^ 32) with (256 * 16777216).
  Z.div_mod_to_equations. lia.
Qed.
Lemma sum_zero m a len : (sum m a len =? 0) = bool_decide (sums_to_0 (read_bytes m a (Z.to_nat len))).
Proof. unfold sum, sums_to_0. rewrite sum_loop_ok, Z.add_0_l. unfold u8. apply eq_bool_prop_intro. by rewrite bool_decide_spec, Is_true_true, Z.eqb_eq. Qed.

Lemma memcmp_loop_zero n s1 s2 i :
  memcmp_loop n s1 s2 i = 0 <-> forall j, 0 <= j < Z.of_nat n -> s1 (i + j) = s2 (i + j).
Proof.
  revert i. induction n as [|n IH]; intros i; cbn [memcmp_loop]; [split; [lia|done]|].
  destruct (Z.eqb_spec (s1 i) (s2 i)) as [E|E]; cbn [negb].
  - rewrite IH. split; intros Hx j Hj.
    + destruct (decide (j = 0)) as [->|]; [by rewrite Z.add_0_r|].
      replace (i + j) with (i + 1 + (j - 1)) by lia. apply Hx. lia.
    + replace (i + 1 + j) with (i + (j + 1)) by lia. apply Hx. lia.
  - split; [lia|]. intros Hx. specialize (Hx 0 ltac:(lia)). rewrite Z.add_0_r in Hx. lia.
Qed.

Lemma read_bytes_ptr m p l :
  read_bytes m p (length l) = l <-> forall j, 0 <= j < Z.of_nat (length l) -> m (p + j) = ptr l j.
Proof.
  revert p. induction l as [|b l IH]; intros p; cbn [length read_bytes]; [split; [lia|done]|].
  split.
  - intros [= E1 E2] j Hj. rewrite IH in E2. destruct (decide (j = 0)) as [->|]; [by rewrite Z.add_0_r|].
    replace (p + j) with (p + 1 + (j - 1)) by lia. rewrite E2 by lia. unfold ptr.
    by replace (Z.to_nat j) with (S (Z.to_nat (j - 1))) by lia.
  - intros Hx. f_equal.
    + specialize (Hx 0 ltac:(lia)). by rewrite Z.add_0_r in Hx.
    + apply IH. intros j Hj. replace (p + 1 + j) with (p + (j + 1)) by lia. rewrite Hx by lia. unfold ptr.
      by replace (Z.to_nat (j + 1)) with (S (Z.to_nat j)) by lia.
Qed.

Lemma sig_ok m p l : length l = 4%nat ->
  (memcmp (from m p) (ptr l) 4 =? 0) = bool_decide (read_bytes m p 4 = l).
Proof.
  intros Hl. apply eq_bool_prop_intro. rewrite bool_decide_spec, Is_true_true, Z.eqb_eq. unfold memcmp.
  rewrite memcmp_loop_zero. rewrite <- Hl at 1. rewrite read_bytes_ptr, Hl. change (Z.to_nat 4) with 4%nat. unfold from.
  split; intros Hx j Hj; by apply Hx.
Qed.

#[global] Instance is_mp_dec m p : Decision (is_mp m p).
Proof. unfold is_mp, sums_to_0. apply _. Defined.

Lemma mpsearch_step m p :
  (memcmp (from m p) (ptr (bytes_of "_MP_")) 4 =? 0) && (sum m p MP_SIZE =? 0) = bool_decide (is_mp m p).
Proof.
  rewrite sig_ok, sum_zero by done. apply eq_bool_prop_intro. by rewrite andb_True, !bool_decide_spec.
Qed.

Lemma mpsearch_loop_found n m p j : 0 <= j < Z.of_nat n -> is_mp m (p + MP_SIZE * j) ->
  (forall i, 0 <= i < j -> ~ is_mp m (p + MP_SIZE * i)) -> mpsearch_loop n m p = p + MP_SIZE * j.
Proof.
  revert p j. induction n as [|n IH]; intros p j Hj Hm Hno; [lia|]. cbn [mpsearch_loop]. rewrite mpsearch_step.
  destruct (decide (j = 0)) as [->|Hne].
  - rewrite Z.mul_0_r, Z.add_0_r in *. by rewrite bool_decide_eq_true_2.
  - rewrite bool_decide_eq_false_2.
    2: { specialize (Hno 0 ltac:(lia)). by rewrite Z.mul_0_r, Z.add_0_r in Hno. }
    rewrite (IH (p + MP_SIZE) (j - 1)); [lia|lia|by replace (p + MP_SIZE + MP_SIZE * (j - 1)) with (p + MP_SIZE * j) by lia|].
    intros i Hi. replace (p + MP_SIZE + MP_SIZE * i) with (p + MP_SIZE * (i + 1)) by lia. apply Hno. lia.
Qed.
Lemma mpsearch_loop_none n m p : (forall i, 0 <= i < Z.of_nat n -> ~ is_mp m (p + MP_SIZE * i)) -> mpsearch_loop n m p = 0.
Proof.
  revert p. induction n as [|n IH]; intros p Hno; [done|]. cbn [mpsearch_loop]. rewrite mpsearch_step.
  rewrite bool_decide_eq_false_2.
  2: { specialize (Hno 0 ltac:(lia)). by rewrite Z.mul_0_r, Z.add_0_r in Hno. }
  apply IH. intros i Hi. replace (p + MP_SIZE + MP_SIZE * i) with (p + MP_SIZE * (i + 1)) by lia. apply Hno. lia.
Qed.

Lemma mpsearch1_found m a n p : first_mp m a n p -> mpsearch1 m a (MP_SIZE * n) = p.
Proof.
  intros (j & Hj & -> & Hm & Hno). unfold mpsearch1.
  replace ((MP_SIZE * n + MP_SIZE - 1) / MP_SIZE) with n by (unfold MP_SIZE; Z.div_mod_to_equations; lia).
  apply mpsearch_loop_found; [lia|done|done].
Qed.
Lemma mpsearch1_none m a n : 0 <= n -> no_mp m a n -> mpsearch1 m a (MP_SIZE * n) = 0.
Proof.
  intros Hn Hno. unfold mpsearch1.
  replace ((MP_SIZE * n + MP_SIZE - 1) / MP_SIZE) with n by (unfold MP_SIZE; Z.div_mod_to_equations; lia).
  apply mpsearch_loop_none. intros i Hi. apply Hno. lia.
Qed.

Lemma mpsearch_eq m : mpsearch m = (let mp := mpsearch1 m (low_area m) (MP_SIZE * 64) in
  if negb (mp =? 0) then mp else mpsearch1 m 983040 (MP_SIZE * 4096)).
Proof. unfold mpsearch, low_area, ebda, basemem. cbv zeta. by destruct (_ =? 0). Qed.

Lemma mpsearch_found m p : p <> 0 -> located m p -> mpsearch m = p.
Proof.
  intros Hp HL. rewrite mpsearch_eq. cbv zeta. destruct HL as [Hf|[Hno Hf]].
  - rewrite (mpsearch1_found _ _ _ _ Hf). by rewrite (proj2 (Z.eqb_neq p 0)).
  - rewrite (mpsearch1_none m (low_area m) 64 ltac:(lia) Hno). by apply mpsearch1_found.
Qed.

(** ** Parsing the table *)
Section Parse.
Context {D : Type} `{Device D}.
Implicit Types (s : mach D).

Definition found (es : list mpentry) (s : mach D) : mach D :=
  set_mc_apicids (take (Z.to_nat NCPU) (mc_apicids s ++ processors es))
    (set_mc_ioapicid (default (mc_ioapicid s) (last (ioapics es))) s).

Lemma found_nil s : (length (mc_apicids s) <= Z.to_nat NCPU)%nat -> found [] s = s.
Proof using. intros Hl. unfold found. cbn. rewrite app_nil_r, take_ge by done. by destruct s. Qed.

Lemma read_bytes_app m p n1 n2 : read_bytes m p (n1 + n2) = read_bytes m p n1 ++ read_bytes m (p + Z.of_nat n1) n2.
Proof using.
  revert p. induction n1 as [|n IH]; intros p; cbn [Nat.add read_bytes app]; [by rewrite Z.add_0_r|].
  f_equal. rewrite IH. do 2 f_equal. lia.
Qed.

Lemma enc_entry_length e : entry_ok e -> (8 <= length (enc_entry e))%nat.
Proof using. destruct e; cbn; lia. Qed.

Lemma found_cons e es s : found (e :: es) s = found es (match e with
  | Processor id _ => if Z.of_nat (length (mc_apicids s)) <? NCPU then set_mc_apicids (mc_apicids s ++ [id]) s else s
  | IoApic no _ => set_mc_ioapicid no s
  | Other _ _ => s
  end).
Proof using.
  destruct e as [id rest|no rest|t rest]; [|unfold found, ioapics; cbn; by rewrite last_cons; destruct (last _)|done].
  unfold found. change (processors (Processor id rest :: es)) with (id :: processors es).
  change (ioapics (Processor id rest :: es)) with (ioapics es). destruct (Z.ltb_spec (Z.of_nat (length (mc_apicids s))) NCPU) as [Hl|Hl].
  - cbn. by rewrite <- app_assoc.
  - by rewrite !take_app_le by lia.
Qed.

Lemma mp_entries_ok fuel m p es s :
  read_bytes m p (length (enc_entries es)) = enc_entries es -> Forall entry_ok es ->
  (length (enc_entries es) < fuel)%nat -> (length (mc_apicids s) <= Z.to_nat NCPU)%nat ->
  mp_entries fuel m p (p + Z.of_nat (length (enc_entries es))) s = Ok tt (found es s).
Proof using.
  revert fuel p s. induction es as [|e es IH]; intros fuel p s Hb Hok Hf Hl; (destruct fuel as [|fuel]; [lia|]); cbn [mp_entries].
  { rewrite Z.add_0_r, Z.ltb_irrefl. by rewrite found_nil. }
  inversion Hok as [|? ? He Hes]; subst. pose proof (enc_entry_length e He) as H8.
  change (enc_entries (e :: es)) with (enc_entry e ++ enc_entries es) in *.
  rewrite length_app, read_bytes_app in Hb. rewrite length_app in Hf |- *. rewrite (proj2 (Z.ltb_lt _ _)) by lia.
  apply app_inj_1 in Hb as [H1 H2]; [|apply length_read_bytes].
  rewrite found_cons. rewrite read_bytes_ptr in H1. pose proof (H1 0 ltac:(lia)) as E0. pose proof (H1 1 ltac:(lia)) as E1.
  rewrite Z.add_0_r in E0. rewrite E0, E1. clear E0 E1 H1.
  assert (Hnext : forall n s', Z.of_nat (length (enc_entry e)) = n -> (length (mc_apicids s') <= Z.to_nat NCPU)%nat ->
    mp_entries fuel m (p + n) (p + Z.of_nat (length (enc_entry e) + length (enc_entries es))) s' = Ok tt (found es s')).
  { intros n s' <- Hs'. rewrite Nat2Z.inj_add, Z.add_assoc. apply IH; [done|done|lia|done]. }
  destruct e as [aid rest|no rest|t rest]; cbn in He; unfold ptr; cbn [enc_entry] in *.
  - change (default 0 ((MPPROC :: aid :: rest) !! Z.to_nat 0)) with MPPROC.
    change (default 0 ((MPPROC :: aid :: rest) !! Z.to_nat 1)) with aid. rewrite Z.eqb_refl.
    erewrite bind_ok; [|reflexivity]. cbn beta. destruct (Z.ltb_spec (Z.of_nat (length (mc_apicids s))) NCPU) as [Hlt|Hge].
    + erewrite bind_ok; [|reflexivity]. apply Hnext; [cbn [length]; rewrite He; done|]. cbn. rewrite length_app. unfold NCPU in *. simpl. lia.
    + erewrite bind_ok; [|reflexivity]. apply Hnext; [cbn [length]; rewrite He; done|done].
  - change (default 0 ((MPIOAPIC :: no :: rest) !! Z.to_nat 0)) with MPIOAPIC.
    change (default 0 ((MPIOAPIC :: no :: rest) !! Z.to_nat 1)) with no. change (MPIOAPIC =? MPPROC) with false. rewrite Z.eqb_refl.
    erewrite bind_ok; [|reflexivity]. apply Hnext; [cbn [length]; rewrite He; done|done].
  - change (default 0 ((t :: rest) !! Z.to_nat 0)) with t. destruct He as [Hlen Ht].
    assert (Hn8 : mp_entries fuel m (p + 8) (p + Z.of_nat (length (t :: rest) + length (enc_entries es))) s = Ok tt (found es s)).
    { apply Hnext; [cbn [length]; rewrite Hlen; done|done]. }
    destruct Ht as [-> | [-> | ->]]; exact Hn8.
Qed.

(** C26: [mpinit] reads the firmware's tables.  If the floating pointer structure is the first
    one with its signature and checksum in one of the areas that are searched, and it leads
    to a configuration table with the entries [es], [mpinit] registers the processors of
    the table in their order, up to [NCPU] of them, and the last I/O APIC, and goes on to
    its message and to the interrupt mode register; the loop ends for every such table. *)
Theorem mpinit_parses s mp conf es :
  let m := k_mem (mc_k s) in
  mp <> 0 -> located m mp -> mp_physaddr m mp <> 0 -> conf = P2V (mp_physaddr m mp) -> mp_table m conf es ->
  (length (mc_apicids s) <= Z.to_nat NCPU)%nat ->
  let s' := found es (set_mc_lapic (P2V (mpconf_lapicaddr m conf)) s) in
  mpinit s = (kernel (cprintf (bytes_of "Seems we are SMP, ncpu = %d" ++ [10]) [VInt (Z.of_nat (length (mc_apicids s')))]);;
    if negb (mp_imcrp m mp =? 0) then outb 34 112;; v ← inb 35; outb 35 (Z.lor v 1) else mret tt) s'.
Proof using.
  intros m Hmp HL Hpa Hc [Hsig Hv Hlen Hsum Hes Hok] Hids s'. unfold mpinit. erewrite bind_ok; [|reflexivity]. cbn beta. fold m.
  assert (Ec : mpconfig m = Some (conf, mp)).
  { unfold mpconfig. rewrite (mpsearch_found m mp Hmp HL). cbv zeta. rewrite (proj2 (Z.eqb_neq mp 0)), (proj2 (Z.eqb_neq _ 0)) by done.
    cbn [orb]. rewrite <- Hc, sig_ok, sum_zero, !bool_decide_eq_true_2 by done. cbn [negb].
    by destruct Hv as [-> | ->]. }
  rewrite Ec. erewrite bind_ok; [|reflexivity].
  replace (conf + mpconf_length m conf) with (conf + MPCONF_SIZE + Z.of_nat (length (enc_entries es))) by lia.
  erewrite bind_ok; [|apply mp_entries_ok; [done|done|unfold MPCONF_SIZE in *; lia|done]].
  erewrite bind_ok; [|reflexivity]. done.
Qed.
End Parse.

(** Two processors and an I/O APIC; the structure is in the extended BIOS data area. *)
Definition demo_entries : list mpentry :=
  [Processor 0 (replicate 18 0); Other MPBUS (replicate 7 0); Processor 3 (replicate 18 0); IoApic 2 (replicate 6 0)].
Definition demo_conf : list Z :=
  bytes_of "PCMP" ++ [100; 0; 4; 130] ++ replicate 28 0 ++ [0; 0; 224; 254] ++ replicate 4 0 ++ enc_entries demo_entries.
Definition demo_mp : list Z := bytes_of "_MP_" ++ [0; 16; 0; 0; 1; 4; 144; 0; 0; 0; 0; 0].
Definition demo_mem : mem :=
  write_bytes (write_bytes (write_bytes (fun _ => 0) (P2V 1024 + 14) [0; 144]) (P2V 589824) demo_mp) (P2V 4096) demo_conf.
Definition demo_mach0 : mach unit := mk_mach (set_k_mem demo_mem kst_zero) tt None (fun _ => None) false 0 [] 0 0.


Definition demo_found : mach unit := found demo_entries (set_mc_lapic (P2V (mpconf_lapicaddr demo_mem (P2V 4096))) demo_mach0).

Lemma mpinit_parses_witness : mc_apicids demo_found = [0; 3] /\ mc_ioapicid demo_found = 2 /\
  mpinit demo_mach0 = (kernel (cprintf (bytes_of "Seems we are SMP, ncpu = %d" ++ [10]) [VInt (Z.of_nat (length (mc_apicids demo_found)))]);;
    if negb (mp_imcrp demo_mem (P2V 589824) =? 0) then outb 34 112;; v ← inb 35; outb 35 (Z.lor v 1) else mret tt) demo_found.
Proof.
  split; [vm_compute; reflexivity|]. split; [vm_compute; reflexivity|].
  apply (mpinit_parses demo_mach0 (P2V 589824) (P2V 4096) demo_entries).
  - vm_compute. discriminate.
  - left. exists 0. split; [lia|]. split; [vm_compute; reflexivity|]. split; [split; vm_compute; reflexivity|]. intros i Hi. lia.
  - vm_compute. discriminate.
  - vm_compute. reflexivity.
  - constructor; [vm_compute; reflexivity|right; vm_compute; reflexivity|vm_compute; reflexivity|vm_compute; reflexivity|vm_compute; reflexivity|].
    repeat constructor.
  - cbn. lia.
Defined.
