(* ===== verification/Main.v ===== *)
(** The start of the kernel: [src/main.c], the descriptor tables and model-specific
    registers that [seginit] and [syscallinit] of [src/vm.c] and [idtinit] of [src/trap.c]
    load, with [struct segdesc] of [src/mmu.h], and [ideinit] and [ideintr] of
    [src/memide.c].

    The registers that only this code writes are added to the machine.  The addresses and
    the bytes of linked-in assembly ([syscall_entry], [ignore_sysret], [entry32mp],
    [_binary_entryother_start], [vectors], the first process) and the disk image are
    arguments. *)
From Stdlib Require Import ZArith Lia.
From stdpp Require Import base gmap sets strings numbers list.
From S2P Require Import Prelude Strings State Spinlock Bio Console Kalloc Vm Pipe File Proc Trap Machine Apic Mp.

Local Open Scope Z_scope.

(** ** Segment descriptors *)
Definition SEG_KCODE : Z := 1.
Definition SEG_KDATA : Z := 2.
Definition SEG_UCODE32 : Z := 3.
Definition SEG_UDATA : Z := 4.
Definition SEG_UCODE : Z := 5.
Definition SEG_KCPU : Z := 6.
Definition SEG_TSS : Z := 7.
Definition NSEGS : Z := 8.
Definition APP_SEG : Z := 1.
Definition STA_X : Z := 8.
Definition STA_W : Z := 2.
Definition STA_R : Z := 2.
Definition STS_T64A : Z := 9.
Definition USER32_CS : Z := Z.lor (Z.shiftl SEG_UCODE32 3) DPL_USER.

(** [struct segdesc]; the bit fields hold their values modulo their width. *)
Record segdesc : Type := mk_segdesc {
  lim_15_0 : Z;
  base_15_0 : Z;
  base_23_16 : Z;
  sd_type : Z;
  sd_s : Z;
  sd_dpl : Z;
  sd_p : Z;
  lim_19_16 : Z;
  sd_avl : Z;
  sd_rsv1 : Z;
  sd_db : Z;
  sd_g : Z;
  base_31_24 : Z
}.
Definition segdesc_zero : segdesc := mk_segdesc 0 0 0 0 0 0 0 0 0 0 0 0 0.

(** The macro [SEG]. *)
Definition SEG (type lim base sys dpl rsv : Z) : segdesc :=
  mk_segdesc (Z.land lim 65535) (Z.land base 65535) (Z.land (Z.shiftr base 16) 255) type sys dpl 1
    (Z.shiftr lim 60) 0 rsv 0 1 (Z.shiftr base 24).

(** The eight bytes of a descriptor, as a number: the fields from the lowest bit up. *)
Fixpoint pack (fields : list (Z * Z)) : Z :=
  match fields with
  | [] => 0
  | (v, w) :: fields' => v mod 2 ^ w + 2 ^ w * pack fields'
  end.
Definition segdesc_fields (d : segdesc) : list (Z * Z) :=
  [(lim_15_0 d, 16); (base_15_0 d, 16); (base_23_16 d, 8); (sd_type d, 4); (sd_s d, 1); (sd_dpl d, 2); (sd_p d, 1);
    (lim_19_16 d, 4); (sd_avl d, 1); (sd_rsv1 d, 1); (sd_db d, 1); (sd_g d, 1); (base_31_24 d, 8)].
Definition segdesc_val (d : segdesc) : Z := pack (segdesc_fields d).

(** ** The machine with its descriptor and model-specific registers *)
Record hw (D : Type) : Type := mk_hw {
  hw_mach : mach D;
  hw_msr : gmap Z Z;
  hw_gdtr : Z * Z;
  hw_idtr : Z * Z;
  hw_tr : Z;
  hw_cpu : Z;
  hw_idt : Z;
  hw_started : gmap Z Z
}.
Arguments mk_hw {D}.
Arguments hw_mach {D}.
Arguments hw_msr {D}.
Arguments hw_gdtr {D}.
Arguments hw_idtr {D}.
Arguments hw_tr {D}.
Arguments hw_cpu {D}.
Arguments hw_idt {D}.
Arguments hw_started {D}.

Section Hw.
Context {D : Type}.
Implicit Types h : hw D.

Definition set_hw_mach (m : mach D) h : hw D :=
  mk_hw m (hw_msr h) (hw_gdtr h) (hw_idtr h) (hw_tr h) (hw_cpu h) (hw_idt h) (hw_started h).
Definition wrmsr (msr v : Z) : M (hw D) unit := modify (fun h =>
  mk_hw (hw_mach h) (<[msr := v]> (hw_msr h)) (hw_gdtr h) (hw_idtr h) (hw_tr h) (hw_cpu h) (hw_idt h) (hw_started h)).
(** The limit is a [ushort]. *)
Definition lgdt (p size : Z) : M (hw D) unit := modify (fun h =>
  mk_hw (hw_mach h) (hw_msr h) (p, u16 (size - 1)) (hw_idtr h) (hw_tr h) (hw_cpu h) (hw_idt h) (hw_started h)).
Definition lidt (p size : Z) : M (hw D) unit := modify (fun h =>
  mk_hw (hw_mach h) (hw_msr h) (hw_gdtr h) (p, u16 (size - 1)) (hw_tr h) (hw_cpu h) (hw_idt h) (hw_started h)).
Definition ltr (sel : Z) : M (hw D) unit := modify (fun h =>
  mk_hw (hw_mach h) (hw_msr h) (hw_gdtr h) (hw_idtr h) (u16 sel) (hw_cpu h) (hw_idt h) (hw_started h)).
(** The per-CPU variable [cpu], as an index into [cpus]. *)
Definition set_cpu (c : Z) : M (hw D) unit := modify (fun h =>
  mk_hw (hw_mach h) (hw_msr h) (hw_gdtr h) (hw_idtr h) (hw_tr h) c (hw_idt h) (hw_started h)).
Definition set_idt (p : Z) : M (hw D) unit := modify (fun h =>
  mk_hw (hw_mach h) (hw_msr h) (hw_gdtr h) (hw_idtr h) (hw_tr h) (hw_cpu h) p (hw_started h)).
(** [xchg(&cpus[c].started, v)] *)
Definition set_started (c v : Z) : M (hw D) unit := modify (fun h =>
  mk_hw (hw_mach h) (hw_msr h) (hw_gdtr h) (hw_idtr h) (hw_tr h) (hw_cpu h) (hw_idt h) (<[c := v]> (hw_started h))).

(** Code that uses none of these registers. *)
Definition on {A} (m : M (mach D) A) : M (hw D) A := fun h =>
  match m (hw_mach h) with
  | Ok a s => Ok a (set_hw_mach s h)
  | Blocked s => Blocked (set_hw_mach s h)
  | Err e => Err e
  end.
Definition kern {A} (m : M kst A) : M (hw D) A := on (kernel m).

Context `{Device D}.

(** ** [src/vm.c] *)
Definition MSR_STAR : Z := 3221225601.
Definition MSR_LSTAR : Z := 3221225602.
Definition MSR_CSTAR : Z := 3221225603.
Definition MSR_SFMASK : Z := 3221225604.
(** The base of [%fs]. *)
Definition MSR_FS_BASE : Z := 3221225728.
(** [FL_TF|FL_DF|FL_IF|FL_IOPL_3|FL_AC|FL_NT] *)
Definition SYSCALL_MASK : Z :=
  Z.lor (Z.lor (Z.lor (Z.lor (Z.lor 256 1024) 512) 12288) 262144) 16384.

Definition syscallinit (syscall_entry ignore_sysret : Z) : M (hw D) unit :=
  wrmsr MSR_STAR (Z.lor (Z.shiftl USER32_CS 48) (Z.shiftl KERNEL_CS 32));;
  wrmsr MSR_LSTAR syscall_entry;;
  wrmsr MSR_CSTAR ignore_sysret;;
  wrmsr MSR_SFMASK SYSCALL_MASK.

(** [gdt[i] = d] *)
Definition set_gdt (gdt i : Z) (d : segdesc) : M (hw D) unit :=
  kern (upd_mem (fun m => store 8 m (gdt + 8 * i) (segdesc_val d))).

(** [seginit]; [ra] is the return address of its call of [cpunum]. *)
Definition seginit (ra : Z) : M (hw D) unit :=
  local ← kern kalloc;
  kern (zero_page local);;
  let gdt := local in
  let tss := local + 1024 in
  kern (upd_mem (fun m => store 4 m (tss + 4 * 16) 6815744));;
  wrmsr MSR_FS_BASE (u64 (local + 2048));;
  c ← on (cpunum ra);
  kern (modify (set_k_local local));;
  set_cpu c;;
  kern (modify (set_k_proc None));;
  let addr := tss in
  set_gdt gdt 0 segdesc_zero;;
  set_gdt gdt SEG_KCODE (SEG (Z.lor STA_X STA_R) 0 0 APP_SEG 0 1);;
  set_gdt gdt SEG_KDATA (SEG STA_W 0 0 APP_SEG 0 0);;
  set_gdt gdt SEG_UCODE32 segdesc_zero;;
  set_gdt gdt SEG_UDATA (SEG STA_W 0 0 APP_SEG DPL_USER 0);;
  set_gdt gdt SEG_UCODE (SEG (Z.lor STA_X STA_R) 0 0 APP_SEG DPL_USER 1);;
  set_gdt gdt SEG_KCPU segdesc_zero;;
  set_gdt gdt SEG_TSS (SEG STS_T64A 11 addr 0 DPL_USER 0);;
  set_gdt gdt (SEG_TSS + 1) (SEG 0 (Z.shiftr addr 32) (Z.shiftr addr 48) 0 0 0);;
  lgdt gdt ((NSEGS + 1) * 8);;
  ltr (Z.shiftl SEG_TSS 3).

(** ** [src/trap.c] *)
Definition idtinit : M (hw D) unit :=
  h ← get;
  lidt (hw_idt h) PGSIZE.

(** ** [src/memide.c] *)

(** The first [n] blocks of the image. *)
Fixpoint image_blocks (n : nat) (img : list Z) : list block :=
  match n with
  | O => []
  | S n' => take (Z.to_nat BSIZE) img :: image_blocks n' (drop (Z.to_nat BSIZE) img)
  end.
Definition ideinit (img : list Z) : M kst unit :=
  let disksize := u32 (Z.of_nat (length img)) / BSIZE in
  modify (set_k_disk (image_blocks (Z.to_nat disksize) img)).
Definition ideintr : M kst unit := mret tt.

(** ** The device accesses of [uartearlyinit] and [consoleinit]

    around what [Console.v] models of them. *)
Definition uartearlyinit : M (mach D) unit :=
  outb (COM1 + 2) 0;;
  outb (COM1 + 3) 128;;
  outb (COM1 + 0) (115200 / 9600);;
  outb (COM1 + 1) 0;;
  outb (COM1 + 3) 3;;
  outb (COM1 + 4) 0;;
  outb (COM1 + 1) 1;;
  status ← inb (COM1 + 5);
  kernel (Console.uartearlyinit status).
Definition consoleinit : M (mach D) unit :=
  kernel (initlock L_cons);;
  kernel (initlock L_input);;
  kernel Console.consoleinit;;
  ioapicenable IRQ_KBD 0.

(** ** [src/main.c] *)
Section Main.
(** The assembly that is linked in; [ra] gives the return address of each call of
    [cpunum], [wait] bounds the wait for the interrupt controller, and [ap c] is what
    processor [c] does once it is started, until the boot processor looks again. *)
Context (syscall_entry ignore_sysret entry32mp : Z) (entryother initcode vectors img : list Z).
Context (ra : Z) (wait : nat) (ap : Z -> M (hw D) unit).

(** [mpmain], up to the call of [scheduler]. *)
Definition mpmain : M (hw D) unit :=
  n ← on (cpunum ra);
  kern (cprintf (bytes_of "cpu%d: starting" ++ [10]) [VInt n]);;
  idtinit;;
  syscallinit syscall_entry ignore_sysret;;
  h ← get;
  set_started (hw_cpu h) 1.

Definition mpenter : M (hw D) unit :=
  kern switchkvm;;
  seginit ra;;
  on (lapicinit wait);;
  mpmain.

(** The [for] of [startothers] over the processors [c], [c + 1], ... *)
Fixpoint startothers_loop (ids : list Z) (c code : Z) : M (hw D) unit :=
  match ids with
  | [] => mret tt
  | apicid :: ids' =>
      n ← on (cpunum ra);
      (if c =? n then mret tt
       else
         stack ← kern kalloc;
         kern (upd_mem (fun m => store 4 m (code - 4) 32768));;
         kern (upd_mem (fun m => store 4 m (code - 8) (u32 (V2P entry32mp))));;
         kern (upd_mem (fun m => store 8 m (code - 16) (u64 (stack + KSTACKSIZE))));;
         on (lapicstartap apicid (V2P code));;
         ap c;;
         h ← get;
         if default 0 (hw_started h !! c) =? 0 then fail EFuel else mret tt);;
      startothers_loop ids' (c + 1) code
  end.
Definition startothers : M (hw D) unit :=
  let code := P2V 28672 in
  kern (kstore_bytes code entryother);;
  h ← get;
  startothers_loop (mc_apicids (hw_mach h)) 0 code.

(** [main], up to the call of [scheduler]; [kend] is the linker symbol [end]. *)
Definition main (kend : Z) : M (hw D) unit :=
  on uartearlyinit;;
  kern (kinit1 kend (P2V (4 * 1024 * 1024)));;
  kern kvmalloc;;
  on mpinit;;
  on (lapicinit wait);;
  idt ← kern (tvinit vectors);
  set_idt idt;;
  seginit ra;;
  n ← on (cpunum ra);
  kern (cprintf (10 :: bytes_of "cpu%d: starting xv6" ++ [10; 10]) [VInt n]);;
  on ioapicinit;;
  on consoleinit;;
  on uartinit;;
  kern pinit;;
  kern binit;;
  kern fileinit;;
  kern (ideinit img);;
  startothers;;
  kern (kinit2 (P2V (4 * 1024 * 1024)) (P2V PHYSTOP));;
  kern (userinit initcode);;
  mpmain.
End Main.
End Hw.
