(* ===== verification/MainSpec.v ===== *)
(** The descriptor tables that [seginit] and [syscallinit] set up, read the way the
    processor reads them: the segments that [syscall] and [sysret] load, the task state
    segment with the kernel stack that [switchuvm] puts into it, and its map of I/O ports. *)
From Stdlib Require Import ZArith Lia.
From stdpp Require Import base gmap sets strings numbers list.
From S2P Require Import Prelude Strings State Spinlock Kalloc Vm VmSpec VmUser Trap Machine Apic Ide IdeSpec Mp Main.

Local Open Scope Z_scope.

(** ** The processor's view *)

(** The descriptor that a selector names, within the limit of the table. *)
Definition descriptor (m : mem) (gdtr : Z * Z) (sel : Z) : option Z :=
  let o := 8 * (sel / 8) in
  if o + 7 <=? gdtr.2 then Some (load 8 m (gdtr.1 + o)) else None.

Definition bits (v lo w : Z) : Z := v / 2 ^ lo mod 2 ^ w.
(** A present 64-bit code segment, and a present writable data segment, of a ring. *)
Definition code64 (ring : Z) (v : Z) : Prop :=
  bits v 47 1 = 1 /\ bits v 43 2 = 3 /\ bits v 53 2 = 1 /\ bits v 45 2 = ring.
Definition data_rw (ring : Z) (v : Z) : Prop :=
  bits v 47 1 = 1 /\ bits v 43 2 = 2 /\ bits v 41 1 = 1 /\ bits v 45 2 = ring.

(** The selectors that [syscall] and the 64-bit [sysret] take from the register STAR. *)
Definition syscall_cs (star : Z) : Z := bits star 32 16.
Definition syscall_ss (star : Z) : Z := bits star 32 16 + 8.
Definition sysret_cs (star : Z) : Z := Z.lor (bits star 48 16 + 16) 3.
Definition sysret_ss (star : Z) : Z := Z.lor (bits star 48 16 + 8) 3.

(** The base and limit of a 64-bit task state segment, from its two words. *)
Definition tss_base (lo hi : Z) : Z :=
  bits lo 16 16 + 2 ^ 16 * bits lo 32 8 + 2 ^ 24 * bits lo 56 8 + 2 ^ 32 * bits hi 0 32.
Definition tss_limit (lo : Z) : Z :=
  let l := bits lo 0 16 + 2 ^ 16 * bits lo 48 4 in
  if bits lo 55 1 =? 1 then l * 4096 + 4095 else l.
(** The task register names a present available 64-bit TSS at [base]. *)
Definition tss_at (m : mem) (gdtr : Z * Z) (tr base limit : Z) : Prop :=
  exists lo hi, descriptor m gdtr tr = Some lo /\ descriptor m gdtr (tr + 8) = Some hi /\
    bits lo 47 1 = 1 /\ bits lo 40 5 = 9 /\ tss_base lo hi = base /\ tss_limit lo = limit.
(** The stack for ring 0. *)
Definition rsp0 (m : mem) (base : Z) : Z := load 8 m (base + 4).
(** Ring 3 may use a port: its bit of the map, whose offset is at byte 102 of the segment,
    lies within the segment and is clear. *)
Definition port_allowed (m : mem) (base limit port : Z) : Prop :=
  let iomap := load 2 m (base + 102) in
  iomap + port / 8 + 1 <= limit /\ Z.testbit (m (base + iomap + port / 8)) (port mod 8) = false.

(** ** Packed fields *)
Definition width (l : list (Z * Z)) : Z := foldr (fun f n => f.2 + n) 0 l.

Lemma width_nonneg l : Forall (fun f => 0 <= f.2) l -> 0 <= width l.
Proof. induction 1 as [|f l Hf _ IH]; cbn [width foldr]; [lia|]. fold (width l). lia. Qed.

Lemma pack_range l : Forall (fun f => 0 <= f.2) l -> 0 <= pack l < 2 ^ width l.
Proof.
  induction 1 as [|[v w] l Hf Hl IH]; [cbn; lia|]. cbn [pack width foldr snd] in *. fold (width l).
  pose proof (width_nonneg l Hl). rewrite Z.pow_add_r by done.
  pose proof (Z.mod_pos_bound v (2 ^ w) ltac:(apply Z.pow_pos_nonneg; lia)). nia.
Qed.

Lemma pack_field l1 v w l2 : Forall (fun f => 0 <= f.2) (l1 ++ (v, w) :: l2) ->
  bits (pack (l1 ++ (v, w) :: l2)) (width l1) w = v mod 2 ^ w.
Proof.
  unfold bits. induction l1 as [|[u x] l1 IH]; intros Hall; apply Forall_cons in Hall as [Hx Hall]; cbn in Hx.
  - cbn [app pack width foldr]. rewrite Z.pow_0_r, Z.div_1_r, Z.mul_comm, Z.mod_add by (apply Z.pow_nonzero; lia).
    apply Z.mod_mod, Z.pow_nonzero; lia.
  - cbn [app pack width foldr snd]. fold (width l1).
    assert (Hw : 0 <= width l1) by (apply width_nonneg; by apply Forall_app in Hall as [? _]).
    assert (H2 : 0 < 2 ^ x) by (apply Z.pow_pos_nonneg; lia).
    rewrite Z.pow_add_r, <- Z.div_div by (try apply Z.pow_nonzero; try apply Z.pow_pos_nonneg; lia).
    rewrite (Z.mul_comm (2 ^ x)), Z.div_add, (Z.div_small (u mod _)) by (lia || by apply Z.mod_pos_bound). by apply IH.
Qed.

(** A field of a descriptor. *)
Lemma segdesc_widths d : Forall (fun f => 0 <= f.2) (segdesc_fields d).
Proof. by repeat constructor. Qed.

Lemma segdesc_field d l1 v w l2 n : segdesc_fields d = l1 ++ (v, w) :: l2 -> width l1 = n ->
  bits (segdesc_val d) n w = v mod 2 ^ w.
Proof. intros E <-. unfold segdesc_val. rewrite E. apply pack_field. rewrite <- E. apply segdesc_widths. Qed.

Lemma segdesc_range d : 0 <= segdesc_val d < 2 ^ 64.
Proof. apply (pack_range (segdesc_fields d)), segdesc_widths. Qed.

Lemma land_65535 a : Z.land a 65535 = a mod 2 ^ 16.
Proof. by apply (Z.land_ones a 16). Qed.

(** The two words that [seginit] writes for a TSS at [a]. *)
Definition tss_lo (a : Z) : segdesc := SEG STS_T64A 11 a 0 DPL_USER 0.
Definition tss_hi (a : Z) : segdesc := SEG 0 (Z.shiftr a 32) (Z.shiftr a 48) 0 0 0.

Lemma tss_words a : 0 <= a < 2 ^ 64 ->
  let lo := segdesc_val (tss_lo a) in let hi := segdesc_val (tss_hi a) in
  bits lo 47 1 = 1 /\ bits lo 40 5 = 9 /\ tss_base lo hi = a /\ tss_limit lo = 49151.
Proof.
  intros Ha lo hi.
  assert (B1 : bits lo 16 16 = a mod 2 ^ 16).
  { unfold lo. rewrite (segdesc_field (tss_lo a) [_] _ _ _ 16 eq_refl eq_refl). cbn [tss_lo SEG base_15_0].
    rewrite land_65535 by lia. apply Z.mod_mod. lia. }
  assert (B2 : bits lo 32 8 = a / 2 ^ 16 mod 2 ^ 8).
  { unfold lo. rewrite (segdesc_field (tss_lo a) [_; _] _ _ _ 32 eq_refl eq_refl). cbn [tss_lo SEG base_23_16].
    rewrite land_255, Z.shiftr_div_pow2 by lia. unfold u8. apply Z.mod_mod. lia. }
  assert (B3 : bits lo 56 8 = a / 2 ^ 24 mod 2 ^ 8).
  { unfold lo. rewrite (segdesc_field (tss_lo a) [_; _; _; _; _; _; _; _; _; _; _; _] _ _ _ 56 eq_refl eq_refl).
    cbn [tss_lo SEG base_31_24]. by rewrite Z.shiftr_div_pow2 by lia. }
  assert (B4 : bits hi 0 16 = a / 2 ^ 32 mod 2 ^ 16).
  { unfold hi. rewrite (segdesc_field (tss_hi a) [] _ _ _ 0 eq_refl eq_refl). cbn [tss_hi SEG lim_15_0].
    rewrite land_65535, Z.shiftr_div_pow2 by lia. apply Z.mod_mod. lia. }
  assert (B5 : bits hi 16 16 = a / 2 ^ 48).
  { unfold hi. rewrite (segdesc_field (tss_hi a) [_] _ _ _ 16 eq_refl eq_refl). cbn [tss_hi SEG base_15_0].
    rewrite land_65535, Z.shiftr_div_pow2, Z.mod_mod by lia. apply Z.mod_small. Z.div_mod_to_equations; lia. }
  assert (B6 : bits lo 40 4 = 9 /\ bits lo 44 1 = 0).
  { split; [apply (segdesc_field (tss_lo a) [_; _; _] 9 4 _ 40 eq_refl eq_refl)|apply (segdesc_field (tss_lo a) [_; _; _; _] 0 1 _ 44 eq_refl eq_refl)]. }
  split; [apply (segdesc_field (tss_lo a) [_; _; _; _; _; _] 1 1 _ 47 eq_refl eq_refl)|].
  split; [unfold bits in *; clear - B6; Z.div_mod_to_equations; lia|]. split.
  - unfold tss_base. rewrite B1, B2, B3.
    replace (bits hi 0 32) with (bits hi 0 16 + 2 ^ 16 * bits hi 16 16) by (unfold bits; clear; Z.div_mod_to_equations; lia).
    rewrite B4, B5. clear - Ha. Z.div_mod_to_equations; lia.
  - unfold tss_limit. rewrite (segdesc_field (tss_lo a) [] 11 16 _ 0 eq_refl eq_refl : bits lo 0 16 = _),
      (segdesc_field (tss_lo a) [_; _; _; _; _; _; _] 0 4 _ 48 eq_refl eq_refl : bits lo 48 4 = _),
      (segdesc_field (tss_lo a) [_; _; _; _; _; _; _; _; _; _; _] 1 1 _ 55 eq_refl eq_refl : bits lo 55 1 = _). reflexivity.
Qed.

(** ** Running [seginit] *)
Section Run.
Context {D : Type} `{Device D}.
Implicit Types (h : hw D) (s : mach D).

(** The local interrupt controller, if there is one, has the number of a known processor. *)
Definition apic_known s : Prop :=
  mc_lapic s = 0 \/ exists i, find_apic (Z.shiftr (dev_read (mc_lapic s + 4 * ID) (mc_dev s)).1 24) (mc_apicids s) 0 = Some i.

Lemma cpunum_ok ra s : intr_on (k_cpu (mc_k s)) = false -> apic_known s -> exists c d, cpunum ra s = Ok c (set_mc_dev d s).
Proof.
  intros Hi Ha. unfold cpunum. erewrite bind_ok; [|reflexivity]. cbn beta. rewrite Hi.
  erewrite bind_ok; [|reflexivity]. erewrite bind_ok; [|reflexivity]. cbn beta. destruct Ha as [E|[i Hf]].
  - rewrite E. exists 0, (mc_dev s). by destruct s.
  - destruct (Z.eqb_spec (mc_lapic s) 0) as [E|E]; [exists 0, (mc_dev s); by destruct s|].
    destruct (dev_read (mc_lapic s + 4 * ID) (mc_dev s)) as [v d] eqn:Ed. exists i, d.
    assert (El : lapic_read ID s = Ok v (set_mc_dev d s)).
    { unfold lapic_read, readl, mbind, M_bind, gets. by rewrite Ed. }
    rewrite (bind_ok _ _ _ _ _ El). erewrite bind_ok; [|reflexivity]. cbn beta. cbn [fst] in Hf.
    change (mc_apicids (set_mc_dev d s)) with (mc_apicids s). by rewrite Hf.
Qed.

(** The entries of the table, and memory with them. *)
Definition gdt_entries (w : Z) : list (Z * segdesc) :=
  [(0, segdesc_zero); (SEG_KCODE, SEG (Z.lor STA_X STA_R) 0 0 APP_SEG 0 1); (SEG_KDATA, SEG STA_W 0 0 APP_SEG 0 0);
   (SEG_UCODE32, segdesc_zero); (SEG_UDATA, SEG STA_W 0 0 APP_SEG DPL_USER 0);
   (SEG_UCODE, SEG (Z.lor STA_X STA_R) 0 0 APP_SEG DPL_USER 1); (SEG_KCPU, segdesc_zero);
   (SEG_TSS, tss_lo (w + 1024)); (SEG_TSS + 1, tss_hi (w + 1024))].
Definition local_page (m : mem) (w : Z) : mem :=
  foldl (fun m e => store 8 m (w + 8 * e.1) (segdesc_val e.2))
    (store 4 (memset m w 0 PGSIZE) (w + 1024 + 4 * 16) 6815744) (gdt_entries w).

(** A state with its memory in view, and steps on it. *)
Definition with_mem (m : mem) (k : kst) s msr gdtr idtr tr cp idt st : hw D :=
  mk_hw (set_mc_k (set_k_mem m k) s) msr gdtr idtr tr cp idt st.

Lemma kern_upd_mem f m k s msr gdtr idtr tr cp idt st :
  kern (upd_mem f) (with_mem m k s msr gdtr idtr tr cp idt st) = Ok tt (with_mem (f m) k s msr gdtr idtr tr cp idt st).
Proof. reflexivity. Qed.
Lemma kern_local w m k s msr gdtr idtr tr cp idt st :
  kern (modify (set_k_local w)) (with_mem m k s msr gdtr idtr tr cp idt st) =
    Ok tt (with_mem m (set_k_local w k) s msr gdtr idtr tr cp idt st).
Proof. reflexivity. Qed.
Lemma kern_proc p m k s msr gdtr idtr tr cp idt st :
  kern (modify (set_k_proc p)) (with_mem m k s msr gdtr idtr tr cp idt st) =
    Ok tt (with_mem m (set_k_proc p k) s msr gdtr idtr tr cp idt st).
Proof. reflexivity. Qed.

Lemma seginit_eq ra k s msr gdtr idtr tr cp idt st w fl :
  free_pages k (w :: fl) -> intr_on (k_cpu k) = false -> apic_known s ->
  exists c d, seginit ra (mk_hw (set_mc_k k s) msr gdtr idtr tr cp idt st) =
    Ok tt (with_mem (local_page (k_mem k) w)
      (set_k_proc None (set_k_local w (set_k_kmem (set_km_freelist (default 0 (head fl)) (k_kmem k)) k)))
      (set_mc_dev d s) (<[MSR_FS_BASE := u64 (w + 2048)]> msr) (w, 71) idtr 56 c idt st).
Proof.
  intros Hf Hi Ha. set (k1 := set_k_kmem (set_km_freelist (default 0 (head fl)) (k_kmem k)) k).
  set (m1 := store 4 (memset (k_mem k) w 0 PGSIZE) (w + 1024 + 4 * 16) 6815744).
  destruct (cpunum_ok ra (set_mc_k (set_k_mem m1 k1) s)) as (c & d & Ec); [exact Hi|exact Ha|]. exists c, d.
  unfold seginit.
  assert (E0 : kern kalloc (mk_hw (set_mc_k k s) msr gdtr idtr tr cp idt st) =
    Ok w (with_mem (k_mem k) k1 s msr gdtr idtr tr cp idt st)).
  { unfold kern, on, kernel. cbn [hw_mach]. change (mc_k (set_mc_k k s)) with k. rewrite (kalloc_eq _ _ Hf). by destruct k. }
  rewrite (bind_ok _ _ _ _ _ E0). clear E0.
  assert (Hw : (w =? 0) = false) by (pose proof (page_ok_pos _ _ (Forall_inv (fp_ok _ _ Hf))); lia).
  unfold zero_page, set_gdt. rewrite Hw. do 2 (erewrite bind_ok; [|apply kern_upd_mem]).
  erewrite bind_ok; [|reflexivity].
  assert (E1 : forall msr, on (cpunum ra) (with_mem m1 k1 s msr gdtr idtr tr cp idt st) =
    Ok c (with_mem m1 k1 (set_mc_dev d s) msr gdtr idtr tr cp idt st)).
  { intros. unfold on, with_mem. cbn [hw_mach]. by rewrite Ec. }
  erewrite bind_ok; [|apply E1]. erewrite bind_ok; [|apply kern_local]. erewrite bind_ok; [|reflexivity].
  erewrite bind_ok; [|apply kern_proc]. do 9 (erewrite bind_ok; [|apply kern_upd_mem]).
  erewrite bind_ok; [|reflexivity]. reflexivity.
Qed.

(** ** The page *)
Lemma gdt_load m w i d : (i, d) ∈ gdt_entries w -> load 8 (local_page m w) (w + 8 * i) = segdesc_val d.
Proof.
  intros Hin. unfold local_page. revert Hin. unfold gdt_entries. rewrite !elem_of_cons, elem_of_nil. cbn [foldl fst snd].
  unfold SEG_KCODE, SEG_KDATA, SEG_UCODE32, SEG_UDATA, SEG_UCODE, SEG_KCPU, SEG_TSS.
  intros Hin. repeat destruct Hin as [Hin|Hin]; try done; simplify_eq;
    repeat (rewrite load_store_other by lia); rewrite load_store_same; apply Z.mod_small, segdesc_range.
Qed.

Lemma local_page_at m w a : ~ (w <= a < w + 72) -> ~ (w + 1088 <= a < w + 1092) ->
  local_page m w a = if decide (w <= a < w + PGSIZE) then 0 else m a.
Proof.
  intros H1 H2. unfold local_page, gdt_entries. cbn [foldl fst snd].
  unfold SEG_KCODE, SEG_KDATA, SEG_UCODE32, SEG_UDATA, SEG_UCODE, SEG_KCPU, SEG_TSS.
  repeat (rewrite store_old by lia). rewrite memset_filled by done. unfold filled.
  case_decide; destruct (Z.leb_spec w a), (Z.ltb_spec a (w + PGSIZE)); cbn; (done || lia).
Qed.

Lemma load_two m a : load 8 m a = load 4 m a + 2 ^ 32 * load 4 m (a + 4).
Proof.
  unfold load. cbn [read_bytes]. replace (a + 4) with (a + 1 + 1 + 1 + 1) by lia. cbn [le_val]. lia.
Qed.

Lemma kern_switchuvm p m k s msr gdtr idtr tr cp idt st : cpu_ok (k_cpu k) -> p_pgdir p <> 0 ->
  exists v, kern (switchuvm p) (with_mem m k s msr gdtr idtr tr cp idt st) =
    Ok tt (with_mem (with_stack m (k_local k + 1024) (u64 (p_kstack p + KSTACKSIZE))) (set_k_cr3 v k) s msr gdtr idtr tr cp idt st).
Proof.
  intros Hc Hp. pose proof (switchuvm_eq p (set_k_mem m k) Hc Hp) as E. eexists.
  unfold kern, on, kernel, with_mem. cbn [hw_mach]. change (mc_k (set_mc_k (set_k_mem m k) s)) with (set_k_mem m k).
  rewrite E. reflexivity.
Qed.

Lemma with_stack_rsp0 m tss v : 0 <= v < 2 ^ 64 -> rsp0 (with_stack m tss v) tss = v.
Proof.
  intros Hv. unfold rsp0, with_stack. rewrite load_two. replace (tss + 4 + 4) with (tss + 8) by lia.
  rewrite load_store_other, !load_store_same by lia. unfold u32. rewrite Z.shiftr_div_pow2 by lia.
  change (8 * Z.of_nat 4) with 32. rewrite !Z.mod_mod by lia. Z.div_mod_to_equations; lia.
Qed.

(** A processor after [seginit], [syscallinit] and [switchuvm p]. *)
Definition set_up (entry ignore : Z) (p : proc) (w : Z) h h' : Prop :=
  let k := mc_k (hw_mach h) in let k' := mc_k (hw_mach h') in
  k_mem k' = with_stack (local_page (k_mem k) w) (w + 1024) (u64 (p_kstack p + KSTACKSIZE)) /\ k_local k' = w /\
  hw_gdtr h' = (w, 71) /\ hw_tr h' = 56 /\ k_cpu k' = k_cpu k /\
  hw_msr h' = <[MSR_SFMASK := SYSCALL_MASK]> (<[MSR_CSTAR := ignore]> (<[MSR_LSTAR := entry]>
    (<[MSR_STAR := Z.lor (Z.shiftl USER32_CS 48) (Z.shiftl KERNEL_CS 32)]> (<[MSR_FS_BASE := u64 (w + 2048)]> (hw_msr h))))).

Lemma set_up_run ra entry ignore p h w fl :
  free_pages (mc_k (hw_mach h)) (w :: fl) -> intr_on (k_cpu (mc_k (hw_mach h))) = false -> apic_known (hw_mach h) ->
  p_pgdir p <> 0 ->
  exists h', (seginit ra;; syscallinit entry ignore;; kern (switchuvm p)) h = Ok tt h' /\ set_up entry ignore p w h h'.
Proof.
  intros Hf Hi Ha Hp. destruct h as [s msr gdtr idtr tr cp idt st]. cbn [hw_mach] in *.
  destruct (seginit_eq ra (mc_k s) s msr gdtr idtr tr cp idt st w fl Hf Hi Ha) as (c & d & E).
  replace (set_mc_k (mc_k s) s) with s in E by by destruct s. rewrite (bind_ok _ _ _ _ _ E). clear E.
  set (k1 := set_k_proc None _). assert (Hk1 : k_cpu k1 = k_cpu (mc_k s) /\ k_local k1 = w) by done. clearbody k1.
  destruct Hk1 as [Hc Hl]. erewrite bind_ok; [|reflexivity].
  destruct (kern_switchuvm p (local_page (k_mem (mc_k s)) w) k1 (set_mc_dev d s)
    (<[MSR_SFMASK := SYSCALL_MASK]> (<[MSR_CSTAR := ignore]> (<[MSR_LSTAR := entry]>
      (<[MSR_STAR := Z.lor (Z.shiftl USER32_CS 48) (Z.shiftl KERNEL_CS 32)]> (<[MSR_FS_BASE := u64 (w + 2048)]> msr)))))
    (w, 71) idtr 56 c idt st) as [v E]; [rewrite Hc; apply (fp_cpu _ _ Hf)|done|].
  eexists. split; [exact E|]. rewrite Hl. unfold set_up. cbn [hw_mach with_mem hw_gdtr hw_tr hw_msr].
  split; [reflexivity|]. split; [exact Hl|]. split; [done|]. split; [done|]. split; [exact Hc|done].
Qed.

(** The descriptors of the page after [switchuvm]. *)
Lemma descriptor_load m w v i d sel : gdt_entries w !! Z.to_nat i = Some (i, d) -> sel / 8 = i -> 0 <= i <= 8 ->
  descriptor (with_stack (local_page m w) (w + 1024) v) (w, 71) sel = Some (segdesc_val d).
Proof.
  intros Hin Hs Hi. unfold descriptor. cbn [fst snd]. rewrite Hs, (proj2 (Z.leb_le _ _)) by lia.
  rewrite (load_ext 8 _ (local_page m w)) by (intros; apply with_stack_other; lia). by rewrite (gdt_load m w i d) by by apply (list_elem_of_lookup_2 _ (Z.to_nat i)).
Qed.

Lemma tss_at_page m w v : 0 < w < 2 ^ 64 - 4096 ->
  tss_at (with_stack (local_page m w) (w + 1024) v) (w, 71) 56 (w + 1024) 49151.
Proof.
  intros Hw. exists (segdesc_val (tss_lo (w + 1024))), (segdesc_val (tss_hi (w + 1024))).
  split; [by apply (descriptor_load _ _ _ SEG_TSS)|].
  split; [by apply (descriptor_load _ _ _ (SEG_TSS + 1))|]. apply tss_words. lia.
Qed.

(** C14: the tables that a processor gets fit together.  After [seginit], [syscallinit] and
    [switchuvm p], with a free page and interrupts off: the selectors that [syscall] loads
    name a 64-bit code and a data segment of ring 0, and those that [sysret] loads name ones
    of ring 3; the task register names a 64-bit task state segment at byte 1024 of the
    processor's own page, and the stack for ring 0 in it is the top of [p]'s kernel stack;
    system calls enter at [syscall_entry] with interrupts masked; the per-CPU variables
    below the base of [%fs] lie in the page behind that segment; and memory outside the page
    is unchanged. *)
Theorem segments_fit ra entry ignore p h w fl :
  free_pages (mc_k (hw_mach h)) (w :: fl) -> intr_on (k_cpu (mc_k (hw_mach h))) = false -> apic_known (hw_mach h) ->
  p_pgdir p <> 0 ->
  exists h', (seginit ra;; syscallinit entry ignore;; kern (switchuvm p)) h = Ok tt h' /\
    let m := k_mem (mc_k (hw_mach h')) in
    let local := k_local (mc_k (hw_mach h')) in
    let star := default 0 (hw_msr h' !! MSR_STAR) in
    let segment sel (ok : Z -> Prop) := exists v, descriptor m (hw_gdtr h') sel = Some v /\ ok v in
    segment (syscall_cs star) (code64 0) /\ segment (syscall_ss star) (data_rw 0) /\
    segment (sysret_cs star) (code64 3) /\ segment (sysret_ss star) (data_rw 3) /\
    tss_at m (hw_gdtr h') (hw_tr h') (local + 1024) 49151 /\ rsp0 m (local + 1024) = u64 (p_kstack p + KSTACKSIZE) /\
    hw_msr h' !! MSR_LSTAR = Some entry /\ (exists f, hw_msr h' !! MSR_SFMASK = Some f /\ bits f 9 1 = 1) /\
    (exists b, hw_msr h' !! MSR_FS_BASE = Some b /\ local + 1024 + 104 <= b - 16 /\ b <= local + PGSIZE) /\
    forall a, ~ (local <= a < local + PGSIZE) -> m a = k_mem (mc_k (hw_mach h)) a.
Proof.
  intros Hf Hi Ha Hp. destruct (set_up_run ra entry ignore p h w fl Hf Hi Ha Hp) as (h' & E & Hm & Hl & Hg & Ht & _ & Hr).
  exists h'. split; [exact E|]. cbv zeta. rewrite Hm, Hl, Hg, Ht, Hr. clear E Hm Hl Hg Ht Hr.
  assert (Hw : page_ok (k_end (mc_k (hw_mach h))) w) by exact (Forall_inv (fp_ok _ _ Hf)).
  assert (Hw2 : 0 < w < 2 ^ 64 - 4096) by (destruct Hw as (_ & _ & Hw); unfold KERNBASE, PHYSTOP in Hw; lia).
  set (m := k_mem _). clearbody m.
  set (star := Z.lor (Z.shiftl USER32_CS 48) (Z.shiftl KERNEL_CS 32)).
  replace (default 0 _) with star by (by rewrite !lookup_insert_ne, lookup_insert_eq by done).
  assert (Hd : forall i d sel, gdt_entries w !! Z.to_nat i = Some (i, d) -> sel / 8 = i -> 0 <= i <= 8 -> forall ok : Z -> Prop,
    ok (segdesc_val d) -> exists v, descriptor (with_stack (local_page m w) (w + 1024) (u64 (p_kstack p + KSTACKSIZE)))
      (w, 71) sel = Some v /\ ok v) by (intros; eexists; split; [by eapply descriptor_load|done]).
  split; [by apply (Hd SEG_KCODE _ _ eq_refl)|]. split; [by apply (Hd SEG_KDATA _ _ eq_refl)|].
  split; [by apply (Hd SEG_UCODE _ _ eq_refl)|]. split; [by apply (Hd SEG_UDATA _ _ eq_refl)|].
  split; [by apply tss_at_page|].
  split; [apply with_stack_rsp0, u64_range|].
  split; [by rewrite !lookup_insert_ne, lookup_insert_eq by done|].
  split; [eexists; split; [by rewrite lookup_insert_eq|reflexivity]|].
  split; [eexists; split; [by rewrite !lookup_insert_ne, lookup_insert_eq by done|unfold u64, PGSIZE; rewrite Z.mod_small by lia; lia]|].
  intros a Hna. unfold PGSIZE in *. rewrite with_stack_other, local_page_at by lia. by rewrite decide_False.
Qed.

(** C39: user programs may use I/O ports.  [seginit] writes the offset of the map of I/O
    ports to byte 66 of the task state segment instead of byte 102, where the processor
    reads it.  The offset is therefore 0, the segment itself is taken as the map, and
    its bytes are 0: after [seginit], [syscallinit] and [switchuvm], code in ring 3 may use
    every port from 96 up to 511, among them those of the keyboard controller, the clock and
    the disk. *)
Theorem user_ports_open ra entry ignore p h w fl port :
  free_pages (mc_k (hw_mach h)) (w :: fl) -> intr_on (k_cpu (mc_k (hw_mach h))) = false -> apic_known (hw_mach h) ->
  p_pgdir p <> 0 -> 96 <= port < 512 ->
  exists h' base limit, (seginit ra;; syscallinit entry ignore;; kern (switchuvm p)) h = Ok tt h' /\
    tss_at (k_mem (mc_k (hw_mach h'))) (hw_gdtr h') (hw_tr h') base limit /\
    port_allowed (k_mem (mc_k (hw_mach h'))) base limit port.
Proof.
  intros Hf Hi Ha Hp Hport.
  destruct (set_up_run ra entry ignore p h w fl Hf Hi Ha Hp) as (h' & E & Hm & Hl & Hg & Ht & _ & _).
  assert (Hw : page_ok (k_end (mc_k (hw_mach h))) w) by exact (Forall_inv (fp_ok _ _ Hf)).
  assert (Hw2 : 0 < w < 2 ^ 64 - 4096) by (destruct Hw as (_ & _ & Hw); unfold KERNBASE, PHYSTOP in Hw; lia).
  exists h', (w + 1024), 49151. split; [exact E|]. rewrite Hm, Hg, Ht. clear E Hm Hl Hg Ht. set (m := k_mem _). clearbody m.
  split; [by apply tss_at_page|]. set (v := u64 _).
  assert (Hz : forall a, w + 1036 <= a < w + 1088 \/ w + 1092 <= a < w + PGSIZE -> with_stack (local_page m w) (w + 1024) v a = 0).
  { intros a Ha'. unfold PGSIZE in *. rewrite with_stack_other, local_page_at by lia. apply decide_True. unfold PGSIZE. lia. }
  assert (Hio : load 2 (with_stack (local_page m w) (w + 1024) v) (w + 1024 + 102) = 0).
  { unfold load. cbn [read_bytes le_val]. unfold PGSIZE in Hz. rewrite !Hz by lia. done. }
  unfold port_allowed. rewrite Hio. unfold PGSIZE in Hz. split; [Z.div_mod_to_equations; lia|].
  rewrite Hz by (Z.div_mod_to_equations; lia). apply Z.bits_0.
Qed.
End Run.

(** A machine without interrupt controller, with one free page. *)
Definition demo_hw : hw sim :=
  mk_hw (set_mc_k (set_k_kmem (mk_kmemst true demo_page) (set_k_end (KERNBASE + EXTMEM) kst_zero)) demo_mach)
    ∅ (0, 0) (0, 0) 0 0 0 ∅.
Definition demo_task : proc := set_p_kstack (KERNBASE + 8192) (set_p_pgdir (KERNBASE + 12288) (k_ptable kst_zero !!! 0%nat)).

Lemma segments_fit_witness : exists h', (seginit 0;; syscallinit 16 32;; kern (switchuvm demo_task)) demo_hw = Ok tt h' /\
  hw_msr h' !! MSR_LSTAR = Some 16 /\
  rsp0 (k_mem (mc_k (hw_mach h'))) (k_local (mc_k (hw_mach h')) + 1024) = KERNBASE + 12288.
Proof.
  destruct (segments_fit 0 16 32 demo_task demo_hw demo_page []) as (h' & E & Hs).
  - exact demo_free.
  - reflexivity.
  - left. reflexivity.
  - discriminate.
  - exists h'. split; [exact E|]. cbv zeta in Hs. destruct Hs as (_ & _ & _ & _ & _ & Hr & Hl & _).
    split; [exact Hl|]. rewrite Hr. reflexivity.
Defined.

Lemma user_ports_open_witness : exists h' base limit,
  (seginit 0;; syscallinit 16 32;; kern (switchuvm demo_task)) demo_hw = Ok tt h' /\
  tss_at (k_mem (mc_k (hw_mach h'))) (hw_gdtr h') (hw_tr h') base limit /\
  port_allowed (k_mem (mc_k (hw_mach h'))) base limit 496.
Proof.
  apply (user_ports_open 0 16 32 demo_task demo_hw demo_page [] 496).
  - exact demo_free.
  - reflexivity.
  - left. reflexivity.
  - discriminate.
  - lia.
Defined.
