(* ===== verification/Asm.v ===== *)
(** The context switch [swtch.S], the trap and system call entries [trapasm.S], the stubs of
    [usys.S] and the example [co.c], on the instructions of the processor that they use. *)
From Stdlib Require Import ZArith Lia.
From stdpp Require Import base gmap sets strings numbers list.
From S2P Require Import Prelude State.

Local Open Scope Z_scope.

(** ** The processor *)
Inductive reg : Type :=
| RAX | RBX | RCX | RDX | RBP | RSI | RDI | R8 | R9 | R10 | R11 | R12 | R13 | R14 | R15 | RSP.
#[global] Instance reg_eq_dec : EqDecision reg.
Proof. solve_decision. Defined.

(** Registers, memory, the base of the segment [%fs], the instruction pointer and the flags.
    [x_entry] and [x_fmask] are the entry address and the flag mask of [syscall], which
    [syscallinit] puts into LSTAR and SFMASK. *)
Record x64 : Type := mk_x64 {
  x_reg : reg -> Z; x_mem : mem; x_fs : Z; x_rip : Z; x_rflags : Z; x_entry : Z; x_fmask : Z
}.

Definition set_x_mem (m : mem) (s : x64) : x64 :=
  mk_x64 (x_reg s) m (x_fs s) (x_rip s) (x_rflags s) (x_entry s) (x_fmask s).
Definition set_x_rip (v : Z) (s : x64) : x64 :=
  mk_x64 (x_reg s) (x_mem s) (x_fs s) v (x_rflags s) (x_entry s) (x_fmask s).
Definition set_x_rflags (v : Z) (s : x64) : x64 :=
  mk_x64 (x_reg s) (x_mem s) (x_fs s) (x_rip s) v (x_entry s) (x_fmask s).
Definition setr (r : reg) (v : Z) (s : x64) : x64 :=
  mk_x64 (fun x => if decide (x = r) then v else x_reg s x) (x_mem s) (x_fs s) (x_rip s) (x_rflags s) (x_entry s) (x_fmask s).
Definition rd (a : Z) (s : x64) : Z := load 8 (x_mem s) a.
Definition wr (a v : Z) (s : x64) : x64 := set_x_mem (store 8 (x_mem s) a v) s.

Definition FL_IF : Z := 512.

(** In the order of the operands of the source: from, to.  [mov_rm] stores to, [mov_mr] loads
    from, a displacement and a register; the [fs] forms use the segment [%fs]. *)
Inductive instr : Type :=
| pushq (r : reg)
| push_imm (v : Z)
| popq (r : reg)
| mov_imm (v : Z) (r : reg)
| mov_rr (a b : reg)
| mov_rm (a : reg) (disp : Z) (b : reg)
| mov_mr (disp : Z) (a b : reg)
| mov_r_fs (a : reg) (disp : Z)
| mov_fs_r (disp : Z) (b : reg)
| addq (v : Z) (r : reg)
| retq
| cli
| syscall_
| sysretq
| iretq.

Definition push (v : Z) (s : x64) : x64 :=
  let sp := u64 (x_reg s RSP - 8) in wr sp v (setr RSP sp s).
Definition pop (s : x64) : Z * x64 :=
  let sp := x_reg s RSP in (rd sp s, setr RSP (u64 (sp + 8)) s).

(** [x_rip] is the address of the next instruction where [syscall] is executed. *)
Definition step1 (i : instr) (s : x64) : x64 :=
  match i with
  | pushq r => push (x_reg s r) s
  | push_imm v => push v s
  | popq r => let '(v, s) := pop s in setr r v s
  | mov_imm v r => setr r v s
  | mov_rr a b => setr b (x_reg s a) s
  | mov_rm a d b => wr (u64 (x_reg s b + d)) (x_reg s a) s
  | mov_mr d a b => setr b (rd (u64 (x_reg s a + d)) s) s
  | mov_r_fs a d => wr (u64 (x_fs s + d)) (x_reg s a) s
  | mov_fs_r d b => setr b (rd (u64 (x_fs s + d)) s) s
  | addq v r => setr r (u64 (x_reg s r + v)) s
  | retq => let '(v, s) := pop s in set_x_rip v s
  | cli => set_x_rflags (Z.land (x_rflags s) (u64 (Z.lnot FL_IF))) s
  | syscall_ =>
      set_x_rflags (Z.land (x_rflags s) (u64 (Z.lnot (x_fmask s))))
        (set_x_rip (x_entry s) (setr R11 (x_rflags s) (setr RCX (x_rip s) s)))
  | sysretq => set_x_rflags (Z.lor (Z.land (x_reg s R11) 3964887) 2) (set_x_rip (x_reg s RCX) s)
  | iretq =>
      let sp := x_reg s RSP in
      set_x_rip (rd sp s) (set_x_rflags (rd (u64 (sp + 16)) s) (setr RSP (rd (u64 (sp + 24)) s) s))
  end.
Definition run (l : list instr) (s : x64) : x64 := foldl (fun s i => step1 i s) s l.

(** ** [swtch.S] *)
Definition saved : list reg := [RBP; RBX; R12; R13; R14; R15].
Definition swtch : list instr :=
  [pushq RBP; pushq RBX; pushq R12; pushq R13; pushq R14; pushq R15;
   mov_rm RSP 0 RDI; mov_rr RSI RSP;
   popq R15; popq R14; popq R13; popq R12; popq RBX; popq RBP;
   retq].

(** ** [trapasm.S] *)
Definition save_regs : list instr :=
  [pushq R15; pushq R14; pushq R13; pushq R12; pushq R11; pushq R10; pushq R9; pushq R8; pushq RDI; pushq RSI;
   pushq RBP; pushq RDX; pushq RCX; pushq RBX; pushq RAX].
Definition load_regs : list instr :=
  [popq RAX; popq RBX; popq RCX; popq RDX; popq RBP; popq RSI; popq RDI; popq R8; popq R9; popq R10; popq R11;
   popq R12; popq R13; popq R14; popq R15].
(** Up to the call of [trap]; [trapret] is what follows it. *)
Definition alltraps : list instr := save_regs ++ [mov_rr RSP RDI].
Definition trapret : list instr := load_regs ++ [addq 16 RSP; iretq].
(** Up to the call of [syscall], and what follows it. *)
Definition syscall_entry : list instr :=
  [mov_r_fs RAX 0; mov_fs_r (-8) RAX; mov_mr 16 RAX RAX; addq (4096 - 16) RAX;
   mov_rm RSP 0 RAX; mov_rr RAX RSP; mov_fs_r 0 RAX;
   pushq R11; push_imm 0; pushq RCX; push_imm 0; push_imm 0] ++ save_regs ++ [mov_rr RSP RDI].
Definition syscall_trapret : list instr := load_regs ++ [addq 40 RSP; cli; mov_mr 0 RSP RSP; sysretq].

(** ** [usys.S]: the stub of system call number [n] up to its [ret] *)
Definition usys (n : Z) : list instr := [mov_imm n RAX; mov_rr RCX R10; syscall_].

(** The trap frame at an address. *)
Definition tf_at (m : mem) (a : Z) : trapframe :=
  let w i := load 8 m (a + 8 * i) in
  mk_trapframe (w 0) (w 1) (w 2) (w 3) (w 4) (w 5) (w 6) (w 7) (w 8) (w 9) (w 10) (w 11) (w 12) (w 13) (w 14)
    (w 15) (w 16) (w 17) (w 18) (w 19) (w 20) (w 21).

(** ** Pushing and popping *)

(** Registers hold 64 bits. *)
Definition wf (s : x64) : Prop := forall r, 0 <= x_reg s r < 2 ^ 64.

(** What neither pushing nor popping changes. *)
Record same_ctl (s s' : x64) : Prop := {
  sc_fs : x_fs s' = x_fs s;
  sc_rip : x_rip s' = x_rip s;
  sc_rflags : x_rflags s' = x_rflags s;
  sc_entry : x_entry s' = x_entry s;
  sc_fmask : x_fmask s' = x_fmask s
}.
Lemma same_ctl_refl s : same_ctl s s.
Proof. done. Qed.
Lemma same_ctl_trans s s1 s2 : same_ctl s s1 -> same_ctl s1 s2 -> same_ctl s s2.
Proof. intros [] []. constructor; congruence. Qed.

(** The words [vs] have been pushed. *)
Definition pushes (vs : list Z) (s : x64) : x64 := foldl (fun s v => push v s) s vs.
Record pushed (vs : list Z) (s s' : x64) : Prop := {
  pu_sp : x_reg s' RSP = x_reg s RSP - 8 * Z.of_nat (length vs);
  pu_reg : forall r, r <> RSP -> x_reg s' r = x_reg s r;
  pu_word : forall i v, vs !! i = Some v -> load 8 (x_mem s') (x_reg s RSP - 8 * (Z.of_nat i + 1)) = v;
  pu_mem : forall a, ~ (x_reg s RSP - 8 * Z.of_nat (length vs) <= a < x_reg s RSP) -> x_mem s' a = x_mem s a;
  pu_ctl : same_ctl s s'
}.

Lemma run_app l1 l2 s : run (l1 ++ l2) s = run l2 (run l1 s).
Proof. apply foldl_app. Qed.

Lemma setr_same r v s : x_reg (setr r v s) r = v.
Proof. cbn. by rewrite decide_True. Qed.
Lemma setr_other r r' v s : r <> r' -> x_reg (setr r' v s) r = x_reg s r.
Proof. intros H. cbn. by rewrite decide_False. Qed.

Lemma pushes_ok vs s : Forall (fun v => 0 <= v < 2 ^ 64) vs -> 8 * Z.of_nat (length vs) <= x_reg s RSP < 2 ^ 64 ->
  pushed vs s (pushes vs s).
Proof.
  intros Hvs. revert s. induction Hvs as [|v vs Hv _ IH]; intros s Hsp.
  { constructor; [cbn; lia|done|done|done|done]. }
  cbn [length] in Hsp. set (sp := x_reg s RSP) in *. set (s1 := push v s).
  assert (E : u64 (sp - 8) = sp - 8) by (apply u64_small; lia).
  assert (Esp : x_reg s1 RSP = sp - 8).
  { unfold s1, push. fold sp. rewrite E. exact (setr_same RSP (sp - 8) s). }
  assert (Em : x_mem s1 = store 8 (x_mem s) (sp - 8) v) by (unfold s1, push; fold sp; by rewrite E).
  destruct (IH s1) as [P1 P2 P3 P4 P5]; [lia|]. change (pushes (v :: vs) s) with (pushes vs s1).
  rewrite Esp in *. constructor; fold sp.
  - rewrite P1. cbn [length]. lia.
  - intros r Hr. rewrite P2 by done. exact (setr_other r RSP _ s Hr).
  - intros [|i] w Hi.
    + injection Hi as <-. rewrite (load_ext _ _ (x_mem s1)) by (intros x Hx; apply P4; lia).
      rewrite Em. replace (sp - 8 * (Z.of_nat 0 + 1)) with (sp - 8) by lia. rewrite load_store_same. by apply Z.mod_small.
    + replace (sp - 8 * (Z.of_nat (S i) + 1)) with (sp - 8 - 8 * (Z.of_nat i + 1)) by lia. by apply P3.
  - intros a Ha. cbn [length] in Ha. rewrite P4, Em by lia. apply store_old. lia.
  - eapply same_ctl_trans; [|exact P5]. done.
Qed.

(** The registers [rs] have been popped. *)
Record popped (rs : list reg) (s s' : x64) : Prop := {
  po_sp : x_reg s' RSP = u64 (x_reg s RSP + 8 * Z.of_nat (length rs));
  po_reg : forall i r, rs !! i = Some r -> x_reg s' r = load 8 (x_mem s) (x_reg s RSP + 8 * Z.of_nat i);
  po_old : forall r, r <> RSP -> r ∉ rs -> x_reg s' r = x_reg s r;
  po_mem : x_mem s' = x_mem s;
  po_ctl : same_ctl s s'
}.

Lemma pops_ok rs s : NoDup rs -> RSP ∉ rs -> 0 <= x_reg s RSP -> x_reg s RSP + 8 * Z.of_nat (length rs) < 2 ^ 64 ->
  popped rs s (run (popq <$> rs) s).
Proof.
  intros Hnd. revert s. induction Hnd as [|r rs Hr _ IH]; intros s Hn H0 H1.
  { constructor; [cbn; rewrite u64_small; lia|done..]. }
  apply not_elem_of_cons in Hn as [Hrs Hn]. cbn [length] in H1. set (sp := x_reg s RSP) in *.
  set (s1 := step1 (popq r) s). change (run (popq <$> r :: rs) s) with (run (popq <$> rs) s1).
  assert (E : u64 (sp + 8) = sp + 8) by (apply u64_small; lia).
  assert (Esp : x_reg s1 RSP = sp + 8).
  { unfold s1. cbn [step1 pop]. fold sp. rewrite E, setr_other, setr_same by congruence. done. }
  assert (Er : x_reg s1 r = load 8 (x_mem s) sp) by exact (setr_same r _ _).
  assert (Eo : forall x, x <> RSP -> x <> r -> x_reg s1 x = x_reg s x).
  { intros x Hx1 Hx2. unfold s1. cbn [step1 pop]. by rewrite !setr_other. }
  destruct (IH s1) as [P1 P2 P3 P4 P5]; [done|lia|lia|]. rewrite Esp in *. constructor; fold sp.
  - rewrite P1. cbn [length]. f_equal. lia.
  - intros [|i] x Hi.
    + injection Hi as <-. rewrite P3, Er by done. f_equal. lia.
    + rewrite (P2 i x Hi). change (x_mem s1) with (x_mem s). f_equal. lia.
  - intros x Hx [Hxr Hxs]%not_elem_of_cons. rewrite P3 by done. by apply Eo.
  - by rewrite P4.
  - eapply same_ctl_trans; [|exact P5]. done.
Qed.

(** ** [swtch] *)
Definition apart (a n b m : Z) : Prop := a + n <= b \/ b + m <= a.

(** [rsp] and [rdi] are usable for a switch: there is room for the registers, and the place
    for the pointer is outside of it. *)
Record can_switch (s : x64) : Prop := {
  cs_wf : wf s;
  cs_room : 48 <= x_reg s RSP;
  cs_rdi : x_reg s RDI + 8 <= 2 ^ 64;
  cs_apart : apart (x_reg s RDI) 8 (x_reg s RSP - 48) 48
}.

Lemma run_pushes rs s : RSP ∉ rs -> run (pushq <$> rs) s = pushes (x_reg s <$> rs) s.
Proof.
  intros Hn. enough (H : forall s1, (forall r, r <> RSP -> x_reg s1 r = x_reg s r) ->
    run (pushq <$> rs) s1 = pushes (x_reg s <$> rs) s1) by (by apply H).
  induction rs as [|r rs IH]; intros s1 Hs; [done|]. apply not_elem_of_cons in Hn as [Hr Hn].
  change (run (pushq <$> r :: rs) s1) with (run (pushq <$> rs) (push (x_reg s1 r) s1)).
  change (pushes (x_reg s <$> r :: rs) s1) with (pushes (x_reg s <$> rs) (push (x_reg s r) s1)).
  rewrite Hs by congruence. apply IH; [done|]. intros x Hx. etrans; [exact (setr_other x RSP _ s1 Hx)|by apply Hs].
Qed.

(** The registers of [swtch], saved and loaded, around the change of stacks. *)
Definition switch_stacks (s : x64) : x64 := run [mov_rm RSP 0 RDI; mov_rr RSI RSP] s.
Lemma swtch_eq s : run swtch s =
  run [retq] (run (popq <$> reverse saved) (switch_stacks (pushes (x_reg s <$> saved) s))).
Proof.
  change swtch with ((pushq <$> saved) ++ [mov_rm RSP 0 RDI; mov_rr RSI RSP] ++ (popq <$> reverse saved) ++ [retq]).
  rewrite !run_app, run_pushes by (by apply (bool_decide_unpack _)). done.
Qed.

Lemma switch_stacks_ok s : 0 <= x_reg s RDI < 2 ^ 64 ->
  let s' := switch_stacks s in
  x_mem s' = store 8 (x_mem s) (x_reg s RDI) (x_reg s RSP) /\ x_reg s' RSP = x_reg s RSI /\ x_fs s' = x_fs s.
Proof.
  intros H s'. change (x_mem s') with (store 8 (x_mem s) (u64 (x_reg s RDI + 0)) (x_reg s RSP)).
  rewrite Z.add_0_r, u64_small by done. split; [done|]. split; [|done]. exact (setr_same RSP _ _).
Qed.
Lemma retq_ok s : 0 <= x_reg s RSP -> x_reg s RSP + 8 < 2 ^ 64 ->
  let s' := run [retq] s in
  x_mem s' = x_mem s /\ x_reg s' RSP = x_reg s RSP + 8 /\ x_rip s' = load 8 (x_mem s) (x_reg s RSP) /\ x_fs s' = x_fs s /\
  forall r, r <> RSP -> x_reg s' r = x_reg s r.
Proof.
  intros H0 H1 s'. split; [done|]. split; [|split; [done|split; [done|]]].
  - change (x_reg s' RSP) with (x_reg (setr RSP (u64 (x_reg s RSP + 8)) s) RSP). rewrite setr_same. apply u64_small. lia.
  - intros r Hr. exact (setr_other r RSP _ s Hr).
Qed.

Lemma saved_regs : RSP ∉ reverse saved /\ NoDup (reverse saved).
Proof. split; apply (bool_decide_unpack _); reflexivity. Qed.

Lemma swtch_parts s : can_switch s -> 0 <= x_reg s RSI -> x_reg s RSI + 56 < 2 ^ 64 ->
  exists s1, pushed (x_reg s <$> saved) s s1 /\
    x_mem (run swtch s) = store 8 (x_mem s1) (x_reg s RDI) (x_reg s RSP - 48) /\
    (forall i r, reverse saved !! i = Some r -> x_reg (run swtch s) r = load 8 (x_mem (run swtch s)) (x_reg s RSI + 8 * Z.of_nat i)) /\
    x_reg (run swtch s) RSP = x_reg s RSI + 56 /\ x_rip (run swtch s) = load 8 (x_mem (run swtch s)) (x_reg s RSI + 48).
Proof.
  intros [Hwf Hsp Hrdi Hap] H0 H1. pose proof (Hwf RDI) as Hd. pose proof (Hwf RSP) as Hs. rewrite swtch_eq.
  assert (P : pushed (x_reg s <$> saved) s (pushes (x_reg s <$> saved) s)).
  { apply pushes_ok; [apply Forall_fmap, Forall_forall; intros r _; apply Hwf|]. rewrite length_fmap.
    change (length saved) with 6%nat. lia. }
  generalize dependent (pushes (x_reg s <$> saved) s). intros s1 P. exists s1. split; [done|]. destruct P as [P1 P2 _ _ P5].
  rewrite length_fmap in P1. change (8 * Z.of_nat (length saved)) with 48 in P1.
  destruct (switch_stacks_ok s1) as (Em & Esp & _); [by rewrite P2|]. rewrite P1, !P2 in * by done.
  generalize dependent (switch_stacks s1). intros s2 Em Esp. destruct saved_regs as [Hn Hnd].
  destruct (pops_ok (reverse saved) s2) as [Q1 Q2 _ Q4 _]; [done|done|lia|rewrite length_reverse; cbn; lia|].
  rewrite length_reverse in Q1. change (8 * Z.of_nat (length saved)) with 48 in Q1. rewrite Esp, u64_small in Q1 by lia.
  generalize dependent (run (popq <$> reverse saved) s2). intros s3 Q1 Q2 Q4.
  destruct (retq_ok s3) as (R1 & R2 & R3 & _ & R5); [lia|lia|]. rewrite Q4 in R1, R3. split_and!.
  - by rewrite R1.
  - intros i r Hi. rewrite R1, R5, (Q2 i r Hi), Esp; [done|]. intros ->. apply Hn. by apply (list_elem_of_lookup_2 _ i).
  - rewrite R2, Q1. lia.
  - by rewrite R1, R3, Q1.
Qed.

(** What a switch leaves behind: the pointer at [rdi], and there the registers and below the
    return address of the call. *)
Lemma swtch_saves s : can_switch s -> 0 <= x_reg s RSI -> x_reg s RSI + 56 < 2 ^ 64 ->
  let m := x_mem (run swtch s) in let sp := x_reg s RSP in
  load 8 m (x_reg s RDI) = sp - 48 /\
  (forall i r, reverse saved !! i = Some r -> load 8 m (sp - 48 + 8 * Z.of_nat i) = x_reg s r) /\
  (forall a, ~ (sp - 48 <= a < sp) -> ~ (x_reg s RDI <= a < x_reg s RDI + 8) -> m a = x_mem s a).
Proof.
  intros Hc H0 H1 m sp. destruct (swtch_parts s Hc H0 H1) as (s1 & P & Em & _). destruct P as [P1 P2 P3 P4 _].
  destruct Hc as [Hwf Hsp Hrdi Hap]. pose proof (Hwf RSP) as Hs. fold sp in P1, P3, P4, Em, Hap, Hsp, Hs.
  rewrite length_fmap in P4. change (8 * Z.of_nat (length saved)) with 48 in P4. unfold m. rewrite Em. unfold apart in Hap. split_and!.
  - rewrite load_store_same. apply Z.mod_small. cbn. lia.
  - intros i r Hi. pose proof (lookup_lt_Some _ _ _ Hi) as Hl. rewrite length_reverse in Hl. change (length saved) with 6%nat in Hl.
    rewrite load_store_other by (change (Z.of_nat 8) with 8; lia).
    replace (sp - 48 + 8 * Z.of_nat i) with (sp - 8 * (Z.of_nat (5 - i) + 1)) by lia. apply P3.
    rewrite reverse_lookup in Hi by (change (length saved) with 6%nat; lia). change (length saved - S i)%nat with (5 - i)%nat in Hi.
    by rewrite list_lookup_fmap, Hi.
  - intros a Ha1 Ha2. rewrite store_old by (change (Z.of_nat 8) with 8; lia). apply P4. lia.
Qed.

(** C20: A switch away and back is a call that returns.  After [swtch(&old, new)] in the state
    [s], let any other code run to a state [s'] that still has the seven words of the saved
    context and calls [swtch] with the saved pointer: the second switch returns from the first
    call, to its return address, with its stack pointer and with all registers that a call
    preserves. *)
Theorem swtch_resumes s s' :
  can_switch s -> 0 <= x_reg s RSI -> x_reg s RSI + 56 < 2 ^ 64 ->
  apart (x_reg s RDI) 8 (x_reg s RSP) 8 -> x_reg s RSP + 8 < 2 ^ 64 ->
  let saved_at := x_reg s RSP - 48 in
  can_switch s' -> x_reg s' RSI = load 8 (x_mem (run swtch s)) (x_reg s RDI) ->
  (forall a, saved_at <= a < saved_at + 56 -> x_mem s' a = x_mem (run swtch s) a) ->
  apart (x_reg s' RSP - 48) 48 saved_at 56 -> apart (x_reg s' RDI) 8 saved_at 56 ->
  let t := run swtch s' in
  x_rip t = load 8 (x_mem s) (x_reg s RSP) /\ x_reg t RSP = x_reg s RSP + 8 /\
  Forall (fun r => x_reg t r = x_reg s r) saved.
Proof.
  intros Hc H0 H1 Hra Htop saved_at Hc' Hrsi Hm Hap1 Hap2 t. destruct (swtch_saves s Hc H0 H1) as (S1 & S2 & S3).
  rewrite S1 in Hrsi. fold saved_at in Hrsi, S2, S3. pose proof (cs_room _ Hc) as Hroom.
  destruct (swtch_parts s' Hc') as (_ & _ & _ & L1 & L2 & L3); [lia|lia|]. fold t in L1, L2, L3.
  destruct (swtch_saves s' Hc') as (_ & _ & K); [lia|lia|]. fold t in K. unfold apart in *.
  assert (Hk : forall a, saved_at <= a < saved_at + 56 -> x_mem t a = x_mem (run swtch s) a).
  { intros a Ha. rewrite K by lia. by apply Hm. }
  rewrite Hrsi in L1, L2, L3. split_and!.
  - rewrite L3. replace (saved_at + 48) with (x_reg s RSP) by (unfold saved_at; lia).
    apply load_ext. intros a Ha. change (Z.of_nat 8) with 8 in Ha. rewrite Hk by (unfold saved_at; lia). apply S3; lia.
  - rewrite L2. unfold saved_at. lia.
  - apply Forall_forall. intros r Hr. rewrite <- elem_of_reverse in Hr. apply list_elem_of_lookup_1 in Hr as [i Hi].
    rewrite (L1 i r Hi), <- (S2 i r Hi). apply load_ext. intros a Ha. change (Z.of_nat 8) with 8 in Ha. apply Hk.
    pose proof (lookup_lt_Some _ _ _ Hi) as Hl. rewrite length_reverse in Hl. change (length saved) with 6%nat in Hl. lia.
Qed.

(** A context on one stack, switched to from another. *)
Definition demo_x64 (rsp rdi rsi : Z) (m : mem) : x64 :=
  mk_x64 (fun r => match r with RSP => rsp | RDI => rdi | RSI => rsi | RBX => 11 | R12 => 12 | _ => 7 end) m 0 0 2 0 0.
Lemma demo_switch rsp rdi rsi m : 48 <= rsp < 2 ^ 64 -> 0 <= rdi -> rdi + 8 <= 2 ^ 64 -> 0 <= rsi < 2 ^ 64 ->
  apart rdi 8 (rsp - 48) 48 -> can_switch (demo_x64 rsp rdi rsi m).
Proof. intros H1 H2 H3 H4 H5. constructor; [intros []; cbn; lia|exact (proj1 H1)|exact H3|exact H5]. Qed.
Lemma demo_mem rsp rdi rsi m : x_mem (demo_x64 rsp rdi rsi m) = m.
Proof. done. Qed.

Lemma swtch_resumes_witness :
  let s := demo_x64 4096 8192 12288 (store 8 (fun _ => 0) 4096 1000) in
  let s' := demo_x64 20000 8200 4048 (x_mem (run swtch s)) in
  x_rip (run swtch s') = 1000 /\ x_reg (run swtch s') RSP = 4104.
Proof.
  intros s s'. destruct (swtch_resumes s s') as (H1 & H2 & _).
  - apply demo_switch; unfold apart; lia.
  - cbn. lia.
  - cbn. lia.
  - unfold apart. cbn. lia.
  - cbn. lia.
  - apply demo_switch; unfold apart; lia.
  - vm_compute. reflexivity.
  - intros a _. unfold s'. by rewrite demo_mem.
  - unfold apart. cbn. lia.
  - unfold apart. cbn. lia.
  - split; [|exact H2]. rewrite H1. vm_compute. reflexivity.
Defined.

(** ** Values of 64 bits *)

(** Registers hold 64 bits and memory holds bytes. *)
Definition good (s : x64) : Prop := wf s /\ forall a, is_byte (x_mem s a).
Definition imm_ok (i : instr) : Prop :=
  match i with push_imm v | mov_imm v _ => 0 <= v < 2 ^ 64 | syscall_ => False | _ => True end.

Lemma load_good s a : good s -> 0 <= load 8 (x_mem s) a < 2 ^ 64.
Proof.
  intros [_ Hm]. unfold load. assert (Hl : length (read_bytes (x_mem s) a 8) = 8%nat) by done.
  pose proof (le_val_range (read_bytes (x_mem s) a 8)) as H. rewrite Hl in H. apply H. cbn. repeat constructor; apply Hm.
Qed.
Lemma good_setr r v s : good s -> 0 <= v < 2 ^ 64 -> good (setr r v s).
Proof. intros [Hw Hm] Hv. split; [|done]. intros x. cbn. by destruct (decide (x = r)). Qed.
Lemma good_wr a v s : good s -> good (wr a v s).
Proof.
  intros [Hw Hm]. split; [done|]. intros x. change (x_mem (wr a v s)) with (write_bytes (x_mem s) a (le_bytes 8 v)).
  destruct (decide (a <= x < a + Z.of_nat (length (le_bytes 8 v)))) as [H|H]; [|by rewrite write_bytes_old].
  replace x with (a + Z.of_nat (Z.to_nat (x - a))) by lia. rewrite write_bytes_new by lia.
  apply (proj1 (Forall_nth is_byte 0 (le_bytes 8 v))); [apply le_bytes_is_byte|lia].
Qed.
Lemma good_push v s : good s -> good (push v s).
Proof. intros H. apply good_wr, good_setr; [done|apply u64_range]. Qed.
Lemma good_reg s r : good s -> 0 <= x_reg s r < 2 ^ 64.
Proof. intros [Hw _]. apply Hw. Qed.
Lemma good_rip v s : good s -> good (set_x_rip v s).
Proof. done. Qed.
Lemma good_rflags v s : good s -> good (set_x_rflags v s).
Proof. done. Qed.
#[local] Hint Resolve good_push good_setr good_wr good_reg good_rip good_rflags u64_range load_good : good.

Lemma good_step i s : imm_ok i -> good s -> good (step1 i s).
Proof.
  intros Hi Hg. destruct i; cbn [step1 pop imm_ok] in *; unfold rd; auto 8 with good; done.
Qed.
Lemma good_run l s : Forall imm_ok l -> good s -> good (run l s).
Proof. intros Hl. revert s. induction Hl as [|i l Hi _ IH]; intros s Hg; [done|]. apply IH. by apply good_step. Qed.
