(* ===== verification/AsmSpec.v ===== *)
(** The trap and system call entries of [trapasm.S]: the frame that they build for the C code,
    and what the user finds on return. *)
From Stdlib Require Import ZArith Lia.
From stdpp Require Import base gmap sets strings numbers list.
From S2P Require Import Prelude State Asm.

Local Open Scope Z_scope.

(** The registers of a trap frame, in its order, and its field for a register. *)
Definition tf_regs : list reg := [RAX; RBX; RCX; RDX; RBP; RSI; RDI; R8; R9; R10; R11; R12; R13; R14; R15].
Definition tf_reg (tf : trapframe) (r : reg) : Z :=
  match r with
  | RAX => tf_rax tf | RBX => tf_rbx tf | RCX => tf_rcx tf | RDX => tf_rdx tf | RBP => tf_rbp tf | RSI => tf_rsi tf
  | RDI => tf_rdi tf | R8 => tf_r8 tf | R9 => tf_r9 tf | R10 => tf_r10 tf | R11 => tf_r11 tf | R12 => tf_r12 tf
  | R13 => tf_r13 tf | R14 => tf_r14 tf | R15 => tf_r15 tf | RSP => tf_rsp tf
  end.

(** The frame with the registers of [s] and the seven words at [a] behind them. *)
Definition frame (s : x64) (m : mem) (a : Z) : trapframe :=
  let w i := load 8 m (a + 8 * i) in
  mk_trapframe (x_reg s RAX) (x_reg s RBX) (x_reg s RCX) (x_reg s RDX) (x_reg s RBP) (x_reg s RSI) (x_reg s RDI)
    (x_reg s R8) (x_reg s R9) (x_reg s R10) (x_reg s R11) (x_reg s R12) (x_reg s R13) (x_reg s R14) (x_reg s R15)
    (w 0) (w 1) (w 2) (w 3) (w 4) (w 5) (w 6).

Lemma tf_regs_ok : NoDup tf_regs /\ RSP ∉ tf_regs /\ RSP ∉ reverse tf_regs.
Proof. split_and!; apply (bool_decide_unpack _); reflexivity. Qed.

(** One of the first [n] words, by [Hw] for the registers or [Ho] for the words behind them. *)
Ltac by_word Hw Ho n :=
  lazymatch n with
  | S ?m => first [exact (Hw m _ ltac:(lia) eq_refl) | exact (Ho (Z.of_nat m) ltac:(lia)) | by_word Hw Ho m]
  end.

Lemma save_regs_ok s a : good s -> 0 <= a -> x_reg s RSP = a + 120 ->
  let s' := run save_regs s in
  x_reg s' RSP = a /\ (forall r, r <> RSP -> x_reg s' r = x_reg s r) /\ same_ctl s s' /\
  tf_at (x_mem s') a = frame s (x_mem s) (a + 120) /\
  (forall x, ~ (a <= x < a + 120) -> x_mem s' x = x_mem s x).
Proof.
  intros Hg Ha Hsp s'. destruct tf_regs_ok as (_ & _ & Hn).
  assert (E : s' = pushes (x_reg s <$> reverse tf_regs) s).
  { unfold s'. change save_regs with (pushq <$> reverse tf_regs). by apply run_pushes. }
  destruct (pushes_ok (x_reg s <$> reverse tf_regs) s) as [P1 P2 P3 P4 P5].
  { apply Forall_fmap, Forall_forall. intros r _. by apply good_reg. }
  { pose proof (good_reg s RSP Hg). rewrite length_fmap, length_reverse. cbn. lia. }
  rewrite <- E in *. rewrite length_fmap, length_reverse in P1, P4. change (8 * Z.of_nat (length tf_regs)) with 120 in *.
  rewrite Hsp in *. clear E. clearbody s'.
  split; [lia|]. split; [done|]. split; [done|]. split; [|intros x Hx; apply P4; lia].
  assert (Hw : forall i r, (i < 15)%nat -> tf_regs !! i = Some r -> load 8 (x_mem s') (a + 8 * Z.of_nat i) = x_reg s r).
  { intros i r Hi Hr. replace (a + 8 * Z.of_nat i) with (a + 120 - 8 * (Z.of_nat (14 - i) + 1)) by lia. apply P3.
    rewrite list_lookup_fmap, reverse_lookup by (cbn; lia). change (length tf_regs) with 15%nat.
    replace (15 - S (14 - i))%nat with i by lia. by rewrite Hr. }
  assert (Ho : forall i, 0 <= i -> load 8 (x_mem s') (a + 8 * (15 + i)) = load 8 (x_mem s) (a + 120 + 8 * i)).
  { intros i Hi. replace (a + 8 * (15 + i)) with (a + 120 + 8 * i) by lia. apply load_ext. intros x Hx. apply P4. lia. }
  unfold tf_at, frame. f_equal; by_word Hw Ho 15%nat.
Qed.

Ltac by_reg H n := lazymatch n with S ?m => first [exact (H m _ eq_refl) | by_reg H m] end.

Lemma load_regs_ok s a : 0 <= a -> a + 176 <= 2 ^ 64 -> x_reg s RSP = a ->
  let s' := run load_regs s in
  x_reg s' RSP = a + 120 /\ (forall r, r <> RSP -> x_reg s' r = tf_reg (tf_at (x_mem s) a) r) /\ x_mem s' = x_mem s /\
  same_ctl s s'.
Proof.
  intros Ha Hhi Hsp s'. destruct tf_regs_ok as (Hnd & Hn & _).
  destruct (pops_ok tf_regs s Hnd Hn) as [P1 P2 _ P4 P5]; [lia|rewrite Hsp; change (length tf_regs) with 15%nat; lia|].
  change (popq <$> tf_regs) with load_regs in *. fold s' in P1, P2, P4, P5. clearbody s'. rewrite Hsp in *.
  change (8 * Z.of_nat (length tf_regs)) with 120 in P1. rewrite u64_small in P1 by lia. split_and!; [done| |done|done].
  intros r Hr. destruct r; try done; by_reg P2 15%nat.
Qed.

(** ** To the kernel stack *)

(** [syscall_entry] finds the kernel stack at [ks] of the process that [%fs] leads to. *)
Record stack_found (s : x64) (ks : Z) : Prop := {
  sf_good : good s;
  sf_fs : 8 <= x_fs s /\ x_fs s + 8 <= 2 ^ 64;
  sf_proc : 0 <= load 8 (x_mem s) (x_fs s - 8) /\ load 8 (x_mem s) (x_fs s - 8) + 24 <= 2 ^ 64;
  sf_kstack : load 8 (x_mem s) (load 8 (x_mem s) (x_fs s - 8) + 16) = ks;
  sf_ks : 0 <= ks /\ ks + 4096 <= 2 ^ 64;
  sf_apart1 : apart (x_fs s) 8 (load 8 (x_mem s) (x_fs s - 8) + 16) 8;
  sf_apart2 : apart (x_fs s) 8 ks 4096
}.

Definition enter : list instr :=
  [mov_r_fs RAX 0; mov_fs_r (-8) RAX; mov_mr 16 RAX RAX; addq (4096 - 16) RAX; mov_rm RSP 0 RAX; mov_rr RAX RSP; mov_fs_r 0 RAX].

Lemma enter_ok s ks : stack_found s ks ->
  let s' := run enter s in
  x_reg s' RSP = ks + 4080 /\ (forall r, r <> RSP -> x_reg s' r = x_reg s r) /\
  load 8 (x_mem s') (ks + 4080) = x_reg s RSP /\
  (forall a, ~ (x_fs s <= a < x_fs s + 8) -> ~ (ks + 4080 <= a < ks + 4088) -> x_mem s' a = x_mem s a).
Proof.
  intros [Hg [Hfs1 Hfs2] [Hp1 Hp2] Hks [Hk1 Hk2] Ha1 Ha2]. set (fs := x_fs s) in *. set (p := load 8 (x_mem s) (fs - 8)) in *.
  unfold apart in *. set (m1 := store 8 (x_mem s) fs (x_reg s RAX)).
  assert (E1 : load 8 m1 (fs - 8) = p) by (apply load_store_other; change (Z.of_nat 8) with 8; lia).
  assert (E2 : load 8 m1 (p + 16) = ks) by (rewrite <- Hks; apply load_store_other; change (Z.of_nat 8) with 8; lia).
  set (s1 := step1 (mov_r_fs RAX 0) s).
  assert (S1 : s1 = set_x_mem m1 s) by (unfold s1; cbn [step1]; fold fs; by rewrite Z.add_0_r, u64_small by lia).
  set (s2 := step1 (mov_fs_r (-8) RAX) s1).
  assert (S2 : s2 = setr RAX p s1).
  { unfold s2. cbn [step1]. rewrite S1. change (x_fs (set_x_mem m1 s)) with fs. rewrite u64_small by lia.
    change (rd (fs + -8) (set_x_mem m1 s)) with (load 8 m1 (fs - 8)). by rewrite E1. }
  set (s3 := step1 (mov_mr 16 RAX RAX) s2).
  assert (S3 : s3 = setr RAX ks s2).
  { unfold s3. cbn [step1]. rewrite S2, setr_same, u64_small by lia. rewrite S1.
    change (rd (p + 16) (setr RAX p (set_x_mem m1 s))) with (load 8 m1 (p + 16)). by rewrite E2. }
  set (s4 := step1 (addq (4096 - 16) RAX) s3).
  assert (S4 : s4 = setr RAX (ks + 4080) s3).
  { unfold s4. cbn [step1]. rewrite S3, setr_same. change (4096 - 16) with 4080. by rewrite u64_small by lia. }
  set (m2 := store 8 m1 (ks + 4080) (x_reg s RSP)). set (s5 := step1 (mov_rm RSP 0 RAX) s4).
  assert (S5 : s5 = set_x_mem m2 s4).
  { unfold s5. cbn [step1]. rewrite S4, setr_same, Z.add_0_r, u64_small by lia. by rewrite S3, S2, S1. }
  assert (E3 : load 8 m2 fs = x_reg s RAX).
  { unfold m2, m1. rewrite load_store_other by (change (Z.of_nat 8) with 8; lia). rewrite load_store_same.
    apply Z.mod_small, (good_reg _ _ Hg). }
  set (s6 := step1 (mov_rr RAX RSP) s5).
  assert (S6 : s6 = setr RSP (ks + 4080) s5) by (unfold s6; cbn [step1]; by rewrite S5, S4).
  assert (S7 : run enter s = setr RAX (x_reg s RAX) s6).
  { change (run enter s) with (setr RAX (rd (u64 (x_fs s6 + 0)) s6) s6). rewrite S6, S5, S4, S3, S2, S1.
    change (x_fs _) with fs at 1. rewrite Z.add_0_r, u64_small by lia. f_equal. exact E3. }
  cbv zeta. rewrite S7, S6, S5, S4, S3, S2, S1. clear -Hg Ha2 Hk1 Hk2. split; [done|]. split.
  { intros r Hr. by destruct r. }
  match goal with |- context [x_mem (setr ?r ?v ?s)] => change (x_mem (setr r v s)) with m2 end. split.
  - unfold m2. rewrite load_store_same. apply Z.mod_small, (good_reg _ _ Hg).
  - intros a H1 H2. unfold m2, m1. rewrite !store_old by (change (Z.of_nat 8) with 8; lia). done.
Qed.

(** The part of the frame that the processor pushes for a trap. *)
Definition header : list instr := [pushq R11; push_imm 0; pushq RCX; push_imm 0; push_imm 0].
Lemma header_ok s b : good s -> 40 <= b -> x_reg s RSP = b ->
  pushed [x_reg s R11; 0; x_reg s RCX; 0; 0] s (run header s).
Proof.
  intros Hg Hb Hsp. change (run header s) with (pushes [x_reg s R11; 0; x_reg s RCX; 0; 0] s).
  apply pushes_ok; [|pose proof (good_reg s RSP Hg); cbn; lia].
  repeat (apply Forall_cons; split; [try apply (good_reg _ _ Hg); lia|]). constructor.
Qed.

(** The frame of a system call: the code behind [syscall] has its address in [rcx] and its
    flags in [r11]. *)
Definition call_frame (s : x64) (ss : Z) : trapframe :=
  mk_trapframe (x_reg s RAX) (x_reg s RBX) (x_reg s RCX) (x_reg s RDX) (x_reg s RBP) (x_reg s RSI) (x_reg s RDI)
    (x_reg s R8) (x_reg s R9) (x_reg s R10) (x_reg s R11) (x_reg s R12) (x_reg s R13) (x_reg s R14) (x_reg s R15)
    0 0 (x_reg s RCX) 0 (x_reg s R11) (x_reg s RSP) ss.

Lemma syscall_entry_ok s ks : stack_found s ks ->
  let a := ks + 3920 in let s' := run syscall_entry s in
  good s' /\ x_reg s' RSP = a /\ x_reg s' RDI = a /\
  tf_at (x_mem s') a = call_frame s (load 8 (x_mem s) (ks + 4088)).
Proof.
  intros Hf a s'. pose proof (sf_good _ _ Hf) as Hg. destruct (sf_ks _ _ Hf) as [Hk1 Hk2].
  assert (Hg' : good s') by (apply good_run; [by repeat constructor|done]). split; [done|].
  assert (Es : s' = run [mov_rr RSP RDI] (run save_regs (run header (run enter s)))) by (unfold s'; by rewrite <- !run_app).
  destruct (enter_ok s ks Hf) as (N1 & N2 & N3 & N4).
  assert (Hg1 : good (run enter s)) by (apply good_run; [by repeat constructor|done]).
  generalize dependent (run enter s). intros s1 Es N1 N2 N3 N4 Hg1.
  destruct (header_ok s1 (ks + 4080) Hg1 ltac:(lia) N1) as [P1 P2 P3 P4 _].
  change (8 * Z.of_nat (length _)) with 40 in P1, P4. rewrite N1 in *.
  assert (Hg2 : good (run header s1)) by (apply good_run; [by repeat constructor|done]).
  generalize dependent (run header s1). intros s2 Es P1 P2 P3 P4 Hg2.
  destruct (save_regs_ok s2 a Hg2 ltac:(unfold a; lia) ltac:(unfold a; lia)) as (A1 & A2 & _ & A4 & _).
  generalize dependent (run save_regs s2). intros s3 Es A1 A2 A4.
  change (run [mov_rr RSP RDI] s3) with (setr RDI (x_reg s3 RSP) s3) in Es.
  rewrite Es. split; [by rewrite setr_other|]. split; [by rewrite setr_same|].
  change (x_mem (setr RDI (x_reg s3 RSP) s3)) with (x_mem s3). rewrite A4.
  assert (Hr : forall r, r <> RSP -> x_reg s2 r = x_reg s r) by (intros r Hr; by rewrite P2, N2).
  unfold frame, call_frame. rewrite !Hr by done. rewrite !(N2 R11), !(N2 RCX) in P3 by done.
  assert (Hw : forall i v, [x_reg s R11; 0; x_reg s RCX; 0; 0] !! (4 - i)%nat = Some v -> (i < 5)%nat ->
    load 8 (x_mem s2) (a + 120 + 8 * Z.of_nat i) = v).
  { intros i v Hv Hi. rewrite <- (P3 _ _ Hv). f_equal. unfold a. lia. }
  assert (Ho : forall x, ks + 4080 <= x -> load 8 (x_mem s2) x = load 8 (x_mem s1) x).
  { intros x Hx. apply load_ext. intros y Hy. apply P4. lia. }
  pose proof (sf_apart2 _ _ Hf) as Hap. unfold apart in Hap. f_equal.
  - exact (Hw 0%nat _ eq_refl ltac:(lia)).
  - exact (Hw 1%nat _ eq_refl ltac:(lia)).
  - exact (Hw 2%nat _ eq_refl ltac:(lia)).
  - exact (Hw 3%nat _ eq_refl ltac:(lia)).
  - exact (Hw 4%nat _ eq_refl ltac:(lia)).
  - replace (a + 120 + 8 * 5) with (ks + 4080) by (unfold a; lia). by rewrite Ho.
  - replace (a + 120 + 8 * 6) with (ks + 4088) by (unfold a; lia). rewrite Ho by lia. apply load_ext.
    intros y Hy. change (Z.of_nat 8) with 8 in Hy. apply N4; lia.
Qed.

(** ** The C code

    [f] is the code of a C function, from its first instruction to its return: it gives the
    stack pointer back as the calling convention says. *)
Class Returns (f : x64 -> x64) : Prop :=
  returns_sp : forall s, good s -> x_reg (f s) RSP = u64 (x_reg s RSP + 8).

Section Calls.
Context (f : x64 -> x64) {R : Returns f}.

(** The states in which the C function starts, [ret] being the address behind the call, and
    the ends of the handlers. *)
Definition in_trap (ret : Z) (s : x64) : x64 := push ret (run alltraps s).
Definition on_trap (ret : Z) (s : x64) : x64 := run trapret (f (in_trap ret s)).
Definition in_syscall (ret : Z) (s : x64) : x64 := push ret (run syscall_entry s).
Definition on_syscall (ret : Z) (s : x64) : x64 := run syscall_trapret (f (in_syscall ret s)).

(** The call with the frame on top of the stack. *)
Lemma callq_ok ret s a : good s -> x_reg s RSP = a -> x_reg s RDI = a -> 16 <= a -> a + 176 <= 2 ^ 64 ->
  let s1 := push ret s in
  x_reg s1 RDI = a /\ tf_at (x_mem s1) a = tf_at (x_mem s) a /\ x_reg (f s1) RSP = a.
Proof using R.
  intros Hg Hsp Hdi H0 H1 s1. assert (E : u64 (a - 8) = a - 8) by (apply u64_small; lia).
  assert (Esp : x_reg s1 RSP = a - 8) by (unfold s1, push; rewrite Hsp, E; exact (setr_same RSP (a - 8) s)).
  split; [rewrite <- Hdi; exact (setr_other RDI RSP _ s ltac:(done))|]. split.
  - assert (Em : x_mem s1 = store 8 (x_mem s) (a - 8) ret) by (unfold s1, push; rewrite Hsp, E; done).
    rewrite Em. unfold tf_at. f_equal; apply load_store_other; change (Z.of_nat 8) with 8; lia.
  - rewrite (returns_sp s1 (good_push ret s Hg)), Esp, u64_small; lia.
Qed.

(** The end of [trapret]: the frame's words from the instruction pointer on. *)
Lemma iret_ok s a : 0 <= a -> a + 176 <= 2 ^ 64 -> x_reg s RSP = a + 120 ->
  let s' := run [addq 16 RSP; iretq] s in let tf := tf_at (x_mem s) a in
  x_rip s' = tf_rip tf /\ x_rflags s' = tf_rflags tf /\ x_reg s' RSP = tf_rsp tf /\ forall r, r <> RSP -> x_reg s' r = x_reg s r.
Proof.
  intros H0 H1 Hsp s' tf. set (s1 := step1 (addq 16 RSP) s).
  assert (Esp : x_reg s1 RSP = a + 136).
  { unfold s1. cbn [step1]. rewrite setr_same, Hsp, u64_small; lia. }
  assert (Eo : forall r, r <> RSP -> x_reg s1 r = x_reg s r) by (intros r Hr; exact (setr_other r RSP _ s Hr)).
  assert (Em : x_mem s1 = x_mem s) by done. change s' with (step1 iretq s1). clearbody s1.
  unfold tf. rewrite <- Em. cbn [step1]. rewrite Esp. unfold rd. rewrite !u64_small by lia.
  replace (a + 136 + 16) with (a + 8 * 19) by lia. replace (a + 136 + 24) with (a + 8 * 20) by lia.
  replace (a + 136) with (a + 8 * 17) by lia. split; [done|]. split; [done|]. split; [exact (setr_same RSP _ _)|].
  intros r Hr. rewrite <- Eo by done. exact (setr_other r RSP _ s1 Hr).
Qed.

(** A trap, from [alltraps] to the end of [trapret], with the words that the processor and
    [vectors.S] have pushed at [a + 120]: the C function gets a frame with all registers of the
    interrupted code, and what it leaves in the frame is what the code goes on with, in all
    registers, the instruction pointer, the flags and the stack pointer. *)
Theorem trap_roundtrip ret s a :
  good s -> 16 <= a -> a + 176 <= 2 ^ 64 -> x_reg s RSP = a + 120 ->
  x_reg (in_trap ret s) RDI = a /\ tf_at (x_mem (in_trap ret s)) a = frame s (x_mem s) (a + 120) /\
  let tf := tf_at (x_mem (f (in_trap ret s))) a in let t := on_trap ret s in
  (forall r, x_reg t r = tf_reg tf r) /\ x_rip t = tf_rip tf /\ x_rflags t = tf_rflags tf.
Proof using R.
  intros Hg H0 H1 Hsp. unfold on_trap, in_trap, alltraps, trapret. rewrite !run_app.
  destruct (save_regs_ok s a Hg ltac:(lia) Hsp) as (A1 & A2 & _ & A4 & _).
  assert (Hg1 : good (run save_regs s)) by (apply good_run; [by repeat constructor|done]).
  generalize dependent (run save_regs s). intros s1 A1 A2 A4 Hg1.
  change (run [mov_rr RSP RDI] s1) with (setr RDI (x_reg s1 RSP) s1).
  assert (Hg2 : good (setr RDI (x_reg s1 RSP) s1)) by (apply good_setr; [done|by apply good_reg]).
  destruct (callq_ok ret (setr RDI (x_reg s1 RSP) s1) a) as (C1 & C2 & C3);
    [done|by rewrite setr_other|by rewrite setr_same|lia|lia|].
  split; [exact C1|]. split; [rewrite C2; exact A4|]. clear C1 C2. cbv zeta.
  generalize dependent (f (push ret (setr RDI (x_reg s1 RSP) s1))). intros s3 C3.
  destruct (load_regs_ok s3 a ltac:(lia) H1 C3) as (L1 & L2 & L3 & _).
  generalize dependent (run load_regs s3). intros s4 L1 L2 L3.
  destruct (iret_ok s4 a ltac:(lia) H1 L1) as (I1 & I2 & I3 & I4). rewrite L3 in I1, I2, I3. split_and!; [|done..].
  intros r. destruct (decide (r = RSP)) as [->|Hr]; [exact I3|]. rewrite I4 by done. by apply L2.
Qed.

(** The end of [syscall_trapret]. *)
Lemma sysret_ok s a : 0 <= a -> a + 176 <= 2 ^ 64 -> x_reg s RSP = a + 120 ->
  let s' := run [addq 40 RSP; cli; mov_mr 0 RSP RSP; sysretq] s in
  x_rip s' = x_reg s RCX /\ x_rflags s' = Z.lor (Z.land (x_reg s R11) 3964887) 2 /\
  x_reg s' RSP = tf_rsp (tf_at (x_mem s) a) /\ forall r, r <> RSP -> x_reg s' r = x_reg s r.
Proof.
  intros H0 H1 Hsp s'. set (s1 := step1 cli (step1 (addq 40 RSP) s)).
  assert (Esp : x_reg s1 RSP = a + 160).
  { change (x_reg s1 RSP) with (x_reg (setr RSP (u64 (x_reg s RSP + 40)) s) RSP). rewrite setr_same, Hsp, u64_small; lia. }
  assert (Eo : forall r, r <> RSP -> x_reg s1 r = x_reg s r) by (intros r Hr; exact (setr_other r RSP _ s Hr)).
  assert (Em : x_mem s1 = x_mem s) by done. change s' with (step1 sysretq (step1 (mov_mr 0 RSP RSP) s1)). clearbody s1.
  rewrite <- Em, <- (Eo RCX), <- (Eo R11) by done. cbn [step1]. rewrite Esp, Z.add_0_r, u64_small by lia.
  split; [exact (setr_other RCX RSP _ s1 ltac:(done))|].
  split; [change (x_reg (setr RSP (rd (a + 160) s1) s1) R11) with (x_reg s1 R11); done|].
  split; [exact (setr_same RSP _ _)|]. intros r Hr. rewrite <- Eo by done. exact (setr_other r RSP _ s1 Hr).
Qed.

(** C21: A system call, from the stub of [usys.S] to the return to the user.  The C function
    gets a frame on the kernel stack of the process with the number of the call in [rax], the
    user's registers, the fourth argument in [r10] and the user's stack pointer; what it leaves
    in the frame is what the user goes on with: all registers, the stack pointer, the address
    in [rcx], which is the one behind the [syscall] instruction unless the kernel changes it,
    and the flags in [r11]. *)
Theorem syscall_roundtrip n ret u ks (s := run (usys n) u) (a := ks + 3920) :
  stack_found s ks ->
  x_reg (in_syscall ret s) RDI = a /\
  tf_at (x_mem (in_syscall ret s)) a =
    mk_trapframe n (x_reg u RBX) (x_rip u) (x_reg u RDX) (x_reg u RBP) (x_reg u RSI) (x_reg u RDI) (x_reg u R8)
      (x_reg u R9) (x_reg u RCX) (x_rflags u) (x_reg u R12) (x_reg u R13) (x_reg u R14) (x_reg u R15)
      0 0 (x_rip u) 0 (x_rflags u) (x_reg u RSP) (load 8 (x_mem u) (ks + 4088)) /\
  let tf := tf_at (x_mem (f (in_syscall ret s))) a in let t := on_syscall ret s in
  (forall r, x_reg t r = tf_reg tf r) /\ x_rip t = tf_rcx tf /\
  x_rflags t = Z.lor (Z.land (tf_r11 tf) 3964887) 2.
Proof using R.
  intros Hf. destruct (sf_ks _ _ Hf) as [Hk1 Hk2]. unfold on_syscall, in_syscall, syscall_trapret.
  destruct (syscall_entry_ok s ks Hf) as (E1 & E2 & E3 & E4). fold a in E2, E3, E4.
  generalize dependent (run syscall_entry s). intros s1 E1 E2 E3 E4.
  destruct (callq_ok ret s1 a) as (C1 & C2 & C3); [done|done|done|unfold a; lia|unfold a; lia|].
  split; [exact C1|]. split; [rewrite C2; exact E4|]. clear C1 C2. cbv zeta. rewrite run_app.
  generalize dependent (f (push ret s1)). intros s3 C3.
  destruct (load_regs_ok s3 a ltac:(unfold a; lia) ltac:(unfold a; lia) C3) as (L1 & L2 & L3 & _).
  generalize dependent (run load_regs s3). intros s4 L1 L2 L3.
  destruct (sysret_ok s4 a ltac:(unfold a; lia) ltac:(unfold a; lia) L1) as (I1 & I2 & I3 & I4). rewrite L3 in I3.
  rewrite (L2 RCX) in I1 by done. rewrite (L2 R11) in I2 by done. split_and!; [|done|done].
  intros r. destruct (decide (r = RSP)) as [->|Hr]; [exact I3|]. rewrite I4 by done. by apply L2.
Qed.
End Calls.

(** A function that stores 42 in the frame's [rax], and a user program about to make a call:
    its process is at 70000, with the kernel stack at 131072. *)
Definition demo_f (s : x64) : x64 := setr RSP (u64 (x_reg s RSP + 8)) (wr (x_reg s RDI) 42 s).
#[global] Instance demo_f_returns : Returns demo_f.
Proof. intros s _. exact (setr_same RSP _ _). Qed.
Definition demo_zero : x64 :=
  mk_x64 (fun r => match r with RSP => 8000 | RBX => 5 | _ => 7 end) (fun _ => 0) 65536 4100 514 0 512.
Definition demo_user : x64 := wr 70016 131072 (wr 65528 70000 demo_zero).

Lemma demo_good : good demo_user.
Proof. repeat apply good_wr. split; [intros []; cbn; lia|]. intros a. cbn. unfold is_byte. lia. Qed.

Lemma syscall_roundtrip_witness :
  let t := on_syscall demo_f 99 (run (usys 11) demo_user) in
  x_reg t RAX = 42 /\ x_reg t RBX = 5 /\ x_rip t = 4100 /\ x_reg t RSP = 8000.
Proof.
  intros t. destruct (syscall_roundtrip demo_f 11 99 demo_user 131072) as (_ & _ & H1 & H2 & _).
  - constructor.
    + split; [intros []; vm_compute; split; congruence|]. exact (proj2 demo_good).
    + vm_compute. split; congruence.
    + vm_compute. split; congruence.
    + vm_compute. reflexivity.
    + vm_compute. split; congruence.
    + left. vm_compute. congruence.
    + left. vm_compute. congruence.
  - unfold t. rewrite (H1 RAX), (H1 RBX), (H1 RSP), H2. vm_compute. repeat split.
Defined.

Lemma trap_roundtrip_witness :
  let t := on_trap demo_f 99 demo_user in x_reg t RAX = 42 /\ x_reg t RBX = 5.
Proof.
  intros t. destruct (trap_roundtrip demo_f 99 demo_user 7880) as (_ & _ & H & _).
  - exact demo_good.
  - lia.
  - lia.
  - reflexivity.
  - unfold t. rewrite (H RAX), (H RBX). vm_compute. repeat split.
Defined.
