(* ===== verification/Co.v ===== *)
(** The context switch example [co.c], on the instructions of [swtch.S]: two threads of control
    that take turns on two stacks. *)
From Stdlib Require Import ZArith Lia.
From stdpp Require Import base gmap sets strings numbers list.
From S2P Require Import Prelude State Asm.

Local Open Scope Z_scope.

(** The addresses of the program: of the variables [stackptr_main] and [stackptr_worker], of
    [coworker] and of the code behind each call of [swtch]; and the result of [malloc]. *)
Record co_env : Type := mk_co_env {
  ce_main : Z; ce_worker : Z; ce_stack : Z;
  ce_coworker : Z; ce_worker2 : Z; ce_worker3 : Z; ce_main2 : Z; ce_main3 : Z
}.

(** [swtch(old, new)] from C code, [ret] being the address behind the call. *)
Definition call_swtch (ret old new : Z) (s : x64) : x64 := run swtch (push ret (setr RSI new (setr RDI old s))).

(** The processor and the lines printed so far. *)
Definition co_state : Type := x64 * list string.

(** The code of [co.c] between two switches, by its address; [inr] is the end of [main],
    [None] an address outside of the program. *)
Section Co.
Context (e : co_env).

Definition co_start (s : x64) : co_state :=
  let ptr := u64 (ce_stack e + 8 * 1000) in
  let s := wr (u64 (ptr + 8 * 6)) (ce_coworker e) s in
  (call_swtch (ce_main2 e) (ce_main e) ptr s, ["main 1"%string]).
Definition coworker1 (s : x64) (out : list string) : co_state :=
  (call_swtch (ce_worker2 e) (ce_worker e) (rd (ce_main e) s) s, out ++ ["worker 1"%string]).
Definition coworker2 (s : x64) (out : list string) : co_state :=
  (call_swtch (ce_worker3 e) (ce_worker e) (rd (ce_main e) s) s, out ++ ["worker 2"%string]).
Definition main2 (s : x64) (out : list string) : co_state :=
  (call_swtch (ce_main3 e) (ce_main e) (rd (ce_worker e) s) s, out ++ ["main 2"%string]).
Definition main3 (out : list string) : list string := out ++ ["main exit"%string].

Definition co_step (x : co_state) : option (co_state + x64 * list string) :=
  let '(s, out) := x in
  if x_rip s =? ce_coworker e then Some (inl (coworker1 s out))
  else if x_rip s =? ce_worker2 e then Some (inl (coworker2 s out))
  else if x_rip s =? ce_main2 e then Some (inl (main2 s out))
  else if x_rip s =? ce_main3 e then Some (inr (s, main3 out))
  else None.
Fixpoint co_loop (fuel : nat) (x : co_state) : option (x64 * list string) :=
  match fuel with
  | O => None
  | S fuel' =>
      match co_step x with
      | Some (inl x') => co_loop fuel' x'
      | Some (inr r) => Some r
      | None => None
      end
  end.
Definition co_main (fuel : nat) (s : x64) : option (x64 * list string) := co_loop fuel (co_start s).
End Co.

(** ** One call *)
Lemma call_swtch_ok ret old new s sp :
  good s -> 0 <= ret < 2 ^ 64 -> x_reg s RSP = sp -> 56 <= sp -> 0 <= old -> old + 8 <= 2 ^ 64 ->
  0 <= new -> new + 56 < 2 ^ 64 -> apart old 8 (sp - 56) 56 ->
  let t := call_swtch ret old new s in
  good t /\ x_rip t = load 8 (x_mem t) (new + 48) /\ x_reg t RSP = new + 56 /\
  load 8 (x_mem t) old = sp - 56 /\ load 8 (x_mem t) (sp - 8) = ret /\
  (forall a, ~ (sp - 56 <= a < sp) -> ~ (old <= a < old + 8) -> x_mem t a = x_mem s a).
Proof.
  intros Hg Hret Hsp Hlo Ho1 Ho2 Hn1 Hn2 Hap t. unfold t, call_swtch.
  assert (Hg0 : good (setr RSI new (setr RDI old s))) by (repeat apply good_setr; done || lia).
  pose proof (good_reg s RSP Hg) as Hr. rewrite Hsp in Hr.
  set (s1 := push ret (setr RSI new (setr RDI old s))).
  assert (Hg1 : good s1) by (by apply good_push).
  assert (Es : u64 (sp - 8) = sp - 8) by (apply u64_small; lia).
  assert (E1 : x_reg s1 RSP = sp - 8).
  { change (x_reg s1 RSP) with (u64 (x_reg s RSP - 8)). by rewrite Hsp. }
  assert (E2 : x_reg s1 RDI = old) by done. assert (E3 : x_reg s1 RSI = new) by done.
  assert (E4 : x_mem s1 = store 8 (x_mem s) (sp - 8) ret).
  { change (x_mem s1) with (store 8 (x_mem s) (u64 (x_reg s RSP - 8)) ret). by rewrite Hsp, Es. }
  clearbody s1. unfold apart in Hap.
  assert (Hc : can_switch s1) by (constructor; rewrite ?E1, ?E2; unfold apart; [apply Hg1|lia..]).
  assert (Hgt : good (run swtch s1)) by (apply good_run; [by repeat constructor|done]).
  destruct (swtch_parts s1 Hc) as (_ & _ & _ & _ & L2 & L3); [lia|lia|].
  destruct (swtch_saves s1 Hc) as (S1 & _ & S3); [lia|lia|]. rewrite E1, E2, E3 in *.
  split_and!; [done|done|done|lia| |].
  - rewrite (load_ext _ _ (x_mem s1)) by (intros x Hx; change (Z.of_nat 8) with 8 in Hx; apply S3; lia).
    rewrite E4, load_store_same. by apply Z.mod_small.
  - intros a Ha1 Ha2. rewrite S3, E4 by lia. apply store_old. change (Z.of_nat 8) with 8. lia.
Qed.

(** ** Taking turns *)

(** [main] calls with its stack pointer at [sp]; the variables, the part of its stack below
    and the block from [malloc] do not overlap, and the code addresses differ. *)
Record co_layout (e : co_env) (sp : Z) : Prop := {
  cl_sp : 56 <= sp < 2 ^ 64;
  cl_main : 0 <= ce_main e /\ ce_main e + 8 <= 2 ^ 64;
  cl_worker : 0 <= ce_worker e /\ ce_worker e + 8 <= 2 ^ 64;
  cl_stack : 0 <= ce_stack e /\ ce_stack e + 8192 <= 2 ^ 64;
  cl_vars : apart (ce_main e) 8 (ce_worker e) 8;
  cl_main_sp : apart (ce_main e) 8 (sp - 56) 56;
  cl_worker_sp : apart (ce_worker e) 8 (sp - 56) 56;
  cl_main_stack : apart (ce_main e) 8 (ce_stack e) 8192;
  cl_worker_stack : apart (ce_worker e) 8 (ce_stack e) 8192;
  cl_stacks : apart (sp - 56) 56 (ce_stack e) 8192;
  cl_code : NoDup [ce_coworker e; ce_worker2 e; ce_main2 e; ce_main3 e];
  cl_addr : Forall (fun a => 0 <= a < 2 ^ 64) [ce_coworker e; ce_worker2 e; ce_worker3 e; ce_main2 e; ce_main3 e]
}.

Section Turns.
Context (e : co_env) (sp : Z) (L : co_layout e sp).
Let ptr : Z := ce_stack e + 8000.

(** [main], or the worker, is waiting in its call of [swtch] to go on at [l]. *)
Definition main_waits (l : Z) (s : x64) : Prop :=
  good s /\ x_reg s RSP = ptr + 56 /\ rd (ce_main e) s = sp - 56 /\ load 8 (x_mem s) (sp - 8) = l.
Definition worker_waits (l : Z) (s : x64) : Prop :=
  good s /\ x_reg s RSP = sp /\ rd (ce_worker e) s = ptr /\ load 8 (x_mem s) (ptr + 48) = l.

Lemma to_main l ret s : main_waits l s -> 0 <= ret < 2 ^ 64 ->
  let t := call_swtch ret (ce_worker e) (rd (ce_main e) s) s in x_rip t = l /\ worker_waits ret t.
Proof using L.
  intros (Hg & Hsp & Hp & Hl) Hret t. destruct L as [L1 [L2 L3] [L4 L5] [L6 L7] L8 L9 L10 L11 L12 L13 _ _]. unfold apart in *.
  unfold ptr in *. destruct (call_swtch_ok ret (ce_worker e) (rd (ce_main e) s) s (ce_stack e + 8000 + 56))
    as (T1 & T2 & T3 & T4 & T5 & T6); try done; rewrite ?Hp; unfold apart; try lia. fold t in T1, T2, T3, T4, T5, T6.
  rewrite Hp in T2, T3. split.
  - rewrite T2, <- Hl. replace (sp - 56 + 48) with (sp - 8) by lia. apply load_ext.
    intros a Ha. change (Z.of_nat 8) with 8 in Ha. apply T6; lia.
  - split; [done|]. split; [rewrite T3; lia|]. split; [unfold rd; rewrite T4; lia|].
    rewrite <- T5. f_equal. lia.
Qed.

Lemma to_worker l ret s : worker_waits l s -> 0 <= ret < 2 ^ 64 ->
  let t := call_swtch ret (ce_main e) (rd (ce_worker e) s) s in x_rip t = l /\ main_waits ret t.
Proof using L.
  intros (Hg & Hsp & Hp & Hl) Hret t. destruct L as [L1 [L2 L3] [L4 L5] [L6 L7] L8 L9 L10 L11 L12 L13 _ _]. unfold apart in *.
  unfold ptr in *. destruct (call_swtch_ok ret (ce_main e) (rd (ce_worker e) s) s sp)
    as (T1 & T2 & T3 & T4 & T5 & T6); try done; rewrite ?Hp; unfold apart; try lia. fold t in T1, T2, T3, T4, T5, T6.
  rewrite Hp in T2, T3. split.
  - rewrite T2, <- Hl. apply load_ext. intros a Ha. change (Z.of_nat 8) with 8 in Ha. apply T6; lia.
  - split; [done|]. split; [exact T3|]. split; [exact T4|done].
Qed.

(** [main] starts the worker. *)
Lemma to_start s : good s -> x_reg s RSP = sp ->
  x_rip (co_start e s).1 = ce_coworker e /\ main_waits (ce_main2 e) (co_start e s).1.
Proof using L.
  intros Hg Hsp. pose proof (cl_addr _ _ L) as Hc. rewrite !Forall_cons in Hc. destruct Hc as (C1 & C2 & C3 & C4 & _).
  unfold co_start. cbn [fst]. destruct L as [L1 [L2 L3] [L4 L5] [L6 L7] L8 L9 L10 L11 L12 L13 _ _]. unfold apart in *.
  rewrite !(u64_small (ce_stack e + 8 * 1000)) by lia. rewrite !u64_small by lia.
  change (8 * 1000) with 8000. change (8 * 6) with 48. fold ptr. unfold ptr in *.
  set (s1 := wr (ce_stack e + 8000 + 48) (ce_coworker e) s). assert (Hg1 : good s1) by (by apply good_wr).
  destruct (call_swtch_ok (ce_main2 e) (ce_main e) (ce_stack e + 8000) s1 sp)
    as (T1 & T2 & T3 & T4 & T5 & T6); try done; unfold apart; try lia. split.
  - rewrite T2, (load_ext _ _ (x_mem s1)) by (intros a Ha; change (Z.of_nat 8) with 8 in Ha; apply T6; lia).
    change (x_mem s1) with (store 8 (x_mem s) (ce_stack e + 8000 + 48) (ce_coworker e)).
    rewrite load_store_same. by apply Z.mod_small.
  - split; [done|]. split; [exact T3|]. split; [exact T4|done].
Qed.
End Turns.

(** The example prints its lines in the order in which the two threads take turns,
    wherever its variables, its stack and the block from [malloc] are, and [main] ends on its
    own stack. *)
Theorem co_main_output e sp s : co_layout e sp -> good s -> x_reg s RSP = sp ->
  exists t, co_main e 4 s = Some (t, ["main 1"; "worker 1"; "main 2"; "worker 2"; "main exit"]%string) /\ x_reg t RSP = sp.
Proof.
  intros L Hg Hsp. pose proof (cl_code _ _ L) as Hc. pose proof (cl_addr _ _ L) as Ha.
  rewrite !NoDup_cons in Hc. destruct Hc as (N1 & N2 & N3 & _). rewrite !Forall_cons in Ha. destruct Ha as (A1 & A2 & A3 & A4 & A5 & _).
  apply not_elem_of_cons in N1 as [N11 [N12 [N13 _]%not_elem_of_cons]%not_elem_of_cons].
  apply not_elem_of_cons in N2 as [N21 [N22 _]%not_elem_of_cons]. apply not_elem_of_cons in N3 as [N31 _].
  destruct (to_start e sp L s Hg Hsp) as [E0 W0]. unfold co_main.
  assert (Eo : co_start e s = ((co_start e s).1, ["main 1"%string])) by reflexivity. rewrite Eo. clear Eo.
  generalize dependent ((co_start e s).1). intros s0 E0 W0. cbn [co_loop co_step]. rewrite E0, Z.eqb_refl. unfold coworker1.
  destruct (to_main e sp L _ (ce_worker2 e) s0 W0 A2) as [E1 W1].
  generalize dependent (call_swtch (ce_worker2 e) (ce_worker e) (rd (ce_main e) s0) s0). intros s1 E1 W1. cbn [co_loop co_step].
  rewrite E1, !(proj2 (Z.eqb_neq (ce_main2 e) _)), Z.eqb_refl by congruence. unfold main2.
  destruct (to_worker e sp L _ (ce_main3 e) s1 W1 A5) as [E2 W2].
  generalize dependent (call_swtch (ce_main3 e) (ce_main e) (rd (ce_worker e) s1) s1). intros s2 E2 W2. cbn [co_loop co_step].
  rewrite E2, !(proj2 (Z.eqb_neq (ce_worker2 e) _)), Z.eqb_refl by congruence. unfold coworker2.
  destruct (to_main e sp L _ (ce_worker3 e) s2 W2 A3) as [E3 W3].
  generalize dependent (call_swtch (ce_worker3 e) (ce_worker e) (rd (ce_main e) s2) s2). intros s3 E3 W3. cbn [co_loop co_step].
  rewrite E3, !(proj2 (Z.eqb_neq (ce_main3 e) _)), Z.eqb_refl by congruence. exists s3. split; [done|]. apply W3.
Qed.

(** The variables at 1000 and 1008, the stack below 8192, the block at 16384. *)
Definition demo_env : co_env := mk_co_env 1000 1008 16384 1 2 3 4 5.
Lemma co_main_output_witness :
  exists t, co_main demo_env 4 (demo_x64 8192 0 0 (fun _ => 0)) =
    Some (t, ["main 1"; "worker 1"; "main 2"; "worker 2"; "main exit"]%string) /\ x_reg t RSP = 8192.
Proof.
  apply (co_main_output demo_env 8192).
  - constructor; unfold apart; cbn; try lia.
    + apply (bool_decide_unpack _). reflexivity.
    + repeat constructor; lia.
  - split; [intros []; cbn; lia|]. intros a. cbn. unfold is_byte. lia.
  - reflexivity.
Defined.
