(* ===== verification/Uprog.v ===== *)
(** User programs as interaction trees over their system calls: [src/cat.c], [src/wc.c],
    [src/echo.c], [src/ls.c], [src/rm.c], [src/mkdir.c], [src/ln.c], [src/kill.c],
    [src/init.c], [src/zombie.c], and [gets] and [stat] of [src/ulib.c].

    A C string is the list of its bytes before the NUL; [args] are [argv[1]] on.  The buffer
    of a [read] is what the call returns besides its result. *)
From Stdlib Require Import ZArith Lia.
From stdpp Require Import base gmap sets strings numbers list.
From ITree Require Import ITree.
From S2P Require Import Prelude State Ulib Log Fs Console Dir Printf.

Local Open Scope Z_scope.

(** The fields of [struct stat] that the programs use. *)
Record ustat : Type := mk_ustat { us_type : Z; us_ino : Z; us_size : Z }.

(** The system calls of [src/user.h]. *)
Inductive sysE : Type -> Type :=
| Fork : sysE Z
| Exit : sysE Empty_set
| Wait : sysE Z
| MkPipe : sysE (Z * (Z * Z))
| Write (fd : Z) (bs : list Z) : sysE Z
| Read (fd n : Z) : sysE (Z * list Z)
| Close (fd : Z) : sysE Z
| Kill (pid : Z) : sysE Z
| ExecProg (path : list Z) (argv : list (list Z)) : sysE Z
| Open (path : list Z) (mode : Z) : sysE Z
| Mknod (path : list Z) (major minor : Z) : sysE Z
| Unlink (path : list Z) : sysE Z
| Fstat (fd : Z) : sysE (Z * ustat)
| Link (old new : list Z) : sysE Z
| Mkdir (path : list Z) : sysE Z
| Chdir (path : list Z) : sysE Z
| Dup (fd : Z) : sysE Z
| Getpid : sysE Z
| Sbrk (n : Z) : sysE Z
| Sleep (n : Z) : sysE Z
| Uptime : sysE Z.

Notation prog := (itree sysE).
#[global] Instance tree_ret {E} : MRet (itree E) := fun A a => Ret a.
#[global] Instance tree_bind {E} : MBind (itree E) := fun A B k t => ITree.bind t k.

Definition call {A} (e : sysE A) : prog A := ITree.trigger e.
Definition exit {A} : prog A := v ← call Exit; match v : Empty_set with end.
(** Calls whose result is ignored. *)
Definition call_ {A} (e : sysE A) : prog unit := call e;; mret tt.

(** [printf]: one [write] per byte. *)
Fixpoint put_bytes (fd : Z) (bs : list Z) : prog unit :=
  match bs with
  | [] => mret tt
  | b :: bs' => call_ (Write fd [b]);; put_bytes fd bs'
  end.
Definition uprintf (fd : Z) (fmt : list Z) (ap : list va) : prog unit := put_bytes fd (printf fmt ap).
Definition line (s : string) : list Z := bytes_of s ++ [10].
Definition str (s : list Z) : va := VStr (Some s).

(** A loop over the arguments. *)
Fixpoint for_args (body : list Z -> prog unit) (args : list (list Z)) : prog unit :=
  match args with
  | [] => mret tt
  | a :: args' => body a;; for_args body args'
  end.

(** ** [src/cat.c] *)
Definition cat_body (fd : Z) (_ : unit) : prog (unit + Z) :=
  '(n, bs) ← call (Read fd 512);
  if 0 <? n then
    w ← call (Write 1 bs);
    if negb (w =? n) then uprintf 1 (line "cat: write error") [];; exit else mret (inl tt)
  else mret (inr n).
Definition cat (fd : Z) : prog unit :=
  n ← ITree.iter (cat_body fd) tt;
  if n <? 0 then uprintf 1 (line "cat: read error") [];; exit else mret tt.
Definition cat_file (path : list Z) : prog unit :=
  fd ← call (Open path 0);
  if fd <? 0 then uprintf 1 (line "cat: cannot open %s") [str path];; exit else
  cat fd;;
  call_ (Close fd).
Definition cat_main (args : list (list Z)) : prog unit :=
  match args with
  | [] => cat 0;; exit
  | _ => for_args cat_file args;; exit
  end.

(** ** [src/wc.c] *)
Record counts : Type := mk_counts { c_l : Z; c_w : Z; c_c : Z; c_inword : bool }.
Definition is_space (b : Z) : bool := bool_decide (b ∈ [32; 13; 9; 10; 11]).
Definition wc_char (x : counts) (b : Z) : counts :=
  let x := mk_counts (c_l x) (c_w x) (i32 (c_c x + 1)) (c_inword x) in
  let x := if b =? 10 then mk_counts (i32 (c_l x + 1)) (c_w x) (c_c x) (c_inword x) else x in
  if is_space b then mk_counts (c_l x) (c_w x) (c_c x) false
  else if negb (c_inword x) then mk_counts (c_l x) (i32 (c_w x + 1)) (c_c x) true else x.
Definition wc_body (fd : Z) (x : counts) : prog (counts + (Z * counts)) :=
  '(n, bs) ← call (Read fd 512);
  if 0 <? n then mret (inl (foldl wc_char x bs)) else mret (inr (n, x)).
Definition wc (fd : Z) (name : list Z) : prog unit :=
  '(n, x) ← ITree.iter (wc_body fd) (mk_counts 0 0 0 false);
  if n <? 0 then uprintf 1 (line "wc: read error") [];; exit else
  uprintf 1 (line "%d %d %d %s") [VInt (c_l x); VInt (c_w x); VInt (c_c x); str name].
Definition wc_file (path : list Z) : prog unit :=
  fd ← call (Open path 0);
  if fd <? 0 then uprintf 1 (line "wc: cannot open %s") [str path];; exit else
  wc fd path;;
  call_ (Close fd).
Definition wc_main (args : list (list Z)) : prog unit :=
  match args with
  | [] => wc 0 [];; exit
  | _ => for_args wc_file args;; exit
  end.

(** ** [src/echo.c] *)
Fixpoint echo_loop (args : list (list Z)) : prog unit :=
  match args with
  | [] => mret tt
  | a :: args' =>
      uprintf 1 (bytes_of "%s%s") [str a; str (match args' with [] => [10] | _ => [32] end)];;
      echo_loop args'
  end.
Definition echo_main (args : list (list Z)) : prog unit := echo_loop args;; exit.

(** ** [src/rm.c], [src/mkdir.c], [src/ln.c], [src/kill.c] *)

(** Up to the first path whose call fails. *)
Fixpoint each_path (e : list Z -> sysE Z) (msg : list Z) (args : list (list Z)) : prog unit :=
  match args with
  | [] => mret tt
  | a :: args' =>
      r ← call (e a);
      if r <? 0 then uprintf 2 msg [str a] else each_path e msg args'
  end.
Definition rm_main (args : list (list Z)) : prog unit :=
  match args with
  | [] => uprintf 2 (line "Usage: rm files...") [];; exit
  | _ => each_path Unlink (line "rm: %s failed to delete") args;; exit
  end.
Definition mkdir_main (args : list (list Z)) : prog unit :=
  match args with
  | [] => uprintf 2 (line "Usage: mkdir files...") [];; exit
  | _ => each_path Mkdir (line "mkdir: %s failed to create") args;; exit
  end.
Definition ln_main (args : list (list Z)) : prog unit :=
  match args with
  | [old; new] =>
      r ← call (Link old new);
      (if r <? 0 then uprintf 2 (line "link %s %s: failed") [str old; str new] else mret tt);;
      exit
  | _ => uprintf 2 (line "Usage: ln old new") [];; exit
  end.
Definition kill_main (args : list (list Z)) : prog unit :=
  match args with
  | [] => uprintf 2 (line "usage: kill pid...") [];; exit
  | _ => for_args (fun a => call_ (Kill (default 0 (atoi (S (length a)) (ptr a))))) args;; exit
  end.

(** ** [gets] and [stat] of [src/ulib.c], and [getcmd] of [src/sh.c] *)

(** At most [n] more bytes of a line. *)
Fixpoint gets_loop (n : nat) : prog (list Z) :=
  match n with
  | O => mret []
  | S n' =>
      '(cc, bs) ← call (Read 0 1);
      if cc <? 1 then mret [] else
      let c := default 0 (head bs) in
      if (c =? 10) || (c =? 13) then mret [c] else
      l ← gets_loop n'; mret (c :: l)
  end.
(** The bytes that [gets(buf, max)] stores before its NUL. *)
Definition gets (max : Z) : prog (list Z) := gets_loop (Z.to_nat (max - 1)).

Definition stat (n : list Z) (st : ustat) : prog (Z * ustat) :=
  fd ← call (Open n O_RDONLY);
  if fd <? 0 then mret (-1, st) else
  '(r, st) ← call (Fstat fd);
  call (Close fd);;
  mret (r, st).

Definition getcmd (nbuf : Z) : prog (Z * list Z) :=
  uprintf 2 (bytes_of "$ ") [];;
  buf ← gets nbuf;
  mret ((if default 0 (head buf) =? 0 then -1 else 0), buf).

(** ** [src/ls.c] *)

(** Backwards from the end to the last slash: [p] is what was passed. *)
Fixpoint last_elem (rev_path p : list Z) : list Z :=
  match rev_path with
  | [] => p
  | c :: rev_path' => if c =? 47 then p else last_elem rev_path' (c :: p)
  end.
Definition fmtname (path : list Z) : list Z :=
  let p := last_elem (reverse path) [] in
  if DIRSIZ <=? Z.of_nat (length p) then p
  else p ++ replicate (Z.to_nat DIRSIZ - length p) 32.
Definition print_stat (path : list Z) (st : ustat) : prog unit :=
  uprintf 1 (line "%s %d %d %d") [str (fmtname path); VInt (us_type st); VInt (us_ino st); VInt (us_size st)].
Definition ls_body (path : list Z) (fd : Z) (st : ustat) : prog (ustat + unit) :=
  '(n, bs) ← call (Read fd DIRENT);
  if negb (n =? DIRENT) then mret (inr tt) else
  let de := get_dirent bs in
  if de_inum de =? 0 then mret (inl st) else
  let buf := path ++ [47] ++ cut_nul (de_name de) in
  '(r, st) ← stat buf st;
  (if r <? 0 then uprintf 1 (line "ls: cannot stat %s") [str buf] else print_stat buf st);;
  mret (inl st).
Definition ls (path : list Z) : prog unit :=
  fd ← call (Open path 0);
  if fd <? 0 then uprintf 2 (line "ls: cannot open %s") [str path] else
  '(r, st) ← call (Fstat fd);
  if r <? 0 then
    uprintf 2 (line "ls: cannot stat %s") [str path];;
    call_ (Close fd)
  else
    (if us_type st =? T_FILE then print_stat path st
     else if us_type st =? T_DIR then
       if 512 <? Z.of_nat (length path) + 1 + DIRSIZ + 1 then uprintf 1 (line "ls: path too long") []
       else ITree.iter (ls_body path fd) st
     else mret tt);;
    call_ (Close fd).
Definition ls_main (args : list (list Z)) : prog unit :=
  match args with
  | [] => ls (bytes_of ".");; exit
  | _ => for_args ls args;; exit
  end.

(** ** [src/init.c] and [src/zombie.c] *)

(** Until the shell, or no child, is left. *)
Definition init_wait (pid : Z) (_ : unit) : prog (unit + unit) :=
  wpid ← call Wait;
  if (0 <=? wpid) && negb (wpid =? pid) then uprintf 1 (line "zombie!") [];; mret (inl tt)
  else mret (inr tt).
Definition init_body (_ : unit) : prog (unit + Empty_set) :=
  uprintf 1 (line "init: starting sh") [];;
  pid ← call Fork;
  if pid <? 0 then uprintf 1 (line "init: fork failed") [];; exit else
  if pid =? 0 then
    call_ (ExecProg (bytes_of "sh") [bytes_of "sh"]);;
    uprintf 1 (line "init: exec sh failed") [];;
    exit
  else
    ITree.iter (init_wait pid) tt;;
    mret (inl tt).
Definition init_main : prog Empty_set :=
  r ← call (Open (bytes_of "console") O_RDWR);
  (if r <? 0 then
     call_ (Mknod (bytes_of "console") 1 1);;
     call_ (Open (bytes_of "console") O_RDWR)
   else mret tt);;
  call_ (Dup 0);;
  call_ (Dup 0);;
  ITree.iter init_body tt.

Definition zombie_main : prog unit :=
  pid ← call Fork;
  (if 0 <? pid then call_ (Sleep 5) else mret tt);;
  exit.

(** ** [initcode.S]: the first program *)
Definition initcode : prog unit :=
  call_ (ExecProg (bytes_of "/init") [bytes_of "/init"]);;
  ITree.iter (fun _ : unit => exit) tt.
