(* ===== verification/Urun.v ===== *)
(** Running the interaction trees of the user programs over an operating system, given as a
    handler of their events on a state [W]; [exit] ends the run with the state. *)
From Stdlib Require Import ZArith Lia.
From stdpp Require Import base gmap sets strings numbers list.
From ITree Require Import ITree ITreeFacts Events.State Events.StateFacts.
From S2P Require Import Prelude State Ulib Console Dir Printf Uprog.

Local Open Scope Z_scope.

Inductive haltE (W : Type) : Type -> Type :=
| Halt (w : W) : haltE W Empty_set.
Arguments Halt {W}.
Definition halt {W A} (w : W) : itree (haltE W) A :=
  ITree.bind (ITree.trigger (Halt w)) (fun v : Empty_set => match v with end).

(** What an operating system answers to the events [E] of a program. *)
Class OS (E : Type -> Type) (W : Type) : Type := os_call : forall A, E A -> W -> itree (haltE W) (W * A).

(** An event that does not come back. *)
Class Exits {E} (W : Type) {O : OS E W} (e : E Empty_set) : Prop := os_exit : forall w, os_call _ e w = halt w.

Section Run.
Context {E : Type -> Type} {W : Type} {O : OS E W}.
Implicit Types w : W.

Definition run {A} (p : itree E A) (w : W) : itree (haltE W) (W * A) := interp_state os_call p w.

#[global] Instance run_proper {A} : Proper (eutt eq ==> eq ==> eutt eq) (@run A).
Proof. unfold run. apply eutt_interp_state_eq. Qed.

Lemma run_ret {A} (a : A) w : run (mret a) w ≈ Ret (w, a).
Proof. unfold run, mret, tree_ret. rewrite interp_state_ret. reflexivity. Qed.

Lemma run_bind {A B} (p : itree E A) (k : A -> itree E B) w w' a : run p w ≈ Ret (w', a) -> run (p ≫= k) w ≈ run (k a) w'.
Proof.
  intros Ep. unfold run, mbind, tree_bind in *. rewrite interp_state_bind. rewrite Ep, bind_ret_l. reflexivity.
Qed.

Lemma run_bind_halt {A B} (p : itree E A) (k : A -> itree E B) w w' : run p w ≈ halt w' -> run (p ≫= k) w ≈ halt w'.
Proof.
  intros Ep. unfold run, mbind, tree_bind in *. rewrite interp_state_bind, Ep. unfold halt. rewrite bind_bind.
  apply eutt_clo_bind with (UU := eq); [reflexivity|]. intros [].
Qed.

Lemma run_event {A} (e : E A) w r : os_call _ e w = Ret r -> run (ITree.trigger e) w ≈ Ret r.
Proof. intros Ee. unfold run. rewrite interp_state_trigger. by rewrite Ee. Qed.

(** [k] is never reached. *)
Lemma run_stop {A} (e : E Empty_set) (k : Empty_set -> itree E A) w : Exits W e -> run (ITree.trigger e ≫= k) w ≈ halt w.
Proof.
  intros He. unfold run, mbind, tree_bind. rewrite interp_state_bind, interp_state_trigger, (os_exit w). unfold halt.
  rewrite bind_bind. apply eutt_clo_bind with (UU := eq); [reflexivity|]. intros [].
Qed.

Lemma run_iter {A B} (body : A -> itree E (A + B)) a w :
  run (ITree.iter body a) w ≈ run (body a ≫= fun r => match r with inl a' => ITree.iter body a' | inr b => mret b end) w.
Proof.
  unfold run, mbind, tree_bind, mret, tree_ret. rewrite unfold_iter. apply eutt_interp_state_eq; [|done].
  apply eutt_clo_bind with (UU := eq); [reflexivity|]. intros r ? <-. destruct r; [by rewrite tau_eutt|reflexivity].
Qed.
End Run.

(** ** System calls *)
Section Calls.
Context {W : Type} {O : OS sysE W} {X : Exits W Exit}.
Implicit Types w : W.

Lemma run_call {A} (e : sysE A) w r : os_call _ e w = Ret r -> run (call e) w ≈ Ret r.
Proof. apply run_event. Qed.
Lemma run_call_ {A} (e : sysE A) w w' a : os_call _ e w = Ret (w', a) -> run (call_ e) w ≈ Ret (w', tt).
Proof. intros Ee. unfold call_. erewrite run_bind; [|by apply run_call]. apply run_ret. Qed.
Lemma run_exit {A} w : run (A := A) exit w ≈ halt w.
Proof. by apply run_stop. Qed.
End Calls.
