(* ===== verification/UprogSpec.v ===== *)
(** What [cat] and [wc] do ([Uprog]), run over a file system in which reads deliver the
    contents of the files in pieces and writes are complete. *)
From Stdlib Require Import ZArith Lia.
From stdpp Require Import base gmap sets strings numbers list.
From ITree Require Import ITree ITreeFacts Events.State Events.StateFacts.
From S2P Require Import Prelude State Ulib Log Fs Console Dir Printf Uprog Urun.

Local Open Scope Z_scope.

(** ** The operating system *)

(** The files by path and the open descriptors, as the [read]s that they will answer; what
    was written to the standard output and error. *)
Record world : Type := mk_world {
  w_files : list Z -> option (list (list Z));
  w_fds : gmap Z (list (list Z));
  w_out : list Z;
  w_err : list Z
}.
Definition set_fds (v : gmap Z (list (list Z))) (w : world) : world := mk_world (w_files w) v (w_out w) (w_err w).
Definition add_out (bs : list Z) (w : world) : world := mk_world (w_files w) (w_fds w) (w_out w ++ bs) (w_err w).
Definition add_err (bs : list Z) (w : world) : world := mk_world (w_files w) (w_fds w) (w_out w) (w_err w ++ bs).

(** The lowest free descriptor from 3 on. *)
Definition free_fd (w : world) : option Z := list_find (fun fd => w_fds w !! fd = None) (seqZ 3 13) ≫= fun p => Some p.2.

Definition sys_read (fd : Z) (w : world) : world * (Z * list Z) :=
  match w_fds w !! fd with
  | Some (bs :: rest) => (set_fds (<[fd := rest]> (w_fds w)) w, (Z.of_nat (length bs), bs))
  | Some [] => (w, (0, []))
  | None => (w, (-1, []))
  end.
Definition sys_write (fd : Z) (bs : list Z) (w : world) : world * Z :=
  if fd =? 1 then (add_out bs w, Z.of_nat (length bs))
  else if fd =? 2 then (add_err bs w, Z.of_nat (length bs))
  else (w, -1).
Definition sys_open (path : list Z) (w : world) : world * Z :=
  match w_files w path, free_fd w with
  | Some reads, Some fd => (set_fds (<[fd := reads]> (w_fds w)) w, fd)
  | _, _ => (w, -1)
  end.
Definition sys_close (fd : Z) (w : world) : world * Z := (set_fds (delete fd (w_fds w)) w, 0).

(** The calls that do not read, write, open or close fail. *)
Definition os {A} (e : sysE A) : world -> itree (haltE world) (world * A) := fun w =>
  match e in sysE A return itree (haltE world) (world * A) with
  | Exit => halt w
  | Write fd bs => Ret (sys_write fd bs w)
  | Read fd _ => Ret (sys_read fd w)
  | Close fd => Ret (sys_close fd w)
  | Open path _ => Ret (sys_open path w)
  | Fstat _ => Ret (w, (-1, mk_ustat 0 0 0))
  | MkPipe => Ret (w, (-1, (0, 0)))
  | Fork | Wait | Kill _ | ExecProg _ _ | Mknod _ _ _ | Unlink _ | Link _ _ | Mkdir _ | Chdir _ | Dup _ | Getpid
  | Sbrk _ | Sleep _ | Uptime => Ret (w, -1)
  end.

#[global] Instance world_os : OS sysE world := @os.
#[global] Instance world_exits : Exits world Exit := fun w => eq_refl.

(** ** Running *)
Lemma add_out_nil w : add_out [] w = w.
Proof. unfold add_out. rewrite app_nil_r. by destruct w. Qed.
Lemma add_out_app a b w : add_out b (add_out a w) = add_out (a ++ b) w.
Proof. unfold add_out. cbn. by rewrite app_assoc. Qed.

Lemma put_bytes_ok bs w : run (put_bytes 1 bs) w ≈ Ret (add_out bs w, tt).
Proof.
  revert w. induction bs as [|b bs IH]; intros w; cbn [put_bytes]; [rewrite run_ret, add_out_nil; reflexivity|].
  erewrite run_bind; [|eapply run_call_; reflexivity]. rewrite IH, add_out_app. reflexivity.
Qed.
Lemma uprintf_ok fmt ap w : run (uprintf 1 fmt ap) w ≈ Ret (add_out (printf fmt ap) w, tt).
Proof. apply put_bytes_ok. Qed.

(** ** [cat] *)

(** A read delivers at least one byte before the end of the file. *)
Definition reads_ok (reads : list (list Z)) : Prop := Forall (fun bs => bs <> []) reads.

Lemma fds_add_out bs w : w_fds (add_out bs w) = w_fds w.
Proof. done. Qed.

Lemma read_more fd bs reads w : w_fds w !! fd = Some (bs :: reads) ->
  sys_read fd w = (set_fds (<[fd := reads]> (w_fds w)) w, (Z.of_nat (length bs), bs)).
Proof. intros Hf. unfold sys_read. by rewrite Hf. Qed.
Lemma read_end fd w : w_fds w !! fd = Some [] -> sys_read fd w = (w, (0, [])).
Proof. intros Hf. unfold sys_read. by rewrite Hf. Qed.
Lemma length_pos (bs : list Z) : bs <> [] -> 0 <? Z.of_nat (length bs) = true.
Proof. intros Hb. apply Z.ltb_lt. destruct bs; [done|]. simpl. lia. Qed.

Lemma cat_body_more fd bs reads w : w_fds w !! fd = Some (bs :: reads) -> bs <> [] ->
  run (cat_body fd tt) w ≈ Ret (add_out bs (set_fds (<[fd := reads]> (w_fds w)) w), inl tt).
Proof.
  intros Hf Hb. unfold cat_body. erewrite run_bind; [|apply run_call; cbn; by rewrite (read_more _ _ _ _ Hf)].
  cbv beta iota. rewrite length_pos by done. erewrite run_bind; [|by apply run_call]. cbv beta iota.
  rewrite Z.eqb_refl. apply run_ret.
Qed.
Lemma cat_body_end fd w : w_fds w !! fd = Some [] -> run (cat_body fd tt) w ≈ Ret (w, inr 0).
Proof.
  intros Hf. unfold cat_body. erewrite run_bind; [|apply run_call; cbn; by rewrite (read_end _ _ Hf)]. apply run_ret.
Qed.

Lemma cat_loop_ok fd reads w : w_fds w !! fd = Some reads -> reads_ok reads ->
  run (ITree.iter (cat_body fd) tt) w ≈ Ret (set_fds (<[fd := []]> (w_fds w)) (add_out (mjoin reads) w), 0).
Proof.
  revert w. induction reads as [|bs reads IH]; intros w Hf Hok; rewrite run_iter.
  - erewrite run_bind; [|by apply cat_body_end]. cbv iota. rewrite run_ret.
    change (mjoin []) with ([] : list Z). rewrite add_out_nil, insert_id by done. by destruct w.
  - inversion Hok as [|? ? Hbs Hok']; subst. erewrite run_bind; [|by eapply cat_body_more]. cbv iota.
    rewrite IH; [|apply lookup_insert_eq|done]. unfold add_out, set_fds. cbn.
    rewrite insert_insert_eq, <- app_assoc. reflexivity.
Qed.

Lemma cat_ok fd reads w : w_fds w !! fd = Some reads -> reads_ok reads ->
  run (cat fd) w ≈ Ret (set_fds (<[fd := []]> (w_fds w)) (add_out (mjoin reads) w), tt).
Proof.
  intros Hf Hok. unfold cat. erewrite run_bind; [|by apply cat_loop_ok]. cbn. apply run_ret.
Qed.

Lemma free_fd_fresh w fd : free_fd w = Some fd -> w_fds w !! fd = None /\ 3 <= fd.
Proof.
  unfold free_fd. intros Hf. destruct (list_find _ _) as [[i x]|] eqn:E; [|done]. injection Hf as <-.
  apply list_find_Some in E as (E1 & E2 & _). split; [done|]. apply list_elem_of_lookup_2, elem_of_seqZ in E1. cbn. lia.
Qed.

(** One file of a program that opens it, works on it and closes it. *)
Lemma file_ok (body : Z -> prog unit) path w fd reads out :
  w_files w path = Some reads -> free_fd w = Some fd ->
  (forall w1, w_fds w1 !! fd = Some reads -> run (body fd) w1 ≈ Ret (set_fds (<[fd := []]> (w_fds w1)) (add_out out w1), tt)) ->
  forall err, run (fd ← call (Open path 0); if fd <? 0 then err else body fd;; call_ (Close fd)) w ≈ Ret (add_out out w, tt).
Proof.
  intros Hp Hf Hb err. destruct (free_fd_fresh _ _ Hf) as [Hn H3].
  erewrite run_bind; [|apply run_call; cbn; unfold sys_open; rewrite Hp, Hf; reflexivity]. cbv beta.
  rewrite (proj2 (Z.ltb_ge fd 0)) by lia. erewrite run_bind; [|apply Hb; cbn; apply lookup_insert_eq].
  rewrite run_call_ by reflexivity. unfold set_fds, add_out. cbn.
  rewrite delete_insert_eq, delete_insert_eq, delete_id by done. reflexivity.
Qed.

(** What a program writes that works on its arguments in turn and stops at the first that it
    cannot open. *)
Fixpoint outputs (some : list Z -> list (list Z) -> list Z) (none : list Z -> list Z)
    (files : list Z -> option (list (list Z))) (args : list (list Z)) : list Z :=
  match args with
  | [] => []
  | a :: args' =>
      match files a with
      | Some reads => some a reads ++ outputs some none files args'
      | None => none a
      end
  end.

Section ForArgs.
Context (body : list Z -> prog unit) (some : list Z -> list (list Z) -> list Z) (none : list Z -> list Z).
Context (files : list Z -> option (list (list Z))) (fds : gmap Z (list (list Z))).
Let here (w : world) : Prop := w_files w = files /\ w_fds w = fds.
Context (Hsome : forall w a reads, here w -> files a = Some reads -> run (body a) w ≈ Ret (add_out (some a reads) w, tt)).
Context (Hnone : forall w a, here w -> files a = None -> run (body a) w ≈ halt (add_out (none a) w)).

Lemma for_args_ok args w : here w ->
  run (for_args body args) w ≈ Ret (add_out (outputs some none files args) w, tt) \/
  run (for_args body args) w ≈ halt (add_out (outputs some none files args) w).
Proof using Hsome Hnone.
  revert w. induction args as [|a args IH]; intros w Hw; cbn [for_args outputs].
  { left. rewrite run_ret, add_out_nil. reflexivity. }
  destruct (files a) as [reads|] eqn:E; [|right; by apply run_bind_halt, Hnone].
  destruct (IH (add_out (some a reads) w) Hw) as [H1|H1]; rewrite add_out_app in H1; [left|right].
  - by erewrite run_bind; [|by apply Hsome].
  - by erewrite run_bind; [|by apply Hsome].
Qed.

Lemma for_args_exit args w : here w ->
  run (for_args body args;; exit) w ≈ halt (A := world * unit) (add_out (outputs some none files args) w).
Proof using Hsome Hnone.
  intros Hw. destruct (for_args_ok args w Hw) as [E|E]; [|by apply run_bind_halt].
  rewrite (run_bind _ _ _ _ _ E). apply run_exit.
Qed.
End ForArgs.

(** A program that cannot open a file says so and exits. *)
Lemma file_missing (body : Z -> prog unit) path w msg : w_files w path = None ->
  run (fd ← call (Open path 0); if fd <? 0 then uprintf 1 msg [str path];; exit else body fd) w ≈
    halt (add_out (printf msg [str path]) w).
Proof.
  intros Hp. erewrite run_bind; [|apply run_call; cbn; unfold sys_open; rewrite Hp; reflexivity]. cbv beta.
  change (-1 <? 0) with true. cbv iota. erewrite run_bind; [|apply uprintf_ok]. apply run_exit.
Qed.

Definition files_ok (w : world) : Prop := (forall a reads, w_files w a = Some reads -> reads_ok reads) /\ is_Some (free_fd w).

(** C33: [cat] writes the contents of its arguments, one after the other, however the reads
    deliver them; at the first argument that cannot be opened it says so and stops.  Without
    arguments it copies its standard input.  It always exits. *)
Theorem cat_copies args w : files_ok w ->
  (args <> [] -> run (cat_main args) w ≈
     halt (add_out (outputs (fun _ => mjoin) (fun a => printf (line "cat: cannot open %s") [str a]) (w_files w) args) w)) /\
  (forall reads, args = [] -> w_fds w !! 0 = Some reads -> reads_ok reads ->
     run (cat_main args) w ≈ halt (set_fds (<[0 := []]> (w_fds w)) (add_out (mjoin reads) w))).
Proof.
  intros [Hok [fd Hfd]]. split.
  - intros Hne. destruct args as [|a args]; [done|]. apply (for_args_exit _ _ _ (w_files w) (w_fds w)); [| |done].
    + intros w1 b reads [E1 E2] Hb. unfold cat_file. apply (file_ok cat b w1 fd reads).
      * by rewrite E1.
      * unfold free_fd in *. by rewrite E2.
      * intros w2 H2. apply cat_ok; [done|]. by apply (Hok b).
    + intros w1 b [E1 _] Hb. apply file_missing. by rewrite E1.
  - intros reads -> H0 Hr. unfold cat_main. erewrite run_bind; [|by apply cat_ok]. apply run_exit.
Qed.

(** ** [wc] *)

(** The pieces between white space; the words are those that are not empty. *)
Fixpoint pieces (s : list Z) : list (list Z) :=
  match s with
  | [] => [[]]
  | b :: s' =>
      if is_space b then [] :: pieces s'
      else match pieces s' with p :: ps => (b :: p) :: ps | [] => [[b]] end
  end.
Definition words (s : list Z) : list (list Z) := filter (fun p => p <> []) (pieces s).
Definition newlines (s : list Z) : Z := Z.of_nat (length (filter (fun b => b = 10) s)).

(** The words that begin in [s], which follows a word or not. *)
Definition new_words (inword : bool) (s : list Z) : Z :=
  Z.of_nat (length (filter (fun p => p <> []) (if inword then tail (pieces s) else pieces s))).

Lemma pieces_cons s : exists p ps, pieces s = p :: ps.
Proof. destruct s as [|b s]; cbn; [by eexists _, _|]. destruct (is_space b); [by eexists _, _|]. destruct (pieces s); by eexists _, _. Qed.

Lemma new_words_cons inword b s : new_words inword (b :: s) =
  (if is_space b then new_words false s else (if inword then 0 else 1) + new_words true s).
Proof.
  unfold new_words. cbn [pieces]. destruct (pieces_cons s) as (p & ps & ->). destruct (is_space b).
  - destruct inword; [done|]. by rewrite filter_cons_False by naive_solver.
  - destruct inword; [cbn; lia|]. rewrite filter_cons_True by done. cbn [length tail]. lia.
Qed.
Lemma newlines_cons b s : newlines (b :: s) = (if b =? 10 then 1 else 0) + newlines s.
Proof.
  unfold newlines. destruct (Z.eqb_spec b 10); [rewrite filter_cons_True by done; cbn [length]; lia|by rewrite filter_cons_False].
Qed.

Lemma wc_chars_ok s l w c inword :
  0 <= l -> 0 <= w -> 0 <= c -> l + Z.of_nat (length s) < 2 ^ 31 -> w + Z.of_nat (length s) < 2 ^ 31 -> c + Z.of_nat (length s) < 2 ^ 31 ->
  exists inword', foldl wc_char (mk_counts l w c inword) s =
    mk_counts (l + newlines s) (w + new_words inword s) (c + Z.of_nat (length s)) inword'.
Proof.
  revert l w c inword. induction s as [|b s IH]; intros l w c inword Hl Hw Hc HL HW HC.
  { exists inword. assert (E : new_words inword [] = 0) by (by destruct inword). cbn [foldl]. rewrite E.
    change (newlines []) with 0. change (length []) with 0%nat. f_equal; lia. }
  cbn [length foldl] in *. rewrite newlines_cons, new_words_cons. unfold wc_char at 2. cbn [c_l c_w c_c c_inword].
  rewrite !(i32_small (c + 1)) by lia.
  destruct (Z.eqb_spec b 10) as [->|Hb]; cbn [c_l c_w c_c c_inword].
  - change (is_space 10) with true. cbv iota. rewrite i32_small by lia. destruct (IH (l + 1) w (c + 1) false) as [i ->]; [lia..|].
    exists i. f_equal; lia.
  - destruct (is_space b); cbn [c_l c_w c_c c_inword].
    + destruct (IH l w (c + 1) false) as [i ->]; [lia..|]. exists i. f_equal; lia.
    + destruct inword; cbn [negb].
      * destruct (IH l w (c + 1) true) as [i ->]; [lia..|]. exists i. f_equal; lia.
      * rewrite i32_small by lia. destruct (IH l (w + 1) (c + 1) true) as [i ->]; [lia..|]. exists i. f_equal; lia.
Qed.

Lemma wc_loop_ok fd reads x w : w_fds w !! fd = Some reads -> reads_ok reads ->
  run (ITree.iter (wc_body fd) x) w ≈ Ret (set_fds (<[fd := []]> (w_fds w)) w, (0, foldl wc_char x (mjoin reads))).
Proof.
  revert x w. induction reads as [|bs reads IH]; intros x w Hf Hok; rewrite run_iter.
  - erewrite run_bind; [|unfold wc_body; erewrite run_bind; [|apply run_call; cbn; by rewrite (read_end _ _ Hf)]; apply run_ret].
    cbv iota. rewrite run_ret, insert_id by done. by destruct w.
  - inversion Hok as [|? ? Hbs Hok']; subst.
    assert (E : run (wc_body fd x) w ≈ Ret (set_fds (<[fd := reads]> (w_fds w)) w, inl (foldl wc_char x bs))).
    { unfold wc_body. erewrite run_bind; [|apply run_call; cbn; by rewrite (read_more _ _ _ _ Hf)].
      cbv beta iota. rewrite length_pos by done. apply run_ret. }
    erewrite run_bind; [|exact E]. cbv iota. rewrite IH; [|apply lookup_insert_eq|done].
    change (mjoin (bs :: reads)) with (bs ++ mjoin reads). rewrite foldl_app. unfold set_fds. cbn. by rewrite insert_insert_eq.
Qed.

(** The line that [wc] writes for a file. *)
Definition wc_line (name : list Z) (reads : list (list Z)) : list Z :=
  let s := mjoin reads in
  printf (line "%d %d %d %s") [VInt (newlines s); VInt (Z.of_nat (length (words s))); VInt (Z.of_nat (length s)); str name].

Lemma wc_ok fd name reads w : w_fds w !! fd = Some reads -> reads_ok reads -> Z.of_nat (length (mjoin reads)) < 2 ^ 31 ->
  run (wc fd name) w ≈ Ret (set_fds (<[fd := []]> (w_fds w)) (add_out (wc_line name reads) w), tt).
Proof.
  intros Hf Hok Hl. unfold wc. erewrite run_bind; [|by apply wc_loop_ok].
  destruct (wc_chars_ok (mjoin reads) 0 0 0 false) as [i ->]; [lia..|]. cbv beta iota. change (0 <? 0) with false. cbv iota.
  rewrite uprintf_ok. unfold wc_line, words. cbn [c_l c_w c_c]. rewrite !Z.add_0_l. reflexivity.
Qed.

(** C34: [wc] prints, for each of its arguments, the number of newlines, of words (maximal
    runs of bytes other than white space) and of bytes, however the reads cut the file; at
    the first argument that cannot be opened it says so and stops.  It always exits. *)
Theorem wc_counts args w : files_ok w -> args <> [] ->
  (forall a reads, w_files w a = Some reads -> Z.of_nat (length (mjoin reads)) < 2 ^ 31) ->
  run (wc_main args) w ≈
    halt (add_out (outputs wc_line (fun a => printf (line "wc: cannot open %s") [str a]) (w_files w) args) w).
Proof.
  intros [Hok [fd Hfd]] Hne Hsz. destruct args as [|a args]; [done|].
  apply (for_args_exit _ _ _ (w_files w) (w_fds w)); [| |done].
  - intros w1 b reads [E1 E2] Hb. unfold wc_file. apply (file_ok (fun fd => wc fd b) b w1 fd reads).
    + by rewrite E1.
    + unfold free_fd in *. by rewrite E2.
    + intros w2 H2. apply wc_ok; [done|by apply (Hok b)|by apply (Hsz b)].
  - intros w1 b [E1 _] Hb. apply (file_missing (fun fd => wc fd b;; call_ (Close fd))). by rewrite E1.
Qed.

(** A file [a], delivered in two reads, and no other. *)
Definition demo_world : world :=
  mk_world (fun a => if decide (a = bytes_of "a") then Some [[104; 105; 32]; [120; 10]] else None) {[0 := []]} [] [].

Lemma demo_files_ok : files_ok demo_world.
Proof.
  split; [|by exists 3]. intros a reads. cbn. case_decide; [|done]. intros [= <-]. by repeat constructor.
Qed.

Lemma cat_copies_witness :
  run (cat_main [bytes_of "a"; bytes_of "a"]) demo_world ≈ halt (add_out [104; 105; 32; 120; 10; 104; 105; 32; 120; 10] demo_world).
Proof.
  destruct (cat_copies [bytes_of "a"; bytes_of "a"] demo_world demo_files_ok) as [E _]. exact (E ltac:(discriminate)).
Defined.

Lemma wc_counts_witness : run (wc_main [bytes_of "a"]) demo_world ≈ halt (add_out (line "1 2 5 a") demo_world).
Proof.
  apply (wc_counts [bytes_of "a"] demo_world demo_files_ok).
  - discriminate.
  - intros a reads. cbn. case_decide; [|discriminate]. intros [= <-]. reflexivity.
Defined.
