(* ===== verification/Utest.v ===== *)
(** Further user programs as interaction trees: [src/forktest.c], [src/stressfs.c] and
    [main] of [src/grep.c]; and what [forktest] prints on a kernel with a limited number of
    processes. *)
From Stdlib Require Import ZArith Lia.
From stdpp Require Import base gmap sets strings numbers list.
From ITree Require Import ITree ITreeFacts Events.State Events.StateFacts.
From S2P Require Import Prelude State Ulib Console Dir Printf Grep Uprog Urun.

Local Open Scope Z_scope.

(** ** [src/forktest.c] *)

(** Its own [printf]: one [write], no formats. *)
Definition fprint (fd : Z) (s : list Z) : prog unit := call_ (Write fd s).

(** The first [for], with [k] rounds to go. *)
Fixpoint fork_loop (k : nat) (n : Z) : prog Z :=
  match k with
  | O => mret n
  | S k' =>
      pid ← call Fork;
      if pid <? 0 then mret n
      else if pid =? 0 then exit
      else fork_loop k' (n + 1)
  end.
(** The second, with [n] rounds to go. *)
Fixpoint wait_loop (n : nat) : prog unit :=
  match n with
  | O => mret tt
  | S n' =>
      r ← call Wait;
      if r <? 0 then fprint 1 (line "wait stopped early");; exit else wait_loop n'
  end.
Definition forktest : prog unit :=
  fprint 1 (line "fork test");;
  n ← fork_loop 1000 0;
  if n =? 1000 then fprint 1 (line "fork claimed to work N times!");; exit else
  wait_loop (Z.to_nat n);;
  r ← call Wait;
  if negb (r =? -1) then fprint 1 (line "wait got too many");; exit else
  fprint 1 (line "fork test OK").
Definition forktest_main : prog unit := forktest;; exit.

(** ** [src/stressfs.c] *)
Fixpoint stress_forks (k : nat) (i : Z) : prog Z :=
  match k with
  | O => mret i
  | S k' => pid ← call Fork; if 0 <? pid then mret i else stress_forks k' (i + 1)
  end.
Fixpoint times (n : nat) (p : prog unit) : prog unit :=
  match n with
  | O => mret tt
  | S n' => p;; times n' p
  end.
(** [path[8] += i] *)
Definition stress_path (i : Z) : list Z := alter (fun c => u8 (c + i)) 8%nat (bytes_of "stressfs0").
Definition stressfs_main : prog unit :=
  uprintf 1 (line "stressfs starting") [];;
  let data := replicate 512 (chr "a") in
  i ← stress_forks 4 0;
  uprintf 1 (line "write %d") [VInt i];;
  let path := stress_path i in
  fd ← call (Open path (Z.lor 512 2));
  times 20 (call_ (Write fd data));;
  call_ (Close fd);;
  uprintf 1 (line "read") [];;
  fd ← call (Open path 0);
  times 20 (call_ (Read fd 512));;
  call_ (Close fd);;
  call_ Wait;;
  exit.

(** ** [src/grep.c]

    [grep] as its system calls; the buffer is the list of the bytes in use, as in [Grep.v],
    whose matcher decides on each line. *)
Fixpoint ugrep_lines (fuel : nat) (pattern p : list Z) : prog (list Z) :=
  match fuel with
  | O => mret p
  | S fuel' =>
      match strchr_nl p with
      | None => mret p
      | Some (l, r) =>
          (if match_ pattern l then call_ (Write 1 (l ++ [c_nl])) else mret tt);;
          ugrep_lines fuel' pattern r
      end
  end.
Definition ugrep_body (pattern : list Z) (fd : Z) (buf : list Z) : prog (list Z + unit) :=
  '(n, bs) ← call (Read fd (Z.of_nat (buf_data - length buf)));
  if 0 <? n then
    let data := buf ++ bs in
    p ← ugrep_lines (length data) pattern data;
    mret (inl (if (length p =? length data)%nat then [] else p))
  else mret (inr tt).
Definition ugrep (pattern : list Z) (fd : Z) : prog unit := ITree.iter (ugrep_body pattern fd) [].

Definition grep_file (pattern path : list Z) : prog unit :=
  fd ← call (Open path 0);
  if fd <? 0 then uprintf 1 (line "grep: cannot open %s") [str path];; exit else
  ugrep pattern fd;;
  call_ (Close fd).
Definition grep_main (args : list (list Z)) : prog unit :=
  match args with
  | [] => uprintf 2 (line "usage: grep pattern [file ...]") [];; exit
  | [pattern] => ugrep pattern 0;; exit
  | pattern :: files => for_args (grep_file pattern) files;; exit
  end.

(** ** [forktest] on a table of processes *)

(** The slots that are free, the children that [wait] has not seen, the next number, the
    output.  A child of [forktest] exits at once, so that [wait] never sleeps. *)
Record procs : Type := mk_procs { ps_free : nat; ps_kids : list Z; ps_next : Z; ps_out : list Z }.

Definition procs_call {A} (e : sysE A) : procs -> itree (haltE procs) (procs * A) := fun w =>
  match e in sysE A return itree (haltE procs) (procs * A) with
  | Exit => halt w
  | Fork =>
      match ps_free w with
      | O => Ret (w, -1)
      | S f => Ret (mk_procs f (ps_kids w ++ [ps_next w]) (ps_next w + 1) (ps_out w), ps_next w)
      end
  | Wait =>
      match ps_kids w with
      | [] => Ret (w, -1)
      | pid :: kids => Ret (mk_procs (S (ps_free w)) kids (ps_next w) (ps_out w), pid)
      end
  | Write _ bs => Ret (mk_procs (ps_free w) (ps_kids w) (ps_next w) (ps_out w ++ bs), Z.of_nat (length bs))
  | Read _ _ => Ret (w, (-1, []))
  | Fstat _ => Ret (w, (-1, mk_ustat 0 0 0))
  | MkPipe => Ret (w, (-1, (0, 0)))
  | Close _ | Open _ _ | Kill _ | ExecProg _ _ | Mknod _ _ _ | Unlink _ | Link _ _ | Mkdir _ | Chdir _ | Dup _ | Getpid
  | Sbrk _ | Sleep _ | Uptime => Ret (w, -1)
  end.
#[global] Instance procs_os : OS sysE procs := @procs_call.
#[global] Instance procs_exits : Exits procs Exit := fun w => eq_refl.

Lemma fprint_ok bs f kids nx out :
  run (fprint 1 bs) (mk_procs f kids nx out) ≈ Ret (mk_procs f kids nx (out ++ bs), tt).
Proof. by eapply run_call_. Qed.

(** The forks succeed until the slots are used up. *)
Lemma fork_loop_ok k f kids nx out n : 0 < nx -> 0 <= n ->
  run (fork_loop k n) (mk_procs f kids nx out) ≈
    Ret (mk_procs (f - Nat.min k f) (kids ++ seqZ nx (Z.of_nat (Nat.min k f))) (nx + Z.of_nat (Nat.min k f)) out,
         n + Z.of_nat (Nat.min k f)).
Proof.
  revert f kids nx n. induction k as [|k IH]; intros f kids nx n Hnx Hn; cbn [fork_loop].
  - cbn. rewrite app_nil_r, Nat.sub_0_r, !Z.add_0_r. apply run_ret.
  - destruct f as [|f].
    + erewrite run_bind; [|by apply run_call]. cbn. rewrite app_nil_r, !Z.add_0_r. apply run_ret.
    + erewrite run_bind; [|by apply run_call]. cbn beta. cbn [ps_next ps_kids ps_free ps_out].
      rewrite (proj2 (Z.ltb_ge _ _)), (proj2 (Z.eqb_neq _ _)) by lia. rewrite IH by lia.
      cbn [Nat.min Nat.sub]. rewrite <- app_assoc.
      replace (seqZ nx (Z.of_nat (S (Nat.min k f)))) with ([nx] ++ seqZ (nx + 1) (Z.of_nat (Nat.min k f)))
        by (rewrite (seqZ_cons nx) by lia; cbn; do 2 f_equal; lia).
      replace (nx + 1 + Z.of_nat (Nat.min k f)) with (nx + Z.of_nat (S (Nat.min k f))) by lia.
      replace (n + 1 + Z.of_nat (Nat.min k f)) with (n + Z.of_nat (S (Nat.min k f))) by lia. reflexivity.
Qed.

Lemma wait_loop_ok kids f nx out : Forall (fun pid => 0 < pid) kids ->
  run (wait_loop (length kids)) (mk_procs f kids nx out) ≈ Ret (mk_procs (f + length kids) [] nx out, tt).
Proof.
  intros Hk. revert f. induction Hk as [|pid kids Hp _ IH]; intros f; cbn [length wait_loop].
  - rewrite Nat.add_0_r. apply run_ret.
  - erewrite run_bind; [|by apply run_call]. cbn beta. cbn [ps_next ps_kids ps_free ps_out].
    rewrite (proj2 (Z.ltb_ge _ _)) by lia. rewrite IH. by rewrite Nat.add_succ_r.
Qed.

(** [forktest] passes on a kernel with fewer than 1000 free slots: it fills the table, reaps
    every child, finds no more, and leaves the table as it was.  With 1000 slots or more it
    reports that [fork] never failed. *)
Theorem forktest_passes f nx : 0 < nx ->
  run forktest_main (mk_procs f [] nx []) ≈
    if decide (f < 1000)%nat then halt (mk_procs f [] (nx + Z.of_nat f) (line "fork test" ++ line "fork test OK"))
    else halt (mk_procs (f - 1000) (seqZ nx 1000) (nx + 1000) (line "fork test" ++ line "fork claimed to work N times!")).
Proof.
  intros Hnx. unfold forktest_main, forktest.
  destruct (decide (f < 1000)%nat) as [Hf|Hf].
  - erewrite run_bind; [apply run_exit|]. erewrite run_bind; [|apply fprint_ok].
    erewrite run_bind; [|by apply fork_loop_ok]. rewrite Nat.min_r, Nat.sub_diag by lia. rewrite !Z.add_0_l.
    rewrite (proj2 (Z.eqb_neq _ _)) by lia. rewrite Nat2Z.id. set (kids := seqZ nx (Z.of_nat f)).
    assert (Hl : length kids = f) by (unfold kids; rewrite length_seqZ; lia).
    pose proof (wait_loop_ok kids 0 (nx + Z.of_nat f) (line "fork test")) as Ew. rewrite Hl in Ew.
    erewrite run_bind; [|apply Ew, Forall_forall; intros x Hx; apply elem_of_seqZ in Hx; lia].
    erewrite run_bind; [|by apply run_call]. cbn [negb Z.eqb]. apply fprint_ok.
  - erewrite run_bind_halt; [reflexivity|]. erewrite run_bind; [|apply fprint_ok].
    erewrite run_bind; [|by apply fork_loop_ok]. rewrite Nat.min_l by lia. cbn [Z.eqb].
    change (0 + Z.of_nat 1000 =? 1000) with true. cbv iota. erewrite run_bind; [|apply fprint_ok]. apply run_exit.
Qed.
