(* ===== verification/Usertests.v ===== *)
(** The system test program, [src/usertests.c], as interaction trees.

    Besides system calls the tests read and write their own memory at addresses, use the
    allocator and try instructions that user code should not execute; these are events of
    their own.  The global buffer [buf] is passed through the tests that use it: [read]
    overwrites its start with the bytes that it delivers and leaves the rest.  [failexit] and
    [exit] do not return. *)
From Stdlib Require Import ZArith Lia.
From stdpp Require Import base gmap sets strings numbers list.
From ITree Require Import ITree.
From S2P Require Import Prelude State Ulib Fs Console Dir Printf Uprog.

Local Open Scope Z_scope.

(** [LinkPtr] and [ReadPtr] are [link] and [read] with an address in place of a buffer of the
    program. *)
Inductive userE : Type -> Type :=
| Sys {A} (e : sysE A) : userE A
| LinkPtr (old : list Z) (p : Z) : userE Z
| ReadPtr (fd p n : Z) : userE Z
| LoadPtr (p : Z) : userE Z
| StorePtr (p v : Z) : userE unit
| LoadByte (p : Z) : userE Z
| StoreByte (p v : Z) : userE unit
| Malloc (n : Z) : userE Z
| Free (p : Z) : userE unit
| PortIn (port : Z) : userE Z
| PortOut (port v : Z) : userE unit.

Notation tprog := (itree userE).

Definition ev {A} (e : userE A) : tprog A := ITree.trigger e.
Definition sys {A} (e : sysE A) : tprog A := ev (Sys e).
Definition sys_ {A} (e : sysE A) : tprog unit := sys e;; mret tt.
Definition quit {A} : tprog A := v ← sys Exit; match v : Empty_set with end.

(** [printf], one [write] per byte. *)
Fixpoint tput (fd : Z) (bs : list Z) : tprog unit :=
  match bs with
  | [] => mret tt
  | b :: bs' => sys_ (Write fd [b]);; tput fd bs'
  end.
Definition say (fmt : list Z) (ap : list va) : tprog unit := tput 1 (printf fmt ap).

Definition failexit {A} (msg : string) : tprog A :=
  say (line "!! FAILED %s") [str (bytes_of msg)];; quit.
Definition fail_if (b : bool) (msg : string) : tprog unit := if b then failexit msg else mret tt.

(** Calls on path names, and the two messages around a test. *)
Definition tpath (s : string) : list Z := bytes_of s.
Definition open_ (path : list Z) (mode : Z) : tprog Z := sys (Open path mode).
Definition close_ (fd : Z) : tprog unit := sys_ (Close fd).
Definition sayln (s : string) : tprog unit := say (line s) [].

(** [for(i = first; ...; i += step)] with [k] rounds. *)
Fixpoint for_ (k : nat) (i step : Z) (body : Z -> tprog unit) : tprog unit :=
  match k with
  | O => mret tt
  | S k' => body i;; for_ k' (i + step) step body
  end.
Definition upto (n : nat) (body : Z -> tprog unit) : tprog unit := for_ n 0 1 body.

(** [buf] after a [read] that delivered [bs], and after [memset(buf, c, n)]. *)
Definition filled_buf (buf bs : list Z) : list Z := bs ++ drop (length bs) buf.
Definition memset_buf (buf : list Z) (c : Z) (n : nat) : list Z := replicate n (u8 c) ++ drop n buf.
(** [read(fd, buf, n)] *)
Definition read_buf (fd n : Z) (buf : list Z) : tprog (Z * list Z) :=
  '(r, bs) ← sys (Read fd n);
  mret (r, filled_buf buf bs).
Definition byte_at (buf : list Z) (i : nat) : Z := nth i buf 0.

Definition CREATE_RDWR : Z := Z.lor O_CREATE O_RDWR.

(** ** Inodes that are freed late *)
Definition iputtest : tprog unit :=
  sayln "iput test";;
  r ← sys (Mkdir (tpath "iputdir")); fail_if (r <? 0) "mkdir";;
  r ← sys (Chdir (tpath "iputdir")); fail_if (r <? 0) "chdir iputdir";;
  r ← sys (Unlink (tpath "../iputdir")); fail_if (r <? 0) "unlink ../iputdir";;
  r ← sys (Chdir (tpath "/")); fail_if (r <? 0) "chdir /";;
  sayln "iput test ok".

Definition exitiputtest : tprog unit :=
  sayln "exitiput test";;
  pid ← sys Fork; fail_if (pid <? 0) "fork";;
  (if pid =? 0 then
     r ← sys (Mkdir (tpath "iputdir")); fail_if (r <? 0) "mkdir";;
     r ← sys (Chdir (tpath "iputdir")); fail_if (r <? 0) "child chdir";;
     r ← sys (Unlink (tpath "../iputdir")); fail_if (r <? 0) "unlink ../iputdir";;
     quit
   else mret tt);;
  sys_ Wait;;
  sayln "exitiput test ok".

Definition openiputtest : tprog unit :=
  sayln "openiput test";;
  r ← sys (Mkdir (tpath "oidir")); fail_if (r <? 0) "mkdir oidir";;
  pid ← sys Fork; fail_if (pid <? 0) "fork";;
  (if pid =? 0 then
     fd ← open_ (tpath "oidir") O_RDWR;
     fail_if (0 <=? fd) "open directory for write succeeded";;
     quit
   else mret tt);;
  sys_ (Sleep 1);;
  r ← sys (Unlink (tpath "oidir")); fail_if (negb (r =? 0)) "unlink";;
  sys_ Wait;;
  sayln "openiput test ok".

(** ** Simple file system tests *)
Definition opentest : tprog unit :=
  sayln "open test";;
  fd ← open_ (tpath "echo") 0; fail_if (fd <? 0) "open echo";;
  close_ fd;;
  fd ← open_ (tpath "doesnotexist") 0; fail_if (0 <=? fd) "open doesnotexist succeeded!";;
  sayln "open test ok".

(** One [write] of the loop of [writetest]. *)
Definition write_ten (fd i : Z) (c : list Z) (msg : string) : tprog unit :=
  w ← sys (Write fd c);
  if negb (w =? 10) then say (line msg) [VInt i];; quit else mret tt.
Definition writetest (buf : list Z) : tprog (list Z) :=
  sayln "small file test";;
  fd ← open_ (tpath "small") CREATE_RDWR; fail_if (fd <? 0) "error: creat small";;
  upto 100 (fun i =>
    write_ten fd i (bytes_of "aaaaaaaaaa") "error: write aa %d new file failed";;
    write_ten fd i (bytes_of "bbbbbbbbbb") "error: write bb %d new file failed");;
  close_ fd;;
  fd ← open_ (tpath "small") O_RDONLY; fail_if (fd <? 0) "error: open small";;
  '(i, buf) ← read_buf fd 2000 buf;
  fail_if (negb (i =? 2000)) "read";;
  close_ fd;;
  r ← sys (Unlink (tpath "small")); fail_if (r <? 0) "unlink small";;
  sayln "small file test ok";;
  mret buf.

(** The first [int] of [buf]. *)
Definition set_int (buf : list Z) (v : Z) : list Z := le_bytes 4 v ++ drop 4 buf.
Definition get_int (buf : list Z) : Z := i32 (le_val (take 4 buf)).

(** The writing loop of [writetest1]; [buf] ends with the last number in it. *)
Fixpoint write_blocks (k : nat) (i fd : Z) (buf : list Z) : tprog (list Z) :=
  match k with
  | O => mret buf
  | S k' =>
      let buf := set_int buf i in
      w ← sys (Write fd (take 512 buf));
      fail_if (negb (w =? 512)) "error: write big file";;
      write_blocks k' (i + 1) fd buf
  end.
Definition check_block (fd : Z) (nb : Z * list Z) : tprog (Z * list Z + list Z) :=
  let '(n, buf) := nb in
  '(i, buf) ← read_buf fd 512 buf;
  if i =? 0 then
    if n =? MAXFILE - 1 then say (bytes_of "read only %d blocks from big. failed") [VInt n];; quit
    else mret (inr buf)
  else if negb (i =? 512) then say (line "read failed %d") [VInt i];; quit
  else if negb (get_int buf =? n) then
    say (line "read content of block %d is %d. failed") [VInt n; VInt (get_int buf)];; quit
  else mret (inl (n + 1, buf)).
Definition writetest1 (buf : list Z) : tprog (list Z) :=
  sayln "big files test";;
  fd ← open_ (tpath "big") CREATE_RDWR; fail_if (fd <? 0) "error: creat big";;
  buf ← write_blocks (Z.to_nat MAXFILE) 0 fd buf;
  close_ fd;;
  fd ← open_ (tpath "big") O_RDONLY; fail_if (fd <? 0) "error: open big";;
  buf ← ITree.iter (check_block fd) (0, buf);
  close_ fd;;
  r ← sys (Unlink (tpath "big")); fail_if (r <? 0) "unlink big";;
  sayln "big files ok";;
  mret buf.

(** A name of a letter and a digit from '0' on. *)
Definition name2 (c i : Z) : list Z := [u8 c; u8 (chr "0" + i)].

Definition createtest : tprog unit :=
  sayln "many creates, followed by unlink test";;
  upto 52 (fun i => fd ← open_ (name2 (chr "a") i) CREATE_RDWR; close_ fd);;
  upto 52 (fun i => sys_ (Unlink (name2 (chr "a") i)));;
  upto 52 (fun i => fd ← open_ (name2 (chr "a") i) O_RDWR; fail_if (0 <=? fd) "open should fail.");;
  sayln "many creates, followed by unlink; ok".

Definition dirtest : tprog unit :=
  sayln "mkdir test";;
  r ← sys (Mkdir (tpath "dir0")); fail_if (r <? 0) "mkdir";;
  r ← sys (Chdir (tpath "dir0")); fail_if (r <? 0) "chdir dir0";;
  r ← sys (Chdir (tpath "..")); fail_if (r <? 0) "chdir ..";;
  r ← sys (Unlink (tpath "dir0")); fail_if (r <? 0) "unlink dir0";;
  sayln "mkdir test ok".

Definition echoargv : list (list Z) := bytes_of <$> ["echo"; "ALL"; "TESTS"; "PASSED"]%string.
Definition exectest : tprog unit :=
  sayln "exec test";;
  r ← sys (ExecProg (tpath "echo") echoargv); fail_if (r <? 0) "exec echo";;
  sayln "exec test ok".

Definition nullptr : tprog unit :=
  sayln "null pointer test";;
  sayln "expect one killed process";;
  ppid ← sys Getpid;
  pid ← sys Fork;
  (if pid =? 0 then
     ev (StorePtr 0 10);;
     say (bytes_of "can write to unmapped page 0, failed") [];;
     sys_ (Kill ppid);;
     quit
   else sys_ Wait);;
  sayln "null pointer test ok".

(** ** Processes and pipes *)

(** [buf[i] = seq++] for [n] bytes. *)
Definition seq_bytes (seq : Z) (n : nat) : list Z := (fun i => u8 (seq + i)) <$> seqZ 0 (Z.of_nat n).
Fixpoint pipe1_write (k : nat) (fd seq : Z) (buf : list Z) : tprog unit :=
  match k with
  | O => quit
  | S k' =>
      let buf := filled_buf buf (seq_bytes seq 1033) in
      w ← sys (Write fd (take 1033 buf));
      fail_if (negb (w =? 1033)) "pipe1 oops 1";;
      pipe1_write k' fd (seq + 1033) buf
  end.
(** The comparison of the [n] bytes read with the expected ones. *)
Fixpoint pipe1_check (bs : list Z) (seq : Z) : option Z :=
  match bs with
  | [] => Some seq
  | b :: bs' => if negb (Z.land b 255 =? Z.land seq 255) then None else pipe1_check bs' (i32 (seq + 1))
  end.
(** One round of the reader, on [seq], [total], [cc] and [buf]. *)
Definition pipe1_read (fd : Z) (st : Z * Z * Z * list Z) : tprog (Z * Z * Z * list Z + Z * list Z) :=
  let '(seq, total, cc, buf) := st in
  '(n, buf) ← read_buf fd cc buf;
  if 0 <? n then
    match pipe1_check (take (Z.to_nat n) buf) seq with
    | None => failexit "pipe1 oops 2"
    | Some seq =>
        let cc := cc * 2 in
        let cc := if cc >? 8192 then 8192 else cc in
        mret (inl (seq, i32 (total + n), cc, buf))
    end
  else mret (inr (total, buf)).
Definition pipe1 (buf : list Z) : tprog (list Z) :=
  '(r, (rfd, wfd)) ← sys MkPipe;
  fail_if (negb (r =? 0)) "pipe()";;
  pid ← sys Fork;
  buf ← (if pid =? 0 then
      close_ rfd;;
      pipe1_write 5 wfd 0 buf;;
      mret buf
    else if 0 <? pid then
      close_ wfd;;
      '(total, buf) ← ITree.iter (pipe1_read rfd) (0, 0, 1, buf);
      (if negb (total =? 5 * 1033) then say (line "pipe1 oops 3 total %d") [VInt total];; quit else mret tt);;
      close_ rfd;;
      sys_ Wait;;
      mret buf
    else failexit "fork()");
  sayln "pipe1 ok";;
  mret buf.

(** A loop without end. *)
Definition spin {A} : tprog A := ITree.spin.

Definition preempt (buf : list Z) : tprog (list Z) :=
  say (bytes_of "preempt: ") [];;
  pid1 ← sys Fork; (if pid1 =? 0 then spin else mret tt);;
  pid2 ← sys Fork; (if pid2 =? 0 then spin else mret tt);;
  '(_, (rfd, wfd)) ← sys MkPipe;
  pid3 ← sys Fork;
  (if pid3 =? 0 then
     close_ rfd;;
     w ← sys (Write wfd (bytes_of "x"));
     (if negb (w =? 1) then say (bytes_of "preempt write error") [] else mret tt);;
     close_ wfd;;
     spin
   else mret tt);;
  close_ wfd;;
  '(n, buf) ← read_buf rfd 8192 buf;
  if negb (n =? 1) then say (bytes_of "preempt read error") [];; mret buf else
  close_ rfd;;
  say (bytes_of "kill... ") [];;
  sys_ (Kill pid1);;
  sys_ (Kill pid2);;
  sys_ (Kill pid3);;
  say (bytes_of "wait... ") [];;
  sys_ Wait;;
  sys_ Wait;;
  sys_ Wait;;
  sayln "preempt ok";;
  mret buf.

(** The loop of [exitwait]: whether it came to its end. *)
Fixpoint exitwait_loop (k : nat) : tprog bool :=
  match k with
  | O => mret true
  | S k' =>
      pid ← sys Fork;
      if pid <? 0 then say (bytes_of "fork") [];; mret false
      else if negb (pid =? 0) then
        r ← sys Wait;
        if negb (r =? pid) then sayln "wait wrong pid";; mret false else exitwait_loop k'
      else quit
  end.
Definition exitwait : tprog unit :=
  done ← exitwait_loop 100;
  if (done : bool) then sayln "exitwait ok" else mret tt.

(** The two loops of [mem]: allocating a chain of blocks and freeing it. *)
Definition mem_alloc (m1 : Z) : tprog (Z + Z) :=
  m2 ← ev (Malloc 100001);
  if negb (m2 =? 0) then ev (StorePtr m2 m1);; mret (inl m2) else mret (inr m1).
Definition mem_free (m1 : Z) : tprog (Z + unit) :=
  if negb (m1 =? 0) then m2 ← ev (LoadPtr m1); ev (Free m1);; mret (inl m2) else mret (inr tt).
Definition memtest : tprog unit :=
  sayln "mem test";;
  ppid ← sys Getpid;
  pid ← sys Fork;
  if pid =? 0 then
    m1 ← ITree.iter mem_alloc 0;
    sayln "alloc ended";;
    ITree.iter mem_free m1;;
    m1 ← ev (Malloc (1024 * 20));
    (if m1 =? 0 then sayln "couldn't allocate mem?!!";; sys_ (Kill ppid);; quit else mret tt);;
    ev (Free m1);;
    sayln "mem ok";;
    quit
  else sys_ Wait.

(** ** Concurrent use of files *)
Fixpoint sharedfd_write (k : nat) (fd : Z) (buf : list Z) : tprog unit :=
  match k with
  | O => mret tt
  | S k' =>
      w ← sys (Write fd buf);
      if negb (w =? 10) then sayln "fstests: write sharedfd failed" else sharedfd_write k' fd buf
  end.
Definition occurrences (c : Z) (l : list Z) : Z := Z.of_nat (length (filter (fun b => b = c) l)).
(** A round of the reading loop, which looks at the whole of its buffer. *)
Definition sharedfd_read (fd : Z) (st : Z * Z * list Z) : tprog (Z * Z * list Z + Z * Z) :=
  let '(nc, np, buf) := st in
  '(n, buf) ← read_buf fd 10 buf;
  if 0 <? n then mret (inl (nc + occurrences (chr "c") buf, np + occurrences (chr "p") buf, buf))
  else mret (inr (nc, np)).
Definition sharedfd : tprog unit :=
  sayln "sharedfd test";;
  sys_ (Unlink (tpath "sharedfd"));;
  fd ← open_ (tpath "sharedfd") CREATE_RDWR;
  if fd <? 0 then say (bytes_of "fstests: cannot open sharedfd for writing") [] else
  pid ← sys Fork;
  let buf := replicate 10 (if pid =? 0 then chr "c" else chr "p") in
  sharedfd_write 1000 fd buf;;
  (if pid =? 0 then quit else sys_ Wait);;
  close_ fd;;
  fd ← open_ (tpath "sharedfd") 0;
  if fd <? 0 then sayln "fstests: cannot open sharedfd for reading" else
  '(nc, np) ← ITree.iter (sharedfd_read fd) (0, 0, buf);
  close_ fd;;
  sys_ (Unlink (tpath "sharedfd"));;
  if (nc =? 10000) && (np =? 10000) then sayln "sharedfd ok"
  else say (line "sharedfd oops %d %d") [VInt nc; VInt np];; quit.

Definition fourname (i : Z) : list Z := name2 (chr "f") i.
(** The child of [fourfiles] with number [pi]. *)
Definition fourfiles_child {A} (pi : Z) (buf : list Z) : tprog A :=
  fd ← open_ (fourname pi) CREATE_RDWR; fail_if (fd <? 0) "create";;
  let buf := memset_buf buf (chr "0" + pi) 512 in
  upto 12 (fun _ =>
    n ← sys (Write fd (take 500 buf));
    if negb (n =? 500) then say (line "write failed %d") [VInt n];; quit else mret tt);;
  quit.
Definition fourfiles_check (fd i : Z) (st : Z * list Z) : tprog (Z * list Z + Z * list Z) :=
  let '(total, buf) := st in
  '(n, buf) ← read_buf fd 8192 buf;
  if 0 <? n then
    fail_if (negb (forallb (fun b => b =? chr "0" + i) (take (Z.to_nat n) buf))) "wrong char";;
    mret (inl (total + n, buf))
  else mret (inr (total, buf)).
Definition fourfiles_file (i : Z) (buf : list Z) : tprog (list Z) :=
  fd ← open_ (fourname i) 0;
  '(total, buf) ← ITree.iter (fourfiles_check fd i) (0, buf);
  close_ fd;;
  (if negb (total =? 12 * 500) then say (line "wrong length %d") [VInt total];; quit else mret tt);;
  sys_ (Unlink (fourname i));;
  mret buf.
Definition fourfiles (buf : list Z) : tprog (list Z) :=
  sayln "fourfiles test";;
  upto 4 (fun pi =>
    sys_ (Unlink (fourname pi));;
    pid ← sys Fork; fail_if (pid <? 0) "fork";;
    if pid =? 0 then fourfiles_child pi buf else mret tt);;
  upto 4 (fun _ => sys_ Wait);;
  buf ← fourfiles_file 0 buf;
  buf ← fourfiles_file 1 buf;
  sayln "fourfiles ok";;
  mret buf.

Definition createdelete_child {A} (pi : Z) : tprog A :=
  upto 20 (fun i =>
    fd ← open_ (name2 (chr "p" + pi) i) CREATE_RDWR; fail_if (fd <? 0) "create";;
    close_ fd;;
    if (0 <? i) && (Z.rem i 2 =? 0) then
      r ← sys (Unlink (name2 (chr "p" + pi) (i / 2))); fail_if (r <? 0) "unlink"
    else mret tt);;
  quit.
(** Whether [name] exists as it should. *)
Definition createdelete_check (i pi : Z) : tprog unit :=
  let name := name2 (chr "p" + pi) i in
  fd ← open_ name 0;
  (if ((i =? 0) || (20 / 2 <=? i)) && (fd <? 0) then say (line "oops createdelete %s didn't exist") [str name];; quit
   else if ((1 <=? i) && (i <? 20 / 2)) && (0 <=? fd) then say (line "oops createdelete %s did exist") [str name];; quit
   else mret tt);;
  if 0 <=? fd then close_ fd else mret tt.
Definition createdelete : tprog unit :=
  sayln "createdelete test";;
  upto 4 (fun pi =>
    pid ← sys Fork; fail_if (pid <? 0) "fork";;
    if pid =? 0 then createdelete_child pi else mret tt);;
  upto 4 (fun _ => sys_ Wait);;
  upto 20 (fun i => upto 4 (fun pi => createdelete_check i pi));;
  upto 20 (fun i => upto 4 (fun _ => sys_ (Unlink (name2 (chr "p" + i) i))));;
  sayln "createdelete ok".

(** ** Links *)
Definition unlinkread (buf : list Z) : tprog (list Z) :=
  sayln "unlinkread test";;
  fd ← open_ (tpath "unlinkread") CREATE_RDWR; fail_if (fd <? 0) "create unlinkread";;
  sys_ (Write fd (bytes_of "hello"));;
  close_ fd;;
  fd ← open_ (tpath "unlinkread") O_RDWR; fail_if (fd <? 0) "open unlinkread";;
  r ← sys (Unlink (tpath "unlinkread")); fail_if (negb (r =? 0)) "unlink unlinkread";;
  fd1 ← open_ (tpath "unlinkread") CREATE_RDWR;
  sys_ (Write fd1 (bytes_of "yyy"));;
  close_ fd1;;
  '(n, buf) ← read_buf fd 8192 buf;
  fail_if (negb (n =? 5)) "unlinkread read failed";;
  fail_if (negb (byte_at buf 0 =? chr "h")) "unlinkread wrong data";;
  w ← sys (Write fd (take 10 buf)); fail_if (negb (w =? 10)) "unlinkread write";;
  close_ fd;;
  sys_ (Unlink (tpath "unlinkread"));;
  sayln "unlinkread ok";;
  mret buf.

Definition linktest (buf : list Z) : tprog (list Z) :=
  sayln "linktest";;
  sys_ (Unlink (tpath "lf1"));;
  sys_ (Unlink (tpath "lf2"));;
  fd ← open_ (tpath "lf1") CREATE_RDWR; fail_if (fd <? 0) "create lf1";;
  w ← sys (Write fd (bytes_of "hello")); fail_if (negb (w =? 5)) "write lf1";;
  close_ fd;;
  r ← sys (Link (tpath "lf1") (tpath "lf2")); fail_if (r <? 0) "link lf1 lf2";;
  sys_ (Unlink (tpath "lf1"));;
  fd ← open_ (tpath "lf1") 0; fail_if (0 <=? fd) "unlinked lf1 but it is still there!";;
  fd ← open_ (tpath "lf2") 0; fail_if (fd <? 0) "open lf2";;
  '(n, buf) ← read_buf fd 8192 buf; fail_if (negb (n =? 5)) "read lf2";;
  close_ fd;;
  r ← sys (Link (tpath "lf2") (tpath "lf2")); fail_if (0 <=? r) "link lf2 lf2 succeeded! oops";;
  sys_ (Unlink (tpath "lf2"));;
  r ← sys (Link (tpath "lf2") (tpath "lf1")); fail_if (0 <=? r) "link non-existant succeeded! oops";;
  r ← sys (Link (tpath ".") (tpath "lf1")); fail_if (0 <=? r) "link . lf1 succeeded! oops";;
  sayln "linktest ok";;
  mret buf.

(** A [char] is signed. *)
Definition schar (b : Z) : Z := (b + 128) mod 256 - 128.
Definition cname (i : Z) : list Z := name2 (chr "C") i.
(** The first loop of [concreate]: create or link in two processes. *)
Definition concreate_make (i : Z) : tprog unit :=
  let file := cname i in
  sys_ (Unlink file);;
  pid ← sys Fork;
  (if negb (pid =? 0) && (Z.rem i 3 =? 1) then sys_ (Link (tpath "C0") file)
   else if (pid =? 0) && (Z.rem i 5 =? 1) then sys_ (Link (tpath "C0") file)
   else
     fd ← open_ file CREATE_RDWR;
     (if fd <? 0 then say (line "concreate create %s failed") [str file];; quit else mret tt);;
     close_ fd);;
  if pid =? 0 then quit else sys_ Wait.
(** The listing: [de] is the entry read last, [fa] the numbers seen and [n] their count. *)
Definition concreate_list (fd : Z) (st : list Z * list bool * Z) : tprog (list Z * list bool * Z + Z) :=
  let '(de, fa, n) := st in
  '(r, de) ← read_buf fd 16 de;
  if 0 <? r then
    if le_val (take 2 de) =? 0 then mret (inl (de, fa, n))
    else if (byte_at de 2 =? chr "C") && (byte_at de 4 =? 0) then
      let i := schar (byte_at de 3) - chr "0" in
      if (i <? 0) || (i >=? 40) then say (line "concreate weird file %s") [str (cut_nul (drop 2 de))];; quit
      else if nth (Z.to_nat i) fa false then say (line "concreate duplicate file %s") [str (cut_nul (drop 2 de))];; quit
      else mret (inl (de, <[Z.to_nat i := true]> fa, n + 1))
    else mret (inl (de, fa, n))
  else mret (inr n).
(** The last loop: open or unlink in two processes. *)
Definition concreate_use (i : Z) : tprog unit :=
  let file := cname i in
  pid ← sys Fork; fail_if (pid <? 0) "fork";;
  (if ((Z.rem i 3 =? 0) && (pid =? 0)) || ((Z.rem i 3 =? 1) && negb (pid =? 0)) then
     upto 4 (fun _ => fd ← open_ file 0; close_ fd)
   else upto 4 (fun _ => sys_ (Unlink file)));;
  if pid =? 0 then quit else sys_ Wait.
Definition concreate : tprog unit :=
  sayln "concreate test";;
  upto 40 concreate_make;;
  fd ← open_ (tpath ".") 0;
  n ← ITree.iter (concreate_list fd) (replicate 16 0, replicate 40 false, 0);
  close_ fd;;
  fail_if (negb (n =? 40)) "concreate not enough files in directory listing";;
  upto 40 concreate_use;;
  sayln "concreate ok".

(** A pseudo-random sequence of creations, links and removals. *)
Fixpoint linkunlink_loop (k : nat) (x : Z) : tprog unit :=
  match k with
  | O => mret tt
  | S k' =>
      let x := u32 (x * 1103515245 + 12345) in
      (if x mod 3 =? 0 then fd ← open_ (tpath "x") (Z.lor O_RDWR O_CREATE); close_ fd
       else if x mod 3 =? 1 then sys_ (Link (tpath "cat") (tpath "x"))
       else sys_ (Unlink (tpath "x")));;
      linkunlink_loop k' x
  end.
Definition linkunlink : tprog unit :=
  sayln "linkunlink test";;
  sys_ (Unlink (tpath "x"));;
  pid ← sys Fork; fail_if (pid <? 0) "fork";;
  linkunlink_loop 100 (if negb (pid =? 0) then 1 else 97);;
  (if negb (pid =? 0) then sys_ Wait else quit);;
  sayln "linkunlink ok".

Definition bdname (i : Z) : list Z := [chr "x"; u8 (chr "0" + i / 64); u8 (chr "0" + Z.rem i 64)].
Definition bigdir : tprog unit :=
  sayln "bigdir test";;
  sys_ (Unlink (tpath "bd"));;
  fd ← open_ (tpath "bd") O_CREATE; fail_if (fd <? 0) "bigdir create";;
  close_ fd;;
  upto 500 (fun i => r ← sys (Link (tpath "bd") (bdname i)); fail_if (negb (r =? 0)) "bigdir link");;
  sys_ (Unlink (tpath "bd"));;
  upto 500 (fun i => r ← sys (Unlink (bdname i)); fail_if (negb (r =? 0)) "bigdir unlink failed");;
  sayln "bigdir ok".

(** ** Directories *)

(** A call that must succeed, and one that must fail. *)
Definition must (e : sysE Z) (msg : string) : tprog unit := r ← sys e; fail_if (negb (r =? 0)) msg.
Definition must_not (e : sysE Z) (msg : string) : tprog unit := r ← sys e; fail_if (r =? 0) msg.
Definition no_open (path : string) (mode : Z) (msg : string) : tprog unit :=
  fd ← open_ (tpath path) mode; fail_if (0 <=? fd) msg.

(** [subdir], up to and after the change of directory. *)
Definition subdir_make (buf : list Z) : tprog (list Z) :=
  sys_ (Unlink (tpath "ff"));;
  must (Mkdir (tpath "dd")) "subdir mkdir dd";;
  fd ← open_ (tpath "dd/ff") CREATE_RDWR; fail_if (fd <? 0) "create dd/ff";;
  sys_ (Write fd (bytes_of "ff"));;
  close_ fd;;
  r ← sys (Unlink (tpath "dd")); fail_if (0 <=? r) "unlink dd (non-empty dir) succeeded!";;
  must (Mkdir (tpath "/dd/dd")) "subdir mkdir dd/dd";;
  fd ← open_ (tpath "dd/dd/ff") CREATE_RDWR; fail_if (fd <? 0) "create dd/dd/ff";;
  sys_ (Write fd (bytes_of "FF"));;
  close_ fd;;
  fd ← open_ (tpath "dd/dd/../ff") 0; fail_if (fd <? 0) "open dd/dd/../ff";;
  '(cc, buf) ← read_buf fd 8192 buf;
  fail_if (negb (cc =? 2) || negb (byte_at buf 0 =? chr "f")) "dd/dd/../ff wrong content";;
  close_ fd;;
  must (Link (tpath "dd/dd/ff") (tpath "dd/dd/ffff")) "link dd/dd/ff dd/dd/ffff";;
  must (Unlink (tpath "dd/dd/ff")) "unlink dd/dd/ff";;
  no_open "dd/dd/ff" O_RDONLY "open (unlinked) dd/dd/ff succeeded";;
  mret buf.
Definition subdir_walk (buf : list Z) : tprog (list Z) :=
  must (Chdir (tpath "dd")) "chdir dd";;
  must (Chdir (tpath "dd/../../dd")) "chdir dd/../../dd";;
  must (Chdir (tpath "dd/../../../dd")) "chdir dd/../../dd";;
  must (Chdir (tpath "./..")) "chdir ./..";;
  fd ← open_ (tpath "dd/dd/ffff") 0; fail_if (fd <? 0) "open dd/dd/ffff";;
  '(n, buf) ← read_buf fd 8192 buf; fail_if (negb (n =? 2)) "read dd/dd/ffff wrong len";;
  close_ fd;;
  mret buf.
Definition subdir_errors : tprog unit :=
  no_open "dd/dd/ff" O_RDONLY "open (unlinked) dd/dd/ff succeeded";;
  no_open "dd/ff/ff" CREATE_RDWR "create dd/ff/ff succeeded";;
  no_open "dd/xx/ff" CREATE_RDWR "create dd/xx/ff succeeded";;
  no_open "dd" O_CREATE "create dd succeeded";;
  no_open "dd" O_RDWR "open dd rdwr succeeded";;
  no_open "dd" O_WRONLY "open dd wronly succeeded";;
  must_not (Link (tpath "dd/ff/ff") (tpath "dd/dd/xx")) "link dd/ff/ff dd/dd/xx succeeded";;
  must_not (Link (tpath "dd/xx/ff") (tpath "dd/dd/xx")) "link dd/xx/ff dd/dd/xx succeededn";;
  must_not (Link (tpath "dd/ff") (tpath "dd/dd/ffff")) "link dd/ff dd/dd/ffff succeeded";;
  must_not (Mkdir (tpath "dd/ff/ff")) "mkdir dd/ff/ff succeeded";;
  must_not (Mkdir (tpath "dd/xx/ff")) "mkdir dd/xx/ff succeeded";;
  must_not (Mkdir (tpath "dd/dd/ffff")) "mkdir dd/dd/ffff succeeded";;
  must_not (Unlink (tpath "dd/xx/ff")) "unlink dd/xx/ff succeeded";;
  must_not (Unlink (tpath "dd/ff/ff")) "unlink dd/ff/ff succeeded";;
  must_not (Chdir (tpath "dd/ff")) "chdir dd/ff succeeded";;
  must_not (Chdir (tpath "dd/xx")) "chdir dd/xx succeeded".
Definition subdir (buf : list Z) : tprog (list Z) :=
  sayln "subdir test";;
  buf ← subdir_make buf;
  buf ← subdir_walk buf;
  subdir_errors;;
  must (Unlink (tpath "dd/dd/ffff")) "unlink dd/dd/ff";;
  must (Unlink (tpath "dd/ff")) "unlink dd/ff";;
  must_not (Unlink (tpath "dd")) "unlink non-empty dd succeeded";;
  r ← sys (Unlink (tpath "dd/dd")); fail_if (r <? 0) "unlink dd/dd";;
  r ← sys (Unlink (tpath "dd")); fail_if (r <? 0) "unlink dd";;
  sayln "subdir ok";;
  mret buf.

(** ** Long files *)

(** [sz] from 499 below 12 * 512 in steps of 471: twelve rounds. *)
Definition bigwrite_size (sz : Z) (buf : list Z) : tprog unit :=
  fd ← open_ (tpath "bigwrite") CREATE_RDWR; fail_if (fd <? 0) "cannot create bigwrite";;
  upto 2 (fun _ =>
    cc ← sys (Write fd (take (Z.to_nat sz) buf));
    if negb (cc =? sz) then say (line "write(%d) ret %d") [VInt sz; VInt cc];; quit else mret tt);;
  close_ fd;;
  sys_ (Unlink (tpath "bigwrite")).
Definition bigwrite (buf : list Z) : tprog unit :=
  sayln "bigwrite test";;
  sys_ (Unlink (tpath "bigwrite"));;
  for_ 12 499 471 (fun sz => bigwrite_size sz buf);;
  sayln "bigwrite ok".

Fixpoint bigfile_write (k : nat) (i fd : Z) (buf : list Z) : tprog (list Z) :=
  match k with
  | O => mret buf
  | S k' =>
      let buf := memset_buf buf i 600 in
      w ← sys (Write fd (take 600 buf)); fail_if (negb (w =? 600)) "write bigfile";;
      bigfile_write k' (i + 1) fd buf
  end.
Definition bigfile_read (fd : Z) (st : Z * Z * list Z) : tprog (Z * Z * list Z + Z * list Z) :=
  let '(i, total, buf) := st in
  '(cc, buf) ← read_buf fd 300 buf;
  fail_if (cc <? 0) "read bigfile";;
  if cc =? 0 then mret (inr (total, buf)) else
  fail_if (negb (cc =? 300)) "short read bigfile";;
  fail_if (negb (schar (byte_at buf 0) =? i / 2) || negb (schar (byte_at buf 299) =? i / 2)) "read bigfile wrong data";;
  mret (inl (i + 1, total + cc, buf)).
Definition bigfile (buf : list Z) : tprog (list Z) :=
  sayln "bigfile test";;
  sys_ (Unlink (tpath "bigfile"));;
  fd ← open_ (tpath "bigfile") CREATE_RDWR; fail_if (fd <? 0) "cannot create bigfile";;
  buf ← bigfile_write 20 0 fd buf;
  close_ fd;;
  fd ← open_ (tpath "bigfile") 0; fail_if (fd <? 0) "cannot open bigfile";;
  '(total, buf) ← ITree.iter (bigfile_read fd) (0, 0, buf);
  close_ fd;;
  fail_if (negb (total =? 20 * 600)) "read bigfile wrong total";;
  sys_ (Unlink (tpath "bigfile"));;
  sayln "bigfile test ok";;
  mret buf.

Definition fourteen : tprog unit :=
  sayln "fourteen test";;
  must (Mkdir (tpath "12345678901234")) "mkdir 12345678901234";;
  must (Mkdir (tpath "12345678901234/123456789012345")) "mkdir 12345678901234/123456789012345";;
  fd ← open_ (tpath "123456789012345/123456789012345/123456789012345") O_CREATE;
  fail_if (fd <? 0) "create 123456789012345/123456789012345/123456789012345";;
  close_ fd;;
  fd ← open_ (tpath "12345678901234/12345678901234/12345678901234") 0;
  fail_if (fd <? 0) "open 12345678901234/12345678901234/12345678901234";;
  close_ fd;;
  must_not (Mkdir (tpath "12345678901234/12345678901234")) "mkdir 12345678901234/12345678901234 succeeded";;
  must_not (Mkdir (tpath "123456789012345/12345678901234")) "mkdir 12345678901234/123456789012345 succeeded";;
  sayln "fourteen ok".

Definition rmdot : tprog unit :=
  sayln "rmdot test";;
  must (Mkdir (tpath "dots")) "mkdir dots";;
  must (Chdir (tpath "dots")) "chdir dots";;
  must_not (Unlink (tpath ".")) "rm . worked";;
  must_not (Unlink (tpath "..")) "rm .. worked";;
  must (Chdir (tpath "/")) "chdir /";;
  must_not (Unlink (tpath "dots/.")) "unlink dots/. worked";;
  must_not (Unlink (tpath "dots/..")) "unlink dots/.. worked";;
  must (Unlink (tpath "dots")) "unlink dots";;
  sayln "rmdot ok".

Definition dirfile : tprog unit :=
  sayln "dir vs file";;
  fd ← open_ (tpath "dirfile") O_CREATE; fail_if (fd <? 0) "create dirfile";;
  close_ fd;;
  must_not (Chdir (tpath "dirfile")) "chdir dirfile succeeded";;
  no_open "dirfile/xx" 0 "create dirfile/xx succeeded";;
  no_open "dirfile/xx" O_CREATE "create dirfile/xx succeeded";;
  must_not (Mkdir (tpath "dirfile/xx")) "mkdir dirfile/xx succeeded";;
  must_not (Unlink (tpath "dirfile/xx")) "unlink dirfile/xx succeeded";;
  must_not (Link (tpath "README") (tpath "dirfile/xx")) "link to dirfile/xx succeeded";;
  must (Unlink (tpath "dirfile")) "unlink dirfile";;
  no_open "." O_RDWR "open . for writing succeeded";;
  fd ← open_ (tpath ".") 0;
  w ← sys (Write fd (bytes_of "x")); fail_if (0 <? w) "write . succeeded";;
  close_ fd;;
  sayln "dir vs file OK".

Definition iref : tprog unit :=
  sayln "empty file name";;
  upto 51 (fun _ =>
    must (Mkdir (tpath "irefd")) "mkdir irefd";;
    must (Chdir (tpath "irefd")) "chdir irefd";;
    sys_ (Mkdir (tpath ""));;
    sys_ (Link (tpath "README") (tpath ""));;
    fd ← open_ (tpath "") O_CREATE; (if 0 <=? fd then close_ fd else mret tt);;
    fd ← open_ (tpath "xx") O_CREATE; (if 0 <=? fd then close_ fd else mret tt);;
    sys_ (Unlink (tpath "xx")));;
  sys_ (Chdir (tpath "/"));;
  sayln "empty file name OK".

(** ** Processes and memory *)
Fixpoint fork_many (k : nat) (n : Z) : tprog Z :=
  match k with
  | O => mret n
  | S k' =>
      pid ← sys Fork;
      if pid <? 0 then mret n else if pid =? 0 then quit else fork_many k' (n + 1)
  end.
Definition forktest : tprog unit :=
  sayln "fork test";;
  n ← fork_many 1000 0;
  fail_if (n =? 1000) "fork claimed to work 1000 times";;
  upto (Z.to_nat n) (fun _ => r ← sys Wait; fail_if (r <? 0) "wait stopped early");;
  r ← sys Wait; fail_if (negb (r =? -1)) "wait got too many";;
  sayln "fork test OK".

(** [sbrk] returns a pointer. *)
Definition sbrk (n : Z) : tprog Z := r ← sys (Sbrk (u64 n)); mret (u64 r).
Definition BIG : Z := 100 * 1024 * 1024.
Definition MINUS1 : Z := 4294967295.

Fixpoint sbrk_bytes (k : nat) (i a : Z) : tprog Z :=
  match k with
  | O => mret a
  | S k' =>
      b ← sbrk 1;
      (if negb (b =? a) then say (line "sbrk test failed %d %p %p") [VInt i; VInt a; VInt b];; quit else mret tt);;
      ev (StoreByte b 1);;
      sbrk_bytes k' (i + 1) (u64 (b + 1))
  end.
(** Growing by bytes and across [fork]. *)
Definition sbrk_grow : tprog unit :=
  a ← sbrk 0;
  a ← sbrk_bytes 5000 0 a;
  pid ← sys Fork; fail_if (pid <? 0) "sbrk test fork";;
  sbrk 1;;
  c ← sbrk 1;
  fail_if (negb (c =? u64 (a + 1))) "sbrk test failed post-fork";;
  (if pid =? 0 then quit else mret tt);;
  sys_ Wait.
(** Growing to [BIG], giving a page back and taking it again. *)
Definition sbrk_big (oldbrk : Z) : tprog unit :=
  a ← sbrk 0;
  p ← sbrk (u32 (BIG - a));
  fail_if (negb (p =? a)) "sbrk test failed to grow big address space; enough phys mem?";;
  ev (StoreByte (BIG - 1) 99);;
  a ← sbrk 0;
  c ← sbrk (-4096); fail_if (c =? MINUS1) "sbrk could not deallocate";;
  c ← sbrk 0;
  (if negb (c =? u64 (a - 4096)) then
     say (line "sbrk deallocation produced wrong address, a %p c %p") [VInt a; VInt c];; quit else mret tt);;
  a ← sbrk 0;
  c ← sbrk 4096;
  bad ← (if negb (c =? a) then mret true else e ← sbrk 0; mret (negb (e =? u64 (a + 4096))));
  (if (bad : bool) then say (line "sbrk re-allocation failed, a %p c %p") [VInt a; VInt c];; quit else mret tt);;
  b ← ev (LoadByte (BIG - 1)); fail_if (b =? 99) "sbrk de-allocation didn't really deallocate";;
  a ← sbrk 0;
  e ← sbrk 0;
  c ← sbrk (- (e - oldbrk));
  if negb (c =? a) then say (line "sbrk downsize failed, a %p c %p") [VInt a; VInt c];; quit else mret tt.

(** A child that reads kernel memory at [a]. *)
Definition sbrk_kernel (a : Z) : tprog unit :=
  ppid ← sys Getpid;
  pid ← sys Fork; fail_if (pid <? 0) "fork";;
  (if pid =? 0 then
     b ← ev (LoadByte a);
     say (line "oops could read %p = %c") [VInt a; VInt b];;
     sys_ (Kill ppid);;
     quit
   else mret tt);;
  sys_ Wait.
(** Ten children that allocate a lot and wait to be killed; their numbers. *)
Fixpoint sbrk_children (k : nat) (rfd wfd : Z) : tprog (list Z) :=
  match k with
  | O => mret []
  | S k' =>
      pid ← sys Fork;
      (if pid =? 0 then
         b ← sbrk 0;
         ret ← sbrk (BIG - b);
         (if i32 ret <? 0 then sayln "sbrk returned -1 as expected" else mret tt);;
         sys_ (Write wfd (bytes_of "x"));;
         ITree.iter (fun _ : unit => sys_ (Sleep 1000);; mret (inl tt)) tt
       else mret tt);;
      (if negb (pid =? -1) then sys_ (Read rfd 1) else mret tt);;
      pids ← sbrk_children k' rfd wfd;
      mret (pid :: pids)
  end.
Fixpoint kill_all (pids : list Z) : tprog unit :=
  match pids with
  | [] => mret tt
  | pid :: pids' => (if pid =? -1 then mret tt else sys_ (Kill pid);; sys_ Wait);; kill_all pids'
  end.
Definition sbrktest : tprog unit :=
  sayln "sbrk test";;
  oldbrk ← sbrk 0;
  sbrk_grow;;
  sbrk_big oldbrk;;
  sayln "expecting 10 killed processes:";;
  for_ 10 KERNBASE 100000 sbrk_kernel;;
  '(r, (rfd, wfd)) ← sys MkPipe; fail_if (negb (r =? 0)) "pipe()";;
  sayln "expecting failed sbrk()s:";;
  pids ← sbrk_children 10 rfd wfd;
  c ← sbrk 4096;
  kill_all pids;;
  fail_if (c =? MINUS1) "failed sbrk leaked memory";;
  e ← sbrk 0;
  (if e >? oldbrk then e ← sbrk 0; sbrk (- (e - oldbrk));; mret tt else mret tt);;
  sayln "sbrk test OK".

(** ** Arguments of system calls and [exec] *)

(** [p] from 4096 up to 1100 KB: 275 pages. *)
Definition validatetest : tprog unit :=
  sayln "validate test";;
  for_ 275 4096 4096 (fun p =>
    r ← ev (LinkPtr (tpath "nosuchfile") p); fail_if (negb (r =? -1)) "link should not succeed.");;
  sayln "validate ok".

(** [uninit] is the address of the array. *)
Definition bsstest (uninit : Z) : tprog unit :=
  sayln "bss test";;
  upto 10000 (fun i => b ← ev (LoadByte (uninit + i)); fail_if (negb (b =? 0)) "bss test");;
  sayln "bss test ok".

Definition bigarg : list Z := line "bigargs test: failed" ++ replicate 199 (chr " ").
Definition bigargtest : tprog unit :=
  sys_ (Unlink (tpath "bigarg-ok"));;
  pid ← sys Fork;
  (if pid =? 0 then
     sayln "bigarg test";;
     sys_ (ExecProg (tpath "echo") (replicate (Z.to_nat MAXARG - 1) bigarg));;
     sayln "bigarg test ok";;
     fd ← open_ (tpath "bigarg-ok") O_CREATE;
     close_ fd;;
     quit
   else fail_if (pid <? 0) "bigargtest: fork");;
  sys_ Wait;;
  fd ← open_ (tpath "bigarg-ok") 0; fail_if (fd <? 0) "bigarg test";;
  close_ fd;;
  sys_ (Unlink (tpath "bigarg-ok")).

(** The files of [fsfull]; [main] does not call it. *)
Definition fsname (n : Z) : list Z :=
  [chr "f"; u8 (chr "0" + n / 1000); u8 (chr "0" + Z.rem n 1000 / 100); u8 (chr "0" + Z.rem n 100 / 10);
   u8 (chr "0" + Z.rem n 10)].
Definition fsfull_write (fd : Z) (buf : list Z) (total : Z) : tprog (Z + Z) :=
  cc ← sys (Write fd (take 512 buf));
  if cc <? 512 then mret (inr total) else mret (inl (i32 (total + cc))).
Definition fsfull_file (buf : list Z) (nfiles : Z) : tprog (Z + Z) :=
  let name := fsname nfiles in
  say (line "writing %s") [str name];;
  fd ← open_ name CREATE_RDWR;
  if fd <? 0 then say (line "open %s failed") [str name];; mret (inr nfiles) else
  total ← ITree.iter (fsfull_write fd buf) 0;
  say (line "wrote %d bytes") [VInt total];;
  close_ fd;;
  if total =? 0 then mret (inr nfiles) else mret (inl (i32 (nfiles + 1))).
Definition fsfull (buf : list Z) : tprog unit :=
  sayln "fsfull test";;
  nfiles ← ITree.iter (fsfull_file buf) 0;
  for_ (Z.to_nat (nfiles + 1)) nfiles (-1) (fun n => sys_ (Unlink (fsname n)));;
  sayln "fsfull test finished".

(** The clock's ports from user code. *)
Definition uio : tprog unit :=
  sayln "uio test";;
  pid ← sys Fork;
  (if pid =? 0 then
     ev (PortOut 112 9);;
     ev (PortIn 113);;
     sayln "uio test succeeded";;
     quit
   else fail_if (pid <? 0) "fork");;
  sys_ Wait;;
  sayln "uio test done".

Definition argptest : tprog unit :=
  fd ← open_ (tpath "init") O_RDONLY; fail_if (fd <? 0) "open";;
  b ← sbrk 0;
  ev (ReadPtr fd (u64 (b - 1)) (-1));;
  close_ fd;;
  sayln "arg test passed".

(** [randstate] before and after; no test calls it. *)
Definition rand (randstate : Z) : Z * Z :=
  let randstate := u64 (randstate * 1664525 + 1013904223) in
  (u32 randstate, randstate).

(** ** [main] *)
Definition usertests (uninit : Z) : tprog unit :=
  let buf := replicate 8192 0 in
  sayln "usertests starting";;
  fd ← open_ (tpath "usertests.ran") 0;
  fail_if (0 <=? fd) "already ran user tests -- rebuild fs.img";;
  fd ← open_ (tpath "usertests.ran") O_CREATE; close_ fd;;
  argptest;; createdelete;; linkunlink;; concreate;;
  buf ← fourfiles buf;
  sharedfd;;
  bigargtest;; bigwrite buf;; bigargtest;; bsstest uninit;; sbrktest;; validatetest;;
  opentest;;
  buf ← writetest buf;
  buf ← writetest1 buf;
  createtest;;
  openiputtest;; exitiputtest;; iputtest;;
  memtest;;
  buf ← pipe1 buf;
  buf ← preempt buf;
  exitwait;; nullptr;;
  rmdot;; fourteen;;
  buf ← bigfile buf;
  buf ← subdir buf;
  buf ← linktest buf;
  buf ← unlinkread buf;
  dirfile;; iref;; forktest;; bigdir;; uio;;
  exectest;;
  quit.
