(* ===== verification/UsertestsSpec.v ===== *)
(** Two of the tests of [src/usertests.c]: the reader of the pipe test accepts exactly the bytes
    that its writer sends, however the pipe cuts them, and [exec] refuses the arguments of
    [bigargtest]. *)
From Stdlib Require Import ZArith Lia.
From stdpp Require Import base gmap sets strings numbers list.
From ITree Require Import ITree ITreeFacts.
From S2P Require Import Prelude State Ulib Console Kalloc Dir Printf VmSpec VmUser VmFork Exec ExecSpec Uprog Urun Usertests.

Local Open Scope Z_scope.

(** One side of the test: the result of [fork], the bytes that the pipe still delivers before
    its end, how many bytes each [read] may deliver besides the first, the bytes written to
    the pipe, the output. *)
Record side : Type := mk_side {
  sd_pid : Z; sd_data : list Z; sd_lim : list nat; sd_sent : list Z; sd_out : list Z
}.

Definition side_sys {A} (e : sysE A) : side -> itree (haltE side) (side * A) := fun w =>
  match e in sysE A return itree (haltE side) (side * A) with
  | Exit => halt w
  | MkPipe => Ret (w, (0, (3, 4)))
  | Fork | Wait => Ret (w, sd_pid w)
  | Read fd n =>
      let m := Nat.min (Z.to_nat n) (S (default O (head (sd_lim w)))) in
      let bs := take m (sd_data w) in
      Ret (mk_side (sd_pid w) (drop m (sd_data w)) (tail (sd_lim w)) (sd_sent w) (sd_out w),
           (Z.of_nat (length bs), bs))
  | Write fd bs =>
      Ret (if fd =? 1 then mk_side (sd_pid w) (sd_data w) (sd_lim w) (sd_sent w) (sd_out w ++ bs)
           else mk_side (sd_pid w) (sd_data w) (sd_lim w) (sd_sent w ++ bs) (sd_out w), Z.of_nat (length bs))
  | Close _ => Ret (w, 0)
  | Fstat _ => Ret (w, (-1, mk_ustat 0 0 0))
  | Open _ _ | Kill _ | ExecProg _ _ | Mknod _ _ _ | Unlink _ | Link _ _ | Mkdir _ | Chdir _ | Dup _ | Getpid
  | Sbrk _ | Sleep _ | Uptime => Ret (w, -1)
  end.
Definition side_call {A} (e : userE A) : side -> itree (haltE side) (side * A) := fun w =>
  match e in userE A return itree (haltE side) (side * A) with
  | Sys e => side_sys e w
  | LinkPtr _ _ | ReadPtr _ _ _ | Malloc _ => Ret (w, -1)
  | LoadPtr _ | LoadByte _ | PortIn _ => Ret (w, 0)
  | StorePtr _ _ | StoreByte _ _ | Free _ | PortOut _ _ => Ret (w, tt)
  end.
#[global] Instance side_os : OS userE side := @side_call.
#[global] Instance side_exits : Exits side (Sys Exit) := fun w => eq_refl.

(** ** Running the tests' calls *)
Section Calls.
Context {W : Type} {O : OS userE W} {X : Exits W (Sys Exit)}.

Lemma run_sys {A} (e : sysE A) (w : W) r : os_call _ (Sys e) w = Ret r -> run (sys e) w ≈ Ret r.
Proof. apply run_event. Qed.
Lemma run_sys_ {A} (e : sysE A) (w w' : W) a : os_call _ (Sys e) w = Ret (w', a) -> run (sys_ e) w ≈ Ret (w', tt).
Proof. intros E. unfold sys_. erewrite run_bind; [|by apply run_sys]. apply run_ret. Qed.
Lemma run_quit {A} (w : W) : run (A := A) quit w ≈ halt w.
Proof. by apply run_stop. Qed.
End Calls.

Definition told (bs : list Z) (w : side) : side :=
  mk_side (sd_pid w) (sd_data w) (sd_lim w) (sd_sent w) (sd_out w ++ bs).

Lemma run_tput bs w : run (tput 1 bs) w ≈ Ret (told bs w, tt).
Proof.
  revert w. induction bs as [|b bs IH]; intros w; cbn [tput].
  - unfold told. rewrite app_nil_r. destruct w. apply run_ret.
  - erewrite run_bind; [|by eapply run_sys_]. rewrite IH. unfold told. cbn. by rewrite <- app_assoc.
Qed.
Lemma run_say fmt ap w : run (say fmt ap) w ≈ Ret (told (printf fmt ap) w, tt).
Proof. apply run_tput. Qed.

Definition failed (msg : string) : list Z := printf (line "!! FAILED %s") [str (bytes_of msg)].
Lemma run_failexit {A} msg w : run (A := A) (failexit msg) w ≈ halt (told (failed msg) w).
Proof. unfold failexit. erewrite run_bind; [|apply run_say]. apply run_quit. Qed.

(** ** The sequence *)
Lemma seq_bytes_S s n : seq_bytes s (S n) = u8 s :: seq_bytes (s + 1) n.
Proof.
  unfold seq_bytes. rewrite seqZ_cons by lia. rewrite fmap_cons, Z.add_0_r. f_equal.
  replace (Z.pred (Z.of_nat (S n))) with (Z.of_nat n) by lia. rewrite <- (fmap_add_seqZ 1 0), <- list_fmap_compose.
  apply list_fmap_ext. intros i x _. cbn. f_equal. lia.
Qed.
Lemma length_seq_bytes s n : length (seq_bytes s n) = n.
Proof. unfold seq_bytes. rewrite length_fmap, length_seqZ. lia. Qed.
Lemma seq_bytes_app s n m : seq_bytes s (n + m) = seq_bytes s n ++ seq_bytes (s + Z.of_nat n) m.
Proof.
  revert s. induction n as [|n IH]; intros s; [by rewrite Z.add_0_r|].
  cbn [Nat.add]. rewrite !seq_bytes_S, IH. cbn [app]. do 3 f_equal. lia.
Qed.

(** The bytes are the ones that the test expects from [s] on. *)
Definition expected (s : Z) (bs : list Z) : Prop := bs = seq_bytes s (length bs).
#[global] Instance expected_dec s bs : Decision (expected s bs).
Proof. unfold expected. apply _. Defined.

Lemma expected_app s a b : expected s (a ++ b) <-> expected s a /\ expected (s + Z.of_nat (length a)) b.
Proof.
  unfold expected. rewrite length_app, seq_bytes_app. split.
  - intros E. apply app_inj_1 in E; [done|by rewrite length_seq_bytes].
  - intros [Ea Eb]. by f_equal.
Qed.

Lemma pipe1_check_eq bs s : Forall is_byte bs -> 0 <= s -> s + Z.of_nat (length bs) < 2 ^ 31 ->
  pipe1_check bs s = if decide (expected s bs) then Some (s + Z.of_nat (length bs)) else None.
Proof.
  intros Hb. revert s. induction Hb as [|b bs Hb _ IH]; intros s Hs Hl.
  { rewrite decide_True by done. cbn. by rewrite Z.add_0_r. }
  assert (E : expected s (b :: bs) <-> b = u8 s /\ expected (s + 1) bs).
  { unfold expected. cbn [length]. rewrite seq_bytes_S. split; [by intros [= E1 E2]|by intros [-> ->%symmetry]; f_equal]. }
  cbn [pipe1_check length] in *. change 255 with (Z.ones 8). rewrite !Z.land_ones by lia.
  rewrite (Z.mod_small b) by exact Hb. fold (u8 s). destruct (Z.eqb_spec b (u8 s)) as [Eb|Hne]; cbn [negb].
  - rewrite i32_small by lia. rewrite IH by lia. destruct (decide (expected (s + 1) bs)) as [H|H].
    + rewrite decide_True by tauto. f_equal. lia.
    + rewrite decide_False by tauto. done.
  - rewrite decide_False by tauto. done.
Qed.

(** ** The reader *)
Lemma filled_take buf bs : take (length bs) (filled_buf buf bs) = bs.
Proof. unfold filled_buf. by rewrite take_app_length. Qed.

(** One [read]: at the end of the pipe it delivers nothing, before it at least one byte. *)
Lemma run_read_buf cc buf pid data lim sent out : 1 <= cc ->
  let m := Nat.min (Z.to_nat cc) (S (default O (head lim))) in
  run (read_buf 3 cc buf) (mk_side pid data lim sent out) ≈
    Ret (mk_side pid (drop m data) (tail lim) sent out,
         (Z.of_nat (length (take m data)), filled_buf buf (take m data))).
Proof. intros Hcc m. unfold read_buf. erewrite run_bind; [|by apply run_sys]. apply run_ret. Qed.

(** One round of the reader from byte number [total] on: its end, or the bytes [bs]. *)
Lemma pipe1_end total cc buf pid lim sent out : 1 <= cc ->
  exists buf', run (ITree.iter (pipe1_read 3) (total, total, cc, buf)) (mk_side pid [] lim sent out) ≈
    Ret (mk_side pid [] (tail lim) sent out, (total, buf')).
Proof.
  intros Hcc. exists (filled_buf buf []).
  assert (E : run (pipe1_read 3 (total, total, cc, buf)) (mk_side pid [] lim sent out) ≈
    Ret (mk_side pid [] (tail lim) sent out, inr (total, filled_buf buf []))).
  { unfold pipe1_read. cbv beta iota. erewrite run_bind; [|by apply run_read_buf]. rewrite take_nil, drop_nil. apply run_ret. }
  rewrite run_iter. erewrite run_bind; [|exact E]. apply run_ret.
Qed.

Lemma pipe1_round total cc buf pid data lim sent out (m := Nat.min (Z.to_nat cc) (S (default O (head lim)))) (bs := take m data) :
  1 <= cc -> data <> [] -> Forall is_byte data -> 0 <= total -> total + Z.of_nat (length data) < 2 ^ 31 ->
  let w' := mk_side pid (drop m data) (tail lim) sent out in
  let r := run (ITree.iter (pipe1_read 3) (total, total, cc, buf)) (mk_side pid data lim sent out) in
  let next := total + Z.of_nat (length bs) in
  (0 < length bs)%nat /\
  if decide (expected total bs) then
    exists cc' buf', 1 <= cc' /\ r ≈ run (ITree.iter (pipe1_read 3) (next, next, cc', buf')) w'
  else r ≈ halt (told (failed "pipe1 oops 2") w').
Proof.
  intros Hcc Hd Hb Ht Hl w' r next.
  assert (Hbs : (0 < length bs <= length data)%nat).
  { unfold bs, m. rewrite length_take. destruct data; [done|]. cbn [length]. lia. }
  split; [lia|]. assert (Hbb : Forall is_byte bs) by (by apply Forall_take).
  assert (Er : run (pipe1_read 3 (total, total, cc, buf)) (mk_side pid data lim sent out) ≈
    run (match pipe1_check bs total with
         | None => failexit "pipe1 oops 2"
         | Some seq => mret (inl (seq, next, if cc * 2 >? 8192 then 8192 else cc * 2, filled_buf buf bs))
         end) w').
  { unfold pipe1_read. cbv beta iota. erewrite run_bind; [|by apply run_read_buf]. fold m. fold bs. fold w'. cbv beta iota.
    rewrite (proj2 (Z.ltb_lt _ _)) by lia. rewrite Nat2Z.id, filled_take, i32_small by lia. reflexivity. }
  rewrite pipe1_check_eq in Er by (done || lia).
  destruct (decide (expected total bs)).
  - exists (if cc * 2 >? 8192 then 8192 else cc * 2), (filled_buf buf bs). split; [destruct (_ >? _); lia|].
    unfold r. rewrite run_iter. erewrite run_bind; [|rewrite Er; apply run_ret]. reflexivity.
  - unfold r. rewrite run_iter. erewrite run_bind_halt; [reflexivity|]. rewrite Er. apply run_failexit.
Qed.

Lemma pipe1_reads n : forall data total cc lim buf pid sent out, (length data <= n)%nat ->
  Forall is_byte data -> 0 <= total -> total + Z.of_nat (length data) < 2 ^ 31 -> 1 <= cc ->
  let r := run (ITree.iter (pipe1_read 3) (total, total, cc, buf)) (mk_side pid data lim sent out) in
  (expected total data ->
     exists lim' buf', r ≈ Ret (mk_side pid [] lim' sent out, (total + Z.of_nat (length data), buf'))) /\
  (~ expected total data -> exists w, r ≈ halt w /\ sd_out w = out ++ failed "pipe1 oops 2").
Proof.
  induction n as [|n IH]; intros data total cc lim buf pid sent out Hn Hb Ht Hl Hcc; cbv zeta.
  all: destruct (decide (data = [])) as [->|Hd];
    [split; [intros _|by intros []]; destruct (pipe1_end total cc buf pid lim sent out Hcc) as [buf' E];
     exists (tail lim), buf'; rewrite Z.add_0_r; exact E|].
  { destruct data; [done|cbn in Hn; lia]. }
  destruct (pipe1_round total cc buf pid data lim sent out Hcc Hd Hb Ht Hl) as [Hpos Hr].
  set (m := Nat.min _ _) in *. set (bs := take m data) in *.
  assert (Ed : data = bs ++ drop m data) by (symmetry; apply take_drop).
  assert (El : length data = (length bs + length (drop m data))%nat) by (rewrite Ed at 1; apply length_app).
  assert (Hex : expected total data <-> expected total bs /\ expected (total + Z.of_nat (length bs)) (drop m data))
    by (rewrite Ed at 1; apply expected_app).
  destruct (decide (expected total bs)) as [He|He].
  - destruct Hr as (cc' & buf' & Hc' & Hr).
    destruct (IH (drop m data) (total + Z.of_nat (length bs)) cc' (tail lim) buf' pid sent out) as [H1 H2];
      [lia|by apply Forall_drop|lia|lia|done|]. split; intros Hx.
    + destruct H1 as (lim' & buf2 & E); [tauto|]. exists lim', buf2. rewrite Hr, E. rewrite El, Nat2Z.inj_add, Z.add_assoc. reflexivity.
    + destruct H2 as (w & E & Ho); [tauto|]. exists w. split; [by rewrite Hr|done].
  - split; intros Hx; [tauto|]. eexists. split; [exact Hr|done].
Qed.

(** ** The writer *)
Lemma pipe1_writes k s buf pid data lim sent out :
  run (pipe1_write k 4 s buf) (mk_side pid data lim sent out) ≈
    halt (mk_side pid data lim (sent ++ seq_bytes s (1033 * k)) out).
Proof.
  revert s buf sent. induction k as [|k IH]; intros s buf sent; cbn [pipe1_write].
  { rewrite app_nil_r. apply run_quit. }
  assert (Et : take 1033 (filled_buf buf (seq_bytes s 1033)) = seq_bytes s 1033)
    by (rewrite <- (length_seq_bytes s 1033) at 1; apply filled_take).
  rewrite Et. erewrite run_bind; [|by apply run_sys]. rewrite length_seq_bytes.
  change (Z.of_nat 1033 =? 1033) with true. erewrite run_bind; [|apply run_ret].
  cbv [sd_pid sd_data sd_lim sd_sent sd_out]. change (4 =? 1) with false. rewrite IH.
  rewrite Nat.mul_succ_r, Nat.add_comm, seq_bytes_app, <- app_assoc. reflexivity.
Qed.

(** What the writer sends. *)
Definition pipe1_bytes : list Z := seq_bytes 0 (1033 * 5).
Definition start (pid : Z) (data : list Z) (lim : list nat) : side := mk_side pid data lim [] [].

(** The parent's side up to the end of the pipe. *)
Definition pipe1_rest (total : Z) (buf : list Z) : tprog (list Z) :=
  (if negb (total =? 5 * 1033) then say (line "pipe1 oops 3 total %d") [VInt total];; quit else mret tt);;
  close_ 3;;
  sys_ Wait;;
  mret buf.
Lemma pipe1_reader buf pid data lim : 0 < pid ->
  run (pipe1 buf) (start pid data lim) ≈
    run (b ← ('(total, b) ← ITree.iter (pipe1_read 3) (0, 0, 1, buf); pipe1_rest total b); sayln "pipe1 ok";; mret b)
      (start pid data lim).
Proof.
  intros Hp. unfold pipe1. erewrite run_bind; [|by apply run_sys]. cbv beta iota. change (negb (0 =? 0)) with false.
  erewrite run_bind; [|apply run_ret]. erewrite run_bind; [|by apply run_sys].
  change (sd_pid (start pid data lim)) with pid.
  rewrite (proj2 (Z.eqb_neq _ _)), (proj2 (Z.ltb_lt _ _)) by lia.
  unfold mbind, tree_bind. rewrite bind_bind. change (ITree.bind (close_ 4)) with (fun k : unit -> tprog (list Z) => close_ 4 ≫= k).
  cbv beta. erewrite run_bind; [|by eapply run_sys_]. reflexivity.
Qed.

Lemma pipe1_rest_ok total b w :
  run (pipe1_rest total b) w ≈
    if decide (total = 5165) then Ret (w, b) else halt (told (printf (line "pipe1 oops 3 total %d") [VInt total]) w).
Proof.
  unfold pipe1_rest. change (5 * 1033) with 5165. destruct (decide (total = 5165)) as [->|Hne].
  - change (negb (5165 =? 5165)) with false. erewrite run_bind; [|apply run_ret].
    erewrite run_bind; [|by eapply run_sys_]. erewrite run_bind; [|by eapply run_sys_]. apply run_ret.
  - rewrite (proj2 (Z.eqb_neq _ _)) by done. cbn [negb]. erewrite run_bind_halt; [reflexivity|].
    erewrite run_bind; [|apply run_say]. apply run_quit.
Qed.

Lemma oops_3 total : printf (line "pipe1 oops 3 total %d") [VInt total] <> line "pipe1 ok".
Proof. intros E. apply (f_equal (take 9)) in E. lazy in E. discriminate E. Qed.

Lemma pipe1_parent buf pid data lim : 0 < pid -> Forall is_byte data -> Z.of_nat (length data) < 2 ^ 31 ->
  (data = pipe1_bytes -> exists w b, run (pipe1 buf) (start pid data lim) ≈ Ret (w, b) /\ sd_out w = line "pipe1 ok") /\
  (data <> pipe1_bytes -> exists w, run (pipe1 buf) (start pid data lim) ≈ halt w /\ sd_out w <> line "pipe1 ok").
Proof.
  intros Hp Hb Hl. pose proof (pipe1_reader buf pid data lim Hp) as Er.
  destruct (pipe1_reads (length data) data 0 1 lim buf pid [] []) as [Hy Hn]; [lia|done|lia|lia|lia|].
  destruct (decide (expected 0 data)) as [He|He].
  - destruct (Hy He) as (lim' & b & E). assert (Hx : data = pipe1_bytes <-> 0 + Z.of_nat (length data) = 5165).
    { unfold pipe1_bytes. split; [intros ->; by rewrite length_seq_bytes|]. intros Hd. rewrite He. f_equal. lia. }
    pose proof (pipe1_rest_ok (0 + Z.of_nat (length data)) b (mk_side pid [] lim' [] [])) as Es.
    assert (Ec : run ('(total, b) ← ITree.iter (pipe1_read 3) (0, 0, 1, buf); pipe1_rest total b) (start pid data lim) ≈
      run (pipe1_rest (0 + Z.of_nat (length data)) b) (mk_side pid [] lim' [] [])) by exact (run_bind _ _ _ _ _ E).
    rewrite Es in Ec. clear Es.
    split; intros Hd.
    + rewrite decide_True in Ec by tauto. eexists _, _. split.
      * rewrite Er. erewrite run_bind; [|exact Ec].
        erewrite run_bind; [|apply run_say]. apply run_ret.
      * reflexivity.
    + rewrite decide_False in Ec by tauto. eexists. split.
      * rewrite Er. erewrite run_bind_halt; [reflexivity|exact Ec].
      * apply oops_3.
  - split; intros Hd.
    + destruct He. rewrite Hd. unfold expected, pipe1_bytes. by rewrite length_seq_bytes.
    + destruct (Hn He) as (w & E & Ho). exists w. split; [|by rewrite Ho].
      rewrite Er. erewrite run_bind_halt; [reflexivity|]. erewrite run_bind_halt; [reflexivity|exact E].
Qed.

(** C35: The pipe test of the system tests, for every way the pipe may cut the bytes: the
    writer sends the 5165 bytes [pipe1_bytes] and exits, and the reader ends with the message of success if
    what it reads is exactly what the writer sends, and exits with another message if it is
    anything else, be it shorter, longer or different. *)
Theorem pipe1_exact buf data lim pid : 0 < pid -> Forall is_byte data -> Z.of_nat (length data) < 2 ^ 31 ->
  (exists w, run (pipe1 buf) (start 0 [] lim) ≈ halt w /\ sd_sent w = pipe1_bytes /\ sd_out w = []) /\
  (data = pipe1_bytes -> exists w b, run (pipe1 buf) (start pid data lim) ≈ Ret (w, b) /\ sd_out w = line "pipe1 ok") /\
  (data <> pipe1_bytes -> exists w, run (pipe1 buf) (start pid data lim) ≈ halt w /\ sd_out w <> line "pipe1 ok").
Proof.
  intros Hp Hb Hl. split; [|by apply pipe1_parent].
  exists (mk_side 0 [] lim pipe1_bytes []). split; [|split; reflexivity].
  unfold pipe1. erewrite run_bind; [|by apply run_sys]. cbv beta iota. change (negb (0 =? 0)) with false.
  erewrite run_bind; [|apply run_ret]. erewrite run_bind; [|by apply run_sys]. change (sd_pid _ =? 0) with true.
  erewrite run_bind_halt; [reflexivity|]. erewrite run_bind; [|by eapply run_sys_]. cbv iota.
  erewrite run_bind_halt; [reflexivity|]. apply (pipe1_writes 5).
Qed.

Lemma pipe1_exact_witness : exists w b, run (pipe1 []) (start 7 pipe1_bytes [3; 0; 40]%nat) ≈ Ret (w, b) /\
  sd_out w = line "pipe1 ok".
Proof.
  destruct (pipe1_exact [] pipe1_bytes [3; 0; 40]%nat 7) as (_ & H & _).
  - lia.
  - unfold pipe1_bytes, seq_bytes. apply Forall_fmap, Forall_forall. intros i _. unfold compose, u8, is_byte. by apply Z.mod_pos_bound.
  - unfold pipe1_bytes. rewrite length_seq_bytes. lia.
  - exact (H eq_refl).
Defined.

(** ** [bigargtest] *)

Definition bigargs : list (list Z) := replicate (Z.to_nat MAXARG - 1) bigarg.

Lemma bigargs_long : Forall (fun a => Z.of_nat (length a) + 8 <= PGSIZE) bigargs /\ PGSIZE <= args_length bigargs.
Proof. split; [apply Forall_replicate|]; vm_compute; congruence. Qed.

(** What the test is for: [exec] of its arguments fails, and the process that made the call
    goes on in its old image. *)
Lemma bigargs_refused k t d td fl i p path elf sz :
  let lo := PGROUNDUP sz in let top := lo + 2 * PGSIZE in
  two k (p_pgdir p) t d td fl -> foreign t td fl (k_local k) ->
  k_proc k = Some i -> k_ptable k !! i = Some p ->
  PGSIZE <= sz <= 2 ^ 47 -> top <= 2 ^ 47 -> unmapped td lo top ->
  accessible k td PGSIZE lo -> unmapped td 0 PGSIZE -> high_free k d ->
  exists k' fl', exec_stack path bigargs elf d sz k = Ok (-1) k' /\ old_image bigargs lo i p t td fl k k' fl'.
Proof. intros lo top H2 Hfo Hi Hp Hsz Hhi Hun Hacc Hz Hh. destruct bigargs_long. by apply exec_too_long. Qed.
