(* ===== verification/ShMain.v ===== *)
(** The shell's main loop, [src/sh.c]: it reads a line, changes its directory itself or
    forks a process that parses the line ([Sh]) and runs it ([ShRun]). *)
From Stdlib Require Import ZArith Lia.
From stdpp Require Import base gmap sets strings numbers list.
From ITree Require Import ITree.
From S2P Require Import Prelude State Console Dir Printf Sh ShSpec ShRun Uprog.

Local Open Scope Z_scope.

Definition panic {A} (s : list Z) : prog A := uprintf 2 (line "%s") [str s];; exit.
Definition fork1 : prog Z :=
  pid ← call Fork;
  if pid =? -1 then panic (bytes_of "fork") else mret pid.

(** The system calls of a process that runs a command. *)
Fixpoint prog_of (s : script) : prog unit :=
  match s with
  | SExit => exit
  | SPrint msg k => put_bytes 2 msg;; prog_of k
  | SExec argv k => call (ExecProg (default [] (head argv)) argv);; prog_of k
  | SOpen file mode k => r ← call (Open file mode); prog_of (k r)
  | SClose fd k => call (Close fd);; prog_of k
  | SDup fd k => call (Dup fd);; prog_of k
  | SPipe k => '(r, (p0, p1)) ← call MkPipe; prog_of (k (if r <? 0 then None else Some (p0, p1)))
  | SFork child parent => pid ← fork1; if pid =? 0 then prog_of child else prog_of parent
  | SWait k => call Wait;; prog_of k
  end.

(** What [parsecmd] leaves unparsed and complains about. *)
Definition leftovers (buf : list Z) : option (list Z) :=
  match (put O;; parseline buf (parse_fuel buf);; peek buf []) O with
  | Ok _ s => if (s =? length buf)%nat then None else Some (drop s buf)
  | _ => None
  end.

(** [runcmd(parsecmd(buf))]; the parser returns or panics on every line. *)
Definition run_line (buf : list Z) : prog unit :=
  match parsecmd buf O with
  | Ok (c, line) _ => prog_of (runcmd (cmd_map (fun t : token => cut_nul (drop t.1 line)) c))
  | Err (EPanic msg) =>
      match leftovers buf with
      | Some s => uprintf 2 (line "leftovers: %s") [str s]
      | None => mret tt
      end;;
      panic (bytes_of msg)
  | _ => ITree.spin
  end.

(** Until three descriptors are open. *)
Definition sh_open (_ : unit) : prog (unit + unit) :=
  fd ← call (Open (bytes_of "console") O_RDWR);
  if fd <? 0 then mret (inr tt)
  else if 3 <=? fd then call (Close fd);; mret (inr tt)
  else mret (inl tt).

(** One line. *)
Definition sh_body (_ : unit) : prog (unit + unit) :=
  '(r, buf) ← getcmd 100;
  if r <? 0 then mret (inr tt) else
  let buf := cut_nul buf in
  if (ptr buf 0 =? chr "c") && (ptr buf 1 =? chr "d") && (ptr buf 2 =? chr " ") then
    let dir := drop 3 (take (length buf - 1) buf) in
    r ← call (Chdir dir);
    (if r <? 0 then uprintf 2 (line "cannot cd %s") [str dir] else mret tt);;
    mret (inl tt)
  else
    pid ← fork1;
    (if pid =? 0 then run_line buf else mret tt);;
    call Wait;;
    mret (inl tt).

Definition sh_main : prog unit :=
  ITree.iter sh_open tt;;
  ITree.iter sh_body tt;;
  exit.
